(* ===== verification/_CoqProject ===== *)
-Q . S2P
Prelude.v
Packet.v
ConstTime.v
Buffer.v
WPacket.v
WPacketSpec.v
WPacketRun.v
StatemTypes.v
StatemLib.v
StatemClnt.v
StatemSrvr.v
Statem.v
HandshakeRead.v
HandshakeInterop.v
HandshakeInterop13.v
StatemFlow.v
StatemOutcome.v
StatemTerm.v
Quic.v
Framing.v
CbcPad.v
SafeMath.v
OsslTime.v
Stack.v
PQueue.v
RecordTypes.v
RecordRead.v
DtlsRecord.v
DtlsReplay.v
DtlsReader.v
Version.v
VersionNego.v
VersionHello.v
DtlsFrag.v
DtlsFragBits.v
DtlsFragQueue.v
DtlsMessage.v
DtlsDelivery.v
DtlsSend.v
DtlsWrite.v
DtlsExchange.v
DtlsTimer.v
RecLayer.v
DtlsLayer.v
DtlsLayerProps.v
DtlsStack.v
TlsLayer.v
TlsLayerProps.v
TlsStack.v
TlsCrypt.v
TlsRecord.v
TlsReader.v
TlsSeries.v
TlsWriter.v
TlsSender.v
TlsRoundTrip.v
TlsExample.v
