(* ===== verification/Prelude.v ===== *)
(** * A verification development for quictls

    quictls is a fork of OpenSSL with the BoringSSL interface for QUIC.  This
    development is about its TLS handshake: the byte-level reader and writer
    all handshake messages go through, the state machines of client and server,
    the message flow that drives them, the interface over which a QUIC stack
    feeds them, the negotiation of the protocol version, the DTLS message layer
    that cuts messages into fragments, sends them again and reassembles them, and
    the record layers of TLS and DTLS and CBC padding below them; and the stacks
    and the checked arithmetic of libcrypto.

    ** The program and its model

    - Packet.v: the packet reader, [PACKET] of include/internal/packet.h, as
      functions on a cursor into byte memory, with [CRYPTO_memcmp] of
      crypto/cpuid.c and the string helpers of crypto/o_str.c.
    - Buffer.v: growable buffers, [BUF_MEM] of crypto/buffer/buffer.c, over an
      arbitrary allocator (class [Libc], its contract [LibcOk]) and the wrappers
      of crypto/mem.c.
    - WPacket.v: the packet writer, [WPACKET] of crypto/packet.c, into growable
      buffers, caller-supplied buffers, or none (counting).  WPacketSpec.v has
      what it should write, WPacketRun.v the theorems on whole runs.
    - StatemTypes.v: the enumerations of include/internal/statem.h and
      include/openssl/ssl.h.in, constants of the headers, and the records
      [OSSL_STATEM], [S3], [EXT], [SSL_SESSION], [QUIC] and [SSL] with the fields
      the modelled code uses and one setter [set_f] per field assigned.  The
      class [Callees] is the interface to the code the state machines call:
      construction and processing of message bodies, key schedule, record
      layer, timers, callbacks.  [SSL W] has a component [rest : W] for the state
      of that code.  [quiet_callees] is a concrete instance for examples.
    - StatemLib.v: the end of a handshake, [tls_finish_handshake]
      (ssl/statem/statem_lib.c), and [ssl3_renegotiate_check] (ssl/s3_lib.c).
    - StatemClnt.v and StatemSrvr.v: ssl/statem/statem_clnt.c and
      statem_srvr.c: for each side the read and write transitions, the work
      before and after a message, the choice of the constructor, the size limits
      and the dispatch to handlers, in TLS 1.3, earlier versions and DTLS.
    - Statem.v: ssl/statem/statem.c: the queries and updates of the state, the
      reading and writing sub-machines, and [state_machine].
    - Quic.v: ssl/ssl_quic.c and ssl/statem/statem_quic.c: receiving handshake
      data from a QUIC stack, cutting it into messages, reading them, and
      post-handshake processing.
    - Framing.v: messages in records, [tls_get_message_header],
      [tls_get_message_body], [ssl3_do_write] and [tls_close_construct_packet] of
      ssl/statem/statem_lib.c, over an arbitrary record layer and transcript.
    - Version.v: version negotiation: the version tables and bounds, the client's
      range and supported_versions extension, the server's choice, the sentinels
      in the server's random and the client's verdict (ssl/statem/statem_lib.c,
      ssl/methods.c, [ssl_fill_hello_random] of ssl/s3_lib.c and the functions for
      supported_versions of ssl/statem/extensions*.c), with its own record [conn]
      of the connection's fields these use.  VersionNego.v and VersionHello.v
      have the theorems.
    - RecordTypes.v and RecordRead.v: the reading side of a record layer
      (recmethod_local.h and tls_common.c in ssl/record/methods): its state
      [OSSL_RECORD_LAYER], the read buffer, [tls_default_read_n], handing out and
      releasing records.  The transport is a class [BIO] with the contract
      [BIOOk]; [record_functions] are the protocol-specific functions (decryption,
      MAC), the contexts and the allocator.
    - PQueue.v: the queue ordered by sequence number, ssl/pqueue.c.
    - DtlsRecord.v: ssl/record/methods/dtls_meth.c: the replay window, processing
      of a record, buffering of records of the next epoch, [dtls_get_more_records]
      and the creation of the layer.  DtlsReplay.v and DtlsReader.v have the
      theorems.
    - DtlsFrag.v: ssl/statem/statem_dtls.c, receiving: message headers, the bitmask
      of bytes received, the queue of fragments, reassembly, and
      [dtls_get_message].  The state [DTLS1_STATE] is part of the component [rest]
      of the connection ([DTLS R], where [R] is the environment).  The theorems
      are in DtlsFragBits.v (bitmasks), DtlsFragQueue.v (the queue),
      DtlsMessage.v (one round of reading) and DtlsDelivery.v (whole calls).
    - DtlsSend.v: the same file, sending: message headers, the size of datagrams
      (ssl/d1_lib.c), [dtls1_do_write], and the messages kept and sent again.  The
      transport is the class [Dgram].  The theorems are in DtlsWrite.v (fragments
      of one message; the class [Sender] is what the record layer promises) and
      DtlsExchange.v (retransmission, and both sides together).
    - DtlsTimer.v: the retransmission timer, the queues and the commands of
      ssl/d1_lib.c, over a clock (class [Clock]).
    - RecLayer.v: the record layer of a connection, what ssl/record/rec_layer_s3.c
      and rec_layer_d1.c share: the structures of ssl/record/record.h, the
      interpretation of what the methods return, fetching, releasing and
      clearing records.  The methods themselves are the class [RecordMethods];
      the class [Layered] says where the record layer is in the component [rest].
    - DtlsLayer.v: ssl/record/rec_layer_d1.c: [dtls1_read_bytes] with the records
      that are kept for later, [dtls1_write_bytes] and epochs.  The theorems are in
      DtlsLayerProps.v and DtlsStack.v, which puts DtlsFrag.v and DtlsSend.v on
      top of it.
    - TlsLayer.v: ssl/record/rec_layer_s3.c: [ssl3_read_bytes], [ssl3_write_bytes]
      and the limits on early data.  The theorems are in TlsLayerProps.v and in
      TlsStack.v, which puts Framing.v on top of it.
    - TlsCrypt.v: the protection of TLS 1.3 records, [tls13_cipher] of
      ssl/record/methods/tls13_meth.c, and the sequence number.  The cipher
      context is the class [EVP]; the class [AEAD] says what an authenticated
      cipher does behind it.
    - TlsRecord.v: [tls_get_more_records] of ssl/record/methods/tls_common.c in its
      phases (reading headers and bodies, ChangeCipherSpecs that are ignored,
      decryption, MACs, what is done with each record afterwards), with the
      functions for each version it calls there, in tls13_meth.c and in
      tlsany_meth.c, and the layers of TLS 1.3 and without protection as
      [record_functions].  TlsReader.v has the lemmas on one call, TlsSeries.v
      those on many.
    - TlsWriter.v: [tls_write_records] and [tls_retry_write_records] of
      tls_common.c with what they call in tls1_meth.c, tls13_meth.c and
      tlsany_meth.c: write buffers, headers, padding, protection and handing over.
      The state [WRITE_LAYER] has the fields of the record layer writing uses.
      TlsSender.v has the lemmas, and TlsRoundTrip.v puts the two sides together.
      TlsExample.v has a cipher, a transport and layers that meet all contracts.
    - SafeMath.v: include/internal/safe_math.h at every width, and OsslTime.v:
      include/internal/time.h on top of it.
    - ConstTime.v: include/internal/constant_time.h, and CbcPad.v: removal of CBC
      padding and MAC, ssl/record/methods/tls_pad.c.
    - Stack.v: crypto/stack/stack.c with crypto/bsearch.c.

    A C function that updates objects through pointers is a function in the
    state monad [ST S A] below: [Ok] is a successful return with its result,
    [Fail] a return of 0 (the state as the code leaves it), [Fault] undefined
    behaviour such as an access outside an object.  A fall-through case of a C
    [switch] is a definition shared by the cases.  C function pointers are names
    ([confunc_f], [process_f]) that [Callees] interprets.

    ** What is proved

    - Reading bytes (Packet.v): each reader implements the parser of its format,
      consumes exactly what it delivers, changes nothing when it fails and never
      reads outside the object.
    - Growing buffers (Buffer.v) and writing bytes (WPacketRun.v): no store
      leaves a block, whatever the allocator does; a run of writer calls
      produces the serialization of the message described, with all lengths
      filled in, or fails; a vector written is read back unchanged.
    - The languages of the handshake (HandshakeRead.v): the sequences of messages
      each side accepts in each protocol version are exactly those of the
      protocol, so no message can be skipped, repeated or inserted.
    - Interoperation (HandshakeInterop.v, HandshakeInterop13.v): the flights each
      side writes are flights the other side accepts, under agreement on the
      negotiated parameters; a flight always comes to an end.
    - Message flow (StatemFlow.v, StatemOutcome.v): transitions lead only to
      states with a handler or a constructor; success means a finished or paused
      handshake outside of init; a message out of order is fatal for good; the
      nesting counter is restored, with one exception.  StatemFlow.v states what
      the callees are relied on not to touch (class [CalleesKeep]).
    - Termination (StatemTerm.v): of the reading loop, for a peer that has sent
      finitely many messages (class [Drains]), and of the writing loop.
    - QUIC (Quic.v): the stream is cut into messages independently of how it is
      delivered; every queued message is whole and at one encryption level;
      reading delivers it unchanged.
    - Records (Framing.v): however the record layer portions the stream (class
      [StreamReader]) and however often a call has to be repeated, what is read
      is the next message, whole and unchanged, and enters the transcript once;
      a message is written (class [StreamWriter]) byte for byte, once and in
      order.
    - Versions (VersionNego.v, VersionHello.v): undisturbed hellos end in the
      highest version both sides allow, or fail when there is none; a downgrade
      by tampering with the ClientHello is detected by the client; the client's
      range is the lowest block of allowed versions without a gap.
    - The read buffer (RecordRead.v): reading stays within it, and hands over the
      bytes of the transport, none lost, repeated or moved.
    - DTLS records (DtlsReplay.v, DtlsReader.v): the replay window is exact; no
      record is handed out twice, reading accesses no memory outside its buffers
      and ends, for all protocol-specific functions that meet
      [record_functions_ok].
    - DTLS messages received (DtlsDelivery.v): against any peer reading stays
      within its buffers, returns, and keeps its invariant; from a peer that
      sends fragments of its messages, in any order, overlapping and repeated,
      exactly these messages come out, in turn, as soon as they have arrived.
    - DTLS messages sent (DtlsWrite.v, DtlsExchange.v): fragments follow one
      another without gap or overlap however often writing is interrupted; a
      flight that is sent again is the flight that was kept; what one side sends
      the other receives, and both transcripts get the same bytes.
    - The DTLS layers together (DtlsStack.v): [dtls1_read_bytes] meets what the
      message layer relies on when reading (class [RecordSource]), and
      [dtls1_write_bytes] what it relies on when writing ([Sender]), for all
      methods that meet [Feeds] and [Writes]; so a message that one side writes
      is read by the other through all of these layers, also between
      ChangeCipherSpec and Finished, where records of other types are kept.
      DtlsLayerProps.v shows what becomes of the kept records: the one read
      first stays the current one for good.
    - The TLS layers together (TlsStack.v): [ssl3_read_bytes] is a [StreamReader]
      and [ssl3_write_bytes] a [StreamWriter] for all methods that meet their
      contract, so the message one side writes is read by the other however the
      records are cut.  TlsLayerProps.v has runs in which the code does not do
      what it should: data that is only peeked at is lost, early data is counted
      twice, data is written twice.
    - TLS 1.3 records (TlsCrypt.v, TlsSeries.v, TlsRoundTrip.v): no nonce is used
      twice; against any transport reading stays within its buffers and hands
      out only records that are protected with the key, each under the sequence
      number that is due, so none is forged, repeated, left out or moved; and
      what a writing layer sends, with any padding, in any portions (classes
      [Sink] and [Stream]), a reading layer with the same key hands out.
      TlsExample.v also shows what the layer sends when plaintext alerts are
      allowed.
    - Timers (DtlsTimer.v): a timer runs out when it should, durations double, and
      a flight is sent again at most twelve times.
    - Checked arithmetic (SafeMath.v, OsslTime.v): overflow is reported exactly
      when it happens, with one exception in the portable variant; results are
      values of their type; times saturate.
    - Constant time (ConstTime.v, CbcPad.v): the branch-free functions compute what
      plain definitions do.
    - Queues and stacks (PQueue.v, Stack.v): the queue is a finite map ordered by
      sequence number; a stack behaves like a list until memory or the range of
      an [int] is exhausted, for every allocator ([PtrAllocOk]), comparison
      ([CmpOk]) and sorting routine ([QsortOk]) that meet their contracts;
      searching finds the first match and counts all.

    ** Conventions, bounds and fuel

    Integers are [Z]; [size_t] is 64 bits wide and wraps ([wrap64]) where the
    code can overflow.  Bytes are [Z] between 0 and 255 ([is_byte]).  The unbounded
    loops of ssl/statem/statem.c run on fuel and report running out as [None];
    StatemTerm.v shows how much is enough.  The message-splitting loop of Quic.v
    has one unit of fuel per byte and never runs out.  In Framing.v four rounds
    read a header, as every round reads a byte, and a body has one unit of fuel
    per byte; the fuel of [tls_get_message_header] bounds the HelloRequests
    skipped, and a quarter of the length of the stream is enough.
    [dtls_get_more_records] runs on fuel, and for every state there is enough.
    [dtls_get_message] needs one unit per byte and record to come,
    [dtls1_do_write] one per byte of the message and one for the end;
    [dtls1_read_bytes] needs one unit per record to come and one more, and has
    separate fuel for retransmissions; [ssl3_read_bytes] needs one unit per record
    to come and one more, [ssl3_write_bytes] one per byte.  [tls_read_record] asks
    [tls_get_more_records] again only after a ChangeCipherSpec that is ignored, of
    which 32 in a row are the most, so 34 rounds ([read_fuel]) are enough; the
    loop of [tls_retry_write_records] has one unit per byte to hand over.  The
    loop of
    [tls_default_read_n] has one unit per byte wanted and one for the change of
    transport, that of the version candidates one per byte.  The other loops of
    the code are structural recursions.

    The build configuration modelled has certificate compression, PSK and the
    BoringSSL QUIC interface compiled in; for versions every configuration is
    covered (class [Build]).  Constants that are macros of the headers are
    definitions or, where no proof looks inside, abbreviations.

    ** What is not modelled

    The error queue ([ERR_raise]) and statistics counters have no effect on the
    state modelled.  The callback with which the test harness changes outgoing
    messages is taken to be unset.  Message bodies, extensions, key schedule,
    session cache and certificates are behind [Callees], and so is the record
    layer there.  The methods of a record layer are an interface to RecLayer.v,
    which DtlsRecord.v and TlsRecord.v are not yet instances of; choosing the
    methods is left out.  Of DTLS, creating and clearing the state, cookies,
    [DTLSv1_listen] and writing records are left out.  Of the TLS record layer,
    the ciphers and MACs of SSL 3.0 to TLS 1.2 are parameters of the functions
    that call them, and the installation of keys, multi-block writes and kernel
    TLS are left out; of version negotiation, the processing of the other parts
    of the hellos.  Of
    ssl/ssl_quic.c, [quic_set_encryption_secrets] and the setter for [SSL_CTX] are
    left out.
    Cryptographic primitives, ASN.1 and the programs under apps are not part of
    this development. *)

From stdpp Require Import prelude.
From Stdlib Require Import ZArith Lia.

Local Open Scope Z_scope.

(** ** Machine integers

    The targets modelled are LP64: [size_t] and [uint64_t] are 64 bits wide,
    [int] is 32 bits wide. *)

Definition SIZE_MAX : Z := 18446744073709551615.
Definition INT_MAX : Z := 2147483647.

(** Reduction of an arithmetic result to the width of [size_t]. *)
Definition wrap64 (z : Z) : Z := z `mod` 18446744073709551616.

Lemma wrap64_small z : 0 <= z <= SIZE_MAX -> wrap64 z = z.
Proof. intros H. unfold wrap64, SIZE_MAX in *. apply Z.mod_small. lia. Qed.

(** A C condition on a bit mask: [flags & mask] is non-zero. *)
Definition has (flags mask : Z) : bool := negb (Z.land flags mask =? 0).

Lemma has_lor f a b : has f (Z.lor a b) = has f a || has f b.
Proof.
  unfold has. rewrite Z.land_lor_distr_r.
  destruct (Z.land f a =? 0) eqn:Ha, (Z.land f b =? 0) eqn:Hb;
    rewrite ?Z.eqb_eq, ?Z.eqb_neq in *; simpl.
  - rewrite Ha, Hb. reflexivity.
  - rewrite Ha, Z.lor_0_l. apply Z.eqb_neq in Hb. by rewrite Hb.
  - rewrite Hb, Z.lor_0_r. apply Z.eqb_neq in Ha. by rewrite Ha.
  - destruct (Z.lor (Z.land f a) (Z.land f b) =? 0) eqn:Hab; [|done].
    apply Z.eqb_eq, Z.lor_eq_0_iff in Hab. tauto.
Qed.

(** ** Bytes *)

Definition is_byte (b : Z) : Prop := 0 <= b < 256.

(** Big-endian value of a byte string, and its inverse at a given width. *)
Definition be_step (acc b : Z) : Z := acc * 256 + b.
Definition be_val (bs : list Z) : Z := fold_left be_step bs 0.

Fixpoint be_bytes (n : nat) (v : Z) : list Z :=
  match n with
  | O => []
  | S m => be_bytes m (v / 256) ++ [v `mod` 256]
  end.

Lemma be_val_app l1 l2 acc :
  fold_left be_step (l1 ++ l2) acc = fold_left be_step l2 (fold_left be_step l1 acc).
Proof. apply fold_left_app. Qed.

Lemma be_val_snoc l b : be_val (l ++ [b]) = be_val l * 256 + b.
Proof. unfold be_val. by rewrite be_val_app. Qed.

Lemma length_be_bytes n v : length (be_bytes n v) = n.
Proof.
  revert v; induction n as [|n IH]; intros v; [done|].
  simpl. rewrite length_app, IH. simpl. lia.
Qed.

Lemma be_bytes_is_byte n v : Forall is_byte (be_bytes n v).
Proof.
  revert v; induction n as [|n IH]; intros v; simpl; [constructor|].
  apply Forall_app; split; [apply IH|]. constructor; [|constructor].
  unfold is_byte. pose proof (Z.mod_pos_bound v 256). lia.
Qed.

Lemma be_val_bytes n v : be_val (be_bytes n v) = v `mod` 256 ^ Z.of_nat n.
Proof.
  revert v; induction n as [|n IH]; intros v.
  { simpl. by rewrite Z.mod_1_r. }
  simpl be_bytes. rewrite be_val_snoc, IH.
  rewrite Nat2Z.inj_succ, Z.pow_succ_r by lia.
  rewrite Z.rem_mul_r by lia. lia.
Qed.

Lemma be_val_bytes_small n v :
  0 <= v < 256 ^ Z.of_nat n -> be_val (be_bytes n v) = v.
Proof. intros H. rewrite be_val_bytes. by apply Z.mod_small. Qed.

Lemma be_val_range bs : Forall is_byte bs -> 0 <= be_val bs < 256 ^ Z.of_nat (length bs).
Proof.
  induction bs as [|b bs IH] using rev_ind; intros Hb; [done|].
  apply Forall_app in Hb as [H1 H2]. apply Forall_cons in H2 as [H2 _].
  specialize (IH H1). unfold is_byte in H2.
  rewrite be_val_snoc, length_app. simpl length.
  rewrite Nat.add_1_r, Nat2Z.inj_succ, Z.pow_succ_r by lia. lia.
Qed.

Lemma be_bytes_val bs : Forall is_byte bs -> be_bytes (length bs) (be_val bs) = bs.
Proof.
  induction bs as [|b bs IH] using rev_ind; intros Hb; [done|].
  apply Forall_app in Hb as [H1 H2]. apply Forall_cons in H2 as [H2 _].
  unfold is_byte in H2.
  rewrite length_app, Nat.add_1_r, be_val_snoc. simpl be_bytes.
  rewrite Z.div_add_l, Z.div_small, Z.add_0_r by lia.
  rewrite IH by done. f_equal. f_equal.
  rewrite Z.add_comm, Z_mod_plus_full. by apply Z.mod_small.
Qed.

(** The C idiom [acc << 8 | b] is one Horner step when [b] is a byte. *)
Lemma lor_shiftl_add a b n :
  0 <= n -> 0 <= b < 2 ^ n -> Z.lor (Z.shiftl a n) b = a * 2 ^ n + b.
Proof.
  intros Hn Hb. rewrite Z.shiftl_mul_pow2 by lia.
  rewrite <- Z.add_lor_land.
  assert (Z.land (a * 2 ^ n) b = 0) as ->; [|by rewrite Z.add_0_r].
  apply Z.bits_inj'. intros i Hi. rewrite Z.land_spec, Z.bits_0.
  destruct (decide (i < n)).
  - rewrite Z.mul_pow2_bits_low by lia. done.
  - destruct (decide (b = 0)) as [->|]; [by rewrite Z.bits_0, andb_false_r|].
    rewrite (Z.bits_above_log2 b i); [apply andb_false_r|lia|].
    apply Z.log2_lt_pow2; [lia|].
    eapply Z.lt_le_trans; [apply Hb|]. apply Z.pow_le_mono_r; lia.
Qed.

(** ** Byte memory

    Objects are byte lists; an access outside the object is [None], the
    model's name for undefined behaviour. *)

Definition mem_get (m : list Z) (i : Z) : option Z :=
  if i <? 0 then None else m !! Z.to_nat i.

Definition mem_read (m : list Z) (off len : Z) : option (list Z) :=
  if (0 <=? off) && (0 <=? len) && (off + len <=? Z.of_nat (length m))
  then Some (take (Z.to_nat len) (drop (Z.to_nat off) m)) else None.

Definition mem_write (m : list Z) (off : Z) (bs : list Z) : option (list Z) :=
  if (0 <=? off) && (off + Z.of_nat (length bs) <=? Z.of_nat (length m))
  then Some (take (Z.to_nat off) m ++ bs ++ drop (Z.to_nat off + length bs) m) else None.

Lemma length_mem_write m off bs m' :
  mem_write m off bs = Some m' -> length m' = length m.
Proof.
  unfold mem_write. case_match eqn:E; [|done]. intros [= <-].
  apply andb_true_iff in E as [E1 E2]. 
  rewrite !length_app, length_take, length_drop. lia.
Qed.

Lemma mem_write_Some m off bs :
  0 <= off -> off + Z.of_nat (length bs) <= Z.of_nat (length m) ->
  mem_write m off bs
  = Some (take (Z.to_nat off) m ++ bs ++ drop (Z.to_nat off + length bs) m).
Proof. intros H1 H2. unfold mem_write. by rewrite !(proj2 (Z.leb_le _ _)) by lia. Qed.

(** ** Outcomes and the state-and-failure monad

    A C function that returns [1] with its out-parameters set is [Ok], one
    that returns [0] is [Fail]; [Fault] is undefined behaviour.  Functions
    that update an object through a pointer thread it as a state, which is
    kept on failure: what a failing call leaves behind is observable. *)

Inductive ret (A : Type) : Type :=
| Ok (a : A)
| Fail
| Fault.
Arguments Ok {A} a.
Arguments Fail {A}.
Arguments Fault {A}.

Definition ST (S A : Type) : Type := S -> ret A * S.

Definition st_ret {S A} (a : A) : ST S A := fun s => (Ok a, s).
Definition st_fail {S A} : ST S A := fun s => (Fail, s).
Definition st_fault {S A} : ST S A := fun s => (Fault, s).

Definition st_bind {S A B} (m : ST S A) (f : A -> ST S B) : ST S B := fun s =>
  match m s with
  | (Ok a, s') => f a s'
  | (Fail, s') => (Fail, s')
  | (Fault, s') => (Fault, s')
  end.

Definition st_get {S A} (f : S -> A) : ST S A := fun s => (Ok (f s), s).
Definition st_put {S} (f : S -> S) : ST S unit := fun s => (Ok tt, f s).
Definition st_guard {S} (b : S -> bool) : ST S unit := fun s =>
  if b s then (Ok tt, s) else (Fail, s).

Declare Scope st_scope.
Delimit Scope st_scope with st.
Notation "x <~ m ;; k" := (st_bind m (fun x => k))
  (at level 100, m at next level, right associativity) : st_scope.
Notation "m ;;; k" := (st_bind m (fun _ => k))
  (at level 100, right associativity) : st_scope.

Lemma st_bind_ok {S A B} (m : ST S A) (f : A -> ST S B) s a s' :
  m s = (Ok a, s') -> st_bind m f s = f a s'.
Proof. intros H. unfold st_bind. by rewrite H. Qed.

Lemma st_bind_fail {S A B} (m : ST S A) (f : A -> ST S B) s s' :
  m s = (Fail, s') -> st_bind m f s = (Fail, s').
Proof. intros H. unfold st_bind. by rewrite H. Qed.

(** ** Automation *)

Create HintDb qtls.

(** Turn boolean comparisons on [Z] in the context into propositions. *)
Ltac zbool :=
  repeat match goal with
  | H : (_ && _) = true |- _ => apply andb_true_iff in H as [? ?]
  | H : (_ || _) = false |- _ => apply orb_false_iff in H as [? ?]
  | H : negb _ = true |- _ => apply negb_true_iff in H
  | H : negb _ = false |- _ => apply negb_false_iff in H
  | H : (_ =? _) = true |- _ => apply Z.eqb_eq in H
  | H : (_ =? _) = false |- _ => apply Z.eqb_neq in H
  | H : (_ <=? _) = true |- _ => apply Z.leb_le in H
  | H : (_ <=? _) = false |- _ => apply Z.leb_gt in H
  | H : (_ <? _) = true |- _ => apply Z.ltb_lt in H
  | H : (_ <? _) = false |- _ => apply Z.ltb_ge in H
  end.

(** Case on every [if] and [match] of the goal. *)
Ltac cases := repeat (case_match; simplify_eq/=).
