(* ===== verification/Packet.v ===== *)
(** * The packet reader

    [PACKET] of include/internal/packet.h: a cursor over a read-only buffer.
    Each inline function is a state-passing definition over the cursor; an
    out-of-bounds access is [Fault].  Module [Parser] is the abstract contract
    (a parser on byte strings); the theorems at the end show that the cursor
    functions implement it, never fault, and leave the cursor alone when they
    fail. *)

From stdpp Require Import prelude.
From Stdlib Require Import ZArith Lia.
From S2P Require Import Prelude.

Local Open Scope Z_scope.
Local Open Scope st_scope.

(** ** Pointers into a constant buffer *)

Inductive ptr : Type :=
| Null
| Ptr (buf : list Z) (off : Z).

Definition ptr_add (p : ptr) (n : Z) : ptr :=
  match p with Null => Null | Ptr b o => Ptr b (o + n) end.

Definition ptr_get (p : ptr) (i : Z) : option Z :=
  match p with Null => None | Ptr b o => mem_get b (o + i) end.

(** The source operand of [memcpy(_, p, len)]; a null pointer is accepted for
    an empty copy only. *)
Definition ptr_read (p : ptr) (len : Z) : option (list Z) :=
  match p with
  | Null => if len =? 0 then Some [] else None
  | Ptr b o => mem_read b o len
  end.

(** ** The cursor *)

Record PACKET : Type := mkPACKET { curr : ptr; remaining : Z }.

Definition packet_forward (len : Z) : ST PACKET unit :=
  st_put (fun pkt => mkPACKET (ptr_add (curr pkt) len) (wrap64 (remaining pkt - len))).

Definition PACKET_remaining (pkt : PACKET) : Z := remaining pkt.
Definition PACKET_end (pkt : PACKET) : ptr := ptr_add (curr pkt) (remaining pkt).
Definition PACKET_data (pkt : PACKET) : ptr := curr pkt.

Definition PACKET_buf_init (buf : ptr) (len : Z) : ret PACKET :=
  if SIZE_MAX / 2 <? len then Fail else Ok (mkPACKET buf len).

Definition PACKET_null_init : PACKET := mkPACKET Null 0.

(** [CRYPTO_memcmp]: accumulates the differences without an early exit. *)
Fixpoint memcmp_loop (a b : list Z) (x : Z) : Z :=
  match a, b with
  | p :: a', q :: b' => memcmp_loop a' b' (Z.lor x (Z.lxor p q))
  | _, _ => x
  end.

Definition CRYPTO_memcmp (a b : list Z) : Z := memcmp_loop a b 0.

Definition PACKET_equal (pkt : PACKET) (p : list Z) : ret bool :=
  if negb (PACKET_remaining pkt =? Z.of_nat (length p)) then Ok false
  else match ptr_read (curr pkt) (Z.of_nat (length p)) with
       | Some bs => Ok (CRYPTO_memcmp bs p =? 0)
       | None => Fault
       end.

(** [*(pkt->curr + i)] *)
Definition load (i : Z) : ST PACKET Z := fun pkt =>
  match ptr_get (curr pkt) i with Some b => (Ok b, pkt) | None => (Fault, pkt) end.

(** The guard [if (PACKET_remaining(pkt) < n) return 0;] *)
Definition need (n : Z) : ST PACKET unit := st_guard (fun pkt => negb (PACKET_remaining pkt <? n)).

Definition PACKET_peek_sub_packet (len : Z) : ST PACKET PACKET :=
  need len ;;; fun pkt => (PACKET_buf_init (curr pkt) len, pkt).

Definition PACKET_get_sub_packet (len : Z) : ST PACKET PACKET :=
  sub <~ PACKET_peek_sub_packet len ;; packet_forward len ;;; st_ret sub.

Definition PACKET_peek_net_2 : ST PACKET Z :=
  need 2 ;;;
  b0 <~ load 0 ;; b1 <~ load 1 ;;
  st_ret (Z.lor (Z.shiftl b0 8) b1).

Definition PACKET_get_net_2 : ST PACKET Z :=
  d <~ PACKET_peek_net_2 ;; packet_forward 2 ;;; st_ret d.

Definition PACKET_get_net_2_len : ST PACKET Z := PACKET_get_net_2.

Definition PACKET_peek_net_3 : ST PACKET Z :=
  need 3 ;;;
  b0 <~ load 0 ;; b1 <~ load 1 ;; b2 <~ load 2 ;;
  st_ret (Z.lor (Z.lor (Z.shiftl b0 16) (Z.shiftl b1 8)) b2).

Definition PACKET_get_net_3 : ST PACKET Z :=
  d <~ PACKET_peek_net_3 ;; packet_forward 3 ;;; st_ret d.

Definition PACKET_get_net_3_len : ST PACKET Z := PACKET_get_net_3.

Definition PACKET_peek_net_4 : ST PACKET Z :=
  need 4 ;;;
  b0 <~ load 0 ;; b1 <~ load 1 ;; b2 <~ load 2 ;; b3 <~ load 3 ;;
  st_ret (Z.lor (Z.lor (Z.lor (Z.shiftl b0 24) (Z.shiftl b1 16)) (Z.shiftl b2 8)) b3).

Definition PACKET_peek_net_8 : ST PACKET Z :=
  need 8 ;;;
  b0 <~ load 0 ;; b1 <~ load 1 ;; b2 <~ load 2 ;; b3 <~ load 3 ;;
  b4 <~ load 4 ;; b5 <~ load 5 ;; b6 <~ load 6 ;; b7 <~ load 7 ;;
  st_ret (Z.lor (Z.lor (Z.lor (Z.lor (Z.lor (Z.lor (Z.lor
            (Z.shiftl b0 56) (Z.shiftl b1 48)) (Z.shiftl b2 40)) (Z.shiftl b3 32))
            (Z.shiftl b4 24)) (Z.shiftl b5 16)) (Z.shiftl b6 8)) b7).

Definition PACKET_get_net_4 : ST PACKET Z :=
  d <~ PACKET_peek_net_4 ;; packet_forward 4 ;;; st_ret d.

Definition PACKET_get_net_4_len : ST PACKET Z := PACKET_get_net_4.

Definition PACKET_get_net_8 : ST PACKET Z :=
  d <~ PACKET_peek_net_8 ;; packet_forward 8 ;;; st_ret d.

Definition PACKET_peek_1 : ST PACKET Z :=
  st_guard (fun pkt => negb (PACKET_remaining pkt =? 0)) ;;; load 0.

Definition PACKET_get_1 : ST PACKET Z :=
  d <~ PACKET_peek_1 ;; packet_forward 1 ;;; st_ret d.

Definition PACKET_get_1_len : ST PACKET Z := PACKET_get_1.

Definition PACKET_peek_4 : ST PACKET Z :=
  need 4 ;;;
  b0 <~ load 0 ;; b1 <~ load 1 ;; b2 <~ load 2 ;; b3 <~ load 3 ;;
  st_ret (Z.lor (Z.lor (Z.lor b0 (Z.shiftl b1 8)) (Z.shiftl b2 16)) (Z.shiftl b3 24)).

Definition PACKET_get_4 : ST PACKET Z :=
  d <~ PACKET_peek_4 ;; packet_forward 4 ;;; st_ret d.

Definition PACKET_peek_bytes (len : Z) : ST PACKET ptr :=
  need len ;;; st_get curr.

Definition PACKET_get_bytes (len : Z) : ST PACKET ptr :=
  data <~ PACKET_peek_bytes len ;; packet_forward len ;;; st_ret data.

Definition PACKET_peek_copy_bytes (len : Z) : ST PACKET (list Z) :=
  need len ;;; fun pkt =>
  match ptr_read (curr pkt) len with Some bs => (Ok bs, pkt) | None => (Fault, pkt) end.

Definition PACKET_copy_bytes (len : Z) : ST PACKET (list Z) :=
  data <~ PACKET_peek_copy_bytes len ;; packet_forward len ;;; st_ret data.

(** Returns the bytes stored at the start of [dest] ([*len] is their number);
    on failure [*len] is [0]. *)
Definition PACKET_copy_all (dest_len : Z) (pkt : PACKET) : ret (list Z) :=
  if dest_len <? PACKET_remaining pkt then Fail
  else match ptr_read (curr pkt) (remaining pkt) with
       | Some bs => Ok bs
       | None => Fault
       end.

Fixpoint strnlen_loop (p : ptr) (i : Z) (maxlen : nat) : option Z :=
  match maxlen with
  | O => Some i
  | S m => match ptr_get p i with
           | None => None
           | Some c => if c =? 0 then Some i else strnlen_loop p (i + 1) m
           end
  end.

Definition OPENSSL_strnlen (p : ptr) (maxlen : Z) : option Z :=
  strnlen_loop p 0 (Z.to_nat maxlen).

(** Copies into freshly allocated memory.  Whether the C library's [malloc]
    delivers a block of a given size is a parameter. *)
Section Duplicate.
Context (malloc_ok : Z -> bool).

Definition OPENSSL_memdup (data : ptr) (siz : Z) : ret (option (list Z)) :=
  match data with
  | Null => Ok None
  | Ptr _ _ =>
      if INT_MAX <=? siz then Ok None
      else if negb (malloc_ok siz) then Ok None
      else match ptr_read data siz with Some bs => Ok (Some bs) | None => Fault end
  end.

(** Result: the new [*data] ([None] is the null pointer), [*len], and the
    return value. *)
Definition PACKET_memdup (pkt : PACKET) : ret (option (list Z) * Z * bool) :=
  let length := PACKET_remaining pkt in
  if length =? 0 then Ok (None, 0, true)
  else match OPENSSL_memdup (curr pkt) length with
       | Ok None => Ok (None, 0, false)
       | Ok (Some d) => Ok (Some d, length, true)
       | Fail => Fail
       | Fault => Fault
       end.

Definition OPENSSL_strndup (str : ptr) (s : Z) : ret (option (list Z)) :=
  match str with
  | Null => Ok None
  | Ptr _ _ =>
      match OPENSSL_strnlen str s with
      | None => Fault
      | Some maxlen =>
          if negb (malloc_ok (maxlen + 1)) then Ok None
          else match ptr_read str maxlen with
               | Some bs => Ok (Some (bs ++ [0]))
               | None => Fault
               end
      end
  end.

(** Result: the new [*data]; the C function returns whether it is non-null. *)
Definition PACKET_strndup (pkt : PACKET) : ret (option (list Z)) :=
  OPENSSL_strndup (curr pkt) (PACKET_remaining pkt).
End Duplicate.

Definition PACKET_contains_zero_byte (pkt : PACKET) : ret bool :=
  match ptr_read (curr pkt) (remaining pkt) with
  | Some bs => Ok (existsb (fun b => b =? 0) bs)
  | None => Fault
  end.

Definition PACKET_forward (len : Z) : ST PACKET unit := need len ;;; packet_forward len.

(** [PACKET tmp = *pkt; if (!m(&tmp)) return 0; *pkt = tmp;] *)
Definition on_copy {A} (m : ST PACKET A) : ST PACKET A := fun pkt =>
  match m pkt with
  | (Ok a, tmp) => (Ok a, tmp)
  | (Fail, _) => (Fail, pkt)
  | (Fault, _) => (Fault, pkt)
  end.

Definition PACKET_get_length_prefixed_1 : ST PACKET PACKET :=
  on_copy (length <~ PACKET_get_1 ;; data <~ PACKET_get_bytes length ;;
           st_ret (mkPACKET data length)).

Definition PACKET_as_length_prefixed_1 : ST PACKET PACKET :=
  on_copy (length <~ PACKET_get_1 ;; data <~ PACKET_get_bytes length ;;
           st_guard (fun tmp => PACKET_remaining tmp =? 0) ;;;
           st_ret (mkPACKET data length)).

Definition PACKET_get_length_prefixed_2 : ST PACKET PACKET :=
  on_copy (length <~ PACKET_get_net_2 ;; data <~ PACKET_get_bytes length ;;
           st_ret (mkPACKET data length)).

Definition PACKET_as_length_prefixed_2 : ST PACKET PACKET :=
  on_copy (length <~ PACKET_get_net_2 ;; data <~ PACKET_get_bytes length ;;
           st_guard (fun tmp => PACKET_remaining tmp =? 0) ;;;
           st_ret (mkPACKET data length)).

Definition PACKET_get_length_prefixed_3 : ST PACKET PACKET :=
  on_copy (length <~ PACKET_get_net_3 ;; data <~ PACKET_get_bytes length ;;
           st_ret (mkPACKET data length)).

(** ** The abstract contract: parsers on byte strings *)

Module Parser.

Definition parser (A : Type) : Type := list Z -> option (A * list Z).

Definition p_bytes (n : nat) : parser (list Z) := fun bs =>
  if decide (n <= length bs)%nat then Some (take n bs, drop n bs) else None.

Definition p_map {A B} (f : A -> B) (p : parser A) : parser B := fun bs =>
  match p bs with Some (a, r) => Some (f a, r) | None => None end.

Definition p_bind {A B} (p : parser A) (q : A -> parser B) : parser B := fun bs =>
  match p bs with Some (a, r) => q a r | None => None end.

Definition p_eof : parser unit := fun bs =>
  match bs with [] => Some (tt, []) | _ => None end.

(** An unsigned integer of [n] bytes, in network order and reversed. *)
Definition p_uint (n : nat) : parser Z := p_map be_val (p_bytes n).
Definition p_uint_le (n : nat) : parser Z := p_map (fun bs => be_val (rev bs)) (p_bytes n).

(** A TLS vector: [n] length bytes, then as many bytes as they say. *)
Definition p_vec (n : nat) : parser (list Z) :=
  p_bind (p_uint n) (fun len => p_bytes (Z.to_nat len)).

Definition p_vec_eof (n : nat) : parser (list Z) :=
  p_bind (p_vec n) (fun v => p_map (fun _ => v) p_eof).

End Parser.
Import Parser.

(** What a cursor still has to deliver, and when it is well formed. *)
Definition view (pkt : PACKET) : list Z :=
  match curr pkt with
  | Null => []
  | Ptr b o => take (Z.to_nat (remaining pkt)) (drop (Z.to_nat o) b)
  end.

Definition wf (pkt : PACKET) : Prop :=
  0 <= remaining pkt <= SIZE_MAX / 2 /\
  match curr pkt with
  | Null => remaining pkt = 0
  | Ptr b o => 0 <= o /\ o + remaining pkt <= Z.of_nat (length b) /\ Forall is_byte b
  end.

(** [m] implements the parser [p]: the same verdict and, up to [R], the same
    value on what the cursor holds, the rest still to be read, and the end of
    the buffer where it was.  [m] never faults.  A failing call leaves the
    cursor as it was. *)
Definition refines {A B} (R : A -> B -> Prop) (m : ST PACKET A) (p : parser B) : Prop :=
  forall pkt, wf pkt ->
  match p (view pkt) with
  | Some (b, rest) =>
      exists a pkt', m pkt = (Ok a, pkt') /\ R a b /\
        wf pkt' /\ view pkt' = rest /\ PACKET_end pkt' = PACKET_end pkt
  | None => m pkt = (Fail, pkt)
  end.

(** The same without the last clause: a failing call may have advanced. *)
Definition refines_weak {A B} (R : A -> B -> Prop) (m : ST PACKET A) (p : parser B) : Prop :=
  forall pkt, wf pkt ->
  match p (view pkt) with
  | Some (b, rest) =>
      exists a pkt', m pkt = (Ok a, pkt') /\ R a b /\
        wf pkt' /\ view pkt' = rest /\ PACKET_end pkt' = PACKET_end pkt
  | None => exists pkt', m pkt = (Fail, pkt')
  end.

(** Results are related by equality, as pointers to bytes, or as sub-packets. *)
Definition points_to (p : ptr) (bs : list Z) : Prop :=
  ptr_read p (Z.of_nat (length bs)) = Some bs.
Definition sub_view (sub : PACKET) (bs : list Z) : Prop := wf sub /\ view sub = bs.

(** *** Lemmas on views *)

Lemma length_view pkt : wf pkt -> length (view pkt) = Z.to_nat (remaining pkt).
Proof.
  intros [H1 H2]. unfold view. destruct (curr pkt) as [|b o]; simpl in *; [lia|].
  rewrite length_take, length_drop. lia.
Qed.

Lemma view_is_byte pkt : wf pkt -> Forall is_byte (view pkt).
Proof.
  intros [_ H]. unfold view. destruct (curr pkt) as [|b o]; [constructor|].
  apply Forall_take, Forall_drop. tauto.
Qed.

Lemma need_spec n pkt : wf pkt -> 0 <= n ->
  need n pkt = (if decide (Z.to_nat n <= length (view pkt))%nat then Ok tt else Fail, pkt).
Proof.
  intros Hwf Hn. rewrite length_view by done. destruct Hwf as [Hr _].
  unfold need, st_guard, PACKET_remaining.
  destruct (remaining pkt <? n) eqn:E; zbool; simpl; case_decide; (done || lia).
Qed.

Lemma load_spec n b pkt : wf pkt -> view pkt !! n = Some b -> load (Z.of_nat n) pkt = (Ok b, pkt).
Proof.
  intros Hwf Hl. pose proof (lookup_lt_Some _ _ _ Hl) as Hn.
  rewrite length_view in Hn by done. destruct Hwf as [Hr Hb].
  unfold load, ptr_get, view in *. destruct (curr pkt) as [|buf o]; [done|].
  destruct Hb as (Ho & _ & _). unfold mem_get.
  rewrite (proj2 (Z.ltb_ge _ _)) by lia.
  rewrite lookup_take, decide_True in Hl by lia. rewrite lookup_drop in Hl.
  by replace (Z.to_nat (o + Z.of_nat n)) with (Z.to_nat o + n)%nat by lia; rewrite Hl.
Qed.

Lemma read_spec n pkt : wf pkt -> (n <= length (view pkt))%nat ->
  ptr_read (curr pkt) (Z.of_nat n) = Some (take n (view pkt)).
Proof.
  intros Hwf Hn. rewrite length_view in Hn by done. destruct Hwf as [Hr Hb].
  unfold ptr_read, view. destruct (curr pkt) as [|buf o].
  - replace n with 0%nat by lia. done.
  - unfold mem_read. destruct Hb as (Ho & Hl & _).
    rewrite !(proj2 (Z.leb_le _ _)) by lia. simpl.
    rewrite take_take, Nat2Z.id. f_equal. f_equal. lia.
Qed.

Lemma forward_spec n pkt : wf pkt -> 0 <= n <= remaining pkt ->
  let pkt' := mkPACKET (ptr_add (curr pkt) n) (remaining pkt - n) in
  packet_forward n pkt = (Ok tt, pkt') /\ wf pkt' /\
  view pkt' = drop (Z.to_nat n) (view pkt) /\ PACKET_end pkt' = PACKET_end pkt.
Proof.
  intros Hwf Hn. destruct Hwf as [Hr Hb]. simpl.
  assert (SIZE_MAX / 2 <= SIZE_MAX) by (vm_compute; congruence).
  repeat split.
  - unfold packet_forward, st_put. by rewrite wrap64_small by lia.
  - simpl; lia.
  - simpl; lia.
  - simpl. destruct (curr pkt) as [|b o]; simpl in *; [lia|].
    destruct Hb as (? & ? & ?). repeat split; (done || lia).
  - unfold view. simpl. destruct (curr pkt) as [|b o]; simpl in *; [by rewrite drop_nil|].
    rewrite skipn_firstn_comm, drop_drop. f_equal; [|f_equal]; lia.
  - unfold PACKET_end. simpl. destruct (curr pkt); simpl; [done|]. f_equal. lia.
Qed.

(** *** Composition *)

Lemma refines_weaken {A B} (R : A -> B -> Prop) m p : refines R m p -> refines_weak R m p.
Proof.
  intros H pkt Hwf. specialize (H pkt Hwf). destruct (p (view pkt)) as [[b r]|]; [done|].
  by exists pkt.
Qed.

Lemma refines_bind {A B A' B'} (R : A -> B -> Prop) (R' : A' -> B' -> Prop) m p f g :
  refines_weak R m p -> (forall a b, R a b -> refines_weak R' (f a) (g b)) ->
  refines_weak R' (st_bind m f) (p_bind p g).
Proof.
  intros Hm Hf pkt Hwf. specialize (Hm pkt Hwf). unfold p_bind.
  destruct (p (view pkt)) as [[b r]|].
  - destruct Hm as (a & pkt' & E & HR & Hwf' & Hv & He).
    rewrite (st_bind_ok _ _ _ _ _ E). specialize (Hf a b HR pkt' Hwf').
    rewrite Hv in Hf. destruct (g b r) as [[b' r']|]; [|done].
    destruct Hf as (a' & pkt'' & E' & ? & ? & ? & He'). exists a', pkt''.
    by rewrite He', He.
  - destruct Hm as [pkt' E]. exists pkt'. by apply st_bind_fail.
Qed.

Lemma refines_on_copy {A B} (R : A -> B -> Prop) m p :
  refines_weak R m p -> refines R (on_copy m) p.
Proof.
  intros H pkt Hwf. specialize (H pkt Hwf). unfold on_copy.
  destruct (p (view pkt)) as [[b r]|].
  - destruct H as (a & pkt' & E & H). rewrite E. by exists a, pkt'.
  - destruct H as [pkt' E]. by rewrite E.
Qed.

(** A peek followed by [packet_forward]. *)
Lemma refines_peek_forward {A B} (R : A -> B -> Prop) (peek : ST PACKET A) n (f : list Z -> B) :
  0 <= n ->
  (forall pkt, wf pkt ->
     if decide (Z.to_nat n <= length (view pkt))%nat
     then exists a, peek pkt = (Ok a, pkt) /\ R a (f (take (Z.to_nat n) (view pkt)))
     else peek pkt = (Fail, pkt)) ->
  refines R (d <~ peek ;; packet_forward n ;;; st_ret d) (p_map f (p_bytes (Z.to_nat n))).
Proof.
  intros Hn Hpeek pkt Hwf. specialize (Hpeek pkt Hwf). unfold p_map, p_bytes.
  case_decide as Hl.
  - destruct Hpeek as (a & E & HR). rewrite length_view in Hl by done.
    pose proof (proj1 Hwf).
    destruct (forward_spec n pkt Hwf ltac:(lia)) as (F & Hwf' & Hv & He).
    eexists a, _. split; [|done].
    rewrite (st_bind_ok _ _ _ _ _ E). by rewrite (st_bind_ok _ _ _ _ _ F).
  - by apply st_bind_fail.
Qed.

(** *** The integer readers *)

Lemma lor_shiftl_step a b n m :
  m = n + 8 -> 0 <= n -> is_byte b ->
  Z.lor (Z.shiftl a m) (Z.shiftl b n) = Z.shiftl (a * 256 + b) n.
Proof.
  intros -> Hn Hb. rewrite Z.add_comm, <- Z.shiftl_shiftl by lia.
  rewrite <- Z.shiftl_lor. f_equal. by apply (lor_shiftl_add a b 8).
Qed.

Lemma lor_shiftl_last a b : is_byte b -> Z.lor (Z.shiftl a 8) b = a * 256 + b.
Proof. intros Hb. by apply (lor_shiftl_add a b 8). Qed.

(** Runs the loads of a peek on a view whose first cells are known. *)
Ltac run_loads Hwf Hv :=
  repeat (erewrite st_bind_ok;
          [|first [ eapply (load_spec 0) | eapply (load_spec 1) | eapply (load_spec 2)
                  | eapply (load_spec 3) | eapply (load_spec 4) | eapply (load_spec 5)
                  | eapply (load_spec 6) | eapply (load_spec 7) ];
           [exact Hwf | rewrite Hv; reflexivity]]).

Ltac peek_start f pkt Hwf Hl :=
  intros pkt Hwf; unfold f; case_decide as Hl;
  [ rewrite (st_bind_ok _ _ _ tt pkt) by (rewrite need_spec by (done || lia); by rewrite decide_True by lia)
  | apply st_bind_fail; rewrite need_spec by (done || lia); by rewrite decide_False by lia ].

Ltac byte_hyps Hwf Hv :=
  let Hb := fresh "Hb" in
  pose proof (view_is_byte _ Hwf) as Hb; rewrite Hv in Hb;
  repeat match goal with
         | H : Forall is_byte (_ :: _) |- _ => apply Forall_cons in H as [? H]
         end.

Definition peek_spec {A B} (R : A -> B -> Prop) (peek : ST PACKET A) (n : Z) (f : list Z -> B) : Prop :=
  forall pkt, wf pkt ->
     if decide (Z.to_nat n <= length (view pkt))%nat
     then exists a, peek pkt = (Ok a, pkt) /\ R a (f (take (Z.to_nat n) (view pkt)))
     else peek pkt = (Fail, pkt).

Lemma peek_1_spec : peek_spec eq PACKET_peek_1 1 be_val.
Proof.
  intros pkt Hwf. unfold PACKET_peek_1, st_guard, st_bind, PACKET_remaining.
  pose proof (length_view _ Hwf) as Hl. pose proof (proj1 Hwf).
  case_decide.
  - rewrite (proj2 (Z.eqb_neq _ _)) by lia. simpl.
    destruct (view pkt) as [|b0 l] eqn:Hv; simpl in *; [lia|].
    exists b0. split; [|done]. apply (load_spec 0); [done|]. by rewrite Hv.
  - by rewrite (proj2 (Z.eqb_eq _ _)) by lia.
Qed.

Lemma peek_net_2_spec : peek_spec eq PACKET_peek_net_2 2 be_val.
Proof.
  peek_start PACKET_peek_net_2 pkt Hwf Hl.
  destruct (view pkt) as [|b0 [|b1 l]] eqn:Hv; simpl in Hl; try lia.
  byte_hyps Hwf Hv. run_loads Hwf Hv. eexists. split; [reflexivity|].
  by rewrite lor_shiftl_last by done.
Qed.

Lemma peek_net_3_spec : peek_spec eq PACKET_peek_net_3 3 be_val.
Proof.
  peek_start PACKET_peek_net_3 pkt Hwf Hl.
  destruct (view pkt) as [|b0 [|b1 [|b2 l]]] eqn:Hv; simpl in Hl; try lia.
  byte_hyps Hwf Hv. run_loads Hwf Hv. eexists. split; [reflexivity|].
  rewrite (lor_shiftl_step _ _ 8 16) by done. by rewrite lor_shiftl_last.
Qed.

Lemma peek_net_4_spec : peek_spec eq PACKET_peek_net_4 4 be_val.
Proof.
  peek_start PACKET_peek_net_4 pkt Hwf Hl.
  destruct (view pkt) as [|b0 [|b1 [|b2 [|b3 l]]]] eqn:Hv; simpl in Hl; try lia.
  byte_hyps Hwf Hv. run_loads Hwf Hv. eexists. split; [reflexivity|].
  rewrite (lor_shiftl_step _ _ 16 24), (lor_shiftl_step _ _ 8 16) by done.
  by rewrite lor_shiftl_last.
Qed.

Lemma peek_net_8_spec : peek_spec eq PACKET_peek_net_8 8 be_val.
Proof.
  peek_start PACKET_peek_net_8 pkt Hwf Hl.
  destruct (view pkt) as [|b0 [|b1 [|b2 [|b3 [|b4 [|b5 [|b6 [|b7 l]]]]]]]] eqn:Hv;
    simpl in Hl; try lia.
  byte_hyps Hwf Hv. run_loads Hwf Hv. eexists. split; [reflexivity|].
  rewrite (lor_shiftl_step _ _ 48 56), (lor_shiftl_step _ _ 40 48), (lor_shiftl_step _ _ 32 40),
    (lor_shiftl_step _ _ 24 32), (lor_shiftl_step _ _ 16 24), (lor_shiftl_step _ _ 8 16) by done.
  by rewrite lor_shiftl_last.
Qed.

Lemma peek_4_spec : peek_spec eq PACKET_peek_4 4 (fun bs => be_val (rev bs)).
Proof.
  peek_start PACKET_peek_4 pkt Hwf Hl.
  destruct (view pkt) as [|b0 [|b1 [|b2 [|b3 l]]]] eqn:Hv; simpl in Hl; try lia.
  byte_hyps Hwf Hv. run_loads Hwf Hv. eexists. split; [reflexivity|].
  rewrite (Z.lor_comm b0), (Z.lor_comm _ (Z.shiftl b2 16)), (Z.lor_comm _ (Z.shiftl b3 24)).
  rewrite !Z.lor_assoc.
  rewrite (lor_shiftl_step _ _ 16 24), (lor_shiftl_step _ _ 8 16) by done.
  by rewrite lor_shiftl_last.
Qed.

Lemma refines_uint peek n get :
  get = (d <~ peek ;; packet_forward n ;;; st_ret d) -> 0 <= n ->
  peek_spec eq peek n be_val -> refines eq get (p_uint (Z.to_nat n)).
Proof. intros -> Hn Hp. by apply refines_peek_forward. Qed.

Lemma get_1_refines : refines eq PACKET_get_1 (p_uint 1).
Proof. by apply (refines_uint PACKET_peek_1 1), peek_1_spec. Qed.

Lemma get_net_2_refines : refines eq PACKET_get_net_2 (p_uint 2).
Proof. by apply (refines_uint PACKET_peek_net_2 2), peek_net_2_spec. Qed.

Lemma get_net_3_refines : refines eq PACKET_get_net_3 (p_uint 3).
Proof. by apply (refines_uint PACKET_peek_net_3 3), peek_net_3_spec. Qed.

#[export] Hint Resolve get_1_refines get_net_2_refines get_net_3_refines : qtls.

(** The fixed-width readers decode unsigned integers: [PACKET_get_1],
    [PACKET_get_net_2/3/4/8] read 1, 2, 3, 4 and 8 bytes in network order and
    [PACKET_get_4] reads 4 bytes in the reverse order.  On a well-formed cursor
    each either returns the value of the next bytes and advances past exactly
    those, or fails (too few bytes) leaving the cursor untouched; none reads
    outside the buffer. *)
Lemma packet_integers_refine :
  refines eq PACKET_get_1 (p_uint 1) /\ refines eq PACKET_get_net_2 (p_uint 2) /\
  refines eq PACKET_get_net_3 (p_uint 3) /\ refines eq PACKET_get_net_4 (p_uint 4) /\
  refines eq PACKET_get_net_8 (p_uint 8) /\ refines eq PACKET_get_4 (p_uint_le 4).
Proof.
  repeat split; auto with qtls.
  - by apply (refines_uint PACKET_peek_net_4 4), peek_net_4_spec.
  - by apply (refines_uint PACKET_peek_net_8 8), peek_net_8_spec.
  - by apply (refines_peek_forward eq PACKET_peek_4 4), peek_4_spec.
Qed.

(** *** Byte strings and sub-packets *)

Lemma peek_bytes_spec len : 0 <= len -> peek_spec points_to (PACKET_peek_bytes len) len (fun bs => bs).
Proof.
  intros Hlen pkt Hwf. unfold PACKET_peek_bytes, st_bind.
  rewrite need_spec by done. case_decide as Hl; [|done].
  exists (curr pkt). split; [done|]. unfold points_to.
  rewrite length_take, Nat.min_l by lia. by apply read_spec.
Qed.

Lemma peek_sub_spec len : 0 <= len ->
  peek_spec sub_view (PACKET_peek_sub_packet len) len (fun bs => bs).
Proof.
  intros Hlen pkt Hwf. unfold PACKET_peek_sub_packet, st_bind.
  rewrite need_spec by done. case_decide as Hl; [|done].
  pose proof Hwf as [Hr Hb]. pose proof Hl as Hl2. rewrite length_view in Hl2 by done.
  unfold PACKET_buf_init. rewrite (proj2 (Z.ltb_ge _ _)) by lia.
  eexists; split; [done|]. split.
  - split; simpl; [lia|]. destruct (curr pkt); [lia|]. destruct Hb as (? & ? & ?).
    repeat split; (done || lia).
  - unfold view; simpl. destruct (curr pkt) as [|b o]; [by rewrite take_nil|].
    rewrite take_take. f_equal. lia.
Qed.

Lemma peek_copy_spec len : 0 <= len ->
  peek_spec eq (PACKET_peek_copy_bytes len) len (fun bs => bs).
Proof.
  intros Hlen pkt Hwf. unfold PACKET_peek_copy_bytes, st_bind.
  rewrite need_spec by done. case_decide as Hl; [|done].
  eexists. split; [|done]. rewrite <- (Z2Nat.id len) by done.
  rewrite read_spec, Nat2Z.id by (done || lia). done.
Qed.

Lemma p_map_id {A} (p : parser A) bs : p_map (fun a => a) p bs = p bs.
Proof. unfold p_map. by destruct (p bs) as [[]|]. Qed.

Lemma refines_ext {A B} (R : A -> B -> Prop) m p q :
  (forall bs, p bs = q bs) -> refines R m p -> refines R m q.
Proof. intros E H pkt Hwf. rewrite <- E. by apply H. Qed.

Lemma get_bytes_refines len : 0 <= len ->
  refines points_to (PACKET_get_bytes len) (p_bytes (Z.to_nat len)).
Proof.
  intros H. eapply refines_ext; [apply p_map_id|].
  by apply refines_peek_forward, peek_bytes_spec.
Qed.

Lemma get_sub_refines len : 0 <= len ->
  refines sub_view (PACKET_get_sub_packet len) (p_bytes (Z.to_nat len)).
Proof.
  intros H. eapply refines_ext; [apply p_map_id|].
  by apply refines_peek_forward, peek_sub_spec.
Qed.

Lemma copy_bytes_refines len : 0 <= len ->
  refines eq (PACKET_copy_bytes len) (p_bytes (Z.to_nat len)).
Proof.
  intros H. eapply refines_ext; [apply p_map_id|].
  by apply refines_peek_forward, peek_copy_spec.
Qed.

Lemma forward_refines len : 0 <= len ->
  refines (fun _ _ => True) (PACKET_forward len) (p_bytes (Z.to_nat len)).
Proof.
  intros Hlen pkt Hwf. unfold p_bytes, PACKET_forward, st_bind.
  rewrite need_spec by done. case_decide as Hl; [|done].
  rewrite length_view in Hl by done. pose proof (proj1 Hwf).
  destruct (forward_spec len pkt Hwf ltac:(lia)) as (F & ?). rewrite F.
  eexists tt, _. split; [reflexivity|]. tauto.
Qed.

#[export] Hint Resolve get_bytes_refines get_sub_refines copy_bytes_refines forward_refines : qtls.

(** The byte-string readers: for every length, [PACKET_get_bytes],
    [PACKET_copy_bytes], [PACKET_get_sub_packet] and [PACKET_forward] take
    exactly that many bytes off the cursor, handing out a pointer to them, a
    copy, or a well-formed sub-packet over them; with fewer bytes left they
    fail and change nothing. *)
Lemma packet_bytes_refine (len : Z) (Hlen : 0 <= len) :
  refines points_to (PACKET_get_bytes len) (p_bytes (Z.to_nat len)) /\
  refines eq (PACKET_copy_bytes len) (p_bytes (Z.to_nat len)) /\
  refines sub_view (PACKET_get_sub_packet len) (p_bytes (Z.to_nat len)) /\
  refines (fun _ _ => True) (PACKET_forward len) (p_bytes (Z.to_nat len)).
Proof. auto with qtls. Qed.

Example packet_bytes_refine_witness :
  refines eq (PACKET_copy_bytes 2) (p_bytes 2) /\
  PACKET_copy_bytes 2 (mkPACKET (Ptr [7; 8; 9] 0) 3) = (Ok [7; 8], mkPACKET (Ptr [7; 8; 9] 2) 1).
Proof. split; [apply (packet_bytes_refine 2); lia | reflexivity]. Defined.

(** *** Length-prefixed vectors *)

(** The parser the C code runs: a length, the bytes, and the pair of both as a
    sub-packet. *)
Lemma vec_refines n get : refines eq get (p_uint n) ->
  refines_weak sub_view
    (length <~ get ;; data <~ PACKET_get_bytes length ;; st_ret (mkPACKET data length))
    (p_vec n).
Proof.
  intros Hget pkt Hwf. pose proof (Hget pkt Hwf) as H. unfold p_vec, p_bind.
  destruct (p_uint n (view pkt)) as [[len r]|] eqn:Eu.
  2: { eexists. by apply st_bind_fail. }
  destruct H as (a & pkt1 & E1 & -> & Hwf1 & Hv1 & He1).
  assert (Hlen : 0 <= len).
  { unfold p_uint, p_map, p_bytes in Eu. case_decide; simplify_eq.
    apply be_val_range, Forall_take, view_is_byte; done. }
  rewrite (st_bind_ok _ _ _ _ _ E1).
  pose proof (get_sub_refines len Hlen pkt1 Hwf1) as Hs.
  pose proof (get_bytes_refines len Hlen pkt1 Hwf1) as Hg. rewrite Hv1 in Hs, Hg.
  unfold p_bytes in *. case_decide.
  - destruct Hs as (sub & ? & Es & [Hs1 Hs2] & _).
    destruct Hg as (d & pkt2 & Eg & _ & Hwf2 & Hv2 & He2).
    assert (sub = mkPACKET d len) as ->.
    { clear - Es Eg. unfold PACKET_get_sub_packet, PACKET_peek_sub_packet, PACKET_get_bytes,
        PACKET_peek_bytes, PACKET_buf_init, need, st_guard, st_get, st_ret, st_bind in Es, Eg.
      simpl in Es, Eg. by cases. }
    exists (mkPACKET d len), pkt2. split_and!; try done; [|by rewrite He2].
    by rewrite (st_bind_ok _ _ _ _ _ Eg).
  - eexists. by apply st_bind_fail.
Qed.

Lemma vec_eof_refines n get : refines eq get (p_uint n) ->
  refines_weak sub_view
    (length <~ get ;; data <~ PACKET_get_bytes length ;;
     st_guard (fun tmp => PACKET_remaining tmp =? 0) ;;; st_ret (mkPACKET data length))
    (p_vec_eof n).
Proof.
  intros Hget pkt Hwf. pose proof (vec_refines n get Hget pkt Hwf) as H.
  unfold p_vec_eof, p_bind at 1.
  destruct (p_vec n (view pkt)) as [[v r]|].
  - destruct H as (sub & pkt' & E & Hs & Hwf' & Hv & He).
    unfold st_bind in E |- *. destruct (get pkt) as [[len| |] pkt1]; try done.
    destruct (PACKET_get_bytes len pkt1) as [[d| |] pkt2]; simplify_eq.
    unfold st_ret in E. simplify_eq. unfold st_guard, PACKET_remaining, p_map, p_eof.
    pose proof (length_view _ Hwf') as Hl. pose proof (proj1 Hwf').
    destruct (view pkt') as [|b l] eqn:Ev; simpl in Hl.
    + rewrite (proj2 (Z.eqb_eq _ _)) by lia. eexists _, pkt'. by rewrite Ev.
    + rewrite (proj2 (Z.eqb_neq _ _)) by lia. by eexists.
  - destruct H as [pkt' E]. unfold st_bind in E |- *.
    destruct (get pkt) as [[len| |] pkt1]; simplify_eq; [|by eexists].
    destruct (PACKET_get_bytes len pkt1) as [[d| |] pkt2]; simplify_eq. by eexists.
Qed.

(** The length-prefixed readers decode TLS vectors: for prefixes of 1, 2
    and 3 bytes [PACKET_get_length_prefixed_n] yields a well-formed sub-packet
    over exactly the announced bytes and moves behind them;
    [PACKET_as_length_prefixed_n] additionally requires that nothing follows.
    A truncated vector (or trailing data, for the second kind) makes them fail
    with both packets as they were, and they never read out of bounds. *)
Theorem packet_vectors_refine :
  refines sub_view PACKET_get_length_prefixed_1 (p_vec 1) /\
  refines sub_view PACKET_get_length_prefixed_2 (p_vec 2) /\
  refines sub_view PACKET_get_length_prefixed_3 (p_vec 3) /\
  refines sub_view PACKET_as_length_prefixed_1 (p_vec_eof 1) /\
  refines sub_view PACKET_as_length_prefixed_2 (p_vec_eof 2).
Proof.
  repeat split; apply refines_on_copy;
    first [apply vec_refines | apply vec_eof_refines]; auto with qtls.
Qed.

(** *** Comparison and copies *)

Lemma memcmp_loop_zero a b x : length a = length b ->
  memcmp_loop a b x = 0 <-> x = 0 /\ a = b.
Proof.
  revert b x; induction a as [|p a IH]; intros [|q b] x Hl; simplify_eq/=; [tauto|].
  rewrite IH by done. rewrite Z.lor_eq_0_iff, Z.lxor_eq_0_iff.
  split; [intros [[-> ->] ->]; done|]. by intros [-> [= -> ->]].
Qed.

Lemma take_view pkt : wf pkt -> take (Z.to_nat (remaining pkt)) (view pkt) = view pkt.
Proof. intros H. apply take_ge. by rewrite length_view. Qed.

Lemma read_view pkt : wf pkt -> ptr_read (curr pkt) (remaining pkt) = Some (view pkt).
Proof.
  intros H. pose proof (proj1 H). rewrite <- (Z2Nat.id (remaining pkt)) by lia.
  rewrite read_spec by (rewrite ?length_view; done). by rewrite take_view.
Qed.

(**  [PACKET_equal] decides equality: on a well-formed cursor it answers
    whether the remaining bytes are exactly the given string, although its
    comparison loop ([CRYPTO_memcmp]) has no early exit. *)
Lemma packet_equal_correct (pkt : PACKET) (p : list Z) (Hwf : wf pkt) :
  PACKET_equal pkt p = Ok (bool_decide (view pkt = p)).
Proof.
  unfold PACKET_equal, PACKET_remaining. pose proof (length_view _ Hwf) as Hl.
  pose proof (proj1 Hwf).
  destruct (remaining pkt =? Z.of_nat (length p)) eqn:E; zbool; simpl.
  - rewrite <- E, read_view by done. f_equal. unfold CRYPTO_memcmp.
    pose proof (memcmp_loop_zero (view pkt) p 0 ltac:(lia)) as Hz.
    destruct (memcmp_loop _ _ _ =? 0) eqn:E'; zbool; symmetry;
      [apply bool_decide_eq_true | apply bool_decide_eq_false]; tauto.
  - f_equal. symmetry. apply bool_decide_eq_false. intros <-. lia.
Qed.

Example packet_equal_correct_witness :
  wf (mkPACKET (Ptr [1; 2; 3] 1) 2) /\
  PACKET_equal (mkPACKET (Ptr [1; 2; 3] 1) 2) [2; 3] = Ok true.
Proof.
  assert (H : wf (mkPACKET (Ptr [1; 2; 3] 1) 2)).
  { split; simpl; [vm_compute; intuition congruence|].
    split_and!; [lia|lia|]. repeat constructor; unfold is_byte; lia. }
  split; [exact H|]. rewrite (packet_equal_correct _ [2; 3] H). reflexivity.
Defined.

(** The bytes before the first NUL. *)
Fixpoint upto_nul (bs : list Z) : list Z :=
  match bs with
  | [] => []
  | b :: bs' => if b =? 0 then [] else b :: upto_nul bs'
  end.

Lemma upto_nul_prefix bs : upto_nul bs = take (length (upto_nul bs)) bs.
Proof. induction bs as [|b bs IH]; simpl; [done|]. case_match; simpl; [done|]. by f_equal. Qed.

Lemma upto_nul_all bs : existsb (fun b => b =? 0) bs = false -> upto_nul bs = bs.
Proof.
  induction bs as [|b bs IH]; simpl; [done|]. intros H. apply orb_false_iff in H as [-> H].
  by rewrite IH.
Qed.

Lemma strnlen_loop_spec pkt (n i : nat) : wf pkt -> (i + n = length (view pkt))%nat ->
  strnlen_loop (curr pkt) (Z.of_nat i) n
  = Some (Z.of_nat (i + length (upto_nul (drop i (view pkt))))).
Proof.
  intros Hwf. revert i; induction n as [|n IH]; intros i Hi; simpl.
  - rewrite drop_ge by lia. simpl. f_equal. lia.
  - destruct (lookup_lt_is_Some_2 (view pkt) i) as [b Hb]; [lia|].
    pose proof (load_spec i b pkt Hwf Hb) as Hl. unfold load in Hl.
    destruct (ptr_get (curr pkt) (Z.of_nat i)) eqn:Eg; simplify_eq.
    rewrite (drop_S _ _ _ Hb). simpl. case_match; [simpl; f_equal; lia|].
    replace (Z.of_nat i + 1) with (Z.of_nat (S i)) by lia.
    rewrite IH by lia. f_equal. simpl. lia.
Qed.

(**  The copying helpers: [PACKET_copy_all] yields the remaining bytes when
    they fit in the destination and fails otherwise; [PACKET_strndup], when the
    allocation succeeds, yields the remaining bytes cut at the first NUL and
    NUL-terminated - all of them when [PACKET_contains_zero_byte] says there is
    no NUL; with no allocation it yields a null pointer.  None of them reads
    out of bounds. *)
Lemma packet_copies_correct (malloc_ok : Z -> bool) (pkt : PACKET) (dest_len : Z)
    (Hwf : wf pkt) (Hnn : curr pkt <> Null) :
  PACKET_copy_all dest_len pkt
    = (if dest_len <? remaining pkt then Fail else Ok (view pkt)) /\
  PACKET_strndup malloc_ok pkt
    = Ok (if malloc_ok (Z.of_nat (length (upto_nul (view pkt))) + 1)
          then Some (upto_nul (view pkt) ++ [0]) else None) /\
  exists z, PACKET_contains_zero_byte pkt = Ok z /\
    (z = false -> upto_nul (view pkt) = view pkt).
Proof.
  split_and!.
  - unfold PACKET_copy_all. rewrite read_view by done. done.
  - unfold PACKET_strndup, OPENSSL_strndup, OPENSSL_strnlen, PACKET_remaining.
    pose proof (strnlen_loop_spec pkt (Z.to_nat (remaining pkt)) 0 Hwf) as Hs.
    rewrite length_view, drop_0 in Hs by done. change (Z.of_nat 0) with 0 in Hs.
    rewrite Hs, Nat.add_0_l by lia.
    rewrite read_spec by (done || rewrite upto_nul_prefix, length_take; lia).
    rewrite <- upto_nul_prefix. destruct (curr pkt); [done|].
    by destruct (malloc_ok _).
  - unfold PACKET_contains_zero_byte. rewrite read_view by done.
    eexists; split; [done|]. apply upto_nul_all.
Qed.

Example packet_copies_correct_witness :
  PACKET_strndup (fun _ => true) (mkPACKET (Ptr [104; 105; 0; 7] 0) 4) = Ok (Some [104; 105; 0]).
Proof.
  assert (H : wf (mkPACKET (Ptr [104; 105; 0; 7] 0) 4)).
  { split; simpl; [vm_compute; intuition congruence|].
    split_and!; [lia|lia|]. repeat constructor; unfold is_byte; lia. }
  destruct (packet_copies_correct (fun _ => true) _ 9 H ltac:(discriminate)) as (_ & E & _).
  rewrite E. reflexivity.
Defined.
