(* ===== verification/ConstTime.v ===== *)
(** * Constant-time arithmetic

    include/internal/constant_time.h: comparisons that yield a mask, selection
    and exchange by mask, table lookup, without branches.  The header has each
    function for several widths ([unsigned int], [size_t], [uint32_t],
    [uint64_t]) with the same body; here the width is an argument. *)

From stdpp Require Import prelude.
From Stdlib Require Import ZArith Lia.
From S2P Require Import Prelude.

Local Open Scope Z_scope.

(** ** Words of [w] bits *)

Definition wrapw (w z : Z) : Z := z `mod` 2 ^ w.
Definition is_word (w z : Z) : Prop := 0 <= z < 2 ^ w.
Definition wnot (w a : Z) : Z := wrapw w (Z.lnot a).
Definition wsub (w a b : Z) : Z := wrapw w (a - b).

(** ** The header *)

Definition constant_time_msb (w a : Z) : Z := wsub w 0 (Z.shiftr a (w - 1)).

Definition constant_time_lt (w a b : Z) : Z :=
  constant_time_msb w (Z.lxor a (Z.lor (Z.lxor a b) (Z.lxor (wsub w a b) b))).

Definition constant_time_ge (w a b : Z) : Z := wnot w (constant_time_lt w a b).

Definition constant_time_is_zero (w a : Z) : Z :=
  constant_time_msb w (Z.land (wnot w a) (wsub w a 1)).

Definition constant_time_eq (w a b : Z) : Z := constant_time_is_zero w (Z.lxor a b).

Definition constant_time_select (w mask a b : Z) : Z :=
  Z.lor (Z.land mask a) (Z.land (wnot w mask) b).

Definition constant_time_ge_8_s (a b : Z) : Z := wrapw 8 (constant_time_ge 64 a b).
Definition constant_time_eq_8 (a b : Z) : Z := wrapw 8 (constant_time_eq 32 a b).
Definition constant_time_select_8 (mask a b : Z) : Z := wrapw 8 (constant_time_select 32 mask a b).

Definition constant_time_cond_swap (mask a b : Z) : Z * Z :=
  let xor := Z.land (Z.lxor a b) mask in (Z.lxor a xor, Z.lxor b xor).

(** The two buffers are [len] bytes long. *)
Fixpoint constant_time_cond_swap_buff (mask : Z) (a b : list Z) : list Z * list Z :=
  match a, b with
  | x :: a, y :: b =>
      let '(x', y') := constant_time_cond_swap mask x y in
      let '(a', b') := constant_time_cond_swap_buff mask a b in
      (x' :: a', y' :: b')
  | _, _ => ([], [])
  end.

(** [out] is ORed with the selected row of the table, given row by row. *)
Fixpoint lookup_rows (out : list Z) (rows : list (list Z)) (idx : Z) : list Z :=
  match rows with
  | [] => out
  | row :: rows =>
      let mask := wrapw 8 (constant_time_is_zero 64 idx) in
      lookup_rows (zip_with (fun o x => Z.lor o (constant_time_select_8 mask x 0)) out row)
        rows (wsub 64 idx 1)
  end.

Definition constant_time_lookup (rowsize : nat) (table : list (list Z)) (idx : Z) : list Z :=
  lookup_rows (replicate rowsize 0) table idx.

(** ** What they compute *)

(** The mask for a truth value. *)
Definition maskw (w : Z) (b : bool) : Z := if b then 2 ^ w - 1 else 0.

Lemma maskw_ones w b : 0 <= w -> maskw w b = if b then Z.ones w else 0.
Proof. intros Hw. unfold maskw. by rewrite Z.ones_equiv, Z.sub_1_r. Qed.

Lemma wrapw_word w z : 0 <= w -> is_word w (wrapw w z).
Proof. intros Hw. apply Z.mod_pos_bound. lia. Qed.

Lemma wrapw_small w z : is_word w z -> wrapw w z = z.
Proof. apply Z.mod_small. Qed.

Lemma maskw_word w b : 0 <= w -> is_word w (maskw w b).
Proof. intros Hw. unfold is_word, maskw. pose proof (Z.pow_pos_nonneg 2 w). destruct b; lia. Qed.

(** The top bit of a word. *)
Lemma top_bit w x : 0 < w -> is_word w x -> Z.testbit x (w - 1) = (2 ^ (w - 1) <=? x).
Proof.
  intros Hw [H0 H1]. assert (Hp : 2 ^ w = 2 * 2 ^ (w - 1)) by (rewrite <- Z.pow_succ_r by lia; f_equal; lia).
  rewrite Z.testbit_eqb by lia. pose proof (Z.pow_pos_nonneg 2 (w - 1)).
  destruct (2 ^ (w - 1) <=? x) eqn:E; zbool.
  - replace (x / 2 ^ (w - 1)) with 1; [done|]. apply Z.div_unique with (x - 2 ^ (w - 1)); lia.
  - by rewrite Z.div_small by lia.
Qed.

Lemma msb_mask w a : 0 < w -> is_word w a -> constant_time_msb w a = maskw w (Z.testbit a (w - 1)).
Proof.
  intros Hw [H0 H1]. assert (Hp : 2 ^ w = 2 * 2 ^ (w - 1)) by (rewrite <- Z.pow_succ_r by lia; f_equal; lia).
  unfold constant_time_msb, wsub, wrapw. rewrite Z.shiftr_div_pow2 by lia.
  rewrite Z.testbit_eqb by lia. pose proof (Z.pow_pos_nonneg 2 (w - 1)).
  assert (Hd : 0 <= a / 2 ^ (w - 1) < 2) by (split; [apply Z.div_pos; lia|apply Z.div_lt_upper_bound; lia]).
  set (d := a / 2 ^ (w - 1)) in *. rewrite (Z.mod_small d 2) by done.
  assert (d = 0 \/ d = 1) as [-> | ->] by lia; simpl.
  - by rewrite Z.mod_0_l by lia.
  - symmetry. apply Z.mod_unique with (-1); lia.
Qed.

Lemma is_word_bits w x : 0 <= w -> 0 <= x -> (forall i, w <= i -> Z.testbit x i = false) -> is_word w x.
Proof.
  intros Hw Hx Hb. split; [done|]. destruct (decide (x = 0)) as [->|]; [apply Z.pow_pos_nonneg; lia|].
  apply Z.log2_lt_pow2; [lia|]. destruct (decide (Z.log2 x < w)); [done|].
  pose proof (Hb (Z.log2 x) ltac:(lia)) as E. rewrite Z.bit_log2 in E by lia. done.
Qed.

Lemma word_bit w x i : 0 <= w -> is_word w x -> w <= i -> Z.testbit x i = false.
Proof.
  intros Hw [H0 H1] Hi. destruct (decide (x = 0)) as [->|]; [apply Z.bits_0|].
  apply Z.bits_above_log2; [done|]. eapply Z.lt_le_trans; [|exact Hi].
  apply Z.log2_lt_pow2; lia.
Qed.

Lemma lxor_word w a b : 0 <= w -> is_word w a -> is_word w b -> is_word w (Z.lxor a b).
Proof.
  intros Hw Ha Hb. apply is_word_bits; [done|apply Z.lxor_nonneg; unfold is_word in *; lia|].
  intros i Hi. by rewrite Z.lxor_spec, (word_bit w a), (word_bit w b).
Qed.
Lemma lor_word w a b : 0 <= w -> is_word w a -> is_word w b -> is_word w (Z.lor a b).
Proof.
  intros Hw Ha Hb. apply is_word_bits; [done|apply Z.lor_nonneg; unfold is_word in *; lia|].
  intros i Hi. by rewrite Z.lor_spec, (word_bit w a), (word_bit w b).
Qed.
Lemma land_word w a b : 0 <= w -> is_word w a -> 0 <= b -> is_word w (Z.land a b).
Proof.
  intros Hw Ha Hb. apply is_word_bits; [done|apply Z.land_nonneg; lia|].
  intros i Hi. by rewrite Z.land_spec, (word_bit w a).
Qed.

#[export] Hint Resolve wrapw_word maskw_word lxor_word lor_word land_word : qtls.

Lemma lt_mask w a b : 0 < w -> is_word w a -> is_word w b ->
  constant_time_lt w a b = maskw w (a <? b).
Proof.
  intros Hw Ha Hb. unfold constant_time_lt.
  assert (Hd : is_word w (wsub w a b)) by (apply wrapw_word; lia).
  rewrite msb_mask by (done || auto 6 with qtls lia). f_equal.
  rewrite !Z.lxor_spec, Z.lor_spec, !Z.lxor_spec, !top_bit by done.
  assert (Hp : 2 ^ w = 2 * 2 ^ (w - 1)) by (rewrite <- Z.pow_succ_r by lia; f_equal; lia).
  destruct Ha as [Ha0 Ha1], Hb as [Hb0 Hb1].
  assert (Ed : wsub w a b = a - b \/ wsub w a b = a - b + 2 ^ w /\ a < b).
  { unfold wsub, wrapw. destruct (decide (a < b)).
    - right. split; [|done]. symmetry. apply Z.mod_unique with (-1); lia.
    - left. apply Z.mod_small. lia. }
  assert (Hr : 0 <= wsub w a b < 2 ^ w) by done.
  destruct (2 ^ (w - 1) <=? a) eqn:E1, (2 ^ (w - 1) <=? b) eqn:E2, (2 ^ (w - 1) <=? wsub w a b) eqn:E3,
    (a <? b) eqn:E4; zbool; simpl; try done; lia.
Qed.

Lemma lnot_mod w a : 0 <= w -> is_word w a -> wnot w a = 2 ^ w - 1 - a.
Proof.
  intros Hw [H0 H1]. unfold wnot, wrapw, Z.lnot. symmetry. apply Z.mod_unique with (-1); lia.
Qed.

Lemma not_mask w b : 0 <= w -> wnot w (maskw w b) = maskw w (negb b).
Proof. intros Hw. rewrite lnot_mod by auto using maskw_word. unfold maskw. destruct b; simpl; lia. Qed.

Lemma ge_mask w a b : 0 < w -> is_word w a -> is_word w b ->
  constant_time_ge w a b = maskw w (b <=? a).
Proof.
  intros. unfold constant_time_ge. rewrite lt_mask, not_mask by (done || lia).
  by rewrite Z.ltb_antisym, negb_involutive.
Qed.

Lemma wnot_bit w a i : 0 <= w -> 0 <= i < w -> Z.testbit (wnot w a) i = negb (Z.testbit a i).
Proof. intros. unfold wnot, wrapw. rewrite Z.mod_pow2_bits_low, Z.lnot_spec by lia. done. Qed.

Lemma is_zero_mask w a : 0 < w -> is_word w a -> constant_time_is_zero w a = maskw w (a =? 0).
Proof.
  intros Hw Ha. unfold constant_time_is_zero.
  assert (Hs : is_word w (wsub w a 1)) by (apply wrapw_word; lia).
  rewrite msb_mask by (done || (apply land_word; [lia|apply wrapw_word; lia|unfold is_word in Hs; lia])).
  f_equal. rewrite Z.land_spec, wnot_bit, !top_bit by (done || lia).
  assert (Hp : 2 ^ w = 2 * 2 ^ (w - 1)) by (rewrite <- Z.pow_succ_r by lia; f_equal; lia).
  pose proof (Z.pow_pos_nonneg 2 (w - 1)). destruct Ha as [Ha0 Ha1].
  assert (Es : wsub w a 1 = if a =? 0 then 2 ^ w - 1 else a - 1).
  { unfold wsub, wrapw. destruct (a =? 0) eqn:E; zbool.
    - symmetry. apply Z.mod_unique with (-1); lia.
    - apply Z.mod_small. lia. }
  rewrite Es. destruct (a =? 0) eqn:E0, (2 ^ (w - 1) <=? a) eqn:E1; zbool; simpl; lia.
Qed.

Lemma lxor_zero a b : (Z.lxor a b =? 0) = (a =? b).
Proof.
  destruct (a =? b) eqn:E; zbool.
  - subst. by rewrite Z.lxor_nilpotent.
  - apply Z.eqb_neq. intros Hx. apply E. by apply Z.lxor_eq.
Qed.

Lemma eq_mask w a b : 0 < w -> is_word w a -> is_word w b ->
  constant_time_eq w a b = maskw w (a =? b).
Proof.
  intros. unfold constant_time_eq. rewrite is_zero_mask, lxor_zero by (done || auto with qtls lia). done.
Qed.

Lemma land_mask w b a : 0 <= w -> is_word w a -> Z.land (maskw w b) a = if b then a else 0.
Proof.
  intros Hw Ha. rewrite maskw_ones by done. destruct b; [|done].
  rewrite Z.land_comm, Z.land_ones by done. by apply Z.mod_small.
Qed.

Lemma select_mask w c a b : 0 < w -> is_word w a -> is_word w b ->
  constant_time_select w (maskw w c) a b = if c then a else b.
Proof.
  intros Hw Ha Hb. unfold constant_time_select. rewrite not_mask, !land_mask by (done || lia).
  destruct c; simpl; [apply Z.lor_0_r|done].
Qed.

(** Truncating a mask gives the narrower mask. *)
Lemma wrapw_mask v w b : 0 <= v <= w -> wrapw v (maskw w b) = maskw v b.
Proof.
  intros Hv. unfold wrapw, maskw. destruct b; [|by rewrite Z.mod_0_l by lia].
  symmetry. apply Z.mod_unique with (2 ^ (w - v) - 1); [left; lia|].
  rewrite Z.mul_sub_distr_l, <- Z.pow_add_r by lia. replace (v + (w - v)) with w by lia. lia.
Qed.

Lemma select_8_mask c a b : is_byte a -> is_byte b ->
  constant_time_select_8 (maskw 8 c) a b = if c then a else b.
Proof.
  intros Ha Hb. unfold constant_time_select_8.
  assert (is_word 8 a /\ is_word 8 b) as [Ha8 Hb8] by done.
  unfold constant_time_select. rewrite land_mask by (done || lia).
  assert (E : Z.land (wnot 32 (maskw 8 c)) b = if c then 0 else b).
  { destruct c.
    - apply Z.bits_inj'. intros i Hi. rewrite Z.land_spec, Z.bits_0. destruct (decide (i < 8)).
      + rewrite wnot_bit by lia. unfold maskw. change (2 ^ 8 - 1) with (Z.ones 8).
        by rewrite Z.ones_spec_low by lia.
      + rewrite (word_bit 8 b) by (done || lia). apply andb_false_r.
    - change (maskw 8 false) with (maskw 32 false). rewrite not_mask, land_mask by (done || unfold is_word in *; lia).
      done. }
  rewrite E. destruct c; [rewrite Z.lor_0_r|]; by apply wrapw_small.
Qed.

(** *** Exchange *)

Lemma cond_swap_mask w c a b : 0 <= w -> is_word w a -> is_word w b ->
  constant_time_cond_swap (maskw w c) a b = if c then (b, a) else (a, b).
Proof.
  intros Hw Ha Hb. unfold constant_time_cond_swap.
  rewrite Z.land_comm, land_mask by auto with qtls. destruct c; [|by rewrite !Z.lxor_0_r].
  f_equal.
  - by rewrite <- Z.lxor_assoc, Z.lxor_nilpotent, Z.lxor_0_l.
  - by rewrite (Z.lxor_comm a), <- Z.lxor_assoc, Z.lxor_nilpotent, Z.lxor_0_l.
Qed.

Lemma cond_swap_buff_mask c a b : length a = length b -> Forall is_byte a -> Forall is_byte b ->
  constant_time_cond_swap_buff (maskw 8 c) a b = if c then (b, a) else (a, b).
Proof.
  revert b. induction a as [|x a IH]; intros [|y b] Hl Ha Hb; try done; [by destruct c|].
  apply Forall_cons in Ha as [Hx Ha], Hb as [Hy Hb]. injection Hl as Hl.
  cbn [constant_time_cond_swap_buff].
  rewrite (cond_swap_mask 8), IH by (done || lia). by destruct c.
Qed.

(** *** Table lookup *)

Section Lookup.
Context (rowsize : nat).

Definition row_ok (row : list Z) : Prop := length row = rowsize /\ Forall is_byte row.

(** One round: the row is ORed in when [idx] is zero. *)
Lemma lookup_round out row idx : row_ok row -> length out = rowsize -> is_word 64 idx ->
  zip_with (fun o x => Z.lor o (constant_time_select_8 (wrapw 8 (constant_time_is_zero 64 idx)) x 0)) out row
  = if idx =? 0 then zip_with Z.lor out row else out.
Proof.
  intros [Hl Hr] Hlo Hi. rewrite is_zero_mask, wrapw_mask by (done || lia).
  assert (E : forall out row, length row = length out -> Forall is_byte row ->
    zip_with (fun o x => Z.lor o (constant_time_select_8 (maskw 8 (idx =? 0)) x 0)) out row
    = if idx =? 0 then zip_with Z.lor out row else out); [|apply E; [lia|done]].
  clear. induction out as [|o out IH]; intros [|x row] Hl Hr; try done; [by destruct (_ =? _)|].
  apply Forall_cons in Hr as [Hx Hr]. injection Hl as Hl. simpl. rewrite IH by done.
  rewrite select_8_mask by (done || by split). destruct (idx =? 0); [done|]. by rewrite Z.lor_0_r.
Qed.

Lemma lookup_none rows : forall out idx, Forall row_ok rows -> length out = rowsize ->
  Z.of_nat (length rows) <= idx < 2 ^ 64 -> lookup_rows out rows idx = out.
Proof.
  induction rows as [|row rows IH]; intros out idx Hr Ho Hi; [done|].
  apply Forall_cons in Hr as [Hrow Hr]. simpl in *. rewrite lookup_round by (done || split; lia).
  rewrite (proj2 (Z.eqb_neq _ _)) by lia. apply IH; try done.
  unfold wsub. rewrite wrapw_small by (split; lia). lia.
Qed.

Lemma lookup_finds rows : forall out i row, Forall row_ok rows -> length out = rowsize ->
  Z.of_nat (length rows) < 2 ^ 64 -> rows !! i = Some row ->
  lookup_rows out rows (Z.of_nat i) = zip_with Z.lor out row.
Proof.
  induction rows as [|r rows IH]; intros out i row Hr Ho Hl Hi; [done|].
  apply Forall_cons in Hr as [Hrow Hr]. pose proof (lookup_lt_Some _ _ _ Hi) as Hlt. simpl in *.
  rewrite lookup_round by (done || split; lia).
  destruct i as [|i]; simplify_eq/=.
  - apply lookup_none; [done| |].
    + destruct Hrow as [Hr1 _]. by rewrite length_zip_with, Hr1, Ho, Nat.min_id.
    + change (wsub 64 (Z.of_nat 0) 1) with (2 ^ 64 - 1). lia.
  - unfold wsub. rewrite wrapw_small by (split; lia).
    replace (Z.of_nat (S i) - 1) with (Z.of_nat i) by lia. apply IH; (done || lia).
Qed.
End Lookup.

Lemma zip_with_lor_0 row : zip_with Z.lor (replicate (length row) 0) row = row.
Proof. induction row as [|x row IH]; simpl; [done|]. by rewrite IH. Qed.

(** C38.  The branch-free operations compute what the branching ones would: the
    comparisons return all ones or zero according to the truth of the comparison
    of the words, selection and exchange follow such a mask, and the table
    lookup returns the row asked for. *)
Theorem constant_time_equiv (w a b : Z) (Hw : 0 < w) (Ha : is_word w a) (Hb : is_word w b) :
  constant_time_lt w a b = (if a <? b then 2 ^ w - 1 else 0)
  /\ constant_time_ge w a b = (if b <=? a then 2 ^ w - 1 else 0)
  /\ constant_time_eq w a b = (if a =? b then 2 ^ w - 1 else 0)
  /\ constant_time_is_zero w a = (if a =? 0 then 2 ^ w - 1 else 0)
  /\ constant_time_select w (2 ^ w - 1) a b = a /\ constant_time_select w 0 a b = b
  /\ constant_time_cond_swap (2 ^ w - 1) a b = (b, a) /\ constant_time_cond_swap 0 a b = (a, b)
  /\ (forall x y, length x = length y -> Forall is_byte x -> Forall is_byte y ->
        constant_time_cond_swap_buff 255 x y = (y, x) /\ constant_time_cond_swap_buff 0 x y = (x, y))
  /\ (forall table i row, Forall (row_ok (length row)) table -> Z.of_nat (length table) < 2 ^ 64 ->
        table !! i = Some row -> constant_time_lookup (length row) table (Z.of_nat i) = row).
Proof.
  split_and!.
  - by apply lt_mask.
  - by apply ge_mask.
  - by apply eq_mask.
  - by apply is_zero_mask.
  - by apply (select_mask w true).
  - by apply (select_mask w false).
  - apply (cond_swap_mask w true); (done || lia).
  - apply (cond_swap_mask w false); (done || lia).
  - intros x y Hl Hx Hy. split; [by apply (cond_swap_buff_mask true)|by apply (cond_swap_buff_mask false)].
  - intros table i row Ht Hl Hi. unfold constant_time_lookup.
    rewrite (lookup_finds (length row) table _ i row), zip_with_lor_0 by (done || apply length_replicate). done.
Qed.

Lemma constant_time_equiv_witness :
  constant_time_lt 32 5 4294967295 = 4294967295 /\ constant_time_ge 32 5 4294967295 = 0.
Proof.
  destruct (constant_time_equiv 32 5 4294967295) as (-> & -> & _); [lia|unfold is_word; lia..|]. done.
Defined.

(** With the mask a comment on the 64-bit exchange allows, only the low halves
    change places. *)
Lemma swap_64_short_mask :
  constant_time_cond_swap 0xffffffff 0x100000002 0x300000004 = (0x100000004, 0x300000002).
Proof. reflexivity. Qed.
