(* ===== verification/Buffer.v ===== *)
(** * Growable buffers

    [BUF_MEM] of crypto/buffer/buffer.c, over the allocation wrappers of
    crypto/mem.c.  The C library's [malloc] and [realloc] and the secure heap
    are parameters (class [Libc]); what the code relies on is class [LibcOk]:
    a block has the requested size, and reallocation keeps the old contents.
    The contents of fresh memory are arbitrary.  The user-replaceable
    allocation hooks of crypto/mem.c are the defaults. *)

From stdpp Require Import prelude.
From Stdlib Require Import ZArith Lia.
From S2P Require Import Prelude.

Local Open Scope Z_scope.
Local Open Scope st_scope.

Class Libc : Type := {
  malloc : Z -> option (list Z);
  realloc : list Z -> Z -> option (list Z);
  OPENSSL_secure_malloc : Z -> option (list Z)
}.

Class LibcOk (L : Libc) : Prop := {
  malloc_size n d : 0 < n -> malloc n = Some d ->
    Z.of_nat (length d) = n /\ Forall is_byte d;
  realloc_keeps old n d : 0 < n -> Forall is_byte old -> realloc old n = Some d ->
    Z.of_nat (length d) = n /\ Forall is_byte d /\
    take (length old `min` Z.to_nat n) d = take (length old `min` Z.to_nat n) old;
  secure_malloc_size n d : 0 < n -> OPENSSL_secure_malloc n = Some d ->
    Z.of_nat (length d) = n /\ Forall is_byte d
}.

(** ** crypto/mem.c *)

Section Mem.
Context `{Libc}.

Definition CRYPTO_malloc (num : Z) : option (list Z) :=
  if num =? 0 then None else malloc num.

Definition CRYPTO_zalloc (num : Z) : option (list Z) :=
  match CRYPTO_malloc num with
  | None => None
  | Some d => Some (replicate (length d) 0)
  end.

Definition CRYPTO_realloc (str : option (list Z)) (num : Z) : option (list Z) :=
  match str with
  | None => CRYPTO_malloc num
  | Some s => if num =? 0 then None else realloc s num
  end.

(** [Fault] when the copy leaves one of the blocks. *)
Definition CRYPTO_clear_realloc (str : option (list Z)) (old_len num : Z)
  : ret (option (list Z)) :=
  match str with
  | None => Ok (CRYPTO_malloc num)
  | Some s =>
      if num =? 0 then Ok None
      else if num <? old_len then
        match mem_write s num (replicate (Z.to_nat (old_len - num)) 0) with
        | Some s' => Ok (Some s')
        | None => Fault
        end
      else match CRYPTO_malloc num with
           | None => Ok None
           | Some new =>
               match mem_read s 0 old_len with
               | None => Fault
               | Some old => match mem_write new 0 old with
                             | None => Fault
                             | Some new' => Ok (Some new')
                             end
               end
           end
  end.
End Mem.

(** ** crypto/buffer/buffer.c *)

Definition LIMIT_BEFORE_EXPANSION : Z := 0x5ffffffc.
Definition BUF_MEM_FLAG_SECURE : Z := 1.

Record BUF_MEM : Type := mkBUF_MEM {
  buf_length : Z;
  buf_data : option (list Z);
  buf_max : Z;
  buf_flags : Z
}.

(** [memset(&data[off], 0, n)]; a null [data] with [n > 0] faults. *)
Definition zero_fill (data : option (list Z)) (off n : Z) : option (option (list Z)) :=
  match data with
  | None => if n =? 0 then Some None else None
  | Some d => match mem_write d off (replicate (Z.to_nat n) 0) with
              | Some d' => Some (Some d')
              | None => None
              end
  end.

Section Buffer.
Context `{Libc}.

(** The structure itself takes 32 bytes; a null result is [None]. *)
Definition BUF_MEM_new : option BUF_MEM :=
  match CRYPTO_zalloc 32 with
  | None => None
  | Some _ => Some (mkBUF_MEM 0 None 0 0)
  end.

Definition BUF_MEM_new_ex (flags : Z) : option BUF_MEM :=
  match BUF_MEM_new with
  | None => None
  | Some r => Some (mkBUF_MEM (buf_length r) (buf_data r) (buf_max r) flags)
  end.

Definition sec_alloc_realloc (str : BUF_MEM) (len : Z) : ret (option (list Z)) :=
  match OPENSSL_secure_malloc len with
  | None => Ok None
  | Some new =>
      match buf_data str with
      | None => Ok (Some new)
      | Some d =>
          match mem_read d 0 (buf_length str) with
          | None => Fault
          | Some old => match mem_write new 0 old with
                        | None => Fault
                        | Some new' => Ok (Some new')
                        end
          end
      end
  end.

(** The common tail of the two growing functions: install the new block and
    clear the bytes between the old and the new length. *)
Definition grow_install (str : BUF_MEM) (len n : Z) (blk : ret (option (list Z)))
  : ret Z * BUF_MEM :=
  match blk with
  | Fault => (Fault, str)
  | Fail | Ok None => (Ok 0, str)
  | Ok (Some d) =>
      match zero_fill (Some d) (buf_length str) (len - buf_length str) with
      | None => (Fault, str)
      | Some d' => (Ok len, mkBUF_MEM len d' n (buf_flags str))
      end
  end.

Definition BUF_MEM_grow (len : Z) : ST BUF_MEM Z := fun str =>
  if len <=? buf_length str then
    (Ok len, mkBUF_MEM len (buf_data str) (buf_max str) (buf_flags str))
  else if len <=? buf_max str then
    match buf_data str with
    | None => (Ok len, mkBUF_MEM len None (buf_max str) (buf_flags str))
    | Some _ =>
        match zero_fill (buf_data str) (buf_length str) (len - buf_length str) with
        | None => (Fault, str)
        | Some d => (Ok len, mkBUF_MEM len d (buf_max str) (buf_flags str))
        end
    end
  else if LIMIT_BEFORE_EXPANSION <? len then (Ok 0, str)
  else
    let n := (len + 3) / 3 * 4 in
    grow_install str len n
      (if has (buf_flags str) BUF_MEM_FLAG_SECURE then sec_alloc_realloc str n
       else Ok (CRYPTO_realloc (buf_data str) n)).

Definition BUF_MEM_grow_clean (len : Z) : ST BUF_MEM Z := fun str =>
  if len <=? buf_length str then
    match buf_data str with
    | None => (Ok len, mkBUF_MEM len None (buf_max str) (buf_flags str))
    | Some _ =>
        match zero_fill (buf_data str) len (buf_length str - len) with
        | None => (Fault, str)
        | Some d => (Ok len, mkBUF_MEM len d (buf_max str) (buf_flags str))
        end
    end
  else if len <=? buf_max str then
    match zero_fill (buf_data str) (buf_length str) (len - buf_length str) with
    | None => (Fault, str)
    | Some d => (Ok len, mkBUF_MEM len d (buf_max str) (buf_flags str))
    end
  else if LIMIT_BEFORE_EXPANSION <? len then (Ok 0, str)
  else
    let n := (len + 3) / 3 * 4 in
    grow_install str len n
      (if has (buf_flags str) BUF_MEM_FLAG_SECURE then sec_alloc_realloc str n
       else CRYPTO_clear_realloc (buf_data str) (buf_max str) n).
End Buffer.

(** ** Invariant and contents *)

Definition buf_wf (b : BUF_MEM) : Prop :=
  0 <= buf_length b <= buf_max b /\
  match buf_data b with
  | None => buf_max b = 0
  | Some d => Z.of_nat (length d) = buf_max b /\ Forall is_byte d
  end.

Definition contents (b : BUF_MEM) : list Z :=
  match buf_data b with None => [] | Some d => take (Z.to_nat (buf_length b)) d end.

(** What growing to [len] does to the contents: cut, or pad with zeros. *)
Definition resized (len : Z) (c : list Z) : list Z :=
  take (Z.to_nat len) (c ++ replicate (Z.to_nat len - length c) 0).

Lemma length_contents b : buf_wf b -> length (contents b) = Z.to_nat (buf_length b).
Proof.
  intros [Hl Hd]. unfold contents. destruct (buf_data b) as [d|]; simpl; [|lia].
  rewrite length_take. lia.
Qed.

Lemma length_resized len c : length (resized len c) = Z.to_nat len.
Proof. unfold resized. rewrite length_take, length_app, length_replicate. lia. Qed.

Lemma is_byte_0 : is_byte 0.
Proof. unfold is_byte. lia. Qed.

Lemma Forall_mem_write d off bs d' :
  Forall is_byte d -> Forall is_byte bs -> mem_write d off bs = Some d' -> Forall is_byte d'.
Proof.
  unfold mem_write. intros Hd Hb H. case_match; simplify_eq.
  rewrite !Forall_app. auto using Forall_take, Forall_drop.
Qed.

Lemma grow_install_spec str len n d : buf_wf str -> buf_length str <= len <= n ->
  Z.of_nat (length d) = n -> Forall is_byte d ->
  take (Z.to_nat (buf_length str)) d = contents str ->
  exists d', grow_install str len n (Ok (Some d)) = (Ok len, mkBUF_MEM len (Some d') n (buf_flags str))
    /\ buf_wf (mkBUF_MEM len (Some d') n (buf_flags str))
    /\ take (Z.to_nat len) d' = resized len (contents str).
Proof.
  intros Hwf Hlen Hd Hb Hp. pose proof (length_contents _ Hwf) as Hc.
  destruct Hwf as [Hl _]. unfold grow_install, zero_fill.
  rewrite mem_write_Some by (rewrite ?length_replicate; lia).
  eexists; split_and!; [done| |].
  - split; simpl; [lia|]. split.
    + rewrite !length_app, length_take, length_drop, length_replicate. lia.
    + rewrite !Forall_app. split_and!;
        auto using Forall_take, Forall_drop, Forall_replicate, is_byte_0.
  - rewrite Hp, length_replicate. unfold resized.
    rewrite app_assoc, take_app_le by (rewrite length_app, length_replicate; lia).
    f_equal. f_equal. f_equal. lia.
Qed.

(** Outcome of a growing call: the new length, cut or zero-padded contents and
    the invariant; or [0] with the buffer untouched, only when the block was
    too small. *)
Definition grown (m : ST BUF_MEM Z) (len : Z) (str : BUF_MEM) : Prop :=
  (exists str', m str = (Ok len, str') /\ buf_wf str' /\ buf_length str' = len /\
     buf_flags str' = buf_flags str /\ contents str' = resized len (contents str)) \/
  (m str = (Ok 0, str) /\ buf_max str < len).

Section GrowProofs.
Context `{L : Libc} {LO : LibcOk L}.

Lemma resized_shorter len c : 0 <= len -> (Z.to_nat len <= length c)%nat ->
  resized len c = take (Z.to_nat len) c.
Proof. intros ? H. unfold resized. by rewrite take_app_le. Qed.

Lemma expansion_bound len : 0 <= len -> len <= (len + 3) / 3 * 4 /\ 0 < (len + 3) / 3 * 4.
Proof. intros H. pose proof (Z.div_mod (len + 3) 3). pose proof (Z.mod_pos_bound (len + 3) 3). lia. Qed.

Lemma realloc_prefix (d d' : list Z) k n :
  (k <= length d)%nat -> (k <= n)%nat ->
  take (length d `min` n) d' = take (length d `min` n) d -> take k d' = take k d.
Proof.
  intros H1 H2 H. apply (f_equal (take k)) in H.
  by rewrite !take_take, !Nat.min_l in H by lia.
Qed.

(** A copy of the old contents at the start of a fresh block. *)
Lemma copy_prefix (new old : list Z) :
  (length old <= length new)%nat ->
  exists d, mem_write new 0 old = Some d /\ length d = length new /\
    forall k, (k <= length old)%nat -> take k d = take k old.
Proof.
  intros Hl. rewrite mem_write_Some by lia. eexists; split_and!; [done| |].
  - rewrite !length_app, length_take, length_drop. simpl. lia.
  - intros k Hk. change (Z.to_nat 0) with 0%nat. rewrite take_0. simpl. by rewrite take_app_le.
Qed.

Lemma mem_read_prefix (d : list Z) n : 0 <= n <= Z.of_nat (length d) ->
  mem_read d 0 n = Some (take (Z.to_nat n) d).
Proof. intros H. unfold mem_read. by rewrite !(proj2 (Z.leb_le _ _)) by lia. Qed.

Lemma sec_alloc_realloc_spec str n : buf_wf str -> 0 < n -> buf_max str <= n ->
  sec_alloc_realloc str n = Ok None \/
  exists d, sec_alloc_realloc str n = Ok (Some d) /\ Z.of_nat (length d) = n /\
    Forall is_byte d /\ take (Z.to_nat (buf_length str)) d = contents str.
Proof.
  intros [Hl Hd] Hn Hm. unfold sec_alloc_realloc, contents.
  destruct (OPENSSL_secure_malloc n) as [new|] eqn:E; [|by left]. right.
  apply secure_malloc_size in E as [En Eb]; [|done].
  destruct (buf_data str) as [d|]; simpl in Hd.
  - destruct Hd as [Hd1 Hd2]. rewrite mem_read_prefix by lia.
    destruct (copy_prefix new (take (Z.to_nat (buf_length str)) d)) as (d' & W & Hd' & Hp).
    { rewrite length_take. lia. }
    rewrite W. exists d'. split_and!; [done|lia| |].
    + eapply Forall_mem_write; [| |done]; auto using Forall_take.
    + rewrite Hp by (rewrite length_take; lia). by rewrite take_take, Nat.min_id.
  - exists new. split_and!; [done..|]. replace (buf_length str) with 0 by lia. done.
Qed.

Lemma CRYPTO_realloc_spec str n : buf_wf str -> 0 < n -> buf_max str <= n ->
  CRYPTO_realloc (buf_data str) n = None \/
  exists d, CRYPTO_realloc (buf_data str) n = Some d /\ Z.of_nat (length d) = n /\
    Forall is_byte d /\ take (Z.to_nat (buf_length str)) d = contents str.
Proof.
  intros [Hl Hd] Hn Hm. unfold CRYPTO_realloc, CRYPTO_malloc, contents.
  rewrite (proj2 (Z.eqb_neq n 0)) by lia.
  destruct (buf_data str) as [d|]; simpl in Hd.
  - destruct (realloc d n) as [d'|] eqn:E; [|by left]. right. exists d'.
    apply realloc_keeps in E as (E1 & E2 & E3); [|done|tauto]. split_and!; try done.
    eapply realloc_prefix; [| |done]; lia.
  - destruct (malloc n) as [d'|] eqn:E; [|by left]. right. exists d'.
    apply malloc_size in E as [E1 E2]; [|done]. split_and!; try done.
    replace (buf_length str) with 0 by lia. done.
Qed.

Lemma CRYPTO_clear_realloc_spec str n : buf_wf str -> 0 < n -> buf_max str <= n ->
  CRYPTO_clear_realloc (buf_data str) (buf_max str) n = Ok None \/
  exists d, CRYPTO_clear_realloc (buf_data str) (buf_max str) n = Ok (Some d) /\
    Z.of_nat (length d) = n /\ Forall is_byte d /\
    take (Z.to_nat (buf_length str)) d = contents str.
Proof.
  intros [Hl Hd] Hn Hm. unfold CRYPTO_clear_realloc, CRYPTO_malloc, contents.
  rewrite (proj2 (Z.eqb_neq n 0)), (proj2 (Z.ltb_ge n _)) by lia.
  destruct (malloc n) as [new|] eqn:E; [|destruct (buf_data str); by left].
  apply malloc_size in E as [E1 E2]; [|done]. right.
  destruct (buf_data str) as [d|]; simpl in Hd.
  - destruct Hd as [Hd1 Hd2]. rewrite mem_read_prefix by lia.
    rewrite take_ge by lia.
    destruct (copy_prefix new d) as (d' & W & Hd' & Hp); [lia|].
    rewrite W. exists d'. split_and!; [done|lia| |by apply Hp; lia].
    by eapply Forall_mem_write; [| |done].
  - exists new. split_and!; [done..|]. replace (buf_length str) with 0 by lia. done.
Qed.

(** Growing within the block. *)
Lemma zero_fill_spec str len d : buf_wf str -> buf_data str = Some d ->
  buf_length str <= len <= buf_max str ->
  exists d', zero_fill (Some d) (buf_length str) (len - buf_length str) = Some (Some d') /\
    buf_wf (mkBUF_MEM len (Some d') (buf_max str) (buf_flags str)) /\
    take (Z.to_nat len) d' = resized len (contents str).
Proof.
  intros Hwf E Hlen. pose proof Hwf as [_ Hd]. rewrite E in Hd. destruct Hd as [Hd1 Hd2].
  destruct (grow_install_spec str len (buf_max str) d Hwf Hlen Hd1 Hd2) as (d' & G & W & C).
  { unfold contents. by rewrite E. }
  exists d'. split_and!; try done. unfold grow_install in G.
  destruct (zero_fill _ _ _); simplify_eq. done.
Qed.

(** Growing into a new block. *)
Lemma grow_install_grown str len (blk : ret (option (list Z))) (m : ST BUF_MEM Z) :
  let n := (len + 3) / 3 * 4 in
  buf_wf str -> buf_max str < len ->
  (blk = Ok None \/ exists d, blk = Ok (Some d) /\ Z.of_nat (length d) = n /\
     Forall is_byte d /\ take (Z.to_nat (buf_length str)) d = contents str) ->
  m str = grow_install str len n blk -> grown m len str.
Proof.
  intros n Hwf Hlen Hblk Hm. pose proof Hwf as [Hl _].
  pose proof (expansion_bound len ltac:(lia)).
  destruct Hblk as [->|(d & -> & H1 & H2 & H3)]; [by right|left].
  destruct (grow_install_spec str len n d Hwf ltac:(lia) H1 H2 H3) as (d' & G & W & C).
  rewrite Hm, G. by eexists.
Qed.

Lemma shrink_spec str len d : buf_wf str -> 0 <= len <= buf_length str ->
  length d = length (default [] (buf_data str)) -> Forall is_byte d ->
  take (Z.to_nat len) d = take (Z.to_nat len) (contents str) -> buf_data str <> None ->
  let str' := mkBUF_MEM len (Some d) (buf_max str) (buf_flags str) in
  buf_wf str' /\ contents str' = resized len (contents str).
Proof.
  intros Hwf Hlen Hd Hb Hp Hn. pose proof (length_contents _ Hwf) as Hc.
  destruct Hwf as [Hl Hwf]. destruct (buf_data str) eqn:E; [|done]. simpl in *.
  split; [split; simpl; [lia|split; [lia|done]]|].
  unfold contents at 1. simpl. rewrite Hp, resized_shorter by lia. done.
Qed.

Lemma take_contents str len d : buf_data str = Some d -> 0 <= len <= buf_length str ->
  take (Z.to_nat len) (contents str) = take (Z.to_nat len) d.
Proof. intros E H. unfold contents. rewrite E, take_take. f_equal. lia. Qed.

Lemma grow_no_data str len : buf_wf str -> buf_data str = None -> len <= buf_max str -> 0 <= len ->
  let str' := mkBUF_MEM len None (buf_max str) (buf_flags str) in
  buf_wf str' /\ contents str' = resized len (contents str).
Proof.
  intros [Hl Hd] E Hlen H0. rewrite E in Hd. split; [split; simpl; [lia|done]|].
  replace len with 0 by lia. unfold contents. simpl. rewrite E. done.
Qed.

Lemma grow_shrinks str len : buf_wf str -> 0 <= len <= buf_length str ->
  grown (BUF_MEM_grow len) len str.
Proof.
  intros Hwf Hlen. left. unfold BUF_MEM_grow. rewrite (proj2 (Z.leb_le _ _)) by lia.
  pose proof Hwf as [Hl Hd]. destruct (buf_data str) as [d|] eqn:Ed.
  - destruct (shrink_spec str len d Hwf) as [W C]; rewrite ?Ed; try done; [tauto| |by eexists].
    by rewrite (take_contents _ _ d).
  - destruct (grow_no_data str len Hwf Ed) as [W C]; [lia..|]. by eexists.
Qed.

Lemma grow_clean_shrinks str len : buf_wf str -> 0 <= len <= buf_length str ->
  grown (BUF_MEM_grow_clean len) len str.
Proof.
  intros Hwf Hlen. left. unfold BUF_MEM_grow_clean. rewrite (proj2 (Z.leb_le _ _)) by lia.
  pose proof Hwf as [Hl Hd]. destruct (buf_data str) as [d|] eqn:Ed.
  2: { destruct (grow_no_data str len Hwf Ed) as [W C]; [lia..|]. by eexists. }
  unfold zero_fill. rewrite mem_write_Some by (rewrite ?length_replicate; lia).
  eexists; split; [done|]. rewrite length_replicate.
  assert (Forall is_byte (replicate (Z.to_nat (buf_length str - len)) 0))
    by apply Forall_replicate, is_byte_0.
  edestruct (shrink_spec str len) as [W C]; cycle 6; [done| |idtac..]; rewrite ?Ed; simpl; try done.
  - rewrite !length_app, length_take, length_drop, length_replicate. lia.
  - rewrite !Forall_app. split_and!; try done; [apply Forall_take|apply Forall_drop]; tauto.
  - rewrite (take_contents _ _ d), take_app_le by (done || rewrite length_take; lia).
    by rewrite take_take, Nat.min_id.
Qed.

Lemma grow_in_block str len : buf_wf str -> buf_length str < len <= buf_max str ->
  grown (BUF_MEM_grow len) len str /\ grown (BUF_MEM_grow_clean len) len str.
Proof.
  intros Hwf Hlen. pose proof Hwf as [Hl Hd].
  destruct (buf_data str) as [d|] eqn:Ed; [|lia].
  destruct (zero_fill_spec str len d Hwf Ed) as (d' & Z & W & C); [lia|].
  split; left; eexists; unfold BUF_MEM_grow, BUF_MEM_grow_clean;
    rewrite (proj2 (Z.leb_gt len (buf_length str))), (proj2 (Z.leb_le len (buf_max str))), Ed, Z
      by lia; done.
Qed.

Lemma grow_new_block str len : buf_wf str -> buf_max str < len ->
  grown (BUF_MEM_grow len) len str /\ grown (BUF_MEM_grow_clean len) len str.
Proof.
  intros Hwf Hlen. pose proof Hwf as [Hl _]. pose proof (expansion_bound len ltac:(lia)).
  destruct (LIMIT_BEFORE_EXPANSION <? len) eqn:E.
  { split; right; unfold BUF_MEM_grow, BUF_MEM_grow_clean;
      rewrite (proj2 (Z.leb_gt len (buf_length str))), (proj2 (Z.leb_gt len (buf_max str))), E
        by lia; done. }
  split; (eapply grow_install_grown; [done|done| |
    unfold BUF_MEM_grow, BUF_MEM_grow_clean;
    rewrite (proj2 (Z.leb_gt len (buf_length str))), (proj2 (Z.leb_gt len (buf_max str))), E
      by lia; reflexivity]); simpl;
    (destruct (has _ _); [apply sec_alloc_realloc_spec; (done || lia)|]).
  - destruct (CRYPTO_realloc_spec str ((len + 3) / 3 * 4)) as [->|(d & -> & ?)];
      [done|lia|lia|by left|]. right. by exists d.
  - apply CRYPTO_clear_realloc_spec; (done || lia).
Qed.

(** [BUF_MEM_grow] and [BUF_MEM_grow_clean] are memory safe and keep the
    data: with any conforming allocator, on a well-formed buffer, each returns
    the requested length with the old contents cut or zero-padded to it (the
    structure well formed again), or returns 0 with the buffer unchanged - and
    the latter only when a larger block was needed.  No access leaves a
    block. *)
Lemma BUF_MEM_grow_correct (str : BUF_MEM) (len : Z) (Hwf : buf_wf str) (Hlen : 0 <= len) :
  grown (BUF_MEM_grow len) len str /\ grown (BUF_MEM_grow_clean len) len str.
Proof.
  destruct (decide (len <= buf_length str)).
  { split; [apply grow_shrinks | apply grow_clean_shrinks]; (done || lia). }
  destruct (decide (len <= buf_max str)); [apply grow_in_block | apply grow_new_block]; (done || lia).
Qed.
End GrowProofs.

(** An allocator that always delivers zeroed memory. *)
Definition zero_libc : Libc := {|
  malloc n := Some (replicate (Z.to_nat n) 0);
  realloc old n := Some (resized n old);
  OPENSSL_secure_malloc n := Some (replicate (Z.to_nat n) 0)
|}.

Lemma zero_libc_ok : LibcOk zero_libc.
Proof.
  assert (Hz : forall n, 0 < n -> Z.of_nat (length (replicate (Z.to_nat n) 0)) = n /\
    Forall is_byte (replicate (Z.to_nat n) 0)).
  { intros n Hn. rewrite length_replicate. split; [lia|]. apply Forall_replicate, is_byte_0. }
  split.
  - intros n d Hn [= <-]. by apply Hz.
  - intros old n d Hn Ho [= <-]. rewrite length_resized. split_and!; [lia| |].
    + unfold resized. apply Forall_take, Forall_app. split; [done|].
      apply Forall_replicate, is_byte_0.
    + unfold resized. rewrite take_take, take_app_le by lia. f_equal. lia.
  - intros n d Hn [= <-]. by apply Hz.
Qed.

Example BUF_MEM_grow_correct_witness :
  grown (@BUF_MEM_grow zero_libc 3) 3 (mkBUF_MEM 1 (Some [9; 9; 9; 9]) 4 0) /\
  grown (@BUF_MEM_grow_clean zero_libc 9) 9 (mkBUF_MEM 1 (Some [9; 9; 9; 9]) 4 0) /\
  fst (@BUF_MEM_grow zero_libc 9 (mkBUF_MEM 1 (Some [9; 9; 9; 9]) 4 0)) = Ok 9.
Proof.
  assert (W : buf_wf (mkBUF_MEM 1 (Some [9; 9; 9; 9]) 4 0)).
  { split; simpl; [lia|]. split; [done|]. repeat constructor; unfold is_byte; lia. }
  split_and!.
  - apply (@BUF_MEM_grow_correct zero_libc zero_libc_ok _ 3 W); lia.
  - apply (@BUF_MEM_grow_correct zero_libc zero_libc_ok _ 9 W); lia.
  - vm_compute. reflexivity.
Defined.
