(* ===== verification/WPacket.v ===== *)
(** * The packet writer

    [WPACKET] of crypto/packet.c: builds messages with nested length-prefixed
    sub-packets in a growable buffer ([BUF_MEM]), in a fixed buffer, or in no
    buffer at all (only counting), from the front or - for DER - from the end.
    Pointers handed out by the C functions are offsets into the current
    buffer; a store outside it is [Fault].  [ossl_assert] is its release-build
    meaning, the value of its condition. *)

From stdpp Require Import prelude.
From Stdlib Require Import ZArith Lia.
From S2P Require Import Prelude Buffer.

Local Open Scope Z_scope.
Local Open Scope st_scope.

Definition DEFAULT_BUF_SIZE : Z := 256.

Abbreviation WPACKET_FLAGS_NONE := (0)%Z.
Abbreviation WPACKET_FLAGS_NON_ZERO_LENGTH := (1)%Z.
Definition WPACKET_FLAGS_ABANDON_ON_ZERO_LENGTH : Z := 2.

Record WPACKET_SUB : Type := mkSUB {
  packet_len : Z;
  lenbytes : Z;
  pwritten : Z;
  flags : Z
}.

(** [subs] lists the open sub-packets, the current one first; the parent of a
    sub-packet is the next element. *)
Record WPACKET : Type := mkWPACKET {
  wbuf : option BUF_MEM;
  staticbuf : option (list Z);
  wcurr : Z;
  written : Z;
  maxsize : Z;
  subs : list WPACKET_SUB;
  endfirst : bool
}.

Definition set_buf (b : option BUF_MEM) (p : WPACKET) : WPACKET :=
  mkWPACKET b (staticbuf p) (wcurr p) (written p) (maxsize p) (subs p) (endfirst p).
Definition set_staticbuf (b : option (list Z)) (p : WPACKET) : WPACKET :=
  mkWPACKET (wbuf p) b (wcurr p) (written p) (maxsize p) (subs p) (endfirst p).
Definition set_pos (c w : Z) (p : WPACKET) : WPACKET :=
  mkWPACKET (wbuf p) (staticbuf p) c w (maxsize p) (subs p) (endfirst p).
Definition set_maxsize (m : Z) (p : WPACKET) : WPACKET :=
  mkWPACKET (wbuf p) (staticbuf p) (wcurr p) (written p) m (subs p) (endfirst p).
Definition set_subs (l : list WPACKET_SUB) (p : WPACKET) : WPACKET :=
  mkWPACKET (wbuf p) (staticbuf p) (wcurr p) (written p) (maxsize p) l (endfirst p).

Definition GETBUF (p : WPACKET) : option (list Z) :=
  match staticbuf p with
  | Some b => Some b
  | None => match wbuf p with Some b => buf_data b | None => None end
  end.

(** Bytes stored through a pointer into the current buffer. *)
Definition store (off : Z) (bs : list Z) : ST WPACKET unit := fun p =>
  match staticbuf p with
  | Some b => match mem_write b off bs with
              | Some b' => (Ok tt, set_staticbuf (Some b') p)
              | None => (Fault, p)
              end
  | None =>
      match wbuf p with
      | Some b =>
          match buf_data b with
          | Some d => match mem_write d off bs with
                      | Some d' => (Ok tt, set_buf (Some (mkBUF_MEM (buf_length b) (Some d')
                                                          (buf_max b) (buf_flags b))) p)
                      | None => (Fault, p)
                      end
          | None => (Fault, p)
          end
      | None => (Fault, p)
      end
  end.

Definition WPACKET_get_curr (p : WPACKET) : option Z :=
  match GETBUF p with
  | None => None
  | Some _ => Some (if endfirst p then maxsize p - wcurr p else wcurr p)
  end.

Definition WPACKET_is_null_buf (p : WPACKET) : bool :=
  match wbuf p, staticbuf p with None, None => true | _, _ => false end.

Definition is_nil {A} (l : list A) : bool := match l with [] => true | _ => false end.

Definition maxmaxsize (lenbytes : Z) : Z :=
  if (8 <=? lenbytes) || (lenbytes =? 0) then SIZE_MAX
  else Z.shiftl 1 (lenbytes * 8) - 1 + lenbytes.

Section Writer.
Context `{Libc}.

(** [BUF_MEM_grow(pkt->buf, newlen)] when the buffer cannot take [len] more
    bytes. *)
Definition grow_for (len : Z) : ST WPACKET unit := fun p =>
  match wbuf p with
  | None => (Ok tt, p)
  | Some b =>
      if wrap64 (buf_length b - written p) <? len then
        let reflen := if buf_length b <? len then len else buf_length b in
        let newlen :=
          if SIZE_MAX / 2 <? reflen then SIZE_MAX
          else if reflen * 2 <? DEFAULT_BUF_SIZE then DEFAULT_BUF_SIZE else reflen * 2 in
        match BUF_MEM_grow newlen b with
        | (Ok r, b') => (if r =? 0 then Fail else Ok tt, set_buf (Some b') p)
        | (Fail, b') => (Fail, set_buf (Some b') p)
        | (Fault, b') => (Fault, set_buf (Some b') p)
        end
      else (Ok tt, p)
  end.

Definition WPACKET_reserve_bytes (len : Z) : ST WPACKET (option Z) :=
  st_guard (fun p => negb (is_nil (subs p)) && negb (len =? 0)) ;;;
  st_guard (fun p => negb (wrap64 (maxsize p - written p) <? len)) ;;;
  grow_for len ;;;
  st_get (fun p => match WPACKET_get_curr p with
                   | Some c => Some (if endfirst p then c - len else c)
                   | None => None
                   end).

Definition WPACKET_allocate_bytes (len : Z) : ST WPACKET (option Z) :=
  allocbytes <~ WPACKET_reserve_bytes len ;;
  st_put (fun p => set_pos (wrap64 (wcurr p + len)) (wrap64 (written p + len)) p) ;;;
  st_ret allocbytes.

Definition WPACKET_sub_reserve_bytes__ (len lenbytes : Z) : ST WPACKET (option Z) :=
  st_guard (fun p => negb (endfirst p && (0 <? lenbytes))) ;;;
  allocbytes <~ WPACKET_reserve_bytes (wrap64 (lenbytes + len)) ;;
  st_ret (match allocbytes with Some a => Some (a + lenbytes) | None => None end).

Definition wpacket_intern_init_len (lenbytes : Z) : ST WPACKET unit :=
  st_put (set_pos 0 0) ;;;
  fun p =>
  match CRYPTO_zalloc 40 with
  | None => (Fail, set_subs [] p)
  | Some _ =>
      let p := set_subs [mkSUB 0 0 0 0] p in
      if lenbytes =? 0 then (Ok tt, p)
      else
        match WPACKET_allocate_bytes lenbytes (set_subs [mkSUB 0 lenbytes lenbytes 0] p) with
        | (Ok _, p') => (Ok tt, p')
        | (Fail, p') => (Fail, set_subs [] p')
        | (Fault, p') => (Fault, p')
        end
  end.

Definition WPACKET_init_static_len (buf : list Z) (lenbytes : Z) : ST WPACKET unit := fun p =>
  let len := Z.of_nat (length buf) in
  let max := maxmaxsize lenbytes in
  if negb (0 <? len) then (Fail, p)
  else wpacket_intern_init_len lenbytes
         (mkWPACKET None (Some buf) (wcurr p) (written p)
                    (if max <? len then max else len) (subs p) false).

Definition WPACKET_init_der (buf : list Z) : ST WPACKET unit := fun p =>
  let len := Z.of_nat (length buf) in
  if negb (0 <? len) then (Fail, p)
  else wpacket_intern_init_len 0
         (mkWPACKET None (Some buf) (wcurr p) (written p) len (subs p) true).

Definition WPACKET_init_len (buf : BUF_MEM) (lenbytes : Z) : ST WPACKET unit := fun p =>
  wpacket_intern_init_len lenbytes
    (mkWPACKET (Some buf) None (wcurr p) (written p) (maxmaxsize lenbytes) (subs p) false).

Definition WPACKET_init (buf : BUF_MEM) : ST WPACKET unit := WPACKET_init_len buf 0.

Definition WPACKET_init_null (lenbytes : Z) : ST WPACKET unit := fun p =>
  wpacket_intern_init_len 0
    (mkWPACKET None None (wcurr p) (written p) (maxmaxsize lenbytes) (subs p) false).

Definition WPACKET_init_null_der : ST WPACKET unit := fun p =>
  wpacket_intern_init_len 0
    (mkWPACKET None None (wcurr p) (written p) SIZE_MAX (subs p) true).

Definition WPACKET_set_flags (f : Z) : ST WPACKET unit := fun p =>
  match subs p with
  | [] => (Fail, p)
  | s :: tl => (Ok tt, set_subs (mkSUB (packet_len s) (lenbytes s) (pwritten s) f :: tl) p)
  end.

(** The loop of [put_value]: stores the low bytes backwards from [pos] and
    returns what is left of the value. *)
Fixpoint put_loop (n : nat) (pos value : Z) : ST WPACKET Z :=
  match n with
  | O => st_ret value
  | S m => store pos [Z.land value 0xff] ;;; put_loop m (pos - 1) (Z.shiftr value 8)
  end.

Definition put_value (data : option Z) (value len : Z) : ST WPACKET unit :=
  match data with
  | None => st_ret tt
  | Some d =>
      left <~ put_loop (Z.to_nat len) (d + len - 1) value ;;
      st_guard (fun _ => negb (0 <? left))
  end.

Definition WPACKET_put_bytes__ (val size : Z) : ST WPACKET unit :=
  st_guard (fun _ => size <=? 8) ;;;
  data <~ WPACKET_allocate_bytes size ;;
  put_value data val size.

(** [while ((tmplen = tmplen >> 8) > 0) numlenbytes++;] - a [size_t] has eight
    bytes, so eight rounds are enough. *)
Fixpoint numlenbytes_loop (fuel : nat) (tmplen numlenbytes : Z) : Z :=
  match fuel with
  | O => numlenbytes
  | S f => let t := Z.shiftr tmplen 8 in
           if 0 <? t then numlenbytes_loop f t (numlenbytes + 1) else numlenbytes
  end.

Definition numlenbytes (packlen : Z) : Z := numlenbytes_loop 8 packlen 1.

(** [parent] is the list of the enclosing sub-packets of [sub]. *)
Definition wpacket_intern_close (sub : WPACKET_SUB) (parent : list WPACKET_SUB) (doclose : bool)
  : ST WPACKET unit := fun p =>
  let packlen := wrap64 (written p - pwritten sub) in
  if (packlen =? 0) && has (flags sub) WPACKET_FLAGS_NON_ZERO_LENGTH then (Fail, p)
  else
  let abandon := (packlen =? 0) && has (flags sub) WPACKET_FLAGS_ABANDON_ON_ZERO_LENGTH in
  if abandon && negb doclose then (Fail, p)
  else
  let p1 := if abandon && (wrap64 (wcurr p - lenbytes sub) =? packet_len sub)
            then set_pos (wrap64 (wcurr p - lenbytes sub)) (wrap64 (written p - lenbytes sub)) p
            else p in
  let sub1 := if abandon then mkSUB 0 0 (pwritten sub) (flags sub) else sub in
  ((if 0 <? lenbytes sub1 then
      match GETBUF p1 with
      | Some _ => put_value (Some (packet_len sub1)) packlen (lenbytes sub1)
      | None => st_ret tt
      end
    else if endfirst p1 && negb (is_nil parent)
            && (negb (packlen =? 0)
                || negb (has (flags sub1) WPACKET_FLAGS_ABANDON_ON_ZERO_LENGTH)) then
      let n := numlenbytes packlen in
      WPACKET_put_bytes__ packlen n ;;;
      (if 0x7f <? packlen then WPACKET_put_bytes__ (Z.lor n 0x80) 1 else st_ret tt)
    else st_ret tt) ;;;
   (if doclose then st_put (set_subs parent) else st_ret tt)) p1.

Fixpoint fill_lengths_loop (l : list WPACKET_SUB) : ST WPACKET unit :=
  match l with
  | [] => st_ret tt
  | s :: parent => wpacket_intern_close s parent false ;;; fill_lengths_loop parent
  end.

Definition WPACKET_fill_lengths : ST WPACKET unit := fun p =>
  match subs p with
  | [] => (Fail, p)
  | l => fill_lengths_loop l p
  end.

Definition WPACKET_close : ST WPACKET unit := fun p =>
  match subs p with
  | s :: (_ :: _) as parent => wpacket_intern_close s parent true p
  | _ => (Fail, p)
  end.

Definition WPACKET_finish : ST WPACKET unit := fun p =>
  match subs p with
  | [s] => match wpacket_intern_close s [] true p with
           | (Ok _, p') => (Ok tt, set_subs [] p')
           | r => r
           end
  | _ => (Fail, p)
  end.

Definition WPACKET_start_sub_packet_len__ (lb : Z) : ST WPACKET unit :=
  st_guard (fun p => negb (is_nil (subs p))) ;;;
  st_guard (fun p => negb ((0 <? lb) && endfirst p)) ;;;
  fun p =>
  match CRYPTO_zalloc 40 with
  | None => (Fail, p)
  | Some _ =>
      if lb =? 0 then
        (Ok tt, set_subs (mkSUB 0 0 (wrap64 (written p + lb)) 0 :: subs p) p)
      else
        (WPACKET_allocate_bytes lb ;;; st_ret tt)
          (set_subs (mkSUB (written p) lb (wrap64 (written p + lb)) 0 :: subs p) p)
  end.

Definition WPACKET_start_sub_packet : ST WPACKET unit := WPACKET_start_sub_packet_len__ 0.

Definition WPACKET_sub_allocate_bytes__ (len lenbytes : Z) : ST WPACKET (option Z) :=
  WPACKET_start_sub_packet_len__ lenbytes ;;;
  a <~ WPACKET_allocate_bytes len ;;
  WPACKET_close ;;; st_ret a.

Definition WPACKET_set_max_size (m : Z) : ST WPACKET unit := fun p =>
  match last (subs p) with
  | None => (Fail, p)
  | Some top =>
      let lb := if lenbytes top =? 0 then 8 else lenbytes top in
      if (maxmaxsize lb <? m) || (m <? written p) then (Fail, p)
      else (Ok tt, set_maxsize m p)
  end.

Definition WPACKET_memset (ch len : Z) : ST WPACKET unit :=
  if len =? 0 then st_ret tt
  else dest <~ WPACKET_allocate_bytes len ;;
       match dest with
       | Some d => store d (replicate (Z.to_nat len) (Z.land ch 0xff))
       | None => st_ret tt
       end.

Definition WPACKET_memcpy (src : list Z) : ST WPACKET unit :=
  let len := Z.of_nat (length src) in
  if len =? 0 then st_ret tt
  else dest <~ WPACKET_allocate_bytes len ;;
       match dest with
       | Some d => store d src
       | None => st_ret tt
       end.

Definition WPACKET_sub_memcpy__ (src : list Z) (lenbytes : Z) : ST WPACKET unit :=
  WPACKET_start_sub_packet_len__ lenbytes ;;;
  WPACKET_memcpy src ;;;
  WPACKET_close.

Definition WPACKET_get_total_written : ST WPACKET Z := st_get written.

Definition WPACKET_get_length : ST WPACKET Z := fun p =>
  match subs p with
  | [] => (Fail, p)
  | s :: _ => (Ok (wrap64 (written p - pwritten s)), p)
  end.

Definition WPACKET_cleanup : ST WPACKET unit := st_put (set_subs []).
End Writer.
