(* ===== verification/WPacketSpec.v ===== *)
(** * What the packet writer writes

    An abstract description of a message - raw bytes, fixed-width integers,
    nested length-prefixed sub-packets - its serialization, and the program of
    [WPACKET] calls that produces it.  The theorems say that the calls append
    exactly that serialization or fail, never leaving the buffer.  This is
    about front-to-back writing; for back-to-front (DER) writing there are the
    definitions of WPacket.v only. *)

From stdpp Require Import prelude.
From Stdlib Require Import ZArith Lia.
From S2P Require Import Prelude Buffer WPacket.

Local Open Scope Z_scope.
Local Open Scope st_scope.

(** ** Messages and their serialization *)

#[warnings="-register-all"]
Inductive item : Type :=
| Raw (bs : list Z)
| Put (v size : Z)
| Sub (lb : Z) (body : list item).

Definition app_opt (a b : option (list Z)) : option (list Z) :=
  match a, b with Some x, Some y => Some (x ++ y) | _, _ => None end.

Fixpoint ser (i : item) : option (list Z) :=
  match i with
  | Raw bs => Some bs
  | Put v n => if (1 <=? n) && (n <=? 8) && (0 <=? v) && (v <? 256 ^ n)
               then Some (be_bytes (Z.to_nat n) v) else None
  | Sub lb body =>
      match (fix go l := match l with [] => Some [] | x :: l' => app_opt (ser x) (go l') end) body with
      | None => None
      | Some bs =>
          if lb =? 0 then Some bs
          else if Z.of_nat (length bs) <? 256 ^ lb
               then Some (be_bytes (Z.to_nat lb) (Z.of_nat (length bs)) ++ bs) else None
      end
  end.

Fixpoint sers (l : list item) : option (list Z) :=
  match l with [] => Some [] | x :: l' => app_opt (ser x) (sers l') end.

Lemma ser_Sub lb body :
  ser (Sub lb body) =
  match sers body with
  | None => None
  | Some bs =>
      if lb =? 0 then Some bs
      else if Z.of_nat (length bs) <? 256 ^ lb
           then Some (be_bytes (Z.to_nat lb) (Z.of_nat (length bs)) ++ bs) else None
  end.
Proof.
  simpl. replace (_ body) with (sers body); [done|].
  induction body as [|x l IH]; simpl; [done|]. by rewrite IH.
Qed.

(** Induction over nested messages. *)
Lemma item_nested_ind (P : item -> Prop) :
  (forall bs, P (Raw bs)) -> (forall v n, P (Put v n)) ->
  (forall lb body, Forall P body -> P (Sub lb body)) -> forall i, P i.
Proof.
  intros HR HP HS. fix IH 1. intros [bs|v n|lb body]; [apply HR|apply HP|].
  apply HS. induction body as [|x l IHl]; constructor; [apply IH|apply IHl].
Qed.

(** Arguments the C types can carry: [uint64_t] values, [size_t] counts. *)
Fixpoint item_ok (i : item) : Prop :=
  match i with
  | Raw bs => Z.of_nat (length bs) <= SIZE_MAX /\ Forall is_byte bs
  | Put v n => 0 <= v <= SIZE_MAX /\ 0 <= n <= SIZE_MAX
  | Sub lb body => 0 <= lb <= SIZE_MAX /\
      (fix all l := match l with [] => True | x :: l' => item_ok x /\ all l' end) body
  end.

Definition items_ok (l : list item) : Prop :=
  (fix all l := match l with [] => True | x :: l' => item_ok x /\ all l' end) l.

(** ** The program of calls *)

Section Exec.
Context `{Libc}.

Fixpoint exec (i : item) : ST WPACKET unit :=
  match i with
  | Raw bs => WPACKET_memcpy bs
  | Put v n => WPACKET_put_bytes__ v n
  | Sub lb body =>
      WPACKET_start_sub_packet_len__ lb ;;;
      (fix go l := match l with [] => st_ret tt | x :: l' => exec x ;;; go l' end) body ;;;
      WPACKET_close
  end.

Fixpoint execs (l : list item) : ST WPACKET unit :=
  match l with [] => st_ret tt | x :: l' => exec x ;;; execs l' end.
End Exec.

(** ** State of a writer between calls *)

(** The bytes written so far. *)
Definition out (p : WPACKET) : list Z :=
  match GETBUF p with None => [] | Some b => take (Z.to_nat (written p)) b end.

Definition backed (p : WPACKET) : bool := negb (WPACKET_is_null_buf p).

Record inv (p : WPACKET) : Prop := {
  inv_pos : 0 <= written p <= maxsize p;
  inv_max : maxsize p <= SIZE_MAX;
  inv_curr : wcurr p = written p;
  inv_front : endfirst p = false;
  inv_buf : match staticbuf p, wbuf p with
            | Some b, None => maxsize p <= Z.of_nat (length b)
            | None, Some b => buf_wf b /\ written p <= buf_length b <= SIZE_MAX
            | None, None => True
            | Some _, Some _ => False
            end
}.

(** The same kind of buffer, and the parts of the state calls do not touch. *)
Record same_kind (p p' : WPACKET) : Prop := {
  sk_max : maxsize p' = maxsize p;
  sk_end : endfirst p' = endfirst p;
  sk_static : length <$> staticbuf p' = length <$> staticbuf p;
  sk_buf : is_Some (wbuf p') <-> is_Some (wbuf p)
}.

(** [p'] is [p] with the bytes [bs] appended and [l] as open sub-packets. *)
Record appended (p : WPACKET) (bs : list Z) (l : list WPACKET_SUB) (p' : WPACKET) : Prop := {
  ap_inv : inv p';
  ap_kind : same_kind p p';
  ap_written : written p' = written p + Z.of_nat (length bs);
  ap_subs : subs p' = l;
  ap_out : backed p = true -> out p' = out p ++ bs
}.

Lemma same_kind_refl p : same_kind p p.
Proof. by split. Qed.

Lemma same_kind_trans p q r : same_kind p q -> same_kind q r -> same_kind p r.
Proof. intros [] []. split; (congruence || tauto). Qed.

Lemma appended_nil p : inv p -> appended p [] (subs p) p.
Proof. intros H. split; simpl; auto using same_kind_refl; [lia|]. intros _. by rewrite app_nil_r. Qed.

Lemma backed_same p p' : same_kind p p' -> backed p' = backed p.
Proof.
  intros [_ _ Hs Hb]. unfold backed, WPACKET_is_null_buf. f_equal.
  rewrite !is_Some_alt in Hb.
  destruct (wbuf p), (wbuf p'), (staticbuf p), (staticbuf p'); simpl in *; tauto || congruence.
Qed.

Lemma appended_trans p q r bs cs l l' :
  appended p bs l q -> appended q cs l' r -> appended p (bs ++ cs) l' r.
Proof.
  intros [? Hk ? ? Ho] [? ? ? ? Ho']. split; auto.
  - by eapply same_kind_trans.
  - rewrite length_app. lia.
  - intros Hb. rewrite Ho', Ho, app_assoc by (rewrite ?(backed_same _ _ Hk); done). done.
Qed.

Lemma length_out p : inv p -> backed p = true -> length (out p) = Z.to_nat (written p).
Proof.
  intros [Hp Hm _ _ Hb] Hk. unfold out, GETBUF, backed, WPACKET_is_null_buf in *.
  destruct (staticbuf p) as [b|], (wbuf p) as [d|]; try done.
  - rewrite length_take. lia.
  - destruct Hb as [[Hl Hd] Hw]. destruct (buf_data d) as [x|]; simpl; [|lia].
    rewrite length_take. lia.
Qed.

(** ** Single calls *)

Section Calls.
Context `{L : Libc} {LO : LibcOk L}.

Lemma out_buf p b : staticbuf p = None -> wbuf p = Some b -> written p <= buf_length b ->
  0 <= written p -> out p = take (Z.to_nat (written p)) (contents b).
Proof.
  intros Hs Hb Hw H0. unfold out, GETBUF, contents. rewrite Hs, Hb.
  destruct (buf_data b) as [d|]; [|by rewrite take_nil].
  rewrite take_take. f_equal. lia.
Qed.

(** The new length asked for holds the old bytes and [len] more. *)
Lemma newlen_enough blen w len :
  0 <= w <= blen -> 0 < len <= SIZE_MAX -> blen <= SIZE_MAX -> w + len <= SIZE_MAX ->
  let reflen := if blen <? len then len else blen in
  let newlen := if SIZE_MAX / 2 <? reflen then SIZE_MAX
                else if reflen * 2 <? DEFAULT_BUF_SIZE then DEFAULT_BUF_SIZE else reflen * 2 in
  0 < newlen <= SIZE_MAX /\ w + len <= newlen /\ blen <= newlen.
Proof.
  intros Hw Hl Hb Hs. simpl. unfold DEFAULT_BUF_SIZE, SIZE_MAX in *.
  change (18446744073709551615 / 2) with 9223372036854775807.
  destruct (blen <? len) eqn:E1; zbool;
    match goal with |- context [if ?c then _ else _] => destruct c eqn:E2 end; zbool; [lia| |lia|];
    match goal with |- context [if ?c then _ else _] => destruct c eqn:E3 end; zbool; lia.
Qed.

Lemma grow_for_spec len p : inv p -> 0 < len <= SIZE_MAX -> written p + len <= SIZE_MAX ->
  (exists p', grow_for len p = (Fail, p')) \/
  (exists p', grow_for len p = (Ok tt, p') /\ appended p [] (subs p) p' /\
     match wbuf p' with Some b => written p' + len <= buf_length b | None => True end).
Proof.
  intros Hinv Hl Hw. pose proof Hinv as [Hp Hm Hc He Hb]. unfold grow_for.
  destruct (wbuf p) as [b|] eqn:Eb.
  2: { right. exists p. split; [done|]. split; [by apply appended_nil|]. by rewrite Eb. }
  destruct (staticbuf p) eqn:Es; [done|]. destruct Hb as [Hwf Hbl].
  rewrite wrap64_small by lia.
  destruct (buf_length b - written p <? len) eqn:E; zbool.
  2: { right. exists p. split; [done|]. split; [by apply appended_nil|]. rewrite Eb. lia. }
  pose proof (newlen_enough (buf_length b) (written p) len ltac:(lia) Hl ltac:(lia) Hw) as Hn.
  simpl in Hn. set (newlen := if SIZE_MAX / 2 <? _ then _ else _) in *.
  assert (G : grown (BUF_MEM_grow newlen) newlen b).
  { destruct (decide (newlen <= buf_max b)); [apply grow_in_block|apply grow_new_block]; (done || lia). }
  destruct G as [(b' & G & Hwf' & Hl' & _ & Hct)|[G _]]; rewrite G.
  2: { left. rewrite Z.eqb_refl. by eexists. }
  right. rewrite (proj2 (Z.eqb_neq newlen 0)) by lia. eexists; split; [done|]. split.
  2: { simpl. lia. }
  split; simpl; [|split; simpl; rewrite ?Es, ?Eb; try done|lia|done|].
  - split; simpl; try done. rewrite Es. split; [done|lia].
  - intros _. rewrite app_nil_r. rewrite (out_buf p b) by (done || lia).
    rewrite (out_buf _ b') by (simpl; (done || lia)). simpl.
    rewrite Hct. pose proof (length_contents _ Hwf) as Hlc.
    unfold resized. rewrite take_take, Nat.min_l by lia. by rewrite take_app_le by lia.
Qed.
Lemma reserve_eq len p : inv p -> subs p <> [] -> 0 < len ->
  WPACKET_reserve_bytes len p =
  if maxsize p - written p <? len then (Fail, p)
  else (grow_for len ;;; st_get (fun p => match WPACKET_get_curr p with
                   | Some c => Some (if endfirst p then c - len else c) | None => None end)) p.
Proof.
  intros [Hp Hm _ _ _] Hs Hl. unfold WPACKET_reserve_bytes.
  rewrite (st_bind_ok _ _ _ tt p).
  2: { unfold st_guard. rewrite (proj2 (Z.eqb_neq len 0)) by lia. by destruct (subs p). }
  unfold st_bind at 1, st_guard. rewrite wrap64_small by lia.
  by destruct (maxsize p - written p <? len).
Qed.

Lemma allocate_spec len p : inv p -> subs p <> [] -> 0 < len <= SIZE_MAX ->
  (exists p', WPACKET_allocate_bytes len p = (Fail, p')) \/
  (exists x p', WPACKET_allocate_bytes len p
                  = (Ok (if backed p then Some (written p) else None), p') /\
     written p + len <= maxsize p /\ Z.of_nat (length x) = len /\ appended p x (subs p) p').
Proof.
  intros Hinv Hs Hl. pose proof Hinv as [Hp Hm Hc He Hb].
  unfold WPACKET_allocate_bytes, st_bind. rewrite reserve_eq by (done || lia).
  destruct (maxsize p - written p <? len) eqn:E; zbool; simpl; [left; by eexists|].
  destruct (grow_for_spec len p Hinv Hl ltac:(lia)) as [[p' G]|(p' & G & Ha & Hroom)];
    unfold st_bind, st_get, st_put, st_ret; rewrite G; simpl; [left; by eexists|].
  right. pose proof Ha as [Hinv' Hk Hw' Hsub' Ho']. simpl in Hw'.
  pose proof Hinv' as [Hp' Hm' Hc' He' Hb']. pose proof (sk_max _ _ Hk) as Hmax.
  rewrite He', Hc', Hw', Z.add_0_r.
  set (p2 := set_pos _ _ p').
  assert (Hinv2 : inv p2).
  { unfold p2. split; simpl; rewrite ?wrap64_small by lia; try done; [lia|].
    revert Hb' Hroom. destruct (staticbuf p'), (wbuf p'); try done; intros.
    split; [tauto|lia]. }
  assert (Hk2 : same_kind p' p2) by by split.
  exists (drop (Z.to_nat (written p)) (out p2) ++
          if backed p then [] else replicate (Z.to_nat len) 0), p2.
  pose proof (backed_same _ _ (same_kind_trans _ _ _ Hk Hk2)) as Hbk.
  assert (Hout : backed p = true -> out p = take (Z.to_nat (written p)) (out p2)).
  { intros Hb0. rewrite <- (app_nil_r (out p)), <- Ho' by done.
    unfold out, p2. unfold GETBUF. simpl. rewrite wrap64_small by lia.
    destruct (staticbuf p') as [sb|]; [rewrite take_take; f_equal; lia|].
    destruct (wbuf p') as [wb|]; [|by rewrite take_nil].
    destruct (buf_data wb); [|by rewrite take_nil].
    rewrite take_take; f_equal; lia. }
  assert (Hw2 : written p2 = written p + len) by (unfold p2; simpl; rewrite wrap64_small; lia).
  assert (Hlen : Z.of_nat (length (drop (Z.to_nat (written p)) (out p2) ++
          if backed p then [] else replicate (Z.to_nat len) 0)) = len).
  { rewrite length_app, length_drop. destruct (backed p) eqn:Eb.
    - rewrite length_out, Hw2 by (done || congruence). simpl. lia.
    - rewrite length_replicate. replace (out p2) with (@nil Z); [simpl; lia|].
      unfold out. unfold backed, WPACKET_is_null_buf in Hbk.
      unfold GETBUF. by destruct (staticbuf p2), (wbuf p2). }
  split_and!; [|lia|done|].
  - f_equal. f_equal. unfold WPACKET_get_curr.
    rewrite <- (backed_same _ _ Hk). unfold backed, WPACKET_is_null_buf, GETBUF.
    rewrite Hc', Hw', Z.add_0_r, He'. revert Hb' Hroom.
    destruct (staticbuf p') as [sb|], (wbuf p') as [wb|]; simpl; intros Hb' Hroom; try done.
    destruct Hb' as [[? Hd] ?]. destruct (buf_data wb); [done|lia].
  - split; [done|by eapply same_kind_trans|lia|done|].
    intros Hb0. rewrite Hb0, app_nil_r at 1. rewrite Hout at 1 by done. by rewrite take_drop.
Qed.
(** Overwriting part of what was written. *)
Definition ow (off : nat) (bs l : list Z) : list Z :=
  take off l ++ bs ++ drop (off + length bs) l.

Lemma length_ow off bs l : (off + length bs <= length l)%nat -> length (ow off bs l) = length l.
Proof. intros. unfold ow. rewrite !length_app, length_take, length_drop. lia. Qed.

Lemma ow_app_r off bs l1 l2 : off = length l1 -> ow off bs (l1 ++ l2) = l1 ++ ow 0 bs l2.
Proof.
  intros ->. unfold ow. rewrite take_app_length, Nat.add_0_l, take_0. simpl.
  rewrite drop_app_ge by lia. by replace (length l1 + length bs - length l1)%nat with (length bs) by lia.
Qed.

Lemma ow_0_exact bs l l2 : length bs = length l -> ow 0 bs (l ++ l2) = bs ++ l2.
Proof. intros E. unfold ow. rewrite take_0, Nat.add_0_l, E, drop_app_length. done. Qed.

Lemma ow_snoc off bs b l : (off + S (length bs) <= length l)%nat ->
  ow off bs (ow (off + length bs) [b] l) = ow off (bs ++ [b]) l.
Proof.
  intros H. unfold ow at 1. unfold ow at 1 2. unfold ow.
  rewrite take_app_le, take_take, Nat.min_l by (rewrite ?length_take; lia).
  f_equal. rewrite <- app_assoc. f_equal. simpl.
  rewrite drop_app_ge by (rewrite length_take; lia).
  rewrite length_take, Nat.min_l, Nat.sub_diag, drop_0 by lia. f_equal. f_equal.
  rewrite length_app. simpl. lia.
Qed.

(** [p'] is [p] with [bs] stored at offset [off] of what was written. *)
Record patched (p : WPACKET) (off : nat) (bs : list Z) (p' : WPACKET) : Prop := {
  pt_inv : inv p';
  pt_kind : same_kind p p';
  pt_written : written p' = written p;
  pt_subs : subs p' = subs p;
  pt_out : out p' = ow off bs (out p)
}.

Lemma take_ow n off bs l : (off + length bs <= n)%nat -> (n <= length l)%nat ->
  take n (ow off bs l) = ow off bs (take n l).
Proof.
  intros H1 H2. unfold ow. rewrite take_app_ge by (rewrite length_take; lia).
  rewrite take_app_ge by (rewrite length_take; lia).
  rewrite length_take, take_take, skipn_firstn_comm. f_equal; [f_equal; lia|].
  f_equal. f_equal. lia.
Qed.

Lemma store_spec off bs p : inv p -> backed p = true -> Forall is_byte bs ->
  (0 < length bs)%nat -> 0 <= off -> off + Z.of_nat (length bs) <= written p ->
  exists p', store off bs p = (Ok tt, p') /\ patched p (Z.to_nat off) bs p'.
Proof.
  intros Hinv Hk Hb Hne Ho Hlen. pose proof Hinv as [Hp Hm Hc He Hbuf].
  unfold store, backed, WPACKET_is_null_buf in *.
  destruct (staticbuf p) as [sb|] eqn:Es; destruct (wbuf p) as [wb|] eqn:Eb; try done.
  - rewrite mem_write_Some by lia. eexists; split; [done|].
    change (take _ _ ++ _) with (ow (Z.to_nat off) bs sb).
    split; simpl; [|split; simpl; rewrite ?Es, ?Eb; try done|done|done|].
    + split; simpl; try done. rewrite Eb, length_ow by lia. done.
    + simpl. by rewrite length_ow by lia.
    + unfold out, GETBUF. simpl. rewrite Es. apply take_ow; lia.
  - destruct Hbuf as [[Hl Hd] Hw]. destruct (buf_data wb) as [d|] eqn:Ed; [|lia].
    destruct Hd as [Hd1 Hd2]. rewrite mem_write_Some by lia. eexists; split; [done|].
    change (take _ _ ++ _) with (ow (Z.to_nat off) bs d).
    split; simpl; [|split; simpl; rewrite ?Es, ?Eb; done|done|done|].
    + split; simpl; try done. rewrite Es. split; [|done]. split; simpl; [done|].
      rewrite length_ow by lia. split; [done|]. unfold ow. rewrite !Forall_app.
      auto using Forall_take, Forall_drop.
    + unfold out, GETBUF. simpl. rewrite Es, Eb, Ed. apply take_ow; lia.
Qed.

Lemma land_ff v : Z.land v 0xff = v `mod` 256.
Proof. exact (Z.land_ones v 8 ltac:(lia)). Qed.

Lemma shiftr_8 v : Z.shiftr v 8 = v / 256.
Proof. exact (Z.shiftr_div_pow2 v 8 ltac:(lia)). Qed.

Lemma mod_256_byte v : is_byte (v `mod` 256).
Proof. unfold is_byte. pose proof (Z.mod_pos_bound v 256). lia. Qed.

Lemma patched_trans p q r off bs cs :
  (off + S (length cs) <= length (out p))%nat ->
  patched p (off + length cs) bs q -> length bs = 1%nat -> patched q off cs r ->
  patched p off (cs ++ bs) r.
Proof.
  intros Hl [? Hk ? ? Ho] H1 [? ? ? ? Ho']. destruct bs as [|b [|]]; try done.
  split; auto; [by eapply same_kind_trans|lia|congruence|].
  by rewrite Ho', Ho, ow_snoc.
Qed.

(** The store loop writes the value in network order. *)
Lemma put_loop_spec n d v p : inv p -> backed p = true -> 0 <= d ->
  d + Z.of_nat n <= written p ->
  exists p', put_loop n (d + Z.of_nat n - 1) v p = (Ok (v / 256 ^ Z.of_nat n), p') /\
    patched p (Z.to_nat d) (be_bytes n v) p'.
Proof.
  revert v p; induction n as [|n IH]; intros v p Hinv Hk Hd Hlen.
  { exists p. simpl. rewrite Z.div_1_r. split; [done|].
    split; auto using same_kind_refl. unfold ow. simpl. by rewrite Nat.add_0_r, take_drop. }
  simpl put_loop. rewrite land_ff, shiftr_8.
  destruct (store_spec (d + Z.of_nat (S n) - 1) [v `mod` 256] p) as (p1 & E1 & P1);
    [done|done|repeat constructor; apply mod_256_byte|simpl; lia|lia|simpl; lia|].
  rewrite (st_bind_ok _ _ _ _ _ E1).
  pose proof P1 as [Hinv1 Hk1 Hw1 _ _].
  replace (d + Z.of_nat (S n) - 1 - 1) with (d + Z.of_nat n - 1) by lia.
  destruct (IH (v / 256) p1) as (p2 & E2 & P2); [done|by rewrite (backed_same _ _ Hk1)|lia|lia|].
  exists p2. rewrite E2. split.
  - rewrite Z.div_div, Nat2Z.inj_succ, Z.pow_succ_r by lia. done.
  - simpl be_bytes. eapply patched_trans; [| |done|exact P2].
    + rewrite length_be_bytes, length_out by done. lia.
    + rewrite length_be_bytes. by replace (Z.to_nat d + n)%nat with (Z.to_nat (d + Z.of_nat (S n) - 1)) by lia.
Qed.
(** [m] appends what [o] says, or fails; it never faults. *)
Definition writes (m : ST WPACKET unit) (o : option (list Z)) : Prop :=
  forall p, inv p -> subs p <> [] -> backed p = true ->
  (exists p', m p = (Fail, p')) \/
  (exists bs p', o = Some bs /\ m p = (Ok tt, p') /\ appended p bs (subs p) p').

Lemma writes_bind m1 m2 o1 o2 : writes m1 o1 -> writes m2 o2 ->
  writes (m1 ;;; m2) (app_opt o1 o2).
Proof.
  intros H1 H2 p Hinv Hs Hb. destruct (H1 p Hinv Hs Hb) as [[p1 E1]|(b1 & p1 & -> & E1 & A1)].
  { left. exists p1. by apply st_bind_fail. }
  rewrite (st_bind_ok _ _ _ _ _ E1). pose proof A1 as [Hinv1 Hk1 _ Hs1 _].
  destruct (H2 p1 Hinv1) as [[p2 E2]|(b2 & p2 & -> & E2 & A2)];
    [by rewrite Hs1|by rewrite (backed_same _ _ Hk1)|left; by exists p2|].
  right. exists (b1 ++ b2), p2. split_and!; try done. rewrite <- Hs1. by eapply appended_trans.
Qed.

Lemma writes_nil : writes (st_ret tt) (Some []).
Proof. intros p Hinv _ _. right. exists [], p. split_and!; auto using appended_nil. Qed.

(** Patching the first of the bytes just appended. *)
Lemma appended_patch p x y l q bs r :
  appended p (x ++ y) l q -> backed p = true -> length bs = length x ->
  patched q (Z.to_nat (written p)) bs r -> inv p -> appended p (bs ++ y) l r.
Proof.
  intros [? Hk Hw Hs Ho] Hb Hl [? ? ? ? Ho'] Hinv. rewrite length_app in Hw. split; auto.
  - by eapply same_kind_trans.
  - rewrite length_app. lia.
  - congruence.
  - intros _. rewrite Ho', Ho by done. rewrite ow_app_r by (by rewrite length_out).
    f_equal. by rewrite ow_0_exact.
Qed.

Lemma appended_patch_all p x l q bs r :
  appended p x l q -> backed p = true -> length bs = length x ->
  patched q (Z.to_nat (written p)) bs r -> inv p -> appended p bs l r.
Proof.
  intros A. rewrite <- (app_nil_r x) in A. intros. rewrite <- (app_nil_r bs).
  by eapply appended_patch.
Qed.

Lemma memcpy_writes bs : Z.of_nat (length bs) <= SIZE_MAX -> Forall is_byte bs ->
  writes (WPACKET_memcpy bs) (Some bs).
Proof.
  intros Hl Hbs p Hinv Hs Hb. unfold WPACKET_memcpy.
  destruct (Z.of_nat (length bs) =? 0) eqn:E; zbool.
  { destruct bs; [by apply writes_nil|done]. }
  destruct (allocate_spec (Z.of_nat (length bs)) p Hinv Hs ltac:(lia))
    as [[p1 E1]|(x & p1 & E1 & Hr & Hx & A1)].
  { left. exists p1. by apply st_bind_fail. }
  right. rewrite (st_bind_ok _ _ _ _ _ E1), Hb. pose proof A1 as [Hinv1 Hk1 Hw1 _ _].
  pose proof (inv_pos _ Hinv).
  destruct (store_spec (written p) bs p1) as (p2 & E2 & P2);
    [done|by rewrite (backed_same _ _ Hk1)|done|lia|lia|lia|].
  exists bs, p2. split_and!; [done|done|]. eapply appended_patch_all; try done. lia.
Qed.

Lemma put_value_spec d v n p : inv p -> backed p = true -> 0 <= d -> 0 <= n -> 0 <= v ->
  d + n <= written p ->
  exists p', put_value (Some d) v n p = (if v <? 256 ^ n then Ok tt else Fail, p') /\
    patched p (Z.to_nat d) (be_bytes (Z.to_nat n) v) p'.
Proof.
  intros Hinv Hb Hd Hn Hv Hr. unfold put_value.
  destruct (put_loop_spec (Z.to_nat n) d v p Hinv Hb Hd ltac:(lia)) as (p' & E & P).
  rewrite Z2Nat.id in E by done. exists p'. split; [|done].
  rewrite (st_bind_ok _ _ _ _ _ E). unfold st_guard.
  pose proof (Z.pow_pos_nonneg 256 n ltac:(lia) Hn) as Hpos.
  destruct (v <? 256 ^ n) eqn:Ev; zbool.
  - by rewrite Z.div_small by lia.
  - assert (0 < v / 256 ^ n) by (apply Z.div_str_pos; lia).
    by rewrite (proj2 (Z.ltb_lt _ _)).
Qed.

Lemma put_bytes_writes v n : 0 <= v <= SIZE_MAX -> 0 <= n <= SIZE_MAX ->
  writes (WPACKET_put_bytes__ v n) (ser (Put v n)).
Proof.
  intros Hv Hn p Hinv Hs Hb. unfold WPACKET_put_bytes__, ser.
  destruct (n <=? 8) eqn:E8; zbool.
  2: { left. exists p. by apply st_bind_fail. }
  rewrite (st_bind_ok _ _ _ tt p) by done.
  destruct (1 <=? n) eqn:E1; zbool.
  2: { left. exists p. apply st_bind_fail. replace n with 0 by lia.
       unfold WPACKET_allocate_bytes, WPACKET_reserve_bytes, st_bind, st_guard.
       by rewrite andb_false_r. }
  destruct (allocate_spec n p Hinv Hs ltac:(lia)) as [[p1 F1]|(x & p1 & F1 & Hr & Hx & A1)].
  { left. exists p1. by apply st_bind_fail. }
  rewrite (st_bind_ok _ _ _ _ _ F1), Hb. pose proof A1 as [Hinv1 Hk1 Hw1 _ _].
  pose proof (inv_pos _ Hinv).
  destruct (put_value_spec (written p) v n p1) as (p2 & F2 & P2);
    [done|by rewrite (backed_same _ _ Hk1)|lia..|].
  rewrite F2, (proj2 (Z.leb_le 0 v)) by lia. simpl.
  destruct (v <? 256 ^ n); [right|left; by eexists].
  eexists _, p2. split_and!; [done|done|]. eapply appended_patch_all; try done.
  rewrite length_be_bytes. lia.
Qed.
(** *** Sub-packets *)

#[local] Arguments put_value : simpl never.

Lemma inv_set_subs l p : inv p -> inv (set_subs l p).
Proof. intros []. by split. Qed.

Lemma appended_set_subs l0 p x l q : appended (set_subs l0 p) x l q -> appended p x l q.
Proof. intros [? [] ? ? ?]. by split. Qed.

Lemma appended_pop p x l q l' : appended p x l q -> appended p x l' (set_subs l' q).
Proof. intros [? [] ? ? ?]. split; auto using inv_set_subs. by split. Qed.

Definition opened (lb : Z) (p : WPACKET) : WPACKET_SUB :=
  mkSUB (if lb =? 0 then 0 else written p) lb (written p + lb) 0.

Lemma start_spec lb p : inv p -> subs p <> [] -> 0 <= lb <= SIZE_MAX ->
  (exists p', WPACKET_start_sub_packet_len__ lb p = (Fail, p')) \/
  (exists x p', WPACKET_start_sub_packet_len__ lb p = (Ok tt, p') /\
     written p + lb <= maxsize p /\
     Z.of_nat (length x) = lb /\ appended p x (opened lb p :: subs p) p').
Proof.
  intros Hinv Hs Hlb. pose proof Hinv as [Hp Hm _ He _].
  unfold WPACKET_start_sub_packet_len__.
  rewrite (st_bind_ok _ _ _ tt p) by (unfold st_guard; by destruct (subs p)).
  rewrite (st_bind_ok _ _ _ tt p) by (unfold st_guard; by rewrite He, andb_false_r).
  destruct (CRYPTO_zalloc 40); [|left; by eexists].
  unfold opened. destruct (lb =? 0) eqn:E; zbool.
  - right. exists []. subst lb. rewrite wrap64_small by lia. eexists; split_and!; [done|lia|done|].
    rewrite <- (app_nil_l []). eapply appended_trans; [by apply appended_nil|].
    eapply appended_pop, appended_nil; done.
  - unfold st_bind.
    set (p1 := set_subs _ p).
    destruct (allocate_spec lb p1) as [[p' E']|(x & p' & E' & Hr & Hx & A)];
      [by apply inv_set_subs|done|lia|rewrite E'; left; by eexists|].
    rewrite E'. right. exists x, p'. simpl in Hr. split_and!; try done.
    apply (appended_set_subs (subs p1)). unfold p1 in A at 2. simpl in A.
    rewrite wrap64_small in A by lia. exact A.
Qed.

Lemma intern_close_spec p0 lb q parent : inv p0 ->
  inv q -> backed q = true -> 0 <= lb -> written p0 + lb <= written q ->
  let packlen := written q - (written p0 + lb) in
  exists q', wpacket_intern_close (opened lb p0) parent true q
             = (if (lb =? 0) || (packlen <? 256 ^ lb) then Ok tt else Fail, q') /\
    ((lb = 0 \/ packlen < 256 ^ lb) ->
     exists r, q' = set_subs parent r /\
       patched q (Z.to_nat (written p0)) (be_bytes (Z.to_nat lb) packlen) r).
Proof.
  intros Hinv0 Hinv Hb Hlb Hw packlen. pose proof (inv_pos _ Hinv0).
  pose proof Hinv as [Hp Hm _ He _]. unfold wpacket_intern_close, opened. simpl.
  rewrite wrap64_small by lia. fold packlen.
  change (has 0 WPACKET_FLAGS_NON_ZERO_LENGTH) with false.
  change (has 0 WPACKET_FLAGS_ABANDON_ON_ZERO_LENGTH) with false.
  rewrite !andb_false_r. simpl.
  destruct (lb =? 0) eqn:E; zbool; simpl.
  - subst lb. rewrite He. simpl. eexists; split; [done|]. intros _. exists q. split; [done|].
    split; auto using same_kind_refl. unfold ow. simpl. by rewrite Nat.add_0_r, take_drop.
  - rewrite (proj2 (Z.ltb_lt 0 lb)) by lia.
    assert (exists d, GETBUF q = Some d) as [d ->].
    { unfold backed, WPACKET_is_null_buf, GETBUF in *. pose proof (inv_buf _ Hinv) as Hbuf.
      destruct (staticbuf q); [by eexists|]. destruct (wbuf q) as [b|]; [|done].
      destruct Hbuf as [[? Hd] ?]. destruct (buf_data b); [by eexists|lia]. }
    destruct (put_value_spec (written p0) packlen lb q) as (r & F & P); [done|done|lia..|].
    unfold st_bind. rewrite F. destruct (packlen <? 256 ^ lb) eqn:Ef; zbool; simpl.
    + eexists; split; [done|]. intros _. exists r. done.
    + eexists; split; [done|]. lia.
Qed.

Lemma close_spec p0 lb q parent : inv p0 ->
  inv q -> backed q = true -> 0 <= lb -> parent <> [] ->
  subs q = opened lb p0 :: parent -> written p0 + lb <= written q ->
  let packlen := written q - (written p0 + lb) in
  exists q', WPACKET_close q = (if (lb =? 0) || (packlen <? 256 ^ lb) then Ok tt else Fail, q') /\
    ((lb = 0 \/ packlen < 256 ^ lb) ->
     exists r, q' = set_subs parent r /\
       patched q (Z.to_nat (written p0)) (be_bytes (Z.to_nat lb) packlen) r).
Proof.
  intros H0 Hinv Hb Hlb Hpar Hs Hw. unfold WPACKET_close. rewrite Hs.
  destruct parent as [|pa pl]; [done|]. by apply intern_close_spec.
Qed.

Definition prefixed (lb : Z) (o : option (list Z)) : option (list Z) :=
  match o with
  | None => None
  | Some bs =>
      if lb =? 0 then Some bs
      else if Z.of_nat (length bs) <? 256 ^ lb
           then Some (be_bytes (Z.to_nat lb) (Z.of_nat (length bs)) ++ bs) else None
  end.

Lemma sub_writes lb m o : 0 <= lb <= SIZE_MAX -> writes m o ->
  writes (WPACKET_start_sub_packet_len__ lb ;;; m ;;; WPACKET_close) (prefixed lb o).
Proof.
  intros Hlb Hm p Hinv Hs Hb.
  destruct (start_spec lb p Hinv Hs Hlb) as [[p1 E1]|(x & p1 & E1 & Hr & Hx & A1)].
  { left. exists p1. by apply st_bind_fail. }
  rewrite (st_bind_ok _ _ _ _ _ E1). pose proof A1 as [Hinv1 Hk1 Hw1 Hs1 Ho1].
  destruct (Hm p1 Hinv1) as [[p2 E2]|(bs & p2 & -> & E2 & A2)];
    [by rewrite Hs1|by rewrite (backed_same _ _ Hk1)|left; exists p2; by apply st_bind_fail|].
  rewrite (st_bind_ok _ _ _ _ _ E2). pose proof A2 as [Hinv2 Hk2 Hw2 Hs2 _].
  pose proof (appended_trans _ _ _ _ _ _ _ A1 A2) as A. rewrite Hs1 in *.
  destruct (close_spec p lb p2 (subs p) Hinv Hinv2) as (q & E3 & H3);
    [by rewrite (backed_same _ _ Hk2), (backed_same _ _ Hk1)|lia|done|congruence|lia|].
  replace (written p2 - (written p + lb)) with (Z.of_nat (length bs)) in * by lia.
  rewrite E3. destruct ((lb =? 0) || (Z.of_nat (length bs) <? 256 ^ lb)) eqn:El;
    [right|left; by eexists].
  destruct H3 as (r & -> & P); [apply orb_true_iff in El as [?|?]; zbool; auto|].
  exists (be_bytes (Z.to_nat lb) (Z.of_nat (length bs)) ++ bs). eexists. split_and!; [|done|].
  - simpl. destruct (lb =? 0) eqn:E0; zbool; [by rewrite E0|]. simpl in El. by rewrite El.
  - eapply appended_pop, appended_patch; try done. rewrite length_be_bytes. lia.
Qed.

(** *** Whole messages *)

Lemma exec_writes i : item_ok i -> writes (exec i) (ser i).
Proof.
  induction i as [bs|v n|lb body IH] using item_nested_ind; intros Hok.
  - by apply memcpy_writes; apply Hok.
  - by apply put_bytes_writes; apply Hok.
  - rewrite ser_Sub. simpl exec. destruct Hok as [Hlb Hok].
    apply (sub_writes lb _ (sers body) Hlb).
    induction body as [|x l IHl]; [apply writes_nil|]. simpl in Hok. destruct Hok as [Hx Hl].
    apply Forall_cons in IH as [IHx IH]. apply writes_bind; auto.
Qed.

Lemma execs_writes l : items_ok l -> writes (execs l) (sers l).
Proof.
  induction l as [|x l IHl]; intros Hok; [apply writes_nil|]. destruct Hok as [Hx Hl].
  apply writes_bind; auto using exec_writes.
Qed.

(** *** When the calls succeed

    With a caller-supplied buffer, or in counting mode, nothing but an
    over-long value and running out of room makes a call fail, provided the
    sub-packet records can be allocated. *)

Lemma appended_null p x l q bs : backed p = false -> length bs = length x ->
  appended p x l q -> appended p bs l q.
Proof. intros Hb Hl [? ? Hw ? _]. split; try done; [by rewrite Hl|congruence]. Qed.

Lemma allocate_ok len p : inv p -> subs p <> [] -> 0 < len ->
  wbuf p = None -> written p + len <= maxsize p ->
  exists x p', WPACKET_allocate_bytes len p
                 = (Ok (if backed p then Some (written p) else None), p') /\
    Z.of_nat (length x) = len /\ appended p x (subs p) p'.
Proof.
  intros Hinv Hs Hl Hw Hr. pose proof Hinv as [Hp Hm Hc He _].
  destruct (allocate_spec len p Hinv Hs ltac:(lia)) as [[p' E]|(x & p' & E & _ & Hx & A)];
    [exfalso|by exists x, p'].
  revert E. unfold WPACKET_allocate_bytes, st_bind. rewrite reserve_eq by (done || lia).
  rewrite (proj2 (Z.ltb_ge _ _)) by lia. unfold st_bind, grow_for. by rewrite Hw.
Qed.

Definition completes (m : ST WPACKET unit) (o : option (list Z)) : Prop :=
  forall p bs, inv p -> subs p <> [] -> wbuf p = None -> o = Some bs ->
  written p + Z.of_nat (length bs) <= maxsize p ->
  exists p', m p = (Ok tt, p') /\ appended p bs (subs p) p'.

Lemma wbuf_same p p' : same_kind p p' -> wbuf p = None -> wbuf p' = None.
Proof.
  intros [_ _ _ Hb] Hw. rewrite Hw in Hb. destruct (wbuf p'); [|done].
  destruct Hb as [Hb _]. destruct Hb as [? ?]; [by eexists|done].
Qed.

Lemma completes_bind m1 m2 o1 o2 : completes m1 o1 -> completes m2 o2 ->
  completes (m1 ;;; m2) (app_opt o1 o2).
Proof.
  intros H1 H2 p bs Hinv Hs Hw Ho Hr. destruct o1 as [b1|], o2 as [b2|]; try done.
  simpl in Ho. simplify_eq. rewrite length_app in Hr.
  destruct (H1 p b1 Hinv Hs Hw eq_refl ltac:(lia)) as (p1 & E1 & A1).
  rewrite (st_bind_ok _ _ _ _ _ E1). pose proof A1 as [Hinv1 Hk1 Hw1 Hs1 _].
  pose proof (sk_max _ _ Hk1).
  destruct (H2 p1 b2 Hinv1) as (p2 & E2 & A2);
    [by rewrite Hs1|by eapply wbuf_same|done|lia|].
  exists p2. split; [done|]. rewrite <- Hs1. by eapply appended_trans.
Qed.

Lemma completes_nil : completes (st_ret tt) (Some []).
Proof. intros p bs Hinv _ _ [= <-] _. exists p. auto using appended_nil. Qed.

(** What fills [n] freshly allocated bytes, when there is a buffer to fill. *)
Lemma completes_alloc n k bs :
  Z.of_nat (length bs) = n -> 0 < n ->
  k None = st_ret tt ->
  (forall d p, inv p -> backed p = true -> 0 <= d -> d + n <= written p ->
     exists p', k (Some d) p = (Ok tt, p') /\ patched p (Z.to_nat d) bs p') ->
  completes (a <~ WPACKET_allocate_bytes n ;; k a) (Some bs).
Proof.
  intros Hn Hpos Hk Hfill p bs' Hinv Hs Hw [= <-] Hr. pose proof (inv_pos _ Hinv).
  destruct (allocate_ok n p Hinv Hs Hpos Hw ltac:(lia)) as (x & p1 & E & Hx & A).
  rewrite (st_bind_ok _ _ _ _ _ E). pose proof A as [Hinv1 Hk1 Hw1 _ _].
  destruct (backed p) eqn:Hb.
  - destruct (Hfill (written p) p1) as (p2 & E2 & P);
      [done|by rewrite (backed_same _ _ Hk1)|lia|lia|].
    exists p2. split; [done|]. eapply appended_patch_all; try done. lia.
  - exists p1. rewrite Hk. split; [done|]. apply (appended_null p x); [done|lia|done].
Qed.

Lemma memcpy_completes bs : Forall is_byte bs -> completes (WPACKET_memcpy bs) (Some bs).
Proof.
  intros Hbs. unfold WPACKET_memcpy. destruct (Z.of_nat (length bs) =? 0) eqn:E; zbool.
  { destruct bs; [apply completes_nil|done]. }
  apply completes_alloc; [done|lia|done|].
  intros d p Hinv Hb Hd Hr. apply store_spec; (done || lia).
Qed.

Lemma put_bytes_completes v n : completes (WPACKET_put_bytes__ v n) (ser (Put v n)).
Proof.
  unfold WPACKET_put_bytes__, ser. destruct (_ && _) eqn:E; [|done]. zbool.
  assert (C : completes (data <~ WPACKET_allocate_bytes n ;; put_value data v n)
                (Some (be_bytes (Z.to_nat n) v))).
  { apply completes_alloc; [rewrite length_be_bytes; lia|lia|done|].
    intros d p Hinv Hb Hd Hr.
    destruct (put_value_spec d v n p) as (p' & F & P); [done|done|lia..|].
    rewrite (proj2 (Z.ltb_lt v _)) in F by done. by exists p'. }
  intros p bs Hinv Hs Hw Ho Hr. rewrite (st_bind_ok _ _ _ tt p); [by apply C|].
  unfold st_guard. by rewrite (proj2 (Z.leb_le n 8)).
Qed.

Lemma close_null p0 lb q parent : inv q -> backed q = false -> 0 <= lb -> parent <> [] ->
  subs q = opened lb p0 :: parent -> WPACKET_close q = (Ok tt, set_subs parent q).
Proof.
  intros [Hp Hm _ He _] Hb Hlb Hpar Hs. unfold WPACKET_close. rewrite Hs.
  destruct parent as [|pa pl]; [done|]. unfold wpacket_intern_close, opened. simpl.
  change (has 0 WPACKET_FLAGS_NON_ZERO_LENGTH) with false.
  change (has 0 WPACKET_FLAGS_ABANDON_ON_ZERO_LENGTH) with false.
  rewrite !andb_false_r. simpl.
  assert (GETBUF q = None) as ->.
  { unfold backed, WPACKET_is_null_buf, GETBUF in *. by destruct (staticbuf q), (wbuf q). }
  rewrite He. destruct (0 <? lb); done.
Qed.

Lemma start_ok lb p : is_Some (CRYPTO_zalloc 40) -> inv p -> subs p <> [] -> wbuf p = None ->
  0 <= lb -> written p + lb <= maxsize p ->
  exists x p', WPACKET_start_sub_packet_len__ lb p = (Ok tt, p') /\
    Z.of_nat (length x) = lb /\ appended p x (opened lb p :: subs p) p'.
Proof.
  intros [z Hz] Hinv Hs Hw Hlb Hr. pose proof Hinv as [Hp Hm _ He _].
  destruct (start_spec lb p Hinv Hs ltac:(lia)) as [[p' E]|(x & p' & E & _ & Hx & A)];
    [exfalso|by exists x, p'].
  revert E. unfold WPACKET_start_sub_packet_len__.
  rewrite (st_bind_ok _ _ _ tt p) by (unfold st_guard; by destruct (subs p)).
  rewrite (st_bind_ok _ _ _ tt p) by (unfold st_guard; by rewrite He, andb_false_r).
  rewrite Hz. destruct (lb =? 0) eqn:E0; zbool; [done|].
  set (p1 := set_subs _ p).
  destruct (allocate_ok lb p1) as (x & p2 & E2 & _); [by apply inv_set_subs|done|lia|done|done|].
  by rewrite (st_bind_ok _ _ _ _ _ E2).
Qed.

Lemma sub_completes lb m o : is_Some (CRYPTO_zalloc 40) -> 0 <= lb ->
  writes m o -> completes m o ->
  completes (WPACKET_start_sub_packet_len__ lb ;;; m ;;; WPACKET_close) (prefixed lb o).
Proof.
  intros Hz Hlb Hwm Hm p bs0 Hinv Hs Hw Ho Hr. pose proof (inv_max _ Hinv) as Hmax.
  pose proof (inv_pos _ Hinv) as Hpos.
  destruct o as [bs|]; [|done].
  assert (Hfit : (lb = 0 \/ Z.of_nat (length bs) < 256 ^ lb) /\
                 bs0 = be_bytes (Z.to_nat lb) (Z.of_nat (length bs)) ++ bs).
  { simpl in Ho. destruct (lb =? 0) eqn:E; zbool; [split; [by left|]; rewrite E; by simplify_eq|].
    destruct (Z.of_nat (length bs) <? 256 ^ lb) eqn:El; simplify_eq; zbool. auto. }
  destruct Hfit as [Hfit ->]. rewrite length_app, length_be_bytes in Hr.
  destruct (start_ok lb p Hz Hinv Hs Hw Hlb ltac:(lia)) as (x & p1 & E1 & Hx & A1).
  pose proof A1 as [Hinv1 Hk1 Hw1 Hs1 _]. pose proof (sk_max _ _ Hk1).
  destruct (Hm p1 bs Hinv1) as (p2 & E2 & A2);
    [by rewrite Hs1|by eapply wbuf_same|done|lia|].
  rewrite (st_bind_ok _ _ _ _ _ E1), (st_bind_ok _ _ _ _ _ E2).
  pose proof A2 as [Hinv2 Hk2 Hw2 Hs2 _]. rewrite Hs1 in *.
  pose proof (appended_trans _ _ _ _ _ _ _ A1 A2) as A.
  destruct (backed p) eqn:Hb.
  - destruct (close_spec p lb p2 (subs p) Hinv Hinv2) as (q & E3 & H3);
      [by rewrite (backed_same _ _ Hk2), (backed_same _ _ Hk1)|lia|done|congruence|lia|].
    replace (written p2 - (written p + lb)) with (Z.of_nat (length bs)) in * by lia.
    destruct (H3 Hfit) as (r & -> & P). exists (set_subs (subs p) r). rewrite E3. split.
    + destruct Hfit as [->|Hlt]; [done|]. by rewrite (proj2 (Z.ltb_lt _ _) Hlt), orb_true_r.
    + eapply appended_pop, appended_patch; try done. rewrite length_be_bytes. lia.
  - eexists. rewrite (close_null p lb p2 (subs p)); try done;
      [|by rewrite (backed_same _ _ Hk2), (backed_same _ _ Hk1)].
    split; [done|]. eapply appended_pop, (appended_null p (x ++ bs)); [done| |done].
    rewrite !length_app, length_be_bytes. lia.
Qed.

Lemma exec_completes i : is_Some (CRYPTO_zalloc 40) -> item_ok i -> completes (exec i) (ser i).
Proof.
  intros Hz. induction i as [bs|v n|lb body IH] using item_nested_ind; intros Hok.
  - by apply memcpy_completes, Hok.
  - by apply put_bytes_completes.
  - rewrite ser_Sub. simpl exec. destruct Hok as [Hlb Hok].
    apply (sub_completes lb _ (sers body)); [done|lia| |].
    + by apply execs_writes.
    + induction body as [|x l IHl]; [apply completes_nil|]. simpl in Hok.
      destruct Hok as [Hx Hl]. apply Forall_cons in IH as [IHx IH]. apply completes_bind; auto.
Qed.

Lemma execs_completes l : is_Some (CRYPTO_zalloc 40) -> items_ok l -> completes (execs l) (sers l).
Proof.
  intros Hz. induction l as [|x l IHl]; intros Hok; [apply completes_nil|].
  destruct Hok as [Hx Hl]. apply completes_bind; auto using exec_completes.
Qed.
End Calls.
