(* ===== verification/WPacketRun.v ===== *)
(** * Whole packet-writer runs

    Initialization, a message, [WPACKET_finish]: the theorems on what ends up
    in the buffer, and the round trip through the packet reader. *)

From stdpp Require Import prelude.
From Stdlib Require Import ZArith Lia.
From S2P Require Import Prelude Packet Buffer WPacket WPacketSpec.
Import Parser.

Local Open Scope Z_scope.
Local Open Scope st_scope.

Section Runs.
Context `{L : Libc} {LO : LibcOk L}.

(** A message written into a caller's buffer, with [lb] length bytes in front. *)
Definition run_static (buf : list Z) (lb : Z) (l : list item) : ST WPACKET unit :=
  WPACKET_init_static_len buf lb ;;; execs l ;;; WPACKET_finish.

(** The same in a growable buffer. *)
Definition run_buf (buf : BUF_MEM) (lb : Z) (l : list item) : ST WPACKET unit :=
  WPACKET_init_len buf lb ;;; execs l ;;; WPACKET_finish.

Definition static_start (buf : list Z) (lb : Z) (l : list WPACKET_SUB) : WPACKET :=
  mkWPACKET None (Some buf) 0 0
    (if maxmaxsize lb <? Z.of_nat (length buf) then maxmaxsize lb else Z.of_nat (length buf)) l false.

Definition buf_start (buf : BUF_MEM) (lb : Z) (l : list WPACKET_SUB) : WPACKET :=
  mkWPACKET (Some buf) None 0 0 (maxmaxsize lb) l false.

Lemma maxmaxsize_eq lb : 0 <= lb ->
  maxmaxsize lb = if (8 <=? lb) || (lb =? 0) then SIZE_MAX else 256 ^ lb - 1 + lb.
Proof.
  intros H. unfold maxmaxsize. destruct (_ || _); [done|].
  rewrite Z.shiftl_mul_pow2, Z.mul_1_l, Z.mul_comm, Z.pow_mul_r by lia. done.
Qed.

Lemma maxmaxsize_bounds lb : 0 <= lb -> lb <= SIZE_MAX -> lb <= maxmaxsize lb <= SIZE_MAX.
Proof.
  intros H0 H1. rewrite maxmaxsize_eq by done.
  destruct (8 <=? lb) eqn:E; zbool; simpl; [lia|].
  destruct (lb =? 0) eqn:E0; zbool; [unfold SIZE_MAX; lia|].
  pose proof (Z.pow_le_mono_r 256 lb 7 ltac:(lia) ltac:(lia)).
  pose proof (Z.pow_pos_nonneg 256 lb ltac:(lia) ltac:(lia)).
  unfold SIZE_MAX. change (256 ^ 7) with 72057594037927936 in *. lia.
Qed.

Lemma inv_static_start buf lb l : 0 <= lb <= SIZE_MAX -> Z.of_nat (length buf) <= SIZE_MAX ->
  inv (static_start buf lb l).
Proof.
  intros Hlb Hb. pose proof (maxmaxsize_bounds lb ltac:(lia) ltac:(lia)).
  split; simpl; try done; destruct (maxmaxsize lb <? _) eqn:E; zbool; lia.
Qed.

Lemma inv_buf_start buf lb l : 0 <= lb <= SIZE_MAX -> buf_wf buf -> buf_length buf <= SIZE_MAX ->
  inv (buf_start buf lb l).
Proof.
  intros Hlb Hb Hl. pose proof (maxmaxsize_bounds lb ltac:(lia) ltac:(lia)).
  split; simpl; try done; try lia. pose proof Hb as [? ?]. split; [done|lia].
Qed.

Lemma intern_init_spec lb p : inv (set_pos 0 0 p) -> 0 <= lb <= SIZE_MAX ->
  (exists p', wpacket_intern_init_len lb p = (Fail, p')) \/
  (exists x p', wpacket_intern_init_len lb p = (Ok tt, p') /\ Z.of_nat (length x) = lb /\
     appended (set_pos 0 0 p) x [opened lb (set_pos 0 0 p)] p').
Proof.
  intros Hinv Hlb. unfold wpacket_intern_init_len.
  rewrite (st_bind_ok _ _ _ tt (set_pos 0 0 p)) by done. set (p0 := set_pos 0 0 p) in *.
  destruct (CRYPTO_zalloc 40); [|left; by eexists]. unfold opened.
  destruct (lb =? 0) eqn:E; zbool.
  - subst lb. right. exists []. eexists; split_and!; [done|done|].
    eapply appended_pop, appended_nil. done.
  - set (p1 := set_subs _ (set_subs _ p0)).
    destruct (allocate_spec lb p1) as [[p' ->]|(x & p' & -> & _ & Hx & A)];
      [by apply inv_set_subs, inv_set_subs|done|lia|left; by eexists|].
    right. exists x, p'. split_and!; try done.
    eapply appended_set_subs, appended_set_subs. exact A.
Qed.

Lemma intern_init_ok lb p : is_Some (CRYPTO_zalloc 40) -> inv (set_pos 0 0 p) ->
  wbuf p = None -> 0 <= lb <= maxsize p ->
  exists p', wpacket_intern_init_len lb p = (Ok tt, p').
Proof.
  intros [z Hz] Hinv Hw Hlb. unfold wpacket_intern_init_len.
  rewrite (st_bind_ok _ _ _ tt (set_pos 0 0 p)) by done. rewrite Hz.
  destruct (lb =? 0) eqn:E; zbool; [by eexists|].
  set (p1 := set_subs _ (set_subs _ _)).
  destruct (allocate_ok lb p1) as (x & p' & -> & _);
    [by apply inv_set_subs, inv_set_subs|done|lia|done|simpl; lia|by eexists].
Qed.

Lemma finish_spec p0 lb q : inv p0 -> inv q -> backed q = true -> 0 <= lb ->
  subs q = [opened lb p0] -> written p0 + lb <= written q ->
  let packlen := written q - (written p0 + lb) in
  exists q', WPACKET_finish q = (if (lb =? 0) || (packlen <? 256 ^ lb) then Ok tt else Fail, q') /\
    ((lb = 0 \/ packlen < 256 ^ lb) ->
     exists r, q' = set_subs [] r /\
       patched q (Z.to_nat (written p0)) (be_bytes (Z.to_nat lb) packlen) r).
Proof.
  intros H0 Hinv Hb Hlb Hs Hw packlen. unfold WPACKET_finish. rewrite Hs.
  destruct (intern_close_spec p0 lb q [] H0 Hinv Hb Hlb Hw) as (q' & -> & Hq). fold packlen in Hq |- *.
  destruct ((lb =? 0) || (packlen <? 256 ^ lb)).
  - eexists; split; [done|]. intros Hf. destruct (Hq Hf) as (r & -> & P). by exists r.
  - by exists q'.
Qed.

Definition run (lb : Z) (m : ST WPACKET unit) : ST WPACKET unit :=
  wpacket_intern_init_len lb ;;; m ;;; WPACKET_finish.

Lemma run_writes lb m o p : inv (set_pos 0 0 p) -> backed p = true -> 0 <= lb <= SIZE_MAX ->
  writes m o ->
  (exists p', run lb m p = (Fail, p')) \/
  (exists bs p', run lb m p = (Ok tt, p') /\ prefixed lb o = Some bs /\
     appended (set_pos 0 0 p) bs [] p').
Proof.
  intros Hinv Hb Hlb Hm. unfold run.
  destruct (intern_init_spec lb p Hinv Hlb) as [[p' E]|(x & p1 & E & Hx & A1)].
  { left. exists p'. by apply st_bind_fail. }
  rewrite (st_bind_ok _ _ _ _ _ E). pose proof A1 as [Hinv1 Hk1 Hw1 Hs1 _].
  set (p0 := set_pos 0 0 p) in *.
  destruct (Hm p1 Hinv1) as [[p2 E2]|(bs & p2 & -> & E2 & A2)];
    [by rewrite Hs1|by rewrite (backed_same _ _ Hk1)|left; exists p2; by apply st_bind_fail|].
  rewrite (st_bind_ok _ _ _ _ _ E2). pose proof A2 as [Hinv2 Hk2 Hw2 Hs2 _]. rewrite Hs1 in *.
  pose proof (appended_trans _ _ _ _ _ _ _ A1 A2) as A.
  destruct (finish_spec p0 lb p2 Hinv Hinv2) as (q & E3 & H3);
    [by rewrite (backed_same _ _ Hk2), (backed_same _ _ Hk1)|lia|done|lia|].
  replace (written p2 - (written p0 + lb)) with (Z.of_nat (length bs)) in * by lia.
  rewrite E3. destruct (_ || _) eqn:El; [right|left; by eexists].
  destruct H3 as (r & -> & P); [apply orb_true_iff in El as [?|?]; zbool; auto|].
  exists (be_bytes (Z.to_nat lb) (Z.of_nat (length bs)) ++ bs). eexists. split_and!; [done| |].
  - simpl. destruct (lb =? 0) eqn:E0; zbool; [by rewrite E0|]. simpl in El. by rewrite El.
  - eapply appended_pop, appended_patch; try done. rewrite length_be_bytes. lia.
Qed.

Lemma run_completes lb m o bs p : inv (set_pos 0 0 p) -> backed p = true -> 0 <= lb <= SIZE_MAX ->
  is_Some (CRYPTO_zalloc 40) -> wbuf p = None -> writes m o -> completes m o ->
  prefixed lb o = Some bs -> Z.of_nat (length bs) <= maxsize p ->
  exists p', run lb m p = (Ok tt, p') /\ appended (set_pos 0 0 p) bs [] p'.
Proof.
  intros Hinv Hb Hlb Hz Hw Hwr Hc Ho Hr.
  destruct (run_writes lb m o p Hinv Hb Hlb Hwr) as [[p' E]|(bs' & p' & E & Ho' & A)];
    [exfalso|exists p'; split; [done|congruence]].
  destruct o as [b|]; [|done].
  assert (Hlen : lb + Z.of_nat (length b) = Z.of_nat (length bs) /\
                 (lb = 0 \/ Z.of_nat (length b) < 256 ^ lb)).
  { simpl in Ho. destruct (lb =? 0) eqn:E0; zbool; simplify_eq; [lia|].
    destruct (_ <? _) eqn:El; simplify_eq; zbool. rewrite length_app, length_be_bytes. lia. }
  destruct Hlen as [Hlen Hfit].
  destruct (intern_init_ok lb p Hz Hinv Hw ltac:(lia)) as [p1 E1].
  destruct (intern_init_spec lb p Hinv Hlb) as [[? E1']|(x & p1' & E1' & Hx & A1)]; [congruence|].
  assert (p1' = p1) as -> by congruence. pose proof A1 as [Hinv1 Hk1 Hw1 Hs1 _].
  pose proof (sk_max _ _ Hk1) as Hmax. simpl in Hw1, Hmax.
  destruct (Hc p1 b Hinv1) as (p2 & E2 & A2);
    [by rewrite Hs1|by eapply wbuf_same|done|lia|].
  pose proof A2 as [Hinv2 Hk2 Hw2 Hs2 _]. revert E. unfold run.
  rewrite (st_bind_ok _ _ _ _ _ E1), (st_bind_ok _ _ _ _ _ E2).
  destruct (finish_spec (set_pos 0 0 p) lb p2 Hinv Hinv2) as (q & -> & _);
    [rewrite (backed_same _ _ Hk2), (backed_same _ _ Hk1); done|lia|congruence|simpl; lia|].
  replace (_ - _) with (Z.of_nat (length b)) by (simpl; lia).
  destruct Hfit as [->|Hlt]; [done|]. by rewrite (proj2 (Z.ltb_lt _ _) Hlt), orb_true_r.
Qed.

(** A framed message never exceeds what [maxmaxsize] allows. *)
Lemma prefixed_le_maxmaxsize lb o bs : 0 <= lb -> prefixed lb o = Some bs ->
  Z.of_nat (length bs) <= SIZE_MAX -> Z.of_nat (length bs) <= maxmaxsize lb.
Proof.
  intros Hlb Ho Hl. rewrite maxmaxsize_eq by done. destruct o as [b|]; [|done]. simpl in Ho.
  destruct (8 <=? lb); simpl; [done|]. destruct (lb =? 0); [done|].
  destruct (_ <? _) eqn:E; zbool; simplify_eq. rewrite length_app, length_be_bytes. lia.
Qed.

Lemma run_static_eq buf lb m p : buf <> [] ->
  (WPACKET_init_static_len buf lb ;;; m ;;; WPACKET_finish) p
  = run lb m (mkWPACKET None (Some buf) (wcurr p) (written p)
      (maxsize (static_start buf lb [])) (subs p) false).
Proof.
  intros Hb. unfold run, st_bind, WPACKET_init_static_len.
  rewrite (proj2 (Z.ltb_lt 0 _)) by (destruct buf; simpl; (done || lia)). done.
Qed.

(** The common form of the two theorems below. *)
Lemma static_run_spec buf lb m o p :
  is_Some (CRYPTO_zalloc 40) -> buf <> [] -> Z.of_nat (length buf) <= SIZE_MAX ->
  0 <= lb <= SIZE_MAX -> writes m o -> completes m o ->
  exists p', (WPACKET_init_static_len buf lb ;;; m ;;; WPACKET_finish) p
    = (match prefixed lb o with
       | Some bs => if Z.of_nat (length bs) <=? Z.of_nat (length buf) then Ok tt else Fail
       | None => Fail
       end, p') /\
  (forall bs, prefixed lb o = Some bs -> Z.of_nat (length bs) <= Z.of_nat (length buf) ->
   out p' = bs /\ written p' = Z.of_nat (length bs) /\ subs p' = []).
Proof.
  intros Hz Hne Hl Hlb Hw Hc. rewrite run_static_eq by done. set (p0 := mkWPACKET _ _ _ _ _ _ _).
  assert (Hinv : inv (set_pos 0 0 p0)) by by apply (inv_static_start buf lb (subs p)).
  assert (Hout : out (set_pos 0 0 p0) = []) by done.
  assert (Hmax : maxsize p0 <= Z.of_nat (length buf)).
  { unfold p0. simpl. destruct (maxmaxsize lb <? _) eqn:E; zbool; lia. }
  destruct (prefixed lb o) as [bs|] eqn:Eo; [destruct (_ <=? _) eqn:El; zbool|].
  - destruct (run_completes lb m o bs p0) as (p' & E & [_ _ Hwr Hs Ho]); try done.
    { unfold p0, static_start. simpl. destruct (maxmaxsize lb <? _) eqn:E; zbool; [|done].
      eapply prefixed_le_maxmaxsize; (done || lia). }
    exists p'. split; [done|]. intros ? [= <-] _. rewrite Ho, Hout by done. auto.
  - destruct (run_writes lb m o p0) as [[p' E]|(bs' & p' & _ & E' & [Hi Hk Hwr _ _])]; try done.
    + exists p'. split; [done|]. intros ? [= <-]. lia.
    + pose proof (inv_pos _ Hi). pose proof (sk_max _ _ Hk). simpl in *. simplify_eq. lia.
  - destruct (run_writes lb m o p0) as [[p' E]|(bs' & p' & _ & E' & _)]; try done; [|congruence].
    exists p'. done.
Qed.

(** C23.  Writing a message into a caller's buffer, whole life cycle
    ([WPACKET_init_static_len], any nesting of [WPACKET_memcpy],
    [WPACKET_put_bytes__] and sub-packets, [WPACKET_finish]): the run succeeds
    exactly when the message has a serialization (every value fits its width,
    every sub-packet its length field) that fits the buffer, and then the bytes
    written are that serialization, length fields filled in.  No run stores
    outside the buffer. *)
Theorem wpacket_static_run (buf : list Z) (lb : Z) (l : list item) (p : WPACKET)
  (Hz : is_Some (CRYPTO_zalloc 40)) (Hbuf : buf <> [])
  (Hlen : Z.of_nat (length buf) <= SIZE_MAX) (Hlb : 0 <= lb <= SIZE_MAX) (Hl : items_ok l) :
  exists p', run_static buf lb l p
    = (match ser (Sub lb l) with
       | Some bs => if Z.of_nat (length bs) <=? Z.of_nat (length buf) then Ok tt else Fail
       | None => Fail
       end, p') /\
  (forall bs, ser (Sub lb l) = Some bs -> Z.of_nat (length bs) <= Z.of_nat (length buf) ->
   out p' = bs /\ written p' = Z.of_nat (length bs) /\ subs p' = []).
Proof.
  rewrite ser_Sub. apply static_run_spec; auto using execs_writes, execs_completes.
Qed.

(** C24.  Writing a message into a growable buffer, with any allocator: the run
    either fails or leaves exactly the serialization of the message in the
    buffer, which is still well formed; it never stores outside the block,
    whatever the growth steps in between. *)
Theorem wpacket_buf_run (buf : BUF_MEM) (lb : Z) (l : list item) (p : WPACKET)
  (Hbuf : buf_wf buf) (Hlen : buf_length buf <= SIZE_MAX) (Hlb : 0 <= lb <= SIZE_MAX)
  (Hl : items_ok l) :
  (exists p', run_buf buf lb l p = (Fail, p')) \/
  (exists bs p' b', run_buf buf lb l p = (Ok tt, p') /\ ser (Sub lb l) = Some bs /\
     wbuf p' = Some b' /\ buf_wf b' /\ take (length bs) (contents b') = bs /\
     written p' = Z.of_nat (length bs) /\ subs p' = []).
Proof.
  rewrite ser_Sub. set (p0 := mkWPACKET (Some buf) None (wcurr p) (written p) (maxmaxsize lb) (subs p) false).
  change (run_buf buf lb l p) with (run lb (execs l) p0).
  destruct (run_writes lb (execs l) (sers l) p0) as [?|(bs & p' & E & Ho & A)];
    [by apply (inv_buf_start buf lb (subs p))|done|done|by apply execs_writes|by left|right].
  destruct A as [Hinv [_ _ Hst Hbk] Hw Hs Hout]. simpl in Hw, Hst, Hbk.
  assert (staticbuf p' = None) as Est by by destruct (staticbuf p').
  destruct (proj2 Hbk) as [b' Eb]; [by eexists|].
  pose proof (inv_buf _ Hinv) as Hb. pose proof (inv_pos _ Hinv). rewrite Est, Eb in Hb.
  destruct Hb as [Hwf ?]. exists bs, p', b'. split_and!; try done.
  transitivity (out p'); [|rewrite Hout by done; unfold out; simpl; by destruct (GETBUF _)].
  rewrite (out_buf p' b') by (done || lia).
  f_equal. lia.
Qed.

(**  Counting mode: for a message that has a serialization within the limit,
    a writer without a buffer goes through the same calls successfully and its
    [written] is the length of that serialization, so the length it predicts is
    the one the run into a real buffer produces. *)
Lemma wpacket_null_run (lb : Z) (l : list item) (bs : list Z) (p : WPACKET)
  (Hz : is_Some (CRYPTO_zalloc 40)) (Hlb : 0 <= lb <= SIZE_MAX) (Hl : items_ok l)
  (Hs : sers l = Some bs) (Hfit : Z.of_nat (length bs) <= maxmaxsize lb) :
  exists p', (WPACKET_init_null lb ;;; execs l ;;; WPACKET_get_total_written) p
             = (Ok (Z.of_nat (length bs)), p').
Proof.
  set (p0 := mkWPACKET None None (wcurr p) (written p) (maxmaxsize lb) (subs p) false).
  pose proof (maxmaxsize_bounds lb ltac:(lia) ltac:(lia)) as Hm.
  assert (Hinv : inv (set_pos 0 0 p0)) by (by split; simpl; auto; lia).
  destruct (intern_init_ok 0 p0 Hz Hinv eq_refl ltac:(simpl; lia)) as [p1 E1].
  destruct (intern_init_spec 0 p0 Hinv ltac:(lia)) as [[? ?]|(x & p1' & E1' & Hx & A1)]; [congruence|].
  assert (p1' = p1) as -> by congruence. destruct x; [|done].
  pose proof A1 as [Hinv1 Hk1 Hw1 Hs1 _]. pose proof (sk_max _ _ Hk1) as Hmax. simpl in Hw1, Hmax.
  destruct (execs_completes l Hz Hl p1 bs Hinv1) as (p2 & E2 & [_ _ Hw2 _ _]);
    [by rewrite Hs1|by eapply wbuf_same|done|lia|].
  change (WPACKET_init_null lb) with (fun p => WPACKET_init_null lb p).
  exists p2. rewrite (st_bind_ok _ _ _ _ _ (E1 : WPACKET_init_null lb p = _)).
  rewrite (st_bind_ok _ _ _ _ _ E2). unfold WPACKET_get_total_written, st_get.
  by rewrite Hw2, Hw1.
Qed.

(** ** Writing and reading back *)

Definition reader (lb : Z) : ST PACKET PACKET :=
  if lb =? 1 then PACKET_get_length_prefixed_1
  else if lb =? 2 then PACKET_get_length_prefixed_2
  else PACKET_get_length_prefixed_3.

Lemma reader_refines lb : 1 <= lb <= 3 -> refines sub_view (reader lb) (p_vec (Z.to_nat lb)).
Proof.
  intros H. unfold reader. assert (lb = 1 \/ lb = 2 \/ lb = 3) as [->|[->| ->]] by lia; simpl;
    apply refines_on_copy, vec_refines; auto with qtls.
Qed.

Lemma p_vec_prefixed n payload rest : Z.of_nat (length payload) < 256 ^ Z.of_nat n ->
  p_vec n ((be_bytes n (Z.of_nat (length payload)) ++ payload) ++ rest) = Some (payload, rest).
Proof.
  intros H. unfold p_vec, p_bind, p_uint, p_map, p_bytes.
  rewrite !length_app, length_be_bytes, decide_True by lia.
  rewrite <- app_assoc. rewrite take_app_length', drop_app_length' by (by rewrite length_be_bytes).
  rewrite be_val_bytes_small, Nat2Z.id by lia.
  rewrite length_app, decide_True by lia. by rewrite take_app_length, drop_app_length.
Qed.

(** C40.  Round trip: a byte string written as a vector with a length field of
    1, 2 or 3 bytes ([WPACKET_sub_memcpy__] between [WPACKET_init_static_len]
    and [WPACKET_finish]) and read back, whatever follows it, with the
    [PACKET_get_length_prefixed_n] of that width, comes back unchanged, and the
    reader stands exactly behind it. *)
Theorem vector_roundtrip (lb : Z) (payload rest buf : list Z) (p : WPACKET)
  (Hz : is_Some (CRYPTO_zalloc 40)) (Hlb : 1 <= lb <= 3)
  (Hp : Z.of_nat (length payload) < 256 ^ lb)
  (Hbytes : Forall is_byte (payload ++ rest)) (Hr : Z.of_nat (length rest) < 2 ^ 32)
  (Hbuf : lb + Z.of_nat (length payload) <= Z.of_nat (length buf) <= SIZE_MAX) :
  exists p' sub pkt',
    (WPACKET_init_static_len buf 0 ;;; WPACKET_sub_memcpy__ payload lb ;;; WPACKET_finish) p
      = (Ok tt, p') /\
    reader lb (mkPACKET (Ptr (out p' ++ rest) 0) (Z.of_nat (length (out p' ++ rest)))) = (Ok sub, pkt') /\
    view sub = payload /\ view pkt' = rest.
Proof.
  apply Forall_app in Hbytes as [Hpl Hrest].
  assert (Hsmall : 256 ^ lb <= 16777216).
  { assert (lb = 1 \/ lb = 2 \/ lb = 3) as [->|[->| ->]] by lia; done. }
  set (bs := be_bytes (Z.to_nat lb) (Z.of_nat (length payload)) ++ payload).
  assert (Hlbs : Z.of_nat (length bs) = lb + Z.of_nat (length payload)).
  { unfold bs. rewrite length_app, length_be_bytes. lia. }
  assert (Hbs : prefixed 0 (prefixed lb (Some payload)) = Some bs).
  { simpl. rewrite (proj2 (Z.eqb_neq lb 0)) by lia. by rewrite (proj2 (Z.ltb_lt _ _) Hp). }
  destruct (static_run_spec buf 0 (WPACKET_sub_memcpy__ payload lb) (prefixed lb (Some payload)) p)
    as (p' & E & H); try done; try lia.
  { intros ->. simpl in Hbuf. lia. }
  { apply sub_writes; [unfold SIZE_MAX; lia|]. apply memcpy_writes; [unfold SIZE_MAX; lia|done]. }
  { apply sub_completes; [done|lia| |by apply memcpy_completes].
    apply memcpy_writes; [unfold SIZE_MAX; lia|done]. }
  rewrite Hbs, (proj2 (Z.leb_le _ _)) in E by lia.
  destruct (H bs Hbs ltac:(lia)) as (Hout & _ & _). exists p'. rewrite Hout.
  set (pkt := mkPACKET _ _).
  assert (Hview : view pkt = bs ++ rest).
  { unfold view, pkt. simpl. rewrite drop_0, Nat2Z.id. by rewrite take_ge. }
  pose proof (reader_refines lb Hlb pkt) as R. rewrite Hview in R. unfold bs in R at 1.
  rewrite p_vec_prefixed in R by (rewrite Z2Nat.id; lia).
  destruct R as (sub & pkt' & Er & [_ Hsub] & _ & Hrst & _); [|by exists sub, pkt'].
  unfold wf, pkt. simpl. split_and!.
  - lia.
  - rewrite length_app. change (SIZE_MAX / 2) with 9223372036854775807. lia.
  - lia.
  - lia.
  - unfold bs. rewrite !Forall_app. auto using be_bytes_is_byte.
Qed.
End Runs.

(** *** The hypotheses at concrete inputs *)

Definition blank : WPACKET := mkWPACKET None None 0 0 0 [] false.

Lemma wpacket_static_run_witness :
  exists p', run_static (L := zero_libc) (replicate 16 0) 2 [Put 5 1; Sub 1 [Raw [1; 2; 3]]] blank
             = (Ok tt, p') /\ out p' = [0; 5; 5; 3; 1; 2; 3].
Proof.
  destruct (wpacket_static_run (LO := zero_libc_ok) (replicate 16 0) 2
              [Put 5 1; Sub 1 [Raw [1; 2; 3]]] blank) as (p' & E & H).
  - by eexists.
  - done.
  - done.
  - done.
  - simpl. unfold SIZE_MAX. split_and!; try lia; try done. repeat constructor; unfold is_byte; lia.
  - exists p'. split; [exact E|]. apply (H [0; 5; 5; 3; 1; 2; 3]); done.
Defined.

Lemma wpacket_buf_run_witness :
  (exists p', run_buf (L := zero_libc) (mkBUF_MEM 0 None 0 0) 1 [Put 513 2] blank = (Fail, p')) \/
  (exists bs p' b', run_buf (L := zero_libc) (mkBUF_MEM 0 None 0 0) 1 [Put 513 2] blank = (Ok tt, p') /\
     ser (Sub 1 [Put 513 2]) = Some bs /\
     wbuf p' = Some b' /\ buf_wf b' /\ take (length bs) (contents b') = bs /\
     written p' = Z.of_nat (length bs) /\ subs p' = []).
Proof.
  apply (wpacket_buf_run (LO := zero_libc_ok)); [done|done|done|].
  simpl. unfold SIZE_MAX. lia.
Defined.

Lemma wpacket_null_run_witness :
  exists p', (WPACKET_init_null (H := zero_libc) 0 ;;; execs (H := zero_libc) [Sub 3 [Raw [7; 7]]] ;;;
              WPACKET_get_total_written) blank = (Ok 5, p').
Proof.
  apply (wpacket_null_run (LO := zero_libc_ok) 0 [Sub 3 [Raw [7; 7]]] [0; 0; 2; 7; 7] blank).
  - by eexists.
  - done.
  - simpl. unfold SIZE_MAX. split_and!; try lia; try done. repeat constructor; unfold is_byte; lia.
  - done.
  - done.
Defined.

Lemma vector_roundtrip_witness :
  exists p' sub pkt',
    (WPACKET_init_static_len (H := zero_libc) (replicate 8 0) 0 ;;;
     WPACKET_sub_memcpy__ (H := zero_libc) [1; 2; 3] 2 ;;; WPACKET_finish (H := zero_libc)) blank
      = (Ok tt, p') /\
    reader 2 (mkPACKET (Ptr (out p' ++ [9]) 0) (Z.of_nat (length (out p' ++ [9])))) = (Ok sub, pkt') /\
    view sub = [1; 2; 3] /\ view pkt' = [9].
Proof.
  apply (vector_roundtrip (LO := zero_libc_ok) 2 [1; 2; 3] [9] (replicate 8 0) blank).
  - by eexists.
  - done.
  - done.
  - repeat constructor; unfold is_byte; lia.
  - done.
  - done.
Defined.
