(* ===== verification/StatemTypes.v ===== *)
(** * Data of the handshake state machines

    Enumerations and records of include/internal/statem.h, ssl/ssl_local.h and
    ssl/statem/statem_local.h, the protocol constants, and the interface to the
    code the state machines call. *)

From stdpp Require Import prelude.
From Stdlib Require Import ZArith Lia.
From S2P Require Import Prelude Packet Buffer WPacket.

Local Open Scope Z_scope.
Local Open Scope st_scope.

(** ** Enumerations *)

Inductive WORK_STATE : Type :=
| WORK_ERROR | WORK_FINISHED_STOP | WORK_FINISHED_CONTINUE
| WORK_MORE_A | WORK_MORE_B | WORK_MORE_C.

Inductive WRITE_TRAN : Type :=
| WRITE_TRAN_ERROR | WRITE_TRAN_CONTINUE | WRITE_TRAN_FINISHED.

Inductive MSG_FLOW_STATE : Type :=
| MSG_FLOW_UNINITED | MSG_FLOW_ERROR | MSG_FLOW_READING | MSG_FLOW_WRITING
| MSG_FLOW_FINISHED.

Inductive READ_STATE : Type :=
| READ_STATE_HEADER | READ_STATE_BODY | READ_STATE_POST_PROCESS.

Inductive WRITE_STATE : Type :=
| WRITE_STATE_TRANSITION | WRITE_STATE_PRE_WORK | WRITE_STATE_SEND
| WRITE_STATE_POST_WORK.

Inductive CON_FUNC_RETURN : Type :=
| CON_FUNC_ERROR | CON_FUNC_SUCCESS | CON_FUNC_DONT_SEND.

Inductive MSG_PROCESS_RETURN : Type :=
| MSG_PROCESS_ERROR | MSG_PROCESS_FINISHED_READING
| MSG_PROCESS_CONTINUE_PROCESSING | MSG_PROCESS_CONTINUE_READING.

Inductive SUB_STATE_RETURN : Type :=
| SUB_STATE_ERROR | SUB_STATE_FINISHED | SUB_STATE_END_HANDSHAKE.

Inductive OSSL_HANDSHAKE_STATE : Type :=
| TLS_ST_BEFORE | TLS_ST_OK
| DTLS_ST_CR_HELLO_VERIFY_REQUEST | TLS_ST_CR_SRVR_HELLO | TLS_ST_CR_CERT
| TLS_ST_CR_COMP_CERT | TLS_ST_CR_CERT_STATUS | TLS_ST_CR_KEY_EXCH
| TLS_ST_CR_CERT_REQ | TLS_ST_CR_SRVR_DONE | TLS_ST_CR_SESSION_TICKET
| TLS_ST_CR_CHANGE | TLS_ST_CR_FINISHED
| TLS_ST_CW_CLNT_HELLO | TLS_ST_CW_CERT | TLS_ST_CW_COMP_CERT | TLS_ST_CW_KEY_EXCH
| TLS_ST_CW_CERT_VRFY | TLS_ST_CW_CHANGE | TLS_ST_CW_NEXT_PROTO | TLS_ST_CW_FINISHED
| TLS_ST_SW_HELLO_REQ | TLS_ST_SR_CLNT_HELLO | DTLS_ST_SW_HELLO_VERIFY_REQUEST
| TLS_ST_SW_SRVR_HELLO | TLS_ST_SW_CERT | TLS_ST_SW_COMP_CERT | TLS_ST_SW_KEY_EXCH
| TLS_ST_SW_CERT_REQ | TLS_ST_SW_SRVR_DONE
| TLS_ST_SR_CERT | TLS_ST_SR_COMP_CERT | TLS_ST_SR_KEY_EXCH | TLS_ST_SR_CERT_VRFY
| TLS_ST_SR_NEXT_PROTO | TLS_ST_SR_CHANGE | TLS_ST_SR_FINISHED
| TLS_ST_SW_SESSION_TICKET | TLS_ST_SW_CERT_STATUS | TLS_ST_SW_CHANGE
| TLS_ST_SW_FINISHED | TLS_ST_SW_ENCRYPTED_EXTENSIONS
| TLS_ST_CR_ENCRYPTED_EXTENSIONS | TLS_ST_CR_CERT_VRFY | TLS_ST_SW_CERT_VRFY
| TLS_ST_CR_HELLO_REQ | TLS_ST_SW_KEY_UPDATE | TLS_ST_CW_KEY_UPDATE
| TLS_ST_SR_KEY_UPDATE | TLS_ST_CR_KEY_UPDATE | TLS_ST_EARLY_DATA
| TLS_ST_PENDING_EARLY_DATA_END | TLS_ST_CW_END_OF_EARLY_DATA
| TLS_ST_SR_END_OF_EARLY_DATA.

Inductive SSL_PHA_STATE : Type :=
| SSL_PHA_NONE | SSL_PHA_EXT_SENT | SSL_PHA_EXT_RECEIVED | SSL_PHA_REQUEST_PENDING
| SSL_PHA_REQUESTED.

Inductive SSL_EARLY_DATA_STATE : Type :=
| SSL_EARLY_DATA_NONE | SSL_EARLY_DATA_CONNECT_RETRY | SSL_EARLY_DATA_CONNECTING
| SSL_EARLY_DATA_WRITE_RETRY | SSL_EARLY_DATA_WRITING | SSL_EARLY_DATA_WRITE_FLUSH
| SSL_EARLY_DATA_UNAUTH_WRITING | SSL_EARLY_DATA_FINISHED_WRITING
| SSL_EARLY_DATA_ACCEPT_RETRY | SSL_EARLY_DATA_ACCEPTING | SSL_EARLY_DATA_READ_RETRY
| SSL_EARLY_DATA_READING | SSL_EARLY_DATA_FINISHED_READING.

Inductive HRR_STATE : Type := SSL_HRR_NONE | SSL_HRR_PENDING | SSL_HRR_COMPLETE.

#[global] Instance WORK_STATE_eq_dec : EqDecision WORK_STATE.
Proof. solve_decision. Defined.
#[global] Instance MSG_FLOW_STATE_eq_dec : EqDecision MSG_FLOW_STATE.
Proof. solve_decision. Defined.
#[global] Instance OSSL_HANDSHAKE_STATE_eq_dec : EqDecision OSSL_HANDSHAKE_STATE.
Proof. solve_decision. Defined.
#[global] Instance SSL_PHA_STATE_eq_dec : EqDecision SSL_PHA_STATE.
Proof. solve_decision. Defined.
#[global] Instance SSL_EARLY_DATA_STATE_eq_dec : EqDecision SSL_EARLY_DATA_STATE.
Proof. solve_decision. Defined.
#[global] Instance HRR_STATE_eq_dec : EqDecision HRR_STATE.
Proof. solve_decision. Defined.

(** ** Constants *)

Abbreviation SSL3_MT_HELLO_REQUEST := (0)%Z.
Abbreviation SSL3_MT_CLIENT_HELLO := (1)%Z.
Abbreviation SSL3_MT_SERVER_HELLO := (2)%Z.
Abbreviation DTLS1_MT_HELLO_VERIFY_REQUEST := (3)%Z.
Abbreviation SSL3_MT_NEWSESSION_TICKET := (4)%Z.
Abbreviation SSL3_MT_END_OF_EARLY_DATA := (5)%Z.
Abbreviation SSL3_MT_ENCRYPTED_EXTENSIONS := (8)%Z.
Abbreviation SSL3_MT_CERTIFICATE := (11)%Z.
Abbreviation SSL3_MT_SERVER_KEY_EXCHANGE := (12)%Z.
Abbreviation SSL3_MT_CERTIFICATE_REQUEST := (13)%Z.
Abbreviation SSL3_MT_SERVER_DONE := (14)%Z.
Abbreviation SSL3_MT_CERTIFICATE_VERIFY := (15)%Z.
Abbreviation SSL3_MT_CLIENT_KEY_EXCHANGE := (16)%Z.
Abbreviation SSL3_MT_FINISHED := (20)%Z.
Abbreviation SSL3_MT_CERTIFICATE_STATUS := (22)%Z.
Abbreviation SSL3_MT_KEY_UPDATE := (24)%Z.
Abbreviation SSL3_MT_COMPRESSED_CERTIFICATE := (25)%Z.
Abbreviation SSL3_MT_CHANGE_CIPHER_SPEC := (0x0101)%Z.
Abbreviation SSL3_MT_DUMMY := (-1)%Z.

Abbreviation SSL_kDHE := (0x2)%Z.
Abbreviation SSL_kECDHE := (0x4)%Z.
Abbreviation SSL_kPSK := (0x8)%Z.
Abbreviation SSL_kRSAPSK := (0x40)%Z.
Abbreviation SSL_kECDHEPSK := (0x80)%Z.
Abbreviation SSL_kDHEPSK := (0x100)%Z.
Abbreviation SSL_PSK := (Z.lor (Z.lor (Z.lor SSL_kPSK SSL_kRSAPSK) SSL_kECDHEPSK) SSL_kDHEPSK)%Z.
Abbreviation SSL_aNULL := (0x4)%Z.
Abbreviation SSL_aPSK := (0x10)%Z.

Abbreviation TLS1_FLAGS_SKIP_CERT_VERIFY := (0x10)%Z.
Abbreviation TLS1_FLAGS_STATELESS := (0x800)%Z.
Abbreviation TLS1_FLAGS_QUIC := (0x2000)%Z.

Abbreviation SSL_OP_COOKIE_EXCHANGE := (Z.shiftl 1 13)%Z.
Abbreviation SSL_OP_ENABLE_MIDDLEBOX_COMPAT := (Z.shiftl 1 20)%Z.
Abbreviation SSL_OP_NO_TX_CERTIFICATE_COMPRESSION := (Z.shiftl 1 32)%Z.

Abbreviation SSL_VERIFY_PEER := (1)%Z.
Abbreviation SSL_VERIFY_FAIL_IF_NO_PEER_CERT := (2)%Z.
Abbreviation SSL_VERIFY_CLIENT_ONCE := (4)%Z.
Abbreviation SSL_VERIFY_POST_HANDSHAKE := (8)%Z.

Abbreviation SSL_EARLY_DATA_NOT_SENT := (0)%Z.
Abbreviation SSL_EARLY_DATA_REJECTED := (1)%Z.
Abbreviation SSL_EARLY_DATA_ACCEPTED := (2)%Z.
Abbreviation SSL_KEY_UPDATE_NONE := (-1)%Z.

Abbreviation SSL_NOTHING := (1)%Z.
Abbreviation SSL_WRITING := (2)%Z.
Abbreviation SSL_READING := (3)%Z.
Abbreviation SSL_SENT_SHUTDOWN := (1)%Z.
Abbreviation SSL_ERROR_SYSCALL := (5)%Z.

Abbreviation SSL3_AL_FATAL := (2)%Z.
Abbreviation SSL_AD_NO_ALERT := (-1)%Z.
Abbreviation SSL3_AD_UNEXPECTED_MESSAGE := (10)%Z.
Abbreviation SSL_AD_HANDSHAKE_FAILURE := (40)%Z.
Abbreviation SSL_AD_ILLEGAL_PARAMETER := (47)%Z.
Abbreviation SSL_AD_INTERNAL_ERROR := (80)%Z.

Abbreviation SSL3_VERSION := (0x0300)%Z.
Abbreviation TLS1_VERSION := (0x0301)%Z.
Abbreviation TLS1_2_VERSION := (0x0303)%Z.
Abbreviation TLS1_3_VERSION := (0x0304)%Z.
Abbreviation TLS_ANY_VERSION := (0x10000)%Z.
Abbreviation DTLS1_VERSION := (0xFEFF)%Z.
Abbreviation DTLS1_2_VERSION := (0xFEFD)%Z.
Abbreviation DTLS1_BAD_VER := (0x0100)%Z.
Abbreviation SSL3_VERSION_MAJOR := (3)%Z.

Abbreviation SSL3_CC_READ := (0x001)%Z.
Abbreviation SSL3_CC_WRITE := (0x002)%Z.
Abbreviation SSL3_CC_CLIENT := (0x010)%Z.
Abbreviation SSL3_CC_SERVER := (0x020)%Z.
Abbreviation SSL3_CC_EARLY := (0x040)%Z.
Abbreviation SSL3_CC_HANDSHAKE := (0x080)%Z.
Abbreviation SSL3_CC_APPLICATION := (0x100)%Z.
Abbreviation SSL3_CHANGE_CIPHER_CLIENT_WRITE := (Z.lor SSL3_CC_CLIENT SSL3_CC_WRITE)%Z.
Abbreviation SSL3_CHANGE_CIPHER_SERVER_READ := (Z.lor SSL3_CC_SERVER SSL3_CC_READ)%Z.
Abbreviation SSL3_CHANGE_CIPHER_SERVER_WRITE := (Z.lor SSL3_CC_SERVER SSL3_CC_WRITE)%Z.

Abbreviation SSL_SESS_CACHE_CLIENT := (1)%Z.
Abbreviation SSL_SESS_CACHE_SERVER := (2)%Z.

Abbreviation SSL3_RT_CHANGE_CIPHER_SPEC := (20)%Z.
Abbreviation SSL3_RT_HANDSHAKE := (22)%Z.
Abbreviation SSL3_RT_MAX_PLAIN_LENGTH := (16384)%Z.
Abbreviation SSL3_HM_HEADER_LENGTH := (4)%Z.

Abbreviation TLSEXT_comp_cert_none := (0)%Z.
Abbreviation TLSEXT_cert_type_x509 := (0)%Z.

Abbreviation SSL_CB_HANDSHAKE_START := (0x10)%Z.
Abbreviation SSL_CB_HANDSHAKE_DONE := (0x20)%Z.
Abbreviation SSL_CB_ACCEPT_LOOP := (0x2001)%Z.
Abbreviation SSL_CB_ACCEPT_EXIT := (0x2002)%Z.
Abbreviation SSL_CB_CONNECT_LOOP := (0x1001)%Z.
Abbreviation SSL_CB_CONNECT_EXIT := (0x1002)%Z.

Abbreviation HELLO_VERIFY_REQUEST_MAX_LENGTH := (258)%Z.
Abbreviation END_OF_EARLY_DATA_MAX_LENGTH := (0)%Z.
Abbreviation ENCRYPTED_EXTENSIONS_MAX_LENGTH := (20000)%Z.
Abbreviation SESSION_TICKET_MAX_LENGTH_TLS13 := (131338)%Z.
Abbreviation SESSION_TICKET_MAX_LENGTH_TLS12 := (65541)%Z.
Abbreviation SERVER_KEY_EXCH_MAX_LENGTH := (102400)%Z.
Abbreviation SERVER_HELLO_DONE_MAX_LENGTH := (0)%Z.
Abbreviation KEY_UPDATE_MAX_LENGTH := (1)%Z.
Abbreviation CCS_MAX_LENGTH := (1)%Z.
Abbreviation SERVER_HELLO_MAX_LENGTH := (65607)%Z.
Abbreviation CERTIFICATE_VERIFY_MAX_LENGTH := (65539)%Z.
Abbreviation FINISHED_MAX_LENGTH := (64)%Z.
Abbreviation CLIENT_HELLO_MAX_LENGTH := (131396)%Z.
Abbreviation CLIENT_KEY_EXCH_MAX_LENGTH := (2048)%Z.

(** ** Records *)

Record SSL_CIPHER : Type := mkCIPHER {
  cipher_id : Z;
  algorithm_mkey : Z;
  algorithm_auth : Z
}.

(** Of a session: its cipher and what the state machine asks about; presence
    of the peer's certificate, raw key and ticket. *)
Record SSL_SESSION : Type := mkSESSION {
  sess_cipher : option SSL_CIPHER;
  peer : bool;
  peer_rpk : bool;
  sess_tick : bool;
  compress_meth : Z;
  sess_max_early_data : Z
}.

Definition set_sess_cipher (v : option SSL_CIPHER) (s : SSL_SESSION) : SSL_SESSION :=
    mkSESSION v (peer s) (peer_rpk s) (sess_tick s) (compress_meth s)
    (sess_max_early_data s).
Definition set_compress_meth (v : Z) (s : SSL_SESSION) : SSL_SESSION :=
    mkSESSION (sess_cipher s) (peer s) (peer_rpk s) (sess_tick s) v (sess_max_early_data s).

(** [struct ossl_statem_st] without the test-harness mutator callbacks. *)
Record OSSL_STATEM : Type := mkSTATEM {
  state : MSG_FLOW_STATE;
  write_state : WRITE_STATE;
  write_state_work : WORK_STATE;
  read_state : READ_STATE;
  read_state_work : WORK_STATE;
  hand_state : OSSL_HANDSHAKE_STATE;
  request_state : OSSL_HANDSHAKE_STATE;
  in_init : bool;
  read_state_first_init : bool;
  in_handshake : Z;
  cleanuphand : bool;
  no_cert_verify : bool;
  use_timer : bool;
  write_in_progress : bool
}.

Definition set_state (v : MSG_FLOW_STATE) (st : OSSL_STATEM) : OSSL_STATEM :=
    mkSTATEM v (write_state st) (write_state_work st) (read_state st) (read_state_work st)
    (hand_state st) (request_state st) (in_init st) (read_state_first_init st)
    (in_handshake st) (cleanuphand st) (no_cert_verify st) (use_timer st)
    (write_in_progress st).
Definition set_write_state (v : WRITE_STATE) (st : OSSL_STATEM) : OSSL_STATEM :=
    mkSTATEM (state st) v (write_state_work st) (read_state st) (read_state_work st)
    (hand_state st) (request_state st) (in_init st) (read_state_first_init st)
    (in_handshake st) (cleanuphand st) (no_cert_verify st) (use_timer st)
    (write_in_progress st).
Definition set_write_state_work (v : WORK_STATE) (st : OSSL_STATEM) : OSSL_STATEM :=
    mkSTATEM (state st) (write_state st) v (read_state st) (read_state_work st)
    (hand_state st) (request_state st) (in_init st) (read_state_first_init st)
    (in_handshake st) (cleanuphand st) (no_cert_verify st) (use_timer st)
    (write_in_progress st).
Definition set_read_state (v : READ_STATE) (st : OSSL_STATEM) : OSSL_STATEM :=
    mkSTATEM (state st) (write_state st) (write_state_work st) v (read_state_work st)
    (hand_state st) (request_state st) (in_init st) (read_state_first_init st)
    (in_handshake st) (cleanuphand st) (no_cert_verify st) (use_timer st)
    (write_in_progress st).
Definition set_read_state_work (v : WORK_STATE) (st : OSSL_STATEM) : OSSL_STATEM :=
    mkSTATEM (state st) (write_state st) (write_state_work st) (read_state st) v
    (hand_state st) (request_state st) (in_init st) (read_state_first_init st)
    (in_handshake st) (cleanuphand st) (no_cert_verify st) (use_timer st)
    (write_in_progress st).
Definition set_hand_state (v : OSSL_HANDSHAKE_STATE) (st : OSSL_STATEM) : OSSL_STATEM :=
    mkSTATEM (state st) (write_state st) (write_state_work st) (read_state st)
    (read_state_work st) v (request_state st) (in_init st) (read_state_first_init st)
    (in_handshake st) (cleanuphand st) (no_cert_verify st) (use_timer st)
    (write_in_progress st).
Definition set_request_state (v : OSSL_HANDSHAKE_STATE) (st : OSSL_STATEM) : OSSL_STATEM :=
    mkSTATEM (state st) (write_state st) (write_state_work st) (read_state st)
    (read_state_work st) (hand_state st) v (in_init st) (read_state_first_init st)
    (in_handshake st) (cleanuphand st) (no_cert_verify st) (use_timer st)
    (write_in_progress st).
Definition set_in_init (v : bool) (st : OSSL_STATEM) : OSSL_STATEM :=
    mkSTATEM (state st) (write_state st) (write_state_work st) (read_state st)
    (read_state_work st) (hand_state st) (request_state st) v (read_state_first_init st)
    (in_handshake st) (cleanuphand st) (no_cert_verify st) (use_timer st)
    (write_in_progress st).
Definition set_read_state_first_init (v : bool) (st : OSSL_STATEM) : OSSL_STATEM :=
    mkSTATEM (state st) (write_state st) (write_state_work st) (read_state st)
    (read_state_work st) (hand_state st) (request_state st) (in_init st) v
    (in_handshake st) (cleanuphand st) (no_cert_verify st) (use_timer st)
    (write_in_progress st).
Definition set_in_handshake (v : Z) (st : OSSL_STATEM) : OSSL_STATEM :=
    mkSTATEM (state st) (write_state st) (write_state_work st) (read_state st)
    (read_state_work st) (hand_state st) (request_state st) (in_init st)
    (read_state_first_init st) v (cleanuphand st) (no_cert_verify st) (use_timer st)
    (write_in_progress st).
Definition set_cleanuphand (v : bool) (st : OSSL_STATEM) : OSSL_STATEM :=
    mkSTATEM (state st) (write_state st) (write_state_work st) (read_state st)
    (read_state_work st) (hand_state st) (request_state st) (in_init st)
    (read_state_first_init st) (in_handshake st) v (no_cert_verify st) (use_timer st)
    (write_in_progress st).
Definition set_no_cert_verify (v : bool) (st : OSSL_STATEM) : OSSL_STATEM :=
    mkSTATEM (state st) (write_state st) (write_state_work st) (read_state st)
    (read_state_work st) (hand_state st) (request_state st) (in_init st)
    (read_state_first_init st) (in_handshake st) (cleanuphand st) v (use_timer st)
    (write_in_progress st).
Definition set_use_timer (v : bool) (st : OSSL_STATEM) : OSSL_STATEM :=
    mkSTATEM (state st) (write_state st) (write_state_work st) (read_state st)
    (read_state_work st) (hand_state st) (request_state st) (in_init st)
    (read_state_first_init st) (in_handshake st) (cleanuphand st) (no_cert_verify st) v
    (write_in_progress st).
Definition set_write_in_progress (v : bool) (st : OSSL_STATEM) : OSSL_STATEM :=
    mkSTATEM (state st) (write_state st) (write_state_work st) (read_state st)
    (read_state_work st) (hand_state st) (request_state st) (in_init st)
    (read_state_first_init st) (in_handshake st) (cleanuphand st) (no_cert_verify st)
    (use_timer st) v.

(** [s->s3.tmp]; [tmp_cert] is the selected certificate as the availability of
    its precompressed forms ([comp_cert[alg] != NULL]). *)
Record S3_TMP : Type := mkTMP {
  message_size : Z;
  message_type : Z;
  new_cipher : option SSL_CIPHER;
  new_compression : option Z;
  cert_req : Z;
  cert_request : bool;
  tmp_cert : option (list bool);
  finish_md_len : Z;
  peer_finish_md_len : Z
}.

Definition set_message_size (v : Z) (t : S3_TMP) : S3_TMP :=
    mkTMP v (message_type t) (new_cipher t) (new_compression t) (cert_req t)
    (cert_request t) (tmp_cert t) (finish_md_len t) (peer_finish_md_len t).
Definition set_message_type (v : Z) (t : S3_TMP) : S3_TMP :=
    mkTMP (message_size t) v (new_cipher t) (new_compression t) (cert_req t)
    (cert_request t) (tmp_cert t) (finish_md_len t) (peer_finish_md_len t).
Definition set_cert_req (v : Z) (t : S3_TMP) : S3_TMP :=
    mkTMP (message_size t) (message_type t) (new_cipher t) (new_compression t) v
    (cert_request t) (tmp_cert t) (finish_md_len t) (peer_finish_md_len t).

Record S3 : Type := mkS3 {
  s3_flags : Z;
  change_cipher_spec : Z;
  s3_renegotiate : bool;
  num_renegotiations : Z;
  total_renegotiations : Z;
  in_read_app_data : Z;
  previous_server_finished_len : Z;
  tmp : S3_TMP
}.

Definition set_change_cipher_spec (v : Z) (s : S3) : S3 :=
    mkS3 (s3_flags s) v (s3_renegotiate s) (num_renegotiations s) (total_renegotiations s)
    (in_read_app_data s) (previous_server_finished_len s) (tmp s).
Definition set_s3_renegotiate (v : bool) (s : S3) : S3 :=
    mkS3 (s3_flags s) (change_cipher_spec s) v (num_renegotiations s)
    (total_renegotiations s) (in_read_app_data s) (previous_server_finished_len s) (tmp s).
Definition set_num_renegotiations (v : Z) (s : S3) : S3 :=
    mkS3 (s3_flags s) (change_cipher_spec s) (s3_renegotiate s) v (total_renegotiations s)
    (in_read_app_data s) (previous_server_finished_len s) (tmp s).
Definition set_total_renegotiations (v : Z) (s : S3) : S3 :=
    mkS3 (s3_flags s) (change_cipher_spec s) (s3_renegotiate s) (num_renegotiations s) v
    (in_read_app_data s) (previous_server_finished_len s) (tmp s).
Definition set_tmp (v : S3_TMP) (s : S3) : S3 :=
    mkS3 (s3_flags s) (change_cipher_spec s) (s3_renegotiate s) (num_renegotiations s)
    (total_renegotiations s) (in_read_app_data s) (previous_server_finished_len s) v.

(** [s->ext]; [session_secret_cb] tells whether the callback is set. *)
Record EXT : Type := mkEXT {
  ticket_expected : bool;
  status_expected : bool;
  early_data : Z;
  extra_tickets_expected : Z;
  session_secret_cb : bool;
  compress_certificate_sent : bool;
  compress_certificate_from_peer : list Z;
  client_cert_type : Z;
  server_cert_type : Z
}.

Definition set_ticket_expected (v : bool) (e : EXT) : EXT :=
    mkEXT v (status_expected e) (early_data e) (extra_tickets_expected e)
    (session_secret_cb e) (compress_certificate_sent e) (compress_certificate_from_peer e)
    (client_cert_type e) (server_cert_type e).
Definition set_compress_certificate_from_peer (v : list Z) (e : EXT) : EXT :=
    mkEXT (ticket_expected e) (status_expected e) (early_data e) (extra_tickets_expected e)
    (session_secret_cb e) (compress_certificate_sent e) v (client_cert_type e)
    (server_cert_type e).

(** [struct quic_data_st] with the bytes that follow it; the list of a
    connection is the chain from [quic_input_data_head] to [_tail]. *)
Record QUIC_DATA : Type := mkQUIC_DATA {
  qd_level : Z;
  qd_length : Z;
  qd_data : list Z
}.

(** The fields of the connection for the BoringSSL QUIC interface; a transport
    parameter block is its bytes, empty when there is none. *)
Record QUIC : Type := mkQUIC {
  quic_read_level : Z;
  quic_write_level : Z;
  quic_latest_level_received : Z;
  quic_buf : option BUF_MEM;
  quic_transport_version : Z;
  quic_input_data : list QUIC_DATA;
  quic_transport_params : list Z;
  peer_quic_transport_params : list Z;
  peer_quic_transport_params_draft : list Z
}.

Definition set_quic_latest_level_received (v : Z) (q : QUIC) : QUIC :=
    mkQUIC (quic_read_level q) (quic_write_level q) v (quic_buf q)
    (quic_transport_version q) (quic_input_data q) (quic_transport_params q)
    (peer_quic_transport_params q) (peer_quic_transport_params_draft q).
Definition set_quic_buf (v : option BUF_MEM) (q : QUIC) : QUIC :=
    mkQUIC (quic_read_level q) (quic_write_level q) (quic_latest_level_received q) v
    (quic_transport_version q) (quic_input_data q) (quic_transport_params q)
    (peer_quic_transport_params q) (peer_quic_transport_params_draft q).
Definition set_quic_transport_version (v : Z) (q : QUIC) : QUIC :=
    mkQUIC (quic_read_level q) (quic_write_level q) (quic_latest_level_received q)
    (quic_buf q) v (quic_input_data q) (quic_transport_params q)
    (peer_quic_transport_params q) (peer_quic_transport_params_draft q).
Definition set_quic_input_data (v : list QUIC_DATA) (q : QUIC) : QUIC :=
    mkQUIC (quic_read_level q) (quic_write_level q) (quic_latest_level_received q)
    (quic_buf q) (quic_transport_version q) v (quic_transport_params q)
    (peer_quic_transport_params q) (peer_quic_transport_params_draft q).
Definition set_quic_transport_params (v : list Z) (q : QUIC) : QUIC :=
    mkQUIC (quic_read_level q) (quic_write_level q) (quic_latest_level_received q)
    (quic_buf q) (quic_transport_version q) (quic_input_data q) v
    (peer_quic_transport_params q) (peer_quic_transport_params_draft q).

(** The connection: the fields of [struct ssl_st] the state machine reads or
    writes; [rest] is everything else (record layer, keys, transcript, BIOs,
    caches, callbacks). *)
Record SSL (W : Type) : Type := mkSSL {
  statem : OSSL_STATEM;
  s3 : S3;
  ext : EXT;
  session : option SSL_SESSION;
  version : Z;
  method_version : Z;
  method_dtls : bool;
  server : bool;
  hit : bool;
  renegotiate : bool;
  new_session : bool;
  shutdown : Z;
  rwstate : Z;
  options : Z;
  verify_mode : Z;
  init_buf : option BUF_MEM;
  init_msg : Z;
  init_num : Z;
  init_off : Z;
  first_packet : bool;
  key_update : Z;
  post_handshake_auth : SSL_PHA_STATE;
  hello_retry_request : HRR_STATE;
  early_data_state : SSL_EARLY_DATA_STATE;
  max_early_data : Z;
  certreqs_sent : Z;
  num_tickets : Z;
  sent_tickets : Z;
  max_cert_list : Z;
  psk_identity_hint : bool;
  cookie_verified : bool;
  quic_method : bool;
  psk_use_session_cb : bool;
  quic : QUIC;
  ts_msg_read : Z;
  ts_msg_write : Z;
  rest : W
}.

Arguments statem {W} _.
Arguments s3 {W} _.
Arguments ext {W} _.
Arguments session {W} _.
Arguments version {W} _.
Arguments method_version {W} _.
Arguments method_dtls {W} _.
Arguments server {W} _.
Arguments hit {W} _.
Arguments renegotiate {W} _.
Arguments new_session {W} _.
Arguments shutdown {W} _.
Arguments rwstate {W} _.
Arguments options {W} _.
Arguments verify_mode {W} _.
Arguments init_buf {W} _.
Arguments init_msg {W} _.
Arguments init_num {W} _.
Arguments init_off {W} _.
Arguments first_packet {W} _.
Arguments key_update {W} _.
Arguments post_handshake_auth {W} _.
Arguments hello_retry_request {W} _.
Arguments early_data_state {W} _.
Arguments max_early_data {W} _.
Arguments certreqs_sent {W} _.
Arguments num_tickets {W} _.
Arguments sent_tickets {W} _.
Arguments max_cert_list {W} _.
Arguments psk_identity_hint {W} _.
Arguments cookie_verified {W} _.
Arguments quic_method {W} _.
Arguments psk_use_session_cb {W} _.
Arguments quic {W} _.
Arguments ts_msg_read {W} _.
Arguments ts_msg_write {W} _.
Arguments rest {W} _.
Arguments mkSSL {W}.

Definition set_statem {W} (v : OSSL_STATEM) (s : SSL W) : SSL W :=
    mkSSL v (s3 s) (ext s) (session s) (version s) (method_version s) (method_dtls s)
    (server s) (hit s) (renegotiate s) (new_session s) (shutdown s) (rwstate s) (options s)
    (verify_mode s) (init_buf s) (init_msg s) (init_num s) (init_off s) (first_packet s)
    (key_update s) (post_handshake_auth s) (hello_retry_request s) (early_data_state s)
    (max_early_data s) (certreqs_sent s) (num_tickets s) (sent_tickets s) (max_cert_list s)
    (psk_identity_hint s) (cookie_verified s) (quic_method s) (psk_use_session_cb s)
    (quic s) (ts_msg_read s) (ts_msg_write s) (rest s).
Definition set_s3 {W} (v : S3) (s : SSL W) : SSL W :=
    mkSSL (statem s) v (ext s) (session s) (version s) (method_version s) (method_dtls s)
    (server s) (hit s) (renegotiate s) (new_session s) (shutdown s) (rwstate s) (options s)
    (verify_mode s) (init_buf s) (init_msg s) (init_num s) (init_off s) (first_packet s)
    (key_update s) (post_handshake_auth s) (hello_retry_request s) (early_data_state s)
    (max_early_data s) (certreqs_sent s) (num_tickets s) (sent_tickets s) (max_cert_list s)
    (psk_identity_hint s) (cookie_verified s) (quic_method s) (psk_use_session_cb s)
    (quic s) (ts_msg_read s) (ts_msg_write s) (rest s).
Definition set_ext {W} (v : EXT) (s : SSL W) : SSL W :=
    mkSSL (statem s) (s3 s) v (session s) (version s) (method_version s) (method_dtls s)
    (server s) (hit s) (renegotiate s) (new_session s) (shutdown s) (rwstate s) (options s)
    (verify_mode s) (init_buf s) (init_msg s) (init_num s) (init_off s) (first_packet s)
    (key_update s) (post_handshake_auth s) (hello_retry_request s) (early_data_state s)
    (max_early_data s) (certreqs_sent s) (num_tickets s) (sent_tickets s) (max_cert_list s)
    (psk_identity_hint s) (cookie_verified s) (quic_method s) (psk_use_session_cb s)
    (quic s) (ts_msg_read s) (ts_msg_write s) (rest s).
Definition set_session {W} (v : option SSL_SESSION) (s : SSL W) : SSL W :=
    mkSSL (statem s) (s3 s) (ext s) v (version s) (method_version s) (method_dtls s)
    (server s) (hit s) (renegotiate s) (new_session s) (shutdown s) (rwstate s) (options s)
    (verify_mode s) (init_buf s) (init_msg s) (init_num s) (init_off s) (first_packet s)
    (key_update s) (post_handshake_auth s) (hello_retry_request s) (early_data_state s)
    (max_early_data s) (certreqs_sent s) (num_tickets s) (sent_tickets s) (max_cert_list s)
    (psk_identity_hint s) (cookie_verified s) (quic_method s) (psk_use_session_cb s)
    (quic s) (ts_msg_read s) (ts_msg_write s) (rest s).
Definition set_server {W} (v : bool) (s : SSL W) : SSL W :=
    mkSSL (statem s) (s3 s) (ext s) (session s) (version s) (method_version s)
    (method_dtls s) v (hit s) (renegotiate s) (new_session s) (shutdown s) (rwstate s)
    (options s) (verify_mode s) (init_buf s) (init_msg s) (init_num s) (init_off s)
    (first_packet s) (key_update s) (post_handshake_auth s) (hello_retry_request s)
    (early_data_state s) (max_early_data s) (certreqs_sent s) (num_tickets s)
    (sent_tickets s) (max_cert_list s) (psk_identity_hint s) (cookie_verified s)
    (quic_method s) (psk_use_session_cb s) (quic s) (ts_msg_read s) (ts_msg_write s)
    (rest s).
Definition set_hit {W} (v : bool) (s : SSL W) : SSL W :=
    mkSSL (statem s) (s3 s) (ext s) (session s) (version s) (method_version s)
    (method_dtls s) (server s) v (renegotiate s) (new_session s) (shutdown s) (rwstate s)
    (options s) (verify_mode s) (init_buf s) (init_msg s) (init_num s) (init_off s)
    (first_packet s) (key_update s) (post_handshake_auth s) (hello_retry_request s)
    (early_data_state s) (max_early_data s) (certreqs_sent s) (num_tickets s)
    (sent_tickets s) (max_cert_list s) (psk_identity_hint s) (cookie_verified s)
    (quic_method s) (psk_use_session_cb s) (quic s) (ts_msg_read s) (ts_msg_write s)
    (rest s).
Definition set_renegotiate {W} (v : bool) (s : SSL W) : SSL W :=
    mkSSL (statem s) (s3 s) (ext s) (session s) (version s) (method_version s)
    (method_dtls s) (server s) (hit s) v (new_session s) (shutdown s) (rwstate s)
    (options s) (verify_mode s) (init_buf s) (init_msg s) (init_num s) (init_off s)
    (first_packet s) (key_update s) (post_handshake_auth s) (hello_retry_request s)
    (early_data_state s) (max_early_data s) (certreqs_sent s) (num_tickets s)
    (sent_tickets s) (max_cert_list s) (psk_identity_hint s) (cookie_verified s)
    (quic_method s) (psk_use_session_cb s) (quic s) (ts_msg_read s) (ts_msg_write s)
    (rest s).
Definition set_new_session {W} (v : bool) (s : SSL W) : SSL W :=
    mkSSL (statem s) (s3 s) (ext s) (session s) (version s) (method_version s)
    (method_dtls s) (server s) (hit s) (renegotiate s) v (shutdown s) (rwstate s)
    (options s) (verify_mode s) (init_buf s) (init_msg s) (init_num s) (init_off s)
    (first_packet s) (key_update s) (post_handshake_auth s) (hello_retry_request s)
    (early_data_state s) (max_early_data s) (certreqs_sent s) (num_tickets s)
    (sent_tickets s) (max_cert_list s) (psk_identity_hint s) (cookie_verified s)
    (quic_method s) (psk_use_session_cb s) (quic s) (ts_msg_read s) (ts_msg_write s)
    (rest s).
Definition set_shutdown {W} (v : Z) (s : SSL W) : SSL W :=
    mkSSL (statem s) (s3 s) (ext s) (session s) (version s) (method_version s)
    (method_dtls s) (server s) (hit s) (renegotiate s) (new_session s) v (rwstate s)
    (options s) (verify_mode s) (init_buf s) (init_msg s) (init_num s) (init_off s)
    (first_packet s) (key_update s) (post_handshake_auth s) (hello_retry_request s)
    (early_data_state s) (max_early_data s) (certreqs_sent s) (num_tickets s)
    (sent_tickets s) (max_cert_list s) (psk_identity_hint s) (cookie_verified s)
    (quic_method s) (psk_use_session_cb s) (quic s) (ts_msg_read s) (ts_msg_write s)
    (rest s).
Definition set_rwstate {W} (v : Z) (s : SSL W) : SSL W :=
    mkSSL (statem s) (s3 s) (ext s) (session s) (version s) (method_version s)
    (method_dtls s) (server s) (hit s) (renegotiate s) (new_session s) (shutdown s) v
    (options s) (verify_mode s) (init_buf s) (init_msg s) (init_num s) (init_off s)
    (first_packet s) (key_update s) (post_handshake_auth s) (hello_retry_request s)
    (early_data_state s) (max_early_data s) (certreqs_sent s) (num_tickets s)
    (sent_tickets s) (max_cert_list s) (psk_identity_hint s) (cookie_verified s)
    (quic_method s) (psk_use_session_cb s) (quic s) (ts_msg_read s) (ts_msg_write s)
    (rest s).
Definition set_options {W} (v : Z) (s : SSL W) : SSL W :=
    mkSSL (statem s) (s3 s) (ext s) (session s) (version s) (method_version s)
    (method_dtls s) (server s) (hit s) (renegotiate s) (new_session s) (shutdown s)
    (rwstate s) v (verify_mode s) (init_buf s) (init_msg s) (init_num s) (init_off s)
    (first_packet s) (key_update s) (post_handshake_auth s) (hello_retry_request s)
    (early_data_state s) (max_early_data s) (certreqs_sent s) (num_tickets s)
    (sent_tickets s) (max_cert_list s) (psk_identity_hint s) (cookie_verified s)
    (quic_method s) (psk_use_session_cb s) (quic s) (ts_msg_read s) (ts_msg_write s)
    (rest s).
Definition set_init_buf {W} (v : option BUF_MEM) (s : SSL W) : SSL W :=
    mkSSL (statem s) (s3 s) (ext s) (session s) (version s) (method_version s)
    (method_dtls s) (server s) (hit s) (renegotiate s) (new_session s) (shutdown s)
    (rwstate s) (options s) (verify_mode s) v (init_msg s) (init_num s) (init_off s)
    (first_packet s) (key_update s) (post_handshake_auth s) (hello_retry_request s)
    (early_data_state s) (max_early_data s) (certreqs_sent s) (num_tickets s)
    (sent_tickets s) (max_cert_list s) (psk_identity_hint s) (cookie_verified s)
    (quic_method s) (psk_use_session_cb s) (quic s) (ts_msg_read s) (ts_msg_write s)
    (rest s).
Definition set_init_msg {W} (v : Z) (s : SSL W) : SSL W :=
    mkSSL (statem s) (s3 s) (ext s) (session s) (version s) (method_version s)
    (method_dtls s) (server s) (hit s) (renegotiate s) (new_session s) (shutdown s)
    (rwstate s) (options s) (verify_mode s) (init_buf s) v (init_num s) (init_off s)
    (first_packet s) (key_update s) (post_handshake_auth s) (hello_retry_request s)
    (early_data_state s) (max_early_data s) (certreqs_sent s) (num_tickets s)
    (sent_tickets s) (max_cert_list s) (psk_identity_hint s) (cookie_verified s)
    (quic_method s) (psk_use_session_cb s) (quic s) (ts_msg_read s) (ts_msg_write s)
    (rest s).
Definition set_init_num {W} (v : Z) (s : SSL W) : SSL W :=
    mkSSL (statem s) (s3 s) (ext s) (session s) (version s) (method_version s)
    (method_dtls s) (server s) (hit s) (renegotiate s) (new_session s) (shutdown s)
    (rwstate s) (options s) (verify_mode s) (init_buf s) (init_msg s) v (init_off s)
    (first_packet s) (key_update s) (post_handshake_auth s) (hello_retry_request s)
    (early_data_state s) (max_early_data s) (certreqs_sent s) (num_tickets s)
    (sent_tickets s) (max_cert_list s) (psk_identity_hint s) (cookie_verified s)
    (quic_method s) (psk_use_session_cb s) (quic s) (ts_msg_read s) (ts_msg_write s)
    (rest s).
Definition set_init_off {W} (v : Z) (s : SSL W) : SSL W :=
    mkSSL (statem s) (s3 s) (ext s) (session s) (version s) (method_version s)
    (method_dtls s) (server s) (hit s) (renegotiate s) (new_session s) (shutdown s)
    (rwstate s) (options s) (verify_mode s) (init_buf s) (init_msg s) (init_num s) v
    (first_packet s) (key_update s) (post_handshake_auth s) (hello_retry_request s)
    (early_data_state s) (max_early_data s) (certreqs_sent s) (num_tickets s)
    (sent_tickets s) (max_cert_list s) (psk_identity_hint s) (cookie_verified s)
    (quic_method s) (psk_use_session_cb s) (quic s) (ts_msg_read s) (ts_msg_write s)
    (rest s).
Definition set_first_packet {W} (v : bool) (s : SSL W) : SSL W :=
    mkSSL (statem s) (s3 s) (ext s) (session s) (version s) (method_version s)
    (method_dtls s) (server s) (hit s) (renegotiate s) (new_session s) (shutdown s)
    (rwstate s) (options s) (verify_mode s) (init_buf s) (init_msg s) (init_num s)
    (init_off s) v (key_update s) (post_handshake_auth s) (hello_retry_request s)
    (early_data_state s) (max_early_data s) (certreqs_sent s) (num_tickets s)
    (sent_tickets s) (max_cert_list s) (psk_identity_hint s) (cookie_verified s)
    (quic_method s) (psk_use_session_cb s) (quic s) (ts_msg_read s) (ts_msg_write s)
    (rest s).
Definition set_post_handshake_auth {W} (v : SSL_PHA_STATE) (s : SSL W) : SSL W :=
    mkSSL (statem s) (s3 s) (ext s) (session s) (version s) (method_version s)
    (method_dtls s) (server s) (hit s) (renegotiate s) (new_session s) (shutdown s)
    (rwstate s) (options s) (verify_mode s) (init_buf s) (init_msg s) (init_num s)
    (init_off s) (first_packet s) (key_update s) v (hello_retry_request s)
    (early_data_state s) (max_early_data s) (certreqs_sent s) (num_tickets s)
    (sent_tickets s) (max_cert_list s) (psk_identity_hint s) (cookie_verified s)
    (quic_method s) (psk_use_session_cb s) (quic s) (ts_msg_read s) (ts_msg_write s)
    (rest s).
Definition set_early_data_state {W} (v : SSL_EARLY_DATA_STATE) (s : SSL W) : SSL W :=
    mkSSL (statem s) (s3 s) (ext s) (session s) (version s) (method_version s)
    (method_dtls s) (server s) (hit s) (renegotiate s) (new_session s) (shutdown s)
    (rwstate s) (options s) (verify_mode s) (init_buf s) (init_msg s) (init_num s)
    (init_off s) (first_packet s) (key_update s) (post_handshake_auth s)
    (hello_retry_request s) v (max_early_data s) (certreqs_sent s) (num_tickets s)
    (sent_tickets s) (max_cert_list s) (psk_identity_hint s) (cookie_verified s)
    (quic_method s) (psk_use_session_cb s) (quic s) (ts_msg_read s) (ts_msg_write s)
    (rest s).
Definition set_quic_method {W} (v : bool) (s : SSL W) : SSL W :=
    mkSSL (statem s) (s3 s) (ext s) (session s) (version s) (method_version s)
    (method_dtls s) (server s) (hit s) (renegotiate s) (new_session s) (shutdown s)
    (rwstate s) (options s) (verify_mode s) (init_buf s) (init_msg s) (init_num s)
    (init_off s) (first_packet s) (key_update s) (post_handshake_auth s)
    (hello_retry_request s) (early_data_state s) (max_early_data s) (certreqs_sent s)
    (num_tickets s) (sent_tickets s) (max_cert_list s) (psk_identity_hint s)
    (cookie_verified s) v (psk_use_session_cb s) (quic s) (ts_msg_read s) (ts_msg_write s)
    (rest s).
Definition set_quic {W} (v : QUIC) (s : SSL W) : SSL W :=
    mkSSL (statem s) (s3 s) (ext s) (session s) (version s) (method_version s)
    (method_dtls s) (server s) (hit s) (renegotiate s) (new_session s) (shutdown s)
    (rwstate s) (options s) (verify_mode s) (init_buf s) (init_msg s) (init_num s)
    (init_off s) (first_packet s) (key_update s) (post_handshake_auth s)
    (hello_retry_request s) (early_data_state s) (max_early_data s) (certreqs_sent s)
    (num_tickets s) (sent_tickets s) (max_cert_list s) (psk_identity_hint s)
    (cookie_verified s) (quic_method s) (psk_use_session_cb s) v (ts_msg_read s)
    (ts_msg_write s) (rest s).
Definition set_ts_msg_read {W} (v : Z) (s : SSL W) : SSL W :=
    mkSSL (statem s) (s3 s) (ext s) (session s) (version s) (method_version s)
    (method_dtls s) (server s) (hit s) (renegotiate s) (new_session s) (shutdown s)
    (rwstate s) (options s) (verify_mode s) (init_buf s) (init_msg s) (init_num s)
    (init_off s) (first_packet s) (key_update s) (post_handshake_auth s)
    (hello_retry_request s) (early_data_state s) (max_early_data s) (certreqs_sent s)
    (num_tickets s) (sent_tickets s) (max_cert_list s) (psk_identity_hint s)
    (cookie_verified s) (quic_method s) (psk_use_session_cb s) (quic s) v (ts_msg_write s)
    (rest s).
Definition set_ts_msg_write {W} (v : Z) (s : SSL W) : SSL W :=
    mkSSL (statem s) (s3 s) (ext s) (session s) (version s) (method_version s)
    (method_dtls s) (server s) (hit s) (renegotiate s) (new_session s) (shutdown s)
    (rwstate s) (options s) (verify_mode s) (init_buf s) (init_msg s) (init_num s)
    (init_off s) (first_packet s) (key_update s) (post_handshake_auth s)
    (hello_retry_request s) (early_data_state s) (max_early_data s) (certreqs_sent s)
    (num_tickets s) (sent_tickets s) (max_cert_list s) (psk_identity_hint s)
    (cookie_verified s) (quic_method s) (psk_use_session_cb s) (quic s) (ts_msg_read s) v
    (rest s).
Definition set_rest {W} (v : W) (s : SSL W) : SSL W :=
    mkSSL (statem s) (s3 s) (ext s) (session s) (version s) (method_version s)
    (method_dtls s) (server s) (hit s) (renegotiate s) (new_session s) (shutdown s)
    (rwstate s) (options s) (verify_mode s) (init_buf s) (init_msg s) (init_num s)
    (init_off s) (first_packet s) (key_update s) (post_handshake_auth s)
    (hello_retry_request s) (early_data_state s) (max_early_data s) (certreqs_sent s)
    (num_tickets s) (sent_tickets s) (max_cert_list s) (psk_identity_hint s)
    (cookie_verified s) (quic_method s) (psk_use_session_cb s) (quic s) (ts_msg_read s)
    (ts_msg_write s) v.

(** ** Code the state machines call

    C function pointers are names; [Callees] gives their meaning, and that of
    the other functions the state machines call.  A function that only touches
    what [rest] holds works on [W]. *)

Inductive confunc_f : Type :=
| tls_construct_change_cipher_spec | dtls_construct_change_cipher_spec
| tls_construct_client_hello | tls_construct_end_of_early_data
| tls_construct_client_certificate | tls_construct_client_compressed_certificate
| tls_construct_client_key_exchange | tls_construct_cert_verify
| tls_construct_finished | tls_construct_key_update
| dtls_construct_hello_verify_request | tls_construct_server_hello
| tls_construct_server_certificate | tls_construct_server_compressed_certificate
| tls_construct_server_key_exchange | tls_construct_certificate_request
| tls_construct_server_done | tls_construct_new_session_ticket
| tls_construct_cert_status | tls_construct_encrypted_extensions.

Inductive process_f : Type :=
| tls_process_server_hello | dtls_process_hello_verify | tls_process_server_certificate
| tls_process_server_compressed_certificate | tls_process_cert_verify
| tls_process_cert_status | tls_process_key_exchange | tls_process_certificate_request
| tls_process_server_done | tls_process_change_cipher_spec
| tls_process_new_session_ticket | tls_process_finished | tls_process_hello_req
| tls_process_encrypted_extensions | tls_process_key_update
| tls_process_client_hello | tls_process_end_of_early_data
| tls_process_client_certificate | tls_process_client_compressed_certificate
| tls_process_client_key_exchange.

Inductive post_process_f : Type :=
| tls_post_process_server_certificate | tls_prepare_client_certificate
| tls_post_process_client_hello | tls_post_process_client_key_exchange.

Class Callees (W : Type) : Type := {
  confunc_call : confunc_f -> WPACKET -> SSL W -> CON_FUNC_RETURN * WPACKET * SSL W;
  process_call : process_f -> PACKET -> SSL W -> MSG_PROCESS_RETURN * SSL W;
  post_process_call : post_process_f -> WORK_STATE -> SSL W -> WORK_STATE * SSL W;
  (* records, keys, transcript *)
  ssl3_send_alert : Z -> Z -> SSL W -> SSL W;
  ssl3_init_finished_mac : ST (SSL W) unit;
  ssl_set_plaintext_write_layer : ST (SSL W) unit;
  tls13_change_cipher_state : Z -> ST (SSL W) unit;
  enc_setup_key_block : ST (SSL W) unit;
  enc_change_cipher_state : Z -> ST (SSL W) unit;
  enc_generate_master_secret : ST (SSL W) unit;
  tls13_update_key : bool -> ST (SSL W) unit;
  tls13_save_handshake_digest_for_pha : ST (SSL W) unit;
  tls13_restore_handshake_digest_for_pha : ST (SSL W) unit;
  tls_client_key_exchange_post_work : ST (SSL W) unit;
  tls_setup_handshake : ST (SSL W) unit;
  ssl3_cleanup_key_block : SSL W -> SSL W;
  ssl_update_cache : Z -> SSL W -> SSL W;
  SSL_CTX_remove_used_session : SSL W -> SSL W;
  ssl_free_wbio_buffer : ST (SSL W) unit;
  ssl_init_wbio_buffer : ST (SSL W) unit;
  ssl_security_version : SSL W -> bool;
  SSL_clear_not_quic : ST (SSL W) unit;
  (* messages in and out *)
  tls_get_message_header : SSL W -> option Z * SSL W;
  dtls_get_message : SSL W -> option Z * SSL W;
  quic_get_message : SSL W -> option Z * SSL W;
  tls_get_message_body : SSL W -> option Z * SSL W;
  dtls_get_message_body : SSL W -> option Z * SSL W;
  quic_get_message_body : SSL W -> option Z * SSL W;
  ssl_set_handshake_header : Z -> WPACKET -> SSL W -> bool * WPACKET * SSL W;
  ssl_close_construct_packet : Z -> WPACKET -> SSL W -> bool * WPACKET * SSL W;
  ssl3_do_write : Z -> SSL W -> Z * SSL W;
  dtls1_do_write : Z -> SSL W -> Z * SSL W;
  ssl_do_write : SSL W -> Z * SSL W;
  dtls1_start_timer : SSL W -> SSL W;
  dtls1_stop_timer : SSL W -> SSL W;
  dtls1_clear_sent_buffer : SSL W -> SSL W;
  dtls1_clear_received_buffer : SSL W -> SSL W;
  SSL_get_error_0 : SSL W -> Z;
  (* the environment *)
  ossl_time_now : W -> Z * W;
  info_callback : Z -> Z -> W -> W;
  rl_set_in_init : bool -> W -> W;
  rl_set_plain_alerts : W -> W;
  rl_read_pending : W -> bool;
  rl_write_pending : W -> bool;
  bio_set_retry_read : W -> W;
  BIO_flush : W -> Z * W;
  quic_flush_flight : W -> bool * W;
  clear_sys_error : W -> W;
  sys_error_is_closed : W -> bool;
  dtls1_reset_handshake_seqs : W -> W;
  note_handshake_good : bool -> bool -> W -> W
}.

(** ** Reading and writing the connection *)

Section Base.
Context {W : Type}.

Definition upd_st (f : OSSL_STATEM -> OSSL_STATEM) (s : SSL W) : SSL W :=
  set_statem (f (statem s)) s.
Definition upd_s3 (f : S3 -> S3) (s : SSL W) : SSL W := set_s3 (f (s3 s)) s.
Definition upd_ext (f : EXT -> EXT) (s : SSL W) : SSL W := set_ext (f (ext s)) s.
Definition upd_quic (f : QUIC -> QUIC) (s : SSL W) : SSL W := set_quic (f (quic s)) s.
Definition upd_rest (f : W -> W) (s : SSL W) : SSL W := set_rest (f (rest s)) s.

Definition hand (s : SSL W) : OSSL_HANDSHAKE_STATE := hand_state (statem s).
Definition tmp_of (s : SSL W) : S3_TMP := tmp (s3 s).

(** [st->hand_state = h;] *)
Definition move (h : OSSL_HANDSHAKE_STATE) : ST (SSL W) unit :=
  st_put (upd_st (set_hand_state h)).

(** [if (cond) k else e] on the current connection. *)
Definition st_if {A} (c : SSL W -> bool) (k e : ST (SSL W) A) : ST (SSL W) A :=
  fun s => if c s then k s else e s.

(** A call whose failure the caller handles: [true] for success. *)
Definition st_try (m : ST (SSL W) unit) : ST (SSL W) bool := fun s =>
  match m s with
  | (Ok _, s') => (Ok true, s')
  | (Fail, s') => (Ok false, s')
  | (Fault, s') => (Fault, s')
  end.

(** The same for a call with a result. *)
Definition st_option {A} (m : ST (SSL W) A) : ST (SSL W) (option A) := fun s =>
  match m s with
  | (Ok a, s') => (Ok (Some a), s')
  | (Fail, s') => (Ok None, s')
  | (Fault, s') => (Fault, s')
  end.

(** Dereferencing [s->s3.tmp.new_cipher] and [s->session]. *)
Definition with_cipher {A} (k : SSL_CIPHER -> ST (SSL W) A) : ST (SSL W) A := fun s =>
  match new_cipher (tmp_of s) with Some c => k c s | None => (Fault, s) end.
Definition with_session {A} (k : SSL_SESSION -> ST (SSL W) A) : ST (SSL W) A := fun s =>
  match session s with Some c => k c s | None => (Fault, s) end.

(** The same for functions that only read: their result may be a fault. *)
Definition st_lift {A} (r : SSL W -> ret A) : ST (SSL W) A := fun s => (r s, s).
Definition on_cipher {A} (k : SSL_CIPHER -> ret A) (s : SSL W) : ret A :=
  match new_cipher (tmp_of s) with Some c => k c | None => Fault end.
Definition on_session {A} (k : SSL_SESSION -> ret A) (s : SSL W) : ret A :=
  match session s with Some c => k c | None => Fault end.

Definition SSL_IS_DTLS (s : SSL W) : bool := method_dtls s.
Definition SSL_IS_QUIC (s : SSL W) : bool := quic_method s.
Definition SSL_IS_TLS13 (s : SSL W) : bool :=
  negb (SSL_IS_DTLS s) && (TLS1_3_VERSION <=? method_version s)
  && negb (method_version s =? TLS_ANY_VERSION).
Definition SSL_IS_FIRST_HANDSHAKE (s : SSL W) : bool :=
  (finish_md_len (tmp_of s) =? 0) || (peer_finish_md_len (tmp_of s) =? 0).
Definition SSL_IS_QUIC_HANDSHAKE (s : SSL W) : bool := has (s3_flags (s3 s)) TLS1_FLAGS_QUIC.

Context `{Callees W}.

Definition ossl_statem_set_in_init (init : bool) (s : SSL W) : SSL W :=
  upd_rest (rl_set_in_init init) (upd_st (set_in_init init) s).

Definition is_error (s : SSL W) : bool := bool_decide (state (statem s) = MSG_FLOW_ERROR).

Definition ossl_statem_send_fatal (al : Z) (s : SSL W) : SSL W :=
  if in_init (statem s) && is_error s then s
  else
    let s := upd_st (set_state MSG_FLOW_ERROR) (ossl_statem_set_in_init true s) in
    if al =? SSL_AD_NO_ALERT then s else ssl3_send_alert SSL3_AL_FATAL al s.

(** The error queue entry of [ossl_statem_fatal] is not part of the model. *)
Definition ossl_statem_fatal (al : Z) (s : SSL W) : SSL W := ossl_statem_send_fatal al s.
Definition SSLfatal (al : Z) : ST (SSL W) unit := st_put (ossl_statem_fatal al).

Definition check_fatal : ST (SSL W) unit := fun s =>
  if in_init (statem s) && is_error s then (Ok tt, s)
  else SSLfatal SSL_AD_INTERNAL_ERROR s.

(** [s->ts_msg_read = ossl_time_now();] and its twin. *)
Definition stamp_read : ST (SSL W) unit := fun s =>
  let '(t, w) := ossl_time_now (rest s) in (Ok tt, set_ts_msg_read t (set_rest w s)).
Definition stamp_write : ST (SSL W) unit := fun s =>
  let '(t, w) := ossl_time_now (rest s) in (Ok tt, set_ts_msg_write t (set_rest w s)).

(** The common tail of the read transitions: an out-of-order DTLS
    ChangeCipherSpec is dropped and read again later, anything else is fatal. *)
Definition no_valid_transition (mt : Z) : ST (SSL W) unit := fun s =>
  if SSL_IS_DTLS s && (mt =? SSL3_MT_CHANGE_CIPHER_SPEC)
  then (Fail, upd_rest bio_set_retry_read (set_rwstate SSL_READING (set_init_num 0 s)))
  else (SSLfatal SSL3_AD_UNEXPECTED_MESSAGE ;;; st_fail) s.

Definition statem_flush : ST (SSL W) unit := fun s =>
  let s := set_rwstate SSL_WRITING s in
  if SSL_IS_QUIC s then
    let '(ok, w) := quic_flush_flight (rest s) in
    let s := set_rest w s in
    if ok then (Ok tt, set_rwstate SSL_NOTHING s) else (Fail, s)
  else
    let '(r, w) := BIO_flush (rest s) in
    let s := set_rest w s in
    if r <=? 0 then (Fail, s) else (Ok tt, set_rwstate SSL_NOTHING s).
End Base.

(** ** A concrete environment

    Handlers that do nothing and succeed, and a peer that is the list of the
    types of the (empty) messages it has still to send; used to run the
    definitions on concrete connections. *)

Definition ok_unit {S} : ST S unit := st_ret tt.

Definition next_type (s : SSL (list Z)) : option Z * SSL (list Z) :=
  match rest s with [] => (None, s) | mt :: l => (Some mt, set_rest l s) end.

(** [next] delivers the types of the messages. *)
Definition idle_callees {W : Type} (next : SSL W -> option Z * SSL W) : Callees W := {|
  confunc_call _ p s := (CON_FUNC_SUCCESS, p, s);
  process_call _ _ s := (MSG_PROCESS_FINISHED_READING, s);
  post_process_call _ _ s := (WORK_FINISHED_STOP, s);
  ssl3_send_alert _ _ s := s;
  ssl3_init_finished_mac := ok_unit;
  ssl_set_plaintext_write_layer := ok_unit;
  tls13_change_cipher_state _ := ok_unit;
  enc_setup_key_block := ok_unit;
  enc_change_cipher_state _ := ok_unit;
  enc_generate_master_secret := ok_unit;
  tls13_update_key _ := ok_unit;
  tls13_save_handshake_digest_for_pha := ok_unit;
  tls13_restore_handshake_digest_for_pha := ok_unit;
  tls_client_key_exchange_post_work := ok_unit;
  tls_setup_handshake := ok_unit;
  ssl3_cleanup_key_block s := s;
  ssl_update_cache _ s := s;
  SSL_CTX_remove_used_session s := s;
  ssl_free_wbio_buffer := ok_unit;
  ssl_init_wbio_buffer := ok_unit;
  ssl_security_version _ := true;
  SSL_clear_not_quic := ok_unit;
  tls_get_message_header := next;
  dtls_get_message := next;
  quic_get_message := next;
  tls_get_message_body s := (Some 0, s);
  dtls_get_message_body s := (Some 0, s);
  quic_get_message_body s := (Some 0, s);
  ssl_set_handshake_header _ p s := (true, p, s);
  ssl_close_construct_packet _ p s := (true, p, s);
  ssl3_do_write _ s := (1, s);
  dtls1_do_write _ s := (1, s);
  ssl_do_write s := (1, s);
  dtls1_start_timer s := s;
  dtls1_stop_timer s := s;
  dtls1_clear_sent_buffer s := s;
  dtls1_clear_received_buffer s := s;
  SSL_get_error_0 _ := 0;
  ossl_time_now w := (0, w);
  info_callback _ _ w := w;
  rl_set_in_init _ w := w;
  rl_set_plain_alerts w := w;
  rl_read_pending _ := false;
  rl_write_pending _ := false;
  bio_set_retry_read w := w;
  BIO_flush w := (1, w);
  quic_flush_flight w := (true, w);
  clear_sys_error w := w;
  sys_error_is_closed _ := false;
  dtls1_reset_handshake_seqs w := w;
  note_handshake_good _ _ w := w
|}.

#[global] Instance quiet_callees : Callees (list Z) := idle_callees next_type.

(** A fresh connection in state [h] with protocol version [v] and cipher [c]. *)
Definition sample_conn {W : Type} (w : W) (h : OSSL_HANDSHAKE_STATE) (v : Z) (c : SSL_CIPHER) : SSL W :=
  mkSSL (mkSTATEM MSG_FLOW_READING WRITE_STATE_TRANSITION WORK_MORE_A READ_STATE_HEADER
           WORK_MORE_A h TLS_ST_BEFORE true false 0 false false false false)
    (mkS3 0 0 false 0 0 0 0 (mkTMP 0 0 (Some c) None 0 false None 0 0))
    (mkEXT false false 0 0 false false [0; 0; 0; 0] 0 0)
    (Some (mkSESSION None false false false 0 0))
    v v false false false false false 0 SSL_NOTHING 0 0 None 0 0 0 false SSL_KEY_UPDATE_NONE
    SSL_PHA_NONE SSL_HRR_NONE SSL_EARLY_DATA_NONE 0 0 0 0 102400 false false false false (mkQUIC 0 0 0 None 0 [] [] [] []) 0 0 w.

Definition sample_ssl : OSSL_HANDSHAKE_STATE -> Z -> SSL_CIPHER -> SSL (list Z) := sample_conn [].

(** An ECDHE-RSA and a plain anonymous suite. *)
Definition ecdhe_rsa : SSL_CIPHER := mkCIPHER 0xC02F SSL_kECDHE 1.
Definition anon_dh : SSL_CIPHER := mkCIPHER 0x0034 SSL_kDHE SSL_aNULL.
