(* ===== verification/StatemLib.v ===== *)
(** * Functions shared by both sides of the handshake

    From ssl/statem/statem_lib.c and ssl/s3_lib.c: the end of a handshake and
    the decision to renegotiate. *)

From stdpp Require Import prelude.
From Stdlib Require Import ZArith Lia.
From S2P Require Import Prelude Packet WPacket StatemTypes.

Local Open Scope Z_scope.
Local Open Scope st_scope.

Section Lib.
Context {W : Type} `{Callees W}.
Local Abbreviation SSL := (SSL W).

Definition ossl_statem_set_renegotiate (s : SSL) : SSL :=
  upd_st (set_request_state TLS_ST_SW_HELLO_REQ) (ossl_statem_set_in_init true s).

(** [Fail] stands for the result 0: no renegotiation now. *)
Definition ssl3_renegotiate_check (initok : bool) : ST SSL unit := fun s =>
  if s3_renegotiate (s3 s) then
    if negb (rl_read_pending (rest s)) && negb (rl_write_pending (rest s))
       && (initok || negb (in_init (statem s))) then
      let s := ossl_statem_set_renegotiate s in
      (Ok tt, upd_s3 (fun x => set_total_renegotiations (total_renegotiations x + 1)
                              (set_num_renegotiations (num_renegotiations x + 1)
                              (set_s3_renegotiate false x))) s)
    else (Fail, s)
  else (Fail, s).

(** The part of [tls_finish_handshake] run after a Finished message. *)
Definition finish_cleanup (s : SSL) : SSL :=
  let s := upd_ext (set_ticket_expected false)
             (upd_st (set_cleanuphand false) (set_new_session false (set_renegotiate false s))) in
  let s := ssl3_cleanup_key_block s in
  let s :=
    if server s then
      let s := if SSL_IS_TLS13 s then s else ssl_update_cache SSL_SESS_CACHE_SERVER s in
      upd_rest (note_handshake_good true (hit s)) s
    else
      let s := if SSL_IS_TLS13 s then SSL_CTX_remove_used_session s
               else ssl_update_cache SSL_SESS_CACHE_CLIENT s in
      upd_rest (note_handshake_good false (hit s)) s in
  if SSL_IS_DTLS s then dtls1_clear_received_buffer (upd_rest dtls1_reset_handshake_seqs s)
  else s.

(** Releasing the handshake buffers; [false] after the fatal error. *)
Definition finish_clear_buffers : ST SSL bool :=
  st_put (fun s => if SSL_IS_DTLS s then s else set_init_buf None s) ;;;
  ok <~ st_try ssl_free_wbio_buffer ;;
  if ok : bool then st_put (set_init_num 0) ;;; st_ret true
  else SSLfatal SSL_AD_INTERNAL_ERROR ;;; st_ret false.

(** A client is done with post-handshake authentication. *)
Definition finish_pha (s : SSL) : SSL :=
  if SSL_IS_TLS13 s && negb (server s) && bool_decide (post_handshake_auth s = SSL_PHA_REQUESTED)
  then set_post_handshake_auth SSL_PHA_EXT_SENT s else s.

Definition finish_notify (was_cleanup : bool) (s : SSL) : SSL :=
  if was_cleanup || negb (SSL_IS_TLS13 s) || SSL_IS_FIRST_HANDSHAKE s
  then upd_rest (info_callback SSL_CB_HANDSHAKE_DONE 1) s else s.

Definition finish_update (was_cleanup : bool) (s : SSL) : SSL :=
  let s := finish_pha s in
  let s := if was_cleanup then finish_cleanup s else s in
  let s := ossl_statem_set_in_init false s in
  finish_notify was_cleanup s.

Definition tls_finish_handshake (clearbufs stop : bool) : ST SSL WORK_STATE :=
  was_cleanup <~ st_get (fun s => cleanuphand (statem s)) ;;
  ok <~ (if clearbufs then finish_clear_buffers else st_ret true) ;;
  if negb ok then st_ret WORK_ERROR
  else
    st_put (finish_update was_cleanup) ;;;
    if stop then st_ret WORK_FINISHED_STOP
    else st_put (ossl_statem_set_in_init true) ;;; st_ret WORK_FINISHED_CONTINUE.

(** ** Idioms of the transition and work functions *)

(** [m], or the error exit when it finds no transition. *)
Definition or_no_transition (mt : Z) (m : ST SSL unit) : ST SSL unit :=
  ok <~ st_try m ;; if ok : bool then st_ret tt else no_valid_transition mt.

(** [return WRITE_TRAN_CONTINUE] in state [h]. *)
Definition continue_in (h : OSSL_HANDSHAKE_STATE) : ST SSL WRITE_TRAN :=
  move h ;;; st_ret WRITE_TRAN_CONTINUE.

Definition write_tran_fatal : ST SSL WRITE_TRAN :=
  SSLfatal SSL_AD_INTERNAL_ERROR ;;; st_ret WRITE_TRAN_ERROR.

(** [if (!f(s)) return WORK_ERROR;] and [if (flush fails) return w;] *)
Definition or_work (m : ST SSL unit) (w : WORK_STATE) (k : ST SSL WORK_STATE) : ST SSL WORK_STATE :=
  ok <~ st_try m ;; if ok : bool then k else st_ret w.
End Lib.
