(* ===== verification/StatemClnt.v ===== *)
(** * The client's handshake state machine

    ssl/statem/statem_clnt.c: which messages a client accepts in which state,
    what it sends next, the work around sending, and the dispatch to the
    message handlers - for TLS 1.3 and for TLS 1.2 and below, DTLS included. *)

From stdpp Require Import prelude.
From Stdlib Require Import ZArith Lia.
From S2P Require Import Prelude Packet WPacket StatemTypes StatemLib.

Local Open Scope Z_scope.
Local Open Scope st_scope.

Section Client.
Context {W : Type} `{Callees W}.
Local Abbreviation SSL := (SSL W).

(** ** What may arrive *)

Definition received_server_cert : SSL -> ret bool :=
  on_session (fun ss => Ok (peer_rpk ss || peer ss)).

Definition cert_req_allowed (c : SSL_CIPHER) (s : SSL) : bool :=
  negb (((SSL3_VERSION <? version s) && has (algorithm_auth c) SSL_aNULL)
        || has (algorithm_auth c) SSL_aPSK).

Definition key_exchange_expected (c : SSL_CIPHER) : bool :=
  has (algorithm_mkey c) (Z.lor (Z.lor (Z.lor SSL_kDHE SSL_kECDHE) SSL_kDHEPSK) SSL_kECDHEPSK).

Definition ossl_statem_client13_read_transition (mt : Z) : ST SSL unit := fun s =>
  (match hand s with
   | TLS_ST_CW_CLNT_HELLO =>
       if mt =? SSL3_MT_SERVER_HELLO then move TLS_ST_CR_SRVR_HELLO else st_fail
   | TLS_ST_CR_SRVR_HELLO =>
       if mt =? SSL3_MT_ENCRYPTED_EXTENSIONS then move TLS_ST_CR_ENCRYPTED_EXTENSIONS else st_fail
   | TLS_ST_CR_ENCRYPTED_EXTENSIONS =>
       if hit s then
         if mt =? SSL3_MT_FINISHED then move TLS_ST_CR_FINISHED else st_fail
       else if mt =? SSL3_MT_CERTIFICATE_REQUEST then move TLS_ST_CR_CERT_REQ
       else if mt =? SSL3_MT_CERTIFICATE then move TLS_ST_CR_CERT
       else if (mt =? SSL3_MT_COMPRESSED_CERTIFICATE) && compress_certificate_sent (ext s)
       then move TLS_ST_CR_COMP_CERT else st_fail
   | TLS_ST_CR_CERT_REQ =>
       if mt =? SSL3_MT_CERTIFICATE then move TLS_ST_CR_CERT
       else if (mt =? SSL3_MT_COMPRESSED_CERTIFICATE) && compress_certificate_sent (ext s)
       then move TLS_ST_CR_COMP_CERT else st_fail
   | TLS_ST_CR_CERT | TLS_ST_CR_COMP_CERT =>
       if mt =? SSL3_MT_CERTIFICATE_VERIFY then move TLS_ST_CR_CERT_VRFY else st_fail
   | TLS_ST_CR_CERT_VRFY =>
       if mt =? SSL3_MT_FINISHED then move TLS_ST_CR_FINISHED else st_fail
   | TLS_ST_OK =>
       if mt =? SSL3_MT_NEWSESSION_TICKET then move TLS_ST_CR_SESSION_TICKET
       else if (mt =? SSL3_MT_KEY_UPDATE) && negb (SSL_IS_QUIC_HANDSHAKE s)
       then move TLS_ST_CR_KEY_UPDATE
       else if (mt =? SSL3_MT_CERTIFICATE_REQUEST)
               && (negb (SSL_IS_DTLS s)
                   && bool_decide (post_handshake_auth s = SSL_PHA_EXT_SENT))
       then st_put (set_post_handshake_auth SSL_PHA_REQUESTED) ;;;
            tls13_restore_handshake_digest_for_pha ;;;
            move TLS_ST_CR_CERT_REQ
       else st_fail
   | _ => st_fail
   end) s.

(** Messages the server may send once its certificate is dealt with: the cases
    of the C switch that fall through into one another. *)
Definition client_read_cert_req (mt : Z) : ST SSL unit :=
  if mt =? SSL3_MT_SERVER_DONE then move TLS_ST_CR_SRVR_DONE else st_fail.

Definition client_read_key_exch (mt : Z) : ST SSL unit := fun s =>
  (if mt =? SSL3_MT_CERTIFICATE_REQUEST then
     with_cipher (fun c => if cert_req_allowed c s then move TLS_ST_CR_CERT_REQ else st_fail)
   else client_read_cert_req mt) s.

Definition client_read_cert_status (mt : Z) : ST SSL unit :=
  with_cipher (fun c =>
    if key_exchange_expected c
       || (has (algorithm_mkey c) SSL_PSK && (mt =? SSL3_MT_SERVER_KEY_EXCHANGE))
    then if mt =? SSL3_MT_SERVER_KEY_EXCHANGE then move TLS_ST_CR_KEY_EXCH else st_fail
    else client_read_key_exch mt).

Definition client_read_cert (mt : Z) : ST SSL unit := fun s =>
  (if status_expected (ext s) && (mt =? SSL3_MT_CERTIFICATE_STATUS)
   then move TLS_ST_CR_CERT_STATUS else client_read_cert_status mt) s.

Definition client_read_srvr_hello (mt : Z) : ST SSL unit := fun s =>
  (if hit s then
     if ticket_expected (ext s) then
       if mt =? SSL3_MT_NEWSESSION_TICKET then move TLS_ST_CR_SESSION_TICKET else st_fail
     else if mt =? SSL3_MT_CHANGE_CIPHER_SPEC then move TLS_ST_CR_CHANGE else st_fail
   else if SSL_IS_DTLS s && (mt =? DTLS1_MT_HELLO_VERIFY_REQUEST)
   then move DTLS_ST_CR_HELLO_VERIFY_REQUEST
   else
     eap <~ (if (TLS1_VERSION <=? version s) && session_secret_cb (ext s)
             then with_session (fun ss => st_ret (sess_tick ss && (mt =? SSL3_MT_CHANGE_CIPHER_SPEC)))
             else st_ret false) ;;
     if eap : bool then st_put (set_hit true) ;;; move TLS_ST_CR_CHANGE
     else with_cipher (fun c =>
       if negb (has (algorithm_auth c) (Z.lor SSL_aNULL SSL_aPSK)) then
         if mt =? SSL3_MT_CERTIFICATE then move TLS_ST_CR_CERT else st_fail
       else if key_exchange_expected c
               || (has (algorithm_mkey c) SSL_PSK && (mt =? SSL3_MT_SERVER_KEY_EXCHANGE))
       then if mt =? SSL3_MT_SERVER_KEY_EXCHANGE then move TLS_ST_CR_KEY_EXCH else st_fail
       else if (mt =? SSL3_MT_CERTIFICATE_REQUEST) && cert_req_allowed c s
       then move TLS_ST_CR_CERT_REQ
       else if mt =? SSL3_MT_SERVER_DONE then move TLS_ST_CR_SRVR_DONE
       else st_fail)) s.

Definition client_read_pre13 (mt : Z) : ST SSL unit := fun s =>
  (match hand s with
   | TLS_ST_CW_CLNT_HELLO =>
       if mt =? SSL3_MT_SERVER_HELLO then move TLS_ST_CR_SRVR_HELLO
       else if SSL_IS_DTLS s && (mt =? DTLS1_MT_HELLO_VERIFY_REQUEST)
       then move DTLS_ST_CR_HELLO_VERIFY_REQUEST else st_fail
   | TLS_ST_EARLY_DATA =>
       if mt =? SSL3_MT_SERVER_HELLO then move TLS_ST_CR_SRVR_HELLO else st_fail
   | TLS_ST_CR_SRVR_HELLO => client_read_srvr_hello mt
   | TLS_ST_CR_CERT | TLS_ST_CR_COMP_CERT => client_read_cert mt
   | TLS_ST_CR_CERT_STATUS => client_read_cert_status mt
   | TLS_ST_CR_KEY_EXCH => client_read_key_exch mt
   | TLS_ST_CR_CERT_REQ => client_read_cert_req mt
   | TLS_ST_CW_FINISHED =>
       if ticket_expected (ext s) then
         if mt =? SSL3_MT_NEWSESSION_TICKET then move TLS_ST_CR_SESSION_TICKET else st_fail
       else if mt =? SSL3_MT_CHANGE_CIPHER_SPEC then move TLS_ST_CR_CHANGE else st_fail
   | TLS_ST_CR_SESSION_TICKET =>
       if mt =? SSL3_MT_CHANGE_CIPHER_SPEC then move TLS_ST_CR_CHANGE else st_fail
   | TLS_ST_CR_CHANGE =>
       if mt =? SSL3_MT_FINISHED then move TLS_ST_CR_FINISHED else st_fail
   | TLS_ST_OK =>
       if mt =? SSL3_MT_HELLO_REQUEST then move TLS_ST_CR_HELLO_REQ else st_fail
   | _ => st_fail
   end) s.

Definition ossl_statem_client_read_transition (mt : Z) : ST SSL unit :=
  or_no_transition mt
    (st_if SSL_IS_TLS13 (ossl_statem_client13_read_transition mt) (client_read_pre13 mt)).

(** ** What to send next *)

Definition client_do_compressed_cert (s : SSL) : ret bool :=
  if client_cert_type (ext s) =? TLSEXT_cert_type_x509 then
    match compress_certificate_from_peer (ext s) with
    | alg :: _ => Ok (negb (alg =? TLSEXT_comp_cert_none))
    | [] => Fault
    end
  else Ok false.

(** The client's certificate, compressed or not. *)
Definition client_send_cert : ST SSL WRITE_TRAN :=
  comp <~ st_lift client_do_compressed_cert ;;
  continue_in (if comp : bool then TLS_ST_CW_COMP_CERT else TLS_ST_CW_CERT).

Definition client13_after_change : ST SSL WRITE_TRAN :=
  st_if (fun s => cert_req (tmp_of s) =? 0) (continue_in TLS_ST_CW_FINISHED) client_send_cert.

Definition ossl_statem_client13_write_transition : ST SSL WRITE_TRAN := fun s =>
  (match hand s with
   | TLS_ST_CR_CERT_REQ =>
       if bool_decide (post_handshake_auth s = SSL_PHA_REQUESTED) then client_send_cert
       else if negb (has (shutdown s) SSL_SENT_SHUTDOWN) then write_tran_fatal
       else continue_in TLS_ST_OK
   | TLS_ST_CR_FINISHED =>
       r <~ (if bool_decide (early_data_state s = SSL_EARLY_DATA_WRITE_RETRY)
                || bool_decide (early_data_state s = SSL_EARLY_DATA_FINISHED_WRITING)
             then continue_in TLS_ST_PENDING_EARLY_DATA_END
             else if has (options s) SSL_OP_ENABLE_MIDDLEBOX_COMPAT
                     && bool_decide (hello_retry_request s = SSL_HRR_NONE)
             then continue_in TLS_ST_CW_CHANGE
             else client13_after_change) ;;
       stamp_read ;;; st_ret r
   | TLS_ST_PENDING_EARLY_DATA_END =>
       if early_data (ext s) =? SSL_EARLY_DATA_ACCEPTED
       then continue_in TLS_ST_CW_END_OF_EARLY_DATA else client13_after_change
   | TLS_ST_CW_END_OF_EARLY_DATA | TLS_ST_CW_CHANGE => client13_after_change
   | TLS_ST_CW_COMP_CERT | TLS_ST_CW_CERT =>
       continue_in (if cert_req (tmp_of s) =? 1 then TLS_ST_CW_CERT_VRFY else TLS_ST_CW_FINISHED)
   | TLS_ST_CW_CERT_VRFY => continue_in TLS_ST_CW_FINISHED
   | TLS_ST_CR_KEY_UPDATE | TLS_ST_CW_KEY_UPDATE | TLS_ST_CR_SESSION_TICKET
   | TLS_ST_CW_FINISHED => continue_in TLS_ST_OK
   | TLS_ST_OK =>
       if negb (key_update s =? SSL_KEY_UPDATE_NONE) then continue_in TLS_ST_CW_KEY_UPDATE
       else st_ret WRITE_TRAN_FINISHED
   | _ => write_tran_fatal
   end) s.

Definition client_write_pre13 : ST SSL WRITE_TRAN := fun s =>
  (match hand s with
   | TLS_ST_OK =>
       if negb (renegotiate s) then st_ret WRITE_TRAN_FINISHED
       else continue_in TLS_ST_CW_CLNT_HELLO
   | TLS_ST_BEFORE => continue_in TLS_ST_CW_CLNT_HELLO
   | TLS_ST_CW_CLNT_HELLO =>
       if bool_decide (early_data_state s = SSL_EARLY_DATA_CONNECTING)
       then continue_in (if has (options s) SSL_OP_ENABLE_MIDDLEBOX_COMPAT
                         then TLS_ST_CW_CHANGE else TLS_ST_EARLY_DATA)
       else stamp_write ;;; st_ret WRITE_TRAN_FINISHED
   | TLS_ST_CR_SRVR_HELLO =>
       continue_in (if has (options s) SSL_OP_ENABLE_MIDDLEBOX_COMPAT
                       && negb (bool_decide (early_data_state s = SSL_EARLY_DATA_FINISHED_WRITING))
                    then TLS_ST_CW_CHANGE else TLS_ST_CW_CLNT_HELLO)
   | TLS_ST_EARLY_DATA => stamp_write ;;; st_ret WRITE_TRAN_FINISHED
   | DTLS_ST_CR_HELLO_VERIFY_REQUEST => continue_in TLS_ST_CW_CLNT_HELLO
   | TLS_ST_CR_SRVR_DONE =>
       stamp_read ;;;
       continue_in (if negb (cert_req (tmp_of s) =? 0) then TLS_ST_CW_CERT else TLS_ST_CW_KEY_EXCH)
   | TLS_ST_CW_CERT => continue_in TLS_ST_CW_KEY_EXCH
   | TLS_ST_CW_KEY_EXCH =>
       move (if cert_req (tmp_of s) =? 1 then TLS_ST_CW_CERT_VRFY else TLS_ST_CW_CHANGE) ;;;
       (if has (s3_flags (s3 s)) TLS1_FLAGS_SKIP_CERT_VERIFY then move TLS_ST_CW_CHANGE
        else st_ret tt) ;;;
       st_ret WRITE_TRAN_CONTINUE
   | TLS_ST_CW_CERT_VRFY => continue_in TLS_ST_CW_CHANGE
   | TLS_ST_CW_CHANGE =>
       continue_in (if bool_decide (hello_retry_request s = SSL_HRR_PENDING) then TLS_ST_CW_CLNT_HELLO
                    else if bool_decide (early_data_state s = SSL_EARLY_DATA_CONNECTING)
                    then TLS_ST_EARLY_DATA else TLS_ST_CW_FINISHED)
   | TLS_ST_CW_FINISHED =>
       if hit s then continue_in TLS_ST_OK else st_ret WRITE_TRAN_FINISHED
   | TLS_ST_CR_FINISHED => continue_in (if hit s then TLS_ST_CW_CHANGE else TLS_ST_OK)
   | TLS_ST_CR_HELLO_REQ =>
       can <~ st_try (ssl3_renegotiate_check true) ;;
       if can : bool then
         ok <~ st_try tls_setup_handshake ;;
         if ok : bool then continue_in TLS_ST_CW_CLNT_HELLO else st_ret WRITE_TRAN_ERROR
       else continue_in TLS_ST_OK
   | _ => write_tran_fatal
   end) s.

Definition ossl_statem_client_write_transition : ST SSL WRITE_TRAN :=
  st_if SSL_IS_TLS13 ossl_statem_client13_write_transition client_write_pre13.

(** ** Work around sending *)

Definition ossl_statem_client_pre_work : ST SSL WORK_STATE := fun s =>
  (match hand s with
   | TLS_ST_CW_CLNT_HELLO =>
       st_put (set_shutdown 0) ;;;
       if SSL_IS_DTLS s then
         or_work ssl3_init_finished_mac WORK_ERROR (st_ret WORK_FINISHED_CONTINUE)
       else if early_data (ext s) =? SSL_EARLY_DATA_REJECTED then
         or_work ssl_set_plaintext_write_layer WORK_ERROR (st_ret WORK_FINISHED_CONTINUE)
       else st_ret WORK_FINISHED_CONTINUE
   | TLS_ST_CW_CHANGE =>
       (if SSL_IS_DTLS s && hit s then st_put (upd_st (set_use_timer false)) else st_ret tt) ;;;
       st_ret WORK_FINISHED_CONTINUE
   | TLS_ST_PENDING_EARLY_DATA_END =>
       if bool_decide (early_data_state s = SSL_EARLY_DATA_FINISHED_WRITING)
          || bool_decide (early_data_state s = SSL_EARLY_DATA_NONE)
       then st_ret WORK_FINISHED_CONTINUE
       else tls_finish_handshake false true
   | TLS_ST_EARLY_DATA => tls_finish_handshake false true
   | TLS_ST_OK => tls_finish_handshake true true
   | _ => st_ret WORK_FINISHED_CONTINUE
   end) s.

(** The last part of the ChangeCipherSpec case: the pending cipher becomes the
    session's, and writing switches to the new keys. *)
Definition client_activate_write_keys : ST SSL WORK_STATE := fun s =>
  (with_session (fun ss =>
     st_put (set_session (Some (set_compress_meth
               (match new_compression (tmp_of s) with None => 0 | Some id => id end)
               (set_sess_cipher (new_cipher (tmp_of s)) ss)))) ;;;
     or_work enc_setup_key_block WORK_ERROR
       (or_work (enc_change_cipher_state SSL3_CHANGE_CIPHER_CLIENT_WRITE) WORK_ERROR
          (st_ret WORK_FINISHED_CONTINUE)))) s.

Definition client_early_write_keys : ST SSL unit :=
  tls13_change_cipher_state (Z.lor SSL3_CC_EARLY SSL3_CHANGE_CIPHER_CLIENT_WRITE).

Definition ossl_statem_client_post_work : ST SSL WORK_STATE :=
  st_put (set_init_num 0) ;;; fun s =>
  (match hand s with
   | TLS_ST_CW_CLNT_HELLO =>
       let after := (if SSL_IS_DTLS s then st_put (set_first_packet true) else st_ret tt) ;;;
                    st_ret WORK_FINISHED_CONTINUE in
       if bool_decide (early_data_state s = SSL_EARLY_DATA_CONNECTING) && (0 <? max_early_data s)
       then if has (options s) SSL_OP_ENABLE_MIDDLEBOX_COMPAT then after
            else or_work client_early_write_keys WORK_ERROR after
       else or_work statem_flush WORK_MORE_A after
   | TLS_ST_CW_KEY_EXCH =>
       or_work tls_client_key_exchange_post_work WORK_ERROR (st_ret WORK_FINISHED_CONTINUE)
   | TLS_ST_CW_CHANGE =>
       if SSL_IS_TLS13 s || bool_decide (hello_retry_request s = SSL_HRR_PENDING)
       then st_ret WORK_FINISHED_CONTINUE
       else if bool_decide (early_data_state s = SSL_EARLY_DATA_CONNECTING) && (0 <? max_early_data s)
       then or_work client_early_write_keys WORK_ERROR (st_ret WORK_FINISHED_CONTINUE)
       else client_activate_write_keys
   | TLS_ST_CW_FINISHED =>
       or_work statem_flush WORK_MORE_B
         (st_if SSL_IS_TLS13
            (or_work tls13_save_handshake_digest_for_pha WORK_ERROR
               (st_if (fun s => bool_decide (post_handshake_auth s = SSL_PHA_REQUESTED))
                  (st_ret WORK_FINISHED_CONTINUE)
                  (or_work (enc_change_cipher_state
                              (Z.lor SSL3_CC_APPLICATION SSL3_CHANGE_CIPHER_CLIENT_WRITE))
                     WORK_ERROR (st_ret WORK_FINISHED_CONTINUE))))
            (st_ret WORK_FINISHED_CONTINUE))
   | TLS_ST_CW_KEY_UPDATE =>
       or_work statem_flush WORK_MORE_A
         (or_work (tls13_update_key true) WORK_ERROR (st_ret WORK_FINISHED_CONTINUE))
   | _ => st_ret WORK_FINISHED_CONTINUE
   end) s.

(** ** Dispatch *)

(** The construction function ([None] for a null pointer) and the type of the
    message to send; [Fail] after the fatal error of an unexpected state. *)
Definition ossl_statem_client_construct_message : ST SSL (option confunc_f * Z) := fun s =>
  (match hand s with
   | TLS_ST_CW_CHANGE =>
       st_ret (Some (if SSL_IS_DTLS s then dtls_construct_change_cipher_spec
                     else tls_construct_change_cipher_spec), SSL3_MT_CHANGE_CIPHER_SPEC)
   | TLS_ST_CW_CLNT_HELLO => st_ret (Some tls_construct_client_hello, SSL3_MT_CLIENT_HELLO)
   | TLS_ST_CW_END_OF_EARLY_DATA =>
       if SSL_IS_QUIC s then st_ret (None, SSL3_MT_DUMMY)
       else st_ret (Some tls_construct_end_of_early_data, SSL3_MT_END_OF_EARLY_DATA)
   | TLS_ST_PENDING_EARLY_DATA_END => st_ret (None, SSL3_MT_DUMMY)
   | TLS_ST_CW_CERT => st_ret (Some tls_construct_client_certificate, SSL3_MT_CERTIFICATE)
   | TLS_ST_CW_COMP_CERT =>
       st_ret (Some tls_construct_client_compressed_certificate, SSL3_MT_COMPRESSED_CERTIFICATE)
   | TLS_ST_CW_KEY_EXCH =>
       st_ret (Some tls_construct_client_key_exchange, SSL3_MT_CLIENT_KEY_EXCHANGE)
   | TLS_ST_CW_CERT_VRFY => st_ret (Some tls_construct_cert_verify, SSL3_MT_CERTIFICATE_VERIFY)
   | TLS_ST_CW_FINISHED => st_ret (Some tls_construct_finished, SSL3_MT_FINISHED)
   | TLS_ST_CW_KEY_UPDATE => st_ret (Some tls_construct_key_update, SSL3_MT_KEY_UPDATE)
   | _ => SSLfatal SSL_AD_INTERNAL_ERROR ;;; st_fail
   end) s.

Definition ossl_statem_client_max_message_size (s : SSL) : Z :=
  match hand s with
  | TLS_ST_CR_SRVR_HELLO => SERVER_HELLO_MAX_LENGTH
  | DTLS_ST_CR_HELLO_VERIFY_REQUEST => HELLO_VERIFY_REQUEST_MAX_LENGTH
  | TLS_ST_CR_COMP_CERT | TLS_ST_CR_CERT => max_cert_list s
  | TLS_ST_CR_CERT_VRFY => CERTIFICATE_VERIFY_MAX_LENGTH
  | TLS_ST_CR_CERT_STATUS => SSL3_RT_MAX_PLAIN_LENGTH
  | TLS_ST_CR_KEY_EXCH => SERVER_KEY_EXCH_MAX_LENGTH
  | TLS_ST_CR_CERT_REQ => max_cert_list s
  | TLS_ST_CR_SRVR_DONE => SERVER_HELLO_DONE_MAX_LENGTH
  | TLS_ST_CR_CHANGE => if version s =? DTLS1_BAD_VER then 3 else CCS_MAX_LENGTH
  | TLS_ST_CR_SESSION_TICKET =>
      if SSL_IS_TLS13 s then SESSION_TICKET_MAX_LENGTH_TLS13 else SESSION_TICKET_MAX_LENGTH_TLS12
  | TLS_ST_CR_FINISHED => FINISHED_MAX_LENGTH
  | TLS_ST_CR_ENCRYPTED_EXTENSIONS => ENCRYPTED_EXTENSIONS_MAX_LENGTH
  | TLS_ST_CR_KEY_UPDATE => KEY_UPDATE_MAX_LENGTH
  | _ => 0
  end.

(** The handler of the current state, [None] for the default case. *)
Definition client_process_fn (h : OSSL_HANDSHAKE_STATE) : option process_f :=
  match h with
  | TLS_ST_CR_SRVR_HELLO => Some tls_process_server_hello
  | DTLS_ST_CR_HELLO_VERIFY_REQUEST => Some dtls_process_hello_verify
  | TLS_ST_CR_CERT => Some tls_process_server_certificate
  | TLS_ST_CR_COMP_CERT => Some tls_process_server_compressed_certificate
  | TLS_ST_CR_CERT_VRFY => Some tls_process_cert_verify
  | TLS_ST_CR_CERT_STATUS => Some tls_process_cert_status
  | TLS_ST_CR_KEY_EXCH => Some tls_process_key_exchange
  | TLS_ST_CR_CERT_REQ => Some tls_process_certificate_request
  | TLS_ST_CR_SRVR_DONE => Some tls_process_server_done
  | TLS_ST_CR_CHANGE => Some tls_process_change_cipher_spec
  | TLS_ST_CR_SESSION_TICKET => Some tls_process_new_session_ticket
  | TLS_ST_CR_FINISHED => Some tls_process_finished
  | TLS_ST_CR_HELLO_REQ => Some tls_process_hello_req
  | TLS_ST_CR_ENCRYPTED_EXTENSIONS => Some tls_process_encrypted_extensions
  | TLS_ST_CR_KEY_UPDATE => Some tls_process_key_update
  | _ => None
  end.

Definition ossl_statem_client_process_message (pkt : PACKET) : ST SSL MSG_PROCESS_RETURN := fun s =>
  match client_process_fn (hand s) with
  | Some f => let '(r, s) := process_call f pkt s in (Ok r, s)
  | None => (SSLfatal SSL_AD_INTERNAL_ERROR ;;; st_ret MSG_PROCESS_ERROR) s
  end.

Definition client_post_process_fn (h : OSSL_HANDSHAKE_STATE) : option post_process_f :=
  match h with
  | TLS_ST_CR_CERT | TLS_ST_CR_COMP_CERT => Some tls_post_process_server_certificate
  | TLS_ST_CR_CERT_VRFY | TLS_ST_CR_CERT_REQ => Some tls_prepare_client_certificate
  | _ => None
  end.

Definition ossl_statem_client_post_process_message (wst : WORK_STATE) : ST SSL WORK_STATE := fun s =>
  match client_post_process_fn (hand s) with
  | Some f => let '(r, s) := post_process_call f wst s in (Ok r, s)
  | None => (SSLfatal SSL_AD_INTERNAL_ERROR ;;; st_ret WORK_ERROR) s
  end.
End Client.
