(* ===== verification/StatemSrvr.v ===== *)
(** * The server's handshake state machine

    ssl/statem/statem_srvr.c: the counterpart of StatemClnt.v. *)

From stdpp Require Import prelude.
From Stdlib Require Import ZArith Lia.
From S2P Require Import Prelude Packet WPacket StatemTypes StatemLib.

Local Open Scope Z_scope.
Local Open Scope st_scope.

Section Server.
Context {W : Type} `{Callees W}.
Local Abbreviation SSL := (SSL W).

(** ** What may arrive *)

Definition received_client_cert : SSL -> ret bool :=
  on_session (fun ss => Ok (peer_rpk ss || peer ss)).

(** After the server's Finished (and any early data): the client's
    certificate if one was requested, else its Finished. *)
Definition server13_read_flight (mt : Z) : ST SSL unit := fun s =>
  (if cert_request (tmp_of s) then
     if mt =? SSL3_MT_CERTIFICATE then move TLS_ST_SR_CERT
     else if (mt =? SSL3_MT_COMPRESSED_CERTIFICATE) && compress_certificate_sent (ext s)
     then move TLS_ST_SR_COMP_CERT else st_fail
   else if mt =? SSL3_MT_FINISHED then move TLS_ST_SR_FINISHED else st_fail) s.

Definition ossl_statem_server13_read_transition (mt : Z) : ST SSL unit := fun s =>
  (match hand s with
   | TLS_ST_EARLY_DATA =>
       if bool_decide (hello_retry_request s = SSL_HRR_PENDING) then
         if mt =? SSL3_MT_CLIENT_HELLO then move TLS_ST_SR_CLNT_HELLO else st_fail
       else if (early_data (ext s) =? SSL_EARLY_DATA_ACCEPTED) && negb (SSL_IS_QUIC s) then
         if mt =? SSL3_MT_END_OF_EARLY_DATA then move TLS_ST_SR_END_OF_EARLY_DATA else st_fail
       else server13_read_flight mt
   | TLS_ST_SR_END_OF_EARLY_DATA | TLS_ST_SW_FINISHED => server13_read_flight mt
   | TLS_ST_SR_COMP_CERT | TLS_ST_SR_CERT =>
       got <~ st_lift received_client_cert ;;
       if negb got then
         if mt =? SSL3_MT_FINISHED then move TLS_ST_SR_FINISHED else st_fail
       else if mt =? SSL3_MT_CERTIFICATE_VERIFY then move TLS_ST_SR_CERT_VRFY else st_fail
   | TLS_ST_SR_CERT_VRFY =>
       if mt =? SSL3_MT_FINISHED then move TLS_ST_SR_FINISHED else st_fail
   | TLS_ST_OK =>
       if bool_decide (early_data_state s = SSL_EARLY_DATA_READING) then st_fail
       else if bool_decide (post_handshake_auth s = SSL_PHA_REQUESTED)
               && (mt =? SSL3_MT_CERTIFICATE) then move TLS_ST_SR_CERT
       else if bool_decide (post_handshake_auth s = SSL_PHA_REQUESTED)
               && ((mt =? SSL3_MT_COMPRESSED_CERTIFICATE) && compress_certificate_sent (ext s))
       then move TLS_ST_SR_COMP_CERT
       else if (mt =? SSL3_MT_KEY_UPDATE) && negb (SSL_IS_QUIC_HANDSHAKE s)
       then move TLS_ST_SR_KEY_UPDATE
       else st_fail
   | _ => st_fail
   end) s.

(** The ServerHelloDone case: with [false] the caller reports the unexpected
    message, with [true] the error has been reported already. *)
Definition server_read_srvr_done (mt : Z) : ST SSL (option bool) := fun s =>
  (if mt =? SSL3_MT_CLIENT_KEY_EXCHANGE then
     if cert_request (tmp_of s) then
       if version s =? SSL3_VERSION then
         if has (verify_mode s) SSL_VERIFY_PEER
            && has (verify_mode s) SSL_VERIFY_FAIL_IF_NO_PEER_CERT
         then SSLfatal SSL_AD_HANDSHAKE_FAILURE ;;; st_ret (Some true)
         else move TLS_ST_SR_KEY_EXCH ;;; st_ret None
       else st_ret (Some false)
     else move TLS_ST_SR_KEY_EXCH ;;; st_ret None
   else if cert_request (tmp_of s) then
     if mt =? SSL3_MT_CERTIFICATE then move TLS_ST_SR_CERT ;;; st_ret None
     else st_ret (Some false)
   else st_ret (Some false)) s.

Definition server_read_pre13 (mt : Z) : ST SSL unit := fun s =>
  (match hand s with
   | TLS_ST_BEFORE | TLS_ST_OK | DTLS_ST_SW_HELLO_VERIFY_REQUEST =>
       if mt =? SSL3_MT_CLIENT_HELLO then move TLS_ST_SR_CLNT_HELLO else st_fail
   | TLS_ST_SR_CERT =>
       if mt =? SSL3_MT_CLIENT_KEY_EXCHANGE then move TLS_ST_SR_KEY_EXCH else st_fail
   | TLS_ST_SR_KEY_EXCH =>
       got <~ st_lift received_client_cert ;;
       if negb got || no_cert_verify (statem s) then
         if mt =? SSL3_MT_CHANGE_CIPHER_SPEC then move TLS_ST_SR_CHANGE else st_fail
       else if mt =? SSL3_MT_CERTIFICATE_VERIFY then move TLS_ST_SR_CERT_VRFY else st_fail
   | TLS_ST_SR_CERT_VRFY =>
       if mt =? SSL3_MT_CHANGE_CIPHER_SPEC then move TLS_ST_SR_CHANGE else st_fail
   | TLS_ST_SR_CHANGE =>
       if mt =? SSL3_MT_FINISHED then move TLS_ST_SR_FINISHED else st_fail
   | TLS_ST_SW_FINISHED =>
       if mt =? SSL3_MT_CHANGE_CIPHER_SPEC then move TLS_ST_SR_CHANGE else st_fail
   | _ => st_fail
   end) s.

Definition ossl_statem_server_read_transition (mt : Z) : ST SSL unit := fun s =>
  (if SSL_IS_TLS13 s then or_no_transition mt (ossl_statem_server13_read_transition mt)
   else match hand s with
        | TLS_ST_SW_SRVR_DONE =>
            r <~ server_read_srvr_done mt ;;
            match r with
            | None => st_ret tt
            | Some true => st_fail
            | Some false => no_valid_transition mt
            end
        | _ => or_no_transition mt (server_read_pre13 mt)
        end) s.

(** ** What to send next *)

Definition send_server_key_exchange (s : SSL) : ret bool :=
  on_cipher (fun c =>
    let alg_k := algorithm_mkey c in
    Ok (has alg_k (Z.lor SSL_kDHE SSL_kECDHE)
        || (has alg_k (Z.lor SSL_kPSK SSL_kRSAPSK) && psk_identity_hint s)
        || has alg_k (Z.land SSL_PSK (Z.lor SSL_kDHEPSK SSL_kECDHEPSK)))) s.

(** The search for a usable algorithm: running off either array is a fault. *)
Fixpoint comp_alg_loop (algs : list Z) (comp_cert : list bool) : option Z :=
  match algs with
  | [] => None
  | a :: rest =>
      if a =? TLSEXT_comp_cert_none then Some TLSEXT_comp_cert_none
      else if a <? 0 then None
      else match comp_cert !! Z.to_nat a with
           | None => None
           | Some true => Some a
           | Some false => comp_alg_loop rest comp_cert
           end
  end.

Definition get_compressed_certificate_alg (s : SSL) : ret Z :=
  match tmp_cert (tmp_of s) with
  | None => Ok TLSEXT_comp_cert_none
  | Some comp_cert =>
      match comp_alg_loop (compress_certificate_from_peer (ext s)) comp_cert with
      | Some a => Ok a
      | None => Fault
      end
  end.

Definition send_certificate_request (s : SSL) : ret bool :=
  if has (verify_mode s) SSL_VERIFY_PEER
     && (negb (SSL_IS_TLS13 s)
         || negb (has (verify_mode s) SSL_VERIFY_POST_HANDSHAKE)
         || bool_decide (post_handshake_auth s = SSL_PHA_REQUEST_PENDING))
     && ((certreqs_sent s <? 1) || negb (has (verify_mode s) SSL_VERIFY_CLIENT_ONCE))
  then on_cipher (fun c =>
         Ok ((negb (has (algorithm_auth c) SSL_aNULL)
              || has (verify_mode s) SSL_VERIFY_FAIL_IF_NO_PEER_CERT)
             && negb (has (algorithm_auth c) SSL_aPSK))) s
  else Ok false.

Definition server_do_compressed_cert (s : SSL) : ret bool :=
  if server_cert_type (ext s) =? TLSEXT_cert_type_x509 then
    match get_compressed_certificate_alg s with
    | Ok a => Ok (negb (a =? TLSEXT_comp_cert_none))
    | Fail => Fail
    | Fault => Fault
    end
  else Ok false.

Definition server_send_cert : ST SSL WRITE_TRAN :=
  comp <~ st_lift server_do_compressed_cert ;;
  continue_in (if comp : bool then TLS_ST_SW_COMP_CERT else TLS_ST_SW_CERT).

Definition ossl_statem_server13_write_transition : ST SSL WRITE_TRAN := fun s =>
  (match hand s with
   | TLS_ST_OK =>
       if negb (key_update s =? SSL_KEY_UPDATE_NONE) then continue_in TLS_ST_SW_KEY_UPDATE
       else if bool_decide (post_handshake_auth s = SSL_PHA_REQUEST_PENDING)
       then continue_in TLS_ST_SW_CERT_REQ
       else if 0 <? extra_tickets_expected (ext s) then continue_in TLS_ST_SW_SESSION_TICKET
       else st_ret WRITE_TRAN_FINISHED
   | TLS_ST_SR_CLNT_HELLO => continue_in TLS_ST_SW_SRVR_HELLO
   | TLS_ST_SW_SRVR_HELLO =>
       continue_in
         (if has (options s) SSL_OP_ENABLE_MIDDLEBOX_COMPAT
             && negb (bool_decide (hello_retry_request s = SSL_HRR_COMPLETE))
          then TLS_ST_SW_CHANGE
          else if bool_decide (hello_retry_request s = SSL_HRR_PENDING) then TLS_ST_EARLY_DATA
          else TLS_ST_SW_ENCRYPTED_EXTENSIONS)
   | TLS_ST_SW_CHANGE =>
       continue_in (if bool_decide (hello_retry_request s = SSL_HRR_PENDING)
                    then TLS_ST_EARLY_DATA else TLS_ST_SW_ENCRYPTED_EXTENSIONS)
   | TLS_ST_SW_ENCRYPTED_EXTENSIONS =>
       if hit s then continue_in TLS_ST_SW_FINISHED
       else req <~ st_lift send_certificate_request ;;
            if req : bool then continue_in TLS_ST_SW_CERT_REQ else server_send_cert
   | TLS_ST_SW_CERT_REQ =>
       if bool_decide (post_handshake_auth s = SSL_PHA_REQUEST_PENDING)
       then st_put (set_post_handshake_auth SSL_PHA_REQUESTED) ;;; continue_in TLS_ST_OK
       else server_send_cert
   | TLS_ST_SW_COMP_CERT | TLS_ST_SW_CERT => continue_in TLS_ST_SW_CERT_VRFY
   | TLS_ST_SW_CERT_VRFY => continue_in TLS_ST_SW_FINISHED
   | TLS_ST_SW_FINISHED =>
       move TLS_ST_EARLY_DATA ;;; stamp_write ;;; st_ret WRITE_TRAN_CONTINUE
   | TLS_ST_EARLY_DATA => st_ret WRITE_TRAN_FINISHED
   | TLS_ST_SR_FINISHED =>
       stamp_read ;;;
       let tickets := continue_in (if sent_tickets s <? num_tickets s
                                   then TLS_ST_SW_SESSION_TICKET else TLS_ST_OK) in
       if bool_decide (post_handshake_auth s = SSL_PHA_REQUESTED)
       then st_put (set_post_handshake_auth SSL_PHA_EXT_RECEIVED) ;;; tickets
       else if negb (ticket_expected (ext s)) then continue_in TLS_ST_OK
       else tickets
   | TLS_ST_SR_KEY_UPDATE | TLS_ST_SW_KEY_UPDATE => continue_in TLS_ST_OK
   | TLS_ST_SW_SESSION_TICKET =>
       if negb (SSL_IS_FIRST_HANDSHAKE s) && (0 <? extra_tickets_expected (ext s))
       then st_ret WRITE_TRAN_CONTINUE
       else if hit s || (num_tickets s <=? sent_tickets s) then continue_in TLS_ST_OK
       else st_ret WRITE_TRAN_CONTINUE
   | _ => write_tran_fatal
   end) s.

(** The cases of the pre-TLS 1.3 switch that fall through into one another. *)
Definition server_after_key_exch : ST SSL WRITE_TRAN :=
  req <~ st_lift send_certificate_request ;;
  continue_in (if req : bool then TLS_ST_SW_CERT_REQ else TLS_ST_SW_SRVR_DONE).

Definition server_after_cert_status : ST SSL WRITE_TRAN :=
  ske <~ st_lift send_server_key_exchange ;;
  if ske : bool then continue_in TLS_ST_SW_KEY_EXCH else server_after_key_exch.

Definition server_write_pre13 : ST SSL WRITE_TRAN := fun s =>
  (match hand s with
   | TLS_ST_OK =>
       if bool_decide (request_state (statem s) = TLS_ST_SW_HELLO_REQ)
       then st_put (upd_st (fun st => set_request_state TLS_ST_BEFORE
                                        (set_hand_state TLS_ST_SW_HELLO_REQ st))) ;;;
            st_ret WRITE_TRAN_CONTINUE
       else ok <~ st_try tls_setup_handshake ;;
            st_ret (if ok : bool then WRITE_TRAN_FINISHED else WRITE_TRAN_ERROR)
   | TLS_ST_BEFORE => st_ret WRITE_TRAN_FINISHED
   | TLS_ST_SW_HELLO_REQ => continue_in TLS_ST_OK
   | TLS_ST_SR_CLNT_HELLO =>
       continue_in
         (if SSL_IS_DTLS s && negb (cookie_verified s) && has (options s) SSL_OP_COOKIE_EXCHANGE
          then DTLS_ST_SW_HELLO_VERIFY_REQUEST
          else if negb (renegotiate s) && negb (SSL_IS_FIRST_HANDSHAKE s) then TLS_ST_OK
          else TLS_ST_SW_SRVR_HELLO)
   | DTLS_ST_SW_HELLO_VERIFY_REQUEST => st_ret WRITE_TRAN_FINISHED
   | TLS_ST_SW_SRVR_HELLO =>
       if hit s then continue_in (if ticket_expected (ext s) then TLS_ST_SW_SESSION_TICKET
                                  else TLS_ST_SW_CHANGE)
       else with_cipher (fun c =>
              if negb (has (algorithm_auth c) (Z.lor SSL_aNULL SSL_aPSK))
              then continue_in TLS_ST_SW_CERT
              else server_after_cert_status)
   | TLS_ST_SW_CERT =>
       if status_expected (ext s) then continue_in TLS_ST_SW_CERT_STATUS
       else server_after_cert_status
   | TLS_ST_SW_CERT_STATUS => server_after_cert_status
   | TLS_ST_SW_KEY_EXCH => server_after_key_exch
   | TLS_ST_SW_CERT_REQ => continue_in TLS_ST_SW_SRVR_DONE
   | TLS_ST_SW_SRVR_DONE => stamp_write ;;; st_ret WRITE_TRAN_FINISHED
   | TLS_ST_SR_FINISHED =>
       stamp_read ;;;
       continue_in (if hit s then TLS_ST_OK
                    else if ticket_expected (ext s) then TLS_ST_SW_SESSION_TICKET
                    else TLS_ST_SW_CHANGE)
   | TLS_ST_SW_SESSION_TICKET => continue_in TLS_ST_SW_CHANGE
   | TLS_ST_SW_CHANGE => continue_in TLS_ST_SW_FINISHED
   | TLS_ST_SW_FINISHED =>
       if hit s then st_ret WRITE_TRAN_FINISHED else continue_in TLS_ST_OK
   | _ => write_tran_fatal
   end) s.

Definition ossl_statem_server_write_transition : ST SSL WRITE_TRAN :=
  st_if SSL_IS_TLS13 ossl_statem_server13_write_transition server_write_pre13.

(** ** Work around sending *)

(** Before the server's ChangeCipherSpec (TLS 1.2 and below). *)
Definition server_prepare_change (s : SSL) : ST SSL WORK_STATE :=
  with_session (fun ss =>
    let go := or_work enc_setup_key_block WORK_ERROR
                ((if SSL_IS_DTLS s then st_put (upd_st (set_use_timer false)) else st_ret tt) ;;;
                 st_ret WORK_FINISHED_CONTINUE) in
    match sess_cipher ss with
    | None => st_put (set_session (Some (set_sess_cipher (new_cipher (tmp_of s)) ss))) ;;; go
    | Some c =>
        match new_cipher (tmp_of s) with
        | Some c' => if cipher_id c =? cipher_id c' then go
                     else SSLfatal SSL_AD_INTERNAL_ERROR ;;; st_ret WORK_ERROR
        | None => SSLfatal SSL_AD_INTERNAL_ERROR ;;; st_ret WORK_ERROR
        end
    end).

Definition ossl_statem_server_pre_work : ST SSL WORK_STATE := fun s =>
  (match hand s with
   | TLS_ST_SW_HELLO_REQ =>
       st_put (set_shutdown 0) ;;;
       (if SSL_IS_DTLS s then st_put dtls1_clear_sent_buffer else st_ret tt) ;;;
       st_ret WORK_FINISHED_CONTINUE
   | DTLS_ST_SW_HELLO_VERIFY_REQUEST =>
       st_put (set_shutdown 0) ;;;
       (if SSL_IS_DTLS s
        then st_put dtls1_clear_sent_buffer ;;; st_put (upd_st (set_use_timer false))
        else st_ret tt) ;;;
       st_ret WORK_FINISHED_CONTINUE
   | TLS_ST_SW_SRVR_HELLO =>
       (if SSL_IS_DTLS s then st_put (upd_st (set_use_timer true)) else st_ret tt) ;;;
       st_ret WORK_FINISHED_CONTINUE
   | TLS_ST_SW_SRVR_DONE => st_ret WORK_FINISHED_CONTINUE
   | TLS_ST_SW_SESSION_TICKET =>
       if SSL_IS_TLS13 s && (sent_tickets s =? 0) && (extra_tickets_expected (ext s) =? 0)
       then tls_finish_handshake false false
       else (if SSL_IS_DTLS s then st_put (upd_st (set_use_timer false)) else st_ret tt) ;;;
            st_ret WORK_FINISHED_CONTINUE
   | TLS_ST_SW_CHANGE =>
       if SSL_IS_TLS13 s then st_ret WORK_FINISHED_CONTINUE else server_prepare_change s
   | TLS_ST_EARLY_DATA =>
       if negb (bool_decide (early_data_state s = SSL_EARLY_DATA_ACCEPTING))
          && negb (has (s3_flags (s3 s)) TLS1_FLAGS_STATELESS)
       then st_ret WORK_FINISHED_CONTINUE
       else tls_finish_handshake true true
   | TLS_ST_OK => tls_finish_handshake true true
   | _ => st_ret WORK_FINISHED_CONTINUE
   end) s.

Definition conn_is_closed (s : SSL) : bool := sys_error_is_closed (rest s).

(** [SSL_OP_NO_TX_CERTIFICATE_COMPRESSION], or a version without compressed
    certificates: forget the peer's algorithms. *)
Definition drop_compression : ST SSL unit :=
  st_if (fun s => negb (SSL_IS_TLS13 s) || has (options s) SSL_OP_NO_TX_CERTIFICATE_COMPRESSION)
    (fun s => match compress_certificate_from_peer (ext s) with
              | _ :: l => (Ok tt, upd_ext (set_compress_certificate_from_peer
                                             (TLSEXT_comp_cert_none :: l)) s)
              | [] => (Fault, s)
              end)
    (st_ret tt).

(** After the ServerHello or ChangeCipherSpec: switch to the new keys. *)
Definition server_activate_keys : ST SSL WORK_STATE := fun s =>
  (if bool_decide (hello_retry_request s = SSL_HRR_PENDING)
   then or_work statem_flush WORK_MORE_A (st_ret WORK_FINISHED_CONTINUE)
   else if SSL_IS_TLS13 s then
     or_work (enc_setup_key_block ;;;
              enc_change_cipher_state (Z.lor SSL3_CC_HANDSHAKE SSL3_CHANGE_CIPHER_SERVER_WRITE))
       WORK_ERROR
       (or_work (st_if (fun s => negb (early_data (ext s) =? SSL_EARLY_DATA_ACCEPTED))
                   (enc_change_cipher_state (Z.lor SSL3_CC_HANDSHAKE SSL3_CHANGE_CIPHER_SERVER_READ))
                   (st_ret tt)) WORK_ERROR
          (st_put (upd_rest rl_set_plain_alerts) ;;; st_ret WORK_FINISHED_CONTINUE))
   else or_work (enc_change_cipher_state SSL3_CHANGE_CIPHER_SERVER_WRITE) WORK_ERROR
          (st_ret WORK_FINISHED_CONTINUE)) s.

(** After the server's Finished: application write keys, and for QUIC with
    early data the handshake read keys. *)
Definition server_after_finished : ST SSL WORK_STATE :=
  or_work statem_flush WORK_MORE_A
    (st_if SSL_IS_TLS13
       (or_work (enc_generate_master_secret ;;;
                 enc_change_cipher_state (Z.lor SSL3_CC_APPLICATION SSL3_CHANGE_CIPHER_SERVER_WRITE))
          WORK_ERROR
          (st_if (fun s => SSL_IS_QUIC s && (early_data (ext s) =? SSL_EARLY_DATA_ACCEPTED))
             (st_put (set_early_data_state SSL_EARLY_DATA_FINISHED_READING) ;;;
              or_work (enc_change_cipher_state
                         (Z.lor SSL3_CC_HANDSHAKE SSL3_CHANGE_CIPHER_SERVER_READ))
                WORK_ERROR (st_ret WORK_FINISHED_CONTINUE))
             (st_ret WORK_FINISHED_CONTINUE)))
       (st_ret WORK_FINISHED_CONTINUE)).

(** After a NewSessionTicket: in TLS 1.3 a closed connection is no error. *)
Definition server_after_ticket : ST SSL WORK_STATE :=
  st_put (upd_rest clear_sys_error) ;;;
  st_if SSL_IS_TLS13
    (ok <~ st_try statem_flush ;;
     if ok : bool then st_ret WORK_FINISHED_CONTINUE
     else st_if (fun s => (SSL_get_error_0 s =? SSL_ERROR_SYSCALL) && conn_is_closed s)
            (st_put (set_rwstate SSL_NOTHING) ;;; st_ret WORK_FINISHED_CONTINUE)
            (st_ret WORK_MORE_A))
    (st_ret WORK_FINISHED_CONTINUE).

Definition ossl_statem_server_post_work : ST SSL WORK_STATE :=
  st_put (set_init_num 0) ;;; fun s =>
  (match hand s with
   | TLS_ST_SW_HELLO_REQ =>
       or_work statem_flush WORK_MORE_A
         (or_work ssl3_init_finished_mac WORK_ERROR (st_ret WORK_FINISHED_CONTINUE))
   | DTLS_ST_SW_HELLO_VERIFY_REQUEST =>
       or_work statem_flush WORK_MORE_A
         (or_work (st_if (fun s => version s =? DTLS1_BAD_VER) (st_ret tt) ssl3_init_finished_mac)
            WORK_ERROR
            (st_put (set_first_packet true) ;;; st_ret WORK_FINISHED_CONTINUE))
   | TLS_ST_SW_SRVR_HELLO =>
       if SSL_IS_TLS13 s && bool_decide (hello_retry_request s = SSL_HRR_PENDING)
       then if has (options s) SSL_OP_ENABLE_MIDDLEBOX_COMPAT then st_ret WORK_FINISHED_CONTINUE
            else or_work statem_flush WORK_MORE_A (st_ret WORK_FINISHED_CONTINUE)
       else if negb (SSL_IS_TLS13 s)
               || (has (options s) SSL_OP_ENABLE_MIDDLEBOX_COMPAT
                   && negb (bool_decide (hello_retry_request s = SSL_HRR_COMPLETE)))
       then st_ret WORK_FINISHED_CONTINUE
       else server_activate_keys
   | TLS_ST_SW_CHANGE => server_activate_keys
   | TLS_ST_SW_SRVR_DONE => or_work statem_flush WORK_MORE_A (st_ret WORK_FINISHED_CONTINUE)
   | TLS_ST_SW_FINISHED => server_after_finished
   | TLS_ST_SW_CERT_REQ =>
       if bool_decide (post_handshake_auth s = SSL_PHA_REQUEST_PENDING)
       then or_work statem_flush WORK_MORE_A (st_ret WORK_FINISHED_CONTINUE)
       else drop_compression ;;; st_ret WORK_FINISHED_CONTINUE
   | TLS_ST_SW_ENCRYPTED_EXTENSIONS =>
       if hit s then st_ret WORK_FINISHED_CONTINUE
       else req <~ st_lift send_certificate_request ;;
            (if req : bool then st_ret tt else drop_compression) ;;; st_ret WORK_FINISHED_CONTINUE
   | TLS_ST_SW_KEY_UPDATE =>
       or_work statem_flush WORK_MORE_A
         (or_work (tls13_update_key true) WORK_ERROR (st_ret WORK_FINISHED_CONTINUE))
   | TLS_ST_SW_SESSION_TICKET => server_after_ticket
   | _ => st_ret WORK_FINISHED_CONTINUE
   end) s.

(** ** Dispatch *)

Definition ossl_statem_server_construct_message : ST SSL (option confunc_f * Z) := fun s =>
  (match hand s with
   | TLS_ST_SW_CHANGE =>
       st_ret (Some (if SSL_IS_DTLS s then dtls_construct_change_cipher_spec
                     else tls_construct_change_cipher_spec), SSL3_MT_CHANGE_CIPHER_SPEC)
   | DTLS_ST_SW_HELLO_VERIFY_REQUEST =>
       st_ret (Some dtls_construct_hello_verify_request, DTLS1_MT_HELLO_VERIFY_REQUEST)
   | TLS_ST_SW_HELLO_REQ => st_ret (None, SSL3_MT_HELLO_REQUEST)
   | TLS_ST_SW_SRVR_HELLO => st_ret (Some tls_construct_server_hello, SSL3_MT_SERVER_HELLO)
   | TLS_ST_SW_CERT => st_ret (Some tls_construct_server_certificate, SSL3_MT_CERTIFICATE)
   | TLS_ST_SW_COMP_CERT =>
       st_ret (Some tls_construct_server_compressed_certificate, SSL3_MT_COMPRESSED_CERTIFICATE)
   | TLS_ST_SW_CERT_VRFY => st_ret (Some tls_construct_cert_verify, SSL3_MT_CERTIFICATE_VERIFY)
   | TLS_ST_SW_KEY_EXCH =>
       st_ret (Some tls_construct_server_key_exchange, SSL3_MT_SERVER_KEY_EXCHANGE)
   | TLS_ST_SW_CERT_REQ =>
       st_ret (Some tls_construct_certificate_request, SSL3_MT_CERTIFICATE_REQUEST)
   | TLS_ST_SW_SRVR_DONE => st_ret (Some tls_construct_server_done, SSL3_MT_SERVER_DONE)
   | TLS_ST_SW_SESSION_TICKET =>
       st_ret (Some tls_construct_new_session_ticket, SSL3_MT_NEWSESSION_TICKET)
   | TLS_ST_SW_CERT_STATUS => st_ret (Some tls_construct_cert_status, SSL3_MT_CERTIFICATE_STATUS)
   | TLS_ST_SW_FINISHED => st_ret (Some tls_construct_finished, SSL3_MT_FINISHED)
   | TLS_ST_EARLY_DATA => st_ret (None, SSL3_MT_DUMMY)
   | TLS_ST_SW_ENCRYPTED_EXTENSIONS =>
       st_ret (Some tls_construct_encrypted_extensions, SSL3_MT_ENCRYPTED_EXTENSIONS)
   | TLS_ST_SW_KEY_UPDATE => st_ret (Some tls_construct_key_update, SSL3_MT_KEY_UPDATE)
   | _ => SSLfatal SSL_AD_INTERNAL_ERROR ;;; st_fail
   end) s.

Definition ossl_statem_server_max_message_size (s : SSL) : Z :=
  match hand s with
  | TLS_ST_SR_CLNT_HELLO => CLIENT_HELLO_MAX_LENGTH
  | TLS_ST_SR_END_OF_EARLY_DATA => END_OF_EARLY_DATA_MAX_LENGTH
  | TLS_ST_SR_COMP_CERT | TLS_ST_SR_CERT => max_cert_list s
  | TLS_ST_SR_KEY_EXCH => CLIENT_KEY_EXCH_MAX_LENGTH
  | TLS_ST_SR_CERT_VRFY => CERTIFICATE_VERIFY_MAX_LENGTH
  | TLS_ST_SR_CHANGE => CCS_MAX_LENGTH
  | TLS_ST_SR_FINISHED => FINISHED_MAX_LENGTH
  | TLS_ST_SR_KEY_UPDATE => KEY_UPDATE_MAX_LENGTH
  | _ => 0
  end.

Definition server_process_fn (h : OSSL_HANDSHAKE_STATE) : option process_f :=
  match h with
  | TLS_ST_SR_CLNT_HELLO => Some tls_process_client_hello
  | TLS_ST_SR_END_OF_EARLY_DATA => Some tls_process_end_of_early_data
  | TLS_ST_SR_CERT => Some tls_process_client_certificate
  | TLS_ST_SR_COMP_CERT => Some tls_process_client_compressed_certificate
  | TLS_ST_SR_KEY_EXCH => Some tls_process_client_key_exchange
  | TLS_ST_SR_CERT_VRFY => Some tls_process_cert_verify
  | TLS_ST_SR_CHANGE => Some tls_process_change_cipher_spec
  | TLS_ST_SR_FINISHED => Some tls_process_finished
  | TLS_ST_SR_KEY_UPDATE => Some tls_process_key_update
  | _ => None
  end.

Definition ossl_statem_server_process_message (pkt : PACKET) : ST SSL MSG_PROCESS_RETURN := fun s =>
  match server_process_fn (hand s) with
  | Some f => let '(r, s) := process_call f pkt s in (Ok r, s)
  | None => (SSLfatal SSL_AD_INTERNAL_ERROR ;;; st_ret MSG_PROCESS_ERROR) s
  end.

Definition server_post_process_fn (h : OSSL_HANDSHAKE_STATE) : option post_process_f :=
  match h with
  | TLS_ST_SR_CLNT_HELLO => Some tls_post_process_client_hello
  | TLS_ST_SR_KEY_EXCH => Some tls_post_process_client_key_exchange
  | _ => None
  end.

Definition ossl_statem_server_post_process_message (wst : WORK_STATE) : ST SSL WORK_STATE := fun s =>
  match server_post_process_fn (hand s) with
  | Some f => let '(r, s) := post_process_call f wst s in (Ok r, s)
  | None => (SSLfatal SSL_AD_INTERNAL_ERROR ;;; st_ret WORK_ERROR) s
  end.
End Server.
