(* ===== verification/Statem.v ===== *)
(** * The message flow state machine

    ssl/statem/statem.c: the queries and updates of the state other code uses,
    the reading and writing sub-machines, and [state_machine] that alternates
    between them.  The C loops are unbounded; here they run on fuel, and [None]
    as a result means that it ran out. *)

From stdpp Require Import prelude.
From Stdlib Require Import ZArith Lia.
From S2P Require Import Prelude Packet Buffer WPacket StatemTypes StatemLib StatemClnt.
From S2P Require Import StatemSrvr.

Local Open Scope Z_scope.
Local Open Scope st_scope.

(** [while (1) { step }]: [step] says whether the loop is left. *)
Fixpoint st_loop {S A} (fuel : nat) (step : ST S (option A)) : ST S (option A) :=
  match fuel with
  | O => st_ret None
  | Datatypes.S n => r <~ step ;; match r with Some a => st_ret (Some a) | None => st_loop n step end
  end.

Section Flow.
Context {W : Type} `{Callees W} `{Libc}.
Local Abbreviation SSL := (SSL W).

(** ** Queries and updates for the rest of the library *)

Definition SSL_get_state (s : SSL) : OSSL_HANDSHAKE_STATE := hand s.
Definition SSL_in_init (s : SSL) : bool := in_init (statem s).
Definition SSL_is_init_finished (s : SSL) : bool :=
  negb (in_init (statem s)) && bool_decide (hand s = TLS_ST_OK).
Definition SSL_in_before (s : SSL) : bool :=
  bool_decide (hand s = TLS_ST_BEFORE) && bool_decide (state (statem s) = MSG_FLOW_UNINITED).
Definition ossl_statem_get_state (s : SSL) : OSSL_HANDSHAKE_STATE := hand s.

Definition ossl_statem_clear (s : SSL) : SSL :=
  upd_st (set_no_cert_verify false)
    (ossl_statem_set_in_init true
       (upd_st (fun st => set_hand_state TLS_ST_BEFORE (set_state MSG_FLOW_UNINITED st)) s)).

Definition ossl_statem_in_error (s : SSL) : bool := is_error s.
Definition ossl_statem_get_in_handshake (s : SSL) : Z := in_handshake (statem s).
Definition ossl_statem_set_in_handshake (inhand : bool) (s : SSL) : SSL :=
  upd_st (fun st => set_in_handshake (if inhand then in_handshake st + 1 else in_handshake st - 1) st) s.

Definition ossl_statem_skip_early_data (s : SSL) : bool :=
  (early_data (ext s) =? SSL_EARLY_DATA_REJECTED)
  && negb (negb (server s) || negb (bool_decide (hand s = TLS_ST_EARLY_DATA))
           || bool_decide (hello_retry_request s = SSL_HRR_COMPLETE)).

Definition in_early_data (s : SSL) : bool :=
  bool_decide (hand s = TLS_ST_PENDING_EARLY_DATA_END) || bool_decide (hand s = TLS_ST_EARLY_DATA).

Definition stop_early_writing (s : SSL) : SSL :=
  if bool_decide (early_data_state s = SSL_EARLY_DATA_WRITE_RETRY)
  then set_early_data_state SSL_EARLY_DATA_FINISHED_WRITING s else s.

Definition ossl_statem_check_finish_init (sending : Z) (s : SSL) : SSL :=
  if sending =? -1 then
    if in_early_data s then stop_early_writing (ossl_statem_set_in_init true s) else s
  else if negb (server s) then
    if (negb (sending =? 0) && in_early_data s
        && negb (bool_decide (early_data_state s = SSL_EARLY_DATA_WRITING)))
       || ((sending =? 0) && bool_decide (hand s = TLS_ST_EARLY_DATA))
    then let s := ossl_statem_set_in_init true s in
         if negb (sending =? 0) then stop_early_writing s else s
    else s
  else if bool_decide (early_data_state s = SSL_EARLY_DATA_FINISHED_READING)
          && bool_decide (hand s = TLS_ST_EARLY_DATA)
  then ossl_statem_set_in_init true s else s.

Definition ossl_statem_set_hello_verify_done (s : SSL) : SSL :=
  upd_st (set_hand_state TLS_ST_SR_CLNT_HELLO)
    (ossl_statem_set_in_init true (upd_st (set_state MSG_FLOW_UNINITED) s)).

Definition ossl_statem_app_data_allowed (s : SSL) : bool :=
  if bool_decide (state (statem s) = MSG_FLOW_UNINITED) then false
  else if (in_read_app_data (s3 s) =? 0) || (total_renegotiations (s3 s) =? 0) then false
  else if server s then
    bool_decide (hand s = TLS_ST_BEFORE) || bool_decide (hand s = TLS_ST_SR_CLNT_HELLO)
  else bool_decide (hand s = TLS_ST_CW_CLNT_HELLO).

Definition ossl_statem_export_allowed (s : SSL) : bool :=
  negb (previous_server_finished_len (s3 s) =? 0) && negb (bool_decide (hand s = TLS_ST_SW_FINISHED)).

Definition ossl_statem_export_early_allowed (s : SSL) : bool :=
  (early_data (ext s) =? SSL_EARLY_DATA_ACCEPTED)
  || (negb (server s) && negb (early_data (ext s) =? SSL_EARLY_DATA_NOT_SENT)).

(** ** Reading *)

Definition init_read_state_machine (s : SSL) : SSL := upd_st (set_read_state READ_STATE_HEADER) s.

(** The conversions of [BUF_MEM_grow_clean(s->init_buf, (int)size)]. *)
Definition int_cast (z : Z) : Z :=
  let m := z `mod` 2 ^ 32 in if m <? 2 ^ 31 then m else m - 2 ^ 32.

(** [init_msg] is an offset into [init_buf], so it survives the move. *)
Definition grow_init_buf (size : Z) : ST SSL unit := fun s =>
  match init_buf s with
  | None => (Fault, s)
  | Some b =>
      match BUF_MEM_grow_clean (wrap64 (int_cast size)) b with
      | (Ok r, b') =>
          let s := set_init_buf (Some b') s in
          if (r =? 0) || (size <? init_msg s) then (Fail, s) else (Ok tt, s)
      | (Fail, b') => (Fail, set_init_buf (Some b') s)
      | (Fault, b') => (Fault, set_init_buf (Some b') s)
      end
  end.

Definition get_message (s : SSL) : option Z * SSL :=
  if SSL_IS_DTLS s then dtls_get_message s
  else if SSL_IS_QUIC s then quic_get_message s
  else tls_get_message_header s.

Definition get_message_body (s : SSL) : option Z * SSL :=
  if SSL_IS_DTLS s then dtls_get_message_body s
  else if SSL_IS_QUIC s then quic_get_message_body s
  else tls_get_message_body s.

Definition notify_loop : ST SSL unit :=
  st_put (fun s => upd_rest (info_callback (if server s then SSL_CB_ACCEPT_LOOP
                                            else SSL_CB_CONNECT_LOOP) 1) s).

(** [return r;] from a sub-machine, and going round its loop again. *)
Definition leave (r : SUB_STATE_RETURN) : ST SSL (option SUB_STATE_RETURN) := st_ret (Some r).
Definition again : ST SSL (option SUB_STATE_RETURN) := st_ret None.

Definition stop_timer : ST SSL unit :=
  st_put (fun s => if SSL_IS_DTLS s then dtls1_stop_timer s else s).

Definition init_msg_ptr (s : SSL) : ptr :=
  match init_buf s with
  | Some b => match buf_data b with Some d => Ptr d (init_msg s) | None => Null end
  | None => Null
  end.

Definition read_transition (srv : bool) (mt : Z) : ST SSL unit :=
  if srv then ossl_statem_server_read_transition mt else ossl_statem_client_read_transition mt.
Definition max_message_size (srv : bool) (s : SSL) : Z :=
  if srv then ossl_statem_server_max_message_size s else ossl_statem_client_max_message_size s.
Definition process_message (srv : bool) (pkt : PACKET) : ST SSL MSG_PROCESS_RETURN :=
  if srv then ossl_statem_server_process_message pkt else ossl_statem_client_process_message pkt.
Definition post_process_message (srv : bool) (wst : WORK_STATE) : ST SSL WORK_STATE :=
  if srv then ossl_statem_server_post_process_message wst
  else ossl_statem_client_post_process_message wst.

(** The READ_STATE_BODY case. *)
Definition read_body (srv : bool) : ST SSL (option SUB_STATE_RETURN) :=
  fun s =>
  match get_message_body s with
  | (None, s) => leave SUB_STATE_ERROR s
  | (Some len, s) =>
      let s := set_first_packet false s in
      match PACKET_buf_init (init_msg_ptr s) len with
      | Ok pkt =>
          (ret <~ process_message srv pkt ;;
           st_put (set_init_num 0) ;;;
           match ret with
           | MSG_PROCESS_ERROR => check_fatal ;;; leave SUB_STATE_ERROR
           | MSG_PROCESS_FINISHED_READING => stop_timer ;;; leave SUB_STATE_FINISHED
           | MSG_PROCESS_CONTINUE_PROCESSING =>
               st_put (upd_st (fun st => set_read_state_work WORK_MORE_A
                                           (set_read_state READ_STATE_POST_PROCESS st))) ;;;
               again
           | MSG_PROCESS_CONTINUE_READING =>
               st_put (upd_st (set_read_state READ_STATE_HEADER)) ;;; again
           end) s
      | Fail => (SSLfatal SSL_AD_INTERNAL_ERROR ;;; leave SUB_STATE_ERROR) s
      | Fault => (Fault, s)
      end
  end.

(** The READ_STATE_HEADER case, which falls through into the next one. *)
Definition read_header (srv : bool) : ST SSL (option SUB_STATE_RETURN) :=
  fun s =>
  match get_message s with
  | (None, s) => leave SUB_STATE_ERROR s
  | (Some mt, s) =>
      (notify_loop ;;;
       ok <~ st_try (read_transition srv mt) ;;
       if negb ok then leave SUB_STATE_ERROR
       else st_if (fun s => max_message_size srv s <? message_size (tmp_of s))
         (SSLfatal SSL_AD_ILLEGAL_PARAMETER ;;; leave SUB_STATE_ERROR)
         (grown <~ st_if (fun s => negb (SSL_IS_DTLS s) && negb (SSL_IS_QUIC s)
                                   && (0 <? message_size (tmp_of s)))
                    (fun s => st_try (grow_init_buf (message_size (tmp_of s)
                                                     + SSL3_HM_HEADER_LENGTH)) s)
                    (st_ret true) ;;
          if negb grown then SSLfatal SSL_AD_INTERNAL_ERROR ;;; leave SUB_STATE_ERROR
          else st_put (upd_st (set_read_state READ_STATE_BODY)) ;;; read_body srv)) s
  end.

Definition read_post_process (srv : bool) : ST SSL (option SUB_STATE_RETURN) :=
  wst <~ st_get (fun s => read_state_work (statem s)) ;;
  w <~ post_process_message srv wst ;;
  st_put (upd_st (set_read_state_work w)) ;;;
  match w with
  | WORK_ERROR => check_fatal ;;; leave SUB_STATE_ERROR
  | WORK_MORE_A | WORK_MORE_B | WORK_MORE_C => leave SUB_STATE_ERROR
  | WORK_FINISHED_CONTINUE => st_put (upd_st (set_read_state READ_STATE_HEADER)) ;;; again
  | WORK_FINISHED_STOP => stop_timer ;;; leave SUB_STATE_FINISHED
  end.

Definition read_step (srv : bool) : ST SSL (option SUB_STATE_RETURN) := fun s =>
  (match read_state (statem s) with
   | READ_STATE_HEADER => read_header srv
   | READ_STATE_BODY => read_body srv
   | READ_STATE_POST_PROCESS => read_post_process srv
   end) s.

Definition read_state_machine (fuel : nat) : ST SSL (option SUB_STATE_RETURN) :=
  srv <~ st_get server ;;
  st_put (fun s => if read_state_first_init (statem s)
                   then upd_st (set_read_state_first_init false) (set_first_packet true s)
                   else s) ;;;
  st_loop fuel (read_step srv).

(** ** Writing *)

Definition init_write_state_machine (s : SSL) : SSL :=
  upd_st (set_write_state WRITE_STATE_TRANSITION) s.

Definition statem_do_write (s : SSL) : Z * SSL :=
  if bool_decide (hand s = TLS_ST_CW_CHANGE) || bool_decide (hand s = TLS_ST_SW_CHANGE) then
    if SSL_IS_DTLS s then dtls1_do_write SSL3_RT_CHANGE_CIPHER_SPEC s
    else ssl3_do_write SSL3_RT_CHANGE_CIPHER_SPEC s
  else ssl_do_write s.

Definition write_transition (srv : bool) : ST SSL WRITE_TRAN :=
  if srv then ossl_statem_server_write_transition else ossl_statem_client_write_transition.
Definition pre_work (srv : bool) : ST SSL WORK_STATE :=
  if srv then ossl_statem_server_pre_work else ossl_statem_client_pre_work.
Definition post_work (srv : bool) : ST SSL WORK_STATE :=
  if srv then ossl_statem_server_post_work else ossl_statem_client_post_work.
Definition get_construct_message_f (srv : bool) : ST SSL (option confunc_f * Z) :=
  if srv then ossl_statem_server_construct_message else ossl_statem_client_construct_message.

Definition set_post_work_state : ST SSL unit :=
  st_put (upd_st (fun st => set_write_state_work WORK_MORE_A
                              (set_write_state WRITE_STATE_POST_WORK st))).

Definition write_post_work (srv : bool) : ST SSL (option SUB_STATE_RETURN) :=
  w <~ post_work srv ;;
  st_put (upd_st (set_write_state_work w)) ;;;
  match w with
  | WORK_ERROR => check_fatal ;;; leave SUB_STATE_ERROR
  | WORK_MORE_A | WORK_MORE_B | WORK_MORE_C => leave SUB_STATE_ERROR
  | WORK_FINISHED_CONTINUE => st_put (upd_st (set_write_state WRITE_STATE_TRANSITION)) ;;; again
  | WORK_FINISHED_STOP => leave SUB_STATE_END_HANDSHAKE
  end.

Definition write_send (srv : bool) : ST SSL (option SUB_STATE_RETURN) :=
  st_put (fun s => if SSL_IS_DTLS s && use_timer (statem s) then dtls1_start_timer s else s) ;;;
  fun s =>
  let '(ret, s) := statem_do_write s in
  (if ret <=? 0 then leave SUB_STATE_ERROR
   else set_post_work_state ;;; write_post_work srv) s.

Definition uninit_WPACKET : WPACKET := mkWPACKET None None 0 0 0 [] false.

(** What building a message comes to. *)
Inductive constructed : Type := CONSTRUCTED | NOT_SENT | CONSTRUCT_ERROR | CONSTRUCT_INTERNAL.

(** Construction of the message: header, body, lengths.  The WPACKET writes
    into [init_buf]; it holds the buffer while it is in use and gives it back
    ([put_back]) on every exit. *)
Definition put_back (pkt : WPACKET) (s : SSL) : SSL := set_init_buf (wbuf pkt) s.

Definition construct_message (confunc : option confunc_f) (mt : Z) : ST SSL constructed := fun s =>
  match init_buf s with
  | None => (Ok CONSTRUCT_INTERNAL, s)
  | Some b =>
      match WPACKET_init b uninit_WPACKET with
      | (Ok _, pkt) =>
          let '(ok, pkt, s) := ssl_set_handshake_header mt pkt s in
          if negb ok then (Ok CONSTRUCT_INTERNAL, put_back pkt s)
          else
            let '(r, pkt, s) := match confunc with
                                | Some f => confunc_call f pkt s
                                | None => (CON_FUNC_SUCCESS, pkt, s)
                                end in
            match r with
            | CON_FUNC_ERROR => (Ok CONSTRUCT_ERROR, put_back pkt s)
            | CON_FUNC_DONT_SEND => (Ok NOT_SENT, put_back pkt s)
            | CON_FUNC_SUCCESS =>
                let '(ok, pkt, s) := ssl_close_construct_packet mt pkt s in
                if negb ok then (Ok CONSTRUCT_INTERNAL, put_back pkt s)
                else match WPACKET_finish pkt with
                     | (Ok _, pkt) => (Ok CONSTRUCTED, put_back pkt s)
                     | (Fail, pkt) => (Ok CONSTRUCT_INTERNAL, put_back pkt s)
                     | (Fault, pkt) => (Fault, put_back pkt s)
                     end
            end
      | (Fail, pkt) => (Ok CONSTRUCT_INTERNAL, put_back pkt s)
      | (Fault, pkt) => (Fault, put_back pkt s)
      end
  end.

Definition write_build (srv : bool) : ST SSL (option SUB_STATE_RETURN) :=
  c <~ st_option (get_construct_message_f srv) ;;
  match c with
  | None => leave SUB_STATE_ERROR
  | Some (confunc, mt) =>
      if mt =? SSL3_MT_DUMMY then set_post_work_state ;;; again
      else r <~ construct_message confunc mt ;;
           match r with
           | CONSTRUCT_INTERNAL => SSLfatal SSL_AD_INTERNAL_ERROR ;;; leave SUB_STATE_ERROR
           | CONSTRUCT_ERROR => check_fatal ;;; leave SUB_STATE_ERROR
           | NOT_SENT => set_post_work_state ;;; again
           | CONSTRUCTED => write_send srv
           end
  end.

Definition write_pre_work (srv : bool) : ST SSL (option SUB_STATE_RETURN) :=
  w <~ pre_work srv ;;
  st_put (upd_st (set_write_state_work w)) ;;;
  match w with
  | WORK_ERROR => check_fatal ;;; leave SUB_STATE_ERROR
  | WORK_MORE_A | WORK_MORE_B | WORK_MORE_C => leave SUB_STATE_ERROR
  | WORK_FINISHED_CONTINUE =>
      st_put (upd_st (set_write_state WRITE_STATE_SEND)) ;;; write_build srv
  | WORK_FINISHED_STOP => leave SUB_STATE_END_HANDSHAKE
  end.

Definition write_tran (srv : bool) : ST SSL (option SUB_STATE_RETURN) :=
  notify_loop ;;;
  t <~ write_transition srv ;;
  match t with
  | WRITE_TRAN_CONTINUE =>
      st_put (upd_st (fun st => set_write_state_work WORK_MORE_A
                                  (set_write_state WRITE_STATE_PRE_WORK st))) ;;; again
  | WRITE_TRAN_FINISHED => leave SUB_STATE_FINISHED
  | WRITE_TRAN_ERROR => check_fatal ;;; leave SUB_STATE_ERROR
  end.

Definition write_step (srv : bool) : ST SSL (option SUB_STATE_RETURN) := fun s =>
  (match write_state (statem s) with
   | WRITE_STATE_TRANSITION => write_tran srv
   | WRITE_STATE_PRE_WORK => write_pre_work srv
   | WRITE_STATE_SEND => write_send srv
   | WRITE_STATE_POST_WORK => write_post_work srv
   end) s.

Definition write_state_machine (fuel : nat) : ST SSL (option SUB_STATE_RETURN) :=
  srv <~ st_get server ;; st_loop fuel (write_step srv).

(** ** Alternating between the two *)

Definition fatal_no_alert : ST SSL unit := SSLfatal SSL_AD_NO_ALERT ;;; st_fail.

Definition version_ok (srv : bool) (s : SSL) : bool :=
  if SSL_IS_DTLS s then
    negb (negb (Z.land (version s) 0xff00 =? Z.land DTLS1_VERSION 0xff00)
          && (srv || negb (Z.land (version s) 0xff00 =? Z.land DTLS1_BAD_VER 0xff00)))
  else Z.shiftr (version s) 8 =? SSL3_VERSION_MAJOR.

Definition ensure_init_buf : ST SSL unit := fun s =>
  match init_buf s with
  | Some _ => (Ok tt, s)
  | None =>
      match BUF_MEM_new with
      | None => fatal_no_alert s
      | Some b =>
          match BUF_MEM_grow SSL3_RT_MAX_PLAIN_LENGTH b with
          | (Ok r, b') => if r =? 0 then fatal_no_alert s else (Ok tt, set_init_buf (Some b') s)
          | (Fail, _) => fatal_no_alert s
          | (Fault, _) => (Fault, s)
          end
      end
  end.

(** The initialisation block; [Fail] is the jump to [end]. *)
Definition init_flow (srv : bool) : ST SSL unit :=
  st_put (fun s => if bool_decide (state (statem s) = MSG_FLOW_UNINITED)
                   then upd_st (fun st => set_request_state TLS_ST_BEFORE
                                            (set_hand_state TLS_ST_BEFORE st)) s
                   else s) ;;;
  st_put (set_server srv) ;;;
  st_put (fun s => if SSL_IS_FIRST_HANDSHAKE s || negb (SSL_IS_TLS13 s)
                   then upd_rest (info_callback SSL_CB_HANDSHAKE_START 1) s else s) ;;;
  st_if (version_ok srv) (st_ret tt) fatal_no_alert ;;;
  st_if ssl_security_version (st_ret tt) fatal_no_alert ;;;
  ensure_init_buf ;;;
  st_put (set_init_num 0) ;;;
  st_put (upd_s3 (set_change_cipher_spec 0)) ;;;
  wbio <~ st_try ssl_init_wbio_buffer ;;
  (if wbio : bool then st_ret tt else fatal_no_alert) ;;;
  st_if (fun s => SSL_in_before s || renegotiate s)
    (tls_setup_handshake ;;;
     st_put (fun s => if SSL_IS_FIRST_HANDSHAKE s
                      then upd_st (set_read_state_first_init true) s else s))
    (st_ret tt) ;;;
  st_put (upd_st (set_state MSG_FLOW_WRITING)) ;;;
  st_put init_write_state_machine.

(** One round of the main loop.  [Some (Some r)] leaves it with result [r],
    [Some None] reports a sub-machine out of fuel. *)
Definition flow_step (fuel : nat) : ST SSL (option (option Z)) := fun s =>
  (match state (statem s) with
   | MSG_FLOW_FINISHED => st_ret (Some (Some 1))
   | MSG_FLOW_READING =>
       r <~ read_state_machine fuel ;;
       match r with
       | None => st_ret (Some None)
       | Some SUB_STATE_FINISHED =>
           st_put (upd_st (set_state MSG_FLOW_WRITING)) ;;;
           st_put init_write_state_machine ;;; st_ret None
       | Some _ => st_ret (Some (Some (-1)))
       end
   | MSG_FLOW_WRITING =>
       r <~ write_state_machine fuel ;;
       match r with
       | None => st_ret (Some None)
       | Some SUB_STATE_FINISHED =>
           st_put (upd_st (set_state MSG_FLOW_READING)) ;;;
           st_put init_read_state_machine ;;; st_ret None
       | Some SUB_STATE_END_HANDSHAKE =>
           st_put (upd_st (set_state MSG_FLOW_FINISHED)) ;;; st_ret None
       | Some SUB_STATE_ERROR => st_ret (Some (Some (-1)))
       end
   | MSG_FLOW_UNINITED | MSG_FLOW_ERROR => check_fatal ;;; st_ret (Some (Some (-1)))
   end) s.

(** The exit at [end]: [ret] is the result, if there was fuel enough. *)
Definition flow_end (srv : bool) (ret : option Z) : ST SSL (option Z) :=
  st_put (ossl_statem_set_in_handshake false) ;;;
  match ret with
  | None => st_ret None
  | Some r =>
      st_put (upd_rest (info_callback (if srv then SSL_CB_ACCEPT_EXIT else SSL_CB_CONNECT_EXIT) r)) ;;;
      st_ret (Some r)
  end.

Definition needs_init (s : SSL) : bool :=
  bool_decide (state (statem s) = MSG_FLOW_UNINITED) || bool_decide (state (statem s) = MSG_FLOW_FINISHED).

Definition state_machine (fuel : nat) (srv : bool) : ST SSL (option Z) := fun s =>
  if is_error s then (Ok (Some (-1)), s)
  else
  (st_put (upd_rest clear_sys_error) ;;;
   st_put (ossl_statem_set_in_handshake true) ;;;
   cleared <~ st_if (fun s => (negb (SSL_in_init s) || SSL_in_before s)
                              && negb (has (s3_flags (s3 s)) TLS1_FLAGS_STATELESS))
                (st_try SSL_clear_not_quic) (st_ret true) ;;
   if negb cleared then st_ret (Some (-1))
   else
     ready <~ st_if needs_init (st_try (init_flow srv)) (st_ret true) ;;
     if negb ready then flow_end srv (Some (-1))
     else r <~ st_loop fuel (flow_step fuel) ;;
          flow_end srv (match r with Some r => r | None => None end)) s.

Definition ossl_statem_connect (fuel : nat) : ST SSL (option Z) := state_machine fuel false.
Definition ossl_statem_accept (fuel : nat) : ST SSL (option Z) := state_machine fuel true.
End Flow.
