(* ===== verification/HandshakeRead.v ===== *)
(** * Which message sequences the state machines accept

    The read transitions seen as automata, and the languages they accept:
    the message orders of RFC 8446 and RFC 5246, from the client's and from the
    server's side. *)

From stdpp Require Import prelude.
From Stdlib Require Import ZArith Lia.
From S2P Require Import Prelude Packet WPacket StatemTypes StatemLib StatemClnt.
From S2P Require Import StatemSrvr.

Local Open Scope Z_scope.
Local Open Scope st_scope.

Section Accepts.
Context {W : Type} `{Callees W}.
Local Abbreviation SSL := (SSL W).

(** Between two messages the handlers run.  They may change the connection in
    any way [quiet] allows. *)
Inductive accepts (read : Z -> ST SSL unit) (quiet : SSL -> SSL -> Prop)
  : SSL -> list Z -> SSL -> Prop :=
| accepts_nil s : accepts read quiet s [] s
| accepts_cons s mt s1 s2 l s' :
    read mt s = (Ok tt, s1) -> quiet s1 s2 -> accepts read quiet s2 l s' ->
    accepts read quiet s (mt :: l) s'.

(** A run of a (partial) transition function on states. *)
Fixpoint path (next : OSSL_HANDSHAKE_STATE -> Z -> option OSSL_HANDSHAKE_STATE)
  (h : OSSL_HANDSHAKE_STATE) (l : list Z) : option OSSL_HANDSHAKE_STATE :=
  match l with
  | [] => Some h
  | mt :: l => match next h mt with Some h' => path next h' l | None => None end
  end.

(** [read] follows the automaton [next] on connections that satisfy [I]. *)
Definition follows (I : SSL -> Prop) (read : Z -> ST SSL unit)
  (next : OSSL_HANDSHAKE_STATE -> Z -> option OSSL_HANDSHAKE_STATE) : Prop :=
  forall s mt, I s ->
  match next (hand s) mt with
  | Some h => exists s1, read mt s = (Ok tt, s1) /\ hand s1 = h /\ I s1
  | None => forall s1, read mt s <> (Ok tt, s1)
  end.

(** Handlers that keep the state and the automaton's parameters. *)
Definition keeps (I : SSL -> Prop) (s s' : SSL) : Prop := hand s' = hand s /\ I s'.

Lemma keeps_refl I s : I s -> keeps I s s.
Proof. done. Qed.

(** Acceptance by the code is acceptance by the automaton. *)
Lemma accepts_path I read next s l h :
  follows I read next -> I s ->
  (exists s', accepts read (keeps I) s l s' /\ hand s' = h) <-> path next (hand s) l = Some h.
Proof.
  intros F. revert s. induction l as [|mt l IH]; intros s Hs; simpl.
  - split.
    + intros (s' & A & <-). by inversion A.
    + intros [= <-]. exists s. split; [constructor|done].
  - pose proof (F s mt Hs) as Fs. split.
    + intros (s' & A & Hh). inversion A as [|? ? s1 s2 ? ? R [Q1 Q2] A']; subst.
      destruct (next (hand s) mt) as [h'|]; [|by destruct (Fs s1)].
      destruct Fs as (s1' & R' & Hh' & _). rewrite R in R'. simplify_eq.
      rewrite <- Q1. apply IH; [done|]. by exists s'.
    + destruct (next (hand s) mt) as [h'|]; [|done].
      destruct Fs as (s1 & R & <- & I1). intros P.
      apply (IH s1 I1) in P as (s' & A & Hh). exists s'. split; [|done].
      by apply (accepts_cons _ _ _ _ s1 s1).
Qed.
End Accepts.

(** ** The client, TLS 1.3 *)

Section Client13.
Context {W : Type} `{Callees W}.
Local Abbreviation SSL := (SSL W).

Definition next_client13 (hit comp : bool) (h : OSSL_HANDSHAKE_STATE) (mt : Z)
  : option OSSL_HANDSHAKE_STATE :=
  match h with
  | TLS_ST_CW_CLNT_HELLO =>
      if mt =? SSL3_MT_SERVER_HELLO then Some TLS_ST_CR_SRVR_HELLO else None
  | TLS_ST_CR_SRVR_HELLO =>
      if mt =? SSL3_MT_ENCRYPTED_EXTENSIONS then Some TLS_ST_CR_ENCRYPTED_EXTENSIONS else None
  | TLS_ST_CR_ENCRYPTED_EXTENSIONS =>
      if hit then if mt =? SSL3_MT_FINISHED then Some TLS_ST_CR_FINISHED else None
      else if mt =? SSL3_MT_CERTIFICATE_REQUEST then Some TLS_ST_CR_CERT_REQ
      else if mt =? SSL3_MT_CERTIFICATE then Some TLS_ST_CR_CERT
      else if (mt =? SSL3_MT_COMPRESSED_CERTIFICATE) && comp then Some TLS_ST_CR_COMP_CERT
      else None
  | TLS_ST_CR_CERT_REQ =>
      if mt =? SSL3_MT_CERTIFICATE then Some TLS_ST_CR_CERT
      else if (mt =? SSL3_MT_COMPRESSED_CERTIFICATE) && comp then Some TLS_ST_CR_COMP_CERT
      else None
  | TLS_ST_CR_CERT | TLS_ST_CR_COMP_CERT =>
      if mt =? SSL3_MT_CERTIFICATE_VERIFY then Some TLS_ST_CR_CERT_VRFY else None
  | TLS_ST_CR_CERT_VRFY =>
      if mt =? SSL3_MT_FINISHED then Some TLS_ST_CR_FINISHED else None
  | _ => None
  end.

(** The handshake proper: TLS 1.3 negotiated and not yet completed. *)
Record client13 (hit_ comp : bool) (s : SSL) : Prop := {
  c13_tls13 : SSL_IS_TLS13 s = true;
  c13_hit : hit s = hit_;
  c13_comp : compress_certificate_sent (ext s) = comp;
  c13_open : hand s <> TLS_ST_OK
}.

Lemma read_ok (b : ST SSL unit) mt s s1 :
  b s = (Ok tt, s1) -> or_no_transition mt b s = (Ok tt, s1).
Proof. intros E. unfold or_no_transition, st_try, st_bind. by rewrite E. Qed.

Lemma no_valid_transition_fails mt (s : SSL) : exists s', no_valid_transition mt s = (Fail, s').
Proof. unfold no_valid_transition. destruct (_ && _); by eexists. Qed.

Lemma read_fail (b : ST SSL unit) mt s s' :
  b s = (Fail, s') -> exists s1, or_no_transition mt b s = (Fail, s1).
Proof.
  intros E. unfold or_no_transition, st_try, st_bind. rewrite E. apply no_valid_transition_fails.
Qed.

Lemma client13_follows hit_ comp :
  follows (client13 hit_ comp) ossl_statem_client_read_transition (next_client13 hit_ comp).
Proof.
  intros s mt [Ht Hh Hc Ho].
  assert (Hok : forall h, h <> TLS_ST_OK -> client13 hit_ comp (upd_st (set_hand_state h) s))
    by by split.
  unfold ossl_statem_client_read_transition.
  assert (E : match next_client13 hit_ comp (hand s) mt with
    | Some h => ossl_statem_client13_read_transition mt s = (Ok tt, upd_st (set_hand_state h) s) /\ h <> TLS_ST_OK
    | None => ossl_statem_client13_read_transition mt s = (Fail, s) end).
  { unfold ossl_statem_client13_read_transition, next_client13, move, st_put.
    rewrite Hh, Hc. destruct (hand s); cases; done. }
  destruct (next_client13 hit_ comp (hand s) mt) as [h|].
  - destruct E as [E Hne]. eexists; split; [|split; [|by apply Hok]]; [|done].
    apply read_ok. unfold st_if. by rewrite Ht.
  - intros s1 R. destruct (read_fail (st_if SSL_IS_TLS13
      (ossl_statem_client13_read_transition mt) (client_read_pre13 mt)) mt s s) as [s' F].
    + unfold st_if. by rewrite Ht.
    + congruence.
Qed.
End Client13.

(** What may follow a ServerHello in TLS 1.3 (RFC 8446, section 2), up to the
    server's Finished. *)
Definition server_flight13 (hit comp : bool) (l : list Z) : Prop :=
  if hit then l = [SSL3_MT_ENCRYPTED_EXTENSIONS; SSL3_MT_FINISHED]
  else exists req cert,
    (req = [] \/ req = [SSL3_MT_CERTIFICATE_REQUEST]) /\
    (cert = SSL3_MT_CERTIFICATE \/ (cert = SSL3_MT_COMPRESSED_CERTIFICATE /\ comp = true)) /\
    l = [SSL3_MT_ENCRYPTED_EXTENSIONS] ++ req
        ++ [cert; SSL3_MT_CERTIFICATE_VERIFY; SSL3_MT_FINISHED].

(** Follow a path by the tests it must pass. *)
Ltac walk :=
  repeat match goal with
  | H : path _ _ ?l = Some _ |- _ => destruct l; simpl in H; simplify_eq
  | H : (if ?b then _ else _) = Some _ |- _ => destruct b eqn:?; simpl in H; simplify_eq
  | H : match (if ?b then _ else _) with Some _ => _ | None => _ end = Some _ |- _ =>
      destruct b eqn:?; simpl in H; simplify_eq
  end; zbool; subst.

Lemma path_client13 hit comp l :
  path (next_client13 hit comp) TLS_ST_CR_SRVR_HELLO l = Some TLS_ST_CR_FINISHED
  <-> server_flight13 hit comp l.
Proof.
  unfold server_flight13. split.
  - intros P. destruct hit.
    + walk; done.
    + walk; first
        [ exists [], SSL3_MT_CERTIFICATE; by auto
        | exists [SSL3_MT_CERTIFICATE_REQUEST], SSL3_MT_CERTIFICATE; by auto
        | exists [], SSL3_MT_COMPRESSED_CERTIFICATE; by auto
        | exists [SSL3_MT_CERTIFICATE_REQUEST], SSL3_MT_COMPRESSED_CERTIFICATE; by auto ].
  - destruct hit; [by intros ->|].
    intros (req & cert & [->| ->] & [->|[-> ->]] & ->); done.
Qed.

(** C3.  What a TLS 1.3 client accepts.  From the ServerHello on, whatever the
    handlers do in between (as long as they keep the handshake state, the
    negotiated version and the outcome of resumption), the client can reach
    "server Finished received" on a sequence of messages exactly when that
    sequence is EncryptedExtensions, Finished for a resumed session, and
    EncryptedExtensions, optionally CertificateRequest, Certificate (or
    CompressedCertificate, if the client offered that), CertificateVerify,
    Finished otherwise.  In particular no message can be left out: without
    resumption the server must send a certificate and prove possession of its
    key. *)
Theorem client13_language {W} `{Callees W} (hit_ comp : bool) (s : SSL W) (l : list Z)
  (Hs : client13 hit_ comp s) (Hh : hand s = TLS_ST_CR_SRVR_HELLO) :
  (exists s', accepts ossl_statem_client_read_transition (keeps (client13 hit_ comp)) s l s'
              /\ hand s' = TLS_ST_CR_FINISHED)
  <-> server_flight13 hit_ comp l.
Proof.
  rewrite (accepts_path (client13 hit_ comp) _ (next_client13 hit_ comp)), Hh;
    [apply path_client13|apply client13_follows|done].
Qed.

Lemma client13_language_witness :
  exists s', accepts ossl_statem_client_read_transition (keeps (client13 false false))
    (sample_ssl TLS_ST_CR_SRVR_HELLO TLS1_3_VERSION ecdhe_rsa)
    [SSL3_MT_ENCRYPTED_EXTENSIONS; SSL3_MT_CERTIFICATE; SSL3_MT_CERTIFICATE_VERIFY; SSL3_MT_FINISHED] s'
    /\ hand s' = TLS_ST_CR_FINISHED.
Proof.
  apply client13_language; [by split|done|].
  exists [], SSL3_MT_CERTIFICATE. by auto.
Defined.

(** ** The client, TLS 1.2 and below *)

Section Client12.
Context {W : Type} `{Callees W}.
Local Abbreviation SSL := (SSL W).

(** What the automaton depends on: resumption, the ticket and status
    extensions, the cipher and the protocol version. *)
Record params12 : Type := {
  p_hit : bool;
  p_ticket : bool;
  p_status : bool;
  p_cipher : SSL_CIPHER;
  p_version : Z
}.

Definition cert_cipher (c : SSL_CIPHER) : bool :=
  negb (has (algorithm_auth c) (Z.lor SSL_aNULL SSL_aPSK)).
Definition psk_cipher (c : SSL_CIPHER) : bool := has (algorithm_mkey c) SSL_PSK.
Definition req_allowed (P : params12) : bool :=
  negb (((SSL3_VERSION <? p_version P) && has (algorithm_auth (p_cipher P)) SSL_aNULL)
        || has (algorithm_auth (p_cipher P)) SSL_aPSK).

Definition n_done (mt : Z) : option OSSL_HANDSHAKE_STATE :=
  if mt =? SSL3_MT_SERVER_DONE then Some TLS_ST_CR_SRVR_DONE else None.
Definition n_req (P : params12) (mt : Z) : option OSSL_HANDSHAKE_STATE :=
  if mt =? SSL3_MT_CERTIFICATE_REQUEST
  then if req_allowed P then Some TLS_ST_CR_CERT_REQ else None else n_done mt.
Definition n_ske (P : params12) (mt : Z) : option OSSL_HANDSHAKE_STATE :=
  if key_exchange_expected (p_cipher P)
     || (psk_cipher (p_cipher P) && (mt =? SSL3_MT_SERVER_KEY_EXCHANGE))
  then if mt =? SSL3_MT_SERVER_KEY_EXCHANGE then Some TLS_ST_CR_KEY_EXCH else None
  else n_req P mt.
Definition n_ticket (P : params12) (mt : Z) : option OSSL_HANDSHAKE_STATE :=
  if p_ticket P
  then if mt =? SSL3_MT_NEWSESSION_TICKET then Some TLS_ST_CR_SESSION_TICKET else None
  else if mt =? SSL3_MT_CHANGE_CIPHER_SPEC then Some TLS_ST_CR_CHANGE else None.

Definition next_client12 (P : params12) (h : OSSL_HANDSHAKE_STATE) (mt : Z)
  : option OSSL_HANDSHAKE_STATE :=
  match h with
  | TLS_ST_CW_CLNT_HELLO | TLS_ST_EARLY_DATA =>
      if mt =? SSL3_MT_SERVER_HELLO then Some TLS_ST_CR_SRVR_HELLO else None
  | TLS_ST_CR_SRVR_HELLO =>
      if p_hit P then n_ticket P mt
      else if cert_cipher (p_cipher P)
      then if mt =? SSL3_MT_CERTIFICATE then Some TLS_ST_CR_CERT else None
      else n_ske P mt
  | TLS_ST_CR_CERT | TLS_ST_CR_COMP_CERT =>
      if p_status P && (mt =? SSL3_MT_CERTIFICATE_STATUS) then Some TLS_ST_CR_CERT_STATUS
      else n_ske P mt
  | TLS_ST_CR_CERT_STATUS => n_ske P mt
  | TLS_ST_CR_KEY_EXCH => n_req P mt
  | TLS_ST_CR_CERT_REQ => n_done mt
  | TLS_ST_CW_FINISHED => n_ticket P mt
  | TLS_ST_CR_SESSION_TICKET =>
      if mt =? SSL3_MT_CHANGE_CIPHER_SPEC then Some TLS_ST_CR_CHANGE else None
  | TLS_ST_CR_CHANGE => if mt =? SSL3_MT_FINISHED then Some TLS_ST_CR_FINISHED else None
  | TLS_ST_OK => if mt =? SSL3_MT_HELLO_REQUEST then Some TLS_ST_CR_HELLO_REQ else None
  | _ => None
  end.

(** TLS 1.2 or below, not DTLS, without an EAP-FAST secret callback. *)
Record client12 (P : params12) (s : SSL) : Prop := {
  c12_tls13 : SSL_IS_TLS13 s = false;
  c12_dtls : SSL_IS_DTLS s = false;
  c12_eap : session_secret_cb (ext s) = false;
  c12_cipher : new_cipher (tmp_of s) = Some (p_cipher P);
  c12_hit : hit s = p_hit P;
  c12_ticket : ticket_expected (ext s) = p_ticket P;
  c12_status : status_expected (ext s) = p_status P;
  c12_version : version s = p_version P
}.

Lemma client12_read P s mt : client12 P s ->
  client_read_pre13 mt s =
  match next_client12 P (hand s) mt with
  | Some h => (Ok tt, upd_st (set_hand_state h) s)
  | None => (Fail, s)
  end.
Proof.
  intros [Ht Hd He Hc Hh Htk Hst Hv].
  unfold client_read_pre13, next_client12, n_ticket, n_ske, n_req, n_done.
  unfold client_read_srvr_hello, client_read_cert, client_read_cert_status, client_read_key_exch,
    client_read_cert_req, with_cipher, cert_cipher, psk_cipher.
  assert (Ha : cert_req_allowed (p_cipher P) s = req_allowed P)
    by (unfold cert_req_allowed, req_allowed; by rewrite Hv).
  unfold st_bind, st_ret, move, st_put, st_fail.
  destruct (hand s); try done;
    repeat (rewrite ?Hd, ?Hc, ?Hh, ?Htk, ?Hst, ?Hv, ?He, ?andb_false_r; simpl);
    cases; zbool; subst; (done || congruence).
Qed.

Lemma client12_follows P :
  follows (client12 P) ossl_statem_client_read_transition (next_client12 P).
Proof.
  intros s mt Hs. pose proof (client12_read P s mt Hs) as E. pose proof Hs as [Ht Hd].
  unfold ossl_statem_client_read_transition.
  set (b := st_if _ _ _).
  assert (Eb : b s = client_read_pre13 mt s) by (unfold b, st_if; by rewrite Ht).
  destruct (next_client12 P (hand s) mt) as [h|]; rewrite E in Eb.
  - eexists; split; [by apply read_ok|]. split; [done|]. by destruct Hs; split.
  - intros s1 R. destruct (read_fail b mt s s Eb) as [s' F]. congruence.
Qed.
End Client12.

(** What may follow a ServerHello of a full handshake (RFC 5246, section 7.3,
    with RFC 4279 for PSK), up to ServerHelloDone. *)
Definition server_flight12 (P : params12) (l : list Z) : Prop :=
  let c := p_cipher P in
  exists status ske req,
    (status = [] \/ (status = [SSL3_MT_CERTIFICATE_STATUS] /\ p_status P = true
                     /\ cert_cipher c = true)) /\
    (if key_exchange_expected c then ske = [SSL3_MT_SERVER_KEY_EXCHANGE]
     else ske = [] \/ (ske = [SSL3_MT_SERVER_KEY_EXCHANGE] /\ psk_cipher c = true)) /\
    (req = [] \/ (req = [SSL3_MT_CERTIFICATE_REQUEST] /\ req_allowed P = true)) /\
    l = (if cert_cipher c then [SSL3_MT_CERTIFICATE] else [])
        ++ status ++ ske ++ req ++ [SSL3_MT_SERVER_DONE].

(** The end of the server's part: ticket, ChangeCipherSpec, Finished. *)
Definition server_finish12 (P : params12) (l : list Z) : Prop :=
  l = (if p_ticket P then [SSL3_MT_NEWSESSION_TICKET] else [])
      ++ [SSL3_MT_CHANGE_CIPHER_SPEC; SSL3_MT_FINISHED].

Lemma path_done P l :
  path (next_client12 P) TLS_ST_CR_CERT_REQ l = Some TLS_ST_CR_SRVR_DONE
  <-> l = [SSL3_MT_SERVER_DONE].
Proof.
  split; [|by intros ->]. intros Pa. destruct l; simpl in Pa; [done|].
  unfold n_done in Pa. walk. done.
Qed.

Lemma path_req P l :
  path (next_client12 P) TLS_ST_CR_KEY_EXCH l = Some TLS_ST_CR_SRVR_DONE
  <-> exists req, (req = [] \/ (req = [SSL3_MT_CERTIFICATE_REQUEST] /\ req_allowed P = true)) /\
        l = req ++ [SSL3_MT_SERVER_DONE].
Proof.
  split.
  - intros Pa. destruct l as [|mt l]; simpl in Pa; [done|]. unfold n_req in Pa.
    destruct (mt =? SSL3_MT_CERTIFICATE_REQUEST) eqn:E; zbool; subst.
    + destruct (req_allowed P); [|done]. apply path_done in Pa as ->.
      exists [SSL3_MT_CERTIFICATE_REQUEST]. auto.
    + exists []. split; [by left|]. unfold n_done in Pa. walk. done.
  - intros (req & [->|[-> R]] & ->); simpl; unfold n_req; simpl; [done|]. by rewrite R.
Qed.

(** From any state in which ServerKeyExchange may come. *)
Lemma path_ske P h l : (forall mt, next_client12 P h mt = n_ske P mt) -> h <> TLS_ST_CR_SRVR_DONE ->
  path (next_client12 P) h l = Some TLS_ST_CR_SRVR_DONE
  <-> exists ske req,
    (if key_exchange_expected (p_cipher P) then ske = [SSL3_MT_SERVER_KEY_EXCHANGE]
     else ske = [] \/ (ske = [SSL3_MT_SERVER_KEY_EXCHANGE] /\ psk_cipher (p_cipher P) = true)) /\
    (req = [] \/ (req = [SSL3_MT_CERTIFICATE_REQUEST] /\ req_allowed P = true)) /\
    l = ske ++ req ++ [SSL3_MT_SERVER_DONE].
Proof.
  intros Hn Hh. split.
  - intros Pa. destruct l as [|mt l]; simpl in Pa; [congruence|]. rewrite Hn in Pa.
    unfold n_ske in Pa. destruct (mt =? SSL3_MT_SERVER_KEY_EXCHANGE) eqn:E; zbool; subst.
    + rewrite andb_true_r in Pa. exists [SSL3_MT_SERVER_KEY_EXCHANGE].
      destruct (key_exchange_expected (p_cipher P)); simpl in Pa.
      * apply path_req in Pa as (req & ? & ->). by exists req.
      * destruct (psk_cipher (p_cipher P)); [|done].
        apply path_req in Pa as (req & ? & ->). exists req. auto.
    + rewrite andb_false_r, orb_false_r in Pa.
      destruct (key_exchange_expected (p_cipher P)); [done|].
      change (path (next_client12 P) TLS_ST_CR_KEY_EXCH (mt :: l) = Some TLS_ST_CR_SRVR_DONE) in Pa.
      apply path_req in Pa as (req & ? & ->). exists [], req. auto.
  - intros (ske & req & Hs & Hr & ->).
    assert (Pq : path (next_client12 P) TLS_ST_CR_KEY_EXCH (req ++ [SSL3_MT_SERVER_DONE])
                 = Some TLS_ST_CR_SRVR_DONE) by (apply path_req; by exists req).
    destruct (key_exchange_expected (p_cipher P)) eqn:Ek.
    + subst ske. simpl. rewrite Hn. unfold n_ske. by rewrite Ek.
    + destruct Hs as [->|[-> Hp]].
      * destruct Hr as [->|[-> Hr]]; simpl in *; rewrite Hn; unfold n_ske;
          rewrite Ek, andb_false_r; simpl; done.
      * simpl. rewrite Hn. unfold n_ske. by rewrite Ek, Hp.
Qed.

Lemma path_client12_full P l : p_hit P = false ->
  path (next_client12 P) TLS_ST_CR_SRVR_HELLO l = Some TLS_ST_CR_SRVR_DONE <-> server_flight12 P l.
Proof.
  intros Hh. unfold server_flight12. destruct (cert_cipher (p_cipher P)) eqn:Ec.
  2: { rewrite (path_ske P TLS_ST_CR_SRVR_HELLO l);
         [|intros; simpl; by rewrite Hh, Ec|done]. split.
       - intros (ske & req & ? & ? & ->). exists [], ske, req. auto.
       - intros (st & ske & req & [->|(_ & _ & ?)] & ? & ? & ->); [|done]. by exists ske, req. }
  pose proof (path_ske P TLS_ST_CR_CERT_STATUS) as Hst.
  split.
  - intros Pa. destruct l as [|mt l]; simpl in Pa; [done|]. rewrite Hh, Ec in Pa.
    destruct (mt =? SSL3_MT_CERTIFICATE) eqn:E; zbool; [subst|done].
    destruct l as [|mt l]; simpl in Pa; [done|].
    destruct (p_status P && (mt =? SSL3_MT_CERTIFICATE_STATUS)) eqn:Es; zbool.
    + subst mt. apply Hst in Pa as (ske & req & ? & ? & ->); [|done..].
      exists [SSL3_MT_CERTIFICATE_STATUS], ske, req. auto 6.
    + change (path (next_client12 P) TLS_ST_CR_CERT_STATUS (mt :: l) = Some TLS_ST_CR_SRVR_DONE) in Pa.
      apply Hst in Pa as (ske & req & ? & ? & ->); [|done..]. exists [], ske, req. auto 6.
  - intros (st & ske & req & Hs & Hk & Hr & ->). simpl. rewrite Hh, Ec. simpl.
    assert (Pq : path (next_client12 P) TLS_ST_CR_CERT_STATUS (ske ++ req ++ [SSL3_MT_SERVER_DONE])
                 = Some TLS_ST_CR_SRVR_DONE) by (apply Hst; [done..|]; by exists ske, req).
    destruct Hs as [->|(-> & Hp & _)]; [|simpl; by rewrite Hp]. simpl.
    destruct (ske ++ req ++ [SSL3_MT_SERVER_DONE]) as [|mt l] eqn:El; [done|]. simpl in Pq |- *.
    replace (p_status P && (mt =? SSL3_MT_CERTIFICATE_STATUS)) with false; [done|].
    destruct (key_exchange_expected (p_cipher P)); [subst ske; simpl in El; simplify_eq; by rewrite andb_false_r|].
    destruct Hk as [->|[-> _]], Hr as [->|[-> _]]; simpl in El; simplify_eq; by rewrite andb_false_r.
Qed.

Lemma path_client12_finish P h l : (forall mt, next_client12 P h mt = n_ticket P mt) ->
  h <> TLS_ST_CR_FINISHED ->
  path (next_client12 P) h l = Some TLS_ST_CR_FINISHED <-> server_finish12 P l.
Proof.
  intros Hn Hh. unfold server_finish12. split.
  - intros Pa. destruct l as [|mt l]; simpl in Pa; [congruence|]. rewrite Hn in Pa.
    unfold n_ticket in Pa. destruct (p_ticket P); walk; done.
  - intros ->. destruct (p_ticket P) eqn:E; simpl; rewrite Hn; unfold n_ticket; by rewrite E.
Qed.

(** C4.  What a client accepts in TLS 1.2 and below.  After the ServerHello of
    a full handshake it gets to ServerHelloDone exactly on: Certificate if the
    cipher has a certificate, then optionally CertificateStatus (if expected),
    ServerKeyExchange (mandatory for ephemeral key exchange, optional for
    other PSK suites, refused otherwise), optionally CertificateRequest (if the
    suite allows client certificates), ServerHelloDone.  After the ServerHello
    of a resumption, and after its own Finished, it gets to the server's
    Finished exactly on: NewSessionTicket if announced, ChangeCipherSpec,
    Finished. *)
Theorem client12_language {W} `{Callees W} (P : params12) (s : SSL W) (l : list Z)
  (Hs : client12 P s) :
  (hand s = TLS_ST_CR_SRVR_HELLO -> p_hit P = false ->
   (exists s', accepts ossl_statem_client_read_transition (keeps (client12 P)) s l s'
               /\ hand s' = TLS_ST_CR_SRVR_DONE) <-> server_flight12 P l) /\
  (hand s = TLS_ST_CW_FINISHED \/ (hand s = TLS_ST_CR_SRVR_HELLO /\ p_hit P = true) ->
   (exists s', accepts ossl_statem_client_read_transition (keeps (client12 P)) s l s'
               /\ hand s' = TLS_ST_CR_FINISHED) <-> server_finish12 P l).
Proof.
  split.
  - intros Hh Hf. rewrite (accepts_path (client12 P) _ (next_client12 P)), Hh;
      [by apply path_client12_full|apply client12_follows|done].
  - intros Hh. rewrite (accepts_path (client12 P) _ (next_client12 P));
      [|apply client12_follows|done].
    destruct Hh as [->|[-> Hf]]; apply path_client12_finish; try done.
    intros mt. simpl. by rewrite Hf.
Qed.

Definition sample_params : params12 :=
  {| p_hit := false; p_ticket := false; p_status := false; p_cipher := ecdhe_rsa;
     p_version := TLS1_2_VERSION |}.

Lemma client12_language_witness :
  exists s', accepts ossl_statem_client_read_transition (keeps (client12 sample_params))
    (sample_ssl TLS_ST_CR_SRVR_HELLO TLS1_2_VERSION ecdhe_rsa)
    [SSL3_MT_CERTIFICATE; SSL3_MT_SERVER_KEY_EXCHANGE; SSL3_MT_SERVER_DONE] s'
    /\ hand s' = TLS_ST_CR_SRVR_DONE.
Proof.
  assert (Hs : client12 sample_params (sample_ssl TLS_ST_CR_SRVR_HELLO TLS1_2_VERSION ecdhe_rsa))
    by by split.
  apply (client12_language sample_params _ _ Hs); [done|done|].
  exists [], [SSL3_MT_SERVER_KEY_EXCHANGE], []. split_and!; (done || by left).
Defined.

(** ** The server *)

Section ServerAutomata.
Context {W : Type} `{Callees W}.
Local Abbreviation SSL := (SSL W).

(** What the server's automata depend on: whether it accepted early data
    outside QUIC, asked for a certificate, offered certificate compression,
    got a certificate out of the client's Certificate message, and was told to
    do without CertificateVerify. *)
Record sparams : Type := {
  sp_early : bool;
  sp_req : bool;
  sp_comp : bool;
  sp_got : bool;
  sp_noverify : bool
}.

Definition n_flight (P : sparams) (mt : Z) : option OSSL_HANDSHAKE_STATE :=
  if sp_req P
  then if mt =? SSL3_MT_CERTIFICATE then Some TLS_ST_SR_CERT
       else if (mt =? SSL3_MT_COMPRESSED_CERTIFICATE) && sp_comp P then Some TLS_ST_SR_COMP_CERT
       else None
  else if mt =? SSL3_MT_FINISHED then Some TLS_ST_SR_FINISHED else None.

Definition next_server13 (P : sparams) (h : OSSL_HANDSHAKE_STATE) (mt : Z)
  : option OSSL_HANDSHAKE_STATE :=
  match h with
  | TLS_ST_EARLY_DATA =>
      if sp_early P
      then if mt =? SSL3_MT_END_OF_EARLY_DATA then Some TLS_ST_SR_END_OF_EARLY_DATA else None
      else n_flight P mt
  | TLS_ST_SR_END_OF_EARLY_DATA | TLS_ST_SW_FINISHED => n_flight P mt
  | TLS_ST_SR_COMP_CERT | TLS_ST_SR_CERT =>
      if sp_got P
      then if mt =? SSL3_MT_CERTIFICATE_VERIFY then Some TLS_ST_SR_CERT_VRFY else None
      else if mt =? SSL3_MT_FINISHED then Some TLS_ST_SR_FINISHED else None
  | TLS_ST_SR_CERT_VRFY => if mt =? SSL3_MT_FINISHED then Some TLS_ST_SR_FINISHED else None
  | _ => None
  end.

Definition next_server12 (P : sparams) (h : OSSL_HANDSHAKE_STATE) (mt : Z)
  : option OSSL_HANDSHAKE_STATE :=
  match h with
  | TLS_ST_BEFORE | TLS_ST_OK | DTLS_ST_SW_HELLO_VERIFY_REQUEST =>
      if mt =? SSL3_MT_CLIENT_HELLO then Some TLS_ST_SR_CLNT_HELLO else None
  | TLS_ST_SW_SRVR_DONE =>
      if sp_req P then if mt =? SSL3_MT_CERTIFICATE then Some TLS_ST_SR_CERT else None
      else if mt =? SSL3_MT_CLIENT_KEY_EXCHANGE then Some TLS_ST_SR_KEY_EXCH else None
  | TLS_ST_SR_CERT =>
      if mt =? SSL3_MT_CLIENT_KEY_EXCHANGE then Some TLS_ST_SR_KEY_EXCH else None
  | TLS_ST_SR_KEY_EXCH =>
      if sp_got P && negb (sp_noverify P)
      then if mt =? SSL3_MT_CERTIFICATE_VERIFY then Some TLS_ST_SR_CERT_VRFY else None
      else if mt =? SSL3_MT_CHANGE_CIPHER_SPEC then Some TLS_ST_SR_CHANGE else None
  | TLS_ST_SR_CERT_VRFY | TLS_ST_SW_FINISHED =>
      if mt =? SSL3_MT_CHANGE_CIPHER_SPEC then Some TLS_ST_SR_CHANGE else None
  | TLS_ST_SR_CHANGE => if mt =? SSL3_MT_FINISHED then Some TLS_ST_SR_FINISHED else None
  | _ => None
  end.

(** The session and what it says about the client's certificate. *)
Definition got_cert (s : SSL) (b : bool) : Prop :=
  exists ss, session s = Some ss /\ peer_rpk ss || peer ss = b.

Record server13 (P : sparams) (s : SSL) : Prop := {
  s13_tls13 : SSL_IS_TLS13 s = true;
  s13_hrr : hello_retry_request s <> SSL_HRR_PENDING;
  s13_early : (early_data (ext s) =? SSL_EARLY_DATA_ACCEPTED) && negb (SSL_IS_QUIC s) = sp_early P;
  s13_req : cert_request (tmp_of s) = sp_req P;
  s13_comp : compress_certificate_sent (ext s) = sp_comp P;
  s13_got : got_cert s (sp_got P);
  s13_open : hand s <> TLS_ST_OK
}.

(** TLS 1.0 to 1.2: SSL 3.0, where a client may leave its certificate out, is
    excluded. *)
Record server12 (P : sparams) (s : SSL) : Prop := {
  s12_tls13 : SSL_IS_TLS13 s = false;
  s12_version : version s <> SSL3_VERSION;
  s12_req : cert_request (tmp_of s) = sp_req P;
  s12_got : got_cert s (sp_got P);
  s12_noverify : no_cert_verify (statem s) = sp_noverify P
}.

Lemma received_client_cert_got s b : got_cert s b -> received_client_cert s = Ok b.
Proof.
  intros (ss & E & <-). unfold received_client_cert, on_session. by rewrite E.
Qed.

Lemma server13_read P s mt : server13 P s ->
  match next_server13 P (hand s) mt with
  | Some h => ossl_statem_server13_read_transition mt s = (Ok tt, upd_st (set_hand_state h) s)
              /\ h <> TLS_ST_OK
  | None => ossl_statem_server13_read_transition mt s = (Fail, s)
  end.
Proof.
  intros [Ht Hr He Hq Hc Hg Ho].
  unfold ossl_statem_server13_read_transition, next_server13, n_flight, server13_read_flight, st_bind, st_lift.
  unfold move, st_put, st_fail.
  destruct (hand s); try done;
    rewrite ?(received_client_cert_got _ _ Hg), ?(bool_decide_eq_false_2 _ Hr), ?He, ?Hq, ?Hc;
    destruct (sp_got P); simpl; cases; (done || congruence).
Qed.

Lemma server13_follows P :
  follows (server13 P) ossl_statem_server_read_transition (next_server13 P).
Proof.
  intros s mt Hs. pose proof (server13_read P s mt Hs) as E. pose proof (s13_tls13 _ _ Hs) as Ht.
  unfold ossl_statem_server_read_transition. rewrite Ht.
  destruct (next_server13 P (hand s) mt) as [h|].
  - destruct E as [E Hne]. eexists; split; [by apply read_ok|]. split; [done|].
    by destruct Hs; split.
  - intros s1 R. destruct (read_fail _ mt _ _ E) as [s' F]. congruence.
Qed.

Lemma server12_read P s mt : server12 P s -> hand s <> TLS_ST_SW_SRVR_DONE ->
  server_read_pre13 mt s =
  match next_server12 P (hand s) mt with
  | Some h => (Ok tt, upd_st (set_hand_state h) s)
  | None => (Fail, s)
  end.
Proof.
  intros [Ht Hv Hq Hg Hn] Hne. unfold server_read_pre13, next_server12, st_bind, st_lift.
  unfold move, st_put, st_fail.
  destruct (hand s); try done; rewrite ?(received_client_cert_got _ _ Hg), ?Hn;
    destruct (sp_got P), (sp_noverify P); simpl; cases; done.
Qed.

Lemma server12_done P s mt : server12 P s -> hand s = TLS_ST_SW_SRVR_DONE ->
  match next_server12 P (hand s) mt with
  | Some h => ossl_statem_server_read_transition mt s = (Ok tt, upd_st (set_hand_state h) s)
  | None => exists s', ossl_statem_server_read_transition mt s = (Fail, s')
  end.
Proof.
  intros [Ht Hv Hq Hg Hn] Hh. unfold ossl_statem_server_read_transition.
  rewrite Ht, Hh. unfold next_server12, server_read_srvr_done, st_bind.
  rewrite Hq, (proj2 (Z.eqb_neq _ _) Hv).
  unfold move, st_put, st_ret.
  destruct (sp_req P), (mt =? SSL3_MT_CLIENT_KEY_EXCHANGE) eqn:E1; zbool; subst; simpl;
    try done; try apply no_valid_transition_fails.
  destruct (mt =? SSL3_MT_CERTIFICATE); [done|apply no_valid_transition_fails].
Qed.

Lemma server12_follows P :
  follows (server12 P) ossl_statem_server_read_transition (next_server12 P).
Proof.
  intros s mt Hs. pose proof (s12_tls13 _ _ Hs) as Ht.
  assert (Hk : forall h, server12 P (upd_st (set_hand_state h) s)) by (by destruct Hs; split).
  destruct (decide (hand s = TLS_ST_SW_SRVR_DONE)) as [Hd|Hd].
  - pose proof (server12_done P s mt Hs Hd) as E.
    destruct (next_server12 P (hand s) mt); [by eexists|]. destruct E as [s' E]. congruence.
  - pose proof (server12_read P s mt Hs Hd) as E.
    assert (R : ossl_statem_server_read_transition mt s
                = or_no_transition mt (server_read_pre13 mt) s).
    { unfold ossl_statem_server_read_transition. rewrite Ht. by destruct (hand s). }
    rewrite R. destruct (next_server12 P (hand s) mt).
    + eexists; split; [by apply read_ok|]. done.
    + intros s1 R'. destruct (read_fail _ mt _ _ E) as [s' F]. congruence.
Qed.
End ServerAutomata.

(** The client's part of a handshake as the server reads it: RFC 8446 after the
    server's Finished, RFC 5246 after ServerHelloDone. *)
Definition client_flight13 (P : sparams) (l : list Z) : Prop :=
  exists cert,
    (cert = SSL3_MT_CERTIFICATE \/ (cert = SSL3_MT_COMPRESSED_CERTIFICATE /\ sp_comp P = true)) /\
    l = (if sp_early P then [SSL3_MT_END_OF_EARLY_DATA] else [])
        ++ (if sp_req P
            then cert :: (if sp_got P then [SSL3_MT_CERTIFICATE_VERIFY] else []) else [])
        ++ [SSL3_MT_FINISHED].

Definition client_flight12 (P : sparams) : list Z :=
  (if sp_req P then [SSL3_MT_CERTIFICATE] else [])
  ++ [SSL3_MT_CLIENT_KEY_EXCHANGE]
  ++ (if sp_got P && negb (sp_noverify P) then [SSL3_MT_CERTIFICATE_VERIFY] else [])
  ++ [SSL3_MT_CHANGE_CIPHER_SPEC; SSL3_MT_FINISHED].

Lemma path_server13 P l :
  path (next_server13 P) TLS_ST_EARLY_DATA l = Some TLS_ST_SR_FINISHED <-> client_flight13 P l.
Proof.
  unfold client_flight13. destruct P as [early req comp got nov]; simpl. split.
  - intros Pa. destruct early, req, got; walk; unfold n_flight in *; walk; simpl in *; walk;
      first [exists SSL3_MT_CERTIFICATE; by auto
            |exists SSL3_MT_COMPRESSED_CERTIFICATE; by auto].
  - intros (cert & [->|[-> ->]] & ->); destruct early, req, got; done.
Qed.

Lemma path_server12 P l :
  path (next_server12 P) TLS_ST_SW_SRVR_DONE l = Some TLS_ST_SR_FINISHED <-> l = client_flight12 P.
Proof.
  unfold client_flight12. destruct P as [early req comp got nov]; simpl. split.
  - intros Pa. destruct req, got, nov; walk; done.
  - intros ->. destruct req, got, nov; done.
Qed.


Definition sample_sparams : sparams :=
  {| sp_early := false; sp_req := false; sp_comp := false; sp_got := false; sp_noverify := false |}.

