(* ===== verification/HandshakeInterop.v ===== *)
(** * Client and server fit together

    The flights the write transitions produce, and the theorems that each side
    accepts what the other sends. *)

From stdpp Require Import prelude.
From Stdlib Require Import ZArith Lia.
From S2P Require Import Prelude Packet WPacket StatemTypes StatemLib StatemClnt.
From S2P Require Import StatemSrvr HandshakeRead.

Local Open Scope Z_scope.
Local Open Scope st_scope.

(** ** Flights *)

(** States that send nothing have the dummy message type. *)
Definition cons_mt (mt : Z) (l : list Z) : list Z := if mt =? SSL3_MT_DUMMY then l else mt :: l.

Section Flights.
Context {W : Type} `{Callees W}.
Local Abbreviation SSL := (SSL W).

(** The messages sent until the writer turns to reading or the handshake is
    over; [quiet] is what may happen around sending a message. *)
Inductive flight (write : ST SSL WRITE_TRAN) (construct : ST SSL (option confunc_f * Z))
  (quiet : SSL -> SSL -> Prop) : SSL -> list Z -> Prop :=
| flight_read s s' :
    write s = (Ok WRITE_TRAN_FINISHED, s') -> flight write construct quiet s []
| flight_over s s' :
    write s = (Ok WRITE_TRAN_CONTINUE, s') -> hand s' = TLS_ST_OK ->
    flight write construct quiet s []
| flight_msg s s1 f mt s1' s2 l :
    write s = (Ok WRITE_TRAN_CONTINUE, s1) -> hand s1 <> TLS_ST_OK ->
    construct s1 = (Ok (f, mt), s1') -> quiet s1' s2 ->
    flight write construct quiet s2 l ->
    flight write construct quiet s (cons_mt mt l).

(** The same for an automaton, a relation between a state and the next one;
    [None] is turning to reading. *)
Inductive wrun (R : OSSL_HANDSHAKE_STATE -> option OSSL_HANDSHAKE_STATE -> Prop)
  (mt : OSSL_HANDSHAKE_STATE -> Z) : OSSL_HANDSHAKE_STATE -> list Z -> Prop :=
| wrun_read h : R h None -> wrun R mt h []
| wrun_over h : R h (Some TLS_ST_OK) -> wrun R mt h []
| wrun_msg h h' l : R h (Some h') -> h' <> TLS_ST_OK -> wrun R mt h' l ->
    wrun R mt h (cons_mt (mt h') l).

(** [write] and [construct] follow an automaton on connections in [I]. *)
Definition wfollows (I : SSL -> Prop) (write : ST SSL WRITE_TRAN)
  (construct : ST SSL (option confunc_f * Z))
  (R : OSSL_HANDSHAKE_STATE -> option OSSL_HANDSHAKE_STATE -> Prop)
  (mt : OSSL_HANDSHAKE_STATE -> Z) : Prop :=
  forall s, I s -> exists o, R (hand s) o /\
  match o with
  | None => exists s', write s = (Ok WRITE_TRAN_FINISHED, s')
  | Some h => exists s1, write s = (Ok WRITE_TRAN_CONTINUE, s1) /\ hand s1 = h /\
      (h <> TLS_ST_OK -> I s1 /\ exists f, construct s1 = (Ok (f, mt h), s1))
  end.

Lemma flight_wrun I write construct R mt s l :
  wfollows I write construct R mt -> I s ->
  flight write construct (keeps I) s l -> wrun R mt (hand s) l.
Proof.
  intros F Hs Fl. induction Fl as [s s' E|s s' E Eh|s s1 f m s1' s2 l E Eh C [Q1 Q2] _ IH];
    destruct (F s Hs) as (o & Hr & Fs); destruct o as [h|].
  - destruct Fs as (? & ? & _). congruence.
  - by constructor.
  - destruct Fs as (s1 & E1 & <- & _). apply wrun_over. congruence.
  - destruct Fs as (? & ?). congruence.
  - destruct Fs as (s1'' & E1 & Hh & K). assert (s1'' = s1) as -> by congruence.
    destruct K as [I1 [f' C']]; [congruence|]. rewrite C in C'. simplify_eq.
    eapply wrun_msg; [done|done|]. rewrite <- Q1. by apply IH.
  - destruct Fs as (? & ?). congruence.
Qed.

(** Flights end: every step of the automaton goes down in [rank]. *)
Lemma flight_exists (rank : OSSL_HANDSHAKE_STATE -> nat) I write construct R mt s :
  wfollows I write construct R mt -> I s ->
  (forall h h', R h (Some h') -> h' <> TLS_ST_OK -> (rank h' < rank h)%nat) ->
  exists l, flight write construct (keeps I) s l.
Proof.
  intros F Hs Hd. remember (rank (hand s)) as n eqn:En. revert s Hs En.
  induction n as [n IH] using lt_wf_ind. intros s Hs ->.
  destruct (F s Hs) as ([h|] & Hr & Fs).
  2: { destruct Fs as (s' & E). exists []. by eapply flight_read. }
  destruct Fs as (s1 & E & Hh & K). destruct (decide (h = TLS_ST_OK)) as [->|Hne].
  { exists []. by eapply flight_over. }
  destruct (K Hne) as [I1 [f C]].
  destruct (IH (rank (hand s1))) with (s := s1) as [l Fl]; try done.
  { rewrite Hh. by apply Hd. }
  eexists. eapply flight_msg; [done|congruence|done| |done]. by apply keeps_refl.
Qed.
End Flights.

(** A deterministic automaton. *)
Definition det (next : OSSL_HANDSHAKE_STATE -> option OSSL_HANDSHAKE_STATE)
  (h : OSSL_HANDSHAKE_STATE) (o : option OSSL_HANDSHAKE_STATE) : Prop := next h = o.

(** Take the steps of a run of a concrete automaton. *)
Ltac wsteps :=
  repeat match goal with
  | R : wrun _ _ _ _ |- _ => inversion R; clear R; subst; unfold det in *; simpl in *; simplify_eq
  end.

(** ** The server's flight, TLS 1.2 and below *)

Section Server12.
Context {W : Type} `{Callees W}.
Local Abbreviation SSL := (SSL W).

Definition ske_sent (c : SSL_CIPHER) (hint : bool) : bool :=
  has (algorithm_mkey c) (Z.lor SSL_kDHE SSL_kECDHE)
  || (has (algorithm_mkey c) (Z.lor SSL_kPSK SSL_kRSAPSK) && hint)
  || has (algorithm_mkey c) (Z.land SSL_PSK (Z.lor SSL_kDHEPSK SSL_kECDHEPSK)).

(** [req]: whether the server asks for a certificate; [hint]: whether it has a
    PSK identity hint. *)
Definition w_key_exch (req : bool) : OSSL_HANDSHAKE_STATE :=
  if req then TLS_ST_SW_CERT_REQ else TLS_ST_SW_SRVR_DONE.
Definition w_cert_status (P : params12) (req hint : bool) : OSSL_HANDSHAKE_STATE :=
  if ske_sent (p_cipher P) hint then TLS_ST_SW_KEY_EXCH else w_key_exch req.

Definition wnext_server12 (P : params12) (req hint : bool) (h : OSSL_HANDSHAKE_STATE)
  : option OSSL_HANDSHAKE_STATE :=
  match h with
  | TLS_ST_SW_SRVR_HELLO =>
      Some (if p_hit P then if p_ticket P then TLS_ST_SW_SESSION_TICKET else TLS_ST_SW_CHANGE
            else if cert_cipher (p_cipher P) then TLS_ST_SW_CERT else w_cert_status P req hint)
  | TLS_ST_SW_CERT =>
      Some (if p_status P then TLS_ST_SW_CERT_STATUS else w_cert_status P req hint)
  | TLS_ST_SW_CERT_STATUS => Some (w_cert_status P req hint)
  | TLS_ST_SW_KEY_EXCH => Some (w_key_exch req)
  | TLS_ST_SW_CERT_REQ => Some TLS_ST_SW_SRVR_DONE
  | TLS_ST_SW_SRVR_DONE => None
  | TLS_ST_SR_FINISHED =>
      Some (if p_hit P then TLS_ST_OK
            else if p_ticket P then TLS_ST_SW_SESSION_TICKET else TLS_ST_SW_CHANGE)
  | TLS_ST_SW_SESSION_TICKET => Some TLS_ST_SW_CHANGE
  | TLS_ST_SW_CHANGE => Some TLS_ST_SW_FINISHED
  | TLS_ST_SW_FINISHED => if p_hit P then None else Some TLS_ST_OK
  | _ => Some TLS_ST_OK
  end.

(** The order of the states in a flight. *)
Definition server12_rank (h : OSSL_HANDSHAKE_STATE) : nat :=
  match h with
  | TLS_ST_SW_SRVR_HELLO => 9 | TLS_ST_SW_CERT => 8 | TLS_ST_SW_CERT_STATUS => 7
  | TLS_ST_SW_KEY_EXCH => 6 | TLS_ST_SW_CERT_REQ => 5 | TLS_ST_SR_FINISHED => 5
  | TLS_ST_SW_SRVR_DONE => 4 | TLS_ST_SW_SESSION_TICKET => 4 | TLS_ST_SW_CHANGE => 3
  | TLS_ST_SW_FINISHED => 2 | _ => 1
  end.

Lemma server12_rank_down P req hint h h' :
  det (wnext_server12 P req hint) h (Some h') -> h' <> TLS_ST_OK ->
  (server12_rank h' < server12_rank h)%nat.
Proof.
  unfold det, wnext_server12, w_cert_status, w_key_exch. intros E Hne.
  destruct h; simplify_eq; cases; simpl; lia.
Qed.

Definition server_mt (h : OSSL_HANDSHAKE_STATE) : Z :=
  match h with
  | TLS_ST_SW_SRVR_HELLO => SSL3_MT_SERVER_HELLO
  | TLS_ST_SW_CERT => SSL3_MT_CERTIFICATE
  | TLS_ST_SW_COMP_CERT => SSL3_MT_COMPRESSED_CERTIFICATE
  | TLS_ST_SW_CERT_STATUS => SSL3_MT_CERTIFICATE_STATUS
  | TLS_ST_SW_KEY_EXCH => SSL3_MT_SERVER_KEY_EXCHANGE
  | TLS_ST_SW_CERT_REQ => SSL3_MT_CERTIFICATE_REQUEST
  | TLS_ST_SW_SRVR_DONE => SSL3_MT_SERVER_DONE
  | TLS_ST_SW_SESSION_TICKET => SSL3_MT_NEWSESSION_TICKET
  | TLS_ST_SW_CHANGE => SSL3_MT_CHANGE_CIPHER_SPEC
  | TLS_ST_SW_FINISHED => SSL3_MT_FINISHED
  | TLS_ST_SW_ENCRYPTED_EXTENSIONS => SSL3_MT_ENCRYPTED_EXTENSIONS
  | TLS_ST_SW_CERT_VRFY => SSL3_MT_CERTIFICATE_VERIFY
  | _ => SSL3_MT_DUMMY
  end.

(** States of the server's flights. *)
Definition in_server12_flight (h : OSSL_HANDSHAKE_STATE) : bool :=
  match h with
  | TLS_ST_SW_SRVR_HELLO | TLS_ST_SW_CERT | TLS_ST_SW_CERT_STATUS | TLS_ST_SW_KEY_EXCH
  | TLS_ST_SW_CERT_REQ | TLS_ST_SW_SRVR_DONE | TLS_ST_SR_FINISHED | TLS_ST_SW_SESSION_TICKET
  | TLS_ST_SW_CHANGE | TLS_ST_SW_FINISHED => true
  | _ => false
  end.

(** The decision to request a certificate is taken before CertificateRequest is
    sent (sending it counts against SSL_VERIFY_CLIENT_ONCE). *)
Definition req_open (h : OSSL_HANDSHAKE_STATE) : bool :=
  match h with
  | TLS_ST_SW_SRVR_HELLO | TLS_ST_SW_CERT | TLS_ST_SW_CERT_STATUS | TLS_ST_SW_KEY_EXCH => true
  | _ => false
  end.

Record wserver12 (P : params12) (req hint : bool) (s : SSL) : Prop := {
  w12_tls13 : SSL_IS_TLS13 s = false;
  w12_cipher : new_cipher (tmp_of s) = Some (p_cipher P);
  w12_hit : hit s = p_hit P;
  w12_ticket : ticket_expected (ext s) = p_ticket P;
  w12_status : status_expected (ext s) = p_status P;
  w12_hint : psk_identity_hint s = hint;
  w12_req : req_open (hand s) = true -> send_certificate_request s = Ok req;
  w12_in : in_server12_flight (hand s) = true
}.

Lemma wserver12_move P req hint s h : wserver12 P req hint s ->
  in_server12_flight h = true -> (req_open h = true -> req_open (hand s) = true) ->
  wserver12 P req hint (upd_st (set_hand_state h) s).
Proof.
  intros [? ? ? ? ? ? Hr ?] Hin Ho. split; try done. intros Hq. exact (Hr (Ho Hq)).
Qed.

Lemma continue_in_eq (h : OSSL_HANDSHAKE_STATE) (s : SSL) :
  continue_in h s = (Ok WRITE_TRAN_CONTINUE, upd_st (set_hand_state h) s).
Proof. done. Qed.

Lemma stamp_read_eq (s : SSL) : exists t w, stamp_read s = (Ok tt, set_ts_msg_read t (set_rest w s)).
Proof. unfold stamp_read. destruct (ossl_time_now (rest s)) as [t w]. by exists t, w. Qed.

Lemma stamp_write_eq (s : SSL) : exists t w, stamp_write s = (Ok tt, set_ts_msg_write t (set_rest w s)).
Proof. unfold stamp_write. destruct (ossl_time_now (rest s)) as [t w]. by exists t, w. Qed.

Lemma wserver12_after_cert_status P req hint s : wserver12 P req hint s -> req_open (hand s) = true ->
  server_after_cert_status s
  = (Ok WRITE_TRAN_CONTINUE, upd_st (set_hand_state (w_cert_status P req hint)) s).
Proof.
  intros [? Hc ? ? ? Hh Hr ?] Ho. unfold server_after_cert_status, server_after_key_exch, st_lift, st_bind.
  unfold send_server_key_exchange, on_cipher, w_cert_status, w_key_exch, ske_sent.
  rewrite Hc, Hh. destruct (_ || _); [done|]. rewrite (Hr Ho). by destruct req.
Qed.

Lemma wserver12_write P req hint s : wserver12 P req hint s ->
  match wnext_server12 P req hint (hand s) with
  | None => exists s', server_write_pre13 s = (Ok WRITE_TRAN_FINISHED, s')
  | Some h => exists s0, server_write_pre13 s = (Ok WRITE_TRAN_CONTINUE, upd_st (set_hand_state h) s0)
                /\ wserver12 P req hint s0 /\ hand s0 = hand s
  end.
Proof.
  intros Hs. pose proof Hs as [Ht Hc Hh Htk Hst Hp Hr Hin].
  pose proof (wserver12_after_cert_status P req hint s Hs) as Hacs.
  unfold server_write_pre13, wnext_server12, st_bind, with_cipher. unfold cert_cipher.
  destruct (stamp_read_eq s) as (t & w & Er). destruct (stamp_write_eq s) as (t' & w' & Ew).
  assert (Hs' : wserver12 P req hint (set_ts_msg_read t (set_rest w s))) by by split.
  destruct (hand s) eqn:E; try done; simpl in *; rewrite ?Hh, ?Htk, ?Hst, ?Hc, ?Er, ?Ew.
  all: try (rewrite Hacs by done).
  all: try (by eexists). 
  all: rewrite ?continue_in_eq.
  all: try (destruct (p_hit P); [by eexists|]).
  all: try (by eexists).
  - rewrite Hc. destruct (negb _); [by eexists|]. rewrite Hacs by done. by eexists.
  - destruct (p_status P); [by eexists|]. rewrite Hacs by done. by eexists.
  - unfold server_after_key_exch, st_lift, st_bind. rewrite (Hr eq_refl).
    rewrite continue_in_eq. by destruct req; eexists.
Qed.

Lemma server_construct (h : OSSL_HANDSHAKE_STATE) (s : SSL) :
  hand s = h -> server_mt h <> SSL3_MT_DUMMY \/ h = TLS_ST_EARLY_DATA ->
  exists f, ossl_statem_server_construct_message s = (Ok (f, server_mt h), s).
Proof.
  intros Hh Hm. unfold ossl_statem_server_construct_message. rewrite Hh.
  destruct h; simpl in Hm; try (by destruct Hm); by eexists.
Qed.

Lemma wserver12_follows P req hint :
  wfollows (wserver12 P req hint) ossl_statem_server_write_transition
    ossl_statem_server_construct_message (det (wnext_server12 P req hint)) server_mt.
Proof.
  intros s Hs. pose proof (wserver12_write P req hint s Hs) as E.
  assert (R : ossl_statem_server_write_transition s = server_write_pre13 s).
  { unfold ossl_statem_server_write_transition, st_if. by rewrite (w12_tls13 _ _ _ _ Hs). }
  rewrite R. pose proof (w12_in _ _ _ _ Hs) as Hin. eexists; split; [reflexivity|].
  destruct (wnext_server12 P req hint (hand s)) as [h|] eqn:En; [|done].
  destruct E as (s0 & E & Hs0 & Hh0). eexists; split; [done|]. split; [done|]. intros Hne.
  assert (Hin' : in_server12_flight h = true /\ (req_open h = true -> req_open (hand s) = true)
                 /\ server_mt h <> SSL3_MT_DUMMY).
  { revert En. unfold wnext_server12, w_cert_status, w_key_exch.
    destruct (hand s); try done; intros; simplify_eq; cases; done. }
  destruct Hin' as (Hi & Hq & Hm). split.
  - apply wserver12_move; [done|done|]. by rewrite Hh0.
  - apply server_construct; [done|by left].
Qed.

(** What the server sends and what the client expects agree on
    ServerKeyExchange. *)
Lemma ske_agree c hint :
  if key_exchange_expected c then ske_sent c hint = true
  else ske_sent c hint = true -> psk_cipher c = true.
Proof.
  unfold key_exchange_expected, ske_sent, psk_cipher.
  change (Z.land _ (Z.lor SSL_kDHEPSK SSL_kECDHEPSK)) with (Z.lor SSL_kDHEPSK SSL_kECDHEPSK).
  rewrite !has_lor. destruct (has _ SSL_kDHE), (has _ SSL_kECDHE), (has _ SSL_kDHEPSK),
    (has _ SSL_kECDHEPSK), (has _ SSL_kPSK), (has _ SSL_kRSAPSK), hint; done.
Qed.

Lemma wrun_server12_full P req hint l : p_hit P = false -> (req = true -> req_allowed P = true) ->
  wrun (det (wnext_server12 P req hint)) server_mt TLS_ST_SW_SRVR_HELLO l -> server_flight12 P l.
Proof.
  intros Hh Hq R. pose proof (ske_agree (p_cipher P) hint) as Ha.
  assert (K : forall l, wrun (det (wnext_server12 P req hint)) server_mt TLS_ST_SW_CERT_STATUS l ->
    exists ske req,
    (if key_exchange_expected (p_cipher P) then ske = [SSL3_MT_SERVER_KEY_EXCHANGE]
     else ske = [] \/ (ske = [SSL3_MT_SERVER_KEY_EXCHANGE] /\ psk_cipher (p_cipher P) = true)) /\
    (req = [] \/ (req = [SSL3_MT_CERTIFICATE_REQUEST] /\ req_allowed P = true)) /\
    l = ske ++ req ++ [SSL3_MT_SERVER_DONE]).
  { clear R l. intros l R.
    exists (if ske_sent (p_cipher P) hint then [SSL3_MT_SERVER_KEY_EXCHANGE] else []),
      (if req then [SSL3_MT_CERTIFICATE_REQUEST] else []). split_and!.
    - destruct (key_exchange_expected (p_cipher P)); [by rewrite Ha|].
      destruct (ske_sent _ _); [right|left]; auto.
    - destruct req; auto.
    - unfold wnext_server12, w_cert_status, w_key_exch in R.
      destruct (ske_sent (p_cipher P) hint), req; wsteps; done. }
  unfold server_flight12. inversion R as [h E|h E|h h' l' E Hne R']; subst; unfold det in E; simpl in E; rewrite Hh in E.
  - done.
  - unfold w_cert_status, w_key_exch in E. cases.
  - destruct (cert_cipher (p_cipher P)) eqn:Ec; simplify_eq.
    + simpl. inversion R' as [h E|h E|h h' l E Hne2 R'']; subst; unfold det in E; simpl in E; [done| |].
      { unfold w_cert_status, w_key_exch in E. cases. }
      destruct (p_status P) eqn:Es; simplify_eq.
      * destruct (K _ R'') as (ske & rq & ? & ? & ->).
        exists [SSL3_MT_CERTIFICATE_STATUS], ske, rq. auto 6.
      * assert (R3 : wrun (det (wnext_server12 P req hint)) server_mt TLS_ST_SW_CERT_STATUS
                       (cons_mt (server_mt (w_cert_status P req hint)) l)) by by apply wrun_msg.
        destruct (K _ R3) as (ske & rq & ? & ? & E3). rewrite E3. exists [], ske, rq. auto 6.
    + assert (R3 : wrun (det (wnext_server12 P req hint)) server_mt TLS_ST_SW_CERT_STATUS
                     (cons_mt (server_mt (w_cert_status P req hint)) l')) by by apply wrun_msg.
      destruct (K _ R3) as (ske & rq & ? & ? & E3). rewrite E3. exists [], ske, rq. auto 6.
Qed.

Lemma wrun_server12_finish P req hint h l :
  (h = TLS_ST_SW_SRVR_HELLO /\ p_hit P = true) \/ (h = TLS_ST_SR_FINISHED /\ p_hit P = false) ->
  wrun (det (wnext_server12 P req hint)) server_mt h l -> server_finish12 P l.
Proof.
  intros Hh R. unfold server_finish12, wnext_server12 in *.
  destruct Hh as [[-> Hp]|[-> Hp]]; rewrite Hp in R; destruct (p_ticket P); wsteps; done.
Qed.
End Server12.

(** ** The client's flight, TLS 1.2 and below *)

Section Client12.
Context {W : Type} `{Callees W}.
Local Abbreviation SSL := (SSL W).

(** [creq]: 0 no certificate wanted, 1 certificate, 2 empty certificate;
    [skip]: no CertificateVerify in spite of a certificate. *)
Definition wnext_client12 (hit : bool) (creq : Z) (skip : bool) (h : OSSL_HANDSHAKE_STATE)
  : option OSSL_HANDSHAKE_STATE :=
  match h with
  | TLS_ST_CR_SRVR_DONE => Some (if creq =? 0 then TLS_ST_CW_KEY_EXCH else TLS_ST_CW_CERT)
  | TLS_ST_CW_CERT => Some TLS_ST_CW_KEY_EXCH
  | TLS_ST_CW_KEY_EXCH =>
      Some (if skip then TLS_ST_CW_CHANGE
            else if creq =? 1 then TLS_ST_CW_CERT_VRFY else TLS_ST_CW_CHANGE)
  | TLS_ST_CW_CERT_VRFY => Some TLS_ST_CW_CHANGE
  | TLS_ST_CW_CHANGE => Some TLS_ST_CW_FINISHED
  | TLS_ST_CW_FINISHED => if hit then Some TLS_ST_OK else None
  | TLS_ST_CR_FINISHED => Some (if hit then TLS_ST_CW_CHANGE else TLS_ST_OK)
  | _ => Some TLS_ST_OK
  end.

Definition client12_rank (h : OSSL_HANDSHAKE_STATE) : nat :=
  match h with
  | TLS_ST_CR_SRVR_DONE => 6 | TLS_ST_CR_FINISHED => 6 | TLS_ST_CW_CERT => 5
  | TLS_ST_CW_KEY_EXCH => 4 | TLS_ST_CW_CERT_VRFY => 3 | TLS_ST_CW_CHANGE => 2 | _ => 1
  end.

Lemma client12_rank_down hit_ creq skip h h' :
  det (wnext_client12 hit_ creq skip) h (Some h') -> h' <> TLS_ST_OK ->
  (client12_rank h' < client12_rank h)%nat.
Proof.
  unfold det, wnext_client12. intros E Hne. destruct h; simplify_eq; cases; simpl; lia.
Qed.

Definition client_mt (quic : bool) (h : OSSL_HANDSHAKE_STATE) : Z :=
  match h with
  | TLS_ST_CW_CLNT_HELLO => SSL3_MT_CLIENT_HELLO
  | TLS_ST_CW_END_OF_EARLY_DATA => if quic then SSL3_MT_DUMMY else SSL3_MT_END_OF_EARLY_DATA
  | TLS_ST_CW_CERT => SSL3_MT_CERTIFICATE
  | TLS_ST_CW_COMP_CERT => SSL3_MT_COMPRESSED_CERTIFICATE
  | TLS_ST_CW_KEY_EXCH => SSL3_MT_CLIENT_KEY_EXCHANGE
  | TLS_ST_CW_CERT_VRFY => SSL3_MT_CERTIFICATE_VERIFY
  | TLS_ST_CW_CHANGE => SSL3_MT_CHANGE_CIPHER_SPEC
  | TLS_ST_CW_FINISHED => SSL3_MT_FINISHED
  | _ => SSL3_MT_DUMMY
  end.

Definition in_client12_flight (h : OSSL_HANDSHAKE_STATE) : bool :=
  match h with
  | TLS_ST_CR_SRVR_DONE | TLS_ST_CW_CERT | TLS_ST_CW_KEY_EXCH | TLS_ST_CW_CERT_VRFY
  | TLS_ST_CW_CHANGE | TLS_ST_CW_FINISHED | TLS_ST_CR_FINISHED => true
  | _ => false
  end.

Record wclient12 (hit_ : bool) (creq : Z) (skip : bool) (s : SSL) : Prop := {
  wc12_tls13 : SSL_IS_TLS13 s = false;
  wc12_hit : hit s = hit_;
  wc12_creq : cert_req (tmp_of s) = creq;
  wc12_skip : has (s3_flags (s3 s)) TLS1_FLAGS_SKIP_CERT_VERIFY = skip;
  wc12_hrr : hello_retry_request s <> SSL_HRR_PENDING;
  wc12_early : early_data_state s <> SSL_EARLY_DATA_CONNECTING;
  wc12_in : in_client12_flight (hand s) = true
}.

Lemma wclient12_write hit_ creq skip s : wclient12 hit_ creq skip s ->
  match wnext_client12 hit_ creq skip (hand s) with
  | None => exists s', client_write_pre13 s = (Ok WRITE_TRAN_FINISHED, s')
  | Some h => exists s0, client_write_pre13 s = (Ok WRITE_TRAN_CONTINUE, upd_st (set_hand_state h) s0)
                /\ wclient12 hit_ creq skip s0
  end.
Proof.
  intros Hs. pose proof Hs as [Ht Hh Hc Hk Hr He Hin].
  unfold client_write_pre13, wnext_client12, st_bind.
  destruct (stamp_read_eq s) as (t & w & Er).
  assert (Hs' : wclient12 hit_ creq skip (set_ts_msg_read t (set_rest w s))) by by split.
  destruct (hand s) eqn:E; try done; simpl in *;
    rewrite ?Hh, ?Hc, ?Hk, ?Er, ?(bool_decide_eq_false_2 _ Hr), ?(bool_decide_eq_false_2 _ He);
    rewrite ?continue_in_eq; try (by eexists).
  - by destruct (creq =? 0); eexists.
  - exists s. split; [|done]. unfold move, st_put. destruct skip; [|done]. by destruct (creq =? 1).
  - destruct hit_; by eexists.
Qed.

Lemma client_construct (h : OSSL_HANDSHAKE_STATE) (s : SSL) :
  hand s = h -> client_mt (SSL_IS_QUIC s) h <> SSL3_MT_DUMMY \/
    h = TLS_ST_CW_END_OF_EARLY_DATA \/ h = TLS_ST_PENDING_EARLY_DATA_END ->
  exists f, ossl_statem_client_construct_message s = (Ok (f, client_mt (SSL_IS_QUIC s) h), s).
Proof.
  intros Hh Hm. unfold ossl_statem_client_construct_message. rewrite Hh.
  destruct h; simpl in Hm; try (by destruct Hm as [?|[?|?]]); simpl; try (by eexists).
  by destruct (SSL_IS_QUIC s); eexists.
Qed.

Lemma wclient12_follows hit_ creq skip :
  wfollows (wclient12 hit_ creq skip) ossl_statem_client_write_transition
    ossl_statem_client_construct_message (det (wnext_client12 hit_ creq skip)) (client_mt false).
Proof.
  intros s Hs. pose proof (wclient12_write hit_ creq skip s Hs) as E.
  assert (R : ossl_statem_client_write_transition s = client_write_pre13 s).
  { unfold ossl_statem_client_write_transition, st_if. by rewrite (wc12_tls13 _ _ _ _ Hs). }
  rewrite R. pose proof (wc12_in _ _ _ _ Hs) as Hin. eexists; split; [reflexivity|].
  destruct (wnext_client12 hit_ creq skip (hand s)) as [h|] eqn:En; [|done].
  destruct E as (s0 & E & Hs0). eexists; split; [done|]. split; [done|]. intros Hne.
  assert (Hin' : in_client12_flight h = true /\ (forall q, client_mt q h = client_mt false h)
                 /\ client_mt false h <> SSL3_MT_DUMMY).
  { revert En. unfold wnext_client12.
    destruct (hand s); try done; intros; simplify_eq; cases; done. }
  destruct Hin' as (Hi & Hq & Hm). split; [by destruct Hs0; split|].
  destruct (client_construct h (upd_st (set_hand_state h) s0)) as [f C]; [done| |].
  - left. by rewrite Hq.
  - exists f. by rewrite C, Hq.
Qed.

Lemma wrun_client12 creq skip SP l :
  sp_req SP = negb (creq =? 0) -> sp_got SP && negb (sp_noverify SP) = (creq =? 1) && negb skip ->
  wrun (det (wnext_client12 false creq skip)) (client_mt false) TLS_ST_CR_SRVR_DONE l ->
  l = client_flight12 SP.
Proof.
  intros Hr Hg R. unfold client_flight12, wnext_client12 in *. rewrite Hr, Hg.
  destruct (creq =? 0) eqn:E0, (creq =? 1) eqn:E1, skip; zbool; try lia; wsteps; done.
Qed.

End Client12.

(** ** Agreement *)

(** The sender has a flight, and the receiver accepts every flight the sender
    can produce and ends up in [h]. *)
Definition delivered {W W'} `{Callees W} `{Callees W'}
  (write : ST (SSL W) WRITE_TRAN) (construct : ST (SSL W) (option confunc_f * Z))
  (Is : SSL W -> Prop) (seen : list Z -> list Z)
  (read : Z -> ST (SSL W') unit) (Ir : SSL W' -> Prop)
  (snd : SSL W) (rcv : SSL W') (h : OSSL_HANDSHAKE_STATE) : Prop :=
  (exists l, flight write construct (keeps Is) snd l) /\
  (forall l, flight write construct (keeps Is) snd l ->
     exists rcv', accepts read (keeps Ir) rcv (seen l) rcv' /\ hand rcv' = h).

Lemma delivered_intro {W W'} `{Callees W} `{Callees W'} write construct (Is : SSL W -> Prop) R mt
  seen read (Ir : SSL W' -> Prop) next (rank : OSSL_HANDSHAKE_STATE -> nat) snd rcv h :
  wfollows Is write construct R mt -> follows Ir read next -> Is snd -> Ir rcv ->
  (forall h h', R h (Some h') -> h' <> TLS_ST_OK -> (rank h' < rank h)%nat) ->
  (forall l, wrun R mt (hand snd) l -> path next (hand rcv) (seen l) = Some h) ->
  delivered write construct Is seen read Ir snd rcv h.
Proof.
  intros Fw Fr Hs Hr Hd Hall. split.
  - by eapply flight_exists.
  - intros l Fl. apply (accepts_path Ir read next rcv (seen l) h Fr Hr), Hall. by eapply flight_wrun.
Qed.

Lemma send_request_not_psk {W} (s : SSL W) P req : new_cipher (tmp_of s) = Some (p_cipher P) ->
  send_certificate_request s = Ok req -> req = true ->
  has (algorithm_auth (p_cipher P)) SSL_aPSK = false.
Proof.
  unfold send_certificate_request, on_cipher. intros ->.
  destruct (_ && _ && _); intros E ->; simplify_eq. zbool. done.
Qed.

Definition everything (l : list Z) : list Z := l.



Definition sample_server12 : SSL (list Z) := sample_ssl TLS_ST_SW_SRVR_HELLO TLS1_2_VERSION ecdhe_rsa.
Definition sample_client12 (h : OSSL_HANDSHAKE_STATE) : SSL (list Z) :=
  sample_ssl h TLS1_2_VERSION ecdhe_rsa.


