(* ===== verification/HandshakeInterop13.v ===== *)
(** * Client and server fit together: TLS 1.3

    The TLS 1.3 counterpart of HandshakeInterop.v.  ChangeCipherSpec records of
    the middlebox compatibility mode are dropped by the peer's record layer, so
    they do not reach its state machine. *)

From stdpp Require Import prelude.
From Stdlib Require Import ZArith Lia.
From S2P Require Import Prelude Packet WPacket StatemTypes StatemLib StatemClnt.
From S2P Require Import StatemSrvr HandshakeRead HandshakeInterop.

Local Open Scope Z_scope.
Local Open Scope st_scope.

Definition without_ccs (l : list Z) : list Z :=
  List.filter (fun mt => negb (mt =? SSL3_MT_CHANGE_CIPHER_SPEC)) l.

(** The certificate message: compressed only if [comp] allows it. *)
Definition cert_step (plain compressed : OSSL_HANDSHAKE_STATE) (comp : bool)
  (o : option OSSL_HANDSHAKE_STATE) : Prop :=
  o = Some plain \/ (o = Some compressed /\ comp = true).

(** Whether a side compresses is decided when the certificate is due; [comp]
    bounds it. *)
Definition at_most (r : ret bool) (comp : bool) : Prop :=
  exists b, r = Ok b /\ (b = true -> comp = true).

(** Prove a step of a write transition to a known state; [Mv] says that moving
    keeps the invariant. *)
Ltac to_next Mv :=
  eexists; split; [done|]; eexists; split; [done|]; split; [done|]; apply Mv; simpl; (done || lia).
Ltac cert_next Mv Hstep :=
  match type of Hstep with
  | cert_step _ _ _ (Some ?h) =>
      exists (Some h); split; [done|]; eexists; split; [done|]; split; [done|];
      destruct Hstep as [[= ->]|[[= ->] _]]; apply Mv; simpl; (done || lia)
  end.

(** Take the steps of a run, the choice of certificate form included. *)
Ltac wsteps13 :=
  repeat match goal with
  | H : cert_step _ _ _ (Some _) |- _ => destruct H as [[= ->]|[[= ->] ?]]
  | H : cert_step _ _ _ None |- _ => by destruct H as [?|[? _]]
  | R : wrun _ _ _ _ |- _ => inversion R; clear R; subst; simpl in *; simplify_eq
  end.

(** ** The server's flight *)

Section Server13.
Context {W : Type} `{Callees W}.
Local Abbreviation SSL := (SSL W).

(** [mb]: a compatibility ChangeCipherSpec is due after the ServerHello. *)
Definition wrel_server13 (hit mb req comp : bool) (h : OSSL_HANDSHAKE_STATE)
  (o : option OSSL_HANDSHAKE_STATE) : Prop :=
  match h with
  | TLS_ST_SW_SRVR_HELLO =>
      o = Some (if mb then TLS_ST_SW_CHANGE else TLS_ST_SW_ENCRYPTED_EXTENSIONS)
  | TLS_ST_SW_CHANGE => o = Some TLS_ST_SW_ENCRYPTED_EXTENSIONS
  | TLS_ST_SW_ENCRYPTED_EXTENSIONS =>
      if hit then o = Some TLS_ST_SW_FINISHED
      else if req then o = Some TLS_ST_SW_CERT_REQ
      else cert_step TLS_ST_SW_CERT TLS_ST_SW_COMP_CERT comp o
  | TLS_ST_SW_CERT_REQ => cert_step TLS_ST_SW_CERT TLS_ST_SW_COMP_CERT comp o
  | TLS_ST_SW_CERT | TLS_ST_SW_COMP_CERT => o = Some TLS_ST_SW_CERT_VRFY
  | TLS_ST_SW_CERT_VRFY => o = Some TLS_ST_SW_FINISHED
  | TLS_ST_SW_FINISHED => o = Some TLS_ST_EARLY_DATA
  | TLS_ST_EARLY_DATA => o = None
  | _ => False
  end.

Definition server13_rank (h : OSSL_HANDSHAKE_STATE) : nat :=
  match h with
  | TLS_ST_SW_SRVR_HELLO => 8 | TLS_ST_SW_CHANGE => 7 | TLS_ST_SW_ENCRYPTED_EXTENSIONS => 6
  | TLS_ST_SW_CERT_REQ => 5 | TLS_ST_SW_CERT | TLS_ST_SW_COMP_CERT => 4
  | TLS_ST_SW_CERT_VRFY => 3 | TLS_ST_SW_FINISHED => 2 | _ => 1
  end.

Lemma server13_rank_down hit mb req comp h h' :
  wrel_server13 hit mb req comp h (Some h') -> h' <> TLS_ST_OK ->
  (server13_rank h' < server13_rank h)%nat.
Proof.
  unfold wrel_server13, cert_step. intros E _.
  destruct h; try done; cases; try (destruct E as [E|[E _]]); simplify_eq; simpl; lia.
Qed.

Definition in_server13_flight (h : OSSL_HANDSHAKE_STATE) : bool :=
  match h with
  | TLS_ST_SW_SRVR_HELLO | TLS_ST_SW_CHANGE | TLS_ST_SW_ENCRYPTED_EXTENSIONS
  | TLS_ST_SW_CERT_REQ | TLS_ST_SW_CERT | TLS_ST_SW_COMP_CERT | TLS_ST_SW_CERT_VRFY
  | TLS_ST_SW_FINISHED | TLS_ST_EARLY_DATA => true
  | _ => false
  end.

(** Before EncryptedExtensions is out, the request decision is open; before the
    certificate, its form is. *)
Definition req_open13 (h : OSSL_HANDSHAKE_STATE) : bool :=
  match h with
  | TLS_ST_SW_SRVR_HELLO | TLS_ST_SW_CHANGE | TLS_ST_SW_ENCRYPTED_EXTENSIONS => true
  | _ => false
  end.
Definition comp_open13 (h : OSSL_HANDSHAKE_STATE) : bool :=
  match h with TLS_ST_SW_CERT_REQ => true | _ => req_open13 h end.

Record wserver13 (hit_ mb req comp : bool) (s : SSL) : Prop := {
  ws13_tls13 : SSL_IS_TLS13 s = true;
  ws13_hit : hit s = hit_;
  ws13_mb : has (options s) SSL_OP_ENABLE_MIDDLEBOX_COMPAT
            && negb (bool_decide (hello_retry_request s = SSL_HRR_COMPLETE)) = mb;
  ws13_hrr : hello_retry_request s <> SSL_HRR_PENDING;
  ws13_pha : post_handshake_auth s <> SSL_PHA_REQUEST_PENDING;
  ws13_req : req_open13 (hand s) = true -> send_certificate_request s = Ok req;
  ws13_comp : comp_open13 (hand s) = true -> at_most (server_do_compressed_cert s) comp;
  ws13_in : in_server13_flight (hand s) = true
}.

Lemma wserver13_move hit_ mb req comp s h : wserver13 hit_ mb req comp s ->
  in_server13_flight h = true -> (server13_rank h <= server13_rank (hand s))%nat ->
  wserver13 hit_ mb req comp (upd_st (set_hand_state h) s).
Proof.
  intros [? ? ? ? ? Hr Hc Hi] Hin Hle. split; try done.
  - intros Hq. apply Hr. revert Hq Hi Hle. by destruct h, (hand s); simpl; intros; (done || lia).
  - intros Hq. apply Hc. revert Hq Hi Hle. by destruct h, (hand s); simpl; intros; (done || lia).
Qed.

Lemma server_send_cert_step hit_ mb req comp s : wserver13 hit_ mb req comp s ->
  comp_open13 (hand s) = true ->
  exists h, server_send_cert s = (Ok WRITE_TRAN_CONTINUE, upd_st (set_hand_state h) s) /\
    cert_step TLS_ST_SW_CERT TLS_ST_SW_COMP_CERT comp (Some h).
Proof.
  intros Hs Ho. destruct (ws13_comp _ _ _ _ _ Hs Ho) as (b & E & Hb).
  unfold server_send_cert, st_lift, st_bind. rewrite E.
  exists (if b then TLS_ST_SW_COMP_CERT else TLS_ST_SW_CERT). split; [done|].
  destruct b; [right|left]; auto.
Qed.

Lemma wserver13_write hit_ mb req comp s : wserver13 hit_ mb req comp s ->
  exists o, wrel_server13 hit_ mb req comp (hand s) o /\
  match o with
  | None => exists s', ossl_statem_server13_write_transition s = (Ok WRITE_TRAN_FINISHED, s')
  | Some h => exists s1, ossl_statem_server13_write_transition s = (Ok WRITE_TRAN_CONTINUE, s1)
                /\ hand s1 = h /\ wserver13 hit_ mb req comp s1
  end.
Proof.
  intros Hs. pose proof Hs as [Ht Hh Hm Hr Hp Hq Hc Hin].
  pose proof (wserver13_move hit_ mb req comp s) as Mv.
  assert (Sc := server_send_cert_step hit_ mb req comp s Hs).
  unfold ossl_statem_server13_write_transition, wrel_server13, st_bind, st_lift.
  destruct (hand s) eqn:E; try done;
    rewrite ?Hh, ?Hm, ?(bool_decide_eq_false_2 _ Hr), ?(bool_decide_eq_false_2 _ Hp).
  - (* ServerHello *) destruct mb; to_next Mv.
  - (* Certificate *) to_next Mv.
  - (* CompressedCertificate *) to_next Mv.
  - (* CertificateRequest *) destruct (Sc eq_refl) as (h & -> & Hstep). cert_next Mv Hstep.
  - (* ChangeCipherSpec *) to_next Mv.
  - (* Finished *) eexists; split; [done|]. unfold move, st_put.
    destruct (stamp_write_eq (upd_st (set_hand_state TLS_ST_EARLY_DATA) s)) as (t & w & Ew).
    rewrite Ew. eexists; split; [done|]. split; [done|].
    assert (M : wserver13 hit_ mb req comp (upd_st (set_hand_state TLS_ST_EARLY_DATA) s))
      by (apply Mv; simpl; (done || lia)).
    destruct M. by split.
  - (* EncryptedExtensions *) destruct hit_; [to_next Mv|].
    rewrite (Hq eq_refl). destruct req; [to_next Mv|].
    destruct (Sc eq_refl) as (h & -> & Hstep). cert_next Mv Hstep.
  - (* CertificateVerify *) to_next Mv.
  - (* early data *) exists None. split; [done|]. by eexists.
Qed.

Lemma wserver13_follows hit_ mb req comp :
  wfollows (wserver13 hit_ mb req comp) ossl_statem_server_write_transition
    ossl_statem_server_construct_message (wrel_server13 hit_ mb req comp) server_mt.
Proof.
  intros s Hs. destruct (wserver13_write hit_ mb req comp s Hs) as (o & Hr & E).
  assert (R : ossl_statem_server_write_transition s = ossl_statem_server13_write_transition s).
  { unfold ossl_statem_server_write_transition, st_if. by rewrite (ws13_tls13 _ _ _ _ _ Hs). }
  rewrite R. exists o. split; [done|]. destruct o as [h|]; [|done].
  destruct E as (s1 & E & Hh & Hs1). exists s1. split_and!; try done. intros _. split; [done|].
  apply server_construct; [done|]. pose proof (ws13_in _ _ _ _ _ Hs1) as Hi. rewrite Hh in Hi.
  assert (Hne : h <> TLS_ST_SR_FINISHED) by by intros ->.
  destruct h; try done; (by left) || (by right).
Qed.

Lemma wrun_server13 hit_ mb req comp comp' l : (comp = true -> comp' = true) ->
  wrun (wrel_server13 hit_ mb req comp) server_mt TLS_ST_SW_SRVR_HELLO l ->
  server_flight13 hit_ comp' (without_ccs l).
Proof.
  intros Hc R. unfold server_flight13, without_ccs.
  destruct hit_; [destruct mb; wsteps13; done|].
  destruct mb, req; wsteps13;
    first [ exists [], SSL3_MT_CERTIFICATE; (split_and!; [by auto|by auto|done])
          | exists [SSL3_MT_CERTIFICATE_REQUEST], SSL3_MT_CERTIFICATE; (split_and!; [by auto|by auto|done])
          | exists [], SSL3_MT_COMPRESSED_CERTIFICATE; (split_and!; [by auto|by auto|done])
          | exists [SSL3_MT_CERTIFICATE_REQUEST], SSL3_MT_COMPRESSED_CERTIFICATE; (split_and!; [by auto|by auto|done]) ].
Qed.
End Server13.

(** ** The client's flight *)

Section Client13w.
Context {W : Type} `{Callees W}.
Local Abbreviation SSL := (SSL W).

(** What the client's last flight depends on: early data sent, accepted by the
    server, a compatibility ChangeCipherSpec due, the kind of answer to a
    certificate request, whether it may compress, QUIC. *)
Record cparams : Type := {
  cp_pending : bool;
  cp_accepted : bool;
  cp_mb : bool;
  cp_creq : Z;
  cp_comp : bool;
  cp_quic : bool
}.

Definition c_after_change (C : cparams) (o : option OSSL_HANDSHAKE_STATE) : Prop :=
  if cp_creq C =? 0 then o = Some TLS_ST_CW_FINISHED
  else cert_step TLS_ST_CW_CERT TLS_ST_CW_COMP_CERT (cp_comp C) o.

Definition wrel_client13 (C : cparams) (h : OSSL_HANDSHAKE_STATE)
  (o : option OSSL_HANDSHAKE_STATE) : Prop :=
  match h with
  | TLS_ST_CR_FINISHED =>
      if cp_pending C then o = Some TLS_ST_PENDING_EARLY_DATA_END
      else if cp_mb C then o = Some TLS_ST_CW_CHANGE else c_after_change C o
  | TLS_ST_PENDING_EARLY_DATA_END =>
      if cp_accepted C then o = Some TLS_ST_CW_END_OF_EARLY_DATA else c_after_change C o
  | TLS_ST_CW_END_OF_EARLY_DATA | TLS_ST_CW_CHANGE => c_after_change C o
  | TLS_ST_CW_CERT | TLS_ST_CW_COMP_CERT =>
      o = Some (if cp_creq C =? 1 then TLS_ST_CW_CERT_VRFY else TLS_ST_CW_FINISHED)
  | TLS_ST_CW_CERT_VRFY => o = Some TLS_ST_CW_FINISHED
  | TLS_ST_CW_FINISHED => o = Some TLS_ST_OK
  | _ => False
  end.

Definition client13_rank (h : OSSL_HANDSHAKE_STATE) : nat :=
  match h with
  | TLS_ST_CR_FINISHED => 7 | TLS_ST_PENDING_EARLY_DATA_END => 6
  | TLS_ST_CW_END_OF_EARLY_DATA | TLS_ST_CW_CHANGE => 5
  | TLS_ST_CW_CERT | TLS_ST_CW_COMP_CERT => 4 | TLS_ST_CW_CERT_VRFY => 3
  | TLS_ST_CW_FINISHED => 2 | _ => 1
  end.

Lemma client13_rank_down C h h' :
  wrel_client13 C h (Some h') -> h' <> TLS_ST_OK -> (client13_rank h' < client13_rank h)%nat.
Proof.
  unfold wrel_client13, c_after_change, cert_step. intros E Hne.
  destruct h; try done; cases; try (destruct E as [E|[E _]]); simplify_eq; simpl; lia.
Qed.

Definition in_client13_flight (h : OSSL_HANDSHAKE_STATE) : bool :=
  match h with
  | TLS_ST_CR_FINISHED | TLS_ST_PENDING_EARLY_DATA_END | TLS_ST_CW_END_OF_EARLY_DATA
  | TLS_ST_CW_CHANGE | TLS_ST_CW_CERT | TLS_ST_CW_COMP_CERT | TLS_ST_CW_CERT_VRFY
  | TLS_ST_CW_FINISHED => true
  | _ => false
  end.

Record wclient13 (C : cparams) (s : SSL) : Prop := {
  wc13_tls13 : SSL_IS_TLS13 s = true;
  wc13_quic : SSL_IS_QUIC s = cp_quic C;
  wc13_pending : bool_decide (early_data_state s = SSL_EARLY_DATA_WRITE_RETRY)
                 || bool_decide (early_data_state s = SSL_EARLY_DATA_FINISHED_WRITING) = cp_pending C;
  wc13_accepted : (early_data (ext s) =? SSL_EARLY_DATA_ACCEPTED) = cp_accepted C;
  wc13_mb : has (options s) SSL_OP_ENABLE_MIDDLEBOX_COMPAT
            && bool_decide (hello_retry_request s = SSL_HRR_NONE) = cp_mb C;
  wc13_creq : cert_req (tmp_of s) = cp_creq C;
  wc13_comp : at_most (client_do_compressed_cert s) (cp_comp C);
  wc13_in : in_client13_flight (hand s) = true
}.

Lemma wclient13_move C s h : wclient13 C s -> in_client13_flight h = true ->
  wclient13 C (upd_st (set_hand_state h) s).
Proof. intros [] Hin. by split. Qed.

Lemma client13_after_change_step C s : wclient13 C s ->
  exists h, client13_after_change s = (Ok WRITE_TRAN_CONTINUE, upd_st (set_hand_state h) s) /\
    c_after_change C (Some h) /\ in_client13_flight h = true.
Proof.
  intros Hs. destruct (wc13_comp _ _ Hs) as (b & E & Hb).
  unfold client13_after_change, c_after_change, st_if. rewrite (wc13_creq _ _ Hs).
  destruct (cp_creq C =? 0); [by eexists|]. unfold client_send_cert, st_lift, st_bind. rewrite E.
  exists (if b then TLS_ST_CW_COMP_CERT else TLS_ST_CW_CERT). split; [done|].
  destruct b; (split; [|done]); [right|left]; auto.
Qed.

(** A step of the client's automaton, [OK] allowed only as the last one. *)
Definition wclient13_step (C : cparams) (s : SSL) : Prop :=
  exists h s1, wrel_client13 C (hand s) (Some h) /\
    ossl_statem_client13_write_transition s = (Ok WRITE_TRAN_CONTINUE, s1) /\ hand s1 = h /\
    (h <> TLS_ST_OK -> wclient13 C s1).

Lemma wclient13_finished C s : wclient13 C s -> hand s = TLS_ST_CR_FINISHED -> wclient13_step C s.
Proof.
  intros Hs E. pose proof Hs as [Ht Hq Hp Ha Hm Hc Hd Hin].
  unfold wclient13_step, ossl_statem_client13_write_transition, wrel_client13.
  rewrite E, Hp, Hm.
  assert (K : exists h, (if cp_pending C then continue_in TLS_ST_PENDING_EARLY_DATA_END
      else if cp_mb C then continue_in TLS_ST_CW_CHANGE else client13_after_change) s
      = (Ok WRITE_TRAN_CONTINUE, upd_st (set_hand_state h) s) /\ in_client13_flight h = true /\
      (if cp_pending C then Some h = Some TLS_ST_PENDING_EARLY_DATA_END
       else if cp_mb C then Some h = Some TLS_ST_CW_CHANGE else c_after_change C (Some h))).
  { destruct (cp_pending C); [by eexists|]. destruct (cp_mb C); [by eexists|].
    destruct (client13_after_change_step C s Hs) as (h & -> & ? & ?). by exists h. }
  destruct K as (h & K & Hi & Hr). unfold st_bind. rewrite K.
  destruct (stamp_read_eq (upd_st (set_hand_state h) s)) as (t & w & ->).
  exists h. eexists. split_and!; [done|done|done|]. intros _.
  pose proof (wclient13_move C s h Hs Hi) as []. by split.
Qed.

Lemma wclient13_write C s : wclient13 C s -> wclient13_step C s.
Proof.
  intros Hs. destruct (decide (hand s = TLS_ST_CR_FINISHED)); [by apply wclient13_finished|].
  pose proof Hs as [Ht Hq Hp Ha Hm Hc Hd Hin].
  destruct (client13_after_change_step C s Hs) as (h & Eh & Hstep & Hi).
  pose proof (fun h => wclient13_move C s h Hs) as Mv.
  unfold wclient13_step, ossl_statem_client13_write_transition, wrel_client13.
  destruct (hand s) eqn:E; try done; rewrite ?Ha, ?Hc.
  - eexists _, _. split_and!; [done|done|done|]. intros _. apply Mv. by destruct (cp_creq C =? 1).
  - eexists _, _. split_and!; [done|done|done|]. intros _. apply Mv. by destruct (cp_creq C =? 1).
  - eexists _, _. split_and!; [done|done|done|]. intros _. by apply Mv.
  - exists h. eexists. rewrite Eh. split_and!; [done|done|done|]. intros _. by apply Mv.
  - eexists _, _. split_and!; done.
  - destruct (cp_accepted C).
    + eexists _, _. split_and!; [done|done|done|]. intros _. by apply Mv.
    + exists h. eexists. rewrite Eh. split_and!; [done|done|done|]. intros _. by apply Mv.
  - exists h. eexists. rewrite Eh. split_and!; [done|done|done|]. intros _. by apply Mv.
Qed.

Lemma wclient13_follows C :
  wfollows (wclient13 C) ossl_statem_client_write_transition
    ossl_statem_client_construct_message (wrel_client13 C) (client_mt (cp_quic C)).
Proof.
  intros s Hs. destruct (wclient13_write C s Hs) as (h & s1 & Hr & E & Hh & Hs1).
  assert (R : ossl_statem_client_write_transition s = ossl_statem_client13_write_transition s).
  { unfold ossl_statem_client_write_transition, st_if. by rewrite (wc13_tls13 _ _ Hs). }
  rewrite R. exists (Some h). split; [done|]. exists s1. split_and!; try done.
  intros Hne. specialize (Hs1 Hne). split; [done|]. rewrite <- (wc13_quic _ _ Hs1).
  apply client_construct; [done|]. pose proof (wc13_in _ _ Hs1) as Hi. rewrite Hh in Hi.
  assert (Hcr : h <> TLS_ST_CR_FINISHED).
  { intros ->. pose proof (client13_rank_down C _ _ Hr Hne) as Hlt.
    revert Hlt. by destruct (hand s); simpl; lia. }
  destruct h; try done; (by left) || (right; by auto).
Qed.

Lemma wrun_client13 C SP l :
  sp_early SP = cp_pending C && cp_accepted C && negb (cp_quic C) ->
  sp_req SP = negb (cp_creq C =? 0) -> sp_got SP = (cp_creq C =? 1) ->
  (cp_comp C = true -> sp_comp SP = true) ->
  wrun (wrel_client13 C) (client_mt (cp_quic C)) TLS_ST_CR_FINISHED l ->
  client_flight13 SP (without_ccs l).
Proof.
  intros He Hq Hg Hc R. unfold client_flight13. rewrite He, Hq, Hg. clear He Hq Hg.
  unfold wrel_client13, c_after_change in R.
  destruct C as [pend acc mb creq comp quic]; simpl in *.
  destruct (creq =? 0) eqn:E0, (creq =? 1) eqn:E1; zbool; try lia;
    destruct pend, acc, mb, quic; simpl in *; wsteps13;
    first [ exists SSL3_MT_CERTIFICATE; split; [by left|done]
          | exists SSL3_MT_COMPRESSED_CERTIFICATE; split; [right; by auto|done] ].
Qed.
End Client13w.

(** ** Agreement *)

(** C17.  TLS 1.3, server to client.  When both sides agree on resumption and the
    server compresses its certificate only if the client offered that, the
    client accepts every flight of the server from EncryptedExtensions to
    Finished, with or without client authentication and compatibility mode. *)
Theorem interop13_server_flight {W W'} `{Callees W} `{Callees W'} (hit_ mb req comp comp' : bool)
  (sv : SSL W) (cl : SSL W') (Hs : wserver13 hit_ mb req comp sv) (Hc : client13 hit_ comp' cl)
  (Hcomp : comp = true -> comp' = true)
  (Hh1 : hand sv = TLS_ST_SW_SRVR_HELLO) (Hh2 : hand cl = TLS_ST_CR_SRVR_HELLO) :
  delivered ossl_statem_server_write_transition ossl_statem_server_construct_message
    (wserver13 hit_ mb req comp) without_ccs ossl_statem_client_read_transition
    (client13 hit_ comp') sv cl TLS_ST_CR_FINISHED.
Proof.
  eapply delivered_intro;
    [apply wserver13_follows|apply client13_follows|done|done|apply server13_rank_down|].
  rewrite Hh1, Hh2. intros l R. apply path_client13. by eapply wrun_server13.
Qed.


Definition sample13 (h : OSSL_HANDSHAKE_STATE) : SSL (list Z) := sample_ssl h TLS1_3_VERSION ecdhe_rsa.

Lemma interop13_server_flight_witness :
  delivered ossl_statem_server_write_transition ossl_statem_server_construct_message
    (wserver13 false false false false) without_ccs ossl_statem_client_read_transition
    (client13 false false) (sample13 TLS_ST_SW_SRVR_HELLO) (sample13 TLS_ST_CR_SRVR_HELLO)
    TLS_ST_CR_FINISHED.
Proof.
  apply interop13_server_flight; try done.
  split; try done. intros _. exists false. done.
Defined.

Definition sample_cparams : cparams :=
  {| cp_pending := false; cp_accepted := false; cp_mb := false; cp_creq := 0; cp_comp := false;
     cp_quic := false |}.

