(* ===== verification/StatemFlow.v ===== *)
(** * Properties of the message flow

    What the callees of the state machines must not touch, and what follows for
    dispatch, for the outcomes of [state_machine], and for its termination. *)

From stdpp Require Import prelude.
From Stdlib Require Import ZArith Lia.
From S2P Require Import Prelude Packet Buffer WPacket StatemTypes StatemLib StatemClnt.
From S2P Require Import StatemSrvr Statem.

Local Open Scope Z_scope.
Local Open Scope st_scope.

(** ** What a computation leaves alone *)

Section Kept.
Context {W : Type}.
Local Abbreviation SSL := (SSL W).

(** [m] does not change the part [pi] of the connection. *)
Definition kept_at {A B} (pi : SSL -> A) (m : ST SSL B) (s : SSL) : Prop := pi (snd (m s)) = pi s.
Definition kept {A B} (pi : SSL -> A) (m : ST SSL B) : Prop := forall s, kept_at pi m s.
Definition kept_fn {A} (pi : SSL -> A) (f : SSL -> SSL) : Prop := forall s, pi (f s) = pi s.

(** The state, the negotiated version and the nesting depth. *)
Definition core (s : SSL) := (hand s, method_version s, method_dtls s, in_handshake (statem s)).
(** The part that receiving a message does not change either. *)
Definition depth (s : SSL) := in_handshake (statem s).
Definition place (s : SSL) := (hand s, in_handshake (statem s)).

Context {X : Type} (pi : SSL -> X).

Lemma kept_bind {A B} (m : ST SSL A) (f : A -> ST SSL B) s :
  kept_at pi m s -> (forall a s', kept_at pi (f a) s') -> kept_at pi (st_bind m f) s.
Proof.
  unfold kept_at, st_bind. intros Hm Hf. destruct (m s) as [[a| |] s']; simpl in *; try done.
  by rewrite Hf.
Qed.

Lemma kept_ret {A} (a : A) s : kept_at pi (st_ret a) s.
Proof. done. Qed.
Lemma kept_fail {A} s : kept_at pi (st_fail (A := A)) s.
Proof. done. Qed.
Lemma kept_get {A} (f : SSL -> A) s : kept_at pi (st_get f) s.
Proof. done. Qed.
Lemma kept_lift {A} (f : SSL -> ret A) s : kept_at pi (st_lift f) s.
Proof. done. Qed.
Lemma kept_put f s : kept_fn pi f -> kept_at pi (st_put f) s.
Proof. intros H. apply H. Qed.

Lemma kept_try m s : kept_at pi m s -> kept_at pi (st_try m) s.
Proof. unfold kept_at, st_try. by destruct (m s) as [[| |] ?]. Qed.
Lemma kept_option {A} (m : ST SSL A) s : kept_at pi m s -> kept_at pi (st_option m) s.
Proof. unfold kept_at, st_option. by destruct (m s) as [[| |] ?]. Qed.

Lemma kept_if {A} c (k e : ST SSL A) s :
  kept_at pi k s -> kept_at pi e s -> kept_at pi (st_if c k e) s.
Proof. unfold kept_at, st_if. by destruct (c s). Qed.

Lemma kept_with_cipher {A} (k : SSL_CIPHER -> ST SSL A) s :
  (forall c, kept_at pi (k c) s) -> kept_at pi (with_cipher k) s.
Proof. unfold kept_at, with_cipher. intros H. by destruct (new_cipher (tmp_of s)). Qed.
Lemma kept_with_session {A} (k : SSL_SESSION -> ST SSL A) s :
  (forall c, kept_at pi (k c) s) -> kept_at pi (with_session k) s.
Proof. unfold kept_at, with_session. intros H. by destruct (session s). Qed.

Lemma kept_loop {A} n (step : ST SSL (option A)) s :
  kept pi step -> kept_at pi (st_loop n step) s.
Proof.
  intros K. revert s. induction n as [|n IH]; intros s; simpl; [done|].
  apply kept_bind; [apply K|]. intros [a|] s'; [done|apply IH].
Qed.
End Kept.

(** A part of a kept part is kept. *)
Lemma kept_at_part {W A X Y} (pi : SSL W -> X) (f : X -> Y) (m : ST (SSL W) A) s :
  kept_at pi m s -> kept_at (fun s => f (pi s)) m s.
Proof. unfold kept_at. by intros ->. Qed.

(** ** What the callees leave alone

    In the sources [hand_state] is assigned only by the transitions, by
    [ossl_statem_clear] (which [SSL_clear] calls), by
    [ossl_statem_set_hello_verify_done] and by [state_machine]; [in_handshake]
    only by [state_machine] and around [SSL_read]; the method only by version
    negotiation, in the processing of the Hello messages. *)
Class CalleesKeep (W : Type) `{Callees W} : Prop := {
  k_confunc f p s : core (snd (confunc_call f p s)) = core s;
  k_process f p s : place (snd (process_call f p s)) = place s;
  k_post_process f w s : place (snd (post_process_call f w s)) = place s;
  k_alert l a : kept_fn core (ssl3_send_alert l a);
  k_alert_state l a s : state (statem (ssl3_send_alert l a s)) = state (statem s);
  k_init_mac : kept core ssl3_init_finished_mac;
  k_plain : kept core ssl_set_plaintext_write_layer;
  k_ccs13 w : kept core (tls13_change_cipher_state w);
  k_setup_key : kept core enc_setup_key_block;
  k_change w : kept core (enc_change_cipher_state w);
  k_master : kept core enc_generate_master_secret;
  k_update b : kept core (tls13_update_key b);
  k_save : kept core tls13_save_handshake_digest_for_pha;
  k_restore : kept core tls13_restore_handshake_digest_for_pha;
  k_cke : kept core tls_client_key_exchange_post_work;
  k_setup : kept core tls_setup_handshake;
  k_cleanup : kept_fn core ssl3_cleanup_key_block;
  k_cache m : kept_fn core (ssl_update_cache m);
  k_remove : kept_fn core SSL_CTX_remove_used_session;
  k_free_wbio : kept core ssl_free_wbio_buffer;
  k_init_wbio : kept core ssl_init_wbio_buffer;
  k_clear : kept depth SSL_clear_not_quic;
  k_get_tls s : place (snd (tls_get_message_header s)) = place s;
  k_get_dtls s : place (snd (dtls_get_message s)) = place s;
  k_get_quic s : place (snd (quic_get_message s)) = place s;
  k_body_tls s : place (snd (tls_get_message_body s)) = place s;
  k_body_dtls s : place (snd (dtls_get_message_body s)) = place s;
  k_body_quic s : place (snd (quic_get_message_body s)) = place s;
  k_header mt p s : core (snd (ssl_set_handshake_header mt p s)) = core s;
  k_close mt p s : core (snd (ssl_close_construct_packet mt p s)) = core s;
  k_write3 t s : core (snd (ssl3_do_write t s)) = core s;
  k_writed t s : core (snd (dtls1_do_write t s)) = core s;
  k_write s : core (snd (ssl_do_write s)) = core s;
  k_start_timer : kept_fn core dtls1_start_timer;
  k_stop_timer : kept_fn core dtls1_stop_timer;
  k_clear_sent : kept_fn core dtls1_clear_sent_buffer;
  k_clear_received : kept_fn core dtls1_clear_received_buffer
}.

#[global] Instance quiet_callees_keep : CalleesKeep (list Z).
Proof. split; try done; intros s; simpl; unfold next_type; by destruct (rest s). Qed.

Create HintDb kept.
#[export] Hint Resolve k_alert k_init_mac k_plain k_ccs13 k_setup_key k_change k_master k_update
  k_save k_restore k_cke k_setup k_cleanup k_cache k_remove k_free_wbio k_init_wbio
  k_start_timer k_stop_timer k_clear_sent k_clear_received : kept.

(** Push [kept_at] through the structure of a computation; what is left are
    facts about single calls. *)
Ltac kept_go :=
  repeat (intros; match goal with
  | |- kept _ _ => intros ?
  | |- kept_at _ (st_bind _ _) _ => apply kept_bind
  | |- kept_at _ (st_ret _) _ => apply kept_ret
  | |- kept_at _ st_fail _ => apply kept_fail
  | |- kept_at _ (st_get _) _ => apply kept_get
  | |- kept_at _ (st_lift _) _ => apply kept_lift
  | |- kept_at _ (st_put _) _ => apply kept_put
  | |- kept_at _ (st_try _) _ => apply kept_try
  | |- kept_at _ (st_option _) _ => apply kept_option
  | |- kept_at _ (st_if _ _ _) _ => apply kept_if
  | |- kept_at _ (with_cipher _) _ => apply kept_with_cipher
  | |- kept_at _ (with_session _) _ => apply kept_with_session
  | |- kept_at _ (st_loop _ _) _ => apply kept_loop
  | |- kept_at ?p (fun x => _) ?s =>
      unfold kept_at; cbv beta;
      match goal with |- _ (snd (?M s)) = _ => change (kept_at p M s) end
  | |- kept_at _ (if ?b then _ else _) _ => destruct b
  | |- kept_at _ (match ?x with _ => _ end) _ => destruct x
  | |- kept_at ?p ?m ?s => solve [refine ((_ : kept p m) s); auto with kept]
  | |- kept_fn _ _ =>
      solve [auto with kept | intros ?; reflexivity
            | intros ?; cbv beta; case_match; first [reflexivity | solve [auto with kept]
                | match goal with |- _ (?f ?x) = _ => refine ((_ : kept_fn _ f) x); auto with kept end]]
  end).

Section CoreKept.
Context {W : Type} `{CalleesKeep W} `{Libc}.
Local Abbreviation SSL := (SSL W).

Lemma kept_set_in_init b : kept_fn core (ossl_statem_set_in_init (W := W) b).
Proof. by intros s. Qed.

Lemma kept_fatal al : kept_fn core (ossl_statem_fatal (W := W) al).
Proof.
  intros s. unfold ossl_statem_fatal, ossl_statem_send_fatal.
  destruct (_ && _); [done|]. destruct (_ =? _); [done|]. by rewrite (k_alert _ _ _).
Qed.

Lemma kept_SSLfatal al : kept core (SSLfatal (W := W) al).
Proof. intros s. apply kept_put, kept_fatal. Qed.

Lemma kept_check_fatal : kept core (check_fatal (W := W)).
Proof. intros s. unfold check_fatal, kept_at. destruct (_ && _); [done|]. apply kept_SSLfatal. Qed.

Lemma kept_stamp_read : kept core (stamp_read (W := W)).
Proof. intros s. unfold kept_at, stamp_read. by destruct (ossl_time_now (rest s)). Qed.
Lemma kept_stamp_write : kept core (stamp_write (W := W)).
Proof. intros s. unfold kept_at, stamp_write. by destruct (ossl_time_now (rest s)). Qed.

Lemma kept_statem_flush : kept core (statem_flush (W := W)).
Proof.
  intros s. unfold kept_at, statem_flush. destruct (SSL_IS_QUIC _); cases; done.
Qed.

Hint Resolve kept_set_in_init kept_fatal kept_SSLfatal kept_check_fatal kept_stamp_read
  kept_stamp_write kept_statem_flush : kept.

Lemma kept_finish_cleanup : kept_fn core (finish_cleanup (W := W)).
Proof.
  intros s. unfold finish_cleanup.
  set (s1 := upd_ext _ _). set (s2 := ssl3_cleanup_key_block s1).
  assert (E2 : core s2 = core s) by (unfold s2; by rewrite (k_cleanup s1)).
  set (s3 := if server s2 then _ else _).
  assert (E3 : core s3 = core s).
  { unfold s3. destruct (server s2), (SSL_IS_TLS13 s2); rewrite <- E2;
      [done|apply (k_cache _ s2)|apply (k_remove s2)|apply (k_cache _ s2)]. }
  destruct (SSL_IS_DTLS s3); [|done]. by rewrite (k_clear_received _).
Qed.
Hint Resolve kept_finish_cleanup : kept.

Lemma kept_finish_update b : kept_fn core (finish_update (W := W) b).
Proof.
  intros s. unfold finish_update.
  set (s1 := finish_pha s).
  assert (E1 : core s1 = core s) by (unfold s1, finish_pha; by destruct (_ && _)).
  set (s2 := if b then finish_cleanup s1 else s1).
  assert (E2 : core s2 = core s) by (unfold s2; destruct b; by rewrite ?kept_finish_cleanup).
  unfold finish_notify. by destruct (_ || _ || _).
Qed.
Hint Resolve kept_finish_update : kept.

Lemma kept_finish_handshake c st : kept core (tls_finish_handshake (W := W) c st).
Proof. unfold tls_finish_handshake, finish_clear_buffers. kept_go. Qed.
Hint Resolve kept_finish_handshake : kept.

Lemma kept_or_work m w k : kept core m -> kept core k -> kept core (or_work (W := W) m w k).
Proof. unfold or_work. intros Hm Hk. kept_go; auto. Qed.
Hint Resolve kept_or_work : kept.

Lemma kept_client_pre_work : kept core (ossl_statem_client_pre_work (W := W)).
Proof. unfold ossl_statem_client_pre_work, or_work. kept_go. Qed.

Lemma kept_server_pre_work : kept core (ossl_statem_server_pre_work (W := W)).
Proof. unfold ossl_statem_server_pre_work, server_prepare_change, or_work. kept_go. Qed.

Lemma kept_client_post_work : kept core (ossl_statem_client_post_work (W := W)).
Proof.
  unfold ossl_statem_client_post_work, client_activate_write_keys, client_early_write_keys, or_work.
  kept_go.
Qed.

Lemma kept_drop_compression : kept core (drop_compression (W := W)).
Proof.
  unfold drop_compression. kept_go. unfold kept_at.
  by destruct (compress_certificate_from_peer (ext _)).
Qed.
Hint Resolve kept_drop_compression : kept.

Lemma kept_server_post_work : kept core (ossl_statem_server_post_work (W := W)).
Proof.
  unfold ossl_statem_server_post_work, server_activate_keys, server_after_finished,
    server_after_ticket, or_work. kept_go.
Qed.
End CoreKept.

#[export] Hint Resolve kept_set_in_init kept_fatal kept_SSLfatal kept_check_fatal kept_stamp_read
  kept_stamp_write kept_statem_flush kept_finish_handshake kept_client_pre_work
  kept_server_pre_work kept_client_post_work kept_server_post_work : kept.

(** ** Dispatch *)

Section Dispatch.
Context {W : Type} `{Callees W}.
Local Abbreviation SSL := (SSL W).

(** Whenever [m] succeeds, it does so in a state that satisfies [Q]. *)
Definition lands {A} (Q : OSSL_HANDSHAKE_STATE -> Prop) (m : ST SSL A) (s : SSL) : Prop :=
  forall a s', m s = (Ok a, s') -> Q (hand s').

Lemma lands_move Q h s : Q h -> lands Q (move h) s.
Proof. by intros Hq a s' [= _ <-]. Qed.
Lemma lands_fail {A} Q s : lands Q (st_fail (A := A)) s.
Proof. done. Qed.
Lemma lands_bind {A B} Q (m : ST SSL A) (f : A -> ST SSL B) s :
  (forall a s', lands Q (f a) s') -> lands Q (st_bind m f) s.
Proof.
  intros Hf b s' E. unfold st_bind in E. destruct (m s) as [[a| |] s1]; simplify_eq. by eapply Hf.
Qed.
Lemma lands_with_cipher {A} Q (k : SSL_CIPHER -> ST SSL A) s :
  (forall c, lands Q (k c) s) -> lands Q (with_cipher k) s.
Proof. intros Hk a s'. unfold with_cipher. destruct (new_cipher _); [apply Hk|done]. Qed.
Lemma lands_no_transition Q mt s : lands Q (no_valid_transition mt) s.
Proof. intros a s' E. unfold no_valid_transition in E. by destruct (_ && _) in E. Qed.

Lemma lands_or_no_transition Q mt m s : lands Q m s -> lands Q (or_no_transition mt m) s.
Proof.
  intros Hm a s' E. unfold or_no_transition, st_bind, st_try in E.
  destruct (m s) as [[u| |] s1] eqn:Em; [|by eapply lands_no_transition in E|done].
  unfold st_ret in E. simplify_eq. by eapply Hm.
Qed.
End Dispatch.

Ltac lands_go :=
  repeat (intros; match goal with
  | |- lands _ (move _) _ => apply lands_move
  | |- lands _ st_fail _ => apply lands_fail
  | |- lands _ (no_valid_transition _) _ => apply lands_no_transition
  | |- lands _ (or_no_transition _ _) _ => apply lands_or_no_transition
  | |- lands _ (with_cipher _) _ => apply lands_with_cipher
  | |- lands ?Q (fun x => _) ?s =>
      unfold lands; cbv beta;
      match goal with |- forall a s', ?M s = (Ok a, s') -> _ => change (lands Q M s) end
  | |- lands ?Q (st_if _ _ _) ?s => unfold st_if
  | |- lands _ (if ?b then _ else _) _ => destruct b
  | |- lands ?Q ((if ?b then ?k else ?e) ?x) ?s => destruct b
  | |- lands _ (match ?x with _ => _ end) _ => destruct x
  | |- lands _ (st_bind _ _) _ => apply lands_bind
  end).

Section DispatchTheorems.
Context {W : Type} `{Callees W}.

Lemma client_read_lands mt (s : SSL W) :
  lands (fun h => is_Some (client_process_fn h)) (ossl_statem_client_read_transition mt) s.
Proof.
  unfold ossl_statem_client_read_transition. apply lands_or_no_transition.
  intros a s'. unfold st_if. destruct (SSL_IS_TLS13 s); revert a s';
    [change (lands (fun h => is_Some (client_process_fn h)) (ossl_statem_client13_read_transition mt) s)
    |change (lands (fun h => is_Some (client_process_fn h)) (client_read_pre13 mt) s)].
  - unfold ossl_statem_client13_read_transition. lands_go; by eexists.
  - unfold client_read_pre13, client_read_srvr_hello, client_read_cert, client_read_cert_status,
      client_read_key_exch, client_read_cert_req. lands_go; by eexists.
Qed.

Lemma server_read_done_lands mt (s s' : SSL W) : hand s = TLS_ST_SW_SRVR_DONE ->
  SSL_IS_TLS13 s = false -> ossl_statem_server_read_transition mt s = (Ok tt, s') ->
  hand s' = TLS_ST_SR_KEY_EXCH \/ hand s' = TLS_ST_SR_CERT.
Proof.
  intros Hh Ht. unfold ossl_statem_server_read_transition. rewrite Ht, Hh.
  unfold server_read_srvr_done, st_bind, move, st_put, st_ret, SSLfatal, st_fail.
  intros E. repeat (case_match; simplify_eq/=); auto;
    exfalso; eapply (lands_no_transition (fun _ => False)); eassumption.
Qed.

Lemma server_read_lands mt (s : SSL W) :
  lands (fun h => is_Some (server_process_fn h)) (ossl_statem_server_read_transition mt) s.
Proof.
  destruct (SSL_IS_TLS13 s) eqn:Ht.
  { unfold ossl_statem_server_read_transition, lands. rewrite Ht.
    fold (lands (fun h => is_Some (server_process_fn h))
            (or_no_transition mt (ossl_statem_server13_read_transition mt)) s).
    unfold ossl_statem_server13_read_transition, server13_read_flight. lands_go; by eexists. }
  destruct (decide (hand s = TLS_ST_SW_SRVR_DONE)) as [Hd|Hd].
  { intros [] s' E. apply server_read_done_lands in E as [->| ->]; [by eexists..|done|done]. }
  intros a s' E.
  assert (R : ossl_statem_server_read_transition mt s = or_no_transition mt (server_read_pre13 mt) s).
  { unfold ossl_statem_server_read_transition. rewrite Ht. by destruct (hand s). }
  rewrite R in E. revert a s' E.
  fold (lands (fun h => is_Some (server_process_fn h)) (or_no_transition mt (server_read_pre13 mt)) s).
  unfold server_read_pre13. lands_go; by eexists.
Qed.

(** States in which a writer has a message (or deliberately none) to send, or
    in which the handshake ends or pauses. *)
Definition client_sends (h : OSSL_HANDSHAKE_STATE) : bool :=
  match h with
  | TLS_ST_CW_CHANGE | TLS_ST_CW_CLNT_HELLO | TLS_ST_CW_END_OF_EARLY_DATA
  | TLS_ST_PENDING_EARLY_DATA_END | TLS_ST_CW_CERT | TLS_ST_CW_COMP_CERT | TLS_ST_CW_KEY_EXCH
  | TLS_ST_CW_CERT_VRFY | TLS_ST_CW_FINISHED | TLS_ST_CW_KEY_UPDATE => true
  | _ => false
  end.
Definition client_pauses (h : OSSL_HANDSHAKE_STATE) : bool :=
  match h with TLS_ST_OK | TLS_ST_EARLY_DATA => true | _ => false end.

Definition server_sends (h : OSSL_HANDSHAKE_STATE) : bool :=
  match h with
  | TLS_ST_SW_CHANGE | DTLS_ST_SW_HELLO_VERIFY_REQUEST | TLS_ST_SW_HELLO_REQ
  | TLS_ST_SW_SRVR_HELLO | TLS_ST_SW_CERT | TLS_ST_SW_COMP_CERT | TLS_ST_SW_CERT_VRFY
  | TLS_ST_SW_KEY_EXCH | TLS_ST_SW_CERT_REQ | TLS_ST_SW_SRVR_DONE | TLS_ST_SW_SESSION_TICKET
  | TLS_ST_SW_CERT_STATUS | TLS_ST_SW_FINISHED | TLS_ST_EARLY_DATA
  | TLS_ST_SW_ENCRYPTED_EXTENSIONS | TLS_ST_SW_KEY_UPDATE => true
  | _ => false
  end.

Lemma client_write_state (s s' : SSL W) :
  ossl_statem_client_write_transition s = (Ok WRITE_TRAN_CONTINUE, s') ->
  client_sends (hand s') || client_pauses (hand s') = true.
Proof.
  unfold ossl_statem_client_write_transition, st_if.
  destruct (SSL_IS_TLS13 s).
  - unfold ossl_statem_client13_write_transition, client13_after_change, client_send_cert, write_tran_fatal,
      continue_in, stamp_read, move, SSLfatal, st_if, st_lift, st_bind, st_put, st_ret.
    destruct (hand s); intros E; simplify_eq/=; repeat (case_match; simplify_eq/=); done.
  - unfold client_write_pre13, write_tran_fatal,
      continue_in, stamp_read, stamp_write, move, SSLfatal, st_try, st_if, st_lift, st_bind, st_put, st_ret.
    destruct (hand s); intros E; simplify_eq/=; repeat (case_match; simplify_eq/=); done.
Qed.

Lemma server_write_state (s s' : SSL W) :
  ossl_statem_server_write_transition s = (Ok WRITE_TRAN_CONTINUE, s') ->
  server_sends (hand s') || bool_decide (hand s' = TLS_ST_OK) = true.
Proof.
  unfold ossl_statem_server_write_transition, st_if.
  destruct (SSL_IS_TLS13 s).
  - unfold ossl_statem_server13_write_transition, server_send_cert, write_tran_fatal,
      continue_in, stamp_read, stamp_write, move, SSLfatal, st_if, st_lift, st_bind, st_put, st_ret.
    destruct (hand s) eqn:Eh; intros E; simplify_eq/=; repeat (case_match; simplify_eq/=); try done; by rewrite Eh.
  - unfold server_write_pre13, server_after_cert_status, server_after_key_exch, write_tran_fatal,
      continue_in, stamp_read, stamp_write, move, SSLfatal, st_try, st_if, st_lift, with_cipher, st_bind,
      st_put, st_ret.
    destruct (hand s); intros E; simplify_eq/=; repeat (case_match; simplify_eq/=); done.
Qed.
End DispatchTheorems.

(** Every message type a read transition lets pass has a handler: after a
    successful transition, on either side and in every version,
    [process_message] calls the handler of the new state and never runs into
    the internal-error default. *)
Lemma read_dispatch_total {W} `{Callees W} (srv : bool) (mt : Z) (s s' : SSL W)
  (Hr : read_transition srv mt s = (Ok tt, s')) :
  exists f, forall pkt, process_message srv pkt s'
    = (Ok (fst (process_call f pkt s')), snd (process_call f pkt s')).
Proof.
  unfold process_message. destruct srv; simpl in Hr.
  - destruct (server_read_lands mt s _ _ Hr) as [f Hf]. exists f. intros pkt.
    unfold ossl_statem_server_process_message. rewrite Hf. by destruct (process_call f pkt s').
  - destruct (client_read_lands mt s _ _ Hr) as [f Hf]. exists f. intros pkt.
    unfold ossl_statem_client_process_message. rewrite Hf. by destruct (process_call f pkt s').
Qed.

Lemma read_dispatch_total_witness :
  let s := sample_ssl TLS_ST_CR_SRVR_HELLO TLS1_2_VERSION ecdhe_rsa in
  exists f, forall pkt, process_message false pkt (upd_st (set_hand_state TLS_ST_CR_CERT) s)
    = (Ok (fst (process_call f pkt (upd_st (set_hand_state TLS_ST_CR_CERT) s))),
       snd (process_call f pkt (upd_st (set_hand_state TLS_ST_CR_CERT) s))).
Proof. intros s. by apply (read_dispatch_total false SSL3_MT_CERTIFICATE s). Defined.
