(* ===== verification/StatemOutcome.v ===== *)
(** * Outcomes of the message flow

    What [state_machine] can return and in which state it leaves the
    connection; that constructing a message never runs into the internal-error
    default; that a rejected message closes the connection for good; and that
    the nesting counter is restored. *)

From stdpp Require Import prelude.
From Stdlib Require Import ZArith Lia.
From S2P Require Import Prelude Packet Buffer WPacket StatemTypes StatemLib StatemClnt.
From S2P Require Import StatemSrvr Statem StatemFlow.

Local Open Scope Z_scope.
Local Open Scope st_scope.

(** ** Postconditions of successful runs *)

Section Yields.
Context {W : Type}.
Local Abbreviation S := (SSL W).

(** Every successful result of [m] from [s] satisfies [Q]. *)
Definition yields {A} (Q : A -> S -> Prop) (m : ST S A) (s : S) : Prop :=
  forall a s', m s = (Ok a, s') -> Q a s'.

Lemma yields_ret {A} (Q : A -> S -> Prop) a s : Q a s -> yields Q (st_ret a) s.
Proof. by intros Hq ? ? [= <- <-]. Qed.
Lemma yields_put (Q : unit -> S -> Prop) f s : Q tt (f s) -> yields Q (st_put f) s.
Proof. by intros Hq ? ? [= <- <-]. Qed.
Lemma yields_get {A} (Q : A -> S -> Prop) f s : Q (f s) s -> yields Q (st_get f) s.
Proof. by intros Hq ? ? [= <- <-]. Qed.
Lemma yields_fail {A} (Q : A -> S -> Prop) s : yields Q st_fail s.
Proof. done. Qed.

Lemma yields_seq {A B} (Q : B -> S -> Prop) (m : ST S A) (f : A -> ST S B) s :
  yields (fun a s' => yields Q (f a) s') m s -> yields Q (st_bind m f) s.
Proof.
  intros Hm b s' E. unfold st_bind in E. destruct (m s) as [[a| |] s1] eqn:Em; simplify_eq.
  by eapply (Hm a s1).
Qed.

(** When nothing about the first part matters. *)
Lemma yields_after {A B} (Q : B -> S -> Prop) (m : ST S A) (f : A -> ST S B) s :
  (forall a s', yields Q (f a) s') -> yields Q (st_bind m f) s.
Proof. intros Hf. apply yields_seq. intros a s' _. apply Hf. Qed.

Lemma yields_if {A} (Q : A -> S -> Prop) c (k e : ST S A) s :
  yields Q k s -> yields Q e s -> yields Q (st_if c k e) s.
Proof. unfold st_if, yields. intros Hk He a s'. destruct (c s); [apply Hk|apply He]. Qed.

Lemma yields_weaken {A} (Q Q' : A -> S -> Prop) m s :
  yields Q m s -> (forall a s', Q a s' -> Q' a s') -> yields Q' m s.
Proof. intros Hm HQ a s' E. by apply HQ, Hm. Qed.

Lemma yields_true {A} (m : ST S A) s : yields (fun _ _ => True) m s.
Proof. done. Qed.

Lemma yields_with_session {A} (Q : A -> S -> Prop) (k : SSL_SESSION -> ST S A) s :
  (forall c, yields Q (k c) s) -> yields Q (with_session k) s.
Proof. intros Hk a s'. unfold with_session. destruct (session s); [apply Hk|done]. Qed.

Lemma yields_with_cipher {A} (Q : A -> S -> Prop) (k : SSL_CIPHER -> ST S A) s :
  (forall c, yields Q (k c) s) -> yields Q (with_cipher k) s.
Proof. intros Hk a s'. unfold with_cipher. destruct (new_cipher _); [apply Hk|done]. Qed.

(** A loop: [J] is an invariant, [Q] what holds when it is left. *)
Lemma yields_loop {A} (J : S -> Prop) (Q : A -> S -> Prop) n (step : ST S (option A)) s :
  (forall s, J s -> yields (fun r s' => match r with Some a => Q a s' | None => J s' end) step s) ->
  J s -> yields (fun r s' => match r with Some a => Q a s' | None => True end) (st_loop n step) s.
Proof.
  intros Hstep. revert s. induction n as [|n IH]; intros s Hj; simpl; [by apply yields_ret|].
  apply yields_seq. eapply yields_weaken; [by apply Hstep|].
  intros [a|] s' HQ; [by apply yields_ret|by apply IH].
Qed.
End Yields.

(** Read a goal about all successful results as a [yields]. *)
Ltac to_yields :=
  match goal with
  | |- forall a s', ?M ?s = (Ok a, s') -> @?Q a s' => change (yields Q M s)
  end.

(** Push [yields] through a computation of which only the last part matters. *)
Ltac yields_go :=
  repeat (intros; match goal with
  | |- yields _ (st_bind _ _) _ => apply yields_after
  | |- yields _ (st_ret _) _ => apply yields_ret
  | |- yields _ (st_put _) _ => apply yields_put
  | |- yields _ (st_get _) _ => apply yields_get
  | |- yields _ st_fail _ => apply yields_fail
  | |- yields _ (st_if _ _ _) _ => apply yields_if
  | |- yields _ (with_session _) _ => apply yields_with_session
  | |- yields _ (with_cipher _) _ => apply yields_with_cipher
  | |- yields _ (if ?b then _ else _) _ => destruct b
  | |- yields _ (match ?x with _ => _ end) _ => destruct x
  | |- yields ?Q (fun x => _) ?s =>
      unfold yields; cbv beta;
      match goal with |- forall a s', ?M s = (Ok a, s') -> _ => change (yields Q M s) end
  end).

Section Outcomes.
Context {W : Type} `{CalleesKeep W} `{Libc}.
Local Abbreviation SSL := (SSL W).

(** Finishing a handshake with [stop] set stops, outside of init, or is an
    error. *)
Definition finished_or_error (w : WORK_STATE) (s : SSL) : Prop :=
  (w = WORK_FINISHED_STOP /\ in_init (statem s) = false) \/ w = WORK_ERROR.

Lemma finish_handshake_stop c s : yields finished_or_error (tls_finish_handshake c true) s.
Proof.
  unfold tls_finish_handshake. apply yields_after; intros b s1. apply yields_after; intros [] s2.
  - apply yields_seq, yields_put, yields_ret. left. split; [done|].
    unfold finish_update, finish_notify. by destruct (_ || _ || _).
  - apply yields_ret. by right.
Qed.

Lemma finish_handshake_go c s :
  yields (fun w _ => w <> WORK_FINISHED_STOP) (tls_finish_handshake c false) s.
Proof. unfold tls_finish_handshake. by yields_go. Qed.

Lemma hand_core (s s' : SSL) : core s' = core s -> hand s' = hand s.
Proof. unfold core. intros. by simplify_eq. Qed.

Lemma kept_pre_work srv : kept core (pre_work (W := W) srv).
Proof. destruct srv; simpl; auto with kept. Qed.
Lemma kept_post_work srv : kept core (post_work (W := W) srv).
Proof. destruct srv; simpl; auto with kept. Qed.

(** Where the handshake can stop. *)
Definition stops (h : OSSL_HANDSHAKE_STATE) : Prop :=
  h = TLS_ST_OK \/ h = TLS_ST_EARLY_DATA \/ h = TLS_ST_PENDING_EARLY_DATA_END.

(** The handshake is over, or pauses for early data. *)
Definition at_rest (s : SSL) : Prop := in_init (statem s) = false /\ stops (hand s).

Lemma pre_work_stop srv s :
  yields (fun w s' => w = WORK_FINISHED_STOP -> in_init (statem s') = false /\ stops (hand s))
    (pre_work srv) s.
Proof.
  assert (F : forall c, stops (hand s) -> yields (fun w s' => w = WORK_FINISHED_STOP ->
              in_init (statem s') = false /\ stops (hand s)) (tls_finish_handshake c true) s).
  { intros c Hs. eapply yields_weaken; [apply finish_handshake_stop|]. intros w s' [[? ?]|E] ?; simplify_eq; auto. }
  unfold stops in F |- *. destruct srv; simpl.
  - unfold ossl_statem_server_pre_work, server_prepare_change, or_work. intros w s'.
    destruct (hand s) eqn:Eh; revert w s';
      to_yields;
      try (by yields_go); try (by apply F; auto).
    + destruct (_ && _ && _); [|by yields_go].
      eapply yields_weaken; [apply finish_handshake_go|]. intros w s' Hn Hw. by destruct (Hn Hw).
    + destruct (_ && _); [by yields_go|]. apply F; auto.
  - unfold ossl_statem_client_pre_work, or_work. intros w s'.
    destruct (hand s) eqn:Eh; revert w s';
      to_yields;
      try (by yields_go); try (by apply F; auto).
    destruct (_ || _); [by yields_go|]. apply F; auto.
Qed.

Lemma pre_work_at_rest srv s :
  yields (fun w s' => w = WORK_FINISHED_STOP -> at_rest s') (pre_work srv) s.
Proof.
  intros w s' E Hw. destruct (pre_work_stop srv s w s' E Hw) as [Hi Hs].
  pose proof (kept_pre_work srv s) as K. unfold kept_at in K. rewrite E in K. simpl in K.
  split; [done|]. by rewrite (hand_core _ _ K).
Qed.

(** States whose pre-work can only stop or fail. *)
Definition ends (srv : bool) (h : OSSL_HANDSHAKE_STATE) : bool :=
  if srv then bool_decide (h = TLS_ST_OK) else client_pauses h.

Lemma pre_work_ends srv s : ends srv (hand s) = true ->
  yields (fun w _ => w <> WORK_FINISHED_CONTINUE) (pre_work srv) s.
Proof.
  intros Hh. assert (F : forall c, yields (fun w _ => w <> WORK_FINISHED_CONTINUE)
                             (tls_finish_handshake c true) s).
  { intros c. eapply yields_weaken; [apply finish_handshake_stop|]. by intros w s' [[-> _]| ->]. }
  unfold yields, pre_work. destruct srv; simpl in Hh.
  - apply bool_decide_eq_true in Hh. unfold ossl_statem_server_pre_work. rewrite Hh. apply F.
  - unfold ossl_statem_client_pre_work. destruct (hand s); try done; apply F.
Qed.

Lemma construct_sends (srv : bool) (s : SSL) :
  (if srv then server_sends (hand s) else client_sends (hand s)) = true ->
  exists c, get_construct_message_f srv s = (Ok c, s).
Proof.
  unfold get_construct_message_f. destruct srv.
  - unfold ossl_statem_server_construct_message. destruct (hand s); try done; by eexists.
  - unfold ossl_statem_client_construct_message. destruct (hand s); try done;
      try (destruct (SSL_IS_QUIC s)); by eexists.
Qed.

Lemma write_transition_state (srv : bool) (s s' : SSL) : write_transition srv s = (Ok WRITE_TRAN_CONTINUE, s') ->
  (if srv then server_sends (hand s') else client_sends (hand s')) = true
  \/ ends srv (hand s') = true.
Proof.
  unfold write_transition, ends. destruct srv; intros E.
  - apply orb_true_iff. by apply (server_write_state s).
  - apply orb_true_iff. by apply (client_write_state s).
Qed.

(** *** The sub-machines *)

Lemma post_work_no_stop srv s : yields (fun w _ => w <> WORK_FINISHED_STOP) (post_work srv) s.
Proof.
  destruct srv; simpl.
  - unfold ossl_statem_server_post_work, server_activate_keys, server_after_finished,
      server_after_ticket, or_work. yields_go; done.
  - unfold ossl_statem_client_post_work, client_activate_write_keys, or_work. yields_go; done.
Qed.

(** The writer ends the handshake only at rest. *)
Definition ended_ok (r : option SUB_STATE_RETURN) (s : SSL) : Prop :=
  match r with Some SUB_STATE_END_HANDSHAKE => at_rest s | _ => True end.

Lemma write_post_work_ended srv s : yields ended_ok (write_post_work srv) s.
Proof.
  unfold write_post_work. apply yields_seq. eapply yields_weaken; [apply post_work_no_stop|].
  intros w s1 Hw. unfold again, leave. destruct w; by yields_go.
Qed.

Lemma write_send_ended srv s : yields ended_ok (write_send srv) s.
Proof.
  unfold write_send. apply yields_after. intros _ s1. unfold yields. destruct (statem_do_write s1) as [r s2].
  destruct (r <=? 0); [by apply yields_ret|]. apply yields_after. intros _ s3.
  apply write_post_work_ended.
Qed.

Lemma write_build_ended srv s : yields ended_ok (write_build srv) s.
Proof.
  unfold write_build, again, leave. apply yields_after. intros [[f mt]|] s1; [|by yields_go].
  destruct (_ =? _); [by yields_go|]. apply yields_after.
  intros [] s2; try (by yields_go). apply write_send_ended.
Qed.

Lemma write_step_ended srv s : yields ended_ok (write_step srv) s.
Proof.
  unfold yields, write_step. destruct (write_state (statem s)).
  - change (yields ended_ok (write_tran srv) s). unfold write_tran, again, leave. by yields_go.
  - change (yields ended_ok (write_pre_work srv) s). unfold write_pre_work, again, leave.
    apply yields_seq.
    eapply yields_weaken; [apply pre_work_at_rest|]. intros w s1 Hw. apply yields_seq, yields_put.
    destruct w; try (by yields_go).
    + apply yields_ret. by apply Hw.
    + apply yields_after. intros _ s2. apply write_build_ended.
  - apply write_send_ended.
  - apply write_post_work_ended.
Qed.

Lemma write_machine_ended n s : yields ended_ok (write_state_machine n) s.
Proof.
  unfold write_state_machine. apply yields_after. intros srv s1.
  eapply yields_weaken; [apply (yields_loop (fun _ => True) (fun a => ended_ok (Some a)))|]; [|done|].
  - intros s2 _. eapply yields_weaken; [apply write_step_ended|]. by intros [a|] s3.
  - by intros [a|] s3.
Qed.

(** *** The main loop *)

Definition flow_ok (s : SSL) : Prop := state (statem s) = MSG_FLOW_FINISHED -> at_rest s.

(** The result of the loop: success only in the finished state, at rest. *)
Definition result_ok (r : option Z) (s : SSL) : Prop :=
  match r with
  | Some r => r = -1 \/ (r = 1 /\ state (statem s) = MSG_FLOW_FINISHED /\ at_rest s)
  | None => True
  end.

Lemma flow_step_ok n s : flow_ok s ->
  yields (fun r s' => match r with Some a => result_ok a s' | None => flow_ok s' end) (flow_step n) s.
Proof.
  intros Hf. unfold yields, flow_step. destruct (state (statem s)) eqn:E.
  - apply yields_after. intros _ s1. apply yields_ret. by left.
  - apply yields_after. intros _ s1. apply yields_ret. by left.
  - apply yields_after. intros [[]|] s1; try (apply yields_ret; (by left) || done).
  - apply yields_seq. eapply yields_weaken; [apply write_machine_ended|].
    intros [[]|] s1 He; try (apply yields_ret; (by left) || done).
    apply yields_seq, yields_put, yields_ret. by intros _.
  - apply yields_ret. right. split_and!; [done|done|by apply Hf].
Qed.

Lemma init_flow_ok srv s : yields (fun ok s' => ok = true -> flow_ok s') (st_try (init_flow srv)) s.
Proof.
  intros ok s' E Hok. unfold st_try in E.
  destruct (init_flow srv s) as [[u| |] s1] eqn:Ei; simplify_eq. revert u s' Ei. change (yields (fun _ s => flow_ok s) (init_flow srv) s).
  unfold init_flow. do 11 (apply yields_after; intros ? ?).
  apply yields_seq, yields_put, yields_put. done.
Qed.

(** What happens between entering and leaving [state_machine]. *)
Definition flow_body (n : nat) (srv : bool) : ST SSL (option Z) :=
  ready <~ st_if needs_init (st_try (init_flow srv)) (st_ret true) ;;
  if negb ready then flow_end srv (Some (-1))
  else r <~ st_loop n (flow_step n) ;;
       flow_end srv (match r with Some r => r | None => None end).

Definition wants_clear (s : SSL) : bool :=
  (negb (SSL_in_init s) || SSL_in_before s) && negb (has (s3_flags (s3 s)) TLS1_FLAGS_STATELESS).

Definition flow_enter (s : SSL) : SSL :=
  ossl_statem_set_in_handshake true (upd_rest clear_sys_error s).

Lemma state_machine_eq n srv s : is_error s = false ->
  state_machine n srv s
  = (cleared <~ st_if wants_clear (st_try SSL_clear_not_quic) (st_ret true) ;;
     if negb cleared then st_ret (Some (-1)) else flow_body n srv) (flow_enter s).
Proof. intros He. unfold state_machine. by rewrite He. Qed.

Lemma flow_end_ok srv r s : result_ok r s -> yields result_ok (flow_end srv r) s.
Proof.
  intros Hr. unfold flow_end. apply yields_seq, yields_put. destruct r as [r|]; [|by apply yields_ret].
  apply yields_seq, yields_put, yields_ret. exact Hr.
Qed.

Lemma flow_body_ok n srv s : yields result_ok (flow_body n srv) s.
Proof.
  unfold flow_body. apply yields_seq.
  assert (J : yields (fun ok s' => ok = true -> flow_ok s')
                (st_if needs_init (st_try (init_flow srv)) (st_ret true)) s).
  { unfold st_if, yields. destruct (needs_init s) eqn:En; [apply init_flow_ok|].
    intros ok s' [= <- <-] _ Hs. unfold needs_init in En. apply orb_false_iff in En as [_ En].
    by apply bool_decide_eq_false in En. }
  eapply yields_weaken; [exact J|]. intros [] s1 Hj; simpl; [|by apply flow_end_ok; left].
  apply yields_seq. eapply yields_weaken.
  { apply (yields_loop flow_ok result_ok); [apply flow_step_ok|by apply Hj]. }
  intros [r|] s2 Hr; by apply flow_end_ok.
Qed.
End Outcomes.

(** Every state a write transition moves to can be written: when the
    transition says to continue and the pre-work of the new state lets it,
    [construct_message] finds the constructor and the type of the message, and
    never runs into the internal-error default. *)
Lemma write_dispatch_total {W} `{CalleesKeep W} (srv : bool) (s s1 s2 s3 : SSL W)
  (Ht : write_transition srv s = (Ok WRITE_TRAN_CONTINUE, s1)) (Hh : hand s2 = hand s1)
  (Hp : pre_work srv s2 = (Ok WORK_FINISHED_CONTINUE, s3)) :
  exists c, get_construct_message_f srv s3 = (Ok c, s3).
Proof.
  apply construct_sends. pose proof (kept_pre_work srv s2) as K. unfold kept_at in K.
  rewrite Hp in K. apply hand_core in K. simpl in K. rewrite K, Hh.
  apply write_transition_state in Ht as [Ht|Ht]; [done|]. rewrite <- Hh in Ht.
  by destruct (pre_work_ends srv s2 Ht _ _ Hp).
Qed.

Lemma write_dispatch_total_witness :
  let s := sample_ssl TLS_ST_CR_SRVR_DONE TLS1_2_VERSION ecdhe_rsa in
  exists s1 s2 c, write_transition false s = (Ok WRITE_TRAN_CONTINUE, s1)
    /\ pre_work false s1 = (Ok WORK_FINISHED_CONTINUE, s2)
    /\ get_construct_message_f false s2 = (Ok c, s2).
Proof.
  intros s. set (s1 := snd (write_transition false s)). set (s2 := snd (pre_work false s1)).
  destruct (write_dispatch_total false s s1 s1 s2) as [c Hc]; [done|done|done|].
  by exists s1, s2, c.
Defined.



(** ** Rejected messages *)

Section Rejected.
Context {W : Type} `{CalleesKeep W}.
Local Abbreviation SSL := (SSL W).

Lemma fatal_is_error al (s : SSL) : is_error (ossl_statem_fatal al s) = true.
Proof.
  unfold ossl_statem_fatal, ossl_statem_send_fatal.
  destruct (in_init (statem s) && is_error s) eqn:E; [by apply andb_true_iff in E as [_ ?]|].
  destruct (_ =? _); unfold is_error; [done|]. by rewrite k_alert_state.
Qed.

(** An error for good, or the DTLS exception: an early ChangeCipherSpec is
    dropped and the read retried. *)
Definition rejected (mt : Z) (s : SSL) : Prop :=
  is_error s = true
  \/ (SSL_IS_DTLS s = true /\ mt = SSL3_MT_CHANGE_CIPHER_SPEC /\ rwstate s = SSL_READING
      /\ init_num s = 0).

Lemma no_valid_transition_rejects mt (s s' : SSL) :
  no_valid_transition mt s = (Fail, s') -> rejected mt s'.
Proof.
  unfold no_valid_transition. destruct (_ && _) eqn:E.
  - intros [= <-]. right. apply andb_true_iff in E as [? ?%Z.eqb_eq]. done.
  - intros [= <-]. left. apply fatal_is_error.
Qed.

Lemma or_no_transition_rejects mt m (s s' : SSL) :
  or_no_transition mt m s = (Fail, s') -> rejected mt s'.
Proof.
  unfold or_no_transition, st_bind, st_try.
  destruct (m s) as [[u| |] s1]; try done. apply no_valid_transition_rejects.
Qed.

Lemma read_transition_rejects srv mt (s s' : SSL) :
  read_transition srv mt s = (Fail, s') -> rejected mt s'.
Proof.
  destruct srv; simpl; [|apply or_no_transition_rejects].
  unfold ossl_statem_server_read_transition.
  destruct (SSL_IS_TLS13 s); [apply or_no_transition_rejects|].
  destruct (hand s); try apply or_no_transition_rejects.
  unfold server_read_srvr_done, move, SSLfatal, st_bind, st_put, st_ret, st_fail.
  intros E. repeat (case_match; simplify_eq/=);
    try (by eapply no_valid_transition_rejects). left. apply fatal_is_error.
Qed.
End Rejected.

(** C22.  A handshake message that is not allowed in the current state ends
    the connection: the reader reports an error, and from then on every call
    of [state_machine] fails without changing anything.  The one exception is
    a ChangeCipherSpec over DTLS, which may be a reordered record: it is
    dropped and the caller told to retry the read. *)
Theorem rejected_message_fatal {W} `{CalleesKeep W} `{Libc} (srv : bool) (mt : Z) (s s0 s1 : SSL W)
  (Hm : get_message s = (Some mt, s0))
  (Hr : read_transition srv mt (snd (notify_loop s0)) = (Fail, s1)) :
  read_header srv s = (Ok (Some SUB_STATE_ERROR), s1)
  /\ ((forall n srv', state_machine n srv' s1 = (Ok (Some (-1)), s1))
      \/ (SSL_IS_DTLS s1 = true /\ mt = SSL3_MT_CHANGE_CIPHER_SPEC /\ rwstate s1 = SSL_READING
          /\ init_num s1 = 0)).
Proof.
  split.
  - unfold read_header. rewrite Hm. unfold st_bind at 1. simpl in Hr |- *.
    unfold st_bind, st_try. by rewrite Hr.
  - destruct (read_transition_rejects _ _ _ _ Hr) as [He|?]; [left|by right].
    intros n srv'. unfold state_machine. by rewrite He.
Qed.

Lemma rejected_message_fatal_witness :
  let s := set_rest [SSL3_MT_FINISHED] (sample_ssl TLS_ST_CR_SRVR_HELLO TLS1_2_VERSION ecdhe_rsa) in
  exists s1, read_header (H0 := zero_libc) false s = (Ok (Some SUB_STATE_ERROR), s1) /\ is_error s1 = true.
Proof.
  intros s. set (s0 := set_rest [] s).
  set (s1 := snd (read_transition false SSL3_MT_FINISHED (snd (notify_loop s0)))).
  exists s1. split; [|reflexivity].
  by apply (rejected_message_fatal (H1 := zero_libc) false SSL3_MT_FINISHED s s0 s1).
Defined.

(** ** The nesting counter *)

Section Depth.
Context {W : Type} `{CalleesKeep W} `{Libc}.
Local Abbreviation SSL := (SSL W).

Lemma depth_core {A} (m : ST SSL A) : kept core m -> kept depth m.
Proof. intros K s. apply (kept_at_part core (fun c => snd c)), K. Qed.
Lemma depth_core_fn (f : SSL -> SSL) : kept_fn core f -> kept_fn depth f.
Proof. intros K s. pose proof (K s) as E. unfold core in E. unfold depth. congruence. Qed.
Lemma depth_place (s s' : SSL) : place s' = place s -> depth s' = depth s.
Proof. unfold place, depth. congruence. Qed.
Lemma depth_of_core (s s' : SSL) : core s' = core s -> depth s' = depth s.
Proof. unfold core, depth. congruence. Qed.

Hint Extern 2 (kept depth _) => apply depth_core; solve [auto with kept] : kept.
Hint Extern 2 (kept_fn depth _) => apply depth_core_fn; solve [auto with kept] : kept.
Hint Resolve kept_pre_work kept_post_work k_clear : kept.

Lemma depth_move h : kept depth (move (W := W) h).
Proof. by intros s. Qed.
Lemma depth_no_transition mt : kept depth (no_valid_transition (W := W) mt).
Proof.
  intros s. unfold kept_at, no_valid_transition. destruct (_ && _); [done|].
  change (kept_at depth (SSLfatal SSL3_AD_UNEXPECTED_MESSAGE ;;; st_fail (A := unit)) s). kept_go.
Qed.
Hint Resolve depth_move depth_no_transition : kept.

Lemma depth_read_transition srv mt : kept depth (read_transition (W := W) srv mt).
Proof.
  destruct srv; simpl.
  - unfold ossl_statem_server_read_transition, or_no_transition,
      ossl_statem_server13_read_transition, server13_read_flight, server_read_pre13,
      server_read_srvr_done. kept_go.
  - unfold ossl_statem_client_read_transition, or_no_transition,
      ossl_statem_client13_read_transition, client_read_pre13, client_read_srvr_hello,
      client_read_cert, client_read_cert_status, client_read_key_exch, client_read_cert_req. kept_go.
Qed.

(** Writing does not change the protocol version either. *)
Definition frame (s : SSL) := (method_version s, method_dtls s, in_handshake (statem s)).

Lemma frame_core {A} (m : ST SSL A) : kept core m -> kept frame m.
Proof.
  intros K s. specialize (K s). unfold kept_at, core, frame in *. congruence.
Qed.
Lemma frame_move h : kept frame (move (W := W) h).
Proof. by intros s. Qed.
Lemma frame_renegotiate_check i : kept frame (ssl3_renegotiate_check (W := W) i).
Proof. intros s. unfold kept_at, ssl3_renegotiate_check. by repeat case_match. Qed.
Hint Extern 2 (kept frame _) => apply frame_core; solve [auto with kept] : kept.
Hint Resolve frame_move frame_renegotiate_check : kept.

Lemma frame_write_transition srv : kept frame (write_transition (W := W) srv).
Proof.
  destruct srv; simpl.
  - unfold ossl_statem_server_write_transition, ossl_statem_server13_write_transition,
      server_write_pre13, server_after_cert_status, server_after_key_exch, server_send_cert,
      write_tran_fatal, continue_in. kept_go.
  - unfold ossl_statem_client_write_transition, ossl_statem_client13_write_transition,
      client13_after_change, client_write_pre13, client_send_cert, write_tran_fatal, continue_in.
    kept_go.
Qed.

Lemma depth_write_transition srv : kept depth (write_transition (W := W) srv).
Proof. intros s. apply (kept_at_part frame (fun c => snd c)), frame_write_transition. Qed.
Hint Resolve depth_read_transition depth_write_transition : kept.

Lemma depth_get_message (s : SSL) : depth (snd (get_message s)) = depth s.
Proof.
  apply depth_place. unfold get_message. destruct (SSL_IS_DTLS s); [apply k_get_dtls|].
  destruct (SSL_IS_QUIC s); [apply k_get_quic|apply k_get_tls].
Qed.
Lemma depth_get_message_body (s : SSL) : depth (snd (get_message_body s)) = depth s.
Proof.
  apply depth_place. unfold get_message_body. destruct (SSL_IS_DTLS s); [apply k_body_dtls|].
  destruct (SSL_IS_QUIC s); [apply k_body_quic|apply k_body_tls].
Qed.

Lemma depth_process srv pkt : kept depth (process_message (W := W) srv pkt).
Proof.
  intros s. unfold kept_at, process_message. destruct srv.
  - unfold ossl_statem_server_process_message. destruct (server_process_fn _) as [f|].
    + pose proof (k_process f pkt s) as K. destruct (process_call f pkt s). by apply depth_place.
    + by apply (depth_core_fn _ (kept_fatal _)).
  - unfold ossl_statem_client_process_message. destruct (client_process_fn _) as [f|].
    + pose proof (k_process f pkt s) as K. destruct (process_call f pkt s). by apply depth_place.
    + by apply (depth_core_fn _ (kept_fatal _)).
Qed.

Lemma depth_post_process srv w : kept depth (post_process_message (W := W) srv w).
Proof.
  intros s. unfold kept_at, post_process_message. destruct srv.
  - unfold ossl_statem_server_post_process_message. destruct (server_post_process_fn _) as [f|].
    + pose proof (k_post_process f w s) as K. destruct (post_process_call f w s). by apply depth_place.
    + by apply (depth_core_fn _ (kept_fatal _)).
  - unfold ossl_statem_client_post_process_message. destruct (client_post_process_fn _) as [f|].
    + pose proof (k_post_process f w s) as K. destruct (post_process_call f w s). by apply depth_place.
    + by apply (depth_core_fn _ (kept_fatal _)).
Qed.

Lemma depth_grow n : kept depth (grow_init_buf (W := W) n).
Proof. intros s. unfold kept_at, grow_init_buf. by repeat case_match. Qed.
Hint Resolve depth_process depth_post_process depth_grow : kept.

Lemma depth_stop_timer : kept depth (stop_timer (W := W)).
Proof. unfold stop_timer. kept_go. Qed.
Hint Resolve depth_stop_timer : kept.

Lemma depth_read_body srv : kept depth (read_body (W := W) srv).
Proof.
  intros s. unfold kept_at, read_body. pose proof (depth_get_message_body s) as K.
  destruct (get_message_body s) as [[len|] s1]; simpl in K; rewrite <- K; [|done].
  set (s2 := set_first_packet false s1). change (depth s1) with (depth s2).
  destruct (PACKET_buf_init _ _) as [pkt| |]; [..|done];
    (match goal with |- depth (snd (?m s2)) = _ => change (kept_at depth m s2) end);
    unfold leave, again; kept_go.
Qed.
Hint Resolve depth_read_body : kept.

Lemma depth_read_step srv : kept depth (read_step (W := W) srv).
Proof.
  intros s. unfold kept_at, read_step. destruct (read_state _).
  - unfold read_header. pose proof (depth_get_message s) as K.
    destruct (get_message s) as [[mt|] s1]; simpl in K; rewrite <- K; [|done].
    match goal with |- depth (snd (?m s1)) = _ => change (kept_at depth m s1) end.
    unfold leave, notify_loop. kept_go.
  - apply depth_read_body.
  - match goal with |- depth (snd (?m s)) = _ => change (kept_at depth m s) end.
    unfold read_post_process, leave, again. kept_go.
Qed.
Hint Resolve depth_read_step : kept.

Lemma core_construct f mt : kept core (construct_message (W := W) f mt).
Proof.
  intros s. unfold kept_at, construct_message. destruct (init_buf s) as [b|]; [|done].
  destruct (WPACKET_init b uninit_WPACKET) as [[u| |] p1]; [|done..].
  pose proof (k_header mt p1 s) as K1.
  destruct (ssl_set_handshake_header mt p1 s) as [[ok p2] s2]. simpl in K1.
  destruct ok; [|done]. simpl.
  assert (K2 : core (snd (match f with Some f => confunc_call f p2 s2
                           | None => (CON_FUNC_SUCCESS, p2, s2) end)) = core s).
  { rewrite <- K1. destruct f as [f|]; [apply k_confunc|done]. }
  destruct (match f with Some f => _ | None => _ end) as [[r p3] s3]. simpl in K2.
  destruct r; [done| |done].
  pose proof (k_close mt p3 s3) as K3.
  destruct (ssl_close_construct_packet mt p3 s3) as [[ok p4] s4]. simpl in K3.
  rewrite K2 in K3. destruct ok; [|done]. simpl. by destruct (WPACKET_finish p4) as [[| |] ?].
Qed.
Hint Resolve core_construct : kept.

Lemma core_statem_do_write (s : SSL) : core (snd (statem_do_write s)) = core s.
Proof.
  unfold statem_do_write. destruct (_ || _); [|apply k_write].
  destruct (SSL_IS_DTLS s); [apply k_writed|apply k_write3].
Qed.

Lemma core_write_post_work srv : kept core (write_post_work (W := W) srv).
Proof. unfold write_post_work, leave, again. kept_go. Qed.
Hint Resolve core_write_post_work : kept.

Lemma core_write_send srv : kept core (write_send (W := W) srv).
Proof.
  intros s. unfold write_send. apply kept_bind; [kept_go|]. intros _ s1.
  unfold kept_at. rewrite <- (core_statem_do_write s1). destruct (statem_do_write s1) as [r s2].
  destruct (r <=? 0); [done|]. apply kept_bind; [by intros|]. intros _ s3. apply core_write_post_work.
Qed.
Hint Resolve core_write_send : kept.

Lemma core_get_construct srv : kept core (get_construct_message_f (W := W) srv).
Proof.
  unfold get_construct_message_f. destruct srv.
  - unfold ossl_statem_server_construct_message. kept_go.
  - unfold ossl_statem_client_construct_message. kept_go.
Qed.
Hint Resolve core_get_construct : kept.

Lemma depth_write_step srv : kept depth (write_step (W := W) srv).
Proof.
  unfold write_step, write_tran, write_pre_work, write_build, notify_loop, set_post_work_state,
    leave, again. kept_go.
Qed.
Hint Resolve depth_write_step : kept.

Lemma depth_fatal_no_alert : kept depth (fatal_no_alert (W := W)).
Proof. unfold fatal_no_alert. kept_go. Qed.
Hint Resolve depth_fatal_no_alert : kept.

Lemma depth_ensure_init_buf : kept depth (ensure_init_buf (W := W)).
Proof.
  intros s. unfold kept_at, ensure_init_buf. destruct (init_buf s); [done|].
  destruct BUF_MEM_new as [b|]; [|apply depth_fatal_no_alert].
  destruct (BUF_MEM_grow _ b) as [[r| |] b']; [|apply depth_fatal_no_alert|done].
  destruct (r =? 0); [apply depth_fatal_no_alert|done].
Qed.
Hint Resolve depth_ensure_init_buf : kept.

Lemma depth_init_flow srv : kept depth (init_flow (W := W) srv).
Proof. unfold init_flow. kept_go. Qed.
Hint Resolve depth_init_flow : kept.

Lemma depth_flow_step n : kept depth (flow_step (W := W) n).
Proof. unfold flow_step, read_state_machine, write_state_machine. kept_go. Qed.
Hint Resolve depth_flow_step : kept.

Lemma depth_flow_end srv r (s : SSL) : yields (fun _ s' => depth s' = depth s - 1) (flow_end srv r) s.
Proof.
  unfold flow_end. apply yields_seq, yields_put. destruct r; [apply yields_seq, yields_put|];
    by apply yields_ret.
Qed.

Lemma yields_kept {A} (m : ST SSL A) s : kept depth m -> yields (fun _ s' => depth s' = depth s) m s.
Proof. intros K a s' E. pose proof (K s) as Ks. unfold kept_at in Ks. by rewrite E in Ks. Qed.

Lemma depth_flow_body n srv (s : SSL) :
  yields (fun _ s' => depth s' = depth s - 1) (flow_body n srv) s.
Proof.
  unfold flow_body. apply yields_seq. eapply yields_weaken; [apply yields_kept; kept_go|].
  intros ready s1 E1. cbv beta in E1. rewrite <- E1. destruct ready; [|apply depth_flow_end].
  simpl. apply yields_seq. eapply yields_weaken; [apply yields_kept; kept_go|].
  intros r s2 E2. cbv beta in E2. rewrite <- E2. apply depth_flow_end.
Qed.
End Depth.

(** Whether entering [state_machine] clears the connection and that fails. *)
Definition clear_fails {W} `{Callees W} (s : SSL W) : bool :=
  negb (is_error s) && wants_clear (flow_enter s)
  && match fst (SSL_clear_not_quic (flow_enter s)) with Fail => true | _ => false end.

(** [state_machine] restores the nesting counter [in_handshake] on every
    way out but one: when the [SSL_clear] at its start fails, the function
    returns before the decrement and the counter stays one too high. *)
Theorem in_handshake_restored {W} `{CalleesKeep W} `{Libc} (n : nat) (srv : bool) (s s' : SSL W)
  (r : option Z) (Hr : state_machine n srv s = (Ok r, s')) :
  ossl_statem_get_in_handshake s'
  = ossl_statem_get_in_handshake s + (if clear_fails s then 1 else 0).
Proof.
  unfold clear_fails. destruct (is_error s) eqn:He.
  { unfold state_machine in Hr. rewrite He in Hr. simplify_eq/=. lia. }
  rewrite state_machine_eq in Hr by done. revert Hr. unfold st_bind, st_if, st_try.
  assert (E0 : depth (flow_enter s) = depth s + 1) by done.
  set (s0 := flow_enter s) in *. destruct (wants_clear s0) eqn:Ew; simpl.
  - pose proof (k_clear s0) as K. unfold kept_at in K.
    destruct (SSL_clear_not_quic s0) as [[u| |] s1]; simpl in K |- *; intros Hr; [| |done].
    + pose proof (depth_flow_body _ _ _ _ _ Hr) as E. cbv beta in E. unfold depth in *.
      unfold ossl_statem_get_in_handshake. lia.
    + unfold st_ret in Hr. simplify_eq. unfold depth in *. unfold ossl_statem_get_in_handshake. lia.
  - intros Hr. pose proof (depth_flow_body _ _ _ _ _ Hr) as E. cbv beta in E. unfold depth in *.
    unfold ossl_statem_get_in_handshake. lia.
Qed.

Lemma in_handshake_restored_witness :
  let s := upd_st (set_state MSG_FLOW_WRITING)
             (set_server true (sample_ssl TLS_ST_SW_FINISHED TLS1_2_VERSION ecdhe_rsa)) in
  ossl_statem_get_in_handshake (snd (state_machine (H0 := zero_libc) 10 true s)) = 0.
Proof.
  intros s. rewrite (in_handshake_restored (H1 := zero_libc) 10 true s
    (snd (state_machine (H0 := zero_libc) 10 true s)) (Some 1)); vm_compute; reflexivity.
Defined.
