(* ===== verification/StatemTerm.v ===== *)
(** * Termination of the sub-machines

    The C loops of [read_state_machine] and [write_state_machine] have no
    bound.  The reader stops because every round consumes a message; the
    writer because every round moves to a later message of the flight. *)

From stdpp Require Import prelude.
From Stdlib Require Import ZArith Lia.
From S2P Require Import Prelude Packet Buffer WPacket StatemTypes StatemLib StatemClnt.
From S2P Require Import StatemSrvr Statem StatemFlow StatemOutcome.

Local Open Scope Z_scope.
Local Open Scope st_scope.

(** A loop whose step decreases a measure when it goes round again. *)
Lemma yields_loop_measure {W A} (mu : SSL W -> nat) (J : SSL W -> Prop)
  (step : ST (SSL W) (option A)) n s :
  (forall s, J s -> yields (fun r s' => r = None -> J s' /\ (mu s' < mu s)%nat) step s) ->
  J s -> (mu s < n)%nat -> yields (fun r _ => r <> None) (st_loop n step) s.
Proof.
  intros Hstep. revert s. induction n as [|n IH]; intros s Hj Hn; [lia|]. simpl.
  apply yields_seq. eapply yields_weaken; [by apply Hstep|].
  intros [a|] s' Hr; [by apply yields_ret|]. destruct (Hr eq_refl). apply IH; [done|lia].
Qed.

(** ** The reader *)

(** [mu] bounds the messages the peer has still to deliver: getting a message
    uses one up, and nothing on the way to the next one adds any. *)
Class Drains (W : Type) `{Callees W} (mu : W -> nat) : Prop := {
  d_tls s mt s' : tls_get_message_header s = (Some mt, s') -> (mu (rest s') < mu (rest s))%nat;
  d_dtls s mt s' : dtls_get_message s = (Some mt, s') -> (mu (rest s') < mu (rest s))%nat;
  d_quic s mt s' : quic_get_message s = (Some mt, s') -> (mu (rest s') < mu (rest s))%nat;
  d_tls_body s : (mu (rest (snd (tls_get_message_body s))) <= mu (rest s))%nat;
  d_dtls_body s : (mu (rest (snd (dtls_get_message_body s))) <= mu (rest s))%nat;
  d_quic_body s : (mu (rest (snd (quic_get_message_body s))) <= mu (rest s))%nat;
  d_process f p s : (mu (rest (snd (process_call f p s))) <= mu (rest s))%nat;
  d_post_process f w s : (mu (rest (snd (post_process_call f w s))) <= mu (rest s))%nat;
  d_restore s : mu (rest (snd (tls13_restore_handshake_digest_for_pha s))) = mu (rest s);
  d_info a b w : (mu (info_callback a b w) <= mu w)%nat
}.

#[global] Instance quiet_drains : Drains (list Z) length.
Proof.
  split; try (intros; simpl; lia);
    (simpl; unfold next_type; intros s mt s'; destruct (rest s); [done|]; intros [= <- <-]; simpl; lia).
Qed.

Section Reader.
Context {W : Type} `{Callees W} (mu : W -> nat) `{!Drains W mu} `{Libc}.
Local Abbreviation SSL := (SSL W).

Definition left (s : SSL) : nat := mu (rest s).

Lemma get_message_left (s : SSL) mt s' : get_message s = (Some mt, s') -> (left s' < left s)%nat.
Proof.
  unfold get_message, left. destruct (SSL_IS_DTLS s); [apply d_dtls|].
  destruct (SSL_IS_QUIC s); [apply d_quic|apply d_tls].
Qed.
Lemma get_message_body_left (s : SSL) : (left (snd (get_message_body s)) <= left s)%nat.
Proof.
  unfold get_message_body, left. destruct (SSL_IS_DTLS s); [apply d_dtls_body|].
  destruct (SSL_IS_QUIC s); [apply d_quic_body|apply d_tls_body].
Qed.

Lemma left_move h : kept left (move (W := W) h).
Proof. by intros s. Qed.
Lemma left_restore : kept left (tls13_restore_handshake_digest_for_pha (W := W)).
Proof. intros s. apply d_restore. Qed.
Hint Resolve left_move left_restore : kept.

Lemma or_no_transition_left mt m (s : SSL) : kept_at left m s ->
  yields (fun _ s' => left s' = left s) (or_no_transition mt m) s.
Proof.
  intros K u s' E. unfold kept_at in K. unfold or_no_transition, st_bind, st_try, st_ret in E.
  destruct (m s) as [[| |] s1]; simplify_eq/=; [done|].
  by apply (lands_no_transition (fun _ => False)) in E.
Qed.

Lemma read_transition_left srv mt (s : SSL) :
  yields (fun _ s' => left s' = left s) (read_transition srv mt) s.
Proof.
  destruct srv; simpl.
  - unfold yields, ossl_statem_server_read_transition. destruct (SSL_IS_TLS13 s).
    { apply or_no_transition_left.
      unfold ossl_statem_server13_read_transition, server13_read_flight. kept_go. }
    destruct (hand s); try (apply or_no_transition_left; unfold server_read_pre13; kept_go).
    unfold server_read_srvr_done, SSLfatal, move, st_bind, st_put, st_ret, no_valid_transition.
    intros u s' E. repeat (case_match; simplify_eq/=); done.
  - apply or_no_transition_left.
    unfold ossl_statem_client13_read_transition, client_read_pre13, client_read_srvr_hello,
      client_read_cert, client_read_cert_status, client_read_key_exch, client_read_cert_req. kept_go.
Qed.

Lemma process_left srv pkt (s : SSL) :
  yields (fun r s' => r <> MSG_PROCESS_ERROR -> (left s' <= left s)%nat) (process_message srv pkt) s.
Proof.
  assert (P : forall f, (left (snd (process_call f pkt s)) <= left s)%nat) by (intros; apply d_process).
  unfold yields, process_message, ossl_statem_server_process_message,
    ossl_statem_client_process_message.
  intros r s' E Hr. destruct srv; (destruct (_ (hand s)) as [f|];
    [specialize (P f); destruct (process_call f pkt s); simplify_eq/=; done|];
    unfold st_bind, SSLfatal, st_put, st_ret in E; by simplify_eq).
Qed.

Lemma post_process_left srv w (s : SSL) :
  yields (fun r s' => r <> WORK_ERROR -> (left s' <= left s)%nat) (post_process_message srv w) s.
Proof.
  assert (P : forall f, (left (snd (post_process_call f w s)) <= left s)%nat)
    by (intros; apply d_post_process).
  unfold yields, post_process_message, ossl_statem_server_post_process_message,
    ossl_statem_client_post_process_message.
  intros r s' E Hr. destruct srv; (destruct (_ (hand s)) as [f|];
    [specialize (P f); destruct (post_process_call f w s); simplify_eq/=; done|];
    unfold st_bind, SSLfatal, st_put, st_ret in E; by simplify_eq).
Qed.

(** The phase within a message. *)
Definition phase (s : SSL) : nat :=
  match read_state (statem s) with
  | READ_STATE_HEADER => 0 | READ_STATE_POST_PROCESS => 1 | READ_STATE_BODY => 2
  end.
Definition read_measure (s : SSL) : nat := 3 * left s + phase s.

Lemma read_body_measure srv (s : SSL) :
  yields (fun r s' => r = None -> (read_measure s' < 3 * left s + 2)%nat) (read_body srv) s.
Proof.
  intros r s' E. unfold read_body in E. pose proof (get_message_body_left s) as K.
  destruct (get_message_body s) as [[len|] s1]; [|unfold leave, st_ret in E; by simplify_eq].
  simpl in K. destruct (PACKET_buf_init _ _) as [pkt| |]; [| |done].
  - revert r s' E. to_yields. apply yields_seq. eapply yields_weaken; [apply process_left|].
    intros r s2 H2. cbv beta in H2. change (left (set_first_packet false s1)) with (left s1) in H2.
    apply yields_seq, yields_put. unfold read_measure. destruct r; unfold leave, again;
      try (by yields_go); apply yields_seq, yields_put, yields_ret; intros _;
      (assert (left s2 <= left s1)%nat by (by apply H2)); unfold phase, left in *; simpl; lia.
  - unfold st_bind, SSLfatal, st_put, leave, st_ret in E. by simplify_eq.
Qed.

Lemma read_header_measure srv (s : SSL) :
  yields (fun r s' => r = None -> (read_measure s' < 3 * left s)%nat) (read_header srv) s.
Proof.
  intros r s' E. unfold read_header in E.
  destruct (get_message s) as [[mt|] s1] eqn:Em; [|unfold leave, st_ret in E; by simplify_eq].
  apply get_message_left in Em. revert r s' E. to_yields.
  apply yields_seq, yields_put.
  set (s2 := upd_rest _ s1). assert (H2 : (left s2 <= left s1)%nat) by (unfold left; apply d_info).
  apply yields_seq. intros ok s3 E3. unfold st_try in E3.
  destruct (read_transition srv mt s2) as [[u| |] s4] eqn:Et; simplify_eq; simpl;
    unfold leave; [|by yields_go]. apply read_transition_left in Et.
  apply yields_if; [by yields_go|]. apply yields_seq. intros grown s5 E5.
  assert (H5 : left s5 = left s3).
  { unfold st_if, st_try, grow_init_buf, st_ret in E5. repeat (case_match; simplify_eq/=); done. }
  destruct grown; simpl; [|by yields_go]. apply yields_seq, yields_put.
  eapply yields_weaken; [apply read_body_measure|]. intros r s6 H6 Hr. specialize (H6 Hr).
  unfold left in *. simpl in *. lia.
Qed.

Lemma read_step_measure srv (s : SSL) :
  yields (fun r s' => r = None -> True /\ (read_measure s' < read_measure s)%nat) (read_step srv) s.
Proof.
  intros r s' E Hr. split; [done|]. unfold read_step in E. unfold read_measure at 2, phase.
  destruct (read_state (statem s)).
  - pose proof (read_header_measure srv s r s' E Hr). lia.
  - pose proof (read_body_measure srv s r s' E Hr). lia.
  - revert r s' E Hr. to_yields. unfold read_post_process. apply yields_seq, yields_get, yields_seq.
    eapply yields_weaken; [apply post_process_left|]. intros w s1 H1. cbv beta in H1.
    apply yields_seq, yields_put. destruct w; unfold leave, again; try (by yields_go).
    apply yields_seq, yields_put, yields_ret. intros _.
    assert (left s1 <= left s)%nat by (by apply H1). unfold read_measure, phase, left in *. simpl. lia.
Qed.

Lemma read_machine_measure n (s : SSL) : (read_measure s < n)%nat ->
  yields (fun r _ => r <> None) (read_state_machine n) s.
Proof.
  intros Hn. unfold read_state_machine. apply yields_seq, yields_get, yields_seq, yields_put.
  apply (yields_loop_measure read_measure (fun _ => True));
    [intros s1 _; apply read_step_measure|done|].
  by destruct (read_state_first_init (statem s)).
Qed.
End Reader.

(** C39.  The reader terminates: its unbounded loop goes round at most three
    times per message the peer has delivered, so with that much fuel
    [read_state_machine] does not run out, from whichever read state it is
    entered or resumed. *)
Theorem read_state_machine_terminates {W} `{Callees W} (mu : W -> nat) `{!Drains W mu} `{Libc}
  (n : nat) (s : SSL W) (Hn : (3 * mu (rest s) + 2 < n)%nat) :
  fst (read_state_machine n s) <> Ok None.
Proof.
  destruct (read_state_machine n s) as [r s'] eqn:E. simpl. intros ->.
  eapply (read_machine_measure mu n s); [|exact E|done].
  unfold read_measure, left, phase. destruct (read_state (statem s)); lia.
Qed.

Lemma read_state_machine_terminates_witness :
  let s := set_rest [SSL3_MT_CERTIFICATE; SSL3_MT_SERVER_DONE]
             (sample_ssl TLS_ST_CR_SRVR_HELLO TLS1_2_VERSION ecdhe_rsa) in
  fst (read_state_machine (H0 := zero_libc) 9 s) <> Ok None.
Proof.
  intros s. apply (read_state_machine_terminates length (H0 := zero_libc)). simpl. lia.
Defined.

(** ** The writer *)

Section Writer.
Context {W : Type} `{CalleesKeep W} `{Libc}.
Local Abbreviation SSL := (SSL W).

(** A side, whether the version is TLS 1.3, and a rank that every transition
    of that side in that version lowers, unless it ends or pauses the
    handshake. *)
Context (srv v13 : bool) (rank : OSSL_HANDSHAKE_STATE -> nat).
Context (Hrank : forall s s' : SSL, SSL_IS_TLS13 s = v13 ->
  write_transition srv s = (Ok WRITE_TRAN_CONTINUE, s') ->
  if ends srv (hand s') then (0 < rank (hand s))%nat else (rank (hand s') < rank (hand s))%nat).

Definition write_measure (s : SSL) : nat :=
  match write_state (statem s) with
  | WRITE_STATE_TRANSITION => 4 * rank (hand s)
  | WRITE_STATE_PRE_WORK => if ends srv (hand s) then 0 else 4 * rank (hand s) + 3
  | WRITE_STATE_SEND => 4 * rank (hand s) + 2
  | WRITE_STATE_POST_WORK => 4 * rank (hand s) + 1
  end.

(** What going round again comes to: the message is done, or only its
    post-work is left. *)
Definition moved_on (s : SSL) (below : nat) (r : option SUB_STATE_RETURN) (s' : SSL) : Prop :=
  r = None -> SSL_IS_TLS13 s' = SSL_IS_TLS13 s /\ (write_measure s' < 4 * rank (hand s) + below)%nat.

Lemma core_tls13 (s s' : SSL) : core s' = core s -> SSL_IS_TLS13 s' = SSL_IS_TLS13 s.
Proof. unfold core, SSL_IS_TLS13, SSL_IS_DTLS. intros [= _ -> -> _]. done. Qed.

(** [moved_on] only depends on the part of the starting state that is kept. *)
Lemma moved_on_core s s1 below r s' : core s1 = core s -> moved_on s1 below r s' ->
  moved_on s below r s'.
Proof.
  intros Hc Hm Hr. destruct (Hm Hr) as [Ht Hl]. rewrite Ht, (core_tls13 _ _ Hc).
  split; [done|]. by rewrite <- (hand_core _ _ Hc).
Qed.

Lemma yields_core {A} (m : ST SSL A) s : kept core m -> yields (fun _ s' => core s' = core s) m s.
Proof. intros K a s' E. specialize (K s). unfold kept_at in K. by rewrite E in K. Qed.

Lemma write_post_work_moves s : yields (moved_on s 1) (write_post_work srv) s.
Proof.
  unfold write_post_work. apply yields_seq.
  eapply yields_weaken; [apply yields_core, kept_post_work|]. intros w s1 C1. cbv beta in C1.
  apply yields_seq, yields_put. destruct w; unfold leave, again; try (by yields_go).
  apply yields_seq, yields_put, yields_ret. apply (moved_on_core s s1); [done|].
  intros _. split; [done|]. unfold write_measure. simpl. unfold hand. simpl. lia.
Qed.

Lemma write_send_moves s : yields (moved_on s 1) (write_send srv) s.
Proof.
  unfold write_send. apply yields_seq, yields_put.
  set (s1 := if SSL_IS_DTLS s && _ then _ else _).
  assert (C1 : core s1 = core s) by (unfold s1; destruct (_ && _); [apply k_start_timer|done]).
  unfold yields. pose proof (core_statem_do_write s1) as C2.
  destruct (statem_do_write s1) as [r s2]. simpl in C2. rewrite C1 in C2.
  destruct (r <=? 0); [by apply yields_ret|]. to_yields.
  apply yields_seq, yields_put. eapply yields_weaken; [apply write_post_work_moves|].
  intros r' s3. by apply moved_on_core.
Qed.

Lemma post_work_state_moves s : yields (moved_on s 2) (set_post_work_state ;;; again) s.
Proof.
  apply yields_seq, yields_put, yields_ret. intros _. split; [done|].
  unfold write_measure. simpl. unfold hand. simpl. lia.
Qed.

Lemma write_build_moves s : yields (moved_on s 2) (write_build srv) s.
Proof.
  unfold write_build. apply yields_seq.
  eapply yields_weaken; [apply yields_core; intros s0; apply kept_option, core_get_construct|].
  intros [[f mt]|] s1 C1; cbv beta in C1; [|unfold leave; by yields_go].
  destruct (mt =? SSL3_MT_DUMMY).
  { eapply yields_weaken; [apply post_work_state_moves|]. intros r s2. by apply moved_on_core. }
  apply yields_seq. eapply yields_weaken; [apply yields_core, core_construct|].
  intros r s2 C2. cbv beta in C2. rewrite C1 in C2. destruct r; unfold leave; try (by yields_go).
  - eapply yields_weaken; [apply write_send_moves|]. intros r s3 Hm. apply (moved_on_core s s2 _ _ _ C2).
    intros Hr. destruct (Hm Hr). split; [done|lia].
  - eapply yields_weaken; [apply post_work_state_moves|]. intros r s3. by apply moved_on_core.
Qed.

Lemma write_pre_work_moves s : yields (fun r s' => r = None -> ends srv (hand s) = false
  /\ moved_on s 3 r s') (write_pre_work srv) s.
Proof.
  unfold write_pre_work. apply yields_seq. intros w s1 E.
  pose proof (yields_core _ s (kept_pre_work srv) _ _ E) as C1. cbv beta in C1.
  apply yields_seq, yields_put. destruct w; unfold leave; try (by yields_go).
  apply yields_seq, yields_put. eapply yields_weaken; [apply write_build_moves|].
  intros r s2 Hm Hr. split.
  - apply not_true_is_false. intros He. by destruct (pre_work_ends srv s He _ _ E).
  - apply (moved_on_core s s1 _ _ _ C1). intros _. destruct (Hm Hr) as [Ht Hl].
    split; [done|]. unfold hand in *. simpl in *. lia.
Qed.

Lemma frame_tls13 (s s' : SSL) : frame s' = frame s -> SSL_IS_TLS13 s' = SSL_IS_TLS13 s.
Proof. unfold frame, SSL_IS_TLS13, SSL_IS_DTLS. intros [= -> -> _]. done. Qed.

Lemma write_tran_moves s : SSL_IS_TLS13 s = v13 ->
  yields (fun r s' => r = None -> SSL_IS_TLS13 s' = v13
                      /\ (write_measure s' < 4 * rank (hand s))%nat) (write_tran srv) s.
Proof.
  intros Ht. unfold write_tran. apply yields_seq, yields_put. set (s1 := upd_rest _ s).
  apply yields_seq. intros t s2 E. pose proof (frame_write_transition srv s1) as F.
  unfold kept_at in F. rewrite E in F. simpl in F. change (frame s1) with (frame s) in F.
  destruct t; unfold leave, again; try (by yields_go).
  apply yields_seq, yields_put, yields_ret. intros _.
  split; [by rewrite <- Ht, <- (frame_tls13 _ _ F)|].
  apply (Hrank s1 s2) in E; [|done]. change (hand s1) with (hand s) in E.
  unfold write_measure. simpl. unfold hand in *. simpl. destruct (ends _ _); lia.
Qed.

Lemma write_step_measure s : SSL_IS_TLS13 s = v13 ->
  yields (fun r s' => r = None -> SSL_IS_TLS13 s' = v13
                      /\ (write_measure s' < write_measure s)%nat) (write_step srv) s.
Proof.
  intros Ht r s' E Hr. unfold write_step in E. unfold write_measure at 2.
  destruct (write_state (statem s)).
  - by apply (write_tran_moves s Ht r s').
  - destruct (write_pre_work_moves s r s' E Hr) as [He Hm]. rewrite He, <- Ht. by apply Hm.
  - destruct (write_send_moves s r s' E Hr). rewrite <- Ht. split; [done|lia].
  - destruct (write_post_work_moves s r s' E Hr). rewrite <- Ht. by split.
Qed.

Lemma write_loop_measure n s : SSL_IS_TLS13 s = v13 -> (write_measure s < n)%nat ->
  yields (fun r _ => r <> None) (st_loop n (write_step srv)) s.
Proof.
  intros Ht Hn. by apply (yields_loop_measure write_measure (fun s => SSL_IS_TLS13 s = v13));
    [apply write_step_measure|..].
Qed.
End Writer.

(** How much of a flight can still follow a state: a TLS 1.3 client and a
    server before TLS 1.3. *)
Definition writer_rank (srv : bool) (h : OSSL_HANDSHAKE_STATE) : nat :=
  if srv then
    match h with
    | TLS_ST_OK | TLS_ST_SR_CLNT_HELLO | TLS_ST_SR_FINISHED => 11
    | TLS_ST_SW_SRVR_HELLO => 10
    | TLS_ST_SW_CERT => 9
    | TLS_ST_SW_CERT_STATUS => 8
    | TLS_ST_SW_KEY_EXCH => 7
    | TLS_ST_SW_CERT_REQ => 6
    | TLS_ST_SW_SRVR_DONE => 5
    | TLS_ST_SW_SESSION_TICKET => 4
    | TLS_ST_SW_CHANGE => 3
    | TLS_ST_SW_FINISHED => 2
    | TLS_ST_SW_HELLO_REQ => 1
    | _ => 0
    end
  else
    match h with
    | TLS_ST_OK | TLS_ST_CR_FINISHED | TLS_ST_CR_CERT_REQ | TLS_ST_CR_KEY_UPDATE
    | TLS_ST_CR_SESSION_TICKET => 6
    | TLS_ST_PENDING_EARLY_DATA_END => 5
    | TLS_ST_CW_END_OF_EARLY_DATA | TLS_ST_CW_CHANGE => 4
    | TLS_ST_CW_CERT | TLS_ST_CW_COMP_CERT => 3
    | TLS_ST_CW_CERT_VRFY => 2
    | TLS_ST_CW_FINISHED | TLS_ST_CW_KEY_UPDATE => 1
    | _ => 0
    end.

Lemma writer_rank_decreases {W} `{CalleesKeep W} srv (s s' : SSL W) : SSL_IS_TLS13 s = negb srv ->
  write_transition srv s = (Ok WRITE_TRAN_CONTINUE, s') ->
  if ends srv (hand s') then (0 < writer_rank srv (hand s))%nat
  else (writer_rank srv (hand s') < writer_rank srv (hand s))%nat.
Proof.
  unfold write_transition. destruct srv; simpl negb; intros Ht.
  - unfold ossl_statem_server_write_transition, st_if. rewrite Ht.
    unfold server_write_pre13, server_after_cert_status, server_after_key_exch, write_tran_fatal,
      continue_in, stamp_read, stamp_write, move, SSLfatal, st_try, st_if, st_lift, with_cipher,
      st_bind, st_put, st_ret.
    destruct (hand s); intros E; simplify_eq/=; repeat (case_match; simplify_eq/=); try done;
      simpl; lia.
  - unfold ossl_statem_client_write_transition, st_if. rewrite Ht.
    unfold ossl_statem_client13_write_transition, client13_after_change, client_send_cert,
      write_tran_fatal, continue_in, stamp_read, move, SSLfatal, st_if, st_lift, st_bind, st_put, st_ret.
    destruct (hand s); intros E; simplify_eq/=; repeat (case_match; simplify_eq/=); try done;
      simpl; lia.
Qed.

(** The writer terminates: a TLS 1.3 client and a server before TLS 1.3
    finish the current flight, in every configuration and from every point in
    it, within a number of rounds bounded by a constant. *)
Lemma write_state_machine_terminates {W} `{CalleesKeep W} `{Libc} (n : nat) (s : SSL W)
  (Hv : SSL_IS_TLS13 s = negb (server s)) (Hn : (47 < n)%nat) :
  fst (write_state_machine n s) <> Ok None.
Proof.
  destruct (write_state_machine n s) as [r s'] eqn:E. simpl. intros ->.
  eapply (write_loop_measure (server s) _ _ (writer_rank_decreases (server s)) n s Hv); [|exact E|done].
  unfold write_measure, writer_rank. destruct (write_state (statem s)), (server s); repeat case_match; lia.
Qed.

Lemma write_state_machine_terminates_witness :
  let s := set_server true (sample_ssl TLS_ST_SR_CLNT_HELLO TLS1_2_VERSION ecdhe_rsa) in
  fst (write_state_machine (H0 := zero_libc) 48 s) <> Ok None.
Proof.
  intros s. apply (write_state_machine_terminates (H1 := zero_libc)); [reflexivity|lia].
Defined.
