(* ===== verification/Quic.v ===== *)
(** * Handshake data over QUIC

    ssl/ssl_quic.c and ssl/statem/statem_quic.c: the interface through which a
    QUIC stack hands over CRYPTO frame data and the handshake reads it, message
    by message.  The functions work on connection objects, so the tests for a
    null [SSL_CONNECTION] are left out. *)

From stdpp Require Import prelude.
From Stdlib Require Import ZArith Lia Sorted.
From S2P Require Import Prelude Packet Buffer WPacket StatemTypes StatemLib StatemClnt.
From S2P Require Import StatemSrvr Statem StatemFlow StatemOutcome StatemTerm.

Local Open Scope Z_scope.
Local Open Scope st_scope.

Module Quic.

(** [OSSL_ENCRYPTION_LEVEL]: an enumeration that the code compares with [<]. *)
Abbreviation ssl_encryption_initial := (0)%Z.
Abbreviation ssl_encryption_early_data := (1)%Z.
Abbreviation ssl_encryption_handshake := (2)%Z.
Abbreviation ssl_encryption_application := (3)%Z.

Abbreviation TLSEXT_TYPE_quic_transport_parameters := (57)%Z.
Abbreviation TLSEXT_TYPE_quic_transport_parameters_draft := (0xffa5)%Z.

(** [sizeof(QUIC_DATA)]. *)
Definition sizeof_QUIC_DATA : Z := 24.

Definition hrrrandom : list Z :=
  [0xcf; 0x21; 0xad; 0x74; 0xe5; 0x9a; 0x61; 0x11; 0xbe; 0x1d; 0x8c; 0x02;
   0x1e; 0x65; 0xb8; 0x91; 0xc2; 0xa2; 0x11; 0x16; 0x7a; 0xbb; 0x8c; 0x5e;
   0x07; 0x9e; 0x09; 0xe2; 0xc8; 0xa8; 0x33; 0x9c].
Abbreviation SSL3_RANDOM_SIZE := (32)%Z.
Abbreviation SERVER_HELLO_RANDOM_OFFSET := (SSL3_HM_HEADER_LENGTH + 2)%Z.

(** The macro [n2l3] applied to [d + off]. *)
Definition n2l3 (d : list Z) (off : Z) : option Z :=
  match mem_get d off, mem_get d (off + 1), mem_get d (off + 2) with
  | Some a, Some b, Some c => Some (Z.lor (Z.lor (Z.shiftl a 16) (Z.shiftl b 8)) c)
  | _, _, _ => None
  end.

Section Ops.
Context {W : Type} `{Callees W} `{Libc}.
Local Abbreviation SSL := (SSL W).

(** ** Transport parameters and settings *)

Definition malloc_ok (n : Z) : bool := match CRYPTO_malloc n with Some _ => true | None => false end.

(** A null pointer is [None]. *)
Definition SSL_set_quic_transport_params (params : option (list Z)) : ST SSL unit := fun s =>
  match params with
  | None | Some [] => (Ok tt, upd_quic (set_quic_transport_params []) s)
  | Some p =>
      match OPENSSL_memdup malloc_ok (Ptr p 0) (Z.of_nat (length p)) with
      | Ok (Some d) => (Ok tt, upd_quic (set_quic_transport_params d) s)
      | Ok None | Fail => (Fail, s)
      | Fault => (Fault, s)
      end
  end.

Definition SSL_get_peer_quic_transport_params (s : SSL) : list Z :=
  match peer_quic_transport_params (quic s) with
  | [] => peer_quic_transport_params_draft (quic s)
  | p => p
  end.

Definition SSL_get_peer_quic_transport_version (s : SSL) : Z :=
  match peer_quic_transport_params (quic s), peer_quic_transport_params_draft (quic s) with
  | _ :: _, _ :: _ => -1
  | _ :: _, [] => TLSEXT_TYPE_quic_transport_parameters
  | [], _ :: _ => TLSEXT_TYPE_quic_transport_parameters_draft
  | [], [] => -1
  end.

Definition SSL_set_quic_transport_version (v : Z) (s : SSL) : SSL :=
  upd_quic (set_quic_transport_version v) s.
Definition SSL_get_quic_transport_version (s : SSL) : Z := quic_transport_version (quic s).
Definition SSL_set_quic_use_legacy_codepoint (use_legacy : bool) (s : SSL) : SSL :=
  SSL_set_quic_transport_version
    (if use_legacy then TLSEXT_TYPE_quic_transport_parameters_draft
     else TLSEXT_TYPE_quic_transport_parameters) s.

Definition DEFAULT_FLIGHT_LIMIT : Z := 16384.

Definition SSL_quic_max_handshake_flight_len (s : SSL) (level : Z) : Z :=
  if level =? ssl_encryption_initial then DEFAULT_FLIGHT_LIMIT
  else if level =? ssl_encryption_early_data then 0
  else if level =? ssl_encryption_handshake then
    if server s then
      if has (verify_mode s) SSL_VERIFY_PEER && (DEFAULT_FLIGHT_LIMIT <? max_cert_list s)
      then max_cert_list s else DEFAULT_FLIGHT_LIMIT
    else if DEFAULT_FLIGHT_LIMIT <? wrap64 (2 * max_cert_list s)
    then wrap64 (2 * max_cert_list s) else DEFAULT_FLIGHT_LIMIT
  else if level =? ssl_encryption_application then DEFAULT_FLIGHT_LIMIT
  else 0.

Definition SSL_quic_read_level (s : SSL) : Z := quic_read_level (quic s).
Definition SSL_quic_write_level (s : SSL) : Z := quic_write_level (quic s).

(** [set] tells whether the method given is non-null. *)
Definition SSL_set_quic_method (set : bool) : ST SSL unit := fun s =>
  if negb (method_version s =? TLS_ANY_VERSION) then (Fail, s)
  else (Ok tt, set_options (Z.ldiff (options s) SSL_OP_ENABLE_MIDDLEBOX_COMPAT)
                 (set_quic_method set s)).

Definition SSL_set_quic_early_data_enabled (enabled : bool) (s : SSL) : SSL :=
  if negb (SSL_IS_QUIC s) || negb (SSL_in_before s) then s
  else if negb enabled then set_early_data_state SSL_EARLY_DATA_NONE s
  else if server s then set_early_data_state SSL_EARLY_DATA_ACCEPTING s
  else if match session s with None => true | Some ss => sess_max_early_data ss =? 0 end
          && negb (psk_use_session_cb s) then s
  else set_early_data_state SSL_EARLY_DATA_CONNECTING s.

(** ssl/ssl_lib.c; the secrets it clears are not modelled. *)
Definition SSL_clear_quic (s : SSL) : SSL :=
  upd_quic (fun q => mkQUIC ssl_encryption_initial ssl_encryption_initial ssl_encryption_initial None
                       (quic_transport_version q) [] (quic_transport_params q) [] []) s.

(** ** Receiving *)

Definition tail_level_above (level : Z) (s : SSL) : bool :=
  match last (quic_input_data (quic s)) with
  | Some qd => level <? qd_level qd
  | None => false
  end.

Definition enqueue (qd : QUIC_DATA) (s : SSL) : SSL :=
  upd_quic (fun q => set_quic_input_data (quic_input_data q ++ [qd]) q) s.

(** The loop over complete messages: what is left of the data, and how far it
    was advanced.  The fuel is the number of bytes. *)
Fixpoint split_loop (fuel : nat) (level : Z) (data : list Z) (advanced : Z) : ST SSL (list Z * Z) :=
  fun s =>
  let len := Z.of_nat (length data) in
  if len <=? SSL3_HM_HEADER_LENGTH then (Ok (data, advanced), s)
  else match fuel, n2l3 data 1 with
  | S n, Some l =>
      let l := l + SSL3_HM_HEADER_LENGTH in
      if len <? l then (Ok (data, advanced), s)
      else match CRYPTO_zalloc (sizeof_QUIC_DATA + l), mem_read data 0 l with
           | None, _ => (Fail, s)
           | Some _, Some bs =>
               split_loop n level (drop (Z.to_nat l) data) (advanced + l)
                 (enqueue (mkQUIC_DATA level l bs) s)
           | Some _, None => (Fault, s)
           end
  | _, _ => (Fault, s)
  end.

Definition put_quic_buf (b : BUF_MEM) (s : SSL) : SSL := upd_quic (set_quic_buf (Some b)) s.

(** [memcpy] or [memmove] of [bs] to [b->data + off]. *)
Definition buf_store (off : Z) (bs : list Z) (b : BUF_MEM) : option BUF_MEM :=
  match buf_data b with
  | None => None
  | Some d => match mem_write d off bs with
              | Some d' => Some (mkBUF_MEM (buf_length b) (Some d') (buf_max b) (buf_flags b))
              | None => None
              end
  end.

(** Growing [quic_buf] to [len] and storing [bs] at [off]. *)
Definition grow_store (len off : Z) (bs : list Z) (b : BUF_MEM) : ST SSL BUF_MEM := fun s =>
  match BUF_MEM_grow len b with
  | (Ok r, b') =>
      if r =? 0 then (Fail, put_quic_buf b' s)
      else match buf_store off bs b' with
           | Some b'' => (Ok b'', put_quic_buf b'' s)
           | None => (Fault, s)
           end
  | (Fail, b') => (Fail, put_quic_buf b' s)
  | (Fault, _) => (Fault, s)
  end.

Definition fragment_length (s : SSL) : Z :=
  match quic_buf (quic s) with Some b => buf_length b | None => 0 end.

(** Joining the data to a partial message; the result is the data to split. *)
Definition join_fragment (data : list Z) : ST SSL (list Z) := fun s =>
  match quic_buf (quic s) with
  | Some b =>
      if fragment_length s =? 0 then (Ok data, s)
      else (b' <~ grow_store (wrap64 (fragment_length s + Z.of_nat (length data))) (fragment_length s) data b ;;
            st_ret (contents b')) s
  | None => (Ok data, s)
  end.

(** Saving what is left.  [in_buf] tells that the data is in [quic_buf] already,
    [advanced] bytes from its start; then the buffer only shrinks. *)
Definition save_rest (in_buf : bool) (data : list Z) (advanced : Z) : ST SSL unit := fun s =>
  match data with
  | [] =>
      match quic_buf (quic s) with
      | Some b => (Ok tt, put_quic_buf (mkBUF_MEM 0 (buf_data b) (buf_max b) (buf_flags b)) s)
      | None => (Ok tt, s)
      end
  | _ =>
      let store b := (grow_store (Z.of_nat (length data)) 0 data b ;;; st_ret tt) in
      match quic_buf (quic s) with
      | Some b => if in_buf && (advanced =? 0) then (Ok tt, s) else store b s
      | None => match BUF_MEM_new with
                | None => (Fail, s)
                | Some b => store b (put_quic_buf b s)
                end
      end
  end.

Definition SSL_provide_quic_data (level : Z) (data : list Z) : ST SSL unit := fun s =>
  if negb (SSL_IS_QUIC s) then (Fail, s)
  else if (level <? quic_read_level (quic s)) || tail_level_above level s
          || (level <? quic_latest_level_received (quic s)) then (Fail, s)
  else if Z.of_nat (length data) =? 0 then (Ok tt, s)
  else if negb (fragment_length s =? 0) && negb (level =? quic_latest_level_received (quic s))
  then (Fail, s)
  else
  (st_put (upd_quic (set_quic_latest_level_received level)) ;;;
   in_buf <~ st_get (fun s => negb (fragment_length s =? 0)) ;;
   data <~ join_fragment data ;;
   r <~ split_loop (length data) level data 0 ;;
   save_rest in_buf (fst r) (snd r)) s.

(** ** Reading *)

Definition upd_tmp (f : S3_TMP -> S3_TMP) (s : SSL) : SSL :=
  upd_s3 (fun x => set_tmp (f (tmp x)) x) s.

(** [Fault] when a copy or a read leaves its block. *)
Definition quic_get_message : ST SSL Z := fun s =>
  match quic_input_data (quic s) with
  | [] => (Fail, set_rwstate SSL_READING s)
  | qd :: next =>
      if qd_length qd <? SSL3_HM_HEADER_LENGTH then (SSLfatal SSL_AD_INTERNAL_ERROR ;;; st_fail) s
      else if negb (qd_level qd =? quic_read_level (quic s))
      then (SSLfatal SSL_AD_INTERNAL_ERROR ;;; st_fail) s
      else match init_buf s with
      | None => (Fault, s)
      | Some b =>
          match BUF_MEM_grow_clean (wrap64 (int_cast (qd_length qd))) b with
          | (Ok r, b1) =>
              let s := set_init_buf (Some b1) s in
              if r =? 0 then (SSLfatal SSL_AD_INTERNAL_ERROR ;;; st_fail) s
              else match mem_read (qd_data qd) 0 (qd_length qd) with
              | None => (Fault, s)
              | Some bs =>
                  match buf_store 0 bs b1 with
                  | None => (Fault, s)
                  | Some b2 =>
                      let b3 := mkBUF_MEM (qd_length qd) (buf_data b2) (buf_max b2) (buf_flags b2) in
                      let s := upd_quic (set_quic_input_data next) (set_init_buf (Some b3) s) in
                      match buf_data b3 with
                      | None => (Fault, s)
                      | Some d =>
                          match mem_get d 0, n2l3 d 1 with
                          | Some mt, Some l =>
                              (Ok mt, set_init_msg SSL3_HM_HEADER_LENGTH (set_init_num l
                                 (upd_tmp (fun t => set_message_size l (set_message_type mt t)) s)))
                          | _, _ => (Fault, s)
                          end
                      end
                  end
              end
          | (_, b1) => (Fault, set_init_buf (Some b1) s)
          end
      end
  end.

(** The transcript functions and the message callback are parameters. *)
Section Body.
Context (ssl3_take_mac : ST SSL unit) (ssl3_finish_mac : list Z -> ST SSL unit)
  (msg_callback : list Z -> W -> W).

Definition init_data (off len : Z) (s : SSL) : option (list Z) :=
  match init_buf s with
  | Some b => match buf_data b with Some d => mem_read d off len | None => None end
  | None => None
  end.

(** Not a HelloRetryRequest, which goes into the transcript only later. *)
Definition not_hello_retry (s : SSL) : ret bool :=
  if negb (message_type (tmp_of s) =? SSL3_MT_SERVER_HELLO)
     || (init_num s <? SERVER_HELLO_RANDOM_OFFSET + SSL3_RANDOM_SIZE) then Ok true
  else match init_data SERVER_HELLO_RANDOM_OFFSET SSL3_RANDOM_SIZE s with
       | Some r => Ok (negb (bool_decide (r = hrrrandom)))
       | None => Fault
       end.

(** KeyUpdate and NewSessionTicket are not part of the transcript. *)
Definition outside_transcript (s : SSL) : bool :=
  (message_type (tmp_of s) =? SSL3_MT_NEWSESSION_TICKET)
  || (message_type (tmp_of s) =? SSL3_MT_KEY_UPDATE).

Definition feeds_transcript (s : SSL) : ret bool :=
  if outside_transcript s then Ok false else not_hello_retry s.

Definition whole_message (s : SSL) : ret (list Z) :=
  match init_data 0 (init_num s + SSL3_HM_HEADER_LENGTH) s with Some m => Ok m | None => Fault end.

Definition quic_get_message_body : ST SSL Z := fun s =>
  let mt := message_type (tmp_of s) in
  (if mt =? SSL3_MT_CHANGE_CIPHER_SPEC then SSLfatal SSL3_AD_UNEXPECTED_MESSAGE ;;; st_fail
   else if mt =? SSL3_MT_KEY_UPDATE then SSLfatal SSL3_AD_UNEXPECTED_MESSAGE ;;; st_fail
   else
     (if mt =? SSL3_MT_FINISHED then ssl3_take_mac else st_ret tt) ;;;
     feed <~ st_lift feeds_transcript ;;
     (if feed : bool then m <~ st_lift whole_message ;; ssl3_finish_mac m else st_ret tt) ;;;
     m <~ st_lift whole_message ;;
     st_put (upd_rest (msg_callback m)) ;;;
     st_get init_num) s.
End Body.

(** ** After the handshake *)

Section PostHandshake.
(** [s->handshake_func]. *)
Context (handshake_func : ST SSL Z).

Fixpoint post_handshake_loop (fuel : nat) : ST SSL (option unit) := fun s =>
  match quic_input_data (quic s) with
  | [] => (Ok (Some tt), s)
  | _ :: _ =>
      match fuel with
      | O => (Ok None, s)
      | S n => (st_put (ossl_statem_set_in_init true) ;;;
                ret <~ handshake_func ;;
                st_put (ossl_statem_set_in_init false) ;;;
                if ret <=? 0 then st_fail else post_handshake_loop n) s
      end
  end.

Definition SSL_process_quic_post_handshake (fuel : nat) : ST SSL (option unit) := fun s =>
  if SSL_in_init s || negb (SSL_IS_QUIC s) then (Fail, s) else post_handshake_loop fuel s.
End PostHandshake.
End Ops.

(** ** What the stream means *)

(** A handshake message: header and as many bytes as its length field says. *)
Definition body_length (m : list Z) : Z := be_val (take 3 (drop 1 m)).
Definition framed (m : list Z) : Prop :=
  SSL3_HM_HEADER_LENGTH <= Z.of_nat (length m)
  /\ Z.of_nat (length m) = SSL3_HM_HEADER_LENGTH + body_length m.

(** No message can be taken off yet.  A header alone does not count as a
    message, even when the length in it is zero. *)
Definition incomplete (bs : list Z) : Prop :=
  Z.of_nat (length bs) <= SSL3_HM_HEADER_LENGTH
  \/ Z.of_nat (length bs) < SSL3_HM_HEADER_LENGTH + body_length bs.

Inductive splits : list Z -> list (list Z) -> list Z -> Prop :=
| splits_rest r : incomplete r -> splits r [] r
| splits_msg m bs ms r : framed m -> SSL3_HM_HEADER_LENGTH < Z.of_nat (length (m ++ bs)) ->
    splits bs ms r -> splits (m ++ bs) (m :: ms) r.

Lemma body_length_app m bs : SSL3_HM_HEADER_LENGTH <= Z.of_nat (length m) ->
  body_length (m ++ bs) = body_length m.
Proof.
  unfold body_length. intros Hl.
  rewrite drop_app_le, take_app_le by (rewrite ?length_drop; lia). done.
Qed.

Lemma framed_complete m bs : framed m -> SSL3_HM_HEADER_LENGTH < Z.of_nat (length (m ++ bs)) ->
  ~ incomplete (m ++ bs).
Proof.
  intros [H4 Hl] H5 [Hi|Hi]; [lia|]. rewrite body_length_app in Hi by done.
  rewrite length_app in Hi. lia.
Qed.

(** There is one way to split a stream. *)
Lemma splits_functional bs ms r ms' r' : splits bs ms r -> splits bs ms' r' -> ms' = ms /\ r' = r.
Proof.
  intros Hs. revert ms' r'. induction Hs as [r Hi|m bs ms r Hf H5 Hs IH]; intros ms' r' Hs'.
  - inversion Hs'; subst; [done|]. by edestruct framed_complete.
  - inversion Hs' as [|m' bs' ms2 r2 Hf' H5' Hs2 E]; subst; [by edestruct framed_complete|].
    assert (m' = m) as ->.
    { destruct Hf as [H4 Hl], Hf' as [H4' Hl'].
      assert (body_length m' = body_length m).
      { by rewrite <- (body_length_app m' bs'), <- (body_length_app m bs), E. }
      apply app_inj_1 in E as [? _]; [done|lia]. }
    apply app_inv_head in E as ->. by destruct (IH _ _ Hs2) as [-> ->].
Qed.

(** Splitting can be done in portions. *)
Lemma splits_app bs ms r d ms' r' : splits bs ms r -> splits (r ++ d) ms' r' ->
  splits (bs ++ d) (ms ++ ms') r'.
Proof.
  induction 1 as [r Hi|m bs ms r Hf H5 Hs IH]; intros Hd; simpl; [done|].
  rewrite <- app_assoc. constructor; [done| |by apply IH].
  rewrite !length_app in *. lia.
Qed.

Lemma splits_concat bs ms r : splits bs ms r -> concat ms ++ r = bs /\ Forall framed ms.
Proof.
  induction 1 as [r Hi|m bs ms r Hf H5 Hs [IH1 IH2]]; [done|]. simpl.
  rewrite <- app_assoc, IH1. auto.
Qed.

Section Proofs.
Context {W : Type} `{Callees W} `{L : Libc} {LO : LibcOk L}.
Local Abbreviation SSL := (SSL W).

Lemma n2l3_header (d : list Z) : Forall is_byte d -> SSL3_HM_HEADER_LENGTH <= Z.of_nat (length d) ->
  n2l3 d 1 = Some (body_length d).
Proof.
  intros Hb Hl.
  destruct d as [|t [|a [|b [|c d]]]]; simpl in Hl; try lia.
  do 4 (apply Forall_cons in Hb as [? Hb]). unfold is_byte in *.
  unfold n2l3, mem_get, body_length, be_val, be_step. simpl. f_equal.
  rewrite (lor_shiftl_add a (Z.shiftl b 8) 16) by (rewrite ?Z.shiftl_mul_pow2; lia).
  replace (a * 2 ^ 16 + Z.shiftl b 8) with (Z.shiftl (a * 256 + b) 8)
    by (rewrite !Z.shiftl_mul_pow2; lia).
  rewrite lor_shiftl_add by lia. lia.
Qed.

(** The messages of one level at the end of the queue. *)
Definition qmsg (level : Z) (m : list Z) : QUIC_DATA := mkQUIC_DATA level (Z.of_nat (length m)) m.
Definition enqueue_all (level : Z) (ms : list (list Z)) (s : SSL) : SSL :=
  upd_quic (fun q => set_quic_input_data (quic_input_data q ++ map (qmsg level) ms) q) s.

Lemma enqueue_all_nil level (s : SSL) : enqueue_all level [] s = s.
Proof.
  unfold enqueue_all, upd_quic. destruct s as [? ? ? ? ? ? ? ? ? ? ? ? ? ? ? ? ? ? ? ? ? ? ? ? ? ? ? ? ? ? ? ? ? q].
  destruct q. unfold set_quic, set_quic_input_data. simpl. by rewrite app_nil_r.
Qed.

Lemma enqueue_all_cons level m ms (s : SSL) :
  enqueue_all level ms (enqueue (qmsg level m) s) = enqueue_all level (m :: ms) s.
Proof.
  unfold enqueue_all, enqueue, upd_quic, set_quic, set_quic_input_data. simpl.
  by rewrite <- app_assoc.
Qed.

Lemma mem_read_0 (d : list Z) l : 0 <= l <= Z.of_nat (length d) ->
  mem_read d 0 l = Some (take (Z.to_nat l) d).
Proof. intros Hl. unfold mem_read. by rewrite !(proj2 (Z.leb_le _ _)) by lia. Qed.

Lemma framed_take (d : list Z) : 0 <= body_length d ->
  SSL3_HM_HEADER_LENGTH + body_length d <= Z.of_nat (length d) ->
  framed (take (Z.to_nat (body_length d + SSL3_HM_HEADER_LENGTH)) d).
Proof.
  intros H0 Hl. unfold framed. set (n := Z.to_nat _).
  assert (Hn : length (take n d) = n) by (rewrite length_take; unfold n in *; lia).
  rewrite Hn. assert (E : body_length d = body_length (take n d)).
  { rewrite <- (take_drop n d) at 1. apply body_length_app. rewrite Hn.
    unfold n in *. lia. }
  rewrite <- E. unfold n in *. lia.
Qed.

Lemma body_length_nonneg d : Forall is_byte d -> 0 <= body_length d.
Proof. intros Hb. apply be_val_range. by apply Forall_take, Forall_drop. Qed.

(** The allocator does not run out, and [n] bytes are not too many for a
    buffer. *)
Definition memory_for (n : Z) : Prop :=
  (forall k, 0 < k -> malloc k <> None) /\ (forall old k, 0 < k -> realloc old k <> None)
  /\ n <= LIMIT_BEFORE_EXPANSION.

Lemma grow_grown len b : buf_wf b -> 0 <= len -> grown (BUF_MEM_grow len) len b.
Proof.
  intros Hwf Hl. destruct (decide (len <= buf_length b)); [by apply grow_shrinks|].
  destruct (decide (len <= buf_max b)); [apply grow_in_block|apply grow_new_block]; (done || lia).
Qed.

Lemma zalloc_fails n : 0 < n -> CRYPTO_zalloc n = None -> forall k, ~ memory_for k.
Proof.
  unfold CRYPTO_zalloc, CRYPTO_malloc. intros Hn E k (Hma & _).
  rewrite (proj2 (Z.eqb_neq _ _)) in E by lia. destruct (malloc n) eqn:Em; [done|]. by apply (Hma n).
Qed.

Lemma memory_for_le n k : n <= k -> memory_for k -> memory_for n.
Proof. intros Hn (?&?&?). split_and!; [done|done|lia]. Qed.

(** The loop queues the messages of the stream in order, and fails only when
    it cannot allocate. *)
Lemma split_loop_spec fuel level d adv (s : SSL) :
  (length d <= fuel)%nat -> Forall is_byte d ->
  (exists ms r, splits d ms r
     /\ split_loop fuel level d adv s
        = (Ok (r, adv + Z.of_nat (length (concat ms))), enqueue_all level ms s))
  \/ (exists ms, split_loop fuel level d adv s = (Fail, enqueue_all level ms s)
      /\ forall k, ~ memory_for k).
Proof.
  revert d adv s. induction fuel as [|n IH]; intros d adv s Hf Hb.
  { destruct d; [|simpl in Hf; lia]. left. exists [], []. split; [constructor; by left|].
    rewrite enqueue_all_nil. simpl. by rewrite Z.add_0_r. }
  simpl. destruct (Z.of_nat (length d) <=? SSL3_HM_HEADER_LENGTH) eqn:E4.
  { left. exists [], d. zbool. split; [constructor; by left|]. rewrite enqueue_all_nil.
    simpl. by rewrite Z.add_0_r. }
  zbool. rewrite n2l3_header by (done || lia). pose proof (body_length_nonneg d Hb) as H0.
  destruct (_ <? _) eqn:El; zbool.
  { left. exists [], d. split; [constructor; right; lia|]. rewrite enqueue_all_nil.
    simpl. by rewrite Z.add_0_r. }
  set (l := body_length d + SSL3_HM_HEADER_LENGTH) in *.
  destruct (CRYPTO_zalloc _) as [?|] eqn:Ez.
  2: { right. exists []. rewrite enqueue_all_nil. split; [done|].
       eapply zalloc_fails, Ez. unfold sizeof_QUIC_DATA. lia. }
  rewrite mem_read_0 by lia. set (m := take (Z.to_nat l) d).
  assert (Hm : length m = Z.to_nat l) by (unfold m; rewrite length_take; lia).
  assert (Ed : d = m ++ drop (Z.to_nat l) d) by (unfold m; by rewrite take_drop).
  assert (Eq : mkQUIC_DATA level l m = qmsg level m) by (unfold qmsg; rewrite Hm; f_equal; lia).
  rewrite Eq. destruct (IH (drop (Z.to_nat l) d) (adv + l) (enqueue (qmsg level m) s))
    as [(ms & r & Hs & ->)|(ms & -> & Hn)].
  - rewrite length_drop. lia.
  - by apply Forall_drop.
  - left. exists (m :: ms), r. rewrite enqueue_all_cons. split.
    + rewrite Ed at 1. constructor; [apply framed_take; lia| |done].
      rewrite <- Ed. lia.
    + simpl. by rewrite length_app, Hm, Nat2Z.inj_add, Z2Nat.id, Z.add_assoc by lia.
  - right. exists (m :: ms). by rewrite enqueue_all_cons.
Qed.

(** *** The buffer of the partial message *)

Definition buf_frag (ob : option BUF_MEM) : list Z :=
  match ob with Some b => contents b | None => [] end.
Definition buf_ok (ob : option BUF_MEM) : Prop :=
  match ob with
  | Some b => buf_wf b /\ has (buf_flags b) BUF_MEM_FLAG_SECURE = false
  | None => True
  end.

(** Growing fails only for want of memory. *)
Lemma grow_fails len b : buf_wf b -> has (buf_flags b) BUF_MEM_FLAG_SECURE = false -> 0 < len ->
  buf_max b < len -> BUF_MEM_grow len b = (Ok 0, b) -> ~ memory_for len.
Proof.
  intros [Hl Hd] Hs Hpos Hm E (Hma & Hre & Hlim). revert E. unfold BUF_MEM_grow.
  rewrite (proj2 (Z.leb_gt _ _)), (proj2 (Z.leb_gt _ _)), (proj2 (Z.ltb_ge _ _)), Hs by lia.
  pose proof (expansion_bound len ltac:(lia)) as [_ He]. set (n := (len + 3) / 3 * 4) in *.
  unfold CRYPTO_realloc, CRYPTO_malloc. rewrite (proj2 (Z.eqb_neq n 0)) by lia.
  assert (Z : forall d, grow_install b len n (Ok (Some d)) <> (Ok 0, b)).
  { intros d. unfold grow_install. destruct (zero_fill _ _ _); [|done]. intros [= E _]. lia. }
  destruct (buf_data b) as [d|].
  - destruct (realloc d n) eqn:Er; [by apply Z|]. by destruct (Hre d n).
  - destruct (malloc n) eqn:Er; [by apply Z|]. by destruct (Hma n).
Qed.

Lemma buf_store_spec off bs b : buf_wf b -> 0 <= off -> Forall is_byte bs ->
  off + Z.of_nat (length bs) = buf_length b -> 0 < buf_length b ->
  exists b', buf_store off bs b = Some b' /\ buf_wf b'
    /\ contents b' = take (Z.to_nat off) (contents b) ++ bs.
Proof.
  intros [Hl Hd] Ho Hb Hlen Hpos. unfold buf_store, contents.
  destruct (buf_data b) as [d|]; [|lia]. destruct Hd as [Hd Hbd].
  rewrite mem_write_Some by lia. eexists; split_and!; [done| |].
  - split; simpl; [done|]. split.
    + rewrite !length_app, length_take, length_drop. lia.
    + rewrite !Forall_app. auto using Forall_take, Forall_drop.
  - simpl. rewrite app_assoc, take_app_le by (rewrite length_app, length_take; lia).
    rewrite take_ge by (rewrite length_app, length_take; lia). f_equal.
    rewrite take_take. f_equal. lia.
Qed.

Lemma grow_store_spec len off bs b (s : SSL) : buf_wf b -> Forall is_byte bs -> 0 < len ->
  0 <= off <= Z.of_nat (length (contents b)) -> off + Z.of_nat (length bs) = len ->
  has (buf_flags b) BUF_MEM_FLAG_SECURE = false ->
  (exists b', grow_store len off bs b s = (Ok b', put_quic_buf b' s) /\ buf_ok (Some b')
     /\ contents b' = take (Z.to_nat off) (contents b) ++ bs)
  \/ (grow_store len off bs b s = (Fail, put_quic_buf b s) /\ ~ memory_for len).
Proof.
  intros Hwf Hb Hpos Ho Hlen Hsec. unfold grow_store.
  destruct (grow_grown len b Hwf ltac:(lia)) as [(b1 & -> & Hwf1 & Hl1 & Hf1 & Hc1)|[E Hm]];
    [left|rewrite E; right; split; [done|by apply (grow_fails len b)]].
  destruct (len =? 0) eqn:E0; zbool; [lia|].
  destruct (buf_store_spec off bs b1) as (b2 & E2 & Hwf2 & Hc2); [done|lia|done|lia|lia|].
  rewrite E2. exists b2. split_and!; [done|split; [done|]|].
  { unfold buf_store in E2. repeat (case_match; simplify_eq/=). by rewrite Hf1. } rewrite Hc2, Hc1. f_equal. unfold resized.
  rewrite take_take, take_app_le by lia. f_equal. lia.
Qed.

(** The state after [level] data: messages queued, the partial one kept. *)
Definition after (level : Z) (ms : list (list Z)) (ob : option BUF_MEM) (s : SSL) : SSL :=
  upd_quic (fun q => set_quic_buf ob (set_quic_latest_level_received level
    (set_quic_input_data (quic_input_data q ++ map (qmsg level) ms) q))) s.

Lemma fragment_length_frag (s : SSL) : buf_ok (quic_buf (quic s)) ->
  fragment_length s = Z.of_nat (length (buf_frag (quic_buf (quic s)))).
Proof.
  unfold fragment_length, buf_frag, buf_ok. destruct (quic_buf (quic s)) as [b|]; [|done].
  intros [Hwf _]. rewrite length_contents by done. destruct Hwf. lia.
Qed.

Lemma same_buf (s : SSL) : upd_quic (set_quic_buf (quic_buf (quic s))) s = s.
Proof.
  unfold upd_quic, set_quic.
  destruct s as [? ? ? ? ? ? ? ? ? ? ? ? ? ? ? ? ? ? ? ? ? ? ? ? ? ? ? ? ? ? ? ? ? q]. by destruct q.
Qed.

Lemma join_fragment_spec data (s : SSL) : buf_ok (quic_buf (quic s)) -> Forall is_byte data ->
  fragment_length s + Z.of_nat (length data) <= SIZE_MAX ->
  let frag := buf_frag (quic_buf (quic s)) in
  (exists ob, join_fragment data s = (Ok (frag ++ data), upd_quic (set_quic_buf ob) s) /\ buf_ok ob
     /\ (fragment_length s <> 0 -> buf_frag ob = frag ++ data))
  \/ (fst (join_fragment data s) = Fail /\ ~ memory_for (Z.of_nat (length (frag ++ data)))).
Proof.
  intros Hok Hb Hsz frag. pose proof (fragment_length_frag s Hok) as Hfl. fold frag in Hfl.
  assert (Same : fragment_length s = 0 -> join_fragment data s = (Ok data, s)).
  { intros E. unfold join_fragment. rewrite E. by destruct (quic_buf (quic s)). }
  destruct (decide (fragment_length s = 0)) as [E|E].
  { left. exists (quic_buf (quic s)). rewrite same_buf, Same by done.
    assert (frag = []) as -> by (apply length_zero_iff_nil; lia). by split_and!. }
  unfold join_fragment. revert E Hfl Hok. subst frag.
  destruct (quic_buf (quic s)) as [b|] eqn:Eb; [|by unfold fragment_length; rewrite Eb].
  intros E Hfl [Hwf Hsec]. simpl in Hfl |- *. rewrite wrap64_small by lia.
  destruct (fragment_length s =? 0) eqn:E0; zbool; [done|]. unfold st_bind.
  destruct (grow_store_spec (fragment_length s + Z.of_nat (length data)) (fragment_length s) data b s)
    as [(b' & -> & Hwf' & Hc)|[-> Hm]]; try done; try lia; [left|right].
  - rewrite take_ge in Hc by lia. exists (Some b'). split_and!; [by rewrite Hc|done|done].
  - split; [done|]. by rewrite length_app, Nat2Z.inj_add, <- Hfl.
Qed.

Lemma store_rest_spec r b (s : SSL) : r <> [] -> buf_ok (Some b) -> Forall is_byte r ->
  (exists b', (grow_store (Z.of_nat (length r)) 0 r b ;;; st_ret tt) s = (Ok tt, put_quic_buf b' s)
     /\ buf_ok (Some b') /\ contents b' = r)
  \/ (fst ((grow_store (Z.of_nat (length r)) 0 r b ;;; st_ret tt) s) = Fail
      /\ ~ memory_for (Z.of_nat (length r))).
Proof.
  intros Hr [Hwf Hsec] Hb. assert (0 < Z.of_nat (length r)) by (destruct r; [done|simpl; lia]).
  unfold st_bind.
  destruct (grow_store_spec (Z.of_nat (length r)) 0 r b s) as [(b' & -> & Hwf' & Hc)|[-> Hm]];
    try done; try lia; [left|by right]. by exists b'.
Qed.

Lemma save_rest_spec in_buf r adv (s : SSL) : buf_ok (quic_buf (quic s)) -> Forall is_byte r ->
  (in_buf = true -> adv = 0 -> buf_frag (quic_buf (quic s)) = r) ->
  (exists ob, save_rest in_buf r adv s = (Ok tt, upd_quic (set_quic_buf ob) s) /\ buf_ok ob
     /\ buf_frag ob = r)
  \/ (fst (save_rest in_buf r adv s) = Fail /\ ~ memory_for (Z.of_nat (length r))).
Proof.
  intros Hok Hb Hin. unfold save_rest. destruct (decide (r = [])) as [->|Hr].
  { left. destruct (quic_buf (quic s)) as [b|] eqn:Eb.
    - eexists (Some _); split_and!; [done| |].
      + destruct Hok as [[Hl Hd] Hsec]. split; [|done]. split; simpl; [lia|done].
      + unfold buf_frag, contents. simpl. by destruct (buf_data b).
    - exists None. rewrite <- Eb, same_buf. by rewrite Eb. }
  destruct r as [|x r']; [done|]. set (r := x :: r') in *.
  destruct (quic_buf (quic s)) as [b|] eqn:Eb.
  - destruct (in_buf && (adv =? 0)) eqn:Ei.
    { left. apply andb_true_iff in Ei as [-> ?%Z.eqb_eq]. exists (Some b).
      rewrite <- Eb, same_buf, Eb. auto. }
    destruct (store_rest_spec r b s) as [(b' & -> & ? & ?)|E]; try done; [left|by right]. by exists (Some b').
  - unfold BUF_MEM_new. destruct (CRYPTO_zalloc 32) eqn:Ez.
    2: { right. split; [done|]. by apply (zalloc_fails 32). }
    set (b := mkBUF_MEM 0 None 0 0).
    destruct (store_rest_spec r b (put_quic_buf b s)) as [(b' & -> & ? & ?)|E]; try done; [left|by right].
    by exists (Some b').
Qed.

(** When [SSL_provide_quic_data] turns data down. *)
Definition refused (level : Z) (data : list Z) (s : SSL) : bool :=
  negb (SSL_IS_QUIC s) || (level <? quic_read_level (quic s)) || tail_level_above level s
  || (level <? quic_latest_level_received (quic s))
  || (negb (Z.of_nat (length data) =? 0) && negb (fragment_length s =? 0)
      && negb (level =? quic_latest_level_received (quic s))).

Definition provide_body (level : Z) (data : list Z) : ST SSL unit :=
  st_put (upd_quic (set_quic_latest_level_received level)) ;;;
  in_buf <~ st_get (fun s => negb (fragment_length s =? 0)) ;;
  data <~ join_fragment data ;;
  r <~ split_loop (length data) level data 0 ;;
  save_rest in_buf (fst r) (snd r).

Lemma provide_unfold level data (s : SSL) :
  SSL_provide_quic_data level data s
  = if refused level data s then (Fail, s)
    else if Z.of_nat (length data) =? 0 then (Ok tt, s) else provide_body level data s.
Proof.
  unfold SSL_provide_quic_data, refused. destruct (SSL_IS_QUIC s); [|done]. simpl.
  destruct (level <? quic_read_level _); [done|]. destruct (tail_level_above _ _); [done|].
  destruct (level <? _); [done|]. simpl. by destruct (Z.of_nat (length data) =? 0).
Qed.

Lemma buf_frag_bytes ob : buf_ok ob -> Forall is_byte (buf_frag ob).
Proof.
  destruct ob as [b|]; simpl; [|done]. intros [[_ Hd] _]. unfold contents.
  destruct (buf_data b); [|done]. apply Forall_take, Hd.
Qed.

Lemma splits_bytes bs ms r : splits bs ms r -> Forall is_byte bs -> Forall is_byte r.
Proof. intros Hs. apply splits_concat in Hs as [<- _]. rewrite Forall_app. tauto. Qed.

Lemma frag_shrinks bs ms (r : list Z) : splits bs ms r -> (length r <= length bs)%nat.
Proof. intros Hs. apply splits_concat in Hs as [<- _]. rewrite length_app. lia. Qed.

Lemma nothing_advanced bs ms r : splits bs ms r -> Z.of_nat (length (concat ms)) = 0 -> r = bs.
Proof.
  intros Hs Hl. apply splits_concat in Hs as [<- _]. destruct (concat ms); [done|simpl in Hl; lia].
Qed.

Lemma provide_body_spec level data (s : SSL) : buf_ok (quic_buf (quic s)) -> Forall is_byte data ->
  fragment_length s + Z.of_nat (length data) <= SIZE_MAX ->
  (exists ms r ob, splits (buf_frag (quic_buf (quic s)) ++ data) ms r
     /\ provide_body level data s = (Ok tt, after level ms ob s) /\ buf_frag ob = r /\ buf_ok ob)
  \/ (fst (provide_body level data s) = Fail
      /\ ~ memory_for (Z.of_nat (length (buf_frag (quic_buf (quic s)) ++ data)))).
Proof.
  intros Hok Hb Hsz. set (s0 := upd_quic (set_quic_latest_level_received level) s).
  assert (provide_body level data s
          = (data <~ join_fragment data ;; r <~ split_loop (length data) level data 0 ;;
             save_rest (negb (fragment_length s0 =? 0)) (fst r) (snd r)) s0) as -> by done.
  pose proof (buf_frag_bytes _ Hok) as Hfb. set (frag := buf_frag (quic_buf (quic s))) in *.
  destruct (join_fragment_spec data s0 Hok Hb Hsz) as [(ob1 & E1 & Hok1 & Hin)|[E1 Hm]].
  2: { right. split; [|done]. revert E1. unfold st_bind.
       by destruct (join_fragment data s0) as [[| |] ?]. }
  rewrite (st_bind_ok _ _ _ _ _ E1). set (s1 := upd_quic _ s0).
  change (buf_frag (quic_buf (quic s0))) with frag in *.
  assert (Hall : Forall is_byte (frag ++ data)) by (by apply Forall_app).
  destruct (split_loop_spec (length (frag ++ data)) level (frag ++ data) 0 s1)
    as [(ms & r & Hs & E2)|(ms & E2 & Hm)]; [done|done| |].
  2: { right. split; [by rewrite (st_bind_fail _ _ _ _ E2)|apply Hm]. }
  rewrite (st_bind_ok _ _ _ _ _ E2). simpl fst. simpl snd. set (s2 := enqueue_all _ _ _).
  edestruct (save_rest_spec (negb (fragment_length s0 =? 0)) r
    (0 + Z.of_nat (length (concat ms))) s2) as [(ob & E3 & Hok3 & Hf3)|[E3 Hm]];
    [exact Hok1|by eapply splits_bytes| |left|right].
  - intros Hn Ha. zbool. rewrite (nothing_advanced _ _ _ Hs) by lia. by apply Hin.
  - exists ms, r, ob. by rewrite E3.
  - split; [done|]. intros Hme. apply Hm. eapply memory_for_le, Hme.
    apply frag_shrinks in Hs. lia.
Qed.
End Proofs.



(** ** The invariant of the queue *)

Section Inv.
Context {W : Type} `{Callees W}.
Local Abbreviation SSL := (SSL W).

Definition frag (s : SSL) : list Z := buf_frag (quic_buf (quic s)).

(** A queued message is one whole message. *)
Definition qd_ok (qd : QUIC_DATA) : Prop :=
  framed (qd_data qd) /\ Forall is_byte (qd_data qd)
  /\ qd_length qd = Z.of_nat (length (qd_data qd)).

Record quic_inv (s : SSL) : Prop := {
  inv_buf : buf_ok (quic_buf (quic s));
  inv_frag : incomplete (frag s);
  inv_msgs : Forall qd_ok (quic_input_data (quic s));
  inv_sorted : StronglySorted Z.le (map qd_level (quic_input_data (quic s)));
  inv_latest : Forall (fun qd => qd_level qd <= quic_latest_level_received (quic s))
                 (quic_input_data (quic s))
}.

Lemma splits_incomplete bs ms r : splits bs ms r -> incomplete r.
Proof. by induction 1. Qed.

Lemma splits_qd_ok level bs ms r : splits bs ms r -> Forall is_byte bs ->
  Forall qd_ok (map (qmsg level) ms).
Proof.
  intros Hs Hb. apply splits_concat in Hs as [<- Hf]. apply Forall_app in Hb as [Hb _].
  induction Hf as [|m ms Hm Hf IH]; simpl in *; [done|]. apply Forall_app in Hb as [??].
  constructor; [done|by apply IH].
Qed.

Lemma sorted_snoc_level l level n : StronglySorted Z.le l -> Forall (fun x => x <= level) l ->
  StronglySorted Z.le (l ++ replicate n level).
Proof.
  intros Hs. induction Hs as [|x l Hs IH Hx]; intros Hl; simpl.
  - induction n; simpl; constructor; [done|]. by apply Forall_replicate.
  - apply Forall_cons in Hl as [? ?]. constructor; [by apply IH|].
    apply Forall_app. split; [done|]. by apply Forall_replicate.
Qed.

Lemma after_inv level ms ob r bs (s : SSL) : quic_inv s -> Forall is_byte bs -> splits bs ms r ->
  buf_frag ob = r -> buf_ok ob -> quic_latest_level_received (quic s) <= level ->
  quic_inv (after level ms ob s).
Proof.
  intros [Hb Hf Hm Hs Hl] Hbs Hsp Hr Hob Hle.
  assert (Hl' : Forall (fun qd => qd_level qd <= level) (quic_input_data (quic s))).
  { eapply Forall_impl; [exact Hl|]. simpl. intros. lia. }
  split; simpl; [done| | | |].
  - unfold frag. simpl. rewrite Hr. by eapply splits_incomplete.
  - apply Forall_app. split; [done|by eapply splits_qd_ok].
  - rewrite map_app, map_map. simpl.
    assert (map (fun _ : list Z => level) ms = replicate (length ms) level) as ->
      by (clear; induction ms; simpl; by f_equal).
    apply sorted_snoc_level; [done|]. by apply Forall_map.
  - apply Forall_app. split; [done|]. apply Forall_map, Forall_true. done.
Qed.

Context `{L : Libc} {LO : LibcOk L}.

Lemma provide_ok level data (s s' : SSL) : quic_inv s -> Forall is_byte data ->
  fragment_length s + Z.of_nat (length data) <= SIZE_MAX ->
  SSL_provide_quic_data level data s = (Ok tt, s') ->
  exists ms r, splits (frag s ++ data) ms r
    /\ quic_input_data (quic s') = quic_input_data (quic s) ++ map (qmsg level) ms
    /\ frag s' = r /\ quic_inv s'.
Proof.
  intros Hi Hb Hsz E. rewrite provide_unfold in E.
  destruct (refused level data s) eqn:Er; [done|].
  destruct (Z.of_nat (length data) =? 0) eqn:E0; zbool; simplify_eq.
  { exists [], (frag s'). assert (data = []) as -> by (apply length_zero_iff_nil; lia).
    rewrite !app_nil_r. split_and!; try done. constructor. apply Hi. }
  destruct (provide_body_spec level data s) as [(ms & r & ob & Hs & E' & Hf & Hok)|[E' _]];
    [apply Hi|done|done| |by rewrite E in E'].
  rewrite E' in E. simplify_eq. exists ms, (buf_frag ob). split_and!; try done.
  unfold refused in Er. repeat (apply orb_false_iff in Er as [Er ?]). zbool.
  apply (after_inv _ _ _ (buf_frag ob) (frag s ++ data)); try done.
  apply Forall_app. split; [apply buf_frag_bytes, Hi|done].
Qed.

(** Handing over several portions one after the other. *)
Fixpoint provide_all (level : Z) (chunks : list (list Z)) : ST SSL unit :=
  match chunks with
  | [] => st_ret tt
  | c :: cs => SSL_provide_quic_data level c ;;; provide_all level cs
  end.

Lemma provide_all_ok level chunks (s s' : SSL) : quic_inv s -> Forall is_byte (concat chunks) ->
  Z.of_nat (length (frag s ++ concat chunks)) <= SIZE_MAX ->
  provide_all level chunks s = (Ok tt, s') ->
  exists ms r, splits (frag s ++ concat chunks) ms r
    /\ quic_input_data (quic s') = quic_input_data (quic s) ++ map (qmsg level) ms /\ frag s' = r.
Proof.
  revert s. induction chunks as [|c cs IH]; intros s Hi Hb Hsz E; simpl in *.
  { unfold st_ret in E. simplify_eq. exists [], (frag s'). rewrite !app_nil_r.
    split_and!; try done. constructor. apply Hi. }
  apply Forall_app in Hb as [Hb1 Hb2]. rewrite !length_app in Hsz. unfold st_bind in E.
  destruct (SSL_provide_quic_data level c s) as [[[]| |] s1] eqn:E1; try done.
  apply provide_ok in E1 as (ms1 & r1 & Hs1 & Hq1 & Hf1 & Hi1); try done.
  2: { rewrite fragment_length_frag by apply Hi. unfold frag in Hsz. lia. }
  pose proof (frag_shrinks _ _ _ Hs1) as Hl. rewrite length_app in Hl.
  apply IH in E as (ms2 & r2 & Hs2 & Hq2 & Hf2); try done.
  2: { rewrite length_app, Hf1. lia. }
  exists (ms1 ++ ms2), r2. rewrite app_assoc. split_and!; try done.
  - eapply splits_app; [done|]. by rewrite <- Hf1.
  - by rewrite Hq2, Hq1, map_app, app_assoc.
Qed.
End Inv.

(** C26.  How the QUIC stack cuts the CRYPTO stream into portions does not
    matter: two ways to hand over the same bytes at the same level leave the
    same messages in the queue and the same unfinished message behind. *)
Theorem chunking_irrelevant {W} `{Callees W} `{L : Libc} {LO : LibcOk L} (level : Z)
  (chunks1 chunks2 : list (list Z)) (s s1 s2 : SSL W)
  (Hi : quic_inv s) (Hb : Forall is_byte (concat chunks1))
  (Hsz : Z.of_nat (length (frag s ++ concat chunks1)) <= SIZE_MAX)
  (Heq : concat chunks1 = concat chunks2)
  (H1 : provide_all level chunks1 s = (Ok tt, s1)) (H2 : provide_all level chunks2 s = (Ok tt, s2)) :
  quic_input_data (quic s1) = quic_input_data (quic s2) /\ frag s1 = frag s2.
Proof.
  apply provide_all_ok in H1 as (ms1 & r1 & Hs1 & -> & ->); try done.
  apply provide_all_ok in H2 as (ms2 & r2 & Hs2 & -> & ->); try done; try (by rewrite <- Heq).
  rewrite <- Heq in Hs2. by destruct (splits_functional _ _ _ _ _ Hs1 Hs2) as [-> ->].
Qed.

Lemma chunking_irrelevant_witness :
  let s := set_quic_method true (sample_ssl TLS_ST_BEFORE TLS1_3_VERSION ecdhe_rsa) in
  let run c := snd (provide_all (L := zero_libc) 0 c s) in
  quic_input_data (quic (run [[1; 0; 0]; [1; 7]; [2; 0]])) = quic_input_data (quic (run [[1; 0; 0; 1; 7; 2; 0]]))
  /\ frag (run [[1; 0; 0]; [1; 7]; [2; 0]]) = frag (run [[1; 0; 0; 1; 7; 2; 0]]).
Proof.
  intros s run.
  apply (chunking_irrelevant (L := zero_libc) (LO := zero_libc_ok) 0 [[1; 0; 0]; [1; 7]; [2; 0]]
    [[1; 0; 0; 1; 7; 2; 0]] s).
  - split; simpl; try done; [|constructor]. by left.
  - repeat constructor; done.
  - by vm_compute.
  - done.
  - vm_compute. reflexivity.
  - vm_compute. reflexivity.
Defined.

(** ** Reading a message *)

Section Get.
Context {W : Type} `{Callees W} `{L : Libc} {LO : LibcOk L}.
Local Abbreviation SSL := (SSL W).

Lemma quic_get_message_takes (s s' : SSL) mt : quic_get_message s = (Ok mt, s') ->
  exists qd next, quic_input_data (quic s) = qd :: next
    /\ quic s' = set_quic_input_data next (quic s).
Proof.
  unfold quic_get_message, SSLfatal, st_bind, st_put, st_fail. intros E.
  destruct (quic_input_data (quic s)) as [|qd next]; [done|]. exists qd, next.
  repeat (case_match; simplify_eq/=); done.
Qed.

Lemma grow_clean_grown len b : buf_wf b -> 0 <= len -> grown (BUF_MEM_grow_clean len) len b.
Proof.
  intros Hwf Hl. destruct (decide (len <= buf_length b)); [by apply grow_clean_shrinks|].
  destruct (decide (len <= buf_max b)); [apply grow_in_block|apply grow_new_block]; (done || lia).
Qed.

Lemma grow_clean_fails len b : buf_wf b -> has (buf_flags b) BUF_MEM_FLAG_SECURE = false ->
  0 < len -> buf_max b < len -> BUF_MEM_grow_clean len b = (Ok 0, b) -> ~ memory_for len.
Proof.
  intros [Hl Hd] Hs Hpos Hm E (Hma & Hre & Hlim). revert E. unfold BUF_MEM_grow_clean.
  rewrite (proj2 (Z.leb_gt _ _)), (proj2 (Z.leb_gt _ _)), (proj2 (Z.ltb_ge _ _)), Hs by lia.
  pose proof (expansion_bound len ltac:(lia)) as [He1 He]. set (n := (len + 3) / 3 * 4) in *.
  assert (Z : forall d, grow_install b len n (Ok (Some d)) <> (Ok 0, b)).
  { intros d. unfold grow_install. destruct (zero_fill _ _ _); [|done]. intros [= E _]. lia. }
  unfold CRYPTO_clear_realloc, CRYPTO_malloc. rewrite (proj2 (Z.eqb_neq n 0)) by lia.
  assert (Hn : malloc n <> None) by (by apply Hma). destruct (malloc n) as [new|]; [|done].
  destruct (buf_data b) as [d|]; [|apply Z].
  rewrite (proj2 (Z.ltb_ge _ _)) by lia. destruct (mem_read d 0 _); [|done].
  destruct (mem_write new 0 _); [apply Z|done].
Qed.

Lemma message_bound qd : qd_ok qd -> SSL3_HM_HEADER_LENGTH <= qd_length qd < 2 ^ 24 + 4.
Proof.
  intros ([H4 Hl] & Hb & ->). split; [done|]. rewrite Hl. unfold body_length.
  pose proof (be_val_range (take 3 (drop 1 (qd_data qd)))) as Hr.
  assert (256 ^ Z.of_nat (length (take 3 (drop 1 (qd_data qd)))) <= 256 ^ 3).
  { apply Z.pow_le_mono_r; [lia|]. rewrite length_take. lia. }
  destruct Hr as [_ Hr]; [by apply Forall_take, Forall_drop|]. lia.
Qed.

Lemma int_cast_small z : 0 <= z < 2 ^ 31 -> int_cast z = z.
Proof.
  intros Hz. unfold int_cast. rewrite Z.mod_small by lia.
  by rewrite (proj2 (Z.ltb_lt _ _)) by lia.
Qed.

(** The header fields as read back from the start of the buffer. *)
Lemma header_in_buf b d m : buf_wf b -> buf_data b = Some d -> contents b = m ->
  SSL3_HM_HEADER_LENGTH <= Z.of_nat (length m) ->
  mem_get d 0 = hd_error m /\ n2l3 d 1 = Some (body_length m).
Proof.
  intros [Hl Hd] Ed Hc H4. rewrite Ed in Hd. unfold contents in Hc. rewrite Ed in Hc.
  assert (Em : d = m ++ drop (Z.to_nat (buf_length b)) d) by (rewrite <- Hc; by rewrite take_drop).
  split.
  - rewrite Em. destruct m; [simpl in H4; lia|done].
  - rewrite n2l3_header; [|tauto|]; rewrite Em; [|rewrite length_app; lia].
    by rewrite body_length_app.
Qed.

(** The state after message [m] has been taken off the queue. *)
Definition received (m : list Z) (mt : Z) (next : list QUIC_DATA) (b : BUF_MEM) (s : SSL) : SSL :=
  set_init_msg SSL3_HM_HEADER_LENGTH (set_init_num (body_length m)
    (upd_tmp (fun t => set_message_size (body_length m) (set_message_type mt t))
       (upd_quic (set_quic_input_data next) (set_init_buf (Some b) s)))).

Lemma set_init_buf_twice b b' (s : SSL) : set_init_buf b (set_init_buf b' s) = set_init_buf b s.
Proof. done. Qed.

Lemma quic_get_head qd next b (s : SSL) : quic_input_data (quic s) = qd :: next -> qd_ok qd ->
  qd_level qd = quic_read_level (quic s) -> init_buf s = Some b -> buf_ok (Some b) ->
  (exists mt b', hd_error (qd_data qd) = Some mt /\ buf_wf b' /\ contents b' = qd_data qd
     /\ quic_get_message s = (Ok mt, received (qd_data qd) mt next b' s))
  \/ (fst (quic_get_message s) = Fail /\ ~ memory_for (qd_length qd)).
Proof.
  intros Hq Hok Hlv Hb [Hwf Hsec]. pose proof (message_bound _ Hok) as Hn.
  destruct Hok as ([H4 Hfr] & Hby & Hlen). unfold quic_get_message. rewrite Hq, Hb, Hlv.
  rewrite (proj2 (Z.ltb_ge _ _)), Z.eqb_refl by lia. simpl.
  rewrite int_cast_small, wrap64_small by (unfold SIZE_MAX; lia).
  destruct (grow_clean_grown (qd_length qd) b Hwf) as [(b1 & -> & Hwf1 & Hl1 & _ & _)|[E Hm]];
    [lia| |rewrite E; right; split; [done|apply (grow_clean_fails _ b); (done || lia)]].
  rewrite (proj2 (Z.eqb_neq _ _)), mem_read_0 by lia.
  rewrite take_ge by lia. left.
  destruct (buf_store_spec 0 (qd_data qd) b1) as (b2 & E2 & Hwf2 & Hc2); [done|lia|done|lia|lia|].
  rewrite E2. assert (Hl2 : buf_length b2 = qd_length qd).
  { unfold buf_store in E2. repeat (case_match; simplify_eq/=). done. }
  assert (mkBUF_MEM (qd_length qd) (buf_data b2) (buf_max b2) (buf_flags b2) = b2) as ->
    by (rewrite <- Hl2; by destruct b2).
  destruct (buf_data b2) as [d|] eqn:Ed; [|unfold buf_wf in Hwf2; rewrite Ed in Hwf2; lia].
  destruct (header_in_buf b2 d (qd_data qd)) as [-> ->]; try done.
  destruct (qd_data qd) as [|mt m]; [simpl in H4; lia|]. exists mt, b2. by split_and!.
Qed.

(** Events on the receiving side of a connection. *)
Inductive qstep : SSL -> SSL -> Prop :=
| q_clear s : qstep s (SSL_clear_quic s)
| q_provide level data s s' : Forall is_byte data ->
    fragment_length s + Z.of_nat (length data) <= SIZE_MAX ->
    SSL_provide_quic_data level data s = (Ok tt, s') -> qstep s s'
| q_get mt s s' : quic_get_message s = (Ok mt, s') -> qstep s s'
| q_other s s' : quic_buf (quic s') = quic_buf (quic s) ->
    quic_input_data (quic s') = quic_input_data (quic s) ->
    quic_latest_level_received (quic s') = quic_latest_level_received (quic s) -> qstep s s'.

Lemma inv_clear (s : SSL) : quic_inv (SSL_clear_quic s).
Proof. split; simpl; try done; [by left|constructor]. Qed.

Lemma qstep_inv (s s' : SSL) : quic_inv s -> qstep s s' -> quic_inv s'.
Proof.
  intros Hi Hst. destruct Hst as [s|level data s s' Hb Hsz E|mt s s' E|s s' Eb Eq El].
  - apply inv_clear.
  - by apply provide_ok in E as (? & ? & _ & _ & _ & ?).
  - apply quic_get_message_takes in E as (qd & next & Eq & Es).
    destruct Hi as [? Hf Hm Hs Hl]. rewrite Eq in Hm, Hs, Hl. unfold frag in Hf.
    apply Forall_cons in Hm as [_ Hm]. apply Forall_cons in Hl as [_ Hl].
    inversion Hs; subst. split; unfold frag; rewrite ?Es; done.
  - destruct Hi as [? Hf Hm Hs Hl]. unfold frag in Hf.
    split; unfold frag; rewrite ?Eb, ?Eq, ?El; done.
Qed.
End Get.


Definition sample_quic : SSL (list Z) :=
  SSL_clear_quic (set_quic_method true (sample_ssl TLS_ST_BEFORE TLS1_3_VERSION ecdhe_rsa)).


(** C28.  [quic_get_message] is memory safe and delivers the head of the queue
    as it was sent: an empty queue asks for more data, a message of another
    encryption level than the current one is fatal, and otherwise (when there
    is memory for it) the whole message is in [init_buf], with its type and
    body length from the header, and is gone from the queue. *)
Theorem quic_get_message_correct {W} `{Callees W} `{L : Libc} {LO : LibcOk L} (s : SSL W) (b : BUF_MEM)
  (Hi : quic_inv s) (Hb : init_buf s = Some b) (Hok : buf_ok (Some b)) :
  match quic_input_data (quic s) with
  | [] => quic_get_message s = (Fail, set_rwstate SSL_READING s)
  | qd :: next =>
      if qd_level qd =? quic_read_level (quic s) then
        (exists mt b', hd_error (qd_data qd) = Some mt /\ buf_wf b' /\ contents b' = qd_data qd
           /\ quic_get_message s = (Ok mt, received (qd_data qd) mt next b' s))
        \/ (fst (quic_get_message s) = Fail /\ ~ memory_for (qd_length qd))
      else quic_get_message s = (Fail, ossl_statem_fatal SSL_AD_INTERNAL_ERROR s)
  end.
Proof.
  destruct (quic_input_data (quic s)) as [|qd next] eqn:Eq.
  { unfold quic_get_message. by rewrite Eq. }
  assert (Hqd : qd_ok qd) by (destruct Hi as [_ _ Hm _ _]; rewrite Eq in Hm; by apply Forall_cons in Hm as [? _]).
  destruct (qd_level qd =? quic_read_level (quic s)) eqn:El; zbool.
  - by apply (quic_get_head qd next b).
  - pose proof (message_bound _ Hqd). unfold quic_get_message. rewrite Eq.
    rewrite (proj2 (Z.ltb_ge _ _)), (proj2 (Z.eqb_neq _ _)) by (done || lia). done.
Qed.

Lemma quic_get_message_correct_witness :
  let s := set_init_buf (Some (mkBUF_MEM 0 None 0 0))
             (snd (SSL_provide_quic_data (H0 := zero_libc) 0 [1; 0; 0; 1; 7; 2; 0] sample_quic)) in
  (exists mt b', hd_error [1; 0; 0; 1; 7] = Some mt /\ buf_wf b' /\ contents b' = [1; 0; 0; 1; 7]
     /\ quic_get_message (H0 := zero_libc) s = (Ok mt, received [1; 0; 0; 1; 7] mt [] b' s))
  \/ (fst (quic_get_message (H0 := zero_libc) s) = Fail /\ ~ memory_for (L := zero_libc) 5).
Proof.
  intros s.
  refine (quic_get_message_correct (L := zero_libc) (LO := zero_libc_ok) s (mkBUF_MEM 0 None 0 0) _ _ _);
    [|done|done].
  apply (qstep_inv (L := zero_libc) (LO := zero_libc_ok)
           (snd (SSL_provide_quic_data (H0 := zero_libc) 0 [1; 0; 0; 1; 7; 2; 0] sample_quic)));
    [|by apply q_other].
  apply (qstep_inv (L := zero_libc) (LO := zero_libc_ok) sample_quic); [apply inv_clear|].
  apply (q_provide 0 [1; 0; 0; 1; 7; 2; 0]);
    [repeat constructor; done|by vm_compute|vm_compute; reflexivity].
Defined.

(** ** KeyUpdate and post-handshake messages *)

(** A function that reports failure by its result, as [get_message_body] sees
    it. *)
Definition as_option {W A} (m : ST (SSL W) A) (s : SSL W) : option A * SSL W :=
  match m s with (Ok a, s') => (Some a, s') | (_, s') => (None, s') end.

(** The callees of the state machine with the QUIC reader of this file in
    place. *)
Definition quic_callees {W} (C : Callees W) (L : Libc) (take_mac : ST (SSL W) unit)
  (finish_mac : list Z -> ST (SSL W) unit) (callback : list Z -> W -> W) : Callees W := {|
  StatemTypes.confunc_call := @StatemTypes.confunc_call W C;
  StatemTypes.process_call := @StatemTypes.process_call W C;
  StatemTypes.post_process_call := @StatemTypes.post_process_call W C;
  StatemTypes.ssl3_send_alert := @StatemTypes.ssl3_send_alert W C;
  StatemTypes.ssl3_init_finished_mac := @StatemTypes.ssl3_init_finished_mac W C;
  StatemTypes.ssl_set_plaintext_write_layer := @StatemTypes.ssl_set_plaintext_write_layer W C;
  StatemTypes.tls13_change_cipher_state := @StatemTypes.tls13_change_cipher_state W C;
  StatemTypes.enc_setup_key_block := @StatemTypes.enc_setup_key_block W C;
  StatemTypes.enc_change_cipher_state := @StatemTypes.enc_change_cipher_state W C;
  StatemTypes.enc_generate_master_secret := @StatemTypes.enc_generate_master_secret W C;
  StatemTypes.tls13_update_key := @StatemTypes.tls13_update_key W C;
  StatemTypes.tls13_save_handshake_digest_for_pha := @StatemTypes.tls13_save_handshake_digest_for_pha W C;
  StatemTypes.tls13_restore_handshake_digest_for_pha := @StatemTypes.tls13_restore_handshake_digest_for_pha W C;
  StatemTypes.tls_client_key_exchange_post_work := @StatemTypes.tls_client_key_exchange_post_work W C;
  StatemTypes.tls_setup_handshake := @StatemTypes.tls_setup_handshake W C;
  StatemTypes.ssl3_cleanup_key_block := @StatemTypes.ssl3_cleanup_key_block W C;
  StatemTypes.ssl_update_cache := @StatemTypes.ssl_update_cache W C;
  StatemTypes.SSL_CTX_remove_used_session := @StatemTypes.SSL_CTX_remove_used_session W C;
  StatemTypes.ssl_free_wbio_buffer := @StatemTypes.ssl_free_wbio_buffer W C;
  StatemTypes.ssl_init_wbio_buffer := @StatemTypes.ssl_init_wbio_buffer W C;
  StatemTypes.ssl_security_version := @StatemTypes.ssl_security_version W C;
  StatemTypes.SSL_clear_not_quic := @StatemTypes.SSL_clear_not_quic W C;
  StatemTypes.tls_get_message_header := @StatemTypes.tls_get_message_header W C;
  StatemTypes.dtls_get_message := @StatemTypes.dtls_get_message W C;
  StatemTypes.quic_get_message := as_option quic_get_message;
  StatemTypes.tls_get_message_body := @StatemTypes.tls_get_message_body W C;
  StatemTypes.dtls_get_message_body := @StatemTypes.dtls_get_message_body W C;
  StatemTypes.quic_get_message_body := as_option (quic_get_message_body take_mac finish_mac callback);
  StatemTypes.ssl_set_handshake_header := @StatemTypes.ssl_set_handshake_header W C;
  StatemTypes.ssl_close_construct_packet := @StatemTypes.ssl_close_construct_packet W C;
  StatemTypes.ssl3_do_write := @StatemTypes.ssl3_do_write W C;
  StatemTypes.dtls1_do_write := @StatemTypes.dtls1_do_write W C;
  StatemTypes.ssl_do_write := @StatemTypes.ssl_do_write W C;
  StatemTypes.dtls1_start_timer := @StatemTypes.dtls1_start_timer W C;
  StatemTypes.dtls1_stop_timer := @StatemTypes.dtls1_stop_timer W C;
  StatemTypes.dtls1_clear_sent_buffer := @StatemTypes.dtls1_clear_sent_buffer W C;
  StatemTypes.dtls1_clear_received_buffer := @StatemTypes.dtls1_clear_received_buffer W C;
  StatemTypes.SSL_get_error_0 := @StatemTypes.SSL_get_error_0 W C;
  StatemTypes.ossl_time_now := @StatemTypes.ossl_time_now W C;
  StatemTypes.info_callback := @StatemTypes.info_callback W C;
  StatemTypes.rl_set_in_init := @StatemTypes.rl_set_in_init W C;
  StatemTypes.rl_set_plain_alerts := @StatemTypes.rl_set_plain_alerts W C;
  StatemTypes.rl_read_pending := @StatemTypes.rl_read_pending W C;
  StatemTypes.rl_write_pending := @StatemTypes.rl_write_pending W C;
  StatemTypes.bio_set_retry_read := @StatemTypes.bio_set_retry_read W C;
  StatemTypes.BIO_flush := @StatemTypes.BIO_flush W C;
  StatemTypes.quic_flush_flight := @StatemTypes.quic_flush_flight W C;
  StatemTypes.clear_sys_error := @StatemTypes.clear_sys_error W C;
  StatemTypes.sys_error_is_closed := @StatemTypes.sys_error_is_closed W C;
  StatemTypes.dtls1_reset_handshake_seqs := @StatemTypes.dtls1_reset_handshake_seqs W C;
  StatemTypes.note_handshake_good := @StatemTypes.note_handshake_good W C
|}.

(** A QUIC connection never processes a KeyUpdate or a ChangeCipherSpec:
    whatever state it is in, reading the body of one is a fatal error, and no
    handler is called. *)
Lemma quic_refuses_key_update {W} {C : Callees W} {K : CalleesKeep W} (L : Libc) (srv : bool)
  (s : SSL W) (take_mac : ST (SSL W) unit) (finish_mac : list Z -> ST (SSL W) unit)
  (callback : list Z -> W -> W)
  (Hq : SSL_IS_QUIC s = true) (Hd : SSL_IS_DTLS s = false)
  (Hmt : message_type (tmp_of s) = SSL3_MT_KEY_UPDATE
         \/ message_type (tmp_of s) = SSL3_MT_CHANGE_CIPHER_SPEC) :
  exists s', @read_body W (quic_callees C L take_mac finish_mac callback) srv s
             = (Ok (Some SUB_STATE_ERROR), s') /\ is_error s' = true.
Proof.
  exists (ossl_statem_fatal SSL3_AD_UNEXPECTED_MESSAGE s). split; [|apply fatal_is_error].
  unfold read_body, get_message_body. rewrite Hd, Hq. simpl.
  unfold as_option, quic_get_message_body. by destruct Hmt as [-> | ->].
Qed.

Lemma quic_refuses_key_update_witness :
  let s := upd_tmp (set_message_type SSL3_MT_KEY_UPDATE) sample_quic in
  exists s', @read_body _ (quic_callees quiet_callees zero_libc ok_unit (fun _ => ok_unit) (fun _ w => w))
               false s = (Ok (Some SUB_STATE_ERROR), s') /\ is_error s' = true.
Proof. intros s. apply quic_refuses_key_update; [done|done|by left]. Defined.

Section PostHandshakeProofs.
Context {W : Type} `{Callees W} (handshake_func : ST (SSL W) Z).
(** A successful call reads at least one message. *)
Context (Hreads : forall s s' r, handshake_func s = (Ok r, s') -> 0 < r ->
  (length (quic_input_data (quic s')) < length (quic_input_data (quic s)))%nat).

Lemma post_handshake_drains n (s : SSL W) : (length (quic_input_data (quic s)) <= n)%nat ->
  yields (fun r s' => r = Some tt /\ quic_input_data (quic s') = []
                      /\ (quic_input_data (quic s) <> [] -> SSL_in_init s' = false))
    (post_handshake_loop handshake_func n) s.
Proof.
  revert s. induction n as [|n IH]; intros s Hn r s' E; simpl in E.
  - destruct (quic_input_data (quic s)) eqn:Eq; [by simplify_eq|simpl in Hn; lia].
  - destruct (quic_input_data (quic s)) as [|qd l] eqn:Eq; [by simplify_eq|].
    unfold st_bind, st_put in E.
    destruct (handshake_func (ossl_statem_set_in_init true s)) as [[v| |] s1] eqn:Eh; try done.
    destruct (v <=? 0) eqn:Ev; zbool; [done|]. apply Hreads in Eh; [|done].
    set (s2 := ossl_statem_set_in_init false s1) in E.
    change (quic (ossl_statem_set_in_init true s)) with (quic s) in Eh. rewrite Eq in Eh.
    pose proof (IH s2) as IH2. change (quic s2) with (quic s1) in IH2. simpl in Eh, Hn.
    destruct (IH2 ltac:(lia) r s' E) as (-> & Hq & Hin). split_and!; [done|done|]. intros _.
    destruct (quic_input_data (quic s1)) eqn:E1; [|by apply Hin].
    destruct n; simpl in E; change (quic s2) with (quic s1) in E; rewrite E1 in E; by simplify_eq.
Qed.
End PostHandshakeProofs.

(** [SSL_process_quic_post_handshake] terminates and leaves no message
    unread: if every successful run of the handshake function reads a message,
    as many rounds as there are messages are enough, and success means that the
    queue is empty and the connection out of init. *)
Lemma post_handshake_correct {W} `{Callees W} (handshake_func : ST (SSL W) Z)
  (Hreads : forall s s' r, handshake_func s = (Ok r, s') -> 0 < r ->
     (length (quic_input_data (quic s')) < length (quic_input_data (quic s)))%nat)
  (n : nat) (s s' : SSL W) (r : option unit)
  (Hn : (length (quic_input_data (quic s)) <= n)%nat)
  (Hr : SSL_process_quic_post_handshake handshake_func n s = (Ok r, s')) :
  r = Some tt /\ quic_input_data (quic s') = [] /\ SSL_in_init s' = false.
Proof.
  unfold SSL_process_quic_post_handshake in Hr. destruct (_ || _) eqn:E; [done|].
  apply orb_false_iff in E as [Ein _].
  destruct (post_handshake_drains handshake_func Hreads n s Hn r s' Hr) as (-> & Hq & Hin).
  split_and!; [done|done|]. destruct (quic_input_data (quic s)) eqn:Eq; [|by apply Hin].
  assert (s' = s) as ->; [|done]. revert Hr. destruct n; simpl; rewrite Eq; by intros [= <-].
Qed.

(** A handshake function that reads one message. *)
Definition read_one : ST (SSL (list Z)) Z := fun s =>
  match quic_input_data (quic s) with
  | [] => (Ok 0, s)
  | _ :: l => (Ok 1, upd_quic (set_quic_input_data l) s)
  end.

Lemma post_handshake_correct_witness :
  let s := ossl_statem_set_in_init false
             (snd (SSL_provide_quic_data (H0 := zero_libc) 0 [4; 0; 0; 1; 7; 4; 0; 0; 1; 8] sample_quic)) in
  let s' := snd (SSL_process_quic_post_handshake read_one 2 s) in
  quic_input_data (quic s') = [] /\ SSL_in_init s' = false.
Proof.
  intros s s'. destruct (post_handshake_correct read_one) with (n := 2%nat) (s := s) (s' := s')
    (r := Some tt) as (_ & ? & ?); [|vm_compute; lia|vm_compute; reflexivity|done].
  intros a a' r E Hr. unfold read_one in E.
  destruct (quic_input_data (quic a)) as [|q l] eqn:Eq; simplify_eq; [lia|simpl; lia].
Defined.
End Quic.
