(* ===== verification/Framing.v ===== *)
(** * Messages in records

    ssl/statem/statem_lib.c: reading the header and the body of a handshake
    message from the record layer, and writing a message to it.  The calls are
    resumed when the transport blocks; what has been read or written so far is
    in [init_buf], [init_num] and [init_off]. *)

From stdpp Require Import prelude.
From Stdlib Require Import ZArith Lia.
From S2P Require Import Prelude Packet Buffer WPacket StatemTypes StatemLib.
From S2P Require Import StatemClnt StatemSrvr Statem StatemFlow StatemOutcome Quic.

Local Open Scope Z_scope.
Local Open Scope st_scope.

Module Framing.
Import Quic.

Abbreviation SSL3_MT_CCS := (1)%Z.

Section Ops.
Context {W : Type} `{Callees W} `{Libc}.
Local Abbreviation SSL := (SSL W).

(** The record layer: [ssl_read_bytes recvd len] delivers the type of the record
    and at most [len] bytes of it, or nothing ([i <= 0]); [recvd] says whether the
    caller wants the type.  [ssl3_write_bytes] and the
    QUIC method return a code and how much was written.  The transcript and the
    message callback are as in Quic.v. *)
Context (ssl_read_bytes : bool -> Z -> SSL -> option (Z * list Z) * SSL)
  (ssl3_write_bytes : Z -> list Z -> SSL -> Z * Z * SSL)
  (add_handshake_data : Z -> list Z -> SSL -> bool * SSL)
  (is_sslv2_record : W -> bool) (record_length : W -> Z)
  (ssl3_take_mac : ST SSL unit) (ssl3_finish_mac : list Z -> ST SSL unit)
  (msg_callback : list Z -> W -> W).

(** [p[i]] for [p = s->init_buf->data]. *)
Definition init_byte (i : Z) (s : SSL) : option Z :=
  match init_buf s with
  | Some b => match buf_data b with Some d => mem_get d i | None => None end
  | None => None
  end.

(** What the record layer stores at [init_buf->data + off]. *)
Definition store_init (off : Z) (bs : list Z) (s : SSL) : option SSL :=
  match init_buf s with
  | Some b => match buf_store off bs b with Some b' => Some (set_init_buf (Some b') s) | None => None end
  | None => None
  end.

(** ** The header *)

Inductive header_kind : Type := HANDSHAKE_HEADER | CCS_MESSAGE.

Definition fatal {A} (al : Z) : ST SSL A := SSLfatal al ;;; st_fail.

(** The inner loop; every round reads at least a byte, so four are enough
    ([None] if they are not). *)
Fixpoint header_bytes (fuel : nat) : ST SSL (option header_kind) := fun s =>
  if SSL3_HM_HEADER_LENGTH <=? init_num s then (Ok (Some HANDSHAKE_HEADER), s)
  else match fuel with
  | O => (Ok None, s)
  | S n =>
      match ssl_read_bytes true (SSL3_HM_HEADER_LENGTH - init_num s) s with
      | (None, s) => (Fail, set_rwstate SSL_READING s)
      | (Some (recvd_type, bs), s) =>
          match store_init (init_num s) bs s with
          | None => (Fault, s)
          | Some s =>
              let readbytes := Z.of_nat (length bs) in
              if recvd_type =? SSL3_RT_CHANGE_CIPHER_SPEC then
                if negb (init_num s =? 0) || negb (readbytes =? 1)
                   || negb (bool_decide (init_byte 0 s = Some SSL3_MT_CCS))
                then fatal SSL3_AD_UNEXPECTED_MESSAGE s
                else if bool_decide (hand s = TLS_ST_BEFORE)
                        && has (s3_flags (s3 s)) TLS1_FLAGS_STATELESS then (Fail, s)
                else (Ok (Some CCS_MESSAGE),
                      set_init_msg 0 (set_init_num (readbytes - 1)
                        (upd_tmp (fun t => set_message_size readbytes
                                             (set_message_type SSL3_MT_CHANGE_CIPHER_SPEC t)) s)))
              else if negb (recvd_type =? SSL3_RT_HANDSHAKE)
              then fatal SSL3_AD_UNEXPECTED_MESSAGE s
              else header_bytes n (set_init_num (init_num s + readbytes) s)
          end
      end
  end.

Definition is_hello_request (s : SSL) : bool :=
  negb (server s) && negb (bool_decide (hand s = TLS_ST_OK))
  && bool_decide (init_byte 0 s = Some SSL3_MT_HELLO_REQUEST)
  && bool_decide (init_byte 1 s = Some 0) && bool_decide (init_byte 2 s = Some 0)
  && bool_decide (init_byte 3 s = Some 0).

(** The outer loop skips HelloRequests in a handshake; the fuel bounds their
    number. *)
Fixpoint header_loop (fuel : nat) : ST SSL (option header_kind) :=
  k <~ header_bytes 4 ;;
  match k with
  | Some HANDSHAKE_HEADER =>
      st_if is_hello_request
        (match fuel with
         | O => st_ret None
         | S n => st_put (set_init_num 0) ;;;
                  st_put (upd_rest (msg_callback [0; 0; 0; 0])) ;;;
                  header_loop n
         end)
        (st_ret (Some HANDSHAKE_HEADER))
  | k => st_ret k
  end.

(** The fields of the header, once it is complete. *)
Definition parse_header : ST SSL Z := fun s =>
  match init_buf s with
  | None => (Fault, s)
  | Some b =>
      match buf_data b with
      | None => (Fault, s)
      | Some d =>
          match mem_get d 0 with
          | None => (Fault, s)
          | Some mt =>
              let s := upd_tmp (set_message_type mt) s in
              if is_sslv2_record (rest s) then
                (Ok mt, set_init_num SSL3_HM_HEADER_LENGTH (set_init_msg 0
                   (upd_tmp (set_message_size (wrap64 (record_length (rest s) + SSL3_HM_HEADER_LENGTH))) s)))
              else match n2l3 d 1 with
              | None => (Fault, s)
              | Some l =>
                  if INT_MAX - SSL3_HM_HEADER_LENGTH <? l then fatal SSL_AD_ILLEGAL_PARAMETER s
                  else (Ok mt, set_init_num 0 (set_init_msg SSL3_HM_HEADER_LENGTH
                                 (upd_tmp (set_message_size l) s)))
              end
          end
      end
  end.

Definition tls_get_message_header (fuel : nat) : ST SSL (option Z) :=
  k <~ header_loop fuel ;;
  match k with
  | None => st_ret None
  | Some CCS_MESSAGE => st_ret (Some SSL3_MT_CHANGE_CIPHER_SPEC)
  | Some HANDSHAKE_HEADER => mt <~ parse_header ;; st_ret (Some mt)
  end.

(** ** The body *)

(** [n] bytes to go; every round reads at least one. *)
Fixpoint body_loop (fuel : nat) (n : Z) : ST SSL bool := fun s =>
  if n <=? 0 then (Ok true, s)
  else match fuel with
  | O => (Ok false, s)
  | S f =>
      match ssl_read_bytes false n s with
      | (None, s) => (Fail, set_rwstate SSL_READING s)
      | (Some (_, bs), s) =>
          match store_init (init_msg s + init_num s) bs s with
          | None => (Fault, s)
          | Some s =>
              let readbytes := Z.of_nat (length bs) in
              body_loop f (wrap64 (n - readbytes)) (set_init_num (init_num s + readbytes) s)
          end
      end
  end.

Definition feed_message : ST SSL unit := fun s =>
  (if is_sslv2_record (rest s) then
     m <~ st_lift (fun s => match init_data 0 (init_num s) s with Some m => Ok m | None => Fault end) ;;
     ssl3_finish_mac m ;;;
     st_put (upd_rest (msg_callback m))
   else
     feed <~ st_lift (fun s => if SSL_IS_TLS13 s && outside_transcript s then Ok false
                               else not_hello_retry s) ;;
     (if feed : bool then m <~ st_lift whole_message ;; ssl3_finish_mac m else st_ret tt) ;;;
     m <~ st_lift whole_message ;;
     st_put (upd_rest (msg_callback m))) s.

(** [None] when the fuel of the loop ran out. *)
Definition tls_get_message_body : ST SSL (option Z) := fun s =>
  if message_type (tmp_of s) =? SSL3_MT_CHANGE_CIPHER_SPEC then (Ok (Some (init_num s)), s)
  else
  (let n := wrap64 (message_size (tmp_of s) - init_num s) in
   all <~ body_loop (Z.to_nat n) n ;;
   if negb all then st_ret None
   else
     first <~ st_lift (fun s => match init_byte 0 s with Some c => Ok c | None => Fault end) ;;
     (if first =? SSL3_MT_FINISHED then ssl3_take_mac else st_ret tt) ;;;
     feed_message ;;;
     st_get (fun s => Some (init_num s))) s.

(** ** Writing *)

Definition writes_transcript (s : SSL) : bool :=
  negb (SSL_IS_TLS13 s)
  || (negb (bool_decide (hand s = TLS_ST_SW_SESSION_TICKET))
      && negb (bool_decide (hand s = TLS_ST_CW_KEY_UPDATE))
      && negb (bool_decide (hand s = TLS_ST_SW_KEY_UPDATE))).

(** The message as handed to the record layer or to QUIC: the code returned and
    how much was taken. *)
Definition send_bytes (type : Z) (msg : list Z) (s : SSL) : Z * Z * SSL :=
  if SSL_IS_QUIC s then
    if type =? SSL3_RT_HANDSHAKE then
      let '(ok, s) := add_handshake_data (quic_write_level (quic s)) msg s in
      if ok then (1, init_num s, s) else (-1, 0, s)
    else (-1, 0, s)
  else ssl3_write_bytes type msg s.

(** What was written goes into the transcript. *)
Definition note_written (type written : Z) : ST SSL bool :=
  st_if (fun s => (type =? SSL3_RT_HANDSHAKE) && writes_transcript s)
    (m <~ st_lift (fun s => match init_data (init_off s) written s with
                            | Some m => Ok m | None => Fault end) ;;
     st_try (ssl3_finish_mac m))
    (st_ret true).

(** The result is [1], [0] or [-1] as in C. *)
Definition ssl3_do_write (type : Z) : ST SSL Z := fun s =>
  match init_data (init_off s) (init_num s) s with
  | None => (Fault, s)
  | Some msg =>
      let '(ret, written, s) := send_bytes type msg s in
      if ret <=? 0 then (Ok (-1), s)
      else
      (fed <~ note_written type written ;;
       if negb fed then st_ret (-1)
       else st_if (fun s => written =? init_num s)
              (st_put (upd_st (set_write_in_progress false)) ;;;
               m <~ st_lift (fun s => match init_data 0 (init_off s + init_num s) s with
                                      | Some m => Ok m | None => Fault end) ;;
               st_put (upd_rest (msg_callback m)) ;;; st_ret 1)
              (st_put (fun s => set_init_off (init_off s + written) s) ;;;
               st_put (fun s => set_init_num (init_num s - written) s) ;;; st_ret 0)) s
  end.

(** The two objects it works on are the state. *)
Definition tls_close_construct_packet (htype : Z) : ST (WPACKET * SSL) unit := fun '(pkt, s) =>
  match (if htype =? SSL3_MT_CHANGE_CIPHER_SPEC then (Ok tt, pkt) else WPACKET_close pkt) with
  | (Ok _, pkt) =>
      match WPACKET_get_length pkt with
      | (Ok msglen, pkt) =>
          if INT_MAX <? msglen then (Fail, (pkt, s))
          else (Ok tt, (pkt, set_init_off 0 (set_init_num msglen s)))
      | (Fail, pkt) => (Fail, (pkt, s))
      | (Fault, pkt) => (Fault, (pkt, s))
      end
  | (Fail, pkt) => (Fail, (pkt, s))
  | (Fault, pkt) => (Fault, (pkt, s))
  end.
End Ops.

(** ** A stream of handshake bytes *)

(** A store inside the contents of a buffer. *)
Lemma buf_store_inside off bs b : buf_wf b -> 0 <= off -> Forall is_byte bs -> bs <> [] ->
  off + Z.of_nat (length bs) <= buf_length b ->
  exists b', buf_store off bs b = Some b' /\ buf_wf b' /\ buf_length b' = buf_length b
    /\ contents b' = take (Z.to_nat off) (contents b) ++ bs
                     ++ drop (Z.to_nat off + length bs) (contents b).
Proof.
  intros [Hl Hd] Ho Hb Hne Hlen. unfold buf_store, contents.
  assert (0 < Z.of_nat (length bs)) by (destruct bs; [done|simpl; lia]).
  destruct (buf_data b) as [d|]; [|lia]. destruct Hd as [Hd Hbd].
  rewrite mem_write_Some by lia. eexists; split_and!; [done| |done|].
  - split; simpl; [done|]. split.
    + rewrite !length_app, length_take, length_drop. lia.
    + rewrite !Forall_app. auto using Forall_take, Forall_drop.
  - simpl. assert (Ht : length (take (Z.to_nat off) d) = Z.to_nat off) by (rewrite length_take; lia).
    rewrite !take_app, Ht, !take_take, (take_ge bs) by lia. f_equal; [f_equal; lia|]. f_equal.
    rewrite skipn_firstn_comm. f_equal. lia.
Qed.

Section Stream.
Context {W : Type} `{Callees W} `{L : Libc} {LO : LibcOk L}.
Local Abbreviation SSL := (SSL W).

(** What is left of the stream, and the transcript so far. *)
Context (pending transcript : W -> list Z).

(** What the record layer looks at outside of its own state. *)
Definition frame (s : SSL) : OSSL_STATEM * Z * SSL_EARLY_DATA_STATE * Z := (statem s, shutdown s, early_data_state s, version s).

(** The stream is delivered in a given [frame], from states of the record layer
    that are usable. *)
Context (fr : OSSL_STATEM * Z * SSL_EARLY_DATA_STATE * Z) (usable : W -> Prop).
Definition sourced (s : SSL) : Prop := frame s = fr /\ usable (rest s).

(** A record layer that delivers the bytes of handshake records in order, in
    portions of its choosing, or nothing when the transport blocks; it changes
    only its own state. *)
Class StreamReader (read : bool -> Z -> SSL -> option (Z * list Z) * SSL) : Prop := {
  sr_some recvd len s t bs s' : 0 < len -> sourced s -> read recvd len s = (Some (t, bs), s') ->
    t = SSL3_RT_HANDSHAKE /\ bs <> [] /\ Z.of_nat (length bs) <= len
    /\ exists v w, s' = set_rwstate v (set_rest w s) /\ pending (rest s) = bs ++ pending w
         /\ transcript w = transcript (rest s) /\ usable w;
  sr_none recvd len s s' : 0 < len -> sourced s -> read recvd len s = (None, s') ->
    exists v w, s' = set_rwstate v (set_rest w s) /\ pending w = pending (rest s)
      /\ transcript w = transcript (rest s) /\ usable w
}.

Context (read : bool -> Z -> SSL -> option (Z * list Z) * SSL) `{!StreamReader read}.
Context (is_v2 : W -> bool) (rec_len : W -> Z) (callback : list Z -> W -> W).
Context (Hv2 : forall w, is_v2 w = false).
Context (Hcb : forall m w, pending (callback m w) = pending w
                           /\ transcript (callback m w) = transcript w /\ (usable w -> usable (callback m w))).

(** The stream seen from the middle of a message: [num] bytes from offset [0]
    are in the buffer, which has room for [room]. *)
Definition buffered (room num : Z) (st : list Z) (s : SSL) : Prop :=
  exists b, init_buf s = Some b /\ buf_wf b /\ room <= buf_length b /\ 0 <= num <= room
    /\ st = take (Z.to_nat num) (contents b) ++ pending (rest s) /\ sourced s.

Lemma buffered_sourced room num st s : buffered room num st s -> sourced s.
Proof. by intros (?&?&?&?&?&?&?). Qed.
#[local] Hint Resolve buffered_sourced : core.

Lemma store_buffered room num st bs v w s : buffered room num st s -> Forall is_byte st ->
  pending (rest s) = bs ++ pending w -> usable w -> bs <> [] -> num + Z.of_nat (length bs) <= room ->
  exists s', store_init num bs (set_rwstate v (set_rest w s)) = Some s'
    /\ buffered room (num + Z.of_nat (length bs)) st s'
    /\ exists b', s' = set_init_buf (Some b') (set_rwstate v (set_rest w s)).
Proof.
  intros (b & Hb & Hwf & Hr & Hn & Hst & Hso & _) Hby Hp Hu Hne Hroom.
  assert (Hbs : Forall is_byte bs).
  { rewrite Hst, Hp, !Forall_app in Hby. tauto. }
  destruct (buf_store_inside num bs b) as (b' & E & Hwf' & Hl' & Hc'); try done; try lia.
  exists (set_init_buf (Some b') (set_rwstate v (set_rest w s))). unfold store_init. simpl. rewrite Hb, E.
  split_and!; [done| |by eexists].
  exists b'. split_and!; try done; try lia. simpl. rewrite Hst, Hp, Hc'.
  pose proof (length_contents _ Hwf) as Hlc.
  rewrite (app_assoc (take (Z.to_nat num) (contents b)) bs (drop _ _)).
  rewrite take_app_length' by (rewrite length_app, length_take; lia). by rewrite app_assoc.
Qed.

(** What reading from the record layer leaves alone. *)
Definition setting (s : SSL) := (server s, hand s, init_msg s, tmp_of s, SSL_IS_TLS13 s, transcript (rest s)).

Definition H4 : Z := SSL3_HM_HEADER_LENGTH.

(** A call gave up because the record layer had nothing for it. *)
Definition starved (s : SSL) : Prop :=
  exists recvd len s1 s2, 0 < len /\ sourced s1 /\ read recvd len s1 = (None, s2) /\ s = set_rwstate SSL_READING s2.

Lemma buffered_blocked room num st v w s : buffered room num st s -> pending w = pending (rest s) -> usable w ->
  buffered room num st (set_rwstate v (set_rest w s)).
Proof.
  intros (b & ? & ? & ? & [? ?] & Hst & Hf & _) Hp Hu. exists b. split_and!; try done. by rewrite Hst, <- Hp.
Qed.

Lemma header_bytes_spec n st (s : SSL) : buffered H4 (init_num s) st s -> Forall is_byte st ->
  H4 - init_num s <= Z.of_nat n ->
  exists s', buffered H4 (init_num s') st s' /\ setting s' = setting s
    /\ ((header_bytes read n s = (Ok (Some HANDSHAKE_HEADER), s') /\ init_num s' = H4)
        \/ (header_bytes read n s = (Fail, s') /\ starved s' /\ init_num s' < H4)).
Proof.
  unfold H4. revert s. induction n as [|n IH]; intros s Hbuf Hby Hn.
  all: destruct (SSL3_HM_HEADER_LENGTH <=? init_num s) eqn:E4; zbool.
  - exists s. assert (init_num s = SSL3_HM_HEADER_LENGTH) by (destruct Hbuf as (?&?&?&?&?&?); lia).
    split_and!; [done|done|]. left. simpl. by rewrite (proj2 (Z.leb_le _ _)).
  - simpl in Hn. lia.
  - exists s. assert (init_num s = SSL3_HM_HEADER_LENGTH) by (destruct Hbuf as (?&?&?&?&?&?); lia).
    split_and!; [done|done|]. left. simpl. by rewrite (proj2 (Z.leb_le _ _)).
  - simpl. rewrite (proj2 (Z.leb_gt _ _)) by done.
    destruct (read true (SSL3_HM_HEADER_LENGTH - init_num s) s) as [[[t bs]|] s1] eqn:Er.
    + apply sr_some in Er as (-> & Hne & Hlen & v & w & -> & Hp & Ht & Hu); [|lia|eauto].
      destruct (store_buffered SSL3_HM_HEADER_LENGTH (init_num s) st bs v w s)
        as (s2 & Es & Hbuf2 & b' & E2); try done; [lia|].
      change (init_num (set_rwstate v (set_rest w s))) with (init_num s). rewrite Es. simpl.
      assert (En : init_num s2 = init_num s) by (by rewrite E2).
      assert (Hpos : 0 < Z.of_nat (length bs)) by (destruct bs; [done|simpl; lia]).
      destruct (IH (set_init_num (init_num s2 + Z.of_nat (length bs)) s2)) as (s3 & ? & Hset & Hres);
        [by rewrite En|done|simpl; lia|].
      exists s3. split_and!; [done| |done]. rewrite Hset, E2. unfold setting. simpl. by rewrite Ht.
    + pose proof Er as Er'. apply sr_none in Er' as (v & w & -> & Hp & Ht & Hu); [|lia|eauto].
      exists (set_rwstate SSL_READING (set_rest w s)).
      split_and!; [by apply buffered_blocked|unfold setting; simpl; by rewrite Ht|right; split_and!; [done| |done]].
      eexists _, _, _, _. split_and!; [|eauto|exact Er|done]. lia.
Qed.

Definition hello_requests (k : nat) : list Z := concat (replicate k [0; 0; 0; 0]).

Lemma hello_request_bytes st (s : SSL) : buffered H4 H4 st s -> is_hello_request s = true ->
  st = [0; 0; 0; 0] ++ pending (rest s).
Proof.
  intros (b & Hb & [Hl Hd] & Hr & _ & -> & _) Hh. f_equal. unfold is_hello_request, init_byte in Hh.
  rewrite Hb in Hh. unfold contents. unfold H4 in *.
  destruct (buf_data b) as [d|]; [|lia]. rewrite take_take.
  destruct d as [|x0 [|x1 [|x2 [|x3 d]]]]; [simpl in Hd; lia..|].
  unfold mem_get in Hh. simpl in Hh.
  repeat (apply andb_true_iff in Hh as [Hh ?]). repeat case_bool_decide; simplify_eq; try done.
  rewrite Nat.min_l by lia. done.
Qed.

Lemma buffered_restart st (s : SSL) : buffered H4 H4 st s ->
  buffered H4 0 (pending (rest s)) (upd_rest (callback [0; 0; 0; 0]) (set_init_num 0 s)).
Proof.
  intros (b & ? & ? & ? & ? & _ & Hf & Hu). exists b. destruct (Hcb [0; 0; 0; 0] (rest s)) as (Hp & _ & Hcu).
  simpl. rewrite Hp. split_and!; try done; try (unfold H4; lia). split; [done|by apply Hcu].
Qed.

Lemma header_loop_spec n st (s : SSL) : buffered H4 (init_num s) st s -> Forall is_byte st ->
  (length st < 4 * (n + 1))%nat ->
  exists k st' s', st = hello_requests k ++ st' /\ (server s = true -> k = O)
    /\ buffered H4 (init_num s') st' s' /\ setting s' = setting s
    /\ ((header_loop read callback n s = (Ok (Some HANDSHAKE_HEADER), s') /\ init_num s' = H4)
        \/ (header_loop read callback n s = (Fail, s') /\ starved s' /\ init_num s' < H4)).
Proof.
  revert st s. induction n as [|n IH]; intros st s Hbuf Hby Hlen;
    destruct (header_bytes_spec 4 st s Hbuf Hby) as (s1 & Hbuf1 & Hset1 & [[E1 Hn1]|(E1 & Hr1 & Hn1)]);
    try (destruct Hbuf as (?&?&?&?&?&?); unfold H4; lia).
  all: simpl header_loop; rewrite ?(st_bind_ok _ _ _ _ _ E1), ?(st_bind_fail _ _ _ _ E1).
  2, 4: (exists O, st, s1; split_and!; try done; by right).
  all: unfold st_if; destruct (is_hello_request s1) eqn:Eh; rewrite Hn1 in Hbuf1.
  2, 4: (exists O, st, s1; split_and!; try done; [by rewrite Hn1|by left]).
  - pose proof (hello_request_bytes _ _ Hbuf1 Eh) as ->. simpl in Hlen. lia.
  - pose proof (hello_request_bytes _ _ Hbuf1 Eh) as ->. apply buffered_restart in Hbuf1.
    set (s2 := upd_rest _ _) in *. apply Forall_app in Hby as [_ Hby]. rewrite length_app in Hlen.
    destruct (IH (pending (rest s1)) s2) as (k & st' & s' & -> & Hk & Hb' & Hs' & Hres);
      [done|done|simpl in Hlen; lia|].
    exists (S k), st', s'. split_and!; try done.
    + intros Hsrv. assert (server s1 = true) as Hs1 by (unfold setting in Hset1; congruence).
      unfold is_hello_request in Eh. by rewrite Hs1 in Eh.
    + rewrite Hs', <- Hset1. unfold setting. simpl. destruct (Hcb [0; 0; 0; 0] (rest s1)) as (_ & -> & _). done.
Qed.

(** *** The header is complete *)

Lemma body_length_range (m : list Z) : Forall is_byte m -> 0 <= body_length m < 2 ^ 24.
Proof.
  intros Hb. unfold body_length. pose proof (be_val_range (take 3 (drop 1 m))) as Hr.
  assert (256 ^ Z.of_nat (length (take 3 (drop 1 m))) <= 256 ^ 3).
  { apply Z.pow_le_mono_r; [lia|]. rewrite length_take. lia. }
  specialize (Hr ltac:(by apply Forall_take, Forall_drop)). lia.
Qed.

(** The front of the buffer is the stream. *)
Lemma buffered_data room num st (s : SSL) : buffered room num st s -> 0 < num ->
  exists b d, init_buf s = Some b /\ buf_data b = Some d /\ num <= Z.of_nat (length d)
    /\ Forall is_byte d /\ take (Z.to_nat num) d = take (Z.to_nat num) st.
Proof.
  intros (b & Hb & Hwf & Hr & Hn & -> & _) Hpos. pose proof (length_contents _ Hwf) as Hlc.
  destruct Hwf as [Hbl Hd]. destruct (buf_data b) as [d|] eqn:Ed; [|lia].
  exists b, d. split_and!; try done; [lia|tauto|].
  rewrite take_app_le by (rewrite length_take; lia). unfold contents. rewrite Ed, !take_take.
  f_equal. lia.
Qed.

Lemma buffered_read room num off len st (s : SSL) : buffered room num st s -> 0 < num ->
  0 <= off -> 0 <= len -> off + len <= num ->
  init_data off len s = Some (take (Z.to_nat len) (drop (Z.to_nat off) st)).
Proof.
  intros Hbuf Hpos Ho Hl Hol.
  destruct (buffered_data _ _ _ _ Hbuf Hpos) as (b & d & Hb & Ed & Hlen & _ & E).
  unfold init_data, mem_read. rewrite Hb, Ed.
  rewrite !(proj2 (Z.leb_le _ _)) by lia. simpl. f_equal.
  apply (f_equal (fun l => take (Z.to_nat len) (drop (Z.to_nat off) l))) in E.
  rewrite !skipn_firstn_comm, !take_take, !Nat.min_l in E by lia. done.
Qed.

Lemma buffered_first room num st (s : SSL) : buffered room num st s -> 0 < num ->
  init_byte 0 s = hd_error st /\ hd_error st <> None.
Proof.
  intros Hbuf Hpos. destruct (buffered_data _ _ _ _ Hbuf Hpos) as (b & d & Hb & Ed & Hlen & _ & E).
  unfold init_byte. rewrite Hb, Ed. unfold mem_get. simpl.
  destruct d as [|x d]; [simpl in Hlen; lia|]. destruct (Z.to_nat num) as [|n] eqn:En; [lia|].
  destruct st; simplify_eq/=. done.
Qed.

(** The header of the message at the front of [st] has been read and parsed. *)
Definition header_done (st : list Z) (t : Z) (s : SSL) : Prop :=
  buffered H4 H4 st s /\ init_num s = 0 /\ init_msg s = H4 /\ hd_error st = Some t
  /\ message_type (tmp_of s) = t /\ message_size (tmp_of s) = body_length st.

Definition context (s : SSL) := (server s, hand s, SSL_IS_TLS13 s, transcript (rest s)).

Lemma parse_header_spec st (s : SSL) : buffered H4 H4 st s -> Forall is_byte st ->
  exists t s', parse_header is_v2 rec_len s = (Ok t, s') /\ header_done st t s'
    /\ context s' = context s.
Proof.
  intros Hbuf Hby. destruct (buffered_first _ _ _ _ Hbuf ltac:(done)) as [E0 N0].
  destruct (hd_error st) as [t|] eqn:Et; [|done].
  destruct (buffered_data _ _ _ _ Hbuf ltac:(done)) as (b & d & Hb & Ed & Hlen & Hbd & E).
  unfold init_byte in E0. rewrite Hb, Ed in E0. unfold parse_header. rewrite Hb, Ed, E0. simpl. rewrite Hv2.
  rewrite n2l3_header by done.
  assert (body_length d = body_length st) as ->.
  { unfold body_length. apply (f_equal (fun l => be_val (take 3 (drop 1 l)))) in E.
    rewrite !skipn_firstn_comm, !take_take in E. done. }
  pose proof (body_length_range st Hby) as Hr.
  rewrite (proj2 (Z.ltb_ge _ _)) by (unfold INT_MAX; lia).
  eexists t, _; split_and!; [done| |done]. split_and!; done.
Qed.

Lemma tls_header_spec n st (s : SSL) : buffered H4 (init_num s) st s -> Forall is_byte st ->
  (length st < 4 * (n + 1))%nat ->
  exists k st' s', st = hello_requests k ++ st' /\ (server s = true -> k = O)
    /\ context s' = context s
    /\ ((exists t, tls_get_message_header read is_v2 rec_len callback n s = (Ok (Some t), s')
            /\ header_done st' t s')
        \/ (tls_get_message_header read is_v2 rec_len callback n s = (Fail, s')
            /\ starved s' /\ init_num s' < H4 /\ buffered H4 (init_num s') st' s')).
Proof.
  intros Hbuf Hby Hlen. unfold tls_get_message_header.
  destruct (header_loop_spec n st s Hbuf Hby Hlen)
    as (k & st' & s1 & -> & Hk & Hb1 & Hs1 & [[E1 Hn]|(E1 & Hr & Hn)]);
    assert (context s1 = context s) as Hsh by (unfold setting in Hs1; unfold context; congruence).
  - rewrite (st_bind_ok _ _ _ _ _ E1). rewrite Hn in Hb1. apply Forall_app in Hby as [_ Hby].
    destruct (parse_header_spec st' s1 Hb1 Hby) as (t & s2 & E2 & Hd & Hsh2).
    rewrite (st_bind_ok _ _ _ _ _ E2). exists k, st', s2. split_and!; try done; [congruence|].
    left. by exists t.
  - rewrite (st_bind_fail _ _ _ _ E1). exists k, st', s1. split_and!; try done. by right.
Qed.

(** *** The body *)

(** What [read_state_machine] does before it reads a body. *)
Definition make_room : ST SSL unit :=
  st_if (fun s => 0 <? message_size (tmp_of s))
    (fun s => grow_init_buf (message_size (tmp_of s) + SSL3_HM_HEADER_LENGTH) s) (st_ret tt).

(** The message at the front of [st] is being read. *)
Definition in_body (st : list Z) (s : SSL) : Prop :=
  buffered (H4 + body_length st) (H4 + init_num s) st s /\ init_msg s = H4 /\ 0 <= init_num s
  /\ hd_error st = Some (message_type (tmp_of s)) /\ message_size (tmp_of s) = body_length st.

Lemma make_room_spec st t (s : SSL) : header_done st t s -> Forall is_byte st ->
  exists s', context s' = context s
    /\ ((make_room s = (Ok tt, s') /\ in_body st s') \/ make_room s = (Fail, s')).
Proof.
  intros (Hbuf & Hn & Hm & Ht & <- & Hs) Hby. pose proof (body_length_range st Hby) as Hr.
  unfold make_room, st_if. rewrite Hs. destruct (0 <? body_length st) eqn:E0; zbool.
  2: { exists s. split; [done|]. left. split; [done|]. split_and!; try done; [|lia].
       rewrite Hn. by replace (body_length st) with 0 by lia. }
  destruct Hbuf as (b & Hb & Hwf & Hbl & _ & Hst & Hso). unfold grow_init_buf. rewrite Hb.
  unfold H4 in *.
  rewrite int_cast_small, wrap64_small by (unfold SIZE_MAX; lia).
  destruct (grow_clean_grown (body_length st + 4) b Hwf)
    as [(b1 & -> & Hwf1 & Hl1 & _ & Hc1)|[-> _]]; [lia| |by eexists; split; [|by right]].
  simpl. rewrite Hm, (proj2 (Z.eqb_neq _ _)), (proj2 (Z.ltb_ge _ _)) by lia. simpl.
  eexists. split; [|left; split; [done|]]; [done|]. split_and!; try done; [|simpl; lia].
  exists b1. simpl init_num. rewrite Hn. split_and!; try done; [unfold H4; lia..|].
  change (Z.to_nat (H4 + 0)) with 4%nat. simpl rest. rewrite Hst at 1. f_equal.
  rewrite Hc1. unfold resized. rewrite take_take, Nat.min_l by lia.
  pose proof (length_contents _ Hwf). rewrite take_app_le by lia. done.
Qed.

Lemma body_loop_spec f st (s : SSL) : in_body st s -> Forall is_byte st ->
  let n := body_length st - init_num s in n <= Z.of_nat f ->
  exists s', in_body st s' /\ setting s' = setting s
    /\ ((body_loop read f n s = (Ok true, s') /\ init_num s' = body_length st)
        \/ (body_loop read f n s = (Fail, s') /\ starved s' /\ init_num s' < body_length st)).
Proof.
  revert s. induction f as [|f IH]; intros s Hin Hby n Hf; subst n.
  all: pose proof (body_length_range st Hby) as Hr; pose proof Hin as (Hbuf & Hm & H0 & Ht & Hs).
  all: destruct (body_length st - init_num s <=? 0) eqn:En.
  1, 3: (exists s; split_and!; [done|done|]; left; simpl; rewrite En; split; [done|]; zbool;
         destruct Hbuf as (?&?&?&?&?&?); lia).
  { zbool. simpl in Hf. lia. }
  simpl. rewrite En. zbool.
  destruct (read false (body_length st - init_num s) s) as [[[t bs]|] s1] eqn:Er.
  - apply sr_some in Er as (-> & Hne & Hlen & v & w & -> & Hp & Htr & Hu); [|lia|eauto].
    destruct (store_buffered (H4 + body_length st) (H4 + init_num s) st bs v w s)
      as (s2 & Es & Hbuf2 & b' & E2); try done; [lia|].
    simpl. rewrite Hm, Es. assert (Hpos : 0 < Z.of_nat (length bs)) by (destruct bs; [done|simpl; lia]).
    rewrite wrap64_small by (unfold SIZE_MAX; lia). rewrite <- Z.sub_add_distr.
    assert (En2 : init_num s2 = init_num s) by (by rewrite E2).
    destruct (IH (set_init_num (init_num s + Z.of_nat (length bs)) s2)) as (s3 & Hin3 & Hset & Hres).
    { split_and!; simpl; rewrite ?Z.add_assoc; try (by rewrite E2); [done|lia]. }
    { done. }
    { simpl. lia. }
    exists s3. rewrite En2. split_and!; [done| |done]. rewrite Hset, E2. unfold setting. simpl. by rewrite Htr.
  - pose proof Er as Er'. apply sr_none in Er' as (v & w & -> & Hp & Htr & Hu); [|lia|eauto].
    exists (set_rwstate SSL_READING (set_rest w s)).
    split_and!; [|unfold setting; simpl; by rewrite Htr|right; split_and!; [done| |simpl; lia]].
    { split_and!; try done. by apply buffered_blocked. }
    eexists _, _, _, _. split_and!; [|eauto|exact Er|done]. lia.
Qed.

(** *** The transcript *)

(** The transcript functions append to the transcript and change only the
    environment, or have called [SSLfatal]. *)
Definition appends (m : ST SSL unit) (bs : list Z) : Prop := forall s,
  (exists w, m s = (Ok tt, set_rest w s) /\ pending w = pending (rest s)
     /\ transcript w = transcript (rest s) ++ bs /\ (usable (rest s) -> usable w))
  \/ (exists s', m s = (Fail, s') /\ state (statem s') = MSG_FLOW_ERROR).

Context (take_mac : ST SSL unit) (finish_mac : list Z -> ST SSL unit).
Context (Htake : appends take_mac []) (Hfinish : forall m, appends (finish_mac m) m).

Definition hello_retry (m : list Z) : bool :=
  (SERVER_HELLO_RANDOM_OFFSET + SSL3_RANDOM_SIZE <=? body_length m)
  && bool_decide (take 32 (drop 6 m) = hrrrandom).

(** Is message [m] part of the transcript? *)
Definition transcribed (tls13 : bool) (m : list Z) : bool :=
  match hd_error m with
  | None => false
  | Some t =>
      negb (tls13 && ((t =? SSL3_MT_NEWSESSION_TICKET) || (t =? SSL3_MT_KEY_UPDATE)))
      && negb ((t =? SSL3_MT_SERVER_HELLO) && hello_retry m)
  end.

(** The message at the front of [st]. *)
Definition front (st : list Z) : list Z := take (Z.to_nat (H4 + body_length st)) st.

Lemma in_body_front st (s : SSL) : in_body st s -> Forall is_byte st -> init_num s = body_length st ->
  st = front st ++ pending (rest s) /\ framed (front st) /\ body_length (front st) = body_length st
  /\ hd_error (front st) = hd_error st
  /\ init_data 0 (H4 + body_length st) s = Some (front st).
Proof.
  intros (Hbuf & _ & H0 & _) Hby Hn. rewrite Hn in Hbuf. pose proof (body_length_range st Hby) as Hr.
  assert (Hl : H4 + body_length st <= Z.of_nat (length st)).
  { destruct Hbuf as (b & _ & Hwf & Hbl & _ & E & _). apply (f_equal length) in E.
    rewrite length_app, length_take, (length_contents _ Hwf) in E. lia. }
  assert (Hf : framed (front st)).
  { unfold front, H4. rewrite Z.add_comm. apply framed_take; unfold H4 in Hl; lia. }
  assert (E : st = front st ++ drop (Z.to_nat (H4 + body_length st)) st) by (symmetry; apply take_drop).
  split_and!; try done.
  - destruct Hbuf as (b & _ & Hwf & Hbl & _ & E' & _). unfold front.
    assert (Hc : (Z.to_nat (H4 + body_length st) <= length (contents b))%nat)
      by (rewrite length_contents by done; lia).
    remember (Z.to_nat (H4 + body_length st)) as n eqn:En.
    assert (take n st = take n (contents b)) as ->; [|exact E'].
    rewrite E', take_app_le, take_take, Nat.min_id by (rewrite length_take; lia). done.
  - rewrite E at 2. symmetry. apply body_length_app, Hf.
  - rewrite E at 2. destruct (front st) eqn:Ef; [|done]. destruct Hf as [Hf _].
    simpl in Hf. lia.
  - change (front st) with (take (Z.to_nat (H4 + body_length st)) (drop (Z.to_nat 0) st)).
    apply (buffered_read _ _ _ _ _ _ Hbuf); unfold H4; lia.
Qed.

Lemma not_hello_retry_spec st (s : SSL) : in_body st s -> Forall is_byte st ->
  init_num s = body_length st ->
  not_hello_retry s
  = Ok (negb ((message_type (tmp_of s) =? SSL3_MT_SERVER_HELLO) && hello_retry (front st))).
Proof.
  intros Hin Hby Hn. destruct (in_body_front _ _ Hin Hby Hn) as (_ & Hf & Eb & _ & _).
  pose proof (body_length_range st Hby) as Hr. destruct Hin as (Hbuf & _). rewrite Hn in Hbuf.
  unfold not_hello_retry, hello_retry. rewrite Eb, Hn.
  destruct (message_type (tmp_of s) =? SSL3_MT_SERVER_HELLO); simpl; [|done].
  rewrite Z.ltb_antisym.
  destruct (SERVER_HELLO_RANDOM_OFFSET + SSL3_RANDOM_SIZE <=? body_length st) eqn:El; simpl; [|done].
  zbool. unfold H4 in *.
  rewrite (buffered_read _ _ _ _ _ _ Hbuf) by lia. unfold front, H4.
  rewrite skipn_firstn_comm, take_take, Nat.min_l by lia. done.
Qed.

(** Reading on in another environment with the same bytes to come. *)
Lemma in_body_rest st (s : SSL) w : in_body st s -> pending w = pending (rest s) -> (usable (rest s) -> usable w) ->
  in_body st (set_rest w s).
Proof.
  intros ((b & ? & ? & ? & [? ?] & Hst & Hf & Hu0) & ? & ? & ? & ?) Hp Hu. split_and!; try done.
  exists b. split_and!; try done; [|split; [done|by apply Hu]]. simpl. by rewrite Hp.
Qed.

Lemma whole_message_spec st (s : SSL) : in_body st s -> Forall is_byte st ->
  init_num s = body_length st -> whole_message s = Ok (front st).
Proof.
  intros Hin Hby Hn. destruct (in_body_front _ _ Hin Hby Hn) as (_ & _ & _ & _ & E).
  unfold whole_message. rewrite Hn, Z.add_comm. unfold H4 in E. by rewrite E.
Qed.

Definition addition (tls13 : bool) (m : list Z) : list Z := if transcribed tls13 m then m else [].

(** The whole message is read: all of it in the buffer and, if it belongs there,
    in the transcript. *)
Definition fed (st : list Z) (m : ST SSL unit) (s : SSL) : Prop :=
  (exists w, m s = (Ok tt, set_rest w s) /\ pending w = pending (rest s)
     /\ transcript w = transcript (rest s) ++ addition (SSL_IS_TLS13 s) (front st) /\ (usable (rest s) -> usable w))
  \/ (exists s', m s = (Fail, s') /\ state (statem s') = MSG_FLOW_ERROR).

Lemma feed_message_spec st (s : SSL) : in_body st s -> Forall is_byte st ->
  init_num s = body_length st -> fed st (feed_message is_v2 finish_mac callback) s.
Proof.
  intros Hin Hby Hn. pose proof (in_body_front _ _ Hin Hby Hn) as (_ & _ & _ & Eh & _).
  pose proof Hin as (_ & _ & _ & Ht & _). unfold fed, feed_message. rewrite Hv2.
  unfold addition, transcribed. rewrite Eh, Ht. unfold st_bind, st_lift, outside_transcript.
  set (o := (_ =? SSL3_MT_NEWSESSION_TICKET) || _). set (r := (_ =? SSL3_MT_SERVER_HELLO) && _).
  assert (Ef : (if SSL_IS_TLS13 s && o then Ok false else not_hello_retry s)
               = Ok (negb (SSL_IS_TLS13 s && o) && negb r)).
  { destruct (SSL_IS_TLS13 s && o); [done|]. by rewrite (not_hello_retry_spec st). }
  rewrite Ef. destruct (negb (SSL_IS_TLS13 s && o) && negb r).
  - rewrite (whole_message_spec st) by done.
    destruct (Hfinish (front st) s) as [(w & -> & Hp & Htr & Hu)|(s' & -> & He)];
      [left|right; by exists s']. simpl.
    rewrite (whole_message_spec st) by (done || by apply in_body_rest).
    destruct (Hcb (front st) w) as (Hc1 & Hc2 & Hc3).
    exists (callback (front st) w). rewrite Hc1, Hc2. do 3 (split; [done|]). auto.
  - left. unfold st_ret. rewrite (whole_message_spec st) by done.
    destruct (Hcb (front st) (rest s)) as (Hc1 & Hc2 & Hc3).
    exists (callback (front st) (rest s)). rewrite Hc1, Hc2, app_nil_r. do 3 (split; [done|]). auto.
Qed.

Local Abbreviation get_header := (tls_get_message_header read is_v2 rec_len callback).
Local Abbreviation get_body := (tls_get_message_body read is_v2 take_mac finish_mac callback).

Definition body_done (st : list Z) (s s' : SSL) : Prop :=
  in_body st s' /\ init_num s' = body_length st
  /\ transcript (rest s') = transcript (rest s) ++ addition (SSL_IS_TLS13 s) (front st).

Definition errored (s : SSL) : Prop := state (statem s) = MSG_FLOW_ERROR.

Lemma take_mac_if st c (s : SSL) : in_body st s ->
  (exists s', (if c : bool then take_mac else st_ret tt) s = (Ok tt, s') /\ in_body st s'
     /\ init_num s' = init_num s /\ context s' = context s)
  \/ (exists s', (if c then take_mac else st_ret tt) s = (Fail, s') /\ errored s').
Proof.
  intros Hin. destruct c; [|by left; exists s].
  destruct (Htake s) as [(w & E & Hp & Ht & Hu)|(s' & E & He)]; [left|right; by exists s'].
  exists (set_rest w s). rewrite app_nil_r in Ht. unfold context. simpl. rewrite Ht.
  split_and!; try done. by apply in_body_rest.
Qed.

Lemma tls_body_spec st (s : SSL) : in_body st s -> Forall is_byte st ->
  (exists s', get_body s = (Ok (Some (body_length st)), s') /\ body_done st s s')
  \/ (exists s', get_body s = (Fail, s')
        /\ ((starved s' /\ init_num s' < body_length st /\ in_body st s' /\ context s' = context s)
            \/ errored s')).
Proof.
  intros Hin Hby. pose proof Hin as (Hbuf & _ & H0 & Ht & Hs).
  pose proof (body_length_range st Hby) as Hr.
  assert (Hle : init_num s <= body_length st) by (destruct Hbuf as (?&?&?&?&?&?); lia).
  unfold tls_get_message_body.
  assert (is_byte (message_type (tmp_of s))) as Hty.
  { destruct st; simplify_eq/=. by apply Forall_cons in Hby as [? _]. }
  rewrite (proj2 (Z.eqb_neq _ _)) by (unfold is_byte in *; lia).
  rewrite Hs, wrap64_small by (unfold SIZE_MAX; lia).
  destruct (body_loop_spec (Z.to_nat (body_length st - init_num s)) st s Hin Hby)
    as (s1 & Hin1 & Hset & [[E1 Hn1]|(E1 & Hst & Hlt)]); [lia| |].
  2: { rewrite (st_bind_fail _ _ _ _ E1). right. exists s1. split; [done|]. left.
       unfold setting in Hset. unfold context. do 3 (split; [done|]). congruence. }
  rewrite (st_bind_ok _ _ _ _ _ E1). simpl. pose proof Hin1 as (Hb1 & _ & Hn0 & _).
  destruct (buffered_first _ _ _ _ Hb1) as [Eb _]; [unfold H4; lia|].
  rewrite (st_bind_ok _ _ s1 (message_type (tmp_of s)) s1) by (unfold st_lift; by rewrite Eb, Ht).
  destruct (take_mac_if st (message_type (tmp_of s) =? SSL3_MT_FINISHED) s1 Hin1)
    as [(s2 & E2 & Hin2 & Hn2 & Hc2)|(s2 & E2 & He)].
  2: { rewrite (st_bind_fail _ _ _ _ E2). right. exists s2. auto. }
  rewrite (st_bind_ok _ _ _ _ _ E2). assert (Hn2' : init_num s2 = body_length st) by congruence.
  destruct (feed_message_spec st s2 Hin2 Hby Hn2') as [(w & E3 & Hp & Htr & Hu)|(s3 & E3 & He)].
  2: { rewrite (st_bind_fail _ _ _ _ E3). right. exists s3. auto. }
  rewrite (st_bind_ok _ _ _ _ _ E3). left. exists (set_rest w s2). unfold st_get. simpl. rewrite Hn2'.
  split; [done|]. split; [by apply in_body_rest|]. split; [done|]. simpl. rewrite Htr.
  unfold context, setting in *. congruence.
Qed.

(** *** Any number of calls *)

(** A function called again until it succeeds; after a fatal error the state
    machine does not call it any more. *)
Inductive retry {A} (m : ST SSL (option A)) : SSL -> A -> SSL -> Prop :=
| retry_done s a s' : m s = (Ok (Some a), s') -> retry m s a s'
| retry_blocked s s1 a s' : m s = (Fail, s1) -> ~ errored s1 -> retry m s1 a s' -> retry m s a s'.

Lemma hello_requests_app j k st :
  hello_requests j ++ hello_requests k ++ st = hello_requests (j + k) ++ st.
Proof. unfold hello_requests. by rewrite app_assoc, <- concat_app, <- replicate_add. Qed.

Lemma header_retry n (s : SSL) t s' : retry (get_header n) s t s' ->
  forall st, buffered H4 (init_num s) st s -> Forall is_byte st -> (length st < 4 * (n + 1))%nat ->
  exists k st', st = hello_requests k ++ st' /\ (server s = true -> k = O)
    /\ context s' = context s /\ header_done st' t s'.
Proof.
  induction 1 as [s t s' E|s s1 t s' E _ _ IH]; intros st Hbuf Hby Hlen;
    destruct (tls_header_spec n st s Hbuf Hby Hlen) as (k & st' & s2 & -> & Hk & Hc & [(t' & E' & Hd)|(E' & _ & _ & Hb')]);
    rewrite E' in E; inversion E; subst; clear E.
  - by exists k, st'.
  - apply Forall_app in Hby as [_ Hby]. rewrite length_app in Hlen.
    destruct (IH st' Hb' Hby) as (j & st2 & -> & Hj & Hc' & Hd); [lia|].
    exists (k + j)%nat, st2. rewrite hello_requests_app. split_and!; try done; [|congruence].
    intros Hs. rewrite (Hk Hs), Hj; [done|]. unfold context in Hc. congruence.
Qed.

Lemma body_retry (s : SSL) len s' : retry get_body s len s' ->
  forall st, in_body st s -> Forall is_byte st -> len = body_length st /\ body_done st s s'.
Proof.
  induction 1 as [s len s' E|s s1 len s' E Hne _ IH]; intros st Hin Hby;
    destruct (tls_body_spec st s Hin Hby) as [(s2 & E' & Hd)|(s2 & E' & Hd)];
    rewrite E' in E; inversion E; subst; clear E; [done|].
  destruct Hd as [(_ & _ & Hin' & Hc)|]; [|done].
  destruct (IH st Hin' Hby) as (-> & Hin2 & Hn & Ht). split; [done|]. split; [done|]. split; [done|].
  rewrite Ht. unfold context in Hc. congruence.
Qed.

(** C29.  However the bytes of the stream are cut into portions and however often
    reading blocks in between, what ends up in [init_buf] is exactly the next
    message of the stream: after the HelloRequests a client skips (a server
    skips none) the header and as many bytes as it announces, no more; type,
    length and transcript agree with it. *)
Theorem tls_message_reassembled (n : nat) (st : list Z) (s0 s1 s2 s3 : SSL) (t len : Z)
  (Hbuf : buffered H4 (init_num s0) st s0) (Hby : Forall is_byte st)
  (Hfuel : (length st < 4 * (n + 1))%nat)
  (Hh : retry (get_header n) s0 t s1) (Hr : make_room s1 = (Ok tt, s2))
  (Hb : retry get_body s2 len s3) :
  exists k m, st = hello_requests k ++ m ++ pending (rest s3) /\ (server s0 = true -> k = O)
    /\ framed m /\ hd_error m = Some t /\ len = body_length m
    /\ init_data 0 (H4 + len) s3 = Some m /\ init_msg s3 = H4 /\ init_num s3 = len
    /\ message_type (tmp_of s3) = t
    /\ transcript (rest s3) = transcript (rest s0) ++ addition (SSL_IS_TLS13 s0) m.
Proof.
  destruct (header_retry _ _ _ _ Hh _ Hbuf Hby Hfuel) as (k & st' & -> & Hk & Hc1 & Hd).
  apply Forall_app in Hby as [_ Hby].
  destruct (make_room_spec _ _ _ Hd Hby) as (s2' & Hc2 & [[E Hin]|E]); rewrite E in Hr; inversion Hr; subst.
  destruct (body_retry _ _ _ Hb _ Hin Hby) as (-> & Hin3 & Hn & Htr).
  destruct (in_body_front _ _ Hin3 Hby Hn) as (Est & Hf & Eb & Eh & Ed).
  destruct Hd as (_ & _ & _ & Ht & _). pose proof Hin3 as (_ & Hm & _ & Ht3 & _).
  exists k, (front st'). rewrite <- Est, Eb, Eh, Ht. do 8 (split; [done|]). split; [congruence|].
  rewrite Htr. unfold context in *. congruence.
Qed.

(** *** A record layer that does not block *)

Definition prompt : Prop := forall recvd len s s', 0 < len -> sourced s -> read recvd len s = (None, s') ->
  pending (rest s) = [].

Lemma front_framed m r : framed m -> body_length (m ++ r) = body_length m /\ front (m ++ r) = m.
Proof.
  intros [Hl Hf]. pose proof (body_length_app m r Hl) as E. split; [done|]. unfold front. rewrite E.
  apply take_app_length'. unfold H4. lia.
Qed.

Lemma hello_request_framed m r st k : framed m -> m ++ r = hello_requests (S k) ++ st -> m = [0; 0; 0; 0].
Proof.
  intros Hm E. destruct (front_framed m r Hm) as [_ <-]. rewrite E. done.
Qed.

Lemma starved_drained room num st (s : SSL) : prompt -> starved s -> buffered room num st s ->
  Z.of_nat (length st) = num.
Proof.
  intros Hp (recvd & len & s1 & s2 & Hl & Hso & Er & ->) (b & _ & Hwf & Hbl & Hn & -> & _).
  pose proof (Hp _ _ _ _ Hl Hso Er) as E1. apply sr_none in Er as (v & w & -> & Ew & _); [|done..].
  simpl. rewrite Ew, E1, app_nil_r, length_take, (length_contents _ Hwf). lia.
Qed.

(** When the stream starts with a whole message (not a HelloRequest, for a
    client) and the record layer delivers what there is, one call reads the
    header and, given memory for it, one call reads the body: the message is in
    the buffer and in the transcript, and the rest of the stream untouched.  The
    one other outcome is a fatal error of the transcript functions. *)
Lemma message_received (n : nat) (m r : list Z) (s0 : SSL) (Hp : prompt)
  (Hbuf : buffered H4 (init_num s0) (m ++ r) s0) (Hby : Forall is_byte (m ++ r))
  (Hfuel : (length (m ++ r) < 4 * (n + 1))%nat) (Hm : framed m)
  (Hnh : server s0 = true \/ m <> [0; 0; 0; 0]) :
  exists t s1, hd_error m = Some t /\ get_header n s0 = (Ok (Some t), s1)
    /\ forall s2, make_room s1 = (Ok tt, s2) ->
         (exists s3, get_body s2 = (Ok (Some (body_length m)), s3)
            /\ init_data 0 (H4 + body_length m) s3 = Some m /\ pending (rest s3) = r
            /\ transcript (rest s3) = transcript (rest s0) ++ addition (SSL_IS_TLS13 s0) m)
         \/ (exists s3, get_body s2 = (Fail, s3) /\ errored s3).
Proof.
  destruct (tls_header_spec n _ s0 Hbuf Hby Hfuel) as (k & st' & s1 & E & Hk & Hc1 & Hres).
  assert (k = O) as ->.
  { destruct k as [|k]; [done|]. destruct Hnh as [Hs|Hnh]; [by apply Hk|].
    by apply hello_request_framed in E. }
  simpl in E. subst st'. pose proof Hm as [Hm4 Hml]. destruct (front_framed m r Hm) as [Eb Ef].
  destruct Hres as [(t & Eh & Hd)|(_ & Hst & Hlt & Hb')].
  2: { pose proof (starved_drained _ _ _ _ Hp Hst Hb') as El. rewrite length_app in El.
       unfold H4 in *. lia. }
  pose proof Hd as (_ & _ & _ & Ht & _). exists t, s1. split_and!; [|done|].
  { rewrite <- Ht. destruct m; [simpl in Hm4; lia|done]. }
  intros s2 Er. destruct (make_room_spec _ _ _ Hd Hby) as (s2' & Hc2 & [[E2 Hin]|E2]);
    rewrite E2 in Er; inversion Er; subst s2'.
  destruct (tls_body_spec _ _ Hin Hby) as [(s3 & E3 & Hin3 & Hn & Htr)|(s3 & E3 & [Hb3|He])].
  - left. exists s3. rewrite Eb in E3. split; [done|].
    destruct (in_body_front _ _ Hin3 Hby Hn) as (Es & _ & _ & _ & Ed). rewrite Eb, Ef in Ed.
    split; [done|]. rewrite Ef in Es, Htr. split; [by apply app_inv_head in Es|].
    rewrite Htr. unfold context in *. congruence.
  - destruct Hb3 as (Hst & Hlt & (Hb3 & _) & _).
    pose proof (starved_drained _ _ _ _ Hp Hst Hb3) as El. rewrite length_app in El.
    unfold H4 in *. lia.
  - right. by exists s3.
Qed.
End Stream.

(** ** A stream for examples *)

(** The environment holds a flag, the transcript with its length in front of it,
    and the bytes to come. *)
Definition sample_env (flag : Z) (t p : list Z) : list Z := flag :: Z.of_nat (length t) :: t ++ p.
Definition sample_flag (w : list Z) : Z := default 0 (hd_error w).
Definition sample_transcript (w : list Z) : list Z :=
  take (Z.to_nat (default 0 (hd_error (drop 1 w)))) (drop 2 w).
Definition sample_pending (w : list Z) : list Z :=
  drop (Z.to_nat (default 0 (hd_error (drop 1 w)))) (drop 2 w).

Lemma sample_env_pending f t p : sample_pending (sample_env f t p) = p.
Proof. unfold sample_pending. simpl. rewrite Nat2Z.id. apply drop_app_length. Qed.

Lemma sample_env_transcript f t p : sample_transcript (sample_env f t p) = t.
Proof. unfold sample_transcript. simpl. rewrite Nat2Z.id. apply take_app_length. Qed.

(** One byte at a time; with [blocking], every other call delivers nothing. *)
Definition sample_read (blocking recvd : bool) (len : Z) (s : SSL (list Z)) :
  option (Z * list Z) * SSL (list Z) :=
  let w := rest s in
  let t := sample_transcript w in
  if blocking && (sample_flag w =? 1) then (None, set_rest (sample_env 0 t (sample_pending w)) s)
  else match sample_pending w with
       | [] => (None, set_rest (sample_env (sample_flag w) t []) s)
       | x :: p => (Some (SSL3_RT_HANDSHAKE, [x]), set_rest (sample_env 1 t p) s)
       end.

Definition sample_mac (m : list Z) : ST (SSL (list Z)) unit :=
  st_put (upd_rest (fun w => sample_env (sample_flag w) (sample_transcript w ++ m) (sample_pending w))).

Definition anywhere (w : list Z) : Prop := True.

Lemma set_rest_rwstate {W} (w : W) (s : SSL W) : set_rest w s = set_rwstate (rwstate s) (set_rest w s).
Proof. by destruct s. Qed.

#[global] Instance sample_reader fr b : StreamReader sample_pending sample_transcript fr anywhere (sample_read b).
Proof.
  split; intros recvd len s; unfold sample_read.
  - intros t bs s' Hl _ E. destruct (b && _); [done|].
    destruct (sample_pending (rest s)) as [|x p] eqn:Ep; [done|]. inversion E; subst.
    split_and!; [done|done|simpl; lia|]. eexists _, _. split; [apply set_rest_rwstate|].
    by rewrite sample_env_pending, sample_env_transcript.
  - intros s' Hl _ E. destruct (b && _); [|destruct (sample_pending (rest s)) as [|x p] eqn:Ep; [|done]]; inversion E; subst;
      eexists _, _; (split; [apply set_rest_rwstate|]); by rewrite sample_env_pending, sample_env_transcript.
Qed.

Lemma sample_mac_appends m : appends sample_pending sample_transcript anywhere (sample_mac m) m.
Proof.
  intros s. left. eexists. split; [done|]. by rewrite sample_env_pending, sample_env_transcript.
Qed.

(** A client that waits for a ServerHello, with bytes [p] on their way. *)
Definition sample_client (p : list Z) : SSL (list Z) :=
  set_rest (sample_env 0 [] p)
    (set_init_buf (Some (mkBUF_MEM 4 (Some [5; 5; 5; 5]) 4 0))
       (sample_ssl TLS_ST_CW_CLNT_HELLO TLS1_2_VERSION ecdhe_rsa)).

Lemma sample_client_buffered p :
  buffered sample_pending (frame (sample_client [])) anywhere H4 (init_num (sample_client p)) p (sample_client p).
Proof.
  exists (mkBUF_MEM 4 (Some [5; 5; 5; 5]) 4 0). split_and!; try done.
  split; [done|]. split; [done|]. repeat constructor; done.
Qed.

Ltac blocked_calls :=
  repeat (eapply retry_blocked; [vm_compute; reflexivity|vm_compute; discriminate|]);
  apply retry_done; vm_compute; reflexivity.

Lemma tls_message_reassembled_witness : exists k m,
  [0; 0; 0; 0; 2; 0; 0; 2; 7; 9; 11] = hello_requests k ++ m ++ [11] /\ framed m /\ body_length m = 2.
Proof.
  edestruct (tls_message_reassembled (L := zero_libc) (LO := zero_libc_ok)
    sample_pending sample_transcript (frame (sample_client [])) anywhere (sample_read true)
    (fun _ => false) (fun _ => 0) (fun _ w => w) (fun _ => eq_refl) (fun _ _ => conj eq_refl (conj eq_refl (fun u => u)))
    (sample_mac []) sample_mac (sample_mac_appends []) sample_mac_appends 3
    [0; 0; 0; 0; 2; 0; 0; 2; 7; 9; 11] (sample_client [0; 0; 0; 0; 2; 0; 0; 2; 7; 9; 11]))
    as (k & m & E & _ & Hf & _ & El & _).
  - apply sample_client_buffered.
  - repeat constructor; done.
  - simpl. lia.
  - blocked_calls.
  - vm_compute. reflexivity.
  - blocked_calls.
  - exists k, m. split_and!; [exact E|apply Hf..|by rewrite <- El].
Defined.

(** ** Writing *)

Section Writer.
Context {W : Type} `{Callees W}.
Local Abbreviation SSL := (SSL W).

(** What the record layer (or QUIC) has reported as taken, and the transcript. *)
Context (accepted transcript : W -> list Z).

(** The environment [w] is that of [s] after it took [bs]. *)
Definition took (bs : list Z) (s : SSL) (w : W) : Prop :=
  accepted w = accepted (rest s) ++ bs /\ transcript w = transcript (rest s).

(** Writing goes on in a given [frame]; [ready off msg] are the states of the
    record layer that can be called with [msg], which is at offset [off] of
    [init_buf]. *)
Context (type : Z) (fr : OSSL_STATEM * Z * SSL_EARLY_DATA_STATE * Z) (ready : Z -> list Z -> W -> Prop).
Definition callable (msg : list Z) (s : SSL) : Prop := frame s = fr /\ ready (init_off s) msg (rest s).

(** A writer takes a non-empty front of what it is given and says how much, or
    nothing.  After the latter it can be called again with the same bytes, unless
    it has called [SSLfatal], after the former with those that are left. *)
Class StreamWriter (write : Z -> list Z -> SSL -> Z * Z * SSL) : Prop := {
  sw_writes msg s ret n s' : msg <> [] -> callable msg s -> write type msg s = (ret, n, s') ->
    (exists v w, s' = set_rwstate v (set_rest w s)
      /\ if ret <=? 0 then took [] s w /\ ready (init_off s) msg w
         else 0 < n <= Z.of_nat (length msg) /\ took (take (Z.to_nat n) msg) s w
              /\ ready (init_off s + n) (drop (Z.to_nat n) msg) w)
    \/ (ret <= 0 /\ errored s')
}.

Class QuicWriter (add : Z -> list Z -> SSL -> bool * SSL) : Prop := {
  qw_adds level msg s ok s' : add level msg s = (ok, s') ->
    exists w, s' = set_rest w s /\ took (if ok then msg else []) s w
      /\ (forall off m, ready off m (rest s) -> ready off m w)
      /\ (ok = true -> forall off, ready off msg (rest s) -> ready (off + Z.of_nat (length msg)) [] w)
}.

Context (write : Z -> list Z -> SSL -> Z * Z * SSL) `{!StreamWriter write}.
Context (add : Z -> list Z -> SSL -> bool * SSL) `{!QuicWriter add}.
Context (finish_mac : list Z -> ST SSL unit) (callback : list Z -> W -> W).
Context (Hfinish : forall m off rem, appends accepted transcript (ready off rem) (finish_mac m) m).
Context (Hcb : forall m w, accepted (callback m w) = accepted w /\ transcript (callback m w) = transcript w
                           /\ (forall off rem, ready off rem w -> ready off rem (callback m w))).
Local Abbreviation do_write := (ssl3_do_write write add finish_mac callback type).

(** The part of the message that is still to be written. *)
Definition to_write (rem : list Z) (s : SSL) : Prop :=
  init_data (init_off s) (init_num s) s = Some rem /\ rem <> [] /\ callable rem s.

Definition noted (s : SSL) (bs : list Z) : list Z :=
  if (type =? SSL3_RT_HANDSHAKE) && writes_transcript s then bs else [].

(** From [s] to [s'] the bytes [bs] have been taken and noted. *)
Definition progressed (bs : list Z) (s s' : SSL) : Prop :=
  accepted (rest s') = accepted (rest s) ++ bs
  /\ transcript (rest s') = transcript (rest s) ++ noted s bs
  /\ writes_transcript s' = writes_transcript s.

Lemma init_data_inside off num (s : SSL) rem : init_data off num s = Some rem ->
  0 <= off /\ Z.of_nat (length rem) = num
  /\ (forall n, 0 <= n <= num ->
        init_data off n s = Some (take (Z.to_nat n) rem)
        /\ init_data (off + n) (num - n) s = Some (drop (Z.to_nat n) rem))
  /\ init_data 0 (off + num) s <> None.
Proof.
  unfold init_data, mem_read. intros E. destruct (init_buf s) as [b|]; [|done].
  destruct (buf_data b) as [d|]; [|done].
  destruct ((0 <=? off) && (0 <=? num) && (off + num <=? Z.of_nat (length d))) eqn:Ec; [|done].
  zbool. simplify_eq. rewrite length_take, length_drop. split_and!; [lia|lia| |].
  - intros n Hn. rewrite !(proj2 (Z.leb_le _ _)) by lia. simpl. split; f_equal.
    + rewrite take_take. f_equal. lia.
    + rewrite skipn_firstn_comm, drop_drop. f_equal; [lia|]. f_equal. lia.
  - by rewrite !(proj2 (Z.leb_le _ _)) by lia.
Qed.

Lemma send_bytes_spec msg (s : SSL) ret n s' : msg <> [] -> Z.of_nat (length msg) = init_num s -> callable msg s ->
  send_bytes write add type msg s = (ret, n, s') ->
  (exists v w, s' = set_rwstate v (set_rest w s)
    /\ if ret <=? 0 then took [] s w /\ ready (init_off s) msg w
       else 0 < n <= init_num s /\ took (take (Z.to_nat n) msg) s w
            /\ ready (init_off s + n) (drop (Z.to_nat n) msg) w)
  \/ (ret <= 0 /\ errored s').
Proof.
  intros Hne Hl Hc. unfold send_bytes. assert (length msg <> O) by (by destruct msg).
  destruct (SSL_IS_QUIC s); [|rewrite <- Hl; by apply sw_writes].
  destruct Hc as [_ Hr]. destruct (type =? SSL3_RT_HANDSHAKE).
  - destruct (add _ msg s) as [ok s1] eqn:E. apply qw_adds in E as (w & -> & Ht & Hk & Hka).
    destruct ok; intros [= <- <- <-]; left; exists (rwstate s), w; (split; [by destruct s|]); simpl.
    + split; [lia|]. rewrite <- Hl, Nat2Z.id, take_ge, drop_ge by lia. auto.
    + auto.
  - intros [= <- <- <-]. left. exists (rwstate s), (rest s). split; [by destruct s|]. unfold took.
    simpl. by rewrite app_nil_r.
Qed.

Lemma note_written_spec n a off rem (s : SSL) : init_data (init_off s) n s = Some a ->
  (exists w, note_written finish_mac type n s = (Ok true, set_rest w s)
     /\ accepted w = accepted (rest s) /\ transcript w = transcript (rest s) ++ noted s a
     /\ (ready off rem (rest s) -> ready off rem w))
  \/ (exists s', note_written finish_mac type n s = (Ok false, s') /\ errored s').
Proof.
  intros Ea. unfold note_written, noted, st_if. destruct (_ && _).
  - unfold st_bind, st_lift, st_try. rewrite Ea.
    destruct (Hfinish a off rem s) as [(w & -> & ? & ? & ?)|(s' & -> & ?)]; [left; by exists w|right; by exists s'].
  - left. exists (rest s). rewrite app_nil_r. split; [by destruct s|done].
Qed.

Lemma do_write_step rem (s : SSL) : to_write rem s ->
  (exists s', do_write s = (Ok 1, s') /\ progressed rem s s' /\ write_in_progress (statem s') = false
     /\ exists off, ready off [] (rest s'))
  \/ (exists n s', do_write s = (Ok 0, s') /\ (0 < n < length rem)%nat
        /\ progressed (take n rem) s s' /\ to_write (drop n rem) s')
  \/ (exists s', do_write s = (Ok (-1), s')
        /\ ((progressed [] s s' /\ to_write rem s') \/ errored s')).
Proof.
  intros (Ed & Hne & Hc). destruct (init_data_inside _ _ _ _ Ed) as (Ho & Hl & Hsub & Hall).
  unfold ssl3_do_write. rewrite Ed.
  destruct (send_bytes write add type rem s) as [[ret n] s1] eqn:Es.
  apply send_bytes_spec in Es as [(v & w & -> & Hw)|[Hle He]]; [| |done..].
  2: { right; right. rewrite (proj2 (Z.leb_le _ _)) by done. eauto. }
  destruct (ret <=? 0).
  { right; right. eexists. split; [done|]. left. destruct Hw as [[Hw1 Hw2] Hw3].
    split; [|split_and!; [done|done|by destruct Hc]]. split_and!; [exact Hw1| |done]. simpl. rewrite Hw2. unfold noted.
    destruct (_ && _); by rewrite app_nil_r. }
  destruct Hw as ([Hn0 Hn1] & [Hw1 Hw2] & Hrd). destruct (Hsub n) as [Et Er]; [lia|].
  set (s1 := set_rwstate v (set_rest w s)).
  destruct (note_written_spec n (take (Z.to_nat n) rem) (init_off s + n) (drop (Z.to_nat n) rem) s1 Et)
    as [(w2 & E2 & Ha & Ht & Hk)|(s2 & E2 & He)]; rewrite (st_bind_ok _ _ _ _ _ E2).
  2: { right; right. exists s2. auto. }
  assert (Hpr : progressed (take (Z.to_nat n) rem) s (set_rest w2 s1)).
  { simpl in Ha, Ht. split_and!; [by rewrite <- Hw1|by rewrite <- Hw2|done]. }
  clear E2. unfold st_if, st_bind, st_put, st_lift, st_ret. simpl.
  destruct (n =? init_num s) eqn:En; zbool.
  - left. revert Hall.
    change (init_data 0 _ _) with (init_data 0 (init_off s + init_num s) s).
    destruct (init_data 0 _ s) as [m|]; [|done]. intros _. eexists; split; [done|].
    destruct (Hcb m w2) as (Hc1 & Hc2 & Hc3). destruct Hpr as (Hp1 & Hp2 & _). simpl in Hp1, Hp2.
    split; [|split; [done|]].
    + split_and!; [| |done]; simpl; [rewrite Hc1, Hp1|rewrite Hc2, Hp2]; by rewrite take_ge by lia.
    + exists (init_off s + n). simpl. apply Hc3. rewrite drop_ge in Hk, Hrd by lia. by apply Hk.
  - right; left. exists (Z.to_nat n). eexists. split; [done|].
    split; [lia|]. split; [exact Hpr|]. split; [exact Er|]. split.
    + intros E. apply (f_equal length) in E. rewrite length_drop in E. simpl in E. lia.
    + split; [apply Hc|]. by apply Hk.
Qed.

(** Calls until the message is written; none follows a fatal error. *)
Inductive writes : SSL -> SSL -> Prop :=
| writes_done s s' : do_write s = (Ok 1, s') -> writes s s'
| writes_again s r s1 s' : do_write s = (Ok r, s1) -> r = 0 \/ (r = -1 /\ ~ errored s1) ->
    writes s1 s' -> writes s s'.

Lemma progressed_trans a b (s s1 s2 : SSL) : progressed a s s1 -> progressed b s1 s2 ->
  progressed (a ++ b) s s2.
Proof.
  intros (A1 & T1 & W1) (A2 & T2 & W2). unfold progressed, noted in *.
  rewrite A2, A1, T2, T1, W2, W1, !app_assoc. split_and!; try done.
  destruct (_ && _); [by rewrite app_assoc|by rewrite !app_nil_r].
Qed.

Lemma writes_all (s s' : SSL) : writes s s' -> forall rem, to_write rem s ->
  progressed rem s s' /\ write_in_progress (statem s') = false /\ exists off, ready off [] (rest s').
Proof.
  induction 1 as [s s' E|s r s1 s' E Hr _ IH]; intros rem Hrem;
    destruct (do_write_step rem s Hrem) as [(s2 & E2 & Hd)|[(n & s2 & E2 & _ & Hp & Hw)|(s2 & E2 & Hd)]];
    rewrite E2 in E; inversion E; subst; try done.
  - by destruct Hr as [|[? _]].
  - destruct (IH _ Hw) as [Hp2 ?]. split; [|done]. rewrite <- (take_drop n rem). by eapply progressed_trans.
  - destruct Hr as [|[_ He]]; [done|]. destruct Hd as [[Hp Hw]|]; [|done].
    destruct (IH _ Hw) as [Hp2 ?]. split; [|done]. change rem with ([] ++ rem). by eapply progressed_trans.
Qed.

Lemma writes_finish k : (forall s1 s2, do_write s1 <> (Ok (-1), s2)) -> forall rem (s : SSL),
  (length rem <= k)%nat -> to_write rem s -> exists s', writes s s'.
Proof.
  intros Hok. induction k as [|k IH]; intros rem s Hk Hrem.
  { destruct Hrem as (_ & Hrem & _). by destruct rem; [|simpl in Hk; lia]. }
  destruct (do_write_step rem s Hrem) as [(s2 & E2 & Hd)|[(n & s2 & E2 & Hn & Hp & Hw)|(s2 & E2 & _)]].
  - exists s2. by constructor.
  - destruct (IH (drop n rem) s2) as [s' ?]; [rewrite length_drop; lia|done|].
    exists s'. eapply writes_again; try done. by left.
  - by edestruct Hok.
Qed.

(** C31.  [ssl3_do_write], called until it is done, hands every byte of the
    message to the record layer once and in order, whatever portions are taken,
    and puts the same bytes into the transcript (a message of TLS 1.3 outside
    the transcript excepted).  If no call fails it does get done. *)
Theorem ssl3_do_write_correct (m : list Z) (s : SSL) (Hm : to_write m s) :
  (forall s', writes s s' ->
     accepted (rest s') = accepted (rest s) ++ m
     /\ transcript (rest s') = transcript (rest s) ++ noted s m
     /\ write_in_progress (statem s') = false)
  /\ ((forall s1 s2, do_write s1 <> (Ok (-1), s2)) -> exists s', writes s s').
Proof.
  split.
  - intros s' Hw. by destruct (writes_all _ _ Hw _ Hm) as ((? & ? & _) & ? & _).
  - intros Hok. by eapply writes_finish.
Qed.
End Writer.

(** A writer that takes at most two bytes. *)
Definition sample_write (type : Z) (msg : list Z) (s : SSL (list Z)) : Z * Z * SSL (list Z) :=
  let w := rest s in
  (1, Z.min 2 (Z.of_nat (length msg)),
   set_rest (sample_env 0 (sample_transcript w) (sample_pending w ++ take 2 msg)) s).

Definition sample_add (level : Z) (msg : list Z) (s : SSL (list Z)) : bool * SSL (list Z) :=
  let w := rest s in
  (true, set_rest (sample_env 0 (sample_transcript w) (sample_pending w ++ msg)) s).

Definition whatever (off : Z) (msg w : list Z) : Prop := True.

#[global] Instance sample_writer type fr : StreamWriter sample_pending sample_transcript type fr whatever sample_write.
Proof.
  split. intros msg s ret n s' Hne _ E. unfold sample_write in E. inversion E; subst. left.
  eexists _, _. split; [apply set_rest_rwstate|]. simpl. unfold took. rewrite sample_env_pending, sample_env_transcript.
  assert (length msg <> O) by (by destruct msg). split; [lia|]. split; [|done]. split; [|done]. f_equal.
  destruct (decide (2 <= length msg)%nat); [f_equal; lia|]. by rewrite !take_ge by lia.
Qed.

#[global] Instance sample_quic_writer : QuicWriter sample_pending sample_transcript whatever sample_add.
Proof.
  split. intros level msg s ok s' E. unfold sample_add in E. inversion E; subst.
  eexists. split; [done|]. unfold took. by rewrite sample_env_pending, sample_env_transcript.
Qed.

Lemma ssl3_do_write_correct_witness :
  let s := set_init_num 5 (set_init_buf (Some (mkBUF_MEM 5 (Some [1; 0; 0; 1; 7]) 5 0)) (sample_client [])) in
  exists s', writes SSL3_RT_HANDSHAKE sample_write sample_add sample_mac (fun _ w => w) s s' /\
    sample_pending (rest s') = [1; 0; 0; 1; 7] /\ sample_transcript (rest s') = [1; 0; 0; 1; 7].
Proof.
  intros s.
  destruct (ssl3_do_write_correct sample_pending sample_transcript SSL3_RT_HANDSHAKE (frame s) whatever sample_write
    sample_add sample_mac (fun _ w => w) (fun m _ _ => sample_mac_appends m)
    (fun _ _ => conj eq_refl (conj eq_refl (fun _ _ u => u))) [1; 0; 0; 1; 7] s)
    as [Hc Hex]; [by split_and!|].
  destruct Hex as [s' Hw].
  - intros s1 s2. unfold ssl3_do_write, send_bytes, note_written, st_if, st_bind, st_try, st_lift, sample_mac,
      st_put, st_ret, sample_add, sample_write. repeat (case_match; simplify_eq/=); try done; congruence.
  - exists s'. split; [done|]. by destruct (Hc s' Hw) as (-> & -> & _).
Defined.
End Framing.
