(* ===== verification/CbcPad.v ===== *)
(** * CBC padding and MAC removal

    ssl/record/methods/tls_pad.c: the padding of a decrypted CBC record is
    removed and its MAC copied out without branching on secret data.  The
    theorems compare this with the plain computation. *)

From stdpp Require Import prelude.
From Stdlib Require Import ZArith Lia.
From S2P Require Import Prelude Buffer ConstTime.

Local Open Scope Z_scope.
Local Open Scope st_scope.

Abbreviation EVP_MAX_MD_SIZE := (64)%Z.

(** [*mac]: inside the record, or newly allocated ([*alloced]). *)
Inductive mac_ptr : Type :=
| MacInside (off : Z)
| MacAlloced (bytes : list Z).

(** The objects the functions update: [*reclen] and [*mac]. *)
Record CBC : Type := mkCBC { reclen : Z; mac : option mac_ptr }.

Definition set_reclen (n : Z) (c : CBC) : CBC := mkCBC n (mac c).

(** The variables of the loop over the record. *)
Record SCAN : Type := mkSCAN { in_mac : Z; rotate_offset : Z; rotated_mac : list Z; scan_j : Z }.

Section Copy.
Context `{Libc}.

(** The random generator, and the contents of [rotated_mac_buf] (from its first
    aligned byte on) before it is used. *)
Context (RAND_bytes_ex : Z -> option (list Z)) (garbage : list Z).

(** [recdata] and the lengths do not change. *)
Context (recdata : list Z) (origreclen block_size mac_size : Z).

Definition scan_byte (i mac_start mac_end : Z) (st : SCAN) : option SCAN :=
  let mac_started := constant_time_eq 64 i mac_start in
  let mac_ended := constant_time_lt 64 i mac_end in
  match mem_get recdata i, mem_get (rotated_mac st) (scan_j st) with
  | Some b, Some r =>
      let in_mac := Z.land (Z.lor (in_mac st) mac_started) mac_ended in
      let rotate_offset := Z.lor (rotate_offset st) (Z.land (scan_j st) mac_started) in
      let rotated := <[Z.to_nat (scan_j st) := Z.lor r (wrapw 8 (Z.land b in_mac))]> (rotated_mac st) in
      let j := wrapw 64 (scan_j st + 1) in
      Some (mkSCAN in_mac rotate_offset rotated (Z.land j (constant_time_lt 64 j mac_size)))
  | _, _ => None
  end.

Fixpoint scan_loop (n : nat) (i mac_start mac_end : Z) (st : SCAN) : option SCAN :=
  match n with
  | O => Some st
  | S n => match scan_byte i mac_start mac_end st with
           | Some st => scan_loop n (i + 1) mac_start mac_end st
           | None => None
           end
  end.

(** The rest of [randmac] counts the rounds. *)
Fixpoint rotate_loop (good : Z) (rotated randmac : list Z) (rotate_offset : Z) : option (list Z) :=
  match randmac with
  | [] => Some []
  | r :: randmac =>
      let low := Z.land rotate_offset (wnot 64 32) in
      match mem_get rotated low, mem_get rotated (Z.lor rotate_offset 32) with
      | Some aux1, Some aux2 =>
          let mask := constant_time_eq_8 (wrapw 32 low) (wrapw 32 rotate_offset) in
          let aux3 := constant_time_select_8 mask aux1 aux2 in
          let out := constant_time_select_8 (Z.land good 255) aux3 r in
          let ro := wrapw 64 (rotate_offset + 1) in
          match rotate_loop good rotated randmac (Z.land ro (constant_time_lt 64 ro mac_size)) with
          | Some rest => Some (out :: rest)
          | None => None
          end
      | _, _ => None
      end
  end.

(** [want] tells whether [mac] and [alloced] are given. *)
Definition ssl3_cbc_copy_mac (want : bool) (good : Z) : ST CBC unit := fun c =>
  let mac_end := reclen c in
  let mac_start := wsub 64 mac_end mac_size in
  if negb ((mac_size <=? origreclen) && (mac_size <=? EVP_MAX_MD_SIZE)) then (Fail, c)
  else if mac_size =? 0 then (if good =? 0 then (Fail, c) else (Ok tt, c))
  else
  let c := set_reclen (wsub 64 (reclen c) mac_size) c in
  if block_size =? 1 then
    (Ok tt, if want then mkCBC (reclen c) (Some (MacInside (reclen c))) else c)
  else match RAND_bytes_ex mac_size with
  | None => (Fail, c)
  | Some randmac =>
      if negb want then (Fail, c)
      else match CRYPTO_malloc mac_size with
      | None => (Fail, mkCBC (reclen c) None)
      | Some _ =>
          let scan_start := if mac_size + 255 + 1 <? origreclen
                            then origreclen - (mac_size + 255 + 1) else 0 in
          match mem_write garbage 0 (replicate (Z.to_nat mac_size) 0) with
          | None => (Fault, c)
          | Some zeroed =>
              match scan_loop (Z.to_nat (origreclen - scan_start)) scan_start mac_start mac_end
                      (mkSCAN 0 0 zeroed 0) with
              | None => (Fault, c)
              | Some st =>
                  match rotate_loop good (rotated_mac st) randmac (rotate_offset st) with
                  | None => (Fault, c)
                  | Some out => (Ok tt, mkCBC (reclen c) (Some (MacAlloced out)))
                  end
              end
          end
      end
  end.

Definition ssl3_cbc_remove_padding_and_mac (want : bool) : ST CBC unit := fun c =>
  let overhead := 1 + mac_size in
  if reclen c <? overhead then (Fail, c)
  else match mem_get recdata (reclen c - 1) with
  | None => (Fault, c)
  | Some padding_length =>
      let good := constant_time_ge 64 (reclen c) (padding_length + overhead) in
      let good := Z.land good (constant_time_ge 64 block_size (padding_length + 1)) in
      ssl3_cbc_copy_mac want good
        (set_reclen (wsub 64 (reclen c) (Z.land good (padding_length + 1))) c)
  end.

(** The check of the padding bytes: [n] rounds from [i]. *)
Fixpoint check_padding (n : nat) (i len padding_length good : Z) : option Z :=
  match n with
  | O => Some good
  | S n =>
      match mem_get recdata (len - 1 - i) with
      | None => None
      | Some b =>
          let mask := constant_time_ge_8_s padding_length i in
          check_padding n (i + 1) len padding_length
            (Z.land good (wnot 64 (Z.land mask (Z.lxor padding_length b))))
      end
  end.

Definition tls1_cbc_remove_padding_and_mac (want aead : bool) : ST CBC unit := fun c =>
  let overhead := (if block_size =? 1 then 0 else 1) + mac_size in
  if reclen c <? overhead then (Fail, c)
  else if block_size =? 1 then ssl3_cbc_copy_mac want (wsub 64 0 1) c
  else match mem_get recdata (reclen c - 1) with
  | None => (Fault, c)
  | Some padding_length =>
      if aead then (Ok tt, set_reclen (wsub 64 (reclen c) (padding_length + 1 + mac_size)) c)
      else
        let good := constant_time_ge 64 (reclen c) (overhead + padding_length) in
        let to_check := if reclen c <? 256 then reclen c else 256 in
        match check_padding (Z.to_nat to_check) 0 (reclen c) padding_length good with
        | None => (Fault, c)
        | Some good =>
            let good := constant_time_eq 64 255 (Z.land good 255) in
            ssl3_cbc_copy_mac want good
              (set_reclen (wsub 64 (reclen c) (Z.land good (padding_length + 1))) c)
        end
  end.
End Copy.

(** ** The scan *)

Lemma mem_get_lookup (d : list Z) i : 0 <= i -> mem_get d i = d !! Z.to_nat i.
Proof. intros Hi. unfold mem_get. by rewrite (proj2 (Z.ltb_ge _ _)) by lia. Qed.

(** Counting up modulo [m] the way the loops do. *)
Lemma next_index m k : 0 < m < 2 ^ 64 -> 0 <= k ->
  Z.land (wrapw 64 (k `mod` m + 1)) (constant_time_lt 64 (wrapw 64 (k `mod` m + 1)) m)
  = (k + 1) `mod` m.
Proof.
  intros Hm Hk. pose proof (Z.mod_pos_bound k m ltac:(lia)) as Hr.
  rewrite wrapw_small by (unfold is_word; lia).
  rewrite lt_mask, Z.land_comm, land_mask by (unfold is_word; lia).
  destruct (k `mod` m + 1 <? m) eqn:E; zbool.
  - rewrite <- (Z.add_mod_idemp_l k 1 m) by lia. symmetry. apply Z.mod_small. lia.
  - rewrite <- (Z.add_mod_idemp_l k 1 m) by lia. replace (k `mod` m + 1) with m by lia.
    by rewrite Z.mod_same by lia.
Qed.

Section Scan.
Context (recdata : list Z) (m s ms : Z).
Context (Hm : 0 < m <= EVP_MAX_MD_SIZE) (Hs : 0 <= s <= ms).
Context (Hlen : ms + m <= Z.of_nat (length recdata)) (Hbig : Z.of_nat (length recdata) < 2 ^ 64).
Context (Hbytes : Forall is_byte recdata).

(** The byte of the record that ends up in place [p] of the rotated MAC. *)
Definition slot (p : Z) : Z := ms + (p - (ms - s)) `mod` m.
Definition rec_byte (i : Z) : Z := default 0 (recdata !! Z.to_nat i).

Record scanned (i : Z) (st : SCAN) : Prop := {
  sc_in : in_mac st = maskw 64 ((ms <? i) && (i <=? ms + m));
  sc_off : rotate_offset st = if ms <? i then (ms - s) `mod` m else 0;
  sc_j : scan_j st = (i - s) `mod` m;
  sc_len : Z.of_nat (length (rotated_mac st)) = 64;
  sc_bytes : Forall is_byte (rotated_mac st);
  sc_slots p : 0 <= p < m ->
    rotated_mac st !! Z.to_nat p = Some (if slot p <? i then rec_byte (slot p) else 0)
}.

Lemma slot_range p : ms <= slot p < ms + m.
Proof using Hm. clear Hlen Hbig Hs. unfold slot. pose proof (Z.mod_pos_bound (p - (ms - s)) m). lia. Qed.

(** Index [i] of the record is in slot [(i - s) mod m], and in no other. *)
Lemma slot_of i : ms <= i < ms + m -> slot ((i - s) `mod` m) = i.
Proof.
  intros Hi. unfold slot. rewrite Zminus_mod_idemp_l.
  replace (i - s - (ms - s)) with (i - ms) by lia. rewrite Z.mod_small by lia. lia.
Qed.

Lemma slot_inj p i : 0 <= p < m -> slot p = i -> p = (i - s) `mod` m.
Proof.
  intros Hp E. subst i. unfold slot.
  replace (ms + (p - (ms - s)) `mod` m - s) with ((p - (ms - s)) `mod` m + (ms - s)) by lia.
  rewrite Z.add_mod_idemp_l by lia. replace (p - (ms - s) + (ms - s)) with p by lia.
  by rewrite Z.mod_small.
Qed.

Lemma rec_byte_get i : 0 <= i < Z.of_nat (length recdata) ->
  mem_get recdata i = Some (rec_byte i) /\ is_byte (rec_byte i).
Proof.
  intros Hi. rewrite mem_get_lookup by lia. unfold rec_byte.
  destruct (lookup_lt_is_Some_2 recdata (Z.to_nat i)) as [b E]; [lia|]. rewrite E. simpl.
  split; [done|]. by eapply Forall_lookup_1 in E.
Qed.

Lemma slot_step i j : s <= i -> j = (i - s) `mod` m -> is_byte (rec_byte i) ->
  Z.lor (if slot j <? i then rec_byte (slot j) else 0)
    (wrapw 8 (Z.land (rec_byte i) (maskw 64 ((ms <? i + 1) && (i + 1 <=? ms + m)))))
  = if slot j <? i + 1 then rec_byte (slot j) else 0.
Proof.
  intros Hi -> Hb. assert (Hw : is_word 64 (rec_byte i)) by (unfold is_byte, is_word in *; lia).
  rewrite (Z.land_comm (rec_byte i)), land_mask by (done || lia).
  pose proof (slot_range ((i - s) `mod` m)) as Hr.
  destruct ((ms <? i + 1) && (i + 1 <=? ms + m)) eqn:E.
  - zbool. rewrite slot_of by lia. rewrite (proj2 (Z.ltb_ge i i)), (proj2 (Z.ltb_lt i (i + 1))) by lia.
    simpl. by apply wrapw_small.
  - change (wrapw 8 0) with 0. rewrite Z.lor_0_r.
    destruct (slot _ <? i) eqn:E1, (slot _ <? i + 1) eqn:E2; zbool; try done; [lia|].
    apply andb_false_iff in E as [E|E]; zbool; lia.
Qed.

Lemma scan_byte_spec i st : s <= i < Z.of_nat (length recdata) -> scanned i st ->
  exists st', scan_byte recdata m i ms (ms + m) st = Some st' /\ scanned (i + 1) st'.
Proof.
  intros Hi [Hin Hoff Hj Hl Hb Hsl].
  pose proof (Z.mod_pos_bound (i - s) m ltac:(lia)) as Hjr. rewrite <- Hj in Hjr.
  destruct (rec_byte_get i ltac:(lia)) as [Eb Hbb].
  pose proof (Hsl (scan_j st) Hjr) as Er. unfold scan_byte.
  rewrite Eb, (mem_get_lookup (rotated_mac st)), Er by lia.
  rewrite eq_mask, lt_mask by (unfold is_word; lia).
  eexists; split; [done|]. rewrite Hin.
  assert (Ein : Z.land (Z.lor (maskw 64 ((ms <? i) && (i <=? ms + m))) (maskw 64 (i =? ms)))
                  (maskw 64 (i <? ms + m)) = maskw 64 ((ms <? i + 1) && (i + 1 <=? ms + m))).
  { rewrite Z.land_comm, land_mask by (done || apply lor_word; (lia || apply maskw_word; lia)).
    destruct (ms <? i) eqn:E1, (i <=? ms + m) eqn:E2, (i =? ms) eqn:E3, (i <? ms + m) eqn:E4,
      (ms <? i + 1) eqn:E5, (i + 1 <=? ms + m) eqn:E6; zbool; simpl; try done; lia. }
  rewrite Ein. split; simpl; try done.
  - rewrite Hoff, Z.land_comm, land_mask by (unfold is_word; lia).
    destruct (ms <? i) eqn:E1, (i =? ms) eqn:E3, (ms <? i + 1) eqn:E5; zbool; simpl; try lia;
      rewrite ?Z.lor_0_r; try done. subst i. done.
  - rewrite Hj, next_index by lia. f_equal. lia.
  - by rewrite length_insert.
  - apply Forall_insert; [done|]. apply (lor_word 8); [lia| |apply wrapw_word; lia].
    eapply Forall_lookup_1 in Er; done.
  - intros p Hp. pose proof (slot_range p) as Hsr. destruct (decide (p = scan_j st)) as [->|Hne].
    + rewrite list_lookup_insert_eq by lia. f_equal. apply slot_step; (done || lia).
    + rewrite list_lookup_insert_ne by lia. rewrite Hsl by done. f_equal.
      assert (slot p <> i) by (intros E; apply slot_inj in E; [congruence|done]).
      destruct (slot p <? i) eqn:E1, (slot p <? i + 1) eqn:E2; zbool; (done || lia).
Qed.

Lemma scan_loop_spec n : forall i st, s <= i -> i + Z.of_nat n <= Z.of_nat (length recdata) ->
  scanned i st -> exists st', scan_loop recdata m n i ms (ms + m) st = Some st'
    /\ scanned (i + Z.of_nat n) st'.
Proof.
  induction n as [|n IH]; intros i st Hi Hn Hst.
  { exists st. split; [done|]. by rewrite Z.add_0_r. }
  destruct (scan_byte_spec i st) as (st1 & E & Hst1); [lia|done|].
  destruct (IH (i + 1) st1) as (st2 & E2 & Hst2); [lia|lia|done|].
  exists st2. simpl. rewrite E. split; [done|]. by replace (i + Z.of_nat (S n)) with (i + 1 + Z.of_nat n) by lia.
Qed.

(** ** The rotation *)

(** Loading from both cache lines and selecting gives the byte asked for. *)
Lemma select_line rotated o x : 0 <= o < 64 -> Z.of_nat (length rotated) = 64 -> Forall is_byte rotated ->
  rotated !! Z.to_nat o = Some x ->
  exists aux1 aux2, mem_get rotated (Z.land o (wnot 64 32)) = Some aux1
    /\ mem_get rotated (Z.lor o 32) = Some aux2
    /\ constant_time_select_8 (constant_time_eq_8 (wrapw 32 (Z.land o (wnot 64 32))) (wrapw 32 o)) aux1 aux2 = x.
Proof.
  intros Ho Hl Hb Hx.
  assert (H1 : is_word 6 (Z.land o (wnot 64 32))) by (apply land_word; [lia|done|by vm_compute]).
  assert (H2 : is_word 6 (Z.lor o 32)) by (apply lor_word; [lia|done|by vm_compute]).
  unfold is_word in H1, H2. change (2 ^ 6) with 64 in *.
  destruct (lookup_lt_is_Some_2 rotated (Z.to_nat (Z.land o (wnot 64 32)))) as [a1 E1]; [lia|].
  destruct (lookup_lt_is_Some_2 rotated (Z.to_nat (Z.lor o 32))) as [a2 E2]; [lia|].
  exists a1, a2. rewrite !mem_get_lookup by lia. split_and!; [done..|].
  pose proof (Forall_lookup_1 _ _ _ _ Hb E1) as Hb1. pose proof (Forall_lookup_1 _ _ _ _ Hb E2) as Hb2.
  rewrite !wrapw_small by (unfold is_word; lia).
  unfold constant_time_eq_8. rewrite eq_mask, wrapw_mask, select_8_mask by (done || unfold is_word; lia).
  assert (Hcase : Z.land o (wnot 64 32) = o \/ (Z.lor o 32 = o /\ Z.land o (wnot 64 32) <> o)).
  { assert (Hall : forallb (fun k => let o := Z.of_nat k in (Z.land o (wnot 64 32) =? o)
        || ((Z.lor o 32 =? o) && negb (Z.land o (wnot 64 32) =? o))) (seq 0 64) = true) by (by vm_compute).
    rewrite forallb_forall in Hall. specialize (Hall (Z.to_nat o)).
    rewrite Z2Nat.id, in_seq in Hall by lia. specialize (Hall ltac:(lia)). cbv zeta in Hall.
    apply orb_true_iff in Hall as [Hall|Hall]; zbool; auto. }
  destruct Hcase as [E|[E E']].
  - rewrite E in *. rewrite Z.eqb_refl. congruence.
  - rewrite (proj2 (Z.eqb_neq _ _)) by done. rewrite E in E2. congruence.
Qed.

Lemma rotate_loop_spec g rotated rnd : forall k, Z.of_nat (length rotated) = 64 -> Forall is_byte rotated ->
  (forall p, 0 <= p < m -> rotated !! Z.to_nat p = Some (rec_byte (slot p))) ->
  Forall is_byte rnd -> 0 <= k -> k + Z.of_nat (length rnd) <= m ->
  rotate_loop m (maskw 64 g) rotated rnd ((ms - s + k) `mod` m)
  = Some (if g then take (length rnd) (drop (Z.to_nat (ms + k)) recdata) else rnd).
Proof.
  induction rnd as [|r rnd IH]; intros k Hl Hb Hsl Hr Hk Hkm.
  { destruct g; done. }
  apply Forall_cons in Hr as [Hr0 Hr]. simpl in Hkm.
  pose proof (Z.mod_pos_bound (ms - s + k) m ltac:(lia)) as Hor.
  pose proof (Hsl _ Hor) as Ho. replace (ms - s + k) with (ms + k - s) in * by lia.
  rewrite slot_of in Ho by lia.
  destruct (select_line rotated ((ms + k - s) `mod` m) (rec_byte (ms + k))) as (a1 & a2 & E1 & E2 & E3);
    [lia|done..|].
  cbn [rotate_loop]. rewrite E1, E2, E3. rewrite next_index by lia.
  replace (ms + k - s + 1) with (ms - s + (k + 1)) by lia. rewrite IH by (done || lia).
  destruct (rec_byte_get (ms + k)) as [Eg Hbb]; [lia|].
  change (Z.land (maskw 64 g) 255) with (Z.land (maskw 64 g) (Z.ones 8)).
  rewrite Z.land_ones by lia. change (maskw 64 g `mod` 2 ^ 8) with (wrapw 8 (maskw 64 g)).
  rewrite wrapw_mask, select_8_mask by (done || lia). destruct g; [|done].
  f_equal. rewrite mem_get_lookup in Eg by lia. rewrite (drop_S _ _ _ Eg). simpl. do 3 f_equal. lia.
Qed.
End Scan.

(** ** Removing the MAC *)

Section Remove.
Context `{L : Libc} (RAND : Z -> option (list Z)) (garbage recdata rnd : list Z).
Context (block_size mac_size : Z).
Context (Hrec : Forall is_byte recdata) (Hbig : Z.of_nat (length recdata) < 2 ^ 64).
Context (Hgl : Z.of_nat (length garbage) = 64) (Hgb : Forall is_byte garbage).
Context (Hbs : 1 < block_size < 2 ^ 64).

Local Abbreviation orig := (Z.of_nat (length recdata)).

(** The random MAC and the memory for the copy are there. *)
Definition supplied : Prop :=
  RAND mac_size = Some rnd /\ Z.of_nat (length rnd) = mac_size /\ Forall is_byte rnd
  /\ CRYPTO_malloc mac_size <> None.

Lemma scan_initial s ms zeroed : 0 < mac_size <= EVP_MAX_MD_SIZE -> 0 <= s <= ms ->
  mem_write garbage 0 (replicate (Z.to_nat mac_size) 0) = Some zeroed ->
  scanned recdata mac_size s ms s (mkSCAN 0 0 zeroed 0).
Proof.
  intros Hm Hs E.
  rewrite mem_write_Some in E by (rewrite ?length_replicate; lia). simplify_eq.
  split; simpl; rewrite ?take_0; simpl.
  - by rewrite (proj2 (Z.ltb_ge _ _)) by lia.
  - by rewrite (proj2 (Z.ltb_ge _ _)) by lia.
  - by rewrite Z.sub_diag, Z.mod_0_l by lia.
  - rewrite length_app, length_drop, !length_replicate. lia.
  - apply Forall_app; split; [apply Forall_replicate, is_byte_0|by apply Forall_drop].
  - intros p Hp. pose proof (slot_range mac_size s ms Hm p).
    rewrite (proj2 (Z.ltb_ge _ _)) by lia. rewrite lookup_app_l by (rewrite length_replicate; lia).
    apply lookup_replicate_2. lia.
Qed.

Lemma copy_mac_spec g n : 0 < mac_size <= EVP_MAX_MD_SIZE -> supplied ->
  mac_size <= n <= orig -> orig - n <= 256 ->
  ssl3_cbc_copy_mac RAND garbage recdata orig block_size mac_size true (maskw 64 g) (mkCBC n None)
  = (Ok tt, mkCBC (n - mac_size) (Some (MacAlloced
      (if g then take (Z.to_nat mac_size) (drop (Z.to_nat (n - mac_size)) recdata) else rnd)))).
Proof.
  intros Hm (Er & Hrl & Hrb & Hma) Hn Hd. unfold ssl3_cbc_copy_mac. simpl reclen.
  rewrite !(proj2 (Z.leb_le _ _)), (proj2 (Z.eqb_neq _ _)), (proj2 (Z.eqb_neq _ _)), Er by lia. simpl.
  unfold wsub. rewrite wrapw_small by (unfold is_word; lia).
  destruct (CRYPTO_malloc mac_size); [|done].
  set (s := if mac_size + 255 + 1 <? orig then _ else 0).
  assert (Hs : 0 <= s <= n - mac_size) by (unfold s; destruct (_ <? _) eqn:E; zbool; lia).
  destruct (mem_write garbage 0 _) as [zeroed|] eqn:Ez.
  2: { rewrite mem_write_Some in Ez by (rewrite ?length_replicate; lia). done. }
  pose proof (scan_initial s (n - mac_size) zeroed ltac:(lia) Hs Ez) as Hi.
  destruct (scan_loop_spec recdata mac_size s (n - mac_size) ltac:(lia) Hs
    ltac:(lia) Hbig Hrec (Z.to_nat (orig - s)) s _ ltac:(lia) ltac:(lia) Hi) as (st & E & Hst).
  replace (n - mac_size + mac_size) with n in E by lia. rewrite E.
  replace (s + Z.of_nat (Z.to_nat (orig - s))) with orig in Hst by lia.
  destruct Hst as [_ Hoff _ Hl Hb Hsl]. rewrite Hoff, (proj2 (Z.ltb_lt _ _)) by lia.
  replace (n - mac_size - s) with (n - mac_size - s + 0) by lia.
  rewrite (rotate_loop_spec recdata) with (g := g); try done; try lia.
  - rewrite Z.add_0_r. do 5 f_equal. destruct g; [|done]. f_equal. lia.
  - intros p Hp. rewrite Hsl by done.
    pose proof (slot_range mac_size s (n - mac_size) ltac:(lia) p).
    by rewrite (proj2 (Z.ltb_lt _ _)) by lia.
Qed.

(** *** The padding check *)

Lemma land_255_bits g : 0 <= g -> Z.land g 255 = 255 <-> (forall i, 0 <= i < 8 -> Z.testbit g i = true).
Proof.
  intros Hg. change 255 with (Z.ones 8). split.
  - intros E i Hi. apply (f_equal (fun z => Z.testbit z i)) in E.
    by rewrite Z.land_spec, Z.ones_spec_low, andb_true_r in E by lia.
  - intros Hb. apply Z.bits_inj'. intros i Hi. rewrite Z.land_spec. destruct (decide (i < 8)).
    + by rewrite Hb, Z.ones_spec_low by lia.
    + by rewrite Z.ones_spec_high, andb_false_r by lia.
Qed.

Lemma clear_bits g x : is_word 64 g -> is_byte x ->
  Z.land (Z.land g (wnot 64 x)) 255 = 255 <-> Z.land g 255 = 255 /\ x = 0.
Proof.
  intros Hg Hx. assert (Hw : is_word 64 (wnot 64 x)) by (apply wrapw_word; lia).
  unfold is_word in Hg, Hw. rewrite !land_255_bits by (lia || apply Z.land_nonneg; lia).
  setoid_rewrite Z.land_spec. split.
  - intros Hb. split; [intros i Hi; by apply Hb, andb_true_iff in Hi as [? _]|].
    apply Z.bits_inj'. intros i Hi. rewrite Z.bits_0. destruct (decide (i < 8)).
    + specialize (Hb i ltac:(lia)). rewrite wnot_bit in Hb by lia.
      apply andb_true_iff in Hb as [_ Hb]. by apply negb_true_iff in Hb.
    + apply (word_bit 8); (done || lia).
  - intros [Hb ->] i Hi. by rewrite Hb, wnot_bit, Z.bits_0 by lia.
Qed.

Lemma check_padding_spec pad n : forall i good, is_byte pad -> is_word 64 good -> 0 <= i ->
  i + Z.of_nat n <= orig ->
  exists good', check_padding recdata n i orig pad good = Some good' /\ is_word 64 good'
    /\ (Z.land good' 255 = 255 <->
        Z.land good 255 = 255
        /\ forall k, i <= k < i + Z.of_nat n -> k <= pad -> rec_byte recdata (orig - 1 - k) = pad).
Proof.
  induction n as [|n IH]; intros i good Hp Hg Hi Hn.
  { exists good. split_and!; try apply Hg; [done|]. split; [|by intros [? _]].
    intros ?; split; [done|]. intros; lia. }
  destruct (rec_byte_get recdata Hrec (orig - 1 - i)) as [Eb Hbb]; [lia|].
  assert (Hx : is_byte (Z.lxor pad (rec_byte recdata (orig - 1 - i)))) by (apply (lxor_word 8); (done || lia)).
  set (x := Z.lxor pad _) in *.
  assert (Hmask : Z.land (constant_time_ge_8_s pad i) x = if i <=? pad then x else 0).
  { unfold constant_time_ge_8_s. unfold is_byte in Hp.
    rewrite ge_mask, wrapw_mask by (unfold is_word; lia). by apply (land_mask 8). }
  simpl check_padding. rewrite Eb. fold x. rewrite Hmask.
  set (y := if i <=? pad then x else 0).
  assert (Hy : is_byte y) by (unfold y; destruct (_ <=? _); [done|apply is_byte_0]).
  destruct (IH (i + 1) (Z.land good (wnot 64 y))) as (good' & E & Hg' & Hiff); [done| |lia|lia|].
  { apply land_word; [lia|done|]. assert (is_word 64 (wnot 64 y)) as [? _] by (apply wrapw_word; lia). done. }
  exists good'. split_and!; try apply Hg'; [done|]. rewrite Hiff, clear_bits by done.
  assert (Hyx : y = 0 <-> (i <= pad -> rec_byte recdata (orig - 1 - i) = pad)).
  { unfold y. destruct (i <=? pad) eqn:El; zbool; [|split; [lia|done]].
    unfold x. split.
    - intros Ex _. apply Z.lxor_eq in Ex. done.
    - intros ->; [apply Z.lxor_nilpotent|done]. }
  rewrite Hyx. split.
  - intros [[? Hi0] Hk]. split; [done|]. intros k Hkr Hkp.
    destruct (decide (k = i)) as [->|]; [by apply Hi0|apply Hk; lia].
  - intros [? Hk]. split; [split; [done|]|]; [intros; apply Hk; lia|intros; apply Hk; lia].
Qed.

(** *** The plain computation *)

(** The record ends with [pad + 1] bytes of value [pad], before them the MAC. *)
Definition tls_valid (pad : Z) : bool :=
  (pad + 1 + mac_size <=? orig)
  && forallb (Z.eqb pad) (drop (Z.to_nat (orig - (pad + 1))) recdata).

(** In SSLv3 only the length of the padding is determined. *)
Definition ssl3_valid (pad : Z) : bool :=
  (pad + 1 + mac_size <=? orig) && (pad + 1 <=? block_size).

(** What is left of the record and the MAC that was at its end; without valid
    padding, nothing is removed as padding and the MAC is random. *)
Definition plain_remove (valid : bool) (pad : Z) : ret unit * CBC :=
  let n := if valid then orig - (pad + 1) else orig in
  if mac_size =? 0 then (if valid then Ok tt else Fail, mkCBC n None)
  else (Ok tt, mkCBC (n - mac_size) (Some (MacAlloced
          (if valid then take (Z.to_nat mac_size) (drop (Z.to_nat (n - mac_size)) recdata) else rnd)))).

Lemma copy_mac_plain g pad : 0 <= mac_size <= EVP_MAX_MD_SIZE -> (mac_size = 0 \/ supplied) ->
  mac_size + 1 <= orig -> is_byte pad -> (g = true -> pad + 1 + mac_size <= orig) ->
  ssl3_cbc_copy_mac RAND garbage recdata orig block_size mac_size true (maskw 64 g)
    (mkCBC (wsub 64 orig (Z.land (maskw 64 g) (pad + 1))) None) = plain_remove g pad.
Proof.
  intros Hm Hsup Hlen Hpad Hg. unfold is_byte in Hpad.
  rewrite land_mask by (lia || unfold is_word; lia).
  assert (Hn : wsub 64 orig (if g then pad + 1 else 0) = if g then orig - (pad + 1) else orig).
  { unfold wsub. destruct g; [specialize (Hg eq_refl)|]; rewrite wrapw_small by (unfold is_word; lia); lia. }
  rewrite Hn. unfold plain_remove. destruct (mac_size =? 0) eqn:E0; zbool.
  - unfold ssl3_cbc_copy_mac. simpl reclen.
    rewrite !(proj2 (Z.leb_le _ _)), E0 by lia. simpl. destruct g; done.
  - destruct Hsup as [|Hsup]; [done|].
    rewrite copy_mac_spec; [destruct g; done|lia|done| |]; destruct g; try specialize (Hg eq_refl); lia.
Qed.

Lemma drop_pad pad : is_byte pad -> pad + 1 <= orig ->
  (forall k, 0 <= k < pad + 1 -> rec_byte recdata (orig - 1 - k) = pad)
  <-> forallb (Z.eqb pad) (drop (Z.to_nat (orig - (pad + 1))) recdata) = true.
Proof.
  intros Hp Hl. rewrite forallb_forall. unfold is_byte in Hp. split.
  - intros Hk x Hx. apply list_elem_of_In, list_elem_of_lookup in Hx as [i Hi].
    pose proof (lookup_lt_Some _ _ _ Hi) as Hlt. rewrite length_drop in Hlt. rewrite lookup_drop in Hi.
    specialize (Hk (pad - Z.of_nat i) ltac:(lia)). unfold rec_byte in Hk.
    replace (Z.to_nat (orig - 1 - (pad - Z.of_nat i))) with (Z.to_nat (orig - (pad + 1)) + i)%nat in Hk by lia.
    rewrite Hi in Hk. simpl in Hk. subst. apply Z.eqb_refl.
  - intros Hx k Hk. unfold rec_byte.
    destruct (lookup_lt_is_Some_2 recdata (Z.to_nat (orig - 1 - k))) as [b Eb]; [lia|]. rewrite Eb. simpl.
    symmetry. apply Z.eqb_eq, Hx, list_elem_of_In, list_elem_of_lookup. exists (Z.to_nat (pad - k)).
    rewrite lookup_drop, <- Eb. f_equal. lia.
Qed.

Lemma last_byte pad : last recdata = Some pad -> mem_get recdata (orig - 1) = Some pad /\ is_byte pad /\ 0 < orig.
Proof.
  intros E. rewrite last_lookup in E. pose proof (lookup_lt_Some _ _ _ E). split; [|split; [|lia]].
  - rewrite mem_get_lookup by lia. rewrite <- E. f_equal. lia.
  - by eapply Forall_lookup_1 in E.
Qed.

(** The final value of [good] in the TLS case. *)
Lemma tls_good pad good : is_byte pad -> mac_size + 1 <= orig -> 0 <= mac_size ->
  check_padding recdata (Z.to_nat (if orig <? 256 then orig else 256)) 0 orig pad
    (constant_time_ge 64 orig (1 + mac_size + pad)) = Some good ->
  mac_size <= EVP_MAX_MD_SIZE ->
  constant_time_eq 64 255 (Z.land good 255) = maskw 64 (tls_valid pad).
Proof.
  intros Hpad Hl Hm E Hm64. unfold is_byte in *.
  rewrite ge_mask in E by (unfold is_word; lia). set (g0 := _ <=? orig) in E.
  set (n := if orig <? 256 then orig else 256) in E.
  assert (Hn : 0 <= n <= orig /\ n <= 256 /\ (n = orig \/ n = 256))
    by (unfold n; destruct (_ <? _) eqn:?; zbool; lia).
  destruct (check_padding_spec pad (Z.to_nat n) 0 (maskw 64 g0)) as (good' & E' & Hg' & Hiff);
    [done|by apply maskw_word|lia|lia|]. rewrite E in E'. simplify_eq.
  rewrite eq_mask; [|lia|done|].
  2: { unfold is_word. change (Z.land good' 255) with (Z.land good' (Z.ones 8)).
       rewrite Z.land_ones by lia. pose proof (Z.mod_pos_bound good' (2 ^ 8)). lia. }
  f_equal. unfold tls_valid.
  assert (Hg0 : Z.land (maskw 64 g0) 255 = 255 <-> pad + 1 + mac_size <= orig).
  { rewrite land_mask by done. unfold g0. destruct (_ <=? orig) eqn:El; zbool; split; try done; lia. }
  rewrite Hg0 in Hiff. apply eq_true_iff_eq. rewrite Z.eqb_eq, andb_true_iff, Z.leb_le.
  split.
  - intros Eg. symmetry in Eg. apply Hiff in Eg as [Hlen Hk]. split; [done|].
    apply drop_pad; [done|lia|]. intros k Hkr. apply Hk; lia.
  - intros [Hlen Hb]. symmetry. apply Hiff. split; [done|]. intros k Hkr Hkp.
    apply (proj2 (drop_pad pad Hpad ltac:(lia)) Hb). lia.
Qed.

(** C32.  The branch-free removal of padding and MAC from a decrypted CBC record
    gives the same result as the plain computation, for TLS and for SSLv3: a
    record too short for MAC and padding length is refused; with valid padding
    the padding and the MAC are cut off and the MAC is returned; otherwise the
    MAC returned is random, so that the comparison which follows fails.  No
    access leaves the record or the rotation buffer. *)
Theorem cbc_remove_equiv (pad : Z) (Hm : 0 <= mac_size <= EVP_MAX_MD_SIZE)
  (Hsup : mac_size = 0 \/ supplied) (Hlast : last recdata = Some pad) :
  let c := mkCBC orig None in
  tls1_cbc_remove_padding_and_mac RAND garbage recdata orig block_size mac_size true false c
  = (if orig <? mac_size + 1 then (Fail, c) else plain_remove (tls_valid pad) pad)
  /\ ssl3_cbc_remove_padding_and_mac RAND garbage recdata orig block_size mac_size true c
  = (if orig <? mac_size + 1 then (Fail, c) else plain_remove (ssl3_valid pad) pad).
Proof.
  destruct (last_byte pad Hlast) as (Eg & Hb & Hpos). pose proof Hb as Hb'. unfold is_byte in Hb'.
  split; unfold tls1_cbc_remove_padding_and_mac, ssl3_cbc_remove_padding_and_mac; simpl reclen;
    rewrite ?(proj2 (Z.eqb_neq block_size 1)), Z.add_comm by lia;
    destruct (orig <? mac_size + 1) eqn:El; try done; zbool; rewrite Eg.
  - destruct (check_padding_spec pad (Z.to_nat (if orig <? 256 then orig else 256)) 0
      (constant_time_ge 64 orig (1 + mac_size + pad))) as (good & E & _ & _);
      [done|apply wrapw_word; lia|lia|destruct (_ <? _) eqn:?; zbool; lia|].
    rewrite (Z.add_comm mac_size 1). rewrite E, (tls_good pad) by (done || lia).
    apply copy_mac_plain; (done || lia || idtac). unfold tls_valid. intros ?%andb_true_iff. zbool. lia.
  - rewrite !ge_mask by (unfold is_word; lia).
    assert (Eg2 : Z.land (maskw 64 (pad + (mac_size + 1) <=? orig)) (maskw 64 (pad + 1 <=? block_size))
                  = maskw 64 (ssl3_valid pad)).
    { rewrite land_mask by (lia || by apply maskw_word). unfold ssl3_valid.
      rewrite <- Z.add_assoc, (Z.add_comm 1). by destruct (_ <=? orig). }
    rewrite Eg2. apply copy_mac_plain; (done || lia || idtac).
    unfold ssl3_valid. intros ?%andb_true_iff. zbool. lia.
Qed.
End Remove.

Lemma cbc_remove_equiv_witness :
  tls1_cbc_remove_padding_and_mac (H := zero_libc) (fun _ => Some [7; 7]) (replicate 64 5)
    [1; 2; 3; 8; 9; 1; 1] 7 16 2 true false (mkCBC 7 None)
  = (Ok tt, mkCBC 3 (Some (MacAlloced [8; 9]))).
Proof.
  refine (proj1 (cbc_remove_equiv (L := zero_libc) (fun _ => Some [7; 7]) (replicate 64 5)
    [1; 2; 3; 8; 9; 1; 1] [7; 7] 16 2 _ _ _ _ _ 1 _ _ _)); try (by vm_compute).
  - repeat constructor; done.
  - apply Forall_replicate. done.
  - right. split_and!; try done. repeat constructor; done.
Defined.
