(* ===== verification/SafeMath.v ===== *)
(** * Checked arithmetic

    include/internal/safe_math.h: arithmetic that reports overflow.  The macros
    are instantiated with a type; here its width in bits is a parameter.  Where
    the compiler has no built-in overflow check a portable variant is used; it is
    modelled with every intermediate result of signed arithmetic checked, as its
    overflow is undefined behaviour.  A function returns its value and whether it
    has set [*err]. *)

From stdpp Require Import prelude.
From Stdlib Require Import ZArith Lia ZifyBool.
From S2P Require Import Prelude.

Local Open Scope Z_scope.

Module SafeMath.

(** Evaluation of a C expression: it has a value, or undefined behaviour. *)
Definition rbind {A B} (m : ret A) (k : A -> ret B) : ret B :=
  match m with Ok a => k a | Fail => Fail | Fault => Fault end.

(** [&&] and [||] evaluate their second operand only when it is needed. *)
Definition c_and (a : bool) (m : ret bool) : ret bool := if a then m else Ok false.
Definition c_or (m1 m2 : ret bool) : ret bool := rbind m1 (fun a => if a then Ok true else m2).

Section Width.
Context (w : Z).

Definition MINS : Z := - 2 ^ (w - 1).
Definition MAXS : Z := 2 ^ (w - 1) - 1.
Definition MAXU : Z := 2 ^ w - 1.

Definition is_s (z : Z) : Prop := MINS <= z <= MAXS.
Definition is_u (z : Z) : Prop := 0 <= z <= MAXU.
Definition fits_s (z : Z) : bool := (MINS <=? z) && (z <=? MAXS).
Definition fits_u (z : Z) : bool := (0 <=? z) && (z <=? MAXU).
Definition wrap (z : Z) : Z := z `mod` 2 ^ w.

(** Signed arithmetic, undefined when the result does not fit. *)
Definition s_val (z : Z) : ret Z := if fits_s z then Ok z else Fault.

(** ** Signed *)

(** With [__builtin_add_overflow] and the like. *)
Definition safe_add_s (a b : Z) : Z * bool :=
  if fits_s (a + b) then (a + b, false) else (if a <? 0 then MINS else MAXS, true).

Definition safe_sub_s (a b : Z) : Z * bool :=
  if fits_s (a - b) then (a - b, false) else (if a <? 0 then MINS else MAXS, true).

Definition safe_mul_s (a b : Z) : Z * bool :=
  if fits_s (a * b) then (a * b, false) else (if xorb (a <? 0) (b <? 0) then MINS else MAXS, true).

(** Without. *)
Definition portable_add_s (a b : Z) : ret (Z * bool) :=
  rbind (c_or (Ok (xorb (a <? 0) (b <? 0)))
        (c_or (c_and (0 <? a) (rbind (s_val (MAXS - a)) (fun m => Ok (b <=? m))))
        (c_or (c_and (a <? 0) (rbind (s_val (MINS - a)) (fun m => Ok (m <=? b))))
              (Ok (a =? 0))))) (fun safe =>
  if safe : bool then rbind (s_val (a + b)) (fun r => Ok (r, false))
  else Ok (if a <? 0 then MINS else MAXS, true)).

Definition portable_sub_s (a b : Z) : ret (Z * bool) :=
  rbind (c_or (Ok (negb (xorb (a <? 0) (b <? 0))))
        (c_or (c_and (0 <? b) (rbind (s_val (MINS + b)) (fun m => Ok (m <=? a))))
        (c_or (c_and (b <? 0) (rbind (s_val (MAXS + b)) (fun m => Ok (a <=? m))))
              (Ok (b =? 0))))) (fun safe =>
  if safe : bool then rbind (s_val (a - b)) (fun r => Ok (r, false))
  else Ok (if a <? 0 then MINS else MAXS, true)).

Definition portable_mul_s (a b : Z) : ret (Z * bool) :=
  let overflow := (if xorb (a <? 0) (b <? 0) then MINS else MAXS, true) in
  if (a =? 0) || (b =? 0) then Ok (0, false)
  else if a =? 1 then Ok (b, false)
  else if b =? 1 then Ok (a, false)
  else if negb (a =? MINS) && negb (b =? MINS) then
    rbind (if a <? 0 then s_val (- a) else Ok a) (fun x =>
    rbind (if b <? 0 then s_val (- b) else Ok b) (fun y =>
    if x <=? Z.quot MAXS y then rbind (s_val (a * b)) (fun r => Ok (r, false)) else Ok overflow))
  else Ok overflow.

Definition safe_div_s (a b : Z) : Z * bool :=
  if b =? 0 then (if a <? 0 then MINS else MAXS, true)
  else if (b =? -1) && (a =? MINS) then (MAXS, true)
  else (Z.quot a b, false).

Definition safe_mod_s (a b : Z) : Z * bool :=
  if b =? 0 then (0, true)
  else if (b =? -1) && (a =? MINS) then (MAXS, true)
  else (Z.rem a b, false).

Definition safe_neg_s (a : Z) : Z * bool := if negb (a =? MINS) then (- a, false) else (MINS, true).

Definition safe_abs_s (a : Z) : Z * bool :=
  if negb (a =? MINS) then (if a <? 0 then - a else a, false) else (MINS, true).

Definition safe_muldiv_s (a b c : Z) : Z * bool :=
  if c =? 0 then (if (a =? 0) || (b =? 0) then 0 else MAXS, true)
  else
    let '(x, e2) := safe_mul_s a b in
    if negb e2 then safe_div_s x c
    else
      let '(a, b) := if a <? b then (b, a) else (a, b) in
      let '(q, e_q) := safe_div_s a c in
      let '(r, e_r) := safe_mod_s a c in
      let '(x, e_x) := safe_mul_s r b in
      let '(y, e_y) := safe_mul_s q b in
      let '(q, e_d) := safe_div_s x c in
      let '(z, e_a) := safe_add_s y q in
      (z, e_q || e_r || e_x || e_y || e_d || e_a).

Definition safe_div_round_up_s (a b : Z) : Z * bool :=
  if (0 <? b) && (0 <? a) then
    if a <? MAXS - b then (Z.quot (a + b - 1) b, false)
    else (Z.quot a b + (if Z.rem a b =? 0 then 0 else 1), false)
  else if b =? 0 then (if a =? 0 then 0 else MAXS, true)
  else if a =? 0 then (0, false)
  else
    let '(x, e_m) := safe_mod_s a b in
    let '(q, e_d) := safe_div_s a b in
    let '(r, e_a) := safe_add_s q (if x =? 0 then 0 else 1) in
    (r, e_m || e_d || e_a).

(** ** Unsigned *)

Definition safe_add_u (a b : Z) : Z * bool :=
  if fits_u (a + b) then (a + b, false) else (wrap (a + b), true).

Definition portable_add_u (a b : Z) : Z * bool := (wrap (a + b), MAXU - a <? b).

Definition safe_sub_u (a b : Z) : Z * bool := (wrap (a - b), a <? b).

Definition safe_mul_u (a b : Z) : Z * bool :=
  if fits_u (a * b) then (a * b, false) else (wrap (a * b), true).

Definition portable_mul_u (a b : Z) : Z * bool := (wrap (a * b), negb (b =? 0) && (MAXU / b <? a)).

Definition safe_div_u (a b : Z) : Z * bool := if negb (b =? 0) then (a / b, false) else (MAXU, true).

Definition safe_mod_u (a b : Z) : Z * bool := if negb (b =? 0) then (a `mod` b, false) else (0, true).

Definition safe_neg_u (a : Z) : Z * bool := if a =? 0 then (a, false) else (wrap (1 + (MAXU - a)), true).

Definition safe_abs_u (a : Z) : Z * bool := (a, false).

Definition safe_muldiv_u (a b c : Z) : Z * bool :=
  if c =? 0 then (if (a =? 0) || (b =? 0) then 0 else MAXU, true)
  else
    let '(x, e2) := safe_mul_u a b in
    if negb e2 then (x / c, false)
    else
      let '(a, b) := if a <? b then (b, a) else (a, b) in
      let '(x, e_x) := safe_mul_u (a `mod` c) b in
      let '(y, e_y) := safe_mul_u (a / c) b in
      let '(z, e_a) := safe_add_u y (x / c) in
      (z, e_x || e_y || e_a).

Definition safe_div_round_up_u (a b : Z) : Z * bool :=
  if (0 <? b) && (0 <? a) then
    if a <? wrap (MAXU - b) then (wrap (a + b - 1) / b, false)
    else (wrap (a / b + (if a `mod` b =? 0 then 0 else 1)), false)
  else if b =? 0 then (if a =? 0 then 0 else MAXU, true)
  else if a =? 0 then (0, false)
  else
    let '(x, e_m) := safe_mod_u a b in
    let '(q, e_d) := safe_div_u a b in
    let '(r, e_a) := safe_add_u q (if x =? 0 then 0 else 1) in
    (r, e_m || e_d || e_a).

(** ** What the functions compute *)

Context (Hw : 1 < w).

(** The nearest value of the type, and whether that is another one. *)
Definition clamp_s (z : Z) : Z := Z.max MINS (Z.min MAXS z).
Definition checked_s (z : Z) : Z * bool := (clamp_s z, negb (fits_s z)).

(** The value modulo the range, and whether that is another one. *)
Definition checked_u (z : Z) : Z * bool := (wrap z, negb (fits_u z)).

Lemma half_range : 2 <= 2 ^ (w - 1) /\ 2 ^ w = 2 * 2 ^ (w - 1).
Proof.
  split; [change 2 with (2 ^ 1) at 1; apply Z.pow_le_mono_r; lia|].
  replace w with (Z.succ (w - 1)) at 1 by lia. apply Z.pow_succ_r. lia.
Qed.

Ltac ranges :=
  pose proof half_range; unfold s_val, checked_s, checked_u, clamp_s, fits_s, fits_u, is_s, is_u, MINS, MAXS, MAXU in *;
  remember (2 ^ (w - 1)) as p eqn:Hp; clear Hp; intros; repeat match goal with H : _ /\ _ |- _ => destruct H end.

Lemma safe_add_s_spec a b : is_s a -> is_s b -> safe_add_s a b = checked_s (a + b).
Proof. unfold safe_add_s. ranges. repeat case_match; zbool; f_equal; lia. Qed.

Lemma safe_sub_s_spec a b : is_s a -> is_s b -> safe_sub_s a b = checked_s (a - b).
Proof. unfold safe_sub_s. ranges. repeat case_match; zbool; f_equal; lia. Qed.

Lemma safe_mul_s_spec a b : is_s a -> is_s b -> safe_mul_s a b = checked_s (a * b).
Proof.
  unfold safe_mul_s. ranges.
  destruct ((- p <=? a * b) && (a * b <=? p - 1)) eqn:E; [f_equal; lia|].
  destruct (xorb (a <? 0) (b <? 0)) eqn:Ex; f_equal; [assert (a * b <= 0) by nia|assert (0 <= a * b) by nia]; lia.
Qed.

Lemma portable_add_s_spec a b : is_s a -> is_s b -> portable_add_s a b = Ok (safe_add_s a b).
Proof.
  unfold portable_add_s, safe_add_s, c_or, c_and, rbind. ranges. repeat (case_match; simplify_eq; try lia; try done).
Qed.

Lemma portable_sub_s_spec a b : is_s a -> is_s b -> portable_sub_s a b = Ok (safe_sub_s a b).
Proof.
  unfold portable_sub_s, safe_sub_s, c_or, c_and, rbind. ranges. repeat (case_match; simplify_eq; try lia; try done).
Qed.

Lemma quot_bound x y m : 0 <= x -> 0 < y -> 0 <= m -> (x <=? Z.quot m y) = (x * y <=? m).
Proof.
  intros Hx Hy Hm. rewrite Z.quot_div_nonneg by lia.
  destruct (x * y <=? m) eqn:E; zbool; [apply Z.leb_le, Z.div_le_lower_bound; lia|].
  apply Z.leb_gt, Z.div_lt_upper_bound; lia.
Qed.

Lemma s_abs a : is_s a -> a <> MINS -> (if a <? 0 then s_val (- a) else Ok a) = Ok (Z.abs a).
Proof. ranges. repeat case_match; f_equal; lia. Qed.

(** The portable variant also reports an overflow when the product is [MINS] and
    no factor is 1. *)
Lemma portable_mul_s_spec a b : is_s a -> is_s b ->
  portable_mul_s a b = Ok (if (a * b =? MINS) && negb (a =? 1) && negb (b =? 1) then (MINS, true) else safe_mul_s a b).
Proof.
  intros Ha Hb. assert (Hp : MINS <= -2 /\ MAXS = - MINS - 1) by (ranges; lia).
  unfold is_s in Ha, Hb. unfold portable_mul_s, safe_mul_s, fits_s.
  destruct (Z.eqb_spec a 0) as [->|Ha0]; [cbn [orb Z.mul]; repeat case_match; f_equal; lia|].
  destruct (Z.eqb_spec b 0) as [->|Hb0]; [rewrite Z.mul_0_r; cbn [orb]; repeat case_match; f_equal; lia|].
  cbn [orb]. destruct (Z.eqb_spec a 1) as [->|Ha1]; [rewrite Z.mul_1_l; repeat case_match; f_equal; lia|].
  destruct (Z.eqb_spec b 1) as [->|Hb1]; [rewrite Z.mul_1_r; repeat case_match; f_equal; lia|].
  rewrite !andb_true_r. destruct (negb (a =? MINS) && negb (b =? MINS)) eqn:Em.
  - rewrite !s_abs by (unfold is_s; lia). cbn [rbind]. rewrite quot_bound by lia. rewrite <- Z.abs_mul. unfold s_val, fits_s.
    destruct (Z.abs (a * b) <=? MAXS) eqn:El.
    + repeat case_match; try done; lia.
    + destruct (Z.eqb_spec (a * b) MINS) as [E|E].
      * assert (Hx : xorb (a <? 0) (b <? 0) = true) by nia. by rewrite Hx.
      * replace ((MINS <=? a * b) && (a * b <=? MAXS)) with false by lia. done.
  - assert (Hn : (a * b =? MINS) = false) by nia. assert (Hf : (MINS <=? a * b) && (a * b <=? MAXS) = false) by nia.
    by rewrite Hn, Hf.
Qed.

Lemma quot_small a b : 2 <= Z.abs b -> 2 * Z.abs (Z.quot a b) <= Z.abs a.
Proof.
  intros Hb. rewrite <- Z.quot_abs, Z.quot_div_nonneg by lia. pose proof (Z.mul_div_le (Z.abs a) (Z.abs b) ltac:(lia)).
  pose proof (Z.div_pos (Z.abs a) (Z.abs b)). nia.
Qed.

Lemma safe_div_s_spec a b : is_s a -> is_s b -> b <> 0 -> safe_div_s a b = checked_s (Z.quot a b).
Proof.
  intros Ha Hb Hb0. assert (Hp : MINS <= -2 /\ MAXS = - MINS - 1) by (ranges; lia). unfold is_s in *.
  unfold safe_div_s, checked_s, clamp_s, fits_s. rewrite (proj2 (Z.eqb_neq _ _) Hb0).
  destruct ((b =? -1) && (a =? MINS)) eqn:E.
  - assert (b = -1) as -> by lia. assert (a = MINS) as -> by lia. change (-1) with (- (1)).
    rewrite Z.quot_opp_r, Z.quot_1_r by lia. f_equal; lia.
  - assert (Hq : MINS <= Z.quot a b <= MAXS).
    { destruct (decide (b = -1)) as [->|Hb1]; [change (-1) with (- (1)); rewrite Z.quot_opp_r, Z.quot_1_r by lia; lia|].
      destruct (decide (b = 1)) as [->|Hb2]; [by rewrite Z.quot_1_r|]. pose proof (quot_small a b ltac:(lia)). lia. }
    f_equal; lia.
Qed.

Lemma safe_mod_s_spec a b : is_s a -> is_s b -> b <> 0 ->
  safe_mod_s a b = (if fits_s (Z.quot a b) then Z.rem a b else MAXS, negb (fits_s (Z.quot a b))).
Proof.
  intros Ha Hb Hb0. pose proof (safe_div_s_spec a b Ha Hb Hb0) as Hd. unfold safe_mod_s, safe_div_s, checked_s in *.
  rewrite (proj2 (Z.eqb_neq _ _) Hb0) in *. destruct ((b =? -1) && (a =? MINS)); injection Hd as _ Hf;
    destruct (fits_s _); simpl in *; congruence.
Qed.

Lemma safe_neg_s_spec a : is_s a -> safe_neg_s a = (if fits_s (- a) then - a else MINS, negb (fits_s (- a))).
Proof. unfold safe_neg_s. ranges. repeat case_match; f_equal; lia. Qed.

Lemma safe_abs_s_spec a : is_s a -> safe_abs_s a = (if fits_s (Z.abs a) then Z.abs a else MINS, negb (fits_s (Z.abs a))).
Proof. unfold safe_abs_s. ranges. repeat case_match; f_equal; lia. Qed.

(** Truncated quotients: the larger factor may be divided first. *)
Lemma quot_mul_first a b c : c <> 0 -> Z.quot (a * b) c = Z.quot a c * b + Z.quot (Z.rem a c * b) c.
Proof.
  intros Hc. pose proof (Z.quot_rem' a c) as Ha.
  replace (a * b) with (Z.rem a c * b + Z.quot a c * b * c) by (rewrite Ha at 3; ring).
  rewrite Z.quot_add; [ring|done|].
  replace (Z.rem a c * b + Z.quot a c * b * c) with (a * b) by (rewrite Ha at 1; ring).
  pose proof (Z.rem_sign_mul a c Hc). nia.
Qed.

Lemma fits_s_ok z : fits_s z = true <-> is_s z.
Proof. unfold fits_s, is_s. lia. Qed.

Lemma checked_s_ok z r : checked_s z = (r, false) -> r = z /\ is_s z.
Proof. unfold checked_s, clamp_s, fits_s, is_s. intros [= <- ?]. lia. Qed.

Lemma is_s_bounds : is_s MINS /\ is_s MAXS /\ is_s 0 /\ is_s 1.
Proof. ranges. lia. Qed.

Lemma checked_s_typed z : is_s (fst (checked_s z)).
Proof. unfold checked_s. simpl. ranges. lia. Qed.

Lemma safe_div_s_typed a b : is_s a -> is_s b -> is_s (fst (safe_div_s a b)).
Proof.
  intros Ha Hb. destruct (decide (b = 0)) as [->|Hb0].
  - unfold safe_div_s. simpl. pose proof is_s_bounds. case_match; tauto.
  - rewrite safe_div_s_spec by done. apply checked_s_typed.
Qed.

Lemma safe_mod_s_typed a b : is_s a -> is_s b -> is_s (fst (safe_mod_s a b)).
Proof.
  intros Ha Hb. pose proof is_s_bounds. unfold safe_mod_s. destruct (Z.eqb_spec b 0) as [->|Hb0]; [tauto|].
  case_match; [tauto|]. simpl. pose proof (Z.rem_bound_abs a b Hb0). ranges. lia.
Qed.

Lemma safe_muldiv_s_exact a b c r : is_s a -> is_s b -> is_s c -> safe_muldiv_s a b c = (r, false) ->
  c <> 0 /\ r = Z.quot (a * b) c /\ is_s r.
Proof.
  intros Ha Hb Hc. unfold safe_muldiv_s. destruct (Z.eqb_spec c 0) as [->|Hc0]; [done|]. rewrite safe_mul_s_spec by done.
  destruct (checked_s (a * b)) as [x e2] eqn:Em. destruct e2; cbn [negb].
  2: { apply checked_s_ok in Em as [-> Hx]. rewrite safe_div_s_spec by done. intros [-> Hr]%checked_s_ok. done. }
  assert (Hswap : exists a' b', (if a <? b then (b, a) else (a, b)) = (a', b') /\ is_s a' /\ is_s b' /\ a * b = a' * b')
    by (destruct (a <? b); eexists _, _; split; [reflexivity| |reflexivity|]; split_and!; (done || ring)).
  destruct Hswap as (a' & b' & -> & Ha' & Hb' & ->).
  pose proof (safe_div_s_typed a' c Ha' Hc) as Tq. pose proof (safe_mod_s_typed a' c Ha' Hc) as Tr.
  rewrite safe_div_s_spec, safe_mod_s_spec in * by done. destruct (checked_s (Z.quot a' c)) as [q e_q] eqn:Eq.
  destruct (fits_s (Z.quot a' c)) eqn:Ef; cbn [negb] in *.
  2: { unfold checked_s in Eq. rewrite Ef in Eq. injection Eq as _ <-. intros H. repeat case_match; simplify_eq. }
  cbn [fst] in *. rewrite !safe_mul_s_spec by done. unfold checked_s in Eq. rewrite Ef in Eq. injection Eq as <- <-.
  assert (Eq : clamp_s (Z.quot a' c) = Z.quot a' c) by (unfold clamp_s, fits_s in *; lia). rewrite Eq in *.
  destruct (checked_s (Z.rem a' c * b')) as [x' e_x] eqn:Ex. destruct (checked_s (Z.quot a' c * b')) as [y e_y] eqn:Ey.
  pose proof (checked_s_typed (Z.rem a' c * b')) as Tx. rewrite Ex in Tx. pose proof (checked_s_typed (Z.quot a' c * b')) as Ty. rewrite Ey in Ty.
  cbn [fst] in *. pose proof (safe_div_s_typed x' c Tx Hc) as Td. rewrite safe_div_s_spec in * by done.
  destruct (checked_s (Z.quot x' c)) as [d e_d] eqn:Ed. cbn [fst] in Td. rewrite safe_add_s_spec by done.
  destruct (checked_s (y + d)) as [z e_a] eqn:Ea. intros [= <- He].
  destruct e_x, e_y, e_d, e_a; try done.
  apply checked_s_ok in Ex as [-> _], Ey as [-> _], Ed as [-> _], Ea as [-> Hz]. by rewrite (quot_mul_first a' b' c Hc0).
Qed.

Lemma wrap_u z : is_u z -> wrap z = z.
Proof. unfold is_u, MAXU, wrap. intros H. apply Z.mod_small. lia. Qed.

Lemma wrap_typed z : is_u (wrap z).
Proof. unfold is_u, MAXU, wrap. pose proof half_range. pose proof (Z.mod_pos_bound z (2 ^ w)). lia. Qed.

Lemma fits_u_ok z : fits_u z = true <-> is_u z.
Proof. unfold fits_u, is_u. lia. Qed.

Lemma checked_u_ok z r : checked_u z = (r, false) -> r = z /\ is_u z.
Proof.
  unfold checked_u. intros [= <- Hf]. apply negb_false_iff, fits_u_ok in Hf. split; [by apply wrap_u|done].
Qed.

Lemma checked_if z : (if fits_u z then (z, false) else (wrap z, true)) = checked_u z.
Proof. unfold checked_u. destruct (fits_u z) eqn:E; [|done]. apply fits_u_ok in E. by rewrite wrap_u. Qed.

Lemma safe_add_u_spec a b : safe_add_u a b = checked_u (a + b).
Proof. apply checked_if. Qed.

Lemma safe_mul_u_spec a b : safe_mul_u a b = checked_u (a * b).
Proof. apply checked_if. Qed.

Lemma safe_sub_u_spec a b : is_u a -> is_u b -> safe_sub_u a b = checked_u (a - b).
Proof. unfold safe_sub_u, checked_u, is_u, fits_u. intros Ha Hb. f_equal. lia. Qed.

Lemma portable_add_u_spec a b : is_u a -> is_u b -> portable_add_u a b = safe_add_u a b.
Proof. rewrite safe_add_u_spec. unfold portable_add_u, checked_u, is_u, fits_u. intros Ha Hb. f_equal. lia. Qed.

Lemma portable_mul_u_spec a b : is_u a -> is_u b -> portable_mul_u a b = safe_mul_u a b.
Proof.
  rewrite safe_mul_u_spec. unfold portable_mul_u, checked_u, is_u, fits_u. intros Ha Hb. f_equal.
  destruct (Z.eqb_spec b 0) as [->|Hb0]; [rewrite Z.mul_0_r; cbn [negb andb]; lia|]. cbn [negb andb].
  destruct (Z.leb_spec (a * b) MAXU) as [Hm|Hm].
  - replace (0 <=? a * b) with true by nia. cbn. apply Z.ltb_ge, Z.div_le_lower_bound; lia.
  - rewrite andb_false_r. apply Z.ltb_lt, Z.div_lt_upper_bound; lia.
Qed.

Lemma div_typed a b : is_u a -> is_u b -> b <> 0 -> is_u (a / b).
Proof.
  unfold is_u. intros Ha Hb Hb0. split; [apply Z.div_pos; lia|].
  apply Z.div_le_upper_bound; [lia|]. nia.
Qed.

Lemma div_mul_first a b c : 0 < c -> a * b / c = a / c * b + a `mod` c * b / c.
Proof.
  intros Hc. rewrite (Z.div_mod a c) at 1 by lia.
  replace ((c * (a / c) + a `mod` c) * b) with (a / c * b * c + a `mod` c * b) by ring. by rewrite Z.div_add_l by lia.
Qed.

Lemma safe_muldiv_u_exact a b c r : is_u a -> is_u b -> is_u c -> safe_muldiv_u a b c = (r, false) ->
  c <> 0 /\ r = a * b / c /\ is_u r.
Proof.
  intros Ha Hb Hc. unfold safe_muldiv_u. destruct (Z.eqb_spec c 0) as [->|Hc0]; [done|]. rewrite safe_mul_u_spec.
  assert (0 < c) by (unfold is_u in Hc; lia). destruct (checked_u (a * b)) as [x e2] eqn:Em. destruct e2; cbn [negb].
  2: { apply checked_u_ok in Em as [-> Hx]. intros [= <-]. split; [done|]. split; [done|]. by apply div_typed. }
  assert (Hswap : exists a' b', (if a <? b then (b, a) else (a, b)) = (a', b') /\ a * b = a' * b')
    by (destruct (a <? b); eexists _, _; (split; [reflexivity|ring])).
  destruct Hswap as (a' & b' & -> & ->). rewrite !safe_mul_u_spec.
  destruct (checked_u (a' `mod` c * b')) as [x' e_x] eqn:Ex. destruct (checked_u (a' / c * b')) as [y e_y] eqn:Ey.
  rewrite safe_add_u_spec. destruct (checked_u (y + x' / c)) as [z e_a] eqn:Ea. intros [= <- He].
  destruct e_x, e_y, e_a; try done. apply checked_u_ok in Ex as [-> _], Ey as [-> _], Ea as [-> Hz].
  by rewrite (div_mul_first a' b' c).
Qed.

(** ** Rounding up *)

(** The least integer that is not below [a / b]. *)
Definition ceiling (a b : Z) : Z := - (- a / b).

Lemma ceiling_pos a b : 0 < b -> ceiling a b = (a + b - 1) / b /\ ceiling a b = a / b + (if a `mod` b =? 0 then 0 else 1).
Proof.
  intros Hb. unfold ceiling. pose proof (Z.div_mod a b ltac:(lia)) as Ha. pose proof (Z.mod_pos_bound a b Hb).
  destruct (Z.eqb_spec (a `mod` b) 0) as [E|E].
  - assert (E1 : - a / b = - (a / b)) by (symmetry; apply (Z.div_unique _ _ _ 0); lia). rewrite E1.
    assert (E2 : (a + b - 1) / b = a / b) by (symmetry; apply (Z.div_unique _ _ _ (b - 1)); lia). lia.
  - assert (E1 : - a / b = - (a / b) - 1) by (symmetry; apply (Z.div_unique _ _ _ (b - a `mod` b)); lia). rewrite E1.
    assert (E2 : (a + b - 1) / b = a / b + 1) by (symmetry; apply (Z.div_unique _ _ _ (a `mod` b - 1)); lia). lia.
Qed.

Lemma ceiling_typed a b : is_u a -> is_u b -> 0 < b -> is_u (ceiling a b).
Proof.
  intros Ha Hb Hb0. destruct (ceiling_pos a b Hb0) as [_ ->]. pose proof (div_typed a b Ha Hb ltac:(lia)) as Hd.
  unfold is_u in *. pose proof (Z.div_mod a b ltac:(lia)). pose proof (Z.mod_pos_bound a b Hb0).
  split; case_match; zbool; try lia. nia.
Qed.

Lemma div_round_up_u_spec a b : is_u a -> is_u b ->
  safe_div_round_up_u a b = (if b =? 0 then (if a =? 0 then 0 else MAXU, true) else (ceiling a b, false)).
Proof.
  intros Ha Hb. unfold safe_div_round_up_u. destruct (Z.eqb_spec b 0) as [->|Hb0]; [by rewrite andb_false_l|].
  assert (Hb1 : 0 < b) by (unfold is_u in Hb; lia). rewrite (proj2 (Z.ltb_lt _ _) Hb1). cbn [andb].
  destruct (ceiling_pos a b Hb1) as [C1 C2]. pose proof (ceiling_typed a b Ha Hb Hb1) as Ct.
  destruct (0 <? a) eqn:Ea; zbool.
  - rewrite wrap_u by (unfold is_u in *; lia). destruct (a <? MAXU - b) eqn:El; zbool.
    + rewrite wrap_u by (unfold is_u in *; lia). by rewrite C1.
    + rewrite C2 in Ct |- *. by rewrite wrap_u.
  - assert (a = 0) as -> by (unfold is_u in Ha; lia). cbn [Z.eqb]. by rewrite C2, Z.div_0_l, Z.mod_0_l by lia.
Qed.

Lemma div_round_up_s_pos a b : is_s a -> is_s b -> 0 <= a -> 0 < b -> safe_div_round_up_s a b = (ceiling a b, false).
Proof.
  intros Ha Hb Ha0 Hb0. unfold safe_div_round_up_s. rewrite (proj2 (Z.ltb_lt _ _) Hb0). cbn [andb].
  destruct (ceiling_pos a b Hb0) as [C1 C2]. destruct (0 <? a) eqn:Ea; zbool.
  - destruct (a <? MAXS - b); [by rewrite Z.quot_div_nonneg, C1 by lia|]. by rewrite Z.quot_div_nonneg, Z.rem_mod_nonneg, C2 by lia.
  - assert (a = 0) as -> by lia. rewrite (proj2 (Z.eqb_neq b 0)) by lia. cbn [Z.eqb].
    by rewrite C2, Z.div_0_l, Z.mod_0_l by lia.
Qed.

(** ** Every result is a value of the type *)

Lemma safe_add_s_typed a b : is_s a -> is_s b -> is_s (fst (safe_add_s a b)).
Proof. intros Ha Hb. rewrite safe_add_s_spec by done. apply checked_s_typed. Qed.

Lemma safe_mul_s_typed a b : is_s a -> is_s b -> is_s (fst (safe_mul_s a b)).
Proof. intros Ha Hb. rewrite safe_mul_s_spec by done. apply checked_s_typed. Qed.

(** The value of a [let]-bound pair. *)
Ltac name_typed H x e :=
  match type of H with is_s (fst ?t) => destruct t as [x e]; cbn [fst] in H end.

Lemma safe_muldiv_s_typed a b c : is_s a -> is_s b -> is_s c -> is_s (fst (safe_muldiv_s a b c)).
Proof.
  intros Ha Hb Hc. pose proof is_s_bounds as (_ & B1 & B2 & _). unfold safe_muldiv_s.
  destruct (c =? 0); [by destruct (_ || _)|].
  pose proof (safe_mul_s_typed a b Ha Hb) as Tx. name_typed Tx x e2. destruct e2; cbn [negb]; [|by apply safe_div_s_typed].
  assert (Hs : exists a' b', (if a <? b then (b, a) else (a, b)) = (a', b') /\ is_s a' /\ is_s b')
    by (destruct (a <? b); eexists _, _; by split).
  destruct Hs as (a' & b' & -> & Ha' & Hb').
  pose proof (safe_div_s_typed a' c Ha' Hc) as Tq. name_typed Tq q e_q.
  pose proof (safe_mod_s_typed a' c Ha' Hc) as Tr. name_typed Tr r e_r.
  pose proof (safe_mul_s_typed r b' Tr Hb') as Ty. name_typed Ty x' e_x.
  pose proof (safe_mul_s_typed q b' Tq Hb') as Tz. name_typed Tz y e_y.
  pose proof (safe_div_s_typed x' c Ty Hc) as Td. name_typed Td d e_d.
  pose proof (safe_add_s_typed y d Tz Td) as Ta. by name_typed Ta z e_a.
Qed.

Lemma safe_div_round_up_s_typed a b : is_s a -> is_s b -> is_s (fst (safe_div_round_up_s a b)).
Proof.
  intros Ha Hb. pose proof is_s_bounds as (_ & B1 & B2 & B3).
  destruct (decide (0 <= a /\ 0 < b)) as [[Ha0 Hb0]|Hn].
  - rewrite div_round_up_s_pos by done. cbn [fst]. destruct (ceiling_pos a b Hb0) as [_ ->].
    pose proof (Z.div_mod a b ltac:(lia)). pose proof (Z.mod_pos_bound a b Hb0). pose proof (Z.div_pos a b Ha0 Hb0).
    unfold is_s in *. split; [case_match; lia|]. case_match; zbool; nia.
  - unfold safe_div_round_up_s. destruct ((0 <? b) && (0 <? a)) eqn:E; [lia|].
    destruct (b =? 0); [by destruct (a =? 0)|]. destruct (a =? 0); [done|].
    destruct (safe_mod_s a b) as [x e_m]. pose proof (safe_div_s_typed a b Ha Hb) as Td. name_typed Td q e_d.
    pose proof (safe_add_s_typed q (if x =? 0 then 0 else 1) Td ltac:(by destruct (x =? 0))) as Ta. by name_typed Ta r e_a.
Qed.

Lemma safe_muldiv_u_typed a b c : is_u a -> is_u b -> is_u c -> is_u (fst (safe_muldiv_u a b c)).
Proof.
  intros Ha Hb Hc. assert (Hm : is_u MAXU /\ is_u 0) by (pose proof half_range; unfold is_u, MAXU; lia). unfold safe_muldiv_u.
  destruct (Z.eqb_spec c 0) as [->|Hc0]; [destruct (_ || _); apply Hm|]. rewrite safe_mul_u_spec. unfold checked_u at 1.
  cbn [negb]. destruct (fits_u (a * b)); cbn [negb fst]; [apply div_typed; [apply wrap_typed|done..]|].
  destruct (if a <? b then (b, a) else (a, b)) as [a' b']. rewrite !safe_mul_u_spec. unfold checked_u. cbn [fst].
  rewrite safe_add_u_spec. apply wrap_typed.
Qed.

(** ** The theorems *)

(** C34.  Overflow is reported exactly when it happens.  At every width, the
    checked operations on values of the type set [*err] exactly when the result
    of the mathematical operation is not a value of the type; they return that
    result when it is, and otherwise the nearest value of a signed type or the
    value modulo the range of an unsigned type.  Multiplication followed by
    division, when it reports no error, gives the quotient of the full product,
    although the product itself may not be a value of the type. *)
Theorem safe_math_checked (a b c : Z) :
  (is_s a -> is_s b ->
     safe_add_s a b = checked_s (a + b) /\ safe_sub_s a b = checked_s (a - b) /\ safe_mul_s a b = checked_s (a * b)
     /\ (b <> 0 -> safe_div_s a b = checked_s (Z.quot a b))
     /\ (is_s c -> forall r, safe_muldiv_s a b c = (r, false) -> c <> 0 /\ r = Z.quot (a * b) c /\ is_s r))
  /\ (is_u a -> is_u b ->
     safe_add_u a b = checked_u (a + b) /\ safe_sub_u a b = checked_u (a - b) /\ safe_mul_u a b = checked_u (a * b)
     /\ safe_div_round_up_u a b = (if b =? 0 then (if a =? 0 then 0 else MAXU, true) else (ceiling a b, false))
     /\ (is_u c -> forall r, safe_muldiv_u a b c = (r, false) -> c <> 0 /\ r = a * b / c /\ is_u r)).
Proof.
  split; intros Ha Hb.
  - split; [by apply safe_add_s_spec|]. split; [by apply safe_sub_s_spec|]. split; [by apply safe_mul_s_spec|].
    split; [intros Hb0; by apply safe_div_s_spec|]. intros Hc r. by apply safe_muldiv_s_exact.
  - split; [apply safe_add_u_spec|]. split; [by apply safe_sub_u_spec|]. split; [apply safe_mul_u_spec|].
    split; [by apply div_round_up_u_spec|]. intros Hc r. by apply safe_muldiv_u_exact.
Qed.

(** C35.  The portable variants agree with those on compiler built-ins.  Their
    tests evaluate no signed expression that overflows, and value and error are
    the same, with one exception: the portable signed product is also reported
    as an overflow when it is the least value of the type and no factor is 1. *)
Theorem portable_equivalent (a b : Z) :
  (is_s a -> is_s b ->
     portable_add_s a b = Ok (safe_add_s a b) /\ portable_sub_s a b = Ok (safe_sub_s a b)
     /\ portable_mul_s a b
        = Ok (if (a * b =? MINS) && negb (a =? 1) && negb (b =? 1) then (MINS, true) else safe_mul_s a b))
  /\ (is_u a -> is_u b -> portable_add_u a b = safe_add_u a b /\ portable_mul_u a b = safe_mul_u a b).
Proof.
  split; intros Ha Hb.
  - split_and!; [by apply portable_add_s_spec|by apply portable_sub_s_spec|by apply portable_mul_s_spec].
  - split; [by apply portable_add_u_spec|by apply portable_mul_u_spec].
Qed.

(** C36.  Checked operations stay inside their type.  Whatever values of the type
    they get and whether or not they report an error, the result is a value of
    the type, at every width. *)
Theorem safe_math_typed (a b c : Z) :
  (is_s a -> is_s b -> is_s c ->
     Forall (fun r => is_s (fst r))
       [safe_add_s a b; safe_sub_s a b; safe_mul_s a b; safe_div_s a b; safe_mod_s a b; safe_neg_s a; safe_abs_s a;
        safe_muldiv_s a b c; safe_div_round_up_s a b])
  /\ (is_u a -> is_u b -> is_u c ->
     Forall (fun r => is_u (fst r))
       [safe_add_u a b; safe_sub_u a b; safe_mul_u a b; safe_div_u a b; safe_mod_u a b; safe_neg_u a; safe_abs_u a;
        safe_muldiv_u a b c; safe_div_round_up_u a b]).
Proof.
  assert (Hm : is_u MAXU /\ is_u 0) by (pose proof half_range; unfold is_u, MAXU; lia).
  pose proof is_s_bounds as (B0 & B1 & B2 & B3). split; intros Ha Hb Hc; repeat apply Forall_cons_2; try apply Forall_nil_2.
  - by apply safe_add_s_typed.
  - rewrite safe_sub_s_spec by done. apply checked_s_typed.
  - by apply safe_mul_s_typed.
  - by apply safe_div_s_typed.
  - by apply safe_mod_s_typed.
  - rewrite safe_neg_s_spec by done. cbn [fst]. destruct (fits_s _) eqn:E; [by apply fits_s_ok|done].
  - rewrite safe_abs_s_spec by done. cbn [fst]. destruct (fits_s _) eqn:E; [by apply fits_s_ok|done].
  - by apply safe_muldiv_s_typed.
  - by apply safe_div_round_up_s_typed.
  - rewrite safe_add_u_spec. apply wrap_typed.
  - apply wrap_typed.
  - rewrite safe_mul_u_spec. apply wrap_typed.
  - unfold safe_div_u. destruct (Z.eqb_spec b 0); [apply Hm|]. by apply div_typed.
  - unfold safe_mod_u. destruct (Z.eqb_spec b 0); [apply Hm|]. cbn [negb fst].
    unfold is_u in *. pose proof (Z.mod_pos_bound a b ltac:(lia)). lia.
  - unfold safe_neg_u. case_match; [done|]. apply wrap_typed.
  - done.
  - by apply safe_muldiv_u_typed.
  - rewrite div_round_up_u_spec by done. destruct (Z.eqb_spec b 0); [destruct (a =? 0); apply Hm|].
    apply ceiling_typed; [done..|]. unfold is_u in Hb. lia.
Qed.
End Width.

(** ** At the width of an [int] *)

Lemma safe_math_checked_witness :
  safe_add_s 32 2147483647 1 = checked_s 32 2147483648 /\ 2000000000 = Z.quot (1250000000 * 8) 5.
Proof.
  split.
  - apply (proj1 (proj1 (safe_math_checked 32 eq_refl 2147483647 1 0) ltac:(done) ltac:(done))).
  - apply (proj1 (safe_math_checked 32 eq_refl 1250000000 8 5) ltac:(done) ltac:(done)); done.
Defined.

Lemma portable_equivalent_witness :
  portable_add_s 32 (-2147483648) (-1) = Ok (safe_add_s 32 (-2147483648) (-1))
  /\ portable_mul_u 32 65536 65536 = safe_mul_u 32 65536 65536.
Proof.
  split.
  - apply (proj1 (proj1 (portable_equivalent 32 eq_refl (-2147483648) (-1)) ltac:(done) ltac:(done))).
  - apply (proj2 (portable_equivalent 32 eq_refl 65536 65536) ltac:(done) ltac:(done)).
Defined.

Lemma safe_math_typed_witness : is_s 32 (fst (safe_muldiv_s 32 2147483647 2147483647 (-1))).
Proof.
  pose proof (proj1 (safe_math_typed 32 eq_refl 2147483647 2147483647 (-1)) ltac:(done) ltac:(done) ltac:(done)) as H.
  rewrite Forall_forall in H. apply H. by do 7 right; left.
Defined.

(** The least [int] as a product. *)
Lemma portable_mul_least :
  portable_mul_s 32 2 (-1073741824) = Ok (-2147483648, true) /\ safe_mul_s 32 2 (-1073741824) = (-2147483648, false).
Proof. done. Qed.

(** With operands of opposite signs the result is not rounded up, but one more. *)
Lemma round_up_opposite : safe_div_round_up_s 32 (-3) 2 = (0, false) /\ ceiling (-3) 2 = -1.
Proof. done. Qed.
End SafeMath.
