(* ===== verification/OsslTime.v ===== *)
(** * Times

    include/internal/time.h: times in nanoseconds, on the checked arithmetic of
    SafeMath.v, as the timers of DTLS use them. *)

From stdpp Require Import prelude.
From Stdlib Require Import ZArith Lia ZifyBool.
From S2P Require Import Prelude SafeMath.

Local Open Scope Z_scope.

Module OsslTime.
Import SafeMath.

(** Ticks, a [uint64_t]. *)
Abbreviation OSSL_TIME := Z.

Abbreviation OSSL_TIME_SECOND := (1000000000)%Z.
Abbreviation OSSL_TIME_MS := (1000000)%Z.
Abbreviation OSSL_TIME_US := (1000)%Z.

Abbreviation ossl_ms2time ms := (wrap64 (ms * OSSL_TIME_MS))%Z.
Abbreviation ossl_us2time us := (wrap64 (us * OSSL_TIME_US))%Z.

Abbreviation ossl_time_zero := (0)%Z.
Abbreviation ossl_time_infinite := SIZE_MAX.

(** [OSSL_SAFE_MATH_UNSIGNED(time, uint64_t)]. *)
Abbreviation safe_add_time := (safe_add_u 64).
Abbreviation safe_sub_time := (safe_sub_u 64).
Abbreviation safe_mul_time := (safe_mul_u 64).
Abbreviation safe_div_time := (safe_div_u 64).
Abbreviation safe_muldiv_time := (safe_muldiv_u 64).

Record timeval : Type := mkTIMEVAL { tv_sec : Z; tv_usec : Z }.

Definition ossl_time_to_timeval (t : OSSL_TIME) : timeval :=
  let '(r, err) := safe_add_time t (OSSL_TIME_US - 1) in
  let t := if err : bool then ossl_time_infinite else r in
  mkTIMEVAL (t / OSSL_TIME_SECOND) (t `mod` OSSL_TIME_SECOND / OSSL_TIME_US).

Definition ossl_time_from_timeval (tv : timeval) : OSSL_TIME :=
  if tv_sec tv <? 0 then ossl_time_zero
  else wrap64 (tv_sec tv * OSSL_TIME_SECOND + tv_usec tv * OSSL_TIME_US).

Definition ossl_time_to_time_t (t : OSSL_TIME) : Z := t / OSSL_TIME_SECOND.
Definition ossl_time_from_time_t (t : Z) : OSSL_TIME := wrap64 (t * OSSL_TIME_SECOND).

Definition ossl_time_compare (a b : OSSL_TIME) : Z := if b <? a then 1 else if a <? b then -1 else 0.
Definition ossl_time_is_zero (t : OSSL_TIME) : bool := ossl_time_compare t ossl_time_zero =? 0.
Definition ossl_time_is_infinite (t : OSSL_TIME) : bool := ossl_time_compare t ossl_time_infinite =? 0.

Definition ossl_time_add (a b : OSSL_TIME) : OSSL_TIME :=
  let '(r, err) := safe_add_time a b in if err : bool then ossl_time_infinite else r.
Definition ossl_time_subtract (a b : OSSL_TIME) : OSSL_TIME :=
  let '(r, err) := safe_sub_time a b in if err : bool then ossl_time_zero else r.
Definition ossl_time_abs_difference (a b : OSSL_TIME) : OSSL_TIME :=
  if b <? a then ossl_time_subtract a b else ossl_time_subtract b a.
Definition ossl_time_multiply (a : OSSL_TIME) (b : Z) : OSSL_TIME :=
  let '(r, err) := safe_mul_time a b in if err : bool then ossl_time_infinite else r.
Definition ossl_time_divide (a : OSSL_TIME) (b : Z) : OSSL_TIME :=
  let '(r, err) := safe_div_time a b in if err : bool then ossl_time_zero else r.
Definition ossl_time_muldiv (a : OSSL_TIME) (b c : Z) : OSSL_TIME :=
  let '(r, err) := safe_muldiv_time a b c in if err : bool then ossl_time_zero else r.
Definition ossl_time_max (a b : OSSL_TIME) : OSSL_TIME := if b <? a then a else b.
Definition ossl_time_min (a b : OSSL_TIME) : OSSL_TIME := if a <? b then a else b.

(** ** Saturation *)

Definition is_time (t : OSSL_TIME) : Prop := 0 <= t <= SIZE_MAX.

Lemma is_time_u t : is_time t <-> is_u 64 t.
Proof. done. Qed.

Lemma add_spec a b : is_time a -> is_time b -> ossl_time_add a b = Z.min (a + b) SIZE_MAX.
Proof.
  intros Ha Hb. unfold ossl_time_add. rewrite safe_add_u_spec by lia. destruct (checked_u 64 (a + b)) as [r []] eqn:E.
  - unfold checked_u in E. injection E as _ E. apply negb_true_iff in E. unfold fits_u in E. change (MAXU 64) with SIZE_MAX in E.
    unfold is_time in *. lia.
  - apply checked_u_ok in E as [-> [_ H]]. change (MAXU 64) with SIZE_MAX in H. lia.
Qed.

Lemma multiply_spec a b : is_time a -> is_time b -> ossl_time_multiply a b = Z.min (a * b) SIZE_MAX.
Proof.
  intros Ha Hb. unfold ossl_time_multiply. rewrite safe_mul_u_spec by lia. destruct (checked_u 64 (a * b)) as [r []] eqn:E.
  - unfold checked_u in E. injection E as _ E. apply negb_true_iff in E. unfold fits_u in E. change (MAXU 64) with SIZE_MAX in E.
    unfold is_time in *. assert (0 <= a * b) by nia. lia.
  - apply checked_u_ok in E as [-> [_ H]]. change (MAXU 64) with SIZE_MAX in H. lia.
Qed.

Lemma subtract_spec a b : is_time a -> is_time b -> ossl_time_subtract a b = Z.max (a - b) 0.
Proof.
  intros Ha Hb. unfold ossl_time_subtract, safe_sub_u, is_time in *. destruct (a <? b) eqn:E; [lia|].
  rewrite wrap_u; [lia|]. unfold is_u. change (MAXU 64) with SIZE_MAX. lia.
Qed.

(** Arithmetic on times saturates.  Sums and products that are too large are
    the infinite time, differences below zero are zero, and otherwise the
    results are exact; so they are monotone, and a deadline never lies in the
    past because of an overflow. *)
Lemma time_saturates (a b : OSSL_TIME) (Ha : is_time a) (Hb : is_time b) :
  ossl_time_add a b = Z.min (a + b) ossl_time_infinite
  /\ ossl_time_subtract a b = Z.max (a - b) ossl_time_zero
  /\ ossl_time_multiply a b = Z.min (a * b) ossl_time_infinite
  /\ ossl_time_abs_difference a b = Z.abs (a - b)
  /\ ossl_time_divide a b = (if b =? 0 then ossl_time_zero else a / b)
  /\ ossl_time_max a b = Z.max a b /\ ossl_time_min a b = Z.min a b.
Proof.
  split; [by apply add_spec|]. split; [by apply subtract_spec|]. split; [by apply multiply_spec|]. split.
  - unfold ossl_time_abs_difference. case_match; zbool; rewrite subtract_spec by done; lia.
  - split; [unfold ossl_time_divide, safe_div_u; by destruct (b =? 0)|].
    unfold ossl_time_max, ossl_time_min. split; case_match; lia.
Qed.

(** ** Conversions *)

Lemma to_timeval_exact t : 0 <= t -> t + 999 <= SIZE_MAX ->
  ossl_time_to_timeval t
  = mkTIMEVAL ((t + 999) / OSSL_TIME_SECOND) ((t + 999) `mod` OSSL_TIME_SECOND / OSSL_TIME_US).
Proof.
  intros Ht Hm. unfold ossl_time_to_timeval. rewrite safe_add_u_spec. change (1000 - 1) with 999.
  destruct (checked_u 64 (t + 999)) as [r []] eqn:E; [|by apply checked_u_ok in E as [-> _]].
  unfold checked_u, fits_u in E. injection E as _ E. change (MAXU 64) with SIZE_MAX in E. lia.
Qed.

Lemma thousand_split u : u / 1000000000 * 1000000000 + u `mod` 1000000000 / 1000 * 1000 = 1000 * (u / 1000).
Proof.
  pose proof (Z.div_mod u 1000000000 ltac:(lia)) as E. pose proof (Z.mod_pos_bound u 1000000000 ltac:(lia)).
  rewrite E at 3. replace (1000000000 * (u / 1000000000)) with (1000000 * (u / 1000000000) * 1000) by ring.
  rewrite Z.div_add_l by lia. ring.
Qed.

Definition valid_timeval (tv : timeval) : Prop :=
  0 <= tv_sec tv /\ 0 <= tv_usec tv < 1000000 /\ tv_sec tv * OSSL_TIME_SECOND + tv_usec tv * OSSL_TIME_US <= SIZE_MAX.

(** Times become [struct timeval]s rounded up to microseconds.  A time that
    is not among the last microsecond of the range comes back from a [timeval]
    rounded up, so a time that is left does not become zero; a [timeval] comes
    back unchanged. *)
Lemma timeval_roundtrip :
  (forall t, is_time t -> t + 999 <= SIZE_MAX ->
     ossl_time_from_timeval (ossl_time_to_timeval t) = OSSL_TIME_US * ceiling t OSSL_TIME_US)
  /\ (forall tv, valid_timeval tv -> tv_sec tv * OSSL_TIME_SECOND + tv_usec tv * OSSL_TIME_US + 999 <= SIZE_MAX ->
     ossl_time_to_timeval (ossl_time_from_timeval tv) = tv).
Proof.
  split.
  - intros t Ht Hm. rewrite to_timeval_exact by (unfold is_time in *; lia).
    unfold ossl_time_from_timeval. cbn [tv_sec tv_usec]. destruct (ceiling_pos t 1000 ltac:(lia)) as [-> _].
    replace (t + 1000 - 1) with (t + 999) by lia. set (u := t + 999). assert (Hu : 0 <= u <= SIZE_MAX) by (unfold u, is_time in *; lia).
    pose proof (Z.div_pos u 1000000000). rewrite (proj2 (Z.ltb_ge _ _)) by lia. rewrite thousand_split.
    pose proof (Z.mul_div_le u 1000 ltac:(lia)). pose proof (Z.div_pos u 1000). apply wrap64_small. lia.
  - intros [sec us] (Hs & Hu & Hle) Hm. cbn [tv_sec tv_usec] in *. unfold ossl_time_from_timeval. cbn [tv_sec tv_usec].
    rewrite (proj2 (Z.ltb_ge _ _)), wrap64_small, to_timeval_exact by lia. f_equal.
    + symmetry. apply (Z.div_unique _ _ _ (us * 1000 + 999)); lia.
    + rewrite <- (Z.mod_unique (sec * 1000000000 + us * 1000 + 999) 1000000000 sec (us * 1000 + 999)) by lia.
      symmetry. apply (Z.div_unique _ _ _ 999); lia.
Qed.

(** An overflow of [ossl_time_muldiv] gives zero, not the infinite time. *)
Lemma muldiv_not_saturated : ossl_time_muldiv ossl_time_infinite 2 1 = ossl_time_zero.
Proof. done. Qed.

Lemma time_saturates_witness : ossl_time_add ossl_time_infinite 1 = ossl_time_infinite.
Proof. apply (time_saturates ossl_time_infinite 1); done. Defined.
End OsslTime.
