(* ===== verification/Stack.v ===== *)
(** * Stacks

    crypto/stack/stack.c: growable arrays of pointers, used for every list of
    objects in the library, with the binary search of crypto/bsearch.c. *)

From stdpp Require Import prelude list sorting.
From Stdlib Require Import ZArith Lia.
From S2P Require Import Prelude SafeMath.

Local Open Scope Z_scope.
Local Open Scope st_scope.

(** [OSSL_SAFE_MATH_SIGNED(int, int)]. *)
Definition safe_muldiv_int : Z -> Z -> Z -> Z * bool := SafeMath.safe_muldiv_s 32.

(** ** Binary search *)

Abbreviation OSSL_BSEARCH_VALUE_ON_NOMATCH := (1)%Z.
Abbreviation OSSL_BSEARCH_FIRST_VALUE_ON_MATCH := (2)%Z.

(** The comparisons made: [key] is compared with the element at an index, where
    [None] is an access outside the array. *)
Section BSearch.
Context (cmp : Z -> option Z).

(** The first loop, from the last probe [i] with result [c]; [Fault] when [l + h]
    overflows, [Ok None] when the fuel is used up. *)
Fixpoint bsearch_loop (fuel : nat) (l h i c : Z) : ret (option (Z * Z)) :=
  if h <=? l then Ok (Some (i, c))
  else match fuel with
  | O => Ok None
  | S n =>
      if INT_MAX <? l + h then Fault
      else
        let i := (l + h) / 2 in
        match cmp i with
        | None => Fault
        | Some c => if c <? 0 then bsearch_loop n l i i c
                    else if 0 <? c then bsearch_loop n (i + 1) h i c
                    else Ok (Some (i, c))
        end
  end.

(** Down to the first match. *)
Fixpoint first_match (fuel : nat) (i : Z) : option Z :=
  match fuel with
  | O => Some i
  | S n => match cmp (i - 1) with
           | None => None
           | Some c => if c =? 0 then first_match n (i - 1) else Some i
           end
  end.

(** The index of the element returned, [Ok None] for [NULL]. *)
Definition ossl_bsearch (num flags : Z) : ret (option Z) :=
  if num =? 0 then Ok None
  else match bsearch_loop (Z.to_nat num) 0 num 0 0 with
  | Ok (Some (i, c)) =>
      if negb (c =? 0) && negb (has flags OSSL_BSEARCH_VALUE_ON_NOMATCH) then Ok None
      else if (c =? 0) && has flags OSSL_BSEARCH_FIRST_VALUE_ON_MATCH
      then match first_match (Z.to_nat i) i with Some i => Ok (Some i) | None => Fault end
      else Ok (Some i)
  | Ok None => Fault
  | Fail => Fail
  | Fault => Fault
  end.
End BSearch.

(** ** The stack *)

Abbreviation min_nodes := (4)%Z.
Abbreviation max_nodes := (INT_MAX)%Z.

(** Arrays of pointers as the allocator hands them out; a pointer is a number,
    [0] is [NULL].  [struct_ok]: there is memory for the structure itself. *)
Class PtrAlloc : Type := {
  ptr_malloc : Z -> option (list Z);
  ptr_realloc : list Z -> Z -> option (list Z);
  struct_ok : bool
}.

Class PtrAllocOk (P : PtrAlloc) : Prop := {
  ptr_malloc_length n d : 0 < n -> ptr_malloc n = Some d -> Z.of_nat (length d) = n;
  ptr_realloc_keeps old n d : 0 < n -> ptr_realloc old n = Some d ->
    Z.of_nat (length d) = n
    /\ take (length old `min` Z.to_nat n) d = take (length old `min` Z.to_nat n) old
}.

Definition ptr_zalloc `{PtrAlloc} (n : Z) : option (list Z) :=
  match ptr_malloc n with Some d => Some (replicate (length d) 0) | None => None end.

Section Stack.
(** Comparison functions are known by name. *)
Context {F : Type} `{EqDecision F} (cmp_call : F -> Z -> Z -> Z).
Context `{PtrAlloc}.
Context (qsort : (Z -> Z -> Z) -> list Z -> list Z).

Record STACK : Type := mkSTACK {
  num : Z;
  data : option (list Z);
  sorted : bool;
  num_alloc : Z;
  comp : option F
}.

Definition OPENSSL_sk_set_cmp_func (c : option F) (sk : STACK) : option F * STACK :=
  (comp sk, mkSTACK (num sk) (data sk) (if decide (comp sk = c) then sorted sk else false)
              (num_alloc sk) c).

(** [None] when the fuel is used up. *)
Fixpoint compute_growth (fuel : nat) (target current : Z) : option Z :=
  if target <=? current then Some current
  else match fuel with
  | O => None
  | S n =>
      if max_nodes <=? current then Some 0
      else
        let '(c, err) := safe_muldiv_int current 8 5 in
        if err then Some 0
        else compute_growth n target (if max_nodes <=? c then max_nodes else c)
  end.

Definition sk_reserve (n : Z) (exact : bool) : ST STACK unit := fun st =>
  if max_nodes - num st <? n then (Fail, st)
  else
    let na := if num st + n <? min_nodes then min_nodes else num st + n in
    match data st with
    | None =>
        match ptr_zalloc na with
        | None => (Fail, st)
        | Some d => (Ok tt, mkSTACK (num st) (Some d) (sorted st) na (comp st))
        end
    | Some old =>
        let grow (na : Z) :=
          match ptr_realloc old na with
          | None => (Fail, st)
          | Some d => (Ok tt, mkSTACK (num st) (Some d) (sorted st) na (comp st))
          end in
        if exact then (if na =? num_alloc st then (Ok tt, st) else grow na)
        else if na <=? num_alloc st then (Ok tt, st)
        else match compute_growth (Z.to_nat (na - num_alloc st)) na (num_alloc st) with
        | None => (Fault, st)
        | Some na => if na =? 0 then (Fail, st) else grow na
        end
    end.

Definition OPENSSL_sk_new_reserve (c : option F) (n : Z) : option STACK :=
  if negb struct_ok then None
  else
    let st := mkSTACK 0 None false 0 c in
    if n <=? 0 then Some st
    else match sk_reserve n true st with (Ok _, st) => Some st | _ => None end.

Definition OPENSSL_sk_reserve (n : Z) : ST STACK unit := fun st =>
  if n <? 0 then (Ok tt, st) else sk_reserve n true st.

(** Stores of pointers: [None] outside the array. *)
Definition ptr_store (i : Z) (x : Z) (d : list Z) : option (list Z) :=
  if (0 <=? i) && (i <? Z.of_nat (length d)) then Some (<[Z.to_nat i := x]> d) else None.

(** [memmove(&d[dst], &d[src], n)]. *)
Definition ptr_move (dst src n : Z) (d : list Z) : option (list Z) :=
  match mem_read d src n with Some xs => mem_write d dst xs | None => None end.

Definition OPENSSL_sk_insert (x loc : Z) : ST STACK Z := fun st =>
  if num st =? max_nodes then (Fail, st)
  else match sk_reserve 1 false st with
  | (Ok _, st) =>
      let d := match data st with
               | None => None
               | Some d =>
                   if (num st <=? loc) || (loc <? 0) then ptr_store (num st) x d
                   else match ptr_move (loc + 1) loc (num st - loc) d with
                        | Some d => ptr_store loc x d
                        | None => None
                        end
               end in
      match d with
      | None => (Fault, st)
      | Some d => (Ok (num st + 1), mkSTACK (num st + 1) (Some d) false (num_alloc st) (comp st))
      end
  | (Fail, st) => (Fail, st)
  | (Fault, st) => (Fault, st)
  end.

Definition internal_delete (loc : Z) : ST STACK Z := fun st =>
  match data st with
  | None => (Fault, st)
  | Some d =>
      match mem_get d loc,
            (if loc =? num st - 1 then Some d else ptr_move loc (loc + 1) (num st - loc - 1) d) with
      | Some x, Some d => (Ok x, mkSTACK (num st - 1) (Some d) (sorted st) (num_alloc st) (comp st))
      | _, _ => (Fault, st)
      end
  end.

(** A result [0] is [NULL] in the functions that follow. *)
Fixpoint delete_ptr_loop (n : nat) (i p : Z) : ST STACK Z := fun st =>
  match n with
  | O => (Ok 0, st)
  | S n => match data st with
           | None => (Fault, st)
           | Some d => match mem_get d i with
                       | None => (Fault, st)
                       | Some x => if x =? p then internal_delete i st else delete_ptr_loop n (i + 1) p st
                       end
           end
  end.

Definition OPENSSL_sk_delete_ptr (p : Z) : ST STACK Z := fun st =>
  delete_ptr_loop (Z.to_nat (num st)) 0 p st.

Definition OPENSSL_sk_delete (loc : Z) : ST STACK Z := fun st =>
  if (loc <? 0) || (num st <=? loc) then (Ok 0, st) else internal_delete loc st.

(** *** Searching *)

Definition cmp_at (f : F) (x : Z) (d : list Z) (i : Z) : option Z :=
  match mem_get d i with Some y => Some (cmp_call f x y) | None => None end.

(** Without a comparison function: the first equal pointer. *)
Fixpoint find_ptr (n : nat) (i x : Z) (d : list Z) : ret Z :=
  match n with
  | O => Ok (-1)
  | S n => match mem_get d i with
           | None => Fault
           | Some y => if y =? x then Ok i else find_ptr n (i + 1) x d
           end
  end.

(** Unsorted: the first match in [res] and the count in [pnum], where [only_one]
    ends the search at the first. *)
Fixpoint find_unsorted (n : nat) (i : Z) (f : F) (x : Z) (d : list Z) (only_one : bool) (res pnum : Z) :
  ret (Z * Z) :=
  match n with
  | O => Ok (res, if res =? -1 then 0 else pnum)
  | S n =>
      match cmp_at f x d i with
      | None => Fault
      | Some c =>
          if c =? 0 then
            let res := if res =? -1 then i else res in
            if only_one then Ok (i, pnum + 1) else find_unsorted n (i + 1) f x d only_one res (pnum + 1)
          else find_unsorted n (i + 1) f x d only_one res pnum
      end
  end.

(** The matches from index [i] on, at most [n]. *)
Fixpoint count_matches (n : nat) (i : Z) (f : F) (x : Z) (d : list Z) : ret Z :=
  match n with
  | O => Ok 0
  | S n => match cmp_at f x d i with
           | None => Fault
           | Some c => if c =? 0 then match count_matches n (i + 1) f x d with
                                      | Ok k => Ok (k + 1) | e => e end
                       else Ok 0
           end
  end.

(** [pnum] is [Some v] when the caller passes a pointer to a variable with value
    [v]; the result is the index and the variable afterwards. *)
Definition internal_find (x ret_val_options : Z) (pnum : option Z) (st : STACK) : ret (Z * option Z) :=
  let put (v : Z) : option Z := match pnum with Some _ => Some v | None => None end in
  if num st =? 0 then Ok (-1, pnum)
  else match data st with
  | None => Fault
  | Some d =>
      match comp st with
      | None =>
          match find_ptr (Z.to_nat (num st)) 0 x d with
          | Ok i => Ok (i, put (if i =? -1 then 0 else 1))
          | _ => Fault
          end
      | Some f =>
          if x =? 0 then Ok (-1, pnum)
          else if negb (sorted st) then
            match find_unsorted (Z.to_nat (num st)) 0 f x d (bool_decide (pnum = None)) (-1) (default 0 pnum) with
            | Ok (res, v) => Ok (res, put v)
            | _ => Fault
            end
          else
            let flags := match pnum with
                         | Some _ => Z.lor ret_val_options OSSL_BSEARCH_FIRST_VALUE_ON_MATCH
                         | None => ret_val_options
                         end in
            match ossl_bsearch (cmp_at f x d) (num st) flags with
            | Ok None => Ok (-1, put 0)
            | Ok (Some i) =>
                match pnum with
                | None => Ok (i, None)
                | Some _ => match count_matches (Z.to_nat (num st - i)) i f x d with
                            | Ok k => Ok (i, Some k)
                            | _ => Fault
                            end
                end
            | _ => Fault
            end
      end
  end.

Definition OPENSSL_sk_find (x : Z) (st : STACK) : ret (Z * option Z) :=
  internal_find x OSSL_BSEARCH_FIRST_VALUE_ON_MATCH None st.
Definition OPENSSL_sk_find_ex (x : Z) (st : STACK) : ret (Z * option Z) :=
  internal_find x OSSL_BSEARCH_VALUE_ON_NOMATCH None st.
Definition OPENSSL_sk_find_all (x pnum : Z) (st : STACK) : ret (Z * option Z) :=
  internal_find x OSSL_BSEARCH_FIRST_VALUE_ON_MATCH (Some pnum) st.

(** *** The ends and the elements *)

Definition OPENSSL_sk_push (x : Z) : ST STACK Z := fun st => OPENSSL_sk_insert x (num st) st.
Definition OPENSSL_sk_unshift (x : Z) : ST STACK Z := OPENSSL_sk_insert x 0.
Definition OPENSSL_sk_shift : ST STACK Z := fun st =>
  if num st =? 0 then (Ok 0, st) else internal_delete 0 st.
Definition OPENSSL_sk_pop : ST STACK Z := fun st =>
  if num st =? 0 then (Ok 0, st) else internal_delete (num st - 1) st.

Definition OPENSSL_sk_zero : ST STACK unit := fun st =>
  if num st =? 0 then (Ok tt, st)
  else match data st with
  | None => (Fault, st)
  | Some d => match mem_write d 0 (replicate (Z.to_nat (num st)) 0) with
              | None => (Fault, st)
              | Some d => (Ok tt, mkSTACK 0 (Some d) (sorted st) (num_alloc st) (comp st))
              end
  end.

Definition OPENSSL_sk_value (i : Z) (st : STACK) : ret Z :=
  if (i <? 0) || (num st <=? i) then Ok 0
  else match data st with
  | None => Fault
  | Some d => match mem_get d i with Some x => Ok x | None => Fault end
  end.

Definition OPENSSL_sk_set (i x : Z) : ST STACK Z := fun st =>
  if (i <? 0) || (num st <=? i) then (Ok 0, st)
  else match data st with
  | None => (Fault, st)
  | Some d => match ptr_store i x d with
              | None => (Fault, st)
              | Some d => (Ok x, mkSTACK (num st) (Some d) false (num_alloc st) (comp st))
              end
  end.

Definition OPENSSL_sk_sort : ST STACK unit := fun st =>
  match comp st with
  | None => (Ok tt, st)
  | Some f =>
      if sorted st then (Ok tt, st)
      else if num st <=? 1 then (Ok tt, mkSTACK (num st) (data st) true (num_alloc st) (comp st))
      else match data st with
      | None => (Fault, st)
      | Some d =>
          match mem_read d 0 (num st) with
          | None => (Fault, st)
          | Some xs =>
              (Ok tt, mkSTACK (num st) (Some (qsort (cmp_call f) xs ++ drop (Z.to_nat (num st)) d))
                        true (num_alloc st) (comp st))
          end
      end
  end.

(** *** Copies *)

Definition OPENSSL_sk_dup (sk : STACK) : ret (option STACK) :=
  if negb struct_ok then Ok None
  else if num sk =? 0 then Ok (Some (mkSTACK (num sk) None (sorted sk) 0 (comp sk)))
  else match ptr_malloc (num_alloc sk), data sk with
  | None, _ => Ok None
  | Some new, None => Fault
  | Some new, Some d =>
      match mem_read d 0 (num sk) with
      | None => Fault
      | Some xs => match mem_write new 0 xs with
                   | None => Fault
                   | Some new => Ok (Some (mkSTACK (num sk) (Some new) (sorted sk) (num_alloc sk) (comp sk)))
                   end
      end
  end.

(** The elements copied so far are in [acc], last first; on failure the copies
    made are freed from the last to the first. *)
Fixpoint copy_elements (copy_func : Z -> Z) (xs acc : list Z) : list Z + list Z :=
  match xs with
  | [] => inl (rev acc)
  | x :: xs =>
      if x =? 0 then copy_elements copy_func xs (0 :: acc)
      else let y := copy_func x in
           if y =? 0 then inr (filter (fun y => y <> 0) acc) else copy_elements copy_func xs (y :: acc)
  end.

(** The copy, and what [free_func] was called on. *)
Definition OPENSSL_sk_deep_copy (copy_func : Z -> Z) (sk : STACK) : ret (option STACK * list Z) :=
  if negb struct_ok then Ok (None, [])
  else if num sk =? 0 then Ok (Some (mkSTACK (num sk) None (sorted sk) 0 (comp sk)), [])
  else
    let na := if min_nodes <? num sk then num sk else min_nodes in
    match ptr_zalloc na, data sk with
    | None, _ => Ok (None, [])
    | Some _, None => Fault
    | Some new, Some d =>
        match mem_read d 0 (num sk) with
        | None => Fault
        | Some xs =>
            match copy_elements copy_func xs [] with
            | inr freed => Ok (None, freed)
            | inl ys => match mem_write new 0 ys with
                        | None => Fault
                        | Some new => Ok (Some (mkSTACK (num sk) (Some new) (sorted sk) na (comp sk)), [])
                        end
            end
        end
    end.

(** What [func] is called on. *)
Definition OPENSSL_sk_pop_free (st : STACK) : ret (list Z) :=
  if num st =? 0 then Ok []
  else match data st with
  | None => Fault
  | Some d => match mem_read d 0 (num st) with
              | None => Fault
              | Some xs => Ok (filter (fun x => x <> 0) xs)
              end
  end.
End Stack.
Arguments STACK : clear implicits.

(** ** Growth *)

(** Multiplying by 8/5 either is reported to overflow or is exact. *)
Lemma muldiv_growth c : min_nodes <= c <= INT_MAX ->
  safe_muldiv_int c 8 5 = (c * 8 / 5, false) \/ snd (safe_muldiv_int c 8 5) = true.
Proof.
  unfold INT_MAX, safe_muldiv_int. intros Hc.
  destruct (SafeMath.safe_muldiv_s 32 c 8 5) as [r [|]] eqn:E; [by right|left].
  apply SafeMath.safe_muldiv_s_exact in E as (_ & -> & _); [by rewrite Z.quot_div_nonneg by lia|done| |done|done].
  unfold SafeMath.is_s, SafeMath.MINS, SafeMath.MAXS. lia.
Qed.

Lemma growth_spec fuel : forall target current, min_nodes <= current <= INT_MAX -> target <= INT_MAX ->
  target - current <= Z.of_nat fuel ->
  exists r, compute_growth fuel target current = Some r
    /\ (r = 0 \/ (target <= r <= INT_MAX /\ current <= r)).
Proof.
  induction fuel as [|n IH]; intros target current Hc Ht Hf; simpl;
    (destruct (target <=? current) eqn:E; zbool; [exists current; split; [done|]; right; lia|]); [simpl in Hf; lia|].
  rewrite (proj2 (Z.leb_gt _ _)) by lia.
  destruct (muldiv_growth current Hc) as [Em|Em].
  2: { destruct (safe_muldiv_int current 8 5) as [v e]. simpl in Em. subst e. exists 0. auto. }
  rewrite Em.
  assert (current < current * 8 / 5).
  { pose proof (Z.div_mod (current * 8) 5 ltac:(lia)). pose proof (Z.mod_pos_bound (current * 8) 5 ltac:(lia)). lia. }
  set (c := if INT_MAX <=? current * 8 / 5 then INT_MAX else current * 8 / 5).
  assert (current < c <= INT_MAX) by (unfold c; destruct (_ <=? _) eqn:?; zbool; lia).
  destruct (IH target c) as (r & Er & Hr); [lia|lia|lia|].
  exists r. split; [done|]. destruct Hr as [|[? ?]]; [by left|right; lia].
Qed.

(** ** Binary search *)

(** An array of [n] elements that the key is compared with, in order: above the
    key's place the comparison is negative, below it positive. *)
Record ordered (cmp : Z -> option Z) (n : Z) : Prop := {
  ord_get i : 0 <= i < n -> exists c, cmp i = Some c;
  ord_pos i j c d : 0 <= i < j -> j < n -> cmp i = Some c -> cmp j = Some d -> 0 < d -> 0 < c;
  ord_neg i j c d : 0 <= i < j -> j < n -> cmp i = Some c -> cmp j = Some d -> c < 0 -> d < 0
}.

Definition matches_at (cmp : Z -> option Z) (i : Z) : Prop := cmp i = Some 0.

Lemma bsearch_loop_spec cmp n (Ho : ordered cmp n) (Hn : n <= 2 ^ 30) fuel : forall l h i c,
  0 <= l -> l <= h <= n -> h - l <= Z.of_nat fuel ->
  (forall k d, 0 <= k < l -> cmp k = Some d -> 0 < d) ->
  (forall k d, h <= k < n -> cmp k = Some d -> d < 0) -> (l < h \/ c <> 0) ->
  exists i' c', bsearch_loop cmp fuel l h i c = Ok (Some (i', c'))
    /\ ((c' = 0 /\ l <= i' < h /\ matches_at cmp i')
        \/ (c' <> 0 /\ (l < h -> 0 <= i' < n) /\ (l = h -> i' = i)
            /\ forall k, 0 <= k < n -> ~ matches_at cmp k)).
Proof.
  assert (Hend : forall l h i c, l = h -> 0 <= l <= n -> c <> 0 ->
    (forall k d, 0 <= k < l -> cmp k = Some d -> 0 < d) ->
    (forall k d, h <= k < n -> cmp k = Some d -> d < 0) ->
    c <> 0 /\ (l < h -> 0 <= i < n) /\ (l = h -> i = i) /\ forall k, 0 <= k < n -> ~ matches_at cmp k).
  { intros l h i c -> Hl Hc Hlo Hhi. split_and!; try done; [lia|]. intros k Hk Hm.
    destruct (decide (k < h)); [specialize (Hlo k 0 ltac:(lia) Hm)|specialize (Hhi k 0 ltac:(lia) Hm)]; lia. }
  unfold matches_at in *. induction fuel as [|f IH]; intros l h i c Hl Hh Hf Hlo Hhi Hc; simpl.
  all: destruct (h <=? l) eqn:E; zbool; [exists i, c; split; [done|]; right; apply Hend; (done || lia)|].
  { simpl in Hf. lia. }
  rewrite (proj2 (Z.ltb_ge _ _)) by (unfold INT_MAX; lia).
  set (m := (l + h) / 2). assert (Hm : l <= m < h).
  { unfold m. pose proof (Z.div_mod (l + h) 2 ltac:(lia)). pose proof (Z.mod_pos_bound (l + h) 2 ltac:(lia)). lia. }
  destruct (ord_get _ _ Ho m) as [c' Ec]; [lia|]. rewrite Ec.
  destruct (c' <? 0) eqn:E1; zbool; [|destruct (0 <? c') eqn:E2; zbool].
  - destruct (IH l m m c') as (i' & c2 & E' & Hres); try done; try lia.
    + intros k d Hk Hd. destruct (decide (k = m)) as [->|]; [congruence|].
      apply (ord_neg _ _ Ho m k c' d); (done || lia).
    + exists i', c2. split; [done|]. destruct Hres as [(?&?&?)|(?&Hi1&Hi2&?)]; [left; split_and!; (done || lia)|].
      right. split_and!; try done; [|lia]. intros _. destruct (decide (l < m)); [auto|]. rewrite Hi2; lia.
  - destruct (IH (m + 1) h m c') as (i' & c2 & E' & Hres); try done; try lia.
    + intros k d Hk Hd. destruct (decide (k = m)) as [->|]; [congruence|].
      apply (ord_pos _ _ Ho k m d c'); (done || lia).
    + exists i', c2. split; [done|]. destruct Hres as [(?&?&?)|(?&Hi1&Hi2&?)]; [left; split_and!; (done || lia)|].
      right. split_and!; try done; [|lia]. intros _. destruct (decide (m + 1 < h)); [auto|]. rewrite Hi2; lia.
  - exists m, c'. split; [done|]. left. assert (c' = 0) as -> by lia. split_and!; (done || lia).
Qed.

Lemma first_match_spec cmp n (Ho : ordered cmp n) fuel : forall i, i = Z.of_nat fuel -> i < n -> matches_at cmp i ->
  exists j, first_match cmp fuel i = Some j /\ 0 <= j <= i /\ matches_at cmp j
    /\ forall k, 0 <= k < j -> ~ matches_at cmp k.
Proof.
  unfold matches_at. induction fuel as [|f IH]; intros i Hi Hn Hm; simpl.
  { exists i. split_and!; try done; lia. }
  destruct (ord_get _ _ Ho (i - 1)) as [c Ec]; [lia|]. rewrite Ec. destruct (c =? 0) eqn:E; zbool.
  - subst c. destruct (IH (i - 1)) as (j & E & Hj & Hmj & Hk); [lia|lia|done|].
    exists j. split_and!; try done; lia.
  - exists i. split_and!; try done; [lia..|]. intros k Hk Hmk.
    destruct (decide (k = i - 1)) as [->|]; [congruence|].
    assert (c < 0 \/ 0 < c) as [Hc|Hc] by lia.
    + pose proof (ord_neg _ _ Ho (i - 1) i c 0 ltac:(lia) ltac:(lia) Ec Hm Hc). lia.
    + pose proof (ord_pos _ _ Ho k (i - 1) 0 c ltac:(lia) ltac:(lia) Hmk Ec Hc). lia.
Qed.

(** The search finds the first match, and there is none if it finds nothing. *)
Lemma bsearch_first cmp n : ordered cmp n -> 0 <= n <= 2 ^ 30 ->
  (exists j, ossl_bsearch cmp n OSSL_BSEARCH_FIRST_VALUE_ON_MATCH = Ok (Some j)
     /\ 0 <= j < n /\ matches_at cmp j /\ forall k, 0 <= k < j -> ~ matches_at cmp k)
  \/ (ossl_bsearch cmp n OSSL_BSEARCH_FIRST_VALUE_ON_MATCH = Ok None
      /\ forall k, 0 <= k < n -> ~ matches_at cmp k).
Proof.
  intros Ho Hn. unfold ossl_bsearch. destruct (n =? 0) eqn:E; zbool; [right; split; [done|lia]|].
  destruct (bsearch_loop_spec cmp n Ho ltac:(lia) (Z.to_nat n) 0 n 0 0) as (i & c & -> & Hres); try lia.
  destruct Hres as [(-> & Hi & Hm)|(Hc & _ & _ & Hno)].
  - left. destruct (first_match_spec cmp n Ho (Z.to_nat i) i) as (j & -> & Hj & Hmj & Hk); [lia|lia|done|].
    exists j. split_and!; try done; lia.
  - right. rewrite (proj2 (Z.eqb_neq _ _)) by done. done.
Qed.

(** ** Invariant and contents *)

Section Proofs.
Context {F : Type} `{EqDecision F} (cmp_call : F -> Z -> Z -> Z).
Context `{P : PtrAlloc} {PO : PtrAllocOk P}.
Local Abbreviation STACK := (STACK F).

(** The count fits the array and both fit an [int]; an array has at least
    [min_nodes] slots. *)
Definition stack_wf (st : STACK) : Prop :=
  0 <= num st <= num_alloc st /\ num_alloc st <= INT_MAX
  /\ match data st with
     | None => num_alloc st = 0
     | Some d => Z.of_nat (length d) = num_alloc st /\ min_nodes <= num_alloc st
     end.

(** The abstraction: the list of elements. *)
Definition elems (st : STACK) : list Z :=
  match data st with None => [] | Some d => take (Z.to_nat (num st)) d end.

Lemma length_elems st : stack_wf st -> Z.of_nat (length (elems st)) = num st.
Proof.
  intros (Hn & _ & Hd). unfold elems. destruct (data st) as [d|]; [rewrite length_take; lia|simpl; lia].
Qed.

(** What reserving leaves as it was. *)
Definition reserved (n : Z) (st st' : STACK) : Prop :=
  stack_wf st' /\ elems st' = elems st /\ num st' = num st /\ sorted st' = sorted st
  /\ comp st' = comp st /\ num st + n <= num_alloc st' /\ data st' <> None.

Lemma reserve_grow n na old (st : STACK) : stack_wf st -> data st = Some old -> 0 <= n ->
  num st + n <= na <= INT_MAX -> min_nodes <= na ->
  (exists st', match ptr_realloc old na with
               | None => (Fail, st)
               | Some d => (Ok tt, mkSTACK (num st) (Some d) (sorted st) na (comp st))
               end = (Ok tt, st') /\ reserved n st st')
  \/ match ptr_realloc old na with
     | None => (Fail, st)
     | Some d => (Ok tt, mkSTACK (num st) (Some d) (sorted st) na (comp st))
     end = (Fail, st).
Proof.
  intros (Hn & Hi & Hd) Ed H0 Hna Hm. rewrite Ed in Hd.
  destruct (ptr_realloc old na) as [d|] eqn:E; [left|by right]. eexists. split; [done|].
  apply ptr_realloc_keeps in E as [Hl Hk]; [|lia].
  split; [|split; [|split_and!; simpl; (done || lia)]].
  - split_and!; simpl;lia.
  - unfold elems. simpl. rewrite Ed. apply (f_equal (take (Z.to_nat (num st)))) in Hk. by rewrite !take_take, !Nat.min_l in Hk by lia.
Qed.

Lemma sk_reserve_spec n exact (st : STACK) : stack_wf st -> 0 <= n ->
  (exists st', sk_reserve n exact st = (Ok tt, st') /\ reserved n st st')
  \/ sk_reserve n exact st = (Fail, st).
Proof.
  intros Hwf H0. pose proof Hwf as (Hn & Hi & Hd). unfold sk_reserve.
  destruct (max_nodes - num st <? n) eqn:Em; [by right|]. zbool.
  set (na := if num st + n <? min_nodes then min_nodes else num st + n).
  assert (Hna : num st + n <= na <= INT_MAX /\ min_nodes <= na).
  { unfold na in *. destruct (_ <? _) eqn:?; zbool; unfold INT_MAX in *; lia. }
  destruct Hna as [Hna Hmin]. destruct (data st) as [old|] eqn:Ed.
  - assert (Hg : forall na', num st + n <= na' <= INT_MAX -> min_nodes <= na' -> _) by
      exact (fun na' Ha Hb => reserve_grow n na' old st Hwf Ed H0 Ha Hb).
    assert (Hsame : num st + n <= num_alloc st -> reserved n st st).
    { intros. split; [done|]. split_and!; (done || lia || by rewrite Ed). }
    destruct exact.
    + destruct (na =? num_alloc st) eqn:Ee; zbool; [left; exists st; split; [done|apply Hsame; lia]|].
      by apply Hg.
    + destruct (na <=? num_alloc st) eqn:Ee; zbool; [left; exists st; split; [done|apply Hsame; lia]|].
      destruct (growth_spec (Z.to_nat (na - num_alloc st)) na (num_alloc st)) as (r & -> & Hr); [lia..|].
      destruct (r =? 0) eqn:Er; zbool; [by right|]. destruct Hr as [|[Hr1 Hr2]]; [done|]. apply Hg; lia.
  - unfold ptr_zalloc. destruct (ptr_malloc na) as [d|] eqn:E; [left|by right]. eexists. split; [done|].
    apply ptr_malloc_length in E; [|lia].
    assert (num st = 0) as E0 by lia. split; [|split; [|split_and!; simpl; (done || lia)]].
    + split_and!; simpl; rewrite ?length_replicate; (done || lia).
    + unfold elems. simpl. by rewrite Ed, E0.
Qed.

(** *** The operations on the list of elements *)

Definition insert_at (x loc : Z) (l : list Z) : list Z :=
  if (Z.of_nat (length l) <=? loc) || (loc <? 0) then l ++ [x]
  else take (Z.to_nat loc) l ++ x :: drop (Z.to_nat loc) l.

Definition remove_at (i : nat) (l : list Z) : list Z := take i l ++ drop (S i) l.

(** [m] does what [f] does to the list, keeps the invariant and the comparison
    function. *)
Definition implements {A} (m : ST STACK A) (f : list Z -> A * list Z) (st : STACK) : Prop :=
  exists st', m st = (Ok (fst (f (elems st))), st') /\ stack_wf st'
    /\ elems st' = snd (f (elems st)) /\ comp st' = comp st.

Lemma store_last (d : list Z) n x : (n < length d)%nat -> take (S n) (<[n := x]> d) = take n d ++ [x].
Proof.
  intros Hn. rewrite (take_S_r _ _ x) by (by apply list_lookup_insert_eq).
  by rewrite take_insert_ge.
Qed.

Lemma move_up (d rest : list Z) (i n : nat) x : (i <= n)%nat -> (n < length d)%nat ->
  take (S n) (<[i := x]> (take (S i) d ++ take (n - i) (drop i d) ++ rest))
  = take i (take n d) ++ x :: drop i (take n d).
Proof.
  intros Hi Hn. assert (Ht : length (take i d) = i) by (rewrite length_take; lia).
  assert (exists y, d !! i = Some y) as [y Ey] by (apply lookup_lt_is_Some_2; lia).
  rewrite (take_S_r _ _ _ Ey), <- app_assoc. simpl.
  rewrite insert_app_r_alt by lia. rewrite Ht, Nat.sub_diag. simpl.
  rewrite take_take, Nat.min_l, skipn_firstn_comm by lia.
  rewrite take_app, Ht, take_take, Nat.min_r by lia. f_equal.
  replace (S n - i)%nat with (S (n - i)) by lia. simpl. f_equal.
  rewrite take_app_le by (rewrite length_take, length_drop; lia).
  by rewrite take_take, Nat.min_id.
Qed.

Lemma move_down (d rest : list Z) (i n : nat) : (i < n)%nat -> (n <= length d)%nat ->
  take (n - 1) (take i d ++ take (n - i - 1) (drop (S i) d) ++ rest) = remove_at i (take n d).
Proof.
  intros Hi Hn. assert (Ht : length (take i d) = i) by (rewrite length_take; lia).
  unfold remove_at. rewrite take_take, Nat.min_l by lia.
  rewrite take_app, Ht, take_take, Nat.min_r by lia. f_equal.
  rewrite skipn_firstn_comm. replace (n - 1 - i)%nat with (n - i - 1)%nat by lia.
  rewrite take_app_le by (rewrite length_take, length_drop; lia).
  rewrite take_take, Nat.min_id. f_equal. lia.
Qed.

Lemma insert_spec x loc (st : STACK) : stack_wf st ->
  implements (OPENSSL_sk_insert x loc) (fun l => (Z.of_nat (length l) + 1, insert_at x loc l)) st
  \/ OPENSSL_sk_insert x loc st = (Fail, st).
Proof.
  intros Hwf. pose proof (length_elems _ Hwf) as Hle. unfold implements, OPENSSL_sk_insert. simpl.
  destruct (num st =? max_nodes); [by right|].
  destruct (sk_reserve_spec 1 false st Hwf) as [(st1 & E & Hr)|E]; [lia| |rewrite E; by right].
  left. rewrite E. destruct Hr as ((Hn & Hi & Hd) & He & Hnum & _ & Hcomp & Hroom & Hdata).
  unfold elems in He at 1. rewrite <- Hcomp.
  destruct (data st1) as [d|]; [|done]. unfold insert_at. rewrite Hle, <- Hnum, <- He.
  assert (Hnl : (Z.to_nat (num st1) < length d)%nat) by lia.
  destruct ((num st1 <=? loc) || (loc <? 0)) eqn:El.
  - unfold ptr_store. rewrite (proj2 (Z.leb_le _ _)), (proj2 (Z.ltb_lt _ _)) by lia. simpl.
    eexists. split; [done|]. split; [split_and!; simpl; rewrite ?length_insert; lia|]. split; [|done].
    unfold elems. simpl. replace (Z.to_nat (num st1 + 1)) with (S (Z.to_nat (num st1))) by lia.
    by apply store_last.
  - zbool. unfold ptr_move, mem_read. rewrite !(proj2 (Z.leb_le _ _)) by lia. simpl.
    rewrite mem_write_Some by (rewrite ?length_take, ?length_drop; lia).
    set (d' := take (Z.to_nat (loc + 1)) d ++ _).
    assert (Hl' : length d' = length d).
    { unfold d'. rewrite !length_app, length_take, length_drop, length_take, length_drop. lia. }
    unfold ptr_store. rewrite (proj2 (Z.leb_le _ _)), (proj2 (Z.ltb_lt _ _)) by lia. simpl.
    eexists. split; [done|]. split; [split_and!; simpl; rewrite ?length_insert; lia|]. split; [|done].
    unfold elems. simpl. unfold d'. replace (Z.to_nat (num st1 + 1)) with (S (Z.to_nat (num st1))) by lia.
    replace (Z.to_nat (loc + 1)) with (S (Z.to_nat loc)) by lia. rewrite Z2Nat.inj_sub by lia.
    apply move_up; lia.
Qed.

Lemma internal_delete_spec i (st : STACK) : stack_wf st -> 0 <= i < num st ->
  implements (internal_delete i)
    (fun l => (default 0 (l !! Z.to_nat i), remove_at (Z.to_nat i) l)) st.
Proof.
  intros (Hn & Hi & Hd) Hir. unfold implements, internal_delete, elems. simpl.
  destruct (data st) as [d|]; [|lia].
  assert (exists y, d !! Z.to_nat i = Some y) as [y Ey] by (apply lookup_lt_is_Some_2; lia).
  unfold mem_get. rewrite (proj2 (Z.ltb_ge _ _)), Ey by lia.
  rewrite lookup_take, decide_True, Ey by lia. simpl.
  destruct (i =? num st - 1) eqn:El; zbool.
  - eexists. split; [done|]. split; [split_and!; simpl; lia|]. split; [|done]. simpl.
    unfold remove_at. rewrite take_take, Nat.min_l by lia.
    rewrite (drop_ge (take _ _)) by (rewrite length_take; lia). rewrite app_nil_r. f_equal. lia.
  - unfold ptr_move, mem_read. rewrite !(proj2 (Z.leb_le _ _)) by lia. simpl.
    rewrite mem_write_Some by (rewrite ?length_take, ?length_drop; lia).
    eexists. split; [done|]. split; [split_and!; simpl; rewrite ?length_app, ?length_take, ?length_drop,
      ?length_take, ?length_drop; lia|]. split; [|done]. simpl.
    replace (Z.to_nat (num st - 1)) with (Z.to_nat (num st) - 1)%nat by lia.
    replace (Z.to_nat (i + 1)) with (S (Z.to_nat i)) by lia.
    replace (Z.to_nat (num st - i - 1)) with (Z.to_nat (num st) - Z.to_nat i - 1)%nat by lia.
    apply move_down; lia.
Qed.

Lemma implements_id {A} (m : ST STACK A) (a : A) f (st : STACK) : stack_wf st -> m st = (Ok a, st) ->
  f (elems st) = (a, elems st) -> implements m f st.
Proof. intros Hwf E Hf. exists st. by rewrite Hf. Qed.

(** The first element with a property. *)
Definition first_index (p : Z -> bool) (l : list Z) : Z :=
  match list_find (fun y => p y = true) l with Some (i, _) => Z.of_nat i | None => -1 end.

Definition remove_ptr (p : Z) (l : list Z) : Z * list Z :=
  match list_find (fun y => (y =? p) = true) l with
  | Some (i, _) => (p, remove_at i l)
  | None => (0, l)
  end.

(** The slot of an element. *)
Lemma elems_lookup (st : STACK) i : stack_wf st -> 0 <= i < num st ->
  exists d y, data st = Some d /\ mem_get d i = Some y /\ elems st !! Z.to_nat i = Some y.
Proof.
  intros (Hn & _ & Hd) Hi. unfold elems. destruct (data st) as [d|]; [|lia].
  destruct (lookup_lt_is_Some_2 d (Z.to_nat i)) as [y Ey]; [lia|]. exists d, y. unfold mem_get.
  rewrite (proj2 (Z.ltb_ge _ _)), lookup_take, decide_True by lia. done.
Qed.

Lemma find_skip p (l : list Z) i : (forall j y, (j < i)%nat -> l !! j = Some y -> p y = false) ->
  forall y, l !! i = Some y -> p y = true ->
  list_find (fun y => p y = true) l = Some (i, y).
Proof.
  intros Hb y Hy Hp. apply list_find_Some. split_and!; [done|done|].
  intros j z Hz Hj E. by rewrite (Hb j z) in E.
Qed.

Lemma find_none p (l : list Z) : (forall y, y ∈ l -> p y = false) ->
  list_find (fun y => p y = true) l = None.
Proof. intros Hn. apply list_find_None, Forall_forall. intros y Hy E. by rewrite Hn in E. Qed.

(** No match among the first [i] elements. *)
Definition unmatched (p : Z -> bool) (i : Z) (st : STACK) : Prop :=
  forall j y, (j < Z.to_nat i)%nat -> elems st !! j = Some y -> p y = false.

Lemma unmatched_next p i y (st : STACK) : 0 <= i -> unmatched p i st ->
  elems st !! Z.to_nat i = Some y -> p y = false -> unmatched p (i + 1) st.
Proof.
  intros Hi Hu Hy Hp j z Hj Hz. destruct (decide (j = Z.to_nat i)) as [->|]; [congruence|].
  apply (Hu j); [lia|done].
Qed.

Lemma unmatched_all p (st : STACK) : stack_wf st -> unmatched p (num st) st ->
  list_find (fun y => p y = true) (elems st) = None.
Proof.
  intros Hwf Hu. pose proof (length_elems _ Hwf). apply find_none. intros y [j Hj]%list_elem_of_lookup.
  apply (Hu j); [|done]. apply lookup_lt_Some in Hj. lia.
Qed.

Lemma delete_ptr_spec x (st : STACK) : stack_wf st -> implements (OPENSSL_sk_delete_ptr x) (remove_ptr x) st.
Proof.
  intros Hwf. pose proof Hwf as (Hn0 & _). unfold OPENSSL_sk_delete_ptr.
  assert (Hgen : forall n i, 0 <= i -> i + Z.of_nat n = num st -> unmatched (fun y => y =? x) i st ->
    implements (delete_ptr_loop n i x) (remove_ptr x) st).
  2: { unfold implements. apply (Hgen (Z.to_nat (num st)) 0); [lia|lia|intros j y Hj; lia]. }
  induction n as [|n IH]; intros i Hi Hn Hu.
  - apply (implements_id _ 0); [done|done|]. unfold remove_ptr.
    rewrite (unmatched_all (fun y => y =? x)); [done|done|]. by replace (num st) with i by lia.
  - destruct (elems_lookup st i Hwf) as (d & y & Ed & Ey & Hy); [lia|].
    unfold implements. simpl delete_ptr_loop. rewrite Ed, Ey. destruct (y =? x) eqn:Exy.
    + destruct (internal_delete_spec i st Hwf) as (st' & E & Hwf' & He & Hc); [lia|].
      exists st'. rewrite E. simpl. unfold remove_ptr.
      rewrite (find_skip (fun y => y =? x) _ (Z.to_nat i) Hu y Hy Exy), Hy. zbool. by subst.
    + apply IH; [lia|lia|]. by eapply unmatched_next.
Qed.

(** An index outside of the list. *)
Definition outside (i : Z) (l : list Z) : bool := (i <? 0) || (Z.of_nat (length l) <=? i).

Definition list_delete (loc : Z) (l : list Z) : Z * list Z :=
  if outside loc l then (0, l) else (default 0 (l !! Z.to_nat loc), remove_at (Z.to_nat loc) l).
Definition list_shift (l : list Z) : Z * list Z := (default 0 (hd_error l), tail l).
Definition list_pop (l : list Z) : Z * list Z := (default 0 (last l), take (length l - 1) l).
Definition list_set (i x : Z) (l : list Z) : Z * list Z :=
  if outside i l then (0, l) else (x, <[Z.to_nat i := x]> l).

Lemma implements_eq {A} (m : ST STACK A) f g (st : STACK) :
  implements m f st -> f (elems st) = g (elems st) -> implements m g st.
Proof. intros (st' & E) Hfg. exists st'. by rewrite <- Hfg. Qed.

Lemma delete_spec loc (st : STACK) : stack_wf st -> implements (OPENSSL_sk_delete loc) (list_delete loc) st.
Proof.
  intros Hwf. pose proof (length_elems _ Hwf) as Hl. unfold OPENSSL_sk_delete, list_delete, outside.
  destruct ((loc <? 0) || (num st <=? loc)) eqn:E.
  - apply (implements_id _ 0); [done|by rewrite E|by rewrite Hl, E].
  - unfold implements. rewrite E, Hl, E. zbool. apply (internal_delete_spec loc st Hwf). lia.
Qed.

Lemma empty_elems (st : STACK) : stack_wf st -> num st = 0 -> elems st = [].
Proof. intros Hwf E. pose proof (length_elems _ Hwf). destruct (elems st); [done|simpl in *; lia]. Qed.

Lemma shift_spec (st : STACK) : stack_wf st -> implements OPENSSL_sk_shift list_shift st.
Proof.
  intros Hwf. pose proof (length_elems _ Hwf) as Hl. pose proof Hwf as (Hn & _). unfold OPENSSL_sk_shift.
  destruct (num st =? 0) eqn:E.
  - apply (implements_id _ 0); [done|by rewrite E|]. zbool. unfold list_shift. by rewrite (empty_elems _ Hwf E).
  - unfold implements. rewrite E. zbool.
    eapply implements_eq; [apply (internal_delete_spec 0 st Hwf); lia|]. simpl. unfold list_shift.
    destruct (elems st); [simpl in Hl; lia|done].
Qed.

Lemma pop_spec (st : STACK) : stack_wf st -> implements OPENSSL_sk_pop list_pop st.
Proof.
  intros Hwf. pose proof (length_elems _ Hwf) as Hl. pose proof Hwf as (Hn & _). unfold OPENSSL_sk_pop.
  destruct (num st =? 0) eqn:E.
  - apply (implements_id _ 0); [done|by rewrite E|]. zbool. unfold list_pop. by rewrite (empty_elems _ Hwf E).
  - unfold implements. rewrite E. zbool.
    eapply implements_eq; [apply (internal_delete_spec (num st - 1) st Hwf); lia|]. simpl. unfold list_pop.
    rewrite last_lookup. replace (Z.to_nat (num st - 1)) with (pred (length (elems st))) by lia. f_equal.
    unfold remove_at. rewrite drop_ge, app_nil_r by lia. f_equal. lia.
Qed.

Lemma zero_spec (st : STACK) : stack_wf st -> implements OPENSSL_sk_zero (fun _ => (tt, [])) st.
Proof.
  intros Hwf. pose proof Hwf as (Hn & Hi & Hd). unfold OPENSSL_sk_zero. destruct (num st =? 0) eqn:E.
  - apply (implements_id _ tt); [done|by rewrite E|]. zbool. by rewrite (empty_elems _ Hwf E).
  - unfold implements. rewrite E. zbool. destruct (data st) as [d|]; [|lia].
    rewrite mem_write_Some by (rewrite ?length_replicate; lia). eexists. split; [done|]. simpl.
    split; [|done]. split_and!; simpl; rewrite ?length_app, ?length_drop, ?length_replicate; lia.
Qed.

Lemma set_spec i x (st : STACK) : stack_wf st -> implements (OPENSSL_sk_set i x) (list_set i x) st.
Proof.
  intros Hwf. pose proof (length_elems _ Hwf) as Hl. unfold OPENSSL_sk_set, list_set, outside.
  destruct ((i <? 0) || (num st <=? i)) eqn:E.
  - apply (implements_id _ 0); [done|by rewrite E|by rewrite Hl, E].
  - unfold implements. rewrite E, Hl, E. zbool. destruct Hwf as (Hn & Hi & Hd). unfold elems in *.
    destruct (data st) as [d|]; [|lia]. unfold ptr_store.
    rewrite (proj2 (Z.leb_le _ _)), (proj2 (Z.ltb_lt _ _)) by lia. simpl.
    eexists. split; [done|]. split; [split_and!; simpl; rewrite ?length_insert; lia|]. split; [|done].
    simpl. by rewrite take_insert_lt by lia.
Qed.

Lemma value_spec i (st : STACK) : stack_wf st ->
  OPENSSL_sk_value i st = Ok (if outside i (elems st) then 0 else default 0 (elems st !! Z.to_nat i)).
Proof.
  intros Hwf. pose proof (length_elems _ Hwf) as Hl. unfold OPENSSL_sk_value, outside. rewrite Hl.
  destruct ((i <? 0) || (num st <=? i)) eqn:E; [done|]. zbool.
  destruct (elems_lookup st i Hwf) as (d & y & -> & -> & ->); [lia|done].
Qed.

(** A copy of the elements into a block with at least [min_nodes] slots. *)
Lemma copied_wf (st : STACK) new xs na : stack_wf st -> Z.of_nat (length xs) = num st ->
  Z.of_nat (length new) = na -> num st <= na <= INT_MAX -> min_nodes <= na ->
  exists new', mem_write new 0 xs = Some new'
    /\ let st' := mkSTACK (num st) (Some new') (sorted st) na (comp st) in
       stack_wf st' /\ elems st' = xs.
Proof.
  intros (Hn & _) Hx Hnew Hna Hmin. rewrite mem_write_Some by lia. eexists. split; [done|]. split.
  - split_and!; simpl; rewrite ?length_app, ?length_drop; lia.
  - unfold elems. simpl. apply take_app_length'. lia.
Qed.

Lemma read_elems (st : STACK) d : stack_wf st -> data st = Some d -> mem_read d 0 (num st) = Some (elems st).
Proof.
  intros (Hn & _ & Hd) Ed. unfold elems. rewrite Ed in *. unfold mem_read.
  by rewrite !(proj2 (Z.leb_le _ _)) by lia.
Qed.

Lemma dup_spec (st : STACK) : stack_wf st ->
  OPENSSL_sk_dup st = Ok None
  \/ exists st', OPENSSL_sk_dup st = Ok (Some st') /\ stack_wf st' /\ elems st' = elems st
       /\ sorted st' = sorted st /\ comp st' = comp st.
Proof.
  intros Hwf. pose proof Hwf as (Hn & Hi & Hd). pose proof (length_elems _ Hwf) as Hl. unfold OPENSSL_sk_dup.
  destruct struct_ok; [simpl|by left]. destruct (num st =? 0) eqn:E; zbool.
  - right. eexists. split; [done|]. split; [split_and!; simpl; (done || lia)|].
    split; [by rewrite (empty_elems _ Hwf E)|done].
  - destruct (ptr_malloc (num_alloc st)) as [new|] eqn:Em; [right|by left].
    destruct (data st) as [d|] eqn:Ed; [|lia]. rewrite (read_elems _ _ Hwf Ed).
    apply ptr_malloc_length in Em; [|lia].
    destruct (copied_wf st new (elems st) (num_alloc st) Hwf) as (new' & -> & Hwf' & He); try done; [lia..|].
    by eexists.
Qed.

(** Copies of elements; [NULL] elements are kept. *)
Definition copies (copy : Z -> Z) (xs : list Z) : list Z := map (fun x => if x =? 0 then 0 else copy x) xs.

Lemma copy_elements_spec copy xs : forall acc,
  match copy_elements copy xs acc with
  | inl ys => ys = rev acc ++ copies copy xs /\ (forall x, x ∈ xs -> x <> 0 -> copy x <> 0)
  | inr freed => exists before x after, xs = before ++ x :: after /\ x <> 0 /\ copy x = 0
      /\ (forall y, y ∈ before -> y <> 0 -> copy y <> 0)
      /\ freed = filter (fun y => y <> 0) (rev (copies copy before) ++ acc)
  end.
Proof.
  induction xs as [|x xs IH]; intros acc; cbn [copy_elements].
  { simpl. rewrite app_nil_r. split; [done|]. intros x Hx. by apply not_elem_of_nil in Hx. }
  assert (Hstep : forall y, y = (if x =? 0 then 0 else copy x) -> (x <> 0 -> copy x <> 0) ->
    match copy_elements copy xs (y :: acc) with
    | inl ys => ys = rev acc ++ copies copy (x :: xs) /\ (forall z, z ∈ x :: xs -> z <> 0 -> copy z <> 0)
    | inr freed => exists before z after, x :: xs = before ++ z :: after /\ z <> 0 /\ copy z = 0
        /\ (forall y, y ∈ before -> y <> 0 -> copy y <> 0)
        /\ freed = filter (fun y => y <> 0) (rev (copies copy before) ++ acc)
    end).
  { intros y Hy Hx. specialize (IH (y :: acc)). destruct (copy_elements copy xs (y :: acc)) as [ys|freed].
    - destruct IH as [-> Hall]. split; [simpl; by rewrite <- app_assoc, Hy|].
      intros z Hz. apply elem_of_cons in Hz as [->|Hz]; auto.
    - destruct IH as (before & z & after & -> & Hz & Ez & Hb & ->).
      exists (x :: before), z, after. split_and!; try done.
      + intros w Hw. apply elem_of_cons in Hw as [->|Hw]; auto.
      + simpl. by rewrite <- app_assoc, Hy. }
  destruct (x =? 0) eqn:E; zbool; [apply Hstep; [done|congruence]|]. cbv zeta.
  destruct (copy x =? 0) eqn:Ec; zbool; [|apply Hstep; done].
  exists [], x, xs. split_and!; try done. intros y Hy. by apply not_elem_of_nil in Hy.
Qed.

Lemma deep_copy_spec copy (st : STACK) : stack_wf st ->
  (exists st', OPENSSL_sk_deep_copy copy st = Ok (Some st', []) /\ stack_wf st'
     /\ elems st' = copies copy (elems st) /\ (forall x, x ∈ elems st -> x <> 0 -> copy x <> 0)
     /\ sorted st' = sorted st /\ comp st' = comp st)
  \/ OPENSSL_sk_deep_copy copy st = Ok (None, [])
  \/ (exists before x after, elems st = before ++ x :: after /\ x <> 0 /\ copy x = 0
       /\ OPENSSL_sk_deep_copy copy st
          = Ok (None, filter (fun y => y <> 0) (rev (copies copy before)))).
Proof.
  intros Hwf. pose proof Hwf as (Hn & Hi & Hd). pose proof (length_elems _ Hwf) as Hl.
  unfold OPENSSL_sk_deep_copy. destruct struct_ok; [simpl|by right; left].
  destruct (num st =? 0) eqn:E; zbool.
  { left. eexists. split; [done|]. split; [split_and!; simpl; (done || lia)|].
    rewrite (empty_elems _ Hwf E). split_and!; try done. intros x Hx. by apply not_elem_of_nil in Hx. }
  set (na := if min_nodes <? num st then num st else min_nodes).
  assert (Hna : num st <= na <= INT_MAX /\ min_nodes <= na).
  { unfold na in *. destruct (_ <? _) eqn:?; zbool; unfold INT_MAX in *; lia. }
  unfold ptr_zalloc. destruct (ptr_malloc na) as [new|] eqn:Em; [|by right; left].
  apply ptr_malloc_length in Em; [|lia]. destruct (data st) as [d|] eqn:Ed; [|lia].
  rewrite (read_elems _ _ Hwf Ed). pose proof (copy_elements_spec copy (elems st) []) as Hc.
  destruct (copy_elements copy (elems st) []) as [ys|freed].
  - destruct Hc as [-> Hall]. simpl. left.
    destruct (copied_wf st (replicate (length new) 0) (copies copy (elems st)) na Hwf) as (new' & -> & Hwf' & He);
      [unfold copies; by rewrite length_map|by rewrite length_replicate|lia..|]. by eexists.
  - destruct Hc as (before & x & after & E1 & Hx & Ex & _ & ->). right; right.
    exists before, x, after. by rewrite app_nil_r.
Qed.

(** *** Sorting *)

(** Comparison functions are total preorders, with the sign saying which way. *)
Class CmpOk (c : Z -> Z -> Z) : Prop := {
  cmp_flip x y : c x y < 0 <-> 0 < c y x;
  cmp_trans x y z : c x y <= 0 -> c y z <= 0 -> c x z <= 0
}.

Definition le_of (c : Z -> Z -> Z) (x y : Z) : Prop := c x y <= 0.

(** [qsort] of the C library. *)
Class QsortOk (qsort : (Z -> Z -> Z) -> list Z -> list Z) : Prop := {
  qsort_perm c l : qsort c l ≡ₚ l;
  qsort_sorted c l : CmpOk c -> StronglySorted (le_of c) (qsort c l)
}.

(** The flag is set only when the elements are in order. *)
Definition sorted_ok (st : STACK) : Prop :=
  sorted st = true ->
  match comp st with Some f => StronglySorted (le_of (cmp_call f)) (elems st) | None => False end.

Context (qsort : (Z -> Z -> Z) -> list Z -> list Z) `{!QsortOk qsort}.

Lemma sort_spec (st : STACK) : stack_wf st ->
  exists st', OPENSSL_sk_sort cmp_call qsort st = (Ok tt, st') /\ stack_wf st' /\ elems st' ≡ₚ elems st
    /\ comp st' = comp st /\ (sorted_ok st -> (forall f, CmpOk (cmp_call f)) -> sorted_ok st')
    /\ (comp st <> None -> sorted st' = true).
Proof.
  intros Hwf. pose proof (length_elems _ Hwf) as Hl. unfold OPENSSL_sk_sort, sorted_ok.
  destruct (comp st) as [f|] eqn:Ec; [|exists st; rewrite Ec; by repeat (split; [by auto|])].
  destruct (sorted st) eqn:Es; [exists st; rewrite Ec, Es; by repeat (split; [by auto|])|].
  destruct (num st <=? 1) eqn:En; zbool.
  - eexists. split; [done|]. split; [exact Hwf|]. split; [done|]. split; [done|]. split; [|done].
    intros _ _ _. simpl. unfold elems. simpl. fold (elems st).
    destruct (elems st) as [|x [|y l]]; [constructor|repeat constructor|simpl in Hl; lia].
  - pose proof Hwf as (Hn & Hi & Hd). destruct (data st) as [d|] eqn:Ed; [|lia].
    rewrite (read_elems _ _ Hwf Ed).
    pose proof (Permutation_length (qsort_perm (cmp_call f) (elems st))) as Hql.
    eexists. split; [done|].
    assert (He : elems (mkSTACK (num st) (Some (qsort (cmp_call f) (elems st) ++ drop (Z.to_nat (num st)) d))
      true (num_alloc st) (Some f)) = qsort (cmp_call f) (elems st)).
    { unfold elems at 1. simpl. apply take_app_length'. lia. }
    split; [split_and!; simpl; rewrite ?length_app, ?length_drop; lia|].
    rewrite He. split; [apply qsort_perm|]. split; [done|]. split; [|done].
    intros _ Hc _. simpl. by apply qsort_sorted.
Qed.

(** *** Searching *)

(** Does the key match the element? *)
Definition key_matches (st : STACK) (x y : Z) : bool :=
  match comp st with None => y =? x | Some f => cmp_call f x y =? 0 end.

Definition matches_of (st : STACK) (x : Z) : list Z :=
  filter (fun y => key_matches st x y = true) (elems st).

Lemma first_index_found p l i y : l !! i = Some y -> p y = true ->
  (forall j z, (j < i)%nat -> l !! j = Some z -> p z = false) -> first_index p l = Z.of_nat i.
Proof. intros Hy Hp Hb. unfold first_index. by rewrite (find_skip p l i Hb y Hy Hp). Qed.

Lemma find_ptr_spec x (st : STACK) d : stack_wf st -> data st = Some d -> comp st = None ->
  forall n i, 0 <= i -> i + Z.of_nat n = num st -> unmatched (key_matches st x) i st ->
  find_ptr n i x d = Ok (first_index (key_matches st x) (elems st)).
Proof.
  intros Hwf Ed Ec. unfold first_index. induction n as [|n IH]; intros i Hi Hn Hu.
  - rewrite unmatched_all; [done|done|]. by replace (num st) with i by lia.
  - destruct (elems_lookup st i Hwf) as (d' & y & Ed' & Ey & Hy); [lia|]. simplify_eq. simpl. rewrite Ey.
    assert (Hk : key_matches st x y = (y =? x)) by (unfold key_matches; by rewrite Ec).
    destruct (y =? x) eqn:E.
    + rewrite (find_skip _ _ _ Hu y Hy Hk). by rewrite Z2Nat.id.
    + apply IH; [lia|lia|]. by eapply unmatched_next.
Qed.

(** The matches among the elements from [i] on. *)
Definition later (p : Z -> bool) (i : Z) (l : list Z) : Z :=
  Z.of_nat (length (filter (fun y => p y = true) (drop (Z.to_nat i) l))).

Lemma later_step p i l y : 0 <= i -> l !! Z.to_nat i = Some y ->
  later p i l = (if p y then 1 else 0) + later p (i + 1) l.
Proof.
  intros Hi Hy. unfold later. rewrite (drop_S _ _ _ Hy). replace (Z.to_nat (i + 1)) with (S (Z.to_nat i)) by lia.
  rewrite filter_cons. destruct (p y); [rewrite decide_True by done; simpl; lia|].
  by rewrite decide_False by done.
Qed.

Lemma later_none p i l : (forall j y, (Z.to_nat i <= j)%nat -> l !! j = Some y -> p y = false) ->
  later p i l = 0.
Proof.
  intros Hn. unfold later.
  assert (Hd : forall y, y ∈ drop (Z.to_nat i) l -> p y = false).
  { intros y [j Hj]%list_elem_of_lookup. rewrite lookup_drop in Hj. apply (Hn (Z.to_nat i + j)%nat y); [lia|done]. }
  induction (drop (Z.to_nat i) l) as [|y l' IH]; [done|]. rewrite filter_cons, decide_False.
  - apply IH. intros z Hz. apply Hd. by right.
  - rewrite (Hd y) by left. done.
Qed.

(** Nothing is lost by starting at the first match. *)
Lemma later_skip p i l : 0 <= i -> (Z.to_nat i <= length l)%nat ->
  (forall j y, (j < Z.to_nat i)%nat -> l !! j = Some y -> p y = false) -> later p 0 l = later p i l.
Proof.
  intros Hi Hl. revert Hl. pattern i. apply natlike_ind; [done| |done]. clear i Hi. intros i Hi IH Hl Hb.
  destruct (lookup_lt_is_Some_2 l (Z.to_nat i)) as [y Hy]; [lia|].
  rewrite IH; [|lia|intros j z Hj; apply Hb; lia].
  rewrite (later_step p i l y Hi Hy), (Hb (Z.to_nat i) y) by (done || lia). done.
Qed.

Lemma find_unsorted_all x f (st : STACK) d : stack_wf st -> data st = Some d -> comp st = Some f ->
  forall n i res v, 0 <= i -> i + Z.of_nat n = num st ->
  (if res =? -1 then unmatched (key_matches st x) i st else res = first_index (key_matches st x) (elems st)) ->
  find_unsorted cmp_call n i f x d false res v
  = Ok (first_index (key_matches st x) (elems st),
        if first_index (key_matches st x) (elems st) =? -1 then 0
        else v + later (key_matches st x) i (elems st)).
Proof.
  intros Hwf Ed Ec. pose proof (length_elems _ Hwf) as Hl.
  induction n as [|n IH]; intros i res v Hi Hn Hres; simpl.
  - destruct (res =? -1) eqn:E; zbool.
    + subst res. unfold first_index. rewrite unmatched_all; [done|done|]. by replace (num st) with i by lia.
    + rewrite <- Hres, (proj2 (Z.eqb_neq _ _)) by done. unfold later. rewrite drop_ge by lia. simpl.
      by rewrite Z.add_0_r.
  - destruct (elems_lookup st i Hwf) as (d' & y & Ed' & Ey & Hy); [lia|]. simplify_eq.
    unfold cmp_at. rewrite Ey, (later_step _ i _ y Hi Hy).
    assert (Hk : key_matches st x y = (cmp_call f x y =? 0)) by (unfold key_matches; by rewrite Ec).
    destruct (cmp_call f x y =? 0) eqn:E; rewrite Hk.
    + rewrite IH with (v := v + 1); [by rewrite Z.add_assoc|lia|lia|].
      destruct (res =? -1) eqn:Er; zbool; [|by rewrite (proj2 (Z.eqb_neq _ _)) by done].
      rewrite (proj2 (Z.eqb_neq _ _)) by lia. symmetry.
      rewrite (first_index_found _ _ (Z.to_nat i) y); [lia|done|done|].
      intros j z Hj Hz. by apply (Hres j z).
    + rewrite Z.add_0_l. apply IH; [lia|lia|]. destruct (res =? -1); [|done].
      by eapply unmatched_next.
Qed.

Lemma find_unsorted_one x f (st : STACK) d : stack_wf st -> data st = Some d -> comp st = Some f ->
  forall n i, 0 <= i -> i + Z.of_nat n = num st -> unmatched (key_matches st x) i st ->
  exists v, find_unsorted cmp_call n i f x d true (-1) 0
            = Ok (first_index (key_matches st x) (elems st), v).
Proof.
  intros Hwf Ed Ec. unfold first_index. induction n as [|n IH]; intros i Hi Hn Hu.
  - exists 0. rewrite unmatched_all; [done|done|]. by replace (num st) with i by lia.
  - destruct (elems_lookup st i Hwf) as (d' & y & Ed' & Ey & Hy); [lia|]. simplify_eq. simpl.
    unfold cmp_at. rewrite Ey.
    assert (Hk : key_matches st x y = (cmp_call f x y =? 0)) by (unfold key_matches; by rewrite Ec).
    destruct (cmp_call f x y =? 0) eqn:E.
    + exists 1. rewrite (find_skip _ _ _ Hu y Hy Hk). by rewrite Z2Nat.id.
    + apply IH; [lia|lia|]. by eapply unmatched_next.
Qed.

Lemma StronglySorted_lookup (R : Z -> Z -> Prop) l i j a b : StronglySorted R l -> (i < j)%nat ->
  l !! i = Some a -> l !! j = Some b -> R a b.
Proof.
  intros Hs. revert i j. induction Hs as [|x l Hs IH Hall]; intros i j Hij Hi Hj; [done|].
  destruct j as [|j]; [lia|]. destruct i as [|i]; simplify_eq/=.
  - by eapply Forall_lookup_1 in Hall.
  - by apply (IH i j); [lia|..].
Qed.

Lemma sorted_ordered x f (st : STACK) d : stack_wf st -> data st = Some d -> CmpOk (cmp_call f) ->
  StronglySorted (le_of (cmp_call f)) (elems st) -> ordered (cmp_at cmp_call f x d) (num st).
Proof.
  intros Hwf Ed Hc Hs.
  assert (Hget : forall i c, 0 <= i < num st -> cmp_at cmp_call f x d i = Some c ->
    exists y, elems st !! Z.to_nat i = Some y /\ c = cmp_call f x y).
  { intros i c Hi. destruct (elems_lookup st i Hwf Hi) as (d' & y & Ed' & Ey & Hy). simplify_eq.
    unfold cmp_at. rewrite Ey. intros [= <-]. by exists y. }
  split.
  - intros i Hi. destruct (elems_lookup st i Hwf Hi) as (d' & y & Ed' & Ey & Hy). simplify_eq.
    unfold cmp_at. rewrite Ey. by eexists.
  - intros i j c e Hij Hj Ei Ej He. apply Hget in Ei as (a & Ha & ->); [|lia]. apply Hget in Ej as (b & Hb & ->); [|lia].
    pose proof (StronglySorted_lookup _ _ (Z.to_nat i) (Z.to_nat j) a b Hs ltac:(lia) Ha Hb) as Hab.
    destruct (decide (cmp_call f x a <= 0)) as [Hle|]; [|lia]. pose proof (cmp_trans x a b Hle Hab). lia.
  - intros i j c e Hij Hj Ei Ej He. apply Hget in Ei as (a & Ha & ->); [|lia]. apply Hget in Ej as (b & Hb & ->); [|lia].
    pose proof (StronglySorted_lookup _ _ (Z.to_nat i) (Z.to_nat j) a b Hs ltac:(lia) Ha Hb) as Hab.
    destruct (decide (cmp_call f x b < 0)) as [|Hge]; [done|].
    assert (cmp_call f b x <= 0) by (pose proof (cmp_flip x b); lia).
    pose proof (cmp_trans a b x Hab H). pose proof (cmp_flip x a). lia.
Qed.

(** The matches are next to each other, so counting from the first finds all. *)
Lemma count_matches_spec x f (st : STACK) d : stack_wf st -> data st = Some d -> comp st = Some f ->
  ordered (cmp_at cmp_call f x d) (num st) ->
  forall n i, 0 <= i -> i + Z.of_nat n = num st ->
  (forall k, 0 <= k < i -> forall c, cmp_at cmp_call f x d k = Some c -> 0 <= c) ->
  (i < num st -> forall c, cmp_at cmp_call f x d i = Some c -> c <= 0) ->
  count_matches cmp_call n i f x d = Ok (later (key_matches st x) i (elems st)).
Proof.
  intros Hwf Ed Ec Ho. pose proof (length_elems _ Hwf) as Hl.
  induction n as [|n IH]; intros i Hi Hn Hb Hc; simpl.
  { unfold later. by rewrite drop_ge by lia. }
  destruct (elems_lookup st i Hwf) as (d' & y & Ed' & Ey & Hy); [lia|]. simplify_eq.
  assert (Ei : cmp_at cmp_call f x d i = Some (cmp_call f x y)) by (unfold cmp_at; by rewrite Ey).
  rewrite Ei. assert (Hk : key_matches st x y = (cmp_call f x y =? 0)) by (unfold key_matches; by rewrite Ec).
  rewrite (later_step _ i _ y Hi Hy), Hk.
  destruct (cmp_call f x y =? 0) eqn:E; zbool.
  - rewrite IH; [f_equal; lia|lia|lia| |].
    + intros k Hkr c Ek. destruct (decide (k = i)) as [->|]; [simplify_eq; lia|apply (Hb k); (done || lia)].
    + intros Hlt c Ek. destruct (decide (c <= 0)); [done|].
      pose proof (ord_pos _ _ Ho i (i + 1) _ c ltac:(lia) Hlt Ei Ek ltac:(lia)). lia.
  - rewrite Z.add_0_l. f_equal. specialize (Hc ltac:(lia) _ Ei). symmetry. apply later_none. intros j z Hj Hz.
    assert (Hjl : 0 <= Z.of_nat j < num st) by (apply lookup_lt_Some in Hz; lia).
    destruct (elems_lookup st (Z.of_nat j) Hwf Hjl) as (d' & z' & Ed' & Ez & Hz'). rewrite Nat2Z.id in Hz'. simplify_eq.
    assert (Ej : cmp_at cmp_call f x d (Z.of_nat j) = Some (cmp_call f x z)) by (unfold cmp_at; by rewrite Ez).
    pose proof (ord_neg _ _ Ho i (Z.of_nat j) _ _ ltac:(lia) ltac:(lia) Ei Ej ltac:(lia)).
    unfold key_matches. rewrite Ec. lia.
Qed.

Lemma find_sorted x f (st : STACK) d : stack_wf st -> data st = Some d -> comp st = Some f ->
  CmpOk (cmp_call f) -> StronglySorted (le_of (cmp_call f)) (elems st) -> num st <= 2 ^ 30 ->
  let i := first_index (key_matches st x) (elems st) in
  ossl_bsearch (cmp_at cmp_call f x d) (num st) OSSL_BSEARCH_FIRST_VALUE_ON_MATCH
  = Ok (if i =? -1 then None else Some i)
  /\ (i <> -1 -> count_matches cmp_call (Z.to_nat (num st - i)) i f x d
                 = Ok (Z.of_nat (length (matches_of st x)))).
Proof.
  intros Hwf Ed Ec Hc Hs Hn i. pose proof (length_elems _ Hwf) as Hl. pose proof Hwf as (Hn0 & _).
  pose proof (sorted_ordered x f st d Hwf Ed Hc Hs) as Ho.
  assert (Hat : forall k y, elems st !! k = Some y -> cmp_at cmp_call f x d (Z.of_nat k) = Some (cmp_call f x y)).
  { intros k y Hy. pose proof (lookup_lt_Some _ _ _ Hy).
    destruct (elems_lookup st (Z.of_nat k) Hwf ltac:(lia)) as (d' & z & Ed' & Ez & Hz). rewrite Nat2Z.id in Hz.
    simplify_eq. unfold cmp_at. by rewrite Ez. }
  assert (Hk : forall y, key_matches st x y = (cmp_call f x y =? 0)) by (intros y; unfold key_matches; by rewrite Ec).
  assert (Hno : forall k y, elems st !! k = Some y -> ~ matches_at (cmp_at cmp_call f x d) (Z.of_nat k) ->
    key_matches st x y = false).
  { intros k y Hy Hm. rewrite Hk. apply Z.eqb_neq. intros E. apply Hm. unfold matches_at. by rewrite (Hat k y Hy), E. }
  destruct (bsearch_first _ _ Ho ltac:(lia)) as [(j & -> & Hj & Hm & Hb)|[-> Hnone]].
  - destruct (lookup_lt_is_Some_2 (elems st) (Z.to_nat j)) as [y Hy]; [lia|].
    assert (Hbj : forall k z, (k < Z.to_nat j)%nat -> elems st !! k = Some z -> key_matches st x z = false)
      by (intros k z Hkj Hz; apply (Hno k z Hz), Hb; lia).
    assert (Hi : i = j).
    { unfold i. rewrite (first_index_found _ _ (Z.to_nat j) y Hy); [lia| |done].
      unfold matches_at in Hm. rewrite <- (Z2Nat.id j), (Hat _ _ Hy) in Hm by lia. rewrite Hk. simplify_eq. lia. }
    rewrite Hi, (proj2 (Z.eqb_neq _ _)) by lia. split; [done|]. intros _.
    rewrite (count_matches_spec x f st d Hwf Ed Ec Ho); [|lia|lia| |].
    + f_equal. rewrite <- later_skip by (done || lia). unfold later. by rewrite drop_0.
    + intros k Hkj c Ek. destruct (decide (0 <= c)); [done|].
      pose proof (ord_neg _ _ Ho k j c 0 ltac:(lia) ltac:(lia) Ek Hm ltac:(lia)). lia.
    + intros _ c Ek. unfold matches_at in Hm. simplify_eq. lia.
  - assert (i = -1) as ->; [|split; done].
    unfold i, first_index. rewrite unmatched_all; [done|done|]. intros k z Hkn Hz. apply (Hno k z Hz), Hnone. lia.
Qed.

(** A [NULL] key is not searched for. *)
Definition find_index (x : Z) (st : STACK) : Z :=
  if (x =? 0) && bool_decide (comp st <> None) then -1
  else first_index (key_matches st x) (elems st).

Lemma find_empty x (st : STACK) : stack_wf st -> num st = 0 -> find_index x st = -1.
Proof. intros Hwf E. unfold find_index. rewrite (empty_elems st Hwf E). by destruct (_ && _). Qed.

Lemma find_spec x (st : STACK) : stack_wf st -> sorted_ok st -> (forall f, CmpOk (cmp_call f)) ->
  num st <= 2 ^ 30 -> OPENSSL_sk_find cmp_call x st = Ok (find_index x st, None).
Proof.
  intros Hwf Hso Hc Hn. unfold OPENSSL_sk_find, internal_find, sorted_ok in *. pose proof Hwf as (Hn0 & _ & Hd).
  destruct (num st =? 0) eqn:E0; zbool; [by rewrite (find_empty x st Hwf E0)|].
  destruct (data st) as [d|] eqn:Ed; [|lia]. unfold find_index.
  assert (Hu : unmatched (key_matches st x) 0 st) by (intros j y Hj; lia).
  destruct (comp st) as [f|] eqn:Ec.
  - rewrite (bool_decide_eq_true_2 (Some f <> None)), andb_true_r by done.
    destruct (x =? 0); [done|]. destruct (sorted st); cbn [negb].
    + destruct (find_sorted x f st d Hwf Ed Ec (Hc f) (Hso eq_refl) Hn) as [-> _].
      destruct (_ =? -1) eqn:E; zbool; [by rewrite E|done].
    + rewrite (bool_decide_eq_true_2 _ eq_refl). change (default 0 None) with 0.
      by destruct (find_unsorted_one x f st d Hwf Ed Ec (Z.to_nat (num st)) 0) as [v ->]; [lia|lia|done|].
  - rewrite (bool_decide_eq_false_2 (None <> None)), andb_false_r by auto.
    by rewrite (find_ptr_spec x st d Hwf Ed Ec) by (done || lia).
Qed.

(** What the variable [*pnum] with value [v] holds afterwards. *)
Definition found_count (x v : Z) (st : STACK) : Z :=
  let n := Z.of_nat (length (matches_of st x)) in
  if num st =? 0 then v
  else match comp st with
  | None => if find_index x st =? -1 then 0 else 1
  | Some _ => if x =? 0 then v
              else if find_index x st =? -1 then 0
              else if sorted st then n else v + n
  end.

Lemma find_all_spec x v (st : STACK) : stack_wf st -> sorted_ok st -> (forall f, CmpOk (cmp_call f)) ->
  num st <= 2 ^ 30 -> OPENSSL_sk_find_all cmp_call x v st = Ok (find_index x st, Some (found_count x v st)).
Proof.
  intros Hwf Hso Hc Hn. unfold OPENSSL_sk_find_all, internal_find, sorted_ok, found_count in *.
  pose proof Hwf as (Hn0 & _ & Hd).
  destruct (num st =? 0) eqn:E0; zbool; [by rewrite (find_empty x st Hwf E0)|].
  destruct (data st) as [d|] eqn:Ed; [|lia]. unfold find_index.
  assert (Hu : unmatched (key_matches st x) 0 st) by (intros j y Hj; lia).
  destruct (comp st) as [f|] eqn:Ec.
  - rewrite (bool_decide_eq_true_2 (Some f <> None)), andb_true_r by done.
    destruct (x =? 0); [done|]. destruct (sorted st); cbn [negb].
    + destruct (find_sorted x f st d Hwf Ed Ec (Hc f) (Hso eq_refl) Hn) as [Hb Hk].
      replace (Z.lor _ _) with OSSL_BSEARCH_FIRST_VALUE_ON_MATCH by done. rewrite Hb.
      destruct (_ =? -1) eqn:E; zbool; [by rewrite E|]. by rewrite Hk.
    + rewrite (bool_decide_eq_false_2 (Some v = None)) by done.
      rewrite (find_unsorted_all x f st d Hwf Ed Ec) by (done || lia).
      unfold later. by rewrite drop_0.
  - rewrite (bool_decide_eq_false_2 (None <> None)), andb_false_r by auto.
    by rewrite (find_ptr_spec x st d Hwf Ed Ec) by (done || lia).
Qed.

(** *** Sequences of operations *)

Inductive sk_op : Type :=
  | SkSetCmp (c : option F) | SkReserve (n : Z) | SkInsert (x loc : Z) | SkPush (x : Z) | SkUnshift (x : Z)
  | SkDelete (loc : Z) | SkDeletePtr (p : Z) | SkShift | SkPop | SkZero | SkSet (i x : Z) | SkSort
  | SkValue (i : Z) | SkFind (x : Z).

Definition as_int {A} (m : ST STACK A) : ST STACK Z := fun st =>
  match m st with (Ok _, st) => (Ok 1, st) | (Fail, st) => (Fail, st) | (Fault, st) => (Fault, st) end.

Definition sk_do (o : sk_op) : ST STACK Z := fun st =>
  match o with
  | SkSetCmp c => (Ok 1, snd (OPENSSL_sk_set_cmp_func c st))
  | SkReserve n => as_int (OPENSSL_sk_reserve n) st
  | SkInsert x loc => OPENSSL_sk_insert x loc st
  | SkPush x => OPENSSL_sk_push x st
  | SkUnshift x => OPENSSL_sk_unshift x st
  | SkDelete loc => OPENSSL_sk_delete loc st
  | SkDeletePtr p => OPENSSL_sk_delete_ptr p st
  | SkShift => OPENSSL_sk_shift st
  | SkPop => OPENSSL_sk_pop st
  | SkZero => as_int OPENSSL_sk_zero st
  | SkSet i x => OPENSSL_sk_set i x st
  | SkSort => as_int (OPENSSL_sk_sort cmp_call qsort) st
  | SkValue i => (OPENSSL_sk_value i st, st)
  | SkFind x => (match OPENSSL_sk_find cmp_call x st with Ok (i, _) => Ok i | Fail => Fail | Fault => Fault end, st)
  end.

Fixpoint sk_run (ops : list sk_op) (st : STACK) : list (ret Z) * STACK :=
  match ops with
  | [] => ([], st)
  | o :: ops => let '(r, st) := sk_do o st in let '(rs, st) := sk_run ops st in (r :: rs, st)
  end.

(** What each operation is on a list with a comparison function; only the ones
    that allocate can fail, and then change nothing. *)
Definition key_match (c : option F) (x y : Z) : bool :=
  match c with None => y =? x | Some f => cmp_call f x y =? 0 end.

Inductive list_do : sk_op -> list Z * option F -> ret Z -> list Z * option F -> Prop :=
  | LSetCmp l c c' : list_do (SkSetCmp c') (l, c) (Ok 1) (l, c')
  | LReserve l c n : list_do (SkReserve n) (l, c) (Ok 1) (l, c)
  | LInsert l c x loc : list_do (SkInsert x loc) (l, c) (Ok (Z.of_nat (length l) + 1)) (insert_at x loc l, c)
  | LPush l c x : list_do (SkPush x) (l, c) (Ok (Z.of_nat (length l) + 1)) (l ++ [x], c)
  | LUnshift l c x : list_do (SkUnshift x) (l, c) (Ok (Z.of_nat (length l) + 1)) (x :: l, c)
  | LFail l c o : match o with SkReserve _ | SkInsert _ _ | SkPush _ | SkUnshift _ => True | _ => False end ->
      list_do o (l, c) Fail (l, c)
  | LDelete l c loc : list_do (SkDelete loc) (l, c) (Ok (fst (list_delete loc l))) (snd (list_delete loc l), c)
  | LDeletePtr l c p : list_do (SkDeletePtr p) (l, c) (Ok (fst (remove_ptr p l))) (snd (remove_ptr p l), c)
  | LShift l c : list_do SkShift (l, c) (Ok (default 0 (hd_error l))) (tail l, c)
  | LPop l c : list_do SkPop (l, c) (Ok (default 0 (last l))) (take (length l - 1) l, c)
  | LZero l c : list_do SkZero (l, c) (Ok 1) ([], c)
  | LSet l c i x : list_do (SkSet i x) (l, c) (Ok (fst (list_set i x l))) (snd (list_set i x l), c)
  | LSort l l' f : l' ≡ₚ l -> StronglySorted (le_of (cmp_call f)) l' ->
      list_do SkSort (l, Some f) (Ok 1) (l', Some f)
  | LSortNone l : list_do SkSort (l, None) (Ok 1) (l, None)
  | LValue l c i : list_do (SkValue i) (l, c)
      (Ok (if outside i l then 0 else default 0 (l !! Z.to_nat i))) (l, c)
  | LFind l c x : list_do (SkFind x) (l, c)
      (Ok (if (x =? 0) && bool_decide (c <> None) then -1 else first_index (key_match c x) l)) (l, c).

Inductive list_run : list sk_op -> list Z * option F -> list (ret Z) -> list Z * option F -> Prop :=
  | RunNil s : list_run [] s [] s
  | RunCons o ops s r s' rs s'' : list_do o s r s' -> list_run ops s' rs s'' ->
      list_run (o :: ops) s (r :: rs) s''.

Definition sk_inv (st : STACK) : Prop := stack_wf st /\ sorted_ok st.

(** One operation does what it does on the list. *)
Definition refines (o : sk_op) (st : STACK) : Prop :=
  exists r st', sk_do o st = (r, st') /\ sk_inv st' /\ list_do o (elems st, comp st) r (elems st', comp st')
    /\ num st' <= num st + 1.

Lemma sublist_sorted (R : Z -> Z -> Prop) l l' : l' `sublist_of` l -> StronglySorted R l -> StronglySorted R l'.
Proof.
  intros Hs. induction Hs as [|x l l' Hs IH|x l l' Hs IH]; intros H; [done| |].
  - apply StronglySorted_inv in H as [H Hall]. constructor; [by apply IH|].
    rewrite Forall_forall in Hall |- *. intros y Hy. by apply Hall, (elem_of_sublist l).
  - apply StronglySorted_inv in H as [H _]. by apply IH.
Qed.

(** Elements leave without the order changing. *)
Lemma inv_sublist (st st' : STACK) : sk_inv st -> stack_wf st' -> comp st' = comp st ->
  sorted st' = sorted st -> elems st' `sublist_of` elems st -> sk_inv st'.
Proof.
  intros [_ Hso] Hwf Hc Hs Hsub. split; [done|]. unfold sorted_ok in *. rewrite Hc, Hs. intros E.
  specialize (Hso E). destruct (comp st); [|done]. by eapply sublist_sorted.
Qed.

Lemma inv_unsorted (st : STACK) : stack_wf st -> sorted st = false -> sk_inv st.
Proof. intros Hwf Hs. split; [done|]. unfold sorted_ok. by rewrite Hs. Qed.

Lemma remove_at_sublist i l : remove_at i l `sublist_of` l.
Proof.
  unfold remove_at. rewrite <- (take_drop i l) at 3. apply sublist_app; [done|].
  replace (S i) with (i + 1)%nat by lia. rewrite <- drop_drop. apply sublist_drop.
Qed.

(** The flag after removals, insertions and stores. *)
Lemma internal_delete_flag i r (st st' : STACK) : internal_delete i st = (r, st') -> sorted st' = sorted st.
Proof. unfold internal_delete. intros E. repeat case_match; by simplify_eq. Qed.

Lemma delete_ptr_flag n : forall i p r (st st' : STACK),
  delete_ptr_loop n i p st = (r, st') -> sorted st' = sorted st.
Proof.
  induction n as [|n IH]; intros i p r st st' E; simpl in E; [by simplify_eq|].
  repeat case_match; simplify_eq; try done; [by eapply internal_delete_flag|by eapply IH].
Qed.

Lemma insert_flag x loc k (st st' : STACK) : OPENSSL_sk_insert x loc st = (Ok k, st') -> sorted st' = false.
Proof. unfold OPENSSL_sk_insert. intros E. repeat case_match; by simplify_eq. Qed.

Lemma refines_removal o (m : ST STACK Z) f (st : STACK) : sk_inv st -> sk_do o st = m st -> implements m f st ->
  (forall r st', m st = (r, st') -> sorted st' = sorted st) -> snd (f (elems st)) `sublist_of` elems st ->
  list_do o (elems st, comp st) (Ok (fst (f (elems st)))) (snd (f (elems st)), comp st) -> refines o st.
Proof.
  intros Hinv Hdo (st' & E & Hwf & He & Hc) Hs Hsub Hl. eexists _, st'. split; [by rewrite Hdo, E|].
  rewrite He, Hc. split; [|split; [done|]].
  - apply (inv_sublist st); [done|done|done|by eapply Hs|by rewrite He].
  - rewrite <- (length_elems st'), <- (length_elems st), He by (done || apply Hinv).
    apply sublist_length in Hsub. lia.
Qed.

Lemma length_insert_at x loc l : length (insert_at x loc l) = S (length l).
Proof.
  unfold insert_at. destruct (_ || _) eqn:E; rewrite length_app; simpl; [lia|].
  apply orb_false_iff in E as [E1 E2]. zbool. rewrite length_take, length_drop. lia.
Qed.

Lemma refines_insert o x loc (st : STACK) : sk_inv st -> sk_do o st = OPENSSL_sk_insert x loc st ->
  list_do o (elems st, comp st) (Ok (Z.of_nat (length (elems st)) + 1)) (insert_at x loc (elems st), comp st) ->
  list_do o (elems st, comp st) Fail (elems st, comp st) -> refines o st.
Proof.
  intros Hinv Hdo Hl Hf. pose proof Hinv as [Hwf _].
  destruct (insert_spec x loc st Hwf) as [(st' & E & Hwf' & He & Hc)|E].
  - eexists _, st'. split; [by rewrite Hdo, E|]. rewrite He, Hc.
    split; [apply inv_unsorted; [done|by eapply insert_flag]|]. split; [done|].
    rewrite <- (length_elems st'), <- (length_elems st), He by done. cbn [snd].
    rewrite length_insert_at. lia.
  - eexists _, st. split; [by rewrite Hdo, E|]. split; [done|]. split; [done|lia].
Qed.

Lemma insert_at_end x (st : STACK) : stack_wf st -> insert_at x (num st) (elems st) = elems st ++ [x].
Proof. intros Hwf. unfold insert_at. by rewrite length_elems, Z.leb_refl. Qed.

Lemma insert_at_front x l : insert_at x 0 l = x :: l.
Proof. unfold insert_at. destruct l; [done|]. by rewrite (proj2 (Z.leb_gt _ _)) by (simpl; lia). Qed.

Lemma refines_stays o r (st : STACK) : sk_inv st -> sk_do o st = (r, st) ->
  list_do o (elems st, comp st) r (elems st, comp st) -> refines o st.
Proof. intros Hinv E Hl. exists r, st. split; [done|]. split; [done|]. split; [done|lia]. Qed.

Lemma refines_set_cmp c (st : STACK) : sk_inv st -> refines (SkSetCmp c) st.
Proof.
  intros [Hwf Hso]. eexists _, _. split; [done|]. simpl. split; [|split; [constructor|simpl; lia]].
  split; [done|]. intros E. simpl in *. destruct (decide (comp st = c)) as [<-|]; [by apply Hso|done].
Qed.

Lemma refines_reserve n (st : STACK) : sk_inv st -> refines (SkReserve n) st.
Proof.
  intros [Hwf Hso]. destruct (n <? 0) eqn:En; zbool.
  { apply (refines_stays _ (Ok 1)); [done| |constructor]. simpl. unfold as_int, OPENSSL_sk_reserve.
    by rewrite (proj2 (Z.ltb_lt _ _)). }
  assert (E : forall st', sk_do (SkReserve n) st' = as_int (sk_reserve n true) st').
  { intros st'. simpl. unfold as_int, OPENSSL_sk_reserve. by rewrite (proj2 (Z.ltb_ge _ _)). }
  destruct (sk_reserve_spec n true st Hwf En) as [(st' & E' & Hwf' & He & Hn & Hs & Hc & _)|E'].
  - exists (Ok 1), st'. rewrite E. unfold as_int. rewrite E', He, Hc. split; [done|].
    split; [|split; [constructor|lia]]. by apply (inv_sublist st); [done..|rewrite He].
  - apply (refines_stays _ Fail); [done| |by constructor]. rewrite E. unfold as_int. by rewrite E'.
Qed.

Lemma refines_zero (st : STACK) : sk_inv st -> refines SkZero st.
Proof.
  intros Hinv. pose proof Hinv as [Hwf _]. destruct (zero_spec st Hwf) as (st' & E & Hwf' & He & Hc).
  exists (Ok 1), st'. simpl. unfold as_int. rewrite E, He, Hc. split; [done|]. split; [|split; [constructor|]].
  - apply (inv_sublist st); [done..| |rewrite He; apply sublist_nil_l].
    unfold OPENSSL_sk_zero in E. repeat case_match; by simplify_eq.
  - rewrite <- (length_elems st'), He by done. simpl. destruct Hwf. lia.
Qed.

Lemma refines_set i x (st : STACK) : sk_inv st -> refines (SkSet i x) st.
Proof.
  intros Hinv. pose proof Hinv as [Hwf _]. destruct (set_spec i x st Hwf) as (st' & E & Hwf' & He & Hc).
  eexists _, st'. split; [done|]. rewrite He, Hc. split; [|split; [constructor|]].
  - unfold OPENSSL_sk_set in E. repeat case_match; simplify_eq; [done|by apply inv_unsorted].
  - rewrite <- (length_elems st'), <- (length_elems st), He by done. unfold list_set.
    destruct (outside _ _); simpl; rewrite ?length_insert; lia.
Qed.

Context (Hcmp : forall f, CmpOk (cmp_call f)).

Lemma refines_sort (st : STACK) : sk_inv st -> refines SkSort st.
Proof.
  intros Hinv. pose proof Hinv as [Hwf Hso]. destruct (comp st) as [f|] eqn:Ec.
  - destruct (sort_spec st Hwf) as (st' & E & Hwf' & Hp & Hc & Hso' & Hs).
    specialize (Hso' Hso Hcmp). specialize (Hs ltac:(by rewrite Ec)).
    exists (Ok 1), st'. simpl. unfold as_int. rewrite E, Hc, Ec. split; [done|]. split; [done|].
    split; [constructor; [done|]|].
    + specialize (Hso' Hs). by rewrite Hc, Ec in Hso'.
    + apply Permutation_length in Hp. rewrite <- (length_elems st'), <- (length_elems st), Hp by done. lia.
  - apply (refines_stays _ (Ok 1)); [done| |rewrite Ec; constructor].
    simpl. unfold as_int, OPENSSL_sk_sort. by rewrite Ec.
Qed.

Lemma refines_step o (st : STACK) : sk_inv st -> num st <= 2 ^ 30 -> refines o st.
Proof.
  intros Hinv Hn. pose proof Hinv as [Hwf Hso]. destruct o.
  - by apply refines_set_cmp.
  - by apply refines_reserve.
  - by eapply refines_insert; [done|done|constructor..].
  - by eapply refines_insert; [done|done|rewrite insert_at_end by done; constructor|constructor].
  - by eapply refines_insert; [done|done|rewrite insert_at_front; constructor|constructor].
  - eapply (refines_removal _ (OPENSSL_sk_delete loc)); [done|done|by apply delete_spec| | |constructor].
    + unfold OPENSSL_sk_delete. intros r st' E. case_match; simplify_eq; [done|by eapply internal_delete_flag].
    + unfold list_delete. case_match; [done|apply remove_at_sublist].
  - eapply (refines_removal _ (OPENSSL_sk_delete_ptr p)); [done|done|by apply delete_ptr_spec| | |constructor].
    + unfold OPENSSL_sk_delete_ptr. intros r st'. apply delete_ptr_flag.
    + unfold remove_ptr. repeat case_match; [apply remove_at_sublist|done].
  - eapply (refines_removal _ OPENSSL_sk_shift); [done|done|by apply shift_spec| | |constructor].
    + unfold OPENSSL_sk_shift. intros r st' E. case_match; simplify_eq; [done|by eapply internal_delete_flag].
    + unfold list_shift. destruct (elems st); [done|]. by apply sublist_cons.
  - eapply (refines_removal _ OPENSSL_sk_pop); [done|done|by apply pop_spec| | |constructor].
    + unfold OPENSSL_sk_pop. intros r st' E. case_match; simplify_eq; [done|by eapply internal_delete_flag].
    + apply sublist_take.
  - by apply refines_zero.
  - by apply refines_set.
  - by apply refines_sort.
  - by eapply refines_stays; [done|done|rewrite value_spec by done; constructor].
  - eapply refines_stays; [done|done|]. rewrite find_spec by done. constructor.
Qed.

Lemma new_spec c n (st : STACK) : OPENSSL_sk_new_reserve c n = Some st ->
  sk_inv st /\ elems st = [] /\ comp st = c /\ num st = 0.
Proof.
  unfold OPENSSL_sk_new_reserve. destruct (negb struct_ok); [done|].
  assert (Hwf : stack_wf (mkSTACK 0 None false 0 c)) by (unfold stack_wf, INT_MAX; simpl; lia).
  destruct (n <=? 0) eqn:En; zbool.
  { intros [= <-]. split; [by apply inv_unsorted|done]. }
  destruct (sk_reserve_spec n true _ Hwf ltac:(lia)) as [(st' & -> & Hwf' & He & Hn & Hs & Hc & _)| ->]; [|done].
  intros [= <-]. split; [by apply inv_unsorted|done].
Qed.

Lemma run_spec ops : forall (st : STACK), sk_inv st -> num st + Z.of_nat (length ops) <= 2 ^ 30 ->
  exists outs st', sk_run ops st = (outs, st') /\ sk_inv st'
    /\ list_run ops (elems st, comp st) outs (elems st', comp st')
    /\ num st' <= num st + Z.of_nat (length ops).
Proof.
  induction ops as [|o ops IH]; intros st Hinv Hn; simpl.
  { exists [], st. split; [done|]. split; [done|]. split; [constructor|lia]. }
  simpl in Hn. destruct (refines_step o st Hinv ltac:(lia)) as (r & st1 & E & Hinv1 & Hdo & Hn1).
  destruct (IH st1 Hinv1 ltac:(lia)) as (outs & st2 & E2 & Hinv2 & Hrun & Hn2).
  exists (r :: outs), st2. rewrite E, E2. split; [done|]. split; [done|]. split; [by econstructor|lia].
Qed.


(** Searching: on every stack a sequence of operations can make,
    [OPENSSL_sk_find] returns the index of the first element that matches the key
    and -1 when there is none, by binary search when the stack is sorted and one
    by one otherwise; [OPENSSL_sk_find_all] returns the same index and the number
    of elements that match, added to the caller's variable when the stack is not
    sorted. *)
Lemma sk_find_correct c n ops x v (st st' : STACK) outs : OPENSSL_sk_new_reserve c n = Some st ->
  sk_run ops st = (outs, st') -> Z.of_nat (length ops) <= 2 ^ 30 -> x <> 0 -> num st' <> 0 ->
  let i := first_index (key_matches st' x) (elems st') in
  let k := Z.of_nat (length (matches_of st' x)) in
  OPENSSL_sk_find cmp_call x st' = Ok (i, None)
  /\ OPENSSL_sk_find_all cmp_call x v st'
     = Ok (i, Some (if i =? -1 then 0
                    else match comp st' with
                         | None => 1
                         | Some _ => if sorted st' then k else v + k
                         end)).
Proof.
  intros Hnew Hrun Hl Hx Hn. destruct (new_spec c n st Hnew) as (Hinv & He & Hc & H0).
  destruct (run_spec ops st Hinv ltac:(lia)) as (outs' & st1 & E & [Hwf Hso] & _ & Hn1).
  rewrite Hrun in E. inversion E; subst outs' st1; clear E.
  assert (Hi : find_index x st' = first_index (key_matches st' x) (elems st')).
  { unfold find_index. by rewrite (proj2 (Z.eqb_neq _ _)). }
  rewrite find_spec, find_all_spec by (done || lia). unfold found_count.
  rewrite !Hi, (proj2 (Z.eqb_neq (num st') 0)), (proj2 (Z.eqb_neq x 0)) by done. cbn zeta.
  split; [done|]. do 3 f_equal. destruct (comp st'); [done|]. by destruct (_ =? -1).
Qed.
End Proofs.

(** ** Instances *)

(** Memory that never runs out, and insertion sort. *)
#[export] Instance unlimited : PtrAlloc := {
  ptr_malloc n := Some (replicate (Z.to_nat n) 0);
  ptr_realloc old n := Some (take (Z.to_nat n) old ++ replicate (Z.to_nat n - length old) 0);
  struct_ok := true
}.

#[export] Instance unlimited_ok : PtrAllocOk unlimited.
Proof.
  split; simpl.
  - intros n d Hn [= <-]. rewrite length_replicate. lia.
  - intros old n d Hn [= <-]. rewrite length_app, length_take, length_replicate. split; [lia|].
    destruct (decide (length old <= Z.to_nat n)%nat).
    + by rewrite (take_ge old), take_app_le, Nat.min_l by lia.
    + rewrite Nat.min_r, take_app_le, take_take, Nat.min_id by (rewrite ?length_take; lia). done.
Qed.

Fixpoint ins (c : Z -> Z -> Z) (x : Z) (l : list Z) : list Z :=
  match l with [] => [x] | y :: l' => if c x y <=? 0 then x :: l else y :: ins c x l' end.
Definition ins_sort (c : Z -> Z -> Z) (l : list Z) : list Z := foldr (ins c) [] l.

Lemma ins_perm c x l : ins c x l ≡ₚ x :: l.
Proof. induction l as [|y l IH]; simpl; [done|]. destruct (_ <=? 0); [done|]. rewrite IH. constructor. Qed.

Lemma ins_sorted c x l : CmpOk c -> StronglySorted (le_of c) l -> StronglySorted (le_of c) (ins c x l).
Proof.
  intros Hc Hs. induction Hs as [|y l Hs IH Hall]; simpl; [repeat constructor|].
  destruct (c x y <=? 0) eqn:E; zbool.
  - constructor; [by constructor|]. constructor; [done|]. apply (Forall_impl _ _ _ Hall).
    intros z Hz. by eapply cmp_trans.
  - constructor; [done|]. rewrite ins_perm. constructor; [|done]. unfold le_of.
    pose proof (cmp_flip y x). lia.
Qed.

#[export] Instance ins_sort_ok : QsortOk ins_sort.
Proof.
  split; intros c l.
  - induction l as [|x l IH]; simpl; [done|]. by rewrite ins_perm, IH.
  - intros Hc. induction l as [|x l IH]; simpl; [constructor|]. by apply ins_sorted.
Qed.

(** Ascending ([false]) or descending ([true]). *)
Definition by_value (f : bool) (x y : Z) : Z := if f then y - x else x - y.

Lemma by_value_ok f : CmpOk (by_value f).
Proof. destruct f; split; unfold by_value; lia. Qed.

Definition sample_ops : list (sk_op (F := bool)) :=
  [SkPush 30; SkPush 10; SkUnshift 20; SkInsert 10 1; SkPush 40; SkSort; SkFind 10; SkDeletePtr 20; SkPop].
Definition sample_stack : STACK bool := mkSTACK 0 None false 0 (Some false).


Lemma sk_find_correct_witness :
  let st' := snd (sk_run by_value ins_sort sample_ops sample_stack) in
  OPENSSL_sk_find by_value 10 st' = Ok (0, None) /\ OPENSSL_sk_find_all by_value 10 7 st' = Ok (0, Some 2).
Proof.
  cbn zeta. set (r := sk_run by_value ins_sort sample_ops sample_stack).
  pose proof (sk_find_correct by_value ins_sort by_value_ok (Some false) 0 sample_ops 10 7 sample_stack (snd r) (fst r)
    eq_refl eq_refl ltac:(vm_compute; discriminate) ltac:(discriminate) ltac:(vm_compute; discriminate)) as [H1 H2].
  split; [exact H1|exact H2].
Defined.

(** ** Limits *)

(** Past 8/5 of an [int] the growth gives up, although the target is below
    [max_nodes]. *)
Lemma growth_gives_up : compute_growth 1 1500000000 1400000000 = Some 0 /\ 1500000000 < max_nodes.
Proof. split; reflexivity. Qed.

(** The count of an unsorted stack starts from what the caller's variable holds. *)
Lemma count_accumulates :
  let st := snd (sk_run by_value ins_sort [SkPush 10; SkPush 20] sample_stack) in
  OPENSSL_sk_find_all by_value 10 7 st = Ok (0, Some 8).
Proof. reflexivity. Qed.
