(* ===== verification/PQueue.v ===== *)
(** * Priority queues

    ssl/pqueue.c: the queues of DTLS records and of handshake fragments, chains of
    items in the order of their eight-byte priorities, without duplicates. *)

From stdpp Require Import prelude list sorting gmap.
From Stdlib Require Import ZArith Lia.
From S2P Require Import Prelude.

Local Open Scope Z_scope.

(** [memcmp] on blocks of the same size, as its sign. *)
Fixpoint memcmp (a b : list Z) : Z :=
  match a, b with
  | x :: a, y :: b => if x <? y then -1 else if y <? x then 1 else memcmp a b
  | _, _ => 0
  end.

Record pitem (A : Type) : Type := mkPITEM {
  priority : list Z;
  pdata : A
}.
Arguments mkPITEM {A}.
Arguments priority {A} _.
Arguments pdata {A} _.

(** The chain of items from [items]. *)
Definition pqueue (A : Type) : Type := list (pitem A).

Section PQueue.
Context {A : Type}.

(** [None] when there is an item with that priority. *)
Fixpoint pqueue_insert (pq : pqueue A) (item : pitem A) : option (pqueue A) :=
  match pq with
  | [] => Some [item]
  | next :: rest =>
      let cmp := memcmp (priority next) (priority item) in
      if 0 <? cmp then Some (item :: pq)
      else if cmp =? 0 then None
      else match pqueue_insert rest item with Some rest => Some (next :: rest) | None => None end
  end.

Definition pqueue_peek (pq : pqueue A) : option (pitem A) := head pq.

Definition pqueue_pop (pq : pqueue A) : option (pitem A) * pqueue A := (head pq, tail pq).

Fixpoint pqueue_find (pq : pqueue A) (prio64be : list Z) : option (pitem A) :=
  match pq with
  | [] => None
  | next :: rest => if memcmp (priority next) prio64be =? 0 then Some next else pqueue_find rest prio64be
  end.

Definition pqueue_size (pq : pqueue A) : Z := Z.of_nat (length pq).

(** ** The order *)

Lemma memcmp_be a : forall b, length a = length b -> Forall is_byte a -> Forall is_byte b ->
  (memcmp a b < 0 <-> be_val a < be_val b) /\ (memcmp a b = 0 <-> be_val a = be_val b)
  /\ -1 <= memcmp a b <= 1.
Proof.
  assert (Hcons : forall x l, be_val (x :: l) = x * 256 ^ Z.of_nat (length l) + be_val l).
  { intros x l. induction l as [|y l IH] using rev_ind; [unfold be_val, be_step; simpl; lia|].
    rewrite app_comm_cons, !be_val_snoc, IH, length_app, Nat.add_comm. simpl length.
    rewrite Nat2Z.inj_succ, Z.pow_succ_r by lia. lia. }
  induction a as [|x a IH]; intros [|y b] Hl Ha Hb; [simpl; unfold be_val; simpl; lia|done|done|].
  apply Forall_cons in Ha as [Hx Ha], Hb as [Hy Hb]. injection Hl as Hl.
  pose proof (be_val_range a Ha) as Ra. pose proof (be_val_range b Hb) as Rb.
  rewrite !Hcons, Hl. rewrite Hl in Ra. set (w := 256 ^ Z.of_nat (length b)) in *. simpl.
  destruct (x <? y) eqn:E1; zbool; [nia|]. destruct (y <? x) eqn:E2; zbool; [nia|].
  assert (x = y) as -> by lia. destruct (IH b Hl Ha Hb) as (H1 & H2 & H3). lia.
Qed.

(** Priorities are eight bytes. *)
Definition prio_ok (p : list Z) : Prop := length p = 8%nat /\ Forall is_byte p.

Definition prio (it : pitem A) : Z := be_val (priority it).

Definition pq_wf (pq : pqueue A) : Prop :=
  Forall (fun it => prio_ok (priority it)) pq /\ StronglySorted (fun a b => prio a < prio b) pq.

(** The abstraction: a finite map from priorities. *)
Definition pq_map (pq : pqueue A) : gmap Z (pitem A) := list_to_map (map (fun it => (prio it, it)) pq).

Lemma cmp_prio p q : prio_ok p -> prio_ok q ->
  (memcmp p q < 0 <-> be_val p < be_val q) /\ (memcmp p q = 0 <-> be_val p = be_val q)
  /\ -1 <= memcmp p q <= 1.
Proof. intros [Hp Bp] [Hq Bq]. apply memcmp_be; [congruence|done..]. Qed.

Lemma pq_map_above pq k : Forall (fun it => k < prio it) pq -> pq_map pq !! k = None.
Proof.
  intros H. apply not_elem_of_list_to_map_1. intros [it [E Hit]]%list_elem_of_fmap_1.
  apply list_elem_of_fmap_1 in Hit as (it' & -> & Hit'). rewrite Forall_forall in H. specialize (H _ Hit'). simpl in E. lia.
Qed.

Lemma pq_find_lookup pq p : pq_wf pq -> prio_ok p -> pqueue_find pq p = pq_map pq !! be_val p.
Proof.
  intros [Hok Hs] Hp. induction pq as [|it pq IH]; [done|]. apply Forall_cons in Hok as [Hit Hok].
  apply StronglySorted_inv in Hs as [Hs Hall]. simpl.
  destruct (cmp_prio _ _ Hit Hp) as (_ & H0 & _). unfold pq_map. simpl.
  destruct (memcmp (priority it) p =? 0) eqn:E; zbool.
  - unfold prio. rewrite (proj1 H0 E). by rewrite lookup_insert_eq.
  - rewrite lookup_insert_ne by (unfold prio; tauto). by apply IH.
Qed.

(** The items are the values of the map. *)
Lemma pq_elem_lookup pq it : pq_wf pq -> it ∈ pq <-> pq_map pq !! prio it = Some it.
Proof.
  intros [_ Hs]. unfold pq_map. induction pq as [|x pq IH]; [simpl; by rewrite elem_of_nil, lookup_empty|].
  apply StronglySorted_inv in Hs as [Hs Hall]. rewrite elem_of_cons, (IH Hs). simpl.
  destruct (decide (prio x = prio it)) as [E|E].
  - rewrite E, lookup_insert_eq. split; [|by intros [= ->]; left].
    intros [->|Hm]; [done|]. rewrite <- E in Hm. pose proof (pq_map_above pq (prio x) Hall) as Hn.
    unfold pq_map in Hn. by rewrite Hn in Hm.
  - rewrite lookup_insert_ne by done. split; [intros [->|?]; done|by right].
Qed.

(** Insertion keeps the order, adds the item, and refuses a priority there is. *)
Lemma pq_insert_spec pq it : pq_wf pq -> prio_ok (priority it) ->
  match pqueue_insert pq it with
  | Some pq' => pq_wf pq' /\ pq_map pq !! prio it = None /\ pq_map pq' = <[prio it := it]> (pq_map pq)
      /\ length pq' = S (length pq)
      /\ (forall k, Forall (fun x => k < prio x) pq -> k < prio it -> Forall (fun x => k < prio x) pq')
  | None => is_Some (pq_map pq !! prio it)
  end.
Proof.
  intros [Hok Hs] Hp. induction pq as [|x pq IH]; simpl.
  { split; [split; repeat constructor; by apply Hp|]. split; [done|]. split; [done|]. split; [done|]. 
    intros k _ Hk. by repeat constructor. }
  pose proof Hok as [Hx Hok']%Forall_cons. pose proof Hs as [Hs' Hall]%StronglySorted_inv.
  destruct (cmp_prio _ _ Hx Hp) as (H1 & H0 & Hr). fold (prio x) (prio it) in *.
  destruct (0 <? memcmp _ _) eqn:E1; zbool.
  - assert (Hlt : prio it < prio x) by lia.
    assert (Hab : Forall (fun y => prio it < prio y) (x :: pq)).
    { constructor; [done|]. apply (Forall_impl _ _ _ Hall). intros y Hy. lia. }
    split; [split; constructor; done|]. split; [by apply pq_map_above|]. split; [done|]. split; [done|].
    intros k Hk Hki. by constructor.
  - destruct (_ =? 0) eqn:E2; zbool; unfold pq_map in *; simpl.
    + rewrite (proj1 H0 E2), lookup_insert_eq. by eexists.
    + specialize (IH Hok' Hs'). destruct (pqueue_insert pq it) as [pq'|].
      * destruct IH as ([Hok2 Hs2] & Hn & Hm & Hl & Hk). simpl.
        split; [split; constructor; try done; by apply Hk; [|lia]|].
        rewrite lookup_insert_ne by lia. split; [done|]. rewrite Hm. split; [by apply insert_insert_ne; lia|].
        split; [lia|]. intros k [Hkx Hkp]%Forall_cons Hki. constructor; [done|]. by apply Hk.
      * by rewrite lookup_insert_ne by lia.
Qed.

Lemma pq_pop_spec pq : pq_wf pq ->
  pq_wf (snd (pqueue_pop pq))
  /\ match fst (pqueue_pop pq) with
     | None => pq_map pq = ∅
     | Some it => pq_map pq !! prio it = Some it /\ pq_map (snd (pqueue_pop pq)) = delete (prio it) (pq_map pq)
         /\ forall k, is_Some (pq_map pq !! k) -> prio it <= k
     end.
Proof.
  intros [Hok Hs]. destruct pq as [|it pq]; [done|]. apply Forall_cons in Hok as [Hit Hok].
  apply StronglySorted_inv in Hs as [Hs Hall]. simpl. split; [done|]. unfold pq_map; simpl.
  rewrite lookup_insert_eq. split; [done|]. fold (pq_map pq). split.
  - rewrite delete_insert_eq. symmetry. apply delete_id. by apply pq_map_above.
  - intros k. destruct (decide (k < prio it)); [|lia]. rewrite lookup_insert_ne by lia.
    rewrite pq_map_above; [by intros []|]. apply (Forall_impl _ _ _ Hall). intros y Hy. lia.
Qed.
End PQueue.
