(* ===== verification/RecordTypes.v ===== *)
(** * The record layer: data

    The structures of ssl/record/methods/recmethod_local.h as the reading side
    uses them, the constants of the record protocol, and the allocation of the
    read buffer (ssl/record/methods/tls_common.c). *)

From stdpp Require Import prelude list.
From Stdlib Require Import ZArith Lia.
From S2P Require Import Prelude PQueue.

Local Open Scope Z_scope.

(** ** Constants *)

Abbreviation SSL3_ALIGN_PAYLOAD := (8)%Z.
Abbreviation SSL3_RT_HEADER_LENGTH := (5)%Z.
Abbreviation DTLS1_RT_HEADER_LENGTH := (13)%Z.
Abbreviation SSL3_RT_MAX_PLAIN_LENGTH := (16384)%Z.
Abbreviation SSL3_RT_MAX_COMPRESSED_OVERHEAD := (1024)%Z.
Abbreviation SSL3_RT_MAX_ENCRYPTED_OVERHEAD := (256 + 64)%Z.
Abbreviation SSL3_RT_MAX_COMPRESSED_LENGTH := (SSL3_RT_MAX_PLAIN_LENGTH + SSL3_RT_MAX_COMPRESSED_OVERHEAD)%Z.
Abbreviation SSL3_RT_MAX_ENCRYPTED_LENGTH := (SSL3_RT_MAX_ENCRYPTED_OVERHEAD + SSL3_RT_MAX_COMPRESSED_LENGTH)%Z.
Abbreviation SSL_ST_READ_HEADER := (240)%Z.
Abbreviation SSL_ST_READ_BODY := (241)%Z.

Abbreviation OSSL_RECORD_RETURN_SUCCESS := (1)%Z.
Abbreviation OSSL_RECORD_RETURN_RETRY := (0)%Z.
Abbreviation OSSL_RECORD_RETURN_NON_FATAL_ERR := (-1)%Z.
Abbreviation OSSL_RECORD_RETURN_FATAL := (-2)%Z.
Abbreviation OSSL_RECORD_RETURN_EOF := (-3)%Z.

Abbreviation SSL_AD_NO_ALERT := (-1)%Z.

(** ** Structures *)

(** Where a record's bytes are: in the read buffer or in the buffer of the
    decompressed data. *)
Inductive rptr : Type := RNull | RBuf (o : Z) | RComp.

(** [struct tls_buffer_st] of a read buffer; [buf_addr] is the address of its
    first byte. *)
Record TLS_BUFFER : Type := mkTLS_BUFFER {
  buf : option (list Z);
  buf_addr : Z;
  default_len : Z;
  len : Z;
  offset : Z;
  left : Z
}.

Definition set_offset (v : Z) (b : TLS_BUFFER) : TLS_BUFFER :=
    mkTLS_BUFFER (buf b) (buf_addr b) (default_len b) (len b) v (left b).
Definition set_left (v : Z) (b : TLS_BUFFER) : TLS_BUFFER :=
    mkTLS_BUFFER (buf b) (buf_addr b) (default_len b) (len b) (offset b) v.

(** [struct tls_rl_record_st]. *)
Record TLS_RL_RECORD : Type := mkTLS_RL_RECORD {
  rec_version : Z;
  rec_type : Z;
  rec_length : Z;
  orig_len : Z;
  rec_off : Z;
  rec_data : rptr;
  rec_input : rptr;
  rec_comp : option (list Z);
  rec_epoch : Z;
  rec_seq_num : list Z
}.

Definition set_rec_type (v : Z) (r : TLS_RL_RECORD) : TLS_RL_RECORD :=
    mkTLS_RL_RECORD (rec_version r) v (rec_length r) (orig_len r) (rec_off r) (rec_data r)
    (rec_input r) (rec_comp r) (rec_epoch r) (rec_seq_num r).
Definition set_rec_length (v : Z) (r : TLS_RL_RECORD) : TLS_RL_RECORD :=
    mkTLS_RL_RECORD (rec_version r) (rec_type r) v (orig_len r) (rec_off r) (rec_data r)
    (rec_input r) (rec_comp r) (rec_epoch r) (rec_seq_num r).
Definition set_rec_off (v : Z) (r : TLS_RL_RECORD) : TLS_RL_RECORD :=
    mkTLS_RL_RECORD (rec_version r) (rec_type r) (rec_length r) (orig_len r) v (rec_data r)
    (rec_input r) (rec_comp r) (rec_epoch r) (rec_seq_num r).
Definition set_rec_input (v : rptr) (r : TLS_RL_RECORD) : TLS_RL_RECORD :=
    mkTLS_RL_RECORD (rec_version r) (rec_type r) (rec_length r) (orig_len r) (rec_off r)
    (rec_data r) v (rec_comp r) (rec_epoch r) (rec_seq_num r).
Definition set_rec_seq_num (v : list Z) (r : TLS_RL_RECORD) : TLS_RL_RECORD :=
    mkTLS_RL_RECORD (rec_version r) (rec_type r) (rec_length r) (orig_len r) (rec_off r)
    (rec_data r) (rec_input r) (rec_comp r) (rec_epoch r) v.

(** The window of received sequence numbers. *)
Record DTLS_BITMAP : Type := mkDTLS_BITMAP {
  bm_map : Z;
  max_seq_num : list Z
}.

(** A record kept for later, with the buffer it is in. *)
Record DTLS_RLAYER_RECORD_DATA : Type := mkRECORD_DATA {
  rd_packet : option Z;
  rd_packet_length : Z;
  rd_rbuf : TLS_BUFFER;
  rd_rrec : TLS_RL_RECORD
}.

(** [struct ossl_record_layer_st], the reading side: [prev] and [bio] are where
    bytes come from, [packet] is an offset in [rbuf], [env] is the rest: the
    cipher, digest and compression contexts, and the allocator. *)
Record OSSL_RECORD_LAYER (B X : Type) : Type := mkRL {
  isdtls : bool;
  rl_version : Z;
  role : Z;
  level : Z;
  epoch : Z;
  prev : option B;
  bio : option B;
  rl_options : Z;
  mode : Z;
  rbuf : TLS_BUFFER;
  rrec : list TLS_RL_RECORD;
  num_recs : Z;
  curr_rec : Z;
  num_released : Z;
  rstate : Z;
  packet : option Z;
  packet_length : Z;
  sequence : list Z;
  alert : Z;
  read_ahead : bool;
  empty_record_count : Z;
  is_first_handshake : bool;
  max_frag_len : Z;
  rl_max_early_data : Z;
  early_data_count : Z;
  use_etm : bool;
  is_first_record : bool;
  unprocessed_rcds : pqueue DTLS_RLAYER_RECORD_DATA;
  processed_rcds : pqueue DTLS_RLAYER_RECORD_DATA;
  bitmap : DTLS_BITMAP;
  next_bitmap : DTLS_BITMAP;
  rl_in_init : bool;
  max_pipelines : Z;
  env : X
}.

Arguments isdtls {B X} _.
Arguments rl_version {B X} _.
Arguments role {B X} _.
Arguments level {B X} _.
Arguments epoch {B X} _.
Arguments prev {B X} _.
Arguments bio {B X} _.
Arguments rl_options {B X} _.
Arguments mode {B X} _.
Arguments rbuf {B X} _.
Arguments rrec {B X} _.
Arguments num_recs {B X} _.
Arguments curr_rec {B X} _.
Arguments num_released {B X} _.
Arguments rstate {B X} _.
Arguments packet {B X} _.
Arguments packet_length {B X} _.
Arguments sequence {B X} _.
Arguments alert {B X} _.
Arguments read_ahead {B X} _.
Arguments empty_record_count {B X} _.
Arguments is_first_handshake {B X} _.
Arguments max_frag_len {B X} _.
Arguments rl_max_early_data {B X} _.
Arguments early_data_count {B X} _.
Arguments use_etm {B X} _.
Arguments is_first_record {B X} _.
Arguments unprocessed_rcds {B X} _.
Arguments processed_rcds {B X} _.
Arguments bitmap {B X} _.
Arguments next_bitmap {B X} _.
Arguments rl_in_init {B X} _.
Arguments max_pipelines {B X} _.
Arguments env {B X} _.
Arguments mkRL {B X}.

Definition set_rl_version {B X} (v : Z) (rl : OSSL_RECORD_LAYER B X) : OSSL_RECORD_LAYER B X :=
    mkRL (isdtls rl) v (role rl) (level rl) (epoch rl) (prev rl) (bio rl) (rl_options rl)
    (mode rl) (rbuf rl) (rrec rl) (num_recs rl) (curr_rec rl) (num_released rl) (rstate rl)
    (packet rl) (packet_length rl) (sequence rl) (alert rl) (read_ahead rl)
    (empty_record_count rl) (is_first_handshake rl) (max_frag_len rl)
    (rl_max_early_data rl) (early_data_count rl) (use_etm rl) (is_first_record rl)
    (unprocessed_rcds rl) (processed_rcds rl) (bitmap rl) (next_bitmap rl) (rl_in_init rl)
    (max_pipelines rl) (env rl).
Definition set_prev {B X} (v : option B) (rl : OSSL_RECORD_LAYER B X) : OSSL_RECORD_LAYER B X :=
    mkRL (isdtls rl) (rl_version rl) (role rl) (level rl) (epoch rl) v (bio rl)
    (rl_options rl) (mode rl) (rbuf rl) (rrec rl) (num_recs rl) (curr_rec rl)
    (num_released rl) (rstate rl) (packet rl) (packet_length rl) (sequence rl) (alert rl)
    (read_ahead rl) (empty_record_count rl) (is_first_handshake rl) (max_frag_len rl)
    (rl_max_early_data rl) (early_data_count rl) (use_etm rl) (is_first_record rl)
    (unprocessed_rcds rl) (processed_rcds rl) (bitmap rl) (next_bitmap rl) (rl_in_init rl)
    (max_pipelines rl) (env rl).
Definition set_bio {B X} (v : option B) (rl : OSSL_RECORD_LAYER B X) : OSSL_RECORD_LAYER B X :=
    mkRL (isdtls rl) (rl_version rl) (role rl) (level rl) (epoch rl) (prev rl) v
    (rl_options rl) (mode rl) (rbuf rl) (rrec rl) (num_recs rl) (curr_rec rl)
    (num_released rl) (rstate rl) (packet rl) (packet_length rl) (sequence rl) (alert rl)
    (read_ahead rl) (empty_record_count rl) (is_first_handshake rl) (max_frag_len rl)
    (rl_max_early_data rl) (early_data_count rl) (use_etm rl) (is_first_record rl)
    (unprocessed_rcds rl) (processed_rcds rl) (bitmap rl) (next_bitmap rl) (rl_in_init rl)
    (max_pipelines rl) (env rl).
Definition set_rbuf {B X} (v : TLS_BUFFER) (rl : OSSL_RECORD_LAYER B X) : OSSL_RECORD_LAYER B X :=
    mkRL (isdtls rl) (rl_version rl) (role rl) (level rl) (epoch rl) (prev rl) (bio rl)
    (rl_options rl) (mode rl) v (rrec rl) (num_recs rl) (curr_rec rl) (num_released rl)
    (rstate rl) (packet rl) (packet_length rl) (sequence rl) (alert rl) (read_ahead rl)
    (empty_record_count rl) (is_first_handshake rl) (max_frag_len rl)
    (rl_max_early_data rl) (early_data_count rl) (use_etm rl) (is_first_record rl)
    (unprocessed_rcds rl) (processed_rcds rl) (bitmap rl) (next_bitmap rl) (rl_in_init rl)
    (max_pipelines rl) (env rl).
Definition set_rrec {B X} (v : list TLS_RL_RECORD) (rl : OSSL_RECORD_LAYER B X) : OSSL_RECORD_LAYER B X :=
    mkRL (isdtls rl) (rl_version rl) (role rl) (level rl) (epoch rl) (prev rl) (bio rl)
    (rl_options rl) (mode rl) (rbuf rl) v (num_recs rl) (curr_rec rl) (num_released rl)
    (rstate rl) (packet rl) (packet_length rl) (sequence rl) (alert rl) (read_ahead rl)
    (empty_record_count rl) (is_first_handshake rl) (max_frag_len rl)
    (rl_max_early_data rl) (early_data_count rl) (use_etm rl) (is_first_record rl)
    (unprocessed_rcds rl) (processed_rcds rl) (bitmap rl) (next_bitmap rl) (rl_in_init rl)
    (max_pipelines rl) (env rl).
Definition set_num_recs {B X} (v : Z) (rl : OSSL_RECORD_LAYER B X) : OSSL_RECORD_LAYER B X :=
    mkRL (isdtls rl) (rl_version rl) (role rl) (level rl) (epoch rl) (prev rl) (bio rl)
    (rl_options rl) (mode rl) (rbuf rl) (rrec rl) v (curr_rec rl) (num_released rl)
    (rstate rl) (packet rl) (packet_length rl) (sequence rl) (alert rl) (read_ahead rl)
    (empty_record_count rl) (is_first_handshake rl) (max_frag_len rl)
    (rl_max_early_data rl) (early_data_count rl) (use_etm rl) (is_first_record rl)
    (unprocessed_rcds rl) (processed_rcds rl) (bitmap rl) (next_bitmap rl) (rl_in_init rl)
    (max_pipelines rl) (env rl).
Definition set_curr_rec {B X} (v : Z) (rl : OSSL_RECORD_LAYER B X) : OSSL_RECORD_LAYER B X :=
    mkRL (isdtls rl) (rl_version rl) (role rl) (level rl) (epoch rl) (prev rl) (bio rl)
    (rl_options rl) (mode rl) (rbuf rl) (rrec rl) (num_recs rl) v (num_released rl)
    (rstate rl) (packet rl) (packet_length rl) (sequence rl) (alert rl) (read_ahead rl)
    (empty_record_count rl) (is_first_handshake rl) (max_frag_len rl)
    (rl_max_early_data rl) (early_data_count rl) (use_etm rl) (is_first_record rl)
    (unprocessed_rcds rl) (processed_rcds rl) (bitmap rl) (next_bitmap rl) (rl_in_init rl)
    (max_pipelines rl) (env rl).
Definition set_num_released {B X} (v : Z) (rl : OSSL_RECORD_LAYER B X) : OSSL_RECORD_LAYER B X :=
    mkRL (isdtls rl) (rl_version rl) (role rl) (level rl) (epoch rl) (prev rl) (bio rl)
    (rl_options rl) (mode rl) (rbuf rl) (rrec rl) (num_recs rl) (curr_rec rl) v (rstate rl)
    (packet rl) (packet_length rl) (sequence rl) (alert rl) (read_ahead rl)
    (empty_record_count rl) (is_first_handshake rl) (max_frag_len rl)
    (rl_max_early_data rl) (early_data_count rl) (use_etm rl) (is_first_record rl)
    (unprocessed_rcds rl) (processed_rcds rl) (bitmap rl) (next_bitmap rl) (rl_in_init rl)
    (max_pipelines rl) (env rl).
Definition set_rstate {B X} (v : Z) (rl : OSSL_RECORD_LAYER B X) : OSSL_RECORD_LAYER B X :=
    mkRL (isdtls rl) (rl_version rl) (role rl) (level rl) (epoch rl) (prev rl) (bio rl)
    (rl_options rl) (mode rl) (rbuf rl) (rrec rl) (num_recs rl) (curr_rec rl)
    (num_released rl) v (packet rl) (packet_length rl) (sequence rl) (alert rl)
    (read_ahead rl) (empty_record_count rl) (is_first_handshake rl) (max_frag_len rl)
    (rl_max_early_data rl) (early_data_count rl) (use_etm rl) (is_first_record rl)
    (unprocessed_rcds rl) (processed_rcds rl) (bitmap rl) (next_bitmap rl) (rl_in_init rl)
    (max_pipelines rl) (env rl).
Definition set_packet {B X} (v : option Z) (rl : OSSL_RECORD_LAYER B X) : OSSL_RECORD_LAYER B X :=
    mkRL (isdtls rl) (rl_version rl) (role rl) (level rl) (epoch rl) (prev rl) (bio rl)
    (rl_options rl) (mode rl) (rbuf rl) (rrec rl) (num_recs rl) (curr_rec rl)
    (num_released rl) (rstate rl) v (packet_length rl) (sequence rl) (alert rl)
    (read_ahead rl) (empty_record_count rl) (is_first_handshake rl) (max_frag_len rl)
    (rl_max_early_data rl) (early_data_count rl) (use_etm rl) (is_first_record rl)
    (unprocessed_rcds rl) (processed_rcds rl) (bitmap rl) (next_bitmap rl) (rl_in_init rl)
    (max_pipelines rl) (env rl).
Definition set_packet_length {B X} (v : Z) (rl : OSSL_RECORD_LAYER B X) : OSSL_RECORD_LAYER B X :=
    mkRL (isdtls rl) (rl_version rl) (role rl) (level rl) (epoch rl) (prev rl) (bio rl)
    (rl_options rl) (mode rl) (rbuf rl) (rrec rl) (num_recs rl) (curr_rec rl)
    (num_released rl) (rstate rl) (packet rl) v (sequence rl) (alert rl) (read_ahead rl)
    (empty_record_count rl) (is_first_handshake rl) (max_frag_len rl)
    (rl_max_early_data rl) (early_data_count rl) (use_etm rl) (is_first_record rl)
    (unprocessed_rcds rl) (processed_rcds rl) (bitmap rl) (next_bitmap rl) (rl_in_init rl)
    (max_pipelines rl) (env rl).
Definition set_sequence {B X} (v : list Z) (rl : OSSL_RECORD_LAYER B X) : OSSL_RECORD_LAYER B X :=
    mkRL (isdtls rl) (rl_version rl) (role rl) (level rl) (epoch rl) (prev rl) (bio rl)
    (rl_options rl) (mode rl) (rbuf rl) (rrec rl) (num_recs rl) (curr_rec rl)
    (num_released rl) (rstate rl) (packet rl) (packet_length rl) v (alert rl)
    (read_ahead rl) (empty_record_count rl) (is_first_handshake rl) (max_frag_len rl)
    (rl_max_early_data rl) (early_data_count rl) (use_etm rl) (is_first_record rl)
    (unprocessed_rcds rl) (processed_rcds rl) (bitmap rl) (next_bitmap rl) (rl_in_init rl)
    (max_pipelines rl) (env rl).
Definition set_alert {B X} (v : Z) (rl : OSSL_RECORD_LAYER B X) : OSSL_RECORD_LAYER B X :=
    mkRL (isdtls rl) (rl_version rl) (role rl) (level rl) (epoch rl) (prev rl) (bio rl)
    (rl_options rl) (mode rl) (rbuf rl) (rrec rl) (num_recs rl) (curr_rec rl)
    (num_released rl) (rstate rl) (packet rl) (packet_length rl) (sequence rl) v
    (read_ahead rl) (empty_record_count rl) (is_first_handshake rl) (max_frag_len rl)
    (rl_max_early_data rl) (early_data_count rl) (use_etm rl) (is_first_record rl)
    (unprocessed_rcds rl) (processed_rcds rl) (bitmap rl) (next_bitmap rl) (rl_in_init rl)
    (max_pipelines rl) (env rl).
Definition set_empty_record_count {B X} (v : Z) (rl : OSSL_RECORD_LAYER B X) : OSSL_RECORD_LAYER B X :=
    mkRL (isdtls rl) (rl_version rl) (role rl) (level rl) (epoch rl) (prev rl) (bio rl)
    (rl_options rl) (mode rl) (rbuf rl) (rrec rl) (num_recs rl) (curr_rec rl)
    (num_released rl) (rstate rl) (packet rl) (packet_length rl) (sequence rl) (alert rl)
    (read_ahead rl) v (is_first_handshake rl) (max_frag_len rl) (rl_max_early_data rl)
    (early_data_count rl) (use_etm rl) (is_first_record rl) (unprocessed_rcds rl)
    (processed_rcds rl) (bitmap rl) (next_bitmap rl) (rl_in_init rl) (max_pipelines rl)
    (env rl).
Definition set_early_data_count {B X} (v : Z) (rl : OSSL_RECORD_LAYER B X) : OSSL_RECORD_LAYER B X :=
    mkRL (isdtls rl) (rl_version rl) (role rl) (level rl) (epoch rl) (prev rl) (bio rl)
    (rl_options rl) (mode rl) (rbuf rl) (rrec rl) (num_recs rl) (curr_rec rl)
    (num_released rl) (rstate rl) (packet rl) (packet_length rl) (sequence rl) (alert rl)
    (read_ahead rl) (empty_record_count rl) (is_first_handshake rl) (max_frag_len rl)
    (rl_max_early_data rl) v (use_etm rl) (is_first_record rl) (unprocessed_rcds rl)
    (processed_rcds rl) (bitmap rl) (next_bitmap rl) (rl_in_init rl) (max_pipelines rl)
    (env rl).
Definition set_is_first_record {B X} (v : bool) (rl : OSSL_RECORD_LAYER B X) : OSSL_RECORD_LAYER B X :=
    mkRL (isdtls rl) (rl_version rl) (role rl) (level rl) (epoch rl) (prev rl) (bio rl)
    (rl_options rl) (mode rl) (rbuf rl) (rrec rl) (num_recs rl) (curr_rec rl)
    (num_released rl) (rstate rl) (packet rl) (packet_length rl) (sequence rl) (alert rl)
    (read_ahead rl) (empty_record_count rl) (is_first_handshake rl) (max_frag_len rl)
    (rl_max_early_data rl) (early_data_count rl) (use_etm rl) v (unprocessed_rcds rl)
    (processed_rcds rl) (bitmap rl) (next_bitmap rl) (rl_in_init rl) (max_pipelines rl)
    (env rl).
Definition set_unprocessed_rcds {B X} (v : pqueue DTLS_RLAYER_RECORD_DATA) (rl : OSSL_RECORD_LAYER B X) : OSSL_RECORD_LAYER B X :=
    mkRL (isdtls rl) (rl_version rl) (role rl) (level rl) (epoch rl) (prev rl) (bio rl)
    (rl_options rl) (mode rl) (rbuf rl) (rrec rl) (num_recs rl) (curr_rec rl)
    (num_released rl) (rstate rl) (packet rl) (packet_length rl) (sequence rl) (alert rl)
    (read_ahead rl) (empty_record_count rl) (is_first_handshake rl) (max_frag_len rl)
    (rl_max_early_data rl) (early_data_count rl) (use_etm rl) (is_first_record rl) v
    (processed_rcds rl) (bitmap rl) (next_bitmap rl) (rl_in_init rl) (max_pipelines rl)
    (env rl).
Definition set_processed_rcds {B X} (v : pqueue DTLS_RLAYER_RECORD_DATA) (rl : OSSL_RECORD_LAYER B X) : OSSL_RECORD_LAYER B X :=
    mkRL (isdtls rl) (rl_version rl) (role rl) (level rl) (epoch rl) (prev rl) (bio rl)
    (rl_options rl) (mode rl) (rbuf rl) (rrec rl) (num_recs rl) (curr_rec rl)
    (num_released rl) (rstate rl) (packet rl) (packet_length rl) (sequence rl) (alert rl)
    (read_ahead rl) (empty_record_count rl) (is_first_handshake rl) (max_frag_len rl)
    (rl_max_early_data rl) (early_data_count rl) (use_etm rl) (is_first_record rl)
    (unprocessed_rcds rl) v (bitmap rl) (next_bitmap rl) (rl_in_init rl) (max_pipelines rl)
    (env rl).
Definition set_bitmap {B X} (v : DTLS_BITMAP) (rl : OSSL_RECORD_LAYER B X) : OSSL_RECORD_LAYER B X :=
    mkRL (isdtls rl) (rl_version rl) (role rl) (level rl) (epoch rl) (prev rl) (bio rl)
    (rl_options rl) (mode rl) (rbuf rl) (rrec rl) (num_recs rl) (curr_rec rl)
    (num_released rl) (rstate rl) (packet rl) (packet_length rl) (sequence rl) (alert rl)
    (read_ahead rl) (empty_record_count rl) (is_first_handshake rl) (max_frag_len rl)
    (rl_max_early_data rl) (early_data_count rl) (use_etm rl) (is_first_record rl)
    (unprocessed_rcds rl) (processed_rcds rl) v (next_bitmap rl) (rl_in_init rl)
    (max_pipelines rl) (env rl).
Definition set_next_bitmap {B X} (v : DTLS_BITMAP) (rl : OSSL_RECORD_LAYER B X) : OSSL_RECORD_LAYER B X :=
    mkRL (isdtls rl) (rl_version rl) (role rl) (level rl) (epoch rl) (prev rl) (bio rl)
    (rl_options rl) (mode rl) (rbuf rl) (rrec rl) (num_recs rl) (curr_rec rl)
    (num_released rl) (rstate rl) (packet rl) (packet_length rl) (sequence rl) (alert rl)
    (read_ahead rl) (empty_record_count rl) (is_first_handshake rl) (max_frag_len rl)
    (rl_max_early_data rl) (early_data_count rl) (use_etm rl) (is_first_record rl)
    (unprocessed_rcds rl) (processed_rcds rl) (bitmap rl) v (rl_in_init rl)
    (max_pipelines rl) (env rl).
Definition set_rl_in_init {B X} (v : bool) (rl : OSSL_RECORD_LAYER B X) : OSSL_RECORD_LAYER B X :=
    mkRL (isdtls rl) (rl_version rl) (role rl) (level rl) (epoch rl) (prev rl) (bio rl)
    (rl_options rl) (mode rl) (rbuf rl) (rrec rl) (num_recs rl) (curr_rec rl)
    (num_released rl) (rstate rl) (packet rl) (packet_length rl) (sequence rl) (alert rl)
    (read_ahead rl) (empty_record_count rl) (is_first_handshake rl) (max_frag_len rl)
    (rl_max_early_data rl) (early_data_count rl) (use_etm rl) (is_first_record rl)
    (unprocessed_rcds rl) (processed_rcds rl) (bitmap rl) (next_bitmap rl) v
    (max_pipelines rl) (env rl).
Definition set_env {B X} (v : X) (rl : OSSL_RECORD_LAYER B X) : OSSL_RECORD_LAYER B X :=
    mkRL (isdtls rl) (rl_version rl) (role rl) (level rl) (epoch rl) (prev rl) (bio rl)
    (rl_options rl) (mode rl) (rbuf rl) (rrec rl) (num_recs rl) (curr_rec rl)
    (num_released rl) (rstate rl) (packet rl) (packet_length rl) (sequence rl) (alert rl)
    (read_ahead rl) (empty_record_count rl) (is_first_handshake rl) (max_frag_len rl)
    (rl_max_early_data rl) (early_data_count rl) (use_etm rl) (is_first_record rl)
    (unprocessed_rcds rl) (processed_rcds rl) (bitmap rl) (next_bitmap rl) (rl_in_init rl)
    (max_pipelines rl) v.

(** A slot of [rrec]; DTLS uses only the first. *)
Definition no_record : TLS_RL_RECORD := mkTLS_RL_RECORD 0 0 0 0 0 RNull RNull None 0 (replicate 8 0).
Definition rrec_at {B X} (j : nat) (rl : OSSL_RECORD_LAYER B X) : TLS_RL_RECORD := default no_record (rrec rl !! j).
Definition upd_rrec {B X} (j : nat) (f : TLS_RL_RECORD -> TLS_RL_RECORD) (rl : OSSL_RECORD_LAYER B X) :
  OSSL_RECORD_LAYER B X := set_rrec (alter f j (rrec rl)) rl.
Definition rr {B X} (rl : OSSL_RECORD_LAYER B X) : TLS_RL_RECORD := rrec_at 0 rl.
Definition upd_rr {B X} (f : TLS_RL_RECORD -> TLS_RL_RECORD) (rl : OSSL_RECORD_LAYER B X) : OSSL_RECORD_LAYER B X :=
  upd_rrec 0 f rl.

(** The bytes a pointer of a record points at, from offset [o]. *)
Definition ptr_bytes {B X} (rl : OSSL_RECORD_LAYER B X) (r : TLS_RL_RECORD) (p : rptr) (o n : Z) : option (list Z) :=
  match p with
  | RNull => None
  | RBuf b => match buf (rbuf rl) with Some mem => mem_read mem (b + o) n | None => None end
  | RComp => match rec_comp r with Some c => mem_read c o n | None => None end
  end.

(** [RLAYERfatal]. *)
Definition rlayer_fatal {B X} (al : Z) (rl : OSSL_RECORD_LAYER B X) : OSSL_RECORD_LAYER B X := set_alert al rl.

(** ** Where bytes come from *)

(** What [BIO_read] gives: bytes, nothing yet, the end, or an error. *)
Inductive bio_result : Type := BioData (bs : list Z) | BioRetry | BioEof | BioError.

Class BIO (B : Type) : Type := { BIO_read : B -> Z -> bio_result * B }.

(** At least one byte and not more than asked for; [bio_size] bounds what is to
    come. *)
Class BIOOk (B : Type) `{BIO B} : Type := {
  bio_size : B -> nat;
  bio_read_data b n bs b' : 0 < n -> BIO_read b n = (BioData bs, b') ->
    bs <> [] /\ Z.of_nat (length bs) <= n /\ Forall is_byte bs /\ (bio_size b' < bio_size b)%nat;
  bio_read_keeps b n r b' : BIO_read b n = (r, b') -> (bio_size b' <= bio_size b)%nat
}.

(** ** Protocol version specific functions, contexts and memory

    [record_functions_st] as far as reading calls it, what is asked of the
    contexts, and the allocator. *)
Class record_functions (B X : Type) : Type := {
  (** The bytes and the address of a block. *)
  rl_malloc : X -> Z -> option (list Z * Z) * X;
  (** Is there memory for a structure? *)
  rl_item_ok : X -> bool * X;
  allow_compression : X -> bool;
  (** [md_ctx]: [NULL], or its digest, which can be [NULL], as its size. *)
  md_ctx : X -> option (option Z);
  has_enc_ctx : X -> bool;
  has_compctx : X -> bool;
  (** [COMP_expand_block] into at most so many bytes; [None] is an error. *)
  expand_block : X -> list Z -> Z -> option (list Z) * X;
  (** [cipher(rl, rl->rrec, n_recs, 0, macs, macsize)]: the result and [macs]. *)
  rl_cipher : Z -> Z -> OSSL_RECORD_LAYER B X -> ret (Z * list (option (list Z))) * OSSL_RECORD_LAYER B X;
  (** [mac(rl, &rl->rrec[j], md, 0)]: the result and [md]. *)
  rl_mac : nat -> OSSL_RECORD_LAYER B X -> ret (Z * list Z) * OSSL_RECORD_LAYER B X
}.

(** ** The read buffer *)

(** The gap in front of the data that aligns the payload. *)
Definition rbuf_align (b : TLS_BUFFER) : Z :=
  SSL3_ALIGN_PAYLOAD - 1 - (buf_addr b + SSL3_RT_HEADER_LENGTH - 1) `mod` SSL3_ALIGN_PAYLOAD.

Definition tls_release_read_buffer {B X} (rl : OSSL_RECORD_LAYER B X) : OSSL_RECORD_LAYER B X :=
  let b := rbuf rl in
  set_rbuf (mkTLS_BUFFER None (buf_addr b) (default_len b) (len b) (offset b) (left b)) rl.

Section ReadBuffer.
Context {B X : Type} `{record_functions B X}.
Local Abbreviation RL := (OSSL_RECORD_LAYER B X).

Definition tls_setup_read_buffer : ST RL unit := fun rl =>
  let b := rbuf rl in
  let headerlen := if isdtls rl then DTLS1_RT_HEADER_LENGTH else SSL3_RT_HEADER_LENGTH in
  let align := Z.land (- SSL3_RT_HEADER_LENGTH) (SSL3_ALIGN_PAYLOAD - 1) in
  match buf b with
  | Some _ => (Ok tt, rl)
  | None =>
      let n := max_frag_len rl + SSL3_RT_MAX_ENCRYPTED_OVERHEAD + headerlen + align in
      let n := if allow_compression (env rl) then n + SSL3_RT_MAX_COMPRESSED_OVERHEAD else n in
      let n := if 1 <? max_pipelines rl then n * max_pipelines rl else n in
      let n := if n <? default_len b then default_len b else n in
      match rl_malloc (env rl) n with
      | (None, x) => (Fail, rlayer_fatal SSL_AD_NO_ALERT (set_env x rl))
      | (Some (p, a), x) =>
          (Ok tt, set_rbuf (mkTLS_BUFFER (Some p) a (default_len b) n (offset b) (left b)) (set_env x rl))
      end
  end.

Definition tls_do_uncompress (j : nat) : ST RL unit := fun rl =>
  let '(c, x) := match rec_comp (rrec_at j rl) with
                 | Some c => (Some c, env rl)
                 | None => match rl_malloc (env rl) SSL3_RT_MAX_ENCRYPTED_LENGTH with
                           | (Some (c, _), x) => (Some c, x)
                           | (None, x) => (None, x)
                           end
                 end in
  let rl := set_env x rl in
  match c with
  | None => (Fail, rl)
  | Some c =>
      let r := rrec_at j rl in
      match ptr_bytes rl r (rec_data r) 0 (rec_length r) with
      | None => (Fault, rl)
      | Some src =>
          let '(out, x) := expand_block (env rl) src SSL3_RT_MAX_PLAIN_LENGTH in
          let rl := set_env x rl in
          let put (f : TLS_RL_RECORD -> TLS_RL_RECORD) := upd_rrec j f rl in
          match out with
          | None => (Fail, put (fun r => mkTLS_RL_RECORD (rec_version r) (rec_type r) (rec_length r) (orig_len r)
                      (rec_off r) (rec_data r) (rec_input r) (Some c) (rec_epoch r) (rec_seq_num r)))
          | Some out =>
              match mem_write c 0 out with
              | None => (Fault, rl)
              | Some c =>
                  (Ok tt, put (fun r => mkTLS_RL_RECORD (rec_version r) (rec_type r) (Z.of_nat (length out))
                     (orig_len r) (rec_off r) RComp (rec_input r) (Some c) (rec_epoch r) (rec_seq_num r)))
              end
          end
      end
  end.
End ReadBuffer.
