(* ===== verification/RecordRead.v ===== *)
(** * The record layer: reading bytes

    [tls_default_read_n] of ssl/record/methods/tls_common.c, which both TLS and
    DTLS use to get the next bytes of a record, and the functions with which
    records are handed out ([tls_read_record], [tls_release_record]). *)

From stdpp Require Import prelude list.
From Stdlib Require Import ZArith Lia.
From S2P Require Import Prelude PQueue RecordTypes.

Local Open Scope Z_scope.

Abbreviation SSL_MODE_RELEASE_BUFFERS := (16)%Z.
Abbreviation SSL_AD_INTERNAL_ERROR := (80)%Z.
Abbreviation SSL_OP_CLEANSE_PLAINTEXT := (2)%Z.

Create Rewrite HintDb rlayer.

Section Read.
Context {B X : Type} `{!BIO B}.
Local Abbreviation RL := (OSSL_RECORD_LAYER B X).

(** The loop that reads until there are [n] bytes; [at_] is where the bytes held
    begin.  The result is the return code, [n] and [left].  [Fault] also when the
    fuel is used up. *)
Fixpoint read_loop (fuel : nat) (n max at_ left_ : Z) (rl : RL) : ret (Z * Z * Z) * RL :=
  if n <=? left_ then (Ok (OSSL_RECORD_RETURN_SUCCESS, n, left_), rl)
  else match fuel with
  | O => (Fault, rl)
  | S fuel =>
      match (match prev rl with Some b => Some b | None => bio rl end) with
      | None => (Ok (OSSL_RECORD_RETURN_FATAL, n, left_), rlayer_fatal SSL_AD_INTERNAL_ERROR rl)
      | Some b =>
          let '(r, b) := BIO_read b (max - left_) in
          let from_prev := match prev rl with Some _ => true | None => false end in
          let rl := if from_prev then set_prev (Some b) rl else set_bio (Some b) rl in
          match r with
          | BioData bs =>
              match buf (rbuf rl) with
              | None => (Fault, rl)
              | Some mem =>
                  match mem_write mem (at_ + left_) bs with
                  | None => (Fault, rl)
                  | Some mem =>
                      let rb := rbuf rl in
                      let rl := set_rbuf (mkTLS_BUFFER (Some mem) (buf_addr rb) (default_len rb) (len rb)
                                            (offset rb) (left rb)) rl in
                      let left_ := left_ + Z.of_nat (length bs) in
                      let n := if isdtls rl && (left_ <? n) then left_ else n in
                      read_loop fuel n max at_ left_ rl
                  end
              end
          | BioRetry =>
              if from_prev then read_loop fuel n max at_ left_ (set_prev None rl)
              else (Ok (OSSL_RECORD_RETURN_RETRY, n, left_), rl)
          | BioEof => (Ok (OSSL_RECORD_RETURN_EOF, n, left_), rl)
          | BioError => (Ok (OSSL_RECORD_RETURN_FATAL, n, left_), rl)
          end
      end
  end.

(** Point [packet] at the bytes there are and move them to the front. *)
Definition read_n_prepare (extend clearold : bool) (rl : RL) : option RL :=
  let left_ := left (rbuf rl) in
  let align := rbuf_align (rbuf rl) in
  let rl := if extend then rl
            else
              let rb := if left_ =? 0 then set_offset align (rbuf rl) else rbuf rl in
              set_packet (Some (offset rb)) (set_packet_length 0 (set_rbuf rb rl)) in
  match buf (rbuf rl), packet rl with
  | Some mem, Some p =>
      let len_ := packet_length rl in
      if negb (p =? align) && clearold then
        match mem_read mem p (len_ + left_) with
        | None => None
        | Some bs =>
            match mem_write mem align bs with
            | None => None
            | Some mem =>
                let rb := rbuf rl in
                Some (set_packet (Some align)
                        (set_rbuf (mkTLS_BUFFER (Some mem) (buf_addr rb) (default_len rb) (len rb)
                                     (len_ + align) (left rb)) rl))
            end
        end
      else Some rl
  | _, _ => None
  end.

(** The return code and [*readbytes]. *)
Definition tls_default_read_n (n max : Z) (extend clearold : bool) (rl : RL) : ret (Z * Z) * RL :=
  if n =? 0 then (Ok (OSSL_RECORD_RETURN_NON_FATAL_ERR, 0), rl)
  else match read_n_prepare extend clearold rl with
  | None => (Fault, rl)
  | Some rl =>
      let rb := rbuf rl in
      let left_ := left rb in
      let len_ := packet_length rl in
      if isdtls rl && (left_ =? 0) && extend then (Ok (OSSL_RECORD_RETURN_NON_FATAL_ERR, 0), rl)
      else
        let n := if isdtls rl && (0 <? left_) && (left_ <? n) then left_ else n in
        let room := wrap64 (len rb - offset rb) in
        if n <=? left_ then
          (Ok (OSSL_RECORD_RETURN_SUCCESS, n),
           set_packet_length (len_ + n) (set_rbuf (set_left (left_ - n) (set_offset (offset rb + n) rb)) rl))
        else if room <? n then (Ok (OSSL_RECORD_RETURN_FATAL, 0), rlayer_fatal SSL_AD_INTERNAL_ERROR rl)
        else
          let max := if negb (read_ahead rl) && negb (isdtls rl) then n
                     else let max := if max <? n then n else max in
                          if room <? max then room else max in
          match read_loop (Z.to_nat (n - left_) + 1) n max (rbuf_align rb + len_) left_ rl with
          | (Ok (r, n, left_), rl) =>
              let rb := rbuf rl in
              if r <=? OSSL_RECORD_RETURN_RETRY then
                let rl := set_rbuf (set_left left_ rb) rl in
                (Ok (r, 0), if has (mode rl) SSL_MODE_RELEASE_BUFFERS && negb (isdtls rl)
                               && (len_ + left_ =? 0)
                            then tls_release_read_buffer rl else rl)
              else
                (Ok (OSSL_RECORD_RETURN_SUCCESS, n),
                 set_packet_length (len_ + n)
                   (set_rbuf (set_left (left_ - n) (set_offset (offset rb + n) rb)) rl))
          | (Fail, rl) => (Fail, rl)
          | (Fault, rl) => (Fault, rl)
          end
  end.

(** ** What is read

    [reads (prev, bio) got (prev', bio')]: the calls of [BIO_read] that take the
    sources from one state to the other give the bytes [got]. *)
Inductive reads : option B * option B -> list Z -> option B * option B -> Prop :=
  | reads_nil s : reads s [] s
  | reads_prev b n bs b' o got s : 0 < n -> BIO_read b n = (BioData bs, b') ->
      reads (Some b', o) got s -> reads (Some b, o) (bs ++ got) s
  | reads_bio b n bs b' got s : 0 < n -> BIO_read b n = (BioData bs, b') ->
      reads (None, Some b') got s -> reads (None, Some b) (bs ++ got) s
  | reads_switch b n b' o got s : 0 < n -> BIO_read b n = (BioRetry, b') ->
      reads (None, o) got s -> reads (Some b, o) got s
  | reads_stop_prev b n r b' o : 0 < n -> BIO_read b n = (r, b') -> r = BioEof \/ r = BioError ->
      reads (Some b, o) [] (Some b', o)
  | reads_stop b n r b' : 0 < n -> BIO_read b n = (r, b') -> r = BioRetry \/ r = BioEof \/ r = BioError ->
      reads (None, Some b) [] (None, Some b').

(** The parts of the record layer that reading changes. *)
Definition with_io (p b : option B) (rb : TLS_BUFFER) (a : Z) (rl : RL) : RL :=
  set_alert a (set_bio b (set_prev p (set_rbuf rb rl))).
Definition with_mem (mem : list Z) (rb : TLS_BUFFER) : TLS_BUFFER :=
  mkTLS_BUFFER (Some mem) (buf_addr rb) (default_len rb) (len rb) (offset rb) (left rb).

Lemma with_mem_same mem rb : buf rb = Some mem -> with_mem mem rb = rb.
Proof. destruct rb. simpl. by intros ->. Qed.

Definition from_prev (rl : RL) : Z := match prev rl with Some _ => 1 | None => 0 end.

Context `{!BIOOk B}.

(** What the loop does, from [left_] bytes held. *)
Record loop_result (n max at_ left_ : Z) (mem : list Z) (rl : RL) (code n' left' : Z) (rl' : RL) : Prop := {
  lr_got : exists got mem' a',
    rl' = with_io (prev rl') (bio rl') (with_mem mem' (rbuf rl)) a' rl
    /\ reads (prev rl, bio rl) got (prev rl', bio rl') /\ left' = left_ + Z.of_nat (length got)
    /\ length mem' = length mem
    /\ take (Z.to_nat (at_ + left')) mem' = take (Z.to_nat (at_ + left_)) mem ++ got
    /\ Forall is_byte got /\ (Forall is_byte mem -> Forall is_byte mem')
    /\ (a' = alert rl \/ (a' = SSL_AD_INTERNAL_ERROR /\ code = OSSL_RECORD_RETURN_FATAL));
  lr_max : left' <= max;
  lr_n : 0 < n' <= n;
  lr_code : (code = OSSL_RECORD_RETURN_SUCCESS /\ n' <= left' /\ (isdtls rl = false -> n' = n))
            \/ (code <= OSSL_RECORD_RETURN_RETRY /\ n' = n /\ left' < n)
}.

Lemma write_end (mem bs mem' : list Z) (i : Z) : 0 <= i -> mem_write mem i bs = Some mem' ->
  take (Z.to_nat (i + Z.of_nat (length bs))) mem' = take (Z.to_nat i) mem ++ bs.
Proof.
  intros Hi. unfold mem_write. destruct (_ && _) eqn:E; [|done]. intros [= <-]. zbool.
  rewrite app_assoc. apply take_app_length'. rewrite length_app, length_take. lia.
Qed.

Lemma write_read (mem bs mem' : list Z) (i : Z) : mem_write mem i bs = Some mem' ->
  take (length bs) (drop (Z.to_nat i) mem') = bs.
Proof.
  unfold mem_write. destruct (_ && _) eqn:E; [|done]. intros [= <-]. zbool.
  rewrite drop_app_ge by (rewrite length_take; lia).
  replace (Z.to_nat i - length (take (Z.to_nat i) mem))%nat with 0%nat by (rewrite length_take; lia).
  by rewrite drop_0, take_app_length.
Qed.

Lemma write_bytes (mem bs mem' : list Z) (i : Z) : mem_write mem i bs = Some mem' ->
  Forall is_byte mem -> Forall is_byte bs -> Forall is_byte mem'.
Proof.
  unfold mem_write. destruct (_ && _) eqn:E; [|done]. intros [= <-] Hm Hb.
  apply Forall_app; split; [by apply Forall_take|]. apply Forall_app; split; [done|by apply Forall_drop].
Qed.

(** The loop ends with what it has. *)
Lemma loop_ends n max at_ left_ mem (rl rl' : RL) code a' : buf (rbuf rl) = Some mem -> 0 <= left_ <= max ->
  0 < n -> rl' = with_io (prev rl') (bio rl') (rbuf rl) a' rl ->
  reads (prev rl, bio rl) [] (prev rl', bio rl') ->
  a' = alert rl \/ (a' = SSL_AD_INTERNAL_ERROR /\ code = OSSL_RECORD_RETURN_FATAL) ->
  (code = OSSL_RECORD_RETURN_SUCCESS /\ n <= left_) \/ (code <= OSSL_RECORD_RETURN_RETRY /\ left_ < n) ->
  loop_result n max at_ left_ mem rl code n left_ rl'.
Proof.
  intros Hb Hl Hn Hrl Hr Ha Hc. split; [|lia|lia|destruct Hc; [left|right]; tauto].
  exists [], mem, a'. split; [by etransitivity; [exact Hrl|]; destruct rl as [????????? []]; simpl in *; subst|].
  split; [done|]. split; [simpl; lia|]. split; [done|]. split; [by rewrite app_nil_r|]. by split_and!.
Qed.

(** The loop goes on from [rl1], after the bytes [bs]. *)
Lemma loop_continues n n1 max at_ left_ mem mem1 bs (rl rl1 rl' : RL) code n' left' :
  loop_result n1 max at_ (left_ + Z.of_nat (length bs)) mem1 rl1 code n' left' rl' ->
  rl1 = with_io (prev rl1) (bio rl1) (with_mem mem1 (rbuf rl)) (alert rl) rl ->
  length mem1 = length mem -> Forall is_byte bs -> (Forall is_byte mem -> Forall is_byte mem1) ->
  take (Z.to_nat (at_ + (left_ + Z.of_nat (length bs)))) mem1 = take (Z.to_nat (at_ + left_)) mem ++ bs ->
  (forall got s, reads (prev rl1, bio rl1) got s -> reads (prev rl, bio rl) (bs ++ got) s) ->
  0 < n1 <= n -> (isdtls rl = false -> n1 = n) -> (n1 = n \/ n1 <= left_ + Z.of_nat (length bs)) ->
  loop_result n max at_ left_ mem rl code n' left' rl'.
Proof.
  intros [(got & mem' & a' & Hrl & Hr & Hl & Hlm & Ht & Hg & Hby & Ha) Hmax Hn Hc] E Hm Hbs Hbm Htb Hreads Hn1 Hnn Hd.
  rewrite E in Ha, Hc. simpl in Ha, Hc. split; [|done|lia|].
  - exists (bs ++ got), mem', a'. split; [by etransitivity; [exact Hrl|rewrite E]|].
    split; [by apply Hreads|]. rewrite length_app. split; [lia|]. split; [congruence|].
    split; [by rewrite Ht, Htb, app_assoc|]. split; [by apply Forall_app|]. split; [by auto|done].
  - destruct Hc as [(?&?&Hc)|(?&?&?)]; [left|right; lia]. split_and!; [done|done|].
    intros Hi. rewrite Hc by done. auto.
Qed.

Definition loop_ok (fuel : nat) : Prop := forall n max at_ left_ (rl : RL) mem,
  buf (rbuf rl) = Some mem -> 0 <= at_ -> 0 <= left_ <= max -> 0 < n <= max ->
  at_ + max <= Z.of_nat (length mem) -> n - left_ + from_prev rl <= Z.of_nat fuel ->
  exists code n' left' rl', read_loop fuel n max at_ left_ rl = (Ok (code, n', left'), rl')
    /\ loop_result n max at_ left_ mem rl code n' left' rl'.

(** One round that gets bytes: [rl1] is the layer with the source after it. *)
Lemma loop_data fuel n max at_ left_ (rl rl1 : RL) mem b bs b' : loop_ok fuel ->
  buf (rbuf rl) = Some mem -> 0 <= at_ -> 0 <= left_ < n -> n <= max ->
  at_ + max <= Z.of_nat (length mem) -> n - left_ + from_prev rl <= Z.of_nat (S fuel) ->
  BIO_read b (max - left_) = (BioData bs, b') ->
  rl1 = with_io (prev rl1) (bio rl1) (rbuf rl) (alert rl) rl -> from_prev rl1 = from_prev rl ->
  (forall got s, reads (prev rl1, bio rl1) got s -> reads (prev rl, bio rl) (bs ++ got) s) ->
  exists mem1, mem_write mem (at_ + left_) bs = Some mem1
    /\ let rl2 := set_rbuf (with_mem mem1 (rbuf rl1)) rl1 in
       let left1 := left_ + Z.of_nat (length bs) in
       exists code n' left' rl',
         read_loop fuel (if isdtls rl2 && (left1 <? n) then left1 else n) max at_ left1 rl2
         = (Ok (code, n', left'), rl')
         /\ loop_result n max at_ left_ mem rl code n' left' rl'.
Proof.
  intros IH Hb Ha Hl Hn Hm Hf Hr E1 Hp Hreads.
  destruct (bio_read_data b (max - left_) bs b' ltac:(lia) Hr) as (Hne & Hle & Hby & _).
  assert (0 < Z.of_nat (length bs)) by (destruct bs; [done|simpl; lia]).
  destruct (mem_write mem (at_ + left_) bs) as [mem1|] eqn:Ew.
  2: { rewrite mem_write_Some in Ew by lia. done. }
  exists mem1. split; [done|]. intros rl2 left1. pose proof (length_mem_write _ _ _ _ Ew) as Hlm.
  pose proof (write_end mem bs mem1 (at_ + left_) ltac:(lia) Ew) as Hw. rewrite <- Z.add_assoc in Hw.
  set (n1 := if isdtls rl2 && (left1 <? n) then left1 else n).
  assert (Hn1 : 0 < n1 <= n /\ (isdtls rl = false -> n1 = n) /\ (n1 = n \/ n1 <= left1)).
  { assert (Hi : isdtls rl2 = isdtls rl) by (unfold rl2; by rewrite E1).
    unfold n1. rewrite Hi. destruct (isdtls rl); simpl; [|split_and!; (done || lia || by left)].
    destruct (left1 <? n) eqn:El; zbool; split_and!; try done; try lia; unfold left1 in *; lia. }
  assert (Hp2 : from_prev rl2 = from_prev rl) by done.
  destruct (IH n1 max at_ left1 rl2 mem1) as (code & n' & left' & rl' & Er & Hres); try (done || lia).
  exists code, n', left', rl'. split; [done|]. destruct Hn1 as (Hn1 & Hn2 & Hn3).
  eapply loop_continues; [exact Hres| |done|done|intros Hmb; by eapply write_bytes|done|exact Hreads|done|done|done].
  unfold rl2. by rewrite E1.
Qed.

Lemma read_loop_spec fuel : loop_ok fuel.
Proof.
  induction fuel as [|fuel IH]; intros n max at_ left_ rl mem Hb Ha Hl Hn Hm Hf; simpl.
  all: destruct (n <=? left_) eqn:E; zbool.
  1, 3: eexists _, _, _, _; split; [done|]; apply (loop_ends _ _ _ _ _ _ _ _ (alert rl));
    [done|lia|lia|by destruct rl|constructor|by left|by left].
  { unfold from_prev in Hf. destruct (prev rl); lia. }
  destruct (match prev rl with Some b => Some b | None => bio rl end) as [b|] eqn:Esrc.
  2: { eexists _, _, _, _. split; [done|].
       apply (loop_ends _ _ _ _ _ _ _ _ SSL_AD_INTERNAL_ERROR); [done|lia|lia|by destruct rl|constructor|by right|].
       right. split; [done|lia]. }
  destruct (BIO_read b (max - left_)) as [r b'] eqn:Hr. assert (Hpos : 0 < max - left_) by lia.
  assert (Hstop : forall (rl' : RL) code, rl' = with_io (prev rl') (bio rl') (rbuf rl) (alert rl) rl ->
    reads (prev rl, bio rl) [] (prev rl', bio rl') -> code <= OSSL_RECORD_RETURN_RETRY ->
    loop_result n max at_ left_ mem rl code n left_ rl').
  { intros rl' code E1 Hs Hcode. apply (loop_ends _ _ _ _ _ _ _ _ (alert rl)); [done|lia|lia|done|done|by left|].
    right. split; [done|lia]. }
  destruct (prev rl) as [b0|] eqn:Ep; [injection Esrc as ->|]; destruct r as [bs| | |].
  - destruct (loop_data fuel n max at_ left_ rl (set_prev (Some b') rl) mem b bs b') as (mem1 & Ew & Hloop);
      try done; try lia;
      [unfold from_prev; by rewrite Ep|intros got s; rewrite Ep; by apply (reads_prev _ (max - left_))|].
    simpl buf. rewrite Hb, Ew. exact Hloop.
  - destruct (IH n max at_ left_ (set_prev None (set_prev (Some b') rl)) mem) as (code & n' & left' & rl' & Er & Hres);
      [done|done|lia|lia|lia|unfold from_prev in *; rewrite Ep in Hf; simpl; lia|].
    exists code, n', left', rl'. split; [done|].
    eapply (loop_continues n n _ _ left_ mem mem [] rl (set_prev None rl)); try done; try lia.
    + simpl. by rewrite Z.add_0_r.
    + by rewrite with_mem_same.
    + simpl. by rewrite Z.add_0_r, app_nil_r.
    + intros got s Hg. rewrite Ep. by apply (reads_switch _ (max - left_) b').
  - eexists _, _, _, _. split; [done|]. apply Hstop; [done| |done].
    by apply (reads_stop_prev _ (max - left_) BioEof); [..|left].
  - eexists _, _, _, _. split; [done|]. apply Hstop; [done| |done].
    by apply (reads_stop_prev _ (max - left_) BioError); [..|right].
  - destruct (loop_data fuel n max at_ left_ rl (set_bio (Some b') rl) mem b bs b') as (mem1 & Ew & Hloop);
      try done; try lia;
      [intros got s; rewrite Ep, Esrc; simpl; rewrite Ep; by apply (reads_bio _ (max - left_))|].
    simpl buf. rewrite Hb, Ew. exact Hloop.
  - eexists _, _, _, _. split; [done|]. apply Hstop; [done| |done]. simpl. rewrite Ep, Esrc.
    by apply (reads_stop _ (max - left_) BioRetry); [..|left].
  - eexists _, _, _, _. split; [done|]. apply Hstop; [done| |done]. simpl. rewrite Ep, Esrc.
    by apply (reads_stop _ (max - left_) BioEof); [..|right; left].
  - eexists _, _, _, _. split; [done|]. apply Hstop; [done| |done]. simpl. rewrite Ep, Esrc.
    by apply (reads_stop _ (max - left_) BioError); [..|right; right].
Qed.

(** ** The bytes held *)

Lemma align_range b : 0 <= rbuf_align b <= 7.
Proof.
  unfold rbuf_align.
  pose proof (Z.mod_pos_bound (buf_addr b + SSL3_RT_HEADER_LENGTH - 1) 8). lia.
Qed.

(** Only the address matters. *)
Lemma align_offset o b : rbuf_align (set_offset o b) = rbuf_align b.
Proof. done. Qed.
Lemma align_left l b : rbuf_align (set_left l b) = rbuf_align b.
Proof. done. Qed.
Lemma align_mk m a d n o l b : a = buf_addr b -> rbuf_align (mkTLS_BUFFER m a d n o l) = rbuf_align b.
Proof. by intros ->. Qed.
Lemma align_mem m b : rbuf_align (with_mem m b) = rbuf_align b.
Proof. done. Qed.
Hint Rewrite align_offset align_left align_mem : rlayer.

Definition rb_wf (rb : TLS_BUFFER) : Prop :=
  match buf rb with
  | None => left rb = 0
  | Some mem => Z.of_nat (length mem) = len rb /\ rbuf_align rb <= len rb <= SIZE_MAX /\ Forall is_byte mem
      /\ (left rb = 0 \/ (0 < left rb /\ rbuf_align rb <= offset rb /\ offset rb + left rb <= len rb))
  end.

(** The bytes read ahead. *)
Definition avail (rb : TLS_BUFFER) : list Z :=
  match buf rb with Some mem => take (Z.to_nat (left rb)) (drop (Z.to_nat (offset rb)) mem) | None => [] end.

Lemma length_avail rb : rb_wf rb -> Z.of_nat (length (avail rb)) = left rb.
Proof.
  unfold rb_wf, avail. destruct (buf rb) as [mem|]; [|by intros ->]. intros (Hl & Ha & _ & Hleft).
  pose proof (align_range rb). rewrite length_take, length_drop. lia.
Qed.

(** [packet] is at the front, and what is read ahead follows it. *)
Record packet_at (rl : RL) : Prop := {
  pa_buf : exists mem, buf (rbuf rl) = Some mem;
  pa_packet : packet rl = Some (rbuf_align (rbuf rl));
  pa_offset : offset (rbuf rl) = rbuf_align (rbuf rl) + packet_length rl;
  pa_length : 0 <= packet_length rl;
  pa_left : 0 <= left (rbuf rl);
  pa_end : rbuf_align (rbuf rl) + packet_length rl + left (rbuf rl) <= len (rbuf rl)
}.

(** The packet, and the packet with what is read ahead. *)
Definition pkt_bytes (rl : RL) : list Z :=
  match buf (rbuf rl) with
  | Some mem => take (Z.to_nat (packet_length rl)) (drop (Z.to_nat (rbuf_align (rbuf rl))) mem)
  | None => []
  end.
Definition held (extend : bool) (rl : RL) : list Z := (if extend then pkt_bytes rl else []) ++ avail (rbuf rl).

(** Changes of reading. *)
Definition read_frame (rl rl' : RL) : Prop :=
  rl' = set_packet (packet rl') (set_packet_length (packet_length rl')
          (with_io (prev rl') (bio rl') (rbuf rl') (alert rl') rl))
  /\ buf_addr (rbuf rl') = buf_addr (rbuf rl) /\ default_len (rbuf rl') = default_len (rbuf rl)
  /\ len (rbuf rl') = len (rbuf rl).

Lemma read_frame_refl (rl : RL) : read_frame rl rl.
Proof. split; [by destruct rl|done]. Qed.

Lemma drop_take_app (l : list Z) i n m : (i + n <= length l)%nat ->
  take n (drop i l) ++ take m (drop (i + n) l) = take (n + m) (drop i l).
Proof. intros Hl. by rewrite <- drop_drop, take_take_drop. Qed.

Lemma prepare_spec (extend clearold : bool) (rl : RL) : rb_wf (rbuf rl) -> buf (rbuf rl) <> None ->
  (if extend then packet_at rl else clearold = true) ->
  exists rl1, read_n_prepare extend clearold rl = Some rl1 /\ packet_at rl1 /\ rb_wf (rbuf rl1)
    /\ pkt_bytes rl1 ++ avail (rbuf rl1) = held extend rl /\ read_frame rl rl1
    /\ prev rl1 = prev rl /\ bio rl1 = bio rl /\ alert rl1 = alert rl
    /\ packet_length rl1 = (if extend then packet_length rl else 0) /\ left (rbuf rl1) = left (rbuf rl).
Proof.
  intros Hwf Hb Hex. unfold read_n_prepare, held. pose proof (align_range (rbuf rl)) as Hal.
  destruct (buf (rbuf rl)) as [mem|] eqn:Em; [|done]. pose proof Hwf as Hwf0. unfold rb_wf in Hwf. rewrite Em in Hwf.
  destruct Hwf as (Hlen & Hla & Hby & Hleft).
  destruct extend.
  { pose proof Hex as [_ Hp _ _ _ _]. rewrite Em, Hp, Z.eqb_refl. simpl.
    exists rl. split; [done|]. split; [done|]. split; [done|]. split; [done|]. split; [apply read_frame_refl|done]. }
  subst clearold. destruct (left (rbuf rl) =? 0) eqn:El; zbool.
  { simpl. rewrite Em, Z.eqb_refl. simpl. eexists. split; [done|]. unfold avail, rb_wf, pkt_bytes. simpl. rewrite Em, El.
    autorewrite with rlayer.
    split; [split; simpl; autorewrite with rlayer; try (done || lia); by exists mem|]. split; [by split_and!; try done; try lia; left|].
    split; [done|]. split; [done|]. done. }
  destruct Hleft as [Hleft|Hleft]; [lia|]. simpl. rewrite Em.
  destruct (offset (rbuf rl) =? rbuf_align (rbuf rl)) eqn:Ep; zbool; simpl.
  { eexists. split; [done|]. unfold avail, pkt_bytes. simpl. rewrite Em.
    split; [split; simpl; try (done || lia); [by exists mem|by rewrite Ep]|]. split; [done|]. split; [done|]. split; done. }
  unfold mem_read. rewrite !(proj2 (Z.leb_le _ _)) by lia. cbn [andb]. change (0 + ?x) with x.
  set (bs := take _ (drop _ mem)).
  assert (Hbs : Z.of_nat (length bs) = left (rbuf rl)) by (unfold bs; rewrite length_take, length_drop; lia).
  assert (Hbb : Forall is_byte bs) by (by apply Forall_take, Forall_drop).
  destruct (mem_write mem (rbuf_align (rbuf rl)) bs) as [mem1|] eqn:Ew.
  2: { rewrite mem_write_Some in Ew by lia. done. }
  pose proof (length_mem_write _ _ _ _ Ew) as Hl1.
  eexists. split; [done|]. unfold avail, pkt_bytes, rb_wf. simpl. rewrite Em, !(align_mk _ _ _ _ _ _ (rbuf rl)) by done.
  split; [split; simpl; rewrite ?(align_mk _ _ _ _ _ _ (rbuf rl)) by done; try (done || lia); by exists mem1|].
  split; [split_and!; try lia; by eapply write_bytes|].
  split; [|by split]. rewrite <- Hbs at 1. rewrite Nat2Z.id. by apply write_read in Ew.
Qed.

(** All the bytes from the start of the packet. *)
Lemma packet_view (rl : RL) mem : packet_at rl -> buf (rbuf rl) = Some mem -> Z.of_nat (length mem) = len (rbuf rl) ->
  pkt_bytes rl ++ avail (rbuf rl)
  = take (Z.to_nat (packet_length rl + left (rbuf rl))) (drop (Z.to_nat (rbuf_align (rbuf rl))) mem).
Proof.
  intros [_ _ Ho Hl Hl1 He] Em Hlen. unfold pkt_bytes, avail. rewrite Em, Ho.
  pose proof (align_range (rbuf rl)). rewrite !Z2Nat.inj_add by lia. apply drop_take_app. lia.
Qed.

Record read_result (extend : bool) (n : Z) (rl : RL) (code k : Z) (rl' : RL) : Prop := {
  rr_frame : read_frame rl rl';
  rr_wf : rb_wf (rbuf rl');
  rr_buf : buf (rbuf rl) <> None -> isdtls rl = true -> buf (rbuf rl') <> None;
  rr_alert : alert rl' = alert rl \/ (alert rl' = SSL_AD_INTERNAL_ERROR /\ code = OSSL_RECORD_RETURN_FATAL);
  rr_got : exists got, reads (prev rl, bio rl) got (prev rl', bio rl') /\ Forall is_byte got
    /\ ((code = OSSL_RECORD_RETURN_SUCCESS /\ 0 < k <= n /\ (isdtls rl = false -> k = n) /\ packet_at rl'
          /\ packet_length rl' = (if extend then packet_length rl else 0) + k
          /\ held extend rl ++ got = pkt_bytes rl' ++ avail (rbuf rl'))
         \/ (code <= OSSL_RECORD_RETURN_RETRY /\ k = 0
             /\ packet_length rl' = (if extend then packet_length rl else 0) /\ (extend = true -> packet_at rl')
             /\ held extend rl ++ got = held extend rl'))
}.

(** Taking [n] of the [l] bytes read ahead. *)
Lemma take_bytes (rl : RL) mem n l : packet_at rl -> rb_wf (rbuf rl) -> buf (rbuf rl) = Some mem -> 0 < n <= l ->
  rbuf_align (rbuf rl) + packet_length rl + l <= len (rbuf rl) ->
  let rl' := set_packet_length (packet_length rl + n)
               (set_rbuf (set_left (l - n) (set_offset (offset (rbuf rl) + n) (rbuf rl))) rl) in
  packet_at rl' /\ rb_wf (rbuf rl')
  /\ pkt_bytes rl' ++ avail (rbuf rl')
     = take (Z.to_nat (packet_length rl + l)) (drop (Z.to_nat (rbuf_align (rbuf rl))) mem).
Proof.
  intros [_ Hp Ho Hl0 Hl1 He] Hwf Em Hn Hlen rl'. unfold rb_wf in *. rewrite Em in Hwf. destruct Hwf as (Hm & Ha & Hby & _).
  pose proof (align_range (rbuf rl)).
  assert (Hpa : packet_at rl') by (split; simpl; autorewrite with rlayer; try (done || lia); by exists mem).
  split; [done|]. split; [simpl; rewrite Em; autorewrite with rlayer; split_and!; try done; lia|].
  rewrite (packet_view rl' mem Hpa Em Hm). simpl. autorewrite with rlayer. do 2 f_equal. lia.
Qed.

Lemma read_frame_trans (rl1 rl2 rl3 : RL) : read_frame rl1 rl2 -> read_frame rl2 rl3 -> read_frame rl1 rl3.
Proof.
  intros (E1 & A1 & D1 & L1) (E2 & A2 & D2 & L2). split; [|split_and!; congruence].
  etransitivity; [exact E2|]. by rewrite E1.
Qed.

Lemma read_frame_dtls (rl rl' : RL) : read_frame rl rl' -> isdtls rl' = isdtls rl.
Proof. intros [-> _]. done. Qed.

(** After the preparation, the rest is as for an extension. *)
Lemma prepared_result (extend : bool) n (rl rl1 rl' : RL) code k : read_result true n rl1 code k rl' ->
  packet_at rl1 -> pkt_bytes rl1 ++ avail (rbuf rl1) = held extend rl -> read_frame rl rl1 ->
  prev rl1 = prev rl -> bio rl1 = bio rl -> alert rl1 = alert rl ->
  packet_length rl1 = (if extend then packet_length rl else 0) -> read_result extend n rl code k rl'.
Proof.
  intros [Hf Hwf Hbuf Ha (got & Hr & Hg & Hc)] Hpa Hh Hf1 Hp Hb Hal Hl.
  rewrite Hp, Hb in Hr. rewrite Hal in Ha. rewrite (read_frame_dtls _ _ Hf1) in Hc. rewrite Hl in Hc.
  rewrite (read_frame_dtls _ _ Hf1) in Hbuf. pose proof (pa_buf _ Hpa) as [mem Em].
  split; [by eapply read_frame_trans|done|intros _ Hi; apply Hbuf; [by rewrite Em|done]|done|]. exists got. split; [done|]. split; [done|].
  change (held true rl1) with (pkt_bytes rl1 ++ avail (rbuf rl1)) in Hc.
  destruct Hc as [Hc|(Hc & Hk & Hl' & Hpa' & Hv)]; [left|right]; rewrite <- Hh.
  - destruct Hc as (?&?&?&?&?&?). split_and!; (done || lia).
  - split; [done|]. split; [done|]. split; [done|]. split; [by auto|]. rewrite Hv. unfold held.
    destruct extend; [done|]. unfold pkt_bytes. rewrite Hl'. by case_match.
Qed.

Lemma read_stays (rl rl' : RL) n code : packet_at rl -> rb_wf (rbuf rl) -> rl' = set_alert (alert rl') rl ->
  alert rl' = alert rl \/ (alert rl' = SSL_AD_INTERNAL_ERROR /\ code = OSSL_RECORD_RETURN_FATAL) ->
  code <= OSSL_RECORD_RETURN_RETRY -> read_result true n rl code 0 rl'.
Proof.
  intros Hpa Hwf E Ha Hc. rewrite E in *. split; [by split; [by destruct rl|]|done|done|by simpl|].
  exists []. split; [constructor|]. split; [done|]. right. rewrite app_nil_r.
  split; [done|]. split; [done|]. split; [done|]. split; [intros _; by destruct Hpa; split|done].
Qed.

(** The state of the layer after the loop, with [left'] bytes read ahead. *)
Lemma after_loop (rl rl2 : RL) mem n max code n' left' :
  packet_at rl -> rb_wf (rbuf rl) -> buf (rbuf rl) = Some mem ->
  rbuf_align (rbuf rl) + packet_length rl + max <= len (rbuf rl) ->
  loop_result n max (rbuf_align (rbuf rl) + packet_length rl) (left (rbuf rl)) mem rl code n' left' rl2 ->
  let rl3 := set_rbuf (set_left left' (rbuf rl2)) rl2 in
  exists got mem', reads (prev rl, bio rl) got (prev rl3, bio rl3) /\ Forall is_byte got
    /\ packet_at rl3 /\ rb_wf (rbuf rl3) /\ read_frame rl rl3 /\ buf (rbuf rl3) = Some mem'
    /\ packet_length rl3 = packet_length rl
    /\ (alert rl3 = alert rl \/ (alert rl3 = SSL_AD_INTERNAL_ERROR /\ code = OSSL_RECORD_RETURN_FATAL))
    /\ held true rl ++ got = held true rl3.
Proof.
  intros Hpa Hwf Em Hmax [(got & mem' & a' & E & Hr & Hl & Hlm & Ht & Hg & Hby & Ha) Hml Hn _] rl3.
  pose proof Hwf as Hwf0. unfold rb_wf in Hwf0. rewrite Em in Hwf0. destruct Hwf0 as (Hlen & Hal & Hmb & _).
  pose proof (align_range (rbuf rl)) as Har. pose proof Hpa as [_ Hp Ho Hl0 Hl1 He].
  assert (E3 : rl3 = with_io (prev rl2) (bio rl2) (set_left left' (with_mem mem' (rbuf rl))) a' rl)
    by (unfold rl3; by rewrite E).
  assert (Hpa3 : packet_at rl3)
    by (rewrite E3; split; simpl; autorewrite with rlayer; try (done || lia); by exists mem').
  assert (Hb3 : buf (rbuf rl3) = Some mem') by (by rewrite E3).
  exists got, mem'. split; [exact Hr|]. split; [done|]. split; [done|].
  split. { rewrite E3. unfold rb_wf. simpl. autorewrite with rlayer. rewrite Ho.
    split_and!; [congruence|lia|lia|auto|lia]. }
  split; [by rewrite E3|]. split; [done|]. split; [by rewrite E3|]. split; [by rewrite E3|].
  unfold held. rewrite (packet_view rl mem Hpa Em Hlen), (packet_view rl3 mem' Hpa3 Hb3) by (rewrite E3; simpl; congruence).
  rewrite E3. simpl. autorewrite with rlayer.
  apply (f_equal (drop (Z.to_nat (rbuf_align (rbuf rl))))) in Ht.
  rewrite drop_app_le in Ht by (rewrite length_take; lia). rewrite !take_drop_commute, <- !Z2Nat.inj_add by lia.
  rewrite !Z.add_assoc. by rewrite Ht.
Qed.

Lemma release_result n (rl rl' : RL) code : read_result false n rl code 0 rl' -> isdtls rl = false ->
  code <= OSSL_RECORD_RETURN_RETRY -> left (rbuf rl') = 0 -> read_result false n rl code 0 (tls_release_read_buffer rl').
Proof.
  intros [(E & Hf) Hwf _ Ha (got & Hr & Hg & Hc)] Hd Hcode Hl. split.
  - split; [|done]. etransitivity; [exact (f_equal (set_rbuf _) E)|reflexivity].
  - done.
  - by rewrite Hd.
  - done.
  - exists got. split; [done|]. split; [done|]. right. destruct Hc as [(->&_)|(?&?&?&_&Hh)]; [done|].
    split; [done|]. split; [done|]. split; [done|]. split; [done|]. rewrite Hh. unfold held, avail. rewrite Hl. simpl. by case_match.
Qed.

Lemma set_alert_same (rl : RL) : set_alert (alert rl) rl = rl.
Proof. by destruct rl. Qed.

(** The two ends of the reading loop. *)
Lemma loop_done n n1 max (rl1 rl2 : RL) mem code n' left' : packet_at rl1 -> rb_wf (rbuf rl1) ->
  buf (rbuf rl1) = Some mem -> rbuf_align (rbuf rl1) + packet_length rl1 + max <= len (rbuf rl1) ->
  n1 <= n -> (isdtls rl1 = false -> n1 = n) ->
  loop_result n1 max (rbuf_align (rbuf rl1) + packet_length rl1) (left (rbuf rl1)) mem rl1 code n' left' rl2 ->
  if code <=? OSSL_RECORD_RETURN_RETRY
  then read_result true n rl1 code 0 (set_rbuf (set_left left' (rbuf rl2)) rl2)
  else read_result true n rl1 OSSL_RECORD_RETURN_SUCCESS n'
         (set_packet_length (packet_length rl1 + n')
            (set_rbuf (set_left (left' - n') (set_offset (offset (rbuf rl2) + n') (rbuf rl2))) rl2)).
Proof.
  intros Hpa Hwf Em Hmax Hn1 Hd Hlr. pose proof Hlr as [_ _ Hn' Hcode].
  destruct (after_loop rl1 rl2 mem n1 max code n' left' Hpa Hwf Em Hmax Hlr)
    as (got & mem' & Hr & Hg & Hpa3 & Hwf3 & Hf3 & Em3 & Hpl3 & Ha3 & Hh3).
  set (rl3 := set_rbuf (set_left left' (rbuf rl2)) rl2) in *. pose proof Hpa3 as [_ _ _ _ _ He3].
  destruct (code <=? OSSL_RECORD_RETURN_RETRY) eqn:Ec; zbool.
  - split; [done|done|by rewrite Em3|done|]. exists got. split; [done|]. split; [done|]. right. split; [done|].
    split; [done|]. split; [done|]. split; [by intros _|done].
  - destruct Hcode as [(-> & Hle & Hdn)|(?&?&?)]; [|lia].
    destruct (take_bytes rl3 mem' n' left' Hpa3 Hwf3 Em3 ltac:(lia) He3) as (Hpa4 & Hwf4 & Hv).
    rewrite Hpl3 in *. split; [by eapply read_frame_trans; [exact Hf3|]|done| | |].
    + intros _ _ Hnone. destruct (pa_buf _ Hpa4) as [mem4 Em4].
      assert (Some mem4 = None) by (etransitivity; [symmetry; exact Em4|exact Hnone]). done.
    + destruct Ha3 as [Ha3|[_ ?]]; [by left|done].
    + exists got. split; [done|]. split; [done|]. left. split; [done|]. split; [lia|].
      split; [intros Hi; rewrite Hdn by done; by apply Hd|]. split; [done|]. split; [done|].
      rewrite Hh3. etransitivity; [|symmetry; exact Hv]. unfold held. unfold rb_wf in Hwf3. rewrite Em3 in Hwf3.
      rewrite (packet_view rl3 mem' Hpa3 Em3) by tauto. by rewrite Hpl3.
Qed.

(** [tls_default_read_n] gets the next bytes, whatever the sources do: it
    stays inside the buffer and no byte is lost, repeated or out of order. *)
Lemma read_n_spec n max (extend clearold : bool) (rl : RL) : 0 < n -> rb_wf (rbuf rl) -> buf (rbuf rl) <> None ->
  (if extend then packet_at rl /\ 0 < packet_length rl else clearold = true) ->
  exists code k rl', tls_default_read_n n max extend clearold rl = (Ok (code, k), rl')
    /\ read_result extend n rl code k rl'.
Proof.
  intros Hn Hwf Hb Hex. unfold tls_default_read_n. rewrite (proj2 (Z.eqb_neq n 0)) by lia.
  destruct (prepare_spec extend clearold rl Hwf Hb) as
    (rl1 & -> & Hpa & Hwf1 & Hh & Hf & Hp & Hbio & Hal & Hpl & Hleft); [by destruct extend; tauto|].
  assert (Hlift : forall code k rl', read_result true n rl1 code k rl' -> read_result extend n rl code k rl')
    by (intros; by eapply prepared_result).
  pose proof Hpa as [[mem Em] _ Ho Hl0 Hl1 He]. pose proof Hwf1 as Hwf1'. unfold rb_wf in Hwf1'. rewrite Em in Hwf1'.
  destruct Hwf1' as (Hlen & Halen & _). pose proof (align_range (rbuf rl1)).
  destruct (isdtls rl1 && (left (rbuf rl1) =? 0) && extend).
  { eexists _, _, _. split; [done|]. apply Hlift, read_stays; [done|done|symmetry; apply set_alert_same|by left|done]. }
  set (n1 := if isdtls rl1 && (0 <? left (rbuf rl1)) && (left (rbuf rl1) <? n) then left (rbuf rl1) else n).
  assert (Hn1 : 0 < n1 <= n /\ (isdtls rl1 = false -> n1 = n)).
  { unfold n1. destruct (isdtls rl1 && _ && _) eqn:E; [|lia]. zbool. rewrite H0. split; [lia|done]. }
  clearbody n1. rewrite wrap64_small by lia.
  destruct (n1 <=? left (rbuf rl1)) eqn:E1; zbool.
  { eexists _, _, _. split; [done|]. apply Hlift.
    destruct (take_bytes rl1 mem n1 (left (rbuf rl1)) Hpa Hwf1 Em ltac:(lia) ltac:(lia)) as (Hpa2 & Hwf2 & Hv).
    split; [by split|done|done|by left|]. exists []. split; [constructor|]. split; [done|]. left.
    rewrite app_nil_r. split_and!; try (done || lia); [tauto|]. rewrite Hv. by apply packet_view. }
  destruct (len (rbuf rl1) - offset (rbuf rl1) <? n1) eqn:E2; zbool.
  { eexists _, _, _. split; [done|]. apply Hlift, read_stays; [done|done|done|by right|done]. }
  match goal with |- context [read_loop _ _ ?m _ _ _] => set (max1 := m) end.
  assert (Hmax : n1 <= max1 <= len (rbuf rl1) - offset (rbuf rl1)).
  { unfold max1. clear max1. destruct (_ && _); [lia|]. repeat case_match; zbool; lia. }
  destruct (read_loop_spec (Z.to_nat (n1 - left (rbuf rl1)) + 1) n1 max1 (rbuf_align (rbuf rl1) + packet_length rl1)
    (left (rbuf rl1)) rl1 mem Em) as (code & n' & left' & rl2 & -> & Hlr); try lia.
  { unfold from_prev. destruct (prev rl1); lia. }
  pose proof (loop_done n n1 max1 rl1 rl2 mem code n' left' Hpa Hwf1 Em ltac:(lia) ltac:(lia) ltac:(tauto) Hlr) as Hres.
  destruct (code <=? OSSL_RECORD_RETURN_RETRY) eqn:Ec; zbool; [|eexists _, _, _; split; [done|by apply Hlift]].
  eexists _, _, _. split; [done|]. apply Hlift in Hres.
  destruct (_ && _ && (packet_length rl1 + left' =? 0)) eqn:Erel; [|done]. zbool.
  destruct Hlr as [(got & mem' & a' & Erl2 & _ & Hl & _) _ _ _].
  destruct extend; [lia|]. apply release_result; [done| |done|simpl; lia]. rewrite <- (read_frame_dtls _ _ Hf).
  match goal with Hi : isdtls (set_rbuf _ rl2) = false |- _ => simpl in Hi; rewrite Erl2 in Hi; exact Hi end.
Qed.

(** *** A series of reads *)

(** Packets of the sizes asked for, one after the other, up to the first that
    cannot be had: the last return code and the bytes handed over. *)
Fixpoint read_series (requests : list (Z * Z)) (rl : RL) : ret (Z * list Z) * RL :=
  match requests with
  | [] => (Ok (OSSL_RECORD_RETURN_SUCCESS, []), rl)
  | (n, max) :: requests' =>
      match tls_default_read_n n max false true rl with
      | (Ok (code, _), rl1) =>
          if code <=? OSSL_RECORD_RETURN_RETRY then (Ok (code, []), rl1)
          else match read_series requests' rl1 with
               | (Ok (code', bs), rl2) => (Ok (code', pkt_bytes rl1 ++ bs), rl2)
               | (r, rl2) => (r, rl2)
               end
      | (Fail, rl1) => (Fail, rl1)
      | (Fault, rl1) => (Fault, rl1)
      end
  end.

(** The bytes the sources deliver in several calls. *)
Inductive reads_all : option B * option B -> list Z -> option B * option B -> Prop :=
  | reads_none s : reads_all s [] s
  | reads_more s got s1 got' s2 : reads s got s1 -> reads_all s1 got' s2 -> reads_all s (got ++ got') s2.

Lemma pkt_length (rl : RL) : packet_at rl -> rb_wf (rbuf rl) -> Z.of_nat (length (pkt_bytes rl)) = packet_length rl.
Proof.
  intros [[mem Em] _ _ Hl0 Hl1 He] Hwf. unfold rb_wf in Hwf. rewrite Em in Hwf. destruct Hwf as (Hm & _).
  pose proof (align_range (rbuf rl)). unfold pkt_bytes. rewrite Em, length_take, length_drop. lia.
Qed.

(** Reading packet after packet from a read buffer, with reading ahead,
    short reads, retries, end of file and errors of the sources as they come:
    nothing is stored or loaded outside the buffer, whose bookkeeping stays
    within its bounds; the packets handed over, followed by what is still in the
    buffer, are what was in the buffer followed by what the sources delivered -
    no byte is lost, repeated or moved; and a series that ends well has, over a
    stream, exactly the number of bytes asked for. *)
Theorem read_series_stream (requests : list (Z * Z)) (rl : RL)
  (Hreq : Forall (fun r => 0 < fst r) requests) (Hwf : rb_wf (rbuf rl)) (Hbuf : buf (rbuf rl) <> None) :
  exists code bs rl', read_series requests rl = (Ok (code, bs), rl') /\ rb_wf (rbuf rl') /\
    (exists got, reads_all (prev rl, bio rl) got (prev rl', bio rl') /\
       avail (rbuf rl) ++ got = bs ++ avail (rbuf rl')) /\
    (code = OSSL_RECORD_RETURN_SUCCESS \/ code <= OSSL_RECORD_RETURN_RETRY) /\
    (code = OSSL_RECORD_RETURN_SUCCESS -> isdtls rl = false ->
     Z.of_nat (length bs) = foldr (fun r acc => fst r + acc) 0 requests).
Proof.
  revert rl Hwf Hbuf. induction requests as [|[n max] requests IH]; intros rl Hwf Hbuf; simpl.
  { eexists _, _, _. split; [done|]. split; [done|]. split; [exists []; split; [constructor|by rewrite app_nil_r]|auto]. }
  apply Forall_cons in Hreq as [Hn Hreq]. simpl in Hn.
  destruct (read_n_spec n max false true rl Hn Hwf Hbuf eq_refl) as (code & k & rl1 & -> & R).
  destruct R as [Hf Hwf1 _ _ (got & Hr & _ & [(-> & Hk & Hkn & Hpa & Hpl & Hh)|(Hc & -> & _ & _ & Hh)])].
  2: { rewrite (proj2 (Z.leb_le _ _) Hc). exists code, [], rl1. split_and!; try done; [|by right|].
       - exists (got ++ []). split; [econstructor; [done|constructor]|]. by rewrite app_nil_r.
       - intros ->. done. }
  change (OSSL_RECORD_RETURN_SUCCESS <=? OSSL_RECORD_RETURN_RETRY) with false. cbv iota.
  destruct (pa_buf _ Hpa) as [mem Em].
  destruct (IH Hreq rl1 Hwf1) as (code & bs & rl2 & -> & Hwf2 & (got2 & Hr2 & Hh2) & Hcode & Hlen); [by rewrite Em|].
  exists code, (pkt_bytes rl1 ++ bs), rl2. split; [done|]. split; [done|]. split; [|split; [done|]].
  - exists (got ++ got2). split; [by econstructor|]. unfold held in Hh. simpl in Hh.
    by rewrite (assoc_L (++)), Hh, <- !(assoc_L (++)), Hh2.
  - intros Hs Hd. rewrite (read_frame_dtls _ _ Hf) in Hlen. rewrite length_app, Nat2Z.inj_add.
    rewrite Hlen, (pkt_length rl1 Hpa Hwf1) by done. rewrite Hpl, Hkn by done. lia.
Qed.
End Read.

(** ** Handing out records *)

Section Records.
Context {B X : Type}.
Local Abbreviation RL := (OSSL_RECORD_LAYER B X).

(** [get_more] is [rl->funcs->get_more_records].  The result is the return code
    and the record handed out; [None] when the fuel is used up. *)
Fixpoint tls_read_record (get_more : ST RL (option Z)) (fuel : nat) : ST RL (option (Z * option TLS_RL_RECORD)) :=
  fun rl =>
  if num_recs rl <=? curr_rec rl then
    match fuel with
    | O => (Ok None, rl)
    | S fuel =>
        if negb (num_released rl =? num_recs rl)
        then (Ok (Some (OSSL_RECORD_RETURN_FATAL, None)), rlayer_fatal SSL_AD_INTERNAL_ERROR rl)
        else match get_more rl with
        | (Ok (Some r), rl) =>
            if negb (r =? OSSL_RECORD_RETURN_SUCCESS) then (Ok (Some (r, None)), rl)
            else tls_read_record get_more fuel rl
        | (Ok None, rl) => (Ok None, rl)
        | (Fail, rl) => (Fail, rl)
        | (Fault, rl) => (Fault, rl)
        end
    end
  else
    match rrec rl !! Z.to_nat (curr_rec rl) with
    | None => (Fault, rl)
    | Some r => (Ok (Some (OSSL_RECORD_RETURN_SUCCESS, Some r)), set_curr_rec (curr_rec rl + 1) rl)
    end.

(** [OPENSSL_cleanse] of [n] bytes of the record's data from [o] on. *)
Definition rec_cleanse (j : nat) (o n : Z) (rl : RL) : option RL :=
  let r := rrec_at j rl in
  let zeros := replicate (Z.to_nat n) 0 in
  match rec_data r with
  | RNull => None
  | RBuf b =>
      match buf (rbuf rl) with
      | None => None
      | Some mem => match mem_write mem (b + o) zeros with
                    | None => None
                    | Some mem => Some (set_rbuf (with_mem mem (rbuf rl)) rl)
                    end
      end
  | RComp =>
      match rec_comp r with
      | None => None
      | Some c => match mem_write c o zeros with
                  | None => None
                  | Some c => Some (upd_rrec j (fun r => mkTLS_RL_RECORD (rec_version r) (rec_type r) (rec_length r)
                                (orig_len r) (rec_off r) (rec_data r) (rec_input r) (Some c) (rec_epoch r)
                                (rec_seq_num r)) rl)
                  end
      end
  end.

(** [rechandle] is the index of the record handed out; the result is the return
    code. *)
Definition tls_release_record (rechandle length : Z) : ST RL Z := fun rl =>
  let j := Z.to_nat (num_released rl) in
  if negb (num_released rl <? curr_rec rl) || negb (rechandle =? num_released rl)
  then (Ok OSSL_RECORD_RETURN_FATAL, rlayer_fatal SSL_AD_INTERNAL_ERROR rl)
  else if rec_length (rrec_at j rl) <? length
  then (Ok OSSL_RECORD_RETURN_FATAL, rlayer_fatal SSL_AD_INTERNAL_ERROR rl)
  else
    let cleansed := if has (rl_options rl) SSL_OP_CLEANSE_PLAINTEXT
                    then rec_cleanse j (rec_off (rrec_at j rl)) length rl else Some rl in
    match cleansed with
    | None => (Fault, rl)
    | Some rl =>
        let rl := upd_rrec j (fun r => set_rec_length (rec_length r - length)
                                         (set_rec_off (rec_off r + length) r)) rl in
        if 0 <? rec_length (rrec_at j rl) then (Ok OSSL_RECORD_RETURN_SUCCESS, rl)
        else
          let rl := set_num_released (num_released rl + 1) rl in
          (Ok OSSL_RECORD_RETURN_SUCCESS,
           if (curr_rec rl =? num_released rl) && has (mode rl) SSL_MODE_RELEASE_BUFFERS && (left (rbuf rl) =? 0)
           then tls_release_read_buffer rl else rl)
    end.
End Records.

(** ** An instance *)

(** A queue of datagrams: what does not fit is lost. *)
Definition datagrams : Type := list (list Z).

#[export] Instance datagram_bio : BIO datagrams := {
  BIO_read b n := match b with
                  | [] => (BioRetry, [])
                  | d :: b => (BioData (map (fun z => z `mod` 256) (take (Z.to_nat n) (if d is [] then [0] else d))), b)
                  end
}.

#[export] Program Instance datagram_bio_ok : BIOOk datagrams := { bio_size := length }.
Next Obligation.
  intros b n bs b' Hn E. simpl in E. destruct b as [|d b]; [done|]. simplify_eq.
  split; [|split; [|split; [|simpl; lia]]].
  - destruct d as [|z d]; simpl; (destruct (Z.to_nat n) eqn:En; [lia|done]).
  - rewrite length_map, length_take. lia.
  - apply Forall_map, Forall_true. intros z. unfold is_byte. pose proof (Z.mod_pos_bound z 256). simpl. lia.
Qed.
Next Obligation. intros b n r b' E. simpl in E. destruct b; simplify_eq; simpl; lia. Qed.

(** A layer that reads ahead from a source that has three portions. *)
Definition sample_layer : OSSL_RECORD_LAYER datagrams unit :=
  mkRL false 0 0 0 0 None (Some [[1; 2; 3]; [4; 5; 6; 7]; [8]]) 0 0
    (mkTLS_BUFFER (Some (replicate 32 0)) 0 0 32 0 0) [] 0 0 0 SSL_ST_READ_HEADER None 0
    (replicate 8 0) SSL_AD_NO_ALERT true 0 false 0 0 0 false true [] []
    (mkDTLS_BITMAP 0 []) (mkDTLS_BITMAP 0 []) false 0 tt.

Lemma read_series_stream_witness :
  rb_wf (rbuf sample_layer) /\
  exists code bs rl', read_series [(5, 16); (2, 2)] sample_layer = (Ok (code, bs), rl') /\ rb_wf (rbuf rl') /\
    (exists got, reads_all (prev sample_layer, bio sample_layer) got (prev rl', bio rl') /\
       avail (rbuf sample_layer) ++ got = bs ++ avail (rbuf rl')) /\
    (code = OSSL_RECORD_RETURN_SUCCESS \/ code <= OSSL_RECORD_RETURN_RETRY) /\
    (code = OSSL_RECORD_RETURN_SUCCESS -> isdtls sample_layer = false ->
     Z.of_nat (length bs) = foldr (fun r acc => fst r + acc) 0 [(5, 16); (2, 2)]).
Proof.
  assert (Hwf : rb_wf (rbuf sample_layer)).
  { split_and!; [done|by vm_compute|by vm_compute| |by left].
    apply Forall_replicate. unfold is_byte. lia. }
  split; [exact Hwf|]. apply (read_series_stream [(5, 16); (2, 2)] sample_layer); [|exact Hwf|done].
  repeat constructor.
Defined.

(** What the witness reads. *)
Lemma sample_series : fst (read_series [(5, 16); (2, 2)] sample_layer)
  = Ok (OSSL_RECORD_RETURN_SUCCESS, [1; 2; 3; 4; 5; 6; 7]).
Proof. by vm_compute. Qed.
