(* ===== verification/DtlsRecord.v ===== *)
(** * The DTLS record layer

    ssl/record/methods/dtls_meth.c, the reading side: datagrams are cut into
    records, records of the next epoch are kept, the others are checked against
    the window of sequence numbers, authenticated and decrypted, and handed out. *)

From stdpp Require Import prelude list.
From Stdlib Require Import ZArith Lia.
From S2P Require Import Prelude PQueue RecordTypes RecordRead.

Local Open Scope Z_scope.
Local Open Scope st_scope.

Abbreviation SSL3_RT_ALERT := (21)%Z.
Abbreviation DTLS1_VERSION_MAJOR := (254)%Z.
Abbreviation DTLS_ANY_VERSION := (131071)%Z.
Abbreviation EVP_MAX_MD_SIZE := (64)%Z.
Abbreviation SSL_AD_BAD_RECORD_MAC := (20)%Z.
Abbreviation SSL_AD_RECORD_OVERFLOW := (22)%Z.
Abbreviation SSL_AD_DECOMPRESSION_FAILURE := (30)%Z.
Abbreviation SSL_AD_DECODE_ERROR := (50)%Z.

(** ** The window of sequence numbers *)

(** Subtraction of [uint64_t], read as an [int64_t]. *)
Definition sub_s64 (a b : Z) : Z :=
  let d := wrap64 (a - b) in if d <? 9223372036854775808 then d else d - 18446744073709551616.

Definition satsub64be (v1 v2 : list Z) : Z :=
  let l1 := be_val (take 8 v1) in
  let l2 := be_val (take 8 v2) in
  let ret := sub_s64 l1 l2 in
  if (l2 <? l1) && (ret <? 0) then 128
  else if (l1 <? l2) && (0 <? ret) then -128
  else if 128 <? ret then 128
  else if ret <? -128 then -128
  else ret.

Section Dtls.
Context {B X : Type} `{!BIO B} `{!record_functions B X}.
Local Abbreviation RL := (OSSL_RECORD_LAYER B X).

(** The window in use: of the next epoch or of this one. *)
Definition bitmap_of (next : bool) (rl : RL) : DTLS_BITMAP := if next then next_bitmap rl else bitmap rl.

Definition dtls_record_replay_check (next : bool) (rl : RL) : bool * RL :=
  let bm := bitmap_of next rl in
  let cmp := satsub64be (sequence rl) (max_seq_num bm) in
  let accept := upd_rr (set_rec_seq_num (sequence rl)) rl in
  if 0 <? cmp then (true, accept)
  else
    let shift := - cmp in
    if 64 <=? shift then (false, rl)
    else if has (bm_map bm) (Z.shiftl 1 shift) then (false, rl)
    else (true, accept).

Definition bitmap_update (seq : list Z) (bm : DTLS_BITMAP) : DTLS_BITMAP :=
  let cmp := satsub64be seq (max_seq_num bm) in
  if 0 <? cmp then
    mkDTLS_BITMAP (if cmp <? 64 then Z.lor (wrap64 (Z.shiftl (bm_map bm) cmp)) 1 else 1) (take 8 seq)
  else
    let shift := - cmp in
    if shift <? 64 then mkDTLS_BITMAP (Z.lor (bm_map bm) (Z.shiftl 1 shift)) (max_seq_num bm) else bm.

Definition dtls_record_bitmap_update (next : bool) (rl : RL) : RL :=
  if next then set_next_bitmap (bitmap_update (sequence rl) (next_bitmap rl)) rl
  else set_bitmap (bitmap_update (sequence rl) (bitmap rl)) rl.

(** The window for the record, and whether it is of the next epoch. *)
Definition dtls_get_bitmap (rl : RL) : option bool :=
  if rec_epoch (rr rl) =? epoch rl then Some false
  else if rec_epoch (rr rl) =? epoch rl + 1 then Some true
  else None.

Definition dtls_set_in_init (in_init : bool) (rl : RL) : RL := set_rl_in_init in_init rl.

(** ** One record *)

(** Returns [0] after [RLAYERfatal]. *)
Definition fatal0 {A} (al : Z) : ST RL A := fun rl => (Fail, rlayer_fatal al rl).

(** The record is ignored: [rr->length] and [rl->packet_length] become [0]. *)
Definition dump (rl : RL) : RL := set_packet_length 0 (upd_rr (set_rec_length 0) rl).

(** [mac_size] of the digest. *)
Definition read_mac_size : ST RL Z := fun rl =>
  match md_ctx (env rl) with
  | Some (Some n) => if (0 <=? n) && (n <=? EVP_MAX_MD_SIZE) then (Ok n, rl) else fatal0 SSL_AD_INTERNAL_ERROR rl
  | _ => (Ok 0, rl)
  end.

(** Is [md] the [n] bytes at [mac]? *)
Definition mac_matches (md mac : list Z) (n : Z) : bool := bool_decide (take (Z.to_nat n) md = take (Z.to_nat n) mac).

(** Encrypt-then-MAC: the MAC at the end of the record. *)
Definition check_etm (mac_size : Z) : ST RL unit := fun rl =>
  if orig_len (rr rl) <? mac_size then fatal0 SSL_AD_DECODE_ERROR rl
  else
    let rl := upd_rr (fun r => set_rec_length (rec_length r - mac_size) r) rl in
    let r := rr rl in
    let mac := (rec_data r, rec_length r) in
    match rl_mac 0 rl with
    | (Ok (i, md), rl) =>
        match ptr_bytes rl (rr rl) (fst mac) (snd mac) mac_size with
        | None => (Fault, rl)
        | Some mac => if (i =? 0) || negb (mac_matches md mac mac_size)
                      then fatal0 SSL_AD_BAD_RECORD_MAC rl else (Ok tt, rl)
        end
    | (Fail, rl) => (Fail, rl)
    | (Fault, rl) => (Fault, rl)
    end.

(** MAC-then-encrypt: does the MAC found inside match? *)
Definition check_mte (mac_size : Z) (macs : list (option (list Z))) : ST RL bool := fun rl =>
  match rl_mac 0 rl with
  | (Ok (i, md), rl) =>
      let ok := match macs !! 0%nat with
                | Some (Some mac) => negb (i =? 0) && mac_matches md mac mac_size
                | _ => false
                end in
      (Ok (ok && (rec_length (rr rl) <=? SSL3_RT_MAX_COMPRESSED_LENGTH + mac_size)), rl)
  | (Fail, rl) => (Fail, rl)
  | (Fault, rl) => (Fault, rl)
  end.

Definition dtls_process_record (next : bool) : ST RL unit := fun rl =>
  match packet rl with
  | None => (Fault, rl)
  | Some p =>
      let rl := upd_rr (set_rec_input (RBuf (p + DTLS1_RT_HEADER_LENGTH))) rl in
      if SSL3_RT_MAX_ENCRYPTED_LENGTH <? rec_length (rr rl) then fatal0 SSL_AD_RECORD_OVERFLOW rl
      else
        let rl := upd_rr (fun r => mkTLS_RL_RECORD (rec_version r) (rec_type r) (rec_length r) (rec_length r) (rec_off r)
                                     (rec_input r) (rec_input r) (rec_comp r) (rec_epoch r) (rec_seq_num r)) rl in
        (mac_size <~ read_mac_size ;;
         mac_size <~ (if use_etm rl && bool_decide (md_ctx (env rl) <> None)
                      then check_etm mac_size ;;; st_ret 0 else st_ret mac_size) ;;
         e <~ rl_cipher 1 mac_size ;;
         let '(enc_err, macs) := e in
         if enc_err =? 0 then
           fun rl => if negb (alert rl =? SSL_AD_NO_ALERT) then (Fail, rl) else (Fail, dump rl)
         else
           ok <~ (fun rl => if negb (use_etm rl) && has_enc_ctx (env rl)
                               && bool_decide (mjoin (md_ctx (env rl)) <> None)
                            then check_mte mac_size macs rl else (Ok true, rl)) ;;
           if negb ok then fun rl => (Fail, dump rl)
           else
             (fun rl => if has_compctx (env rl) then
                          if SSL3_RT_MAX_COMPRESSED_LENGTH <? rec_length (rr rl) then fatal0 SSL_AD_RECORD_OVERFLOW rl
                          else match tls_do_uncompress 0 rl with
                               | (Fail, rl) => fatal0 SSL_AD_DECOMPRESSION_FAILURE rl
                               | other => other
                               end
                        else (Ok tt, rl)) ;;;
             (fun rl => if max_frag_len rl <? rec_length (rr rl) then fatal0 SSL_AD_RECORD_OVERFLOW rl
                        else (Ok tt, dtls_record_bitmap_update next
                                       (set_packet_length 0 (upd_rr (set_rec_off 0) rl))))) rl
  end.

(** ** Records kept *)

Definition no_buffer : TLS_BUFFER := mkTLS_BUFFER None 0 0 0 0 0.

(** The result is the return value. *)
Definition dtls_rlayer_buffer_record (prio64be : list Z) : ST RL Z := fun rl =>
  if 100 <=? pqueue_size (unprocessed_rcds rl) then (Ok 0, rl)
  else
    let '(ok, x) := rl_item_ok (env rl) in
    let rl := set_env x rl in
    if negb ok then (Ok (-1), rlayer_fatal SSL_AD_INTERNAL_ERROR rl)
    else
      let rdata := mkRECORD_DATA (packet rl) (packet_length rl) (rbuf rl) (rr rl) in
      let item := mkPITEM prio64be rdata in
      let rl := upd_rr (fun _ => no_record) (set_rbuf no_buffer (set_packet_length 0 (set_packet None rl))) in
      match tls_setup_read_buffer rl with
      | (Ok _, rl) =>
          (Ok 1, match pqueue_insert (unprocessed_rcds rl) item with
                 | Some q => set_unprocessed_rcds q rl
                 | None => rl
                 end)
      | (Fail, rl) => (Ok (-1), rl)
      | (Fault, rl) => (Fault, rl)
      end.

Definition dtls_copy_rlayer_record (item : pitem DTLS_RLAYER_RECORD_DATA) : ST RL unit := fun rl =>
  let rdata := pdata item in
  match rd_packet rdata, buf (rd_rbuf rdata) with
  | Some p, Some mem =>
      match mem_read mem (p + 5) 6 with
      | None => (Fault, rl)
      | Some s =>
          (Ok tt, set_sequence (take 2 (sequence rl) ++ s)
                    (upd_rr (fun _ => rd_rrec rdata)
                       (set_rbuf (rd_rbuf rdata)
                          (set_packet_length (rd_packet_length rdata) (set_packet (rd_packet rdata) rl)))))
      end
  | _, _ => (Fault, rl)
  end.

Definition dtls_retrieve_rlayer_buffered_record : ST RL bool := fun rl =>
  match pqueue_pop (processed_rcds rl) with
  | (None, _) => (Ok false, rl)
  | (Some item, q) => (dtls_copy_rlayer_record item ;;; st_ret true) (set_processed_rcds q rl)
  end.

(** ** Getting records *)

Definition get (bs : list Z) (i : nat) : Z := default 0 (bs !! i).

(** The header of the record at [packet]. *)
Definition dtls_parse_header (rl : RL) : option RL :=
  match packet rl, buf (rbuf rl) with
  | Some p, Some mem =>
      match mem_read mem p DTLS1_RT_HEADER_LENGTH with
      | None => None
      | Some h =>
          Some (set_sequence (take 2 (sequence rl) ++ take 6 (drop 5 h))
            (upd_rr (fun r => mkTLS_RL_RECORD (Z.lor (Z.shiftl (get h 1) 8) (get h 2)) (get h 0)
                                (Z.lor (Z.shiftl (get h 11) 8) (get h 12)) (orig_len r) (rec_off r) (rec_data r)
                                (rec_input r) (rec_comp r) (Z.lor (Z.shiftl (get h 3) 8) (get h 4)) (rec_seq_num r)) rl))
      end
  | _, _ => None
  end.

(** Is the header acceptable?  [ssl_major] is the first byte of the version. *)
Definition dtls_header_ok (rl : RL) : bool :=
  let r := rr rl in
  let ssl_major := Z.shiftr (rec_version r) 8 in
  (is_first_record rl || (rec_type r =? SSL3_RT_ALERT) || (rec_version r =? rl_version rl))
  && (ssl_major =? (if rl_version rl =? DTLS_ANY_VERSION then DTLS1_VERSION_MAJOR else Z.shiftr (rl_version rl) 8))
  && (rec_length r <=? SSL3_RT_MAX_ENCRYPTED_LENGTH)
  && (rec_length r <=? max_frag_len rl + SSL3_RT_MAX_ENCRYPTED_OVERHEAD).

(** What follows in [dtls_get_more_records]: return, or [goto again]. *)
Inductive next_step : Type := Return (code : Z) | Again.

(** The header, unless there is one already; [None] when there is. *)
Definition dtls_read_header : ST RL (option next_step) := fun rl =>
  if (rstate rl =? SSL_ST_READ_BODY) && (DTLS1_RT_HEADER_LENGTH <=? packet_length rl) then (Ok None, rl)
  else match tls_default_read_n DTLS1_RT_HEADER_LENGTH (len (rbuf rl)) false true rl with
  | (Ok (rret, _), rl) =>
      if rret <? OSSL_RECORD_RETURN_SUCCESS then (Ok (Some (Return rret)), rl)
      else if negb (packet_length rl =? DTLS1_RT_HEADER_LENGTH) then (Ok (Some Again), set_packet_length 0 rl)
      else match dtls_parse_header (set_rstate SSL_ST_READ_BODY rl) with
      | None => (Fault, rl)
      | Some rl => if dtls_header_ok rl then (Ok None, rl) else (Ok (Some Again), dump rl)
      end
  | (Fail, rl) => (Fail, rl)
  | (Fault, rl) => (Fault, rl)
  end.

(** The rest of the record. *)
Definition dtls_read_body : ST RL (option next_step) := fun rl =>
  let more := rec_length (rr rl) in
  if more <=? wrap64 (packet_length rl - DTLS1_RT_HEADER_LENGTH) then (Ok None, rl)
  else match tls_default_read_n more more true true rl with
  | (Ok (rret, n), rl) =>
      if (rret <? OSSL_RECORD_RETURN_SUCCESS) || negb (n =? more) then
        if negb (alert rl =? SSL_AD_NO_ALERT) then (Ok (Some (Return OSSL_RECORD_RETURN_FATAL)), rl)
        else (Ok (Some Again), dump rl)
      else (Ok None, rl)
  | (Fail, rl) => (Fail, rl)
  | (Fault, rl) => (Fault, rl)
  end.

(** The whole record is there. *)
Definition dtls_have_record : ST RL next_step := fun rl =>
  let rl := set_rstate SSL_ST_READ_HEADER rl in
  match dtls_get_bitmap rl with
  | None => (Ok Again, dump rl)
  | Some next =>
      let '(fresh, rl) := dtls_record_replay_check next rl in
      if negb fresh then (Ok Again, dump rl)
      else if rec_length (rr rl) =? 0 then (Ok Again, rl)
      else if next then
        if rl_in_init rl then
          match dtls_rlayer_buffer_record (rec_seq_num (rr rl)) rl with
          | (Ok r, rl) => if r <? 0 then (Ok (Return OSSL_RECORD_RETURN_FATAL), rl) else (Ok Again, dump rl)
          | (Fail, rl) => (Fail, rl)
          | (Fault, rl) => (Fault, rl)
          end
        else (Ok Again, dump rl)
      else match dtls_process_record next rl with
      | (Ok _, rl) => (Ok (Return OSSL_RECORD_RETURN_SUCCESS), set_num_recs 1 rl)
      | (Fail, rl) =>
          if negb (alert rl =? SSL_AD_NO_ALERT) then (Ok (Return OSSL_RECORD_RETURN_FATAL), rl)
          else (Ok Again, dump rl)
      | (Fault, rl) => (Fault, rl)
      end
  end.

(** From [again] to the next return or [goto again]. *)
Definition dtls_again : ST RL next_step :=
  got <~ dtls_retrieve_rlayer_buffered_record ;;
  if got : bool then fun rl => (Ok (Return OSSL_RECORD_RETURN_SUCCESS), set_num_recs 1 rl)
  else
    h <~ dtls_read_header ;;
    match h with
    | Some s => st_ret s
    | None =>
        b <~ dtls_read_body ;;
        match b with
        | Some s => st_ret s
        | None => dtls_have_record
        end
    end.

(** [None] when the fuel is used up. *)
Fixpoint dtls_again_loop (fuel : nat) : ST RL (option Z) := fun rl =>
  match fuel with
  | O => (Ok None, rl)
  | S fuel =>
      match dtls_again rl with
      | (Ok (Return code), rl) => (Ok (Some code), rl)
      | (Ok Again, rl) => dtls_again_loop fuel rl
      | (Fail, rl) => (Fail, rl)
      | (Fault, rl) => (Fault, rl)
      end
  end.

Definition dtls_get_more_records (fuel : nat) : ST RL (option Z) := fun rl =>
  let rl := set_num_released 0 (set_curr_rec 0 (set_num_recs 0 rl)) in
  match tls_setup_read_buffer rl with
  | (Ok _, rl) => dtls_again_loop fuel rl
  | (Fail, rl) => (Ok (Some OSSL_RECORD_RETURN_FATAL), rl)
  | (Fault, rl) => (Fault, rl)
  end.

(** ** The layer *)

Definition dtls_any_set_protocol_version (vers : Z) (rl : RL) : bool * RL :=
  if negb (rl_version rl =? DTLS_ANY_VERSION) && negb (rl_version rl =? vers) then (false, rl)
  else (true, set_rl_version vers rl).
End Dtls.

(** The values of the parameters a record layer is made with. *)
Record rl_settings : Type := mkSETTINGS {
  s_use_etm : bool;
  s_max_frag_len : Z;
  s_max_early_data : Z;
  s_options : Z;
  s_mode : Z;
  s_default_len : Z;
  s_read_ahead : bool
}.

Abbreviation OSSL_RECORD_PROTECTION_LEVEL_NONE := (0)%Z.

(** [dtls]: as [dtls_new_record_layer] goes on, with its epoch. *)
Definition tls_int_new_record_layer {B X} (vers role level : Z) (prev transport : option B) (s : rl_settings)
  (dtls : option Z) (x : X) : OSSL_RECORD_LAYER B X :=
  let zero_bitmap := mkDTLS_BITMAP 0 (replicate 8 0) in
  let isdtls := match dtls with Some _ => true | None => false end in
  mkRL isdtls vers role level (default 0 dtls) prev transport (s_options s) (s_mode s)
    (mkTLS_BUFFER None 0 (s_default_len s) 0 0 0) (replicate 32 no_record) 0 0 0 SSL_ST_READ_HEADER None 0
    (replicate 8 0) SSL_AD_NO_ALERT (s_read_ahead s) 0 false (s_max_frag_len s) (s_max_early_data s) 0 (s_use_etm s)
    (level =? OSSL_RECORD_PROTECTION_LEVEL_NONE) [] [] zero_bitmap zero_bitmap isdtls 0 x.

Definition dtls_new_record_layer {B X} (vers role level epoch : Z) (prev transport : option B) (s : rl_settings)
  (x : X) : OSSL_RECORD_LAYER B X :=
  tls_int_new_record_layer vers role level prev transport s (Some epoch) x.
