(* ===== verification/DtlsReplay.v ===== *)
(** * The DTLS record layer: replayed records

    The window of sequence numbers of DtlsRecord.v is exact, and a sequence number
    is handed out at most once, whatever arrives. *)

From stdpp Require Import prelude list.
From Stdlib Require Import ZArith Lia.
From S2P Require Import Prelude PQueue RecordTypes RecordRead DtlsRecord.

Local Open Scope Z_scope.

(** ** The window *)

(** A sequence number in its eight bytes. *)
Definition seq_ok (s : list Z) : Prop := length s = 8%nat /\ Forall is_byte s.

Lemma seq_range s : seq_ok s -> 0 <= be_val s < 2 ^ 64.
Proof. intros [Hl Hb]. pose proof (be_val_range s Hb) as H. rewrite Hl in H. done. Qed.

Lemma sub_s64_exact a b : 0 <= a < 2 ^ 64 -> 0 <= b < 2 ^ 64 ->
  sub_s64 a b = (if a - b <? - 2 ^ 63 then a - b + 2 ^ 64 else if 2 ^ 63 <=? a - b then a - b - 2 ^ 64 else a - b).
Proof.
  intros Ha Hb. unfold sub_s64, wrap64. change 18446744073709551616 with (2 ^ 64). change 9223372036854775808 with (2 ^ 63).
  assert (Hm : (a - b) `mod` 2 ^ 64 = if a - b <? 0 then a - b + 2 ^ 64 else a - b).
  { destruct (a - b <? 0) eqn:E; zbool; [|apply Z.mod_small; lia].
    rewrite <- (Z.mod_small (a - b + 2 ^ 64) (2 ^ 64)) by lia. by rewrite <- Z.add_mod_idemp_r, Z.mod_same, Z.add_0_r by lia. }
  rewrite Hm. repeat case_match; zbool; lia.
Qed.

(** The difference, cut off at 128 either way. *)
Lemma satsub_spec v1 v2 : seq_ok v1 -> seq_ok v2 ->
  satsub64be v1 v2 = Z.max (-128) (Z.min 128 (be_val v1 - be_val v2)).
Proof.
  intros H1 H2. pose proof (seq_range _ H1). pose proof (seq_range _ H2). unfold satsub64be.
  rewrite !take_ge by (destruct H1, H2; lia). rewrite sub_s64_exact by done.
  destruct (be_val v2 <? be_val v1) eqn:E1; destruct (be_val v1 <? be_val v2) eqn:E2; zbool; simpl;
    repeat case_match; zbool; lia.
Qed.

(** [map] and [max_seq_num] stand for the sequence numbers seen. *)
Record window (seen : list Z) (bm : DTLS_BITMAP) : Prop := {
  w_max : seq_ok (max_seq_num bm);
  w_map : 0 <= bm_map bm < 2 ^ 64;
  w_top : be_val (max_seq_num bm) = foldr Z.max 0 seen;
  w_seen : forall s, s ∈ seen -> 0 <= s <= be_val (max_seq_num bm);
  w_bits : forall i, 0 <= i < 64 -> Z.testbit (bm_map bm) i = true <-> be_val (max_seq_num bm) - i ∈ seen
}.

Lemma has_bit m i : 0 <= i -> has m (Z.shiftl 1 i) = Z.testbit m i.
Proof.
  intros Hi. unfold has. rewrite Z.shiftl_1_l. destruct (Z.testbit m i) eqn:E.
  - apply negb_true_iff, Z.eqb_neq. intros H0. apply (f_equal (fun z => Z.testbit z i)) in H0.
    rewrite Z.land_spec, E, Z.pow2_bits_true, Z.bits_0 in H0 by lia. done.
  - apply negb_false_iff, Z.eqb_eq, Z.bits_inj'. intros j Hj. rewrite Z.land_spec, Z.bits_0.
    destruct (decide (j = i)) as [->|]; [by rewrite E|]. by rewrite Z.pow2_bits_false, andb_false_r by lia.
Qed.

(** ** The check *)

Definition fresh (seen : list Z) (m s : Z) : Prop := m < s \/ (m - s < 64 /\ s ∉ seen).

Definition replay_ok (seq : list Z) (bm : DTLS_BITMAP) : bool :=
  let cmp := satsub64be seq (max_seq_num bm) in
  (0 <? cmp) || ((- cmp <? 64) && negb (has (bm_map bm) (Z.shiftl 1 (- cmp)))).

Lemma replay_ok_spec seen bm seq : window seen bm -> seq_ok seq ->
  replay_ok seq bm = true <-> fresh seen (be_val (max_seq_num bm)) (be_val seq).
Proof.
  intros [Hm Hr Ht Hs Hb] Hq. unfold replay_ok, fresh. rewrite satsub_spec by done.
  set (m := be_val (max_seq_num bm)) in *. set (s := be_val seq) in *.
  destruct (0 <? Z.max (-128) (Z.min 128 (s - m))) eqn:E1; zbool; simpl; [split; [left; lia|done]|].
  destruct (- Z.max (-128) (Z.min 128 (s - m)) <? 64) eqn:E2; zbool; simpl; [|split; [done|]; intros [?|[? _]]; lia].
  replace (- Z.max (-128) (Z.min 128 (s - m))) with (m - s) by lia.
  rewrite has_bit, negb_true_iff by lia. specialize (Hb (m - s) ltac:(lia)).
  replace (m - (m - s)) with s in Hb by lia. destruct (Z.testbit (bm_map bm) (m - s)).
  - split; [done|]. intros [?|[_ Hn]]; [lia|]. destruct Hn. by apply Hb.
  - split; [|done]. intros _. right. split; [lia|]. intros Hin. by apply Hb in Hin.
Qed.

Lemma fresh_new seen bm s : window seen bm -> fresh seen (be_val (max_seq_num bm)) s -> s ∉ seen.
Proof. intros [_ _ _ Hs _] [Hlt|[_ Hn]] Hin; [|done]. specialize (Hs s Hin). lia. Qed.

(** ** The update *)

Lemma shift_bits m c i : 0 <= c -> 0 <= i < 64 ->
  Z.testbit (Z.lor (wrap64 (Z.shiftl m c)) 1) i = ((i =? 0) || (c <=? i) && Z.testbit m (i - c)).
Proof.
  intros Hc Hi. rewrite Z.lor_spec. unfold wrap64. change 18446744073709551616 with (2 ^ 64).
  rewrite Z.mod_pow2_bits_low, Z.shiftl_spec by lia. destruct (i =? 0) eqn:E; zbool.
  - subst i. by rewrite orb_true_r.
  - change 1 with (2 ^ 0) at 1. rewrite Z.pow2_bits_false, orb_false_r by lia. simpl.
    destruct (c <=? i) eqn:E2; zbool; [done|]. by rewrite Z.testbit_neg_r by lia.
Qed.

Lemma lor_range a b : 0 <= a < 2 ^ 64 -> 0 <= b < 2 ^ 64 -> 0 <= Z.lor a b < 2 ^ 64.
Proof.
  intros Ha Hb. assert (0 <= Z.lor a b) by (apply Z.lor_nonneg; lia). split; [done|].
  destruct (decide (Z.lor a b = 0)) as [->|]; [done|]. apply Z.log2_lt_pow2; [lia|].
  rewrite Z.log2_lor by lia.
  assert (forall z, 0 <= z < 2 ^ 64 -> Z.log2 z < 64).
  { intros z Hz. destruct (decide (z = 0)) as [->|]; [done|]. apply Z.log2_lt_pow2; lia. }
  apply Z.max_lub_lt; auto.
Qed.

Lemma window_update seen bm seq : window seen bm -> seq_ok seq ->
  window (be_val seq :: seen) (bitmap_update seq bm).
Proof.
  intros [Hm Hr Ht Hs Hb] Hq. pose proof (seq_range _ Hq) as Rq. pose proof (seq_range _ Hm) as Rm.
  unfold bitmap_update. rewrite satsub_spec by done. rewrite (take_ge seq) by (destruct Hq; lia).
  set (m := be_val (max_seq_num bm)) in *. set (s := be_val seq) in *.
  destruct (0 <? Z.max (-128) (Z.min 128 (s - m))) eqn:E1; zbool.
  - split; simpl; fold s.
    + done.
    + destruct (_ <? 64); [|done]. apply lor_range; [|done]. unfold wrap64. apply Z.mod_pos_bound. done.
    + fold s. rewrite <- Ht. lia.
    + intros x [->|Hx]%elem_of_cons; [lia|]. specialize (Hs x Hx). lia.
    + intros i Hi. rewrite elem_of_cons. destruct (Z.max (-128) (Z.min 128 (s - m)) <? 64) eqn:E2; zbool.
      * rewrite shift_bits by lia. replace (Z.max (-128) (Z.min 128 (s - m))) with (s - m) by lia.
        destruct (i =? 0) eqn:E0; zbool; simpl; [split; [left; lia|done]|].
        destruct (s - m <=? i) eqn:E3; zbool; simpl.
        -- rewrite (Hb (i - (s - m))) by lia. replace (m - (i - (s - m))) with (s - i) by lia.
           split; [by right|]. intros [?|?]; [lia|done].
        -- split; [done|]. intros [?|Hin]; [lia|]. specialize (Hs _ Hin). lia.
      * destruct (decide (i = 0)) as [->|]; [split; [left; lia|done]|].
        change 1 with (2 ^ 0). rewrite Z.pow2_bits_false by lia. split; [done|].
        intros [?|Hin]; [lia|]. specialize (Hs _ Hin). lia.
  - assert (Hseen : forall x, x ∈ s :: seen -> 0 <= x <= m).
    { intros x [->|Hx]%elem_of_cons; [lia|]. by apply Hs. }
    destruct (- Z.max (-128) (Z.min 128 (s - m)) <? 64) eqn:E2; zbool.
    + split; simpl; fold m; try done.
      * apply lor_range; [done|]. rewrite Z.shiftl_1_l. split; [lia|]. apply Z.pow_lt_mono_r; lia.
      * fold s. rewrite <- Ht. lia.
      * intros i Hi. replace (- Z.max (-128) (Z.min 128 (s - m))) with (m - s) by lia.
        rewrite Z.lor_spec, Z.shiftl_1_l, Z.pow2_bits_eqb, elem_of_cons by lia.
        rewrite orb_true_iff, (Hb i Hi), Z.eqb_eq. split; [intros [?|?]; [by right|left; lia]|].
        intros [?|?]; [right; lia|by left].
    + split; fold m; try done; [simpl; fold s; rewrite <- Ht; lia|]. intros i Hi. rewrite (Hb i Hi), elem_of_cons. split; [by right|].
      intros [?|?]; [lia|done].
Qed.

Lemma window_init : window [] (mkDTLS_BITMAP 0 (replicate 8 0)).
Proof.
  split; simpl; [split; [done|]; by repeat constructor|done|done|by intros s ?%not_elem_of_nil|].
  intros i Hi. rewrite Z.bits_0. split; [done|]. by intros ?%not_elem_of_nil.
Qed.

Section Window.
Context {B X : Type} `{!BIO B} `{!record_functions B X}.
Local Abbreviation RL := (OSSL_RECORD_LAYER B X).

Lemma replay_check_eq next (rl : RL) :
  fst (dtls_record_replay_check next rl) = replay_ok (sequence rl) (bitmap_of next rl).
Proof.
  unfold dtls_record_replay_check, replay_ok. cbn zeta.
  destruct (0 <? _) eqn:E1; zbool; simpl; [done|].
  destruct (64 <=? _) eqn:E2; zbool; [by rewrite (proj2 (Z.ltb_ge _ _)) by lia|].
  rewrite (proj2 (Z.ltb_lt _ _)) by lia. simpl. by destruct (has _ _).
Qed.

Lemma newest_rev l : foldr Z.max 0 (rev l) = foldr Z.max 0 l.
Proof.
  assert (Hacc : forall l' a, 0 <= a -> foldr Z.max a l' = Z.max a (foldr Z.max 0 l')).
  { induction l' as [|y l' IH]; intros a Ha; simpl; [lia|]. rewrite IH by done. lia. }
  induction l as [|x l IH]; simpl; [done|]. rewrite foldr_app. simpl. rewrite Hacc, IH by lia.
  assert (0 <= foldr Z.max 0 l) by (clear; induction l; simpl; lia). lia.
Qed.

(** A record with sequence number [s] is received. *)
Definition receive (next : bool) (rl : RL) (s : list Z) : RL := dtls_record_bitmap_update next (set_sequence s rl).

Lemma receive_window next (rl : RL) s seen : window seen (bitmap_of next rl) -> seq_ok s ->
  window (be_val s :: seen) (bitmap_of next (receive next rl s)).
Proof. intros Hw Hs. destruct next; by apply window_update. Qed.

Lemma receive_all_window next seqs : forall (rl : RL) seen, window seen (bitmap_of next rl) -> Forall seq_ok seqs ->
  window (rev (map be_val seqs) ++ seen) (bitmap_of next (fold_left (receive next) seqs rl)).
Proof.
  induction seqs as [|s seqs IH]; intros rl seen Hw Hs; [done|]. apply Forall_cons in Hs as [Hs1 Hs].
  simpl. rewrite <- app_assoc. apply IH; [|done]. by apply receive_window.
Qed.

(** After any sequence of records, each marked in the window as it is
    received, the check accepts a sequence number if it is larger than all of
    them, or if it is less than 64 below the largest and was not received; it
    refuses every other. *)
Lemma replay_window_exact next (rl : RL) seqs s :
  bitmap_of next rl = mkDTLS_BITMAP 0 (replicate 8 0) -> Forall seq_ok seqs -> seq_ok s ->
  let rl' := fold_left (receive next) seqs rl in
  let newest := foldr Z.max 0 (map be_val seqs) in
  fst (dtls_record_replay_check next (set_sequence s rl')) = true
  <-> newest < be_val s \/ (newest - be_val s < 64 /\ be_val s ∉ map be_val seqs).
Proof.
  intros Hb Hs Hq rl' newest. rewrite replay_check_eq.
  pose proof (receive_all_window next seqs rl [] ltac:(rewrite Hb; apply window_init) Hs) as Hw.
  rewrite app_nil_r in Hw. fold rl' in Hw.
  assert (Hbm : bitmap_of next (set_sequence s rl') = bitmap_of next rl') by (by destruct next).
  rewrite Hbm. simpl sequence. rewrite (replay_ok_spec _ _ _ Hw Hq), (w_top _ _ Hw), newest_rev. unfold fresh.
  fold newest. by rewrite !list_elem_of_In, <- in_rev.
Qed.
End Window.

Definition new_window : OSSL_RECORD_LAYER unit unit :=
  dtls_new_record_layer DTLS_ANY_VERSION 0 0 0 None None (mkSETTINGS false 0 0 0 0 0 false) tt.
Definition sample_window : OSSL_RECORD_LAYER unit unit :=
  fold_left (receive false) [be_bytes 8 10; be_bytes 8 12] new_window.

Lemma replay_window_exact_witness :
  fst (dtls_record_replay_check false (set_sequence (be_bytes 8 11) sample_window)) = true
  /\ fst (dtls_record_replay_check false (set_sequence (be_bytes 8 10) sample_window)) = false.
Proof.
  assert (Hq : forall z, seq_ok (be_bytes 8 z)) by (intros z; split; [apply length_be_bytes|apply be_bytes_is_byte]).
  assert (Hall : Forall seq_ok [be_bytes 8 10; be_bytes 8 12]) by (apply Forall_cons; split; [apply Hq|]; apply Forall_cons; split; [apply Hq|done]).
  split.
  - apply (replay_window_exact false new_window _ (be_bytes 8 11) eq_refl Hall (Hq 11)). right. split; [vm_compute; reflexivity|].
    vm_compute. intros Hin. repeat (apply elem_of_cons in Hin as [Hin|Hin]; [discriminate|]). by apply not_elem_of_nil in Hin.
  - reflexivity.
Defined.
