(* ===== verification/DtlsReader.v ===== *)
(** * The DTLS record layer: the reading loop

    [dtls_get_more_records] of DtlsRecord.v stays inside its buffers, comes to an
    end, and hands out no sequence number twice. *)

From stdpp Require Import prelude list.
From Stdlib Require Import ZArith Lia.
From S2P Require Import Prelude PQueue RecordTypes RecordRead DtlsRecord DtlsReplay.

Local Open Scope Z_scope.
Local Open Scope st_scope.

Section Reader.
Context {B X : Type} `{!BIO B, !BIOOk B} `{!record_functions B X}.
Local Abbreviation RL := (OSSL_RECORD_LAYER B X).

(** ** What is relied on *)

(** The record's data is where its pointer says. *)
Definition data_ok (rl : RL) : Prop :=
  is_Some (ptr_bytes rl (rr rl) (rec_data (rr rl)) 0 (rec_length (rr rl))).

(** The buffer for decompressed data is large enough. *)
Definition comp_ok (r : TLS_RL_RECORD) : Prop :=
  match rec_comp r with Some c => SSL3_RT_MAX_PLAIN_LENGTH <= Z.of_nat (length c) | None => True end.

(** The record's bytes are at hand. *)
Record ready (rl : RL) : Prop := {
  rd_dtls : isdtls rl = true;
  rd_rbuf : rb_wf (rbuf rl);
  rd_buf : buf (rbuf rl) <> None;
  rd_rrec : rrec rl <> [];
  rd_comp : comp_ok (rr rl);
  rd_length : 0 <= rec_length (rr rl);
  rd_data : data_ok rl
}.

(** Deciphering and authenticating work in the record's bytes and on its length
    and pointers, and can raise an alert. *)
Definition crypt_keeps (rl rl' : RL) : Prop :=
  exists mem mem' r' x' a',
    buf (rbuf rl) = Some mem /\ length mem' = length mem /\ Forall is_byte mem'
    /\ rl' = set_alert a' (set_env x' (upd_rr (fun _ => r') (set_rbuf (with_mem mem' (rbuf rl)) rl)))
    /\ rec_seq_num r' = rec_seq_num (rr rl) /\ rec_epoch r' = rec_epoch (rr rl) /\ rec_comp r' = rec_comp (rr rl)
    /\ 0 <= rec_length r'.

Class record_functions_ok : Prop := {
  malloc_ok x n d a x' : 0 <= n -> rl_malloc x n = (Some (d, a), x') ->
    Z.of_nat (length d) = n /\ Forall is_byte d;
  expand_ok x src n out x' : expand_block x src n = (Some out, x') -> Z.of_nat (length out) <= n;
  cipher_ok mac_size rl : ready rl ->
    exists e macs rl', rl_cipher 1 mac_size rl = (Ok (e, macs), rl') /\ crypt_keeps rl rl' /\ (e <> 0 -> data_ok rl');
  mac_ok rl : ready rl ->
    exists i md rl', rl_mac 0 rl = (Ok (i, md), rl') /\ crypt_keeps rl rl' /\ data_ok rl'
}.
Context `{!record_functions_ok}.

(** ** The invariant *)

Record dtls_inv (rl : RL) : Prop := {
  di_dtls : isdtls rl = true;
  di_rbuf : rb_wf (rbuf rl);
  di_sizes : 0 <= max_frag_len rl < 2 ^ 32 /\ 0 <= max_pipelines rl <= 32 /\ 0 <= default_len (rbuf rl) < 2 ^ 40;
  di_seq : seq_ok (sequence rl);
  di_rrec : rrec rl <> [];
  di_comp : comp_ok (rr rl);
  di_processed : processed_rcds rl = [];
  di_packet : rstate rl = SSL_ST_READ_BODY -> DTLS1_RT_HEADER_LENGTH <= packet_length rl ->
    packet_at rl /\ 0 <= rec_length (rr rl)
}.

(** What the handling of one record leaves alone. *)
Definition fixed (rl : RL) :=
  (isdtls rl, max_frag_len rl, max_pipelines rl, processed_rcds rl, sequence rl, rstate rl,
   (prev rl, bio rl, bitmap rl, next_bitmap rl, num_recs rl, curr_rec rl, num_released rl, epoch rl),
   (default_len (rbuf rl), left (rbuf rl), buf_addr (rbuf rl), len (rbuf rl), offset (rbuf rl)),
   (rec_seq_num (rr rl), rec_epoch (rr rl))).

Record kept (rl rl' : RL) : Prop := {
  k_fixed : fixed rl' = fixed rl;
  k_rrec : rrec rl <> [] -> rrec rl' <> [];
  k_buf : buf (rbuf rl) <> None -> buf (rbuf rl') <> None;
  k_rbuf : rb_wf (rbuf rl) -> rb_wf (rbuf rl');
  k_comp : comp_ok (rr rl) -> comp_ok (rr rl')
}.

Lemma kept_refl rl : kept rl rl.
Proof. by split. Qed.

Lemma kept_trans rl1 rl2 rl3 : kept rl1 rl2 -> kept rl2 rl3 -> kept rl1 rl3.
Proof. intros [F1 A1 B1 C1 D1] [F2 A2 B2 C2 D2]. split; [congruence|auto..]. Qed.

Lemma rr_upd f (rl : RL) : rrec rl <> [] -> rr (upd_rr f rl) = f (rr rl).
Proof. intros Hne. unfold rr, rrec_at, upd_rr, upd_rrec. simpl. by destruct (rrec rl). Qed.

Lemma rrec_upd f (rl : RL) : rrec rl <> [] -> rrec (upd_rr f rl) <> [].
Proof. intros Hne. unfold upd_rr, upd_rrec. simpl. by destruct (rrec rl). Qed.

(** Changes of the record that keep its number. *)
Lemma kept_upd f (rl : RL) : rrec rl <> [] ->
  rec_seq_num (f (rr rl)) = rec_seq_num (rr rl) -> rec_epoch (f (rr rl)) = rec_epoch (rr rl) ->
  (comp_ok (rr rl) -> comp_ok (f (rr rl))) -> kept rl (upd_rr f rl).
Proof.
  intros Hr Hs He Hc. split; [|by intros _; apply rrec_upd|done|done|by rewrite rr_upd]. unfold fixed. rewrite rr_upd by done.
  by rewrite Hs, He.
Qed.

Lemma kept_alert a (rl : RL) : kept rl (set_alert a rl).
Proof. by split. Qed.
Lemma kept_packet_length n (rl : RL) : kept rl (set_packet_length n rl).
Proof. by split. Qed.
Lemma kept_env x (rl : RL) : kept rl (set_env x rl).
Proof. by split. Qed.

Lemma kept_dump (rl : RL) : rrec rl <> [] -> kept rl (dump rl).
Proof.
  intros Hr. eapply kept_trans; [apply (kept_upd (set_rec_length 0)); done|apply kept_packet_length].
Qed.

Lemma rb_wf_mem mem mem' rb : rb_wf rb -> buf rb = Some mem -> length mem' = length mem -> Forall is_byte mem' ->
  rb_wf (with_mem mem' rb).
Proof.
  unfold rb_wf. intros Hwf Em Hl Hby. rewrite Em in Hwf. simpl. rewrite Hl. destruct Hwf as (?&?&?&?).
  rewrite !align_mem. split_and!; (done || lia).
Qed.

Lemma kept_crypt (rl rl' : RL) : rrec rl <> [] -> crypt_keeps rl rl' -> kept rl rl'.
Proof.
  intros Hr (mem & mem' & r' & x' & a' & Em & Hl & Hby & -> & Hs & He & Hc & _).
  eapply kept_trans; [|apply kept_alert]. eapply kept_trans; [|apply kept_env].
  apply (kept_trans _ (set_rbuf (with_mem mem' (rbuf rl)) rl)).
  - split; [done|done|done| |done]. intros Hwf. by apply (rb_wf_mem mem).
  - apply kept_upd; [done..|]. unfold comp_ok. by rewrite Hc.
Qed.

(** ** Processing a record *)

(** [m] does not fault, keeps what is fixed, and if it succeeds establishes
    [post]. *)
Definition good {A} (m : ST RL A) (post : A -> RL -> Prop) (rl : RL) : Prop :=
  exists r rl', m rl = (r, rl') /\ kept rl rl'
    /\ match r with Ok a => post a rl' | Fail => True | Fault => False end.

Lemma good_bind {A C} (m : ST RL A) (f : A -> ST RL C) Q R rl : good m Q rl ->
  (forall a rl', kept rl rl' -> Q a rl' -> good (f a) R rl') -> good (st_bind m f) R rl.
Proof.
  intros (r & rl1 & E & K & Hr) Hf. unfold st_bind, good. destruct r as [a| |]; [|exists Fail, rl1; by rewrite E|done].
  destruct (Hf a rl1 K Hr) as (r2 & rl2 & E2 & K2 & Hr2). exists r2, rl2. rewrite E.
  split; [done|]. split; [by eapply kept_trans|done].
Qed.

Lemma good_ret {A} (a : A) (Q : A -> RL -> Prop) rl : Q a rl -> good (st_ret a) Q rl.
Proof. intros HQ. exists (Ok a), rl. split; [done|]. by split; [apply kept_refl|]. Qed.

Lemma good_fail {A} (m : ST RL A) (Q : A -> RL -> Prop) rl rl' : m rl = (Fail, rl') -> kept rl rl' -> good m Q rl.
Proof. intros E K. exists Fail, rl'. by split. Qed.

Lemma ready_crypt (rl rl' : RL) : ready rl -> crypt_keeps rl rl' -> data_ok rl' -> ready rl'.
Proof.
  intros [H1 H2 Hbuf H3 H4 H5 H6] Hk Hd. pose proof (kept_crypt _ _ H3 Hk) as K.
  destruct Hk as (mem & mem' & r' & x' & a' & Em & Hl & Hby & E & Hs & He & Hc & Hn).
  assert (Hrr : rr rl' = r') by (rewrite E; by apply (rr_upd (fun _ => r'))).
  split; [by rewrite E|by apply (k_rbuf _ _ K)|by apply (k_buf _ _ K)|by apply (k_rrec _ _ K)| |by rewrite Hrr|done].
  unfold comp_ok. by rewrite Hrr, Hc.
Qed.

Lemma good_mac_size rl : ready rl -> good read_mac_size (fun n rl' => rl' = rl /\ 0 <= n) rl.
Proof.
  intros Hr. unfold read_mac_size, good. destruct (md_ctx (env rl)) as [[n|]|].
  - destruct (_ && _) eqn:E; zbool; [by exists (Ok n), rl; split; [|split; [apply kept_refl|]]|].
    eexists Fail, _. split; [done|]. split; [apply kept_alert|done].
  - by exists (Ok 0), rl; split; [|split; [apply kept_refl|]].
  - by exists (Ok 0), rl; split; [|split; [apply kept_refl|]].
Qed.

Lemma good_cipher n rl : ready rl -> good (rl_cipher 1 n) (fun e rl' => fst e <> 0 -> ready rl') rl.
Proof.
  intros Hr. destruct (cipher_ok n rl) as (e & macs & rl' & E & Hk & Hd); [done|].
  exists (Ok (e, macs)), rl'. split; [done|]. split; [apply kept_crypt; [apply Hr|done]|].
  simpl. intros He. by apply (ready_crypt rl); [..|auto].
Qed.

Lemma good_mte n macs rl : ready rl -> good (check_mte n macs) (fun _ rl' => ready rl') rl.
Proof.
  intros Hr. unfold check_mte, good. destruct (mac_ok rl) as (i & md & rl' & E & Hk & Hd); [done|].
  rewrite E. eexists _, rl'. split; [done|]. split; [apply kept_crypt; [apply Hr|done]|]. simpl. by apply (ready_crypt rl).
Qed.

Lemma mem_read_sub (mem mem' : list Z) o n i k : is_Some (mem_read mem o n) -> length mem' = length mem ->
  0 <= i -> 0 <= k -> i + k <= n -> is_Some (mem_read mem' (o + i) k).
Proof.
  intros [bs Hb] Hl Hi Hk Hn. unfold mem_read in *. destruct (_ && _ && _) eqn:E in Hb; [|done]. zbool.
  rewrite Hl, !(proj2 (Z.leb_le _ _)) by lia. by eexists.
Qed.

(** The same bytes, counted by a smaller length. *)
Lemma ready_shorter rl (o k : Z) : ready rl -> rec_data (rr rl) = RBuf o -> 0 <= k <= rec_length (rr rl) ->
  ready (upd_rr (set_rec_length k) rl).
Proof.
  intros [H1 H2 Hbuf H3 H4 H5 H6] Ed Hk. unfold data_ok in H6. rewrite Ed in H6. simpl in H6.
  split; [done|done|done|by apply rrec_upd|by rewrite rr_upd|rewrite rr_upd by done; simpl; lia|].
  unfold data_ok. rewrite !rr_upd by done. simpl. rewrite Ed. simpl.
  destruct (buf (rbuf rl)) as [mem|]; [|by destruct H6]. rewrite Z.add_0_r in *.
  rewrite <- (Z.add_0_r o). apply (mem_read_sub mem mem o (rec_length (rr rl))); [done|done|lia..].
Qed.

Lemma upd_rr_ext f g (rl : RL) : rrec rl <> [] -> f (rr rl) = g (rr rl) -> upd_rr f rl = upd_rr g rl.
Proof.
  intros Hne E. unfold upd_rr, upd_rrec, rr, rrec_at in *. destruct (rrec rl) as [|r l]; [done|]. simpl in *. by rewrite E.
Qed.

Lemma good_etm n rl o : ready rl -> rec_data (rr rl) = RBuf o -> orig_len (rr rl) = rec_length (rr rl) -> 0 <= n ->
  good (check_etm n) (fun _ rl' => ready rl') rl.
Proof.
  intros Hr Ed Eo Hn. pose proof (rd_rrec _ Hr) as Hne. unfold good, check_etm. rewrite Eo.
  destruct (rec_length (rr rl) <? n) eqn:E; zbool.
  { eexists _, _. split; [done|]. split; [apply kept_alert|done]. }
  set (k := rec_length (rr rl) - n).
  rewrite (upd_rr_ext _ (set_rec_length k)) by done. set (rl1 := upd_rr (set_rec_length k) rl).
  assert (Hr1 : ready rl1) by (apply (ready_shorter rl o); [done|done|lia]).
  assert (K1 : kept rl rl1) by (by apply kept_upd).
  assert (Erl1 : rr rl1 = set_rec_length k (rr rl)) by (by apply rr_upd).
  destruct (mac_ok rl1) as (i & md & rl2 & E2 & Hk & Hd); [done|]. rewrite E2, Erl1. cbn [fst snd].
  change (rec_data (set_rec_length k (rr rl))) with (rec_data (rr rl)). rewrite Ed.
  assert (K2 : kept rl rl2) by (eapply kept_trans; [done|]; by apply kept_crypt; [apply Hr1|]).
  pose proof (ready_crypt rl1 rl2 Hr1 Hk Hd) as Hr2.
  assert (Hmac : is_Some (ptr_bytes rl2 (rr rl2) (RBuf o) (rec_length (set_rec_length k (rr rl))) n)).
  { destruct Hk as (mem & mem' & r' & x' & a' & Em & Hl & _ & E3 & _). rewrite E3. simpl.
    pose proof (rd_data _ Hr) as Hdat. unfold data_ok in Hdat. rewrite Ed in Hdat. simpl in Hdat. simpl in Em.
    rewrite Em, Z.add_0_r in Hdat. apply (mem_read_sub mem mem' o (rec_length (rr rl))); (done || lia). }
  destruct Hmac as [mac ->]. destruct (_ || _).
  - eexists _, _. split; [done|]. split; [eapply kept_trans; [exact K2|apply kept_alert]|done].
  - by eexists _, _.
Qed.

Lemma good_uncompress rl : ready rl -> good (tls_do_uncompress 0) (fun _ rl' => ready rl') rl.
Proof.
  intros Hr. pose proof Hr as [H1 H2 Hbuf H3 H4 H5 H6]. unfold good, tls_do_uncompress.
  assert (Hc : exists oc x, match rec_comp (rrec_at 0 rl) with
      | Some c => (Some c, env rl)
      | None => match rl_malloc (env rl) SSL3_RT_MAX_ENCRYPTED_LENGTH with
                | (Some (c, _), x) => (Some c, x)
                | (None, x) => (None, x)
                end
      end = (oc, x) /\ match oc with Some c => SSL3_RT_MAX_PLAIN_LENGTH <= Z.of_nat (length c) | None => True end).
  { unfold comp_ok, rr in H4. destruct (rec_comp (rrec_at 0 rl)) as [c|]; [by eexists _, _|].
    destruct (rl_malloc _ _) as [[[d a]|] x'] eqn:Em; [|by eexists _, _]. eexists _, _. split; [done|].
    apply malloc_ok in Em as [-> _]; done. }
  destruct Hc as (oc & x & -> & Hoc). destruct oc as [c|]; [|by eexists _, _; split; [|split; [apply kept_env|]]].
  change (rrec_at 0 (set_env x rl)) with (rr rl). destruct H6 as [src Hsrc].
  assert (Hsrc' : ptr_bytes (set_env x rl) (rr rl) (rec_data (rr rl)) 0 (rec_length (rr rl)) = Some src) by exact Hsrc.
  rewrite Hsrc'. cbn zeta. change (@upd_rrec B X 0) with (@upd_rr B X).
  destruct (expand_block _ src _) as [[out|] x'] eqn:Ex.
  - apply expand_ok in Ex. destruct (mem_write c 0 out) as [c'|] eqn:Ew; [|rewrite mem_write_Some in Ew by lia; done].
    pose proof (length_mem_write _ _ _ _ Ew) as Hlc. eexists _, _. split; [done|].
    split; [eapply kept_trans; [apply (kept_env x')|]; apply (kept_upd _ (set_env x' rl)); [done..|];
      intros _; unfold comp_ok; simpl; lia|].
    split; [done|done|done|by apply rrec_upd|..].
    + unfold comp_ok. rewrite (rr_upd _ (set_env _ _)) by done. simpl. lia.
    + rewrite (rr_upd _ (set_env _ _)) by done. simpl. lia.
    + unfold data_ok. rewrite (rr_upd _ (set_env _ _)) by done. simpl. unfold mem_read.
      rewrite !(proj2 (Z.leb_le _ _)) by lia. by eexists.
  - eexists _, _. split; [done|]. split; [|done].
    eapply kept_trans; [apply (kept_env x')|]. by apply (kept_upd _ (set_env x' rl)).
Qed.

(** How processing a record ends: ignored or refused, or marked in the window. *)
Definition marked (next : bool) (rl : RL) : RL :=
  dtls_record_bitmap_update next (set_packet_length 0 (upd_rr (set_rec_off 0) rl)).

Definition outcome (next : bool) (rl : RL) (o : ret unit * RL) : Prop :=
  match fst o with
  | Ok _ => exists rl1, kept rl rl1 /\ snd o = marked next rl1
  | Fail => kept rl (snd o)
  | Fault => False
  end.

Lemma outcome_trans next rl1 rl2 o : kept rl1 rl2 -> outcome next rl2 o -> outcome next rl1 o.
Proof.
  intros K. unfold outcome. destruct (fst o); [|by apply kept_trans|done].
  intros (rl3 & K3 & E). exists rl3. split; [by eapply kept_trans|done].
Qed.

Lemma outcome_bind {A} next (m : ST RL A) f Q rl : good m Q rl ->
  (forall a rl', kept rl rl' -> Q a rl' -> outcome next rl' (f a rl')) -> outcome next rl (st_bind m f rl).
Proof.
  intros (r & rl1 & E & K & Hr) Hf. unfold st_bind. rewrite E. destruct r as [a| |]; [|done|done].
  eapply outcome_trans; [exact K|]. by apply Hf.
Qed.

Lemma process_spec next rl p : isdtls rl = true -> rb_wf (rbuf rl) -> rrec rl <> [] -> comp_ok (rr rl) ->
  packet rl = Some p -> 0 <= p -> 0 <= rec_length (rr rl) ->
  p + DTLS1_RT_HEADER_LENGTH + rec_length (rr rl) <= len (rbuf rl) -> buf (rbuf rl) <> None ->
  outcome next rl (dtls_process_record next rl).
Proof.
  intros Hd Hwf Hne Hc Ep Hp Hl Hend Hb. unfold dtls_process_record. rewrite Ep.
  rewrite rr_upd by done. simpl rec_length.
  set (rl0 := upd_rr (set_rec_input _) rl). assert (K0 : kept rl rl0) by (by apply kept_upd).
  destruct (_ <? _) eqn:E1; zbool; [apply (kept_trans _ _ _ K0), kept_alert|].
  match goal with |- context [upd_rr ?f rl0] => set (rl1 := upd_rr f rl0) end.
  assert (K1 : kept rl rl1) by (eapply kept_trans; [exact K0|]; apply kept_upd; [by apply rrec_upd|done..]).
  assert (E0 : rr rl0 = set_rec_input (RBuf (p + DTLS1_RT_HEADER_LENGTH)) (rr rl)) by (by apply rr_upd).
  assert (Er1 : rec_data (rr rl1) = RBuf (p + DTLS1_RT_HEADER_LENGTH) /\ rec_length (rr rl1) = rec_length (rr rl)
    /\ orig_len (rr rl1) = rec_length (rr rl)).
  { unfold rl1. rewrite rr_upd, E0 by (by apply rrec_upd). done. }
  destruct Er1 as (Ed & El & Eo).
  assert (Hr1 : ready rl1).
  { split; [done|done|done|by apply (k_rrec _ _ K1)|by apply (k_comp _ _ K1)|lia|].
    unfold data_ok. rewrite Ed, El. unfold rb_wf in Hwf. simpl. destruct (buf (rbuf rl)) as [mem|]; [|done].
    unfold mem_read. rewrite !(proj2 (Z.leb_le _ _)) by lia. by eexists. }
  apply (outcome_trans _ _ rl1); [done|].
  eapply outcome_bind; [by apply good_mac_size|]. intros n rl2 _ [-> Hn].
  eapply (outcome_bind _ _ _ (fun n' rl' => ready rl')).
  { destruct (_ && _); [|by apply good_ret]. eapply good_bind; [eapply good_etm; [done|exact Ed|congruence|done]|].
    intros u rl' _ Hr'. by apply good_ret. }
  intros n' rl2 _ Hr2. eapply outcome_bind; [by apply good_cipher|]. intros [e macs] rl3 K3 Hr3. simpl in Hr3.
  pose proof (k_rrec _ _ K3 (rd_rrec _ Hr2)) as Hne3.
  destruct (e =? 0) eqn:Ee; zbool; [unfold outcome; destruct (negb _); simpl; [apply kept_refl|by apply kept_dump]|].
  specialize (Hr3 Ee). eapply (outcome_bind _ _ _ (fun _ rl' => ready rl')).
  { unfold good. destruct (_ && _ && _); [by apply good_mte|by apply (good_ret true)]. }
  intros ok rl4 _ Hr4. destruct ok; simpl; [|apply kept_dump, Hr4].
  eapply (outcome_bind _ _ _ (fun _ rl' => ready rl')).
  { unfold good. destruct (has_compctx (env rl4)); [|by apply (good_ret tt)].
    destruct (_ <? _); [eexists _, _; split; [done|]; split; [apply kept_alert|done]|].
    destruct (good_uncompress rl4 Hr4) as (r & rl5 & E5 & K5 & Hpost). rewrite E5. destruct r; [by eexists _, _| |done].
    eexists _, _. split; [done|]. split; [by eapply kept_trans; [|apply kept_alert]|done]. }
  intros u rl5 _ Hr5. unfold outcome. destruct (_ <? _); simpl; [apply kept_alert|].
  exists rl5. split; [apply kept_refl|done].
Qed.

(** ** Reading bytes *)

(** What the sources can still give. *)
Definition sources_size (s : option B * option B) : nat :=
  (match fst s with Some b => bio_size b | None => 0 end + match snd s with Some b => bio_size b | None => 0 end)%nat.
Definition src (rl : RL) : nat := sources_size (prev rl, bio rl).

Lemma reads_size s got s' : reads s got s' ->
  (sources_size s' <= sources_size s)%nat /\ (got <> [] -> (sources_size s' < sources_size s)%nat).
Proof.
  unfold sources_size. induction 1 as [|b n bs b' o got s' Hn Hb _ IH|b n bs b' got s' Hn Hb _ IH|b n b' o got s' Hn Hb _ IH
    |b n r b' o Hn Hb Hr|b n r b' Hn Hb Hr]; simpl in *; [done|..].
  - apply bio_read_data in Hb as (_ & _ & _ & Hlt); [|done]. lia.
  - apply bio_read_data in Hb as (_ & _ & _ & Hlt); [|done]. lia.
  - split; [lia|]. intros Hg. destruct IH as [_ IH]. specialize (IH Hg). lia.
  - apply bio_read_keeps in Hb. split; [lia|done].
  - apply bio_read_keeps in Hb. split; [lia|done].
Qed.

Lemma length_pkt (rl : RL) : rb_wf (rbuf rl) -> packet_at rl -> Z.of_nat (length (pkt_bytes rl)) = packet_length rl.
Proof.
  intros Hwf [[mem Em] Hp Ho Hl Hl1 He]. unfold rb_wf in Hwf. unfold pkt_bytes. rewrite Em in *.
  pose proof (align_range (rbuf rl)). rewrite length_take, length_drop. lia.
Qed.

(** What reading keeps. *)
Definition stab (rl : RL) :=
  (isdtls rl, max_frag_len rl, max_pipelines rl, processed_rcds rl,
   (bitmap rl, next_bitmap rl, num_recs rl, curr_rec rl, num_released rl, epoch rl)).

(** Progress: the sources give less, or less is read ahead. *)
Definition not_more (rl rl' : RL) : Prop :=
  (src rl' < src rl)%nat \/ (src rl' = src rl /\ left (rbuf rl') <= left (rbuf rl)).
Definition less (rl rl' : RL) : Prop :=
  (src rl' < src rl)%nat \/ (src rl' = src rl /\ left (rbuf rl') < left (rbuf rl)).

Lemma read_dtls n max (extend : bool) (rl : RL) : 0 < n -> isdtls rl = true -> rb_wf (rbuf rl) -> buf (rbuf rl) <> None ->
  (extend = true -> packet_at rl /\ 0 < packet_length rl) ->
  exists code k rl', tls_default_read_n n max extend true rl = (Ok (code, k), rl')
    /\ read_frame rl rl' /\ rb_wf (rbuf rl') /\ buf (rbuf rl') <> None
    /\ ((code = OSSL_RECORD_RETURN_SUCCESS /\ packet_at rl' /\ 0 < k <= n
          /\ packet_length rl' = (if extend then packet_length rl else 0) + k /\ less rl rl')
         \/ (code <= OSSL_RECORD_RETURN_RETRY
             /\ packet_length rl' = (if extend then packet_length rl else 0) /\ (extend = true -> packet_at rl')
             /\ not_more rl rl')).
Proof.
  intros Hn Hd Hwf Hb Hex.
  destruct (read_n_spec n max extend true rl Hn Hwf Hb) as (code & k & rl' & E & [Hf Hwf' Hb' Ha (got & Hr & Hg & Hc)]);
    [destruct extend; [by apply Hex|done]|].
  exists code, k, rl'. split; [done|]. split; [done|]. split; [done|]. split; [by apply Hb'|].
  pose proof (reads_size _ _ _ Hr) as [Hs1 Hs2]. fold (src rl) (src rl') in *.
  pose proof (length_avail _ Hwf) as La. pose proof (length_avail _ Hwf') as La'.
  assert (Hgot : got = [] \/ (src rl' < src rl)%nat) by (destruct got; [by left|right; by apply Hs2]).
  unfold less, not_more. destruct Hc as [(-> & Hk & _ & Hpa & Hpl & Hh)|(Hcode & _ & Hpl & Hpa & Hh)]; [left|right];
    apply (f_equal (fun l => Z.of_nat (length l))) in Hh; unfold held in Hh; rewrite !length_app in Hh.
  - pose proof (length_pkt _ Hwf' Hpa). split; [done|]. split; [done|]. split; [done|]. split; [done|].
    destruct Hgot as [->|]; [|by left]. destruct (decide (src rl' < src rl)%nat); [by left|right]. split; [lia|].
    destruct extend; [pose proof (length_pkt _ Hwf (proj1 (Hex eq_refl)))|]; simpl in *; lia.
  - split; [done|]. split; [done|]. split; [done|]. destruct Hgot as [->|]; [|by left].
    destruct (decide (src rl' < src rl)%nat); [by left|right]. split; [lia|].
    destruct extend; simpl in *; [|lia]. pose proof (length_pkt _ Hwf (proj1 (Hex eq_refl))).
    pose proof (length_pkt _ Hwf' (Hpa eq_refl)). lia.
Qed.

Lemma inv_read (rl rl' : RL) : dtls_inv rl -> read_frame rl rl' -> rb_wf (rbuf rl') ->
  (rstate rl = SSL_ST_READ_BODY -> DTLS1_RT_HEADER_LENGTH <= packet_length rl' ->
    packet_at rl' /\ 0 <= rec_length (rr rl)) -> dtls_inv rl' /\ stab rl' = stab rl /\ rr rl' = rr rl.
Proof.
  intros [H1 H2 H3 H4 H5 H6 H7 H8] (E & Ea & Ed & El) Hwf Hp.
  assert (Es : stab rl' = stab rl) by (by rewrite E). assert (Er : rr rl' = rr rl) by (by rewrite E).
  assert (Hq : (sequence rl', rrec rl', rstate rl') = (sequence rl, rrec rl, rstate rl)) by (by rewrite E).
  injection Hq as Hq1 Hq2 Hq3. injection Es as Es1 Es2 Es3 Es4 Es5 Es6 Es7 Es8 Es9 Es10.
  split; [|split; [unfold stab; congruence|done]].
  split; try congruence. rewrite Hq3, Er. exact Hp.
Qed.

(** Without a packet, the state of the reader says nothing about the buffer. *)
Lemma inv_state st n (rl : RL) : dtls_inv rl -> n < DTLS1_RT_HEADER_LENGTH ->
  dtls_inv (set_packet_length n (set_rstate st rl)).
Proof. intros [H1 H2 H3 H4 H5 H6 H7 H8] Hn. split; try done. simpl. lia. Qed.

Lemma inv_dump (rl : RL) : dtls_inv rl -> dtls_inv (dump rl).
Proof.
  intros [H1 H2 H3 H4 H5 H6 H7 H8].
  split; try done; [by apply rrec_upd|unfold dump; change (rr (set_packet_length 0 ?x)) with (rr x); by rewrite rr_upd].
Qed.

Lemma get_byte h i : Forall is_byte h -> 0 <= get h i.
Proof.
  intros Hb. unfold get. destruct (h !! i) as [b|] eqn:E; [|done]. eapply Forall_lookup_1 in E; [|done].
  unfold is_byte in E. simpl. lia.
Qed.

(** The header of the packet. *)
Lemma parse_spec (rl : RL) : rb_wf (rbuf rl) -> packet_at rl -> packet_length rl = DTLS1_RT_HEADER_LENGTH ->
  rrec rl <> [] -> comp_ok (rr rl) -> seq_ok (sequence rl) ->
  exists rl', dtls_parse_header rl = Some rl' /\ stab rl' = stab rl /\ rbuf rl' = rbuf rl /\ packet rl' = packet rl
    /\ packet_length rl' = packet_length rl /\ rstate rl' = rstate rl /\ (prev rl', bio rl') = (prev rl, bio rl)
    /\ seq_ok (sequence rl') /\ rrec rl' <> [] /\ comp_ok (rr rl') /\ 0 <= rec_length (rr rl').
Proof.
  intros Hwf Hpa Hl Hne Hc [Hs1 Hs2]. pose proof Hpa as [[mem Em] Hp _ _ _ He]. unfold dtls_parse_header.
  unfold rb_wf in Hwf. rewrite Em in Hwf. destruct Hwf as (Hlen & _ & Hby & _).
  pose proof (align_range (rbuf rl)). pose proof (pa_left _ Hpa).
  rewrite Hp, Em. unfold mem_read. rewrite !(proj2 (Z.leb_le _ _)) by lia.
  cbn [andb]. set (h := take (Z.to_nat DTLS1_RT_HEADER_LENGTH) _). assert (Hh : Forall is_byte h) by (by apply Forall_take, Forall_drop).
  assert (Hhl : length h = 13%nat).
  { unfold h. rewrite length_take, length_drop. lia. }
  eexists. split; [done|]. do 6 (split; [done|]). split; [|split; [by apply rrec_upd|]].
  - split; simpl; [rewrite length_app, !length_take, length_drop; lia|].
    apply Forall_app; split; [by apply Forall_take|by apply Forall_take, Forall_drop].
  - change (rr (set_sequence ?v ?x)) with (rr x). rewrite rr_upd by done. split; [done|].
    simpl. apply Z.lor_nonneg. split; [apply Z.shiftl_nonneg|]; by apply get_byte.
Qed.

(** A header and enough of a record to go on with. *)
Definition has_header (rl : RL) : Prop := packet_at rl /\ DTLS1_RT_HEADER_LENGTH <= packet_length rl
  /\ 0 <= rec_length (rr rl).

Definition skips (rl : RL) : bool := (rstate rl =? SSL_ST_READ_BODY) && (DTLS1_RT_HEADER_LENGTH <=? packet_length rl).

Lemma packet_at_eq (rl rl' : RL) : rbuf rl' = rbuf rl -> packet rl' = packet rl ->
  packet_length rl' = packet_length rl -> packet_at rl -> packet_at rl'.
Proof. intros E1 E2 E3 [H1 H2 H3 H4 H5 H6]. split; by rewrite ?E1, ?E2, ?E3. Qed.

(** A packet at the front of the buffer. *)
Lemma inv_header (rl rl' : RL) : dtls_inv rl -> stab rl' = stab rl -> rb_wf (rbuf rl') ->
  default_len (rbuf rl') = default_len (rbuf rl) -> seq_ok (sequence rl') -> rrec rl' <> [] -> comp_ok (rr rl') ->
  packet_at rl' -> 0 <= rec_length (rr rl') -> dtls_inv rl'.
Proof.
  intros [H1 H2 H3 H4 H5 H6 H7 H8] Es Hwf Hd Hs Hne Hc Hpa Hl.
  injection Es as Es1 Es2 Es3 Es4 _ _ _ _ _ _. split; congruence || done.
Qed.

Lemma src_eq (rl rl' : RL) : (prev rl', bio rl') = (prev rl, bio rl) -> src rl' = src rl.
Proof. intros E. unfold src. by rewrite E. Qed.

Lemma header_spec (rl : RL) : dtls_inv rl -> buf (rbuf rl) <> None ->
  exists o rl', dtls_read_header rl = (Ok o, rl') /\ dtls_inv rl' /\ stab rl' = stab rl /\ buf (rbuf rl') <> None
    /\ match o with
       | None => has_header rl' /\ (if skips rl then rl' = rl else less rl rl')
       | Some Again => less rl rl' /\ skips rl' = false
       | Some (Return c) => c <> OSSL_RECORD_RETURN_SUCCESS
       end.
Proof.
  intros Hinv Hb. unfold dtls_read_header. fold (skips rl). destruct (skips rl) eqn:Esk.
  { exists None, rl. split; [done|]. split; [done|]. split; [done|]. split; [done|]. split; [|done].
    unfold skips in Esk. zbool. destruct (di_packet _ Hinv) as [Hpa Hl]; [done|done|]. by split. }
  destruct (read_dtls DTLS1_RT_HEADER_LENGTH (len (rbuf rl)) false rl) as (code & k & rl1 & -> & Hf & Hwf1 & Hb1 & Hc);
    [done|apply Hinv|apply Hinv|done|done|].
  destruct Hc as [(-> & Hpa & Hk & Hpl & Hless)|(Hcode & Hpl & _ & _)].
  2: { rewrite (proj2 (Z.ltb_lt _ _)) by lia.
       destruct (inv_read rl rl1 Hinv Hf Hwf1) as (Hinv1 & Hst & _); [rewrite Hpl; lia|].
       eexists _, _. split; [done|]. split; [done|]. split; [done|]. split; [done|].
       intros ->. lia. }
  simpl (_ <? _). cbv iota.
  destruct (inv_read rl (set_packet_length 0 rl1) Hinv) as (Hinv1 & Hst & Err); [|done|simpl; lia|].
  { destruct Hf as (E & Hf). split; [|done]. by etransitivity; [exact (f_equal (set_packet_length 0) E)|]. }
  destruct (packet_length rl1 =? DTLS1_RT_HEADER_LENGTH) eqn:El; zbool; simpl (negb _); cbv iota.
  2: { eexists _, _. split; [done|]. split; [done|]. split; [done|]. split; [done|]. split; [exact Hless|].
       unfold skips. simpl. apply andb_false_r. }
  destruct (parse_spec (set_rstate SSL_ST_READ_BODY rl1)) as
    (rl2 & -> & Est2 & Erb & Ep & Epl & Ers & Eio & Hs2 & Hne2 & Hc2 & Hrl2); try done.
  { by apply (packet_at_eq rl1). }
  { exact (di_rrec _ Hinv1). }
  { exact (di_comp _ Hinv1). }
  { exact (di_seq _ Hinv1). }
  simpl (_ <? _). cbv iota. simpl in Erb, Ep, Epl, Ers, Eio.
  assert (Hpa2 : packet_at rl2) by (by apply (packet_at_eq rl1)).
  assert (Hst2 : stab rl2 = stab rl) by (rewrite Est2; exact Hst).
  assert (Hinv2 : dtls_inv rl2).
  { apply (inv_header rl); try done; rewrite Erb; [done|apply Hf]. }
  assert (Hless2 : less rl rl2) by (unfold less; rewrite Erb, (src_eq rl1 rl2 Eio); exact Hless).
  destruct (dtls_header_ok rl2).
  - eexists _, _. split; [done|]. split; [done|]. split; [done|]. split; [by rewrite Erb|]. split; [|done].
    split; [done|]. split; [lia|done].
  - eexists _, _. split; [done|]. split; [by apply inv_dump|]. split; [done|].
    split; [simpl; by rewrite Erb|]. split; [exact Hless2|]. unfold skips. simpl. apply andb_false_r.
Qed.

(** The whole record. *)
Definition has_record (rl : RL) : Prop := packet_at rl /\ 0 <= rec_length (rr rl)
  /\ DTLS1_RT_HEADER_LENGTH + rec_length (rr rl) <= packet_length rl.

Lemma not_more_refl (rl : RL) : not_more rl rl.
Proof. right. lia. Qed.

Lemma not_more_eq (rl rl' : RL) : (prev rl', bio rl') = (prev rl, bio rl) -> left (rbuf rl') = left (rbuf rl) ->
  not_more rl rl'.
Proof. intros E El. right. rewrite (src_eq rl rl' E), El. lia. Qed.

Lemma body_spec (rl : RL) : dtls_inv rl -> buf (rbuf rl) <> None -> has_header rl ->
  exists o rl', dtls_read_body rl = (Ok o, rl') /\ dtls_inv rl' /\ stab rl' = stab rl /\ buf (rbuf rl') <> None
    /\ not_more rl rl'
    /\ match o with
       | None => has_record rl'
       | Some Again => skips rl' = false
       | Some (Return c) => c <> OSSL_RECORD_RETURN_SUCCESS
       end.
Proof.
  intros Hinv Hb (Hpa & Hl & Hr). unfold dtls_read_body. pose proof Hpa as [_ _ _ _ Hle He].
  pose proof (di_rbuf _ Hinv) as Hwf. unfold rb_wf in Hwf. destruct (buf (rbuf rl)) as [mem|] eqn:Em; [|done].
  pose proof (align_range (rbuf rl)). rewrite wrap64_small by lia.
  destruct (_ <=? _) eqn:E; zbool.
  { exists None, rl. split; [done|]. split; [done|]. split; [done|]. split; [by rewrite Em|].
    split; [apply not_more_refl|]. split; [done|]. lia. }
  destruct (read_dtls (rec_length (rr rl)) (rec_length (rr rl)) true rl) as (code & k & rl1 & -> & Hf & Hwf1 & Hb1 & Hc);
    [lia|apply Hinv|apply Hinv|by rewrite Em|split; [done|lia]|].
  assert (Hfacts : packet_at rl1 /\ packet_length rl <= packet_length rl1 /\ not_more rl rl1).
  { destruct Hc as [(_ & ? & ? & ? & Hless)|(? & ? & ? & ?)]; split_and!; try (done || lia); [|by auto].
    destruct Hless; [by left|right; lia]. }
  destruct Hfacts as (Hpa1 & Hpl1 & Hnm).
  destruct (inv_read rl rl1 Hinv Hf Hwf1) as (Hinv1 & Hst & Err); [done|].
  assert (Hdone : forall code', code' = OSSL_RECORD_RETURN_FATAL -> exists o rl',
    (if negb (alert rl1 =? SSL_AD_NO_ALERT) then (Ok (Some (Return code')), rl1) else (Ok (Some Again), dump rl1))
    = (Ok o, rl') /\ dtls_inv rl' /\ stab rl' = stab rl /\ buf (rbuf rl') <> None /\ not_more rl rl'
    /\ match o with
       | None => has_record rl'
       | Some Again => skips rl' = false
       | Some (Return c) => c <> OSSL_RECORD_RETURN_SUCCESS
       end).
  { intros code' ->. destruct (negb _).
    - eexists _, _. split; [done|]. by do 4 (split; [done|]).
    - eexists _, _. split; [done|]. split; [by apply inv_dump|]. do 3 (split; [done|]).
      unfold skips. simpl. apply andb_false_r. }
  destruct (_ || _) eqn:Eor; [by apply Hdone|]. zbool.
  exists None, rl1. split; [done|]. do 4 (split; [done|]). split; [done|]. rewrite Err.
  destruct Hc as [(_ & _ & _ & Hpl & _)|(Hcode & _)]; [lia|].
  lia.
Qed.

Lemma inv_kept (rl rl' : RL) : dtls_inv rl -> rstate rl = SSL_ST_READ_HEADER -> kept rl rl' ->
  dtls_inv rl' /\ rstate rl' = SSL_ST_READ_HEADER /\ stab rl' = stab rl /\ not_more rl rl'
  /\ (buf (rbuf rl) <> None -> buf (rbuf rl') <> None) /\ sequence rl' = sequence rl
  /\ rec_seq_num (rr rl') = rec_seq_num (rr rl).
Proof.
  intros [H1 H2 H3 H4 H5 H6 H7 H8] Hst [Hf Hr Hb Hw Hc]. unfold fixed in Hf.
  injection Hf as E1 E2 E3 E4 E5 E6 E7 E8 E9 E10 E11 E12 E13 E14 E15 E16 E17 E18 E19 E20 E21.
  split; [|split; [congruence|split; [unfold stab; congruence|split; [|by split_and!]]]].
  - split; try congruence; [by apply Hw|by apply Hr|by apply Hc].
  - right. split; [unfold src; congruence|lia].
Qed.

Lemma inv_head (rl : RL) : dtls_inv rl -> dtls_inv (set_rstate SSL_ST_READ_HEADER rl).
Proof. intros [H1 H2 H3 H4 H5 H6 H7 H8]. by split. Qed.

(** Setting up the read buffer. *)
Lemma setup_spec (rl : RL) : dtls_inv rl ->
  exists r rl', tls_setup_read_buffer rl = (r, rl') /\ r <> Fault /\ dtls_inv rl' /\ stab rl' = stab rl
    /\ rstate rl' = rstate rl /\ (prev rl', bio rl') = (prev rl, bio rl) /\ left (rbuf rl') = left (rbuf rl)
    /\ packet_length rl' = packet_length rl /\ unprocessed_rcds rl' = unprocessed_rcds rl
    /\ (r = Ok tt -> buf (rbuf rl') <> None).
Proof.
  intros Hinv. pose proof Hinv as [H1 H2 H3 H4 H5 H6 H7 H8]. unfold tls_setup_read_buffer.
  destruct (buf (rbuf rl)) as [mem|] eqn:Em.
  { exists (Ok tt), rl. split; [done|]. split; [done|]. split; [done|]. do 6 (split; [done|]). intros _. by rewrite Em. }
  assert (Hnp : rstate rl = SSL_ST_READ_BODY -> DTLS1_RT_HEADER_LENGTH <= packet_length rl -> False).
  { intros Hr Hl. destruct (H8 Hr Hl) as [[[m E] _ _ _ _ _] _]. congruence. }
  cbn zeta. match goal with |- context [rl_malloc _ ?k] => set (n := k) end.
  assert (Hn : 7 <= n < 2 ^ 50).
  { unfold n. rewrite H1. change (Z.land _ _) with 3. repeat case_match; zbool; nia. }
  unfold rb_wf in H2. rewrite Em in H2.
  destruct (rl_malloc (env rl) n) as [[[d a]|] x] eqn:Ema.
  - apply malloc_ok in Ema as [Hl Hby]; [|lia]. eexists _, _. split; [done|]. split; [done|]. split.
    + split; try done; [|intros Hr Hl'; by destruct Hnp]. unfold rb_wf. simpl.
      match goal with |- context [rbuf_align ?b] => pose proof (align_range b) end. unfold SIZE_MAX. split_and!; try (done || lia).
    + by do 6 (split; [done|]).
  - eexists _, _. split; [done|]. split; [done|]. split; [|by do 6 (split; [done|])].
    split; try done; [unfold rb_wf; simpl; by rewrite Em|intros Hr Hl'; by destruct Hnp].
Qed.

Lemma inv_upd f (rl : RL) : dtls_inv rl -> rstate rl = SSL_ST_READ_HEADER -> comp_ok (f (rr rl)) ->
  dtls_inv (upd_rr f rl).
Proof.
  intros [H1 H2 H3 H4 H5 H6 H7 H8] Hst Hc. split; try done; [by apply rrec_upd|by rewrite rr_upd|].
  simpl. by rewrite Hst.
Qed.

(** A record of the next epoch is kept, or there is no memory. *)
Lemma buffer_spec prio (rl : RL) : dtls_inv rl -> rstate rl = SSL_ST_READ_HEADER -> buf (rbuf rl) <> None ->
  exists r rl', dtls_rlayer_buffer_record prio rl = (Ok r, rl') /\ dtls_inv rl' /\ stab rl' = stab rl
    /\ not_more rl rl' /\ (0 <= r -> buf (rbuf rl') <> None).
Proof.
  intros Hinv Hst Hb. unfold dtls_rlayer_buffer_record.
  destruct (100 <=? _); [exists 0, rl; split; [done|]; split; [done|]; split; [done|]; by split; [apply not_more_refl|]|].
  destruct (rl_item_ok (env rl)) as [ok x].
  pose proof (length_avail _ (di_rbuf _ Hinv)) as Hleft.
  destruct ok; simpl.
  2: { eexists _, _. split; [done|]. split; [by destruct Hinv; split; try done; simpl; rewrite Hst|].
       split; [done|]. split; [by apply not_more_eq|lia]. }
  match goal with |- context [tls_setup_read_buffer ?s] => set (rl1 := s) end.
  assert (Hinv1 : dtls_inv rl1).
  { apply (inv_upd (fun _ => no_record)); [|done|done]. destruct Hinv as [H1 H2 (Hm & Hp & Hd) H4 H5 H6 H7 H8].
    by split. }
  destruct (setup_spec rl1 Hinv1) as (r & rl2 & -> & Hr & Hinv2 & Hst2 & Ers & Eio & El & _ & _ & Hb2).
  simpl in Ers.
  assert (Hnm : not_more rl rl2) by (right; rewrite (src_eq rl rl2 Eio), El; simpl; split; [done|lia]).
  destruct r as [[]| |]; [|eexists _, _; split; [done|]; split; [done|]; split; [done|]; split; [done|lia]|done].
  destruct (pqueue_insert _ _).
  - eexists _, _. split; [done|]. split; [by destruct Hinv2; split; try done; simpl; rewrite Ers, Hst|].
    split; [done|]. split; [done|]. by auto.
  - eexists _, _. split; [done|]. split; [done|]. split; [done|]. split; [done|]. by auto.
Qed.

(** A record that is new goes out, and is marked. *)
Definition delivered (rl rl' : RL) : Prop :=
  exists s, seq_ok s /\ replay_ok s (bitmap rl) = true /\ bitmap rl' = bitmap_update s (bitmap rl)
    /\ rec_seq_num (rr rl') = s /\ num_recs rl' = 1 /\ curr_rec rl' = curr_rec rl
    /\ num_released rl' = num_released rl /\ rstate rl' = SSL_ST_READ_HEADER.

Definition step_post (rl : RL) (st : next_step) (rl' : RL) : Prop :=
  match st with
  | Again => buf (rbuf rl') <> None /\ stab rl' = stab rl /\ skips rl' = false
  | Return c => (c <> OSSL_RECORD_RETURN_SUCCESS /\ stab rl' = stab rl)
                \/ (c = OSSL_RECORD_RETURN_SUCCESS /\ delivered rl rl')
  end.

Lemma not_skips (rl : RL) : rstate rl = SSL_ST_READ_HEADER -> skips rl = false.
Proof. intros E. unfold skips. by rewrite E. Qed.

Lemma dump_post (rl0 rl : RL) : dtls_inv rl -> buf (rbuf rl) <> None -> stab rl = stab rl0 -> not_more rl0 rl ->
  dtls_inv (dump rl) /\ not_more rl0 (dump rl) /\ step_post rl0 Again (dump rl).
Proof.
  intros Hinv Hb Hs Hn. split; [by apply inv_dump|]. split; [done|]. split; [done|]. split; [done|].
  unfold skips. simpl. apply andb_false_r.
Qed.

Lemma process_post (rl0 rl : RL) : dtls_inv rl -> rstate rl = SSL_ST_READ_HEADER -> buf (rbuf rl) <> None ->
  has_record rl -> stab rl = stab rl0 -> not_more rl0 rl -> replay_ok (sequence rl) (bitmap rl) = true ->
  rec_seq_num (rr rl) = sequence rl ->
  exists st rl', match dtls_process_record false rl with
    | (Ok _, rl) => (Ok (Return OSSL_RECORD_RETURN_SUCCESS), set_num_recs 1 rl)
    | (Fail, rl) => if negb (alert rl =? SSL_AD_NO_ALERT) then (Ok (Return OSSL_RECORD_RETURN_FATAL), rl)
                    else (Ok Again, dump rl)
    | (Fault, rl) => (Fault, rl)
    end = (Ok st, rl') /\ dtls_inv rl' /\ not_more rl0 rl' /\ step_post rl0 st rl'.
Proof.
  intros Hinv Hst Hb (Hpa & Hl & Hle) Hs Hn Hok Hseq. pose proof Hpa as [_ Hp _ _ Hl1 He].
  pose proof (align_range (rbuf rl)) as Har.
  pose proof (process_spec false rl (rbuf_align (rbuf rl)) (di_dtls _ Hinv) (di_rbuf _ Hinv) (di_rrec _ Hinv)
    (di_comp _ Hinv) Hp ltac:(lia) Hl ltac:(lia) Hb) as Hout.
  destruct (dtls_process_record false rl) as [r rl1]. unfold outcome in Hout. simpl in Hout.
  assert (Htr : forall rl', not_more rl rl' -> not_more rl0 rl') by (unfold not_more in *; intros; lia).
  destruct r as [[]| |]; [| |done].
  - destruct Hout as (rl2 & K2 & ->). destruct (inv_kept _ _ Hinv Hst K2) as (Hinv2 & Hst2 & Hs2 & Hn2 & Hb2 & Eq & Er).
    eexists _, _. split; [done|]. assert (Hc2 : dtls_inv (marked false rl2)).
    { apply (inv_upd (set_rec_off 0)) in Hinv2; [|done|by apply (di_comp _ Hinv2)]. by destruct Hinv2. }
    split; [by destruct Hc2; split|]. split; [by apply Htr|]. right. split; [done|]. exists (sequence rl).
    rewrite Hs in Hs2. injection Hs2 as _ _ _ _ Eb2 _ _ Ec2 Ern2 _. injection Hs as _ _ _ _ Eb _ _ _ _ _.
    rewrite <- Eb. split; [apply Hinv|]. split; [done|].
    split; [simpl; by rewrite Eq, Eb2, Eb|]. split.
    { transitivity (rec_seq_num (rr (upd_rr (set_rec_off 0) rl2))); [done|].
      rewrite rr_upd by apply Hinv2. simpl. congruence. }
    by split_and!.
  - destruct (inv_kept _ _ Hinv Hst Hout) as (Hinv1 & Hst1 & Hs1 & Hn1 & Hb1 & _).
    destruct (negb _); eexists _, _; (split; [done|]).
    + split; [done|]. split; [by apply Htr|]. left. split; [done|]. congruence.
    + apply dump_post; [done|by auto|congruence|by apply Htr].
Qed.

Lemma have_spec (rl : RL) : dtls_inv rl -> buf (rbuf rl) <> None -> has_record rl ->
  exists st rl', dtls_have_record rl = (Ok st, rl') /\ dtls_inv rl' /\ not_more rl rl' /\ step_post rl st rl'.
Proof.
  intros Hinv Hb Hrec. unfold dtls_have_record. set (rl1 := set_rstate SSL_ST_READ_HEADER rl).
  assert (Hinv1 : dtls_inv rl1) by (by apply inv_head). assert (Hn1 : not_more rl rl1) by (by apply not_more_eq).
  assert (Hdump : forall rl2, dtls_inv rl2 -> buf (rbuf rl2) <> None -> stab rl2 = stab rl -> not_more rl rl2 ->
    exists st rl', (Ok Again, dump rl2) = (Ok st, rl') /\ dtls_inv rl' /\ not_more rl rl' /\ step_post rl st rl').
  { intros rl2 H2 Hb2 Hs2 Hn2. eexists _, _. split; [done|]. by apply dump_post. }
  destruct (dtls_get_bitmap rl1) as [next|]; [|by apply Hdump].
  destruct (dtls_record_replay_check next rl1) as [ok rl2] eqn:Ec.
  assert (Hck : ok = replay_ok (sequence rl1) (bitmap_of next rl1)) by (by rewrite <- replay_check_eq, Ec).
  assert (E2 : rl2 = if ok then upd_rr (set_rec_seq_num (sequence rl1)) rl1 else rl1).
  { unfold dtls_record_replay_check in Ec. repeat case_match; simplify_eq; done. }
  destruct ok; subst rl2; cbn [negb]; cbv iota; [|by apply Hdump].
  set (rl2 := upd_rr (set_rec_seq_num (sequence rl1)) rl1).
  assert (Hrr : rr rl2 = set_rec_seq_num (sequence rl1) (rr rl1)) by (by apply rr_upd, (di_rrec _ Hinv1)).
  assert (Hinv2 : dtls_inv rl2) by (apply inv_upd; [done|done|apply (di_comp _ Hinv1)]).
  assert (Hn2 : not_more rl rl2) by (by apply not_more_eq).
  destruct (rec_length (rr rl2) =? 0).
  { eexists _, _. split; [done|]. split; [done|]. split; [done|]. split; [done|]. split; [done|]. by apply not_skips. }
  destruct next.
  - destruct (rl_in_init rl2); [|by apply Hdump].
    destruct (buffer_spec (rec_seq_num (rr rl2)) rl2 Hinv2 eq_refl Hb) as (r & rl3 & -> & Hinv3 & Hs3 & Hn3 & Hb3).
    assert (Hn3' : not_more rl rl3) by (unfold not_more in *; lia).
    destruct (r <? 0) eqn:Er; zbool.
    + eexists _, _. split; [done|]. split; [done|]. split; [done|]. left. done.
    + apply Hdump; [done|by apply Hb3|done|done].
  - apply process_post; try done; [|by rewrite Hrr].
    destruct Hrec as (Hpa & Hl & Hle). split; [by apply (packet_at_eq rl)|]. rewrite Hrr. done.
Qed.

Lemma again_spec (rl : RL) : dtls_inv rl -> buf (rbuf rl) <> None ->
  exists st rl', dtls_again rl = (Ok st, rl') /\ dtls_inv rl' /\ step_post rl st rl'
    /\ (st = Again -> if skips rl then not_more rl rl' else less rl rl').
Proof.
  intros Hinv Hb. unfold dtls_again. unfold dtls_retrieve_rlayer_buffered_record.
  rewrite (st_bind_ok _ _ rl false rl) by (by rewrite (di_processed _ Hinv)).
  destruct (header_spec rl Hinv Hb) as (o & rl1 & E1 & Hinv1 & Hs1 & Hb1 & Ho).
  rewrite (st_bind_ok _ _ _ _ _ E1). destruct o as [[c|]|].
  - eexists _, _. split; [done|]. split; [done|]. split; [by left|done].
  - eexists _, _. split; [done|]. split; [done|]. destruct Ho as [Hl Hsk].
    split; [by split|]. intros _. destruct (skips rl); [|done]. unfold less, not_more in *. lia.
  - destruct Ho as [Hh Hl]. destruct (body_spec rl1 Hinv1 Hb1 Hh) as (o & rl2 & E2 & Hinv2 & Hs2 & Hb2 & Hn2 & Ho).
    rewrite (st_bind_ok _ _ _ _ _ E2). rewrite Hs1 in Hs2.
    assert (Hl2 : if skips rl then not_more rl rl2 else less rl rl2).
    { destruct (skips rl); [by subst rl1|]. unfold less, not_more in *. lia. }
    destruct o as [[c|]|].
    + eexists _, _. split; [done|]. split; [done|]. split; [by left|done].
    + eexists _, _. split; [done|]. split; [done|]. split; [by split|done].
    + destruct (have_spec rl2 Hinv2 Hb2 Ho) as (st & rl3 & -> & Hinv3 & Hn3 & Hp3). eexists _, _. split; [done|].
      split; [done|]. split.
      * unfold step_post, delivered in *. pose proof Hs2 as Hs2'. injection Hs2' as _ _ _ _ Eb _ _ Ec Er _.
        rewrite Hs2, Eb, Ec, Er in Hp3. done.
      * intros _. destruct (skips rl); unfold less, not_more in *; lia.
Qed.

(** ** The loop *)

Definition get_post (rl : RL) (c : Z) (rl' : RL) : Prop :=
  dtls_inv rl' /\ step_post rl (Return c) rl'.

Lemma loop_safe fuel : forall (rl : RL), dtls_inv rl -> buf (rbuf rl) <> None ->
  match dtls_again_loop fuel rl with
  | (Ok (Some c), rl') => get_post rl c rl'
  | (Ok None, _) => True
  | _ => False
  end.
Proof.
  induction fuel as [|fuel IH]; intros rl Hinv Hb; simpl; [done|].
  destruct (again_spec rl Hinv Hb) as (st & rl1 & -> & Hinv1 & Hp1 & _). destruct st as [c|]; [by split|].
  destruct Hp1 as (Hb1 & Hs1 & _). specialize (IH rl1 Hinv1 Hb1).
  destruct (dtls_again_loop fuel rl1) as [[[c|]| |] rl2]; try done.
  destruct IH as [Hinv2 Hp2]. split; [done|]. unfold step_post, delivered in *. pose proof Hs1 as Hs1'.
  injection Hs1' as _ _ _ _ Eb _ _ Ec Er _. by rewrite Hs1, Eb, Ec, Er in Hp2.
Qed.

Definition pending (rl : RL) : nat := (Z.to_nat (left (rbuf rl)) + if skips rl then 1 else 0)%nat.

Lemma loop_ends_ex : forall (a b : nat) (rl : RL), dtls_inv rl -> buf (rbuf rl) <> None ->
  (src rl <= a)%nat -> (pending rl <= b)%nat ->
  exists fuel c rl', dtls_again_loop fuel rl = (Ok (Some c), rl').
Proof.
  induction a as [a IHa] using lt_wf_ind. induction b as [b IHb] using lt_wf_ind. intros rl Hinv Hb Ha Hpb.
  destruct (again_spec rl Hinv Hb) as (st & rl1 & E & Hinv1 & Hp1 & Hprog).
  destruct st as [c|]; [exists 1%nat, c, rl1; simpl; by rewrite E|].
  destruct Hp1 as (Hb1 & Hs1 & Hsk1). specialize (Hprog eq_refl).
  pose proof (length_avail _ (di_rbuf _ Hinv)). pose proof (length_avail _ (di_rbuf _ Hinv1)).
  assert (Hdec : (src rl1 < src rl)%nat \/ (src rl1 = src rl /\ (pending rl1 < pending rl)%nat)).
  { unfold pending. rewrite Hsk1. destruct (skips rl); unfold less, not_more in *; lia. }
  assert (Hrec : exists fuel c rl', dtls_again_loop fuel rl1 = (Ok (Some c), rl')).
  { destruct Hdec as [Hlt|[Heq Hlt]].
    - by apply (IHa (src rl1) ltac:(lia) (pending rl1)).
    - by apply (IHb (pending rl1)); [lia|..|lia|]. }
  destruct Hrec as (fuel & c & rl' & Er). exists (S fuel), c, rl'. simpl. by rewrite E.
Qed.

Definition zero_counts (rl : RL) : RL := set_num_released 0 (set_curr_rec 0 (set_num_recs 0 rl)).

Lemma inv_alert a (rl : RL) : dtls_inv rl -> dtls_inv (set_alert a rl).
Proof.
  intros [H1 H2 H3 H4 H5 H6 H7 H8]. split; try done. intros Ha Hb. destruct (H8 Ha Hb) as [Hpa Hl].
  split; [|done]. by apply (packet_at_eq rl).
Qed.

Lemma inv_counts (rl : RL) : dtls_inv rl -> dtls_inv (zero_counts rl).
Proof.
  intros [H1 H2 H3 H4 H5 H6 H7 H8]. split; try done. intros Ha Hb. destruct (H8 Ha Hb) as [Hpa Hl].
  split; [|done]. by apply (packet_at_eq rl).
Qed.

Lemma get_more_safe fuel (rl : RL) : dtls_inv rl ->
  match dtls_get_more_records fuel rl with
  | (Ok (Some c), rl') => get_post (zero_counts rl) c rl'
  | (Ok None, _) => True
  | _ => False
  end.
Proof.
  intros Hinv. apply inv_counts in Hinv. unfold dtls_get_more_records. fold (zero_counts rl).
  destruct (setup_spec _ Hinv) as (r & rl1 & -> & Hr & Hinv1 & Hs1 & _ & _ & _ & _ & _ & Hb1).
  destruct r as [[]| |]; [|by split; [|left]|done].
  pose proof (loop_safe fuel rl1 Hinv1 (Hb1 eq_refl)) as Hl.
  destruct (dtls_again_loop fuel rl1) as [[[c|]| |] rl2]; try done.
  destruct Hl as [Hinv2 Hp2]. split; [done|]. unfold step_post, delivered in *. pose proof Hs1 as Hs1'.
  injection Hs1' as _ _ _ _ Eb _ _ Ec Er _. by rewrite Hs1, Eb, Ec, Er in Hp2.
Qed.

Lemma get_more_ends (rl : RL) : dtls_inv rl ->
  exists fuel c rl', dtls_get_more_records fuel rl = (Ok (Some c), rl').
Proof.
  intros Hinv. apply inv_counts in Hinv. unfold dtls_get_more_records. fold (zero_counts rl).
  destruct (setup_spec _ Hinv) as (r & rl1 & -> & Hr & Hinv1 & Hs1 & _ & _ & _ & _ & _ & Hb1).
  destruct r as [[]| |]; [|by exists 0%nat; eexists _, _|done].
  by apply (loop_ends_ex (src rl1) (pending rl1) rl1 Hinv1 (Hb1 eq_refl)).
Qed.

(** ** Records handed out *)

(** Between calls: every record there is was handed out. *)
Record idle (rl : RL) : Prop := {
  id_inv : dtls_inv rl;
  id_recs : num_recs rl <= curr_rec rl;
  id_released : 0 <= num_released rl;
  id_state : 0 < curr_rec rl -> rstate rl = SSL_ST_READ_HEADER
}.

(** A call of [tls_read_record], and the record it hands out. *)
Lemma read_safe fuel (rl : RL) : idle rl ->
  match tls_read_record (dtls_get_more_records fuel) 1 rl with
  | (Ok (Some (c, None)), rl') => idle rl' /\ bitmap rl' = bitmap rl
  | (Ok (Some (c, Some r)), rl') => idle rl' /\ seq_ok (rec_seq_num r)
      /\ replay_ok (rec_seq_num r) (bitmap rl) = true /\ bitmap rl' = bitmap_update (rec_seq_num r) (bitmap rl)
  | (Ok None, _) => True
  | _ => False
  end.
Proof.
  intros [Hinv Hn Hr Hst]. simpl. rewrite (proj2 (Z.leb_le _ _)) by done.
  destruct (negb _); [split; [|done]; split; try done; by apply inv_alert|].
  pose proof (get_more_safe fuel rl Hinv) as Hg.
  destruct (dtls_get_more_records fuel rl) as [[[c|]| |] rl1]; try done. destruct Hg as [Hinv1 Hp1].
  destruct (c =? OSSL_RECORD_RETURN_SUCCESS) eqn:Ec; zbool; simpl.
  - destruct Hp1 as [[? _]|[_ (s & Hs & Hok & Hb & Hq & Hnr & Hcr & Hrel & Hst1)]]; [done|].
    simpl in Hok, Hb, Hcr, Hrel. rewrite Hnr, Hcr. simpl.
    pose proof (di_rrec _ Hinv1) as Hne. unfold rr, rrec_at in Hq. destruct (rrec rl1) as [|r l] eqn:Err; [done|].
    simpl in *. subst s. split; [|done].
    split; simpl; [|by rewrite Hnr|by rewrite Hrel|done].
    destruct Hinv1 as [H1 H2 H3 H4 H5 H6 H7 H8]. split; try done. simpl. by rewrite Hst1.
  - destruct Hp1 as [[_ Hs]|[? _]]; [|done]. injection Hs as _ _ _ _ Eb _ En Ecr Erel _. split; [|done].
    split; [done|by rewrite En, Ecr|by rewrite Erel|by rewrite Ecr].
Qed.

Lemma inv_upd_at j f (rl : RL) : dtls_inv rl -> rstate rl = SSL_ST_READ_HEADER ->
  (j = 0%nat -> comp_ok (f (rr rl))) -> dtls_inv (upd_rrec j f rl).
Proof.
  intros Hinv Hst Hc. destruct j as [|j]; [by apply inv_upd; [..|apply Hc]|].
  destruct Hinv as [H1 H2 H3 H4 H5 H6 H7 H8].
  split; try done; [simpl; by destruct (rrec rl)| |simpl; by rewrite Hst].
  unfold rr, rrec_at, upd_rrec in *. simpl. by destruct (rrec rl).
Qed.

(** Releasing changes neither the window nor what is to come. *)
Lemma cleanse_spec j o n (rl rl' : RL) : dtls_inv rl -> rstate rl = SSL_ST_READ_HEADER -> rec_cleanse j o n rl = Some rl' ->
  dtls_inv rl' /\ stab rl' = stab rl /\ rstate rl' = rstate rl.
Proof.
  intros Hinv Hst E. pose proof Hinv as [H1 H2 H3 H4 H5 H6 H7 H8]. unfold rec_cleanse in E.
  destruct (rec_data (rrec_at j rl)) as [|b|]; [done|..].
  - destruct (buf (rbuf rl)) as [mem|] eqn:Em; [|done].
    destruct (mem_write mem (b + o) _) as [mem'|] eqn:Ew; [|done]. injection E as <-.
    split; [|done]. split; try done; [|simpl; by rewrite Hst]. simpl.
    pose proof H2 as H2'. unfold rb_wf in H2'. rewrite Em in H2'.
    apply (rb_wf_mem mem); [done|done|by eapply length_mem_write|].
    eapply write_bytes; [exact Ew|tauto|]. by apply Forall_replicate.
  - destruct (rec_comp (rrec_at j rl)) as [c|] eqn:Ec; [|done].
    destruct (mem_write c o _) as [c'|] eqn:Ew; [|done]. injection E as <-.
    split; [|done]. apply inv_upd_at; [done|done|]. intros ->. unfold comp_ok in *. simpl. unfold rr in H6. rewrite Ec in H6.
    by rewrite (length_mem_write _ _ _ _ Ew).
Qed.

Lemma release_safe h n (rl : RL) : idle rl ->
  match tls_release_record h n rl with
  | (Ok _, rl') => idle rl' /\ bitmap rl' = bitmap rl
  | _ => True
  end.
Proof.
  intros Hid. pose proof Hid as [Hinv Hn Hr Hst]. unfold tls_release_record.
  assert (Hal : forall a, idle (rlayer_fatal a rl) /\ bitmap (rlayer_fatal a rl) = bitmap rl)
    by (intros a; split; [split; try done; by apply inv_alert|done]).
  destruct (negb _ || _) eqn:E1; [by apply Hal|]. zbool.
  destruct (_ <? n); [by apply Hal|]. specialize (Hst ltac:(lia)).
  destruct (if has _ _ then _ else _) as [rl1|] eqn:Ecl; [|done].
  assert (Hcl : dtls_inv rl1 /\ stab rl1 = stab rl /\ rstate rl1 = rstate rl).
  { destruct (has _ _); [by eapply cleanse_spec|by simplify_eq]. }
  destruct Hcl as (Hinv1 & Hs1 & Hst1). injection Hs1 as _ _ _ _ Eb _ En Ec Er _. rewrite Hst in Hst1.
  set (f := fun r => set_rec_length _ _). set (rl2 := upd_rrec _ f rl1).
  assert (Hinv2 : dtls_inv rl2) by (apply inv_upd_at; [done|done|intros _; apply (di_comp _ Hinv1)]).
  destruct (0 <? _).
  { split; [|done]. split; simpl; [done|by rewrite En, Ec|by rewrite Er|done]. }
  cbn zeta. set (rl3 := set_num_released _ rl2).
  assert (Hid3 : idle rl3).
  { split; simpl; [|by rewrite En, Ec|rewrite Er; lia|done].
    destruct Hinv2 as [A1 A2 A3 A4 A5 A6 A7 A8]. split; try done. simpl. by rewrite Hst1. }
  destruct (_ && _ && (left (rbuf rl3) =? 0)) eqn:Econd; [|done]. zbool. split; [|done].
  destruct Hid3 as [[A1 A2 A3 A4 A5 A6 A7 A8] Hn3 Hr3 Hst3]. split; try done.
  split; try done. simpl. by rewrite Hst1.
Qed.

(** ** Any use of the layer *)

Inductive rl_op : Type :=
  | OpRead (fuel : nat) | OpRelease (rechandle n : Z) | OpInInit (b : bool) | OpVersion (v : Z).

(** The sequence numbers handed out; [None] when a call faults or runs out of
    fuel. *)
Fixpoint rl_ops (ops : list rl_op) (rl : RL) : option (list Z * RL) :=
  match ops with
  | [] => Some ([], rl)
  | OpRead fuel :: ops =>
      match tls_read_record (dtls_get_more_records fuel) 1 rl with
      | (Ok (Some (_, Some r)), rl) =>
          match rl_ops ops rl with Some (ds, rl) => Some (be_val (rec_seq_num r) :: ds, rl) | None => None end
      | (Ok (Some (_, None)), rl) => rl_ops ops rl
      | _ => None
      end
  | OpRelease h n :: ops =>
      match tls_release_record h n rl with (Ok _, rl) => rl_ops ops rl | _ => None end
  | OpInInit b :: ops => rl_ops ops (dtls_set_in_init b rl)
  | OpVersion v :: ops => rl_ops ops (snd (dtls_any_set_protocol_version v rl))
  end.

Lemma ops_safe ops : forall (rl rl' : RL) ds seen, idle rl -> window seen (bitmap rl) ->
  rl_ops ops rl = Some (ds, rl') -> idle rl' /\ NoDup ds /\ forall s, s ∈ ds -> s ∉ seen.
Proof.
  assert (Hsame : forall (rl rl1 : RL), idle rl -> rl1 = set_rl_in_init (rl_in_init rl1) (set_rl_version (rl_version rl1) rl) ->
    idle rl1 /\ bitmap rl1 = bitmap rl).
  { intros rl rl1 [[H1 H2 H3 H4 H5 H6 H7 H8] Hn Hr Hst] E. rewrite E. split; [|done]. split; try done. split; try done.
    intros Ha Hb. destruct (H8 Ha Hb) as [Hpa Hl]. split; [|done]. by apply (packet_at_eq rl). }
  induction ops as [|o ops IH]; intros rl rl' ds seen Hid Hw E; cbn [rl_ops] in E.
  { simplify_eq. split; [done|]. split; [constructor|]. by intros s ?%not_elem_of_nil. }
  assert (Hgo : forall rl1, idle rl1 -> bitmap rl1 = bitmap rl -> rl_ops ops rl1 = Some (ds, rl') ->
    idle rl' /\ NoDup ds /\ forall s, s ∈ ds -> s ∉ seen).
  { intros rl1 Hid1 Hb1 E1. apply (IH rl1 rl' ds seen); [done|by rewrite Hb1|done]. }
  destruct o as [fuel|h n|b|v].
  - pose proof (read_safe fuel rl Hid) as Hr.
    destruct (tls_read_record _ 1 rl) as [[[[c [r|]]|]| |] rl1]; try done; [|destruct Hr; by apply (Hgo rl1)].
    destruct Hr as (Hid1 & Hq & Hok & Hb). destruct (rl_ops ops rl1) as [[ds1 rl2]|] eqn:E1; [|done]. simplify_eq.
    pose proof (window_update seen (bitmap rl) (rec_seq_num r) Hw Hq) as Hw1. rewrite <- Hb in Hw1.
    destruct (IH rl1 rl' ds1 _ Hid1 Hw1 E1) as (Hid2 & Hnd & Hnot). split; [done|].
    apply (replay_ok_spec seen (bitmap rl)) in Hok; [|done|done].
    pose proof (fresh_new _ _ _ Hw Hok) as Hnew. split.
    + constructor; [|done]. intros Hin. apply (Hnot _ Hin). by left.
    + intros s [->|Hs]%elem_of_cons; [done|]. intros Hin. apply (Hnot s Hs). by right.
  - pose proof (release_safe h n rl Hid) as Hr. destruct (tls_release_record h n rl) as [[c| |] rl1]; try done.
    destruct Hr. by apply (Hgo rl1).
  - apply (Hgo (dtls_set_in_init b rl)); [by apply (Hsame rl); [|destruct rl]..|done].
  - assert (Hv : snd (dtls_any_set_protocol_version v rl) = rl \/ snd (dtls_any_set_protocol_version v rl) = set_rl_version v rl)
      by (unfold dtls_any_set_protocol_version; case_match; [by left|by right]).
    destruct Hv as [Hv|Hv]; rewrite Hv in E; [by apply (Hgo rl)|].
    apply (Hgo (set_rl_version v rl)); [by apply (Hsame rl); [|destruct rl]..|done].
Qed.

Lemma read_ends (rl : RL) : idle rl ->
  exists fuel c o rl', tls_read_record (dtls_get_more_records fuel) 1 rl = (Ok (Some (c, o)), rl').
Proof.
  intros [Hinv Hn _ _]. destruct (get_more_ends rl Hinv) as (fuel & c & rl1 & Eg). exists fuel.
  pose proof (get_more_safe fuel rl Hinv) as Hg. rewrite Eg in Hg. simpl. rewrite Eg, (proj2 (Z.leb_le _ _)) by done.
  destruct (negb (num_released rl =? _)); [by eexists _, _, _|].
  destruct (negb (c =? _)) eqn:Ec; zbool; [by eexists _, _, _|].
  destruct Hg as [Hinv1 [[? _]|[_ (s & _ & _ & _ & _ & Hnr & Hcr & _)]]]; [done|]. rewrite Hnr, Hcr. simpl.
  pose proof (di_rrec _ Hinv1). destruct (rrec rl1); [done|]. by eexists _, _, _.
Qed.

Lemma new_idle vers role level ep (p b : option B) st (x : X) :
  0 <= s_max_frag_len st < 2 ^ 32 -> 0 <= s_default_len st < 2 ^ 40 ->
  idle (dtls_new_record_layer vers role level ep p b st x).
Proof.
  intros Hm Hd. split; try done. split; try done. split; [done|]. by repeat constructor.
Qed.

End Reader.

(** ** Instances *)

(** No protection, as before the first handshake: [dtls_any_funcs]. *)
#[export] Instance any_funcs : record_functions datagrams unit := {
  rl_malloc x n := (Some (replicate (Z.to_nat n) 0, 0), x);
  rl_item_ok x := (true, x);
  allow_compression _ := false;
  md_ctx _ := None;
  has_enc_ctx _ := false;
  has_compctx _ := false;
  expand_block x _ _ := (None, x);
  rl_cipher _ _ rl := (Ok (1, []), rl);
  rl_mac _ rl := (Ok (0, []), rl)
}.

Lemma any_keeps (rl : OSSL_RECORD_LAYER datagrams unit) : ready rl -> crypt_keeps rl rl.
Proof.
  intros [H1 H2 Hbuf H3 H4 H5 H6]. destruct (buf (rbuf rl)) as [mem|] eqn:Em; [|done].
  exists mem, mem, (rr rl), (env rl), (alert rl). unfold rb_wf in H2. rewrite Em in H2.
  split; [done|]. split; [done|]. split; [tauto|]. split; [|done].
  rewrite (upd_rr_ext _ id), with_mem_same by done. unfold upd_rr, upd_rrec. simpl.
  assert (Ha : alter id 0%nat (rrec rl) = rrec rl) by (by destruct (rrec rl)). rewrite Ha. by destruct rl.
Qed.

#[export] Instance any_funcs_ok : record_functions_ok (B := datagrams) (X := unit).
Proof.
  split; simpl.
  - intros x n d a x' Hn [= <- _ _]. rewrite length_replicate. split; [lia|]. by apply Forall_replicate.
  - done.
  - intros n rl Hr. eexists _, _, _. split; [done|]. split; [by apply any_keeps|]. intros _. apply Hr.
  - intros rl Hr. eexists _, _, _. split; [done|]. split; [by apply any_keeps|]. apply Hr.
Qed.

(** Handshake records of DTLS 1.2, epoch 0, with a body of two bytes. *)
Definition sample_record (s : Z) : list Z := [22; 254; 253; 0; 0; 0; 0; 0; 0; 0; s; 0; 2; 1; s].
Definition sample_settings : rl_settings := mkSETTINGS false 100 0 0 0 0 false.
Definition sample_bio : option datagrams :=
  Some [sample_record 5; sample_record 3 ++ sample_record 5; sample_record 3; sample_record 6].
Definition sample_layer : OSSL_RECORD_LAYER datagrams unit :=
  dtls_new_record_layer DTLS_ANY_VERSION 0 0 0 None sample_bio sample_settings tt.
Definition sample_rl_ops : list rl_op :=
  [OpRead 10; OpRelease 0 2; OpRead 10; OpInInit false; OpRelease 0 1; OpRelease 0 1; OpRead 10].

Lemma sample_run : fst <$> rl_ops sample_rl_ops sample_layer = Some [5; 3; 6].
Proof. vm_compute. reflexivity. Qed.

