(* ===== verification/Version.v ===== *)
(** * Version negotiation

    How the two sides agree on a protocol version: the tables and comparison
    of versions, the bounds an application sets, the client's range of
    versions and its ClientHello, the server's choice, the sentinels in the
    server's random that tell of a downgrade, and the client's verdict on the
    ServerHello (ssl/statem/statem_lib.c, ssl/methods.c, and the parts of
    ssl/s3_lib.c, ssl/statem/extensions.c, extensions_clnt.c and
    extensions_srvr.c this calls).

    [conn] has the fields of SSL_CONNECTION these functions read or write, with
    [suppversions] the raw supported_versions extension of the message being
    processed and [dgrd] the caller's variable of that name.  Which versions
    are compiled in is an instance of [Build]. *)

From stdpp Require Import prelude.
From Stdlib Require Import ZArith Lia.
From S2P Require Import Prelude Packet Buffer WPacket StatemTypes.

Local Open Scope Z_scope.
Local Open Scope st_scope.

(** ** Constants *)

Abbreviation TLS1_1_VERSION := (0x0302)%Z.
Abbreviation DTLS_ANY_VERSION := (0x1FFFF)%Z.
Abbreviation TLS_MAX_VERSION_INTERNAL := (TLS1_3_VERSION)%Z.
Abbreviation DTLS_MAX_VERSION_INTERNAL := (DTLS1_2_VERSION)%Z.

Abbreviation SSL_R_AT_LEAST_TLS_1_2_NEEDED_IN_SUITEB_MODE := (158)%Z.
Abbreviation SSL_R_BAD_LEGACY_VERSION := (292)%Z.
Abbreviation SSL_R_BAD_PROTOCOL_VERSION_NUMBER := (116)%Z.
Abbreviation SSL_R_INAPPROPRIATE_FALLBACK := (373)%Z.
Abbreviation SSL_R_LENGTH_MISMATCH := (159)%Z.
Abbreviation SSL_R_NO_PROTOCOLS_AVAILABLE := (191)%Z.
Abbreviation SSL_R_UNSUPPORTED_PROTOCOL := (258)%Z.
Abbreviation SSL_R_VERSION_TOO_HIGH := (166)%Z.
Abbreviation SSL_R_VERSION_TOO_LOW := (396)%Z.
Abbreviation SSL_R_WRONG_SSL_VERSION := (266)%Z.
Abbreviation ERR_R_INTERNAL_ERROR := (Z.lor 259 (Z.lor (Z.shiftl 1 18) (Z.shiftl 2 18)))%Z.

Abbreviation SSL_AD_DECODE_ERROR := (50)%Z.
Abbreviation SSL_AD_PROTOCOL_VERSION := (70)%Z.

Abbreviation SSL_OP_NO_SSLv3 := (Z.shiftl 1 25)%Z.
Abbreviation SSL_OP_NO_TLSv1 := (Z.shiftl 1 26)%Z.
Abbreviation SSL_OP_NO_TLSv1_2 := (Z.shiftl 1 27)%Z.
Abbreviation SSL_OP_NO_TLSv1_1 := (Z.shiftl 1 28)%Z.
Abbreviation SSL_OP_NO_TLSv1_3 := (Z.shiftl 1 29)%Z.
Abbreviation SSL_OP_NO_DTLSv1 := (Z.shiftl 1 26)%Z.
Abbreviation SSL_OP_NO_DTLSv1_2 := (Z.shiftl 1 27)%Z.
Abbreviation SSL_METHOD_NO_FIPS := (Z.shiftl 1 0)%Z.
Abbreviation SSL_METHOD_NO_SUITEB := (Z.shiftl 1 1)%Z.
Abbreviation SSL_CERT_FLAG_SUITEB_128_LOS := (0x30000)%Z.
Abbreviation SSL_MODE_SEND_CLIENTHELLO_TIME := (0x20)%Z.
Abbreviation SSL_MODE_SEND_SERVERHELLO_TIME := (0x40)%Z.
Abbreviation SSL_MODE_SEND_FALLBACK_SCSV := (0x80)%Z.

Abbreviation SSL_PKEY_DSA_SIGN := (2)%nat.
Abbreviation SSL_PKEY_ECC := (3)%nat.
Abbreviation SSL_PKEY_GOST01 := (4)%nat.
Abbreviation SSL_PKEY_GOST12_256 := (5)%nat.
Abbreviation SSL_PKEY_GOST12_512 := (6)%nat.

Abbreviation SSL_EXT_TLS_IMPLEMENTATION_ONLY := (0x00004)%Z.
Abbreviation SSL_EXT_SSL3_ALLOWED := (0x00008)%Z.
Abbreviation SSL_EXT_TLS1_2_AND_BELOW_ONLY := (0x00010)%Z.
Abbreviation SSL_EXT_TLS1_3_ONLY := (0x00020)%Z.
Abbreviation SSL_EXT_IGNORE_ON_RESUMPTION := (0x00040)%Z.
Abbreviation SSL_EXT_CLIENT_HELLO := (0x00080)%Z.
Abbreviation SSL_EXT_TLS1_2_SERVER_HELLO := (0x00100)%Z.
Abbreviation SSL_EXT_TLS1_3_SERVER_HELLO := (0x00200)%Z.
Abbreviation SSL_EXT_TLS1_3_HELLO_RETRY_REQUEST := (0x00800)%Z.
Abbreviation TLSEXT_TYPE_supported_versions := (43)%Z.

Definition tls11downgrade : list Z := [0x44; 0x4f; 0x57; 0x4e; 0x47; 0x52; 0x44; 0x00].
Definition tls12downgrade : list Z := [0x44; 0x4f; 0x57; 0x4e; 0x47; 0x52; 0x44; 0x01].

Module Version.

(** ** State *)

Inductive DOWNGRADE : Type := DOWNGRADE_NONE | DOWNGRADE_TO_1_2 | DOWNGRADE_TO_1_1.

Inductive EXT_RETURN : Type := EXT_RETURN_FAIL | EXT_RETURN_SENT | EXT_RETURN_NOT_SENT.

#[global] Instance DOWNGRADE_eq_dec : EqDecision DOWNGRADE.
Proof. solve_decision. Defined.

(** The parts of an SSL_METHOD that say which protocol it is: [m_dtls] is
    [ssl3_enc->enc_flags & SSL_ENC_FLAG_DTLS]. *)
Record SSL_METHOD : Type := mkMETHOD {
  m_version : Z;
  m_flags : Z;
  m_mask : Z;
  m_dtls : bool
}.

Record RAW_EXTENSION : Type := mkEXT { data : PACKET; present : bool; parsed : bool }.

(** A certificate slot: whether there is a certificate with its key, and
    whether TLS 1.3's signature algorithms allow the curve of its key
    ([ssl_has_cert] and [tls_check_sigalg_curve]). *)
Record pkey_slot : Type := mkSLOT { has_cert : bool; sigalg_curve_ok : bool }.

(** What negotiation reads only. [security] is the security callback's verdict
    on a version, [rl_methods] whether the record layer has its methods. *)
Record settings : Type := mkSETTINGS {
  defltmeth : SSL_METHOD;
  server : bool;
  hit : bool;
  options : Z;
  mode : Z;
  min_proto_version : Z;
  max_proto_version : Z;
  cert_flags : Z;
  security : Z -> bool;
  servername_cb : bool;
  psk_server_callback : bool;
  psk_find_session_cb : bool;
  cert_cb : bool;
  pkeys : list pkey_slot;
  hello_retry_request : HRR_STATE;
  first_handshake : bool;
  rl_methods : bool
}.

Record conn : Type := mkCONN {
  conf : settings;
  method : SSL_METHOD;
  version : Z;
  client_version : Z;
  server_random : list Z;
  rl_version : option Z;
  alert : option (Z * Z);
  suppversions : RAW_EXTENSION;
  dgrd : DOWNGRADE
}.

Definition set_method (v : SSL_METHOD) (s : conn) : conn :=
  mkCONN (conf s) v (version s) (client_version s) (server_random s) (rl_version s) (alert s)
    (suppversions s) (dgrd s).
Definition set_version (v : Z) (s : conn) : conn :=
  mkCONN (conf s) (method s) v (client_version s) (server_random s) (rl_version s) (alert s)
    (suppversions s) (dgrd s).
Definition set_client_version (v : Z) (s : conn) : conn :=
  mkCONN (conf s) (method s) (version s) v (server_random s) (rl_version s) (alert s)
    (suppversions s) (dgrd s).
Definition set_server_random (v : list Z) (s : conn) : conn :=
  mkCONN (conf s) (method s) (version s) (client_version s) v (rl_version s) (alert s)
    (suppversions s) (dgrd s).
Definition set_rl_version (v : option Z) (s : conn) : conn :=
  mkCONN (conf s) (method s) (version s) (client_version s) (server_random s) v (alert s)
    (suppversions s) (dgrd s).
Definition set_alert (v : option (Z * Z)) (s : conn) : conn :=
  mkCONN (conf s) (method s) (version s) (client_version s) (server_random s) (rl_version s) v
    (suppversions s) (dgrd s).
Definition set_suppversions (v : RAW_EXTENSION) (s : conn) : conn :=
  mkCONN (conf s) (method s) (version s) (client_version s) (server_random s) (rl_version s)
    (alert s) v (dgrd s).
Definition set_dgrd (v : DOWNGRADE) (s : conn) : conn :=
  mkCONN (conf s) (method s) (version s) (client_version s) (server_random s) (rl_version s)
    (alert s) (suppversions s) v.

(** [SSLfatal]: the first alert and reason stay. *)
Definition SSLfatal (al reason : Z) (s : conn) : conn :=
  match alert s with None => set_alert (Some (al, reason)) s | Some _ => s end.

Definition SSL_CONNECTION_IS_DTLS (s : conn) : bool := m_dtls (method s).

Definition SSL_CONNECTION_IS_TLS13 (s : conn) : bool :=
  negb (SSL_CONNECTION_IS_DTLS s) && (TLS1_3_VERSION <=? m_version (method s))
  && negb (m_version (method s) =? TLS_ANY_VERSION).

Definition ssl_set_record_protocol_version (s : conn) : bool * conn :=
  if rl_methods (conf s) then (true, set_rl_version (Some (version s)) s) else (false, s).

(** ** Methods and tables *)

Class Build := {
  OPENSSL_NO_TLS1_2 : bool;
  OPENSSL_NO_TLS1_1 : bool;
  OPENSSL_NO_TLS1 : bool;
  OPENSSL_NO_SSL3 : bool;
  OPENSSL_NO_DTLS1_2 : bool;
  OPENSSL_NO_DTLS1 : bool
}.

Definition TLS_method : SSL_METHOD := mkMETHOD TLS_ANY_VERSION 0 0 false.
Definition tlsv1_3_method : SSL_METHOD := mkMETHOD TLS1_3_VERSION 0 SSL_OP_NO_TLSv1_3 false.
Definition tlsv1_2_method : SSL_METHOD := mkMETHOD TLS1_2_VERSION 0 SSL_OP_NO_TLSv1_2 false.
Definition tlsv1_1_method : SSL_METHOD :=
  mkMETHOD TLS1_1_VERSION SSL_METHOD_NO_SUITEB SSL_OP_NO_TLSv1_1 false.
Definition tlsv1_method : SSL_METHOD :=
  mkMETHOD TLS1_VERSION SSL_METHOD_NO_SUITEB SSL_OP_NO_TLSv1 false.
Definition sslv3_method : SSL_METHOD :=
  mkMETHOD SSL3_VERSION (Z.lor SSL_METHOD_NO_FIPS SSL_METHOD_NO_SUITEB) SSL_OP_NO_SSLv3 false.
Definition DTLS_method : SSL_METHOD := mkMETHOD DTLS_ANY_VERSION 0 0 true.
Definition dtlsv1_2_method : SSL_METHOD := mkMETHOD DTLS1_2_VERSION 0 SSL_OP_NO_DTLSv1_2 true.
Definition dtlsv1_method : SSL_METHOD :=
  mkMETHOD DTLS1_VERSION SSL_METHOD_NO_SUITEB SSL_OP_NO_DTLSv1 true.
Definition dtls_bad_ver_client_method : SSL_METHOD :=
  mkMETHOD DTLS1_BAD_VER SSL_METHOD_NO_SUITEB SSL_OP_NO_DTLSv1 true.

Record version_info : Type := mkINFO {
  vi_version : Z;
  cmeth : option SSL_METHOD;
  smeth : option SSL_METHOD
}.

Definition unless (no : bool) (m : SSL_METHOD) : option SSL_METHOD := if no then None else Some m.

Section Negotiation.
Context {BD : Build}.

(** The tables without their terminating entry of version 0. *)
Definition tls_version_table : list version_info :=
  [ mkINFO TLS1_3_VERSION (Some tlsv1_3_method) (Some tlsv1_3_method);
    mkINFO TLS1_2_VERSION (unless OPENSSL_NO_TLS1_2 tlsv1_2_method)
      (unless OPENSSL_NO_TLS1_2 tlsv1_2_method);
    mkINFO TLS1_1_VERSION (unless OPENSSL_NO_TLS1_1 tlsv1_1_method)
      (unless OPENSSL_NO_TLS1_1 tlsv1_1_method);
    mkINFO TLS1_VERSION (unless OPENSSL_NO_TLS1 tlsv1_method) (unless OPENSSL_NO_TLS1 tlsv1_method);
    mkINFO SSL3_VERSION (unless OPENSSL_NO_SSL3 sslv3_method) (unless OPENSSL_NO_SSL3 sslv3_method) ].

Definition dtls_version_table : list version_info :=
  [ mkINFO DTLS1_2_VERSION (unless OPENSSL_NO_DTLS1_2 dtlsv1_2_method)
      (unless OPENSSL_NO_DTLS1_2 dtlsv1_2_method);
    mkINFO DTLS1_VERSION (unless OPENSSL_NO_DTLS1 dtlsv1_method) (unless OPENSSL_NO_DTLS1 dtlsv1_method);
    mkINFO DTLS1_BAD_VER (unless OPENSSL_NO_DTLS1 dtls_bad_ver_client_method) None ].

(** The table of a version-flexible method. *)
Definition table_of (v : Z) : option (list version_info) :=
  if v =? TLS_ANY_VERSION then Some tls_version_table
  else if v =? DTLS_ANY_VERSION then Some dtls_version_table
  else None.

(** ** Comparison and bounds *)

Abbreviation dtls_ver_ordinal v := (if v =? DTLS1_BAD_VER then 0xff00 else v)%Z.
Abbreviation DTLS_VERSION_GE v1 v2 := (dtls_ver_ordinal v1 <=? dtls_ver_ordinal v2)%Z.
Abbreviation DTLS_VERSION_LT v1 v2 := (dtls_ver_ordinal v2 <? dtls_ver_ordinal v1)%Z.
Abbreviation DTLS_VERSION_LE v1 v2 := (dtls_ver_ordinal v2 <=? dtls_ver_ordinal v1)%Z.

Definition ssl_version_cmp (s : conn) (versiona versionb : Z) : Z :=
  if versiona =? versionb then 0
  else if negb (SSL_CONNECTION_IS_DTLS s) then if versiona <? versionb then -1 else 1
  else if DTLS_VERSION_LT versiona versionb then -1 else 1.

Definition ssl_method_error (s : conn) (m : SSL_METHOD) : Z :=
  let v := m_version m in
  if (negb (min_proto_version (conf s) =? 0) && (ssl_version_cmp s v (min_proto_version (conf s)) <? 0))
     || negb (security (conf s) v)
  then SSL_R_VERSION_TOO_LOW
  else if negb (max_proto_version (conf s) =? 0)
          && (0 <? ssl_version_cmp s v (max_proto_version (conf s)))
  then SSL_R_VERSION_TOO_HIGH
  else if negb (Z.land (options (conf s)) (m_mask m) =? 0) then SSL_R_UNSUPPORTED_PROTOCOL
  else if negb (Z.land (m_flags m) SSL_METHOD_NO_SUITEB =? 0)
          && negb (Z.land (cert_flags (conf s)) SSL_CERT_FLAG_SUITEB_128_LOS =? 0)
  then SSL_R_AT_LEAST_TLS_1_2_NEEDED_IN_SUITEB_MODE
  else 0.

(** The certificate slots of [is_tls13_capable], from slot [i] on. *)
Fixpoint tls13_cert (i : nat) (l : list pkey_slot) : bool :=
  match l with
  | [] => false
  | k :: l' =>
      if decide (i ∈ [SSL_PKEY_DSA_SIGN; SSL_PKEY_GOST01; SSL_PKEY_GOST12_256; SSL_PKEY_GOST12_512])
      then tls13_cert (S i) l'
      else if negb (has_cert k) then tls13_cert (S i) l'
      else if negb (i =? SSL_PKEY_ECC)%nat then true
      else if sigalg_curve_ok k then true
      else tls13_cert (S i) l'
  end.

Definition is_tls13_capable (s : conn) : bool :=
  if servername_cb (conf s) then true
  else if psk_server_callback (conf s) then true
  else if psk_find_session_cb (conf s) || cert_cb (conf s) then true
  else tls13_cert 0 (pkeys (conf s)).

(** The table loop of [ssl_version_supported]; [Some m] is the return value 1
    with [*meth] set to [m]. *)
Fixpoint supported_loop (s : conn) (v : Z) (table : list version_info) : option SSL_METHOD :=
  match table with
  | [] => None
  | vent :: table' =>
      if negb (ssl_version_cmp s v (vi_version vent) <=? 0) then None
      else match (if server (conf s) then smeth vent else cmeth vent) with
           | Some m =>
               if (ssl_version_cmp s v (vi_version vent) =? 0) && (ssl_method_error s m =? 0)
                  && (negb (server (conf s)) || negb (v =? TLS1_3_VERSION) || is_tls13_capable s)
               then Some m else supported_loop s v table'
           | None => supported_loop s v table'
           end
  end.

(** The verdict, and the new value of [*meth]. *)
Definition ssl_version_supported (s : conn) (v : Z) (meth : option SSL_METHOD)
  : bool * option SSL_METHOD :=
  match table_of (m_version (method s)) with
  | None => (ssl_version_cmp s v (version s) =? 0, meth)
  | Some table => match supported_loop s v table with
                  | Some m => (true, Some m)
                  | None => (false, meth)
                  end
  end.

Fixpoint downgrade_loop (s : conn) (table : list version_info) : bool :=
  match table with
  | [] => false
  | vent :: table' =>
      match smeth vent with
      | Some m => if ssl_method_error s m =? 0 then version s =? vi_version vent
                  else downgrade_loop s table'
      | None => downgrade_loop s table'
      end
  end.

Definition ssl_check_version_downgrade (s : conn) : bool :=
  if version s =? m_version (defltmeth (conf s)) then true
  else match table_of (m_version (defltmeth (conf s))) with
       | Some table => downgrade_loop s table
       | None => false
       end.

(** The new value of [*bound], or [None] for the return value 0. *)
Definition ssl_set_version_bound (method_version v bound : Z) : option Z :=
  if v =? 0 then Some v
  else
  let valid_tls := (SSL3_VERSION <=? v) && (v <=? TLS_MAX_VERSION_INTERNAL) in
  let valid_dtls := (v =? DTLS1_BAD_VER)
                    || (DTLS_VERSION_LE v DTLS_MAX_VERSION_INTERNAL && DTLS_VERSION_GE v DTLS1_VERSION) in
  if negb valid_tls && negb valid_dtls then None
  else if method_version =? TLS_ANY_VERSION then Some (if valid_tls then v else bound)
  else if method_version =? DTLS_ANY_VERSION then Some (if valid_dtls then v else bound)
  else Some bound.

(** ** The server *)

Definition check_for_downgrade (s : conn) (vers : Z) : DOWNGRADE :=
  if (vers =? TLS1_2_VERSION) && fst (ssl_version_supported s TLS1_3_VERSION None)
  then DOWNGRADE_TO_1_2
  else if negb (SSL_CONNECTION_IS_DTLS s) && (vers <? TLS1_2_VERSION)
          && fst (ssl_version_supported s TLS1_2_VERSION None)
  then DOWNGRADE_TO_1_1
  else DOWNGRADE_NONE.

(** [s->version], [ssl->method] and the record layer's version are set; a NULL
    method is a fault, of the next function that looks at the connection. *)
Definition server_commit (vers : Z) (m : option SSL_METHOD) : ST conn Z := fun s =>
  let s1 := set_version vers (set_dgrd (check_for_downgrade s vers) s) in
  match m with
  | None => (Fault, s1)
  | Some m =>
      let (ok, s2) := ssl_set_record_protocol_version (set_method m s1) in
      (Ok (if ok then 0 else ERR_R_INTERNAL_ERROR), s2)
  end.

(** The loop over the candidates: one unit of fuel per byte is enough. *)
Fixpoint candidates (fuel : nat) (s : conn) (best_vers : Z) (best_method : option SSL_METHOD)
  : ST PACKET (Z * option SSL_METHOD) :=
  match fuel with
  | O => st_ret (best_vers, best_method)
  | S fuel' => fun versionslist =>
      match PACKET_get_net_2 versionslist with
      | (Ok candidate_vers, versionslist') =>
          if ssl_version_cmp s candidate_vers best_vers <=? 0
          then candidates fuel' s best_vers best_method versionslist'
          else let (ok, meth) := ssl_version_supported s candidate_vers best_method in
               candidates fuel' s (if ok then candidate_vers else best_vers) meth versionslist'
      | (Fail, versionslist') => (Ok (best_vers, best_method), versionslist')
      | (Fault, versionslist') => (Fault, versionslist')
      end
  end.

(** The branch with a supported_versions extension. *)
Definition server_from_extension (legacy_version : Z) : ST conn Z := fun s0 =>
  let e := suppversions s0 in
  let s := set_suppversions (mkEXT (data e) (present e) true) s0 in
  match PACKET_as_length_prefixed_1 (data e) with
  | (Fault, _) => (Fault, s)
  | (Fail, d) => (Ok SSL_R_LENGTH_MISMATCH, set_suppversions (mkEXT d (present e) true) s)
  | (Ok versionslist, d) =>
      let s1 := set_suppversions (mkEXT d (present e) true) s in
      if legacy_version <=? SSL3_VERSION then (Ok SSL_R_BAD_LEGACY_VERSION, s1)
      else
      match candidates (S (Z.to_nat (PACKET_remaining versionslist))) s1 0 None versionslist with
      | (Ok (best_vers, best_method), versionslist') =>
          if negb (PACKET_remaining versionslist' =? 0) then (Ok SSL_R_LENGTH_MISMATCH, s1)
          else if 0 <? best_vers then
            if decide (hello_retry_request (conf s1) = SSL_HRR_NONE)
            then server_commit best_vers best_method s1
            else (Ok (if negb (best_vers =? TLS1_3_VERSION) then SSL_R_UNSUPPORTED_PROTOCOL else 0), s1)
          else (Ok SSL_R_UNSUPPORTED_PROTOCOL, s1)
      | (_, _) => (Fault, s1)
      end
  end.

(** The table loop of the branch without the extension. *)
Fixpoint server_from_table (vers : Z) (disabled : bool) (table : list version_info) : ST conn Z := fun s =>
  match table with
  | [] => (Ok (if disabled then SSL_R_UNSUPPORTED_PROTOCOL else SSL_R_VERSION_TOO_LOW), s)
  | vent :: table' =>
      match smeth vent with
      | None => server_from_table vers disabled table' s
      | Some m =>
          if ssl_version_cmp s vers (vi_version vent) <? 0 then server_from_table vers disabled table' s
          else if ssl_method_error s m =? 0 then server_commit (vi_version vent) (Some m) s
          else server_from_table vers true table' s
      end
  end.

Definition ssl_choose_server_version (legacy_version : Z) : ST conn Z := fun s0 =>
  let s := set_client_version legacy_version s0 in
  let choose (table : list version_info) :=
    if negb (present (suppversions s)) && negb (bool_decide (hello_retry_request (conf s) = SSL_HRR_NONE))
    then (Ok SSL_R_UNSUPPORTED_PROTOCOL, s)
    else if present (suppversions s) && negb (SSL_CONNECTION_IS_DTLS s)
    then server_from_extension legacy_version s
    else server_from_table
           (if 0 <=? ssl_version_cmp s legacy_version TLS1_3_VERSION then TLS1_2_VERSION else legacy_version)
           false table s in
  match table_of (m_version (method s)) with
  | Some table => choose table
  | None =>
      if negb (SSL_CONNECTION_IS_TLS13 s) then
        if ssl_version_cmp s legacy_version (version s) <? 0 then (Ok SSL_R_WRONG_SSL_VERSION, s)
        else (Ok 0, set_dgrd DOWNGRADE_NONE s)
      else choose tls_version_table
  end.

(** [ssl_fill_hello_random] with the clock and the random generator: the return
    value and the new contents of the field. *)
Definition ssl_fill_hello_random (time_now : Z) (RAND_bytes_ex : nat -> Z * list Z)
    (s : conn) (is_server : bool) (result : list Z) (d : DOWNGRADE) : Z * list Z :=
  let len := length result in
  if (len <? 4)%nat then (0, result)
  else
  let send_time := if is_server then has (mode (conf s)) SSL_MODE_SEND_SERVERHELLO_TIME
                   else has (mode (conf s)) SSL_MODE_SEND_CLIENTHELLO_TIME in
  let (r, filled) :=
    if send_time then
      let (r, bs) := RAND_bytes_ex (len - 4)%nat in
      (r, be_bytes 4 (time_now `mod` 2 ^ 32) ++ bs)
    else RAND_bytes_ex len in
  if 0 <? r then
    if (len <=? length tls11downgrade)%nat || (len <=? length tls12downgrade)%nat then (0, filled)
    else (r, match d with
             | DOWNGRADE_TO_1_2 => take (len - length tls12downgrade) filled ++ tls12downgrade
             | DOWNGRADE_TO_1_1 => take (len - length tls11downgrade) filled ++ tls11downgrade
             | DOWNGRADE_NONE => filled
             end)
  else (r, filled).

(** The version field of the ServerHello. *)
Definition server_hello_version (s : conn) : Z :=
  if SSL_CONNECTION_IS_TLS13 s || bool_decide (hello_retry_request (conf s) = SSL_HRR_PENDING)
  then TLS1_2_VERSION else version s.

(** ** The client *)

(** The loop of [ssl_get_min_max_version]: [*min_version], [version] and
    [*real_max] at its end. *)
Fixpoint min_max_loop (s : conn) (table : list version_info) (min_version v : Z) (hole : bool)
    (tmp_real_max real_max : Z) : Z * Z * Z :=
  match table with
  | [] => (min_version, v, real_max)
  | vent :: table' =>
      match cmeth vent with
      | None => min_max_loop s table' min_version v true 0 real_max
      | Some m =>
          let tmp := if hole && (tmp_real_max =? 0) then vi_version vent else tmp_real_max in
          if negb (ssl_method_error s m =? 0) then min_max_loop s table' min_version v true tmp real_max
          else if negb hole then min_max_loop s table' (m_version m) v false tmp real_max
          else min_max_loop s table' (m_version m) (m_version m) false tmp
                 (if negb (tmp =? 0) then tmp else real_max)
      end
  end.

(** The return value, then [*min_version], [*max_version] and [*real_max];
    [want_real_max] says that [real_max] is not NULL. *)
Definition ssl_get_min_max_version (s : conn) (want_real_max : bool) : Z * (Z * Z * Z) :=
  match table_of (m_version (method s)) with
  | None => ((if want_real_max then ERR_R_INTERNAL_ERROR else 0), (version s, version s, 0))
  | Some table =>
      let '(mn, v, real_max) := min_max_loop s table 0 0 true 0 0 in
      ((if v =? 0 then SSL_R_NO_PROTOCOLS_AVAILABLE else 0), (mn, v, real_max))
  end.

Definition ssl_set_client_hello_version (s : conn) : Z * conn :=
  if negb (first_handshake (conf s)) then (0, s)
  else
  let '(ret, (_, ver_max, _)) := ssl_get_min_max_version s false in
  if negb (ret =? 0) then (ret, s)
  else
  let s1 := set_version ver_max s in
  if SSL_CONNECTION_IS_DTLS s1 then
    if ver_max =? DTLS1_BAD_VER then
      let (ok, s2) := ssl_set_record_protocol_version s1 in
      if negb ok then (0, s2) else (0, set_client_version ver_max s2)
    else (0, set_client_version ver_max s1)
  else (0, set_client_version (if TLS1_2_VERSION <? ver_max then TLS1_2_VERSION else ver_max) s1).

(** [extension_is_relevant]. *)
Definition extension_is_relevant (s : conn) (extctx thisctx : Z) : bool :=
  let is_tls13 := if has thisctx SSL_EXT_TLS1_3_HELLO_RETRY_REQUEST then true
                  else SSL_CONNECTION_IS_TLS13 s in
  negb ((SSL_CONNECTION_IS_DTLS s && has extctx SSL_EXT_TLS_IMPLEMENTATION_ONLY)
        || ((version s =? SSL3_VERSION) && negb (has extctx SSL_EXT_SSL3_ALLOWED))
        || (is_tls13 && has extctx SSL_EXT_TLS1_2_AND_BELOW_ONLY)
        || (negb is_tls13 && has extctx SSL_EXT_TLS1_3_ONLY && negb (has thisctx SSL_EXT_CLIENT_HELLO))
        || (server (conf s) && negb is_tls13 && has extctx SSL_EXT_TLS1_3_ONLY)
        || (hit (conf s) && has extctx SSL_EXT_IGNORE_ON_RESUMPTION)).

(** The contexts of the supported_versions entry of [ext_defs]. *)
Definition supported_versions_context : Z :=
  Z.lor (Z.lor (Z.lor SSL_EXT_CLIENT_HELLO SSL_EXT_TLS1_3_SERVER_HELLO)
    SSL_EXT_TLS1_3_HELLO_RETRY_REQUEST) SSL_EXT_TLS_IMPLEMENTATION_ONLY.

Definition tls_parse_stoc_supported_versions (context : Z) : ST conn bool := fun s =>
  let e := suppversions s in
  let put (d : PACKET) := set_suppversions (mkEXT d (present e) (parsed e)) s in
  match PACKET_get_net_2 (data e) with
  | (Fault, d) => (Fault, put d)
  | (Fail, d) => (Ok false, SSLfatal SSL_AD_DECODE_ERROR SSL_R_LENGTH_MISMATCH (put d))
  | (Ok v, d) =>
      if negb (PACKET_remaining d =? 0)
      then (Ok false, SSLfatal SSL_AD_DECODE_ERROR SSL_R_LENGTH_MISMATCH (put d))
      else if negb (v =? TLS1_3_VERSION)
      then (Ok false, SSLfatal SSL_AD_ILLEGAL_PARAMETER SSL_R_BAD_PROTOCOL_VERSION_NUMBER (put d))
      else if context =? SSL_EXT_TLS1_3_HELLO_RETRY_REQUEST then (Ok true, put d)
      else
      let (ok, s1) := ssl_set_record_protocol_version (set_version v (put d)) in
      if ok then (Ok true, s1)
      else (Ok false, SSLfatal SSL_AD_INTERNAL_ERROR ERR_R_INTERNAL_ERROR s1)
  end.

(** [tls_parse_extension] of supported_versions on the client. *)
Definition tls_parse_supported_versions (context : Z) : ST conn bool := fun s =>
  let e := suppversions s in
  if negb (present e) then (Ok true, s)
  else if parsed e then (Ok true, s)
  else
  let s1 := set_suppversions (mkEXT (data e) (present e) true) s in
  if negb (extension_is_relevant s1 supported_versions_context context) then (Ok true, s1)
  else tls_parse_stoc_supported_versions context s1.

(** The last loop of [ssl_choose_client_version]. *)
Fixpoint client_method (s : conn) (table : list version_info) : option SSL_METHOD :=
  match table with
  | [] => None
  | vent :: table' =>
      match cmeth vent with
      | Some m => if version s =? vi_version vent then Some m else client_method s table'
      | None => client_method s table'
      end
  end.

(** [s->version = origv; SSLfatal(...); return 0;] *)
Definition client_refuse (origv al reason : Z) (s : conn) : ret bool * conn :=
  (Ok false, SSLfatal al reason (set_version origv s)).

(** The client's look for a sentinel in the server's random. *)
Definition sentinel_seen (s : conn) (real_max : Z) : bool :=
  let tail := drop (32 - 8) (server_random s) in
  if (version s =? TLS1_2_VERSION) && (version s <? real_max)
  then bool_decide (take 8 tail = tls12downgrade)
  else if negb (SSL_CONNECTION_IS_DTLS s) && (version s <? TLS1_2_VERSION) && (version s <? real_max)
  then bool_decide (take 8 tail = tls11downgrade)
  else false.

(** From the call of [ssl_get_min_max_version] on. *)
Definition client_flexible (origv : Z) (table : list version_info) (s : conn) : ret bool * conn :=
  let '(ret, (ver_min, ver_max, real_max0)) := ssl_get_min_max_version s true in
  if negb (ret =? 0) then client_refuse origv SSL_AD_PROTOCOL_VERSION ret s
  else if (ssl_version_cmp s (version s) ver_min <? 0) || (0 <? ssl_version_cmp s (version s) ver_max)
  then client_refuse origv SSL_AD_PROTOCOL_VERSION SSL_R_UNSUPPORTED_PROTOCOL s
  else
  let real_max := if negb (has (mode (conf s)) SSL_MODE_SEND_FALLBACK_SCSV) then ver_max else real_max0 in
  if sentinel_seen s real_max
  then client_refuse origv SSL_AD_ILLEGAL_PARAMETER SSL_R_INAPPROPRIATE_FALLBACK s
  else
  match client_method s table with
  | Some m =>
      let (ok, s1) := ssl_set_record_protocol_version (set_method m s) in
      if ok then (Ok true, s1)
      else (Ok false, SSLfatal SSL_AD_INTERNAL_ERROR ERR_R_INTERNAL_ERROR s1)
  | None => client_refuse origv SSL_AD_PROTOCOL_VERSION SSL_R_UNSUPPORTED_PROTOCOL s
  end.

Definition ssl_choose_client_version (vers : Z) : ST conn bool := fun s0 =>
  let origv := version s0 in
  match tls_parse_supported_versions
          (Z.lor SSL_EXT_TLS1_2_SERVER_HELLO SSL_EXT_TLS1_3_SERVER_HELLO) (set_version vers s0) with
  | (Ok true, s) =>
      if negb (bool_decide (hello_retry_request (conf s) = SSL_HRR_NONE))
         && negb (version s =? TLS1_3_VERSION)
      then client_refuse origv SSL_AD_PROTOCOL_VERSION SSL_R_WRONG_SSL_VERSION s
      else
      match table_of (m_version (method s)) with
      | Some table => client_flexible origv table s
      | None =>
          if negb (version s =? m_version (method s))
          then client_refuse origv SSL_AD_PROTOCOL_VERSION SSL_R_WRONG_SSL_VERSION s
          else
          let (ok, s1) := ssl_set_record_protocol_version s in
          if ok then (Ok true, s1)
          else (Ok false, SSLfatal SSL_AD_INTERNAL_ERROR ERR_R_INTERNAL_ERROR s1)
      end
  | (Ok false, s) => (Ok false, set_version origv s)
  | (r, s) => (r, s)
  end.

(** ** The extension on the wire *)

Section Write.
Context `{L : Libc}.

(** [for (currv = max_version; currv >= min_version; currv--)], [n] rounds. *)
Fixpoint put_versions (n : nat) (currv : Z) : ST WPACKET unit :=
  match n with
  | O => st_ret tt
  | S n' => WPACKET_put_bytes__ currv 2 ;;; put_versions n' (currv - 1)
  end.

Definition sent (m : ST WPACKET unit) (s : conn) (pkt : WPACKET) : ret EXT_RETURN * (conn * WPACKET) :=
  match m pkt with
  | (Ok _, pkt') => (Ok EXT_RETURN_SENT, (s, pkt'))
  | (Fail, pkt') =>
      (Ok EXT_RETURN_FAIL, (SSLfatal SSL_AD_INTERNAL_ERROR ERR_R_INTERNAL_ERROR s, pkt'))
  | (Fault, pkt') => (Fault, (s, pkt'))
  end.

Definition tls_construct_ctos_supported_versions (s : conn) (pkt : WPACKET)
  : ret EXT_RETURN * (conn * WPACKET) :=
  let '(reason, (min_version, max_version, _)) := ssl_get_min_max_version s false in
  if negb (reason =? 0) then (Ok EXT_RETURN_FAIL, (SSLfatal SSL_AD_INTERNAL_ERROR reason s, pkt))
  else if max_version <? TLS1_3_VERSION then (Ok EXT_RETURN_NOT_SENT, (s, pkt))
  else sent (WPACKET_put_bytes__ TLSEXT_TYPE_supported_versions 2 ;;;
             WPACKET_start_sub_packet_len__ 2 ;;;
             WPACKET_start_sub_packet_len__ 1 ;;;
             put_versions (Z.to_nat (max_version - min_version + 1)) max_version ;;;
             WPACKET_close ;;; WPACKET_close) s pkt.

Definition tls_construct_stoc_supported_versions (s : conn) (pkt : WPACKET)
  : ret EXT_RETURN * (conn * WPACKET) :=
  if negb (SSL_CONNECTION_IS_TLS13 s)
  then (Ok EXT_RETURN_FAIL, (SSLfatal SSL_AD_INTERNAL_ERROR ERR_R_INTERNAL_ERROR s, pkt))
  else sent (WPACKET_put_bytes__ TLSEXT_TYPE_supported_versions 2 ;;;
             WPACKET_start_sub_packet_len__ 2 ;;;
             WPACKET_put_bytes__ (version s) 2 ;;;
             WPACKET_close) s pkt.

End Write.

End Negotiation.
End Version.
