(* ===== verification/DtlsFrag.v ===== *)
(** * Handshake fragments of DTLS

    ssl/statem/statem_dtls.c, the receiving side: a handshake message may come
    in fragments, in any order, overlapping, repeated, and before its turn.
    Fragments are collected in the queue [buffered_messages] with a bit for
    every byte received, and messages are handed to the state machine in the
    order of their sequence numbers. *)

From stdpp Require Import prelude.
From Stdlib Require Import ZArith Lia.
From S2P Require Import Prelude Packet Buffer PQueue RecordTypes StatemTypes StatemLib Quic Framing.

Local Open Scope Z_scope.
Local Open Scope st_scope.

Module DtlsFrag.
Import Quic Framing.

Abbreviation DTLS1_HM_HEADER_LENGTH := (12)%Z.
Abbreviation DTLS1_HM_BAD_FRAGMENT := (-2)%Z.
Abbreviation DTLS1_HM_FRAGMENT_RETRY := (-3)%Z.

(** ** The bitmask of the bytes received *)

Definition bitmask_start_values : list Z := [0xff; 0xfe; 0xfc; 0xf8; 0xf0; 0xe0; 0xc0; 0x80].
Definition bitmask_end_values : list Z := [0xff; 0x01; 0x03; 0x07; 0x0f; 0x1f; 0x3f; 0x7f].

Definition RSMBLY_BITMASK_SIZE (msg_len : Z) : Z := (msg_len + 7) / 8.

(** [bitmask[i] |= v]. *)
Definition or_at (bitmask : list Z) (i v : Z) : option (list Z) :=
  match mem_get bitmask i with
  | Some x => mem_write bitmask i [Z.lor x v]
  | None => None
  end.

(** The loops of the macro, [n] rounds from [ii]. *)
Fixpoint mark_bits (n : nat) (ii : Z) (bitmask : list Z) : option (list Z) :=
  match n with
  | O => Some bitmask
  | S n => match or_at bitmask (Z.shiftr ii 3) (Z.shiftl 1 (Z.land ii 7)) with
           | Some bitmask => mark_bits n (ii + 1) bitmask
           | None => None
           end
  end.

Fixpoint mark_bytes (n : nat) (ii : Z) (bitmask : list Z) : option (list Z) :=
  match n with
  | O => Some bitmask
  | S n => match mem_write bitmask ii [0xff] with
           | Some bitmask => mark_bytes n (ii + 1) bitmask
           | None => None
           end
  end.

(** [None] when an access leaves the bitmask. *)
Definition RSMBLY_BITMASK_MARK (bitmask : list Z) (start end_ : Z) : option (list Z) :=
  if end_ - start <=? 8 then mark_bits (Z.to_nat (end_ - start)) start bitmask
  else
    let first := Z.shiftr start 3 in
    let last := Z.shiftr (end_ - 1) 3 in
    match mem_get bitmask_start_values (Z.land start 7) with
    | None => None
    | Some v =>
        match or_at bitmask first v with
        | None => None
        | Some bitmask =>
            match mark_bytes (Z.to_nat (last - (first + 1))) (first + 1) bitmask with
            | None => None
            | Some bitmask =>
                match mem_get bitmask_end_values (Z.land end_ 7) with
                | None => None
                | Some v => or_at bitmask last v
                end
            end
        end
    end.

(** The loop goes down from [n - 1]. *)
Fixpoint full_below (bitmask : list Z) (n : nat) : option bool :=
  match n with
  | O => Some true
  | S n => match mem_get bitmask (Z.of_nat n) with
           | Some x => if x =? 0xff then full_below bitmask n else Some false
           | None => None
           end
  end.

Definition RSMBLY_BITMASK_IS_COMPLETE (bitmask : list Z) (msg_len : Z) : option bool :=
  let last := Z.shiftr (msg_len - 1) 3 in
  match mem_get bitmask last, mem_get bitmask_end_values (Z.land msg_len 7) with
  | Some x, Some v => if x =? v then full_below bitmask (Z.to_nat last) else Some false
  | _, _ => None
  end.

(** ** Fragments *)

(** [is_ccs] and the saved retransmission state are for messages sent. *)
Record hm_header : Type := mkHM {
  hm_type : Z;
  msg_len : Z;
  hm_seq : Z;
  frag_off : Z;
  frag_len : Z
}.

Record hm_fragment : Type := mkFRAG {
  msg_header : hm_header;
  fragment : option (list Z);
  reassembly : option (list Z)
}.

(** A message kept for retransmission: the fragment, the rest of its header, and
    the write record layer it was sent with, by its address. *)
Record sent_fragment : Type := mkSENT {
  sent_frag : hm_fragment;
  is_ccs : bool;
  saved_retransmit_state : Z
}.

(** The retransmission timer; it is not running when [next_timeout] is zero. *)
Record DTLS1_TIMER : Type := mkDT {
  next_timeout : Z;
  timeout_duration_us : Z;
  timeout_num_alerts : Z
}.

(** The part of [DTLS1_STATE] that sending uses. *)
Record DTLS1_WRITE : Type := mkDW {
  handshake_write_seq : Z;
  next_handshake_write_seq : Z;
  w_msg_hdr : hm_header;
  mtu : Z;
  link_mtu : Z;
  retransmitting : bool;
  sent_messages : pqueue sent_fragment;
  timer : DTLS1_TIMER
}.

(** The state of a DTLS handshake, without the cookie. *)
Record DTLS1_STATE : Type := mkD1 {
  handshake_read_seq : Z;
  writing : DTLS1_WRITE;
  r_msg_hdr : hm_header;
  buffered_messages : pqueue hm_fragment
}.

(** The environment of a DTLS connection: [d1], and the record layer and the
    transcript in [R]. *)
Record DTLS (R : Type) : Type := mkDTLS {
  d1 : DTLS1_STATE;
  env : R
}.
Arguments mkDTLS {R}.
Arguments d1 {R} _.
Arguments env {R} _.

Definition no_header : hm_header := mkHM 0 0 0 0 0.

Definition set_next_write_seq (v : Z) (w : DTLS1_WRITE) : DTLS1_WRITE :=
  mkDW (handshake_write_seq w) v (w_msg_hdr w) (mtu w) (link_mtu w) (retransmitting w) (sent_messages w) (timer w).
Definition set_read_seq (v : Z) (d : DTLS1_STATE) : DTLS1_STATE :=
  mkD1 v (writing d) (r_msg_hdr d) (buffered_messages d).
Definition set_r_msg_hdr (v : hm_header) (d : DTLS1_STATE) : DTLS1_STATE :=
  mkD1 (handshake_read_seq d) (writing d) v (buffered_messages d).
Definition set_buffered (v : pqueue hm_fragment) (d : DTLS1_STATE) : DTLS1_STATE :=
  mkD1 (handshake_read_seq d) (writing d) (r_msg_hdr d) v.
(** Both sequence numbers go back to the beginning. *)
Definition reset_seqs (d : DTLS1_STATE) : DTLS1_STATE :=
  mkD1 0 (set_next_write_seq 0 (writing d)) (r_msg_hdr d) (buffered_messages d).

(** [sizeof(hm_fragment)] and [sizeof(pitem)]. *)
Definition sizeof_hm_fragment : Z := 80.
Definition sizeof_pitem : Z := 24.

Definition seq64be (seq : Z) : list Z :=
  [0; 0; 0; 0; 0; 0; Z.land (Z.shiftr seq 8) 255; Z.land seq 255].

Definition dtls1_get_message_header (data : list Z) : option hm_header :=
  match mem_get data 0, n2l3 data 1, mem_get data 4, mem_get data 5, n2l3 data 6, n2l3 data 9 with
  | Some t, Some l, Some s1, Some s0, Some o, Some fl =>
      Some (mkHM t l (Z.lor (Z.shiftl s1 8) s0) o fl)
  | _, _, _, _, _, _ => None
  end.

(** The header as [dtls1_write_message_header] stores it. *)
Definition wire_header (h : hm_header) : list Z :=
  [hm_type h] ++ be_bytes 3 (msg_len h) ++ be_bytes 2 (hm_seq h) ++ be_bytes 3 (frag_off h) ++ be_bytes 3 (frag_len h).

(** The item found by [pqueue_find] is changed in place. *)
Fixpoint item_update (pq : pqueue hm_fragment) (prio64be : list Z) (frag : hm_fragment)
  : pqueue hm_fragment :=
  match pq with
  | [] => []
  | it :: rest => if memcmp (priority it) prio64be =? 0 then mkPITEM (priority it) frag :: rest
                  else it :: item_update rest prio64be frag
  end.

Section Ops.
Context {R : Type} `{C : Callees (DTLS R)} `{L : Libc}.
Local Abbreviation W := (DTLS R).
Local Abbreviation SSL := (SSL W).

(** The record layer, as in Framing.v: [ssl_read_bytes len] delivers the type of
    the record and at most [len] bytes of it, or nothing; [record_left] is what
    is left of the current record, [tlsrecs[curr_rec].length]. *)
Context (ssl_read_bytes : Z -> SSL -> option (Z * list Z) * SSL) (record_left : R -> Z)
  (ssl3_take_mac : ST SSL unit) (ssl3_finish_mac : list Z -> ST SSL unit)
  (msg_callback : list Z -> R -> R).

Definition upd_d1 (f : DTLS1_STATE -> DTLS1_STATE) (s : SSL) : SSL :=
  upd_rest (fun w => mkDTLS (f (d1 w)) (env w)) s.
Definition d1_of (s : SSL) : DTLS1_STATE := d1 (rest s).
Definition callback (m : list Z) (s : SSL) : SSL :=
  upd_rest (fun w => mkDTLS (d1 w) (msg_callback m (env w))) s.

(** A null result is [None]. *)
Definition dtls1_hm_fragment_new (frag_len : Z) (reassembly : bool) : option hm_fragment :=
  match CRYPTO_zalloc sizeof_hm_fragment with
  | None => None
  | Some _ =>
      match (if frag_len =? 0 then Some None
             else match CRYPTO_malloc frag_len with Some b => Some (Some b) | None => None end) with
      | None => None
      | Some buf =>
          if reassembly then
            match CRYPTO_zalloc (RSMBLY_BITMASK_SIZE frag_len) with
            | Some bitmask => Some (mkFRAG no_header buf (Some bitmask))
            | None => None
            end
          else Some (mkFRAG no_header buf None)
      end
  end.

Definition pitem_new (prio64be : list Z) (frag : hm_fragment) : option (pitem hm_fragment) :=
  match CRYPTO_malloc sizeof_pitem with
  | Some _ => Some (mkPITEM prio64be frag)
  | None => None
  end.

Definition dtls1_max_handshake_message_len (s : SSL) : Z :=
  let max_len := DTLS1_HM_HEADER_LENGTH + SSL3_RT_MAX_ENCRYPTED_LENGTH in
  if max_len <? max_cert_list s then max_cert_list s else max_len.

(** [BUF_MEM_grow_clean(s->init_buf, n)]; [Fail] when it returns [0]. *)
Definition grow_init (n : Z) : ST SSL unit := fun s =>
  match init_buf s with
  | None => (Fault, s)
  | Some b => match BUF_MEM_grow_clean n b with
              | (Ok r, b) => (if r =? 0 then Fail else Ok tt, set_init_buf (Some b) s)
              | (Fail, b) => (Fail, set_init_buf (Some b) s)
              | (Fault, _) => (Fault, s)
              end
  end.

Definition dtls1_preprocess_fragment (msg_hdr : hm_header) : ST SSL unit := fun s =>
  if (msg_len msg_hdr <? frag_off msg_hdr + frag_len msg_hdr)
     || (dtls1_max_handshake_message_len s <? msg_len msg_hdr)
  then fatal SSL_AD_ILLEGAL_PARAMETER s
  else if frag_off (r_msg_hdr (d1_of s)) =? 0 then
    match grow_init (msg_len msg_hdr + DTLS1_HM_HEADER_LENGTH) s with
    | (Fault, s) => (Fault, s)
    | (Fail, s) => fatal SSL_AD_INTERNAL_ERROR s
    | (Ok _, s) =>
        (Ok tt, upd_d1 (fun d => set_r_msg_hdr (mkHM (hm_type msg_hdr) (msg_len msg_hdr) (hm_seq msg_hdr)
                                   (frag_off (r_msg_hdr d)) (frag_len (r_msg_hdr d))) d)
                  (upd_tmp (fun t => set_message_type (hm_type msg_hdr)
                                       (set_message_size (msg_len msg_hdr) t)) s))
    end
  else if negb (msg_len msg_hdr =? msg_len (r_msg_hdr (d1_of s)))
  then fatal SSL_AD_ILLEGAL_PARAMETER s
  else (Ok tt, s).

(** ** Messages that are complete in the queue *)

(** A server that has sent a HelloVerifyRequest accepts the first ClientHello
    again: the request may have been lost. *)
Definition hello_again (seq : Z) (s : SSL) : bool :=
  server s && (seq =? 0) && (handshake_read_seq (d1_of s) =? 1)
  && bool_decide (hand s = DTLS_ST_SW_HELLO_VERIFY_REQUEST).

Definition item_seq (it : pitem hm_fragment) : Z := hm_seq (msg_header (pdata it)).

(** The loop over stale items: what remains of the queue, and the item found
    (then first in the queue) with [chretran]. *)
Fixpoint retrieve_loop (s : SSL) (pq : pqueue hm_fragment)
  : pqueue hm_fragment * option (pitem hm_fragment * bool) :=
  match pq with
  | [] => ([], None)
  | item :: rest =>
      if item_seq item <? handshake_read_seq (d1_of s) then
        if negb (hello_again (item_seq item) s) then retrieve_loop s rest
        else match rest with
             | next :: _ => if item_seq next =? handshake_read_seq (d1_of s)
                            then (rest, Some (next, false)) else (pq, Some (item, true))
             | [] => (pq, Some (item, true))
             end
      else (pq, Some (item, false))
  end.

(** The copy into [init_buf]. *)
Definition copy_fragment (frag : hm_fragment) (s : SSL) : option SSL :=
  let h := msg_header frag in
  if frag_len h <=? 0 then Some s
  else match fragment frag with
       | None => None
       | Some data => match mem_read data 0 (frag_len h) with
                      | None => None
                      | Some bs => store_init (DTLS1_HM_HEADER_LENGTH + frag_off h) bs s
                      end
       end.

(** [Ok (Some len)] for [1], [Ok None] for [0], [Fail] for [-1]. *)
Definition dtls1_retrieve_buffered_fragment : ST SSL (option Z) := fun s =>
  let '(pq, found) := retrieve_loop s (buffered_messages (d1_of s)) in
  let s := upd_d1 (set_buffered pq) s in
  match found with
  | None => (Ok None, s)
  | Some (item, chretran) =>
      let frag := pdata item in
      if bool_decide (is_Some (reassembly frag)) then (Ok None, s)
      else if (handshake_read_seq (d1_of s) =? item_seq item) || chretran then
        match dtls1_preprocess_fragment (msg_header frag) (upd_d1 (set_buffered (snd (pqueue_pop pq))) s) with
        | (Fault, s) => (Fault, s)
        | (Fail, s) => (Fail, set_init_num 0 s)
        | (Ok _, s) =>
            match copy_fragment frag s with
            | None => (Fault, s)
            | Some s => (Ok (Some (frag_len (msg_header frag))),
                         if chretran then upd_d1 reset_seqs s else s)
            end
        end
      else (Ok None, s)
  end.

(** ** Fragments of the record being read *)

(** The loop that skips the body of a fragment: [false] when a read fails.
    Every round reads at least a byte ([None] if the fuel was not enough). *)
Fixpoint skip_body (fuel : nat) (frag_len : Z) : ST SSL (option bool) := fun s =>
  if frag_len =? 0 then (Ok (Some true), s)
  else match fuel with
  | O => (Ok None, s)
  | S f => match ssl_read_bytes (Z.min frag_len 256) s with
           | (None, s) => (Ok (Some false), s)
           | (Some (_, bs), s) => skip_body f (wrap64 (frag_len - Z.of_nat (length bs))) s
           end
  end.

Definition skip_fragment (msg_hdr : hm_header) (err : Z) : ST SSL (option Z) :=
  r <~ skip_body (Z.to_nat (frag_len msg_hdr)) (frag_len msg_hdr) ;;
  st_ret (match r with
          | None => None
          | Some true => Some DTLS1_HM_FRAGMENT_RETRY
          | Some false => Some err
          end).

(** What the record layer stores at [frag->fragment + off]. *)
Definition store_fragment (frag : hm_fragment) (off : Z) (bs : list Z) : option hm_fragment :=
  match fragment frag with
  | None => None
  | Some data => match mem_write data off bs with
                 | Some data => Some (mkFRAG (msg_header frag) (Some data) (reassembly frag))
                 | None => None
                 end
  end.

(** The bytes read are marked; a complete message needs its bitmask no more.
    The assertion [msg_len > 0] between the two macros holds: [frag_len] is not
    zero and not more than [msg_len]. *)
Definition mark_fragment (frag : hm_fragment) (bitmask : list Z) (msg_hdr : hm_header) : option hm_fragment :=
  match RSMBLY_BITMASK_MARK bitmask (frag_off msg_hdr) (frag_off msg_hdr + frag_len msg_hdr) with
  | None => None
  | Some bitmask =>
      match RSMBLY_BITMASK_IS_COMPLETE bitmask (msg_len msg_hdr) with
      | None => None
      | Some is_complete =>
          Some (mkFRAG (msg_header frag) (fragment frag) (if is_complete then None else Some bitmask))
      end
  end.

(** The entry of the queue for the message, or a new one. *)
Definition find_fragment (item : option (pitem hm_fragment)) (msg_hdr : hm_header) : option hm_fragment :=
  match item with
  | None => match dtls1_hm_fragment_new (msg_len msg_hdr) true with
            | None => None
            | Some f => Some (mkFRAG (mkHM (hm_type msg_hdr) (msg_len msg_hdr) (hm_seq msg_hdr) 0 (msg_len msg_hdr))
                                (fragment f) (reassembly f))
            end
  | Some it => if msg_len (msg_header (pdata it)) =? msg_len msg_hdr then Some (pdata it) else None
  end.

Definition insert_fragment (seq : Z) (frag : hm_fragment) (err : Z) : ST SSL (option Z) := fun s =>
  match pitem_new (seq64be seq) frag with
  | None => (Ok (Some err), s)
  | Some item =>
      match pqueue_insert (buffered_messages (d1_of s)) item with
      | None => (Ok (Some err), s)
      | Some pq => (Ok (Some DTLS1_HM_FRAGMENT_RETRY), upd_d1 (set_buffered pq) s)
      end
  end.

(** A fragment in the queue is reached through its item. *)
Definition put_fragment (item : option (pitem hm_fragment)) (seq : Z) (frag : hm_fragment) (s : SSL) : SSL :=
  match item with
  | None => s
  | Some _ => upd_d1 (fun d => set_buffered (item_update (buffered_messages d) (seq64be seq) frag) d) s
  end.

(** The result is the code returned. *)
Definition dtls1_reassemble_fragment (msg_hdr : hm_header) : ST SSL (option Z) := fun s =>
  let seq := hm_seq msg_hdr in
  if (msg_len msg_hdr <? frag_off msg_hdr + frag_len msg_hdr)
     || (dtls1_max_handshake_message_len s <? msg_len msg_hdr) then (Ok (Some (-1)), s)
  else if frag_len msg_hdr =? 0 then (Ok (Some DTLS1_HM_FRAGMENT_RETRY), s)
  else
    let item := pqueue_find (buffered_messages (d1_of s)) (seq64be seq) in
    match find_fragment item msg_hdr with
    | None => (Ok (Some (-1)), s)
    | Some frag =>
        match reassembly frag with
        | None => skip_fragment msg_hdr (-1) s
        | Some bitmask =>
            match ssl_read_bytes (frag_len msg_hdr) s with
            | (None, s) => (Ok (Some (-1)), s)
            | (Some (_, bs), s) =>
                match store_fragment frag (frag_off msg_hdr) bs with
                | None => (Fault, s)
                | Some frag =>
                    if negb (Z.of_nat (length bs) =? frag_len msg_hdr)
                    then (Ok (Some (-1)), put_fragment item seq frag s)
                    else match mark_fragment frag bitmask msg_hdr with
                         | None => (Fault, s)
                         | Some frag =>
                             let s := put_fragment item seq frag s in
                             match item with
                             | Some _ => (Ok (Some DTLS1_HM_FRAGMENT_RETRY), s)
                             | None => insert_fragment seq frag (-1) s
                             end
                         end
                end
            end
        end
    end.

Definition dtls1_process_out_of_seq_message (msg_hdr : hm_header) : ST SSL (option Z) := fun s =>
  let seq := hm_seq msg_hdr in
  let read_seq := handshake_read_seq (d1_of s) in
  if msg_len msg_hdr <? frag_off msg_hdr + frag_len msg_hdr then (Ok (Some 0), s)
  else
    let item := pqueue_find (buffered_messages (d1_of s)) (seq64be seq) in
    let whole := frag_len msg_hdr =? msg_len msg_hdr in
    if (seq <=? read_seq) || (read_seq + 10 <? seq)
       || (bool_decide (is_Some item) && whole)
       || ((read_seq =? 0) && (hm_type msg_hdr =? SSL3_MT_FINISHED))
    then skip_fragment msg_hdr 0 s
    else if negb whole then dtls1_reassemble_fragment msg_hdr s
    else if dtls1_max_handshake_message_len s <? frag_len msg_hdr then (Ok (Some 0), s)
    else match dtls1_hm_fragment_new (frag_len msg_hdr) false with
         | None => (Ok (Some 0), s)
         | Some f =>
             let frag := mkFRAG msg_hdr (fragment f) (reassembly f) in
             if frag_len msg_hdr =? 0 then insert_fragment seq frag 0 s
             else match ssl_read_bytes (frag_len msg_hdr) s with
                  | (None, s) => (Ok (Some 0), s)
                  | (Some (_, bs), s) =>
                      match store_fragment frag 0 bs with
                      | None => (Fault, s)
                      | Some frag =>
                          if negb (Z.of_nat (length bs) =? frag_len msg_hdr) then (Ok (Some 0), s)
                          else insert_fragment seq frag 0 s
                      end
                  end
         end.

(** ** The next message *)

(** The pointer [p] into [init_buf] is taken before the buffer may grow.  A block
    that moves gets larger, so the block [p] points into is known by its size;
    an access through [p] after [init_buf] has moved faults. *)
Definition init_block (s : SSL) : option Z := option_map buf_max (init_buf s).

Definition store_p (p : option Z) (off : Z) (bs : list Z) (s : SSL) : option SSL :=
  if bool_decide (init_block s = p) then store_init off bs s else None.

Inductive reassembled : Type :=
| Message (len : Z)
| NoMessage (errtype : Z).

(** [f_err]. *)
Definition f_err : ST SSL (option reassembled) := fun s => (Ok (Some (NoMessage 0)), set_init_num 0 s).

Definition change_cipher_spec (readbytes : Z) : ST SSL (option reassembled) := fun s =>
  if negb (bool_decide (init_byte 0 s = Some SSL3_MT_CCS))
  then (SSLfatal SSL3_AD_UNEXPECTED_MESSAGE ;;; f_err) s
  else
    let len := wrap64 (readbytes - 1) in
    (Ok (Some (Message len)),
     upd_tmp (fun t => set_message_size len (set_message_type SSL3_MT_CHANGE_CIPHER_SPEC t))
       (set_init_msg 1 (set_init_num len s))).

(** The body of a message that comes in one piece is read into [init_buf]. *)
Definition read_whole (p : option Z) (msg_hdr : hm_header) (chretran : bool) : ST SSL (option reassembled) := fun s =>
  match dtls1_preprocess_fragment msg_hdr s with
  | (Fault, s) => (Fault, s)
  | (Fail, s) => f_err s
  | (Ok _, s) =>
      let got (readbytes : Z) : ST SSL (option reassembled) := fun s =>
        if negb (readbytes =? frag_len msg_hdr)
        then (SSLfatal SSL_AD_ILLEGAL_PARAMETER ;;; f_err) s
        else (Ok (Some (Message (frag_len msg_hdr))),
              set_init_num (frag_len msg_hdr) (if chretran then upd_d1 reset_seqs s else s)) in
      if 0 <? frag_len msg_hdr then
        match ssl_read_bytes (frag_len msg_hdr) s with
        | (None, s) => (Ok (Some (NoMessage 0)), set_rwstate SSL_READING s)
        | (Some (_, bs), s) =>
            match store_p p (DTLS1_HM_HEADER_LENGTH + frag_off msg_hdr) bs s with
            | None => (Fault, s)
            | Some s => got (Z.of_nat (length bs)) s
            end
        end
      else got 0 s
  end.

Definition is_hello_request (s : SSL) : bool :=
  negb (server s) && (frag_off (r_msg_hdr (d1_of s)) =? 0)
  && negb (bool_decide (hand s = TLS_ST_OK))
  && bool_decide (init_byte 0 s = Some SSL3_MT_HELLO_REQUEST).

Definition some_errtype (r : option Z) : option reassembled := option_map NoMessage r.

(** What a fragment header read into [init_buf] leads to; [redo] reads the next
    one. *)
Definition process_header (redo : ST SSL (option reassembled)) (p : option Z) (msg_hdr : hm_header)
  : ST SSL (option reassembled) := fun s =>
  if record_left (env (rest s)) <? frag_len msg_hdr
  then (SSLfatal SSL_AD_ILLEGAL_PARAMETER ;;; f_err) s
  else
    let in_seq := hm_seq msg_hdr =? handshake_read_seq (d1_of s) in
    let chretran := negb in_seq && hello_again (hm_seq msg_hdr) s
                    && bool_decide (init_byte 0 s = Some SSL3_MT_CLIENT_HELLO) in
    if negb in_seq && negb chretran
    then (r <~ dtls1_process_out_of_seq_message msg_hdr ;; st_ret (some_errtype r)) s
    else if negb (frag_len msg_hdr =? 0) && (frag_len msg_hdr <? msg_len msg_hdr)
    then (r <~ dtls1_reassemble_fragment msg_hdr ;; st_ret (some_errtype r)) s
    else if is_hello_request s then
      if bool_decide (init_byte 1 s = Some 0) && bool_decide (init_byte 2 s = Some 0)
         && bool_decide (init_byte 3 s = Some 0)
      then match init_data 0 DTLS1_HM_HEADER_LENGTH s with
           | None => (Fault, s)
           | Some m => redo (set_init_num 0 (callback m s))
           end
      else (SSLfatal SSL3_AD_UNEXPECTED_MESSAGE ;;; f_err) s
    else read_whole p msg_hdr chretran s.

Definition init_header (s : SSL) : option hm_header :=
  match init_data 0 DTLS1_HM_HEADER_LENGTH s with
  | Some d => dtls1_get_message_header d
  | None => None
  end.

(** From the label [redo]; the fuel bounds the HelloRequests skipped. *)
Fixpoint reassembled_loop (fuel : nat) (p : option Z) : ST SSL (option reassembled) := fun s =>
  match dtls1_retrieve_buffered_fragment s with
  | (Fault, s) => (Fault, s)
  | (Fail, s) => (Ok (Some (NoMessage 0)), s)
  | (Ok (Some frag_len), s) => (Ok (Some (Message frag_len)), set_init_num frag_len s)
  | (Ok None, s) =>
      match ssl_read_bytes DTLS1_HM_HEADER_LENGTH s with
      | (None, s) => (Ok (Some (NoMessage 0)), set_rwstate SSL_READING s)
      | (Some (recvd_type, bs), s) =>
          match store_p p 0 bs s with
          | None => (Fault, s)
          | Some s =>
              let readbytes := Z.of_nat (length bs) in
              if recvd_type =? SSL3_RT_CHANGE_CIPHER_SPEC then change_cipher_spec readbytes s
              else if negb (readbytes =? DTLS1_HM_HEADER_LENGTH)
              then (SSLfatal SSL3_AD_UNEXPECTED_MESSAGE ;;; f_err) s
              else match init_header s with
                   | None => (Fault, s)
                   | Some msg_hdr =>
                       process_header (match fuel with
                                       | O => st_ret None
                                       | S n => reassembled_loop n p
                                       end) p msg_hdr s
                   end
          end
      end
  end.

Definition dtls_get_reassembled_message (fuel : nat) : ST SSL (option reassembled) := fun s =>
  reassembled_loop fuel (init_block s) s.

(** The header of the message in one piece, as the transcript has it. *)
Definition rebuilt_header (h : hm_header) : list Z :=
  [hm_type h] ++ be_bytes 3 (msg_len h) ++ be_bytes 2 (hm_seq h) ++ be_bytes 3 0 ++ be_bytes 3 (msg_len h).

Definition finish_message : ST SSL (option Z) := fun s =>
  let mt := message_type (tmp_of s) in
  if mt =? SSL3_MT_CHANGE_CIPHER_SPEC then
    match init_data 0 1 s with
    | None => (Fault, s)
    | Some m => (Ok (Some mt), callback m s)
    end
  else match store_init 0 (rebuilt_header (r_msg_hdr (d1_of s))) s with
       | None => (Fault, s)
       | Some s =>
           (Ok (Some mt),
            set_init_msg DTLS1_HM_HEADER_LENGTH
              (upd_d1 (fun d => set_read_seq ((handshake_read_seq d + 1) `mod` 2 ^ 16)
                                  (set_r_msg_hdr no_header d)) s))
       end.

(** From the label [again]: [Fail] for [0], [Ok None] when the fuel ran out. *)
Fixpoint get_message_loop (fuel : nat) : ST SSL (option Z) :=
  match fuel with
  | O => st_ret None
  | S n =>
      r <~ dtls_get_reassembled_message n ;;
      match r with
      | None => st_ret None
      | Some (NoMessage errtype) =>
          if (errtype =? DTLS1_HM_BAD_FRAGMENT) || (errtype =? DTLS1_HM_FRAGMENT_RETRY)
          then get_message_loop n else st_fail
      | Some (Message _) => finish_message
      end
  end.

Definition dtls_get_message (fuel : nat) : ST SSL (option Z) :=
  st_put (upd_d1 (set_r_msg_hdr no_header)) ;;; get_message_loop fuel.

Definition dtls_get_message_body : ST SSL Z := fun s =>
  if message_type (tmp_of s) =? SSL3_MT_CHANGE_CIPHER_SPEC then (Ok (init_num s), s)
  else
  (first <~ st_lift (fun s => match init_byte 0 s with Some c => Ok c | None => Fault end) ;;
   (if first =? SSL3_MT_FINISHED then ssl3_take_mac else st_ret tt) ;;;
   m <~ st_lift (fun s => match (if version s =? DTLS1_BAD_VER
                                 then init_data DTLS1_HM_HEADER_LENGTH (init_num s) s
                                 else init_data 0 (init_num s + DTLS1_HM_HEADER_LENGTH) s) with
                          | Some m => Ok m | None => Fault end) ;;
   ssl3_finish_mac m ;;;
   m <~ st_lift (fun s => match init_data 0 (init_num s + DTLS1_HM_HEADER_LENGTH) s with
                          | Some m => Ok m | None => Fault end) ;;
   st_put (callback m) ;;;
   st_get (fun s => init_num s)) s.
End Ops.
End DtlsFrag.
