(* ===== verification/DtlsFragBits.v ===== *)
(** * The bytes received of a message

    The bitmask of ssl/statem/statem_dtls.c says exactly which bytes of a
    message have been received, and is complete exactly when all have. *)

From stdpp Require Import prelude.
From Stdlib Require Import ZArith Lia ZifyBool.
From S2P Require Import Prelude DtlsFrag.

Local Open Scope Z_scope.

Module FragBits.
Import DtlsFrag.

(** Bit [i] of a bitmask. *)
Definition bit (bm : list Z) (i : Z) : bool :=
  match mem_get bm (i / 8) with Some x => Z.testbit x (i mod 8) | None => false end.

Lemma shiftr3 i : Z.shiftr i 3 = i / 8.
Proof. by rewrite Z.shiftr_div_pow2 by lia. Qed.

Lemma land7 i : Z.land i 7 = i mod 8.
Proof. change 7 with (Z.ones 3). by rewrite Z.land_ones by lia. Qed.

Lemma mem_get_Some (m : list Z) i : 0 <= i < Z.of_nat (length m) -> is_Some (mem_get m i).
Proof. intros Hi. unfold mem_get. rewrite (proj2 (Z.ltb_ge _ _)) by lia. apply lookup_lt_is_Some. lia. Qed.

(** A write of one byte. *)
Lemma mem_write_1 (m : list Z) i x : 0 <= i < Z.of_nat (length m) ->
  mem_write m i [x] = Some (<[Z.to_nat i := x]> m).
Proof.
  intros Hi. rewrite mem_write_Some by (simpl; lia). f_equal. simpl length.
  rewrite insert_take_drop by lia. f_equal. simpl. by rewrite Nat.add_1_r.
Qed.

Lemma mem_get_insert (m : list Z) i j x : 0 <= i < Z.of_nat (length m) -> 0 <= j ->
  mem_get (<[Z.to_nat i := x]> m) j = if j =? i then Some x else mem_get m j.
Proof.
  intros Hi Hj. unfold mem_get. rewrite (proj2 (Z.ltb_ge _ _)) by lia. destruct (j =? i) eqn:E; zbool.
  - subst. apply list_lookup_insert_eq. lia.
  - apply list_lookup_insert_ne. lia.
Qed.

Lemma is_byte_lor x y : is_byte x -> is_byte y -> is_byte (Z.lor x y).
Proof.
  unfold is_byte. intros Hx Hy. split; [apply Z.lor_nonneg; lia|].
  destruct (Z.eq_dec (Z.lor x y) 0) as [->|Hn]; [lia|].
  assert (0 < Z.lor x y) by (pose proof (proj2 (Z.lor_nonneg x y)); lia).
  assert (Z.log2 (Z.lor x y) < 8); [|by apply (Z.log2_lt_pow2 _ 8)].
  rewrite Z.log2_lor by lia. apply Z.max_lub_lt;
    [destruct (decide (x = 0)) as [->|]|destruct (decide (y = 0)) as [->|]]; simpl; try lia; apply Z.log2_lt_pow2; lia.
Qed.

(** What an operation on a bitmask guarantees: [f] says which bits are added. *)
Definition marks (bm : list Z) (f : Z -> bool) (r : option (list Z)) : Prop :=
  exists bm', r = Some bm' /\ length bm' = length bm /\ Forall is_byte bm'
    /\ forall j, 0 <= j -> bit bm' j = bit bm j || f j.

Lemma or_at_marks bm i v : Forall is_byte bm -> is_byte v -> 0 <= i < Z.of_nat (length bm) ->
  marks bm (fun j => (j / 8 =? i) && Z.testbit v (j mod 8)) (or_at bm i v).
Proof.
  intros Hb Hv Hi. unfold or_at. destruct (mem_get_Some bm i Hi) as [x Ex]. rewrite Ex.
  rewrite mem_write_1 by done. assert (is_byte x).
  { unfold mem_get in Ex. case_match; [done|]. by eapply Forall_lookup_1. }
  eexists. split; [done|]. split; [apply length_insert|].
  split; [apply Forall_insert; [done|by apply is_byte_lor]|].
  intros j Hj. unfold bit. rewrite mem_get_insert by (done || (apply Z.div_pos; lia)).
  destruct (j / 8 =? i) eqn:E; zbool; [|by rewrite orb_false_r]. rewrite E, Ex. apply Z.lor_spec.
Qed.

Lemma byte_marks bm i : Forall is_byte bm -> 0 <= i < Z.of_nat (length bm) ->
  marks bm (fun j => j / 8 =? i) (mem_write bm i [0xff]).
Proof.
  intros Hb Hi. rewrite mem_write_1 by done. eexists. split; [done|]. split; [apply length_insert|].
  split; [apply Forall_insert; [done|unfold is_byte; lia]|]. intros j Hj. unfold bit.
  rewrite mem_get_insert by (done || (apply Z.div_pos; lia)).
  destruct (j / 8 =? i) eqn:E; zbool; [|by rewrite orb_false_r]. rewrite orb_true_r.
  pose proof (Z.mod_pos_bound j 8 ltac:(lia)). change 0xff with (Z.ones 8). apply Z.ones_spec_low. lia.
Qed.

Lemma marks_ext bm f g r : marks bm f r -> (forall j, 0 <= j -> f j = g j) -> marks bm g r.
Proof. intros (bm' & E & L & B & H) Hfg. exists bm'. split_and!; try done. intros j Hj. by rewrite H, Hfg. Qed.

Lemma marks_none bm : Forall is_byte bm -> marks bm (fun _ => false) (Some bm).
Proof. intros Hb. exists bm. split_and!; try done. intros. by rewrite orb_false_r. Qed.

(** Sequencing. *)
Lemma marks_then bm f g r (k : list Z -> option (list Z)) : marks bm f r ->
  (forall bm', length bm' = length bm -> Forall is_byte bm' -> marks bm' g (k bm')) ->
  marks bm (fun j => f j || g j) (match r with Some b => k b | None => None end).
Proof.
  intros (bm1 & -> & L1 & B1 & H1) Hk. destruct (Hk bm1 L1 B1) as (bm2 & -> & L2 & B2 & H2).
  exists bm2. split_and!; try done; [congruence|]. intros j Hj. by rewrite H2, H1, orb_assoc.
Qed.

(** A mark of bit [ii] alone. *)
Lemma bit_index j i : 0 <= j -> 0 <= i ->
  (j / 8 =? i / 8) && Z.testbit (Z.shiftl 1 (i mod 8)) (j mod 8) = (j =? i).
Proof.
  intros Hj Hi. pose proof (Z.mod_pos_bound j 8 ltac:(lia)). pose proof (Z.mod_pos_bound i 8 ltac:(lia)).
  rewrite Z.shiftl_spec by lia. pose proof (Z.div_mod j 8 ltac:(lia)). pose proof (Z.div_mod i 8 ltac:(lia)).
  destruct (decide (j = i)) as [->|Hn].
  - rewrite !Z.eqb_refl, Z.sub_diag. done.
  - rewrite (proj2 (Z.eqb_neq j i)) by done. destruct (j / 8 =? i / 8) eqn:E; zbool; [|done]. simpl.
    destruct (decide (j mod 8 < i mod 8)); [apply Z.testbit_neg_r; lia|].
    change 1 with (Z.ones 1). apply Z.ones_spec_high. lia.
Qed.

Lemma bit_byte k : 0 <= k < 8 -> is_byte (Z.shiftl 1 k).
Proof.
  intros Hk. rewrite Z.shiftl_1_l. pose proof (Z.pow_lt_mono_r 2 k 8 ltac:(lia) ltac:(lia) ltac:(lia)).
  pose proof (Z.pow_pos_nonneg 2 k ltac:(lia) ltac:(lia)).
  unfold is_byte. lia.
Qed.

Lemma mark_bits_marks n : forall bm ii, Forall is_byte bm -> 0 <= ii ->
  ii + Z.of_nat n <= 8 * Z.of_nat (length bm) ->
  marks bm (fun j => (ii <=? j) && (j <? ii + Z.of_nat n)) (mark_bits n ii bm).
Proof.
  induction n as [|n IH]; intros bm ii Hb Hi Hn.
  - simpl. eapply marks_ext; [by apply marks_none|]. intros j Hj. cbv beta. lia.
  - simpl mark_bits. rewrite shiftr3, land7. eapply marks_ext.
    + eapply marks_then.
      * apply or_at_marks; [done|apply bit_byte, Z.mod_pos_bound; lia|].
        split; [apply Z.div_pos; lia|]. apply Z.div_lt_upper_bound; lia.
      * intros bm' L B. apply IH; [done|lia|rewrite L; lia].
    + intros j Hj. cbv beta. rewrite bit_index by done. lia.
Qed.

Lemma mark_bytes_marks n : forall bm ii, Forall is_byte bm -> 0 <= ii -> ii + Z.of_nat n <= Z.of_nat (length bm) ->
  marks bm (fun j => (ii <=? j / 8) && (j / 8 <? ii + Z.of_nat n)) (mark_bytes n ii bm).
Proof.
  induction n as [|n IH]; intros bm ii Hb Hi Hn.
  - simpl. eapply marks_ext; [by apply marks_none|]. intros j Hj. cbv beta. lia.
  - simpl mark_bytes. eapply marks_ext.
    + eapply marks_then; [apply byte_marks; [done|lia]|]. intros bm' L B. apply IH; [done|lia|rewrite L; lia].
    + intros j Hj. cbv beta. lia.
Qed.

(** The tables. *)
Lemma below8 k : 0 <= k < 8 -> In k [0; 1; 2; 3; 4; 5; 6; 7].
Proof. simpl. lia. Qed.

Lemma start_values k : 0 <= k < 8 -> exists v, mem_get bitmask_start_values k = Some v /\ is_byte v
  /\ forall b, 0 <= b < 8 -> Z.testbit v b = (k <=? b).
Proof.
  intros Hk%below8. repeat destruct Hk as [<-|Hk]; try done; (eexists; split; [reflexivity|]);
    (split; [by unfold is_byte|]); intros b Hb%below8; repeat destruct Hb as [<-|Hb]; done.
Qed.

(** The last byte has [1] to [8] bits. *)
Definition last_bits (n : Z) : Z := if n mod 8 =? 0 then 8 else n mod 8.

Lemma end_values n : exists v, mem_get bitmask_end_values (n mod 8) = Some v /\ is_byte v
  /\ forall b, 0 <= b < 8 -> Z.testbit v b = (b <? last_bits n).
Proof.
  unfold last_bits. pose proof (Z.mod_pos_bound n 8 ltac:(lia)) as Hk. set (k := n mod 8) in *. clearbody k. apply below8 in Hk.
  repeat destruct Hk as [<-|Hk]; try done; (eexists; split; [reflexivity|]);
    (split; [by unfold is_byte|]); intros b Hb%below8; repeat destruct Hb as [<-|Hb]; done.
Qed.

Lemma last_bits_spec n : (n - 1) / 8 * 8 + last_bits n = n /\ 1 <= last_bits n <= 8.
Proof.
  unfold last_bits. pose proof (Z.div_mod n 8 ltac:(lia)). pose proof (Z.mod_pos_bound n 8 ltac:(lia)).
  destruct (n mod 8 =? 0) eqn:E; zbool.
  - replace ((n - 1) / 8) with (n / 8 - 1); [lia|]. apply (Z.div_unique _ 8 _ 7); lia.
  - replace ((n - 1) / 8) with (n / 8); [lia|]. apply (Z.div_unique _ 8 _ (n mod 8 - 1)); lia.
Qed.

(** Marking [start, end): exactly those bits are added, inside the bitmask. *)
Lemma MARK_marks bm start end_ : Forall is_byte bm -> 0 <= start <= end_ -> end_ <= 8 * Z.of_nat (length bm) ->
  marks bm (fun j => (start <=? j) && (j <? end_)) (RSMBLY_BITMASK_MARK bm start end_).
Proof.
  intros Hb Hs He. unfold RSMBLY_BITMASK_MARK. destruct (end_ - start <=? 8) eqn:E; zbool.
  { eapply marks_ext; [apply mark_bits_marks; (done || lia)|]. intros j Hj. cbv beta. lia. }
  rewrite !shiftr3, !land7.
  destruct (start_values (start mod 8)) as (v & -> & Bv & Hv); [apply Z.mod_pos_bound; lia|].
  destruct (end_values end_) as (w & -> & Bw & Hw). destruct (last_bits_spec end_) as [El Hl].
  pose proof (Z.div_mod start 8 ltac:(lia)) as Es. pose proof (Z.mod_pos_bound start 8 ltac:(lia)) as Hm.
  eapply marks_ext.
  - apply marks_then; [apply or_at_marks; [done|done|lia]|]. intros bm1 L1 B1.
    apply marks_then; [apply mark_bytes_marks; [done|lia|lia]|]. intros bm2 L2 B2.
    apply or_at_marks; [done|done|lia].
  - intros j Hj. cbv beta. pose proof (Z.div_mod j 8 ltac:(lia)). pose proof (Z.mod_pos_bound j 8 ltac:(lia)).
    rewrite Hv, Hw by lia. rewrite Z2Nat.id by lia. lia.
Qed.

(** ** Completeness *)

Lemma byte_bits x y : is_byte x -> is_byte y -> (forall b, 0 <= b < 8 -> Z.testbit x b = Z.testbit y b) -> x = y.
Proof.
  intros Hx Hy H. apply Z.bits_inj'. intros b Hb. destruct (decide (b < 8)); [apply H; lia|].
  assert (Hh : forall z, is_byte z -> Z.testbit z b = false); [|by rewrite !Hh].
  intros z Hz. unfold is_byte in Hz. destruct (decide (z = 0)) as [->|]; [apply Z.testbit_0_l|].
  apply Z.bits_above_log2; [lia|]. pose proof (Z.log2_lt_pow2 z 8). lia.
Qed.

Lemma bit_at bm i b x : 0 <= b < 8 -> mem_get bm i = Some x -> bit bm (8 * i + b) = Z.testbit x b.
Proof.
  intros Hb Hx. unfold bit. replace ((8 * i + b) / 8) with i by (apply (Z.div_unique _ 8 _ b); lia).
  rewrite Hx. f_equal. symmetry. apply (Z.mod_unique _ 8 i); lia.
Qed.

Lemma full_below_spec bm n : Forall is_byte bm -> (n <= length bm)%nat ->
  exists r, full_below bm n = Some r /\ (r = true <-> forall i, 0 <= i < 8 * Z.of_nat n -> bit bm i = true).
Proof.
  intros Hb. induction n as [|n IH]; intros Hn.
  { exists true. split; [done|]. split; [intros _ i; lia|done]. }
  simpl. destruct (mem_get_Some bm (Z.of_nat n)) as [x Ex]; [lia|]. rewrite Ex.
  assert (is_byte x) as Bx.
  { unfold mem_get in Ex. case_match; [done|]. by eapply Forall_lookup_1. }
  destruct (IH ltac:(lia)) as (r & Er & Hr). destruct (x =? 255) eqn:E; zbool.
  - exists r. split; [done|]. rewrite Hr. split; intros H i Hi; [|apply H; lia].
    destruct (decide (i < 8 * Z.of_nat n)); [apply H; lia|].
    replace i with (8 * Z.of_nat n + (i - 8 * Z.of_nat n)) by lia. erewrite bit_at; [|lia|done].
    subst x. change 255 with (Z.ones 8). apply Z.ones_spec_low. lia.
  - exists false. split; [done|]. split; [done|]. intros H. exfalso. apply E. apply byte_bits; [done|by unfold is_byte|].
    intros b Hb'. rewrite <- (bit_at bm (Z.of_nat n) b x) by done. rewrite H by lia.
    change 255 with (Z.ones 8). symmetry. apply Z.ones_spec_low. lia.
Qed.

(** The bitmask of a message of [len] bytes. *)
Definition bitmask_wf (bm : list Z) (len : Z) : Prop :=
  0 < len /\ Z.of_nat (length bm) = RSMBLY_BITMASK_SIZE len /\ Forall is_byte bm
  /\ forall i, len <= i -> bit bm i = false.

Lemma bitmask_size len : 0 < len -> RSMBLY_BITMASK_SIZE len = (len - 1) / 8 + 1.
Proof.
  intros Hl. unfold RSMBLY_BITMASK_SIZE. replace (len + 7) with (len - 1 + 1 * 8) by lia.
  by rewrite Z.div_add by lia.
Qed.

(** The test is exact. *)
Lemma IS_COMPLETE_spec bm len : bitmask_wf bm len ->
  exists r, RSMBLY_BITMASK_IS_COMPLETE bm len = Some r
    /\ (r = true <-> forall i, 0 <= i < len -> bit bm i = true).
Proof.
  intros (Hl & Hsz & Hb & Hz). unfold RSMBLY_BITMASK_IS_COMPLETE. rewrite shiftr3, land7.
  rewrite bitmask_size in Hsz by done. set (k := (len - 1) / 8) in *.
  assert (0 <= k) by (apply Z.div_pos; lia). destruct (last_bits_spec len) as [El Hlb]. fold k in El.
  destruct (mem_get_Some bm k) as [x Ex]; [lia|]. rewrite Ex. destruct (end_values len) as (v & -> & Bv & Hv).
  assert (is_byte x) as Bx.
  { unfold mem_get in Ex. case_match; [done|]. by eapply Forall_lookup_1. }
  destruct (full_below_spec bm (Z.to_nat k) Hb) as (r & Er & Hr); [lia|]. rewrite Z2Nat.id in Hr by lia.
  destruct (x =? v) eqn:E; zbool.
  - exists r. split; [done|]. rewrite Hr. split; intros H' i Hi; [|apply H'; lia].
    destruct (decide (i < 8 * k)); [apply H'; lia|].
    replace i with (8 * k + (i - 8 * k)) by lia. erewrite bit_at; [|lia|done]. subst x. rewrite Hv; lia.
  - exists false. split; [done|]. split; [done|]. intros H'. exfalso. apply E. apply byte_bits; try done.
    intros b Hb'. rewrite Hv by done. rewrite <- (bit_at bm k b x) by done.
    destruct (b <? last_bits len) eqn:Eb; zbool; [apply H'; lia|apply Hz; lia].
Qed.

Lemma bit_zero n i : bit (replicate n 0) i = false.
Proof.
  unfold bit, mem_get. case_match eqn:E; [|done]. case_match; [done|].
  apply lookup_replicate in E as [-> _]. apply Z.testbit_0_l.
Qed.
End FragBits.
