(* ===== verification/DtlsFragQueue.v ===== *)
(** * The queue of fragments

    What the operations of ssl/statem/statem_dtls.c on [buffered_messages] do to
    the messages collected there, over any record layer that delivers records
    whole and in pieces as asked. *)

From stdpp Require Import prelude list sorting gmap.
From Stdlib Require Import ZArith Lia ZifyBool.
From S2P Require Import Prelude Packet Buffer PQueue RecordTypes StatemTypes StatemLib Quic Framing DtlsFrag DtlsFragBits.

Local Open Scope Z_scope.
Local Open Scope st_scope.

Module FragQueue.
Import Quic Framing DtlsFrag FragBits.

(** ** Fragments *)

(** Which bytes of the message have been received; an empty message counts as
    one byte. *)
Definition received (f : hm_fragment) (i : Z) : bool :=
  match reassembly f with
  | None => (0 <=? i) && (i <? Z.max 1 (msg_len (msg_header f)))
  | Some bm => bit bm i
  end.

Definition byte_at (f : hm_fragment) (i : Z) : option Z :=
  match fragment f with Some d => mem_get d i | None => None end.

Record frag_wf (f : hm_fragment) : Prop := {
  fw_off : frag_off (msg_header f) = 0;
  fw_len : frag_len (msg_header f) = msg_len (msg_header f);
  fw_data : match fragment f with
            | None => msg_len (msg_header f) = 0
            | Some d => Z.of_nat (length d) = msg_len (msg_header f) /\ Forall is_byte d
                        /\ 0 < msg_len (msg_header f)
            end;
  fw_bits : match reassembly f with
            | None => True
            | Some bm => bitmask_wf bm (msg_len (msg_header f))
                         /\ ~ forall i, 0 <= i < msg_len (msg_header f) -> bit bm i = true
            end
}.

Lemma frag_wf_len f : frag_wf f -> 0 <= msg_len (msg_header f).
Proof. intros [_ _ H _]. destruct (fragment f); lia. Qed.

Lemma received_beyond f i : frag_wf f -> Z.max 1 (msg_len (msg_header f)) <= i -> received f i = false.
Proof.
  intros [_ _ _ Hb] Hi. unfold received. destruct (reassembly f) as [bm|]; [|lia].
  destruct Hb as [(_ & _ & _ & Hz) _]. apply Hz. lia.
Qed.

(** A fragment of which every byte was received is not waiting for more. *)
Lemma received_all f : frag_wf f ->
  (forall i, 0 <= i < msg_len (msg_header f) -> received f i = true) -> reassembly f = None.
Proof.
  intros [_ _ _ Hb] Hr. unfold received in Hr. destruct (reassembly f) as [bm|]; [|done]. by destruct Hb.
Qed.

(** Headers as they are parsed. *)
Record hdr_ok (h : hm_header) : Prop := {
  ho_type : is_byte (hm_type h);
  ho_len : 0 <= msg_len h < 2 ^ 24;
  ho_seq : 0 <= hm_seq h < 2 ^ 16;
  ho_off : 0 <= frag_off h < 2 ^ 24;
  ho_flen : 0 <= frag_len h < 2 ^ 24
}.

Definition in_frag (h : hm_header) (i : Z) : bool :=
  (frag_off h <=? i) && (i <? frag_off h + frag_len h).

(** Storing and marking the bytes [bs] of a fragment of [f]. *)
Lemma mark_spec f bm h bs : frag_wf f -> reassembly f = Some bm -> msg_len (msg_header f) = msg_len h ->
  0 <= frag_off h -> 0 < frag_len h -> frag_off h + frag_len h <= msg_len h ->
  Z.of_nat (length bs) = frag_len h -> Forall is_byte bs ->
  exists f1 f2, store_fragment f (frag_off h) bs = Some f1 /\ mark_fragment f1 bm h = Some f2
    /\ frag_wf f2 /\ msg_header f2 = msg_header f
    /\ (forall i, 0 <= i -> received f2 i = received f i || in_frag h i)
    /\ forall i, 0 <= i -> byte_at f2 i = if in_frag h i then mem_get bs (i - frag_off h) else byte_at f i.
Proof.
  intros [Ho Hl Hd Hb] Ebm Em Hoff Hn Hle Hbs Bbs. rewrite Ebm in Hb. destruct Hb as [Hbw Hnot].
  unfold store_fragment. destruct (fragment f) as [data|] eqn:Ed; [|lia]. destruct Hd as (Hdl & Bd & Hpos).
  rewrite mem_write_Some by lia. set (data' := _ ++ _ ++ _).
  assert (Hl' : length data' = length data).
  { unfold data'. rewrite !length_app, length_take, length_drop. lia. }
  eexists _. unfold mark_fragment. cbn [msg_header fragment].
  rewrite Em in Hbw. pose proof Hbw as (_ & Hsz & Bbm & Hz). rewrite bitmask_size in Hsz by lia.
  pose proof (Z.div_mod (msg_len h - 1) 8 ltac:(lia)). pose proof (Z.mod_pos_bound (msg_len h - 1) 8 ltac:(lia)).
  destruct (MARK_marks bm (frag_off h) (frag_off h + frag_len h)) as (bm' & -> & Lb & Bb & Hbit);
    [done|lia|lia|].
  assert (Hbw' : bitmask_wf bm' (msg_len h)).
  { split; [lia|]. split; [rewrite Lb, bitmask_size; lia|]. split; [done|]. intros i Hi.
    rewrite Hbit by lia. rewrite Hz by lia. lia. }
  destruct (IS_COMPLETE_spec _ _ Hbw') as (r & -> & Hr). eexists. split; [done|]. split; [done|].
  assert (Hrec : forall i, 0 <= i -> bit bm' i = received f i || in_frag h i).
  { intros i Hi. unfold received. rewrite Ebm, Hbit by done. done. }
  split_and!; [split; cbn [msg_header fragment reassembly]| | |]; try done.
  - rewrite Hl'. split; [done|]. split; [|done]. unfold data'. rewrite !Forall_app.
    auto using Forall_take, Forall_drop.
  - destruct r; [done|]. rewrite Em. split; [done|]. intros Hall. by apply Hr in Hall.
  - intros i Hi. unfold received at 1. cbn [reassembly msg_header]. rewrite <- Hrec by done. destruct r; [|done].
    rewrite Em. destruct (decide (i < msg_len h)); [|destruct Hbw' as (_ & _ & _ & Hz'); rewrite Hz'; lia].
    rewrite (proj1 Hr) by (done || lia). lia.
  - intros i Hi. unfold byte_at. rewrite Ed. cbn [fragment]. unfold mem_get, data', in_frag.
    rewrite (proj2 (Z.ltb_ge i 0)) by lia.
    destruct (decide (i < frag_off h)).
    { rewrite (proj2 (Z.leb_gt _ _)) by lia. simpl. rewrite lookup_app_l by (rewrite length_take; lia).
      apply lookup_take_lt. lia. }
    rewrite (proj2 (Z.leb_le _ _)) by lia. simpl.
    rewrite lookup_app_r, length_take by (rewrite length_take; lia).
    destruct (i <? frag_off h + frag_len h) eqn:E; zbool.
    + rewrite lookup_app_l by lia. rewrite (proj2 (Z.ltb_ge _ 0)) by lia. f_equal. lia.
    + rewrite lookup_app_r, lookup_drop by lia. f_equal. lia.
Qed.

(** ** The queue *)

Lemma seq64be_ok q : 0 <= q < 2 ^ 16 -> prio_ok (seq64be q) /\ be_val (seq64be q) = q.
Proof.
  intros Hq. unfold seq64be. change 255 with (Z.ones 8). rewrite !Z.land_ones, Z.shiftr_div_pow2 by lia.
  pose proof (Z.div_mod q 256 ltac:(lia)). pose proof (Z.mod_pos_bound q 256 ltac:(lia)).
  assert (0 <= q / 256 < 256) by (split; [apply Z.div_pos; lia|apply Z.div_lt_upper_bound; lia]).
  change (2 ^ 8) with 256. rewrite (Z.mod_small (q / 256)) by lia. split.
  - split; [done|]. repeat constructor; unfold is_byte; lia.
  - unfold be_val, be_step. cbn [fold_left]. lia.
Qed.

Definition item_ok (k : Z) (it : pitem hm_fragment) : Prop :=
  priority it = seq64be k /\ item_seq it = k /\ 0 <= k < 2 ^ 16 /\ is_byte (hm_type (msg_header (pdata it)))
  /\ msg_len (msg_header (pdata it)) < 2 ^ 24 /\ frag_wf (pdata it).

(** Every item is filed under the sequence number of its message. *)
Definition queue_ok (pq : pqueue hm_fragment) : Prop :=
  pq_wf pq /\ map_Forall item_ok (pq_map pq).

Definition entry (pq : pqueue hm_fragment) (q : Z) : option hm_fragment := pdata <$> pq_map pq !! q.

Definition recv (pq : pqueue hm_fragment) (q i : Z) : bool :=
  match entry pq q with Some f => received f i | None => false end.

Lemma item_update_find pq q f it : pq_wf pq -> 0 <= q < 2 ^ 16 -> pq_map pq !! q = Some it -> priority it = seq64be q ->
  pq_wf (item_update pq (seq64be q) f)
  /\ pq_map (item_update pq (seq64be q) f) = <[q := mkPITEM (seq64be q) f]> (pq_map pq)
  /\ forall k, Forall (fun x => k < prio x) pq -> Forall (fun x => k < prio x) (item_update pq (seq64be q) f).
Proof.
  intros [Hok Hs] Hq. destruct (seq64be_ok q Hq) as [Hp Hv].
  induction pq as [|x pq IH]; [done|]. intros Hl Hit. simpl item_update.
  apply Forall_cons in Hok as [Hx Hok]. apply StronglySorted_inv in Hs as [Hs Hall].
  destruct (cmp_prio _ _ Hx Hp) as (_ & H0 & _). rewrite Hv in H0. fold (prio x) in H0.
  unfold pq_map in *. simpl in Hl |- *. destruct (memcmp (priority x) (seq64be q) =? 0) eqn:E; zbool.
  - apply H0 in E. rewrite E, lookup_insert_eq in Hl. injection Hl as ->.
    assert (Ex : priority it = seq64be q) by done. simpl.
    split; [split; constructor; try done|]. split.
    + unfold prio. simpl. rewrite Hit, Hv. by rewrite insert_insert_eq.
    + intros k [Hk Hks]%Forall_cons. by constructor.
  - rewrite lookup_insert_ne in Hl by tauto. destruct (IH Hok Hs Hl Hit) as ([Hok2 Hs2] & Hm & Hk).
    split; [split; constructor; try done; by apply Hk|]. split.
    + simpl. rewrite Hm. apply insert_insert_ne. tauto.
    + intros k [Hkx Hks]%Forall_cons. constructor; [done|]. by apply Hk.
Qed.

Lemma queue_update pq q f f0 : queue_ok pq -> entry pq q = Some f0 -> frag_wf f -> msg_header f = msg_header f0 ->
  queue_ok (item_update pq (seq64be q) f)
  /\ pq_map (item_update pq (seq64be q) f) = <[q := mkPITEM (seq64be q) f]> (pq_map pq).
Proof.
  intros [Hw Hq] He Hf Hh. unfold entry in He. apply fmap_Some in He as (it & Hit & ->).
  pose proof (Hq _ _ Hit) as (Hp & Hsq & Hr & Ht & Hl & _).
  destruct (item_update_find pq q f it) as (Hw' & Hm & _); try done. split; [|done]. split; [done|].
  rewrite Hm. apply map_Forall_insert_2; [|done]. unfold item_ok, item_seq in *. simpl. by rewrite Hh.
Qed.

Lemma queue_insert pq q f : queue_ok pq -> pq_map pq !! q = None -> 0 <= q < 2 ^ 16 -> hm_seq (msg_header f) = q ->
  is_byte (hm_type (msg_header f)) -> msg_len (msg_header f) < 2 ^ 24 -> frag_wf f ->
  exists pq', pqueue_insert pq (mkPITEM (seq64be q) f) = Some pq' /\ queue_ok pq'
    /\ pq_map pq' = <[q := mkPITEM (seq64be q) f]> (pq_map pq).
Proof.
  intros [Hw Hq] Hn Hr Hs Ht Hl Hf. destruct (seq64be_ok q Hr) as [Hp Hv].
  pose proof (pq_insert_spec pq (mkPITEM (seq64be q) f) Hw Hp) as Hi. unfold prio in Hi. simpl in Hi. rewrite Hv in Hi.
  destruct (pqueue_insert _ _) as [pq'|]; [|rewrite Hn in Hi; by destruct Hi].
  destruct Hi as (Hw' & _ & Hm & _). exists pq'. split; [done|]. split; [|done]. split; [done|].
  rewrite Hm. apply map_Forall_insert_2; [|done]. by unfold item_ok, item_seq.
Qed.

Lemma find_entry pq q : queue_ok pq -> 0 <= q < 2 ^ 16 -> pqueue_find pq (seq64be q) = pq_map pq !! q.
Proof. intros [Hw _] Hq. destruct (seq64be_ok q Hq) as [Hp Hv]. by rewrite pq_find_lookup, Hv. Qed.

(** ** The record layer *)

(** The rest of a record that is being read comes before the other records. *)
Definition unread (t : Z) (d : list Z) (rs : list (Z * list Z)) : list (Z * list Z) :=
  match d with [] => rs | _ => (t, d) :: rs end.

Section Source.
Context {R : Type} `{Callees (DTLS R)} `{L : Libc} {LO : LibcOk L}.
Local Abbreviation SSL := (SSL (DTLS R)).

(** The records to come, with what is left of the current one first. *)
Context (records : R -> list (Z * list Z)) (record_left : R -> Z).

(** What reading changes: the environment and [rwstate]. *)
Record moment : Type := mkMOMENT { at_env : R; at_rw : Z }.
Definition now (s : SSL) : moment := mkMOMENT (env (rest s)) (rwstate s).

(** The connection with queue [pq] at the moment [r]. *)
Definition put (pq : pqueue hm_fragment) (r : moment) (s : SSL) : SSL :=
  set_rwstate (at_rw r) (set_rest (mkDTLS (set_buffered pq (d1_of s)) (at_env r)) s).
Definition set_env (r : R) (s : SSL) : SSL := set_rest (mkDTLS (d1_of s) r) s.
Definition set_now (r : moment) (s : SSL) : SSL := set_rwstate (at_rw r) (set_env (at_env r) s).

(** What a record layer may depend on and reading messages leaves alone; [fr] is
    its value during a call.  [usable] is what the record layer needs of its own
    state. *)
Definition frame (s : SSL) : OSSL_STATEM * Z * Z * DTLS1_TIMER :=
  (statem s, StatemTypes.change_cipher_spec (s3 s), shutdown s, timer (writing (d1_of s))).
Context (fr : OSSL_STATEM * Z * Z * DTLS1_TIMER) (usable : R -> Prop).

Definition recs (s : SSL) : list (Z * list Z) := records (env (rest s)).
Definition queue (s : SSL) : pqueue hm_fragment := buffered_messages (d1_of s).

(** The rest [d] of a record is being read. *)
Definition at_record (t : Z) (d : list Z) (rs : list (Z * list Z)) (r : moment) : Prop :=
  records (at_env r) = unread t d rs /\ record_left (at_env r) = Z.of_nat (length d) /\ usable (at_env r).

(** A record layer that delivers records one after the other: at most as many
    bytes as asked for, from one record.  In the middle of a record it delivers;
    otherwise it may have nothing.  It changes only its own state and [rwstate]. *)
Class RecordSource (read : Z -> SSL -> option (Z * list Z) * SSL) : Prop := {
  rs_some len s t bs s' : 0 < len -> frame s = fr -> usable (env (rest s)) -> read len s = (Some (t, bs), s') ->
    exists d rs r, recs s = (t, d) :: rs /\ bs = take (Z.to_nat len) d /\ s' = set_now r s
      /\ at_record t (drop (Z.to_nat len) d) rs r;
  rs_none len s s' : 0 < len -> frame s = fr -> usable (env (rest s)) -> read len s = (None, s') ->
    exists r, s' = set_now r s /\ records (at_env r) = recs s /\ record_left (env (rest s)) = 0
      /\ record_left (at_env r) = 0 /\ usable (at_env r)
}.

Context (read : Z -> SSL -> option (Z * list Z) * SSL) `{!RecordSource read}.

Lemma set_env_same s : set_env (env (rest s)) s = s.
Proof. unfold set_env, d1_of. destruct (rest s) as [d e] eqn:E. simpl. rewrite <- E. by destruct s. Qed.
Lemma set_now_same s : set_now (now s) s = s.
Proof. unfold set_now. simpl. rewrite set_env_same. by destruct s. Qed.

(** Reading within a record. *)
Lemma read_within t d rs n s : at_record t d rs (now s) -> frame s = fr -> 0 < n <= Z.of_nat (length d) ->
  exists r, read n s = (Some (t, take (Z.to_nat n) d), set_now r s)
    /\ at_record t (drop (Z.to_nat n) d) rs r.
Proof.
  intros (Hr & Hl & Hu) Hfr Hn. destruct (read n s) as [[[t' bs]|] s'] eqn:E.
  - apply rs_some in E as (d' & rs' & r & Er & -> & -> & Hat); [|lia|done..]. unfold recs in Er. simpl in Hr.
    rewrite Hr in Er. destruct d as [|x d]; [simpl in Hn; lia|]. injection Er as <- <- <-. by exists r.
  - apply rs_none in E as (r & _ & _ & E & _); [|lia|done..]. simpl in Hl. lia.
Qed.

Lemma skip_within t rs fuel : forall d n s, at_record t d rs (now s) -> frame s = fr -> 0 <= n <= Z.of_nat (length d) ->
  n < 2 ^ 24 -> n <= Z.of_nat fuel ->
  exists r, skip_body read fuel n s = (Ok (Some true), set_now r s) /\ at_record t (drop (Z.to_nat n) d) rs r.
Proof.
  induction fuel as [|fuel IH]; intros d n s Hat Hfr Hn Hb Hf; simpl.
  - replace n with 0 by lia. exists (now s). by rewrite set_now_same, drop_0.
  - destruct (n =? 0) eqn:E0; zbool; [exists (now s); subst; by rewrite set_now_same, drop_0|].
    destruct (read_within t d rs (Z.min n 256) s Hat Hfr ltac:(lia)) as (r & -> & Hat').
    destruct (IH (drop (Z.to_nat (Z.min n 256)) d) (n - Z.min n 256) (set_now r s)) as (r' & E & Hat2);
      try done; try lia; [rewrite length_drop; lia|]. rewrite length_take.
    replace (Z.of_nat _) with (Z.min n 256) by lia. rewrite wrap64_small by (unfold SIZE_MAX; lia). rewrite E.
    exists r'. split; [done|]. rewrite drop_drop in Hat2. by replace (Z.to_nat n) with (Z.to_nat (Z.min n 256) + Z.to_nat (n - Z.min n 256))%nat by lia.
Qed.

(** ** Collecting a fragment *)

Lemma put_same s : put (queue s) (now s) s = s.
Proof.
  unfold put, queue, d1_of. destruct (rest s) as [[? ? ? ?] e] eqn:E. unfold set_buffered. simpl.
  rewrite E. simpl. rewrite <- E. by destruct s.
Qed.

Lemma put_env r s : set_now r s = put (queue s) r s.
Proof. unfold put, set_now, set_env, queue. by destruct (d1_of s). Qed.

Definition alloc_failed : Prop := exists n, 0 < n /\ (malloc n = None \/ OPENSSL_secure_malloc n = None).

(** The units of the message a fragment has; an empty one counts as one. *)
Definition covers (h : hm_header) (i : Z) : bool :=
  (frag_off h <=? i) && (i <? frag_off h + Z.max 1 (frag_len h)).

(** The bytes [bs] of the fragment are in the queue. *)
Definition added (pq pq' : pqueue hm_fragment) (h : hm_header) (bs : list Z) : Prop :=
  exists f, pq_map pq' = <[hm_seq h := mkPITEM (seq64be (hm_seq h)) f]> (pq_map pq)
    /\ msg_len (msg_header f) = msg_len h
    /\ hm_type (msg_header f)
       = match entry pq (hm_seq h) with Some f0 => hm_type (msg_header f0) | None => hm_type h end
    /\ (forall i, 0 <= i -> received f i = recv pq (hm_seq h) i || covers h i)
    /\ forall i, 0 <= i -> received f i = true ->
         (exists f0, entry pq (hm_seq h) = Some f0 /\ received f0 i = true /\ byte_at f i = byte_at f0 i)
         \/ (covers h i = true /\ byte_at f i = mem_get bs (i - frag_off h)).

Definition refused (s : SSL) (h : hm_header) : Prop :=
  msg_len h < frag_off h + frag_len h \/ dtls1_max_handshake_message_len s < msg_len h
  \/ (exists f, entry (queue s) (hm_seq h) = Some f /\ msg_len (msg_header f) <> msg_len h)
  \/ alloc_failed.

Lemma zalloc_none n : 0 < n -> CRYPTO_zalloc n = None -> alloc_failed.
Proof.
  unfold CRYPTO_zalloc, CRYPTO_malloc. intros Hn. rewrite (proj2 (Z.eqb_neq _ _)) by lia.
  destruct (malloc n) eqn:E; [done|]. intros _. exists n. auto.
Qed.

Lemma fragment_new_spec len re : 0 <= len -> (re = true -> 0 < len) ->
  match dtls1_hm_fragment_new len re with
  | None => alloc_failed
  | Some f => match fragment f with
              | None => len = 0
              | Some d => Z.of_nat (length d) = len /\ Forall is_byte d /\ 0 < len
              end
              /\ reassembly f = if re then Some (replicate (Z.to_nat (RSMBLY_BITMASK_SIZE len)) 0) else None
  end.
Proof.
  intros Hl Hre. unfold dtls1_hm_fragment_new.
  destruct (CRYPTO_zalloc sizeof_hm_fragment) eqn:E0; [|by apply (zalloc_none sizeof_hm_fragment)].
  assert (Hbuf : match (if len =? 0 then Some None
             else match CRYPTO_malloc len with Some b => Some (Some b) | None => None end) with
           | None => alloc_failed
           | Some None => len = 0
           | Some (Some d) => Z.of_nat (length d) = len /\ Forall is_byte d /\ 0 < len
           end).
  { unfold CRYPTO_malloc. destruct (len =? 0) eqn:E; zbool; [done|].
    destruct (malloc len) eqn:Em; [|exists len; split; [lia|by left]].
    apply malloc_size in Em; [|lia]. split; [tauto|]. split; [tauto|lia]. }
  destruct (if len =? 0 then _ else _) as [buf|]; [|done]. destruct re; [|done].
  assert (0 < RSMBLY_BITMASK_SIZE len).
  { specialize (Hre eq_refl). rewrite bitmask_size by done. pose proof (Z.div_pos (len - 1) 8). lia. }
  destruct (CRYPTO_zalloc (RSMBLY_BITMASK_SIZE len)) as [bm|] eqn:Eb; [|by apply zalloc_none in Eb].
  split; [done|]. simpl. do 2 f_equal. unfold CRYPTO_zalloc, CRYPTO_malloc in Eb. rewrite (proj2 (Z.eqb_neq _ _)) in Eb by lia.
  destruct (malloc _) eqn:Em; [|done]. injection Eb as <-. apply malloc_size in Em; [|lia].
  f_equal. lia.
Qed.

(** The entry of the queue, or a new one without any byte. *)
Lemma find_fragment_spec s h : queue_ok (queue s) -> hdr_ok h -> 0 < msg_len h ->
  match find_fragment (pqueue_find (queue s) (seq64be (hm_seq h))) h with
  | None => refused s h
  | Some f => frag_wf f /\ msg_len (msg_header f) = msg_len h /\ hm_seq (msg_header f) = hm_seq h
      /\ hm_type (msg_header f)
         = match entry (queue s) (hm_seq h) with Some f0 => hm_type (msg_header f0) | None => hm_type h end
      /\ (forall i, 0 <= i -> received f i = recv (queue s) (hm_seq h) i)
      /\ (forall f0, entry (queue s) (hm_seq h) = Some f0 -> f = f0)
  end.
Proof.
  intros Hq Hh Hpos. rewrite find_entry by apply Hq || apply Hh. unfold find_fragment, recv, refused, entry.
  destruct (pq_map (queue s) !! hm_seq h) as [it|] eqn:Eit; simpl.
  - pose proof (proj2 Hq _ _ Eit) as (_ & Hsq & _ & _ & _ & Hf).
    destruct (_ =? _) eqn:E; zbool; [|right; right; left; by exists (pdata it)].
    split_and!; try done. by intros f0 [= ->].
  - pose proof (fragment_new_spec (msg_len h) true) as Hnew.
    destruct (dtls1_hm_fragment_new _ true) as [f|]; [|right; right; right; apply Hnew; lia].
    destruct Hnew as [Hd Hr]; [lia|lia|].
    assert (Hz : bitmask_wf (replicate (Z.to_nat (RSMBLY_BITMASK_SIZE (msg_len h))) 0) (msg_len h)).
    { split; [done|]. split; [rewrite length_replicate, Z2Nat.id; [done|]|].
      - rewrite bitmask_size by done. pose proof (Z.div_pos (msg_len h - 1) 8). lia.
      - split; [apply Forall_replicate; by unfold is_byte|]. intros. apply bit_zero. }
    split_and!; try done.
    + split; simpl; try done. rewrite Hr. split; [done|]. intros Hall. specialize (Hall 0). rewrite bit_zero in Hall.
      discriminate Hall. lia.
    + intros i Hi. unfold received. simpl. rewrite Hr. apply bit_zero.
Qed.

Lemma insert_fragment_spec s h f err : queue_ok (queue s) -> hdr_ok h -> pq_map (queue s) !! hm_seq h = None ->
  hm_seq (msg_header f) = hm_seq h -> hm_type (msg_header f) = hm_type h -> msg_len (msg_header f) = msg_len h ->
  frag_wf f ->
  (alloc_failed /\ insert_fragment (hm_seq h) f err s = (Ok (Some err), s))
  \/ exists pq, insert_fragment (hm_seq h) f err s = (Ok (Some DTLS1_HM_FRAGMENT_RETRY), put pq (now s) s)
       /\ queue_ok pq /\ pq_map pq = <[hm_seq h := mkPITEM (seq64be (hm_seq h)) f]> (pq_map (queue s)).
Proof.
  intros Hq [Ht Hl Hs _ _] Hn Es Et El Hf. unfold insert_fragment, pitem_new, CRYPTO_malloc.
  rewrite (proj2 (Z.eqb_neq _ _)) by done. destruct (malloc sizeof_pitem) eqn:Em; [|left; split; [exists sizeof_pitem; split; [done|by left]|done]].
  right. destruct (queue_insert (queue s) (hm_seq h) f) as (pq & E & Hq' & Hm); try done; [by rewrite Et|lia|].
  unfold queue in E. rewrite E. by exists pq.
Qed.

(** A fragment of [h] found in the queue and complete, or one whose bytes are
    marked, makes [added]. *)
Lemma added_complete pq h f bs : queue_ok pq -> entry pq (hm_seq h) = Some f ->
  reassembly f = None -> msg_len (msg_header f) = msg_len h -> 0 <= frag_off h -> 0 < frag_len h ->
  frag_off h + frag_len h <= msg_len h -> added pq pq h bs.
Proof.
  intros Hq He Hr Hm Ho Hf Hle. unfold added. pose proof He as (it & Hit & ->)%fmap_Some.
  exists (pdata it). destruct (proj2 Hq _ _ Hit) as (Hp & _ & _ & _ & _ & Hw). split_and!.
  - rewrite insert_id; [done|]. rewrite Hit, <- Hp. by destruct it.
  - done.
  - by rewrite He.
  - intros i Hi. unfold recv, covers. rewrite He. unfold received. rewrite Hr. lia.
  - intros i Hi Hrec. left. by exists (pdata it).
Qed.

Lemma added_marked pq pq' h f f' bs : 0 < frag_len h ->
  pq_map pq' = <[hm_seq h := mkPITEM (seq64be (hm_seq h)) f']> (pq_map pq) ->
  msg_header f' = msg_header f -> msg_len (msg_header f) = msg_len h ->
  hm_type (msg_header f) = match entry pq (hm_seq h) with Some f0 => hm_type (msg_header f0) | None => hm_type h end ->
  (forall i, 0 <= i -> received f i = recv pq (hm_seq h) i) ->
  (forall f0, entry pq (hm_seq h) = Some f0 -> f = f0) ->
  (forall i, 0 <= i -> received f' i = received f i || in_frag h i) ->
  (forall i, 0 <= i -> byte_at f' i = if in_frag h i then mem_get bs (i - frag_off h) else byte_at f i) ->
  added pq pq' h bs.
Proof.
  intros Hpos Hm Hh Hl Ht Hr He Hr' Hb. exists f'. rewrite Hh.
  assert (Hc : forall i, covers h i = in_frag h i) by (intros i; unfold covers, in_frag; lia).
  split_and!; try done.
  - intros i Hi. by rewrite Hr', Hr, Hc.
  - intros i Hi Hrec. rewrite Hb, Hc by done. destruct (in_frag h i) eqn:E; [by right|]. left.
    rewrite Hr', E, orb_false_r, Hr in Hrec by done. unfold recv in Hrec.
    destruct (entry pq (hm_seq h)) as [f0|] eqn:E0; [|done]. exists f0. by rewrite (He f0 eq_refl).
Qed.

(** The outcome of an operation on a fragment: its body is consumed and its
    bytes are collected, or the fragment is refused ([err]). *)
Definition collected (s : SSL) (t : Z) (d : list Z) (rs : list (Z * list Z)) (h : hm_header) (err : Z)
    (why : Prop) (keep : pqueue hm_fragment -> Prop) (res : ret (option Z) * SSL) : Prop :=
  exists c pq r k, res = (Ok (Some c), put pq r s) /\ queue_ok pq /\ at_record t (drop k d) rs r
    /\ (k <= Z.to_nat (frag_len h))%nat
    /\ ((c = err /\ why)
        \/ (c = DTLS1_HM_FRAGMENT_RETRY /\ k = Z.to_nat (frag_len h) /\ keep pq)).

Lemma collected_mono s t d rs h err why (keep keep' : pqueue hm_fragment -> Prop) res :
  collected s t d rs h err why keep res -> (forall pq, keep pq -> keep' pq) ->
  collected s t d rs h err why keep' res.
Proof.
  intros (c & pq & r & k & E & Hq & Hat & Hk & Hc) Hm. exists c, pq, r, k. split_and!; try done.
  destruct Hc as [Hc|(-> & Hc & Hp)]; [by left|right]. auto.
Qed.

Lemma skip_fragment_spec s t d rs h err why (keep : pqueue hm_fragment -> Prop) : queue_ok (queue s) -> hdr_ok h ->
  at_record t d rs (now s) -> frame s = fr -> frag_len h <= Z.of_nat (length d) -> keep (queue s) ->
  collected s t d rs h err why keep (skip_fragment read h err s).
Proof.
  intros Hq [_ _ _ _ Hf] Hat Hfr Hl Hk. unfold skip_fragment.
  destruct (skip_within t rs (Z.to_nat (frag_len h)) d (frag_len h) s) as (r & E & Hat'); try done; try lia.
  rewrite (st_bind_ok _ _ _ _ _ E). exists DTLS1_HM_FRAGMENT_RETRY, (queue s), r, (Z.to_nat (frag_len h)).
  unfold st_ret. rewrite put_env. split_and!; try done. by right.
Qed.

(** The fragment goes to its place in the message. *)
Lemma reassemble_spec s t d rs h : queue_ok (queue s) -> hdr_ok h -> at_record t d rs (now s) -> frame s = fr ->
  frag_len h <= Z.of_nat (length d) -> Forall is_byte d ->
  collected s t d rs h (-1) (refused s h)
    (fun pq => (frag_len h = 0 /\ pq = queue s) \/ added (queue s) pq h (take (Z.to_nat (frag_len h)) d))
    (dtls1_reassemble_fragment read h s).
Proof.
  intros Hq Hh Hat Hfr Hl Bd. pose proof Hh as [_ Hml _ Ho Hf]. unfold dtls1_reassemble_fragment. fold (queue s).
  assert (Hstay : forall c, (c = -1 /\ refused s h) \/ (c = DTLS1_HM_FRAGMENT_RETRY /\ frag_len h = 0) ->
    collected s t d rs h (-1) (refused s h)
      (fun pq => (frag_len h = 0 /\ pq = queue s) \/ added (queue s) pq h (take (Z.to_nat (frag_len h)) d))
      (Ok (Some c), s)).
  { intros c Hc. exists c, (queue s), (now s), O. rewrite put_same. split_and!; try done; [lia|].
    destruct Hc as [Hc|[-> Hz]]; [by left|right]. split_and!; [done|by rewrite Hz|by left]. }
  destruct (_ || _) eqn:E1; [apply Hstay; left; split; [done|]; unfold refused; lia|].
  destruct (frag_len h =? 0) eqn:E2; zbool; [by apply Hstay; right|].
  pose proof (find_fragment_spec s h Hq Hh ltac:(lia)) as Hfind.
  set (item := pqueue_find _ _) in *. destruct (find_fragment item h) as [f|]; [|by apply Hstay; left].
  destruct Hfind as (Hw & Hm & Hs & Ht & Hr & He). destruct (reassembly f) as [bm|] eqn:Ebm; last first.
  { apply skip_fragment_spec; try done. right. unfold recv, received in Hr. rewrite Ebm in Hr.
    destruct (entry (queue s) (hm_seq h)) as [f0|] eqn:E0.
    - rewrite <- (He f0 eq_refl) in E0. eapply added_complete; try done; lia.
    - specialize (Hr 0 ltac:(lia)). lia. }
  destruct (read_within t d rs (frag_len h) s Hat Hfr ltac:(lia)) as (r & -> & Hat').
  set (bs := take _ d) in *.
  assert (Hbs : Z.of_nat (length bs) = frag_len h) by (unfold bs; rewrite length_take; lia).
  destruct (mark_spec f bm h bs) as (f1 & f2 & -> & E4 & Hw2 & Hh2 & Hr2 & Hb2); try done; try lia.
  { by apply Forall_take. }
  rewrite Hbs, Z.eqb_refl, E4. cbn [negb].
  assert (Hadd : forall pq, pq_map pq = <[hm_seq h := mkPITEM (seq64be (hm_seq h)) f2]> (pq_map (queue s)) ->
            added (queue s) pq h bs) by (intros pq Hpq; by eapply added_marked; [lia|..]).
  unfold item in *. rewrite find_entry in * by apply Hq || apply Hh. clear item Hstay.
  destruct (pq_map (queue s) !! hm_seq h) as [it|] eqn:Eit.
  - destruct (queue_update (queue s) (hm_seq h) f2 (pdata it)) as [Hq2 Hm2]; [done|by unfold entry; rewrite Eit|done| |].
    { rewrite Hh2. f_equal. apply He. unfold entry. by rewrite Eit. }
    exists DTLS1_HM_FRAGMENT_RETRY, (item_update (queue s) (seq64be (hm_seq h)) f2), r, (Z.to_nat (frag_len h)).
    split_and!; try done. right. split_and!; try done. right. by apply Hadd.
  - destruct (insert_fragment_spec (set_now r s) h f2 (-1)) as [[Ha E]|(pq & E & Hq2 & Hm2)]; try done.
    + by rewrite Hh2.
    + rewrite Hh2, Ht. unfold entry. by rewrite Eit.
    + by rewrite Hh2.
    + cbn [put_fragment]. rewrite E. exists (-1), (queue s), r, (Z.to_nat (frag_len h)). rewrite put_env.
      split_and!; try done. left. split; [done|]. unfold refused. tauto.
    + cbn [put_fragment]. rewrite E. exists DTLS1_HM_FRAGMENT_RETRY, pq, r, (Z.to_nat (frag_len h)).
      split_and!; try done. right. split_and!; try done. right. by apply Hadd.
Qed.

(** ** A message out of turn *)

(** What is thrown away: messages handed on before or too far ahead, a message
    that is there already, a Finished before anything else. *)
Definition dropped (s : SSL) (h : hm_header) : Prop :=
  hm_seq h <= handshake_read_seq (d1_of s) \/ handshake_read_seq (d1_of s) + 10 < hm_seq h
  \/ (is_Some (entry (queue s) (hm_seq h)) /\ frag_len h = msg_len h)
  \/ (handshake_read_seq (d1_of s) = 0 /\ hm_type h = SSL3_MT_FINISHED).

Lemma whole_fragment h buf : hdr_ok h -> frag_len h = msg_len h -> frag_off h + frag_len h <= msg_len h ->
  match buf with
  | None => msg_len h = 0
  | Some d => Z.of_nat (length d) = msg_len h /\ Forall is_byte d /\ 0 < msg_len h
  end -> frag_wf (mkFRAG h buf None).
Proof. intros [_ _ _ Ho _] Hf Hle Hd. split; simpl; try done. lia. Qed.

Lemma added_whole pq pq' h buf bs : entry pq (hm_seq h) = None -> frag_len h = msg_len h -> frag_off h = 0 ->
  pq_map pq' = <[hm_seq h := mkPITEM (seq64be (hm_seq h)) (mkFRAG h buf None)]> (pq_map pq) ->
  (forall i, byte_at (mkFRAG h buf None) i = mem_get bs i) -> added pq pq' h bs.
Proof.
  intros He Hf Ho Hm Hb. eexists. split; [done|]. rewrite He. simpl. split_and!; try done; intros i Hi.
  - unfold received, recv, covers. rewrite He, Ho, Hf. simpl. lia.
  - unfold received, covers. simpl. rewrite Ho, Hf. intros Hr. right. rewrite Hb. split; [lia|]. f_equal. lia.
Qed.

Lemma insert_whole s s0 t d rs k h buf bs : queue_ok (queue s) -> hdr_ok h -> frag_len h = msg_len h ->
  frag_off h + frag_len h <= msg_len h -> entry (queue s) (hm_seq h) = None ->
  frag_wf (mkFRAG h buf None) -> (forall i, byte_at (mkFRAG h buf None) i = mem_get bs i) ->
  (exists r, s0 = put (queue s) r s /\ at_record t (drop k d) rs r) -> k = Z.to_nat (frag_len h) ->
  collected s t d rs h 0 (refused s h) (fun pq => added (queue s) pq h bs)
    (insert_fragment (hm_seq h) (mkFRAG h buf None) 0 s0).
Proof.
  intros Hq Hh Hf Hle He Hw Hb (r & -> & Hat) ->. pose proof (ho_off _ Hh).
  assert (Hn : pq_map (queue s) !! hm_seq h = None) by (unfold entry in He; by apply fmap_None in He).
  destruct (insert_fragment_spec (put (queue s) r s) h (mkFRAG h buf None) 0) as [[Ha E]|(pq & E & Hq2 & Hm2)];
    try done; rewrite E.
  - exists 0, (queue s), r, (Z.to_nat (frag_len h)). split_and!; try done. left. split; [done|]. unfold refused. tauto.
  - exists DTLS1_HM_FRAGMENT_RETRY, pq, r, (Z.to_nat (frag_len h)). split_and!; try done. right. split_and!; try done.
    eapply added_whole; try done. lia.
Qed.

Lemma out_of_seq_spec s t d rs h : queue_ok (queue s) -> hdr_ok h -> at_record t d rs (now s) -> frame s = fr ->
  frag_len h <= Z.of_nat (length d) -> Forall is_byte d ->
  exists err, (err = 0 \/ err = -1)
    /\ collected s t d rs h err (refused s h)
         (fun pq => ((frag_len h = 0 /\ frag_len h <> msg_len h \/ dropped s h) /\ pq = queue s)
                    \/ added (queue s) pq h (take (Z.to_nat (frag_len h)) d))
         (dtls1_process_out_of_seq_message read h s).
Proof.
  intros Hq Hh Hat Hfr Hl Bd. pose proof Hh as [_ Hml Hsq Ho Hf]. unfold dtls1_process_out_of_seq_message. fold (queue s).
  rewrite find_entry by done.
  set (keep := fun pq => _ \/ _).
  assert (Hstay : refused s h -> collected s t d rs h 0 (refused s h) keep (Ok (Some 0), s)).
  { intros Hr. exists 0, (queue s), (now s), O. rewrite put_same. split_and!; try done; [lia|by left]. }
  destruct (_ <? _) eqn:E1; zbool; [exists 0; split; [by left|]; apply Hstay; by left|].
  destruct (_ || _) eqn:E2.
  { exists 0. split; [by left|]. apply skip_fragment_spec; try done. left. split; [right|done].
    rewrite !orb_true_iff, !andb_true_iff, bool_decide_eq_true, Z.leb_le, Z.ltb_lt, !Z.eqb_eq in E2.
    unfold dropped, entry. rewrite fmap_is_Some. tauto. }
  assert (He : frag_len h = msg_len h -> entry (queue s) (hm_seq h) = None).
  { intros Hw. unfold entry. destruct (pq_map (queue s) !! hm_seq h) eqn:Ei; [|done].
    rewrite bool_decide_eq_true_2, Hw, Z.eqb_refl, !orb_false_iff in E2 by done. by destruct E2 as [[_ ?] _]. }
  clear E2. destruct (frag_len h =? msg_len h) eqn:Ew; cbn [negb]; zbool; last first.
  { exists (-1). split; [by right|]. eapply collected_mono; [by apply reassemble_spec|].
    intros pq [[Hz ->]|Ha]; [left|by right]. split; [left; lia|done]. }
  exists 0. split; [by left|]. specialize (He Ew). destruct (_ <? frag_len h) eqn:E3; zbool; [apply Hstay; right; left; lia|].
  pose proof (fragment_new_spec (frag_len h) false ltac:(lia) ltac:(done)) as Hnew.
  destruct (dtls1_hm_fragment_new _ false) as [f|]; [|apply Hstay; unfold refused; tauto].
  destruct Hnew as [Hd ->]. destruct (frag_len h =? 0) eqn:E0; zbool.
  - apply (collected_mono _ _ _ _ _ _ _ (fun pq => added (queue s) pq h (take (Z.to_nat (frag_len h)) d)));
      [|by right]. destruct (fragment f) as [b|] eqn:Ef; [lia|].
    eapply (insert_whole s s t d rs O); try done; try lia.
    + by apply whole_fragment; [..|lia].
    + rewrite E0. intros i. unfold byte_at, mem_get. simpl. by case_match.
    + exists (now s). by rewrite put_same.
  - destruct (fragment f) as [b|] eqn:Ef; [|lia]. destruct Hd as (Hlb & Bb & Hpos).
    destruct (read_within t d rs (frag_len h) s Hat Hfr ltac:(lia)) as (r & -> & Hat').
    set (bs := take _ d) in *.
    assert (Hbs : Z.of_nat (length bs) = frag_len h) by (unfold bs; rewrite length_take; lia).
    unfold store_fragment. simpl. rewrite mem_write_Some by lia. rewrite Hbs, Z.eqb_refl. cbn [negb].
    rewrite drop_ge, app_nil_r by lia. simpl.
    apply (collected_mono _ _ _ _ _ _ _ (fun pq => added (queue s) pq h bs)); [|by right]. eapply (insert_whole s _ t d rs (Z.to_nat (frag_len h))); try done; try lia.
    + apply whole_fragment; try done. split; [lia|]. split; [by apply Forall_take|lia].
    + exists r. by rewrite put_env.
Qed.
End Source.
End FragQueue.
