(* ===== verification/DtlsMessage.v ===== *)
(** * Messages from fragments

    [dtls_get_message] of ssl/statem/statem_dtls.c as a whole.  Against any peer
    it stays inside its memory and returns.  With a peer that sends fragments of
    its messages, in whatever order and however cut, the messages come out whole
    and in turn, and the next one comes out as soon as all of it has arrived. *)

From stdpp Require Import prelude list sorting gmap.
From Stdlib Require Import ZArith Lia ZifyBool.
From S2P Require Import Prelude Packet Buffer PQueue RecordTypes StatemTypes StatemLib Quic Framing.
From S2P Require Import DtlsFrag DtlsFragBits DtlsFragQueue.

Local Open Scope Z_scope.
Local Open Scope st_scope.

Module DtlsMessage.
Import Quic Framing DtlsFrag FragBits FragQueue.

Section Message.
Context {R : Type} `{Callees (DTLS R)} `{L : Libc} {LO : LibcOk L}.
Local Abbreviation SSL := (SSL (DTLS R)).

(** ** The buffer *)

(** The block the state machine allocates holds a record. *)
Definition buf_ok (b : BUF_MEM) : Prop := buf_wf b /\ SSL3_RT_MAX_PLAIN_LENGTH <= buf_max b.

Lemma buf_ok_data b : buf_ok b -> exists d, buf_data b = Some d /\ Z.of_nat (length d) = buf_max b /\ Forall is_byte d.
Proof.
  intros [[Hl Hd] Hm]. destruct (buf_data b) as [d|]; [by exists d|lia].
Qed.

Lemma grow_clean_spec b n : buf_ok b -> 0 < n <= 2 ^ 25 ->
  (exists b', BUF_MEM_grow_clean n b = (Ok n, b') /\ buf_ok b' /\ buf_length b' = n
     /\ (n <= buf_max b -> buf_max b' = buf_max b))
  \/ (BUF_MEM_grow_clean n b = (Ok 0, b) /\ alloc_failed).
Proof.
  intros [Hw Hm] Hn.
  assert (Hsame : n <= buf_max b -> exists b', BUF_MEM_grow_clean n b = (Ok n, b') /\ buf_ok b'
    /\ buf_length b' = n /\ (n <= buf_max b -> buf_max b' = buf_max b)).
  { intros Hle. assert (Hg : grown (BUF_MEM_grow_clean n) n b).
    { destruct (decide (n <= buf_length b)); [apply grow_clean_shrinks; (done || lia)|].
      apply grow_in_block; (done || lia). }
    destruct Hg as [(b' & E & Hw' & Hl' & _)|[_ ?]]; [|lia]. exists b'.
    assert (buf_max b' = buf_max b); [|unfold buf_ok; split_and!; try done; congruence].
    revert E. unfold BUF_MEM_grow_clean. rewrite (proj2 (Z.leb_le n (buf_max b))) by lia. repeat case_match; by intros [= <-]. }
  destruct (decide (n <= buf_max b)) as [Hle|Hgt]; [left; auto|].
  destruct (grow_new_block b n Hw ltac:(lia)) as [_ [(b' & E & Hw' & Hl' & _)|[E _]]].
  - left. exists b'. pose proof Hw' as [Hl _]. unfold buf_ok. split_and!; try done; lia.
  - right. split; [done|]. revert E. unfold BUF_MEM_grow_clean.
    rewrite (proj2 (Z.leb_gt n (buf_length b))), (proj2 (Z.leb_gt n (buf_max b))) by (destruct Hw; lia).
    rewrite (proj2 (Z.ltb_ge _ _)) by (unfold LIMIT_BEFORE_EXPANSION; lia).
    pose proof (expansion_bound n ltac:(lia)) as [Hx1 Hx2]. set (m := (n + 3) / 3 * 4) in *.
    intros E. exists m. split; [done|].
    assert (Hgi : forall d, Z.of_nat (length d) = m -> Forall is_byte d ->
              take (Z.to_nat (buf_length b)) d = contents b -> grow_install b n m (Ok (Some d)) <> (Ok 0, b)).
    { intros d H1 H2 H3. destruct (grow_install_spec b n m d) as (d' & -> & _); try done; [destruct Hw; lia|].
      intros [= ?]. lia. }
    destruct (has _ _).
    + destruct (sec_alloc_realloc_spec b m) as [E'|(d & E' & ? & ? & ?)]; try done; try lia; [|rewrite E' in E; by eapply Hgi in E].
      unfold sec_alloc_realloc in E'. destruct (OPENSSL_secure_malloc m); [|by right]. by repeat case_match.
    + destruct (CRYPTO_clear_realloc_spec b m) as [E'|(d & E' & ? & ? & ?)]; try done; try lia; [|rewrite E' in E; by eapply Hgi in E].
      unfold CRYPTO_clear_realloc, CRYPTO_malloc in E'. rewrite (proj2 (Z.eqb_neq m 0)) in E' by lia. left.
      rewrite (proj2 (Z.ltb_ge _ _)) in E' by lia. destruct (malloc m); [|done]. by repeat case_match.
Qed.

(** The message header is prepared and the buffer has room for the message. *)
Definition prepared (h : hm_header) (b : BUF_MEM) (s : SSL) : SSL :=
  upd_d1 (fun d => set_r_msg_hdr (mkHM (hm_type h) (msg_len h) (hm_seq h)
                     (frag_off (r_msg_hdr d)) (frag_len (r_msg_hdr d))) d)
    (upd_tmp (fun t => set_message_type (hm_type h) (set_message_size (msg_len h) t))
       (set_init_buf (Some b) s)).

(** A message is refused with a fatal alert. *)
Definition alerted (s : SSL) : Prop := exists al s0, s = ossl_statem_fatal al s0.

Lemma preprocess_spec h s b : init_buf s = Some b -> buf_ok b -> frag_off (r_msg_hdr (d1_of s)) = 0 ->
  0 <= msg_len h < 2 ^ 24 ->
  (exists b', dtls1_preprocess_fragment h s = (Ok tt, prepared h b' s) /\ buf_ok b'
     /\ buf_length b' = msg_len h + DTLS1_HM_HEADER_LENGTH
     /\ (msg_len h + DTLS1_HM_HEADER_LENGTH <= buf_max b -> buf_max b' = buf_max b)
     /\ frag_off h + frag_len h <= msg_len h)
  \/ (exists s', dtls1_preprocess_fragment h s = (Fail, s') /\ alerted s'
     /\ (msg_len h < frag_off h + frag_len h \/ dtls1_max_handshake_message_len s < msg_len h \/ alloc_failed)).
Proof.
  intros Eb Hb Ho Hl. unfold dtls1_preprocess_fragment. destruct (_ || _) eqn:E1.
  { right. eexists. split; [done|]. split; [by eexists _, _|]. lia. }
  rewrite Ho. unfold grow_init. rewrite Eb. cbn [Z.eqb].
  destruct (grow_clean_spec b (msg_len h + DTLS1_HM_HEADER_LENGTH) Hb ltac:(lia))
    as [(b' & -> & Hb' & Hl' & Hm)|[-> Ha]].
  - left. exists b'. rewrite (proj2 (Z.eqb_neq _ 0)) by lia. split; [done|]. split; [done|]. split; [done|].
    split; [done|lia].
  - right. eexists. split; [done|]. split; [by eexists _, _|]. auto.
Qed.

(** ** A message in the buffer *)

Record holds (h : hm_header) (body : list Z) (s : SSL) : Prop := {
  hd_hdr : exists fl, r_msg_hdr (d1_of s) = mkHM (hm_type h) (msg_len h) (hm_seq h) 0 fl;
  hd_type : message_type (tmp_of s) = hm_type h;
  hd_buf : exists b d, init_buf s = Some b /\ buf_ok b /\ buf_data b = Some d
             /\ buf_length b = msg_len h + DTLS1_HM_HEADER_LENGTH
             /\ Z.of_nat (length body) <= msg_len h
             /\ take (length body) (drop 12 d) = body
}.

Lemma holds_prepared h b s : frag_off (r_msg_hdr (d1_of s)) = 0 -> buf_ok b -> 0 <= msg_len h ->
  buf_length b = msg_len h + DTLS1_HM_HEADER_LENGTH -> holds h [] (prepared h b s).
Proof.
  intros Ho Hb Hl Hn. destruct (buf_ok_data b Hb) as (d & Ed & _). split.
  - eexists. unfold prepared, d1_of in *. simpl. by rewrite Ho.
  - done.
  - by exists b, d.
Qed.

Lemma holds_store h body s : holds h [] s -> Z.of_nat (length body) <= msg_len h -> Forall is_byte body ->
  exists b b', init_buf s = Some b /\ buf_max b' = buf_max b
    /\ store_init DTLS1_HM_HEADER_LENGTH body s = Some (set_init_buf (Some b') s)
    /\ holds h body (set_init_buf (Some b') s).
Proof.
  intros [Hh Ht (b & d & Eb & Hb & Ed & Hn & _)] Hlen Hby. pose proof Hb as [[Hl Hd] Hm]. rewrite Ed in Hd.
  destruct Hd as [Hd Bd]. exists b. unfold store_init, buf_store. rewrite Eb, Ed, mem_write_Some by lia.
  eexists. split; [done|]. split; [|split; [reflexivity|]]; [done|].
  assert (Ht12 : length (take (Z.to_nat 12) d) = 12%nat) by (rewrite length_take; lia).
  split; [done|done|]. eexists _, _. split; [reflexivity|]. split; [|split; [reflexivity|split; [done|split; [done|]]]].
  - split; [|done]. split; simpl; [done|]. split; [rewrite !length_app, Ht12, length_drop; lia|].
    rewrite !Forall_app. auto using Forall_take, Forall_drop.
  - change 12%nat with (Z.to_nat 12) at 1. rewrite drop_app_length' by lia. by rewrite take_app_length.
Qed.

(** The message as the state machine gets it. *)
Definition next_seq (q : Z) : Z := (q + 1) mod 2 ^ 16.

Record handed_on (h : hm_header) (body : list Z) (s s' : SSL) : Prop := {
  ho_data : init_data 0 (DTLS1_HM_HEADER_LENGTH + Z.of_nat (length body)) s' = Some (rebuilt_header h ++ body);
  ho_msg : init_msg s' = DTLS1_HM_HEADER_LENGTH;
  ho_num : init_num s' = init_num s;
  ho_mt : message_type (tmp_of s') = hm_type h;
  ho_d1 : d1_of s' = mkD1 (next_seq (handshake_read_seq (d1_of s))) (writing (d1_of s))
                       no_header (buffered_messages (d1_of s));
  ho_env : env (rest s') = env (rest s);
  ho_buf : exists b, init_buf s' = Some b /\ buf_ok b;
  ho_frame : frame s' = frame s
}.

Context (msg_callback : list Z -> R -> R).

Lemma finish_message_spec h body s : hdr_ok h -> holds h body s ->
  exists s', finish_message msg_callback s = (Ok (Some (hm_type h)), s') /\ handed_on h body s s'.
Proof.
  intros Hh [(fl & Eh) Ht (b & d & Eb & Hb & Ed & Hn & Hbl & Hbody)]. pose proof Hb as [[Hl Hd] Hm]. rewrite Ed in Hd.
  destruct Hd as [Hd Bd]. destruct Hh as [Tb Hml _ _ _]. unfold finish_message. rewrite Ht.
  rewrite (proj2 (Z.eqb_neq _ _)) by (unfold is_byte in Tb; lia). rewrite Eh.
  change (rebuilt_header _) with (rebuilt_header h). unfold store_init, buf_store. rewrite Eb, Ed.
  assert (Hrl : length (rebuilt_header h) = 12%nat) by done.
  assert (Bh : Forall is_byte (rebuilt_header h)).
  { unfold rebuilt_header. rewrite !Forall_app. split_and!; try apply be_bytes_is_byte. by constructor. }
  rewrite mem_write_Some by lia. rewrite Hrl. change (take (Z.to_nat 0) d ++ _) with (rebuilt_header h ++ drop 12 d).
  set (d' := rebuilt_header h ++ drop 12 d).
  assert (Hd' : length d' = length d) by (unfold d'; rewrite length_app, length_drop; lia).
  eexists. split; [done|]. split; try done.
  - unfold init_data. simpl. unfold mem_read. rewrite Hd', !(proj2 (Z.leb_le _ _)) by lia. cbn [andb].
    rewrite drop_0. f_equal. replace (Z.to_nat _) with (12 + length body)%nat by lia.
    unfold d'. rewrite <- Hrl at 1. by rewrite take_app_add, Hbody.
  - eexists. split; [reflexivity|]. split; [|done]. split; [done|]. cbn [buf_data buf_max]. split; [by rewrite Hd'|].
    unfold d'. rewrite Forall_app. auto using Forall_drop.
Qed.

(** ** Complete messages of the queue *)

Lemma queue_cons it pq : queue_ok (it :: pq) ->
  queue_ok pq /\ item_ok (item_seq it) it /\ pq_map (it :: pq) = <[item_seq it := it]> (pq_map pq)
  /\ forall q, q <= item_seq it -> pq_map pq !! q = None.
Proof.
  intros [[Hok Hs] Hq]. apply Forall_cons in Hok as [Hit Hok]. apply StronglySorted_inv in Hs as [Hs Hall].
  assert (Hm : pq_map (it :: pq) = <[prio it := it]> (pq_map pq)) by done.
  assert (Hi : item_ok (prio it) it) by (apply (Hq (prio it)); rewrite Hm; apply lookup_insert_eq).
  pose proof Hi as (_ & Es & _). rewrite Es. split; [split; [done|]|split; [done|split; [done|]]].
  - intros k x Hx. apply Hq. rewrite Hm. rewrite lookup_insert_ne; [done|].
    intros <-. rewrite pq_map_above in Hx; done.
  - intros q Hle. apply pq_map_above, (Forall_impl _ _ _ Hall). intros x Hx. lia.
Qed.

Lemma retrieve_loop_spec (s : SSL) pq : queue_ok pq ->
  let q := handshake_read_seq (d1_of s) in
  let '(pq', found) := retrieve_loop s pq in
  queue_ok pq' /\ (forall k, q <= k -> pq_map pq' !! k = pq_map pq !! k)
  /\ (forall k it, pq_map pq' !! k = Some it -> pq_map pq !! k = Some it)
  /\ match found with
     | None => pq' = []
     | Some (it, chretran) => exists tl, pq' = it :: tl
         /\ if chretran : bool then hello_again (item_seq it) s = true /\ pq_map pq' !! q = None
            else q <= item_seq it
     end.
Proof.
  intros Hq. simpl. induction pq as [|it pq IH]; [done|]. simpl.
  destruct (queue_cons _ _ Hq) as (Hq' & Hi & Hm & Hab).
  destruct (item_seq it <? _) eqn:E; zbool; last first.
  { split_and!; try done. by exists pq. }
  destruct (hello_again (item_seq it) s) eqn:Eh; cbn [negb].
  - destruct pq as [|nx pq]; [|destruct (item_seq nx =? _) eqn:En; zbool].
    + split_and!; try done. exists []. split_and!; try done. rewrite Hm. by rewrite lookup_insert_ne by lia.
    + split_and!; try done.
      * intros k Hk. rewrite Hm, lookup_insert_ne by lia. done.
      * intros k x Hx. rewrite Hm, lookup_insert_ne; [done|]. intros <-. rewrite Hab in Hx by lia. done.
      * exists pq. split; [done|lia].
    + split_and!; try done. eexists. split; [done|]. split; [done|]. rewrite Hm, lookup_insert_ne by lia.
      destruct (queue_cons _ _ Hq') as (_ & Hin & -> & Hab2). rewrite lookup_insert_ne by lia. apply Hab2.
      destruct (decide (item_seq nx < handshake_read_seq (d1_of s))) as [Hlt|]; [|lia]. exfalso.
      unfold hello_again in Eh. zbool. destruct Hin as (_ & _ & Hr & _).
      specialize (Hab (item_seq nx)). destruct (queue_cons _ _ Hq') as (_ & _ & Hm2 & _).
      rewrite Hm2, lookup_insert_eq in Hab. discriminate Hab. lia.
  - specialize (IH Hq'). destruct (retrieve_loop s pq) as [pq' found].
    destruct IH as (H1 & H2 & H3 & H4). split_and!; try done.
    + intros k Hk. rewrite H2, Hm, lookup_insert_ne by lia. done.
    + intros k x Hx. apply H3 in Hx. rewrite Hm, lookup_insert_ne; [done|]. intros <-. rewrite Hab in Hx by lia. done.
Qed.

Context (records : R -> list (Z * list Z)) (record_left : R -> Z).
Context (fr : OSSL_STATEM * Z * Z * DTLS1_TIMER) (usable : R -> Prop).

Definition rec_ok (x : Z * list Z) : Prop :=
  Z.of_nat (length (snd x)) <= SSL3_RT_MAX_PLAIN_LENGTH /\ Forall is_byte (snd x).

(** What the calls rely on and leave behind. *)
Record state_ok (s : SSL) : Prop := {
  so_buf : exists b, init_buf s = Some b /\ buf_ok b;
  so_queue : queue_ok (queue s);
  so_seq : 0 <= handshake_read_seq (d1_of s) < 2 ^ 16;
  so_hdr : frag_off (r_msg_hdr (d1_of s)) = 0;
  so_recs : Forall rec_ok (recs records s);
  so_frame : frame s = fr;
  so_usable : usable (env (rest s))
}.

(** The message [h] with [body] is in the buffer, and it is its turn. *)
Record took (s : SSL) (h : hm_header) (body : list Z) (pq : pqueue hm_fragment) (r : moment) (s' : SSL) : Prop := {
  tk_holds : holds h body s';
  tk_seq : handshake_read_seq (d1_of s') = hm_seq h;
  tk_turn : hm_seq h = handshake_read_seq (d1_of s) \/ hello_again (hm_seq h) s = true;
  tk_queue : queue s' = pq;
  tk_env : now s' = r;
  tk_frame : frame s' = frame s
}.

Definition body_of (f : hm_fragment) : list Z := default [] (fragment f).

Lemma copy_fragment_spec f s : frag_wf f -> reassembly f = None -> holds (msg_header f) [] s ->
  exists b, copy_fragment f s = Some (set_init_buf (Some b) s)
    /\ holds (msg_header f) (body_of f) (set_init_buf (Some b) s).
Proof.
  intros [Ho Hl Hd _] Hr Hh. unfold copy_fragment, body_of. rewrite Hl, Ho. destruct (fragment f) as [d|]; simpl.
  - destruct Hd as (Hd & Bd & Hp). rewrite (proj2 (Z.leb_gt _ _)) by lia. rewrite mem_read_prefix by lia.
    rewrite take_ge by lia. destruct (holds_store _ d s Hh) as (b & b' & _ & _ & E & Hh'); [lia|done|].
    exists b'. by rewrite Z.add_0_r, E.
  - rewrite (proj2 (Z.leb_le _ _)) by lia. destruct (hd_buf _ _ _ Hh) as (b & _ & Eb & _).
    exists b. assert (Es : set_init_buf (Some b) s = s) by (rewrite <- Eb; by destruct s). by rewrite Es.
Qed.

Lemma hello_again_seq q (s : SSL) : hello_again q s = true -> q = 0.
Proof. unfold hello_again. intros Hh. by zbool. Qed.

Lemma retrieve_spec s : state_ok s ->
  let q := handshake_read_seq (d1_of s) in
  (exists pq, dtls1_retrieve_buffered_fragment s = (Ok None, put pq (now s) s) /\ queue_ok pq
     /\ (forall k, q <= k -> pq_map pq !! k = pq_map (queue s) !! k)
     /\ (forall k it, pq_map pq !! k = Some it -> pq_map (queue s) !! k = Some it)
     /\ (forall f, entry pq q = Some f -> reassembly f <> None))
  \/ (exists f pq s', dtls1_retrieve_buffered_fragment s = (Ok (Some (msg_len (msg_header f))), s')
     /\ entry (queue s) (hm_seq (msg_header f)) = Some f /\ reassembly f = None
     /\ took s (msg_header f) (body_of f) pq (now s) s' /\ queue_ok pq
     /\ (forall k it, pq_map pq !! k = Some it -> pq_map (queue s) !! k = Some it))
  \/ (exists f s', dtls1_retrieve_buffered_fragment s = (Fail, set_init_num 0 s') /\ alerted s'
     /\ entry (queue s) (hm_seq (msg_header f)) = Some f
     /\ (dtls1_max_handshake_message_len s < msg_len (msg_header f) \/ alloc_failed)).
Proof.
  intros [(b & Eb & Hb) Hq Hs Hh _]. simpl. unfold dtls1_retrieve_buffered_fragment. fold (queue s).
  pose proof (retrieve_loop_spec s (queue s) Hq) as Hr. destruct (retrieve_loop s (queue s)) as [pq found].
  destruct Hr as (Hq' & Hge & Hsub & Hf).
  assert (Hput : upd_d1 (set_buffered pq) s = put pq (now s) s) by done. rewrite Hput.
  destruct found as [[it chr]|]; last first.
  { left. exists pq. split_and!; try done. subst pq. intros f. unfold entry, pq_map. by simpl. }
  destruct Hf as (tl & -> & Hturn). destruct (queue_cons _ _ Hq') as (Hqt & Hi & Hm & Hab).
  pose proof Hi as (_ & _ & Hr & Tb & Hml & Hw). set (f := pdata it) in *.
  change (item_seq it) with (hm_seq (msg_header f)) in *.
  assert (He : entry (queue s) (hm_seq (msg_header f)) = Some f).
  { unfold entry. rewrite (Hsub _ it); [done|]. rewrite Hm. apply lookup_insert_eq. }
  case_bool_decide as Hre.
  { left. eexists. split; [done|]. split_and!; try done. intros f'. unfold entry. rewrite Hm.
    destruct chr; [destruct Hturn as [Hag Hno]; rewrite <- Hm, Hno; done|].
    destruct (decide (hm_seq (msg_header f) = handshake_read_seq (d1_of s))) as [->|Hne].
    - rewrite lookup_insert_eq. intros [= <-]. by apply not_eq_None_Some.
    - rewrite lookup_insert_ne by done. rewrite Hab by lia. done. }
  apply eq_None_not_Some in Hre.
  destruct (_ || chr) eqn:Et; last first.
  { left. eexists. split; [done|]. split_and!; try done. apply orb_false_iff in Et as [Et ->]. zbool.
    change (handshake_read_seq _ <> _) with (handshake_read_seq (d1_of s) <> hm_seq (msg_header f)) in Et.
    intros f'. unfold entry. rewrite Hm, lookup_insert_ne, Hab by lia. done. }
  set (s1 := upd_d1 _ _). pose proof (frag_wf_len _ Hw) as Hl0.
  destruct (preprocess_spec (msg_header f) s1 b) as [(b' & -> & Hb' & Hl' & _)|(s2 & -> & Ha & Hwhy)]; try done.
  - right. left. exists f, tl.
    destruct (copy_fragment_spec f (prepared (msg_header f) b' s1) Hw Hre) as (b2 & -> & Hh2); [by apply holds_prepared|].
    rewrite (fw_len _ Hw). eexists. split; [done|]. split; [done|]. split; [done|]. split.
    + destruct chr.
      * destruct Hturn as [Hag _]. pose proof (hello_again_seq _ _ Hag) as Hz.
        split; try done; [|by right]. destruct Hh2. by split.
      * rewrite orb_false_r in Et. apply Z.eqb_eq in Et. split; try done. by left.
    + split; [done|]. intros k x Hx. apply Hsub. rewrite Hm, lookup_insert_ne; [done|]. intros <-.
      rewrite Hab in Hx by lia. done.
  - right. right. exists f, s2. split; [done|]. split; [done|]. split; [done|].
    destruct Hwhy as [Hlt|Hwhy]; [destruct Hw as [Ho Hl _ _]; lia|]. done.
Qed.

(** ** A fragment of the record being read *)

Context (read : Z -> SSL -> option (Z * list Z) * SSL) `{!RecordSource records record_left fr usable read}.

Local Abbreviation at_record := (at_record records record_left usable).

(** The header [h] has been read, [d] is the rest of its record. *)
Record at_fragment (t : Z) (d : list Z) (rs : list (Z * list Z)) (h : hm_header) (p : option Z) (s : SSL) : Prop := {
  af_state : state_ok s;
  af_hdr : hdr_ok h;
  af_type : init_byte 0 s = Some (hm_type h);
  af_block : init_block s = p;
  af_at : at_record t d rs (now s);
  af_bytes : Forall is_byte d;
  af_room : Z.of_nat (length d) + DTLS1_HM_HEADER_LENGTH <= SSL3_RT_MAX_PLAIN_LENGTH
}.

(** The end with a fatal alert. *)
Definition ends_fatal (res : ret (option reassembled) * SSL) : Prop :=
  exists s', res = (Ok (Some (NoMessage 0)), set_init_num 0 s') /\ alerted s'.

Lemma read_whole_spec t d rs h p s chretran : at_fragment t d rs h p s ->
  frag_len h <= Z.of_nat (length d) -> frag_len h = 0 \/ msg_len h <= frag_len h ->
  (if chretran : bool then hello_again (hm_seq h) s = true else hm_seq h = handshake_read_seq (d1_of s)) ->
  (exists r s', read_whole read p h chretran s = (Ok (Some (Message (frag_len h))), s')
     /\ took s h (take (Z.to_nat (frag_len h)) d) (queue s) r s' /\ init_num s' = frag_len h
     /\ at_record t (drop (Z.to_nat (frag_len h)) d) rs r)
  \/ (ends_fatal (read_whole read p h chretran s) /\ refused s h).
Proof.
  intros [[(b & Eb & Hb) _ _ Ho _ Hfr _] Hh _ Hp Hat Bd Hroom] Hl Hfl Hturn. pose proof Hh as [_ Hml Hs Hoff Hf].
  unfold read_whole. destruct (preprocess_spec h s b) as [(b' & -> & Hb' & Hl' & Hsame & Hle)|(s2 & -> & Ha & Hwhy)]; try done.
  2: { right. split; [by exists s2|]. unfold refused. tauto. }
  pose proof (holds_prepared h b' s Ho Hb' ltac:(lia) Hl') as Hh2. left.
  assert (Hdone : forall r s3, holds h (take (Z.to_nat (frag_len h)) d) s3 -> d1_of s3 = d1_of (prepared h b' s) ->
            now s3 = r -> frame s3 = frame s ->
            let s4 := set_init_num (frag_len h) (if chretran then upd_d1 reset_seqs s3 else s3) in
            took s h (take (Z.to_nat (frag_len h)) d) (queue s) r s4).
  { intros r s3 [H1 H2 H3] Hd1 He Hf3. destruct chretran; simpl.
    - pose proof (hello_again_seq _ _ Hturn) as Hz. split; [by split|done|by right| |done|done].
      unfold queue, d1_of in *. simpl. by rewrite Hd1.
    - split; [by split| |by left| |done|done]; unfold queue, d1_of in *; simpl; by rewrite Hd1. }
  destruct (0 <? frag_len h) eqn:E0; zbool.
  - destruct (read_within _ _ _ _ _ t d rs (frag_len h) (prepared h b' s) Hat Hfr ltac:(lia)) as (r & -> & Hat').
    set (bs := take _ d) in *. assert (Hbs : Z.of_nat (length bs) = frag_len h) by (unfold bs; rewrite length_take; lia).
    destruct (holds_store h bs (set_now r (prepared h b' s))) as (b1 & b2 & E1 & Em & E2 & Hh3); [by destruct Hh2|lia|by apply Forall_take|].
    unfold store_p. rewrite bool_decide_eq_true_2; last first.
    { rewrite <- Hp. unfold init_block. rewrite Eb. simpl. f_equal. apply Hsame. destruct Hb. lia. }
    replace (DTLS1_HM_HEADER_LENGTH + frag_off h) with 12 by lia. rewrite E2, Hbs, Z.eqb_refl. cbn [negb].
    exists r. eexists. split; [done|]. split_and!; try done. apply Hdone; try done. by destruct r.
  - replace (frag_len h) with 0 in * by lia. exists (now s). eexists. split; [done|]. split_and!; try done.
    by apply Hdone.
Qed.

(** What the header of a fragment leads to: the fragment is collected or thrown
    away, or it was a HelloRequest to be skipped, or the message is there, or
    the call fails. *)
Inductive fragment_outcome (t : Z) (d : list Z) (rs : list (Z * list Z)) (h : hm_header) (s : SSL)
    (redo : ST SSL (option reassembled)) (res : ret (option reassembled) * SSL) : Prop :=
| FO_collected pq r : res = (Ok (Some (NoMessage DTLS1_HM_FRAGMENT_RETRY)), put pq r s) -> queue_ok pq ->
    at_record t (drop (Z.to_nat (frag_len h)) d) rs r -> frag_len h <= Z.of_nat (length d) ->
    added (queue s) pq h (take (Z.to_nat (frag_len h)) d)
    \/ (pq = queue s /\ hm_seq h <> handshake_read_seq (d1_of s)
        /\ (frag_len h = 0 /\ frag_len h <> msg_len h \/ dropped s h)) ->
    fragment_outcome t d rs h s redo res
| FO_skipped m : res = redo (set_init_num 0 (callback msg_callback m s)) -> hm_type h = SSL3_MT_HELLO_REQUEST ->
    server s = false -> fragment_outcome t d rs h s redo res
| FO_message r s' : res = (Ok (Some (Message (frag_len h))), s') ->
    took s h (take (Z.to_nat (frag_len h)) d) (queue s) r s' -> init_num s' = frag_len h ->
    at_record t (drop (Z.to_nat (frag_len h)) d) rs r -> frag_len h <= Z.of_nat (length d) ->
    frag_len h = 0 \/ msg_len h <= frag_len h -> fragment_outcome t d rs h s redo res
| FO_refused c pq r k : res = (Ok (Some (NoMessage c)), put pq r s) -> (c = 0 \/ c = -1) -> queue_ok pq ->
    at_record t (drop k d) rs r -> refused s h -> fragment_outcome t d rs h s redo res
| FO_fatal : ends_fatal res ->
    Z.of_nat (length d) < frag_len h \/ refused s h
    \/ (hm_type h = SSL3_MT_HELLO_REQUEST /\ server s = false) ->
    fragment_outcome t d rs h s redo res.

Lemma collected_outcome t d rs h s redo err keep (m : ST SSL (option Z)) :
  collected records record_left usable s t d rs h err (refused s h) keep (m s) -> err = 0 \/ err = -1 ->
  frag_len h <= Z.of_nat (length d) ->
  (forall pq, keep pq -> added (queue s) pq h (take (Z.to_nat (frag_len h)) d)
    \/ (pq = queue s /\ hm_seq h <> handshake_read_seq (d1_of s)
        /\ (frag_len h = 0 /\ frag_len h <> msg_len h \/ dropped s h))) ->
  fragment_outcome t d rs h s redo ((r <~ m ;; st_ret (some_errtype r)) s).
Proof.
  intros (c & pq & r & k & E & Hq & Hat & _ & Hc) Herr Hl Hk. rewrite (st_bind_ok _ _ _ _ _ E).
  destruct Hc as [[-> Hwhy]|(-> & -> & Hkeep)].
  - by eapply FO_refused.
  - eapply FO_collected; try done. auto.
Qed.

Lemma process_header_spec t d rs h p s redo : at_fragment t d rs h p s ->
  fragment_outcome t d rs h s redo (process_header read record_left msg_callback redo p h s).
Proof.
  intros Haf. pose proof Haf as [Hst Hh Hty Hp Hat Bd Hroom]. pose proof Hst as [(b & Eb & Hb) Hq Hs _ _ Hfr _].
  unfold process_header. change (env (rest s)) with (at_env (now s)). rewrite (proj1 (proj2 Hat)). rewrite Hty.
  destruct (_ <? frag_len h) eqn:E1; zbool.
  { apply FO_fatal; [by eexists; split; [done|eexists _, _]|]. lia. }
  set (inseq := hm_seq h =? _). set (chr := negb inseq && _ && _).
  destruct (negb inseq && negb chr) eqn:E2.
  { destruct (out_of_seq_spec _ _ _ _ read s t d rs h Hq Hh Hat Hfr ltac:(lia) Bd) as (err & Herr & Hc).
    eapply collected_outcome; try done. intros pq [[Hdrop ->]|Ha]; [right|by left].
    unfold inseq in E2. zbool. done. }
  destruct (negb (frag_len h =? 0) && (frag_len h <? msg_len h)) eqn:E3.
  { eapply collected_outcome; [by apply (reassemble_spec _ _ fr); (done || lia)|by right|lia|].
    intros pq [[Hz _]|Ha]; [lia|by left]. }
  destruct (is_hello_request s) eqn:E4.
  { assert (hm_type h = SSL3_MT_HELLO_REQUEST /\ server s = false) as [Hreq Hsrv].
    { unfold is_hello_request in E4. rewrite Hty, !andb_true_iff, negb_true_iff, !bool_decide_eq_true in E4.
      destruct E4 as [[[? _] _] [= ?]]. done. }
    destruct (bool_decide (init_byte 1 s = _) && _ && _).
    - destruct (buf_ok_data b Hb) as (data & Ed & Hdl & _). unfold init_data. rewrite Eb, Ed.
      rewrite mem_read_prefix by (destruct Hb; lia). eapply FO_skipped; [reflexivity|done|done].
    - apply FO_fatal; [by eexists; split; [done|eexists _, _]|]. auto. }
  assert (Hturn : if chr then hello_again (hm_seq h) s = true else hm_seq h = handshake_read_seq (d1_of s)).
  { unfold chr, inseq in *. destruct (hm_seq h =? _) eqn:Es; cbn [negb andb] in *; zbool; [done|].
    by rewrite H0, H1. }
  destruct (read_whole_spec t d rs h p s chr Haf ltac:(lia) ltac:(lia) Hturn)
    as [(r & s' & E & Htk & Hn & Hat')|[Hf Hr]].
  - eapply FO_message; try done; lia.
  - apply FO_fatal; auto.
Qed.

(** ** The header of a fragment *)

Lemma bytes3_val a b c : is_byte a -> is_byte b -> is_byte c ->
  Z.lor (Z.lor (Z.shiftl a 16) (Z.shiftl b 8)) c = be_val [a; b; c].
Proof.
  unfold is_byte. intros Ha Hb Hc. rewrite (lor_shiftl_add a (Z.shiftl b 8) 16) by (rewrite ?Z.shiftl_mul_pow2; lia).
  replace (a * 2 ^ 16 + Z.shiftl b 8) with (Z.shiftl (a * 256 + b) 8) by (rewrite !Z.shiftl_mul_pow2; lia).
  rewrite lor_shiftl_add by lia. unfold be_val, be_step. simpl. lia.
Qed.

Lemma bytes2_val a b : is_byte a -> is_byte b -> Z.lor (Z.shiftl a 8) b = be_val [a; b].
Proof. unfold is_byte. intros Ha Hb. rewrite lor_shiftl_add by lia. unfold be_val, be_step. simpl. lia. Qed.

Lemma parse_header_12 d : length d = 12%nat -> Forall is_byte d ->
  exists h, dtls1_get_message_header d = Some h /\ hdr_ok h /\ wire_header h = d.
Proof.
  intros Hl Hb. do 12 (destruct d as [|? d]; [done|]). destruct d; [|done].
  repeat (apply Forall_cons in Hb as [? Hb]). unfold dtls1_get_message_header, n2l3, mem_get. simpl.
  rewrite !bytes3_val, bytes2_val by done. eexists. split; [done|].
  assert (H3' : forall a b c, is_byte a -> is_byte b -> is_byte c ->
            0 <= be_val [a; b; c] < 2 ^ 24 /\ be_bytes 3 (be_val [a; b; c]) = [a; b; c]).
  { intros a b c Ba Bb Bc. assert (Forall is_byte [a; b; c]) by auto. split; [by apply (be_val_range [a; b; c])|].
    by apply (be_bytes_val [a; b; c]). }
  assert (H2' : forall a b, is_byte a -> is_byte b ->
            0 <= be_val [a; b] < 2 ^ 16 /\ be_bytes 2 (be_val [a; b]) = [a; b]).
  { intros a b Ba Bb. assert (Forall is_byte [a; b]) by auto. split; [by apply (be_val_range [a; b])|].
    by apply (be_bytes_val [a; b]). }
  split; [split; simpl; try done; by apply H3' || by apply H2'|].
  unfold wire_header. cbn [hm_type msg_len hm_seq frag_off frag_len].
  pose proof (fun a b c Ba Bb Bc => proj2 (H3' a b c Ba Bb Bc)) as E3.
  pose proof (fun a b Ba Bb => proj2 (H2' a b Ba Bb)) as E2. by rewrite E2, !E3 by done.
Qed.

Lemma parse_wire h : hdr_ok h -> dtls1_get_message_header (wire_header h) = Some h.
Proof.
  intros [Ht Hl Hs Ho Hf]. destruct (parse_header_12 (wire_header h)) as (h' & E & [Ht' Hl' Hs' Ho' Hf'] & Ew); [done| |].
  { unfold wire_header. rewrite !Forall_app. split_and!; try apply be_bytes_is_byte. by constructor. }
  rewrite E. f_equal. unfold wire_header in Ew. apply app_inj_1 in Ew as [Et Ew]; [|done].
  apply app_inj_1 in Ew as [El Ew]; [|by rewrite !length_be_bytes]. apply app_inj_1 in Ew as [Es Ew]; [|by rewrite !length_be_bytes].
  apply app_inj_1 in Ew as [Eo Ef]; [|by rewrite !length_be_bytes].
  apply (f_equal be_val) in El, Es, Eo, Ef. rewrite !be_val_bytes_small in * by (simpl; lia).
  injection Et as Et. destruct h, h'. simpl in *. congruence.
Qed.

Lemma store_header bs (s : SSL) b : init_buf s = Some b -> buf_ok b -> (length bs <= 12)%nat -> Forall is_byte bs ->
  exists b', store_init 0 bs s = Some (set_init_buf (Some b') s) /\ buf_ok b' /\ buf_max b' = buf_max b
    /\ (bs <> [] -> init_byte 0 (set_init_buf (Some b') s) = hd_error bs)
    /\ (length bs = 12%nat -> init_data 0 DTLS1_HM_HEADER_LENGTH (set_init_buf (Some b') s) = Some bs).
Proof.
  intros Eb Hb Hl Bb. destruct (buf_ok_data b Hb) as (d & Ed & Hd & Bd). destruct Hb as [[Hbl _] Hm].
  unfold store_init, buf_store. rewrite Eb, Ed, mem_write_Some by lia.
  change (take (Z.to_nat 0) d ++ _) with (bs ++ drop (length bs) d). set (d' := bs ++ drop (length bs) d).
  assert (Hd' : length d' = length d) by (unfold d'; rewrite length_app, length_drop; lia).
  eexists. split; [done|]. split; [|split; [done|split]].
  - split; [|done]. split; [done|]. cbn [buf_data buf_max]. split; [by rewrite Hd'|].
    unfold d'. rewrite Forall_app. auto using Forall_drop.
  - intros Hne. unfold init_byte. simpl. destruct bs; [done|]. done.
  - intros H12. unfold init_data. simpl. rewrite mem_read_prefix by lia. unfold d'. f_equal.
    by apply take_app_length'.
Qed.

(** A ChangeCipherSpec is in the buffer. *)
Definition ccs_state (len : Z) (b : BUF_MEM) (s : SSL) : SSL :=
  upd_tmp (fun t => set_message_size len (set_message_type SSL3_MT_CHANGE_CIPHER_SPEC t))
    (set_init_msg 1 (set_init_num len (set_init_buf (Some b) s))).

(** Reading the next header, when no message is ready in the queue. *)
Inductive header_outcome (n : nat) (p : option Z) (s : SSL) (pq : pqueue hm_fragment)
    (res : ret (option reassembled) * SSL) : Prop :=
| HO_blocked r s1 : res = (Ok (Some (NoMessage 0)), set_rwstate SSL_READING (put pq r s)) -> records (at_env r) = recs records s ->
    usable (at_env r) ->
    read DTLS1_HM_HEADER_LENGTH (put pq (now s) s) = (None, s1) -> header_outcome n p s pq res
| HO_ccs d rs r b len : recs records s = (SSL3_RT_CHANGE_CIPHER_SPEC, d) :: rs ->
    res = (Ok (Some (Message len)), ccs_state len b (put pq r s)) -> buf_ok b ->
    at_record SSL3_RT_CHANGE_CIPHER_SPEC (drop 12 d) rs r ->
    init_byte 0 (ccs_state len b (put pq r s)) = Some SSL3_MT_CCS -> header_outcome n p s pq res
| HO_bad t d rs : recs records s = (t, d) :: rs -> ends_fatal res ->
    (t = SSL3_RT_CHANGE_CIPHER_SPEC /\ hd_error d <> Some SSL3_MT_CCS)
    \/ (t <> SSL3_RT_CHANGE_CIPHER_SPEC /\ (length d < 12)%nat) -> header_outcome n p s pq res
| HO_fragment t d rs h r b : recs records s = (t, d) :: rs -> t <> SSL3_RT_CHANGE_CIPHER_SPEC -> (12 <= length d)%nat ->
    take 12 d = wire_header h ->
    at_fragment t (drop 12 d) rs h p (set_init_buf (Some b) (put pq r s)) ->
    res = process_header read record_left msg_callback
            (match n with O => st_ret None | S n => reassembled_loop read record_left msg_callback n p end)
            p h (set_init_buf (Some b) (put pq r s)) ->
    header_outcome n p s pq res.

(** One round of the loop. *)
Inductive round_outcome (n : nat) (p : option Z) (s : SSL) (res : ret (option reassembled) * SSL) : Prop :=
| RO_ready f pq s' : res = (Ok (Some (Message (msg_len (msg_header f)))), set_init_num (msg_len (msg_header f)) s') ->
    entry (queue s) (hm_seq (msg_header f)) = Some f -> reassembly f = None ->
    took s (msg_header f) (body_of f) pq (now s) s' -> queue_ok pq ->
    (forall k it, pq_map pq !! k = Some it -> pq_map (queue s) !! k = Some it) ->
    round_outcome n p s res
| RO_refused f : ends_fatal res -> entry (queue s) (hm_seq (msg_header f)) = Some f ->
    dtls1_max_handshake_message_len s < msg_len (msg_header f) \/ alloc_failed -> round_outcome n p s res
| RO_read pq : queue_ok pq ->
    (forall k, handshake_read_seq (d1_of s) <= k -> pq_map pq !! k = pq_map (queue s) !! k) ->
    (forall k it, pq_map pq !! k = Some it -> pq_map (queue s) !! k = Some it) ->
    (forall f, entry pq (handshake_read_seq (d1_of s)) = Some f -> reassembly f <> None) ->
    header_outcome n p s pq res -> round_outcome n p s res.

Lemma unread_ok t d rs k : Forall rec_ok ((t, d) :: rs) -> Forall rec_ok (unread t (drop k d) rs).
Proof.
  intros [[Hl Hb] Hrs]%Forall_cons. unfold unread. destruct (drop k d) as [|x l] eqn:E; [done|]. rewrite <- E.
  constructor; [|done]. split; simpl in *; [rewrite length_drop; lia|by apply Forall_drop].
Qed.

Lemma state_ok_moved s pq r b : state_ok s -> queue_ok pq -> Forall rec_ok (records (at_env r)) -> usable (at_env r) -> buf_ok b ->
  state_ok (set_init_buf (Some b) (put pq r s)).
Proof. intros [_ _ Hs Hh _ Hf _] Hq Hr Hu Hb. split; try done. by exists b. Qed.

Lemma next_header_spec n p s pq : state_ok s -> init_block s = p -> queue_ok pq ->
  header_outcome n p s pq
    (match read DTLS1_HM_HEADER_LENGTH (put pq (now s) s) with
     | (None, s) => (Ok (Some (NoMessage 0)), set_rwstate SSL_READING s)
     | (Some (recvd_type, bs), s) =>
         match store_p p 0 bs s with
         | None => (Fault, s)
         | Some s =>
             let readbytes := Z.of_nat (length bs) in
             if recvd_type =? SSL3_RT_CHANGE_CIPHER_SPEC then change_cipher_spec readbytes s
             else if negb (readbytes =? DTLS1_HM_HEADER_LENGTH)
             then (SSLfatal SSL3_AD_UNEXPECTED_MESSAGE ;;; f_err) s
             else match init_header s with
                  | None => (Fault, s)
                  | Some msg_hdr =>
                      process_header read record_left msg_callback
                        (match n with
                         | O => st_ret None
                         | S n => reassembled_loop read record_left msg_callback n p
                         end) p msg_hdr s
                  end
         end
     end).
Proof.
  intros Hst Hp Hq. pose proof Hst as [(b & Eb & Hb) _ _ _ Hrecs Hfr Hu].
  destruct (read _ (put pq (now s) s)) as [[[t bs]|] s1] eqn:Er; last first.
  { pose proof Er as Er'. apply (rs_none records record_left fr usable) in Er' as (r & -> & Hr & _ & _ & Hu'); [|done..]. by eapply HO_blocked. }
  apply (rs_some records record_left fr usable) in Er as (d & rs & r & Hr & -> & -> & Hat); [|done..]. change (recs records (put _ _ s)) with (recs records s) in Hr.
  rewrite Hr in Hrecs. pose proof (unread_ok t d rs 12 Hrecs) as Hun. apply Forall_cons in Hrecs as [[Hdl Bd] _]. simpl in Hdl, Bd.
  change (set_now r (put pq (now s) s)) with (put pq r s). change (Z.to_nat DTLS1_HM_HEADER_LENGTH) with 12%nat in *.
  destruct (store_header (take 12 d) (put pq r s) b) as (b' & Es & Hb' & Hm & Hhd & H12); try done.
  { rewrite length_take. lia. }
  { by apply Forall_take. }
  unfold store_p. rewrite bool_decide_eq_true_2 by (rewrite <- Hp; done). rewrite Es. cbv zeta.
  destruct (t =? SSL3_RT_CHANGE_CIPHER_SPEC) eqn:Et; zbool.
  - subst t. unfold change_cipher_spec.
    assert (Hhd' : d <> [] -> init_byte 0 (set_init_buf (Some b') (put pq r s)) = hd_error d).
    { intros Hne. destruct d; [done|]. by rewrite Hhd. }
    case_bool_decide as Hc; cbn [negb].
    + by eapply (HO_ccs _ _ _ _ _ d rs r b').
    + eapply HO_bad; [done|by eexists; split; [done|eexists _, _]|]. left. split; [done|].
      intros Hd. apply Hc. rewrite Hhd'; [done|]. by destruct d.
  - rewrite length_take. destruct (_ =? DTLS1_HM_HEADER_LENGTH) eqn:El; zbool; cbn [negb]; last first.
    { eapply HO_bad; [done|by eexists; split; [done|eexists _, _]|]. right. split; [done|]. lia. }
    assert (Hd12 : length (take 12 d) = 12%nat) by (rewrite length_take; lia).
    unfold init_header. rewrite H12 by done.
    destruct (parse_header_12 (take 12 d)) as (h & Eh & Hh & Ew); [done|by apply Forall_take|]. rewrite Eh.
    eapply (HO_fragment _ _ _ _ _ t d rs h r b'); try done; [lia|].
    split; try done.
    + apply state_ok_moved; try done; [by rewrite (proj1 Hat)|apply Hat].
    + rewrite Hhd by (intros E; by rewrite E in Hd12). by rewrite <- Ew.
    + rewrite <- Hp. unfold init_block. rewrite Eb. simpl. by rewrite Hm.
    + by apply Forall_drop.
    + rewrite length_drop. lia.
Qed.

Lemma round_spec n p s : state_ok s -> init_block s = p ->
  round_outcome n p s (reassembled_loop read record_left msg_callback n p s).
Proof.
  intros Hst Hp. destruct n; simpl; (destruct (retrieve_spec s Hst) as
    [(pq & -> & Hq & Hge & Hsub & Hno)|[(f & pq & s' & -> & He & Hr & Htk & Hq & Hsub)|(f & s' & -> & Ha & He & Hwhy)]];
  [eapply RO_read; try done; by apply next_header_spec | by eapply RO_ready | by eapply RO_refused; [exists s'|..]]).
Qed.
End Message.
End DtlsMessage.
