(* ===== verification/DtlsDelivery.v ===== *)
(** * Delivery of handshake messages over DTLS

    [dtls_get_message] against any peer: it returns, stays inside its memory,
    and keeps the invariant.  With a peer that sends fragments of its messages:
    exactly those messages come out, in turn, once all of them has arrived. *)

From stdpp Require Import prelude list sorting gmap.
From Stdlib Require Import ZArith Lia ZifyBool.
From S2P Require Import Prelude Packet Buffer PQueue RecordTypes StatemTypes StatemLib Quic Framing.
From S2P Require Import DtlsFrag DtlsFragBits DtlsFragQueue DtlsMessage.

Local Open Scope Z_scope.
Local Open Scope st_scope.

Module DtlsDelivery.
Import Quic Framing DtlsFrag FragBits FragQueue DtlsMessage.

Section Delivery.
Context {R : Type} `{Callees (DTLS R)} `{L : Libc} {LO : LibcOk L}.
Local Abbreviation SSL := (SSL (DTLS R)).
Context (msg_callback : list Z -> R -> R) (records : R -> list (Z * list Z)) (record_left : R -> Z).
Context (fr : OSSL_STATEM * Z * Z * DTLS1_TIMER) (usable : R -> Prop).
Context (read : Z -> SSL -> option (Z * list Z) * SSL) `{!RecordSource records record_left fr usable read}.
Context (Hcb : forall m r, records (msg_callback m r) = records r /\ (usable r -> usable (msg_callback m r))).

Local Abbreviation at_record := (at_record records record_left usable).
Local Abbreviation state_ok := (state_ok records fr usable).
Local Abbreviation recs := (recs records).
Local Abbreviation loop := (reassembled_loop read record_left msg_callback).

(** The bytes and records to come. *)
Definition size (rs : list (Z * list Z)) : nat := sum_list (map (fun x => S (length (snd x))) rs).

Lemma size_unread t d rs k : (0 < k)%nat -> (size (unread t (drop k d) rs) < size ((t, d) :: rs))%nat.
Proof.
  intros Hk. unfold unread, size. destruct (drop k d) as [|x l] eqn:E; simpl; [lia|].
  apply (f_equal length) in E. rewrite length_drop in E. simpl in E. lia.
Qed.

Lemma size_drop t d rs k : (size (unread t (drop k d) rs) <= size (unread t d rs))%nat.
Proof.
  destruct k; [by rewrite drop_0|]. destruct d as [|x d]; [done|].
  pose proof (size_unread t (x :: d) rs (S k) ltac:(lia)). simpl unread at 2. lia.
Qed.

(** The record layer can go on. *)
Definition sourced (s : SSL) : Prop := Forall rec_ok (recs s) /\ frame s = fr /\ usable (env (rest s)).

(** ** Any peer *)

Inductive safe_result (s : SSL) : reassembled -> SSL -> Prop :=
| SR_message len h body s' : hdr_ok h -> holds h body s' -> init_num s' = Z.of_nat (length body) ->
    body = [] \/ Z.of_nat (length body) = msg_len h -> queue_ok (queue s') ->
    0 <= handshake_read_seq (d1_of s') < 2 ^ 16 -> sourced s' ->
    safe_result s (Message len) s'
| SR_ccs len s' : message_type (tmp_of s') = SSL3_MT_CHANGE_CIPHER_SPEC -> state_ok s' ->
    safe_result s (Message len) s'
| SR_retry s' : state_ok s' -> (size (recs s') < size (recs s))%nat ->
    safe_result s (NoMessage DTLS1_HM_FRAGMENT_RETRY) s'
| SR_stop c s' : c = 0 \/ c = -1 -> state_ok s' -> safe_result s (NoMessage c) s'
| SR_fatal s0 : alerted s0 -> safe_result s (NoMessage 0) (set_init_num 0 s0).

Lemma state_ok_put pq r (s : SSL) : state_ok s -> queue_ok pq -> Forall rec_ok (records (at_env r)) ->
  usable (at_env r) -> state_ok (put pq r s).
Proof. intros [Hb _ Hs Hh _ Hf _] Hq Hr Hu. by split. Qed.

Lemma at_record_ok t d rs k r (s : SSL) : Forall rec_ok (recs s) -> recs s = unread t d rs ->
  at_record t (drop k d) rs r -> Forall rec_ok (records (at_env r)).
Proof.
  intros Hok E [-> _]. rewrite E in Hok. destruct d as [|x d]; [by rewrite drop_nil|]. by apply unread_ok.
Qed.

Lemma sourced_at t d rs k r (s s' : SSL) : state_ok s -> at_record t d rs (now s) -> at_record t (drop k d) rs r ->
  now s' = r -> frame s' = frame s -> sourced s'.
Proof.
  intros Hst Hat Hat' <- Hf. split; [by apply (at_record_ok t d rs k (now s') s); [apply Hst|apply Hat|]|].
  split; [rewrite Hf; apply Hst|]. apply Hat'.
Qed.

Lemma sourced_same (s s' : SSL) : state_ok s -> now s' = now s -> frame s' = frame s -> sourced s'.
Proof. intros [_ _ _ _ Hr Hf Hu] [= Hn _] Hfr. unfold sourced, FragQueue.recs. by rewrite Hn, Hfr. Qed.

Lemma fragment_safe t d rs h p s redo res :
  at_fragment records record_left fr usable t d rs h p s ->
  fragment_outcome msg_callback records record_left usable t d rs h s redo res ->
  (forall m, exists r s', redo (set_init_num 0 (callback msg_callback m s)) = (Ok (Some r), s') /\ safe_result s r s') ->
  exists r s', res = (Ok (Some r), s')
    /\ (safe_result s r s' \/ exists c, r = NoMessage c /\ c = DTLS1_HM_FRAGMENT_RETRY /\ state_ok s'
          /\ (size (recs s') <= size (recs s))%nat).
Proof.
  intros [Hst Hh _ _ Hat _ _] Hout Hredo. pose proof Hst as [_ Hq Hs _ Hrecs]. pose proof (proj1 Hat) as Er.
  destruct Hout as [pq r -> Hq' Hat' Hl _|m -> _ _|r s' -> [Hho Hse Htu Hqu Hen Hfs] Hn Hat' Hl Hfl|c pq r k -> Hc Hq' Hat' _|(s' & -> & Ha) _].
  - eexists _, _. split; [done|]. right. eexists. split; [done|]. split; [done|]. split.
    + apply state_ok_put; try done; [by eapply at_record_ok|apply Hat'].
    + unfold FragQueue.recs in *. simpl in *. rewrite Er, (proj1 Hat'). apply size_drop.
  - destruct (Hredo m) as (r & s' & E & Hr). exists r, s'. split; [done|]. by left.
  - eexists _, _. split; [done|]. left. pose proof (hd_buf _ _ _ Hho) as (_ & _ & _ & _ & _ & _ & Hbl & _).
    assert (Hlen : Z.of_nat (length (take (Z.to_nat (frag_len h)) d)) = frag_len h).
    { rewrite length_take. destruct Hh. lia. }
    eapply (SR_message s _ h); try done.
    + by rewrite Hlen.
    + destruct Hfl as [Hz|Hge]; [left; by rewrite Hz|right]. lia.
    + by rewrite Hqu.
    + rewrite Hse. by destruct Hh.
    + by eapply sourced_at.
  - eexists _, _. split; [done|]. left. apply SR_stop; [done|]. apply state_ok_put; try done; [by eapply at_record_ok|apply Hat'].
  - eexists _, _. split; [done|]. left. by apply SR_fatal.
Qed.

Lemma item_hdr_ok pq f : queue_ok pq -> entry pq (hm_seq (msg_header f)) = Some f ->
  hdr_ok (msg_header f) /\ frag_wf f.
Proof.
  intros [_ Hq] (it & Hit & ->)%fmap_Some. destruct (Hq _ _ Hit) as (_ & _ & Hr & Ht & Hl & Hw).
  pose proof (frag_wf_len _ Hw). split; [|done]. split; try done; rewrite ?(fw_off _ Hw), ?(fw_len _ Hw); lia.
Qed.

Lemma body_length f : frag_wf f -> Z.of_nat (length (body_of f)) = msg_len (msg_header f).
Proof. intros [_ _ Hd _]. unfold body_of. destruct (fragment f); simpl; tauto || lia. Qed.

Lemma safe_result_from (s0 s : SSL) r s' : (size (recs s0) <= size (recs s))%nat ->
  safe_result s0 r s' -> safe_result s r s'.
Proof.
  intros Hle Hr. destruct Hr; [by eapply SR_message|by apply SR_ccs|apply SR_retry; [done|lia]|by apply SR_stop|by apply SR_fatal].
Qed.

Lemma reassembly_safe n : forall p s, state_ok s -> init_block s = p -> (size (recs s) <= n)%nat ->
  exists r s', loop n p s = (Ok (Some r), s') /\ safe_result s r s'.
Proof.
  induction n as [n IH] using lt_wf_ind. intros p s Hst Hp Hn. pose proof Hst as [_ Hq Hs _ Hrecs].
  destruct (round_spec msg_callback records record_left fr usable read n p s Hst Hp)
    as [f pq s' E He Hre [Hho Hse _ Hqu Hen Hfs] Hq' Hsub|f (s' & E & Ha) _ _|pq Hq' _ _ _ Hhd]; try rewrite E.
  - eexists _, _. split; [done|]. destruct (item_hdr_ok _ _ Hq He) as [Hh Hw].
    eapply (SR_message s _ (msg_header f)); try done.
    + destruct Hho. by split.
    + symmetry. by apply body_length.
    + right. by apply body_length.
    + change (queue (set_init_num _ s')) with (queue s'). by rewrite Hqu.
    + change (d1_of (set_init_num _ s')) with (d1_of s'). rewrite Hse. by destruct Hh.
    + by apply (sourced_same s).
  - eexists _, _. split; [done|]. by apply SR_fatal.
  - destruct Hhd as [r s1 E Hr Hu _|d rs r b len Er E Hb Hat _|t d rs Er (s' & E & Ha) _|t d rs h r b Er Ht Hl Hw Haf E]; rewrite E.
    + eexists _, _. split; [done|]. apply SR_stop; [by left|].
      destruct (state_ok_put pq r s Hst Hq') as [H1 H2 H3 H4 H5]; [by rewrite Hr|done|]. by split.
    + eexists _, _. split; [done|]. apply SR_ccs; [done|].
      rewrite Er in Hrecs. pose proof (unread_ok _ _ _ 12 Hrecs) as Hun. rewrite <- (proj1 Hat) in Hun.
      split; try done; [by exists b|apply Hst|apply Hat].
    + eexists _, _. split; [done|]. by apply SR_fatal.
    + set (s2 := set_init_buf (Some b) (put pq r s)) in *.
      assert (Hsz : (size (recs s2) < size (recs s))%nat).
      { rewrite Er. pose proof (proj1 (af_at _ _ _ _ _ _ _ _ _ _ Haf)) as E2. unfold FragQueue.recs. simpl in *. rewrite E2. apply size_unread. lia. }
      set (redo := match n with O => _ | S _ => _ end).
      assert (Hredo : forall m, exists r s',
                redo (set_init_num 0 (callback msg_callback m s2)) = (Ok (Some r), s') /\ safe_result s2 r s').
      { intros m. unfold redo. destruct n as [|n]; [lia|].
        assert (Hcbs : recs (set_init_num 0 (callback msg_callback m s2)) = recs s2)
          by (unfold FragQueue.recs; simpl; apply Hcb).
        destruct (IH n ltac:(lia) p (set_init_num 0 (callback msg_callback m s2))) as (r' & s' & -> & Hr').
        - destruct (af_state _ _ _ _ _ _ _ _ _ _ Haf) as [? ? ? ? Hrs ? ?]. split; try done; [by rewrite Hcbs|by apply Hcb].
        - apply Haf.
        - rewrite Hcbs. lia.
        - exists r', s'. split; [done|]. eapply safe_result_from; [|done]. by rewrite Hcbs. }
      destruct (fragment_safe _ _ _ _ _ _ redo _ Haf (process_header_spec _ _ _ _ _ _ _ _ _ _ _ _ redo Haf) Hredo)
        as (r' & s' & E' & Hr').
      exists r', s'. split; [exact E'|]. destruct Hr' as [Hr'|(c & -> & -> & Hst' & Hsz')].
      * eapply safe_result_from; [|done]. lia.
      * apply SR_retry; [done|lia].
Qed.

(** The call hands on a message: the header of a message in one piece and the
    body are in the buffer, and [init_msg] and [init_num] delimit the body. *)
Record has_message (h : hm_header) (body : list Z) (s : SSL) : Prop := {
  hm_data : init_data 0 (DTLS1_HM_HEADER_LENGTH + Z.of_nat (length body)) s = Some (rebuilt_header h ++ body);
  hm_start : init_msg s = DTLS1_HM_HEADER_LENGTH;
  hm_num : init_num s = Z.of_nat (length body);
  hm_mt : message_type (tmp_of s) = hm_type h
}.

Definition safe_call (res : ret (option Z) * SSL) : Prop :=
  (exists h body s', res = (Ok (Some (hm_type h)), s') /\ hdr_ok h /\ has_message h body s'
     /\ (body = [] \/ Z.of_nat (length body) = msg_len h) /\ state_ok s')
  \/ (exists s', res = (Ok (Some SSL3_MT_CHANGE_CIPHER_SPEC), s') /\ state_ok s')
  \/ (exists s', res = (Fail, s') /\ (state_ok s' \/ exists s0, alerted s0 /\ s' = set_init_num 0 s0)).

Lemma next_seq_range q : 0 <= next_seq q < 2 ^ 16.
Proof. unfold next_seq. apply Z.mod_pos_bound. lia. Qed.

Lemma finish_ccs (s : SSL) b : init_buf s = Some b -> buf_ok b ->
  message_type (tmp_of s) = SSL3_MT_CHANGE_CIPHER_SPEC ->
  exists m, finish_message msg_callback s = (Ok (Some SSL3_MT_CHANGE_CIPHER_SPEC), callback msg_callback m s).
Proof.
  intros Eb Hb Ht. unfold finish_message. rewrite Ht, Z.eqb_refl. destruct (buf_ok_data b Hb) as (d & Ed & Hd & _).
  unfold init_data. rewrite Eb, Ed, mem_read_prefix by (destruct Hb; lia). by eexists.
Qed.

Lemma state_ok_callback m (s : SSL) : state_ok s -> state_ok (callback msg_callback m s).
Proof.
  intros [? ? ? ? Hr ? ?]. split; try done; [unfold FragQueue.recs; simpl; by rewrite (proj1 (Hcb _ _))|by apply Hcb].
Qed.

Lemma get_message_safe fuel : forall s, state_ok s -> (size (recs s) < fuel)%nat ->
  safe_call (get_message_loop read record_left msg_callback fuel s).
Proof.
  induction fuel as [|n IH]; intros s Hst Hf; [lia|]. cbn [get_message_loop].
  destruct (reassembly_safe n (init_block s) s Hst eq_refl ltac:(lia)) as (r & s1 & E & Hr).
  change (dtls_get_reassembled_message read record_left msg_callback n s = (Ok (Some r), s1)) in E.
  rewrite (st_bind_ok _ _ _ _ _ E). destruct Hr as [len h body s1 Hh Hho Hn Hbl Hq Hs Hrs|len s1 Ht Hst1|s1 Hst1 Hsz|c s1 Hc Hst1|s0 Ha].
  - left. destruct (finish_message_spec msg_callback h body s1 Hh Hho) as (s' & -> & [Hd Hm Hn' Ht Hd1 He (b & Eb & Hb) Hfs]).
    destruct Hrs as (Hrs & Hfr & Hu). exists h, body, s'. split; [done|]. split; [done|]. split; [split; try done; congruence|]. split; [done|].
    split; unfold queue, FragQueue.recs; rewrite ?Hd1, ?He; simpl; try done; [by exists b|apply next_seq_range|congruence].
  - right. left. destruct (so_buf _ _ _ _ Hst1) as (b & Eb & Hb). destruct (finish_ccs s1 b Eb Hb Ht) as (m & ->).
    eexists. split; [done|]. by apply state_ok_callback.
  - apply IH; [done|lia].
  - right. right. exists s1. split; [|by left]. destruct Hc as [-> | ->]; done.
  - right. right. eexists. split; [done|]. right. by exists s0.
Qed.

Lemma state_ok_start (s : SSL) : state_ok s -> state_ok (upd_d1 (set_r_msg_hdr no_header) s).
Proof. intros [? ? ? ? ?]. by split. Qed.

(** C13.  Against any peer, [dtls_get_message] is memory safe and returns.  From a
    state with a well-formed buffer and fragment queue, whatever records arrive
    and whatever allocations fail, no access leaves its object: not the
    reassembly bitmasks, not the bodies of the queued fragments, and not
    [init_buf], which is also written through a pointer taken before the buffer
    may have moved.  With fuel for every byte and record the call returns.  It
    hands on a message, with its header rebuilt and the body behind it delimited
    by [init_msg] and [init_num], or a ChangeCipherSpec, or fails; and it leaves
    a well-formed state unless it ended with a fatal alert. *)
Theorem dtls_get_message_safe (fuel : nat) (s : SSL) (Hst : state_ok s) (Hf : (size (recs s) < fuel)%nat) :
  safe_call (dtls_get_message read record_left msg_callback fuel s).
Proof. apply get_message_safe; [by apply state_ok_start|done]. Qed.

(** The transcript gets a message that was handed on as if it had come in one
    piece; the old version [DTLS1_BAD_VER] leaves the header out. *)
Definition keeps_message (m : ST SSL unit) : Prop := forall s s', m s = (Ok tt, s') ->
  init_buf s' = init_buf s /\ init_num s' = init_num s /\ version s' = version s.

Lemma has_message_byte h body s : has_message h body s -> init_byte 0 s = Some (hm_type h).
Proof.
  intros [Hd _ _ _]. unfold init_data, init_byte in *. destruct (init_buf s) as [b|]; [|done].
  destruct (buf_data b) as [d|]; [|done]. unfold mem_read in Hd. case_match; [|done]. injection Hd as Hd.
  destruct d as [|x d]; [by rewrite drop_nil, take_nil in Hd|]. simpl in Hd.
  destruct (Z.to_nat _) as [|n] eqn:En; [lia|]. injection Hd as -> _. done.
Qed.

Lemma mem_read_behind d (h body : list Z) :
  mem_read d 0 (DTLS1_HM_HEADER_LENGTH + Z.of_nat (length body)) = Some (h ++ body) -> length h = 12%nat ->
  mem_read d DTLS1_HM_HEADER_LENGTH (Z.of_nat (length body)) = Some body.
Proof.
  unfold mem_read. case_match eqn:Ec; [|done]. zbool. intros [= Hd] Hl. rewrite !(proj2 (Z.leb_le _ _)) by lia.
  cbn [andb]. f_equal. replace (Z.to_nat _) with (12 + length body)%nat in Hd by lia.
  apply (f_equal (drop 12)) in Hd. rewrite skipn_firstn_comm, drop_app_length' in Hd by done. rewrite Nat2Z.id.
  replace (12 + length body - 12)%nat with (length body) in Hd by lia. by rewrite drop_0 in Hd.
Qed.

Lemma message_body_transcript h body s (take_mac : ST SSL unit) (finish_mac : list Z -> ST SSL unit) :
  hdr_ok h -> has_message h body s -> keeps_message take_mac -> (forall m, keeps_message (finish_mac m)) ->
  let m := rebuilt_header h ++ body in
  dtls_get_message_body take_mac finish_mac msg_callback s
  = ((if hm_type h =? SSL3_MT_FINISHED then take_mac else st_ret tt) ;;;
     finish_mac (if version s =? DTLS1_BAD_VER then body else m) ;;;
     st_put (callback msg_callback m) ;;; st_ret (Z.of_nat (length body))) s.
Proof.
  intros [Tb _ _ _ _] Hm Ht Hf m. pose proof (has_message_byte _ _ _ Hm) as Hb. destruct Hm as [Hd _ Hn Hmt].
  unfold dtls_get_message_body. rewrite Hmt, (proj2 (Z.eqb_neq _ _))
    by (unfold is_byte in Tb; lia).
  unfold st_bind, st_lift, st_put, st_get. rewrite Hb.
  destruct ((if hm_type h =? SSL3_MT_FINISHED then take_mac else st_ret tt) s) as [[[]| |] s1] eqn:E1; try done.
  assert (K1 : init_buf s1 = init_buf s /\ init_num s1 = init_num s /\ version s1 = version s).
  { destruct (hm_type h =? _); [by apply Ht|]. by injection E1 as <-. }
  destruct K1 as (B1 & N1 & V1). rewrite V1. unfold init_data in *. rewrite B1, N1, Hn.
  destruct (init_buf s) as [b|]; [|done]. destruct (buf_data b) as [d|] eqn:Ed; [|done].
  pose proof (mem_read_behind _ _ _ Hd eq_refl) as Hbody.
  rewrite Z.add_comm in Hd. rewrite Hbody, Hd. fold m.
  assert (Hfin : forall x, match finish_mac x s1 with
            | (Ok _, s') => init_buf s' = Some b /\ init_num s' = Z.of_nat (length body) | _ => True end).
  { intros x. destruct (finish_mac x s1) as [[[]| |] s2] eqn:E2; try done. apply Hf in E2 as (B2 & N2 & _).
    rewrite B2, N2, B1, N1. done. }
  destruct (version s =? DTLS1_BAD_VER); cbn [negb];
    [specialize (Hfin body)|specialize (Hfin m)]; destruct (finish_mac _ s1) as [[[]| |] s2]; try done;
    destruct Hfin as [Hb2 Hn2]; rewrite Hb2, Hn2, Ed, Hd;
    unfold st_ret; by change (init_num (callback _ _ s2)) with (init_num s2); rewrite Hn2.
Qed.

(** ** A peer that sends fragments of its messages *)

Section Honest.

(** The message with sequence number [q]: its type and its body. *)
Context (M : Z -> Z * list Z).

Definition mtype (q : Z) : Z := fst (M q).
Definition mbody (q : Z) : list Z := snd (M q).
Definition mlen (q : Z) : Z := Z.of_nat (length (mbody q)).

(** Messages are of a size every configuration accepts; a HelloRequest is not
    among them. *)
Definition sendable : Prop := forall q, is_byte (mtype q) /\ Forall is_byte (mbody q) /\ mtype q <> SSL3_MT_HELLO_REQUEST
  /\ mlen q <= DTLS1_HM_HEADER_LENGTH + SSL3_RT_MAX_ENCRYPTED_LENGTH.

Context (HM : sendable) (Hmem : ~ alloc_failed).

(** A fragment: [pc_len] bytes at [pc_off] of message [pc_seq]. *)
Record piece : Type := mkPIECE { pc_seq : Z; pc_off : Z; pc_len : Z }.

Definition hdr (f : piece) : hm_header := mkHM (mtype (pc_seq f)) (mlen (pc_seq f)) (pc_seq f) (pc_off f) (pc_len f).

(** Only an empty message has an empty fragment. *)
Definition piece_ok (f : piece) : Prop :=
  0 <= pc_seq f < 2 ^ 16 /\ 0 <= pc_off f /\ 0 <= pc_len f /\ pc_off f + pc_len f <= mlen (pc_seq f)
  /\ (pc_len f = 0 -> mlen (pc_seq f) = 0).

Definition piece_body (f : piece) : list Z := take (Z.to_nat (pc_len f)) (drop (Z.to_nat (pc_off f)) (mbody (pc_seq f))).
Definition piece_bytes (f : piece) : list Z := wire_header (hdr f) ++ piece_body f.

(** Records: a ChangeCipherSpec, or some fragments. *)
Definition enc (x : option (list piece)) : Z * list Z :=
  match x with
  | None => (SSL3_RT_CHANGE_CIPHER_SPEC, [SSL3_MT_CCS])
  | Some fs => (SSL3_RT_HANDSHAKE, concat (map piece_bytes fs))
  end.

Definition rec_sent (x : option (list piece)) : Prop :=
  match x with None => True | Some fs => fs <> [] /\ Forall piece_ok fs end.

(** Everything in the queue comes from the messages sent. *)
Definition genuine (pq : pqueue hm_fragment) : Prop :=
  forall q f, entry pq q = Some f -> msg_len (msg_header f) = mlen q /\ hm_type (msg_header f) = mtype q
    /\ forall i, 0 <= i -> received f i = true -> byte_at f i = mem_get (mbody q) i.

Record good (fss : list (option (list piece))) (s : SSL) : Prop := {
  g_state : state_ok s;
  g_queue : genuine (queue s);
  g_recs : recs s = map enc fss;
  g_sent : Forall rec_sent fss
}.

(** Unit [i] of message [q] has been received or is on its way. *)
Definition avail (fss : list (option (list piece))) (pq : pqueue hm_fragment) (q i : Z) : Prop :=
  recv pq q i = true
  \/ exists fs f, Some fs ∈ fss /\ f ∈ fs /\ pc_seq f = q /\ covers (hdr f) i = true.

Definition rest_of (fs : list piece) (fss : list (option (list piece))) : list (option (list piece)) :=
  match fs with [] => fss | _ => Some fs :: fss end.

Lemma hdr_ok_piece f : piece_ok f -> hdr_ok (hdr f).
Proof.
  intros (Hq & Ho & Hl & Hle & _). destruct (HM (pc_seq f)) as (Ht & _ & _ & Hm).
  assert (mlen (pc_seq f) < 2 ^ 24).
  { lia. }
  split; simpl; try done; lia.
Qed.

Lemma piece_body_length f : piece_ok f -> Z.of_nat (length (piece_body f)) = pc_len f.
Proof.
  intros (_ & Ho & Hl & Hle & _). unfold piece_body. rewrite length_take, length_drop. unfold mlen in Hle. lia.
Qed.

Lemma wire_header_inj h h' : hdr_ok h -> hdr_ok h' -> wire_header h = wire_header h' -> h = h'.
Proof. intros Hh Hh' E. apply parse_wire in Hh, Hh'. rewrite E in Hh. congruence. Qed.

(** The first fragment of a record of fragments. *)
Lemma record_front f fs : piece_ok f -> let d := snd (enc (Some (f :: fs))) in
  take 12 d = wire_header (hdr f) /\ (12 <= length d)%nat
  /\ take (Z.to_nat (pc_len f)) (drop 12 d) = piece_body f
  /\ drop (Z.to_nat (pc_len f)) (drop 12 d) = concat (map piece_bytes fs).
Proof.
  intros Hf. cbn [enc snd map concat]. change (piece_bytes f) with (wire_header (hdr f) ++ piece_body f).
  rewrite <- !app_assoc.
  assert (Hw : length (wire_header (hdr f)) = 12%nat) by done. pose proof (piece_body_length f Hf) as Hl.
  rewrite take_app_length' by done. rewrite drop_app_length' by done.
  rewrite take_app_length', drop_app_length' by lia. rewrite !length_app. split_and!; try done. lia.
Qed.

Lemma unread_enc fs fss : unread SSL3_RT_HANDSHAKE (concat (map piece_bytes fs)) (map enc fss) = map enc (rest_of fs fss).
Proof. destruct fs as [|f fs]; [done|]. done. Qed.

Lemma rest_of_sent f fs fss : rec_sent (Some (f :: fs)) -> Forall rec_sent fss -> Forall rec_sent (rest_of fs fss).
Proof.
  intros [_ [_ Hfs]%Forall_cons] Hr. destruct fs; [done|]. constructor; done.
Qed.

(** A fragment that was collected came from the messages. *)
Lemma genuine_added pq pq' f : piece_ok f -> genuine pq -> added pq pq' (hdr f) (piece_body f) -> genuine pq'.
Proof.
  intros Hf Hg (g & Hm & Hl & Ht & _ & Hb) q e He. unfold entry in He. rewrite Hm in He. cbn [hdr hm_seq] in *.
  destruct (decide (q = pc_seq f)) as [->|Hne]; [|rewrite lookup_insert_ne in He by done; by apply Hg].
  rewrite lookup_insert_eq in He. injection He as <-. split; [done|]. split.
  - rewrite Ht. destruct (entry pq (pc_seq f)) as [g0|] eqn:E0; [|done]. by apply Hg.
  - intros i Hi Hr. destruct (Hb i Hi Hr) as [(g0 & E0 & Hr0 & ->)|[Hc ->]]; [by apply Hg|].
    destruct Hf as (_ & Ho & Hn & Hle & Hz). unfold covers in Hc. cbn [hdr frag_off frag_len] in *.
    unfold piece_body, mem_get. rewrite !(proj2 (Z.ltb_ge _ _)) by lia.
    destruct (decide (pc_len f = 0)) as [E|].
    + rewrite E. unfold mlen in *. specialize (Hz E). destruct (mbody (pc_seq f)); [|simpl in Hz; lia]. by rewrite drop_nil.
    + rewrite lookup_take_lt, lookup_drop by lia. f_equal. lia.
Qed.

Lemma added_recv pq pq' h bs q i : added pq pq' h bs -> 0 <= i ->
  recv pq' q i = recv pq q i || (bool_decide (q = hm_seq h) && covers h i).
Proof.
  intros (g & Hm & _ & _ & Hr & _) Hi. unfold recv, entry. rewrite Hm. case_bool_decide as E.
  - subst q. rewrite lookup_insert_eq. simpl. rewrite Hr by done. done.
  - rewrite lookup_insert_ne by done. by rewrite orb_false_r.
Qed.

(** Nothing of the message whose turn it is gets lost. *)
Lemma avail_after pq pq' f fs fss q i : 0 <= i -> avail (Some (f :: fs) :: fss) pq q i ->
  (forall j, 0 <= j -> recv pq' q j = recv pq q j || (bool_decide (q = pc_seq f) && covers (hdr f) j)) \/
  (pc_seq f <> q /\ forall j, 0 <= j -> recv pq' q j = recv pq q j) ->
  avail (rest_of fs fss) pq' q i.
Proof.
  intros Hi [Hr|(gs & g & Hgs & Hg & Hq & Hc)] Hnew.
  { left. destruct Hnew as [Hn|[_ Hn]]; rewrite Hn, Hr by done; done. }
  apply elem_of_cons in Hgs as [[= ->]|Hgs].
  - apply elem_of_cons in Hg as [->|Hg].
    + left. destruct Hnew as [Hn|[Hn _]]; [|by destruct Hn]. rewrite Hn by done.
      rewrite bool_decide_eq_true_2 by done. rewrite Hc. apply orb_true_r.
    + right. exists fs, g. destruct fs; [by apply elem_of_nil in Hg|]. split_and!; try done. by left.
  - right. exists gs, g. split_and!; try done. destruct fs; [done|]. by right.
Qed.

(** A complete message of the queue is the message sent. *)
Lemma genuine_body pq q f : queue_ok pq -> genuine pq -> entry pq q = Some f -> reassembly f = None -> body_of f = mbody q.
Proof.
  intros Hq Hg He Hr. destruct (Hg q f He) as (Hl & _ & Hb).
  assert (Hw : frag_wf f).
  { unfold entry in He. apply fmap_Some in He as (it & Hit & ->). by destruct (proj2 Hq _ _ Hit) as (_ & _ & _ & _ & _ & Hw). }
  pose proof (body_length f Hw) as Hbl. apply list_eq_same_length with (length (mbody q)); [done| |].
  { unfold mlen in Hl. lia. }
  intros i x y Hi Hx Hy. specialize (Hb (Z.of_nat i) ltac:(lia)).
  unfold received in Hb. rewrite Hr, Hl in Hb. unfold mlen in Hb. specialize (Hb ltac:(lia)).
  unfold byte_at, body_of, mem_get in *.
  destruct (fragment f) as [d|]; [|done]. rewrite (proj2 (Z.ltb_ge _ 0)), Nat2Z.id in Hb by lia. simpl in Hx. congruence.
Qed.

Definition turn (s : SSL) : Z := handshake_read_seq (d1_of s).

(** What the calls keep while no message is handed on. *)
Record kept (fss : list (option (list piece))) (s : SSL) (fss' : list (option (list piece))) (s' : SSL) : Prop := {
  k_good : good fss' s';
  k_seq : turn s' = turn s;
  k_server : server s' = server s;
  k_hand : hand s' = hand s;
  k_avail : forall i, 0 <= i -> avail fss (queue s) (turn s) i -> avail fss' (queue s') (turn s) i;
  k_ccs : None ∈ fss' -> None ∈ fss
}.

Lemma kept_chain fss s fss1 s1 fss2 s2 : kept fss s fss1 s1 -> kept fss1 s1 fss2 s2 -> kept fss s fss2 s2.
Proof.
  intros [_ H1 H2 H3 H4 H5] [G K1 K2 K3 K4 K5]. split; try congruence; auto.
  intros i Hi Ha. rewrite <- H1. apply K4; [done|]. rewrite H1. auto.
Qed.

(** The record layer has nothing, and the message whose turn it is is not complete. *)
Definition waiting (s : SSL) : Prop :=
  (exists s1 s2, read DTLS1_HM_HEADER_LENGTH s1 = (None, s2) /\ recs s1 = recs s /\ frame s1 = fr /\ usable (env (rest s1)))
  /\ ~ forall i, 0 <= i < Z.max 1 (mlen (turn s)) -> recv (queue s) (turn s) i = true.

Definition whole (q : Z) : hm_header := hdr (mkPIECE q 0 (mlen q)).

Inductive honest_result (fss : list (option (list piece))) (s : SSL) : reassembled -> SSL -> Prop :=
| HR_message len q s' fss' : 0 <= q < 2 ^ 16 -> q = turn s \/ hello_again q s = true ->
    holds (whole q) (mbody q) s' -> init_num s' = mlen q -> turn s' = q ->
    queue_ok (queue s') -> genuine (queue s') -> recs s' = map enc fss' -> Forall rec_sent fss' ->
    sourced s' -> honest_result fss s (Message len) s'
| HR_ccs len s' fss' : message_type (tmp_of s') = SSL3_MT_CHANGE_CIPHER_SPEC -> None ∈ fss ->
    kept fss s fss' s' -> honest_result fss s (Message len) s'
| HR_retry s' fss' : kept fss s fss' s' -> (size (recs s') < size (recs s))%nat ->
    honest_result fss s (NoMessage DTLS1_HM_FRAGMENT_RETRY) s'
| HR_blocked s' : kept fss s fss s' -> waiting s' -> honest_result fss s (NoMessage 0) s'.

Lemma genuine_sub pq pq' : genuine pq -> (forall k it, pq_map pq' !! k = Some it -> pq_map pq !! k = Some it) -> genuine pq'.
Proof.
  intros Hg Hsub q f (it & Hit & ->)%fmap_Some. apply Hg. unfold entry. by rewrite (Hsub _ _ Hit).
Qed.

Lemma max_len (s : SSL) q : mlen q <= dtls1_max_handshake_message_len s.
Proof. destruct (HM q) as (_ & _ & _ & Hm). unfold dtls1_max_handshake_message_len. case_match; lia. Qed.

Lemma not_refused (s : SSL) f : piece_ok f -> genuine (queue s) -> ~ refused s (hdr f).
Proof.
  intros (_ & _ & _ & Hle & _) Hg [Hlt|[Hlt|[(g & He & Hne)|Ha]]]; cbn [hdr msg_len frag_off frag_len hm_seq] in *; [lia| | |done].
  - pose proof (max_len s (pc_seq f)). lia.
  - by destruct (Hg _ _ He) as [? _].
Qed.

Lemma recv_same pq pq' q i : pq_map pq' !! q = pq_map pq !! q -> recv pq' q i = recv pq q i.
Proof. unfold recv, entry. by intros ->. Qed.

Lemma holds_whole h q body (s : SSL) : hm_type h = mtype q -> msg_len h = mlen q -> hm_seq h = q ->
  holds h body s -> holds (whole q) body s.
Proof. intros Ht Hl Hs [H1 H2 H3]. unfold whole, hdr. split; simpl; by rewrite <- ?Ht, <- ?Hl, <- ?Hs. Qed.

Lemma piece_whole f : piece_ok f -> pc_len f = 0 \/ mlen (pc_seq f) <= pc_len f ->
  piece_body f = mbody (pc_seq f) /\ pc_len f = mlen (pc_seq f).
Proof.
  intros (_ & Ho & Hn & Hle & Hz) Hfl. assert (pc_len f = mlen (pc_seq f)) as E by lia. split; [|done].
  assert (E0 : pc_off f = 0) by lia. unfold piece_body, mlen in *. rewrite E, E0, drop_0, Nat2Z.id. by apply take_ge.
Qed.

Lemma hello_again_same q (s s' : SSL) : turn s' = turn s -> server s' = server s -> hand s' = hand s ->
  hello_again q s' = hello_again q s.
Proof. unfold hello_again, turn. by intros -> -> ->. Qed.

(** A fragment of a message. *)
Lemma fragment_honest f fs fss pq s s2 p redo res : let d := snd (enc (Some (f :: fs))) in
  rec_sent (Some (f :: fs)) -> Forall rec_sent fss -> recs s = map enc (Some (f :: fs) :: fss) ->
  turn s2 = turn s -> server s2 = server s -> hand s2 = hand s -> queue s2 = pq -> queue_ok pq -> genuine pq ->
  (forall i, recv pq (turn s) i = recv (queue s) (turn s) i) ->
  at_fragment records record_left fr usable SSL3_RT_HANDSHAKE (drop 12 d) (map enc fss) (hdr f) p s2 ->
  fragment_outcome msg_callback records record_left usable SSL3_RT_HANDSHAKE (drop 12 d) (map enc fss) (hdr f) s2 redo res ->
  exists r s', res = (Ok (Some r), s') /\ honest_result (Some (f :: fs) :: fss) s r s'.
Proof.
  intros d Hsent Hfss Hr Ht Hsv Hhd Hqe Hq Hg Hrecv Haf Hout. pose proof Hsent as [_ [Hf Hfs]%Forall_cons].
  destruct (record_front f fs Hf) as (E12 & Hl12 & Ebody & Erest). fold d in E12, Hl12, Ebody, Erest.
  pose proof Haf as [Hst _ _ _ Hat _ _]. pose proof (piece_body_length f Hf) as Hbl.
  destruct (HM (pc_seq f)) as (_ & _ & Hnh & _).
  assert (Hrest : forall r, at_record SSL3_RT_HANDSHAKE (drop (Z.to_nat (frag_len (hdr f))) (drop 12 d)) (map enc fss) r ->
            records (at_env r) = map enc (rest_of fs fss) /\ Forall rec_ok (records (at_env r))
            /\ (size (records (at_env r)) < size (recs s))%nat).
  { intros r Hat'. split; [|split].
    - rewrite (proj1 Hat'). cbn [hdr frag_len]. rewrite Erest. apply unread_enc.
    - eapply at_record_ok; [apply Hst|apply Hat|done].
    - rewrite (proj1 Hat'), Hr, drop_drop. apply size_unread. lia. }
  rewrite <- Hqe in Hg. destruct Hout as [pq' r -> Hq' Hat' Hl Hadd|m -> Ht0 _|r s' -> [Hho Hse Htu Hqu Hen Hfe] Hn Hat' Hl Hfl
    |c pq' r k -> Hc Hq' Hat' Href|_ Hbad].
  - destruct (Hrest r Hat') as (Hrr & Hro & Hsz). eexists _, _. split; [done|].
    apply (HR_retry _ _ _ (rest_of fs fss)); [|done].
    cbn [hdr frag_len hm_seq] in Hadd. rewrite Ebody in Hadd.
    split; try done.
    + split; [apply state_ok_put; try done; apply Hat'| |done|by eapply rest_of_sent].
      change (queue (put pq' r s2)) with pq'. destruct Hadd as [Hadd|[-> _]]; [by eapply genuine_added|done].
    + intros i Hi Ha. change (queue (put pq' r s2)) with pq'. eapply (avail_after (queue s)); [done|done|].
      rewrite <- Ht in *. destruct Hadd as [Hadd|(-> & Hne & _)].
      * left. intros j Hj. rewrite (added_recv _ _ _ _ _ _ Hadd Hj), Hqe, Hrecv. done.
      * right. split; [done|]. intros j Hj. by rewrite Hqe, Hrecv.
    + intros Hnone. destruct fs; [by right|]. apply elem_of_cons in Hnone as [|]; [done|by right].
  - done.
  - destruct (Hrest r Hat') as (Hrr & Hro & Hsz). eexists _, _. split; [done|].
    cbn [hdr frag_len msg_len] in Hfl. destruct (piece_whole f Hf Hfl) as [Epb Epl]. cbn [hdr frag_len] in Hho. rewrite Ebody, Epb in Hho.
    apply (HR_message _ _ _ (pc_seq f) _ (rest_of fs fss)); try done.
    + apply Hf.
    + destruct Htu as [Htu|Htu]; [left; by rewrite <- Ht|right]. by rewrite <- (hello_again_same (pc_seq f) s s2).
    + by eapply (holds_whole (hdr f)).
    + by rewrite Hn.
    + by rewrite Hqu, Hqe.
    + by rewrite Hqu.
    + apply (f_equal at_env) in Hen; simpl in Hen. unfold FragQueue.recs. by rewrite Hen.
    + by eapply rest_of_sent.
    + by eapply sourced_at.
  - by destruct (not_refused s2 f Hf Hg).
  - exfalso. destruct Hbad as [Hlt|[Href|[Ht0 _]]]; [|by destruct (not_refused s2 f Hf Hg)|done].
    apply (f_equal length) in Ebody. rewrite length_take in Ebody. cbn [hdr frag_len] in Hlt. lia.
Qed.

(** The record that is read next. *)
Lemma next_record fss t d rs : map enc fss = (t, d) :: rs ->
  (t = SSL3_RT_CHANGE_CIPHER_SPEC /\ d = [SSL3_MT_CCS] /\ exists fss', fss = None :: fss' /\ rs = map enc fss')
  \/ (t = SSL3_RT_HANDSHAKE /\ exists fs fss', fss = Some fs :: fss' /\ d = snd (enc (Some fs)) /\ rs = map enc fss').
Proof.
  destruct fss as [|[fs|] fss]; [done|..]; simpl; intros [= <- <- <-]; [right|left]; split; try done; eauto.
Qed.

Lemma ccs_kept fss pq r b len s : good (None :: fss) s -> buf_ok b -> queue_ok pq -> genuine pq ->
  (forall i, recv pq (turn s) i = recv (queue s) (turn s) i) -> records (at_env r) = map enc fss -> usable (at_env r) ->
  kept (None :: fss) s fss (ccs_state len b (put pq r s)).
Proof.
  intros [[_ _ Hs Hh Hrs Hfr _] _ Hr Hsent] Hb Hq Hg Hrecv Hrr Hu. apply Forall_cons in Hsent as [_ Hsent].
  rewrite Hr in Hrs. apply Forall_cons in Hrs as [_ Hrs].
  split; try done.
  - split; try done. split; try done; [by exists b|]. unfold FragQueue.recs. simpl. by rewrite Hrr.
  - intros i Hi [Ha|(fs & f & Hfs & Ha)]; [left; by rewrite <- Ha, <- Hrecv|].
    apply elem_of_cons in Hfs as [|Hfs]; [done|]. right. by exists fs, f.
  - by right.
Qed.

(** A message that is not complete misses something. *)
Lemma incomplete pq q : queue_ok pq -> genuine pq -> (forall f, entry pq q = Some f -> reassembly f <> None) ->
  ~ forall i, 0 <= i < Z.max 1 (mlen q) -> recv pq q i = true.
Proof.
  intros Hq Hg Hno Hall. unfold recv in Hall. destruct (entry pq q) as [f|] eqn:Ef; [|by specialize (Hall 0 ltac:(lia))].
  apply (Hno f eq_refl). destruct (Hg _ _ Ef) as (Hlf & _). apply received_all.
  - unfold entry in Ef. apply fmap_Some in Ef as (it & Hit & ->). by destruct (proj2 Hq _ _ Hit) as (_ & _ & _ & _ & _ & ?).
  - intros i Hi. apply Hall. lia.
Qed.

Lemma loop_honest n p fss s : good fss s -> init_block s = p -> (size (recs s) <= n)%nat ->
  exists r s', loop n p s = (Ok (Some r), s') /\ honest_result fss s r s'.
Proof.
  intros Hgood Hp Hn. pose proof Hgood as [Hst Hg Hrecs Hsent]. pose proof Hst as [_ Hq Hs _ Hrok].
  destruct (round_spec msg_callback records record_left fr usable read n p s Hst Hp)
    as [f pq s' E He Hre [Hho Hse Htu Hqu Hen Hfs] Hq' Hsub|f _ He Hwhy|pq Hq' Hge Hsub Hno Hhd].
  - rewrite E. eexists _, _. split; [done|]. destruct (Hg _ _ He) as (Hl & Ht & _).
    destruct (item_hdr_ok _ _ Hq He) as [Hh _]. rewrite (genuine_body _ _ _ Hq Hg He Hre) in Hho.
    apply (HR_message _ _ _ (hm_seq (msg_header f)) _ fss); try done; try by apply Hh.
    + apply (holds_whole (msg_header f)); try done. destruct Hho. by split.
    + change (queue (set_init_num _ s')) with (queue s'). by rewrite Hqu.
    + change (queue (set_init_num _ s')) with (queue s'). rewrite Hqu. by eapply genuine_sub.
    + apply (f_equal at_env) in Hen; simpl in Hen. unfold FragQueue.recs in *. simpl. by rewrite Hen.
    + by apply (sourced_same s).
  - exfalso. destruct (Hg _ _ He) as (Hl & _). destruct Hwhy as [Hlt|]; [|done].
    pose proof (max_len s (hm_seq (msg_header f))). lia.
  - assert (Hg' : genuine pq) by by eapply genuine_sub.
    assert (Hrecv : forall i, recv pq (turn s) i = recv (queue s) (turn s) i).
    { intros i. apply recv_same, Hge. unfold turn. lia. }
    destruct Hhd as [r s1 E Hr Hu Hnone|d rs r b len Er E Hb Hat _|t d rs Er _ Hbad|t d rs h r b Er Ht Hl Hw Haf E].
    + rewrite E. eexists _, _. split; [done|]. apply HR_blocked; [split; try done|].
      * split; try done; [|by unfold FragQueue.recs in *; simpl; rewrite Hr].
        destruct (state_ok_put pq r s Hst Hq') as [? ? ? ? ? ? ?]; [by rewrite Hr|done|]. by split.
      * intros i Hi [Ha|Ha]; [left; by rewrite <- Ha, <- Hrecv|by right].
      * split; [eexists _, _; split; [done|]; unfold FragQueue.recs; simpl; split; [by rewrite Hr|split; apply Hst]|].
        change (turn (set_rwstate _ _)) with (turn s). change (queue (set_rwstate _ _)) with pq.
        by apply (incomplete pq (turn s)).
    + rewrite E. eexists _, _. split; [done|]. rewrite Hrecs in Er.
      destruct (next_record _ _ _ _ Er) as [(_ & -> & fss' & -> & ->)|[? _]]; [|done].
      apply (HR_ccs _ _ _ _ fss'); [done|by left|]. apply ccs_kept; try done; [by rewrite (proj1 Hat)|apply Hat].
    + exfalso. rewrite Hrecs in Er. destruct (next_record _ _ _ _ Er) as [(-> & -> & _)|(-> & fs & fss' & -> & -> & ->)];
        [by destruct Hbad as [[_ ?]|[? _]]|].
      destruct Hbad as [[? _]|[_ Hlt]]; [done|]. apply Forall_cons in Hsent as [[Hne Hfs] _].
      destruct fs as [|f fs]; [done|]. apply Forall_cons in Hfs as [Hf _]. destruct (record_front f fs Hf) as (_ & ? & _). lia.
    + rewrite Hrecs in Er. destruct (next_record _ _ _ _ Er) as [(-> & _)|(-> & fs & fss' & -> & -> & ->)]; [done|].
      apply Forall_cons in Hsent as [Hs1 Hsent]. pose proof Hs1 as [Hne Hfs]. destruct fs as [|f fs]; [done|].
      apply Forall_cons in Hfs as [Hf _]. destruct (record_front f fs Hf) as (E12 & _).
      assert (Eh : h = hdr f).
      { apply wire_header_inj; [apply Haf|by apply hdr_ok_piece|congruence]. }
      subst h. rewrite E.
      by refine (fragment_honest f fs fss' pq s _ p _ _ Hs1 Hsent Hrecs _ _ _ _ Hq' Hg' Hrecv Haf
                (process_header_spec _ _ _ _ _ _ _ _ _ _ _ _ _ Haf)).
Qed.

(** The message with sequence number [q] is handed on. *)
Definition delivers (q : Z) (fss : list (option (list piece))) (res : ret (option Z) * SSL) : Prop :=
  exists s', res = (Ok (Some (mtype q)), s') /\ has_message (whole q) (mbody q) s'
    /\ turn s' = next_seq q /\ good fss s'.

Inductive honest_call (fss : list (option (list piece))) (s : SSL) (res : ret (option Z) * SSL) : Prop :=
| HC_message q fss' : q = turn s \/ hello_again q s = true -> delivers q fss' res -> honest_call fss s res
| HC_ccs s' fss' : res = (Ok (Some SSL3_MT_CHANGE_CIPHER_SPEC), s') -> None ∈ fss -> kept fss s fss' s' ->
    honest_call fss s res
| HC_waiting s' fss' : res = (Fail, s') -> kept fss s fss' s' -> waiting s' -> honest_call fss s res.

Lemma kept_callback fss s fss' s' m : kept fss s fss' s' -> kept fss s fss' (callback msg_callback m s').
Proof.
  intros [[Hst Hg Hr Hs] H1 H2 H3 H4 H5]. split; try done. split; try done; [by apply state_ok_callback|].
  rewrite <- Hr. unfold FragQueue.recs. simpl. apply (proj1 (Hcb _ _)).
Qed.

Lemma whole_ok q : 0 <= q < 2 ^ 16 -> hdr_ok (whole q).
Proof. intros Hq. apply hdr_ok_piece. unfold piece_ok, mlen. simpl. lia. Qed.

Lemma deliver_message q fss s1 : 0 <= q < 2 ^ 16 -> holds (whole q) (mbody q) s1 -> init_num s1 = mlen q ->
  turn s1 = q -> queue_ok (queue s1) -> genuine (queue s1) -> recs s1 = map enc fss -> Forall rec_sent fss ->
  sourced s1 -> delivers q fss (finish_message msg_callback s1).
Proof.
  intros Hq Hho Hn Ht Hqo Hg Hr Hs (Hrok & Hfr & Hu).
  destruct (finish_message_spec msg_callback (whole q) (mbody q) s1 (whole_ok q Hq) Hho)
    as (s' & E & [Hd Hm Hn' Hmt Hd1 He (b & Eb & Hb) Hfs]).
  exists s'. split; [done|]. split; [split; try done; by rewrite Hn'|].
  unfold turn in *. split; [by rewrite Hd1, Ht|].
  split; [split| | |]; unfold queue, FragQueue.recs in *; rewrite ?Hd1, ?He; simpl; try done; [by exists b|apply next_seq_range|congruence].
Qed.

Lemma get_message_honest fuel : forall fss s, good fss s -> (size (recs s) < fuel)%nat ->
  honest_call fss s (get_message_loop read record_left msg_callback fuel s).
Proof.
  induction fuel as [|n IH]; intros fss s Hg Hf; [lia|]. cbn [get_message_loop].
  destruct (loop_honest n (init_block s) fss s Hg eq_refl ltac:(lia)) as (r & s1 & E & Hr).
  change (dtls_get_reassembled_message read record_left msg_callback n s = (Ok (Some r), s1)) in E.
  rewrite (st_bind_ok _ _ _ _ _ E).
  destruct Hr as [len q s1 fss' Hq Htu Hho Hn Ht Hqo Hge Hre Hse Hrok|len s1 fss' Ht Hnone Hk|s1 fss' Hk Hsz|s1 Hk Hw].
  - eapply HC_message; [done|]. by apply deliver_message.
  - destruct (so_buf _ _ _ _ (g_state _ _ (k_good _ _ _ _ Hk))) as (b & Eb & Hb).
    destruct (finish_ccs s1 b Eb Hb Ht) as (m & ->). eapply HC_ccs; [done|done|]. by apply kept_callback.
  - destruct (IH fss' s1 (k_good _ _ _ _ Hk) ltac:(lia)) as [q fss2 Htu Hd|s2 fss2 E2 Hnone Hk2|s2 fss2 E2 Hk2 Hw].
    + eapply HC_message; [|exact Hd]. rewrite (k_seq _ _ _ _ Hk) in Htu.
      rewrite (hello_again_same q s s1) in Htu; [done|apply Hk..].
    + eapply HC_ccs; [exact E2|by apply (k_ccs _ _ _ _ Hk)|]. by eapply kept_chain.
    + eapply HC_waiting; [exact E2| |done]. by eapply kept_chain.
  - by eapply HC_waiting.
Qed.

Lemma good_start fss (s : SSL) : good fss s -> good fss (upd_d1 (set_r_msg_hdr no_header) s).
Proof. intros [? ? ? ?]. split; try done. by apply state_ok_start. Qed.


Lemma message_handed_on (fuel : nat) (fss : list (option (list piece))) (s : SSL) (Hg : good fss s)
  (Hf : (size (recs s) < fuel)%nat)
  (Hprompt : forall len s1 s2, 0 < len -> frame s1 = fr -> usable (env (rest s1)) -> read len s1 = (None, s2) -> recs s1 = [])
  (Hccs : None ∉ fss)
  (Hall : forall i, 0 <= i < Z.max 1 (mlen (turn s)) -> avail fss (queue s) (turn s) i) :
  exists q fss', (q = turn s \/ hello_again q s = true)
    /\ delivers q fss' (dtls_get_message read record_left msg_callback fuel s).
Proof.
  destruct (get_message_honest fuel fss _ (good_start fss s Hg) Hf) as [q fss' Htu Hd|s' fss' E Hn Hk|s' fss' E Hk Hw].
  - by exists q, fss'.
  - done.
  - exfalso. destruct Hw as [(s1 & s2 & Er & E1 & Hf1 & Hu1) Hno]. apply Hno. rewrite (k_seq _ _ _ _ Hk). intros i Hi.
    destruct (k_avail _ _ _ _ Hk i ltac:(lia) (Hall i Hi)) as [Ha|(fs & f & Hfs & _)]; [done|]. exfalso.
    rewrite (Hprompt 12 _ _ ltac:(done) Hf1 Hu1 Er), (g_recs _ _ (k_good _ _ _ _ Hk)) in E1. destruct fss'; [|done]. by apply elem_of_nil in Hfs.
Qed.

End Honest.
End Delivery.

(** ** A record layer for examples *)

(** The current record with what is left of it, and the records behind it. *)
Definition source : Type := Z * list Z * list (Z * list Z).

#[export] Instance source_callees : Callees (DTLS source) := idle_callees (fun s => (None, s)).

Definition source_records (r : source) : list (Z * list Z) := let '(t, d, rs) := r in unread t d rs.
Definition source_left (r : source) : Z := Z.of_nat (length (snd (fst r))).

Definition source_read (len : Z) (s : SSL (DTLS source)) : option (Z * list Z) * SSL (DTLS source) :=
  match source_records (env (rest s)) with
  | [] => (None, s)
  | (t, d) :: rs => (Some (t, take (Z.to_nat len) d), set_env (t, drop (Z.to_nat len) d, rs) s)
  end.

Definition always (r : source) : Prop := True.

#[export] Instance source_ok fr : RecordSource source_records source_left fr always source_read.
Proof.
  split; intros len s; unfold source_read, recs.
  - intros t bs s' Hl _ _ E. destruct (source_records (env (rest s))) as [|[t0 d] rs]; [done|]. inversion E; subst.
    exists d, rs, (mkMOMENT (t, drop (Z.to_nat len) d, rs) (rwstate s)). by split_and!.
  - intros s' Hl _ _ E. destruct (source_records (env (rest s))) as [|[t d] rs] eqn:Er; [|done]. injection E as <-.
    exists (now s). rewrite set_now_same. simpl. destruct (env (rest s)) as [[t [|x d]] rs]; [|done].
    by split_and!.
Qed.

Lemma source_prompt fr len s1 s2 : 0 < len -> frame s1 = fr -> always (env (rest s1)) -> source_read len s1 = (None, s2) -> recs source_records s1 = [].
Proof. intros _ _ _. unfold source_read, recs. by destruct (source_records _) as [|[t d] rs]. Qed.

(** Every message is four bytes; the first one comes in three overlapping
    fragments, the last part first, with the second message in between. *)
Definition sample_M (q : Z) : Z * list Z := (2, [7; 8; 9; 10]).
Definition sample_pieces : list (option (list piece)) :=
  [Some [mkPIECE 0 2 2]; Some [mkPIECE 0 1 2; mkPIECE 1 0 4]; Some [mkPIECE 0 0 2]].

Definition sample_conn_dtls : SSL (DTLS source) :=
  set_init_buf (Some (mkBUF_MEM 0 (Some (replicate (Z.to_nat 16384) 0)) 16384 0))
    (sample_conn (mkDTLS (mkD1 0 (mkDW 0 0 no_header 0 0 false [] (mkDT 0 0 0)) no_header []) (0, [], map (enc sample_M) sample_pieces))
       TLS_ST_CW_CLNT_HELLO 0xfefd ecdhe_rsa).

Lemma sample_sendable : sendable sample_M.
Proof. intros q. split_and!; [done|repeat constructor; done|done|done]. Qed.

Lemma zero_memory : ~ @alloc_failed zero_libc.
Proof. intros (n & _ & [E|E]); discriminate E. Qed.

Lemma sample_good : good source_records (frame sample_conn_dtls) always sample_M sample_pieces sample_conn_dtls.
Proof.
  split; [split| | |].
  - eexists. split; [reflexivity|]. split; [|done]. split; [done|]. cbn [buf_data buf_max]. rewrite length_replicate.
    split; [by rewrite Z2Nat.id|]. apply Forall_replicate, is_byte_0.
  - split; [by repeat constructor|done].
  - done.
  - done.
  - repeat constructor; vm_compute; try done; repeat constructor; done.
  - done.
  - done.
  - intros q f. done.
  - done.
  - repeat constructor; done.
Qed.

Lemma sample_avail i : 0 <= i < Z.max 1 (mlen sample_M (turn sample_conn_dtls)) ->
  avail sample_M sample_pieces (queue sample_conn_dtls) (turn sample_conn_dtls) i.
Proof.
  intros Hi. change (Z.max 1 _) with 4 in Hi. right.
  destruct (decide (i < 2)).
  - exists [mkPIECE 0 0 2], (mkPIECE 0 0 2). split_and!; [by do 2 right; left|by left|done|]. unfold covers. simpl. lia.
  - exists [mkPIECE 0 2 2], (mkPIECE 0 2 2). split_and!; [by left|by left|done|]. unfold covers. simpl. lia.
Qed.

(** A fragment without bytes of a message of four is taken for the message. *)
Lemma empty_fragment_accepted :
  let s0 := set_env (0, [], [(SSL3_RT_HANDSHAKE, wire_header (mkHM 2 4 0 0 0))]) sample_conn_dtls in
  let '(r, s) := dtls_get_message (L := zero_libc) source_read source_left (fun _ r => r) 100 s0 in
  r = Ok (Some 2) /\ init_num s = 0 /\ message_size (tmp_of s) = 4
  /\ init_data 0 12 s = Some [2; 0; 0; 4; 0; 0; 0; 0; 0; 0; 0; 4].
Proof. vm_compute. repeat split. Qed.

Lemma dtls_get_message_safe_witness :
  safe_call source_records (frame sample_conn_dtls) always (dtls_get_message (L := zero_libc) source_read source_left (fun _ r => r) 100 sample_conn_dtls).
Proof.
  apply (dtls_get_message_safe (L := zero_libc) (LO := zero_libc_ok) (fun _ r => r) source_records source_left
           (frame sample_conn_dtls) always source_read (fun _ _ => conj eq_refl (fun H => H)) 100 sample_conn_dtls (g_state _ _ _ _ _ _ sample_good)).
  vm_compute. lia.
Defined.


End DtlsDelivery.
