(* ===== verification/DtlsSend.v ===== *)
(** * Sending handshake messages over DTLS

    ssl/statem/statem_dtls.c, the sending side: the headers of messages,
    [dtls1_do_write], which cuts a message into fragments that fit into
    datagrams, and the messages kept for retransmission. *)

From stdpp Require Import prelude.
From Stdlib Require Import ZArith Lia.
From S2P Require Import Prelude Packet Buffer WPacket PQueue RecordTypes StatemTypes StatemLib.
From S2P Require Import StatemClnt StatemSrvr Statem Quic Framing DtlsFrag.

Local Open Scope Z_scope.
Local Open Scope st_scope.

Module DtlsSend.
Import Quic Framing DtlsFrag.

Abbreviation DTLS1_CCS_HEADER_LENGTH := (1)%Z.
Abbreviation SSL_OP_NO_QUERY_MTU := (4096)%Z.

(** What the datagram transport and the write record layer are asked. *)
Class Dgram (R : Type) : Type := {
  BIO_wpending : R -> Z;
  BIO_flush : R -> Z * R;
  BIO_dgram_get_mtu_overhead : R -> Z;
  dgram_query_mtu : R -> Z * R;
  dgram_set_mtu : Z -> R -> R;
  dgram_mtu_exceeded : R -> bool * R;
  get_max_record_overhead : R -> Z;
  get_wrl : R -> Z;
  (* restores a write record layer and gives it the current transport *)
  restore_wrl : Z -> R -> R
}.

Definition set_w_msg_hdr (v : hm_header) (w : DTLS1_WRITE) : DTLS1_WRITE :=
  mkDW (handshake_write_seq w) (next_handshake_write_seq w) v (mtu w) (link_mtu w) (retransmitting w) (sent_messages w) (timer w).
Definition set_write_seq (v : Z) (w : DTLS1_WRITE) : DTLS1_WRITE :=
  mkDW v (next_handshake_write_seq w) (w_msg_hdr w) (mtu w) (link_mtu w) (retransmitting w) (sent_messages w) (timer w).
Definition set_mtus (m l : Z) (w : DTLS1_WRITE) : DTLS1_WRITE :=
  mkDW (handshake_write_seq w) (next_handshake_write_seq w) (w_msg_hdr w) m l (retransmitting w) (sent_messages w) (timer w).
Definition set_retransmitting (v : bool) (w : DTLS1_WRITE) : DTLS1_WRITE :=
  mkDW (handshake_write_seq w) (next_handshake_write_seq w) (w_msg_hdr w) (mtu w) (link_mtu w) v (sent_messages w) (timer w).
Definition set_sent (v : pqueue sent_fragment) (w : DTLS1_WRITE) : DTLS1_WRITE :=
  mkDW (handshake_write_seq w) (next_handshake_write_seq w) (w_msg_hdr w) (mtu w) (link_mtu w) (retransmitting w) v (timer w).

Definition dtls1_get_queue_priority (seq : Z) (is_ccs : bool) : Z := seq * 2 - (if is_ccs then 1 else 0).

Section Ops.
Context {R : Type} `{C : Callees (DTLS R)} `{L : Libc} `{D : Dgram R}.
Local Abbreviation SSL := (SSL (DTLS R)).

(** The record layer returns a code and how much was written. *)
Context (dtls1_write_bytes : Z -> list Z -> SSL -> Z * Z * SSL) (ssl_get_max_send_fragment : SSL -> Z)
  (ssl3_finish_mac : list Z -> ST SSL unit) (msg_callback : list Z -> R -> R).

Definition w_of (s : SSL) : DTLS1_WRITE := writing (d1_of s).
Definition upd_w (f : DTLS1_WRITE -> DTLS1_WRITE) (s : SSL) : SSL :=
  upd_d1 (fun d => mkD1 (handshake_read_seq d) (f (writing d)) (r_msg_hdr d) (buffered_messages d)) s.
Definition env_of (s : SSL) : R := env (rest s).
Definition upd_env (f : R -> R) (s : SSL) : SSL := upd_rest (fun w => mkDTLS (d1 w) (f (env w))) s.

(** ** Headers *)

Definition dtls1_set_message_header_int (mt len seq_num frag_off frag_len : Z) (s : SSL) : SSL :=
  upd_w (set_w_msg_hdr (mkHM mt len seq_num frag_off frag_len)) s.

Definition dtls1_set_message_header (mt len frag_off frag_len : Z) (s : SSL) : SSL :=
  let s := if frag_off =? 0
           then upd_w (fun w => set_next_write_seq ((next_handshake_write_seq w + 1) `mod` 2 ^ 16)
                                  (set_write_seq (next_handshake_write_seq w) w)) s
           else s in
  dtls1_set_message_header_int mt len (handshake_write_seq (w_of s)) frag_off frag_len s.

Definition dtls1_fix_message_header (frag_off frag_len : Z) (s : SSL) : SSL :=
  upd_w (fun w => set_w_msg_hdr (mkHM (hm_type (w_msg_hdr w)) (msg_len (w_msg_hdr w)) (hm_seq (w_msg_hdr w))
                                   frag_off frag_len) w) s.

Definition dtls1_set_handshake_header (htype : Z) : ST (WPACKET * SSL) unit := fun '(pkt, s) =>
  let lift (m : ST WPACKET unit) (s : SSL) : ret unit * (WPACKET * SSL) :=
    let '(r, pkt) := m pkt in (r, (pkt, s)) in
  if htype =? SSL3_MT_CHANGE_CIPHER_SPEC then
    let s := upd_w (fun w => set_write_seq (next_handshake_write_seq w) w) s in
    lift (WPACKET_put_bytes__ SSL3_MT_CCS 1)
      (dtls1_set_message_header_int SSL3_MT_CCS 0 (handshake_write_seq (w_of s)) 0 0 s)
  else
    lift (WPACKET_allocate_bytes DTLS1_HM_HEADER_LENGTH ;;; WPACKET_start_sub_packet)
      (dtls1_set_message_header htype 0 0 0 s).

(** ** The size of datagrams *)

Abbreviation g_probable_mtu := ([1500; 512; 256])%Z.
Definition dtls1_link_min_mtu : Z := List.last g_probable_mtu 0.
Definition dtls1_min_mtu (s : SSL) : Z := wrap64 (dtls1_link_min_mtu - BIO_dgram_get_mtu_overhead (env_of s)).

Definition dtls1_query_mtu : ST SSL unit := fun s =>
  let s := if link_mtu (w_of s) =? 0 then s
           else upd_w (set_mtus (wrap64 (link_mtu (w_of s) - BIO_dgram_get_mtu_overhead (env_of s))) 0) s in
  if mtu (w_of s) <? dtls1_min_mtu s then
    if has (options s) SSL_OP_NO_QUERY_MTU then (Fail, s)
    else
      let '(m, r) := dgram_query_mtu (env_of s) in
      let s := upd_w (fun w => set_mtus (wrap64 m) (link_mtu w) w) (upd_env (fun _ => r) s) in
      if mtu (w_of s) <? dtls1_min_mtu s then
        let m := dtls1_min_mtu s in
        (Ok tt, upd_env (dgram_set_mtu m) (upd_w (fun w => set_mtus m (link_mtu w) w) s))
      else (Ok tt, s)
  else (Ok tt, s).

(** ** Writing a message *)

(** [inl code]: the function returns; [inr]: it goes on. *)
Definition stop {A} (code : Z) : ST SSL (Z + A) := st_ret (inl code).

(** The offset of the fragment to write; room is made for its header. *)
Definition next_fragment (type off : Z) : ST SSL (Z + Z) := fun s =>
  if (type =? SSL3_RT_HANDSHAKE) && negb (init_off s =? 0) then
    if 0 <? off then
      if init_off s <=? DTLS1_HM_HEADER_LENGTH then stop (-1) s
      else (Ok (inr off), set_init_num (init_num s + DTLS1_HM_HEADER_LENGTH)
                            (set_init_off (init_off s - DTLS1_HM_HEADER_LENGTH) s))
    else (Ok (inr (frag_off (w_msg_hdr (w_of s)))), s)
  else (Ok (inr off), s).

(** The room in the datagram ([curr_mtu]), after a flush if there is too little. *)
Definition datagram_room (overhead : Z) : ST SSL (Z + Z) := fun s =>
  let used_len := BIO_wpending (env_of s) + overhead in
  let curr_mtu := if used_len <? mtu (w_of s) then mtu (w_of s) - used_len else 0 in
  if curr_mtu <=? DTLS1_HM_HEADER_LENGTH then
    let '(ret, r) := BIO_flush (env_of s) in
    let s := upd_env (fun _ => r) s in
    if ret <=? 0 then stop ret (set_rwstate SSL_WRITING s)
    else if overhead + DTLS1_HM_HEADER_LENGTH <? mtu (w_of s)
    then (Ok (inr (mtu (w_of s) - overhead)), s)
    else stop (-1) s
  else (Ok (inr curr_mtu), s).

Definition fragment_size (curr_mtu : Z) (s : SSL) : Z :=
  let len := if curr_mtu <? (init_num s) `mod` 2 ^ 32 then curr_mtu else init_num s in
  if ssl_get_max_send_fragment s <? len then ssl_get_max_send_fragment s else len.

(** The header goes in front of the fragment. *)
Definition put_header (type off len : Z) : ST SSL (Z + unit) := fun s =>
  if type =? SSL3_RT_HANDSHAKE then
    if len <? DTLS1_HM_HEADER_LENGTH then stop (-1) s
    else
      let s := dtls1_fix_message_header off (len - DTLS1_HM_HEADER_LENGTH) s in
      match store_init (init_off s) (wire_header (w_msg_hdr (w_of s))) s with
      | Some s => (Ok (inr tt), s)
      | None => (Fault, s)
      end
  else (Ok (inr tt), s).

(** The record layer did not take the fragment; one more try when the datagram
    was too large. *)
Definition write_failed (retry : bool) : ST SSL (Z + bool) := fun s =>
  if retry then
    let '(exceeded, r) := dgram_mtu_exceeded (env_of s) in
    let s := upd_env (fun _ => r) s in
    if exceeded then
      if has (options s) SSL_OP_NO_QUERY_MTU then stop (-1) s
      else (ok <~ st_try dtls1_query_mtu ;; if ok : bool then st_ret (inr false) else stop (-1)) s
    else stop (-1) s
  else stop (-1) s.

(** The transcript has the message as if it were sent in one piece. *)
Definition note_fragment (type off written : Z) : ST SSL bool := fun s =>
  if (type =? SSL3_RT_HANDSHAKE) && negb (retransmitting (w_of s)) then
    let mac (from n : Z) : ST SSL bool := fun s =>
      match init_data from n s with
      | Some m => st_try (ssl3_finish_mac m) s
      | None => (Fault, s)
      end in
    if (off =? 0) && negb (version s =? DTLS1_BAD_VER) then
      match store_init (init_off s) (rebuilt_header (w_msg_hdr (w_of s))) s with
      | Some s => mac (init_off s) written s
      | None => (Fault, s)
      end
    else mac (init_off s + DTLS1_HM_HEADER_LENGTH) (wrap64 (written - DTLS1_HM_HEADER_LENGTH)) s
  else (Ok true, s).

(** The fragment was written: done, or on to the next one. *)
Definition after_fragment (type off len written : Z) : ST SSL (Z + Z) := fun s =>
  if negb (len =? written) then stop (-1) s
  else
    (fed <~ note_fragment type off written ;;
     if negb fed then stop (-1)
     else fun s =>
       if written =? init_num s then
         match init_data 0 (init_off s + init_num s) s with
         | None => (Fault, s)
         | Some m => stop 1 (set_init_num 0 (set_init_off 0 (callback msg_callback m s)))
         end
       else
         let off := off + wrap64 (written - DTLS1_HM_HEADER_LENGTH) in
         (Ok (inr off),
          dtls1_fix_message_header off 0
            (set_init_num (init_num s - written) (set_init_off (init_off s + written) s)))) s.

(** [k] on the value of a step that goes on. *)
Definition go {A B} (m : ST SSL (Z + A)) (k : A -> ST SSL (Z + B)) : ST SSL (Z + B) :=
  r <~ m ;; match r with inl code => stop code | inr a => k a end.

(** A round of the loop: the offset of the next fragment, and [retry]. *)
Definition write_round (type overhead off : Z) (retry : bool) : ST SSL (Z + Z * bool) :=
  go (next_fragment type off) (fun off =>
  go (datagram_room overhead) (fun curr_mtu =>
  fun s => let len := fragment_size curr_mtu s in
  go (put_header type off len) (fun _ =>
  fun s =>
    match init_data (init_off s) len s with
    | None => (Fault, s)
    | Some bs =>
        let '(ret, written, s) := dtls1_write_bytes type bs s in
        if ret <=? 0 then go (write_failed retry) (fun retry => st_ret (inr (off, retry))) s
        else go (after_fragment type off len written) (fun off => st_ret (inr (off, retry))) s
    end) s)).

(** The fuel bounds the fragments and the second try. *)
Fixpoint write_loop (fuel : nat) (type overhead off : Z) (retry : bool) : ST SSL (option Z) := fun s =>
  if init_num s <=? 0 then (Ok (Some 0), s)
  else match fuel with
  | O => (Ok None, s)
  | S n => (r <~ write_round type overhead off retry ;;
            match r with
            | inl code => st_ret (Some code)
            | inr (off, retry) => write_loop n type overhead off retry
            end) s
  end.

(** The result is the code returned. *)
Definition dtls1_do_write (fuel : nat) (type : Z) : ST SSL (option Z) :=
  ok <~ st_try dtls1_query_mtu ;;
  if negb ok then st_ret (Some (-1))
  else fun s =>
    if mtu (w_of s) <? dtls1_min_mtu s then (Ok (Some (-1)), s)
    else if (init_off s =? 0) && (type =? SSL3_RT_HANDSHAKE)
            && negb (init_num s =? wrap64 (msg_len (w_msg_hdr (w_of s)) + DTLS1_HM_HEADER_LENGTH))
    then (Ok (Some (-1)), s)
    else write_loop fuel type (get_max_record_overhead (env_of s)) 0 true (set_rwstate SSL_NOTHING s).

(** ** Messages kept for retransmission *)

Definition queue_priority64be (seq : Z) (is_ccs : bool) : list Z :=
  seq64be (dtls1_get_queue_priority seq is_ccs).

Definition sent_new (prio64be : list Z) (f : sent_fragment) : option (pitem sent_fragment) :=
  match CRYPTO_malloc sizeof_pitem with
  | Some _ => Some (mkPITEM prio64be f)
  | None => None
  end.

(** The result of [pqueue_insert] is not looked at. *)
Definition dtls1_buffer_message (is_ccs : bool) : ST SSL unit := fun s =>
  if negb (init_off s =? 0) then (Fail, s)
  else match dtls1_hm_fragment_new (init_num s) false with
  | None => (Fail, s)
  | Some frag =>
      match init_data 0 (init_num s) s, store_fragment frag 0 (default [] (init_data 0 (init_num s) s)) with
      | Some _, Some frag =>
          let h := w_msg_hdr (w_of s) in
          let header_length := if is_ccs then if version s =? DTLS1_BAD_VER then 3 else DTLS1_CCS_HEADER_LENGTH
                               else DTLS1_HM_HEADER_LENGTH in
          if negb (wrap64 (msg_len h + header_length) =? (init_num s) `mod` 2 ^ 32) then (Fail, s)
          else
            let f := mkFRAG (mkHM (hm_type h) (msg_len h) (hm_seq h) 0 (msg_len h)) (fragment frag) (reassembly frag) in
            match sent_new (queue_priority64be (hm_seq h) is_ccs) (mkSENT f is_ccs (get_wrl (env_of s))) with
            | None => (Fail, s)
            | Some item =>
                (Ok tt, upd_w (fun w => match pqueue_insert (sent_messages w) item with
                                        | Some pq => set_sent pq w
                                        | None => w
                                        end) s)
            end
      | _, _ => (Fault, s)
      end
  end.

(** The packet is written into [init_buf]. *)
Definition dtls1_close_construct_packet (htype : Z) : ST (WPACKET * SSL) unit := fun '(pkt, s) =>
  let is_ccs := htype =? SSL3_MT_CHANGE_CIPHER_SPEC in
  match (if is_ccs then (Ok tt, pkt) else WPACKET_close pkt) with
  | (Fault, pkt) => (Fault, (pkt, s))
  | (Fail, pkt) => (Fail, (pkt, s))
  | (Ok _, pkt) =>
      match WPACKET_get_length pkt with
      | (Fault, pkt) => (Fault, (pkt, s))
      | (Fail, pkt) => (Fail, (pkt, s))
      | (Ok msglen, pkt) =>
          if INT_MAX <? msglen then (Fail, (pkt, s))
          else
            let n := wrap64 (msglen - DTLS1_HM_HEADER_LENGTH) in
            let s := if is_ccs then s
                     else upd_w (fun w => set_w_msg_hdr (mkHM (hm_type (w_msg_hdr w)) n (hm_seq (w_msg_hdr w))
                                                          (frag_off (w_msg_hdr w)) n) w) s in
            let s := set_init_off 0 (set_init_num msglen (put_back pkt s)) in
            if htype =? DTLS1_MT_HELLO_VERIFY_REQUEST then (Ok tt, (pkt, s))
            else let '(r, s) := dtls1_buffer_message is_ccs s in (r, (pkt, s))
      end
  end.

(** [memcpy] of the message kept to [init_buf]. *)
Definition restore_message (f : sent_fragment) (s : SSL) : option SSL :=
  let h := msg_header (sent_frag f) in
  let header_length := if is_ccs f then DTLS1_CCS_HEADER_LENGTH else DTLS1_HM_HEADER_LENGTH in
  match fragment (sent_frag f) with
  | None => None
  | Some d => match mem_read d 0 (wrap64 (msg_len h + header_length)) with
              | None => None
              | Some m => match store_init 0 m s with
                          | Some s => Some (set_init_num (wrap64 (msg_len h + header_length)) s)
                          | None => None
                          end
              end
  end.

(** [Fail] when the message is not found; otherwise the code of the write. *)
Definition dtls1_retransmit_message (fuel : nat) (seq : Z) : ST SSL (option Z) := fun s =>
  match pqueue_find (sent_messages (w_of s)) (seq64be seq) with
  | None => fatal SSL_AD_INTERNAL_ERROR s
  | Some item =>
      let f := pdata item in
      match restore_message f s with
      | None => (Fault, s)
      | Some s =>
          let h := msg_header (sent_frag f) in
          let s := dtls1_set_message_header_int (hm_type h) (msg_len h) (hm_seq h) 0 (frag_len h) s in
          let saved := get_wrl (env_of s) in
          let s := upd_env (restore_wrl (saved_retransmit_state f)) (upd_w (set_retransmitting true) s) in
          match dtls1_do_write fuel (if is_ccs f then SSL3_RT_CHANGE_CIPHER_SPEC else SSL3_RT_HANDSHAKE) s with
          | (Fault, s) => (Fault, s)
          | (Fail, s) => (Fault, s)
          | (Ok ret, s) =>
              let s := upd_w (set_retransmitting false) (upd_env (restore_wrl saved) s) in
              (Ok ret, upd_env (fun r => snd (BIO_flush r)) s)
          end
      end
  end.

Fixpoint retransmit_all (fuel : nat) (items : pqueue sent_fragment) : ST SSL (option Z) := fun s =>
  match items with
  | [] => (Ok (Some 1), s)
  | item :: rest =>
      let f := pdata item in
      match dtls1_retransmit_message fuel
              ((dtls1_get_queue_priority (hm_seq (msg_header (sent_frag f))) (is_ccs f)) `mod` 2 ^ 16) s with
      | (Fault, s) => (Fault, s)
      | (Fail, s) => (Ok (Some (-1)), s)
      | (Ok None, s) => (Ok None, s)
      | (Ok (Some ret), s) => if ret <=? 0 then (Ok (Some (-1)), s) else retransmit_all fuel rest s
      end
  end.

Definition dtls1_retransmit_buffered_messages (fuel : nat) : ST SSL (option Z) := fun s =>
  retransmit_all fuel (sent_messages (w_of s)) s.
End Ops.
End DtlsSend.
