(* ===== verification/DtlsWrite.v ===== *)
(** * Fragments of a message sent

    [dtls1_do_write] of ssl/statem/statem_dtls.c hands a message to the record
    layer in fragments that follow one another without gap or overlap, however
    often it is interrupted, and the transcript gets the message in one piece.
    Together with DtlsDelivery.v: what one side sends the other receives. *)

From stdpp Require Import prelude list.
From Stdlib Require Import ZArith Lia ZifyBool.
From S2P Require Import Prelude Packet Buffer WPacket PQueue RecordTypes StatemTypes StatemLib.
From S2P Require Import StatemClnt StatemSrvr Statem Quic Framing DtlsFrag DtlsFragBits DtlsFragQueue DtlsMessage DtlsDelivery DtlsSend.

Local Open Scope Z_scope.
Local Open Scope st_scope.

Module DtlsWrite.
Import Quic Framing DtlsFrag FragBits FragQueue DtlsMessage DtlsDelivery DtlsSend.

Section Write.
Context {R : Type} `{C : Callees (DTLS R)} `{L : Libc} `{D : Dgram R}.
Local Abbreviation SSL := (SSL (DTLS R)).
Context (write_bytes : Z -> list Z -> SSL -> Z * Z * SSL) (max_send_fragment : SSL -> Z)
  (finish_mac : list Z -> ST SSL unit) (msg_callback : list Z -> R -> R).

(** The records written and the transcript, both so far. *)
Context (sent : R -> list (Z * list Z)) (transcript : R -> list Z).

Definition logs (r : R) : list (Z * list Z) * list Z := (sent r, transcript r).

(** A record layer takes what it is given or nothing; the transport only changes
    its own state, and never finds a datagram too large; the functions of the
    transcript succeed.  The size of records depends on the session and the
    environment. *)
Class Sender : Prop := {
  sd_write type bs s : type = SSL3_RT_HANDSHAKE \/ type = SSL3_RT_CHANGE_CIPHER_SPEC ->
    0 < Z.of_nat (length bs) <= max_send_fragment s ->
    exists ret n v r, write_bytes type bs s = (ret, n, set_rwstate v (set_env r s))
    /\ (0 < ret -> n = Z.of_nat (length bs))
    /\ transcript r = transcript (env_of s)
    /\ sent r = sent (env_of s) ++ (if 0 <? ret then [(type, bs)] else []);
  sd_flush r : logs (snd (BIO_flush r)) = logs r;
  sd_query r : logs (snd (dgram_query_mtu r)) = logs r;
  sd_set m r : logs (dgram_set_mtu m r) = logs r;
  sd_restore l r : logs (restore_wrl l r) = logs r;
  sd_exceeded r : fst (dgram_mtu_exceeded r) = false /\ logs (snd (dgram_mtu_exceeded r)) = logs r;
  sd_callback m r : logs (msg_callback m r) = logs r;
  sd_mac m s : exists r, finish_mac m s = (Ok tt, set_env r s)
    /\ transcript r = transcript (env_of s) ++ m /\ sent r = sent (env_of s);
  sd_pending r : 0 <= BIO_wpending r;
  sd_overhead r : 0 <= get_max_record_overhead r;
  sd_max s : DTLS1_HM_HEADER_LENGTH < max_send_fragment s;
  sd_max_same s s' : session s' = session s -> env_of s' = env_of s -> max_send_fragment s' = max_send_fragment s
}.
Context `{!Sender}.

(** Nothing of a message, of what was written and of the transcript changes. *)
Record quiet (s s' : SSL) : Prop := {
  qu_off : init_off s' = init_off s;
  qu_num : init_num s' = init_num s;
  qu_buf : init_buf s' = init_buf s;
  qu_ver : version s' = version s;
  qu_hdr : w_msg_hdr (w_of s') = w_msg_hdr (w_of s);
  qu_re : retransmitting (w_of s') = retransmitting (w_of s);
  qu_sent : sent_messages (w_of s') = sent_messages (w_of s);
  qu_logs : logs (env_of s') = logs (env_of s)
}.

#[local] Instance quiet_preorder : PreOrder quiet.
Proof. split; [by intros s|]. intros s1 s2 s3 [] []. split; congruence. Qed.

Lemma quiet_env r s : logs r = logs (env_of s) -> quiet s (set_env r s).
Proof. by intros. Qed.

Lemma quiet_rw v s : quiet s (set_rwstate v s).
Proof. done. Qed.

Lemma quiet_mtus m l s : quiet s (upd_w (set_mtus m l) s).
Proof. done. Qed.

Lemma datagram_room_spec overhead s : 0 <= overhead ->
  exists s', quiet s s'
    /\ ((exists c, datagram_room overhead s = (Ok (inl c), s') /\ c <= 0)
        \/ (exists m, datagram_room overhead s = (Ok (inr m), s') /\ DTLS1_HM_HEADER_LENGTH < m)).
Proof.
  intros Ho. unfold datagram_room. cbv zeta. set (m := if BIO_wpending _ + _ <? _ then _ else 0). destruct (m <=? 12) eqn:E; zbool.
  2: { exists s. split; [done|]. right. by exists m. }
  pose proof (sd_flush (env_of s)) as Hf. destruct (BIO_flush (env_of s)) as [ret r]. cbn [snd] in Hf.
  pose proof (quiet_env r s Hf) as Hqu. change (upd_env (fun _ => r) s) with (set_env r s).
  destruct (ret <=? 0) eqn:Er; zbool.
  { exists (set_rwstate SSL_WRITING (set_env r s)). split; [by etrans; [|apply quiet_rw]|]. left. by exists ret. }
  exists (set_env r s). split; [done|]. destruct (overhead + _ <? _) eqn:Em; zbool.
  - right. eexists. split; [done|]. cbn in *. lia.
  - left. by exists (-1).
Qed.

Lemma query_mtu_spec s : exists ok s', st_try dtls1_query_mtu s = (Ok ok, s') /\ quiet s s'.
Proof.
  unfold st_try, dtls1_query_mtu. set (s1 := if _ =? 0 then s else _).
  assert (H1 : quiet s s1) by (unfold s1; case_match; [done|apply quiet_mtus]).
  destruct (mtu (w_of s1) <? dtls1_min_mtu s1); [|by exists true, s1].
  destruct (has _ _); [by exists false, s1|].
  pose proof (sd_query (env_of s1)) as Hlq. destruct (dgram_query_mtu (env_of s1)) as [m r]. cbn [snd] in Hlq.
  change (upd_env (fun _ => r) s1) with (set_env r s1). cbv zeta. set (s2 := upd_w _ (set_env r s1)).
  assert (H2 : quiet s s2).
  { etrans; [exact H1|]. etrans; [by apply (quiet_env r)|]. apply (quiet_mtus (wrap64 m) (link_mtu (w_of (set_env r s1)))). }
  destruct (mtu (w_of s2) <? dtls1_min_mtu s2); [|by exists true, s2].
  exists true. eexists. split; [reflexivity|]. etrans; [exact H2|].
  etrans; [apply (quiet_mtus (dtls1_min_mtu s2) (link_mtu (w_of s2)))|].
  apply (quiet_env (dgram_set_mtu (dtls1_min_mtu s2) (env_of s2))), sd_set.
Qed.

Lemma write_failed_spec retry s : exists s', write_failed retry s = (Ok (inl (-1)), s') /\ quiet s s'.
Proof.
  unfold write_failed. destruct retry; [|by exists s]. destruct (sd_exceeded (env_of s)) as [Hex Hl].
  destruct (dgram_mtu_exceeded (env_of s)) as [ex r]. cbn [fst snd] in Hex, Hl. subst ex.
  exists (set_env r s). split; [done|]. by apply quiet_env.
Qed.

(** The message: number [q] of [M]; whether it is sent again, and the version;
    the size of [init_buf], and the messages kept. *)
Context (M : Z -> Z * list Z) (q : Z) (re : bool) (ver cap : Z) (pq : pqueue sent_fragment).
Context (Hq : 0 <= q < 2 ^ 16) (HM : is_byte (mtype M q) /\ mlen M q < 2 ^ 24).

Local Abbreviation len := (mlen M q).
Local Abbreviation body := (mbody M q).

(** [k] bytes of the message are written; the rest is in [init_buf], of which
    [num] bytes from [off] are to be written. *)
Record at_byte (k off num : Z) (s : SSL) : Prop := {
  ab_off : init_off s = off;
  ab_num : init_num s = num;
  ab_k : 0 <= k <= len;
  ab_hdr : exists fo fl, w_msg_hdr (w_of s) = mkHM (mtype M q) len q fo fl /\ (0 < k -> fo = k);
  ab_re : retransmitting (w_of s) = re;
  ab_ver : version s = ver /\ sent_messages (w_of s) = pq;
  ab_buf : exists b d, init_buf s = Some b /\ buf_data b = Some d
             /\ (DTLS1_HM_HEADER_LENGTH + len <= Z.of_nat (length d) /\ Z.of_nat (length d) = cap)
             /\ take (Z.to_nat (len - k)) (drop (Z.to_nat (12 + k)) d) = drop (Z.to_nat k) body
}.

(** Between two calls. *)
Definition resting (k : Z) (s : SSL) : Prop :=
  at_byte k k (len - k + DTLS1_HM_HEADER_LENGTH) s /\ (k < len \/ k = 0).

(** All of it is written. *)
Record finished (s : SSL) : Prop := {
  fi_off : init_off s = 0;
  fi_num : init_num s = 0;
  fi_ver : version s = ver /\ sent_messages (w_of s) = pq;
  fi_buf : exists b d, init_buf s = Some b /\ buf_data b = Some d /\ Z.of_nat (length d) = cap
}.

(** At the beginning of a round. *)
Definition entering (k off : Z) (s : SSL) : Prop :=
  (off = 0 /\ resting k s)
  \/ (off = k /\ 0 < k < len /\ at_byte k (DTLS1_HM_HEADER_LENGTH + k) (len - k) s).

Lemma at_byte_quiet k off num s s' : at_byte k off num s -> quiet s s' -> at_byte k off num s'.
Proof. intros [? ? ? ? ? ? ?] [? ? ? ? ? ? ?]. split; congruence || (split; congruence) || by rewrite ?qu_hdr0, ?qu_buf0. Qed.

Lemma resting_quiet k s s' : resting k s -> quiet s s' -> resting k s'.
Proof. intros [Hab Hk] Hqu. split; [by eapply at_byte_quiet|done]. Qed.

Lemma at_byte_env k off num r s : at_byte k off num s -> at_byte k off num (set_env r s).
Proof. intros [? ? ? ? ? ? ?]. by split. Qed.

Lemma next_fragment_spec k off s : entering k off s ->
  exists s', next_fragment SSL3_RT_HANDSHAKE off s = (Ok (inr k), s') /\ resting k s' /\ env_of s' = env_of s.
Proof.
  unfold next_fragment. intros [(-> & Hab & Hk)|(-> & Hk & Hab)]; pose proof Hab as [Ho Hn Hkr (fo & fl & Eh & Hfo) Hre Hv Hb].
  - rewrite Ho, Z.eqb_refl. destruct (k =? 0) eqn:E; zbool; cbn [andb negb].
    + exists s. split; [by rewrite E|]. by split.
    + exists s. rewrite Eh. cbn [frag_off]. rewrite Hfo by lia. by split.
  - rewrite Ho, Z.eqb_refl, (proj2 (Z.eqb_neq (_ + _) 0)), (proj2 (Z.ltb_lt 0 k)), (proj2 (Z.leb_gt (12 + k) _)) by lia.
    cbn [andb negb]. eexists. split; [reflexivity|]. split; [|done]. split; [|lia].
    split; cbn; try done; try lia. by exists fo, fl.
Qed.

(** The fragment from byte [k] with [n] bytes. *)
Definition part (k n : Z) : piece := mkPIECE q k n.
Definition part_record (f : piece) : Z * list Z := (SSL3_RT_HANDSHAKE, piece_bytes M f).

Lemma fragment_size_spec k s m : resting k s -> DTLS1_HM_HEADER_LENGTH < m ->
  exists n, fragment_size max_send_fragment m s = DTLS1_HM_HEADER_LENGTH + n /\ 0 <= n <= len - k /\ (n = 0 -> len = 0)
    /\ DTLS1_HM_HEADER_LENGTH + n <= max_send_fragment s.
Proof.
  intros [[_ Hn Hk _ _ _ _] Hlt] Hm. pose proof (sd_max s) as Hmax. unfold fragment_size. rewrite Hn, Z.mod_small by lia.
  exists ((if max_send_fragment s <? (if m <? len - k + 12 then m else len - k + 12) then max_send_fragment s
           else if m <? len - k + 12 then m else len - k + 12) - 12).
  repeat case_match; lia.
Qed.

(** A header goes in front of the bytes to come. *)
Lemma at_byte_store k off num s hd : at_byte k off num s -> length hd = 12%nat ->
  exists b, store_init k hd s = Some (set_init_buf (Some b) s) /\ at_byte k off num (set_init_buf (Some b) s)
    /\ forall n, 0 <= n <= len - k ->
         init_data k (DTLS1_HM_HEADER_LENGTH + n) (set_init_buf (Some b) s)
         = Some (hd ++ take (Z.to_nat n) (drop (Z.to_nat k) body)).
Proof.
  intros [Ho Hn Hk Hh Hre Hv (b & d & Eb & Ed & Hl & Hd)] Hhd. unfold store_init, buf_store.
  rewrite Eb, Ed, mem_write_Some by lia. rewrite Hhd. set (d' := _ ++ _ ++ _).
  assert (Htk : length (take (Z.to_nat k) d) = Z.to_nat k) by (rewrite length_take; lia).
  assert (Hd' : length d' = length d) by (unfold d'; rewrite !length_app, Htk, length_drop; lia).
  assert (Hk' : drop (Z.to_nat k) d' = hd ++ drop (Z.to_nat k + 12) d) by (unfold d'; by apply drop_app_length').
  assert (Hrest : drop (Z.to_nat (12 + k)) d' = drop (Z.to_nat (12 + k)) d).
  { replace (Z.to_nat (12 + k)) with (Z.to_nat k + 12)%nat by lia.
    rewrite <- drop_drop, Hk'. rewrite drop_app_length' by done. done. }
  eexists. split; [done|]. split.
  - split; try done. eexists _, _. split; [done|]. split; [done|]. rewrite Hd'. split; [done|]. by rewrite Hrest.
  - intros n Hnr. unfold init_data. cbn [init_buf set_init_buf buf_data]. unfold mem_read.
    rewrite Hd', !(proj2 (Z.leb_le _ _)) by lia. cbn [andb]. f_equal. rewrite Hk'.
    replace (Z.to_nat (12 + n)) with (length hd + Z.to_nat n)%nat by lia. rewrite take_app_add. f_equal.
    replace (Z.to_nat k + 12)%nat with (Z.to_nat (12 + k)) by lia. rewrite <- Hd, take_take. f_equal. lia.
Qed.

Lemma fixed_header k n (s : SSL) : w_msg_hdr (w_of (dtls1_fix_message_header k n s))
  = mkHM (hm_type (w_msg_hdr (w_of s))) (msg_len (w_msg_hdr (w_of s))) (hm_seq (w_msg_hdr (w_of s))) k n.
Proof. done. Qed.

Lemma put_header_spec k n s : resting k s -> 0 <= n <= len - k ->
  exists s', put_header SSL3_RT_HANDSHAKE k (DTLS1_HM_HEADER_LENGTH + n) s = (Ok (inr tt), s') /\ resting k s'
    /\ (env_of s' = env_of s /\ session s' = session s)
    /\ init_data k (DTLS1_HM_HEADER_LENGTH + n) s' = Some (piece_bytes M (part k n)).
Proof.
  intros [Hab Hlt] Hn. unfold put_header. rewrite Z.eqb_refl, (proj2 (Z.ltb_ge _ _)) by lia.
  replace (12 + n - 12) with n by lia. set (s1 := dtls1_fix_message_header k n s).
  assert (Hab1 : at_byte k k (len - k + 12) s1).
  { destruct Hab as [Ho Hnm Hk (fo & fl & Eh & _) Hre Hv Hb]. split; try done.
    exists k, n. split; [|done]. unfold s1. by rewrite fixed_header, Eh. }
  assert (Ew : w_msg_hdr (w_of s1) = hdr M (part k n)).
  { destruct Hab as [_ _ _ (fo & fl & Eh & _) _ _ _]. unfold s1. by rewrite fixed_header, Eh. }
  rewrite Ew, (ab_off _ _ _ _ Hab1).
  destruct (at_byte_store _ _ _ _ (wire_header (hdr M (part k n))) Hab1 eq_refl) as (b & -> & Hab2 & Hdata).
  eexists. split; [done|]. split; [by split|]. split; [done|]. by rewrite Hdata.
Qed.

(** What a fragment adds to the transcript. *)
Definition noted (k n : Z) : list Z :=
  if re then []
  else (if (k =? 0) && negb (ver =? DTLS1_BAD_VER) then rebuilt_header (whole M q) else [])
       ++ take (Z.to_nat n) (drop (Z.to_nat k) body).

Lemma init_data_body k off num n s : at_byte k off num s -> 0 <= n <= len - k ->
  init_data (k + DTLS1_HM_HEADER_LENGTH) n s = Some (take (Z.to_nat n) (drop (Z.to_nat k) body)).
Proof.
  intros [_ _ Hk _ _ _ (b & d & Eb & Ed & Hl & Hd)] Hn. unfold init_data. rewrite Eb, Ed. unfold mem_read.
  rewrite !(proj2 (Z.leb_le _ _)) by lia. cbn [andb]. f_equal. rewrite <- Hd, take_take. f_equal; [lia|]. f_equal. lia.
Qed.

Lemma finish_mac_try m s : exists r, st_try (finish_mac m) s = (Ok true, set_env r s)
  /\ transcript r = transcript (env_of s) ++ m /\ sent r = sent (env_of s).
Proof. destruct (sd_mac m s) as (r & E & Ht & Hs). exists r. unfold st_try. by rewrite E. Qed.

Lemma note_fragment_spec k n s : resting k s -> 0 <= n <= len - k ->
  exists s', note_fragment finish_mac SSL3_RT_HANDSHAKE k (DTLS1_HM_HEADER_LENGTH + n) s = (Ok true, s') /\ resting k s'
    /\ logs (env_of s') = (sent (env_of s), transcript (env_of s) ++ noted k n).
Proof.
  intros [Hab Hlt] Hn. pose proof Hab as [Ho _ Hk (fo & fl & Eh & _) Hre Hv _]. unfold note_fragment, noted.
  rewrite Z.eqb_refl, Hre, (proj1 Hv), Ho. destruct re; cbn [andb negb].
  { exists s. unfold logs. rewrite app_nil_r. by split_and!. }
  destruct ((k =? 0) && negb (ver =? DTLS1_BAD_VER)) eqn:E.
  - assert (Ew : rebuilt_header (w_msg_hdr (w_of s)) = rebuilt_header (whole M q)) by by rewrite Eh.
    rewrite Ew. destruct (at_byte_store _ _ _ _ (rebuilt_header (whole M q)) Hab eq_refl) as (b & -> & Hab2 & Hdata).
    rewrite (ab_off _ _ _ _ Hab2), Hdata by done.
    destruct (finish_mac_try (rebuilt_header (whole M q) ++ take (Z.to_nat n) (drop (Z.to_nat k) body))
                (set_init_buf (Some b) s)) as (r & -> & Ht & Hs).
    eexists. split; [done|]. split; [split; [by apply at_byte_env|done]|]. unfold logs. cbn. by rewrite Ht, Hs.
  - replace (12 + n - 12) with n by lia. rewrite wrap64_small by (unfold SIZE_MAX; lia).
    rewrite (init_data_body _ _ _ n _ Hab Hn).
    destruct (finish_mac_try (take (Z.to_nat n) (drop (Z.to_nat k) body)) s) as (r & -> & Ht & Hs).
    eexists. split; [done|]. split; [split; [by apply at_byte_env|done]|]. unfold logs. cbn. by rewrite Ht, Hs.
Qed.

(** The logs after a fragment. *)
Definition logged (k n : Z) (s s' : SSL) : Prop :=
  logs (env_of s') = (sent (env_of s) ++ [part_record (part k n)], transcript (env_of s) ++ noted k n).

Inductive round_result (k : Z) (retry : bool) (s : SSL) : Z + Z * bool -> SSL -> Prop :=
| RR_done s' : finished s' -> logged k (len - k) s s' -> round_result k retry s (inl 1) s'
| RR_stop c s' : c <= 0 -> resting k s' -> logs (env_of s') = logs (env_of s) -> round_result k retry s (inl c) s'
| RR_next n s' : 0 < n -> entering (k + n) (k + n) s' -> logged k n s s' ->
    round_result k retry s (inr (k + n, retry)) s'.

Lemma go_inl {A B} (m : ST SSL (Z + A)) (f : A -> ST SSL (Z + B)) s c s' :
  m s = (Ok (inl c), s') -> go m f s = (Ok (inl c), s').
Proof. intros E. unfold go. by rewrite (st_bind_ok _ _ _ _ _ E). Qed.

Lemma go_inr {A B} (m : ST SSL (Z + A)) (f : A -> ST SSL (Z + B)) s a s' :
  m s = (Ok (inr a), s') -> go m f s = f a s'.
Proof. intros E. unfold go. by rewrite (st_bind_ok _ _ _ _ _ E). Qed.

Lemma after_fragment_spec k n s : resting k s -> 0 <= n <= len - k -> (n = 0 -> len = 0) ->
  exists r s', after_fragment finish_mac msg_callback SSL3_RT_HANDSHAKE k (DTLS1_HM_HEADER_LENGTH + n)
                 (DTLS1_HM_HEADER_LENGTH + n) s = (Ok r, s')
    /\ logs (env_of s') = (sent (env_of s), transcript (env_of s) ++ noted k n)
    /\ match r with
       | inl c => c = 1 /\ n = len - k /\ finished s'
       | inr k' => k' = k + n /\ 0 < n /\ entering (k + n) (k + n) s'
       end.
Proof.
  intros Hr Hn Hz. unfold after_fragment. rewrite Z.eqb_refl. cbn [negb].
  destruct (note_fragment_spec k n s Hr Hn) as (s1 & E1 & [Hab Hlt] & Hlog). rewrite (st_bind_ok _ _ _ _ _ E1). cbn [negb].
  pose proof Hab as [Ho Hnm Hk (fo & fl & Eh & _) Hre Hv (b & d & Eb & Ed & Hl & Hd)]. rewrite Hnm, Ho.
  destruct (12 + n =? len - k + 12) eqn:E; zbool.
  - unfold init_data. rewrite Eb, Ed, mem_read_prefix by lia. eexists _, _. split; [reflexivity|]. split.
    + unfold env_of in *. cbn. rewrite sd_callback. exact Hlog.
    + split; [done|]. split; [lia|]. split; try done. exists b, d. by destruct Hl.
  - eexists _, _. split; [reflexivity|]. replace (12 + n - 12) with n by lia.
    rewrite wrap64_small by (unfold SIZE_MAX; lia). split; [exact Hlog|]. split; [done|]. split; [lia|].
    right. split; [done|]. split; [lia|].
    split; try done; cbn [init_off init_num set_init_num set_init_off]; try lia.
    + cbn. lia.
    + cbn. lia.
    + exists (k + n), 0. split; [|done]. rewrite fixed_header. change (w_of (set_init_num _ _)) with (w_of s1). by rewrite Eh.
    + exists b, d. split; [done|]. split; [done|]. split; [done|].
      replace (Z.to_nat (k + n)) with (Z.to_nat k + Z.to_nat n)%nat by lia.
      rewrite <- drop_drop, <- Hd, skipn_firstn_comm, drop_drop. f_equal; [lia|]. f_equal. lia.
Qed.

Lemma part_length k n : 0 <= k -> 0 <= n <= len - k ->
  Z.of_nat (length (piece_bytes M (part k n))) = DTLS1_HM_HEADER_LENGTH + n.
Proof.
  intros Hk Hn. unfold piece_bytes. rewrite length_app, Nat2Z.inj_add. change (Z.of_nat (length (wire_header _))) with 12.
  unfold piece_body. rewrite length_take, length_drop. cbn [pc_len pc_off pc_seq part]. unfold mlen in *. lia.
Qed.

Lemma write_round_spec k off overhead retry s : entering k off s -> 0 <= overhead ->
  exists r s', write_round write_bytes max_send_fragment finish_mac msg_callback SSL3_RT_HANDSHAKE overhead off retry s
               = (Ok r, s') /\ round_result k retry s r s'.
Proof.
  intros He Hov. unfold write_round. destruct (next_fragment_spec k off s He) as (s1 & E1 & Hr1 & Ev1).
  rewrite (go_inr _ _ _ _ _ E1).
  destruct (datagram_room_spec overhead s1 Hov) as (s2 & Hq2 & Hroom).
  pose proof (resting_quiet _ _ _ Hr1 Hq2) as Hr2. pose proof (qu_logs _ _ Hq2) as Hl2. rewrite Ev1 in Hl2.
  destruct Hroom as [(c & E2 & Hc)|(m & E2 & Hm)].
  { rewrite (go_inl _ _ _ _ _ E2). eexists _, _. split; [done|]. by apply RR_stop. }
  rewrite (go_inr _ _ _ _ _ E2).
  destruct (fragment_size_spec k s2 m Hr2 Hm) as (n & En & Hn & Hz & Hmax). cbv zeta. rewrite En.
  destruct (put_header_spec k n s2 Hr2 Hn) as (s3 & E3 & Hr3 & [Ev3 Es3] & Hdata). rewrite (go_inr _ _ _ _ _ E3).
  rewrite (ab_off _ _ _ _ (proj1 Hr3)), Hdata. rewrite <- Ev3 in Hl2. injection Hl2 as Hs3 Ht3.
  assert (Hpl : Z.of_nat (length (piece_bytes M (part k n))) = DTLS1_HM_HEADER_LENGTH + n).
  { apply part_length; [apply (ab_k _ _ _ _ (proj1 Hr3))|done]. }
  destruct (sd_write SSL3_RT_HANDSHAKE (piece_bytes M (part k n)) s3) as (ret & wr & v & r & -> & Hwr & Ht & Hs).
  { by left. }
  { rewrite Hpl, (sd_max_same s2 s3) by done. lia. }
  set (s4 := set_rwstate v (set_env r s3)). rewrite Hs3 in Hs. rewrite Ht3 in Ht.
  assert (Hr4 : resting k s4) by (apply (resting_quiet _ (set_env r s3)), quiet_rw; by split; [apply at_byte_env|]; apply Hr3).
  destruct (ret <=? 0) eqn:Er; zbool.
  - rewrite (proj2 (Z.ltb_ge _ _)), app_nil_r in Hs by lia.
    destruct (write_failed_spec retry s4) as (s5 & E5 & Hq5). rewrite (go_inl _ _ _ _ _ E5).
    eexists _, _. split; [done|]. apply RR_stop; [done|by eapply resting_quiet|].
    rewrite (qu_logs _ _ Hq5). unfold logs. cbn. by rewrite Hs, Ht.
  - rewrite (proj2 (Z.ltb_lt _ _)) in Hs by lia.
    rewrite Hwr, Hpl by lia.
    destruct (after_fragment_spec k n s4 Hr4 Hn Hz) as (r5 & s5 & E5 & Hlog & Hres).
    assert (Hlogged : logged k n s s5) by (unfold logged; rewrite Hlog; cbn; by rewrite Hs, Ht).
    destruct r5 as [c|k'].
    + destruct Hres as (-> & -> & Hfi). rewrite (go_inl _ _ _ _ _ E5). eexists _, _. split; [done|]. by apply RR_done.
    + destruct Hres as (-> & Hpos & Hent). rewrite (go_inr _ _ _ _ _ E5). eexists _, _. split; [done|]. by apply RR_next.
Qed.

(** Fragments that follow one another, from byte [k] to byte [e]. *)
Fixpoint tiles (k e : Z) (fs : list piece) : Prop :=
  match fs with
  | [] => k = e
  | f :: fs => pc_seq f = q /\ pc_off f = k /\ 0 < pc_len f /\ tiles (k + pc_len f) e fs
  end.

Definition notes (fs : list piece) : list Z := concat (map (fun f => noted (pc_off f) (pc_len f)) fs).

(** The logs after some fragments. *)
Definition logged_all (fs : list piece) (s s' : SSL) : Prop :=
  logs (env_of s') = (sent (env_of s) ++ map part_record fs, transcript (env_of s) ++ notes fs).

Lemma tiles_app k m e fs gs : tiles k m fs -> tiles m e gs -> tiles k e (fs ++ gs).
Proof.
  revert k. induction fs as [|f fs IH]; simpl; intros k; [by intros ->|].
  intros (H1 & H2 & H3 & H4) Hg. split_and!; auto.
Qed.

Lemma tiles_le k e fs : tiles k e fs -> k <= e.
Proof. revert k. induction fs as [|f fs IH]; simpl; intros k; [lia|]. intros (_ & _ & H3 & H4). apply IH in H4. lia. Qed.

(** The fragments of the message from byte [k] on; an empty message has one. *)
Definition completes (k : Z) (fs : list piece) : Prop :=
  (k < len /\ tiles k len fs) \/ (len = 0 /\ k = 0 /\ fs = [part 0 0]).

Lemma completes_ok k fs : 0 <= k -> completes k fs -> Forall (piece_ok M) fs.
Proof.
  intros Hk [[_ Ht]|(Hl & _ & ->)].
  - revert k Hk Ht. induction fs as [|f fs IH]; simpl; intros k Hk; [done|]. intros (H1 & H2 & H3 & H4).
    pose proof (tiles_le _ _ _ H4). constructor; [|by apply (IH (k + pc_len f)); [lia|]].
    unfold piece_ok. rewrite H1, H2. split_and!; lia || done.
  - constructor; [|done]. unfold piece_ok, part. cbn. split_and!; lia.
Qed.

(** Every unit of the message is in one of the fragments. *)
Lemma completes_cover fs i : completes 0 fs -> 0 <= i < Z.max 1 len ->
  exists f, f ∈ fs /\ pc_seq f = q /\ covers (hdr M f) i = true.
Proof.
  intros [[Hl Ht]|(Hl & _ & ->)] Hi.
  - assert (Hi' : 0 <= i < len) by lia. clear Hi. revert Ht Hi'. generalize 0 at 1 2. intros k. revert k.
    induction fs as [|f fs IH]; simpl; intros k; [lia|]. intros (H1 & H2 & _ & H4) Hi.
    destruct (decide (i < k + pc_len f)); [exists f; split; [by left|]; split; [done|]; unfold covers; cbn; lia|].
    destruct (IH _ H4) as (g & Hg & Hr); [lia|]. exists g. split; [by right|done].
  - exists (part 0 0). split; [by left|]. split; [done|]. unfold covers. cbn. lia.
Qed.

(** The transcript gets the message in one piece. *)
Lemma notes_tiles k e fs : tiles k e fs -> 0 <= k < e -> re = false ->
  notes fs = (if (k =? 0) && negb (ver =? DTLS1_BAD_VER) then rebuilt_header (whole M q) else [])
             ++ take (Z.to_nat (e - k)) (drop (Z.to_nat k) body).
Proof.
  intros Ht Hk Hre. revert k Ht Hk. induction fs as [|f fs IH]; intros k Ht Hk; [simpl in Ht; lia|].
  destruct Ht as (_ & H2 & H3 & H5). pose proof (tiles_le _ _ _ H5) as Hle. unfold notes. simpl. fold (notes fs).
  unfold noted. rewrite Hre, H2, <- app_assoc. f_equal.
  destruct fs as [|g fs]; [simpl in H5; unfold notes; simpl; rewrite app_nil_r; f_equal; lia|].
  rewrite (IH (k + pc_len f)); [|done|pose proof (tiles_le _ _ _ (proj2 (proj2 (proj2 H5)))); simpl in H5; lia].
  rewrite (proj2 (Z.eqb_neq (k + pc_len f) 0)) by lia. cbn [andb app].
  replace (Z.to_nat (k + pc_len f)) with (Z.to_nat k + Z.to_nat (pc_len f))%nat by lia. rewrite <- drop_drop.
  replace (Z.to_nat (e - k)) with (Z.to_nat (pc_len f) + Z.to_nat (e - (k + pc_len f)))%nat by lia.
  set (l := drop (Z.to_nat k) body). rewrite <- (take_drop (Z.to_nat (pc_len f)) l) at 3.
  destruct (decide (Z.to_nat (pc_len f) <= length l)%nat).
  - rewrite take_app_add' by (rewrite length_take; lia). done.
  - rewrite (drop_ge l) by lia. rewrite app_nil_r, take_nil, app_nil_r, !take_ge by (rewrite ?length_take; lia). done.
Qed.

Lemma notes_complete fs : completes 0 fs -> re = false ->
  notes fs = (if ver =? DTLS1_BAD_VER then [] else rebuilt_header (whole M q)) ++ body.
Proof.
  intros [[Hl Ht]|(Hl & _ & ->)] Hre.
  - rewrite (notes_tiles 0 len) by (done || lia). rewrite drop_0, take_ge by (unfold mlen; lia). by destruct (ver =? _).
  - unfold notes, noted. rewrite Hre. simpl. rewrite app_nil_r. unfold mlen in Hl. destruct body; [|simpl in Hl; lia].
    by destruct (ver =? _).
Qed.

Lemma logged_all_nil s s' : logs (env_of s') = logs (env_of s) -> logged_all [] s s'.
Proof. unfold logged_all, notes. simpl. by rewrite !app_nil_r. Qed.

Lemma logged_all_app fs gs s s1 s2 : logged_all fs s s1 -> logged_all gs s1 s2 -> logged_all (fs ++ gs) s s2.
Proof.
  unfold logged_all, notes, logs. intros [= Hs Ht] ->. rewrite Hs, Ht, !map_app, concat_app, !app_assoc. done.
Qed.

Lemma logged_one k n s s' : logged k n s s' -> logged_all [part k n] s s'.
Proof. unfold logged, logged_all, notes. simpl. by rewrite app_nil_r. Qed.

(** What a call has done from byte [k] on: the message is out, or it is to be
    called again at byte [k']. *)
Inductive write_result (k : Z) (s : SSL) : Z -> SSL -> Prop :=
| WR_done fs s' : completes k fs -> logged_all fs s s' -> finished s' -> write_result k s 1 s'
| WR_again c k' fs s' : c <= 0 -> tiles k k' fs -> logged_all fs s s' -> resting k' s' -> write_result k s c s'.

Lemma entering_num k off s : entering k off s -> 0 < init_num s.
Proof. intros [(_ & [[_ -> Hk _ _ _ _] _])|(_ & Hk & [_ -> _ _ _ _ _])]; lia. Qed.

Lemma entering_k k off s : entering k off s -> 0 <= k <= len.
Proof. intros [(_ & [[_ _ Hk _ _ _ _] _])|(_ & _ & [_ _ Hk _ _ _ _])]; done. Qed.

Lemma write_result_step k n s s1 c s' : 0 < n -> 0 <= k -> logged k n s s1 -> write_result (k + n) s1 c s' -> write_result k s c s'.
Proof.
  intros Hn Hk Hl [fs s2 Hc Hl2 Hfi|c2 k' fs s2 Hc Ht Hl2 Hr];
    pose proof (logged_all_app _ _ _ _ _ (logged_one _ _ _ _ Hl) Hl2) as Hall.
  - apply (WR_done k s ([part k n] ++ fs)); try done. destruct Hc as [[Hlt Ht]|(? & ? & ?)]; [|lia].
    left. split; [lia|]. by split_and!.
  - by apply (WR_again k s _ k' ([part k n] ++ fs)).
Qed.

Lemma write_loop_spec fuel overhead : 0 <= overhead -> forall k off s, entering k off s ->
  len - k < Z.of_nat fuel ->
  exists c s', write_loop write_bytes max_send_fragment finish_mac msg_callback fuel SSL3_RT_HANDSHAKE overhead off true s
               = (Ok (Some c), s') /\ write_result k s c s'.
Proof.
  intros Hov. induction fuel as [|n IH]; intros k off s He Hf; pose proof (entering_k _ _ _ He) as Hk; [lia|].
  cbn [write_loop]. rewrite (proj2 (Z.leb_gt _ _)) by (by eapply entering_num).
  destruct (write_round_spec k off overhead true s He Hov) as (r & s1 & E & Hr). rewrite (st_bind_ok _ _ _ _ _ E).
  destruct Hr as [s1 Hfi Hl|c s1 Hc Hr Hl|m s1 Hm He1 Hl].
  - exists 1, s1. split; [done|]. apply (WR_done k s [part k (len - k)]); try done; [|by apply logged_one].
    destruct (decide (k < len)); [left; split; [lia|]; simpl; split_and!; done || lia|].
    right. destruct He as [(_ & _ & Hk0)|(_ & Hk0 & _)]; [|lia].
    assert (k = 0) as -> by lia. split_and!; [lia|done|]. repeat f_equal. lia.
  - exists c, s1. split; [done|]. apply (WR_again k s c k []); try done. by apply logged_all_nil.
  - destruct (IH (k + m) (k + m) s1 He1 ltac:(lia)) as (c & s2 & E2 & Hr2). exists c, s2. split; [done|].
    apply (write_result_step k m s s1); done || lia.
Qed.

Lemma write_result_logs k s s1 c s' : logs (env_of s1) = logs (env_of s) -> write_result k s1 c s' -> write_result k s c s'.
Proof.
  intros Hl [fs s2 Hc Hl2 Hfi|c2 k' fs s2 Hc Ht Hl2 Hr];
    pose proof (logged_all_app _ _ _ _ _ (logged_all_nil _ _ Hl) Hl2) as Hall; [by eapply WR_done|by eapply WR_again].
Qed.

Local Abbreviation do_write := (dtls1_do_write write_bytes max_send_fragment finish_mac msg_callback).

Lemma do_write_spec fuel k s : resting k s -> len < Z.of_nat fuel ->
  exists c s', do_write fuel SSL3_RT_HANDSHAKE s = (Ok (Some c), s') /\ write_result k s c s'.
Proof.
  intros Hr Hf. unfold dtls1_do_write. destruct (query_mtu_spec s) as (ok & s1 & E1 & Hqu).
  pose proof (resting_quiet _ _ _ Hr Hqu) as Hr1. pose proof (qu_logs _ _ Hqu) as Hl1.
  rewrite (st_bind_ok _ _ _ _ _ E1).
  assert (Hagain : write_result k s (-1) s1) by (eapply (WR_again k s (-1) k []); try done; by apply logged_all_nil).
  destruct ok; cbn [negb]; [|by exists (-1), s1]. destruct (mtu (w_of s1) <? dtls1_min_mtu s1); [by exists (-1), s1|].
  pose proof Hr1 as [[Ho Hn Hk (fo & fl & Eh & _) _ _ _] Hlt].
  assert (Hassert : (init_off s1 =? 0) && (SSL3_RT_HANDSHAKE =? SSL3_RT_HANDSHAKE)
      && negb (init_num s1 =? wrap64 (msg_len (w_msg_hdr (w_of s1)) + 12)) = false).
  { rewrite Ho, Hn, Eh. cbn [msg_len]. rewrite wrap64_small by (unfold SIZE_MAX; lia). lia. }
  rewrite Hassert. set (s2 := set_rwstate SSL_NOTHING s1).
  destruct (write_loop_spec fuel (get_max_record_overhead (env_of s1)) (sd_overhead _) k 0 s2) as (c & s3 & E3 & Hw).
  - left. split; [done|]. by apply (resting_quiet _ s1), quiet_rw.
  - lia.
  - exists c, s3. split; [done|]. by apply (write_result_logs k s s2).
Qed.

(** Calls until the message is out; in between the environment may change, but
    not what was written and the transcript. *)
Inductive written_out (fuel : nat) : SSL -> SSL -> Prop :=
| WO_done s s' : do_write fuel SSL3_RT_HANDSHAKE s = (Ok (Some 1), s') -> written_out fuel s s'
| WO_again s c s1 r s' : do_write fuel SSL3_RT_HANDSHAKE s = (Ok (Some c), s1) -> c <= 0 ->
    logs r = logs (env_of s1) -> written_out fuel (set_env r s1) s' -> written_out fuel s s'.

Lemma written_out_spec fuel s s' : written_out fuel s s' -> len < Z.of_nat fuel -> forall k, resting k s ->
  exists fs, completes k fs /\ logged_all fs s s' /\ finished s'.
Proof.
  intros Hw Hf. induction Hw as [s s' E|s c s1 r s' E Hc Hl Hw IH]; intros k Hr;
    destruct (do_write_spec fuel k s Hr Hf) as (c' & s2 & E2 & Hres); rewrite E in E2; injection E2 as <- <-.
  - inversion Hres as [fs s3 Hco Hl Hfi|c k' fs s3 Hc Ht Hl Hr']; subst; [by exists fs|lia].
  - destruct Hres as [fs s3 Hco Hl2 Hfi|c k' fs s3 _ Ht Hl2 [Hab Hk']]; [lia|].
    destruct (IH k') as (gs & Hcs & Hlg & Hfi); [split; [by apply at_byte_env|done]|].
    assert (Hlr : logged_all gs s3 s').
    { unfold logged_all in *. rewrite Hlg. unfold logs in Hl. cbn. injection Hl as -> ->. done. }
    exists (fs ++ gs). split; [|split; [by eapply logged_all_app|done]].
    destruct Hcs as [[Hlt Htl]|(Hl0 & -> & ->)].
    + left. pose proof (tiles_le _ _ _ Ht). split; [lia|]. by eapply tiles_app.
    + right. pose proof (ab_k _ _ _ _ (proj1 Hr)). assert (k = 0) as -> by (pose proof (tiles_le _ _ _ Ht); lia).
      split_and!; [done|done|]. destruct fs as [|f fs]; [done|]. exfalso.
      destruct Ht as (_ & _ & Hp & Ht). apply tiles_le in Ht. lia.
Qed.
End Write.
End DtlsWrite.
