(* ===== verification/DtlsExchange.v ===== *)
(** * Messages sent, sent again, and received over DTLS

    The messages kept by [dtls1_buffer_message] are sent again, fragment by
    fragment, by [dtls1_retransmit_message]; and what [dtls1_do_write] writes on
    one side makes [dtls_get_message] hand on the message on the other side, with
    the same transcript. *)

From stdpp Require Import prelude list gmap.
From Stdlib Require Import ZArith Lia ZifyBool.
From S2P Require Import Prelude Packet Buffer WPacket PQueue RecordTypes StatemTypes StatemLib.
From S2P Require Import StatemClnt StatemSrvr Statem Quic Framing DtlsFrag DtlsFragBits DtlsFragQueue DtlsMessage DtlsDelivery.
From S2P Require Import DtlsSend DtlsWrite.

Local Open Scope Z_scope.
Local Open Scope st_scope.

Module DtlsExchange.
Import Quic Framing DtlsFrag FragBits FragQueue DtlsMessage DtlsDelivery DtlsSend DtlsWrite.

Section Retransmit.
Context {R : Type} `{C : Callees (DTLS R)} `{L : Libc} {LO : LibcOk L} `{D : Dgram R}.
Local Abbreviation SSL := (SSL (DTLS R)).
Context (write_bytes : Z -> list Z -> SSL -> Z * Z * SSL) (max_send_fragment : SSL -> Z)
  (finish_mac : list Z -> ST SSL unit) (msg_callback : list Z -> R -> R).
Context (sent : R -> list (Z * list Z)) (transcript : R -> list Z).
Context `{HS : !Sender write_bytes max_send_fragment finish_mac msg_callback sent transcript}.
Context (M : Z -> Z * list Z) (HM : forall q, is_byte (mtype M q) /\ mlen M q < 2 ^ 24).

Local Abbreviation do_write := (dtls1_do_write write_bytes max_send_fragment finish_mac msg_callback).
Local Abbreviation retransmit := (dtls1_retransmit_message write_bytes max_send_fragment finish_mac msg_callback).
Local Abbreviation quiet := (quiet sent transcript).
Local Abbreviation logs := (logs sent transcript).

(** The lemmas of this sender. *)
Local Abbreviation of_sender l := (l write_bytes max_send_fragment finish_mac msg_callback sent transcript _).

Lemma mlen_nonneg q : 0 <= mlen M q.
Proof. unfold mlen. lia. Qed.

(** ** A ChangeCipherSpec *)

(** Nothing is being written; the size of [init_buf] and the messages kept. *)
Record idle (cap : Z) (pq : pqueue sent_fragment) (s : SSL) : Prop := {
  id_off : init_off s = 0;
  id_sent : sent_messages (w_of s) = pq;
  id_buf : exists b d, init_buf s = Some b /\ buf_data b = Some d /\ Z.of_nat (length d) = cap
}.

Definition ccs_ready (cap : Z) (pq : pqueue sent_fragment) (s : SSL) : Prop :=
  idle cap pq s /\ init_num s = 1 /\ 0 < cap /\ init_data 0 1 s = Some [SSL3_MT_CCS].

Lemma idle_quiet cap pq s s' : idle cap pq s -> quiet s s' -> idle cap pq s'.
Proof. intros [? ? ?] [? ? Eb ? ? ? ? ?]. split; [congruence..|]. by rewrite Eb. Qed.

Lemma ccs_ready_quiet cap pq s s' : ccs_ready cap pq s -> quiet s s' -> ccs_ready cap pq s'.
Proof.
  intros (Hi & Hn & Hc & Hd) Hqu. split; [by eapply idle_quiet|]. destruct Hqu as [Eo En Eb ? ? ? ? ?].
  split; [congruence|]. split; [done|]. unfold init_data in *. by rewrite Eb.
Qed.

(** The record with a ChangeCipherSpec. *)
Definition ccs_record : Z * list Z := (SSL3_RT_CHANGE_CIPHER_SPEC, [SSL3_MT_CCS]).

Definition ccs_result (cap : Z) (pq : pqueue sent_fragment) (s : SSL) (c : Z) (s' : SSL) : Prop :=
  (c = 1 /\ idle cap pq s' /\ logs (env_of s') = (sent (env_of s) ++ [ccs_record], transcript (env_of s)))
  \/ (c <= 0 /\ logs (env_of s') = logs (env_of s)).

Lemma ccs_round_spec cap pq overhead s : ccs_ready cap pq s -> 0 <= overhead ->
  exists c s', write_round write_bytes max_send_fragment finish_mac msg_callback SSL3_RT_CHANGE_CIPHER_SPEC overhead 0 true s
               = (Ok (inl c), s') /\ ccs_result cap pq s c s'.
Proof.
  intros Hs Hov. unfold write_round. rewrite (go_inr _ _ s 0 s) by done.
  destruct (of_sender datagram_room_spec overhead s Hov)
    as (s2 & Hq2 & Hroom).
  pose proof (ccs_ready_quiet _ _ _ _ Hs Hq2) as (Hi2 & Hn2 & Hc2 & Hd2). pose proof (qu_logs _ _ _ _ Hq2) as Hl2.
  destruct Hroom as [(c & E2 & Hc)|(m & E2 & Hm)].
  { rewrite (go_inl _ _ _ _ _ E2). eexists _, _. split; [done|]. by right. }
  rewrite (go_inr _ _ _ _ _ E2). cbv zeta.
  assert (Ef : fragment_size max_send_fragment m s2 = 1).
  { unfold fragment_size. pose proof (of_sender sd_max s2).
    rewrite Hn2. change (1 mod 2 ^ 32) with 1. repeat case_match; lia. }
  rewrite Ef, (go_inr _ _ s2 tt s2) by done. rewrite (id_off _ _ _ Hi2), Hd2.
  destruct (of_sender sd_write SSL3_RT_CHANGE_CIPHER_SPEC [SSL3_MT_CCS] s2) as (ret & wr & v & r & -> & Hwr & Ht & Hsnt).
  { by right. }
  { pose proof (of_sender sd_max s2). cbn [length]. lia. }
  set (s4 := set_rwstate v (set_env r s2)). unfold DtlsWrite.logs in Hl2. injection Hl2 as Hs2 Ht2.
  rewrite Hs2 in Hsnt. rewrite Ht2 in Ht. destruct (ret <=? 0) eqn:Er; zbool.
  - rewrite (proj2 (Z.ltb_ge _ _)), app_nil_r in Hsnt by lia.
    destruct (of_sender write_failed_spec true s4) as (s5 & E5 & Hq5).
    rewrite (go_inl _ _ _ _ _ E5). eexists _, _. split; [done|]. right. split; [done|].
    rewrite (qu_logs _ _ _ _ Hq5). unfold DtlsWrite.logs. cbn. by rewrite Hsnt, Ht.
  - rewrite (proj2 (Z.ltb_lt _ _)) in Hsnt by lia.
    destruct (id_buf _ _ _ Hi2) as (b & d & Eb & Ed & Hl).
    eexists 1, (set_init_num 0 (set_init_off 0 (callback msg_callback [SSL3_MT_CCS] s4))). split.
    + rewrite (go_inl _ _ _ 1 (set_init_num 0 (set_init_off 0 (callback msg_callback [SSL3_MT_CCS] s4)))); [done|].
      unfold after_fragment. rewrite Hwr by lia. cbn [length Z.of_nat Z.eqb Pos.eqb negb Pos.of_succ_nat].
      rewrite (st_bind_ok _ _ _ true s4) by done. cbn [negb]. change (init_num s4) with (init_num s2). rewrite Hn2, Z.eqb_refl.
      change (init_off s4) with (init_off s2). rewrite (id_off _ _ _ Hi2). change (init_data 0 (0 + 1) s4) with (init_data 0 1 s2).
      by rewrite Hd2.
    + left. split; [done|]. split; [split; [done|by rewrite <- (id_sent _ _ _ Hi2)|by exists b, d]|].
      change (logs (env_of _)) with (logs (msg_callback [SSL3_MT_CCS] r)).
      rewrite (of_sender sd_callback).
      unfold DtlsWrite.logs. by rewrite Hsnt, Ht.
Qed.

Lemma ccs_write_spec cap pq fuel s : ccs_ready cap pq s -> (0 < fuel)%nat ->
  exists c s', do_write fuel SSL3_RT_CHANGE_CIPHER_SPEC s = (Ok (Some c), s') /\ ccs_result cap pq s c s'.
Proof.
  intros Hs Hf. unfold dtls1_do_write.
  destruct (of_sender query_mtu_spec s) as (ok & s1 & E1 & Hqu).
  rewrite (st_bind_ok _ _ _ _ _ E1). pose proof (qu_logs _ _ _ _ Hqu) as Hl1.
  assert (Hagain : ccs_result cap pq s (-1) s1) by by right.
  destruct ok; cbn [negb]; [|by exists (-1), s1]. destruct (mtu (w_of s1) <? dtls1_min_mtu s1); [by exists (-1), s1|].
  rewrite andb_false_r. cbn [andb]. set (s2 := set_rwstate SSL_NOTHING s1).
  assert (Hs2 : ccs_ready cap pq s2) by (by eapply ccs_ready_quiet, quiet_rw; eapply ccs_ready_quiet).
  destruct fuel as [|n]; [lia|]. cbn [write_loop]. rewrite (proj1 (proj2 Hs2)). change (1 <=? 0) with false. cbv iota.
  destruct (ccs_round_spec cap pq (get_max_record_overhead (env_of s1)) s2 Hs2
              (of_sender sd_overhead _)) as (c & s3 & E3 & Hres).
  rewrite (st_bind_ok _ _ _ _ _ E3). exists c, s3. split; [done|].
  unfold ccs_result, DtlsWrite.logs in *. change (env_of s2) with (env_of s1) in Hres. injection Hl1 as Es Et.
  rewrite Es, Et in Hres. exact Hres.
Qed.

(** ** Messages kept *)

(** Message [q], with room for its header. *)
Definition kept_message (q : Z) (f : sent_fragment) : Prop :=
  msg_header (sent_frag f) = whole M q /\ is_ccs f = false
  /\ exists d, fragment (sent_frag f) = Some d /\ Z.of_nat (length d) = DTLS1_HM_HEADER_LENGTH + mlen M q
       /\ drop 12 d = mbody M q.

Definition kept_ccs (f : sent_fragment) : Prop :=
  msg_len (msg_header (sent_frag f)) = 0 /\ is_ccs f = true
  /\ exists d, fragment (sent_frag f) = Some (SSL3_MT_CCS :: d).

(** A ChangeCipherSpec ([None]) or a message. *)
Definition kept_item (it : pitem sent_fragment) (x : option Z) : Prop :=
  priority it = queue_priority64be (hm_seq (msg_header (sent_frag (pdata it)))) (is_ccs (pdata it))
  /\ match x with Some q => kept_message q (pdata it) | None => kept_ccs (pdata it) end.

Lemma seq64be_prio x : prio_ok (seq64be x).
Proof.
  split; [done|]. unfold seq64be. change 255 with (Z.ones 8).
  repeat constructor; unfold is_byte; rewrite ?Z.land_ones by lia;
    (lia || (pose proof (Z.mod_pos_bound (x ≫ 8) (2 ^ 8)); pose proof (Z.mod_pos_bound x (2 ^ 8)); lia)).
Qed.

Lemma seq64be_short x : seq64be (x `mod` 2 ^ 16) = seq64be x.
Proof.
  unfold seq64be. rewrite <- Z.land_ones, Z.shiftr_land by lia. change (Z.ones 16 ≫ 8) with 255. by rewrite <- !Z.land_assoc.
Qed.

(** The item with a given priority. *)
Lemma kept_found pq it x : pq_wf pq -> it ∈ pq -> kept_item it x ->
  pqueue_find pq (seq64be (dtls1_get_queue_priority (hm_seq (msg_header (sent_frag (pdata it)))) (is_ccs (pdata it)) `mod` 2 ^ 16))
  = Some it.
Proof.
  intros Hwf Hin [Hp _]. rewrite seq64be_short. fold (queue_priority64be (hm_seq (msg_header (sent_frag (pdata it)))) (is_ccs (pdata it))).
  rewrite <- Hp, pq_find_lookup by (done || (rewrite Hp; apply seq64be_prio)). by apply pq_elem_lookup.
Qed.

Lemma init_data_all q re ver cap pq (s : SSL) : resting M q re ver cap pq 0 s -> exists d,
  init_data 0 (DTLS1_HM_HEADER_LENGTH + mlen M q) s = Some d
  /\ Z.of_nat (length d) = DTLS1_HM_HEADER_LENGTH + mlen M q /\ drop 12 d = mbody M q.
Proof.
  intros [[_ _ _ _ _ _ (b & d & Eb & Ed & Hl & Hd)] _]. exists (take (Z.to_nat (12 + mlen M q)) d).
  pose proof (mlen_nonneg q).
  unfold init_data. rewrite Eb, Ed, mem_read_prefix by lia. split; [done|]. rewrite length_take. split; [lia|].
  rewrite skipn_firstn_comm. simpl drop in Hd. rewrite drop_0 in Hd. rewrite <- Hd. f_equal. lia.
Qed.

Definition kept_queue (pq : pqueue sent_fragment) : Prop :=
  pq_wf pq /\ Forall (fun it => exists x, kept_item it x) pq.

Lemma w_of_upd f (s : SSL) : w_of (upd_w f s) = f (w_of s).
Proof. done. Qed.

(** A copy of [init_buf] is kept. *)
Lemma buffer_message_item ccs m (s s1 : SSL) : 0 < init_num s -> init_data 0 (init_num s) s = Some m ->
  dtls1_buffer_message ccs s = (Ok tt, s1) ->
  let h := w_msg_hdr (w_of s) in
  let it := mkPITEM (queue_priority64be (hm_seq h) ccs)
              (mkSENT (mkFRAG (mkHM (hm_type h) (msg_len h) (hm_seq h) 0 (msg_len h)) (Some m) None) ccs (get_wrl (env_of s))) in
  sent_messages (w_of s1) = default (sent_messages (w_of s)) (pqueue_insert (sent_messages (w_of s)) it).
Proof.
  intros Hn Em. unfold dtls1_buffer_message. destruct (negb _); [done|]. rewrite Em. change (default [] (Some m)) with m.
  assert (Hlm : Z.of_nat (length m) = init_num s).
  { unfold init_data in Em. destruct (init_buf s) as [b|]; [|done]. destruct (buf_data b) as [d|]; [|done].
    unfold mem_read in Em. case_match; [|done]. zbool. injection Em as <-. rewrite length_take, length_drop. lia. }
  unfold dtls1_hm_fragment_new. rewrite (proj2 (Z.eqb_neq (init_num s) 0)) by lia.
  destruct (CRYPTO_zalloc sizeof_hm_fragment) as [z|]; [|done].
  destruct (CRYPTO_malloc (init_num s)) as [blk|] eqn:Eblk; [|done].
  assert (Hblk : Z.of_nat (length blk) = init_num s).
  { unfold CRYPTO_malloc in Eblk. case_match; [done|]. by eapply malloc_size. }
  unfold store_fragment. cbn [fragment]. rewrite mem_write_Some by lia.
  case_match; [done|]. unfold sent_new. destruct (CRYPTO_malloc sizeof_pitem); [|done]. intros [= <-].
  rewrite w_of_upd, (drop_ge blk), app_nil_r by lia. cbn zeta. change (take (Z.to_nat 0) blk) with (@nil Z). cbn [app fragment reassembly].
  by destruct (pqueue_insert _ _).
Qed.

Lemma kept_queue_insert pq it x : kept_queue pq -> kept_item it x -> kept_queue (default pq (pqueue_insert pq it)).
Proof.
  intros [Hwf Hall] Hit. assert (Hp : prio_ok (priority it)) by (rewrite (proj1 Hit); apply seq64be_prio).
  pose proof (pq_insert_spec pq it Hwf Hp) as Hins. destruct (pqueue_insert pq it) as [pq'|]; [|by split].
  destruct Hins as (Hwf' & _ & Hm & _). split; [done|]. apply Forall_forall. intros it' Hin.
  apply (pq_elem_lookup _ _ Hwf') in Hin. rewrite Hm in Hin. destruct (decide (prio it = prio it')) as [E|E].
  - rewrite <- E, lookup_insert_eq in Hin. injection Hin as <-. by exists x.
  - rewrite lookup_insert_ne in Hin by done. apply (pq_elem_lookup _ _ Hwf) in Hin. rewrite Forall_forall in Hall. by apply Hall.
Qed.

Lemma buffer_message_kept q re ver cap pq (s s1 : SSL) : resting M q re ver cap pq 0 s -> kept_queue pq ->
  dtls1_buffer_message false s = (Ok tt, s1) ->
  kept_queue (sent_messages (w_of s1))
  /\ (pqueue_find pq (queue_priority64be q false) = None ->
      exists it, it ∈ sent_messages (w_of s1) /\ kept_item it (Some q)).
Proof.
  intros Hr Hk Eb. destruct (init_data_all q re ver cap pq s Hr) as (m & Em & Hlm & Hdm).
  pose proof (mlen_nonneg q). pose proof Hr as [[Ho Hn _ (fo & fl & Eh & _) _ [_ Epq] _] _].
  replace (12 + mlen M q) with (init_num s) in Em, Hlm by lia.
  rewrite (buffer_message_item false m s s1 ltac:(lia) Em Eb), Eh, Epq. cbn [hm_seq hm_type msg_len].
  set (it := mkPITEM _ _).
  assert (Hit : kept_item it (Some q)) by (split; [done|]; split; [done|]; split; [done|]; exists m; split; [done|]; split; [lia|done]).
  split; [by eapply kept_queue_insert|]. intros Hnone. exists it. split; [|done].
  destruct Hk as [Hwf _]. pose proof (pq_insert_spec pq it Hwf (seq64be_prio _)) as Hins.
  rewrite pq_find_lookup in Hnone by (done || apply seq64be_prio).
  change (be_val (queue_priority64be q false)) with (prio it) in Hnone.
  destruct (pqueue_insert pq it) as [pq'|]; [|rewrite Hnone in Hins; by destruct Hins].
  destruct Hins as (Hwf' & _ & Hm & _). change (default pq (Some pq')) with pq'.
  apply pq_elem_lookup; [done|]. by rewrite Hm, lookup_insert_eq.
Qed.

Lemma buffer_ccs_kept cap pq (s s1 : SSL) : ccs_ready cap pq s -> msg_len (w_msg_hdr (w_of s)) = 0 -> kept_queue pq ->
  dtls1_buffer_message true s = (Ok tt, s1) -> kept_queue (sent_messages (w_of s1)).
Proof.
  intros ([Ho Epq Hb] & Hn & Hc & Hd) Hh Hk Eb. assert (Hd' : init_data 0 (init_num s) s = Some [SSL3_MT_CCS]) by by rewrite Hn.
  rewrite (buffer_message_item true _ s s1 ltac:(lia) Hd' Eb), Epq. apply (kept_queue_insert _ _ None); [done|].
  split; [done|]. split; [done|]. split; [done|]. by exists [].
Qed.

(** ** Messages constructed *)

Lemma upd_w_ext f g (s : SSL) : f (w_of s) = g (w_of s) -> upd_w f s = upd_w g s.
Proof. intros E. unfold upd_w, upd_d1, upd_rest. fold (w_of s). change (writing (d1 (rest s))) with (w_of s). by rewrite E. Qed.

Lemma upd_w_id f (s : SSL) : f (w_of s) = w_of s -> upd_w f s = s.
Proof.
  intros E. transitivity (set_rest (rest s) s); [|by destruct s]. unfold upd_w, upd_d1, upd_rest. f_equal.
  unfold w_of, d1_of in E. destruct (rest s) as [[? ? ? ?] ?]. simpl in *. by rewrite E.
Qed.

Lemma buffer_message_same ccs (s s1 : SSL) : dtls1_buffer_message ccs s = (Ok tt, s1) ->
  exists pq, s1 = upd_w (set_sent pq) s.
Proof.
  unfold dtls1_buffer_message. intros E. repeat case_match; try done; injection E as <-;
    exists (default (sent_messages (w_of s)) (pqueue_insert (sent_messages (w_of s)) p)); apply upd_w_ext;
    (destruct (pqueue_insert _ p); [done|]; by destruct (w_of s)).
Qed.

(** A message that [dtls1_close_construct_packet] has completed is ready to be
    written. *)
Lemma constructed_resting htype pkt pkt' q cap b d (s s' : SSL) :
  htype <> SSL3_MT_CHANGE_CIPHER_SPEC -> dtls1_close_construct_packet htype (pkt, s) = (Ok tt, (pkt', s')) ->
  hm_type (w_msg_hdr (w_of s)) = mtype M q -> hm_seq (w_msg_hdr (w_of s)) = q ->
  init_num s' = DTLS1_HM_HEADER_LENGTH + mlen M q -> init_buf s' = Some b -> buf_data b = Some d ->
  DTLS1_HM_HEADER_LENGTH + mlen M q <= Z.of_nat (length d) -> Z.of_nat (length d) = cap ->
  take (Z.to_nat (mlen M q)) (drop 12 d) = mbody M q ->
  resting M q (retransmitting (w_of s)) (version s) cap (sent_messages (w_of s')) 0 s'.
Proof.
  intros Ht E Ety Esq En Eb Ed Hl Hcap Hd. unfold dtls1_close_construct_packet in E.
  rewrite (proj2 (Z.eqb_neq _ _) Ht) in E.
  destruct (WPACKET_close pkt) as [[[]| |] pkt1]; try done.
  destruct (WPACKET_get_length pkt1) as [[msglen| |] pkt2]; try done. destruct (INT_MAX <? msglen) eqn:Emax; [done|].
  set (n := wrap64 (msglen - 12)) in E.
  set (s2 := set_init_off 0 _) in E.
  assert (Hs' : exists pq, s' = upd_w (set_sent pq) s2).
  { destruct (htype =? DTLS1_MT_HELLO_VERIFY_REQUEST).
    - injection E as _ <-. exists (sent_messages (w_of s2)). symmetry. apply upd_w_id. by destruct (w_of s2).
    - destruct (dtls1_buffer_message false s2) as [[[]| |] s3] eqn:E2; try done. injection E as _ <-. by eapply buffer_message_same. }
  destruct Hs' as (pq & ->). change (init_num (upd_w _ s2)) with msglen in En. pose proof (HM q). pose proof (mlen_nonneg q).
  assert (Hn : n = mlen M q) by (unfold n; rewrite wrap64_small by (unfold SIZE_MAX; lia); lia).
  split; [|by right]. split; try done.
  - change (msglen = mlen M q - 0 + 12). lia.
  - exists (frag_off (w_msg_hdr (w_of s))), n. split; [|done].
    change (mkHM (hm_type (w_msg_hdr (w_of s))) n (hm_seq (w_msg_hdr (w_of s))) (frag_off (w_msg_hdr (w_of s))) n
            = mkHM (mtype M q) (mlen M q) q (frag_off (w_msg_hdr (w_of s))) n). by rewrite Ety, Esq, Hn.
  - exists b, d. split; [done|]. split; [done|]. split; [by split|].
    rewrite Z.sub_0_r. change (drop (Z.to_nat 0) (mbody M q)) with (mbody M q). exact Hd.
Qed.

(** ** Retransmission *)

(** The kept message is in [init_buf] again. *)
Lemma restore_message_spec q f cap pq (s : SSL) : kept_message q f -> idle cap pq s ->
  DTLS1_HM_HEADER_LENGTH + mlen M q <= cap ->
  exists s1, restore_message f s = Some s1 /\ env_of s1 = env_of s
    /\ forall r, resting M q true (version s) cap pq 0
         (upd_env r (upd_w (set_retransmitting true)
           (dtls1_set_message_header_int (mtype M q) (mlen M q) q 0 (mlen M q) s1))).
Proof.
  intros (Eh & Ec & m & Em & Hlm & Hdm) [Ho Epq (b & d & Eb & Ed & Hl)] Hcap. pose proof (mlen_nonneg q). pose proof (HM q).
  unfold restore_message. rewrite Eh, Ec, Em. cbn [msg_len whole hdr pc_seq]. rewrite wrap64_small by (unfold SIZE_MAX; lia).
  replace (mlen M q + 12) with (12 + mlen M q) by lia. rewrite mem_read_prefix, take_ge by lia.
  unfold store_init, buf_store. rewrite Eb, Ed, mem_write_Some by lia. eexists. split; [reflexivity|]. split; [done|].
  intros r. split; [|by right].
  split; try done; [change (12 + mlen M q = mlen M q - 0 + 12); lia|by exists 0, (mlen M q)|].
  eexists _, _. split; [reflexivity|]. split; [reflexivity|].
  rewrite !length_app, length_take, length_drop. split; [lia|].
  change (take (Z.to_nat 0) d) with (@nil Z). cbn [app]. replace (12 + 0) with 12 by lia. rewrite drop_app_le by lia.
  change (Z.to_nat 12) with 12%nat. rewrite Hdm, take_app_length' by (unfold mlen; lia). by rewrite drop_0.
Qed.

Lemma restore_ccs_spec f cap pq (s : SSL) : kept_ccs f -> idle cap pq s -> 0 < cap ->
  exists s1, restore_message f s = Some s1 /\ env_of s1 = env_of s
    /\ forall r t l q o n, ccs_ready cap pq (upd_env r (upd_w (set_retransmitting true) (dtls1_set_message_header_int t l q o n s1))).
Proof.
  intros (Eh & Ec & m & Em) [Ho Epq (b & d & Eb & Ed & Hl)] Hcap. unfold restore_message. rewrite Eh, Ec, Em.
  change (wrap64 (0 + 1)) with 1. rewrite mem_read_prefix by (simpl; lia). unfold store_init, buf_store.
  rewrite Eb, Ed, mem_write_Some by (simpl; lia). eexists. split; [reflexivity|]. split; [done|]. intros r t l q o n.
  split; [split; try done; eexists _, _; split; [reflexivity|]; split; [reflexivity|]|split; [done|split; [done|]]].
  - rewrite !length_app, length_take, length_drop. simpl. lia.
  - unfold init_data. cbn. rewrite mem_read_prefix; [done|]. simpl. lia.
Qed.

(** The records of an item sent again, and what can be written of them. *)
Inductive again : option Z -> list (Z * list Z) -> Prop :=
| again_ccs : again None [ccs_record]
| again_message q fs : completes M q 0 fs -> again (Some q) (map (part_record M) fs).

Inductive begun : option Z -> list (Z * list Z) -> Prop :=
| begun_ccs : begun None []
| begun_message q k fs : tiles q 0 k fs -> begun (Some q) (map (part_record M) fs).

Definition sent_again (cap : Z) (pq : pqueue sent_fragment) (x : option Z) (s : SSL) (c : Z) (s' : SSL) : Prop :=
  retransmitting (w_of s') = false
  /\ exists rs, logs (env_of s') = (sent (env_of s) ++ rs, transcript (env_of s))
     /\ ((c = 1 /\ again x rs /\ idle cap pq s') \/ (c <= 0 /\ begun x rs)).

Lemma notes_again q ver fs : notes M q true ver fs = [].
Proof. unfold notes. by induction fs. Qed.

(** Sending with the record layer of then, and back. *)
Lemma retransmit_wrapped cap pq x l g (s s0 s4 : SSL) c rs : env_of s0 = restore_wrl l (env_of s) ->
  logs (env_of s4) = (sent (env_of s0) ++ rs, transcript (env_of s0)) ->
  ((c = 1 /\ again x rs /\ idle cap pq s4) \/ (c <= 0 /\ begun x rs)) ->
  sent_again cap pq x s c (upd_env (fun r => snd (BIO_flush r)) (upd_w (set_retransmitting false)
                             (upd_env (restore_wrl g) s4))).
Proof.
  intros He Hl Hres. split; [done|]. exists rs. pose proof (of_sender sd_restore l (env_of s)) as Hlr.
  rewrite <- He in Hlr. unfold DtlsWrite.logs in Hlr. injection Hlr as Hs0 Ht0. rewrite Hs0, Ht0 in Hl. split.
  - rewrite <- Hl. change (env_of _) with (snd (BIO_flush (restore_wrl g (env_of s4)))) at 1.
    by rewrite (of_sender sd_flush), (of_sender sd_restore).
  - destruct Hres as [(-> & Ha & [H1 H2 H3])|Hres]; [left|by right]. split; [done|]. by split.
Qed.

Lemma retransmit_spec fuel cap pq it x (s : SSL) : kept_queue pq -> it ∈ pq -> kept_item it x -> idle cap pq s ->
  (forall q, DTLS1_HM_HEADER_LENGTH + mlen M q <= cap) -> cap <= Z.of_nat fuel ->
  exists c s', retransmit fuel
      (dtls1_get_queue_priority (hm_seq (msg_header (sent_frag (pdata it)))) (is_ccs (pdata it)) `mod` 2 ^ 16) s
    = (Ok (Some c), s') /\ sent_again cap pq x s c s'.
Proof.
  intros [Hwf _] Hin Hit Hid Hcap Hfuel. unfold dtls1_retransmit_message.
  rewrite (id_sent _ _ _ Hid), (kept_found pq it x Hwf Hin Hit). destruct Hit as [_ Hx]. pose proof (Hcap 0). pose proof (mlen_nonneg 0).
  destruct x as [q|].
  - destruct (restore_message_spec q _ cap pq s Hx Hid (Hcap q)) as (s1 & -> & He1 & Hr). destruct Hx as (Eh & Ec & _).
    rewrite Eh, Ec. cbn [hm_type msg_len hm_seq frag_len whole hdr pc_seq pc_len]. cbv zeta.
    set (s3 := upd_env _ (upd_w _ _)). pose proof (Hcap q).
    destruct (do_write_spec write_bytes max_send_fragment finish_mac msg_callback sent transcript
              M q true (version s) cap pq (HM q) fuel 0 s3 (Hr _) ltac:(lia)) as (c & s4 & E & Hw).
    rewrite E. exists c. eexists. split; [reflexivity|].
    destruct Hw as [fs s4 Hc Hlog [F1 F2 [_ F3] F4]|c k' fs s4 Hc Ht Hlog _];
      unfold logged_all in Hlog; rewrite notes_again, app_nil_r in Hlog.
    + apply (retransmit_wrapped _ _ _ (saved_retransmit_state (pdata it)) _ s s3) with (rs := map (part_record M) fs); [by rewrite <- He1|done|].
      left. split; [done|]. split; [by constructor|by split].
    + apply (retransmit_wrapped _ _ _ (saved_retransmit_state (pdata it)) _ s s3) with (rs := map (part_record M) fs); [by rewrite <- He1|done|].
      right. split; [done|]. by econstructor.
  - destruct (restore_ccs_spec _ cap pq s Hx Hid ltac:(lia)) as (s1 & -> & He1 & Hr). destruct Hx as (_ & Ec & _).
    rewrite Ec. cbv zeta. set (s3 := upd_env _ (upd_w _ _)).
    destruct (ccs_write_spec cap pq fuel s3 (Hr _ _ _ _ _ _) ltac:(lia)) as (c & s4 & E & Hw).
    rewrite E. exists c. eexists. split; [reflexivity|].
    destruct Hw as [(-> & Hi & Hlog)|(Hc & Hlog)].
    + apply (retransmit_wrapped _ _ _ (saved_retransmit_state (pdata it)) _ s s3) with (rs := [ccs_record]); [by rewrite <- He1|done|].
      left. split; [done|]. split; [constructor|done].
    + apply (retransmit_wrapped _ _ _ (saved_retransmit_state (pdata it)) _ s s3) with (rs := []); [by rewrite <- He1| |].
      * rewrite Hlog, app_nil_r. done.
      * right. split; [done|constructor].
Qed.

(** The records of some items. *)
Inductive flight : list (pitem sent_fragment) -> list (Z * list Z) -> Prop :=
| flight_nil : flight [] []
| flight_cons it x rs items rss : kept_item it x -> again x rs -> flight items rss -> flight (it :: items) (rs ++ rss).

(** The records of the first items, and the beginning of the next one. *)
Inductive cut_short : list (pitem sent_fragment) -> list (Z * list Z) -> Prop :=
| cut_here it x rs items : kept_item it x -> begun x rs -> cut_short (it :: items) rs
| cut_later it x rs items rss : kept_item it x -> again x rs -> cut_short items rss -> cut_short (it :: items) (rs ++ rss).

Lemma retransmit_all_spec fuel cap pq : kept_queue pq ->
  (forall q, DTLS1_HM_HEADER_LENGTH + mlen M q <= cap) -> cap <= Z.of_nat fuel ->
  forall items (s : SSL), Forall (fun it => it ∈ pq) items -> idle cap pq s ->
  exists c s' rs, retransmit_all write_bytes max_send_fragment finish_mac msg_callback fuel items s = (Ok (Some c), s')
    /\ logs (env_of s') = (sent (env_of s) ++ rs, transcript (env_of s))
    /\ ((c = 1 /\ flight items rs /\ idle cap pq s') \/ (c = -1 /\ cut_short items rs)).
Proof.
  intros Hk Hcap Hfuel items. induction items as [|it items IH]; intros s Hin Hid; cbn [retransmit_all].
  { exists 1, s, []. rewrite app_nil_r. split; [done|]. split; [done|]. left. split; [done|]. by split; [constructor|]. }
  apply Forall_cons in Hin as [Hit Hin]. pose proof Hk as [_ Hall]. rewrite Forall_forall in Hall.
  destruct (Hall it Hit) as [x Hx].
  destruct (retransmit_spec fuel cap pq it x s Hk Hit Hx Hid Hcap Hfuel) as (c & s1 & -> & _ & rs & Hl & Hres).
  destruct Hres as [(-> & Ha & Hid1)|(Hc & Hb)].
  - cbn [Z.leb Z.compare]. destruct (IH s1 Hin Hid1) as (c & s2 & rss & -> & Hl2 & Hres). exists c, s2, (rs ++ rss).
    split; [done|]. unfold DtlsWrite.logs in Hl. injection Hl as Hs Ht. rewrite Hl2, Hs, Ht, app_assoc. split; [done|].
    destruct Hres as [(-> & Hf & Hi)|(-> & Hc)]; [left|right]; split; try done; [split; [|done]|]; by econstructor.
  - rewrite (proj2 (Z.leb_le _ _)) by lia. exists (-1), s1, rs. split; [done|]. split; [done|]. right. split; [done|]. by econstructor.
Qed.


End Retransmit.

(** ** From one side to the other *)

Section Exchange.
Context {R1 R2 : Type} `{C1 : Callees (DTLS R1)} `{C2 : Callees (DTLS R2)} `{L : Libc} {LO : LibcOk L} `{D : Dgram R1}.

(** The sender. *)
Context (write_bytes : Z -> list Z -> SSL (DTLS R1) -> Z * Z * SSL (DTLS R1)) (max_send_fragment : SSL (DTLS R1) -> Z)
  (finish_mac : list Z -> ST (SSL (DTLS R1)) unit) (msg_callback : list Z -> R1 -> R1)
  (sent : R1 -> list (Z * list Z)) (transcript : R1 -> list Z).
Context `{HS : !Sender write_bytes max_send_fragment finish_mac msg_callback sent transcript}.

(** The receiver. *)
Context (read : Z -> SSL (DTLS R2) -> option (Z * list Z) * SSL (DTLS R2)) (msg_callback' : list Z -> R2 -> R2)
  (records : R2 -> list (Z * list Z)) (record_left : R2 -> Z) (fr : OSSL_STATEM * Z * Z * DTLS1_TIMER) (usable : R2 -> Prop)
  `{!RecordSource records record_left fr usable read}
  (Hcb : forall m r, records (msg_callback' m r) = records r /\ (usable r -> usable (msg_callback' m r)))
  (Hprompt : forall len s1 s2, 0 < len -> frame s1 = fr -> usable (env (rest s1)) -> read len s1 = (None, s2) -> recs records s1 = [])
  (take_mac : ST (SSL (DTLS R2)) unit) (finish_mac' : list Z -> ST (SSL (DTLS R2)) unit)
  (Htake : keeps_message take_mac) (Hfinish : forall m, keeps_message (finish_mac' m)).

Context (M : Z -> Z * list Z) (HM : sendable M) (Hmem : ~ alloc_failed).

(** A record with one fragment is not another one with fragments. *)
Lemma part_record_inj f x : piece_ok M f -> rec_sent M x -> enc M x = part_record M f ->
  exists fs, x = Some fs /\ f ∈ fs.
Proof.
  intros Hf Hx E. destruct x as [fs|]; [|done]. exists fs. split; [done|]. destruct Hx as [Hne Hall].
  destruct fs as [|g fs]; [done|]. apply Forall_cons in Hall as [Hg _]. apply (f_equal snd) in E. cbn [enc part_record snd map concat] in E.
  unfold piece_bytes in E. rewrite <- !app_assoc in E. apply app_inj_1 in E as [E _]; [|done].
  apply wire_header_inj in E; [|by apply hdr_ok_piece..].
  destruct f, g. unfold hdr in E. cbn in E. injection E as _ _ -> -> ->. by left.
Qed.

Lemma sent_avail q fs fss (t : SSL (DTLS R2)) : 0 <= q < 2 ^ 16 -> completes M q 0 fs -> good records fr usable M fss t ->
  (forall x, x ∈ map (part_record M) fs -> x ∈ recs records t) ->
  forall i, 0 <= i < Z.max 1 (mlen M q) -> avail M fss (queue t) q i.
Proof.
  intros Hq Hc [_ _ Hrecs Hs] Hin i Hi. right.
  destruct (completes_cover M q fs i Hc Hi) as (f & Hf & Eq & Hcov).
  pose proof (completes_ok M q Hq 0 fs ltac:(lia) Hc) as Hok. rewrite Forall_forall in Hok. rewrite Forall_forall in Hs.
  assert (Hr : part_record M f ∈ map (enc M) fss) by (rewrite <- Hrecs; apply Hin; by apply list_elem_of_fmap_2).
  apply list_elem_of_fmap_1 in Hr as (x & Ex & Hx).
  destruct (part_record_inj f x (Hok f Hf) (Hs x Hx) (eq_sym Ex)) as (gs & -> & Hgs). by exists gs, f.
Qed.

(** What one side sends the other receives, with the same transcript.  One side
    writes message [q] with as many calls of [dtls1_do_write] as the transport
    needs; the other side, whose turn it is to read message [q], gets these
    records in any order among others with fragments.  Then [dtls_get_message]
    hands on message [q], and [dtls_get_message_body] feeds its transcript the
    very bytes [dtls1_do_write] has fed the other one. *)
Lemma sent_is_received (fuel fuel' : nat) (q ver cap : Z) (pq : pqueue sent_fragment) (s s' : SSL (DTLS R1))
  (fss : list (option (list piece))) (t : SSL (DTLS R2)) (rs : list (Z * list Z)) (m : list Z)
  (Hq : 0 <= q < 2 ^ 16) (Hr : resting M q false ver cap pq 0 s) (Hfuel : mlen M q < Z.of_nat fuel)
  (Hw : written_out write_bytes max_send_fragment finish_mac msg_callback sent transcript fuel s s')
  (Hrs : sent (env_of s') = sent (env_of s) ++ rs) (Hm : transcript (env_of s') = transcript (env_of s) ++ m)
  (Hg : good records fr usable M fss t) (Hturn : turn t = q) (Hhello : forall p, hello_again p t = false)
  (Hcome : forall x, x ∈ rs -> x ∈ recs records t) (Hccs : None ∉ fss) (Hfuel' : (size (recs records t) < fuel')%nat) :
  exists t', dtls_get_message read record_left msg_callback' fuel' t = (Ok (Some (mtype M q)), t')
    /\ has_message (whole M q) (mbody M q) t' /\ turn t' = next_seq q
    /\ (version t' = ver ->
        dtls_get_message_body take_mac finish_mac' msg_callback' t'
        = ((if mtype M q =? SSL3_MT_FINISHED then take_mac else st_ret tt) ;;;
           finish_mac' m ;;;
           st_put (callback msg_callback' (rebuilt_header (whole M q) ++ mbody M q)) ;;;
           st_ret (mlen M q)) t').
Proof.
  destruct (HM q) as (Hty & _ & _ & Hlen). assert (Hlt : mlen M q < 2 ^ 24) by (eapply Z.le_lt_trans; [exact Hlen|done]).
  destruct (written_out_spec write_bytes max_send_fragment finish_mac msg_callback sent transcript M q false ver cap pq
              (conj Hty Hlt) fuel s s' Hw Hfuel 0 Hr) as (fs & Hc & Hl & _).
  unfold logged_all, logs in Hl. injection Hl as Hs Ht. rewrite Hrs in Hs. apply app_inv_head in Hs as ->.
  rewrite Hm in Ht. apply app_inv_head in Ht as ->. rewrite (notes_complete M q false ver fs Hc eq_refl).
  destruct (message_handed_on msg_callback' records record_left fr usable read Hcb M HM Hmem fuel' fss t Hg Hfuel' Hprompt Hccs)
    as (q' & fss' & Htu & t' & E & Hhas & Hnext & _).
  { intros i Hi. rewrite Hturn in *. by eapply sent_avail. }
  rewrite Hhello, Hturn in Htu. assert (q' = q) as -> by (by destruct Htu). exists t'. split_and!; try done.
  intros <-. rewrite (message_body_transcript msg_callback' _ _ _ take_mac finish_mac' (whole_ok M HM q Hq) Hhas Htake Hfinish).
  by destruct (version t' =? DTLS1_BAD_VER).
Qed.
End Exchange.
(** ** A transport for examples *)

(** The records written, the transcript, and whether the next records are taken;
    all of them are when there is no more to say. *)
Record link : Type := mkLINK { lk_sent : list (Z * list Z); lk_transcript : list Z; lk_takes : list bool }.

#[local] Instance link_callees : Callees (DTLS link) := idle_callees (fun s => (None, s)).

(** [exceeded]: the transport blames a datagram that was too large. *)
Definition link_dgram (exceeded : bool) : Dgram link := {|
  BIO_wpending _ := 0;
  BIO_flush r := (1, r);
  BIO_dgram_get_mtu_overhead _ := 28;
  dgram_query_mtu r := (1500, r);
  dgram_set_mtu _ r := r;
  dgram_mtu_exceeded r := (exceeded, r);
  get_max_record_overhead _ := 13;
  get_wrl _ := 0;
  restore_wrl _ r := r
|}.

Definition link_write (type : Z) (bs : list Z) (s : SSL (DTLS link)) : Z * Z * SSL (DTLS link) :=
  let r := env_of s in
  let n := Z.of_nat (length bs) in
  match lk_takes r with
  | false :: takes => (-1, n, set_env (mkLINK (lk_sent r) (lk_transcript r) takes) s)
  | takes => (1, n, set_env (mkLINK (lk_sent r ++ [(type, bs)]) (lk_transcript r) (tail takes)) s)
  end.

Definition link_mac (m : list Z) : ST (SSL (DTLS link)) unit := fun s =>
  (Ok tt, set_env (mkLINK (lk_sent (env_of s)) (lk_transcript (env_of s) ++ m) (lk_takes (env_of s))) s).

Lemma rwstate_same r (s : SSL (DTLS link)) : set_env r s = set_rwstate (rwstate s) (set_env r s).
Proof. by destruct s. Qed.

#[local] Instance link_ok : Sender (D := link_dgram false) link_write (fun _ => 14) link_mac (fun _ r => r) lk_sent lk_transcript.
Proof.
  split; try done.
  - intros type bs s _ _. unfold link_write. destruct (lk_takes (env_of s)) as [|[] takes].
    + eexists 1, _, (rwstate s), _. by split; [f_equal; apply rwstate_same|].
    + eexists 1, _, (rwstate s), _. by split; [f_equal; apply rwstate_same|].
    + eexists (-1), _, (rwstate s), _. split; [f_equal; apply rwstate_same|]. by rewrite app_nil_r.
  - intros m s. eexists. split; [reflexivity|]. done.
Qed.

(** A connection with message [m] of type 2 to write. *)
Definition sample_sender (ver : Z) (m : list Z) (takes : list bool) (pq : pqueue sent_fragment) : SSL (DTLS link) :=
  let n := Z.of_nat (length m) in
  set_init_num (12 + n)
    (set_init_buf (Some (mkBUF_MEM 0 (Some (replicate 12 0 ++ m ++ replicate 64 0)) (76 + n) 0))
      (sample_conn (mkDTLS (mkD1 0 (mkDW 0 1 (mkHM 2 n 0 0 n) 1472 0 false pq (mkDT 0 0 0)) no_header []) (mkLINK [] [] takes))
         TLS_ST_CW_CLNT_HELLO ver ecdhe_rsa)).

(** Message 0 of [sample_M] in two fragments; the second is not taken at once. *)
Definition sample_sender_0 : SSL (DTLS link) := sample_sender 0xfefd (mbody sample_M 0) [true; false] [].
Definition link_do_write := dtls1_do_write (D := link_dgram false) link_write (fun _ => 14) link_mac (fun _ r => r).

Lemma sample_resting pq takes :
  resting sample_M 0 false 0xfefd 80 pq 0 (sample_sender 0xfefd (mbody sample_M 0) takes pq).
Proof.
  split; [|by right]. split; try done; [by exists 0, 4|]. eexists _, _. split; [reflexivity|]. split; [reflexivity|]. done.
Qed.

Lemma sample_sizes q : is_byte (mtype sample_M q) /\ mlen sample_M q < 2 ^ 24.
Proof. done. Qed.


(** Message 0 and a ChangeCipherSpec, as they are kept. *)
Definition sample_kept : pqueue sent_fragment :=
  [mkPITEM (queue_priority64be 0 false)
     (mkSENT (mkFRAG (whole sample_M 0) (Some (replicate 12 0 ++ mbody sample_M 0)) None) false 0);
   mkPITEM (queue_priority64be 1 true) (mkSENT (mkFRAG (mkHM SSL3_MT_CCS 0 1 0 0) (Some [SSL3_MT_CCS]) None) true 0)].

Lemma sample_kept_queue : kept_queue sample_M sample_kept.
Proof.
  split; [split|].
  - repeat (constructor; [apply seq64be_prio|]). constructor.
  - by repeat constructor.
  - constructor; [|constructor; [|done]].
    + exists (Some 0). split; [done|]. split; [done|]. split; [done|]. by eexists.
    + exists None. split; [done|]. split; [done|]. split; [done|]. by exists [].
Qed.


(** ** Two corners *)

(** After a datagram that was too large, the second try at a fragment that is
    not the first makes room for its header once more: the header of the first
    try becomes part of the message, and the last fragment ends behind it. *)
Lemma second_try_corrupts :
  let m := map (fun i => 100 + Z.of_nat i) (seq 0 30) in
  let '(r, s) := dtls1_do_write (D := link_dgram true) link_write (fun _ => 30) link_mac (fun _ r => r) 100 SSL3_RT_HANDSHAKE
                   (sample_sender 0xfefd m [true; false] []) in
  r = Ok (Some 1)
  /\ map snd (lk_sent (env_of s))
     = [wire_header (mkHM 2 30 0 0 18) ++ take 18 m;
        wire_header (mkHM 2 30 0 18 18) ++ wire_header (mkHM 2 30 0 18 12) ++ take 6 (drop 18 m);
        wire_header (mkHM 2 30 0 36 6) ++ drop 24 m].
Proof. vm_compute. by split. Qed.

(** A ChangeCipherSpec of the old version is kept with its sequence number, and
    sent again without it. *)
Lemma old_ccs_cut :
  let kept := [mkPITEM (queue_priority64be 1 true)
                 (mkSENT (mkFRAG (mkHM SSL3_MT_CCS 0 1 0 0) (Some [SSL3_MT_CCS; 0; 1]) None) true 0)] in
  let '(r, s) := dtls1_retransmit_buffered_messages (D := link_dgram false) link_write (fun _ => 30) link_mac (fun _ r => r) 100
                   (sample_sender DTLS1_BAD_VER [] [] kept) in
  r = Ok (Some 1) /\ lk_sent (env_of s) = [(SSL3_RT_CHANGE_CIPHER_SPEC, [SSL3_MT_CCS])].
Proof. vm_compute. by split. Qed.
End DtlsExchange.
