(* ===== verification/DtlsTimer.v ===== *)
(** * The retransmission timer of DTLS

    ssl/d1_lib.c and the end of ssl/statem/statem_dtls.c: the timer that makes a
    flight be sent again, the queues and the commands of a DTLS connection. *)

From stdpp Require Import prelude list.
From Stdlib Require Import ZArith Lia ZifyBool.
From S2P Require Import Prelude Packet Buffer WPacket PQueue RecordTypes StatemTypes StatemLib.
From S2P Require Import StatemClnt StatemSrvr Statem StatemFlow Quic Framing SafeMath OsslTime DtlsFrag DtlsFragQueue DtlsSend.

Local Open Scope Z_scope.
Local Open Scope st_scope.

Module DtlsTimer.
Import SafeMath OsslTime Quic Framing DtlsFrag FragQueue DtlsSend.

Abbreviation DTLS1_TMO_ALERT_COUNT := (12)%Z.
Abbreviation DTLS1_MAX_MTU_OVERHEAD := (48)%Z.
Abbreviation DTLS_CTRL_GET_TIMEOUT := (73)%Z.
Abbreviation DTLS_CTRL_HANDLE_TIMEOUT := (74)%Z.
Abbreviation DTLS_CTRL_SET_LINK_MTU := (120)%Z.
Abbreviation DTLS_CTRL_GET_LINK_MIN_MTU := (121)%Z.
Abbreviation SSL_CTRL_SET_MTU := (17)%Z.

(** The clock, and what the transports are told and asked about time. *)
Class Clock (R : Type) : Type := {
  time_now : R -> OSSL_TIME;
  dgram_set_next_timeout : timeval -> R -> R;
  dgram_get_fallback_mtu : R -> Z * R;
  BIO_set_flags_read : R -> R;
  (* frees a write record layer that is no longer needed *)
  free_wrl : Z -> R -> R
}.

Section Ops.
Context {R : Type} `{C : Callees (DTLS R)} `{L : Libc} `{D : Dgram R} `{K : Clock R}.
Local Abbreviation SSL := (SSL (DTLS R)).
Context (dtls1_write_bytes : Z -> list Z -> SSL -> Z * Z * SSL) (ssl_get_max_send_fragment : SSL -> Z)
  (ssl3_finish_mac : list Z -> ST SSL unit) (msg_callback : list Z -> R -> R).

(** The callback of the application that chooses durations, if there is one. *)
Context (timer_cb : option (Z -> SSL -> Z)).

Definition set_timer (v : DTLS1_TIMER) (w : DTLS1_WRITE) : DTLS1_WRITE :=
  mkDW (handshake_write_seq w) (next_handshake_write_seq w) (w_msg_hdr w) (mtu w) (link_mtu w) (retransmitting w)
    (sent_messages w) v.
Definition timer_of (s : SSL) : DTLS1_TIMER := timer (w_of s).
Definition upd_timer (f : DTLS1_TIMER -> DTLS1_TIMER) (s : SSL) : SSL := upd_w (fun w => set_timer (f (timer w)) w) s.
Definition set_next_timeout (v : OSSL_TIME) (t : DTLS1_TIMER) : DTLS1_TIMER :=
  mkDT v (timeout_duration_us t) (timeout_num_alerts t).
Definition set_duration (v : Z) (t : DTLS1_TIMER) : DTLS1_TIMER := mkDT (next_timeout t) v (timeout_num_alerts t).
Definition set_num_alerts (v : Z) (t : DTLS1_TIMER) : DTLS1_TIMER := mkDT (next_timeout t) (timeout_duration_us t) v.

(** ** The queues *)

(** [dtls1_clear_received_buffer]: every fragment is freed. *)
Definition dtls1_clear_received_buffer (s : SSL) : SSL := upd_d1 (set_buffered []) s.

(** A record layer that only the messages kept still used is freed with the
    ChangeCipherSpec that ended its use; [dtls1_buffer_message] has set its
    method. *)
Definition free_kept (f : sent_fragment) (s : SSL) : SSL :=
  if is_ccs f && negb (get_wrl (env_of s) =? saved_retransmit_state f)
  then upd_env (free_wrl (saved_retransmit_state f)) s else s.

(** [pqueue_pop] until the queue is empty. *)
Fixpoint clear_sent (pq : pqueue sent_fragment) (s : SSL) : SSL :=
  match pq with
  | [] => upd_w (set_sent []) s
  | item :: pq => clear_sent pq (free_kept (pdata item) s)
  end.

Definition dtls1_clear_sent_buffer (s : SSL) : SSL := clear_sent (sent_messages (w_of s)) s.

(** ** The timer *)

Definition dtls1_bio_set_next_timeout (s : SSL) : SSL :=
  upd_env (dgram_set_next_timeout (ossl_time_to_timeval (next_timeout (timer_of s)))) s.

Definition dtls1_start_timer (s : SSL) : SSL :=
  let s := if ossl_time_is_zero (next_timeout (timer_of s))
           then upd_timer (set_duration (match timer_cb with Some cb => (cb 0 s) `mod` 2 ^ 32 | None => 1000000 end)) s
           else s in
  let duration := ossl_us2time (timeout_duration_us (timer_of s)) in
  let s := upd_timer (set_next_timeout (ossl_time_add (time_now (env_of s)) duration)) s in
  dtls1_bio_set_next_timeout s.

(** [None]: no timer is running. *)
Definition dtls1_get_timeout (s : SSL) : option OSSL_TIME :=
  if ossl_time_is_zero (next_timeout (timer_of s)) then None
  else
    let timeleft := ossl_time_subtract (next_timeout (timer_of s)) (time_now (env_of s)) in
    Some (if ossl_time_compare timeleft (ossl_ms2time 15) <=? 0 then ossl_time_zero else timeleft).

Definition dtls1_is_timer_expired (s : SSL) : bool :=
  match dtls1_get_timeout s with
  | None => false
  | Some timeleft => if negb (ossl_time_is_zero timeleft) then false else true
  end.

Definition dtls1_double_timeout (s : SSL) : SSL :=
  let s := upd_timer (fun t => set_duration ((timeout_duration_us t * 2) `mod` 2 ^ 32) t) s in
  if 60000000 <? timeout_duration_us (timer_of s) then upd_timer (set_duration 60000000) s else s.

Definition dtls1_stop_timer (s : SSL) : SSL :=
  let s := upd_timer (fun _ => mkDT ossl_time_zero 1000000 0) s in
  dtls1_clear_sent_buffer (dtls1_bio_set_next_timeout s).

Definition dtls1_check_timeout_num : ST SSL unit := fun s =>
  let s := upd_timer (fun t => set_num_alerts ((timeout_num_alerts t + 1) `mod` 2 ^ 32) t) s in
  let s := if (2 <? timeout_num_alerts (timer_of s)) && negb (has (options s) SSL_OP_NO_QUERY_MTU) then
             let '(m, r) := dgram_get_fallback_mtu (env_of s) in
             let s := upd_env (fun _ => r) s in
             if wrap64 m <? mtu (w_of s) then upd_w (fun w => set_mtus (wrap64 m) (link_mtu w) w) s else s
           else s in
  if DTLS1_TMO_ALERT_COUNT <? timeout_num_alerts (timer_of s) then fatal SSL_AD_NO_ALERT s else (Ok tt, s).

(** The result is the code returned, [None] when the fuel of the retransmission
    is used up. *)
Definition dtls1_handle_timeout (fuel : nat) : ST SSL (option Z) := fun s =>
  if negb (dtls1_is_timer_expired s) then (Ok (Some 0), s)
  else
    let s := match timer_cb with
             | Some cb => upd_timer (set_duration ((cb (timeout_duration_us (timer_of s)) s) `mod` 2 ^ 32)) s
             | None => dtls1_double_timeout s
             end in
    (ok <~ st_try dtls1_check_timeout_num ;;
     if negb ok then st_ret (Some (-1))
     else st_put dtls1_start_timer ;;;
          dtls1_retransmit_buffered_messages dtls1_write_bytes ssl_get_max_send_fragment ssl3_finish_mac msg_callback fuel) s.

(** [code] of a read that has failed. *)
Definition dtls1_read_failed (fuel : nat) (code : Z) : ST SSL (option Z) := fun s =>
  if 0 <? code then (SSLfatal SSL_AD_INTERNAL_ERROR ;;; st_ret (Some 0)) s
  else if negb (dtls1_is_timer_expired s) || is_error s then (Ok (Some code), s)
  else if negb (in_init (statem s)) then (Ok (Some code), upd_env BIO_set_flags_read s)
  else dtls1_handle_timeout fuel s.

(** ** Commands *)

(** The answer to a command; a timeout that was asked for is stored elsewhere. *)
Definition dtls1_ctrl (ssl3_ctrl : Z -> Z -> ST SSL (option Z)) (fuel : nat) (cmd larg : Z)
    : ST SSL (option Z * option timeval) := fun s =>
  if cmd =? DTLS_CTRL_GET_TIMEOUT then
    match dtls1_get_timeout s with
    | Some t => (Ok (Some 1, Some (ossl_time_to_timeval t)), s)
    | None => (Ok (Some 0, None), s)
    end
  else if cmd =? DTLS_CTRL_HANDLE_TIMEOUT then (r <~ dtls1_handle_timeout fuel ;; st_ret (r, None)) s
  else if cmd =? DTLS_CTRL_SET_LINK_MTU then
    if larg <? dtls1_link_min_mtu then (Ok (Some 0, None), s)
    else (Ok (Some 1, None), upd_w (fun w => set_mtus (mtu w) larg w) s)
  else if cmd =? DTLS_CTRL_GET_LINK_MIN_MTU then (Ok (Some dtls1_link_min_mtu, None), s)
  else if cmd =? SSL_CTRL_SET_MTU then
    if larg <? dtls1_link_min_mtu - DTLS1_MAX_MTU_OVERHEAD then (Ok (Some 0, None), s)
    else (Ok (Some larg, None), upd_w (fun w => set_mtus larg (link_mtu w) w) s)
  else (r <~ ssl3_ctrl cmd larg ;; st_ret (r, None)) s.

(** The body of a ChangeCipherSpec. *)
Definition dtls_construct_change_cipher_spec : ST (WPACKET * SSL) unit := fun '(pkt, s) =>
  if version s =? DTLS1_BAD_VER then
    let s := upd_w (fun w => set_next_write_seq ((next_handshake_write_seq w + 1) `mod` 2 ^ 16) w) s in
    match WPACKET_put_bytes__ (handshake_write_seq (w_of s)) 2 pkt with
    | (Fail, pkt) => let '(_, s) := SSLfatal SSL_AD_INTERNAL_ERROR s in (Fail, (pkt, s))
    | (r, pkt) => (r, (pkt, s))
    end
  else (Ok tt, (pkt, s)).

Lemma timer_of_upd f (s : SSL) : timer_of (upd_timer f s) = f (timer_of s).
Proof. done. Qed.

(** ** Expiry *)

Lemma is_zero_spec t : ossl_time_is_zero t = (t =? 0).
Proof. unfold ossl_time_is_zero, ossl_time_compare. repeat case_match; lia. Qed.

(** A timer runs out 15 milliseconds before its time. *)
Lemma expired_spec (s : SSL) : is_time (next_timeout (timer_of s)) -> is_time (time_now (env_of s)) ->
  dtls1_is_timer_expired s
  = negb (next_timeout (timer_of s) =? 0) && (next_timeout (timer_of s) <=? time_now (env_of s) + 15000000).
Proof.
  intros Hn Ht. unfold dtls1_is_timer_expired, dtls1_get_timeout. rewrite is_zero_spec.
  destruct (next_timeout (timer_of s) =? 0); [done|]. cbn [negb andb].
  rewrite subtract_spec by done. change (ossl_ms2time 15) with 15000000. rewrite is_zero_spec.
  unfold ossl_time_compare. unfold is_time in *. repeat case_match; lia.
Qed.

(** The duration with which the timer is started. *)
Definition start_duration (s : SSL) : Z :=
  if next_timeout (timer_of s) =? 0 then match timer_cb with Some cb => (cb 0 s) `mod` 2 ^ 32 | None => 1000000 end
  else timeout_duration_us (timer_of s).

Lemma start_timer_spec (s : SSL) : is_time (time_now (env_of s)) -> 0 <= timeout_duration_us (timer_of s) < 2 ^ 32 ->
  timer_of (dtls1_start_timer s)
  = mkDT (Z.min (time_now (env_of s) + start_duration s * 1000) SIZE_MAX) (start_duration s) (timeout_num_alerts (timer_of s)).
Proof.
  intros Ht Hd. unfold dtls1_start_timer, start_duration. rewrite is_zero_spec. set (d := match timer_cb with Some cb => _ | None => _ end).
  assert (Hd0 : 0 <= d < 2 ^ 32) by (unfold d; case_match; [apply Z.mod_pos_bound; lia|lia]).
  set (s1 := if next_timeout (timer_of s) =? 0 then _ else s).
  assert (H1 : env_of s1 = env_of s /\ timeout_num_alerts (timer_of s1) = timeout_num_alerts (timer_of s)
               /\ timeout_duration_us (timer_of s1) = (if next_timeout (timer_of s) =? 0 then d else timeout_duration_us (timer_of s)))
    by (unfold s1; by case_match).
  destruct H1 as (E1 & E2 & E3). rewrite <- E3. assert (Hr : 0 <= timeout_duration_us (timer_of s1) < 2 ^ 32) by (rewrite E3; by case_match).
  change (timer_of (dtls1_bio_set_next_timeout ?x)) with (timer_of x).
  rewrite timer_of_upd. unfold set_next_timeout. rewrite E2, E1. f_equal.
  rewrite wrap64_small by (unfold SIZE_MAX; lia). apply add_spec; [done|]. unfold is_time, SIZE_MAX. lia.
Qed.

(** ** Writing leaves the timer alone *)

(** What the record layer and the transcript do not touch; the clock is set. *)
Class TimerKept : Prop := {
  tk_write type bs s : timer_of (snd (dtls1_write_bytes type bs s)) = timer_of s;
  tk_mac m : kept timer_of (ssl3_finish_mac m);
  tk_alert l a : kept_fn timer_of (ssl3_send_alert (W := DTLS R) l a);
  tk_init b (w : DTLS R) : timer (writing (d1 (rl_set_in_init b w))) = timer (writing (d1 w));
  tk_clock r : 0 < time_now r <= SIZE_MAX
}.
Context `{TK : !TimerKept}.

Ltac timer_cases := unfold kept_at; repeat (case_match; try done; simplify_eq).

Lemma kept_go_timer {A B} (m : ST SSL (Z + A)) (k : A -> ST SSL (Z + B)) s :
  kept timer_of m -> (forall a, kept timer_of (k a)) -> kept_at timer_of (go m k) s.
Proof. intros Hm Hk. apply kept_bind; [apply Hm|]. intros [c|a] s'; [done|apply Hk]. Qed.

Lemma kept_query : kept timer_of dtls1_query_mtu.
Proof. intros s. unfold dtls1_query_mtu. timer_cases. Qed.

Lemma kept_next type off : kept timer_of (next_fragment type off).
Proof. intros s. unfold next_fragment. timer_cases. Qed.

Lemma kept_room overhead : kept timer_of (datagram_room overhead).
Proof. intros s. unfold datagram_room. timer_cases. Qed.

Lemma kept_store off bs (s s' : SSL) : store_init off bs s = Some s' -> timer_of s' = timer_of s.
Proof. unfold store_init. intros E. repeat case_match; simplify_eq; done. Qed.

Lemma kept_header type off len : kept timer_of (put_header type off len).
Proof.
  intros s. unfold put_header, kept_at. repeat case_match; try done. cbn [snd]. by erewrite kept_store by done.
Qed.

Lemma kept_failed retry : kept timer_of (write_failed retry).
Proof.
  intros s. unfold write_failed, kept_at. destruct retry; [|done]. destruct (dgram_mtu_exceeded (env_of s)) as [ex r].
  destruct ex; [|done]. destruct (has _ _); [done|].
  change (timer_of s) with (timer_of (upd_env (fun _ => r) s)). apply kept_bind; [apply kept_try, kept_query|].
  intros [] s'; done.
Qed.

Lemma kept_mac_part from n : kept timer_of (fun s : SSL => match init_data from n s with
    | Some m => st_try (ssl3_finish_mac m) s | None => (Fault, s) end).
Proof. intros s. unfold kept_at. destruct (init_data from n s); [|done]. apply kept_try, tk_mac. Qed.

Lemma kept_note type off written : kept timer_of (note_fragment ssl3_finish_mac type off written).
Proof.
  intros s. unfold note_fragment, kept_at. destruct (_ && _); [|done]. destruct (_ && _).
  - destruct (store_init _ _ s) as [s1|] eqn:E; [|done]. apply kept_store in E. rewrite <- E. apply (kept_mac_part (init_off s1) written s1).
  - apply kept_mac_part.
Qed.

Lemma kept_after type off len written :
  kept timer_of (after_fragment ssl3_finish_mac msg_callback type off len written).
Proof.
  intros s. unfold after_fragment, kept_at. destruct (negb _); [done|]. apply kept_bind; [apply kept_note|].
  intros [] s'; [|done]. unfold kept_at. timer_cases.
Qed.

Local Abbreviation round := (write_round dtls1_write_bytes ssl_get_max_send_fragment ssl3_finish_mac msg_callback).
Local Abbreviation retransmit_flight :=
  (dtls1_retransmit_buffered_messages dtls1_write_bytes ssl_get_max_send_fragment ssl3_finish_mac msg_callback).

Lemma kept_round type overhead off retry : kept timer_of (round type overhead off retry).
Proof.
  intros s. apply kept_go_timer; [apply kept_next|]. intros off' s1. apply kept_go_timer; [apply kept_room|].
  intros m s2. cbv zeta. unfold kept_at. apply kept_go_timer; [apply kept_header|]. intros _ s3. unfold kept_at.
  destruct (init_data _ _ s3) as [bs|]; [|done]. pose proof (tk_write type bs s3) as Hw.
  destruct (dtls1_write_bytes type bs s3) as [[ret written] s4]. cbn [snd] in Hw. rewrite <- Hw.
  destruct (ret <=? 0); (apply kept_go_timer; [apply kept_failed || apply kept_after|]; by intros a s5).
Qed.

Lemma kept_loop_timer fuel : forall type overhead off retry,
  kept timer_of (write_loop dtls1_write_bytes ssl_get_max_send_fragment ssl3_finish_mac msg_callback fuel type overhead off retry).
Proof.
  induction fuel as [|n IH]; intros type overhead off retry s; unfold kept_at; cbn [write_loop]; destruct (_ <=? 0); try done.
  apply kept_bind; [apply kept_round|]. intros [c|[off' retry']] s'; [done|apply IH].
Qed.

Lemma kept_write fuel type :
  kept timer_of (dtls1_do_write dtls1_write_bytes ssl_get_max_send_fragment ssl3_finish_mac msg_callback fuel type).
Proof.
  intros s. apply kept_bind; [apply kept_try, kept_query|]. intros [] s'; [|done]. cbn [negb]. unfold kept_at.
  destruct (_ <? _); [done|]. destruct (_ && _); [done|]. apply (kept_loop_timer fuel _ _ _ _ (set_rwstate SSL_NOTHING s')).
Qed.

Lemma kept_fatal_timer {A} al : kept timer_of (fatal (A := A) al).
Proof.
  intros s. apply kept_bind; [|done]. apply kept_put. intros s'. unfold ossl_statem_fatal, ossl_statem_send_fatal.
  destruct (_ && _); [done|]. destruct (al =? _); [|rewrite (tk_alert _ _ _)]; apply tk_init.
Qed.

Lemma kept_restore f (s s' : SSL) : restore_message f s = Some s' -> timer_of s' = timer_of s.
Proof.
  unfold restore_message. intros E. destruct (fragment _) as [d|]; [|done]. destruct (mem_read d 0 _) as [m|]; [|done].
  destruct (store_init 0 m s) as [s1|] eqn:E1; [|done]. injection E as <-. by apply kept_store in E1.
Qed.

Lemma kept_retransmit fuel seq :
  kept timer_of (dtls1_retransmit_message dtls1_write_bytes ssl_get_max_send_fragment ssl3_finish_mac msg_callback fuel seq).
Proof.
  intros s. unfold dtls1_retransmit_message, kept_at. destruct (pqueue_find _ _) as [item|]; [|apply kept_fatal_timer].
  destruct (restore_message _ s) as [s1|] eqn:E1; [|done]. apply kept_restore in E1. rewrite <- E1. cbv zeta.
  set (s2 := upd_env _ (upd_w _ _)). set (ty := if is_ccs _ then _ else _).
  pose proof (kept_write fuel ty s2) as Hw. unfold kept_at in Hw.
  destruct (dtls1_do_write _ _ _ _ fuel ty s2) as [[ret| |] s3]; cbn [snd] in *; exact Hw.
Qed.

Lemma kept_flight fuel : kept timer_of (retransmit_flight fuel).
Proof.
  intros s. unfold dtls1_retransmit_buffered_messages, kept_at. generalize (sent_messages (w_of s)). intros items. revert s.
  induction items as [|it items IH]; intros s; cbn [retransmit_all]; [done|]. set (seq := _ `mod` _).
  pose proof (kept_retransmit fuel seq s) as Hr. unfold kept_at in Hr.
  destruct (dtls1_retransmit_message _ _ _ _ fuel seq s) as [[[ret|]| |] s1]; cbn [snd] in *; try done.
  destruct (ret <=? 0); [done|]. by rewrite IH.
Qed.

(** ** Timeouts in a row *)

(** The timer counts [n] timeouts, each of which has doubled its duration. *)
Definition backed_off (n : Z) (t : DTLS1_TIMER) : Prop :=
  timeout_num_alerts t = n /\ timeout_duration_us t = Z.min 60000000 (1000000 * 2 ^ n)
  /\ is_time (next_timeout t) /\ next_timeout t <> 0.

Definition doubled (d : Z) : Z := if 60000000 <? d * 2 then 60000000 else d * 2.

Lemma double_spec (s : SSL) : 0 <= timeout_duration_us (timer_of s) <= 60000000 ->
  timer_of (dtls1_double_timeout s) = set_duration (doubled (timeout_duration_us (timer_of s))) (timer_of s).
Proof.
  intros Hd. unfold dtls1_double_timeout, doubled. cbv zeta. rewrite timer_of_upd. cbn [timeout_duration_us set_duration].
  rewrite Z.mod_small by lia. destruct (60000000 <? _); rewrite !timer_of_upd; cbn [set_duration]; [done|].
  by rewrite Z.mod_small by lia.
Qed.

Lemma doubled_pow n : 0 <= n -> doubled (Z.min 60000000 (1000000 * 2 ^ n)) = Z.min 60000000 (1000000 * 2 ^ (n + 1)).
Proof. intros Hn. unfold doubled. rewrite Z.pow_add_r, Z.pow_1_r by lia. case_match; lia. Qed.

(** The error state, or a timer that counts one more. *)
Lemma check_num_spec (s : SSL) : 0 <= timeout_num_alerts (timer_of s) < 2 ^ 32 - 1 ->
  exists s', timer_of s' = set_num_alerts (timeout_num_alerts (timer_of s) + 1) (timer_of s)
    /\ mtu (w_of s') <= mtu (w_of s)
    /\ dtls1_check_timeout_num s
       = if DTLS1_TMO_ALERT_COUNT <? timeout_num_alerts (timer_of s) + 1 then fatal SSL_AD_NO_ALERT s' else (Ok tt, s').
Proof.
  intros Hn. unfold dtls1_check_timeout_num. cbv zeta. set (s1 := upd_timer _ s).
  assert (E1 : timer_of s1 = set_num_alerts (timeout_num_alerts (timer_of s) + 1) (timer_of s))
    by (unfold s1; rewrite timer_of_upd; by rewrite Z.mod_small by lia).
  set (s2 := if (2 <? _) && _ then _ else s1). exists s2.
  assert (H2 : timer_of s2 = timer_of s1 /\ mtu (w_of s2) <= mtu (w_of s)).
  { unfold s2. destruct (_ && _); [|done]. destruct (dgram_get_fallback_mtu (env_of s1)) as [m r].
    destruct (_ <? _) eqn:E; [|done]. zbool. split; [done|]. change (mtu (w_of (upd_env _ s1))) with (mtu (w_of s)) in E. cbn. lia. }
  destruct H2 as [E2 Hm]. rewrite E2, E1. split_and!; done.
Qed.

Lemma no_alert_is_error {A} (s : SSL) : exists s', fatal (A := A) SSL_AD_NO_ALERT s = (Fail, s') /\ is_error s' = true.
Proof.
  eexists. split; [reflexivity|]. unfold ossl_statem_fatal, ossl_statem_send_fatal. destruct (_ && _) eqn:E; [|done].
  by apply andb_true_iff in E as [_ E].
Qed.

(** One timeout. *)
Lemma handle_timeout_spec fuel n (s : SSL) : timer_cb = None -> 0 <= n < 2 ^ 32 - 1 -> backed_off n (timer_of s) ->
  dtls1_is_timer_expired s = true ->
  exists res s', dtls1_handle_timeout fuel s = (res, s')
    /\ if DTLS1_TMO_ALERT_COUNT <=? n then res = Ok (Some (-1)) /\ is_error s' = true
       else backed_off (n + 1) (timer_of s').
Proof.
  intros Hcb Hn (Ha & Hd & Ht & Hz) He. unfold dtls1_handle_timeout. rewrite He, Hcb. cbn [negb].
  set (s1 := dtls1_double_timeout s).
  assert (E1 : timer_of s1 = mkDT (next_timeout (timer_of s)) (Z.min 60000000 (1000000 * 2 ^ (n + 1))) n).
  { unfold s1. pose proof (Z.pow_pos_nonneg 2 n ltac:(lia) ltac:(lia)). rewrite double_spec by lia.
    unfold set_duration. by rewrite Hd, doubled_pow, Ha by lia. }
  destruct (check_num_spec s1) as (s2 & E2 & _ & Ec); [rewrite E1; cbn; lia|]. rewrite E1 in E2, Ec. cbn [timeout_num_alerts] in Ec. cbn in E2.
  unfold st_try at 1, st_bind at 1. rewrite Ec. destruct (12 <=? n) eqn:El; zbool.
  - rewrite (proj2 (Z.ltb_lt _ _)) by lia. destruct (no_alert_is_error (A := unit) s2) as (s3 & E3 & Hs3). rewrite E3.
    eexists _, _. split; [reflexivity|]. done.
  - rewrite (proj2 (Z.ltb_ge _ _)) by lia. cbn [negb]. unfold st_bind, st_put. set (s3 := dtls1_start_timer s2).
    pose proof (kept_flight fuel s3) as Hk. unfold kept_at in Hk. destruct (retransmit_flight fuel s3) as [res s4].
    exists res, s4. split; [done|]. cbn [snd] in Hk. rewrite Hk. unfold s3.
    pose proof (tk_clock (env_of s2)). pose proof (Z.pow_pos_nonneg 2 (n + 1) ltac:(lia) ltac:(lia)).
    rewrite start_timer_spec by (rewrite ?E2; cbn; unfold is_time; lia). unfold start_duration. rewrite E2. cbn.
    rewrite (proj2 (Z.eqb_neq _ _) Hz). unfold backed_off, is_time. cbn. lia.
Qed.

(** Timeouts that end in a retransmission, with anything in between that leaves
    the timer alone. *)
Inductive timeouts (fuel : nat) (s : SSL) : nat -> SSL -> Prop :=
| TO_none s' : timer_of s' = timer_of s -> timeouts fuel s 0 s'
| TO_more n s1 s2 c s3 : timeouts fuel s n s1 -> timer_of s2 = timer_of s1 -> dtls1_is_timer_expired s2 = true ->
    dtls1_handle_timeout fuel s2 = (Ok (Some c), s3) -> 0 < c -> timeouts fuel s (S n) s3.

Lemma timeouts_spec fuel (s : SSL) n s' : timer_cb = None -> backed_off 0 (timer_of s) -> timeouts fuel s n s' ->
  (n <= 12)%nat /\ backed_off (Z.of_nat n) (timer_of s').
Proof.
  intros Hcb H0 Hto. induction Hto as [s' E|n s1 s2 c s3 _ [IHn IHb] E He Hh Hc]; [rewrite E; split; [lia|done]|].
  destruct (handle_timeout_spec fuel (Z.of_nat n) s2 Hcb ltac:(lia)) as (res & s3' & Hh' & Hres); [by rewrite E|done|].
  rewrite Hh in Hh'. injection Hh' as <- <-. destruct (12 <=? Z.of_nat n) eqn:El; zbool.
  - destruct Hres as [[= ->] _]. lia.
  - split; [lia|]. by replace (Z.of_nat (S n)) with (Z.of_nat n + 1) by lia.
Qed.

(** C16.  A flight is sent again at most twelve times.  Without a callback of the
    application, from a timer that was just started the retransmissions follow
    one another after 1, 2, 4, ... seconds, at most 60; the timeout after the
    twelfth puts the connection into the error state. *)
Theorem dtls_retransmissions_bounded (fuel n : nat) (s s' : SSL) (Hcb : timer_cb = None) (H0 : backed_off 0 (timer_of s))
  (Hto : timeouts fuel s n s') :
  (n <= 12)%nat
  /\ timeout_duration_us (timer_of s') = Z.min 60000000 (1000000 * 2 ^ Z.of_nat n)
  /\ (n = 12%nat -> dtls1_is_timer_expired s' = true ->
      exists s'', dtls1_handle_timeout fuel s' = (Ok (Some (-1)), s'') /\ is_error s'' = true).
Proof.
  destruct (timeouts_spec fuel s n s' Hcb H0 Hto) as [Hn Hb]. split; [done|]. split; [apply Hb|]. intros -> He.
  destruct (handle_timeout_spec fuel 12 s' Hcb ltac:(lia) Hb He) as (res & s'' & Hh & -> & Herr). by exists s''.
Qed.

(** C33.  The timer runs out when it should.  Started at a time [t] with a duration
    [d] it runs out exactly from 15 milliseconds before [t + d] on, and until then
    [dtls1_get_timeout] is the time left; times that do not fit count as the end
    of time. *)
Theorem dtls_timer_exact (s : SSL) (r : R) (Hd : 0 <= timeout_duration_us (timer_of s) < 2 ^ 32) :
  let deadline := Z.min (time_now (env_of s) + start_duration s * 1000) SIZE_MAX in
  let s' := set_env r (dtls1_start_timer s) in
  dtls1_is_timer_expired s' = (deadline <=? time_now r + 15000000)
  /\ dtls1_get_timeout s' = Some (if deadline <=? time_now r + 15000000 then ossl_time_zero else deadline - time_now r).
Proof.
  intros deadline s'. pose proof (tk_clock (env_of s)) as Hc. pose proof (tk_clock r) as Hr.
  assert (Et : timer_of s' = mkDT deadline (start_duration s) (timeout_num_alerts (timer_of s)))
    by (apply start_timer_spec; [unfold is_time; lia|done]).
  assert (Hs : 0 <= start_duration s) by (unfold start_duration; repeat case_match; try lia; apply Z.mod_pos_bound; lia).
  assert (Hdl : 0 < deadline <= SIZE_MAX) by (unfold deadline; lia). change (env_of s') with r in *. split.
  - rewrite expired_spec by (rewrite ?Et; unfold is_time; cbn; lia). rewrite Et. change (env_of s') with r. cbn [next_timeout]. lia.
  - unfold dtls1_get_timeout. rewrite is_zero_spec, Et. cbn [next_timeout]. rewrite (proj2 (Z.eqb_neq _ _)) by lia.
    change (env_of s') with r. rewrite subtract_spec by (unfold is_time; lia). change (ossl_ms2time 15) with 15000000.
    unfold ossl_time_compare. f_equal. repeat case_match; lia.
Qed.
End Ops.

(** ** A clock for examples *)

#[local] Instance tick_callees : Callees (DTLS Z) := idle_callees (fun s => (None, s)).

#[local] Instance tick_dgram : Dgram Z := {|
  BIO_wpending _ := 0;
  BIO_flush r := (1, r);
  BIO_dgram_get_mtu_overhead _ := 28;
  dgram_query_mtu r := (1500, r);
  dgram_set_mtu _ r := r;
  dgram_mtu_exceeded r := (false, r);
  get_max_record_overhead _ := 13;
  get_wrl _ := 0;
  restore_wrl _ r := r
|}.

(** The environment is the time. *)
#[local] Instance tick_clock : Clock Z := {|
  time_now r := Z.max 1 (Z.min r SIZE_MAX);
  dgram_set_next_timeout _ r := r;
  dgram_get_fallback_mtu r := (548, r);
  BIO_set_flags_read r := r;
  free_wrl _ r := r
|}.

Definition tick_write (type : Z) (bs : list Z) (s : SSL (DTLS Z)) : Z * Z * SSL (DTLS Z) := (1, Z.of_nat (length bs), s).

#[local] Instance tick_kept : TimerKept tick_write (fun _ => st_ret tt).
Proof. split; try done. intros r. unfold time_now, tick_clock, SIZE_MAX. lia. Qed.

Definition tick_conn (now : Z) : SSL (DTLS Z) :=
  sample_conn (mkDTLS (mkD1 0 (mkDW 0 0 no_header 1472 0 false [] (mkDT 0 0 0)) no_header []) now)
    TLS_ST_CW_CLNT_HELLO 0xfefd ecdhe_rsa.

(** A timer started at 5 seconds runs out at 6 seconds. *)
Lemma dtls_timer_exact_witness :
  dtls1_is_timer_expired (set_env 6000000000 (dtls1_start_timer None (tick_conn 5000000000))) = true.
Proof.
  apply (proj1 (dtls_timer_exact tick_write (fun _ => st_ret tt) None (tick_conn 5000000000) 6000000000 ltac:(done))).
Defined.

Definition tick_started : SSL (DTLS Z) := dtls1_start_timer None (tick_conn 5000000000).
Definition tick_handle : ST (SSL (DTLS Z)) (option Z) :=
  dtls1_handle_timeout tick_write (fun _ => 1400) (fun _ => st_ret tt) (fun _ r => r) None 10.

Lemma dtls_retransmissions_bounded_witness :
  timeout_duration_us (timer_of (snd (tick_handle (set_env 6000000000 tick_started)))) = 2000000.
Proof.
  apply (dtls_retransmissions_bounded tick_write (fun _ => 1400) (fun _ => st_ret tt) (fun _ r => r) None 10 1 tick_started
           (snd (tick_handle (set_env 6000000000 tick_started)))).
  - done.
  - split; [done|]. split; [done|]. split; [by unfold is_time|done].
  - apply (TO_more _ _ _ _ _ _ _ 0 tick_started (set_env 6000000000 tick_started) 1); [by constructor|done|done| |done].
    vm_compute. reflexivity.
Defined.
End DtlsTimer.
