(* ===== verification/RecLayer.v ===== *)
(** * The record layer of a connection

    What ssl/record/rec_layer_s3.c and ssl/record/rec_layer_d1.c have in common:
    the structures of ssl/record/record.h, the interpretation of what the methods
    of a record layer return, and releasing records.  The methods themselves
    ([OSSL_RECORD_METHOD] of include/internal/recordmethod.h) are the class
    [RecordMethods]. *)

From stdpp Require Import prelude list.
From Stdlib Require Import ZArith Lia ZifyBool.
From S2P Require Import Prelude Packet Buffer PQueue RecordTypes StatemTypes StatemLib Statem.

Local Open Scope Z_scope.
Local Open Scope st_scope.

Module RecLayer.

Abbreviation MAX_WARN_ALERT_COUNT := (5)%Z.
Abbreviation SSL_MAX_PIPELINES := (32)%Z.
Abbreviation SSL_RECEIVED_SHUTDOWN := (2)%Z.
Abbreviation SSL_MODE_AUTO_RETRY := (4)%Z.
Abbreviation SSL_OP_IGNORE_UNEXPECTED_EOF := (128)%Z.
Abbreviation SSL_AD_CLOSE_NOTIFY := (0)%Z.
Abbreviation SSL_AD_DECODE_ERROR := (50)%Z.
Abbreviation SSL_CB_READ_ALERT := (0x4004)%Z.
Abbreviation SSL3_AL_WARNING := (1)%Z.
Abbreviation SSL3_RT_ALERT := (21)%Z.
Abbreviation SSL3_RT_APPLICATION_DATA := (23)%Z.

(** ** Structures *)

(** [struct tls_record_st].  [rec_bytes] is the block [data] points at, [None]
    when it has been freed or given back; [allocdata] says whether the block was
    allocated by the connection; a null [rechandle] is [None]. *)
Record TLS_RECORD : Type := mkREC {
  rechandle : option Z;
  r_version : Z;
  r_type : Z;
  rec_bytes : option (list Z);
  allocdata : bool;
  r_length : Z;
  r_off : Z;
  r_epoch_of : Z;
  seq_num : list Z
}.

Definition empty_slot : TLS_RECORD := mkREC None 0 0 None false 0 0 0 [].

(** Settings of the connection that are only looked at: [s->recv_max_early_data],
    [s->psksession->ext.max_early_data] ([None] without a [psksession]),
    [s->max_send_fragment], [s->split_send_fragment] and
    [s->session->ext.max_fragment_len_mode]. *)
Record RL_CONF : Type := mkCONF {
  recv_max_early_data : Z;
  psk_max_early_data : option Z;
  max_send_fragment : Z;
  split_send_fragment : Z;
  max_fragment_len_mode : Z
}.

(** [struct record_layer_st] with [struct dtls_record_layer_st], and behind
    [tlsrecs] the fields of the connection that only this code uses:
    [s->mode], [s->s3.warn_alert], [s->s3.fatal_alert], [s->s3.alert_dispatch],
    [s->max_proto_version], [s->max_pipelines], [s->early_data_count] and the
    settings [conf].
    [handshake_fragment] has its [handshake_fragment_len] bytes.  [lower] is the
    state of the two [OSSL_RECORD_LAYER] objects. *)
Record RECORD_LAYER (E : Type) : Type := mkRLAYER {
  wnum : Z;
  handshake_fragment : list Z;
  wpend_tot : Z;
  wpend_type : Z;
  wpend_buf : Z;
  alert_count : Z;
  r_epoch : Z;
  w_epoch : Z;
  buffered_app_data : pqueue TLS_RECORD;
  num_recs : Z;
  curr_rec : Z;
  tlsrecs : list TLS_RECORD;
  mode : Z;
  warn_alert : Z;
  fatal_alert : Z;
  alert_dispatch : Z;
  max_proto_version : Z;
  max_pipelines : Z;
  early_data_count : Z;
  conf : RL_CONF;
  lower : E
}.

Arguments wnum {E} _.
Arguments handshake_fragment {E} _.
Arguments wpend_tot {E} _.
Arguments wpend_type {E} _.
Arguments wpend_buf {E} _.
Arguments alert_count {E} _.
Arguments r_epoch {E} _.
Arguments w_epoch {E} _.
Arguments buffered_app_data {E} _.
Arguments num_recs {E} _.
Arguments curr_rec {E} _.
Arguments tlsrecs {E} _.
Arguments mode {E} _.
Arguments warn_alert {E} _.
Arguments fatal_alert {E} _.
Arguments alert_dispatch {E} _.
Arguments max_proto_version {E} _.
Arguments max_pipelines {E} _.
Arguments early_data_count {E} _.
Arguments conf {E} _.
Arguments lower {E} _.
Arguments mkRLAYER {E}.

Definition set_wnum {E} (v : Z) (l : RECORD_LAYER E) : RECORD_LAYER E :=
  mkRLAYER v (handshake_fragment l) (wpend_tot l) (wpend_type l) (wpend_buf l) (alert_count l)
    (r_epoch l) (w_epoch l) (buffered_app_data l) (num_recs l) (curr_rec l) (tlsrecs l) (mode l)
    (warn_alert l) (fatal_alert l) (alert_dispatch l) (max_proto_version l) (max_pipelines l)
    (early_data_count l) (conf l) (lower l).
Definition set_handshake_fragment {E} (v : list Z) (l : RECORD_LAYER E) : RECORD_LAYER E :=
  mkRLAYER (wnum l) v (wpend_tot l) (wpend_type l) (wpend_buf l) (alert_count l) (r_epoch l)
    (w_epoch l) (buffered_app_data l) (num_recs l) (curr_rec l) (tlsrecs l) (mode l) (warn_alert l)
    (fatal_alert l) (alert_dispatch l) (max_proto_version l) (max_pipelines l) (early_data_count l)
    (conf l) (lower l).
Definition set_wpend_tot {E} (v : Z) (l : RECORD_LAYER E) : RECORD_LAYER E :=
  mkRLAYER (wnum l) (handshake_fragment l) v (wpend_type l) (wpend_buf l) (alert_count l) (r_epoch
    l) (w_epoch l) (buffered_app_data l) (num_recs l) (curr_rec l) (tlsrecs l) (mode l) (warn_alert
    l) (fatal_alert l) (alert_dispatch l) (max_proto_version l) (max_pipelines l) (early_data_count
    l) (conf l) (lower l).
Definition set_wpend_type {E} (v : Z) (l : RECORD_LAYER E) : RECORD_LAYER E :=
  mkRLAYER (wnum l) (handshake_fragment l) (wpend_tot l) v (wpend_buf l) (alert_count l) (r_epoch l)
    (w_epoch l) (buffered_app_data l) (num_recs l) (curr_rec l) (tlsrecs l) (mode l) (warn_alert l)
    (fatal_alert l) (alert_dispatch l) (max_proto_version l) (max_pipelines l) (early_data_count l)
    (conf l) (lower l).
Definition set_wpend_buf {E} (v : Z) (l : RECORD_LAYER E) : RECORD_LAYER E :=
  mkRLAYER (wnum l) (handshake_fragment l) (wpend_tot l) (wpend_type l) v (alert_count l) (r_epoch
    l) (w_epoch l) (buffered_app_data l) (num_recs l) (curr_rec l) (tlsrecs l) (mode l) (warn_alert
    l) (fatal_alert l) (alert_dispatch l) (max_proto_version l) (max_pipelines l) (early_data_count
    l) (conf l) (lower l).
Definition set_alert_count {E} (v : Z) (l : RECORD_LAYER E) : RECORD_LAYER E :=
  mkRLAYER (wnum l) (handshake_fragment l) (wpend_tot l) (wpend_type l) (wpend_buf l) v (r_epoch l)
    (w_epoch l) (buffered_app_data l) (num_recs l) (curr_rec l) (tlsrecs l) (mode l) (warn_alert l)
    (fatal_alert l) (alert_dispatch l) (max_proto_version l) (max_pipelines l) (early_data_count l)
    (conf l) (lower l).
Definition set_r_epoch {E} (v : Z) (l : RECORD_LAYER E) : RECORD_LAYER E :=
  mkRLAYER (wnum l) (handshake_fragment l) (wpend_tot l) (wpend_type l) (wpend_buf l) (alert_count
    l) v (w_epoch l) (buffered_app_data l) (num_recs l) (curr_rec l) (tlsrecs l) (mode l)
    (warn_alert l) (fatal_alert l) (alert_dispatch l) (max_proto_version l) (max_pipelines l)
    (early_data_count l) (conf l) (lower l).
Definition set_w_epoch {E} (v : Z) (l : RECORD_LAYER E) : RECORD_LAYER E :=
  mkRLAYER (wnum l) (handshake_fragment l) (wpend_tot l) (wpend_type l) (wpend_buf l) (alert_count
    l) (r_epoch l) v (buffered_app_data l) (num_recs l) (curr_rec l) (tlsrecs l) (mode l)
    (warn_alert l) (fatal_alert l) (alert_dispatch l) (max_proto_version l) (max_pipelines l)
    (early_data_count l) (conf l) (lower l).
Definition set_buffered_app_data {E} (v : pqueue TLS_RECORD) (l : RECORD_LAYER E) : RECORD_LAYER E :=
  mkRLAYER (wnum l) (handshake_fragment l) (wpend_tot l) (wpend_type l) (wpend_buf l) (alert_count
    l) (r_epoch l) (w_epoch l) v (num_recs l) (curr_rec l) (tlsrecs l) (mode l) (warn_alert l)
    (fatal_alert l) (alert_dispatch l) (max_proto_version l) (max_pipelines l) (early_data_count l)
    (conf l) (lower l).
Definition set_num_recs {E} (v : Z) (l : RECORD_LAYER E) : RECORD_LAYER E :=
  mkRLAYER (wnum l) (handshake_fragment l) (wpend_tot l) (wpend_type l) (wpend_buf l) (alert_count
    l) (r_epoch l) (w_epoch l) (buffered_app_data l) v (curr_rec l) (tlsrecs l) (mode l) (warn_alert
    l) (fatal_alert l) (alert_dispatch l) (max_proto_version l) (max_pipelines l) (early_data_count
    l) (conf l) (lower l).
Definition set_curr_rec {E} (v : Z) (l : RECORD_LAYER E) : RECORD_LAYER E :=
  mkRLAYER (wnum l) (handshake_fragment l) (wpend_tot l) (wpend_type l) (wpend_buf l) (alert_count
    l) (r_epoch l) (w_epoch l) (buffered_app_data l) (num_recs l) v (tlsrecs l) (mode l) (warn_alert
    l) (fatal_alert l) (alert_dispatch l) (max_proto_version l) (max_pipelines l) (early_data_count
    l) (conf l) (lower l).
Definition set_tlsrecs {E} (v : list TLS_RECORD) (l : RECORD_LAYER E) : RECORD_LAYER E :=
  mkRLAYER (wnum l) (handshake_fragment l) (wpend_tot l) (wpend_type l) (wpend_buf l) (alert_count
    l) (r_epoch l) (w_epoch l) (buffered_app_data l) (num_recs l) (curr_rec l) v (mode l)
    (warn_alert l) (fatal_alert l) (alert_dispatch l) (max_proto_version l) (max_pipelines l)
    (early_data_count l) (conf l) (lower l).
Definition set_warn_alert {E} (v : Z) (l : RECORD_LAYER E) : RECORD_LAYER E :=
  mkRLAYER (wnum l) (handshake_fragment l) (wpend_tot l) (wpend_type l) (wpend_buf l) (alert_count
    l) (r_epoch l) (w_epoch l) (buffered_app_data l) (num_recs l) (curr_rec l) (tlsrecs l) (mode l)
    v (fatal_alert l) (alert_dispatch l) (max_proto_version l) (max_pipelines l) (early_data_count
    l) (conf l) (lower l).
Definition set_fatal_alert {E} (v : Z) (l : RECORD_LAYER E) : RECORD_LAYER E :=
  mkRLAYER (wnum l) (handshake_fragment l) (wpend_tot l) (wpend_type l) (wpend_buf l) (alert_count
    l) (r_epoch l) (w_epoch l) (buffered_app_data l) (num_recs l) (curr_rec l) (tlsrecs l) (mode l)
    (warn_alert l) v (alert_dispatch l) (max_proto_version l) (max_pipelines l) (early_data_count l)
    (conf l) (lower l).
Definition set_alert_dispatch {E} (v : Z) (l : RECORD_LAYER E) : RECORD_LAYER E :=
  mkRLAYER (wnum l) (handshake_fragment l) (wpend_tot l) (wpend_type l) (wpend_buf l) (alert_count
    l) (r_epoch l) (w_epoch l) (buffered_app_data l) (num_recs l) (curr_rec l) (tlsrecs l) (mode l)
    (warn_alert l) (fatal_alert l) v (max_proto_version l) (max_pipelines l) (early_data_count l)
    (conf l) (lower l).
Definition set_early_data_count {E} (v : Z) (l : RECORD_LAYER E) : RECORD_LAYER E :=
  mkRLAYER (wnum l) (handshake_fragment l) (wpend_tot l) (wpend_type l) (wpend_buf l) (alert_count
    l) (r_epoch l) (w_epoch l) (buffered_app_data l) (num_recs l) (curr_rec l) (tlsrecs l) (mode l)
    (warn_alert l) (fatal_alert l) (alert_dispatch l) (max_proto_version l) (max_pipelines l) v
    (conf l) (lower l).
Definition set_lower {E} (v : E) (l : RECORD_LAYER E) : RECORD_LAYER E :=
  mkRLAYER (wnum l) (handshake_fragment l) (wpend_tot l) (wpend_type l) (wpend_buf l) (alert_count
    l) (r_epoch l) (w_epoch l) (buffered_app_data l) (num_recs l) (curr_rec l) (tlsrecs l) (mode l)
    (warn_alert l) (fatal_alert l) (alert_dispatch l) (max_proto_version l) (max_pipelines l)
    (early_data_count l) (conf l) v.

Definition set_in_read_app_data (v : Z) (x : S3) : S3 :=
  mkS3 (s3_flags x) (change_cipher_spec x) (s3_renegotiate x) (num_renegotiations x) (total_renegotiations x) v
    (previous_server_finished_len x) (tmp x).

(** [OSSL_RECORD_TEMPLATE]. *)
Record OSSL_RECORD_TEMPLATE : Type := mkTMPL {
  t_type : Z;
  t_version : Z;
  t_buf : list Z
}.

(** What [read_record] returns: a record, or a code other than success. *)
Inductive read_return : Type := GotRecord (r : TLS_RECORD) | ReadCode (code : Z).

(** [OSSL_RECORD_METHOD] as far as it is called here, for the reading and the
    writing object of a connection, and the message callback for alerts. *)
Class RecordMethods (E : Type) : Type := {
  read_record : E -> read_return * E;
  release_record : Z -> Z -> E -> Z * E;
  processed_read_pending : E -> bool;
  unprocessed_read_pending : E -> bool;
  app_data_pending : E -> Z;
  get_alert_code : E -> Z;
  write_records : list OSSL_RECORD_TEMPLATE -> E -> Z * E;
  retry_write_records : E -> Z * E;
  (* how many records, and of which size *)
  get_max_records : Z -> Z -> Z -> Z -> E -> Z * Z;
  free_layers : E -> E;
  alert_callback : list Z -> E -> E
}.

(** Where the record layer is in what belongs to a connection. *)
Class Layered (E W : Type) : Type := {
  rlayer : W -> RECORD_LAYER E;
  set_rlayer : RECORD_LAYER E -> W -> W;
  rlayer_set l w : rlayer (set_rlayer l w) = l;
  set_rlayer_set l l' w : set_rlayer l (set_rlayer l' w) = set_rlayer l w;
  set_rlayer_same w : set_rlayer (rlayer w) w = w
}.

#[export] Instance layered_self E : Layered E (RECORD_LAYER E).
Proof. by refine {| rlayer l := l; set_rlayer l _ := l |}. Defined.

Section Ops.
Context {E W : Type} `{C : Callees W} `{L : Libc} `{M : RecordMethods E} `{Y : Layered E W}.
Local Abbreviation SSL := (SSL W).

Definition rl_of (s : SSL) : RECORD_LAYER E := rlayer (rest s).
Definition upd_rl (f : RECORD_LAYER E -> RECORD_LAYER E) (s : SSL) : SSL :=
  upd_rest (fun w => set_rlayer (f (rlayer w)) w) s.
Definition lower_of (s : SSL) : E := lower (rl_of s).
Definition put_lower (e : E) (s : SSL) : SSL := upd_rl (set_lower e) s.

(** [rlayer.tlsrecs[i]]. *)
Definition slot (i : Z) (s : SSL) : option TLS_RECORD :=
  if 0 <=? i then tlsrecs (rl_of s) !! Z.to_nat i else None.
Definition put_slot (i : Z) (r : TLS_RECORD) (s : SSL) : SSL :=
  upd_rl (fun l => set_tlsrecs (<[Z.to_nat i := r]> (tlsrecs l)) l) s.

(** ** What the methods return *)

Definition handle_eof (writing : bool) (s : SSL) : Z * SSL :=
  if writing then (OSSL_RECORD_RETURN_FATAL, ossl_statem_fatal SSL_AD_INTERNAL_ERROR s)
  else if has (options s) SSL_OP_IGNORE_UNEXPECTED_EOF
  then (OSSL_RECORD_RETURN_EOF,
        upd_rl (set_warn_alert SSL_AD_CLOSE_NOTIFY) (set_shutdown SSL_RECEIVED_SHUTDOWN s))
  else (OSSL_RECORD_RETURN_EOF, ossl_statem_fatal SSL_AD_DECODE_ERROR s).

Definition ossl_tls_handle_rlayer_return (writing : bool) (ret : Z) (s : SSL) : Z * SSL :=
  if ret =? OSSL_RECORD_RETURN_RETRY
  then (-1, set_rwstate (if writing then SSL_WRITING else SSL_READING) s)
  else
    let s := set_rwstate SSL_NOTHING s in
    let '(ret, s) :=
      if ret =? OSSL_RECORD_RETURN_EOF then handle_eof writing s
      else if ret =? OSSL_RECORD_RETURN_FATAL then
        let al := get_alert_code (lower_of s) in
        if negb (al =? SSL_AD_NO_ALERT) then (ret, ossl_statem_fatal al s) else (ret, s)
      else (ret, s) in
    (if (ret =? OSSL_RECORD_RETURN_NON_FATAL_ERR) || (ret =? OSSL_RECORD_RETURN_EOF) then 0
     else if ret <? OSSL_RECORD_RETURN_NON_FATAL_ERR then -1 else ret, s).

(** ** Sizes of records *)

(** [GET_MAX_FRAGMENT_LENGTH], when the extension is in use. *)
Definition max_fragment_length (s : SSL) : option Z :=
  let m := max_fragment_len_mode (conf (rl_of s)) in
  match session s with
  | Some _ => if (1 <=? m) && (m <=? 4) then Some (Z.shiftl 512 (m - 1)) else None
  | None => None
  end.

Definition ssl_get_max_send_fragment (s : SSL) : Z :=
  match max_fragment_length s with
  | Some m => m
  | None => max_send_fragment (conf (rl_of s)) `mod` 2 ^ 32
  end.

Definition ssl_get_split_send_fragment (s : SSL) : Z :=
  let split := split_send_fragment (conf (rl_of s)) in
  let default :=
    (if max_send_fragment (conf (rl_of s)) <? split then max_send_fragment (conf (rl_of s)) else split) `mod` 2 ^ 32 in
  match max_fragment_length s with
  | Some m => if m <? split then m else default
  | None => default
  end.

(** ** Releasing records *)

(** The block of a record is gone. *)
Definition drop_bytes (r : TLS_RECORD) : TLS_RECORD :=
  mkREC (rechandle r) (r_version r) (r_type r) None (allocdata r) (r_length r) (r_off r) (r_epoch_of r) (seq_num r).
(** [OPENSSL_free(rr->allocdata); rr->allocdata = NULL;] *)
Definition free_alloc (r : TLS_RECORD) : TLS_RECORD :=
  if allocdata r
  then mkREC (rechandle r) (r_version r) (r_type r) None false (r_length r) (r_off r) (r_epoch_of r) (seq_num r)
  else r.
(** [rr->length -= length;] and what follows. *)
Definition shorten (length : Z) (r : TLS_RECORD) : TLS_RECORD :=
  let rest := r_length r - length in
  mkREC (rechandle r) (r_version r) (r_type r) (rec_bytes r) (allocdata r) rest
    (if 0 <? rest then r_off r + length else 0) (r_epoch_of r) (seq_num r).

(** The record [rr = &tlsrecs[i]]; the result is [0] or [1].  A record that has
    been released as a whole is no longer the connection's. *)
Definition ssl_release_record (i length : Z) : ST SSL bool := fun s =>
  match slot i s with
  | None => (Fault, s)
  | Some rr =>
      if r_length rr <? length then (Fault, s)
      else match rechandle rr with
      | Some h =>
          let length := if length =? 0 then r_length rr else length in
          let '(code, e) := release_record h length (lower_of s) in
          let '(ret, s) := ossl_tls_handle_rlayer_return false code (put_lower e s) in
          if ret <=? 0 then (Ok false, s)
          else if length =? r_length rr
          then (Ok true, put_slot i (shorten length (drop_bytes rr)) (upd_rl (fun l => set_curr_rec (curr_rec l + 1) l) s))
          else (Ok true, put_slot i (shorten length rr) s)
      | None =>
          let rr := if (length =? 0) || (length =? r_length rr) then free_alloc rr else rr in
          (Ok true, put_slot i (shorten length rr) s)
      end
  end.

(** [memcpy(buf, &(rr->data[rr->off]), n)]. *)
Definition record_bytes (r : TLS_RECORD) (n : Z) : option (list Z) :=
  match rec_bytes r with
  | Some d => mem_read d (r_off r) n
  | None => if n =? 0 then Some [] else None
  end.

(** ** Getting records *)

(** What [read_record] fills in, and [rr->off = 0]. *)
Definition fill_slot (got old : TLS_RECORD) : TLS_RECORD :=
  mkREC (rechandle got) (r_version got) (r_type got) (rec_bytes got) (allocdata old) (r_length got) 0
    (r_epoch_of got) (seq_num got).

(** One round of the loop that reads records: the code, more than [0] when there
    is a record. *)
Definition read_one : ST SSL Z := fun s =>
  let i := num_recs (rl_of s) in
  match slot i s with
  | None => (Fault, s)
  | Some old =>
      let '(got, e) := read_record (lower_of s) in
      let s := put_lower e s in
      match got with
      | GotRecord r =>
          let '(ret, s) := ossl_tls_handle_rlayer_return false OSSL_RECORD_RETURN_SUCCESS s in
          (Ok ret, upd_rl (set_num_recs (i + 1)) (put_slot i (fill_slot r old) s))
      | ReadCode code =>
          let '(ret, s) := ossl_tls_handle_rlayer_return false code s in (Ok ret, s)
      end
  end.

(** The loop; [k] bounds the records read by the size of [tlsrecs].  The code is
    that of the last round. *)
Fixpoint read_all (k : nat) : ST SSL Z :=
  match k with
  | O => st_ret 1
  | S k =>
      ret <~ read_one ;;
      if ret <=? 0 then st_ret ret
      else
        st_if (fun s => processed_read_pending (lower_of s) && (num_recs (rl_of s) <? SSL_MAX_PIPELINES))
          (read_all k) (st_ret ret)
  end.

(** [rlayer.curr_rec = rlayer.num_recs = 0;] and the loop, if there is no record. *)
Definition get_records : ST SSL Z := fun s =>
  if num_recs (rl_of s) <=? curr_rec (rl_of s)
  then read_all (Z.to_nat SSL_MAX_PIPELINES) (upd_rl (fun l => set_curr_rec 0 (set_num_recs 0 l)) s)
  else (Ok 1, s).

(** ** The record layer as a whole *)

Definition RECORD_LAYER_read_pending (s : SSL) : bool := unprocessed_read_pending (lower_of s).
Definition RECORD_LAYER_processed_read_pending (s : SSL) : bool :=
  (curr_rec (rl_of s) <? num_recs (rl_of s)) || processed_read_pending (lower_of s).
Definition RECORD_LAYER_write_pending (s : SSL) : bool := 0 <? wpend_tot (rl_of s).

Fixpoint pending_in (recs : list TLS_RECORD) (num : Z) : Z * bool :=
  match recs with
  | [] => (num, true)
  | r :: recs =>
      if negb (r_type r =? SSL3_RT_APPLICATION_DATA) then (num, false)
      else pending_in recs (wrap64 (num + r_length r))
  end.

Definition ssl3_pending (s : SSL) : Z :=
  let l := rl_of s in
  let num := if SSL_IS_DTLS s
             then foldl (fun num item => wrap64 (num + r_length (pdata item))) 0 (buffered_app_data l) else 0 in
  let '(num, all) := pending_in (take (Z.to_nat (num_recs l)) (tlsrecs l)) num in
  if all then wrap64 (num + app_data_pending (lower l)) else num.

(** [DTLS_RECORD_LAYER_clear]: the records kept are freed and the rest of the
    structure set to zero. *)
Definition DTLS_RECORD_LAYER_clear (s : SSL) : SSL :=
  upd_rl (fun l => set_buffered_app_data [] (set_w_epoch 0 (set_r_epoch 0 l))) s.

(** [while (rl->curr_rec < rl->num_recs)]. *)
Fixpoint clear_records (n : nat) (ret : bool) : ST SSL bool := fun s =>
  match n with
  | O => (Ok ret, s)
  | S n =>
      let i := curr_rec (rl_of s) in
      if i <? num_recs (rl_of s)
      then (ok <~ ssl_release_record i 0 ;; clear_records n (ret && ok)) (upd_rl (set_curr_rec (i + 1)) s)
      else (Ok ret, s)
  end.

(** [free] of both record layers is in [free_layers]; [dtls] says whether there
    is a [DTLS_RECORD_LAYER]. *)
Definition RECORD_LAYER_clear (dtls : bool) : ST SSL bool := fun s =>
  (ret <~ clear_records (Z.to_nat (num_recs (rl_of s) - curr_rec (rl_of s))) true ;;
   st_put (upd_rl (fun l => set_curr_rec 0 (set_num_recs 0 (set_alert_count 0 (set_wpend_buf 0 (set_wpend_type 0
             (set_wpend_tot 0 (set_handshake_fragment [] (set_wnum 0 l))))))))) ;;;
   st_put (fun s => put_lower (free_layers (lower_of s)) s) ;;;
   st_put (fun s => if dtls then DTLS_RECORD_LAYER_clear s else s) ;;;
   st_ret ret) s.

(** ** Reading in rounds *)

(** A round that began at the label [start] returns, or goes back to it.  What
    is returned: the code, the type stored in [*recvd_type], if any, and the
    bytes stored. *)
Inductive round : Type := Return_ (code : Z) (recvd : option Z) (bs : list Z) | Start.
Definition returns (code : Z) : ST SSL (option round) := st_ret (Some (Return_ code None [])).
Definition start : ST SSL (option round) := st_ret (Some Start).
(** [SSLfatal(sc, al, ...); return -1;] *)
Definition fails (al : Z) : ST SSL (option round) := SSLfatal al ;;; returns (-1).
(** [if (!ssl_release_record(sc, rr, length)) return -1;], with what is in
    [*recvd_type] by then. *)
Definition release_as (recvd : option Z) (i length : Z) (k : ST SSL (option round)) : ST SSL (option round) :=
  ok <~ ssl_release_record i length ;; if ok : bool then k else st_ret (Some (Return_ (-1) recvd [])).
Definition release := release_as None.
(** [i = sc->handshake_func(s);] with the returns behind it. *)
Definition handshake (handshake_func : SSL -> Z * SSL) (k : ST SSL (option round)) : ST SSL (option round) := fun s =>
  let '(i, s) := handshake_func s in
  if i <? 0 then returns i s else if i =? 0 then returns (-1) s else k s.
(** The end of a round that has sent messages: without [SSL_MODE_AUTO_RETRY] the
    caller has to come back. *)
Definition retry_or_start : ST SSL (option round) := fun s =>
  if negb (has (mode (rl_of s)) SSL_MODE_AUTO_RETRY) && negb (RECORD_LAYER_read_pending s)
  then returns (-1) (upd_rest bio_set_retry_read (set_rwstate SSL_READING s))
  else start s.

(** An alert: two bytes. *)
Definition parse_alert (rr : TLS_RECORD) : ret (Z * Z) :=
  match PACKET_buf_init (match rec_bytes rr with Some d => Ptr d (r_off rr) | None => Null end) (r_length rr) with
  | Ok alert =>
      match (level <~ PACKET_get_1 ;; descr <~ PACKET_get_1 ;; st_ret (level, descr)) alert with
      | (Ok p, alert) => if PACKET_remaining alert =? 0 then Ok p else Fail
      | (Fail, _) => Fail
      | (Fault, _) => Fault
      end
  | Fail => Fail
  | Fault => Fault
  end.

(** [s->method->ssl_dispatch_alert] if there is an alert to send. *)
Definition dispatch_first (ssl_dispatch_alert : SSL -> Z * SSL) (s : SSL) : Z * SSL :=
  if 0 <? alert_dispatch (rl_of s) then ssl_dispatch_alert s else (1, s).

(** ** Sizes *)

Definition conf_ok (c : RL_CONF) : Prop := 0 < max_send_fragment c < 2 ^ 32 /\ 0 < split_send_fragment c < 2 ^ 32.

(** Whatever is negotiated, records are not cut larger than they may be. *)
Lemma fragment_sizes (s : SSL) : conf_ok (conf (rl_of s)) -> 0 < ssl_get_split_send_fragment s <= ssl_get_max_send_fragment s.
Proof.
  intros [H1 H2]. unfold ssl_get_split_send_fragment, ssl_get_max_send_fragment, max_fragment_length.
  set (m := max_fragment_len_mode (conf (rl_of s))). set (c := conf (rl_of s)) in *.
  assert (Hd : 0 < (if max_send_fragment c <? split_send_fragment c then max_send_fragment c else split_send_fragment c) `mod` 2 ^ 32
               /\ (if max_send_fragment c <? split_send_fragment c then max_send_fragment c else split_send_fragment c) `mod` 2 ^ 32
                  <= Z.min (max_send_fragment c) (split_send_fragment c)).
  { destruct (max_send_fragment c <? split_send_fragment c) eqn:E1; zbool; rewrite Z.mod_small; lia. }
  rewrite (Z.mod_small (max_send_fragment c)) by lia.
  destruct (session s) as [x|]; [|lia]. destruct ((1 <=? m) && (m <=? 4)) eqn:Em; [|lia]. zbool.
  assert (0 < Z.shiftl 512 (m - 1)) by (rewrite Z.shiftl_mul_pow2 by lia; lia).
  destruct (Z.shiftl 512 (m - 1) <? split_send_fragment c) eqn:E2; zbool; lia.
Qed.

(** ** Slots *)

Lemma rl_of_upd f (s : SSL) : rl_of (upd_rl f s) = f (rl_of s).
Proof. unfold rl_of, upd_rl. apply rlayer_set. Qed.

Lemma rl_of_put_slot i r (s : SSL) : rl_of (put_slot i r s) = set_tlsrecs (<[Z.to_nat i := r]> (tlsrecs (rl_of s))) (rl_of s).
Proof. unfold put_slot. by rewrite rl_of_upd. Qed.

Lemma slot_put i r r' (s : SSL) : slot i s = Some r -> slot i (put_slot i r' s) = Some r'.
Proof.
  unfold slot. destruct (0 <=? i); [|done]. rewrite rl_of_put_slot. simpl. intros E1.
  apply list_lookup_insert_eq. by eapply lookup_lt_Some.
Qed.

Lemma slot_put_other i j r (s : SSL) : 0 <= i -> i <> j -> slot j (put_slot i r s) = slot j s.
Proof.
  intros Hi Hj. unfold slot. destruct (0 <=? j) eqn:Ej; zbool; [|done]. rewrite rl_of_put_slot. simpl.
  apply list_lookup_insert_ne. lia.
Qed.
End Ops.

(** ** Records at hand *)

(** A record as it is handed out, and what is left of it. *)
Definition live (r : TLS_RECORD) : Prop :=
  exists h d, rechandle r = Some h /\ rec_bytes r = Some d /\ 0 <= r_off r /\ 0 <= r_length r
    /\ r_off r + r_length r = Z.of_nat (length d).
Definition left_of (r : TLS_RECORD) : list Z :=
  match rec_bytes r with Some d => drop (Z.to_nat (r_off r)) d | None => [] end.

Lemma left_length r : live r -> Z.of_nat (length (left_of r)) = r_length r.
Proof. intros (h & d & _ & Hd & Ho & Hl & Hs). unfold left_of. rewrite Hd, length_drop. lia. Qed.

Lemma record_bytes_live r n : live r -> 0 <= n <= r_length r -> record_bytes r n = Some (take (Z.to_nat n) (left_of r)).
Proof.
  intros (h & d & _ & Hd & Ho & Hl & Hs) Hn. unfold record_bytes, left_of, mem_read. rewrite Hd.
  by rewrite !(proj2 (Z.leb_le _ _)) by lia.
Qed.

Lemma shorten_live n r : live r -> 0 <= n < r_length r ->
  live (shorten n r) /\ left_of (shorten n r) = drop (Z.to_nat n) (left_of r).
Proof.
  intros (h & d & Hh & Hd & Ho & Hl & Hs) Hn.
  assert (E1 : r_off (shorten n r) = r_off r + n) by (unfold shorten; simpl; rewrite (proj2 (Z.ltb_lt _ _)); lia).
  split.
  - exists h, d. rewrite E1. split_and!; try done; simpl; lia.
  - unfold left_of. rewrite E1. simpl. rewrite Hd, drop_drop. f_equal. lia.
Qed.

Lemma fill_slot_live r old : live r -> r_off r = 0 -> live (fill_slot r old) /\ left_of (fill_slot r old) = left_of r.
Proof.
  intros (h & d & Hh & Hd & Ho & Hl & Hs) H0. split; [|unfold left_of; by rewrite H0].
  exists h, d. split_and!; try done. simpl. lia.
Qed.
End RecLayer.
