(* ===== verification/DtlsLayer.v ===== *)
(** * Reading and writing DTLS records

    ssl/record/rec_layer_d1.c: [dtls1_read_bytes], which the message layer
    (DtlsFrag.v) reads from, with the buffering of application data that
    overtakes a Finished message, and [dtls1_write_bytes], which it writes to
    (DtlsSend.v). *)

From stdpp Require Import prelude list.
From Stdlib Require Import ZArith Lia ZifyBool.
From S2P Require Import Prelude Packet Buffer PQueue RecordTypes StatemTypes StatemLib Statem.
From S2P Require Import SafeMath OsslTime Quic Framing DtlsFrag DtlsSend DtlsTimer RecLayer.

Local Open Scope Z_scope.
Local Open Scope st_scope.

Module DtlsLayer.
Import Quic Framing DtlsFrag DtlsSend DtlsTimer RecLayer.

Abbreviation DTLS_ANY_VERSION := (0x1FFFF)%Z.
Abbreviation SSL3_CC_READ := (1)%Z.

#[export] Instance layered_dtls E : Layered E (DTLS (RECORD_LAYER E)).
Proof. by refine {| rlayer w := DtlsFrag.env w; set_rlayer l w := mkDTLS (d1 w) l |}; intros; destruct w. Defined.

Section Ops.
Context {E : Type} `{C : Callees (DTLS (RECORD_LAYER E))} `{L : Libc} `{D : Dgram (RECORD_LAYER E)}
  `{K : Clock (RECORD_LAYER E)} `{M : RecordMethods E}.
Local Abbreviation SSL := (SSL (DTLS (RECORD_LAYER E))).
Context (ssl_dispatch_alert handshake_func : SSL -> Z * SSL) (ssl_get_max_send_fragment : SSL -> Z)
  (ssl3_finish_mac : list Z -> ST SSL unit) (msg_callback : list Z -> RECORD_LAYER E -> RECORD_LAYER E)
  (timer_cb : option (Z -> SSL -> Z)) (SSL_CTX_remove_session : SSL -> SSL).

(** ** Writing *)

(** The results are the code and what is stored in [*written]. *)
Definition do_dtls1_write (type : Z) (bs : list Z) (s : SSL) : Z * Z * SSL :=
  let len := Z.of_nat (length bs) in
  let '(i, s) := dispatch_first ssl_dispatch_alert s in
  if i <=? 0 then (i, 0, s)
  else if len =? 0 then (0, 0, s)
  else if ssl_get_max_send_fragment s <? len then (0, 0, ossl_statem_fatal SSL_AD_INTERNAL_ERROR s)
  else
    let vers := if (method_version s =? DTLS_ANY_VERSION) && negb (max_proto_version (rl_of s) =? DTLS1_BAD_VER)
                then DTLS1_VERSION else version s in
    let '(code, e) := write_records [mkTMPL type vers bs] (lower_of s) in
    let '(ret, s) := ossl_tls_handle_rlayer_return true code (put_lower e s) in
    (ret, if 0 <? ret then len else 0, s).

Definition dtls1_write_bytes (type : Z) (bs : list Z) (s : SSL) : Z * Z * SSL :=
  if SSL3_RT_MAX_PLAIN_LENGTH <? Z.of_nat (length bs) then (-1, 0, ossl_statem_fatal SSL_AD_INTERNAL_ERROR s)
  else do_dtls1_write type bs (set_rwstate SSL_NOTHING s).

(** ** Epochs *)

Definition dtls1_increment_epoch (rw : Z) (s : SSL) : SSL :=
  if has rw SSL3_CC_READ
  then dtls1_clear_received_buffer (upd_rl (fun l => set_r_epoch ((r_epoch l + 1) `mod` 2 ^ 16) l) s)
  else upd_rl (fun l => set_w_epoch ((w_epoch l + 1) `mod` 2 ^ 16) l) s.

Definition dtls1_get_epoch (rw : Z) (s : SSL) : Z :=
  if has rw SSL3_CC_READ then r_epoch (rl_of s) else w_epoch (rl_of s).

(** ** Records kept for later *)

Definition sizeof_TLS_RECORD : Z := 64.

(** [OPENSSL_memdup(rec->data, rec->length)], [None] for a null result; [Fault]
    when the copy leaves the block. *)
Definition memdup_record (rec : TLS_RECORD) : ret (option (list Z)) :=
  if INT_MAX <=? r_length rec then Ok None
  else match CRYPTO_malloc (r_length rec) with
  | None => Ok None
  | Some _ =>
      match rec_bytes rec with
      | Some d => match mem_read d 0 (r_length rec) with Some bs => Ok (Some bs) | None => Fault end
      | None => Fault
      end
  end.

Definition dtls_buffer_record (rec : TLS_RECORD) : ST SSL Z := fun s =>
  let queue := buffered_app_data (rl_of s) in
  if 100 <=? pqueue_size queue then (Ok 0, s)
  else if negb (r_off rec =? 0) then (Ok (-1), s)
  else match CRYPTO_malloc sizeof_TLS_RECORD, CRYPTO_malloc sizeof_pitem with
  | Some _, Some _ =>
      match memdup_record rec with
      | Ok (Some bs) =>
          let rdata := mkREC None (r_version rec) (r_type rec) (Some bs) true (r_length rec) (r_off rec)
                         (r_epoch_of rec) (seq_num rec) in
          match pqueue_insert queue (mkPITEM (seq_num rec) rdata) with
          | Some queue => (Ok 1, upd_rl (set_buffered_app_data queue) s)
          | None => (Ok 1, s)
          end
      | Ok None => (SSLfatal SSL_AD_INTERNAL_ERROR ;;; st_ret (-1)) s
      | _ => (Fault, s)
      end
  | _, _ => (SSLfatal SSL_AD_INTERNAL_ERROR ;;; st_ret (-1)) s
  end.

Definition dtls_unbuffer_record (s : SSL) : SSL :=
  let l := rl_of s in
  if curr_rec l <? num_recs l then s
  else match pqueue_pop (buffered_app_data l) with
  | (Some item, queue) =>
      upd_rl (fun l => set_curr_rec 0 (set_num_recs 1 (set_tlsrecs (<[0%nat := pdata item]> (tlsrecs l))
                         (set_buffered_app_data queue l)))) s
  | (None, _) => s
  end.

(** ** Reading *)

(** The record has the type asked for. *)
Definition deliver (type : Z) (recvd : bool) (len : Z) (peek : bool) (i : Z) (rr : TLS_RECORD)
    : ST SSL (option round) := fun s =>
  if SSL_in_init s && (type =? SSL3_RT_APPLICATION_DATA) && SSL_IS_FIRST_HANDSHAKE s
  then fails SSL3_AD_UNEXPECTED_MESSAGE s
  else
    let recvd_type := if recvd then Some (r_type rr) else None in
    let done code bs := st_ret (Some (Return_ code recvd_type bs)) in
    if len =? 0 then
      (if r_length rr =? 0 then release_as recvd_type i 0 (done 0 []) else done 0 []) s
    else
      let n := if r_length rr <? len then r_length rr else len in
      match record_bytes rr n with
      | None => (Fault, s)
      | Some bs =>
          if peek then (if r_length rr =? 0 then release_as recvd_type i 0 (done 1 bs) else done 1 bs) s
          else release_as recvd_type i n (done 1 bs) s
      end.

Definition warning_alert (i descr : Z) : ST SSL (option round) :=
  st_put (upd_rl (set_warn_alert descr)) ;;;
  release i 0 (
    st_put (upd_rl (fun l => set_alert_count (alert_count l + 1) l)) ;;;
    st_if (fun s => alert_count (rl_of s) =? MAX_WARN_ALERT_COUNT) (fails SSL3_AD_UNEXPECTED_MESSAGE)
      (if descr =? SSL_AD_CLOSE_NOTIFY
       then st_put (fun s => set_shutdown (Z.lor (shutdown s) SSL_RECEIVED_SHUTDOWN) s) ;;; returns 0
       else start)).

Definition fatal_alert_received (i descr : Z) : ST SSL (option round) :=
  st_put (fun s => upd_rl (set_fatal_alert descr) (set_rwstate SSL_NOTHING s)) ;;;
  SSLfatal SSL_AD_NO_ALERT ;;;
  st_put (fun s => set_shutdown (Z.lor (shutdown s) SSL_RECEIVED_SHUTDOWN) s) ;;;
  release i 0 (st_put SSL_CTX_remove_session ;;; returns 0).

Definition receive_alert (i : Z) (rr : TLS_RECORD) : ST SSL (option round) := fun s =>
  match parse_alert rr with
  | Fault => (Fault, s)
  | Fail => fails SSL3_AD_UNEXPECTED_MESSAGE s
  | Ok (level, descr) =>
      let s := put_lower (alert_callback [level; descr] (lower_of s)) s in
      let s := upd_rest (info_callback SSL_CB_READ_ALERT (Z.lor (Z.shiftl level 8) descr)) s in
      (if level =? SSL3_AL_WARNING then warning_alert i descr
       else if level =? SSL3_AL_FATAL then fatal_alert_received i descr
       else fails SSL_AD_ILLEGAL_PARAMETER) s
  end.

(** A handshake record while no handshake is under way; [fuel] is that of the
    retransmission. *)
Definition unexpected_handshake (fuel : nat) (i : Z) (rr : TLS_RECORD) : ST SSL (option round) := fun s =>
  if negb (r_epoch_of rr =? r_epoch (rl_of s)) || (r_length rr <? DTLS1_HM_HEADER_LENGTH)
  then release i 0 start s
  else match match rec_bytes rr with Some d => dtls1_get_message_header d | None => None end with
  | None => (Fault, s)
  | Some msg_hdr =>
      if hm_type msg_hdr =? SSL3_MT_FINISHED then
        (ok <~ st_try dtls1_check_timeout_num ;;
         if negb ok then returns (-1)
         else
           r <~ dtls1_retransmit_buffered_messages dtls1_write_bytes ssl_get_max_send_fragment ssl3_finish_mac
                  msg_callback fuel ;;
           match r with
           | None => st_ret None
           | Some r => st_if (fun s => (r <=? 0) && ossl_statem_in_error s) (returns (-1)) (release i 0 retry_or_start)
           end) s
      else if negb (SSL_is_init_finished s) then fails SSL_AD_INTERNAL_ERROR s
      else handshake handshake_func retry_or_start (ossl_statem_set_in_init true s)
  end.

(** [switch (rr->type)] at the end. *)
Definition unexpected_record (rr : TLS_RECORD) : ST SSL (option round) := fun s =>
  if (r_type rr =? SSL3_RT_APPLICATION_DATA) && negb (in_read_app_data (s3 s) =? 0)
     && negb (total_renegotiations (s3 s) =? 0) && ossl_statem_app_data_allowed s
  then returns (-1) (upd_s3 (set_in_read_app_data 2) s)
  else fails SSL3_AD_UNEXPECTED_MESSAGE s.

(** From [rr = &sc->rlayer.tlsrecs[sc->rlayer.curr_rec]]. *)
Definition process_rr (fuel : nat) (type : Z) (recvd : bool) (len : Z) (peek : bool) : ST SSL (option round) := fun s =>
  let i := curr_rec (rl_of s) in
  match slot i s with
  | None => (Fault, s)
  | Some rr =>
      let s := if negb (r_type rr =? SSL3_RT_ALERT) && negb (r_length rr =? 0)
               then upd_rl (set_alert_count 0) s else s in
      if negb (StatemTypes.change_cipher_spec (s3 s) =? 0) && negb (r_type rr =? SSL3_RT_HANDSHAKE) then
        (b <~ dtls_buffer_record rr ;; if b <? 0 then returns (-1) else release i 0 start) s
      else if has (shutdown s) SSL_RECEIVED_SHUTDOWN then
        release i 0 (st_put (set_rwstate SSL_NOTHING) ;;; returns 0) s
      else if (type =? r_type rr)
              || ((r_type rr =? SSL3_RT_CHANGE_CIPHER_SPEC) && (type =? SSL3_RT_HANDSHAKE) && recvd)
      then deliver type recvd len peek i rr s
      else if r_type rr =? SSL3_RT_ALERT then receive_alert i rr s
      else if has (shutdown s) SSL_SENT_SHUTDOWN then release i 0 (returns 0) (set_rwstate SSL_NOTHING s)
      else if r_type rr =? SSL3_RT_CHANGE_CIPHER_SPEC then release i 0 start s
      else if (r_type rr =? SSL3_RT_HANDSHAKE) && (ossl_statem_get_in_handshake s =? 0)
      then unexpected_handshake fuel i rr s
      else unexpected_record rr s
  end.

(** From the label [start]; [None] when the fuel of a retransmission is used up. *)
Definition read_round (fuel : nat) (type : Z) (recvd : bool) (len : Z) (peek : bool) : ST SSL (option round) :=
  st_put (set_rwstate SSL_NOTHING) ;;;
  st_put (fun s => if SSL_is_init_finished s then dtls_unbuffer_record s else s) ;;;
  t <~ dtls1_handle_timeout dtls1_write_bytes ssl_get_max_send_fragment ssl3_finish_mac msg_callback timer_cb fuel ;;
  match t with
  | None => st_ret None
  | Some t =>
      if 0 <? t then start
      else st_if ossl_statem_in_error (returns (-1))
        (ret <~ get_records ;;
         if ret <=? 0 then
           f <~ dtls1_read_failed dtls1_write_bytes ssl_get_max_send_fragment ssl3_finish_mac msg_callback timer_cb fuel ret ;;
           match f with
           | None => st_ret None
           | Some f => if f <=? 0 then returns f else start
           end
         else process_rr fuel type recvd len peek)
  end.

(** The results are the code, the type of the record and the bytes; [None] when
    the fuel is used up: [n] rounds, [fuel] for retransmissions. *)
Fixpoint read_rounds (n fuel : nat) (type : Z) (recvd : bool) (len : Z) (peek : bool)
    : ST SSL (option (Z * option Z * list Z)) :=
  match n with
  | O => st_ret None
  | S n =>
      r <~ read_round fuel type recvd len peek ;;
      match r with
      | None => st_ret None
      | Some Start => read_rounds n fuel type recvd len peek
      | Some (Return_ code t bs) => st_ret (Some (code, t, bs))
      end
  end.

Definition dtls1_read_bytes (n fuel : nat) (type : Z) (recvd : bool) (len : Z) (peek : bool)
    : ST SSL (option (Z * option Z * list Z)) := fun s =>
  if (negb (type =? 0) && negb (type =? SSL3_RT_APPLICATION_DATA) && negb (type =? SSL3_RT_HANDSHAKE))
     || (peek && negb (type =? SSL3_RT_APPLICATION_DATA))
  then (SSLfatal SSL_AD_INTERNAL_ERROR ;;; st_ret (Some (-1, None, []))) s
  else if (ossl_statem_get_in_handshake s =? 0) && SSL_in_init s then
    let '(i, s) := handshake_func s in
    if i <? 0 then (Ok (Some (i, None, [])), s)
    else if i =? 0 then (Ok (Some (-1, None, [])), s)
    else read_rounds n fuel type recvd len peek s
  else read_rounds n fuel type recvd len peek s.
End Ops.
End DtlsLayer.
