(* ===== verification/DtlsLayerProps.v ===== *)
(** * Properties of reading DTLS records *)

From stdpp Require Import prelude list.
From Stdlib Require Import ZArith Lia ZifyBool.
From S2P Require Import Prelude Packet Buffer PQueue RecordTypes StatemTypes StatemLib Statem.
From S2P Require Import SafeMath OsslTime Quic Framing DtlsFrag DtlsSend DtlsTimer RecLayer DtlsLayer.

Local Open Scope Z_scope.
Local Open Scope st_scope.

Module DtlsLayerProps.
Import OsslTime Quic Framing DtlsFrag DtlsSend DtlsTimer RecLayer DtlsLayer.

Section Facts.
Context {E : Type} `{C : Callees (DTLS (RECORD_LAYER E))} `{L : Libc} `{D : Dgram (RECORD_LAYER E)}
  `{K : Clock (RECORD_LAYER E)} `{M : RecordMethods E}.
Local Abbreviation SSL := (SSL (DTLS (RECORD_LAYER E))).
Context (dispatch handshake_func : SSL -> Z * SSL) (max_send_fragment : SSL -> Z)
  (finish_mac : list Z -> ST SSL unit) (msg_callback : list Z -> RECORD_LAYER E -> RECORD_LAYER E)
  (timer_cb : option (Z -> SSL -> Z)) (remove_session : SSL -> SSL).
Local Abbreviation read_bytes :=
  (dtls1_read_bytes dispatch handshake_func max_send_fragment finish_mac msg_callback timer_cb remove_session).
Local Abbreviation read_round :=
  (read_round dispatch handshake_func max_send_fragment finish_mac msg_callback timer_cb remove_session).

(** ** A record that was kept blocks the connection *)

(** The handshake is over, nothing is wrong, and no timer is running. *)
Record settled (s : SSL) : Prop := {
  st_init : SSL_is_init_finished s = true;
  st_error : ossl_statem_in_error s = false;
  st_timer : ossl_time_is_zero (next_timeout (timer_of s)) = true;
  st_ccs : StatemTypes.change_cipher_spec (s3 s) = 0;
  st_shutdown : has (shutdown s) SSL_RECEIVED_SHUTDOWN = false
}.

(** The current record is one that was kept, and it has been read. *)
Record used_up (s : SSL) : Prop := {
  uu_slot : exists rr, slot (curr_rec (rl_of s)) s = Some rr /\ rechandle rr = None /\ r_length rr = 0
              /\ rec_bytes rr = None /\ r_type rr = SSL3_RT_APPLICATION_DATA;
  uu_curr : curr_rec (rl_of s) < num_recs (rl_of s)
}.

(** What a round does first. *)
Definition entered (s : SSL) : SSL :=
  let s := set_rwstate SSL_NOTHING s in if SSL_is_init_finished s then dtls_unbuffer_record s else s.

(** A round while no timer has run out and nothing is wrong. *)
Lemma round_calm fuel type recvd len peek (s : SSL) :
  dtls1_is_timer_expired (entered s) = false -> ossl_statem_in_error (entered s) = false ->
  read_round fuel type recvd len peek s
  = (ret <~ get_records ;;
     if ret <=? 0 then
       f <~ dtls1_read_failed (dtls1_write_bytes dispatch max_send_fragment) max_send_fragment finish_mac msg_callback
              timer_cb fuel ret ;;
       match f with
       | None => st_ret None
       | Some f => if f <=? 0 then returns f else start
       end
     else process_rr dispatch handshake_func max_send_fragment finish_mac msg_callback remove_session
            fuel type recvd len peek) (entered s).
Proof.
  intros Ht He. unfold DtlsLayer.read_round. unfold st_bind at 1, st_put at 1. unfold st_bind at 1, st_put at 1.
  fold (entered s). unfold st_bind at 1, dtls1_handle_timeout at 1. rewrite Ht. cbn -[get_records process_rr dtls1_read_failed].
  unfold st_if. by rewrite He.
Qed.

Lemma current_record (s : SSL) : curr_rec (rl_of s) < num_recs (rl_of s) -> get_records s = (Ok 1, s).
Proof. intros Hc. unfold get_records. by rewrite (proj2 (Z.leb_gt _ _)). Qed.

(** Every further read of application data succeeds with nothing. *)
Lemma kept_record_sticks n fuel recvd len (s : SSL) : settled s -> used_up s -> 0 < len ->
  exists t s', read_bytes (S n) fuel SSL3_RT_APPLICATION_DATA recvd len false s = (Ok (Some (1, t, [])), s')
    /\ settled s' /\ used_up s'.
Proof.
  intros [Hi He Ht Hcc Hsh] [(rr & Es & Hh & Hl & Hb & Hty) Hc] Hlen. unfold DtlsLayer.dtls1_read_bytes.
  assert (Hin : SSL_in_init s = false).
  { revert Hi. unfold SSL_is_init_finished, SSL_in_init. by destruct (in_init (statem s)). }
  cbn -[SSL_in_init read_rounds]. rewrite Hin, andb_false_r. cbn [read_rounds].
  assert (Een : entered s = set_rwstate SSL_NOTHING s).
  { unfold entered. cbv zeta. change (SSL_is_init_finished _) with (SSL_is_init_finished s). rewrite Hi.
    unfold dtls_unbuffer_record. by rewrite (proj2 (Z.ltb_lt _ _)). }
  unfold st_bind at 1. rewrite round_calm; rewrite Een; try done.
  2: { unfold dtls1_is_timer_expired, dtls1_get_timeout. by change (timer_of _) with (timer_of s); rewrite Ht. }
  set (s1 := set_rwstate SSL_NOTHING s). unfold st_bind at 1. rewrite current_record by done.
  cbn -[process_rr]. unfold process_rr. change (curr_rec (rl_of s1)) with (curr_rec (rl_of s)).
  change (slot _ s1) with (slot (curr_rec (rl_of s)) s). rewrite Es. cbv zeta. rewrite Hl, Hty. cbn [Z.eqb negb andb].
  replace (StatemTypes.change_cipher_spec (s3 s1)) with 0 by done. replace (has (shutdown s1) 2) with false by done. cbn -[deliver].
  unfold deliver. change (SSL_in_init s1) with (SSL_in_init s). rewrite Hin. cbn [andb]. cbv zeta.
  rewrite (proj2 (Z.eqb_neq len 0)), Hl, (proj2 (Z.ltb_lt 0 len)) by lia. unfold record_bytes. rewrite Hb, Hcc, Hsh.
  cbn -[release_as]. unfold release_as, ssl_release_record, st_bind.
  change (slot _ s1) with (slot (curr_rec (rl_of s)) s). rewrite Es, Hl, Hh. cbn -[put_slot slot].
  eexists _, _. split; [done|]. split; [by split|].
  split; [|done]. eexists. split; [by apply (slot_put _ rr)|].
  unfold shorten, free_alloc. destruct (allocdata rr); simpl; rewrite Hl; auto.
Qed.
End Facts.

(** ** Methods for examples *)

(** The records to come; the handshake records written, whether the next ones are
    taken (all are when there is no more to say), and the transcript. *)
Record wire : Type := mkWIRE {
  w_in : list TLS_RECORD;
  w_out : list (Z * list Z);
  w_takes : list bool;
  w_transcript : list Z
}.

Definition wire_write (t : list OSSL_RECORD_TEMPLATE) (e : wire) : Z * wire :=
  let out := map (fun t => (t_type t, t_buf t)) t in
  match w_takes e with
  | [] => (OSSL_RECORD_RETURN_SUCCESS, mkWIRE (w_in e) (w_out e ++ out) [] (w_transcript e))
  | true :: k => (OSSL_RECORD_RETURN_SUCCESS, mkWIRE (w_in e) (w_out e ++ out) k (w_transcript e))
  | false :: k => (OSSL_RECORD_RETURN_RETRY, mkWIRE (w_in e) (w_out e) k (w_transcript e))
  end.

#[export] Instance wire_methods : RecordMethods wire := {|
  read_record e := match w_in e with
                   | [] => (ReadCode OSSL_RECORD_RETURN_RETRY, e)
                   | r :: rs => (GotRecord r, mkWIRE rs (w_out e) (w_takes e) (w_transcript e))
                   end;
  release_record _ _ e := (OSSL_RECORD_RETURN_SUCCESS, e);
  processed_read_pending _ := false;
  unprocessed_read_pending _ := false;
  app_data_pending _ := 0;
  get_alert_code _ := SSL_AD_NO_ALERT;
  write_records := wire_write;
  retry_write_records e := (OSSL_RECORD_RETURN_SUCCESS, e);
  get_max_records _ _ _ split _ := (1, split);
  free_layers e := e;
  alert_callback _ e := e
|}.

#[export] Instance wire_dgram : Dgram (RECORD_LAYER wire) := {|
  BIO_wpending _ := 0;
  BIO_flush r := (1, r);
  BIO_dgram_get_mtu_overhead _ := 28;
  dgram_query_mtu r := (1500, r);
  dgram_set_mtu _ r := r;
  dgram_mtu_exceeded r := (false, r);
  get_max_record_overhead _ := 13;
  get_wrl _ := 0;
  restore_wrl _ r := r
|}.

#[export] Instance wire_clock : Clock (RECORD_LAYER wire) := {|
  time_now _ := 5000000000;
  dgram_set_next_timeout _ r := r;
  dgram_get_fallback_mtu r := (548, r);
  BIO_set_flags_read r := r;
  free_wrl _ r := r
|}.

#[export] Instance wire_callees : Callees (DTLS (RECORD_LAYER wire)) := idle_callees (fun s => (None, s)).

Definition wire_mac (m : list Z) : ST (SSL (DTLS (RECORD_LAYER wire))) unit := fun s =>
  (Ok tt, upd_rl (fun l => set_lower (let e := lower l in mkWIRE (w_in e) (w_out e) (w_takes e) (w_transcript e ++ m)) l) s).

(** A record with number [q] of epoch [ep]. *)
Definition wire_record (q ep t : Z) (d : list Z) : TLS_RECORD :=
  mkREC (Some 1) 0xfefd t (Some d) false (Z.of_nat (length d)) 0 ep (seq64be q).

Definition wire_layer (e : wire) : RECORD_LAYER wire :=
  mkRLAYER 0 [] 0 0 0 0 0 0 [] 0 0 (replicate 32 empty_slot) 0 0 0 0 0 0 0 (mkCONF 0 None 16384 16384 0) e.

Definition wire_conn (h : OSSL_HANDSHAKE_STATE) (e : wire) : SSL (DTLS (RECORD_LAYER wire)) :=
  upd_st (set_in_handshake 1)
    (sample_conn (mkDTLS (mkD1 0 (mkDW 0 0 no_header 1472 0 false [] (mkDT 0 0 0)) no_header []) (wire_layer e)) h 0xfefd ecdhe_rsa).

Definition wire_read := dtls1_read_bytes (L := zero_libc) (E := wire) (fun s => (1, s)) (fun s => (1, s)) (fun _ => 1400) wire_mac
  (fun _ r => r) None (fun s => s) 10 10.

(** The handshake is over. *)
Definition wire_finish (s : SSL (DTLS (RECORD_LAYER wire))) : SSL (DTLS (RECORD_LAYER wire)) :=
  upd_s3 (set_change_cipher_spec 0)
    (upd_st (fun st => set_in_handshake 0 (set_in_init false (set_hand_state TLS_ST_OK st))) s).
Definition wire_arrives (rs : list TLS_RECORD) (s : SSL (DTLS (RECORD_LAYER wire))) : SSL (DTLS (RECORD_LAYER wire)) :=
  upd_rl (fun l => set_lower (mkWIRE rs [] [] []) l) s.

(** A record that overtakes the Finished message is kept. *)
Definition overtaken (r : TLS_RECORD) : SSL (DTLS (RECORD_LAYER wire)) :=
  wire_finish (snd (wire_read SSL3_RT_HANDSHAKE true 12 false
    (upd_s3 (set_change_cipher_spec 1)
       (wire_conn TLS_ST_CR_CHANGE (mkWIRE [r; wire_record 1 1 SSL3_RT_HANDSHAKE (replicate 12 0)] [] [] []))))).

(** Application data that overtook the Finished message is delivered, but the
    record stays the current one: data that arrives later is not. *)
Lemma overtaking_data_blocks :
  let s := overtaken (wire_record 2 1 SSL3_RT_APPLICATION_DATA [1; 2; 3]) in
  let '(r1, s1) := wire_read SSL3_RT_APPLICATION_DATA false 100 false s in
  let '(r2, s2) := wire_read SSL3_RT_APPLICATION_DATA false 100 false
                     (wire_arrives [wire_record 3 1 SSL3_RT_APPLICATION_DATA [4; 5]] s1) in
  let '(r3, _) := wire_read SSL3_RT_APPLICATION_DATA false 100 false s2 in
  r1 = Ok (Some (1, None, [1; 2; 3])) /\ r2 = Ok (Some (1, None, [])) /\ r3 = Ok (Some (1, None, [])).
Proof. vm_compute. repeat split. Qed.

(** A warning that overtook the Finished message is looked at again after its
    memory has been freed. *)
Lemma overtaking_alert_freed :
  fst (wire_read SSL3_RT_APPLICATION_DATA false 100 false (overtaken (wire_record 2 1 SSL3_RT_ALERT [SSL3_AL_WARNING; 90])))
  = Fault.
Proof. vm_compute. reflexivity. Qed.

(** [RECORD_LAYER_clear] moves to the next record itself, and so does
    [ssl_release_record]: of three records that were read but not used the second
    is not given back. *)
Lemma clear_skips_a_record :
  let r := wire_record 1 1 SSL3_RT_APPLICATION_DATA [1; 2; 3] in
  let s := upd_rl (fun l => set_num_recs 3 (set_tlsrecs (replicate 3 r ++ replicate 29 empty_slot) l))
             (wire_conn TLS_ST_OK (mkWIRE [] [] [] [])) in
  let '(ret, s') := RECORD_LAYER_clear (E := wire) true s in
  ret = Ok true /\ map r_length (take 3 (tlsrecs (rl_of s'))) = [0; 3; 0].
Proof. vm_compute. repeat split. Qed.
End DtlsLayerProps.
