(* ===== verification/DtlsStack.v ===== *)
(** * DTLS messages over DTLS records

    The message layer (DtlsFrag.v, DtlsSend.v) put on top of the record layer of
    a connection (DtlsLayer.v): [dtls1_read_bytes] meets the contract
    [RecordSource] that receiving relies on, and [dtls1_write_bytes] the contract
    [Sender] of sending.  So what is proved of messages holds of both layers
    together. *)

From stdpp Require Import prelude list.
From Stdlib Require Import ZArith Lia ZifyBool.
From S2P Require Import Prelude Packet Buffer PQueue RecordTypes StatemTypes StatemLib Statem.
From S2P Require Import SafeMath OsslTime Quic Framing DtlsFrag DtlsFragBits DtlsFragQueue DtlsMessage DtlsDelivery.
From S2P Require Import DtlsSend DtlsWrite DtlsExchange DtlsTimer RecLayer DtlsLayer DtlsLayerProps.

Local Open Scope Z_scope.
Local Open Scope st_scope.

Module DtlsStack.
Import OsslTime Quic Framing DtlsFrag FragBits FragQueue DtlsMessage DtlsDelivery DtlsSend DtlsWrite DtlsExchange DtlsTimer.
Import RecLayer DtlsLayer DtlsLayerProps.

Section Reading.
Context {E : Type} `{C : Callees (DTLS (RECORD_LAYER E))} `{L : Libc} {LO : LibcOk L} `{D : Dgram (RECORD_LAYER E)}
  `{K : Clock (RECORD_LAYER E)} `{M : RecordMethods E}.
Local Abbreviation SSL := (SSL (DTLS (RECORD_LAYER E))).
Context (dispatch handshake_func : SSL -> Z * SSL) (max_send_fragment : SSL -> Z)
  (finish_mac : list Z -> ST SSL unit) (msg_callback : list Z -> RECORD_LAYER E -> RECORD_LAYER E)
  (timer_cb : option (Z -> SSL -> Z)) (remove_session : SSL -> SSL).

(** ** The methods *)

(** The records to come.  Reading gets them one at a time, or has to wait;
    releasing succeeds. *)
Context (feed : E -> list TLS_RECORD).
Class Feeds : Prop := {
  fd_got e r e' : read_record e = (GotRecord r, e') -> feed e = r :: feed e';
  fd_wait e c e' : read_record e = (ReadCode c, e') -> c = OSSL_RECORD_RETURN_RETRY /\ feed e' = feed e;
  fd_release h n e : fst (release_record h n e) = OSSL_RECORD_RETURN_SUCCESS /\ feed (snd (release_record h n e)) = feed e;
  fd_single e : processed_read_pending e = false
}.
Context `{!Feeds} (Hmem : ~ alloc_failed).

(** [ccs]: a ChangeCipherSpec has been received and the Finished message not yet.
    Then other records than those of the handshake are kept for later. *)
Section Phase.
Context (ccs : Z).

Definition wanted (r : TLS_RECORD) : bool :=
  (r_type r =? SSL3_RT_HANDSHAKE) || ((ccs =? 0) && (r_type r =? SSL3_RT_CHANGE_CIPHER_SPEC)).
Definition content (r : TLS_RECORD) : Z * list Z := (r_type r, left_of r).
Definition coming (rs : list TLS_RECORD) : list (Z * list Z) := map content (filter (fun r => wanted r = true) rs).

(** What may come: outside of the time between ChangeCipherSpec and Finished only
    records of the handshake. *)
Definition may_come (r : TLS_RECORD) : Prop :=
  live r /\ r_off r = 0 /\ (wanted r = true \/ (ccs <> 0 /\ 0 < r_length r < INT_MAX)).

Definition records (l : RECORD_LAYER E) : list (Z * list Z) :=
  match (if curr_rec l <? num_recs l then tlsrecs l !! Z.to_nat (curr_rec l) else None) with
  | Some rr => unread (r_type rr) (left_of rr) (coming (feed (lower l)))
  | None => coming (feed (lower l))
  end.
Definition record_left (l : RECORD_LAYER E) : Z :=
  match tlsrecs l !! Z.to_nat (curr_rec l) with Some rr => r_length rr | None => 0 end.

(** Only the first slot is used.  [n] bounds the rounds. *)
Record base (n : nat) (l : RECORD_LAYER E) : Prop := {
  bs_slots : length (tlsrecs l) = 32%nat;
  bs_blank : Forall (fun r => r_length r = 0) (drop 1 (tlsrecs l));
  bs_feed : Forall may_come (feed (lower l));
  bs_rounds : (length (feed (lower l)) < n)%nat
}.
Inductive usable (n : nat) (l : RECORD_LAYER E) : Prop :=
| US_idle r0 : base n l -> 0 <= num_recs l <= curr_rec l -> curr_rec l <= 1 -> tlsrecs l !! 0%nat = Some r0 -> r_length r0 = 0 -> usable n l
| US_busy r0 : base n l -> curr_rec l = 0 -> num_recs l = 1 -> tlsrecs l !! 0%nat = Some r0 -> live r0 ->
    0 < r_length r0 -> wanted r0 = true -> usable n l.

Lemma blank_left n l : base n l -> (forall r0, tlsrecs l !! 0%nat = Some r0 -> r_length r0 = 0) -> record_left l = 0.
Proof.
  intros [_ Hb _ _] H0. unfold record_left. destruct (Z.to_nat (curr_rec l)) as [|i] eqn:Ei.
  - destruct (tlsrecs l !! 0%nat); [by apply H0|done].
  - destruct (tlsrecs l !! S i) as [r|] eqn:Er; [|done]. rewrite Forall_lookup in Hb. apply (Hb i).
    by rewrite lookup_drop.
Qed.

(** ** One round *)

Definition here (l : RECORD_LAYER E) (v : Z) (s : SSL) : SSL := set_now (mkMOMENT l v) s.

Definition released (length : Z) (rr : TLS_RECORD) (e : E) (l : RECORD_LAYER E) : RECORD_LAYER E :=
  if (length =? 0) || (length =? r_length rr)
  then set_tlsrecs (<[0%nat := shorten (r_length rr) (drop_bytes rr)]> (tlsrecs l)) (set_curr_rec (curr_rec l + 1) (set_lower e l))
  else set_tlsrecs (<[0%nat := shorten length rr]> (tlsrecs l)) (set_lower e l).

Lemma release_first length rr l v s : tlsrecs l !! 0%nat = Some rr -> live rr -> 0 <= length <= r_length rr ->
  exists e, feed e = feed (lower l)
    /\ ssl_release_record 0 length (here l v s) = (Ok true, here (released length rr e l) SSL_NOTHING s).
Proof.
  intros Er (h & d & Hh & _) Hl. unfold ssl_release_record. change (slot 0 (here l v s)) with (tlsrecs l !! 0%nat).
  rewrite Er, (proj2 (Z.ltb_ge _ _)), Hh by lia.
  set (n := if length =? 0 then r_length rr else length). destruct (fd_release h n (lower l)) as [Hc Hf].
  change (lower_of (here l v s)) with (lower l).
  destruct (release_record h n (lower l)) as [c e]. cbn [fst snd] in Hc, Hf. subst c. exists e. split; [done|].
  unfold released, n. destruct (length =? 0) eqn:E0; zbool; cbn [orb].
  - rewrite Z.eqb_refl. reflexivity.
  - destruct (length =? r_length rr) eqn:E1; zbool; [subst length|]; reflexivity.
Qed.

Definition emptied (l : RECORD_LAYER E) : RECORD_LAYER E := set_curr_rec 0 (set_num_recs 0 l).
Definition fetched (r old : TLS_RECORD) (e : E) (l : RECORD_LAYER E) : RECORD_LAYER E :=
  set_num_recs 1 (set_tlsrecs (<[0%nat := fill_slot r old]> (tlsrecs l)) (set_lower e (emptied l))).

(** A record is fetched, or there is none. *)
Lemma get_records_idle l v s old : num_recs l <= curr_rec l -> tlsrecs l !! 0%nat = Some old ->
  (exists r e, feed (lower l) = r :: feed e /\ get_records (here l v s) = (Ok 1, here (fetched r old e l) SSL_NOTHING s))
  \/ (exists e, (feed e = feed (lower l) /\ exists c, read_record (lower l) = (ReadCode c, e))
        /\ get_records (here l v s) = (Ok (-1), here (set_lower e (emptied l)) SSL_READING s)).
Proof.
  intros Hc Eo. unfold get_records. change (rl_of (here l v s)) with l. rewrite (proj2 (Z.leb_le _ _)) by done.
  change (upd_rl _ (here l v s)) with (here (emptied l) v s). change (Z.to_nat SSL_MAX_PIPELINES) with (S 31).
  generalize 31%nat. intros k. cbn [read_all].
  assert (E1 : (exists r e, feed (lower l) = r :: feed e
                /\ read_one (here (emptied l) v s) = (Ok 1, here (fetched r old e l) SSL_NOTHING s))
              \/ (exists e, (feed e = feed (lower l) /\ exists c, read_record (lower l) = (ReadCode c, e))
                /\ read_one (here (emptied l) v s) = (Ok (-1), here (set_lower e (emptied l)) SSL_READING s))).
  { unfold read_one. change (num_recs (rl_of (here (emptied l) v s))) with 0.
    change (slot 0 (here (emptied l) v s)) with (tlsrecs l !! 0%nat). rewrite Eo.
    change (lower_of (here (emptied l) v s)) with (lower l).
    destruct (read_record (lower l)) as [[r|c] e] eqn:Er.
    - left. exists r, e. split; [by eapply fd_got|reflexivity].
    - right. pose proof Er as Er'. apply fd_wait in Er' as [-> Hf]. exists e. split; [|reflexivity]. split; [done|]. by eexists. }
  destruct E1 as [(r & e & Hf & E1)|(e & Hf & E1)]; rewrite (st_bind_ok _ _ _ _ _ E1).
  - left. exists r, e. split; [done|]. cbn [Z.leb Z.compare]. unfold st_if.
    change (lower_of _) with e. by rewrite fd_single.
  - right. exists e. by split.
Qed.

Lemma base_update n l r e : base n l -> feed e = feed (lower l) ->
  base n (set_tlsrecs (<[0%nat := r]> (tlsrecs l)) (set_lower e l)).
Proof.
  intros [Hs Hb Hf Hr] He. split; simpl; rewrite ?He, ?length_insert; try done.
  by rewrite drop_insert_lt by lia.
Qed.

(** What is left after [len] bytes of the current record. *)
Lemma released_at n len rr e l : base n l -> curr_rec l = 0 -> num_recs l = 1 -> tlsrecs l !! 0%nat = Some rr -> live rr ->
  wanted rr = true -> 0 < len -> feed e = feed (lower l) ->
  let l' := released (if r_length rr <? len then r_length rr else len) rr e l in
  records l' = unread (r_type rr) (drop (Z.to_nat len) (left_of rr)) (coming (feed (lower l)))
  /\ record_left l' = Z.of_nat (length (drop (Z.to_nat len) (left_of rr))) /\ usable n l'.
Proof.
  intros Hb Hc Hn Er Hlv Hw Hlen He. pose proof (left_length rr Hlv) as Hll. cbv zeta.
  assert (Hlt : (0 < length (tlsrecs l))%nat) by (by eapply lookup_lt_Some).
  unfold released. destruct ((_ =? 0) || _) eqn:E1.
  - assert (Hfull : r_length rr <= len) by (destruct (r_length rr <? len) eqn:E2; zbool; lia).
    rewrite drop_ge by lia. set (r0 := shorten _ _). assert (H0 : r_length r0 = 0) by (unfold r0; simpl; lia).
    set (l' := set_tlsrecs _ _). assert (Hb' : base n l').
    { apply (base_update n (set_curr_rec (curr_rec l + 1) l) r0 e); [by destruct Hb|done]. }
    assert (E0 : tlsrecs l' !! 0%nat = Some r0) by by apply list_lookup_insert_eq.
    split; [|split].
    + unfold records. simpl. rewrite Hc, Hn, He. done.
    + simpl. eapply blank_left; [done|]. rewrite E0. by intros ? [= <-].
    + apply (US_idle _ _ r0); try done; simpl; lia.
  - destruct (r_length rr <? len) eqn:E2; zbool; [lia|].
    set (l' := set_tlsrecs _ _). assert (Hb' : base n l') by by apply base_update.
    assert (E0 : tlsrecs l' !! 0%nat = Some (shorten len rr)) by by apply list_lookup_insert_eq.
    assert (Hr : r_length (shorten len rr) = r_length rr - len) by done.
    destruct (shorten_live len rr Hlv) as [Hlv' Hlo]; [lia|].
    split; [|split].
    + unfold records. change (curr_rec l') with (curr_rec l). change (num_recs l') with (num_recs l).
      rewrite Hc, Hn. cbn [Z.ltb Z.compare]. change (Z.to_nat 0) with 0%nat. rewrite E0, Hlo. simpl. by rewrite He.
    + unfold record_left. change (curr_rec l') with (curr_rec l). rewrite Hc. change (Z.to_nat 0) with 0%nat. rewrite E0, <- Hlo.
      by rewrite left_length.
    + by apply (US_busy _ _ (shorten len rr)); try done; lia.
Qed.

(** What the connection has to be like: in a handshake, nothing wrong, and no
    timer that runs out. *)
Definition dormant (t : DTLS1_TIMER) : Prop := forall s : SSL, timer_of s = t -> dtls1_is_timer_expired s = false.
Record steady (s : SSL) : Prop := {
  sd_init : in_init (statem s) = true;
  sd_error : is_error s = false;
  sd_handshake : in_handshake (statem s) <> 0;
  sd_shutdown : has (shutdown s) SSL_RECEIVED_SHUTDOWN = false;
  sd_ccs : StatemTypes.change_cipher_spec (s3 s) = ccs;
  sd_timer : dormant (timer_of s)
}.

Local Abbreviation process_rr :=
  (process_rr dispatch handshake_func max_send_fragment finish_mac msg_callback remove_session).
Local Abbreviation read_round :=
  (read_round dispatch handshake_func max_send_fragment finish_mac msg_callback timer_cb remove_session).

Definition uncounted (rr : TLS_RECORD) (l : RECORD_LAYER E) : RECORD_LAYER E :=
  if negb (r_type rr =? SSL3_RT_ALERT) && negb (r_length rr =? 0) then set_alert_count 0 l else l.

Lemma base_uncounted n rr l : base n l -> base n (uncounted rr l).
Proof. unfold uncounted. case_match; [|done]. by intros [? ? ? ?]. Qed.

Lemma uncount rr l v (s : SSL) :
  (if negb (r_type rr =? SSL3_RT_ALERT) && negb (r_length rr =? 0) then upd_rl (set_alert_count 0) (here l v s) else here l v s)
  = here (uncounted rr l) v s.
Proof. unfold uncounted. by case_match. Qed.

(** A record of the handshake is delivered. *)
Lemma process_wanted n fuel len rr l v s : steady s -> base n l -> curr_rec l = 0 -> num_recs l = 1 ->
  tlsrecs l !! 0%nat = Some rr -> live rr -> wanted rr = true -> 0 < len ->
  exists r, process_rr fuel SSL3_RT_HANDSHAKE true len false (here l v s)
    = (Ok (Some (Return_ 1 (Some (r_type rr)) (take (Z.to_nat len) (left_of rr)))), set_now r s)
    /\ at_record records record_left (usable n) (r_type rr) (drop (Z.to_nat len) (left_of rr)) (coming (feed (lower l))) r.
Proof.
  intros [Hi _ _ Hsh Hcc _] Hb Hc Hn Er Hlv Hw Hlen. pose proof (left_length rr Hlv) as Hll.
  assert (Hrl : 0 <= r_length rr) by lia. unfold DtlsLayer.process_rr.
  change (rl_of (here l v s)) with l. rewrite Hc. change (slot 0 (here l v s)) with (tlsrecs l !! 0%nat). rewrite Er. cbv zeta.
  rewrite uncount. change (s3 (here _ v s)) with (s3 s). change (shutdown (here _ v s)) with (shutdown s). rewrite Hcc, Hsh.
  assert (Hk : negb (ccs =? 0) && negb (r_type rr =? SSL3_RT_HANDSHAKE) = false).
  { unfold wanted in Hw. destruct (ccs =? 0); [done|]. by destruct (r_type rr =? SSL3_RT_HANDSHAKE). }
  rewrite Hk. assert (Ht : (SSL3_RT_HANDSHAKE =? r_type rr)
     || ((r_type rr =? SSL3_RT_CHANGE_CIPHER_SPEC) && (SSL3_RT_HANDSHAKE =? SSL3_RT_HANDSHAKE) && true) = true).
  { unfold wanted in Hw. rewrite (Z.eqb_sym SSL3_RT_HANDSHAKE). destruct (r_type rr =? SSL3_RT_HANDSHAKE); [done|].
    destruct (ccs =? 0); [|done]. simpl in *. by rewrite Hw. }
  rewrite Ht. unfold deliver. rewrite andb_false_r. cbn [andb]. cbv zeta. rewrite (proj2 (Z.eqb_neq len 0)) by lia.
  set (k := if r_length rr <? len then r_length rr else len).
  assert (Hkr : 0 <= k <= r_length rr) by (unfold k; destruct (r_length rr <? len) eqn:E1; zbool; lia).
  rewrite record_bytes_live by done.
  assert (Hu : tlsrecs (uncounted rr l) = tlsrecs l /\ lower (uncounted rr l) = lower l
               /\ curr_rec (uncounted rr l) = 0 /\ num_recs (uncounted rr l) = 1).
  { unfold uncounted. by case_match. }
  destruct Hu as (Hu1 & Hu2 & Hu3 & Hu4).
  destruct (release_first k rr (uncounted rr l) v s) as (e & He & E2); [by rewrite Hu1|done|done|].
  unfold release, release_as. rewrite (st_bind_ok _ _ _ _ _ E2). cbv iota. rewrite Hu2 in He.
  eexists. split.
  - unfold st_ret, here. do 4 f_equal. unfold k. destruct (r_length rr <? len) eqn:E1; zbool; [|done]. by rewrite !take_ge by lia.
  - rewrite <- Hu2. apply released_at; try done; [by apply base_uncounted|by rewrite Hu1|by rewrite Hu2].
Qed.

Lemma malloc_works n : 0 < n <= INT_MAX -> exists d, CRYPTO_malloc n = Some d.
Proof.
  intros Hn. unfold CRYPTO_malloc. rewrite (proj2 (Z.eqb_neq n 0)) by lia. destruct (malloc n) as [d|] eqn:E1; [by exists d|].
  destruct Hmem. exists n. split; [lia|]. by left.
Qed.

Lemma buffer_record_spec rr l v (s : SSL) : live rr -> r_off rr = 0 -> 0 < r_length rr < INT_MAX ->
  exists b q, 0 <= b /\ dtls_buffer_record rr (here l v s) = (Ok b, here (set_buffered_app_data q l) v s).
Proof.
  intros (h & d & _ & Hd & _ & _ & Hs) Ho Hl. unfold dtls_buffer_record. change (rl_of (here l v s)) with l. cbv zeta.
  assert (Hsame : here (set_buffered_app_data (buffered_app_data l) l) v s = here l v s) by by destruct l.
  destruct (100 <=? _); [exists 0, (buffered_app_data l); by rewrite Hsame|].
  rewrite Ho, Z.eqb_refl. cbn [negb].
  destruct (malloc_works sizeof_TLS_RECORD) as (? & ->); [done|]. destruct (malloc_works sizeof_pitem) as (? & ->); [done|].
  unfold memdup_record. rewrite (proj2 (Z.leb_gt _ _)) by lia. destruct (malloc_works (r_length rr)) as (? & ->); [lia|].
  rewrite Hd, mem_read_prefix by lia.
  destruct (pqueue_insert _ _) as [q|]; [by exists 1, q|]. exists 1, (buffered_app_data l). by rewrite Hsame.
Qed.

(** A record between ChangeCipherSpec and Finished is kept. *)
Lemma process_kept n fuel len rr l v s : steady s -> base n l -> curr_rec l = 0 -> num_recs l = 1 ->
  tlsrecs l !! 0%nat = Some rr -> live rr -> r_off rr = 0 -> wanted rr = false -> ccs <> 0 -> 0 < r_length rr < INT_MAX ->
  exists r, process_rr fuel SSL3_RT_HANDSHAKE true len false (here l v s) = (Ok (Some Start), set_now r s)
    /\ records (at_env r) = coming (feed (lower l)) /\ record_left (at_env r) = 0 /\ usable n (at_env r).
Proof.
  intros [Hi _ _ Hsh Hcc _] Hb Hc Hn Er Hlv Ho Hw Hccs Hlen. unfold DtlsLayer.process_rr.
  change (rl_of (here l v s)) with l. rewrite Hc. change (slot 0 (here l v s)) with (tlsrecs l !! 0%nat). rewrite Er. cbv zeta.
  rewrite uncount. change (s3 (here _ v s)) with (s3 s). change (shutdown (here _ v s)) with (shutdown s). rewrite Hcc, Hsh.
  rewrite (proj2 (Z.eqb_neq ccs 0)) by done. unfold wanted in Hw. apply orb_false_iff in Hw as [-> _]. cbn [negb andb].
  destruct (buffer_record_spec rr (uncounted rr l) v s Hlv Ho Hlen) as (b & q & Hb0 & E1).
  rewrite (st_bind_ok _ _ _ _ _ E1), (proj2 (Z.ltb_ge b 0)) by done.
  set (l1 := set_buffered_app_data q (uncounted rr l)).
  assert (Hu : tlsrecs l1 = tlsrecs l /\ lower l1 = lower l /\ curr_rec l1 = 0 /\ num_recs l1 = 1).
  { unfold l1, uncounted. by case_match. }
  destruct Hu as (Hu1 & Hu2 & Hu3 & Hu4).
  destruct (release_first 0 rr l1 v s) as (e & He & E2); [by rewrite Hu1|done|lia|].
  unfold release, release_as. rewrite (st_bind_ok _ _ _ _ _ E2). cbv iota. eexists. split; [reflexivity|]. cbn [at_env].
  unfold released. cbn [Z.eqb orb]. set (r0 := shorten _ _). assert (H0 : r_length r0 = 0) by (unfold r0; simpl; lia).
  set (l' := set_tlsrecs _ _). assert (Hb' : base n l').
  { apply (base_update n (set_curr_rec (curr_rec l1 + 1) l1) r0 e); [|done].
    destruct (base_uncounted n rr l Hb). by split. }
  assert (E0 : tlsrecs l' !! 0%nat = Some r0).
  { apply list_lookup_insert_eq. rewrite Hu1. by eapply lookup_lt_Some. }
  split; [|split].
  - unfold records. change (curr_rec l') with (curr_rec l1 + 1). change (num_recs l') with (num_recs l1).
    change (lower l') with e. by rewrite Hu3, Hu4, He, Hu2.
  - eapply blank_left; [done|]. rewrite E0. by intros ? [= <-].
  - apply (US_idle _ _ r0); try done; change (curr_rec l') with (curr_rec l1 + 1); change (num_recs l') with (num_recs l1); lia.
Qed.

Lemma usable_mono n m l : (n <= m)%nat -> usable n l -> usable m l.
Proof. intros Hn [r0 [? ? ? ?] ? ? ? ?|r0 [? ? ? ?] ? ? ? ? ? ?]; [eapply US_idle|eapply US_busy]; try done; split; try done; lia. Qed.

Lemma fetched_base n r old e l : base (S n) l -> feed (lower l) = r :: feed e ->
  base n (fetched r old e l) /\ tlsrecs (fetched r old e l) !! 0%nat = Some (fill_slot r old) /\ may_come r.
Proof.
  intros Hb Hf. destruct Hb as [Hs Hb Hm Hr]. rewrite Hf in Hm, Hr. apply Forall_cons in Hm as [Hm Hms].
  split; [split|split]; simpl; try done.
  - by rewrite length_insert.
  - by rewrite drop_insert_lt by lia.
  - simpl in Hr. lia.
  - apply list_lookup_insert_eq. lia.
Qed.

Lemma fill_live r old : live r -> r_off r = 0 ->
  live (fill_slot r old) /\ left_of (fill_slot r old) = left_of r /\ r_off (fill_slot r old) = 0
  /\ wanted (fill_slot r old) = wanted r.
Proof.
  intros (h & d & Hh & Hd & Ho & Hl & Hs) Hz. rewrite Hz in Hs.
  split; [exists h, d; split_and!; (done || simpl; lia)|]. split; [|done]. unfold left_of. simpl. by rewrite Hz.
Qed.

Lemma base_emptied n l e : base n l -> feed e = feed (lower l) -> base n (set_lower e (emptied l)).
Proof. intros [? ? ? ?] He. split; simpl; by rewrite ?He. Qed.

(** There is no record for the connection to read. *)
Definition nothing_there (l : RECORD_LAYER E) : Prop :=
  exists e c e', read_record e = (ReadCode c, e') /\ records l = coming (feed e).

(** The three ways a round ends. *)
Inductive round_end (n : nat) (len : Z) (s : SSL) (res : ret (option round) * SSL) : Prop :=
| RE_data t d rs r : records (rl_of s) = (t, d) :: rs ->
    res = (Ok (Some (Return_ 1 (Some t) (take (Z.to_nat len) d))), set_now r s) ->
    at_record records record_left (usable (S n)) t (drop (Z.to_nat len) d) rs r -> round_end n len s res
| RE_wait r : res = (Ok (Some (Return_ (-1) None [])), set_now r s) -> records (at_env r) = records (rl_of s) ->
    record_left (rl_of s) = 0 -> record_left (at_env r) = 0 -> usable (S n) (at_env r) ->
    nothing_there (rl_of s) -> round_end n len s res
| RE_start r : res = (Ok (Some Start), set_now r s) -> records (at_env r) = records (rl_of s) ->
    record_left (rl_of s) = 0 -> record_left (at_env r) = 0 -> usable n (at_env r) -> round_end n len s res.

Lemma entered_here (s : SSL) : steady s -> entered s = here (rl_of s) SSL_NOTHING s.
Proof.
  intros [Hi _ _ _ _ _]. unfold entered. cbv zeta. change (SSL_is_init_finished _) with (SSL_is_init_finished s).
  unfold SSL_is_init_finished. rewrite Hi. cbn [negb andb]. unfold here, set_now. cbn [at_env at_rw].
  change (rl_of s) with (env (rest s)). by rewrite set_env_same.
Qed.

Lemma read_failed_calm fuel (s : SSL) : dtls1_is_timer_expired s = false ->
  dtls1_read_failed (dtls1_write_bytes dispatch max_send_fragment) max_send_fragment finish_mac msg_callback timer_cb fuel (-1) s
  = (Ok (Some (-1)), s).
Proof. intros Ht. unfold dtls1_read_failed. by rewrite Ht. Qed.

Lemma round_cases n fuel len (s : SSL) : steady s -> usable (S n) (rl_of s) -> 0 < len ->
  round_end n len s (read_round fuel SSL3_RT_HANDSHAKE true len false s).
Proof.
  intros Hst Hu Hlen. pose proof (entered_here s Hst) as Een. pose proof Hst as [Hi He _ _ _ Ht].
  rewrite round_calm; rewrite Een; [|by apply Ht|done].
  destruct Hu as [old Hb Hc Hc1 E0 Hz|r0 Hb Hc Hn E0 Hlv Hl Hw].
  - assert (Hleft : record_left (rl_of s) = 0).
    { eapply blank_left; [done|]. rewrite E0. by intros ? [= <-]. }
    assert (Hrecs : records (rl_of s) = coming (feed (lower (rl_of s)))).
    { unfold records. by rewrite (proj2 (Z.ltb_ge _ _)) by lia. }
    destruct (get_records_idle (rl_of s) SSL_NOTHING s old ltac:(lia) E0) as [(r & e & Hf & E1)|(e & (Hf & c & Ew) & E1)];
      rewrite (st_bind_ok _ _ _ _ _ E1); cbn [Z.leb Z.compare].
    + destruct (fetched_base n r old e _ Hb Hf) as (Hb' & E0' & Hlv & Ho & Hcome).
      destruct (fill_live r old Hlv Ho) as (Hlv' & Hlo & Ho' & Hw').
      rewrite Hf in Hrecs. unfold coming in Hrecs. destruct (wanted r) eqn:Ew.
      * destruct (process_wanted n fuel len _ _ SSL_NOTHING s Hst Hb' eq_refl eq_refl E0' Hlv' Hw' Hlen)
          as (m & E2 & Ha & Hl2 & Hu2).
        rewrite filter_cons_True in Hrecs by done. rewrite Hlo in *.
        eapply (RE_data _ _ _ _ (r_type r) (left_of r)); [exact Hrecs|exact E2|]. split; [done|]. split; [done|].
        eapply usable_mono; [|done]. lia.
      * destruct Hcome as [?|[Hccs Hl]]; [done|].
        destruct (process_kept n fuel len _ _ SSL_NOTHING s Hst Hb' eq_refl eq_refl E0' Hlv' Ho' Hw' Hccs Hl)
          as (m & E2 & Ha & Hl2 & Hu2).
        rewrite filter_cons_False in Hrecs by (by rewrite Ew). eapply RE_start; [exact E2| |done|done|done]. by rewrite Ha, Hrecs.
    + rewrite (st_bind_ok _ _ _ _ _ (read_failed_calm fuel (here _ SSL_READING s) (Ht (here _ SSL_READING s) eq_refl))).
      eapply (RE_wait _ _ _ _ (mkMOMENT (set_lower e (emptied (rl_of s))) SSL_READING)); [reflexivity|..]; cbn [at_env].
      * rewrite Hrecs. unfold records. simpl. by rewrite Hf.
      * done.
      * by apply (blank_left (S n)); [apply base_emptied|intros r1 E2; assert (Some r1 = Some old) as [= ->] by (by rewrite <- E2, <- E0)].
      * by apply (US_idle _ _ old); [apply base_emptied|..].
      * by exists (lower (rl_of s)), c, e.
  - assert (E1 : get_records (here (rl_of s) SSL_NOTHING s) = (Ok 1, here (rl_of s) SSL_NOTHING s)).
    { apply current_record. change (rl_of (here _ _ s)) with (rl_of s). lia. }
    rewrite (st_bind_ok _ _ _ _ _ E1). cbn [Z.leb Z.compare].
    destruct (process_wanted (S n) fuel len r0 (rl_of s) SSL_NOTHING s) as (m & E2 & Ha); try done.
    eapply (RE_data _ _ _ _ (r_type r0) (left_of r0)); [|exact E2|done].
    unfold records. rewrite Hc, Hn. cbn [Z.ltb Z.compare]. change (Z.to_nat 0) with 0%nat. rewrite E0.
    unfold unread. destruct (left_of r0) eqn:El; [|done]. apply (f_equal length) in El. pose proof (left_length r0 Hlv).
    simpl in El. lia.
Qed.

(** ** Whole calls *)

Local Abbreviation read_rounds :=
  (read_rounds dispatch handshake_func max_send_fragment finish_mac msg_callback timer_cb remove_session).

Lemma steady_frame (s s' : SSL) : steady s -> frame s' = frame s -> steady s'.
Proof.
  intros [H1 H2 H3 H4 H5 H6] [= E1 E2 E3 E4]. split; unfold is_error in *; rewrite ?E1, ?E2, ?E3; try done.
  unfold timer_of, w_of in *. by rewrite E4.
Qed.

Lemma rounds_cases n fuel len : 0 < len -> forall s, steady s -> usable n (rl_of s) ->
  (exists t d rs r, records (rl_of s) = (t, d) :: rs
     /\ read_rounds n fuel SSL3_RT_HANDSHAKE true len false s = (Ok (Some (1, Some t, take (Z.to_nat len) d)), set_now r s)
     /\ at_record records record_left (usable n) t (drop (Z.to_nat len) d) rs r)
  \/ (exists r, read_rounds n fuel SSL3_RT_HANDSHAKE true len false s = (Ok (Some (-1, None, [])), set_now r s)
     /\ records (at_env r) = records (rl_of s) /\ record_left (rl_of s) = 0 /\ record_left (at_env r) = 0
     /\ usable n (at_env r) /\ nothing_there (rl_of s)).
Proof.
  intros Hlen. induction n as [|n IH]; intros s Hst Hu; [by destruct Hu as [? [? ? ? ?]|? [? ? ? ?]]; lia|].
  cbn [DtlsLayer.read_rounds]. destruct (round_cases n fuel len s Hst Hu Hlen) as
    [t d rs r Hr E1 Hat|r E1 Hr Hl Hl' Hu' Hno|r E1 Hr Hl Hl' Hu']; rewrite (st_bind_ok _ _ _ _ _ E1).
  - left. by exists t, d, rs, r.
  - right. by exists r.
  - destruct (IH (set_now r s)) as [(t & d & rs & r' & Hr2 & E2 & Ha & Hb & Hc)|(r' & E2 & Hr2 & Hl2 & Hl3 & Hu2 & Hno)]; try done.
    + by eapply steady_frame.
    + left. exists t, d, rs, r'. rewrite E2. split; [by rewrite <- Hr|]. split; [done|]. split; [done|]. split; [done|].
      eapply usable_mono; [|done]. lia.
    + right. exists r'. rewrite E2. split; [done|]. split; [by rewrite <- Hr|]. split; [done|]. split; [done|].
      split; [eapply usable_mono; [|done]; lia|]. destruct Hno as (e & c & e' & He & Hno). exists e, c, e'. split; [done|]. by rewrite <- Hr.
Qed.

(** Reading as the message layer sees it. *)
Definition reader (n fuel : nat) (len : Z) (s : SSL) : option (Z * list Z) * SSL :=
  match dtls1_read_bytes dispatch handshake_func max_send_fragment finish_mac msg_callback timer_cb remove_session
          n fuel SSL3_RT_HANDSHAKE true len false s with
  | (Ok (Some (ret, Some t, bs)), s) => if 0 <? ret then (Some (t, bs), s) else (None, s)
  | (_, s) => (None, s)
  end.

Lemma reader_cases n fuel len (s : SSL) : 0 < len -> steady s -> usable n (rl_of s) ->
  (exists t d rs r, records (rl_of s) = (t, d) :: rs /\ reader n fuel len s = (Some (t, take (Z.to_nat len) d), set_now r s)
     /\ at_record records record_left (usable n) t (drop (Z.to_nat len) d) rs r)
  \/ (exists r, reader n fuel len s = (None, set_now r s) /\ records (at_env r) = records (rl_of s)
     /\ record_left (rl_of s) = 0 /\ record_left (at_env r) = 0 /\ usable n (at_env r) /\ nothing_there (rl_of s)).
Proof.
  intros Hlen Hst Hu. unfold reader, DtlsLayer.dtls1_read_bytes. cbn -[read_rounds]. unfold ossl_statem_get_in_handshake.
  rewrite (proj2 (Z.eqb_neq _ 0)) by apply Hst. cbn [andb].
  destruct (rounds_cases n fuel len Hlen s Hst Hu) as [(t & d & rs & r & Hr & E1 & Hat)|(r & E1 & H1)]; rewrite E1.
  - left. by exists t, d, rs, r.
  - right. by exists r.
Qed.

#[export] Instance reader_source n fuel (s0 : SSL) (Hs0 : steady s0) :
  RecordSource records record_left (frame s0) (usable n) (reader n fuel).
Proof.
  split; intros len s; intros.
  - destruct (reader_cases n fuel len s) as [(t' & d & rs & r & Hr & E1 & Hat)|(r & E1 & _)]; try done; [by eapply steady_frame| |congruence].
    exists d, rs, r. rewrite E1 in *. by simplify_eq.
  - destruct (reader_cases n fuel len s) as [(t' & d & rs & r & Hr & E1 & Hat)|(r & E1 & Hr)]; try done; [by eapply steady_frame|congruence|].
    destruct Hr as (Hr1 & Hr2 & Hr3 & Hr4 & _). exists r. rewrite E1 in *. by simplify_eq.
Qed.

(** A record layer that has a record delivers it. *)
Lemma reader_prompt n fuel (s0 s s' : SSL) len : steady s0 ->
  (forall e c e', read_record e = (ReadCode c, e') -> feed e = []) ->
  0 < len -> frame s = frame s0 -> usable n (env (rest s)) -> reader n fuel len s = (None, s') -> recs records s = [].
Proof.
  intros Hs0 Hno Hlen Hf Hu E1. destruct (reader_cases n fuel len s) as [(? & ? & ? & ? & _ & E2 & _)|(r & _ & _ & _ & _ & _ & Hn)];
    try done; [by eapply steady_frame|congruence|].
  destruct Hn as (e & c & e' & He & Hr). unfold recs. change (env (rest s)) with (rl_of s). by rewrite Hr, (Hno _ _ _ He).
Qed.
End Phase.
End Reading.

(** ** Writing *)

Section Writing.
Context {E : Type} `{C : Callees (DTLS (RECORD_LAYER E))} `{L : Libc} {LO : LibcOk L} `{D : Dgram (RECORD_LAYER E)}
  `{M : RecordMethods E}.
Local Abbreviation SSL := (SSL (DTLS (RECORD_LAYER E))).
Context (dispatch : SSL -> Z * SSL) (max_send_fragment : SSL -> Z)
  (finish_mac : list Z -> ST SSL unit) (msg_callback : list Z -> RECORD_LAYER E -> RECORD_LAYER E).

(** The handshake records the methods have taken, and the transcript. *)
Context (written : E -> list (Z * list Z)) (transcript : RECORD_LAYER E -> list Z).
Definition sent (l : RECORD_LAYER E) : list (Z * list Z) := written (lower l).
Local Abbreviation logs := (logs sent transcript).

(** The methods take a record or not, without a fatal error; the rest is as in
    [Sender]. *)
Class Writes : Prop := {
  wr_write type vers bs l : type = SSL3_RT_HANDSHAKE \/ type = SSL3_RT_CHANGE_CIPHER_SPEC ->
    let res := write_records [mkTMPL type vers bs] (lower l) in
    transcript (set_lower (snd res) l) = transcript l
    /\ ((fst res = OSSL_RECORD_RETURN_SUCCESS /\ written (snd res) = written (lower l) ++ [(type, bs)])
        \/ ((fst res = OSSL_RECORD_RETURN_RETRY \/ fst res = OSSL_RECORD_RETURN_NON_FATAL_ERR)
            /\ written (snd res) = written (lower l)));
  wr_dispatch s : exists i v r, dispatch s = (i, set_rwstate v (set_env r s)) /\ logs r = logs (env_of s)
    /\ max_send_fragment (set_rwstate v (set_env r s)) = max_send_fragment s;
  wr_flush r : logs (snd (BIO_flush r)) = logs r;
  wr_query r : logs (snd (dgram_query_mtu r)) = logs r;
  wr_set m r : logs (dgram_set_mtu m r) = logs r;
  wr_restore l r : logs (restore_wrl l r) = logs r;
  wr_exceeded r : fst (dgram_mtu_exceeded r) = false /\ logs (snd (dgram_mtu_exceeded r)) = logs r;
  wr_callback m r : logs (msg_callback m r) = logs r;
  wr_mac m s : exists r, finish_mac m s = (Ok tt, set_env r s)
    /\ transcript r = transcript (env_of s) ++ m /\ sent r = sent (env_of s);
  wr_pending r : 0 <= BIO_wpending r;
  wr_overhead r : 0 <= get_max_record_overhead r;
  wr_max s : DTLS1_HM_HEADER_LENGTH < max_send_fragment s <= SSL3_RT_MAX_PLAIN_LENGTH;
  wr_max_same s s' : session s' = session s -> env_of s' = env_of s -> max_send_fragment s' = max_send_fragment s
}.
Context `{!Writes}.

Lemma dispatch_first_spec (s : SSL) : exists i v r, dispatch_first dispatch s = (i, set_rwstate v (set_env r s))
  /\ logs r = logs (env_of s) /\ max_send_fragment (set_rwstate v (set_env r s)) = max_send_fragment s.
Proof.
  unfold dispatch_first. destruct (0 <? _); [apply wr_dispatch|]. exists 1, (rwstate s), (env_of s).
  unfold env_of. rewrite set_env_same. assert (Es : set_rwstate (rwstate s) s = s) by by destruct s. by rewrite Es.
Qed.

Lemma write_bytes_spec type bs (s : SSL) : type = SSL3_RT_HANDSHAKE \/ type = SSL3_RT_CHANGE_CIPHER_SPEC ->
  0 < Z.of_nat (length bs) <= max_send_fragment s ->
  exists ret n v r, dtls1_write_bytes dispatch max_send_fragment type bs s = (ret, n, set_rwstate v (set_env r s))
    /\ (0 < ret -> n = Z.of_nat (length bs)) /\ transcript r = transcript (env_of s)
    /\ sent r = sent (env_of s) ++ (if 0 <? ret then [(type, bs)] else []).
Proof.
  intros Ht Hl. pose proof (wr_max s). unfold dtls1_write_bytes. rewrite (proj2 (Z.ltb_ge _ _)) by lia.
  unfold do_dtls1_write. destruct (dispatch_first_spec (set_rwstate SSL_NOTHING s)) as (i & v & r & -> & Hlog & Hmax). cbv zeta.
  change (env_of (set_rwstate SSL_NOTHING s)) with (env_of s) in Hlog. injection Hlog as Hsent Htr.
  change (set_env r (set_rwstate SSL_NOTHING s)) with (set_rwstate SSL_NOTHING (set_env r s)) in *.
  change (set_rwstate v (set_rwstate SSL_NOTHING (set_env r s))) with (set_rwstate v (set_env r s)) in *.
  destruct (i <=? 0) eqn:Ei; zbool.
  { exists i, 0, v, r. rewrite (proj2 (Z.ltb_ge 0 i)), app_nil_r by lia. split_and!; try done; lia. }
  rewrite (proj2 (Z.eqb_neq _ 0)) by lia. rewrite Hmax, (wr_max_same s (set_rwstate SSL_NOTHING s)) by done.
  rewrite (proj2 (Z.ltb_ge _ _)) by lia. set (vers := if _ && _ then _ else _).
  change (lower_of (set_rwstate v (set_env r s))) with (lower r).
  pose proof (wr_write type vers bs r Ht) as [Hwt Hw]. cbv zeta in Hwt, Hw.
  destruct (write_records [mkTMPL type vers bs] (lower r)) as [c e]. cbn [fst snd] in Hwt, Hw.
  destruct Hw as [[-> Hw]|[[-> | ->] Hw]]; cbn; eexists _, _, _, (set_lower e r);
    (split; [reflexivity|]; rewrite Hwt; unfold sent in *; cbn; rewrite Hw, Hsent, Htr, ?app_nil_r; done).
Qed.

#[export] Instance writer_sender :
  Sender (dtls1_write_bytes dispatch max_send_fragment) max_send_fragment finish_mac msg_callback sent transcript.
Proof.
  split; [apply write_bytes_spec|apply wr_flush|apply wr_query|apply wr_set|apply wr_restore|apply wr_exceeded
         |apply wr_callback|apply wr_mac|apply wr_pending|apply wr_overhead|apply wr_max|apply wr_max_same].
Qed.
End Writing.

(** ** Both sides *)

Section Both.
Context {E1 E2 : Type} `{C1 : Callees (DTLS (RECORD_LAYER E1))} `{C2 : Callees (DTLS (RECORD_LAYER E2))}
  `{L : Libc} {LO : LibcOk L} `{D1 : Dgram (RECORD_LAYER E1)} `{D2 : Dgram (RECORD_LAYER E2)}
  `{K2 : Clock (RECORD_LAYER E2)} `{M1 : RecordMethods E1} `{M2 : RecordMethods E2}.
Local Abbreviation SSL1 := (SSL (DTLS (RECORD_LAYER E1))).
Local Abbreviation SSL2 := (SSL (DTLS (RECORD_LAYER E2))).

(** The sender. *)
Context (dispatch : SSL1 -> Z * SSL1) (max_send_fragment : SSL1 -> Z) (finish_mac : list Z -> ST SSL1 unit)
  (msg_callback : list Z -> RECORD_LAYER E1 -> RECORD_LAYER E1)
  (written : E1 -> list (Z * list Z)) (transcript : RECORD_LAYER E1 -> list Z)
  `{HW : !Writes dispatch max_send_fragment finish_mac msg_callback written transcript}.

(** The receiver, which may have messages of its own to send. *)
Context (dispatch' handshake_func : SSL2 -> Z * SSL2) (max_send_fragment' : SSL2 -> Z)
  (finish_mac' : list Z -> ST SSL2 unit) (msg_callback' : list Z -> RECORD_LAYER E2 -> RECORD_LAYER E2)
  (timer_cb : option (Z -> SSL2 -> Z)) (remove_session : SSL2 -> SSL2)
  (feed : E2 -> list TLS_RECORD) `{HF : !Feeds feed}
  (Hprompt : forall e c e', read_record e = (ReadCode c, e') -> feed e = [])
  (Hcb : forall m l, exists e, feed e = feed (lower l) /\ msg_callback' m l = set_lower e l)
  (take_mac : ST SSL2 unit) (Htake : keeps_message take_mac) (Hfinish : forall m, keeps_message (finish_mac' m)).

Context (Msg : Z -> Z * list Z) (HM : sendable Msg) (Hmem : ~ alloc_failed).

Local Abbreviation read_bytes n rfuel :=
  (reader dispatch' handshake_func max_send_fragment' finish_mac' msg_callback' timer_cb remove_session n rfuel).

Lemma callback_keeps ccs n m (l : RECORD_LAYER E2) : records feed ccs (msg_callback' m l) = records feed ccs l
  /\ (usable feed ccs n l -> usable feed ccs n (msg_callback' m l)).
Proof.
  destruct (Hcb m l) as (e & He & ->). split; [unfold records; simpl; by rewrite He|].
  intros [r0 [? ? ? ?] ? ? ? ?|r0 [? ? ? ?] ? ? ? ? ? ?]; [apply (US_idle _ _ _ _ r0)|apply (US_busy _ _ _ _ r0)]; try done;
    split; simpl; by rewrite ?He.
Qed.

End Both.

(** ** An example *)

Definition wire_transcript (l : RECORD_LAYER wire) : list Z := w_transcript (lower l).

#[local] Instance wire_writes : Writes (fun s => (1, s)) (fun _ => 14) wire_mac (fun _ r => r) w_out wire_transcript.
Proof.
  split; try done.
  - intros type vers bs l Ht. cbn. unfold wire_write, wire_transcript. destruct (w_takes (lower l)) as [|[] k]; cbn; auto.
  - intros s. exists 1, (rwstate s), (env_of s). unfold env_of. rewrite set_env_same. split; [|done]. f_equal. by destruct s.
  - intros m s. eexists. split; [reflexivity|]. done.
Qed.

#[local] Instance wire_feeds : Feeds w_in.
Proof.
  split; try done; intros e r e'; cbn; destruct (w_in e) eqn:E1; try done; intros [= <- <-]; done.
Qed.

(** Message 0 in two fragments, the second first, and application data between. *)
Definition wire_pieces : list (option (list piece)) := [Some [mkPIECE 0 2 2]; Some [mkPIECE 0 0 2]].
Definition wire_receiver : SSL (DTLS (RECORD_LAYER wire)) :=
  set_init_buf (Some (mkBUF_MEM 0 (Some (replicate (Z.to_nat 16384) 0)) 16384 0))
    (upd_s3 (set_change_cipher_spec 1)
      (wire_conn TLS_ST_CR_CHANGE
         (mkWIRE [wire_record 0 1 SSL3_RT_HANDSHAKE (piece_bytes sample_M (mkPIECE 0 2 2));
                  wire_record 1 1 SSL3_RT_APPLICATION_DATA [1; 2; 3];
                  wire_record 2 1 SSL3_RT_HANDSHAKE (piece_bytes sample_M (mkPIECE 0 0 2))] [] [] []))).

Definition wire_sender : SSL (DTLS (RECORD_LAYER wire)) :=
  set_init_num 16
    (set_init_buf (Some (mkBUF_MEM 0 (Some (replicate 12 0 ++ mbody sample_M 0 ++ replicate 64 0)) 80 0))
      (sample_conn (mkDTLS (mkD1 0 (mkDW 0 1 (mkHM 2 4 0 0 4) 1472 0 false [] (mkDT 0 0 0)) no_header [])
                      (wire_layer (mkWIRE [] [] [true; false] []))) TLS_ST_CW_CLNT_HELLO 0xfefd ecdhe_rsa)).

Definition wire_do_write := dtls1_do_write (dtls1_write_bytes (E := wire) (fun s => (1, s)) (fun _ => 14)) (fun _ => 14)
  wire_mac (fun _ r => r) 100 SSL3_RT_HANDSHAKE.
Definition wire_sent_1 := snd (wire_do_write wire_sender).
Definition wire_sent_2 := snd (wire_do_write wire_sent_1).

Lemma wire_written : written_out (dtls1_write_bytes (E := wire) (fun s => (1, s)) (fun _ => 14)) (fun _ => 14) wire_mac (fun _ r => r)
  (sent w_out) wire_transcript 100 wire_sender wire_sent_2.
Proof.
  apply WO_again with (c := -1) (s1 := wire_sent_1) (r := env_of wire_sent_1); [vm_compute; reflexivity|done|done|].
  unfold env_of. rewrite set_env_same. apply WO_done. vm_compute. reflexivity.
Qed.

Lemma wire_steady : steady 1 wire_receiver.
Proof. split; try done. intros s Ht. unfold dtls1_is_timer_expired, dtls1_get_timeout. by rewrite Ht. Qed.

Lemma wire_good : good (records w_in 1) (frame wire_receiver) (usable w_in 1 10) sample_M wire_pieces wire_receiver.
Proof.
  split; [split| | |].
  - eexists. split; [reflexivity|]. split; [|done]. split; [done|]. cbn [buf_data buf_max]. rewrite length_replicate.
    split; [by rewrite Z2Nat.id|]. apply Forall_replicate, is_byte_0.
  - split; [by repeat constructor|done].
  - done.
  - done.
  - repeat constructor; vm_compute; try done; repeat constructor; done.
  - done.
  - eapply (US_idle _ _ _ _ empty_slot); try done. split; try done.
    + by repeat constructor.
    + repeat constructor; (eexists _, _; split_and!; reflexivity || done) || done || (by left) || (right; vm_compute; done).
    + vm_compute. lia.
  - intros q f. done.
  - done.
  - repeat constructor; done.
Qed.

Lemma wire_prompt (e : wire) c e' : read_record e = (ReadCode c, e') -> w_in e = [].
Proof. cbn. by destruct (w_in e). Qed.

Lemma wire_silent (m : list Z) (l : RECORD_LAYER wire) : exists e, w_in e = w_in (lower l) /\ l = set_lower e l.
Proof. exists (lower l). by destruct l. Qed.

Lemma wire_mac_keeps (m : list Z) : keeps_message (wire_mac m).
Proof. by intros s s' [= <-]. Qed.

End DtlsStack.
