(* ===== verification/TlsLayer.v ===== *)
(** * Reading and writing TLS records

    ssl/record/rec_layer_s3.c: [ssl3_read_bytes], which the reader of messages
    (Framing.v) and the application read from, and [ssl3_write_bytes], which they
    write to, with the limits on early data. *)

From stdpp Require Import prelude list.
From Stdlib Require Import ZArith Lia ZifyBool.
From S2P Require Import Prelude Packet Buffer PQueue RecordTypes StatemTypes StatemLib Statem RecLayer.

Local Open Scope Z_scope.
Local Open Scope st_scope.

Module TlsLayer.
Import RecLayer.

Abbreviation SSL_MODE_ENABLE_PARTIAL_WRITE := (1)%Z.
Abbreviation SSL_MODE_ACCEPT_MOVING_WRITE_BUFFER := (2)%Z.
Abbreviation SSL_AD_USER_CANCELLED := (90)%Z.
Abbreviation SSL_AD_NO_RENEGOTIATION := (100)%Z.
Abbreviation SSL2_VERSION := (2)%Z.
(** [(6 * (EVP_GCM_TLS_TAG_LEN + 1)) + 2]. *)
Abbreviation EARLY_DATA_CIPHERTEXT_OVERHEAD := (104)%Z.

Definition set_version {W} (v : Z) (s : SSL W) : SSL W :=
    mkSSL (statem s) (s3 s) (ext s) (session s) v (method_version s)
    (method_dtls s) (server s) (hit s) (renegotiate s) (new_session s) (shutdown s) (rwstate s)
    (options s) (verify_mode s) (init_buf s) (init_msg s) (init_num s) (init_off s)
    (first_packet s) (key_update s) (post_handshake_auth s) (hello_retry_request s)
    (early_data_state s) (max_early_data s) (certreqs_sent s) (num_tickets s)
    (sent_tickets s) (max_cert_list s) (psk_identity_hint s) (cookie_verified s)
    (quic_method s) (psk_use_session_cb s) (quic s) (ts_msg_read s) (ts_msg_write s)
    (rest s).

Section Ops.
Context {E W : Type} `{C : Callees W} `{L : Libc} `{M : RecordMethods E} `{Y : Layered E W}.
Local Abbreviation SSL := (SSL W).
Context (ssl_dispatch_alert handshake_func : SSL -> Z * SSL) (SSL_CTX_remove_session : SSL -> SSL).

(** ** Early data *)

(** The session to take the limit from; [Fault] without a session. *)
Definition ossl_get_max_early_data : ST SSL Z := fun s =>
  match session s with
  | None => (Fault, s)
  | Some sess =>
      if negb (server s) then
        if sess_max_early_data sess =? 0 then
          match psk_max_early_data (conf (rl_of s)) with
          | Some m => if 0 <? m then (Ok m, s) else (SSLfatal SSL_AD_INTERNAL_ERROR ;;; st_ret 0) s
          | None => (SSLfatal SSL_AD_INTERNAL_ERROR ;;; st_ret 0) s
          end
        else (Ok (sess_max_early_data sess), s)
      else
        let recv := recv_max_early_data (conf (rl_of s)) in
        if negb (early_data (ext s) =? SSL_EARLY_DATA_ACCEPTED) then (Ok recv, s)
        else (Ok (if recv <? sess_max_early_data sess then recv else sess_max_early_data sess), s)
  end.

(** [max_early_data] and [early_data_count] are 32 bits wide. *)
Definition ossl_early_data_count_ok (length overhead : Z) (send : bool) : ST SSL bool :=
  let too_much := SSLfatal (if send then SSL_AD_INTERNAL_ERROR else SSL3_AD_UNEXPECTED_MESSAGE) ;;; st_ret false in
  max_early_data <~ ossl_get_max_early_data ;;
  if max_early_data =? 0 then too_much
  else
    let max_early_data := (max_early_data + overhead) `mod` 2 ^ 32 in
    st_if (fun s => max_early_data <? wrap64 (early_data_count (rl_of s) + length)) too_much
      (st_put (upd_rl (fun l => set_early_data_count ((early_data_count l + length) `mod` 2 ^ 32) l)) ;;; st_ret true).

(** ** Writing *)

Definition tls_write_check_pending (type buf len : Z) : ST SSL Z := fun s =>
  let l := rl_of s in
  if wpend_tot l =? 0 then (Ok 0, s)
  else if (len <? wpend_tot l)
          || (negb (has (mode l) SSL_MODE_ACCEPT_MOVING_WRITE_BUFFER) && negb (wpend_buf l =? buf))
          || negb (wpend_type l =? type)
  then (SSLfatal SSL_AD_INTERNAL_ERROR ;;; st_ret (-1)) s
  else (Ok 1, s).

(** [TLS1_get_version]. *)
Definition TLS1_get_version (s : SSL) : Z := if Z.shiftr (version s) 8 =? 3 then version s else 0.

(** The version in the header of the records. *)
Definition recversion (s : SSL) : Z :=
  if bool_decide (SSL_get_state s = TLS_ST_CW_CLNT_HELLO) && negb (renegotiate s)
     && (TLS1_VERSION <? TLS1_get_version s) && bool_decide (hello_retry_request s = SSL_HRR_NONE)
  then TLS1_VERSION
  else if version s =? TLS1_3_VERSION then TLS1_2_VERSION else version s.

(** The lengths of the records when the pipelines are not filled completely: [j]
    counts them, [len] is [tmppipelen]. *)
Fixpoint partial_lengths (k : nat) (j remain len : Z) : list Z :=
  match k with
  | O => []
  | S k => len :: partial_lengths k (j + 1) remain (if j + 1 =? remain then len - 1 else len)
  end.

(** The templates for records with these lengths from [buf + off] on; [None] when
    one leaves the object. *)
Fixpoint templates (type version : Z) (bs : list Z) (off : Z) (lens : list Z) : option (list OSSL_RECORD_TEMPLATE) :=
  match lens with
  | [] => Some []
  | len :: lens =>
      match mem_read bs off len, templates type version bs (off + len) lens with
      | Some b, Some ts => Some (mkTMPL type version b :: ts)
      | _, _ => None
      end
  end.

(** How many bytes go out in one call, and in records of which lengths. *)
Definition portions (n maxpipes split : Z) : Z * list Z :=
  if split <=? n / maxpipes then (maxpipes * split, replicate (Z.to_nat maxpipes) split)
  else
    let remain := n `mod` maxpipes in
    (n, partial_lengths (Z.to_nat maxpipes) 0 remain (n / maxpipes + if 0 <? remain then 1 else 0)).

Definition max_pipes (wanted : Z) (s : SSL) : Z :=
  let limit := max_pipelines (rl_of s) in
  let m := if (0 <? limit) && (limit <? wanted) then limit else wanted in
  if SSL_MAX_PIPELINES <? m then SSL_MAX_PIPELINES else m.

(** What is returned with the code is what is stored in [*written]. *)
Definition write_fails (code tot : Z) : ST SSL (option (Z * Z)) :=
  st_put (upd_rl (set_wnum tot)) ;;; st_ret (Some (code, 0)).
Definition write_fatal : ST SSL (option (Z * Z)) := SSLfatal SSL_AD_INTERNAL_ERROR ;;; st_ret (Some (-1, 0)).

(** The loop; [tot] bytes are written, [n] are left.  [None] when the fuel is used
    up. *)
Fixpoint write_loop (fuel : nat) (type version max : Z) (bs : list Z) (tot n split : Z) : ST SSL (option (Z * Z)) :=
  match fuel with
  | O => st_ret None
  | S fuel => fun s =>
      let '(maxpipes, split) := get_max_records type n max split (lower_of s) in
      let maxpipes := max_pipes maxpipes s in
      if max <? split then write_fatal s
      else if maxpipes =? 0 then (Fault, s)
      else
        let '(pend, lens) := portions n maxpipes split in
        match templates type version bs tot lens with
        | None => (Fault, s)
        | Some ts =>
            let '(code, e) := write_records ts (lower_of s) in
            let '(i, s) := ossl_tls_handle_rlayer_return true code (put_lower e (upd_rl (set_wpend_tot pend) s)) in
            if i <=? 0 then write_fails i tot s
            else if (pend =? n)
                    || ((type =? SSL3_RT_APPLICATION_DATA) && has (mode (rl_of s)) SSL_MODE_ENABLE_PARTIAL_WRITE)
            then (Ok (Some (1, tot + pend)), upd_rl (set_wpend_tot 0) s)
            else write_loop fuel type version max bs (tot + pend) (n - pend) split s
        end
  end.

(** From [if (tot == 0)] on. *)
Definition write_rest (fuel : nat) (type buf : Z) (bs : list Z) (tot : Z) : ST SSL (option (Z * Z)) :=
  let len := Z.of_nat (length bs) in
  st_put (fun s => if tot =? 0
                   then upd_rl (fun l => set_wpend_buf buf (set_wpend_type type (set_wpend_tot 0 l))) s else s) ;;;
  if tot =? len then st_ret (Some (1, tot))
  else fun s =>
    let '(i, s) := dispatch_first ssl_dispatch_alert s in
    if i <=? 0 then write_fails i tot s
    else
      let max := ssl_get_max_send_fragment s in
      let split := ssl_get_split_send_fragment s in
      if (max =? 0) || (split =? 0) || (max <? split) then write_fatal s
      else write_loop fuel type (recversion s) max bs tot (wrap64 (len - tot)) split s.

(** Records of an earlier call that are still to be written. *)
Definition write_pending (fuel : nat) (type buf : Z) (bs : list Z) (tot : Z) : ST SSL (option (Z * Z)) :=
  c <~ tls_write_check_pending type buf (Z.of_nat (length bs)) ;;
  if c <? 0 then st_ret (Some (c, 0))
  else if 0 <? c then fun s =>
    let '(code, e) := retry_write_records (lower_of s) in
    let '(i, s) := ossl_tls_handle_rlayer_return true code (put_lower e s) in
    if i <=? 0 then write_fails i tot s
    else write_rest fuel type buf bs (tot + wpend_tot (rl_of s)) (upd_rl (set_wpend_tot 0) s)
  else write_rest fuel type buf bs tot.

(** A handshake that is due goes first. *)
Definition write_handshake (k : ST SSL (option (Z * Z))) : ST SSL (option (Z * Z)) := fun s =>
  let s := if (wpend_tot (rl_of s) =? 0)
              && (negb (key_update s =? SSL_KEY_UPDATE_NONE) || (0 <? extra_tickets_expected (ext s)))
           then ossl_statem_set_in_init true s else s in
  if SSL_in_init s && (ossl_statem_get_in_handshake s =? 0)
     && negb (bool_decide (early_data_state s = SSL_EARLY_DATA_UNAUTH_WRITING)) then
    let '(i, s) := handshake_func s in
    if i <? 0 then (Ok (Some (i, 0)), s)
    else if i =? 0 then (Ok (Some (-1, 0)), s)
    else k s
  else k s.

(** The bytes [bs] are those from [buf] on. *)
Definition ssl3_write_bytes (fuel : nat) (type buf : Z) (bs : list Z) : ST SSL (option (Z * Z)) := fun s =>
  let len := Z.of_nat (length bs) in
  let s := set_rwstate SSL_NOTHING s in
  let tot := wnum (rl_of s) in
  if (len <? tot)
     || (negb (wpend_tot (rl_of s) =? 0) && (len <? wrap64 (tot + wpend_tot (rl_of s))))
  then write_fatal s
  else
    (ok <~ (if bool_decide (early_data_state s = SSL_EARLY_DATA_WRITING)
            then ossl_early_data_count_ok len 0 true else st_ret true) ;;
     if negb ok then st_ret (Some (-1, 0))
     else
       st_put (upd_rl (set_wnum 0)) ;;;
       write_handshake (write_pending fuel type buf bs tot)) s.

(** ** Reading *)

Definition release_one (peek : bool) (i n : Z) (rr : TLS_RECORD) : ST SSL bool :=
  if peek then (if r_length rr =? 0 then ssl_release_record i 0 else st_ret true)
  else ssl_release_record i n.

(** The loop over the records at hand.  [i] is the local [curr_rec], [total] the
    number of bytes copied so far, which are [acc].  A round takes a whole record
    or fills the buffer, so one unit of fuel per record and one more are enough
    ([None] if they are not). *)
Fixpoint copy_loop (fuel : nat) (type : Z) (recvd : option Z) (len : Z) (peek : bool) (i total : Z) (acc : list Z)
    : ST SSL (option round) :=
  match fuel with
  | O => st_ret None
  | S fuel => fun s =>
      match slot i s with
      | None => (Fault, s)
      | Some rr =>
          let n := if r_length rr <? len - total then r_length rr else len - total in
          match record_bytes rr n with
          | None => (Fault, s)
          | Some bs =>
              (ok <~ release_one peek i n rr ;;
               if negb ok then st_ret (Some (Return_ (-1) recvd []))
               else fun s =>
                 match slot i s with
                 | None => (Fault, s)
                 | Some rr =>
                     let i := if (r_length rr =? 0) || (peek && (n =? r_length rr)) then i + 1 else i in
                     let total := total + n in
                     if (type =? SSL3_RT_APPLICATION_DATA) && (i <? num_recs (rl_of s)) && (total <? len)
                     then copy_loop fuel type recvd len peek i total (acc ++ bs) s
                     else if total =? 0 then start s
                     else (Ok (Some (Return_ 1 recvd (acc ++ bs))), s)
                 end) s
          end
      end
  end.

(** The record has the type asked for. *)
Definition deliver (type : Z) (recvd : bool) (len : Z) (peek : bool) (i : Z) (rr : TLS_RECORD)
    : ST SSL (option round) := fun s =>
  if SSL_in_init s && (type =? SSL3_RT_APPLICATION_DATA) && SSL_IS_FIRST_HANDSHAKE s
  then fails SSL3_AD_UNEXPECTED_MESSAGE s
  else if (type =? SSL3_RT_HANDSHAKE) && (r_type rr =? SSL3_RT_CHANGE_CIPHER_SPEC)
          && negb (Nat.eqb (length (handshake_fragment (rl_of s))) 0)
  then fails SSL3_AD_UNEXPECTED_MESSAGE s
  else
    let recvd_type := if recvd then Some (r_type rr) else None in
    if len =? 0 then
      (if r_length rr =? 0 then release_as recvd_type i 0 (st_ret (Some (Return_ 0 recvd_type [])))
       else st_ret (Some (Return_ 0 recvd_type []))) s
    else copy_loop (S (Z.to_nat SSL_MAX_PIPELINES)) type recvd_type len peek i 0 [] s.

(** [is_tls13] is what it was when the function was called. *)
Definition alert_verdict (is_tls13 : bool) (i level descr : Z) : ST SSL (option round) :=
  if is_tls13 && (descr =? SSL_AD_USER_CANCELLED) then start
  else if (descr =? SSL_AD_CLOSE_NOTIFY) && (is_tls13 || (level =? SSL3_AL_WARNING))
  then st_put (fun s => set_shutdown (Z.lor (shutdown s) SSL_RECEIVED_SHUTDOWN) s) ;;; returns 0
  else if (level =? SSL3_AL_FATAL) || is_tls13
  then
    st_put (fun s => upd_rl (set_fatal_alert descr) (set_rwstate SSL_NOTHING s)) ;;;
    SSLfatal SSL_AD_NO_ALERT ;;;
    st_put (fun s => set_shutdown (Z.lor (shutdown s) SSL_RECEIVED_SHUTDOWN) s) ;;;
    release i 0 (st_put SSL_CTX_remove_session ;;; returns 0)
  else if descr =? SSL_AD_NO_RENEGOTIATION then fails SSL_AD_HANDSHAKE_FAILURE
  else if level =? SSL3_AL_WARNING then start
  else fails SSL_AD_ILLEGAL_PARAMETER.

Definition receive_alert (is_tls13 : bool) (i : Z) (rr : TLS_RECORD) : ST SSL (option round) := fun s =>
  match parse_alert rr with
  | Fault => (Fault, s)
  | Fail => fails SSL3_AD_UNEXPECTED_MESSAGE s
  | Ok (level, descr) =>
      let s := put_lower (alert_callback [level; descr] (lower_of s)) s in
      let s := upd_rest (info_callback SSL_CB_READ_ALERT (Z.lor (Z.shiftl level 8) descr)) s in
      if (negb is_tls13 && (level =? SSL3_AL_WARNING)) || (is_tls13 && (descr =? SSL_AD_USER_CANCELLED))
      then
        (st_put (upd_rl (set_warn_alert descr)) ;;;
         release i 0 (
           st_put (upd_rl (fun l => set_alert_count ((alert_count l + 1) `mod` 2 ^ 32) l)) ;;;
           st_if (fun s => alert_count (rl_of s) =? MAX_WARN_ALERT_COUNT) (fails SSL3_AD_UNEXPECTED_MESSAGE)
             (alert_verdict is_tls13 i level descr))) s
      else alert_verdict is_tls13 i level descr s
  end.

(** After a close_notify of our own; [None] when the record is to be processed. *)
Definition after_shutdown (i : Z) (rr : TLS_RECORD) (s : SSL) : option (ST SSL (option round)) :=
  if negb (has (shutdown s) SSL_SENT_SHUTDOWN) then None
  else if r_type rr =? SSL3_RT_HANDSHAKE then
    if SSL_IS_TLS13 s then None
    else Some (release i 0 (fun s =>
           if has (mode (rl_of s)) SSL_MODE_AUTO_RETRY then start s
           else returns (-1) (upd_rest bio_set_retry_read (set_rwstate SSL_READING s))))
  else Some (release i 0 (fails SSL_AD_NO_ALERT)).

(** A handshake record that was not asked for: its first four bytes are kept in
    [handshake_fragment]. *)
Definition store_fragment (i : Z) (rr : TLS_RECORD) (k : ST SSL (option round)) : ST SSL (option round) := fun s =>
  let room := 4 - Z.of_nat (length (handshake_fragment (rl_of s))) in
  let n := if r_length rr <? room then r_length rr else room in
  match record_bytes rr n with
  | None => (Fault, s)
  | Some bs =>
      let s := upd_rl (fun l => set_handshake_fragment (handshake_fragment l ++ bs) l) s in
      let next := st_if (fun s => (length (handshake_fragment (rl_of s)) <? 4)%nat) start k in
      if (0 <? n) || (r_length rr =? 0) then release i n next s else next s
  end.

(** [switch (rr->type)] at the end. *)
Definition unexpected_record (i : Z) (rr : TLS_RECORD) : ST SSL (option round) := fun s =>
  if r_type rr =? SSL3_RT_APPLICATION_DATA then
    if ossl_statem_app_data_allowed s then returns (-1) (upd_s3 (set_in_read_app_data 2) s)
    else if ossl_statem_skip_early_data s then
      (ok <~ ossl_early_data_count_ok (r_length rr) EARLY_DATA_CIPHERTEXT_OVERHEAD false ;;
       if negb ok then returns (-1) else release i 0 start) s
    else fails SSL3_AD_UNEXPECTED_MESSAGE s
  else fails SSL3_AD_UNEXPECTED_MESSAGE s.

(** A handshake message while no handshake is under way. *)
Definition unexpected_message (i : Z) (rr : TLS_RECORD) : ST SSL (option round) := fun s =>
  if r_type rr =? SSL3_RT_CHANGE_CIPHER_SPEC then fails SSL3_AD_UNEXPECTED_MESSAGE s
  else if (4 <=? length (handshake_fragment (rl_of s)))%nat && (ossl_statem_get_in_handshake s =? 0) then
    let ined := bool_decide (early_data_state s = SSL_EARLY_DATA_READING) in
    handshake handshake_func (if ined then returns (-1) else retry_or_start) (ossl_statem_set_in_init true s)
  else unexpected_record i rr s.

(** From [rr = &s->rlayer.tlsrecs[s->rlayer.curr_rec]]. *)
Definition process_rr (is_tls13 : bool) (type : Z) (recvd : bool) (len : Z) (peek : bool) : ST SSL (option round) := fun s =>
  let i := curr_rec (rl_of s) in
  match slot i s with
  | None => (Fault, s)
  | Some rr =>
      if negb (Nat.eqb (length (handshake_fragment (rl_of s))) 0) && negb (r_type rr =? SSL3_RT_HANDSHAKE) && SSL_IS_TLS13 s
      then fails SSL3_AD_UNEXPECTED_MESSAGE s
      else
        let s := if negb (r_type rr =? SSL3_RT_ALERT) && negb (r_length rr =? 0)
                 then upd_rl (set_alert_count 0) s else s in
        if negb (change_cipher_spec (s3 s) =? 0) && negb (r_type rr =? SSL3_RT_HANDSHAKE)
        then fails SSL3_AD_UNEXPECTED_MESSAGE s
        else if has (shutdown s) SSL_RECEIVED_SHUTDOWN
        then returns 0 (set_rwstate SSL_NOTHING (upd_rl (fun l => set_curr_rec (curr_rec l + 1) l) s))
        else if (type =? r_type rr)
                || ((r_type rr =? SSL3_RT_CHANGE_CIPHER_SPEC) && (type =? SSL3_RT_HANDSHAKE) && recvd && negb is_tls13)
        then deliver type recvd len peek i rr s
        else if r_version rr =? SSL2_VERSION then fails SSL_AD_INTERNAL_ERROR s
        else if (method_version s =? TLS_ANY_VERSION) && (server s || negb (r_type rr =? SSL3_RT_ALERT))
        then fails SSL3_AD_UNEXPECTED_MESSAGE (set_version (r_version rr) s)
        else if r_type rr =? SSL3_RT_ALERT then receive_alert is_tls13 i rr s
        else match after_shutdown i rr s with
        | Some r => r s
        | None =>
            (if r_type rr =? SSL3_RT_HANDSHAKE then store_fragment i rr (unexpected_message i rr)
             else unexpected_message i rr) s
        end
  end.

(** From the label [start]; the result is never [None]. *)
Definition read_round (is_tls13 : bool) (type : Z) (recvd : bool) (len : Z) (peek : bool) : ST SSL (option round) :=
  st_put (set_rwstate SSL_NOTHING) ;;;
  ret <~ get_records ;;
  if ret <=? 0 then returns ret else process_rr is_tls13 type recvd len peek.

(** [None] when the fuel, a bound on the rounds, is used up. *)
Fixpoint read_rounds (fuel : nat) (is_tls13 : bool) (type : Z) (recvd : bool) (len : Z) (peek : bool)
    : ST SSL (option (Z * option Z * list Z)) :=
  match fuel with
  | O => st_ret None
  | S fuel =>
      r <~ read_round is_tls13 type recvd len peek ;;
      match r with
      | None => st_ret None
      | Some Start => read_rounds fuel is_tls13 type recvd len peek
      | Some (Return_ code t bs) => st_ret (Some (code, t, bs))
      end
  end.

(** The results are the code, the type stored in [*recvd_type], if any, and the
    bytes stored. *)
Definition ssl3_read_bytes (fuel : nat) (type : Z) (recvd : bool) (len : Z) (peek : bool)
    : ST SSL (option (Z * option Z * list Z)) := fun s =>
  let is_tls13 := SSL_IS_TLS13 s in
  if (negb (type =? 0) && negb (type =? SSL3_RT_APPLICATION_DATA) && negb (type =? SSL3_RT_HANDSHAKE))
     || (peek && negb (type =? SSL3_RT_APPLICATION_DATA))
  then (SSLfatal SSL_AD_INTERNAL_ERROR ;;; st_ret (Some (-1, None, []))) s
  else if (type =? SSL3_RT_HANDSHAKE) && negb (Nat.eqb (length (handshake_fragment (rl_of s))) 0) then
    let f := handshake_fragment (rl_of s) in
    (Ok (Some (1, if recvd then Some SSL3_RT_HANDSHAKE else None, take (Z.to_nat len) f)),
     upd_rl (set_handshake_fragment (drop (Z.to_nat len) f)) s)
  else if (ossl_statem_get_in_handshake s =? 0) && SSL_in_init s then
    let '(i, s) := handshake_func s in
    if i <? 0 then (Ok (Some (i, None, [])), s)
    else if i =? 0 then (Ok (Some (-1, None, [])), s)
    else read_rounds fuel is_tls13 type recvd len peek s
  else read_rounds fuel is_tls13 type recvd len peek s.

(** ** SSLv2 records *)

Definition RECORD_LAYER_is_sslv2_record (s : SSL) : bool :=
  negb (SSL_IS_DTLS s) && match slot 0 s with Some r => r_version r =? SSL2_VERSION | None => false end.
End Ops.
End TlsLayer.
