(* ===== verification/TlsLayerProps.v ===== *)
(** * What ssl3_read_bytes and ssl3_write_bytes get wrong

    Methods for examples, and runs of TlsLayer.v on them in which data is lost,
    sent twice or refused, or an alert is taken for a warning. *)

From stdpp Require Import prelude list.
From Stdlib Require Import ZArith Lia ZifyBool.
From S2P Require Import Prelude Packet Buffer PQueue RecordTypes StatemTypes StatemLib Statem RecLayer TlsLayer.

Local Open Scope Z_scope.
Local Open Scope st_scope.

Module TlsLayerProps.
Import RecLayer TlsLayer.

(** ** Methods for examples *)

(** The records to come, which are all processed; the records written, those held
    back, whether the next ones are taken (all are when there is no more to say),
    and the transcript. *)
Record pipe : Type := mkPIPE {
  p_in : list TLS_RECORD;
  p_out : list (Z * list Z);
  p_held : list (Z * list Z);
  p_takes : list bool;
  p_transcript : list Z
}.

Definition pipe_write (rs : list (Z * list Z)) (e : pipe) : Z * pipe :=
  match p_takes e with
  | false :: k => (OSSL_RECORD_RETURN_RETRY, mkPIPE (p_in e) (p_out e) rs k (p_transcript e))
  | k => (OSSL_RECORD_RETURN_SUCCESS, mkPIPE (p_in e) (p_out e ++ rs) [] (tail k) (p_transcript e))
  end.

#[export] Instance pipe_methods : RecordMethods pipe := {|
  read_record e := match p_in e with
                   | [] => (ReadCode OSSL_RECORD_RETURN_RETRY, e)
                   | r :: rs => (GotRecord r, mkPIPE rs (p_out e) (p_held e) (p_takes e) (p_transcript e))
                   end;
  release_record _ _ e := (OSSL_RECORD_RETURN_SUCCESS, e);
  processed_read_pending e := match p_in e with [] => false | _ => true end;
  unprocessed_read_pending _ := false;
  app_data_pending _ := 0;
  get_alert_code _ := SSL_AD_NO_ALERT;
  write_records t e := pipe_write (map (fun t => (t_type t, t_buf t)) t) e;
  retry_write_records e := pipe_write (p_held e) e;
  get_max_records _ _ _ split _ := (2, split);
  free_layers e := e;
  alert_callback _ e := e
|}.

#[export] Instance pipe_callees : Callees (RECORD_LAYER pipe) := idle_callees (fun s => (None, s)).

Definition pipe_record (vers t : Z) (d : list Z) : TLS_RECORD :=
  mkREC (Some 1) vers t (Some d) false (Z.of_nat (length d)) 0 0 [].

(** Records of at most four bytes, and a limit of fifteen bytes of early data. *)
Definition pipe_layer (e : pipe) : RECORD_LAYER pipe :=
  mkRLAYER 0 [] 0 0 0 0 0 0 [] 0 0 (replicate 32 empty_slot) 0 0 0 0 0 0 0 (mkCONF (2 ^ 32 - 1) (Some 15) 4 4 0) e.

(** A connection with these records to come and these answers to writing. *)
Definition pipe_conn (h : OSSL_HANDSHAKE_STATE) (vers : Z) (rs : list TLS_RECORD) (takes : list bool) : SSL (RECORD_LAYER pipe) :=
  sample_conn (pipe_layer (mkPIPE rs [] [] takes [])) h vers ecdhe_rsa.
(** ... on which the handshake is over. *)
Definition pipe_done (rs : list TLS_RECORD) (takes : list bool) : SSL (RECORD_LAYER pipe) :=
  upd_st (set_in_init false) (pipe_conn TLS_ST_OK TLS1_2_VERSION rs takes).

Definition no_handshake (s : SSL (RECORD_LAYER pipe)) : Z * SSL (RECORD_LAYER pipe) := (1, s).
Definition pipe_read handshake_func := ssl3_read_bytes (E := pipe) handshake_func (fun s => s) 10 SSL3_RT_APPLICATION_DATA false 100.
Definition pipe_send handshake_func := ssl3_write_bytes (E := pipe) (fun s => (1, s)) handshake_func 100 SSL3_RT_APPLICATION_DATA 0.

(** ** Reading *)

Definition app_data : list Z -> TLS_RECORD := pipe_record TLS1_2_VERSION SSL3_RT_APPLICATION_DATA.

(** Looking at data with [peek] across an empty record releases the empty record
    and moves on by one, past the first record, which is then not read. *)
Lemma peek_loses_data :
  let '(r1, s1) := pipe_read no_handshake true (pipe_done [app_data [1; 2; 3]; app_data []; app_data [4; 5]] []) in
  let '(r2, _) := pipe_read no_handshake false s1 in
  r1 = Ok (Some (1, None, [1; 2; 3; 4; 5])) /\ r2 = Ok (Some (1, None, [4; 5])).
Proof. vm_compute. done. Qed.

(** Reading starts with a handshake that ends in TLS 1.3, where every alert but
    two is fatal.  The alert (bad_certificate, sent as a warning) is ignored all
    the same because the version was looked up before; in a call of its own the
    same alert is fatal. *)
Definition to_tls13 (s : SSL (RECORD_LAYER pipe)) : Z * SSL (RECORD_LAYER pipe) :=
  (1, set_rest (rest s) (upd_st (set_in_init false) (pipe_conn TLS_ST_OK TLS1_3_VERSION [] []))).
Definition warning_42 : TLS_RECORD := pipe_record TLS1_2_VERSION SSL3_RT_ALERT [SSL3_AL_WARNING; 42].

Lemma alert_of_old_version :
  let '(r1, s1) := pipe_read to_tls13 false (pipe_conn TLS_ST_BEFORE TLS1_2_VERSION [warning_42] []) in
  let '(r2, s2) := pipe_read to_tls13 false
                     (upd_rl (fun l => set_lower (mkPIPE [warning_42] [] [] [] []) l) s1) in
  SSL_IS_TLS13 s1 = true /\ r1 = Ok (Some (-1, None, [])) /\ is_error s1 = false
  /\ r2 = Ok (Some (0, None, [])) /\ is_error s2 = true.
Proof. vm_compute. done. Qed.

(** ** Early data *)

Definition as_server (s : SSL (RECORD_LAYER pipe)) : SSL (RECORD_LAYER pipe) :=
  mkSSL (statem s) (s3 s) (ext s) (session s) (version s) (method_version s) (method_dtls s) true (hit s)
    (renegotiate s) (new_session s) (shutdown s) (rwstate s) (options s) (verify_mode s) (init_buf s) (init_msg s)
    (init_num s) (init_off s) (first_packet s) (key_update s) (post_handshake_auth s) (hello_retry_request s)
    (early_data_state s) (max_early_data s) (certreqs_sent s) (num_tickets s) (sent_tickets s) (max_cert_list s)
    (psk_identity_hint s) (cookie_verified s) (quic_method s) (psk_use_session_cb s) (quic s) (ts_msg_read s)
    (ts_msg_write s) (rest s).

(** The allowance for ciphertext is added to the limit in 32 bits: a server that
    accepts any amount of early data refuses to skip 200 bytes of it. *)
Lemma early_data_limit_wraps :
  let s := as_server (pipe_done [] []) in
  fst (ossl_get_max_early_data (E := pipe) s) = Ok (2 ^ 32 - 1)
  /\ fst (ossl_early_data_count_ok (E := pipe) 200 EARLY_DATA_CIPHERTEXT_OVERHEAD false s) = Ok false.
Proof. vm_compute. done. Qed.

(** A write of ten bytes of early data, fifteen being allowed, has to be tried
    again; the second call counts the bytes again and is refused. *)
Lemma early_data_counted_twice :
  let s := set_early_data_state SSL_EARLY_DATA_WRITING (pipe_done [] [false]) in
  let '(r1, s1) := pipe_send no_handshake (replicate 10 7) s in
  let '(r2, s2) := pipe_send no_handshake (replicate 10 7) s1 in
  r1 = Ok (Some (-1, 0)) /\ is_error s1 = false /\ r2 = Ok (Some (-1, 0)) /\ is_error s2 = true.
Proof. vm_compute. done. Qed.

(** ** Writing *)

(** A write that could not be completed is tried again while a handshake is under
    way, which cannot be completed either.  Then the number of bytes already
    written is forgotten: the next try writes bytes 9 to 16 twice. *)
Lemma written_twice :
  let bs := [1; 2; 3; 4; 5; 6; 7; 8; 9; 10; 11; 12; 13; 14; 15; 16; 17; 18] in
  let '(r1, s1) := pipe_send no_handshake bs (pipe_done [] [true; false; true]) in
  let '(r2, s2) := pipe_send (fun s => (-1, s)) bs (upd_st (set_in_init true) s1) in
  let '(r3, s3) := pipe_send no_handshake bs (upd_st (set_in_init false) s2) in
  r1 = Ok (Some (-1, 0)) /\ r2 = Ok (Some (-1, 0)) /\ r3 = Ok (Some (1, 18))
  /\ concat (map snd (p_out (lower (rest s3))))
     = [1; 2; 3; 4; 5; 6; 7; 8; 9; 10; 11; 12; 13; 14; 15; 16; 9; 10; 11; 12; 13; 14; 15; 16; 17; 18].
Proof. vm_compute. done. Qed.
End TlsLayerProps.
