(* ===== verification/TlsStack.v ===== *)
(** * The TLS layers together

    [ssl3_read_bytes] and [ssl3_write_bytes] (TlsLayer.v) deliver the streams of
    bytes the reader and the writer of messages (Framing.v) rely on; so a message
    that one side writes is the message the other side reads, through both
    layers. *)

From stdpp Require Import prelude list.
From Stdlib Require Import ZArith Lia ZifyBool.
From S2P Require Import Prelude Packet Buffer PQueue RecordTypes StatemTypes StatemLib Statem Quic Framing.
From S2P Require Import RecLayer TlsLayer TlsLayerProps.

Local Open Scope Z_scope.
Local Open Scope st_scope.

Module TlsStack.
Import Quic Framing RecLayer TlsLayer TlsLayerProps.

(** ** Reading *)

Section Reading.
Context {E : Type} `{C : Callees (RECORD_LAYER E)} `{L : Libc} `{M : RecordMethods E}.
Local Abbreviation SSL := (SSL (RECORD_LAYER E)).
Context (dispatch handshake_func : SSL -> Z * SSL) (remove_session : SSL -> SSL).

(** A record that has been handed out: its handle and the bytes not released. *)
Definition handle_of (r : TLS_RECORD) : option Z * Z := (rechandle r, r_length r).

(** The records to come, and the transcript; [holds hs e] says that the records
    handed out and not released are [hs].  When there are none, reading gets a
    record or has to wait; when there are some, it may only be asked for one that
    has been processed already.  Records are released in order, in portions. *)
Context (feed : E -> list TLS_RECORD) (transcript : E -> list Z) (holds : list (option Z * Z) -> E -> Prop).
Class Feeds : Prop := {
  fd_got hs e r e' : holds hs e -> hs = [] \/ processed_read_pending e = true -> read_record e = (GotRecord r, e') ->
    feed e = r :: feed e' /\ transcript e' = transcript e /\ holds (hs ++ [handle_of r]) e';
  fd_wait e c e' : holds [] e -> read_record e = (ReadCode c, e') ->
    c = OSSL_RECORD_RETURN_RETRY /\ feed e' = feed e /\ transcript e' = transcript e /\ holds [] e';
  fd_processed hs e : holds hs e -> processed_read_pending e = true -> exists r e', read_record e = (GotRecord r, e');
  fd_release h n k hs e : holds ((Some h, n) :: hs) e -> 0 <= k <= n -> (k = 0 -> n = 0) -> let res := release_record h k e in
    fst res = OSSL_RECORD_RETURN_SUCCESS /\ feed (snd res) = feed e /\ transcript (snd res) = transcript e
    /\ holds (if k =? n then hs else (Some h, n - k) :: hs) (snd res)
}.
Context `{!Feeds}.

Definition slots (l : RECORD_LAYER E) : list TLS_RECORD :=
  take (Z.to_nat (num_recs l) - Z.to_nat (curr_rec l)) (drop (Z.to_nat (curr_rec l)) (tlsrecs l)).
Definition bytes (rs : list TLS_RECORD) : list Z := concat (map left_of rs).

(** The bytes to come. *)
Definition pending (l : RECORD_LAYER E) : list Z := handshake_fragment l ++ bytes (slots l) ++ bytes (feed (lower l)).

Definition handshake_record (r : TLS_RECORD) : Prop := live r /\ r_type r = SSL3_RT_HANDSHAKE.

(** Only records of the handshake are there and to come; [n] bounds the rounds. *)
Record usable (n : nat) (l : RECORD_LAYER E) : Prop := {
  us_size : length (tlsrecs l) = 32%nat;
  us_curr : 0 <= curr_rec l;
  us_num : 0 <= num_recs l <= 32;
  us_slots : Forall handshake_record (slots l);
  us_feed : Forall (fun r => handshake_record r /\ r_off r = 0) (feed (lower l));
  us_holds : holds (map handle_of (slots l)) (lower l);
  us_rounds : (length (slots l) + length (feed (lower l)) < n)%nat
}.

(** The record layer of [s] is [l]. *)
Definition here (l : RECORD_LAYER E) (v : Z) (s : SSL) : SSL := set_rwstate v (set_rest l s).

(** From [l] to [l'] nothing is lost. *)
Record same (l l' : RECORD_LAYER E) : Prop := {
  sm_fragment : handshake_fragment l' = handshake_fragment l;
  sm_pending : pending l' = pending l;
  sm_transcript : transcript (lower l') = transcript (lower l);
  sm_usable n : usable n l -> usable n l'
}.

Lemma same_refl l : same l l.
Proof. by split. Qed.

Lemma same_trans l1 l2 l3 : same l1 l2 -> same l2 l3 -> same l1 l3.
Proof. intros [? ? ? H1] [? ? ? H2]. split; [congruence..|]. auto. Qed.

(** ** Slots *)

Lemma slots_cons n l : usable n l -> curr_rec l < num_recs l ->
  exists rr, tlsrecs l !! Z.to_nat (curr_rec l) = Some rr /\ slots l = rr :: slots (set_curr_rec (curr_rec l + 1) l).
Proof.
  intros [Hs Hc Hn _ _ _ _] Hlt. destruct (lookup_lt_is_Some_2 (tlsrecs l) (Z.to_nat (curr_rec l))) as [rr Er]; [lia|].
  exists rr. split; [done|]. unfold slots. simpl. rewrite (drop_S _ rr) by done.
  replace (Z.to_nat (num_recs l) - Z.to_nat (curr_rec l))%nat
    with (S (Z.to_nat (num_recs l) - Z.to_nat (curr_rec l + 1))) by lia.
  simpl. do 2 f_equal. by replace (Z.to_nat (curr_rec l + 1)) with (S (Z.to_nat (curr_rec l))) by lia.
Qed.

Lemma slots_none l : num_recs l <= curr_rec l -> 0 <= num_recs l -> slots l = [].
Proof. intros H1 H2. unfold slots. by replace (Z.to_nat (num_recs l) - Z.to_nat (curr_rec l))%nat with O by lia. Qed.

(** The current slot is changed. *)
Lemma slots_put r l : (Z.to_nat (curr_rec l) < length (tlsrecs l))%nat -> 0 <= curr_rec l < num_recs l ->
  slots (set_tlsrecs (<[Z.to_nat (curr_rec l) := r]> (tlsrecs l)) l) = r :: slots (set_curr_rec (curr_rec l + 1) l)
  /\ slots (set_curr_rec (curr_rec l + 1) (set_tlsrecs (<[Z.to_nat (curr_rec l) := r]> (tlsrecs l)) l))
     = slots (set_curr_rec (curr_rec l + 1) l).
Proof.
  intros Hl Hc. unfold slots. simpl.
  assert (E1 : drop (Z.to_nat (curr_rec l + 1)) (<[Z.to_nat (curr_rec l) := r]> (tlsrecs l))
               = drop (Z.to_nat (curr_rec l + 1)) (tlsrecs l)) by (apply drop_insert_lt; lia).
  rewrite E1. split; [|done]. rewrite (drop_S _ r) by (by apply list_lookup_insert_eq).
  replace (Z.to_nat (num_recs l) - Z.to_nat (curr_rec l))%nat
    with (S (Z.to_nat (num_recs l) - Z.to_nat (curr_rec l + 1))) by lia.
  simpl. do 2 f_equal. rewrite <- E1. by replace (Z.to_nat (curr_rec l + 1)) with (S (Z.to_nat (curr_rec l))) by lia.
Qed.

(** A slot is filled. *)
Definition fetched (r old : TLS_RECORD) (e : E) (l : RECORD_LAYER E) : RECORD_LAYER E :=
  set_num_recs (num_recs l + 1) (set_tlsrecs (<[Z.to_nat (num_recs l) := fill_slot r old]> (tlsrecs l)) (set_lower e l)).

Lemma slots_fetched r old e l : (Z.to_nat (num_recs l) < length (tlsrecs l))%nat -> 0 <= curr_rec l <= num_recs l ->
  slots (fetched r old e l) = slots l ++ [fill_slot r old].
Proof.
  intros Hl Hc. unfold slots, fetched. simpl.
  replace (Z.to_nat (num_recs l + 1) - Z.to_nat (curr_rec l))%nat
    with (S (Z.to_nat (num_recs l) - Z.to_nat (curr_rec l))) by lia.
  set (k := (Z.to_nat (num_recs l) - Z.to_nat (curr_rec l))%nat).
  rewrite (take_S_r _ _ (fill_slot r old)).
  - f_equal. rewrite drop_insert_ge by lia. unfold k. by rewrite take_insert_ge by lia.
  - rewrite lookup_drop. replace (Z.to_nat (curr_rec l) + k)%nat with (Z.to_nat (num_recs l)) by lia.
    by apply list_lookup_insert_eq.
Qed.

Lemma bytes_app rs rs' : bytes (rs ++ rs') = bytes rs ++ bytes rs'.
Proof. unfold bytes. by rewrite map_app, concat_app. Qed.

Lemma fetched_same r old e l n : usable n l -> num_recs l < 32 -> curr_rec l <= num_recs l ->
  feed (lower l) = r :: feed e -> transcript e = transcript (lower l) -> holds (map handle_of (slots l) ++ [handle_of r]) e ->
  same l (fetched r old e l).
Proof.
  intros Hu Hn Hc Hf Ht Hh. pose proof Hu as [Hs Hc0 Hn0 _ Hfd _ _].
  rewrite Hf in Hfd. apply Forall_cons in Hfd as [[[Hlv Hty] Ho] Hfd].
  destruct (fill_slot_live r old Hlv Ho) as [Hlv' Hlo].
  assert (Hsl : slots (fetched r old e l) = slots l ++ [fill_slot r old]) by (apply slots_fetched; lia).
  split; try done.
  - unfold pending. rewrite Hsl, Hf, bytes_app. simpl. unfold bytes at 2 4. simpl. by rewrite Hlo, app_nil_r, <- !app_assoc.
  - intros m [Hs' Hc' Hn' Hsl' Hfd' Hh' Hr']. split; simpl; try done; try lia.
    + by rewrite length_insert.
    + rewrite Hsl. apply Forall_app. split; [done|]. by constructor.
    + by rewrite Hsl, map_app.
    + rewrite Hsl, length_app. rewrite Hf in Hr'. simpl in *. lia.
Qed.

(** ** Fetching records *)

Lemma read_one_got l v (s : SSL) r e old : read_record (lower l) = (GotRecord r, e) -> 0 <= num_recs l ->
  tlsrecs l !! Z.to_nat (num_recs l) = Some old -> read_one (here l v s) = (Ok 1, here (fetched r old e l) SSL_NOTHING s).
Proof.
  intros Er Hn Eo. unfold read_one. change (num_recs (rl_of (here l v s))) with (num_recs l). unfold slot.
  rewrite (proj2 (Z.leb_le _ _)) by done. change (tlsrecs (rl_of (here l v s))) with (tlsrecs l).
  rewrite Eo. change (lower_of (here l v s)) with (lower l). rewrite Er. reflexivity.
Qed.

(** The rounds after the first. *)
Lemma read_more n k l v (s : SSL) : usable n l -> curr_rec l <= num_recs l ->
  exists l' v', st_if (fun s => processed_read_pending (lower_of s) && (num_recs (rl_of s) <? SSL_MAX_PIPELINES))
                  (read_all k) (st_ret 1) (here l v s) = (Ok 1, here l' v' s)
    /\ same l l' /\ curr_rec l' = curr_rec l /\ num_recs l <= num_recs l'.
Proof.
  revert l v. induction k as [|k IH]; intros l v Hu Hc; unfold st_if;
    change (lower_of (here l v s)) with (lower l); change (num_recs (rl_of (here l v s))) with (num_recs l).
  { exists l, v. destruct (_ && _); (split; [done|]); by split; [apply same_refl|]. }
  destruct (processed_read_pending (lower l) && _) eqn:Ep; [|by exists l, v; split; [done|]; split; [apply same_refl|]].
  apply andb_true_iff in Ep as [Ep Hlt]. apply Z.ltb_lt in Hlt. pose proof Hu as [Hs _ Hn _ _ Hh _].
  destruct (fd_processed _ _ Hh Ep) as (r & e & Er). pose proof (fd_got _ _ _ _ Hh (or_intror Ep) Er) as (Hf & Ht & Hh').
  destruct (lookup_lt_is_Some_2 (tlsrecs l) (Z.to_nat (num_recs l))) as [old Eo]; [lia|].
  pose proof (fetched_same r old e l n Hu Hlt Hc Hf Ht Hh') as Hsm.
  cbn [read_all]. rewrite (st_bind_ok _ _ _ _ _ (read_one_got l v s r e old Er (proj1 Hn) Eo)). cbn [Z.leb Z.compare].
  destruct (IH (fetched r old e l) SSL_NOTHING) as (l' & v' & -> & Hsm' & Hc' & Hn').
  { by eapply sm_usable. }
  { simpl. lia. }
  exists l', v'. split; [done|]. split; [by eapply same_trans|]. simpl in *. lia.
Qed.

(** There is a record, or none came. *)
Lemma get_records_cases n l v (s : SSL) : usable n l ->
  exists l' v', same l l' /\
    ((get_records (here l v s) = (Ok 1, here l' v' s) /\ curr_rec l' < num_recs l')
     \/ (get_records (here l v s) = (Ok (-1), here l' v' s)
         /\ slots l = [] /\ exists c, read_record (lower l) = (ReadCode c, lower l'))).
Proof.
  intros Hu. unfold get_records. change (rl_of (here l v s)) with l.
  destruct (num_recs l <=? curr_rec l) eqn:Ec; zbool; [|exists l, v; split; [apply same_refl|]; by left].
  pose proof Hu as [Hs Hc0 Hn Hsl Hfd Hh Hr]. pose proof (slots_none l Ec ltac:(lia)) as Hno. rewrite Hno in Hh.
  set (l0 := set_curr_rec 0 (set_num_recs 0 l)). change (upd_rl _ (here l v s)) with (here l0 v s).
  assert (Hno0 : slots l0 = []) by done.
  assert (Hsm0 : same l l0).
  { split; try done; [unfold pending; by rewrite Hno, Hno0|]. intros m [? ? ? ? ? ? Hm]. split; rewrite ?Hno0; simpl; try done.
    rewrite Hno in Hm. done. }
  change (Z.to_nat SSL_MAX_PIPELINES) with (S 31). generalize 31%nat. intros k. cbn [read_all].
  destruct (read_record (lower l)) as [[r|c] e] eqn:Er.
  - pose proof (fd_got _ _ _ _ Hh (or_introl eq_refl) Er) as (Hf & Ht & Hh'). destruct (lookup_lt_is_Some_2 (tlsrecs l) 0%nat) as [old Eo]; [lia|].
    rewrite (st_bind_ok _ _ _ _ _ (read_one_got l0 v s r e old Er ltac:(done) Eo)). cbn [Z.leb Z.compare].
    assert (Hsm1 : same l0 (fetched r old e l0)) by (apply (fetched_same _ _ _ _ n); try done; by eapply sm_usable).
    destruct (read_more n k (fetched r old e l0) SSL_NOTHING s) as (l' & v' & E1 & Hsm' & Hc' & Hn').
    { by eapply sm_usable, sm_usable. }
    { done. }
    exists l', v'. split; [by do 2 (eapply same_trans; [done|])|]. left. split; [exact E1|]. rewrite Hc'. simpl in *. lia.
  - pose proof (fd_wait _ _ _ Hh Er) as (-> & Hf & Ht & Hh'). exists (set_lower e l0), SSL_READING. split.
    { eapply same_trans; [done|]. split; try done; [unfold pending; simpl; by rewrite Hf|].
      intros m [? ? ? ? ? ? ?]. split; simpl; rewrite ?Hf; done. }
    right. split; [|split; [done|by eexists _]].
    assert (E1 : read_one (here l0 v s) = (Ok (-1), here (set_lower e l0) SSL_READING s)); [|by rewrite (st_bind_ok _ _ _ _ _ E1)].
    unfold read_one. change (num_recs (rl_of (here l0 v s))) with 0. change (slot 0 (here l0 v s)) with (tlsrecs l !! 0%nat).
    destruct (lookup_lt_is_Some_2 (tlsrecs l) 0%nat) as [old ->]; [lia|].
    change (lower_of (here l0 v s)) with (lower l). rewrite Er. reflexivity.
Qed.

(** ** One round *)

(** [k] bytes of the current record are used, all of them for [0]. *)
Definition released (k : Z) (rr : TLS_RECORD) (e : E) (l : RECORD_LAYER E) : RECORD_LAYER E :=
  if (k =? 0) || (k =? r_length rr)
  then set_tlsrecs (<[Z.to_nat (curr_rec l) := shorten (r_length rr) (drop_bytes rr)]> (tlsrecs l))
         (set_curr_rec (curr_rec l + 1) (set_lower e l))
  else set_tlsrecs (<[Z.to_nat (curr_rec l) := shorten k rr]> (tlsrecs l)) (set_lower e l).

Lemma slot_here i l v (s : SSL) : 0 <= i -> slot i (here l v s) = tlsrecs l !! Z.to_nat i.
Proof. intros Hi. unfold slot. by rewrite (proj2 (Z.leb_le _ _)) by done. Qed.

Lemma release_current k rr l hs v (s : SSL) : 0 <= curr_rec l -> tlsrecs l !! Z.to_nat (curr_rec l) = Some rr -> live rr ->
  0 <= k <= r_length rr -> (k = 0 -> r_length rr = 0) -> holds (handle_of rr :: hs) (lower l) ->
  exists e, feed e = feed (lower l) /\ transcript e = transcript (lower l)
    /\ holds (if k =? r_length rr then hs else (rechandle rr, r_length rr - k) :: hs) e
    /\ ssl_release_record (curr_rec l) k (here l v s) = (Ok true, here (released k rr e l) SSL_NOTHING s).
Proof.
  intros Hc Er (h & d & Hh & _) Hk Hk0 Hho. unfold ssl_release_record.
  rewrite slot_here, Er, (proj2 (Z.ltb_ge _ _)), Hh by lia.
  set (n := if k =? 0 then r_length rr else k). assert (En : n = k) by (unfold n; destruct (k =? 0) eqn:E0; zbool; [rewrite Hk0|]; lia).
  unfold handle_of in Hho. rewrite Hh in Hho. destruct (fd_release h (r_length rr) n hs (lower l) Hho) as (Hcode & Hf & Ht & Hho'); [lia..|].
  change (lower_of (here l v s)) with (lower l).
  destruct (release_record h n (lower l)) as [c e]. cbn [fst snd] in Hcode, Hf, Ht, Hho'. subst c. exists e.
  rewrite En in Hho'. clear En. split_and!; try done.
  unfold released, n. destruct (k =? 0) eqn:E0; zbool; cbn [orb].
  - rewrite Z.eqb_refl. reflexivity.
  - destruct (k =? r_length rr) eqn:E1; zbool; [subst k|]; reflexivity.
Qed.

(** What is left then. *)
Lemma released_left n k rr e l : usable n l -> curr_rec l < num_recs l -> tlsrecs l !! Z.to_nat (curr_rec l) = Some rr ->
  0 <= k <= r_length rr -> (k = 0 -> r_length rr = 0) -> feed e = feed (lower l) ->
  (forall hs, map handle_of (slots l) = handle_of rr :: hs ->
     holds (if k =? r_length rr then hs else (rechandle rr, r_length rr - k) :: hs) e) ->
  handshake_fragment l = [] ->
  let l' := released k rr e l in
  handshake_fragment l' = [] /\ pending l = take (Z.to_nat k) (left_of rr) ++ pending l' /\ usable n l'
  /\ (k = r_length rr -> forall m, usable (S m) l -> usable m l').
Proof.
  intros Hu Hlt Er Hk H0 Hf Hho Hh l'. pose proof Hu as [Hs Hc Hn Hsl Hfd _ Hr].
  destruct (slots_cons n l Hu Hlt) as (rr' & Er' & Hcons). rewrite Er in Er'. injection Er' as <-.
  set (l1 := set_curr_rec (curr_rec l + 1) l) in *.
  rewrite Hcons in Hsl, Hr, Hho. specialize (Hho _ eq_refl).
  apply Forall_cons in Hsl as [[Hlv Hty] Hsl]. pose proof (left_length rr Hlv) as Hll.
  destruct (Z.eq_dec k (r_length rr)) as [->|Hne].
  - rewrite Z.eqb_refl in Hho. assert (Hl' : slots l' = slots l1).
    { unfold l', released. rewrite Z.eqb_refl, orb_true_r. by apply (proj2 (slots_put _ l ltac:(lia) ltac:(lia))). }
    assert (Hrest : handshake_fragment l' = handshake_fragment l /\ lower l' = e /\ length (tlsrecs l') = length (tlsrecs l)
                    /\ num_recs l' = num_recs l /\ curr_rec l' = curr_rec l + 1).
    { unfold l', released. rewrite Z.eqb_refl, orb_true_r. simpl. by rewrite length_insert. }
    destruct Hrest as (R1 & R2 & R3 & R4 & R5).
    assert (Hus : forall m, usable (S m) l -> usable m l').
    { intros m [_ _ _ _ _ _ Hm]. rewrite Hcons in Hm. simpl in Hm. split; rewrite ?R2, ?R3, ?R4, ?R5, ?Hl', ?Hf; try done; lia. }
    split; [congruence|]. split; [|split; [|done]].
    + unfold pending. rewrite R1, R2, Hl', Hf, Hh, Hcons, take_ge by lia. unfold bytes. simpl. by rewrite <- app_assoc.
    + simpl in Hr. destruct n as [|n]; [lia|]. assert (Hn' : usable n l') by by apply Hus.
      destruct Hn' as [? ? ? ? ? ? ?]. split; try done. lia.
  - assert (Hkk : (k =? 0) || (k =? r_length rr) = false) by (apply orb_false_iff; split; apply Z.eqb_neq; lia).
    destruct (shorten_live k rr Hlv) as [Hlv' Hlo]; [lia|].
    assert (Hl' : slots l' = shorten k rr :: slots l1).
    { unfold l', released. rewrite Hkk. by apply (proj1 (slots_put _ l ltac:(lia) ltac:(lia))). }
    unfold l', released in *. rewrite Hkk in *. split; [done|]. split; [|split; [|done]].
    + unfold pending. rewrite Hl', Hcons. simpl. rewrite Hh, Hf. simpl. unfold bytes. simpl.
      by rewrite Hlo, !app_assoc, take_drop.
    + split; simpl; rewrite ?length_insert, ?Hf; try done.
      * rewrite Hl'. by constructor.
      * rewrite Hl'. simpl. by rewrite (proj2 (Z.eqb_neq _ _) Hne) in Hho.
      * rewrite Hl'. done.
Qed.

(** What the connection has to be like: in a handshake, and not shut down. *)
Definition calm (s : SSL) : Prop :=
  in_handshake (statem s) <> 0 /\ has (shutdown s) SSL_RECEIVED_SHUTDOWN = false.

Definition uncounted (rr : TLS_RECORD) (l : RECORD_LAYER E) : RECORD_LAYER E :=
  if negb (r_type rr =? SSL3_RT_ALERT) && negb (r_length rr =? 0) then set_alert_count 0 l else l.

Lemma tls_uncount rr l v (s : SSL) :
  (if negb (r_type rr =? SSL3_RT_ALERT) && negb (r_length rr =? 0) then upd_rl (set_alert_count 0) (here l v s) else here l v s)
  = here (uncounted rr l) v s.
Proof. unfold uncounted. by case_match. Qed.

Lemma uncounted_same rr l : same l (uncounted rr l) /\ curr_rec (uncounted rr l) = curr_rec l
  /\ num_recs (uncounted rr l) = num_recs l /\ tlsrecs (uncounted rr l) = tlsrecs l.
Proof. unfold uncounted. case_match; [|by split; [apply same_refl|]]. split; [|done]. split; try done. by intros n [? ? ? ? ? ? ?]. Qed.

Local Abbreviation process_rr := (process_rr handshake_func remove_session).
Local Abbreviation read_round := (read_round handshake_func remove_session).
Local Abbreviation read_rounds := (read_rounds handshake_func remove_session).

(** A whole record that is empty is skipped; of another one as much as fits is
    delivered. *)
Lemma process_current n t13 recvd len l v (s : SSL) : calm s -> usable n l -> handshake_fragment l = [] ->
  curr_rec l < num_recs l -> 0 < len ->
  (exists l' v', process_rr t13 SSL3_RT_HANDSHAKE recvd len false (here l v s) = (Ok (Some Start), here l' v' s)
     /\ handshake_fragment l' = [] /\ pending l' = pending l /\ transcript (lower l') = transcript (lower l)
     /\ (forall m, usable (S m) l -> usable m l'))
  \/ (exists bs l' v', process_rr t13 SSL3_RT_HANDSHAKE recvd len false (here l v s)
        = (Ok (Some (Return_ 1 (if recvd then Some SSL3_RT_HANDSHAKE else None) bs)), here l' v' s)
      /\ bs <> [] /\ Z.of_nat (length bs) <= len /\ pending l = bs ++ pending l'
      /\ transcript (lower l') = transcript (lower l) /\ usable n l').
Proof.
  intros [_ Hsh] Hu Hh Hlt Hlen. destruct (slots_cons n l Hu Hlt) as (rr & Er & Hcons).
  pose proof Hu as [_ Hc _ Hsl _ Hho _]. rewrite Hcons in Hsl, Hho. apply Forall_cons in Hsl as [[Hlv Hty] _].
  pose proof (left_length rr Hlv) as Hll.
  unfold TlsLayer.process_rr. change (rl_of (here l v s)) with l. rewrite slot_here, Er, Hh by done.
  cbn [length Nat.eqb negb andb]. rewrite tls_uncount, Hty, andb_false_r.
  destruct (uncounted_same rr l) as ([U1 U2 U3 U4] & U5 & U6 & U7).
  set (l1 := uncounted rr l) in *. change (shutdown (here l1 v s)) with (shutdown s). rewrite Hsh. cbn [Z.eqb Pos.eqb orb].
  unfold deliver. rewrite andb_false_r, Hty. cbn [andb Z.eqb Pos.eqb]. rewrite (proj2 (Z.eqb_neq len 0)) by lia.
  generalize (Z.to_nat SSL_MAX_PIPELINES). intros f. cbn [copy_loop]. rewrite slot_here, U7, Er by done. rewrite Z.sub_0_r.
  set (k := if r_length rr <? len then r_length rr else len).
  assert (Hk : 0 <= k <= r_length rr /\ (k = 0 -> r_length rr = 0) /\ k <= len) by (unfold k; destruct (r_length rr <? len) eqn:E1; zbool; lia).
  destruct Hk as (Hk & Hk0 & Hkl). rewrite record_bytes_live by done. unfold release_one.
  assert (Hlo : lower l1 = lower l) by (unfold l1, uncounted; by case_match).
  assert (Hsl1 : slots l1 = slots l) by (unfold slots; by rewrite U5, U6, U7).
  destruct (release_current k rr l1 (map handle_of (slots (set_curr_rec (curr_rec l + 1) l))) v s) as (e & Hf & Ht & Hho' & E1);
    [lia|by rewrite U5, U7|done|done|done|by rewrite Hlo|]. rewrite U5 in E1.
  rewrite (st_bind_ok _ _ _ _ _ E1). cbn [negb].
  destruct (released_left n k rr e l1) as (R1 & R2 & R3 & R4);
    [by apply U4|lia|by rewrite U5, U7|done|done|done|rewrite Hsl1, Hcons; by intros hs [= <-]|by rewrite U1|]. rewrite U2 in R2.
  set (l' := released k rr e l1) in *. rewrite slot_here by done.
  assert (Es : exists r', tlsrecs l' !! Z.to_nat (curr_rec l) = Some r').
  { apply lookup_lt_is_Some_2. destruct R3 as [R3 _ _ _ _ _ _]. rewrite R3. apply lookup_lt_Some in Er. destruct Hu as [Hu _ _ _ _ _ _]. lia. }
  destruct Es as (r' & ->). cbn [andb]. rewrite Z.add_0_l.
  assert (Htr : transcript (lower l') = transcript (lower l)).
  { rewrite <- U3, <- Ht. unfold l', released. by destruct ((k =? 0) || (k =? r_length rr)). }
  destruct (k =? 0) eqn:Ek; zbool.
  - left. subst k. rewrite Ek in *. exists l', SSL_NOTHING. split_and!; try done. intros m Hm. apply R4; [symmetry; by apply Hk0|]. by apply U4.
  - right. exists (take (Z.to_nat k) (left_of rr)), l', SSL_NOTHING. split; [done|]. split_and!; try done.
    + intros E2. apply (f_equal length) in E2. rewrite length_take in E2. simpl in E2. lia.
    + rewrite length_take. lia.
Qed.

(** ** The whole call *)

(** Nothing can be read although it is asked for. *)
Definition blocked (l l' : RECORD_LAYER E) : Prop :=
  exists l0 c, same l l0 /\ slots l0 = [] /\ read_record (lower l0) = (ReadCode c, lower l').

Lemma tls_rounds_cases n t13 recvd len l v (s : SSL) : calm s -> usable n l -> handshake_fragment l = [] -> 0 < len ->
  (exists bs l' v', read_rounds n t13 SSL3_RT_HANDSHAKE recvd len false (here l v s)
        = (Ok (Some (1, if recvd then Some SSL3_RT_HANDSHAKE else None, bs)), here l' v' s)
      /\ bs <> [] /\ Z.of_nat (length bs) <= len /\ pending l = bs ++ pending l'
      /\ transcript (lower l') = transcript (lower l) /\ usable n l')
  \/ (exists l' v', read_rounds n t13 SSL3_RT_HANDSHAKE recvd len false (here l v s) = (Ok (Some (-1, None, [])), here l' v' s)
      /\ pending l' = pending l /\ transcript (lower l') = transcript (lower l) /\ usable n l' /\ blocked l l').
Proof.
  intros Hcalm. revert l v. induction n as [|n IH]; intros l v Hu Hh Hlen; [destruct Hu; lia|].
  assert (Est : read_round t13 SSL3_RT_HANDSHAKE recvd len false (here l v s)
    = (ret <~ get_records ;; if ret <=? 0 then returns ret else process_rr t13 SSL3_RT_HANDSHAKE recvd len false) (here l SSL_NOTHING s))
    by done.
  destruct (get_records_cases (S n) l SSL_NOTHING s Hu) as (l1 & v1 & [S1 S2 S3 S4] & [[E1 Hlt]|(E1 & Hno & c & Hr)]);
    rewrite (st_bind_ok _ _ _ _ _ E1) in Est; cbn [Z.leb Z.compare] in Est.
  2: { right. exists l1, v1. cbn [TlsLayer.read_rounds]. rewrite (st_bind_ok _ _ _ _ _ Est). split; [done|].
       split_and!; try done; [by apply S4|]. exists l, c. split; [apply same_refl|done]. }
  destruct (process_current (S n) t13 recvd len l1 v1 s Hcalm (S4 _ Hu)) as [(l2 & v2 & E2 & H2 & P2 & T2 & U2)|(bs & l2 & v2 & E2 & Hbs)];
    [congruence|done|done| |]; rewrite E2 in Est.
  - assert (Hu2 : usable n l2) by by apply U2, S4.
    assert (Hmono : forall x, usable n x -> usable (S n) x) by (intros x [? ? ? ? ? ? ?]; split; try done; lia).
    destruct (IH l2 v2 Hu2 H2 Hlen) as [(bs & l3 & v3 & E3 & ? & ? & P3 & T3 & U3)|(l3 & v3 & E3 & P3 & T3 & U3 & l0 & c & Hs0 & Hn0 & Hr0)].
    + left. exists bs, l3, v3. cbn [TlsLayer.read_rounds]. rewrite (st_bind_ok _ _ _ _ _ Est). split; [exact E3|].
      split_and!; try done; [congruence|congruence|auto].
    + right. exists l3, v3. cbn [TlsLayer.read_rounds]. rewrite (st_bind_ok _ _ _ _ _ Est). split; [exact E3|].
      split_and!; try congruence; [auto|].
      exists l0, c. split; [|done]. destruct Hs0 as [A1 A2 A3 A4]. split; try congruence. intros m Hm.
      apply S4 in Hm. destruct m as [|m]; [destruct Hm; lia|]. apply U2, A4 in Hm. by destruct Hm; split; try done; lia.
  - left. exists bs, l2, v2. cbn [TlsLayer.read_rounds]. rewrite (st_bind_ok _ _ _ _ _ Est). split; [done|].
    destruct Hbs as (? & ? & P2 & T2 & U2). split_and!; try done; congruence.
Qed.

(** Reading as the reader of messages sees it. *)
Definition reader (n : nat) (recvd : bool) (len : Z) (s : SSL) : option (Z * list Z) * SSL :=
  match ssl3_read_bytes handshake_func remove_session n SSL3_RT_HANDSHAKE recvd len false s with
  | (Ok (Some (ret, t, bs)), s) => if 0 <? ret then (Some (default SSL3_RT_HANDSHAKE t, bs), s) else (None, s)
  | (_, s) => (None, s)
  end.

(** The call returns, with bytes or because it has to wait. *)
Lemma tls_reader_cases n recvd len (s : SSL) : calm s -> usable n (rest s) -> 0 < len ->
  (exists bs l' v', reader n recvd len s = (Some (SSL3_RT_HANDSHAKE, bs), here l' v' s)
      /\ bs <> [] /\ Z.of_nat (length bs) <= len /\ pending (rest s) = bs ++ pending l'
      /\ transcript (lower l') = transcript (lower (rest s)) /\ usable n l')
  \/ (exists l' v', reader n recvd len s = (None, here l' v' s)
      /\ ssl3_read_bytes handshake_func remove_session n SSL3_RT_HANDSHAKE recvd len false s = (Ok (Some (-1, None, [])), here l' v' s)
      /\ pending l' = pending (rest s) /\ transcript (lower l') = transcript (lower (rest s)) /\ usable n l' /\ blocked (rest s) l').
Proof.
  intros Hcalm Hu Hlen. set (l := rest s). assert (Hs : s = here l (rwstate s) s) by (by destruct s).
  unfold reader, ssl3_read_bytes. cbn [negb andb orb Z.eqb Pos.eqb]. change (rl_of s) with l.
  destruct (handshake_fragment l) as [|b bs] eqn:Eh.
  - cbn [length Nat.eqb negb]. unfold ossl_statem_get_in_handshake. destruct Hcalm as [Hc1 Hc2].
    rewrite (proj2 (Z.eqb_neq _ _)) by done. cbn [andb].
    destruct (tls_rounds_cases n (SSL_IS_TLS13 s) recvd len l (rwstate s) s (conj Hc1 Hc2) Hu Eh Hlen)
      as [(bs & l' & v' & E1 & Hb)|(l' & v' & E1 & Hb)]; rewrite <- Hs in E1; rewrite E1.
    + left. exists bs, l', v'. split; [|done]. by destruct recvd.
    + right. exists l', v'. done.
  - left. cbn [length Nat.eqb negb]. exists (take (Z.to_nat len) (b :: bs)), (set_handshake_fragment (drop (Z.to_nat len) (b :: bs)) l), (rwstate s).
    split; [rewrite <- Eh; destruct recvd; cbn [Z.ltb Z.compare default]; by destruct s|]. split; [|split; [|split; [|split; [done|]]]].
    + destruct (Z.to_nat len) eqn:E1; [lia|done].
    + rewrite length_take. lia.
    + unfold pending. simpl handshake_fragment. by rewrite Eh, !app_assoc, take_drop.
    + by destruct Hu; split.
Qed.

(** [ssl3_read_bytes] is what the reader of messages relies on. *)
#[export] Instance reader_stream n (s0 : SSL) (Hcalm : calm s0) :
  StreamReader pending (fun l => transcript (lower l)) (frame s0) (usable n) (reader n).
Proof.
  assert (Hc : forall s, sourced (frame s0) (usable n) s -> calm s).
  { intros s [Hf _]. unfold frame in Hf. injection Hf as H1 H2 _ _. unfold calm. by rewrite H1, H2. }
  split.
  - intros recvd len s t bs s' Hlen Hso E1.
    destruct (tls_reader_cases n recvd len s (Hc s Hso) (proj2 Hso) Hlen) as [(bs' & l' & v' & E2 & Hb)|(l' & v' & E2 & _)];
      rewrite E2 in E1; [|done]. injection E1 as <- <- <-. destruct Hb as (? & ? & ? & ? & ?). split_and!; try done.
    exists v', l'. done.
  - intros recvd len s s' Hlen Hso E1.
    destruct (tls_reader_cases n recvd len s (Hc s Hso) (proj2 Hso) Hlen) as [(bs' & l' & v' & E2 & Hb)|(l' & v' & E2 & _ & ? & ? & ? & _)];
      rewrite E2 in E1; [done|]. injection E1 as <-. by exists v', l'.
Qed.

Lemma tls_reader_prompt n (s0 : SSL) : calm s0 -> (forall e c e', holds [] e -> read_record e = (ReadCode c, e') -> feed e = []) ->
  prompt pending (frame s0) (usable n) (reader n).
Proof.
  intros Hcalm Hp recvd len s s' Hlen [Hf Hu] E1. assert (Hc : calm s).
  { unfold frame in Hf. injection Hf as H1 H2 _ _. unfold calm. by rewrite H1, H2. }
  destruct (tls_reader_cases n recvd len s Hc Hu Hlen) as [(bs' & l' & v' & E2 & Hb)|(l' & v' & E2 & _ & _ & _ & _ & l0 & c & Hs0 & Hn0 & Hr)];
    rewrite E2 in E1; [done|].
  assert (Hh : handshake_fragment (rest s) = []).
  { revert E2. unfold reader, ssl3_read_bytes. cbn [negb andb orb Z.eqb Pos.eqb]. change (rl_of s) with (rest s).
    by destruct (handshake_fragment (rest s)). }
  destruct Hs0 as [A1 A2 _ A4]. pose proof (us_holds _ _ (A4 _ Hu)) as Hho. rewrite Hn0 in Hho.
  rewrite <- A2. unfold pending. by rewrite A1, Hh, Hn0, (Hp _ _ _ Hho Hr).
Qed.
End Reading.

(** ** Cutting into records *)

Definition total (lens : list Z) : Z := foldr Z.add 0 lens.

Lemma total_replicate k x : total (replicate k x) = Z.of_nat k * x.
Proof. induction k as [|k IH]; [done|]. simpl in *. unfold total in *. simpl. lia. Qed.

(** The first [remain - j] records are one byte longer than the others. *)
Lemma partial_total k : forall j remain len,
  total (partial_lengths k j remain len)
  = Z.of_nat k * len - (if (j <? remain) && (remain <=? j + Z.of_nat k) then Z.of_nat k - (remain - j) else 0).
Proof.
  induction k as [|k IH]; intros j remain len.
  { simpl. destruct (_ && _) eqn:E1; zbool; lia. }
  cbn [partial_lengths total foldr]. change (foldr Z.add 0 ?x) with (total x). rewrite IH, Nat2Z.inj_succ.
  destruct (j + 1 =? remain) eqn:E0; zbool;
    repeat match goal with |- context [?b && ?c] => destruct (b && c) eqn:?; zbool end; try lia.
Qed.

Lemma partial_bound k x : forall j remain len, 0 <= len <= x -> (j < remain -> remain <= j + Z.of_nat k -> 1 <= len) ->
  (remain <= j \/ remain <= j + Z.of_nat k) ->
  Forall (fun y => 0 <= y <= x) (partial_lengths k j remain len).
Proof.
  induction k as [|k IH]; intros j remain len Hl H1 H2; [constructor|]. cbn [partial_lengths]. constructor; [done|].
  destruct (j + 1 =? remain) eqn:E0; zbool; apply IH; lia.
Qed.

(** The records of one call are a front of what is left, none larger than
    [split]. *)
Lemma portions_spec n m split : 0 < n -> 0 < m -> 0 < split ->
  let '(pend, lens) := portions n m split in
  total lens = pend /\ 0 < pend <= n /\ Forall (fun y => 0 <= y <= split) lens.
Proof.
  intros Hn Hm Hs. unfold portions. pose proof (Z.div_mod n m ltac:(lia)) as Hd. pose proof (Z.mod_pos_bound n m Hm) as Hr.
  pose proof (Z.div_pos n m ltac:(lia) Hm) as Hq.
  destruct (split <=? n / m) eqn:E0; zbool.
  - rewrite total_replicate, Z2Nat.id by lia. split_and!; [lia|nia|nia|]. apply Forall_replicate. lia.
  - rewrite partial_total, Z2Nat.id by lia. destruct (0 <? n `mod` m) eqn:E1; zbool.
    + rewrite (proj2 (Z.leb_le _ _)) by lia. cbn [andb]. split_and!; [lia|lia|lia|]. apply partial_bound; rewrite ?Z2Nat.id; lia.
    + cbn [andb]. split_and!; [lia|lia|lia|]. apply partial_bound; lia.
Qed.

Lemma templates_spec type vers (bs : list Z) lens : forall off, Forall (fun y => 0 <= y) lens -> 0 <= off ->
  off + total lens <= Z.of_nat (length bs) ->
  exists ts, templates type vers bs off lens = Some ts
    /\ concat (map t_buf ts) = take (Z.to_nat (total lens)) (drop (Z.to_nat off) bs)
    /\ Forall2 (fun t y => t_type t = type /\ Z.of_nat (length (t_buf t)) = y) ts lens.
Proof.
  induction lens as [|y lens IH]; intros off Hl Ho Hs; [by exists []|].
  apply Forall_cons in Hl as [Hy Hl]. cbn [total foldr] in Hs. change (foldr Z.add 0 lens) with (total lens) in *.
  assert (Ht : 0 <= total lens) by (clear -Hl; induction Hl as [|z zs Hz _ IH]; [done|]; unfold total in *; simpl; lia).
  cbn [templates]. unfold mem_read. rewrite !(proj2 (Z.leb_le _ _)) by lia. cbn [andb].
  destruct (IH (off + y)) as (ts & -> & E1 & E2); [done|lia|lia|]. eexists. split; [done|]. split.
  - cbn [map concat t_buf]. rewrite E1. cbn [total foldr]. change (foldr Z.add 0 lens) with (total lens).
    rewrite Z2Nat.inj_add by lia. rewrite Z2Nat.inj_add by lia. rewrite <- drop_drop, take_take_drop. done.
  - constructor; [|done]. split; [done|]. cbn [t_buf]. rewrite length_take, length_drop. lia.
Qed.

(** ** Writing *)

Section Writing.
Context {E : Type} `{C : Callees (RECORD_LAYER E)} `{M : RecordMethods E}.
Local Abbreviation SSL := (SSL (RECORD_LAYER E)).
Context (dispatch handshake_func : SSL -> Z * SSL).

(** The records written and those held back, and the transcript.  Writing
    succeeds or has to be tried again, then with the records held back.  The
    layer has to be [sound]; it takes records of at most [limit] bytes, can be
    called [room] more times, and [suits] a type and a version of records. *)
Context (written held : E -> list (Z * list Z)) (transcript : E -> list Z) (sound : E -> Prop) (limit room : E -> Z)
  (suits : Z -> Z -> Prop).
Definition contents_of (ts : list OSSL_RECORD_TEMPLATE) : list (Z * list Z) := map (fun t => (t_type t, t_buf t)) ts.
Definition written_or_held (rs : list (Z * list Z)) (e : E) (res : Z * E) : Prop :=
  transcript (snd res) = transcript e /\ sound (snd res) /\ limit (snd res) = limit e
  /\ ((fst res = OSSL_RECORD_RETURN_SUCCESS /\ written (snd res) = written e ++ rs /\ held (snd res) = [])
      \/ (fst res = OSSL_RECORD_RETURN_RETRY /\ written (snd res) = written e /\ held (snd res) = rs)).
(** The records [ssl3_write_bytes] makes of the [n] bytes at [off], at most [p] at
    a time. *)
Definition cut (type vers n max split p : Z) (bs : list Z) (off : Z) (e : E) (ts : list OSSL_RECORD_TEMPLATE) : Prop :=
  let '(m, split) := get_max_records type n max split e in
  0 < p <= m /\ templates type vers bs off (snd (portions n p split)) = Some ts.
(** Two states that differ in nothing that matters here. *)
Definition alike (e e' : E) : Prop :=
  written e' = written e /\ held e' = held e /\ transcript e' = transcript e /\ limit e' = limit e /\ room e' = room e
  /\ (sound e -> sound e').
Class Writes : Prop := {
  wr_write type vers n max split p bs off ts e : sound e -> held e = [] -> 0 < room e -> suits type vers -> Forall is_byte bs ->
    0 < n -> 0 <= off -> off + n <= Z.of_nat (length bs) -> 0 < split <= max -> max <= limit e -> cut type vers n max split p bs off e ts ->
    let res := write_records ts e in written_or_held (contents_of ts) e res /\ room e - 1 <= room (snd res);
  wr_retry e : sound e -> held e <> [] ->
    let res := retry_write_records e in written_or_held (held e) e res /\ room e <= room (snd res);
  wr_max type n max split e : 0 < n -> 0 < split <= max ->
    0 < fst (get_max_records type n max split e) /\ 0 < snd (get_max_records type n max split e) <= max;
  wr_init l : exists e, rl_set_in_init true l = set_lower e l /\ alike (lower l) e
}.
Context `{!Writes} (type : Z) (fuel : nat).

Definition out (l : RECORD_LAYER E) : list Z := concat (map snd (written (lower l))).
Definition waiting (l : RECORD_LAYER E) : list Z := concat (map snd (held (lower l))).

(** What the writer of messages has been told is written: not the bytes of a
    message that is not complete. *)
Definition accepted (l : RECORD_LAYER E) : list Z := take (length (out l) - Z.to_nat (wnum l)) (out l).

Definition settings (l : RECORD_LAYER E) := (conf l, alert_dispatch l, max_pipelines l, wpend_type l, wpend_buf l, limit (lower l)).

(** Fragments are no larger than the layer takes. *)
Definition fits (l : RECORD_LAYER E) : Prop :=
  max_send_fragment (conf l) <= limit (lower l)
  /\ (1 <= max_fragment_len_mode (conf l) <= 4 -> Z.shiftl 512 (max_fragment_len_mode (conf l) - 1) <= limit (lower l)).

(** After a call that is complete, and after one that is not: [wnum] bytes of
    [bs] are written, [wpend_tot] held back. *)
Definition idle (l : RECORD_LAYER E) : Prop := wpend_tot l = 0 /\ held (lower l) = [].
Definition stopped (acc bs : list Z) (l : RECORD_LAYER E) : Prop :=
  0 <= wnum l /\ 0 < wpend_tot l /\ wnum l + wpend_tot l <= Z.of_nat (length bs)
  /\ out l = acc ++ take (Z.to_nat (wnum l)) bs
  /\ waiting l = take (Z.to_nat (wpend_tot l)) (drop (Z.to_nat (wnum l)) bs).

(** A call that began when [acc] was written. *)
Definition outcome (acc bs : list Z) (l l' : RECORD_LAYER E) (code k : Z) : Prop :=
  transcript (lower l') = transcript (lower l) /\ settings l' = settings l /\ sound (lower l')
  /\ Z.of_nat (length bs) <= room (lower l') + (if code =? 1 then k else wnum l' + wpend_tot l')
  /\ ((code = 1 /\ 0 < k <= Z.of_nat (length bs) /\ out l' = acc ++ take (Z.to_nat k) bs /\ idle l' /\ wnum l' = wnum l)
      \/ (code = -1 /\ stopped acc bs l')).

Lemma outcome_same acc bs l0 l l' code k : outcome acc bs l l' code k -> transcript (lower l) = transcript (lower l0) ->
  settings l = settings l0 -> wnum l = wnum l0 -> outcome acc bs l0 l' code k.
Proof. intros (? & ? & ? & ? & Hc) E1 E2 E3. unfold outcome. rewrite <- E1, <- E2, <- E3. done. Qed.

Lemma handle_written l v (s : SSL) code e :
  ossl_tls_handle_rlayer_return true code (put_lower e (here l v s))
  = (if code =? OSSL_RECORD_RETURN_RETRY then (-1, here (set_lower e l) SSL_WRITING s)
     else ossl_tls_handle_rlayer_return true code (here (set_lower e l) v s)).
Proof. by destruct (code =? OSSL_RECORD_RETURN_RETRY) eqn:E1; unfold ossl_tls_handle_rlayer_return; rewrite ?E1. Qed.

Lemma handle_success l v (s : SSL) :
  ossl_tls_handle_rlayer_return true OSSL_RECORD_RETURN_SUCCESS (here l v s) = (1, here l SSL_NOTHING s).
Proof. done. Qed.

Lemma contents_bytes ts : concat (map snd (contents_of ts)) = concat (map t_buf ts).
Proof. unfold contents_of. by rewrite map_map. Qed.

Lemma max_pipes_ok m l v (s : SSL) : 0 < m -> 0 < max_pipes m (here l v s) <= m.
Proof. intros Hm. unfold max_pipes. repeat (case_match; zbool); lia. Qed.

Lemma loop_spec vers max bs f : forall acc l v (s : SSL) tot n split, held (lower l) = [] -> 0 <= tot ->
  out l = acc ++ take (Z.to_nat tot) bs -> n = Z.of_nat (length bs) - tot -> 0 < n <= Z.of_nat f -> 0 < split <= max ->
  sound (lower l) -> suits type vers -> Forall is_byte bs -> max <= limit (lower l) -> n <= room (lower l) ->
  exists code k l' v', write_loop f type vers max bs tot n split (here l v s) = (Ok (Some (code, k)), here l' v' s)
    /\ outcome acc bs l l' code k.
Proof.
  induction f as [|f IH]; intros acc l v s tot n split Hi2 Htot Hout Hn Hf Hsp Hso Hsu Hby Hlim Hroom; [lia|].
  cbn [write_loop]. change (lower_of (here l v s)) with (lower l).
  pose proof (wr_max type n max split (lower l) ltac:(lia) Hsp) as [Hm Hsp'].
  pose proof (fun p ts => wr_write type vers n max split p bs tot ts (lower l) Hso Hi2 ltac:(lia) Hsu Hby ltac:(lia) Htot ltac:(lia) Hsp Hlim) as Hwr.
  unfold cut in Hwr. destruct (get_max_records type n max split (lower l)) as [m split'] eqn:Eg. cbn [fst snd] in Hm, Hsp'.
  rewrite (proj2 (Z.ltb_ge _ _)) by lia. pose proof (max_pipes_ok m l v s Hm) as Hmp. set (p := max_pipes m (here l v s)) in *.
  rewrite (proj2 (Z.eqb_neq p 0)) by lia. pose proof (portions_spec n p split' ltac:(lia) (proj1 Hmp) ltac:(lia)) as Hpo.
  specialize (Hwr p). destruct (portions n p split') as [pend lens]. destruct Hpo as (Ht & Hp & Hfa).
  destruct (templates_spec type vers bs lens tot) as (ts & Ets & Hb & _);
    [by eapply Forall_impl; [exact Hfa|simpl; lia]|lia|lia|]. rewrite Ets. rewrite Ht in Hb. specialize (Hwr ts (conj Hmp Ets)).
  set (l1 := set_wpend_tot pend l). change (upd_rl (set_wpend_tot pend) (here l v s)) with (here l1 v s).
  destruct Hwr as [(Htr & Hso' & Hlim' & Hw) Hroom']. destruct (write_records ts (lower l)) as [code e]. cbn [fst snd] in *.
  assert (Hset : settings (set_lower e l1) = settings l) by (unfold settings; simpl; by rewrite Hlim').
  rewrite handle_written. destruct Hw as [(-> & Hw & Hh)|(-> & Hw & Hh)].
  - assert (Ho' : out (set_lower e l1) = acc ++ take (Z.to_nat (tot + pend)) bs).
    { unfold out. simpl. rewrite Hw, map_app, concat_app, contents_bytes, Hb. change (concat (map snd (written (lower l)))) with (out l).
      rewrite Hout, <- app_assoc, take_take_drop. do 2 f_equal. lia. }
    cbn [Z.eqb Pos.eqb]. rewrite handle_success. cbn [Z.leb Z.compare]. destruct (_ || _) eqn:Ed.
    + eexists 1, (tot + pend), (set_wpend_tot 0 (set_lower e l1)), _. split; [done|]. split_and!; try done; [simpl; lia|]. left.
      split_and!; try done; lia.
    + apply orb_false_iff in Ed as [Ed _]. zbool.
      destruct (IH acc (set_lower e l1) SSL_NOTHING s (tot + pend) (n - pend) split') as (c & k & l' & v' & E1 & Hoc);
        [done|lia|done|lia|lia|done|done|done|done|simpl; lia|simpl; lia|].
      exists c, k, l', v'. split; [exact E1|]. by eapply outcome_same.
  - eexists (-1), 0, (set_wnum tot (set_lower e l1)), _. split; [done|]. split_and!; try done; [simpl; lia|]. right. split; [done|].
    unfold stopped, out, waiting. simpl. rewrite Hw, Hh, contents_bytes, Hb. split_and!; try done; lia.
Qed.

(** ** The whole call *)

(** The arguments are remembered when the first byte is written. *)
Definition begun (tot buf : Z) (l : RECORD_LAYER E) : RECORD_LAYER E :=
  if tot =? 0 then set_wpend_buf buf (set_wpend_type type (set_wpend_tot 0 l)) else l.

Lemma fits_max l v (s : SSL) : conf_ok (conf l) -> fits l -> ssl_get_max_send_fragment (here l v s) <= limit (lower l).
Proof.
  intros Hco [H1 H2]. unfold ssl_get_max_send_fragment, max_fragment_length. change (rl_of (here l v s)) with l.
  change (session (here l v s)) with (session s).
  assert (H3 : max_send_fragment (conf l) `mod` 2 ^ 32 <= limit (lower l)) by (destruct Hco; pose proof (Z.mod_le (max_send_fragment (conf l)) (2 ^ 32)); lia).
  destruct (session s); [|done]. destruct (_ && _) eqn:E1; [|done]. zbool. apply H2. lia.
Qed.

Lemma write_rest_spec buf bs acc l v (s : SSL) tot : bs <> [] -> conf_ok (conf l) -> alert_dispatch l = 0 -> idle l ->
  0 <= tot <= Z.of_nat (length bs) -> Z.of_nat (length bs) <= SIZE_MAX -> (length bs <= fuel)%nat ->
  out l = acc ++ take (Z.to_nat tot) bs ->
  fits l -> sound (lower l) -> suits type (recversion s) -> Forall is_byte bs -> Z.of_nat (length bs) <= room (lower l) + tot ->
  exists code k l' v', write_rest dispatch fuel type buf bs tot (here l v s) = (Ok (Some (code, k)), here l' v' s)
    /\ outcome acc bs (begun tot buf l) l' code k.
Proof.
  intros Hne Hco Ha [Hi1 Hi2] Htot Hmax Hfuel Hout Hfi Hso Hsu Hby Hroom.
  assert (E1 : write_rest dispatch fuel type buf bs tot (here l v s)
    = (if tot =? Z.of_nat (length bs) then st_ret (Some (1, tot))
       else fun s =>
         let '(i, s) := dispatch_first dispatch s in
         if i <=? 0 then write_fails i tot s
         else
           let max := ssl_get_max_send_fragment s in
           let split := ssl_get_split_send_fragment s in
           if (max =? 0) || (split =? 0) || (max <? split) then write_fatal s
           else write_loop fuel type (recversion s) max bs tot (wrap64 (Z.of_nat (length bs) - tot)) split s)
      (here (begun tot buf l) v s)).
  { unfold write_rest, begun, st_bind, st_put. by destruct (tot =? 0). }
  rewrite E1. assert (Hlb : (0 < length bs)%nat) by (destruct bs; [done|simpl; lia]). set (l1 := begun tot buf l).
  assert (Hl1 : conf l1 = conf l /\ alert_dispatch l1 = 0 /\ lower l1 = lower l /\ wpend_tot l1 = 0) by (unfold l1, begun; destruct (tot =? 0); by split_and!).
  destruct Hl1 as (L1 & L2 & L3 & L4).
  assert (Ho1 : out l1 = acc ++ take (Z.to_nat tot) bs) by (unfold out in *; by rewrite L3).
  destruct (tot =? Z.of_nat (length bs)) eqn:Et; zbool.
  - exists 1, tot, l1, v. split; [done|]. split_and!; try done; [by rewrite L3|rewrite L3; simpl; lia|]. left.
    split_and!; try done; [lia..|]. split; [done|by rewrite L3].
  - unfold dispatch_first. change (rl_of (here l1 v s)) with l1. rewrite L2. cbn [Z.ltb Z.leb Z.compare].
    pose proof (fragment_sizes (here l1 v s)) as Hsz. change (conf (rl_of (here l1 v s))) with (conf l1) in Hsz.
    rewrite L1 in Hsz. specialize (Hsz Hco).
    rewrite (proj2 (Z.eqb_neq _ _)), (proj2 (Z.eqb_neq (ssl_get_split_send_fragment _) 0)), (proj2 (Z.ltb_ge _ _)) by lia.
    cbn [orb]. rewrite wrap64_small by lia. apply loop_spec; try done; rewrite ?L3; try done; try lia.
    rewrite <- L3. apply (fits_max l1 v s); [by rewrite L1|unfold fits; by rewrite L1, L3].
Qed.

Definition ready (off : Z) (msg : list Z) (l : RECORD_LAYER E) : Prop :=
  (conf_ok (conf l) /\ fits l /\ sound (lower l) /\ Forall is_byte msg /\ Z.of_nat (length msg) <= room (lower l) + wnum l + wpend_tot l)
  /\ alert_dispatch l = 0 /\ Z.of_nat (length msg) <= SIZE_MAX /\ (length msg <= fuel)%nat
  /\ ((idle l /\ wnum l = 0) \/ (wpend_type l = type /\ wpend_buf l = off /\ exists acc, stopped acc msg l)).

(** A result that leaves the record layer ready. *)
Definition fine (off : Z) (msg : list Z) (l l' : RECORD_LAYER E) (code k : Z) : Prop :=
  transcript (lower l') = transcript (lower l)
  /\ ((code = 1 /\ 0 < k <= Z.of_nat (length msg) /\ accepted l' = accepted l ++ take (Z.to_nat k) msg
       /\ ready (off + k) (drop (Z.to_nat k) msg) l')
      \/ (code = -1 /\ accepted l' = accepted l /\ ready off msg l')).

Lemma stopped_accepted acc msg l : stopped acc msg l -> accepted l = acc.
Proof.
  intros (H1 & H2 & H3 & H4 & _). unfold accepted. rewrite H4, length_app, length_take.
  apply take_app_length'. lia.
Qed.

(** [l1] is [l] with [wnum] reset and [acc] is what was accepted. *)
Lemma outcome_fine off msg acc l l1 l' code k : ready off msg l -> outcome acc msg l1 l' code k -> accepted l = acc ->
  conf l1 = conf l -> alert_dispatch l1 = 0 -> wpend_type l1 = type -> wpend_buf l1 = off -> wnum l1 = 0 ->
  transcript (lower l1) = transcript (lower l) -> limit (lower l1) = limit (lower l) -> fine off msg l l' code k.
Proof.
  intros ((R1 & Rf & _ & Rb & _) & R2 & R3 & R4 & _) (Ht & Hset & Hso & Hroom & Hc) Ha L1 L2 L3 L4 L5 L6 L7.
  unfold settings in Hset. injection Hset as S1 S2 S3 S4 S5 S6.
  assert (Hf' : conf_ok (conf l') /\ fits l') by (split; [congruence|unfold fits in *; by rewrite S1, S6, L1, L7]). destruct Hf' as [Hco' Hfi'].
  split; [congruence|]. destruct Hc as [(-> & Hk & Ho & Hi & Hw)|(-> & Hst)].
  - left. split_and!; try done; [lia|lia| |].
    + unfold accepted at 1. rewrite Hw, L5, Ho. rewrite take_ge by lia. by rewrite Ha.
    + split_and!; try done; [by apply Forall_drop| |congruence|rewrite length_drop; lia|rewrite length_drop; lia|].
      * destruct Hi as [Hi _]. rewrite Hw, L5, Hi, length_drop. cbn [Z.eqb Pos.eqb] in Hroom. lia.
      * left. split; [done|congruence].
  - right. split_and!; try done; [rewrite Ha; by eapply stopped_accepted|].
    split_and!; try done; [cbn [Z.eqb] in Hroom; lia|congruence|]. right. split_and!; [congruence|congruence|by exists acc].
Qed.

Lemma write_pending_spec off msg l v (s : SSL) : msg <> [] -> ready off msg l -> suits type (recversion s) ->
  exists code k l' v', write_pending dispatch fuel type off msg (wnum l) (here (set_wnum 0 l) v s) = (Ok (Some (code, k)), here l' v' s)
    /\ fine off msg l l' code k.
Proof.
  intros Hne Hr Hsu. pose proof Hr as ((R1 & Rf & Rs & Rb & Rr) & R2 & R3 & R4 & Hcase). set (l0 := set_wnum 0 l). unfold write_pending.
  assert (Hlen : (0 < length msg)%nat) by (destruct msg; [done|simpl; lia]).
  destruct Hcase as [[[Hi1 Hi2] Hw]|(Hty & Hbuf & acc & Hst)].
  - rewrite (st_bind_ok _ _ _ 0 (here l0 v s)).
    2: { unfold tls_write_check_pending. change (rl_of (here l0 v s)) with l0. by rewrite (proj2 (Z.eqb_eq _ _)). }
    cbn [Z.ltb Z.compare]. rewrite Hw.
    destruct (write_rest_spec off msg (out l) l0 v s 0) as (code & k & l' & v' & E1 & Hoc);
      [done|done|done|done|lia|done|done|by rewrite app_nil_r|done|done|done|done|rewrite Hw, Hi1 in Rr; simpl; lia|].
    exists code, k, l', v'. split; [exact E1|]. eapply outcome_fine; try done. unfold accepted. rewrite Hw. by rewrite take_ge by lia.
  - pose proof Hst as (T1 & T2 & T3 & T4 & T5). pose proof (stopped_accepted _ _ _ Hst) as Hacc.
    rewrite (st_bind_ok _ _ _ 1 (here l0 v s)).
    2: { unfold tls_write_check_pending. change (rl_of (here l0 v s)) with l0. change (wpend_tot l0) with (wpend_tot l).
         change (wpend_buf l0) with (wpend_buf l). change (wpend_type l0) with (wpend_type l).
         rewrite (proj2 (Z.eqb_neq _ _)), (proj2 (Z.ltb_ge _ _)), Hbuf, Hty, !Z.eqb_refl by lia. cbn [negb]. by rewrite andb_false_r. }
    cbn [Z.ltb Z.compare]. change (lower_of (here l0 v s)) with (lower l). 
    destruct (wr_retry (lower l) Rs) as [(Htr & Hso' & Hlim & Hw) Hroom'].
    { intros E0. unfold waiting in T5. rewrite E0 in T5. apply (f_equal length) in T5. rewrite length_take, length_drop in T5. simpl in T5. lia. }
    destruct (retry_write_records (lower l)) as [code e]. cbn [fst snd] in *. rewrite handle_written.
    destruct Hw as [(-> & Hw & Hh)|(-> & Hw & Hh)]; cbn [Z.eqb Pos.eqb].
    + rewrite handle_success. cbn [Z.leb Z.compare]. change (wpend_tot (rl_of _)) with (wpend_tot l).
      destruct (write_rest_spec off msg acc (set_wpend_tot 0 (set_lower e l0)) SSL_NOTHING s (wnum l + wpend_tot l))
        as (code & k & l' & v' & E1 & Hoc); try done; [lia| |unfold fits in *; simpl; by rewrite Hlim|simpl; lia|].
      { unfold out. simpl. rewrite Hw, map_app, concat_app. fold (out l). fold (waiting l).
        rewrite T4, T5, <- app_assoc, take_take_drop. do 2 f_equal. lia. }
      exists code, k, l', v'. split; [exact E1|]. eapply outcome_fine; try done; unfold begun; by rewrite (proj2 (Z.eqb_neq _ _)) by lia.
    + cbn [Z.leb Z.compare]. eexists (-1), 0, (set_wnum (wnum l) (set_lower e l0)), _. split; [done|]. split; [done|]. right.
      assert (Hst' : stopped acc msg (set_wnum (wnum l) (set_lower e l0))).
      { unfold stopped, out, waiting. simpl. by rewrite Hw, Hh. }
      split_and!; try done; [rewrite Hacc; by eapply stopped_accepted|].
      split_and!; try done; [unfold fits in *; simpl; by rewrite Hlim|simpl; lia|]. right. split_and!; try done. by exists acc.
Qed.

(** What the connection has to be like: in a handshake that is not about to send
    early data, and at a version that suits the layer. *)
Definition busy (s : SSL) : Prop :=
  in_init (statem s) = true /\ in_handshake (statem s) <> 0 /\ early_data_state s <> SSL_EARLY_DATA_WRITING
  /\ forall s' : SSL, frame s' = frame s -> suits type (recversion s').

Lemma set_in_init_here l v (s : SSL) : in_init (statem s) = true ->
  ossl_statem_set_in_init true (here l v s) = here (rl_set_in_init true l) v s.
Proof. destruct s as [st]. destruct st. simpl. by intros ->. Qed.

(** Setting [in_init] again changes nothing that matters here. *)
Lemma due_here l v (s : SSL) : in_init (statem s) = true ->
  exists e, (if (wpend_tot (rl_of (here l v s)) =? 0)
               && (negb (key_update (here l v s) =? SSL_KEY_UPDATE_NONE) || (0 <? extra_tickets_expected (ext (here l v s))))
             then ossl_statem_set_in_init true (here l v s) else here l v s) = here (set_lower e l) v s
    /\ alike (lower l) e.
Proof.
  intros Hi. destruct (_ && _).
  - destruct (wr_init l) as (e & E1 & He). exists e. split; [|done]. by rewrite set_in_init_here, E1.
  - exists (lower l). by destruct l.
Qed.

Lemma ready_lower off msg l e : alike (lower l) e -> ready off msg l ->
  ready off msg (set_lower e l) /\ accepted (set_lower e l) = accepted l.
Proof.
  intros (Hw & Hh & _ & Hli & Hro & Hso) ((R1 & Rf & Rs & Rb & Rr) & R2 & R3 & R4 & R5). split; [|unfold accepted, out; simpl; by rewrite Hw].
  split_and!; try done; [unfold fits in *; simpl; by rewrite Hli|by apply Hso|simpl; by rewrite Hro|]. destruct R5 as [[[Hi1 Hi2] Hi3]|(T1 & T2 & acc & T3)].
  - left. split; [|done]. split; [done|]. by rewrite <- Hi2.
  - right. split_and!; try done. exists acc. unfold stopped, out, waiting in *. simpl. by rewrite Hw, Hh.
Qed.

Local Abbreviation write_bytes := (ssl3_write_bytes dispatch handshake_func fuel type).

(** The call returns: the message, or a front of it in the mode for partial
    writes, is written; or it is to be called again. *)
Lemma tls_write_bytes_spec msg (s : SSL) : busy s -> msg <> [] -> ready (init_off s) msg (rest s) ->
  exists code k l' v', write_bytes (init_off s) msg s = (Ok (Some (code, k)), here l' v' s)
    /\ fine (init_off s) msg (rest s) l' code k.
Proof.
  intros (B1 & B2 & B3 & B4) Hne Hr. set (l := rest s) in *. set (off := init_off s) in *. unfold ssl3_write_bytes.
  change (set_rwstate SSL_NOTHING s) with (here l SSL_NOTHING s) || (replace (set_rwstate SSL_NOTHING s) with (here l SSL_NOTHING s) by (by destruct s)).
  change (rl_of (here l SSL_NOTHING s)) with l. change (early_data_state (here l SSL_NOTHING s)) with (early_data_state s).
  assert (Hch : (Z.of_nat (length msg) <? wnum l)
                || (negb (wpend_tot l =? 0) && (Z.of_nat (length msg) <? wrap64 (wnum l + wpend_tot l))) = false).
  { destruct Hr as (_ & _ & Hm & _ & [[[Hi1 _] Hi3]|(_ & _ & acc & (T1 & T2 & T3 & _))]).
    - rewrite Hi1, Hi3. cbn [Z.eqb negb andb]. rewrite orb_false_r. apply Z.ltb_ge. lia.
    - rewrite wrap64_small by lia. apply orb_false_iff. split; [apply Z.ltb_ge; lia|].
      apply andb_false_iff. right. apply Z.ltb_ge. lia. }
  rewrite Hch, bool_decide_eq_false_2 by done. unfold st_bind at 1, st_ret at 1. cbn [negb]. unfold st_bind at 1, st_put at 1.
  change (upd_rl (set_wnum 0) (here l SSL_NOTHING s)) with (here (set_wnum 0 l) SSL_NOTHING s).
  unfold write_handshake. destruct (due_here (set_wnum 0 l) SSL_NOTHING s B1) as (e & -> & He).
  unfold ossl_statem_get_in_handshake. change (in_handshake _) with (in_handshake (statem s)).
  rewrite (proj2 (Z.eqb_neq _ _)), andb_false_r by done. cbn [andb].
  destruct (ready_lower off msg l e He Hr) as [Hr' Ha].
  destruct (write_pending_spec off msg (set_lower e l) SSL_NOTHING s Hne Hr' (B4 s eq_refl)) as (code & k & l' & v' & E1 & Ht & Hf).
  exists code, k, l', v'. split; [exact E1|]. rewrite Ha in Hf. split; [|done]. rewrite Ht. apply He.
Qed.

(** Writing as the writer of messages sees it. *)
Definition writer (type : Z) (msg : list Z) (s : SSL) : Z * Z * SSL :=
  match ssl3_write_bytes dispatch handshake_func fuel type (init_off s) msg s with
  | (Ok (Some (ret, n)), s) => (ret, n, s)
  | (_, s) => (-1, 0, s)
  end.

#[export] Instance writer_stream (s0 : SSL) (Hbusy : busy s0) :
  StreamWriter accepted (fun l => transcript (lower l)) type (frame s0) ready writer.
Proof.
  split. intros msg s ret n s' Hne [Hf Hr] E1. left. pose proof Hf as Hf'. injection Hf' as F1 F2 F3 F4.
  assert (Hb : busy s).
  { destruct Hbusy as (B1 & B2 & B3 & B4). unfold busy. rewrite F1, F3. split_and!; try done. intros s'' Hs. apply B4. by rewrite Hs. }
  destruct (tls_write_bytes_spec msg s Hb Hne Hr) as (code & k & l' & v' & E2 & Ht & Hfine). unfold writer in E1. rewrite E2 in E1.
  injection E1 as <- <- <-. exists v', l'. split; [done|]. unfold took.
  destruct Hfine as [(-> & Hk & Ha & Hr')|(-> & Ha & Hr')]; cbn [Z.leb Z.compare].
  - split_and!; try done; lia.
  - by rewrite app_nil_r.
Qed.
End Writing.

(** ** Both sides *)

Section Both.
Context {E1 E2 : Type} `{C1 : Callees (RECORD_LAYER E1)} `{C2 : Callees (RECORD_LAYER E2)} `{L : Libc} {LO : LibcOk L}
  `{M1 : RecordMethods E1} `{M2 : RecordMethods E2}.
Local Abbreviation SSL1 := (SSL (RECORD_LAYER E1)).
Local Abbreviation SSL2 := (SSL (RECORD_LAYER E2)).

(** The sender; over QUIC it would write with [add]. *)
Context (dispatch handshake_func : SSL1 -> Z * SSL1) (add : Z -> list Z -> SSL1 -> bool * SSL1)
  (written held : E1 -> list (Z * list Z)) (transcript : E1 -> list Z) (sound : E1 -> Prop) (limit room : E1 -> Z)
  (suits : Z -> Z -> Prop) `{HW : !Writes written held transcript sound limit room suits} (type : Z) (fuel : nat).
Local Abbreviation accepted := (accepted written).
Local Abbreviation transcript_of := (fun l => transcript (lower l)).
Local Abbreviation ready := (ready written held sound limit room type fuel).
Local Abbreviation busy := (busy suits type).
Context `{HQ : !QuicWriter accepted transcript_of ready add}
  (finish_mac : list Z -> ST SSL1 unit) (callback : list Z -> RECORD_LAYER E1 -> RECORD_LAYER E1)
  (Hfinish : forall m off rem, appends accepted transcript_of (ready off rem) (finish_mac m) m)
  (Hcb : forall m l, accepted (callback m l) = accepted l /\ transcript_of (callback m l) = transcript_of l
           /\ (forall off rem, ready off rem l -> ready off rem (callback m l))).
Local Abbreviation writes := (writes type (writer dispatch handshake_func fuel) add finish_mac callback).

(** The receiver. *)
Context (handshake_func' : SSL2 -> Z * SSL2) (remove_session : SSL2 -> SSL2)
  (feed : E2 -> list TLS_RECORD) (transcript' : E2 -> list Z) (holds : list (option Z * Z) -> E2 -> Prop)
  `{HF : !Feeds feed transcript' holds}
  (Hprompt : forall e c e', holds [] e -> read_record e = (ReadCode c, e') -> feed e = []) (n : nat).
Local Abbreviation usable := (usable feed holds).
Local Abbreviation transcript_of' := (fun l => transcript' (lower l)).
Local Abbreviation read := (reader handshake_func' remove_session n).
Context (is_v2 : RECORD_LAYER E2 -> bool) (rec_len : RECORD_LAYER E2 -> Z)
  (callback' : list Z -> RECORD_LAYER E2 -> RECORD_LAYER E2) (take_mac : ST SSL2 unit) (finish_mac' : list Z -> ST SSL2 unit)
  (Hv2 : forall l, is_v2 l = false)
  (Hcb' : forall m l, pending feed (callback' m l) = pending feed l /\ transcript_of' (callback' m l) = transcript_of' l
            /\ (usable n l -> usable n (callback' m l)))
  (Htake : appends (pending feed) transcript_of' (usable n) take_mac [])
  (Hfinish' : forall m, appends (pending feed) transcript_of' (usable n) (finish_mac' m) m).

(** Once a message is written, the record layer has written exactly it. *)
Lemma written_message m (s s' : SSL1) : busy s -> wnum (rest s) = 0 ->
  to_write (frame s) ready m s -> writes s s' ->
  out written (rest s') = out written (rest s) ++ m /\ transcript_of (rest s') = transcript_of (rest s) ++ noted type s m.
Proof.
  intros Hb H0 Ht Hw. pose proof (writer_stream dispatch handshake_func written held transcript sound limit room suits type fuel s Hb) as Hsw.
  destruct (writes_all accepted transcript_of type (frame s) ready _ add finish_mac callback Hfinish Hcb s s' Hw m Ht)
    as ((Ha & Htr & _) & _ & off & Hr).
  split; [|done]. destruct Hr as (_ & _ & _ & _ & [[_ H1]|(_ & _ & acc & ? & ? & H2 & _)]); [|simpl in H2; lia].
  unfold TlsStack.accepted in Ha. rewrite H0, H1, !Nat.sub_0_r, !take_ge in Ha by lia. done.
Qed.

End Both.

(** ** An example *)

Definition pipe_mac (m : list Z) : ST (SSL (RECORD_LAYER pipe)) unit := fun s =>
  (Ok tt, upd_rest (fun l => set_lower (let e := lower l in
             mkPIPE (p_in e) (p_out e) (p_held e) (p_takes e) (p_transcript e ++ m)) l) s).

(** A pipe makes no conditions. *)
Definition pipe_sound (e : pipe) : Prop := True.
Definition pipe_limit (e : pipe) : Z := 2 ^ 32.
Definition pipe_suits (type vers : Z) : Prop := True.
Definition pipe_holds (hs : list (option Z * Z)) (e : pipe) : Prop := True.

#[local] Instance pipe_writes : Writes p_out p_held p_transcript pipe_sound pipe_limit pipe_limit pipe_suits.
Proof.
  assert (Hp : forall rs e, written_or_held p_out p_held p_transcript pipe_sound pipe_limit rs e (pipe_write rs e)).
  { intros rs e. unfold written_or_held, pipe_write. destruct (p_takes e) as [|[] k]; cbn; unfold pipe_sound; auto 10. }
  split; [intros; split; [apply Hp|done]..|done|]. intros l. exists (lower l). split; [by destruct l|done].
Qed.

#[local] Instance pipe_feeds : Feeds p_in p_transcript pipe_holds.
Proof.
  split; try done.
  - intros hs e r e' _ _. cbn. destruct (p_in e) eqn:E1; [done|]. by intros [= <- <-].
  - intros e c e' _. cbn. destruct (p_in e) eqn:E1; [|done]. by intros [= <- <-].
  - intros hs e _. cbn. destruct (p_in e); [done|]. intros _. by eexists _, _.
Qed.

Definition no_quic (level : Z) (m : list Z) (s : SSL (RECORD_LAYER pipe)) : bool * SSL (RECORD_LAYER pipe) := (false, s).

(** A ClientHello (of eighteen bytes, for the example) is written in records of
    at most four bytes, two at a time; the second two are not taken at once. *)
Definition hello : list Z := [1; 0; 0; 14; 7; 8; 9; 10; 11; 12; 13; 14; 15; 16; 17; 18; 19; 20].
Definition pipe_sender : SSL (RECORD_LAYER pipe) :=
  upd_st (set_in_handshake 1)
    (set_init_num 18 (set_init_buf (Some (mkBUF_MEM 18 (Some hello) 18 0)) (pipe_conn TLS_ST_CW_CLNT_HELLO TLS1_2_VERSION [] [true; false; false]))).
Definition pipe_do_write := ssl3_do_write (writer (E := pipe) (fun s => (1, s)) no_handshake 100) no_quic pipe_mac (fun _ l => l) SSL3_RT_HANDSHAKE.
Definition pipe_sent_1 := snd (pipe_do_write pipe_sender).
Definition pipe_sent_2 := snd (pipe_do_write pipe_sent_1).
Definition pipe_sent_3 := snd (pipe_do_write pipe_sent_2).
Definition pipe_records : list (Z * list Z) := p_out (lower (rest pipe_sent_3)).

(** The other side, where the same bytes arrive in other records, one of them
    empty, and with two more bytes. *)
Definition pipe_receiver : SSL (RECORD_LAYER pipe) :=
  upd_st (set_in_handshake 1)
    (set_init_buf (Some (mkBUF_MEM 4 (Some [5; 5; 5; 5]) 4 0))
       (as_server (pipe_conn TLS_ST_BEFORE TLS1_2_VERSION
          (map (fun d => pipe_record TLS1_VERSION SSL3_RT_HANDSHAKE d)
             ([[1; 0]; []; [0; 14; 7; 8; 9; 10; 11; 12]; [13; 14; 15; 16; 17; 18; 19; 20; 21; 22]])) []))).

Lemma pipe_written :
  writes SSL3_RT_HANDSHAKE (writer (E := pipe) (fun s => (1, s)) no_handshake 100) no_quic pipe_mac (fun _ l => l) pipe_sender pipe_sent_3.
Proof.
  eapply writes_again; [vm_compute; reflexivity|right; split; [done|vm_compute; discriminate]|].
  eapply writes_again; [vm_compute; reflexivity|right; split; [done|vm_compute; discriminate]|].
  apply writes_done. vm_compute. reflexivity.
Qed.

Lemma pipe_ready : to_write (frame pipe_sender) (ready p_out p_held pipe_sound pipe_limit pipe_limit SSL3_RT_HANDSHAKE 100) hello pipe_sender.
Proof.
  split; [done|]. split; [done|]. split; [done|]. split_and!; try done; [|simpl; lia|].
  - repeat constructor; done.
  - left. by split; [split|].
Qed.

Lemma pipe_buffered : buffered (pending p_in) (frame pipe_receiver) (usable p_in pipe_holds 10) H4 (init_num pipe_receiver)
  (concat (map snd pipe_records) ++ [21; 22]) pipe_receiver.
Proof.
  exists (mkBUF_MEM 4 (Some [5; 5; 5; 5]) 4 0). split_and!; try done.
  - split; [done|]. split; [done|]. repeat constructor; done.
  - split; [done|]. split; try done; [|vm_compute; lia].
    repeat constructor; (eexists _, _; split_and!; reflexivity || done).
Qed.

Lemma pipe_appends m off rem : appends (accepted p_out) (fun l => p_transcript (lower l)) (ready p_out p_held pipe_sound pipe_limit pipe_limit SSL3_RT_HANDSHAKE 100 off rem) (pipe_mac m) m.
Proof. intros s. left. eexists. split; [reflexivity|]. by split_and!. Qed.

Lemma pipe_appends' m : appends (pending p_in) (fun l => p_transcript (lower l)) (usable p_in pipe_holds 10) (pipe_mac m) m.
Proof. intros s. left. eexists. split; [reflexivity|]. split_and!; try done. by intros [? ? ? ? ? ? ?]. Qed.

Lemma pipe_prompt (e : pipe) c e' : pipe_holds [] e -> read_record e = (ReadCode c, e') -> p_in e = [].
Proof. intros _. cbn. by destruct (p_in e). Qed.

#[local] Instance no_quic_writer : QuicWriter (accepted p_out) (fun l => p_transcript (lower l)) (ready p_out p_held pipe_sound pipe_limit pipe_limit SSL3_RT_HANDSHAKE 100) no_quic.
Proof.
  split. intros level m s ok s' [= <- <-]. exists (rest s). split; [by destruct s|]. split; [by split; [rewrite app_nil_r|]|]. done.
Qed.

End TlsStack.
