(* ===== verification/TlsCrypt.v ===== *)
(** * Protection of TLS 1.3 records

    [tls13_cipher] of ssl/record/methods/tls13_meth.c and the sequence number
    ([tls_increment_sequence_ctr] of tls_common.c), over an arbitrary
    authenticated cipher behind the interface of EVP: the nonces, what is sealed
    is opened again, and what is opened was sealed. *)

From stdpp Require Import prelude list.
From Stdlib Require Import ZArith Lia ZifyBool.
From S2P Require Import Prelude Buffer WPacket WPacketSpec WPacketRun RecordTypes RecordRead DtlsRecord DtlsReplay.

Local Open Scope Z_scope.
Local Open Scope st_scope.

Module TlsCrypt.

Abbreviation SEQ_NUM_SIZE := (8)%Z.
Abbreviation EVP_CIPH_CCM_MODE := (7)%Z.

(** ** The sequence number *)

(** The loop from the last byte to the first: the new number, and whether the
    loop was left before the first byte. *)
Fixpoint sequence_loop (i : nat) (seq : list Z) : list Z * bool :=
  match i with
  | O => (seq, false)
  | S i =>
      let v := (default 0 (seq !! i) + 1) `mod` 256 in
      let seq := <[i := v]> seq in
      if v =? 0 then sequence_loop i seq else (seq, true)
  end.

Definition tls_increment_sequence_ctr (seq : list Z) : list Z * bool := sequence_loop 8 seq.

(** ** The cipher *)

(** The calls of EVP on a context [K].  A call that is not positive has failed.
    What [EVP_CipherUpdate] and [EVP_CipherFinal_ex] store is returned. *)
Class EVP (K : Type) : Type := {
  (* the mode of [EVP_CIPHER_CTX_get0_cipher]; [None] is [NULL] *)
  get0_cipher : K -> option Z;
  get_iv_length : K -> Z;
  EVP_CipherInit_iv : K -> list Z -> bool -> Z * K;
  ctrl_set_tag : K -> list Z -> Z * K;
  ctrl_get_tag : K -> Z -> Z * list Z * K;
  EVP_CipherUpdate_length : K -> Z -> Z * K;
  EVP_CipherUpdate_aad : K -> list Z -> Z * K;
  EVP_CipherUpdate : K -> list Z -> Z * list Z * K;
  EVP_CipherFinal_ex : K -> Z * list Z * K
}.

(** What [tls13_cipher] changes: fields of the layer, the length of the record,
    and the memory the record is in. *)
Record CIPHERING (K : Type) : Type := mkCIPHERING {
  c_sequence : list Z;
  c_alert : Z;
  c_ctx : option K;
  c_mem : list Z;
  c_length : Z
}.
Arguments mkCIPHERING {K}.
Arguments c_sequence {K} _.
Arguments c_alert {K} _.
Arguments c_ctx {K} _.
Arguments c_mem {K} _.
Arguments c_length {K} _.

Section Cipher.
Context `{L : Libc} {K : Type} `{!EVP K}.
Local Abbreviation C := (CIPHERING K).

Definition set_c_sequence (v : list Z) (c : C) : C := mkCIPHERING v (c_alert c) (c_ctx c) (c_mem c) (c_length c).
Definition set_c_alert (v : Z) (c : C) : C := mkCIPHERING (c_sequence c) v (c_ctx c) (c_mem c) (c_length c).
Definition set_c_ctx (v : K) (c : C) : C := mkCIPHERING (c_sequence c) (c_alert c) (Some v) (c_mem c) (c_length c).
Definition set_c_mem (v : list Z) (c : C) : C := mkCIPHERING (c_sequence c) (c_alert c) (c_ctx c) v (c_length c).
Definition set_c_length (v : Z) (c : C) : C := mkCIPHERING (c_sequence c) (c_alert c) (c_ctx c) (c_mem c) v.

(** [RLAYERfatal(rl, SSL_AD_INTERNAL_ERROR, ...); return 0;] *)
Definition internal_error {A} : ST C A := fun c => (Fail, set_c_alert SSL_AD_INTERNAL_ERROR c).

Definition c_read (o n : Z) : ST C (list Z) := fun c =>
  match mem_read (c_mem c) o n with Some bs => (Ok bs, c) | None => (Fault, c) end.
Definition c_write (o : Z) (bs : list Z) : ST C unit := fun c =>
  match mem_write (c_mem c) o bs with Some m => (Ok tt, set_c_mem m c) | None => (Fault, c) end.

(** A call of EVP, and what happens when it fails. *)
Definition evp {A} (call : K -> Z * A * K) (failed : ST C A) : ST C A := fun c =>
  match c_ctx c with
  | None => (Fault, c)
  | Some k =>
      let '(i, a, k) := call k in
      let c := set_c_ctx k c in
      if i <=? 0 then failed c else (Ok a, c)
  end.
Definition evp_ (call : K -> Z * K) (failed : ST C unit) : ST C unit :=
  evp (fun k => let '(i, k) := call k in (i, tt, k)) failed.

(** The additional data: the header of the record as it is on the wire. *)
Definition recheader_of (type version len : Z) : option (list Z) :=
  match (WPACKET_init_static_len (replicate 5 0) 0 ;;;
         WPACKET_put_bytes__ type 1 ;;; WPACKET_put_bytes__ version 2 ;;; WPACKET_put_bytes__ len 2 ;;;
         hdrlen <~ WPACKET_get_total_written ;;
         st_guard (fun _ => hdrlen =? SSL3_RT_HEADER_LENGTH) ;;;
         WPACKET_finish) (mkWPACKET None None 0 0 0 [] false) with
  | (Ok _, p) => staticbuf p
  | _ => None
  end.

(** The nonce: the static IV with the sequence number added to its end. *)
Definition nonce_of (staticiv seq : list Z) (ivlen : Z) : option (list Z) :=
  let offset := ivlen - SEQ_NUM_SIZE in
  match mem_read staticiv 0 offset, mem_read staticiv offset SEQ_NUM_SIZE with
  | Some a, Some b => Some (a ++ zip_with Z.lxor b seq)
  | _, _ => None
  end.

(** [rec->data] and [rec->input] are the offsets [data] and [input] in the
    memory. *)
Definition tls13_cipher (staticiv : list Z) (taglen type version data input n_recs : Z) (sending : bool)
    : ST C unit := fun c =>
  if negb (n_recs =? 1) then internal_error c
  else match c_ctx c with
  | None => internal_error c
  | Some k =>
      match get0_cipher k with
      | None => internal_error c
      | Some mode =>
          if type =? SSL3_RT_ALERT then (bs <~ c_read input (c_length c) ;; c_write data bs) c
          else
            let ivlen := get_iv_length k in
            if negb sending && (c_length c <? taglen + 1) then (Fail, c)
            else
              let c := if sending then c else set_c_length (c_length c - taglen) c in
              if ivlen <? SEQ_NUM_SIZE then internal_error c
              else match nonce_of staticiv (c_sequence c) ivlen with
              | None => (Fault, c)
              | Some iv =>
                  let '(seq, ok) := tls_increment_sequence_ctr (c_sequence c) in
                  let c := set_c_sequence seq c in
                  let length := c_length c in
                  if negb ok then internal_error c
                  else
                    (evp_ (fun k => EVP_CipherInit_iv k iv sending) internal_error ;;;
                     (if sending then st_ret tt
                      else tag <~ c_read (data + length) taglen ;;
                           evp_ (fun k => ctrl_set_tag k tag) internal_error) ;;;
                     match recheader_of type version (length + taglen) with
                     | None => internal_error
                     | Some recheader =>
                         (if mode =? EVP_CIPH_CCM_MODE
                          then evp_ (fun k => EVP_CipherUpdate_length k (length `mod` 2 ^ 32)) st_fail else st_ret tt) ;;;
                         evp_ (fun k => EVP_CipherUpdate_aad k recheader) st_fail ;;;
                         bs <~ c_read input length ;;
                         out <~ evp (fun k => EVP_CipherUpdate k bs) st_fail ;;
                         c_write data out ;;;
                         fin <~ evp EVP_CipherFinal_ex st_fail ;;
                         c_write (data + Z.of_nat (List.length out)) fin ;;;
                         if negb (Z.of_nat (List.length out) + Z.of_nat (List.length fin) =? length) then st_fail
                         else if sending then
                           tag <~ evp (fun k => ctrl_get_tag k taglen) internal_error ;;
                           c_write (data + length) tag ;;;
                           st_put (set_c_length (length + taglen))
                         else st_ret tt
                     end) c
              end
      end
  end.
End Cipher.

(** ** Sequence numbers and nonces *)

Lemma sequence_loop_spec (p s : list Z) : Forall is_byte p ->
  exists p', sequence_loop (length p) (p ++ s) = (p' ++ s, negb (be_val p + 1 =? 256 ^ Z.of_nat (length p)))
    /\ length p' = length p /\ Forall is_byte p' /\ be_val p' = (be_val p + 1) `mod` 256 ^ Z.of_nat (length p).
Proof.
  revert s. induction p as [|b p IH] using rev_ind; intros s Hp; [by exists []|].
  apply Forall_app in Hp as [Hp Hb]. apply Forall_cons in Hb as [Hb _]. unfold is_byte in Hb.
  pose proof (be_val_range p Hp) as Hr.
  rewrite length_app, Nat.add_1_r, Nat2Z.inj_succ, Z.pow_succ_r, be_val_snoc by lia. simpl.
  rewrite <- (assoc_L (++)). simpl. rewrite lookup_app_r, Nat.sub_diag by lia. simpl.
  rewrite insert_app_r_alt, Nat.sub_diag by lia. simpl.
  destruct ((b + 1) `mod` 256 =? 0) eqn:E; zbool.
  - assert (b = 255) as -> by (destruct (decide (b = 255)); [done|rewrite Z.mod_small in E; lia]).
    destruct (IH (0 :: s) Hp) as (p' & E' & Hl & Hp' & Hv). rewrite E in *. rewrite E'.
    exists (p' ++ [0]). rewrite <- (assoc_L (++)), length_app, be_val_snoc, Hl. simpl.
    split; [f_equal; f_equal; apply eq_true_iff_eq; rewrite !Z.eqb_eq; lia|]. split; [lia|].
    split; [apply Forall_app; split; [done|repeat constructor]; unfold is_byte; lia|].
    rewrite Hv. replace (be_val p * 256 + 255 + 1) with (256 * (be_val p + 1)) by lia.
    rewrite Zmult_mod_distr_l. lia.
  - assert (Hb' : b <> 255) by (by intros ->). rewrite (Z.mod_small (b + 1)) by lia. exists (p ++ [b + 1]). rewrite <- (assoc_L (++)), be_val_snoc, length_app. simpl.
    split; [f_equal; symmetry; apply negb_true_iff, Z.eqb_neq; lia|]. split; [lia|].
    split; [apply Forall_app; split; [done|repeat constructor]; unfold is_byte; lia|].
    rewrite Z.mod_small; lia.
Qed.

(** The number goes up by one, until it would wrap around. *)
Lemma increment_spec seq : seq_ok seq -> exists seq', tls_increment_sequence_ctr seq = (seq', be_val seq <? 2 ^ 64 - 1)
  /\ seq_ok seq' /\ be_val seq' = (be_val seq + 1) `mod` 2 ^ 64.
Proof.
  intros Hs. pose proof (seq_range seq Hs) as Hr. destruct Hs as [Hl Hb].
  destruct (sequence_loop_spec seq [] Hb) as (s & E & Hl' & Hb' & Hv). rewrite Hl in *. change (256 ^ Z.of_nat 8) with (2 ^ 64) in *. rewrite !app_nil_r in E.
  exists s. unfold tls_increment_sequence_ctr. rewrite E. split; [f_equal; lia|]. by split.
Qed.

Lemma lxor_inj (a b c : list Z) : length b = length a -> length c = length a ->
  zip_with Z.lxor a b = zip_with Z.lxor a c -> b = c.
Proof.
  revert b c. induction a as [|x a IH]; intros [|y b] [|z c] Hb Hc E; try done. simpl in *. simplify_eq.
  f_equal; [|apply IH; (done || lia)].
  rewrite <- (Z.lxor_0_l y), <- (Z.lxor_0_l z), <- (Z.lxor_nilpotent x), !Z.lxor_assoc. congruence.
Qed.

(** Different sequence numbers give different nonces. *)
Lemma nonce_inj iv ivlen seq seq' n : length seq = 8%nat -> length seq' = 8%nat ->
  nonce_of iv seq ivlen = Some n -> nonce_of iv seq' ivlen = Some n -> seq = seq'.
Proof.
  unfold nonce_of. intros Hl Hl'. destruct (mem_read iv 0 (ivlen - 8)) as [a|]; [|done].
  destruct (mem_read iv (ivlen - 8) 8) as [b|] eqn:Eb; [|done]. intros [= <-] [= E]. apply app_inv_head in E.
  unfold mem_read in Eb. destruct (_ && _) eqn:Ec in Eb; [|done]. zbool. injection Eb as <-.
  eapply lxor_inj; [| |symmetry; exact E]; rewrite length_take, length_drop; lia.
Qed.

Lemma length_nonce iv ivlen seq n : length seq = 8%nat -> 8 <= ivlen ->
  nonce_of iv seq ivlen = Some n -> Z.of_nat (length n) = ivlen.
Proof.
  unfold nonce_of, mem_read. intros Hl Hi. repeat case_match; intros [= <-]; simplify_eq. zbool.
  rewrite length_app, length_zip_with, !length_take, !length_drop. lia.
Qed.

Lemma nonce_some iv ivlen seq : 8 <= ivlen <= Z.of_nat (length iv) -> is_Some (nonce_of iv seq ivlen).
Proof.
  intros Hi. unfold nonce_of, mem_read. rewrite !(proj2 (Z.leb_le _ _)) by lia. simpl. by eexists.
Qed.

(** *** Contexts that record the nonces they are used with *)

Definition logged (K : Type) : Type := K * list (list Z).

Definition on_ctx {K A} (f : K -> A * K) (k : logged K) : A * logged K :=
  let '(a, k') := f (fst k) in (a, (k', snd k)).

#[local] Instance evp_logged K `{!EVP K} : EVP (logged K) := {
  get0_cipher k := get0_cipher (fst k);
  get_iv_length k := get_iv_length (fst k);
  EVP_CipherInit_iv k iv enc := let '(i, k') := EVP_CipherInit_iv (fst k) iv enc in (i, (k', snd k ++ [iv]));
  ctrl_set_tag k t := on_ctx (fun k => ctrl_set_tag k t) k;
  ctrl_get_tag k n := on_ctx (fun k => ctrl_get_tag k n) k;
  EVP_CipherUpdate_length k n := on_ctx (fun k => EVP_CipherUpdate_length k n) k;
  EVP_CipherUpdate_aad k bs := on_ctx (fun k => EVP_CipherUpdate_aad k bs) k;
  EVP_CipherUpdate k bs := on_ctx (fun k => EVP_CipherUpdate k bs) k;
  EVP_CipherFinal_ex k := on_ctx EVP_CipherFinal_ex k
}.

Section Nonces.
Context `{L : Libc} {K : Type} `{!EVP K}.
Local Abbreviation C := (CIPHERING (logged K)).

Definition log_of (c : C) : list (list Z) := match c_ctx c with Some k => snd k | None => [] end.

(** Leaves the sequence number and the log alone. *)
Definition calm {A} (m : ST C A) : Prop :=
  forall c, c_sequence (snd (m c)) = c_sequence c /\ log_of (snd (m c)) = log_of c.

Lemma calm_ret {A} (a : A) : calm (st_ret a).
Proof. done. Qed.
Lemma calm_fail {A} : calm (A := A) st_fail.
Proof. done. Qed.
Lemma calm_error {A} : calm (A := A) internal_error.
Proof. done. Qed.
Lemma calm_put_length n : calm (st_put (set_c_length n)).
Proof. done. Qed.
Lemma calm_read o n : calm (c_read o n).
Proof. intros c. unfold c_read. by destruct (mem_read _ _ _). Qed.
Lemma calm_write o bs : calm (c_write o bs).
Proof. intros c. unfold c_write. by destruct (mem_write _ _ _). Qed.
Lemma calm_bind {A B} (m : ST C A) (f : A -> ST C B) : calm m -> (forall a, calm (f a)) -> calm (a <~ m ;; f a).
Proof.
  intros Hm Hf c. unfold st_bind. destruct (m c) as [[a| |] c1] eqn:E; specialize (Hm c); rewrite E in Hm; simpl in *; [|done..].
  destruct Hm, (Hf a c1). split; congruence.
Qed.
Lemma calm_evp {A} (f : K -> Z * A * K) (m : ST C A) : calm m -> calm (evp (on_ctx f) m).
Proof.
  intros Hm c. unfold evp, on_ctx. destruct (c_ctx c) as [[k l]|] eqn:Ec; [|done]. simpl.
  destruct (f k) as [[i a] k1]. destruct (i <=? 0); [destruct (Hm (set_c_ctx (k1, l) c)) as [H1 H2]|];
    unfold log_of in *; simpl in *; rewrite ?Ec; by rewrite ?H1, ?H2.
Qed.
Lemma calm_evp_ (f : K -> Z * K) (m : ST C unit) : calm m -> calm (evp_ (on_ctx f) m).
Proof.
  intros Hm c. unfold evp_, evp, on_ctx. destruct (c_ctx c) as [[k l]|] eqn:Ec; [|done]. simpl.
  destruct (f k) as [i k1]. destruct (i <=? 0); [destruct (Hm (set_c_ctx (k1, l) c)) as [H1 H2]|];
    unfold log_of in *; simpl in *; rewrite ?Ec; by rewrite ?H1, ?H2.
Qed.


Lemma calm_after {A B} (m : ST C A) (f : A -> ST C B) c : (forall a, calm (f a)) ->
  c_sequence (snd ((a <~ m ;; f a) c)) = c_sequence (snd (m c)) /\ log_of (snd ((a <~ m ;; f a) c)) = log_of (snd (m c)).
Proof. intros Hf. unfold st_bind. destruct (m c) as [[a| |] c1]; [apply Hf|done..]. Qed.

Lemma init_logs (nonce : list Z) (enc : bool) (m : ST C unit) c : calm m -> c_ctx c <> None ->
  let c' := snd (evp_ (fun k => EVP_CipherInit_iv k nonce enc) m c) in
  c_sequence c' = c_sequence c /\ log_of c' = log_of c ++ [nonce].
Proof.
  intros Hm Hk. unfold evp_, evp. destruct (c_ctx c) as [[k l]|] eqn:Ec; [|done]. unfold log_of at 2. rewrite Ec. simpl.
  destruct (EVP_CipherInit_iv k nonce enc) as [i k1]. destruct (i <=? 0); [|done].
  exact (Hm (set_c_ctx (k1, l ++ [nonce]) c)).
Qed.

(** One call uses no nonce, or that of the current sequence number, which it then
    increments. *)
Lemma cipher_logs iv taglen type version data input n sending (c : C) : seq_ok (c_sequence c) ->
  let c' := snd (tls13_cipher iv taglen type version data input n sending c) in
  (c_sequence c' = c_sequence c /\ log_of c' = log_of c)
  \/ (log_of c' = log_of c /\ c_alert c' <> SSL_AD_NO_ALERT)
  \/ (seq_ok (c_sequence c') /\ be_val (c_sequence c') = be_val (c_sequence c) + 1
      /\ exists ivlen nonce, 8 <= ivlen /\ nonce_of iv (c_sequence c) ivlen = Some nonce /\ log_of c' = log_of c ++ [nonce]).
Proof.
  intros Hseq. unfold tls13_cipher. destruct (n =? 1); cbn [negb]; [|by left]. destruct (c_ctx c) as [k|] eqn:Ek; [|by left].
  destruct (get0_cipher k) as [mode|]; [|by left].
  destruct (type =? SSL3_RT_ALERT).
  { left. apply (calm_bind (c_read input (c_length c)) (c_write data)); [apply calm_read|intros; apply calm_write]. }
  destruct (negb sending && (c_length c <? taglen + 1)); [by left|].
  set (c1 := if sending then c else _).
  assert (H1 : c_sequence c1 = c_sequence c /\ log_of c1 = log_of c /\ c_ctx c1 = Some k) by (by unfold c1; destruct sending).
  destruct H1 as (Es & El & Ek1). clearbody c1. rewrite Es. destruct (get_iv_length k <? 8) eqn:Ei; [by left|]. zbool.
  destruct (nonce_of iv (c_sequence c) (get_iv_length k)) as [nonce|] eqn:En; [|by left].
  destruct (increment_spec _ Hseq) as (seq' & -> & Hs' & Hv). pose proof (seq_range _ Hseq).
  destruct (be_val (c_sequence c) <? 2 ^ 64 - 1) eqn:Eb; cbn [negb]; [|right; left; by rewrite <- El].
  zbool. rewrite Z.mod_small in Hv by lia. right. right.
  match goal with |- context [snd ((evp_ ?f ?g ;;; ?m) ?c)] =>
    assert (Hm : calm m); [|destruct (calm_after (evp_ f g) (fun _ => m) c) as [H1 H2]; [done|];
      destruct (init_logs nonce sending g c calm_error) as [H3 H4]; [simpl; congruence|]] end.
  2: { cbv zeta in H3, H4. rewrite H1, H2, H3, H4. cbn [c_sequence set_c_sequence]. split; [done|]. split; [lia|].
       exists (get_iv_length k), nonce. split; [done|]. split; [done|]. f_equal. exact El. }
  repeat first
    [ apply calm_bind; [|intros]
    | apply calm_ret | apply calm_fail | apply calm_error | apply calm_read | apply calm_write | apply calm_put_length
    | apply calm_evp_ | apply calm_evp | case_match ].
Qed.

(** Calls on a layer, as long as no alert has been raised. *)
Inductive uses (iv : list Z) (taglen : Z) : C -> C -> Prop :=
| uses_none c : uses iv taglen c c
| uses_more c c' type version data input n sending : uses iv taglen c c' -> c_alert c' = SSL_AD_NO_ALERT ->
    uses iv taglen c (snd (tls13_cipher iv taglen type version data input n sending c')).

Definition log_ok (iv : list Z) (c : C) : Prop :=
  NoDup (log_of c) /\ (c_alert c = SSL_AD_NO_ALERT -> seq_ok (c_sequence c)
    /\ Forall (fun n => exists seq ivlen, seq_ok seq /\ 8 <= ivlen /\ be_val seq < be_val (c_sequence c)
                 /\ nonce_of iv seq ivlen = Some n) (log_of c)).

Lemma log_ok_step iv taglen type version data input n sending (c : C) : log_ok iv c -> c_alert c = SSL_AD_NO_ALERT ->
  log_ok iv (snd (tls13_cipher iv taglen type version data input n sending c)).
Proof.
  intros [Hn Hold] Ha. destruct (Hold Ha) as [Hs Ho].
  destruct (cipher_logs iv taglen type version data input n sending c Hs) as [[E1 E2]|[[E1 E2]|(Hs' & Hv & ivlen & nonce & Hi & En & El)]].
  - unfold log_ok. rewrite E1, E2. done.
  - unfold log_ok. rewrite E1. done.
  - unfold log_ok. rewrite El, Hv. split.
    + apply NoDup_app. split; [done|]. split; [|apply NoDup_singleton]. intros x Hx ->%list_elem_of_singleton.
      rewrite Forall_forall in Ho. destruct (Ho _ Hx) as (seq & ivlen' & Hsq & Hi' & Hlt & En').
      pose proof (length_nonce _ _ _ _ (proj1 Hs) Hi En). pose proof (length_nonce _ _ _ _ (proj1 Hsq) Hi' En').
      assert (ivlen' = ivlen) as -> by congruence.
      rewrite (nonce_inj _ _ _ _ _ (proj1 Hsq) (proj1 Hs) En' En) in Hlt. lia.
    + intros _. split; [done|]. apply Forall_app. split.
      * eapply Forall_impl; [exact Ho|]. intros x (seq & i & ? & ? & ? & ?). exists seq, i. split_and!; (done || lia).
      * constructor; [|done]. exists (c_sequence c), ivlen. split_and!; (done || lia).
Qed.

End Nonces.

(** ** The header of a record *)

Definition header (type version len : Z) : list Z := be_bytes 1 type ++ be_bytes 2 version ++ be_bytes 2 len.

Lemma length_header type version len : length (header type version len) = 5%nat.
Proof. done. Qed.

Section Header.
Context `{L : Libc} {LO : LibcOk L}.

Lemma put_ser v n : 1 <= n <= 8 -> 0 <= v < 256 ^ n -> ser (Put v n) = Some (be_bytes (Z.to_nat n) v).
Proof. intros Hn Hv. simpl. by rewrite !(proj2 (Z.leb_le _ _)), (proj2 (Z.ltb_lt _ _)) by lia. Qed.

(** With memory for the writer, it is the header. *)
Lemma recheader_spec type version len : 0 <= type < 256 -> 0 <= version < 65536 -> 0 <= len < 65536 ->
  recheader_of type version len = match CRYPTO_zalloc 40 with Some _ => Some (header type version len) | None => None end.
Proof.
  intros Ht Hv Hl. unfold recheader_of.
  set (p0 := static_start (replicate 5 0) 0 [mkSUB 0 0 0 0]).
  destruct (CRYPTO_zalloc 40) as [z|] eqn:Ez.
  2: { unfold st_bind, WPACKET_init_static_len, wpacket_intern_init_len, st_put. simpl. by rewrite Ez. }
  rewrite (st_bind_ok _ _ _ tt p0); [|unfold WPACKET_init_static_len, wpacket_intern_init_len, st_bind, st_put; simpl; by rewrite Ez].
  assert (Hi : inv p0) by (apply inv_static_start; unfold SIZE_MAX; simpl; lia).
  pose proof (put_bytes_completes type 1) as C1. rewrite put_ser in C1 by lia.
  pose proof (put_bytes_completes version 2) as C2. rewrite put_ser in C2 by lia.
  pose proof (put_bytes_completes len 2) as C3. rewrite put_ser in C3 by lia.
  destruct (C1 p0 _ Hi ltac:(done) eq_refl eq_refl) as (p1 & E1 & A1); [by vm_compute|].
  rewrite (st_bind_ok _ _ _ _ _ E1). pose proof A1 as [Hi1 Hk1 Hw1 Hs1 _]. pose proof (sk_max _ _ Hk1) as M1.
  pose proof (wbuf_same _ _ Hk1 eq_refl) as B1.
  destruct (C2 p1 _ Hi1 ltac:(by rewrite Hs1) B1 eq_refl) as (p2 & E2 & A2); [rewrite Hw1, M1; by vm_compute|].
  rewrite (st_bind_ok _ _ _ _ _ E2). pose proof A2 as [Hi2 Hk2 Hw2 Hs2 _]. pose proof (sk_max _ _ Hk2) as M2.
  pose proof (wbuf_same _ _ Hk2 B1) as B2.
  destruct (C3 p2 _ Hi2 ltac:(by rewrite Hs2, Hs1) B2 eq_refl) as (p3 & E3 & A3); [rewrite Hw2, Hw1, M2, M1; by vm_compute|].
  rewrite (st_bind_ok _ _ _ _ _ E3). pose proof A3 as [Hi3 Hk3 Hw3 Hs3 _].
  pose proof (appended_trans _ _ _ _ _ _ _ A1 (appended_trans _ _ _ _ _ _ _ A2 A3)) as [_ Hk Hw Hs Ho].
  assert (W : written p3 = 5) by (rewrite Hw; by vm_compute).
  rewrite (st_bind_ok _ _ _ 5 p3) by (unfold WPACKET_get_total_written, st_get; by rewrite W).
  rewrite (st_bind_ok _ _ _ tt p3) by done.
  destruct (finish_spec p0 0 p3) as (q & -> & Hq); try done; [by rewrite (backed_same _ _ Hk)|by rewrite Hs, Hs2, Hs1|simpl; lia|].
  destruct Hq as (r & -> & [Hir Hkr Hwr Hsr Hor]); [by left|]. simpl in *.
  pose proof (sk_static _ _ (same_kind_trans _ _ _ Hk Hkr)) as Hlen. simpl in Hlen.
  destruct (staticbuf r) as [b|] eqn:Eb; [|done]. injection Hlen as Hlen. f_equal.
  specialize (Ho eq_refl). rewrite Ho in Hor. unfold out, GETBUF in Hor. rewrite Eb, Hwr, W in Hor.
  rewrite take_ge in Hor by (simpl; lia). by rewrite Hor.
Qed.
End Header.

(** ** Sealing and opening *)

(** A call succeeds and leaves the context [k]. *)
Definition succeeds {K} (r : Z * K) (k : K) : Prop := 0 < fst r /\ snd r = k.
Definition gives {K} (r : Z * list Z * K) (bs : list Z) (k : K) : Prop := 0 < fst (fst r) /\ snd (fst r) = bs /\ snd r = k.
(** In CCM mode the length is announced. *)
Definition announced `{EVP K} (mode n : Z) (k k' : K) : Prop :=
  if mode =? EVP_CIPH_CCM_MODE then succeeds (EVP_CipherUpdate_length k n) k' else k' = k.

(** What is relied on of an authenticated cipher with nonces of [ivlen] and tags
    of [taglen] bytes, used through EVP: [seal key nonce aad plain] is the
    ciphertext and the tag; it is what encrypting yields, what decrypting takes
    back, and nothing else is decrypted. *)
Class AEAD (K : Type) `{!EVP K} (KEY : Type) (ivlen taglen : Z) : Type := {
  seal : KEY -> list Z -> list Z -> list Z -> list Z * list Z;
  keyed : K -> KEY -> Prop;
  seal_text key iv aad p : length (fst (seal key iv aad p)) = length p;
  seal_tag key iv aad p : Z.of_nat (length (snd (seal key iv aad p))) = taglen;
  seal_bytes key iv aad p : Forall is_byte p ->
    Forall is_byte (fst (seal key iv aad p)) /\ Forall is_byte (snd (seal key iv aad p));
  keyed_cipher k key : keyed k key -> is_Some (get0_cipher k) /\ get_iv_length k = ivlen;
  keyed_init k key iv enc : keyed k key -> keyed (snd (EVP_CipherInit_iv k iv enc)) key;
  keyed_set_tag k key t : keyed k key -> keyed (snd (ctrl_set_tag k t)) key;
  keyed_get_tag k key n : keyed k key -> keyed (snd (ctrl_get_tag k n)) key;
  keyed_length k key n : keyed k key -> keyed (snd (EVP_CipherUpdate_length k n)) key;
  keyed_aad k key bs : keyed k key -> keyed (snd (EVP_CipherUpdate_aad k bs)) key;
  keyed_update k key bs : keyed k key -> keyed (snd (EVP_CipherUpdate k bs)) key;
  keyed_final k key : keyed k key -> keyed (snd (EVP_CipherFinal_ex k)) key;
  update_bytes k key bs : keyed k key -> Forall is_byte bs ->
    (length (snd (fst (EVP_CipherUpdate k bs))) <= length bs)%nat /\ Forall is_byte (snd (fst (EVP_CipherUpdate k bs)));
  final_bytes k key : keyed k key -> snd (fst (EVP_CipherFinal_ex k)) = [];
  evp_seals k key mode iv aad p : keyed k key -> get0_cipher k = Some mode -> Z.of_nat (length iv) = ivlen ->
    exists k1 k2 k3 k4 k5 k6 out fin,
      succeeds (EVP_CipherInit_iv k iv true) k1 /\ announced mode (Z.of_nat (length p)) k1 k2
      /\ succeeds (EVP_CipherUpdate_aad k2 aad) k3 /\ gives (EVP_CipherUpdate k3 p) out k4
      /\ gives (EVP_CipherFinal_ex k4) fin k5 /\ gives (ctrl_get_tag k5 taglen) (snd (seal key iv aad p)) k6
      /\ out ++ fin = fst (seal key iv aad p);
  evp_opens k key mode iv aad p : keyed k key -> get0_cipher k = Some mode -> Z.of_nat (length iv) = ivlen ->
    exists k1 k2 k3 k4 k5 k6 out fin,
      succeeds (EVP_CipherInit_iv k iv false) k1 /\ succeeds (ctrl_set_tag k1 (snd (seal key iv aad p))) k2
      /\ announced mode (Z.of_nat (length p)) k2 k3 /\ succeeds (EVP_CipherUpdate_aad k3 aad) k4
      /\ gives (EVP_CipherUpdate k4 (fst (seal key iv aad p))) out k5 /\ gives (EVP_CipherFinal_ex k5) fin k6
      /\ out ++ fin = p;
  evp_authentic k key mode iv aad c t k1 k2 k3 k4 k5 k6 out fin : keyed k key -> get0_cipher k = Some mode ->
    Z.of_nat (length iv) = ivlen -> Z.of_nat (length t) = taglen ->
    succeeds (EVP_CipherInit_iv k iv false) k1 -> succeeds (ctrl_set_tag k1 t) k2 ->
    announced mode (Z.of_nat (length c)) k2 k3 -> succeeds (EVP_CipherUpdate_aad k3 aad) k4 ->
    gives (EVP_CipherUpdate k4 c) out k5 -> gives (EVP_CipherFinal_ex k5) fin k6 ->
    length (out ++ fin) = length c -> seal key iv aad (out ++ fin) = (c, t)
}.

Lemma mem_write_app m d a b m' : 0 <= d -> mem_write m d (a ++ b) = Some m' ->
  exists m1, mem_write m d a = Some m1 /\ mem_write m1 (d + Z.of_nat (length a)) b = Some m'.
Proof.
  intros Hd E. assert (Hl : d + Z.of_nat (length (a ++ b)) <= Z.of_nat (length m)).
  { unfold mem_write in E. destruct (_ && _) eqn:Ec in E; [|done]. zbool. done. }
  rewrite length_app in Hl. rewrite mem_write_Some in E by (rewrite ?length_app; lia). injection E as <-.
  rewrite (mem_write_Some m d a) by lia. eexists. split; [done|].
  rewrite mem_write_Some by (rewrite ?length_app, ?length_take, ?length_drop; lia). f_equal.
  set (x := take (Z.to_nat d) m). assert (Hx : length x = Z.to_nat d) by (unfold x; rewrite length_take; lia).
  replace (Z.to_nat (d + Z.of_nat (length a))) with (length (x ++ a)) by (rewrite length_app; lia).
  rewrite (assoc_L (++) x a), take_app_length, drop_app_add, drop_drop, <- !(assoc_L (++)). do 3 f_equal.
  f_equal. rewrite length_app. lia.
Qed.

Lemma mem_read_app m d n1 n2 bs : 0 <= n1 -> 0 <= n2 -> mem_read m d (n1 + n2) = Some bs ->
  mem_read m d n1 = Some (take (Z.to_nat n1) bs) /\ mem_read m (d + n1) n2 = Some (drop (Z.to_nat n1) bs).
Proof.
  unfold mem_read. intros H1 H2 E. destruct (_ && _) eqn:Ec in E; [|done]. zbool. injection E as <-.
  rewrite !(proj2 (Z.leb_le _ _)) by lia. cbn [andb]. rewrite take_take, skipn_firstn_comm, drop_drop. split; do 2 f_equal; lia || (f_equal; lia).
Qed.

Section Protect.
Context `{L : Libc} {LO : LibcOk L} {K : Type} `{!EVP K} {KEY : Type} {ivlen taglen : Z} `{A : !AEAD K KEY ivlen taglen}.
Local Abbreviation C := (CIPHERING K).

(** The layer has the static IV [iv] and a context with the key [key]. *)
Record prepared (iv : list Z) (key : KEY) (c : C) : Prop := {
  pr_iv : 8 <= ivlen <= Z.of_nat (length iv);
  pr_tag : 0 <= taglen;
  pr_seq : seq_ok (c_sequence c);
  pr_ctx : exists k, c_ctx c = Some k /\ keyed k key
}.

Definition nonce (iv seq : list Z) : list Z := default [] (nonce_of iv seq ivlen).

(** The ciphertext and the tag of the record with this sequence number. *)
Definition sealed (key : KEY) (iv seq : list Z) (type version : Z) (p : list Z) : list Z * list Z :=
  seal key (nonce iv seq) (header type version (Z.of_nat (length p) + taglen)) p.
Definition protected (key : KEY) (iv seq : list Z) (type version : Z) (p : list Z) : list Z :=
  fst (sealed key iv seq type version p) ++ snd (sealed key iv seq type version p).

Lemma length_protected key iv seq type version p :
  Z.of_nat (length (protected key iv seq type version p)) = Z.of_nat (length p) + taglen.
Proof. unfold protected, sealed. rewrite length_app, Nat2Z.inj_add, seal_text, seal_tag. done. Qed.

Lemma nonce_spec iv key c : prepared iv key c ->
  nonce_of iv (c_sequence c) ivlen = Some (nonce iv (c_sequence c)) /\ Z.of_nat (length (nonce iv (c_sequence c))) = ivlen.
Proof.
  intros [Hi _ [Hl _] _]. destruct (nonce_some iv ivlen (c_sequence c) Hi) as [n E]. unfold nonce. rewrite E. split; [done|].
  eapply length_nonce; (done || lia).
Qed.

Lemma evp_ok (call : K -> Z * K) f (c : C) k k' : c_ctx c = Some k -> succeeds (call k) k' ->
  evp_ call f c = (Ok tt, set_c_ctx k' c).
Proof.
  intros Ec [Hp <-]. unfold evp_, evp. rewrite Ec. destruct (call k) as [i k1]. simpl in *.
  by rewrite (proj2 (Z.leb_gt _ _)) by lia.
Qed.
Lemma evp_out (call : K -> Z * list Z * K) f (c : C) k out k' : c_ctx c = Some k -> gives (call k) out k' ->
  evp call f c = (Ok out, set_c_ctx k' c).
Proof.
  intros Ec (Hp & <- & <-). unfold evp. rewrite Ec. destruct (call k) as [[i a] k1]. simpl in *.
  by rewrite (proj2 (Z.leb_gt _ _)) by lia.
Qed.
Lemma c_read_ok (c : C) o n bs : mem_read (c_mem c) o n = Some bs -> c_read o n c = (Ok bs, c).
Proof. intros E. unfold c_read. by rewrite E. Qed.
Lemma c_write_ok (c : C) o bs m : mem_write (c_mem c) o bs = Some m -> c_write o bs c = (Ok tt, set_c_mem m c).
Proof. intros E. unfold c_write. by rewrite E. Qed.
Lemma announced_keyed mode n k k' key : announced mode n k k' -> keyed k key -> keyed k' key.
Proof. unfold announced. intros Ha Hk. destruct (mode =? EVP_CIPH_CCM_MODE); [destruct Ha as [_ <-]; by apply keyed_length|by subst]. Qed.
Lemma evp_announces mode n (c : C) k k' : c_ctx c = Some k -> announced mode n k k' ->
  (if mode =? EVP_CIPH_CCM_MODE then evp_ (fun k => EVP_CipherUpdate_length k n) st_fail else st_ret tt) c
  = (Ok tt, set_c_ctx k' c).
Proof.
  intros Ec Ha. unfold announced in Ha. destruct (mode =? EVP_CIPH_CCM_MODE); [by eapply evp_ok|]. subst k'.
  destruct c. simpl in *. by subst.
Qed.

(** One call of the sequence of [tls13_cipher], where [H] says what it does. *)
Ltac evp_step H := erewrite st_bind_ok;
  [|first [eapply evp_ok; [first [reflexivity|eassumption]|exact H]|eapply evp_out; [reflexivity|exact H]
          |eapply evp_announces; [reflexivity|exact H]]].
Ltac mem_step H := erewrite st_bind_ok; [|first [apply c_read_ok; exact H|apply c_write_ok; exact H]].

(** Sending: the record is sealed in place. *)
Lemma tls13_seals iv key type version d p m' (c : C) : is_Some (CRYPTO_zalloc 40) -> prepared iv key c ->
  be_val (c_sequence c) < 2 ^ 64 - 1 -> type <> SSL3_RT_ALERT -> 0 <= type < 256 -> 0 <= version < 65536 -> 0 <= d ->
  Z.of_nat (length p) + taglen < 65536 -> c_length c = Z.of_nat (length p) -> mem_read (c_mem c) d (c_length c) = Some p ->
  mem_write (c_mem c) d (protected key iv (c_sequence c) type version p) = Some m' ->
  exists seq' k', tls13_cipher iv taglen type version d d 1 true c
      = (Ok tt, mkCIPHERING seq' (c_alert c) (Some k') m' (Z.of_nat (length p) + taglen))
    /\ be_val seq' = be_val (c_sequence c) + 1 /\ seq_ok seq' /\ keyed k' key.
Proof.
  intros [z Hz] Hp Hs Hta Ht Hv Hd Hl Hlen Hr Hw. pose proof Hp as [Hi Htg Hsq (k & Ek & Hk)].
  destruct (nonce_spec iv key c Hp) as [En Hn]. destruct (keyed_cipher k key Hk) as [[mode Em] Eiv].
  unfold tls13_cipher. cbn [negb Z.eqb Pos.eqb]. rewrite Ek, Em, (proj2 (Z.eqb_neq _ _) Hta). cbn [negb andb].
  rewrite Eiv, (proj2 (Z.ltb_ge ivlen 8)) by lia. rewrite En. rewrite Hlen in Hr.
  destruct (increment_spec _ Hsq) as (seq' & -> & Hsq' & Hv'). rewrite (proj2 (Z.ltb_lt _ _) Hs). cbn [negb].
  rewrite Z.mod_small in Hv' by (pose proof (seq_range _ Hsq); lia).
  destruct (evp_seals k key mode (nonce iv (c_sequence c)) (header type version (Z.of_nat (length p) + taglen)) p Hk Em Hn)
    as (k1 & k2 & k3 & k4 & k5 & k6 & out & fin & S1 & S2 & S3 & S4 & S5 & S6 & Ef).
  fold (sealed key iv (c_sequence c) type version p) in *. unfold protected in Hw. rewrite <- Ef, <- (assoc_L (++)) in Hw.
  destruct (mem_write_app _ _ _ _ _ Hd Hw) as (m1 & W1 & Hw1).
  destruct (mem_write_app m1 (d + Z.of_nat (length out)) fin _ _ ltac:(lia) Hw1) as (m2 & W2 & W3).
  assert (Hof : Z.of_nat (length out) + Z.of_nat (length fin) = Z.of_nat (length p)).
  { rewrite <- Nat2Z.inj_add, <- length_app, Ef. unfold sealed. by rewrite seal_text. }
  evp_step S1. rewrite (st_bind_ok (st_ret tt) _ _ tt _ eq_refl).
  cbn [c_length set_c_sequence]. rewrite Hlen, recheader_spec, Hz by lia. rewrite Z.mod_small by lia.
  evp_step S2. evp_step S3. mem_step Hr. evp_step S4. mem_step W1. evp_step S5. mem_step W2.
  rewrite Hof, Z.eqb_refl. cbn [negb]. evp_step S6.
  replace (d + Z.of_nat (length p)) with (d + Z.of_nat (length out) + Z.of_nat (length fin)) by lia. mem_step W3.
  eexists _, _. split; [done|]. split; [done|]. split; [done|].
  destruct S6 as (_ & _ & <-), S5 as (_ & _ & <-), S4 as (_ & _ & <-), S3 as [_ <-].
  apply keyed_get_tag, keyed_final, keyed_update, keyed_aad. eapply announced_keyed; [done|]. destruct S1 as [_ <-]. by apply keyed_init.
Qed.

(** Receiving: what was sealed is opened in place. *)
Lemma tls13_opens iv key type version d p m' (c : C) : is_Some (CRYPTO_zalloc 40) -> prepared iv key c ->
  be_val (c_sequence c) < 2 ^ 64 - 1 -> type <> SSL3_RT_ALERT -> 0 <= type < 256 -> 0 <= version < 65536 -> 0 <= d ->
  1 <= Z.of_nat (length p) -> Z.of_nat (length p) + taglen < 65536 -> c_length c = Z.of_nat (length p) + taglen ->
  mem_read (c_mem c) d (c_length c) = Some (protected key iv (c_sequence c) type version p) ->
  mem_write (c_mem c) d p = Some m' ->
  exists seq' k', tls13_cipher iv taglen type version d d 1 false c
      = (Ok tt, mkCIPHERING seq' (c_alert c) (Some k') m' (Z.of_nat (length p)))
    /\ be_val seq' = be_val (c_sequence c) + 1 /\ seq_ok seq' /\ keyed k' key.
Proof.
  intros [z Hz] Hp Hs Hta Ht Hv Hd Hl1 Hl Hlen Hr Hw. pose proof Hp as [Hi Htg Hsq (k & Ek & Hk)].
  destruct (nonce_spec iv key c Hp) as [En Hn]. destruct (keyed_cipher k key Hk) as [[mode Em] Eiv].
  unfold tls13_cipher. cbn [negb Z.eqb Pos.eqb]. rewrite Ek, Em, (proj2 (Z.eqb_neq _ _) Hta). cbn [negb andb].
  rewrite Eiv, (proj2 (Z.ltb_ge (c_length c) _)), (proj2 (Z.ltb_ge ivlen 8)) by lia. cbn [c_sequence set_c_length]. rewrite En.
  destruct (increment_spec _ Hsq) as (seq' & -> & Hsq' & Hv'). rewrite (proj2 (Z.ltb_lt _ _) Hs). cbn [negb].
  rewrite Z.mod_small in Hv' by (pose proof (seq_range _ Hsq); lia).
  destruct (evp_opens k key mode (nonce iv (c_sequence c)) (header type version (Z.of_nat (length p) + taglen)) p Hk Em Hn)
    as (k1 & k2 & k3 & k4 & k5 & k6 & out & fin & S1 & S2 & S3 & S4 & S5 & S6 & Ef).
  rewrite Hlen in Hr. apply mem_read_app in Hr as [Hr1 Hr2]; [|lia..]. rewrite Nat2Z.id in Hr1, Hr2. unfold protected in Hr1, Hr2.
  fold (sealed key iv (c_sequence c) type version p) in *.
  rewrite take_app_length' in Hr1 by (by unfold sealed; rewrite seal_text).
  rewrite drop_app_length' in Hr2 by (by unfold sealed; rewrite seal_text).
  assert (Hof : Z.of_nat (length out) + Z.of_nat (length fin) = Z.of_nat (length p)) by (rewrite <- Ef, length_app; lia).
  rewrite <- Ef in Hw. destruct (mem_write_app _ _ _ _ _ Hd Hw) as (m1 & W1 & W2).
  cbn [c_length set_c_length set_c_sequence]. replace (c_length c - taglen) with (Z.of_nat (length p)) by lia.
  evp_step S1. erewrite st_bind_ok; [|mem_step Hr2; eapply evp_ok; [reflexivity|exact S2]].
  rewrite recheader_spec, Hz by lia. rewrite Z.mod_small by lia.
  evp_step S3. evp_step S4. mem_step Hr1. evp_step S5. mem_step W1. evp_step S6. mem_step W2.
  rewrite Hof, Z.eqb_refl. cbn [negb].
  eexists _, _. split; [done|]. split; [done|]. split; [done|].
  destruct S6 as (_ & _ & <-), S5 as (_ & _ & <-), S4 as [_ <-].
  apply keyed_final, keyed_update, keyed_aad. eapply announced_keyed; [done|]. destruct S2 as [_ <-], S1 as [_ <-]. by apply keyed_set_tag, keyed_init.
Qed.

Lemma bind_inv {S B D} (m : ST S B) (f : B -> ST S D) s r s' : st_bind m f s = (Ok r, s') ->
  exists a s1, m s = (Ok a, s1) /\ f a s1 = (Ok r, s').
Proof. unfold st_bind. destruct (m s) as [[a| |] s1]; [eauto|done..]. Qed.
Lemma evp_inv {B} (call : K -> Z * B * K) (f : ST C B) c a c' : (forall c, fst (f c) = Fail) -> evp call f c = (Ok a, c') ->
  exists k k', c_ctx c = Some k /\ 0 < fst (fst (call k)) /\ snd (fst (call k)) = a /\ snd (call k) = k' /\ c' = set_c_ctx k' c.
Proof.
  intros Hf. unfold evp. destruct (c_ctx c) as [k|]; [|done]. destruct (call k) as [[i b] k'] eqn:E. destruct (i <=? 0) eqn:Ei.
  - intros H. specialize (Hf (set_c_ctx k' c)). rewrite H in Hf. done.
  - zbool. intros [= <- <-]. exists k, k'. by rewrite E.
Qed.
Lemma evp_inv_ (call : K -> Z * K) (f : ST C unit) c c' : (forall c, fst (f c) = Fail) -> evp_ call f c = (Ok tt, c') ->
  exists k k', c_ctx c = Some k /\ succeeds (call k) k' /\ c' = set_c_ctx k' c.
Proof.
  intros Hf H. apply evp_inv in H as (k & k' & Ek & H1 & _ & H3 & ->); [|done]. exists k, k'. unfold succeeds.
  by destruct (call k).
Qed.
Lemma announces_inv mode n (c c' : C) k : c_ctx c = Some k ->
  (if mode =? EVP_CIPH_CCM_MODE then evp_ (fun k => EVP_CipherUpdate_length k n) st_fail else st_ret tt) c = (Ok tt, c') ->
  exists k', announced mode n k k' /\ c' = set_c_ctx k' c.
Proof.
  intros Ek H. unfold announced. destruct (mode =? EVP_CIPH_CCM_MODE).
  - apply evp_inv_ in H as (k0 & k' & E0 & H1 & ->); [|done]. exists k'. rewrite Ek in E0. by injection E0 as ->.
  - exists k. split; [done|]. injection H as <-. destruct c. simpl in *. by subst.
Qed.
Lemma c_read_inv o n (c c' : C) bs : c_read o n c = (Ok bs, c') -> mem_read (c_mem c) o n = Some bs /\ c' = c.
Proof. unfold c_read. by destruct (mem_read _ _ _); intros [= -> ->]. Qed.
Lemma c_write_inv o bs (c c' : C) : c_write o bs c = (Ok tt, c') -> exists m, mem_write (c_mem c) o bs = Some m /\ c' = set_c_mem m c.
Proof. unfold c_write. destruct (mem_write _ _ _) as [m|]; [|done]. intros [= <-]. by exists m. Qed.

Lemma mem_write_join m d a b m1 m' : 0 <= d -> mem_write m d a = Some m1 -> mem_write m1 (d + Z.of_nat (length a)) b = Some m' ->
  mem_write m d (a ++ b) = Some m'.
Proof.
  intros Hd E1 E2. assert (Hl : Z.of_nat (length m) >= d + Z.of_nat (length a) + Z.of_nat (length b)).
  { pose proof (length_mem_write _ _ _ _ E1). unfold mem_write in E2. destruct (_ && _) eqn:Ec in E2; [|done]. zbool. lia. }
  destruct (mem_write m d (a ++ b)) as [m2|] eqn:E.
  - destruct (mem_write_app _ _ _ _ _ Hd E) as (m3 & F1 & F2). congruence.
  - rewrite mem_write_Some in E; [done|lia|rewrite length_app; lia].
Qed.

Lemma mem_read_length m d n bs : mem_read m d n = Some bs -> Z.of_nat (length bs) = n.
Proof.
  unfold mem_read. intros E. destruct (_ && _) eqn:Ec in E; [|done]. zbool. injection E as <-.
  rewrite length_take, length_drop. lia.
Qed.
Lemma mem_read_join m d n1 n2 a b : 0 <= n1 -> 0 <= n2 -> mem_read m d n1 = Some a -> mem_read m (d + n1) n2 = Some b ->
  mem_read m d (n1 + n2) = Some (a ++ b).
Proof.
  unfold mem_read. intros H1 H2 E1 E2. destruct (_ && _) eqn:Ea in E1; [|done]. destruct (_ && _) eqn:Eb in E2; [|done]. zbool.
  rewrite !(proj2 (Z.leb_le _ _)) by lia. cbn [andb]. injection E1 as <-. injection E2 as <-. f_equal.
  rewrite !Z2Nat.inj_add by lia. symmetry. apply drop_take_app. lia.
Qed.

(** Receiving: what is opened was sealed, with this sequence number and header. *)
Lemma tls13_authentic iv key type version d (c c' : C) : prepared iv key c -> type <> SSL3_RT_ALERT ->
  0 <= type < 256 -> 0 <= version < 65536 -> 0 <= d -> 0 <= c_length c < 65536 ->
  tls13_cipher iv taglen type version d d 1 false c = (Ok tt, c') ->
  exists p, mem_read (c_mem c) d (c_length c) = Some (protected key iv (c_sequence c) type version p)
    /\ c_length c' = Z.of_nat (length p) /\ 1 <= Z.of_nat (length p) /\ mem_write (c_mem c) d p = Some (c_mem c')
    /\ be_val (c_sequence c) < 2 ^ 64 - 1 /\ be_val (c_sequence c') = be_val (c_sequence c) + 1
    /\ prepared iv key c' /\ c_alert c' = c_alert c.
Proof.
  intros Hp Hta Ht Hv Hd Hl. pose proof Hp as [Hi Htg Hsq (k & Ek & Hk)].
  destruct (nonce_spec iv key c Hp) as [En Hn]. destruct (keyed_cipher k key Hk) as [[mode Em] Eiv].
  unfold tls13_cipher. cbn [negb Z.eqb Pos.eqb]. rewrite Ek, Em, (proj2 (Z.eqb_neq _ _) Hta). cbn [negb andb].
  rewrite Eiv, (proj2 (Z.ltb_ge ivlen 8)) by lia. destruct (c_length c <? taglen + 1) eqn:El; [done|]. zbool.
  cbn [c_sequence set_c_length]. rewrite En.
  destruct (increment_spec _ Hsq) as (seq' & -> & Hsq' & Hv'). destruct (be_val (c_sequence c) <? 2 ^ 64 - 1) eqn:Es; [|done].
  zbool. cbn [negb c_length set_c_length set_c_sequence].
  rewrite Z.mod_small in Hv' by (pose proof (seq_range _ Hsq); lia). intros H.
  apply bind_inv in H as ([] & c1 & H1 & H). apply evp_inv_ in H1 as (k0 & k1 & E0 & S1 & ->); [|done].
  cbn in E0. rewrite Ek in E0. injection E0 as <-.
  apply bind_inv in H as ([] & c2 & H1 & H). apply bind_inv in H1 as (tag & ? & Rt & H1). apply c_read_inv in Rt as [Rt ->].
  apply evp_inv_ in H1 as (k1' & k2 & E0 & S2 & ->); [|done]. cbn in E0. injection E0 as <-.
  rewrite recheader_spec in H by lia. destruct (CRYPTO_zalloc 40) as [z|]; [|done].
  apply bind_inv in H as ([] & c3 & H1 & H). eapply announces_inv in H1 as (k3 & S3 & ->); [|done].
  apply bind_inv in H as ([] & c4 & H1 & H). apply evp_inv_ in H1 as (? & k4 & E0 & S4 & ->); [|done]. cbn in E0. injection E0 as <-.
  apply bind_inv in H as (ct & ? & Rc & H). apply c_read_inv in Rc as [Rc ->].
  apply bind_inv in H as (out & c5 & H1 & H). apply evp_inv in H1 as (? & k5 & E0 & S5 & S5b & S5c & ->); [|done]. cbn in E0. injection E0 as <-.
  apply bind_inv in H as ([] & c6 & H1 & H). apply c_write_inv in H1 as (m1 & W1 & ->).
  apply bind_inv in H as (fin & c7 & H1 & H). apply evp_inv in H1 as (? & k6 & E0 & S6 & S6b & S6c & ->); [|done]. cbn in E0. injection E0 as <-.
  apply bind_inv in H as ([] & c8 & H1 & H). apply c_write_inv in H1 as (m2 & W2 & ->).
  destruct (_ =? _) eqn:Eo in H; [|done]. zbool. injection H as <-.
  cbn [c_mem c_ctx c_length c_sequence c_alert set_c_mem set_c_ctx set_c_length set_c_sequence] in *.
  assert (Hlo : Z.of_nat (length (out ++ fin)) = c_length c - taglen) by (rewrite length_app; lia).
  pose proof (mem_read_length _ _ _ _ Rc) as Hct. pose proof (mem_read_length _ _ _ _ Rt) as Htag.
  rewrite Z.mod_small in S3 by lia. rewrite <- Hct in S3. rewrite <- Hlo in S4.
  assert (Hsl : seal key (nonce iv (c_sequence c)) (header type version (Z.of_nat (length (out ++ fin)) + taglen)) (out ++ fin) = (ct, tag)).
  { eapply evp_authentic; try done. lia. }
  exists (out ++ fin). split; [|split; [lia|split; [lia|split; [by eapply mem_write_join|split; [done|split; [done|split; [|done]]]]]]].
  - unfold protected, sealed. rewrite Hsl. replace (c_length c) with (c_length c - taglen + taglen) by lia.
    apply mem_read_join; (done || lia).
  - split; [done|done|done|]. exists k6. split; [done|]. subst k6 k5. destruct S4 as [_ <-].
    apply keyed_final, keyed_update, keyed_aad. eapply announced_keyed; [done|]. destruct S2 as [_ <-], S1 as [_ <-].
    by apply keyed_set_tag, keyed_init.
Qed.

(** *** Any record can be received *)

(** A context with the key, and a memory of the size [size] with a record of
    [n] bytes. *)
Record intact (key : KEY) (size : nat) (n : Z) (c : C) : Prop := {
  in_ctx : exists k, c_ctx c = Some k /\ keyed k key;
  in_size : length (c_mem c) = size;
  in_bytes : Forall is_byte (c_mem c);
  in_length : c_length c = n;
  in_seq : seq_ok (c_sequence c)
}.

Definition safe {B} (key : KEY) (size : nat) (n : Z) (m : ST C B) (Q : B -> Prop) : Prop :=
  forall c, intact key size n c -> match m c with
                                   | (Ok a, c') => intact key size n c' /\ Q a
                                   | (Fail, c') => intact key size n c'
                                   | (Fault, _) => False
                                   end.

Section Safe.
Context (key : KEY) (size : nat) (n : Z).
Local Abbreviation safe := (safe key size n).
Local Abbreviation intact := (intact key size n).

Lemma safe_bind {B D} (m : ST C B) (f : B -> ST C D) Q R : safe m Q -> (forall a, Q a -> safe (f a) R) -> safe (a <~ m ;; f a) R.
Proof.
  intros Hm Hf c Hc. specialize (Hm c Hc). unfold st_bind. destruct (m c) as [[a| |] c1]; [|done..].
  destruct Hm as [Hc1 Ha]. by apply Hf.
Qed.
Lemma safe_ret {B} (a : B) (Q : B -> Prop) : Q a -> safe (st_ret a) Q.
Proof. intros Ha c Hc. done. Qed.
Lemma safe_fail {B} (Q : B -> Prop) : safe st_fail Q.
Proof. intros c Hc. done. Qed.
Lemma safe_error {B} (Q : B -> Prop) : safe internal_error Q.
Proof. intros c []. by split. Qed.
Lemma safe_evp {B} (call : K -> Z * B * K) f (Q : B -> Prop) : (forall k, keyed k key -> keyed (snd (call k)) key /\ Q (snd (fst (call k)))) ->
  safe f Q -> safe (evp call f) Q.
Proof.
  intros Hcall Hf c [(k & Ek & Hk) ? ? ? ?]. unfold evp. rewrite Ek. destruct (Hcall k Hk) as [Hk' HQ].
  destruct (call k) as [[i a] k']. simpl in *.
  assert (intact (set_c_ctx k' c)) by (split; [by exists k'|done..]). destruct (i <=? 0); [by apply Hf|done].
Qed.
Lemma safe_evp_ (call : K -> Z * K) f : (forall k, keyed k key -> keyed (snd (call k)) key) -> safe f (fun _ => True) ->
  safe (evp_ call f) (fun _ => True).
Proof. intros Hcall. apply safe_evp. intros k Hk. specialize (Hcall k Hk). by destruct (call k). Qed.
Lemma safe_read o l : 0 <= o -> 0 <= l -> o + l <= Z.of_nat size -> safe (c_read o l) (fun bs => Forall is_byte bs /\ Z.of_nat (length bs) = l).
Proof.
  intros Ho Hl Hs c Hc. pose proof Hc as [_ Hsz Hb _ _]. unfold c_read, mem_read. rewrite !(proj2 (Z.leb_le _ _)) by lia. cbn [andb].
  split; [done|]. split; [by apply Forall_take, Forall_drop|]. rewrite length_take, length_drop. lia.
Qed.
Lemma safe_write o bs : 0 <= o -> o + Z.of_nat (length bs) <= Z.of_nat size -> Forall is_byte bs ->
  safe (c_write o bs) (fun _ => True).
Proof.
  intros Ho Hl Hbs c [? Hsz Hb ? ?]. unfold c_write. rewrite mem_write_Some by lia. split; [|done]. split; try done; simpl.
  - rewrite !length_app, length_take, length_drop. lia.
  - repeat apply Forall_app_2; [by apply Forall_take|done|by apply Forall_drop].
Qed.
End Safe.

(** Receiving any record is safe: no access leaves the memory, and the layer can
    go on to be used. *)
Lemma tls13_receive_safe iv key type version d (c : C) : prepared iv key c -> 0 <= d -> 0 <= c_length c ->
  d + c_length c <= Z.of_nat (length (c_mem c)) -> Forall is_byte (c_mem c) ->
  exists r c', tls13_cipher iv taglen type version d d 1 false c = (r, c') /\ r <> Fault
    /\ prepared iv key c' /\ length (c_mem c') = length (c_mem c) /\ Forall is_byte (c_mem c') /\ 0 <= c_length c' <= c_length c.
Proof.
  intros Hp Hd Hl Hsz Hb. pose proof Hp as [Hi Htg Hsq (k & Ek & Hk)].
  destruct (nonce_spec iv key c Hp) as [En Hn]. destruct (keyed_cipher k key Hk) as [[mode Em] Eiv].
  assert (Hdone : forall (m : ST C unit) n (c0 : C), 0 <= n <= c_length c -> intact key (length (c_mem c)) n c0 ->
    safe key (length (c_mem c)) n m (fun _ => True) ->
    exists r c', m c0 = (r, c') /\ r <> Fault /\ prepared iv key c' /\ length (c_mem c') = length (c_mem c)
      /\ Forall is_byte (c_mem c') /\ 0 <= c_length c' <= c_length c).
  { intros m n c0 Hn0 Hc0 Hm. specialize (Hm c0 Hc0). destruct (m c0) as [r c'] eqn:E. exists r, c'. split; [done|].
    assert (Hc' : intact key (length (c_mem c)) n c' /\ r <> Fault) by (destruct r; [by destruct Hm|done..]).
    destruct Hc' as [[? ? ? Hle ?] ?]. rewrite Hle. split_and!; try done; lia. }
  assert (Hc : intact key (length (c_mem c)) (c_length c) c) by (split; try done; by exists k).
  unfold tls13_cipher. cbn [negb Z.eqb Pos.eqb]. rewrite Ek, Em. cbn [negb andb].
  destruct (type =? SSL3_RT_ALERT).
  { apply (Hdone _ (c_length c)); [lia|done|]. eapply safe_bind; [apply safe_read; lia|]. intros bs [Hbs Hlen]. apply safe_write; (done || lia). }
  destruct (c_length c <? taglen + 1) eqn:El; zbool; [apply (Hdone st_fail (c_length c)); [lia|done|apply safe_fail]|].
  rewrite Eiv, (proj2 (Z.ltb_ge ivlen 8)) by lia. cbn [c_sequence set_c_length]. rewrite En.
  destruct (increment_spec _ Hsq) as (seq' & -> & Hsq' & Hv'). cbn [c_length set_c_length set_c_sequence].
  set (n := c_length c - taglen). assert (Hc1 : intact key (length (c_mem c)) n (set_c_sequence seq' (set_c_length n c))).
  { split; try done. by exists k. }
  destruct (be_val (c_sequence c) <? 2 ^ 64 - 1); cbn [negb]; [|by apply (Hdone internal_error n); [lia|done|apply safe_error]].
  apply (Hdone _ n); [lia|done|].
  eapply safe_bind; [apply safe_evp_; [intros; by apply keyed_init|apply safe_error]|]. intros [] _.
  eapply safe_bind.
  { eapply safe_bind; [apply safe_read; lia|]. intros tag [Hbt Hlt]. apply safe_evp_; [intros; by apply keyed_set_tag|apply safe_error]. }
  intros [] _. destruct (recheader_of _ _ _) as [h|]; [|apply safe_error].
  eapply safe_bind with (Q := fun _ => True).
  { destruct (mode =? EVP_CIPH_CCM_MODE); [apply safe_evp_; [intros; by apply keyed_length|apply safe_fail]|by apply safe_ret]. }
  intros [] _. eapply safe_bind; [apply safe_evp_; [intros; by apply keyed_aad|apply safe_fail]|]. intros [] _.
  eapply safe_bind; [apply safe_read; lia|]. intros bs [Hbs Hlen].
  eapply safe_bind; [apply safe_evp with (Q := fun out => (length out <= length bs)%nat /\ Forall is_byte out); [|apply safe_fail]|].
  { intros k0 Hk0. split; [by apply keyed_update|by eapply update_bytes]. }
  intros out [Hlo Hbo]. eapply safe_bind; [apply safe_write; (done || lia)|]. intros [] _.
  eapply safe_bind; [apply safe_evp with (Q := fun fin => fin = []); [|apply safe_fail]|].
  { intros k0 Hk0. split; [by apply keyed_final|by eapply final_bytes]. }
  intros ? ->. eapply safe_bind; [apply safe_write; (done || simpl; lia)|]. intros [] _.
  destruct (_ =? _); [by apply safe_ret|apply safe_fail].
Qed.
End Protect.
End TlsCrypt.
