(* ===== verification/TlsRecord.v ===== *)
(** * The TLS record layer: reading

    [tls_get_more_records] of ssl/record/methods/tls_common.c with the functions
    of the protocol versions it calls: the checks of headers and of contents in
    tls_common.c, tls13_meth.c and tlsany_meth.c.  Deciphering and authenticating
    are interface functions ([record_functions]); TLS 1.3 and the layer without
    protection are instances. *)

From stdpp Require Import prelude list.
From Stdlib Require Import ZArith Lia ZifyBool.
From S2P Require Import Prelude Packet Buffer PQueue RecordTypes RecordRead DtlsRecord TlsCrypt.

Local Open Scope Z_scope.
Local Open Scope st_scope.

Module TlsRecord.
Import TlsCrypt.

Abbreviation SSL3_RT_CHANGE_CIPHER_SPEC := (20)%Z.
Abbreviation SSL3_RT_HANDSHAKE := (22)%Z.
Abbreviation SSL3_RT_APPLICATION_DATA := (23)%Z.
Abbreviation SSL3_RT_HEADER := (0x100)%Z.
Abbreviation SSL3_RT_INNER_CONTENT_TYPE := (0x101)%Z.
Abbreviation SSL3_RT_MAX_TLS13_ENCRYPTED_LENGTH := (SSL3_RT_MAX_PLAIN_LENGTH + 256)%Z.
Abbreviation SSL2_VERSION := (2)%Z.
Abbreviation SSL3_VERSION := (0x0300)%Z.
Abbreviation TLS1_VERSION := (0x0301)%Z.
Abbreviation TLS1_1_VERSION := (0x0302)%Z.
Abbreviation TLS1_2_VERSION := (0x0303)%Z.
Abbreviation TLS1_3_VERSION := (0x0304)%Z.
Abbreviation TLS_ANY_VERSION := (0x10000)%Z.
Abbreviation SSL3_VERSION_MAJOR := (3)%Z.
Abbreviation SSL2_MT_CLIENT_HELLO := (1)%Z.
Abbreviation SSL2_RT_HEADER_LENGTH := (2)%Z.
Abbreviation MIN_SSL2_RECORD_LEN := (9)%Z.
Abbreviation MAX_EMPTY_RECORDS := (32)%Z.
Abbreviation EARLY_DATA_CIPHERTEXT_OVERHEAD := (104)%Z.
Abbreviation OSSL_RECORD_ROLE_SERVER := (1)%Z.
Abbreviation OSSL_RECORD_PROTECTION_LEVEL_EARLY := (1)%Z.
Abbreviation SSL_AD_UNEXPECTED_MESSAGE := (10)%Z.
Abbreviation SSL_AD_ILLEGAL_PARAMETER := (47)%Z.
Abbreviation SSL_AD_PROTOCOL_VERSION := (70)%Z.

(** The tables of functions of the protocol versions. *)
Inductive FUNCS : Type := ssl_3_0_funcs | tls_1_funcs | tls_1_3_funcs | tls_any_funcs.

(** The table [tls_new_record_layer] chooses. *)
Definition funcs_for (vers : Z) : option FUNCS :=
  if vers =? TLS_ANY_VERSION then Some tls_any_funcs
  else if vers =? TLS1_3_VERSION then Some tls_1_3_funcs
  else if (vers =? TLS1_2_VERSION) || (vers =? TLS1_1_VERSION) || (vers =? TLS1_VERSION) then Some tls_1_funcs
  else if vers =? SSL3_VERSION then Some ssl_3_0_funcs
  else None.

(** The fields of [ossl_record_layer_st] only TLS uses, and the callbacks. *)
Class tls_fields (X : Type) : Type := {
  funcs : X -> FUNCS;
  allow_plain_alerts : X -> bool;
  (* [enc_ctx] is there, and its cipher can pipeline *)
  pipeline_cipher : X -> bool;
  (* [NULL] is a function that says no *)
  skip_early_data : X -> bool * X;
  (* the version, the content type and the bytes *)
  rl_msg_callback : Z -> Z -> list Z -> X -> X
}.

Section Ops.
Context {B X : Type} `{!BIO B} `{!record_functions B X} `{!tls_fields X}.
Local Abbreviation RL := (OSSL_RECORD_LAYER B X).

Definition RLAYER_USE_EXPLICIT_IV (rl : RL) : bool :=
  let v := rl_version rl in
  (v =? TLS1_1_VERSION) || (v =? TLS1_2_VERSION) || (v =? 0x0100) || (v =? 0xFEFF) || (v =? 0xFEFD).

(** [RLAYERfatal(rl, al, ...)], and [0] or [OSSL_RECORD_RETURN_FATAL] is returned. *)
Local Abbreviation fatal := fatal0.

Definition callback (version type : Z) (bs : list Z) (rl : RL) : RL :=
  set_env (rl_msg_callback version type bs (env rl)) rl.

(** ** Helpers *)

Definition tls_record_app_data_waiting (rl : RL) : ret bool :=
  match buf (rbuf rl) with
  | None => Ok false
  | Some mem =>
      let left_ := left (rbuf rl) in
      if left_ <? SSL3_RT_HEADER_LENGTH then Ok false
      else match mem_read mem (offset (rbuf rl)) SSL3_RT_HEADER_LENGTH with
      | None => Fault
      | Some p =>
          if negb (get p 0 =? SSL3_RT_APPLICATION_DATA) then Ok false
          else
            let len := Z.lor (Z.shiftl (get p 3) 8) (get p 4) in
            Ok (negb (left_ <? SSL3_RT_HEADER_LENGTH + len))
      end
  end.

(** [max_early_data] is 32 bits wide. *)
Definition rlayer_early_data_count_ok (length overhead : Z) (send : bool) : ST RL unit := fun rl =>
  let al := if send then SSL_AD_INTERNAL_ERROR else SSL_AD_UNEXPECTED_MESSAGE in
  if rl_max_early_data rl =? 0 then fatal al rl
  else if (rl_max_early_data rl + overhead) `mod` 2 ^ 32 <? wrap64 (early_data_count rl + length) then fatal al rl
  else (Ok tt, set_early_data_count (wrap64 (early_data_count rl + length)) rl).

(** ** Checking a header *)

Definition tls_default_validate_record_header (j : nat) : ST RL unit := fun rl =>
  let rec_ := rrec_at j rl in
  if negb (rec_version rec_ =? rl_version rl) then fatal SSL_AD_PROTOCOL_VERSION rl
  else
    let len := if has_compctx (env rl) then SSL3_RT_MAX_ENCRYPTED_LENGTH
               else SSL3_RT_MAX_ENCRYPTED_LENGTH - SSL3_RT_MAX_COMPRESSED_OVERHEAD in
    if len <? rec_length rec_ then fatal SSL_AD_RECORD_OVERFLOW rl else (Ok tt, rl).

Definition tls13_validate_record_header (j : nat) : ST RL unit := fun rl =>
  let rec_ := rrec_at j rl in
  if negb (rec_type rec_ =? SSL3_RT_APPLICATION_DATA)
     && (negb (rec_type rec_ =? SSL3_RT_CHANGE_CIPHER_SPEC) || negb (is_first_handshake rl))
     && (negb (rec_type rec_ =? SSL3_RT_ALERT) || negb (allow_plain_alerts (env rl)))
  then fatal SSL_AD_UNEXPECTED_MESSAGE rl
  else if negb (rec_version rec_ =? TLS1_2_VERSION) then fatal SSL_AD_DECODE_ERROR rl
  else if SSL3_RT_MAX_TLS13_ENCRYPTED_LENGTH <? rec_length rec_ then fatal SSL_AD_RECORD_OVERFLOW rl
  else (Ok tt, rl).

(** Of [tls_any_funcs].  What a first record looks like that is not TLS decides
    about the reason code only. *)
Definition tls_validate_record_header (j : nat) : ST RL unit := fun rl =>
  let rec_ := rrec_at j rl in
  let len_ok (rl : RL) := if SSL3_RT_MAX_PLAIN_LENGTH <? rec_length rec_ then fatal SSL_AD_RECORD_OVERFLOW rl else (Ok tt, rl) in
  if rec_version rec_ =? SSL2_VERSION then
    if negb (rl_version rl =? TLS_ANY_VERSION) then fatal SSL_AD_INTERNAL_ERROR rl
    else if rec_length rec_ <? MIN_SSL2_RECORD_LEN then fatal SSL_AD_DECODE_ERROR rl
    else len_ok rl
  else if rl_version rl =? TLS_ANY_VERSION then
    if negb (Z.shiftr (rec_version rec_) 8 =? SSL3_VERSION_MAJOR)
    then fatal (if is_first_record rl then SSL_AD_NO_ALERT else SSL_AD_PROTOCOL_VERSION) rl
    else len_ok rl
  else if rl_version rl =? TLS1_3_VERSION then len_ok rl
  else if negb (rec_version rec_ =? rl_version rl) then
    if Z.land (rl_version rl) 0xFF00 =? Z.land (rec_version rec_) 0xFF00 then
      if rec_type rec_ =? SSL3_RT_ALERT then fatal SSL_AD_NO_ALERT rl
      else fatal SSL_AD_PROTOCOL_VERSION (set_rl_version (rec_version rec_ `mod` 2 ^ 16) rl)
    else fatal SSL_AD_PROTOCOL_VERSION rl
  else len_ok rl.

Definition validate_record_header (j : nat) : ST RL unit := fun rl =>
  match funcs (env rl) with
  | ssl_3_0_funcs | tls_1_funcs => tls_default_validate_record_header j rl
  | tls_1_3_funcs => tls13_validate_record_header j rl
  | tls_any_funcs => tls_validate_record_header j rl
  end.

(** ** The contents of a record *)

Definition tls_default_post_process_record (j : nat) : ST RL unit :=
  (fun rl => if has_compctx (env rl) then
               if SSL3_RT_MAX_COMPRESSED_LENGTH <? rec_length (rrec_at j rl) then fatal SSL_AD_RECORD_OVERFLOW rl
               else match tls_do_uncompress j rl with
                    | (Fail, rl) => fatal SSL_AD_DECOMPRESSION_FAILURE rl
                    | other => other
                    end
             else (Ok tt, rl)) ;;;
  fun rl => if SSL3_RT_MAX_PLAIN_LENGTH <? rec_length (rrec_at j rl) then fatal SSL_AD_RECORD_OVERFLOW rl else (Ok tt, rl).

Definition tls13_common_post_process_record (j : nat) : ST RL unit := fun rl =>
  let rec_ := rrec_at j rl in
  if negb (rec_type rec_ =? SSL3_RT_APPLICATION_DATA) && negb (rec_type rec_ =? SSL3_RT_ALERT)
     && negb (rec_type rec_ =? SSL3_RT_HANDSHAKE)
  then fatal SSL_AD_UNEXPECTED_MESSAGE rl
  else
    let rl := callback (rl_version rl) SSL3_RT_INNER_CONTENT_TYPE [rec_type rec_] rl in
    if ((rec_type rec_ =? SSL3_RT_HANDSHAKE) || (rec_type rec_ =? SSL3_RT_ALERT)) && (rec_length rec_ =? 0)
    then fatal SSL_AD_UNEXPECTED_MESSAGE rl else (Ok tt, rl).

(** The last byte that is not zero, but at least the first, from [end_] on. *)
Fixpoint strip_padding (bs : list Z) (end_ : nat) : nat :=
  match end_ with
  | O => O
  | S e => if get bs end_ =? 0 then strip_padding bs e else end_
  end.

Definition tls13_strip (j : nat) : ST RL unit := fun rl =>
  let rec_ := rrec_at j rl in
  if rec_type rec_ =? SSL3_RT_ALERT then (Ok tt, rl)
  else if (rec_length rec_ =? 0) || negb (rec_type rec_ =? SSL3_RT_APPLICATION_DATA) then fatal SSL_AD_UNEXPECTED_MESSAGE rl
  else match ptr_bytes rl rec_ (rec_data rec_) 0 (rec_length rec_) with
  | None => (Fault, rl)
  | Some bs =>
      let end_ := strip_padding bs (length bs - 1) in
      (Ok tt, upd_rrec j (fun r => set_rec_type (get bs end_) (set_rec_length (Z.of_nat end_) r)) rl)
  end.

Definition tls13_post_process_record (j : nat) : ST RL unit :=
  tls13_strip j ;;;
  (fun rl => if SSL3_RT_MAX_PLAIN_LENGTH <? rec_length (rrec_at j rl) then fatal SSL_AD_RECORD_OVERFLOW rl else (Ok tt, rl)) ;;;
  tls13_common_post_process_record j.

Definition post_process_record (j : nat) : ST RL unit := fun rl =>
  match funcs (env rl) with
  | ssl_3_0_funcs | tls_1_funcs | tls_any_funcs => tls_default_post_process_record j rl
  | tls_1_3_funcs => tls13_post_process_record j rl
  end.

(** ** Getting records *)

(** The packet as a [PACKET]. *)
Definition packet_reader (rl : RL) : ret PACKET :=
  match packet rl, buf (rbuf rl) with
  | Some p, Some mem => PACKET_buf_init (Ptr mem p) (packet_length rl)
  | _, _ => PACKET_buf_init Null (packet_length rl)
  end.

Definition packet_start (rl : RL) : list Z :=
  match packet rl, buf (rbuf rl) with
  | Some p, Some mem => default [] (mem_read mem p SSL3_RT_HEADER_LENGTH)
  | _, _ => []
  end.

(** Header fields of record [j]. *)
Definition set_header (j : nat) (type version length : Z) (rl : RL) : RL :=
  upd_rrec j (fun r => mkTLS_RL_RECORD version type length (orig_len r) (rec_off r) (rec_data r) (rec_input r) (rec_comp r)
                         (rec_epoch r) (rec_seq_num r)) rl.

(** A ClientHello in the format of SSL 2.0. *)
Definition sslv2_header (j : nat) (sslv2len : Z) : ST RL unit := fun rl =>
  let length := Z.land sslv2len 0x7fff in
  let rl := set_header j SSL3_RT_HANDSHAKE SSL2_VERSION length rl in
  if wrap64 (len (rbuf rl) - SSL2_RT_HEADER_LENGTH) <? length then fatal SSL_AD_RECORD_OVERFLOW rl else (Ok tt, rl).

(** The header of SSL 3.0 and later.  [length] is stored while it is parsed, the
    type and the version afterwards. *)
Definition sslv3_header (j : nat) (pkt : PACKET) : ST RL unit := fun rl =>
  match (type <~ PACKET_get_1 ;; version <~ PACKET_get_net_2 ;; length <~ PACKET_get_net_2_len ;;
         st_ret (type, version, length)) pkt with
  | (Fault, _) => (Fault, rl)
  | (Fail, _) => fatal SSL_AD_DECODE_ERROR (callback 0 SSL3_RT_HEADER (packet_start rl) rl)
  | (Ok (type, version, length), _) =>
      let rl := set_header j type version length rl in
      if version =? SSL2_VERSION then fatal SSL_AD_PROTOCOL_VERSION rl
      else
        let rl := callback version SSL3_RT_HEADER (packet_start rl) rl in
        if wrap64 (len (rbuf rl) - SSL3_RT_HEADER_LENGTH) <? length then fatal SSL_AD_RECORD_OVERFLOW rl else (Ok tt, rl)
  end.

(** Interpreting the five bytes that were read. *)
Definition parse_header (j : nat) : ST RL unit := fun rl =>
  match packet_reader rl with
  | Fault => (Fault, rl)
  | Fail => fatal SSL_AD_INTERNAL_ERROR rl
  | Ok pkt =>
      match (sslv2len <~ PACKET_get_net_2_len ;; type <~ PACKET_get_1 ;; st_ret (sslv2len, type)) pkt with
      | (Fault, _) => (Fault, rl)
      | (Fail, _) => fatal SSL_AD_DECODE_ERROR rl
      | (Ok (sslv2len, type), _) =>
          ((if (role rl =? OSSL_RECORD_ROLE_SERVER) && is_first_record rl && has sslv2len 0x8000
               && (type =? SSL2_MT_CLIENT_HELLO)
            then sslv2_header j sslv2len else sslv3_header j pkt) ;;;
           validate_record_header j) rl
      end
  end.

(** The header of record [j], unless it is there already.  [Some] is what to
    return; [Fail] is [OSSL_RECORD_RETURN_FATAL]. *)
Definition read_header (j : nat) : ST RL (option Z) := fun rl =>
  if (rstate rl =? SSL_ST_READ_BODY) && (SSL3_RT_HEADER_LENGTH <=? packet_length rl) then (Ok None, rl)
  else match tls_default_read_n SSL3_RT_HEADER_LENGTH (len (rbuf rl)) false (Nat.eqb j 0) rl with
  | (Ok (rret, _), rl) =>
      if rret <? OSSL_RECORD_RETURN_SUCCESS then (Ok (Some rret), rl)
      else (parse_header j ;;; st_ret None) (set_rstate SSL_ST_READ_BODY rl)
  | (Fail, rl) => (Fail, rl)
  | (Fault, rl) => (Fault, rl)
  end.

(** Its body, after which the record is complete: [data] and [input] point at it. *)
Definition read_body (j : nat) : ST RL (option Z) := fun rl =>
  let rec_ := rrec_at j rl in
  let hlen := if rec_version rec_ =? SSL2_VERSION then SSL2_RT_HEADER_LENGTH else SSL3_RT_HEADER_LENGTH in
  let more := if rec_version rec_ =? SSL2_VERSION
              then wrap64 (rec_length rec_ + SSL2_RT_HEADER_LENGTH - SSL3_RT_HEADER_LENGTH) else rec_length rec_ in
  let complete (rl : RL) : ret (option Z) * RL :=
    match packet rl with
    | None => (Fault, rl)
    | Some p =>
        (Ok None, set_is_first_record false (set_packet_length 0
           (upd_rrec j (fun r => mkTLS_RL_RECORD (rec_version r) (rec_type r) (rec_length r) (rec_length r) (rec_off r)
                                   (RBuf (p + hlen)) (RBuf (p + hlen)) (rec_comp r) (rec_epoch r) (rec_seq_num r))
              (set_rstate SSL_ST_READ_HEADER rl))))
    end in
  if 0 <? more then
    match tls_default_read_n more more true false rl with
    | (Ok (rret, _), rl) => if rret <? OSSL_RECORD_RETURN_SUCCESS then (Ok (Some rret), rl) else complete rl
    | (Fail, rl) => (Fail, rl)
    | (Fault, rl) => (Fault, rl)
    end
  else complete rl.

(** The loop that reads records, up to [todo + 1] of them; the result is what to
    return, or the number of records. *)
Fixpoint read_records (todo : nat) (j : nat) : ST RL (Z + nat) :=
  (fun rl => if (j <? length (rrec rl))%nat then (Ok tt, rl) else (Fault, rl)) ;;;
  h <~ read_header j ;;
  match h with
  | Some code => st_ret (inl code)
  | None =>
      b <~ read_body j ;;
      match b with
      | Some code => st_ret (inl code)
      | None => fun rl =>
          match todo with
          | O => (Ok (inr (S j)), rl)
          | S todo =>
              if (rec_type (rrec_at j rl) =? SSL3_RT_APPLICATION_DATA) && RLAYER_USE_EXPLICIT_IV rl
                 && pipeline_cipher (env rl)
              then match tls_record_app_data_waiting rl with
                   | Ok true => read_records todo (S j) rl
                   | Ok false => (Ok (inr (S j)), rl)
                   | Fail => (Fail, rl)
                   | Fault => (Fault, rl)
                   end
              else (Ok (inr (S j)), rl)
          end
      end
  end.

Definition no_records (rl : RL) : RL := set_num_released 0 (set_curr_rec 0 (set_num_recs 0 rl)).

(** A ChangeCipherSpec, which TLS 1.3 ignores. *)
Definition ignore_ccs (j : nat) : ST RL Z := fun rl =>
  let rec_ := rrec_at j rl in
  match (if rec_length rec_ =? 1 then ptr_bytes rl rec_ (rec_data rec_) 0 1 else Some []) with
  | None => (Fault, rl)
  | Some bs =>
      if negb (bool_decide (bs = [1])) then fatal SSL_AD_ILLEGAL_PARAMETER rl
      else
        let rl := upd_rrec j (set_rec_type SSL3_RT_HANDSHAKE) rl in
        let rl := set_empty_record_count (wrap64 (empty_record_count rl + 1)) rl in
        if MAX_EMPTY_RECORDS <? empty_record_count rl then fatal SSL_AD_UNEXPECTED_MESSAGE rl
        else (Ok OSSL_RECORD_RETURN_SUCCESS, no_records rl)
  end.

(** Encrypt-then-MAC: the MACs at the ends of [n] records from [j] on. *)
Fixpoint check_etm_macs (mac_size : Z) (n j : nat) : ST RL unit :=
  match n with
  | O => st_ret tt
  | S n => fun rl =>
      if rec_length (rrec_at j rl) <? mac_size then fatal SSL_AD_DECODE_ERROR rl
      else
        let rl := upd_rrec j (fun r => set_rec_length (rec_length r - mac_size) r) rl in
        let rec_ := rrec_at j rl in
        match rl_mac j rl with
        | (Ok (i, md), rl) =>
            match ptr_bytes rl (rrec_at j rl) (rec_data rec_) (rec_length rec_) mac_size with
            | None => (Fault, rl)
            | Some mac => if (i =? 0) || negb (mac_matches md mac mac_size) then fatal SSL_AD_BAD_RECORD_MAC rl
                          else check_etm_macs mac_size n (S j) rl
            end
        | (Fail, rl) => (Fail, rl)
        | (Fault, rl) => (Fault, rl)
        end
  end.

(** MAC-then-encrypt: do all MACs match?  No record is left out. *)
Fixpoint check_mte_macs (mac_size : Z) (macs : list (option (list Z))) (n j : nat) (enc_ok : bool) : ST RL bool :=
  match n with
  | O => st_ret enc_ok
  | S n => fun rl =>
      match rl_mac j rl with
      | (Ok (i, md), rl) =>
          let ok := match macs !! j with
                    | Some (Some mac) => negb (i =? 0) && mac_matches md mac mac_size
                    | _ => false
                    end in
          check_mte_macs mac_size macs n (S j)
            (enc_ok && ok && (rec_length (rrec_at j rl) <=? SSL3_RT_MAX_COMPRESSED_LENGTH + mac_size)) rl
      | (Fail, rl) => (Fail, rl)
      | (Fault, rl) => (Fault, rl)
      end
  end.

(** The contents of [n] records from [j] on. *)
Fixpoint post_process_records (n j : nat) : ST RL unit :=
  match n with
  | O => st_ret tt
  | S n =>
      post_process_record j ;;;
      (fun rl => if negb (max_frag_len rl =? SSL3_RT_MAX_PLAIN_LENGTH) && (max_frag_len rl <? rec_length (rrec_at j rl))
                 then fatal SSL_AD_RECORD_OVERFLOW rl else (Ok tt, upd_rrec j (set_rec_off 0) rl)) ;;;
      (fun rl => if rec_length (rrec_at j rl) =? 0 then
                   let rl := set_empty_record_count (wrap64 (empty_record_count rl + 1)) rl in
                   if MAX_EMPTY_RECORDS <? empty_record_count rl then fatal SSL_AD_UNEXPECTED_MESSAGE rl else (Ok tt, rl)
                 else (Ok tt, set_empty_record_count 0 rl)) ;;;
      post_process_records n (S j)
  end.

(** Deciphering failed.  Early data that cannot be read is skipped. *)
Definition decryption_failed (n : nat) : ST RL Z := fun rl =>
  if negb (alert rl =? SSL_AD_NO_ALERT) then (Fail, rl)
  else
    let '(skip, x) := if Nat.eqb n 1 then skip_early_data (env rl) else (false, env rl) in
    let rl := set_env x rl in
    if skip then
      (rlayer_early_data_count_ok (rec_length (rrec_at 0 rl)) EARLY_DATA_CIPHERTEXT_OVERHEAD false ;;;
       st_put (fun rl => set_sequence (replicate 8 0) (no_records (upd_rrec 0 (set_rec_length 0) rl))) ;;;
       st_ret OSSL_RECORD_RETURN_SUCCESS) rl
    else fatal SSL_AD_BAD_RECORD_MAC rl.

(** The [n] records that were read are deciphered and checked. *)
Definition process_records (n : nat) : ST RL Z :=
  mac_size <~ read_mac_size ;;
  mac_size <~ (fun rl => if use_etm rl && bool_decide (md_ctx (env rl) <> None)
                         then (check_etm_macs mac_size n 0 ;;; st_ret 0) rl else (Ok mac_size, rl)) ;;
  (fun rl => if 0 <? mac_size then
               let '(ok, x) := rl_item_ok (env rl) in
               if ok then (Ok tt, set_env x rl) else fatal SSL_AD_INTERNAL_ERROR (set_env x rl)
             else (Ok tt, rl)) ;;;
  e <~ rl_cipher (Z.of_nat n) mac_size ;;
  let '(enc_err, macs) := e in
  if enc_err =? 0 then decryption_failed n
  else
    ok <~ (fun rl => if has_enc_ctx (env rl) && negb (use_etm rl) && bool_decide (mjoin (md_ctx (env rl)) <> None)
                     then check_mte_macs mac_size macs n 0 true rl else (Ok true, rl)) ;;
    if negb ok then
      fun rl => if negb (alert rl =? SSL_AD_NO_ALERT) then (Fail, rl) else fatal SSL_AD_BAD_RECORD_MAC rl
    else
      post_process_records n 0 ;;;
      (fun rl => if (level rl =? OSSL_RECORD_PROTECTION_LEVEL_EARLY)
                    && (rec_type (rrec_at 0 rl) =? SSL3_RT_APPLICATION_DATA)
                 then rlayer_early_data_count_ok (rec_length (rrec_at 0 rl)) 0 false rl else (Ok tt, rl)) ;;;
      st_put (fun rl => set_num_released 0 (set_curr_rec 0 (set_num_recs (Z.of_nat n) rl))) ;;;
      st_ret OSSL_RECORD_RETURN_SUCCESS.

Definition get_more_records : ST RL Z :=
  (fun rl => if bool_decide (buf (rbuf rl) = None) then tls_setup_read_buffer rl else (Ok tt, rl)) ;;;
  (fun rl =>
     let max_recs := if max_pipelines rl =? 0 then 1 else max_pipelines rl in
     (r <~ read_records (Z.to_nat max_recs - 1) 0 ;;
      match r with
      | inl code => st_ret code
      | inr n => fun rl =>
          let j := (n - 1)%nat in
          if Nat.eqb n 1 && (rec_type (rrec_at j rl) =? SSL3_RT_CHANGE_CIPHER_SPEC) && (rl_version rl =? TLS1_3_VERSION)
             && is_first_handshake rl
          then ignore_ccs j rl
          else process_records n rl
      end) rl).

(** What is returned; never [None]. *)
Definition tls_get_more_records : ST RL (option Z) := fun rl =>
  match get_more_records rl with
  | (Ok code, rl) => (Ok (Some code), rl)
  | (Fail, rl) => (Ok (Some OSSL_RECORD_RETURN_FATAL), rl)
  | (Fault, rl) => (Fault, rl)
  end.

(** ** Queries and settings *)

Definition tls_unprocessed_read_pending (rl : RL) : bool := negb (left (rbuf rl) =? 0).
Definition tls_processed_read_pending (rl : RL) : bool := curr_rec rl <? num_recs rl.

Fixpoint app_data_loop (recs : list TLS_RL_RECORD) (num : Z) : Z :=
  match recs with
  | [] => num
  | r :: recs => if negb (rec_type r =? SSL3_RT_APPLICATION_DATA) then num else app_data_loop recs (wrap64 (num + rec_length r))
  end.
Definition tls_app_data_pending (rl : RL) : Z :=
  app_data_loop (drop (Z.to_nat (curr_rec rl)) (take (Z.to_nat (num_recs rl)) (rrec rl))) 0.

Definition tls_default_set_protocol_version (version : Z) (rl : RL) : bool := rl_version rl =? version.

Definition tls_any_set_protocol_version (vers : Z) (rl : RL) : bool * RL :=
  if negb (rl_version rl =? TLS_ANY_VERSION) && negb (rl_version rl =? vers) then (false, rl)
  else (true, set_rl_version vers rl).
End Ops.

(** ** The layer of TLS 1.3, and the layer without protection *)

(** The allocator and the callbacks. *)
Class Surroundings (M : Type) : Type := {
  su_malloc : M -> Z -> option (list Z * Z) * M;
  su_item_ok : M -> bool * M;
  su_allow_compression : M -> bool;
  su_skip_early_data : M -> bool * M;
  su_msg_callback : Z -> Z -> list Z -> M -> M
}.

(** The fields of a layer with [tls_1_3_funcs]. *)
Record TLS13_ENV (K M : Type) : Type := mkTLS13 {
  e_plain_alerts : bool;
  e_iv : list Z;
  e_taglen : Z;
  e_ctx : option K;
  e_pipeline : bool;
  e_su : M
}.
Arguments mkTLS13 {K M}.
Arguments e_plain_alerts {K M} _.
Arguments e_iv {K M} _.
Arguments e_taglen {K M} _.
Arguments e_ctx {K M} _.
Arguments e_pipeline {K M} _.
Arguments e_su {K M} _.

Definition upd_su {K M A} (f : M -> A * M) (x : TLS13_ENV K M) : A * TLS13_ENV K M :=
  let '(a, m) := f (e_su x) in (a, mkTLS13 (e_plain_alerts x) (e_iv x) (e_taglen x) (e_ctx x) (e_pipeline x) m).

Section Tls13.
Context {B K M : Type} `{L : Libc} `{!EVP K} `{!Surroundings M}.
Local Abbreviation X := (TLS13_ENV K M).
Local Abbreviation RL := (OSSL_RECORD_LAYER B X).

Definition tls_set_plain_alerts (allow : bool) (x : X) : X :=
  mkTLS13 allow (e_iv x) (e_taglen x) (e_ctx x) (e_pipeline x) (e_su x).

(** [tls13_cipher(rl, rl->rrec, n_recs, 0, ...)] *)
Definition tls13_decipher (n_recs : Z) (rl : RL) : ret (Z * list (option (list Z))) * RL :=
  let x := env rl in
  match buf (rbuf rl), rec_data (rr rl), rec_input (rr rl) with
  | Some mem, RBuf d, RBuf i =>
      let '(r, c) := tls13_cipher (e_iv x) (e_taglen x) (rec_type (rr rl)) (rec_version (rr rl)) d i n_recs false
                       (mkCIPHERING (sequence rl) (alert rl) (e_ctx x) mem (rec_length (rr rl))) in
      let x := mkTLS13 (e_plain_alerts x) (e_iv x) (e_taglen x) (c_ctx c) (e_pipeline x) (e_su x) in
      (match r with Ok _ => Ok (1, []) | Fail => Ok (0, []) | Fault => Fault end,
       set_env x (set_alert (c_alert c) (set_sequence (c_sequence c)
         (upd_rr (set_rec_length (c_length c)) (set_rbuf (with_mem (c_mem c) (rbuf rl)) rl)))))
  | _, _, _ => (Fault, rl)
  end.

#[export] Instance tls13_functions : record_functions B X := {
  rl_malloc x n := upd_su (fun m => su_malloc m n) x;
  rl_item_ok x := upd_su su_item_ok x;
  allow_compression x := su_allow_compression (e_su x);
  md_ctx _ := None;
  has_enc_ctx x := match e_ctx x with Some _ => true | None => false end;
  has_compctx _ := false;
  expand_block x _ _ := (None, x);
  rl_cipher n _ rl := tls13_decipher n rl;
  rl_mac _ rl := (Fault, rl)
}.

#[export] Instance tls13_fields : tls_fields X := {
  funcs _ := tls_1_3_funcs;
  allow_plain_alerts := e_plain_alerts;
  pipeline_cipher := e_pipeline;
  skip_early_data x := upd_su su_skip_early_data x;
  rl_msg_callback v t bs x := snd (upd_su (fun m => (tt, su_msg_callback v t bs m)) x)
}.
End Tls13.

(** The layer before there are keys; [tls_any_cipher] does nothing. *)
Section Any.
Context {B M : Type} `{!Surroundings M}.
Local Abbreviation RL := (OSSL_RECORD_LAYER B M).

Definition tls_any_cipher (rl : RL) : ret (Z * list (option (list Z))) * RL := (Ok (1, []), rl).

#[export] Instance tls_any_functions : record_functions B M := {
  rl_malloc := su_malloc;
  rl_item_ok := su_item_ok;
  allow_compression := su_allow_compression;
  md_ctx _ := None;
  has_enc_ctx _ := false;
  has_compctx _ := false;
  expand_block x _ _ := (None, x);
  rl_cipher _ _ rl := tls_any_cipher rl;
  rl_mac _ rl := (Fault, rl)
}.

#[export] Instance tls_any_fields : tls_fields M := {
  funcs _ := tls_any_funcs;
  allow_plain_alerts _ := false;
  pipeline_cipher _ := false;
  skip_early_data := su_skip_early_data;
  rl_msg_callback := su_msg_callback
}.
End Any.
End TlsRecord.
