(* ===== verification/TlsReader.v ===== *)
(** * The TLS 1.3 record layer: what reading does

    [tls_get_more_records] with the functions of TLS 1.3, over any transport:
    the invariant of a reading layer, a call of [tls_get_more_records] on
    arbitrary bytes, and the records handed out in a series of calls. *)

From stdpp Require Import prelude list.
From Stdlib Require Import ZArith Lia ZifyBool.
From S2P Require Import Prelude Packet Buffer WPacket PQueue RecordTypes RecordRead DtlsRecord DtlsReplay TlsCrypt TlsRecord.

Local Open Scope Z_scope.
Local Open Scope st_scope.

Module TlsReader.
Import TlsCrypt TlsRecord.

(** ** A transport that delivers *)

(** A stream of bytes: [to_come] arrives, in order.  Reading may have to be tried
    again, but not for ever: [cost] bounds the number of calls that are needed. *)
Class Stream (B : Type) `{!BIO B} (to_come : B -> list Z) (cost : B -> nat) : Prop := {
  stream_read b n r b' : 0 < n -> BIO_read b n = (r, b') ->
    match r with
    | BioData bs => to_come b = bs ++ to_come b'
    | BioRetry => to_come b' = to_come b
    | BioEof | BioError => False
    end;
  stream_cost b n r b' : 0 < n -> BIO_read b n = (r, b') -> (cost b' <= cost b)%nat /\ (to_come b <> [] -> (cost b' < cost b)%nat)
}.

Section Steady.
Context {B X : Type} `{!BIO B} `{!BIOOk B} {to_come : B -> list Z} {cost : B -> nat} `{!Stream B to_come cost}.
Local Abbreviation RL := (OSSL_RECORD_LAYER B X).

Lemma stream_reads (b : B) got s : reads (None, Some b) got s ->
  exists b', s = (None, Some b') /\ to_come b = got ++ to_come b' /\ (cost b' <= cost b)%nat.
Proof.
  intros H. remember (None, Some b) as s0 eqn:E0. revert b E0.
  induction H as [s| |b0 n bs b1 got s Hn Hr H IH| | |b0 n r b1 Hn Hr Hc]; intros b2 E2; simplify_eq.
  - by exists b2.
  - pose proof (stream_read b2 n (BioData bs) b1 Hn Hr) as E. destruct (IH b1 eq_refl) as (b' & -> & E' & Hc).
    pose proof (stream_cost b2 n _ b1 Hn Hr). exists b'. split; [done|]. split; [by rewrite E, E', (assoc_L (++))|lia].
  - pose proof (stream_read b2 n r b1 Hn Hr) as E. pose proof (stream_cost b2 n r b1 Hn Hr). exists b1. split; [done|].
    split; [|lia]. destruct r; [by destruct Hc as [?|[?|?]]|done..].
Qed.

(** There are not [n] bytes yet. *)
Definition waiting (b : B) (n : Z) (rl : RL) (code : Z) : Prop :=
  code = OSSL_RECORD_RETURN_RETRY /\ left (rbuf rl) < n
  /\ exists b', bio rl = Some b' /\ (to_come b' <> [] -> (cost b' < cost b)%nat).

(** Over a stream the loop ends with the bytes or waits. *)
Lemma steady_loop fuel : forall n max at_ left_ (rl : RL) b code n' left' rl', prev rl = None -> bio rl = Some b -> isdtls rl = false -> n <= max ->
  read_loop fuel n max at_ left_ rl = (Ok (code, n', left'), rl') ->
  code = OSSL_RECORD_RETURN_SUCCESS
  \/ (code = OSSL_RECORD_RETURN_RETRY /\ left' < n /\ exists b', bio rl' = Some b' /\ (to_come b' <> [] -> (cost b' < cost b)%nat)).
Proof.
  induction fuel as [|fuel IH]; intros n max at_ left_ rl b code n' left' rl' Hp Hb Hd Hm; cbn [read_loop];
    destruct (n <=? left_) eqn:E; zbool; try (intros [= <- ]; by left).
  rewrite Hp, Hb. destruct (BIO_read b (max - left_)) as [r b'] eqn:Er. pose proof (stream_read b (max - left_) r b' ltac:(lia) Er) as Hs.
  pose proof (stream_cost b (max - left_) r b' ltac:(lia) Er) as [Hc1 Hc2].
  destruct r as [bs| | |]; try done.
  2: { intros [= <- <- <- <-]. right. split; [done|]. split; [done|]. exists b'. split; [done|]. by rewrite Hs. }
  cbn [set_bio rbuf]. destruct (buf (rbuf rl)) as [mem|]; [|done]. destruct (mem_write _ _ _) as [mem'|]; [|done].
  cbn [isdtls set_rbuf]. change (isdtls (set_bio (Some b') rl)) with (isdtls rl). rewrite Hd. cbn [andb].
  intros H. eapply (IH _ _ _ _ _ b') in H; try done. destruct H as [->|(-> & ? & b1 & ? & Hc)]; [by left|right].
  split; [done|]. split; [done|]. exists b1. split; [done|]. intros Hne. specialize (Hc Hne). lia.
Qed.

Lemma steady_read_n n max (extend clearold : bool) (rl : RL) b code k rl' : prev rl = None -> bio rl = Some b -> isdtls rl = false -> 0 < n ->
  rb_wf (rbuf rl) -> buf (rbuf rl) <> None -> (if extend then packet_at rl else clearold = true) ->
  rbuf_align (rbuf rl) + (if extend then packet_length rl else 0) + n <= len (rbuf rl) ->
  tls_default_read_n n max extend clearold rl = (Ok (code, k), rl') ->
  code = OSSL_RECORD_RETURN_SUCCESS \/ waiting b n rl' code.
Proof.
  intros Hp Hb Hd Hn Hwf Hbuf Hex Hroom. unfold tls_default_read_n. rewrite (proj2 (Z.eqb_neq n 0)) by lia.
  destruct (prepare_spec extend clearold rl Hwf Hbuf Hex) as
    (rl1 & -> & Hpa & Hwf1 & Hh & Hf & Hp1 & Hb1 & Hal & Hpl & Hleft). pose proof (read_frame_dtls _ _ Hf) as Hd1.
  destruct Hf as (_ & Ha & _ & Hlen). pose proof Hpa as [[mem Em] _ Ho Hl0 Hl1 He].
  assert (Eal : rbuf_align (rbuf rl1) = rbuf_align (rbuf rl)) by (unfold rbuf_align; by rewrite Ha).
  pose proof (align_range (rbuf rl1)). unfold rb_wf in Hwf1. rewrite Em in Hwf1. destruct Hwf1 as (Hm & Hsz & _).
  rewrite Hd1, Hd. cbn [andb]. rewrite wrap64_small by lia.
  destruct (n <=? left (rbuf rl1)); [intros [= <- ]; by left|]. rewrite (proj2 (Z.ltb_ge _ n)) by lia.
  match goal with |- context [read_loop ?f n ?m ?a ?l rl1] => destruct (read_loop f n m a l rl1) as [[[[code1 n'] left']| |] rl2] eqn:El end; try done.
  eapply steady_loop in El; [|by rewrite Hp1|by rewrite Hb1|by rewrite Hd1|].
  - destruct El as [->|(-> & Hlt & b' & Hb' & Hc)]; simpl; intros [= <- _ <-]; [by left|right].
    split; [done|]. destruct (_ && _); (split; [done|by exists b']).
  - destruct (negb (read_ahead rl1)); cbn [andb negb]; [lia|]. repeat case_match; zbool; lia.
Qed.
End Steady.

(** ** The header *)

Lemma header_inj t v n t' v' n' : 0 <= t < 256 -> 0 <= t' < 256 -> 0 <= v < 65536 -> 0 <= v' < 65536 ->
  0 <= n < 65536 -> 0 <= n' < 65536 -> header t v n = header t' v' n' -> t = t' /\ v = v' /\ n = n'.
Proof.
  intros Ht Ht' Hv Hv' Hn Hn' E. unfold header in E.
  apply app_inj_1 in E as [E1 E]; [|by rewrite !length_be_bytes]. apply app_inj_1 in E as [E2 E3]; [|by rewrite !length_be_bytes].
  apply (f_equal be_val) in E1, E2, E3. rewrite !be_val_bytes_small in E1, E2, E3 by (simpl; lia). done.
Qed.

Lemma header_split h : length h = 5%nat -> Forall is_byte h ->
  exists t v n, h = header t v n /\ 0 <= t < 256 /\ 0 <= v < 65536 /\ 0 <= n < 65536.
Proof.
  intros Hl Hb. exists (be_val (take 1 h)), (be_val (take 2 (drop 1 h))), (be_val (drop 3 h)).
  assert (H1 : Forall is_byte (take 1 h) /\ length (take 1 h) = 1%nat) by (split; [by apply Forall_take|rewrite length_take; lia]).
  assert (H2 : Forall is_byte (take 2 (drop 1 h)) /\ length (take 2 (drop 1 h)) = 2%nat)
    by (split; [by apply Forall_take, Forall_drop|rewrite length_take, length_drop; lia]).
  assert (H3 : Forall is_byte (drop 3 h) /\ length (drop 3 h) = 2%nat) by (split; [by apply Forall_drop|rewrite length_drop; lia]).
  destruct H1 as [B1 L1], H2 as [B2 L2], H3 as [B3 L3].
  pose proof (be_val_range _ B1) as R1. pose proof (be_val_range _ B2) as R2. pose proof (be_val_range _ B3) as R3.
  rewrite L1 in R1. rewrite L2 in R2. rewrite L3 in R3. split; [|simpl in *; lia].
  unfold header. pose proof (be_bytes_val _ B1) as E1. pose proof (be_bytes_val _ B2) as E2. pose proof (be_bytes_val _ B3) as E3.
  rewrite L1 in E1. rewrite L2 in E2. rewrite L3 in E3. rewrite E1, E2, E3.
  change (drop 3 h) with (drop (1 + 2) h). by rewrite <- drop_drop, !take_drop.
Qed.

(** A number at the front of what a reader still has. *)
Lemma uint_step (get : ST PACKET Z) (n : nat) pkt bs rest : refines eq get (Parser.p_uint n) -> wf pkt ->
  view pkt = bs ++ rest -> length bs = n ->
  exists pkt', get pkt = (Ok (be_val bs), pkt') /\ wf pkt' /\ view pkt' = rest.
Proof.
  intros Hg Hwf Hv Hl. specialize (Hg pkt Hwf). unfold Parser.p_uint, Parser.p_map, Parser.p_bytes in Hg.
  rewrite Hv in Hg. subst n. rewrite decide_True, take_app_length, drop_app_length in Hg by (rewrite length_app; lia).
  destruct Hg as (a & pkt' & E & -> & ? & ? & _). by exists pkt'.
Qed.

Section Header.
Context {B K M : Type} `{!BIO B} `{!BIOOk B} `{L : Libc} {LO : LibcOk L} `{!EVP K} `{!Surroundings M}.
Local Abbreviation X := (TLS13_ENV K M).
Local Abbreviation RL := (OSSL_RECORD_LAYER B X).

(** Environments that differ in the allocator and what callbacks keep only. *)
Definition same_env (x x' : X) : Prop := mkTLS13 (e_plain_alerts x) (e_iv x) (e_taglen x) (e_ctx x) (e_pipeline x) (e_su x') = x'.

Lemma same_env_upd {A} (f : M -> A * M) (x : X) : same_env x (snd (upd_su f x)).
Proof. unfold upd_su. by destruct (f (e_su x)). Qed.
#[global] Instance same_env_refl : Reflexive same_env.
Proof. by intros []. Qed.
#[global] Instance same_env_trans : Transitive same_env.
Proof. intros [] [] []. unfold same_env. simpl. intros [= ]. intros [= ]. by subst. Qed.

(** The headers that are accepted. *)
Definition accepts (rl : RL) (t v n : Z) : bool :=
  ((t =? SSL3_RT_APPLICATION_DATA) || ((t =? SSL3_RT_CHANGE_CIPHER_SPEC) && is_first_handshake rl)
   || ((t =? SSL3_RT_ALERT) && e_plain_alerts (env rl)))
  && (v =? TLS1_2_VERSION) && (n <=? SSL3_RT_MAX_TLS13_ENCRYPTED_LENGTH) && (n <=? len (rbuf rl) - SSL3_RT_HEADER_LENGTH).

Lemma rr_set_header t v n (rl : RL) : rrec rl <> [] ->
  rec_type (rr (set_header 0 t v n rl)) = t /\ rec_version (rr (set_header 0 t v n rl)) = v /\ rec_length (rr (set_header 0 t v n rl)) = n.
Proof. unfold rr, rrec_at, set_header, upd_rrec. cbn [rrec set_rrec]. destruct (rrec rl); [done|]. done. Qed.

Lemma validate13_spec t v n (rl : RL) x : rrec rl <> [] -> same_env (env rl) x ->
  n <= len (rbuf rl) - SSL3_RT_HEADER_LENGTH ->
  exists rl', validate_record_header 0 (set_env x (set_header 0 t v n rl)) = (if accepts rl t v n then Ok tt else Fail, rl')
    /\ (accepts rl t v n = true -> rl' = set_env x (set_header 0 t v n rl)).
Proof.
  intros Hr Hx Hn. destruct (rr_set_header t v n rl Hr) as (E1 & E2 & E3). unfold rr in E1, E2, E3.
  set (rl1 := set_env x (set_header 0 t v n rl)).
  assert (Ef : is_first_handshake rl1 = is_first_handshake rl) by done. assert (Ex : env rl1 = x) by done.
  unfold validate_record_header. rewrite Ex. cbn [funcs tls13_fields]. unfold tls13_validate_record_header. rewrite Ef, Ex.
  change (rrec_at 0 rl1) with (rrec_at 0 (set_header 0 t v n rl)). rewrite E1, E2, E3. cbn [allow_plain_alerts tls13_fields].
  replace (e_plain_alerts x) with (e_plain_alerts (env rl)) by (by rewrite <- Hx).
  unfold accepts. rewrite (proj2 (Z.leb_le n (len (rbuf rl) - 5))) by lia. rewrite andb_true_r.
  destruct (t =? 23), (t =? 20), (t =? 21), (is_first_handshake rl), (e_plain_alerts (env rl)), (v =? TLS1_2_VERSION);
    cbn [andb orb negb]; try (by eexists); rewrite Z.ltb_antisym; destruct (n <=? _); cbn [negb]; by eexists.
Qed.

(** The five bytes of the packet are a header, which is accepted or not. *)
Lemma parsed_header (rl : RL) : packet_at rl -> rb_wf (rbuf rl) -> packet_length rl = 5 -> rrec rl <> [] ->
  (role rl =? OSSL_RECORD_ROLE_SERVER) && is_first_record rl = false ->
  exists t v n x rl', pkt_bytes rl = header t v n /\ 0 <= t < 256 /\ 0 <= v < 65536 /\ 0 <= n < 65536
    /\ parse_header 0 rl = (if accepts rl t v n then Ok tt else Fail, rl') /\ same_env (env rl) x
    /\ (accepts rl t v n = true -> rl' = set_env x (set_header 0 t v n rl)).
Proof.
  intros Hpa Hwf Hl Hr Hv2. pose proof Hpa as [[mem Em] Ep Ho _ Hle He]. pose proof (align_range (rbuf rl)) as Har.
  pose proof (pkt_length rl Hpa Hwf) as Hpl. pose proof Hwf as Hwf'. unfold rb_wf in Hwf'. rewrite Em in Hwf'. destruct Hwf' as (Hm & Hal & Hby & _).
  set (pkt := mkPACKET (Ptr mem (rbuf_align (rbuf rl))) 5).
  assert (Hv : view pkt = pkt_bytes rl) by (unfold pkt_bytes; rewrite Em, Hl; done).
  assert (Hw : wf pkt) by (split; [by vm_compute|]; simpl; split_and!; (done || lia)).
  destruct (header_split (pkt_bytes rl)) as (t & v & n & Eh & Ht & Hvv & Hn); [lia|rewrite <- Hv; by apply view_is_byte|].
  exists t, v, n. unfold parse_header, packet_reader. rewrite Ep, Em, Hl.
  change (PACKET_buf_init (Ptr mem (rbuf_align (rbuf rl))) 5) with (Ok pkt).
  rewrite Eh in Hv. unfold header in Hv.
  assert (Hpeek : exists a b pkt', (sslv2len <~ PACKET_get_net_2_len ;; type <~ PACKET_get_1 ;; st_ret (sslv2len, type)) pkt = (Ok (a, b), pkt')).
  { destruct (uint_step PACKET_get_net_2_len 2 pkt (take 2 (view pkt)) (drop 2 (view pkt)) get_net_2_refines Hw) as (p1 & E1 & W1 & V1);
      [by rewrite take_drop|by rewrite Hv|].
    destruct (uint_step PACKET_get_1 1 p1 (take 1 (view p1)) (drop 1 (view p1)) get_1_refines W1) as (p2 & E2 & W2 & V2);
      [by rewrite take_drop|by rewrite V1, Hv|].
    eexists _, _, p2. rewrite (st_bind_ok _ _ _ _ _ E1), (st_bind_ok _ _ _ _ _ E2). done. }
  destruct Hpeek as (a & b & p0 & ->). rewrite Hv2. cbn [andb].
  destruct (uint_step PACKET_get_1 1 pkt _ _ get_1_refines Hw Hv) as (p1 & E1 & W1 & V1); [done|].
  destruct (uint_step PACKET_get_net_2 2 p1 _ _ get_net_2_refines W1 V1) as (p2 & E2 & W2 & V2); [done|].
  destruct (uint_step PACKET_get_net_2_len 2 p2 (be_bytes 2 n) [] get_net_2_refines W2) as (p3 & E3 & W3 & V3); [by rewrite app_nil_r|done|].
  rewrite !be_val_bytes_small in * by (simpl; lia).
  set (rl1 := callback v SSL3_RT_HEADER (packet_start (set_header 0 t v n rl)) (set_header 0 t v n rl)).
  assert (Hx : same_env (env rl) (env rl1)) by (apply (same_env_upd (fun m => (tt, su_msg_callback _ _ _ m)))).
  exists (env rl1). unfold st_bind at 1. unfold sslv3_header.
  rewrite (st_bind_ok _ _ _ _ _ E1), (st_bind_ok _ _ _ _ _ E2), (st_bind_ok _ _ _ _ _ E3). cbn [st_ret]. fold rl1.
  destruct (v =? SSL2_VERSION) eqn:E; zbool.
  { eexists. assert (Ea : accepts rl t v n = false) by (unfold accepts; rewrite E; change (2 =? TLS1_2_VERSION) with false; by rewrite andb_false_r). rewrite Ea. split_and!; (done || lia). }
  change (len (rbuf rl1)) with (len (rbuf rl)). rewrite wrap64_small by lia.
  destruct (len (rbuf rl) - 5 <? n) eqn:En; zbool.
  { eexists. assert (Ea : accepts rl t v n = false) by (unfold accepts; rewrite (proj2 (Z.leb_gt n (len (rbuf rl) - 5))) by lia; by rewrite andb_false_r).
    rewrite Ea. split_and!; (done || lia). }
  destruct (validate13_spec t v n rl (env rl1) Hr Hx ltac:(lia)) as (rl2 & E4 & E5). exists rl2. split_and!; (done || lia).
Qed.
End Header.

(** ** The padding *)

Lemma strip_le bs e : (strip_padding bs e <= e)%nat.
Proof. induction e as [|e IH]; [done|]. cbn [strip_padding]. destruct (_ =? 0); lia. Qed.

Lemma strip_zeros bs e i : (strip_padding bs e < i <= e)%nat -> get bs i = 0.
Proof.
  induction e as [|e IH]; cbn [strip_padding]; [lia|]. destruct (get bs (S e) =? 0) eqn:E; zbool; [|lia].
  intros Hi. destruct (decide (i = S e)) as [->|]; [done|]. apply IH. lia.
Qed.

Lemma strip_found bs e : get bs (strip_padding bs e) <> 0 \/ strip_padding bs e = 0%nat.
Proof. induction e as [|e IH]; cbn [strip_padding]; [by right|]. destruct (get bs (S e) =? 0) eqn:E; zbool; [done|by left]. Qed.

(** What is stripped is zeros. *)
Lemma strip_split p : (1 <= length p)%nat -> let e := strip_padding p (length p - 1) in
  (e < length p)%nat /\ p = take e p ++ get p e :: replicate (length p - S e) 0.
Proof.
  intros Hp e. pose proof (strip_le p (length p - 1)) as He. fold e in He. split; [lia|].
  apply list_eq. intros i. destruct (decide (i < e)%nat) as [Hi|Hi].
  { rewrite lookup_app_l by (rewrite length_take; lia). by rewrite lookup_take, decide_True. }
  rewrite lookup_app_r by (rewrite length_take; lia). rewrite length_take, Nat.min_l by lia.
  destruct (decide (i < length p)%nat) as [Hl|Hl].
  2: { rewrite lookup_ge_None_2 by lia. symmetry. apply lookup_ge_None_2. simpl. rewrite length_replicate. lia. }
  destruct (lookup_lt_is_Some_2 p i Hl) as [v Ev]. rewrite Ev.
  destruct (i - e)%nat as [|j] eqn:Ej; simpl.
  - unfold get. replace e with i by lia. by rewrite Ev.
  - rewrite lookup_replicate_2 by lia. pose proof (strip_zeros p (length p - 1) i ltac:(lia)) as Hz. unfold get in Hz. rewrite Ev in Hz. simpl in Hz. congruence.
Qed.

(** Padding of any length is stripped. *)
Lemma strip_padded data t k : t <> 0 ->
  strip_padding (data ++ t :: replicate k 0) (length (data ++ t :: replicate k 0) - 1) = length data.
Proof.
  intros Ht. set (p := data ++ t :: replicate k 0).
  assert (Hlen : length p = (length data + S k)%nat) by (unfold p; rewrite length_app; simpl; by rewrite length_replicate).
  assert (Hz : forall i, (length data < i)%nat -> get p i = 0).
  { intros i Hi. unfold get, p. rewrite lookup_app_r by lia. destruct (i - length data)%nat as [|j] eqn:Ej; [lia|]. simpl.
    destruct (replicate k 0 !! j) eqn:E; [|done]. by apply lookup_replicate in E as [-> _]. }
  assert (Ht' : get p (length data) = t) by (unfold get, p; by rewrite lookup_app_r, Nat.sub_diag).
  pose proof (strip_zeros p (length p - 1) (length data)) as H1. pose proof (strip_found p (length p - 1)) as H2.
  pose proof (strip_le p (length p - 1)) as H3. destruct (decide (strip_padding p (length p - 1) <= length data)%nat) as [Hle|Hgt].
  - destruct (decide (strip_padding p (length p - 1) < length data)%nat); [|lia]. rewrite H1 in Ht' by lia. done.
  - destruct H2 as [H2|H2]; [|lia]. by rewrite Hz in H2 by lia.
Qed.

(** ** The layer *)

(** What the allocator promises. *)
Class SurroundingsOk (M : Type) `{!Surroundings M} : Prop := {
  su_malloc_ok m n d a m' : 0 <= n -> su_malloc m n = (Some (d, a), m') -> Z.of_nat (length d) = n /\ Forall is_byte d
}.

Section Layer.
Context {B K M : Type} `{!BIO B} `{!BIOOk B} `{L : Libc} {LO : LibcOk L} `{!EVP K} `{!Surroundings M} `{!SurroundingsOk M}.
Context {KEY : Type} {ivlen taglen : Z} `{A : !AEAD K KEY ivlen taglen} (iv : list Z) (key : KEY).
Local Abbreviation X := (TLS13_ENV K M).
Local Abbreviation RL := (OSSL_RECORD_LAYER B X).

(** What is to be ciphered, for a layer with the memory [mem]. *)
Definition ciphering (mem : list Z) (rl : RL) : CIPHERING K :=
  mkCIPHERING (sequence rl) (alert rl) (e_ctx (env rl)) mem (rec_length (rr rl)).

(** A layer of TLS 1.3 that reads with this IV and this key, and does not take
    alerts that are not protected. *)
Record layer_ok (rl : RL) : Prop := {
  lo_dtls : isdtls rl = false;
  lo_version : rl_version rl = TLS1_3_VERSION;
  lo_v2 : (role rl =? OSSL_RECORD_ROLE_SERVER) && is_first_record rl = false;
  lo_sizes : 0 <= max_frag_len rl <= SSL3_RT_MAX_PLAIN_LENGTH /\ 0 <= max_pipelines rl <= 32 /\ 0 <= default_len (rbuf rl) < 2 ^ 40;
  lo_level : level rl <> OSSL_RECORD_PROTECTION_LEVEL_EARLY;
  lo_empty : 0 <= empty_record_count rl <= MAX_EMPTY_RECORDS;
  lo_rrec : rrec rl <> [];
  lo_wf : rb_wf (rbuf rl);
  lo_room : buf (rbuf rl) <> None -> max_frag_len rl + 328 <= len (rbuf rl);
  lo_plain : e_plain_alerts (env rl) = false;
  lo_iv : e_iv (env rl) = iv /\ e_taglen (env rl) = taglen;
  lo_key : prepared (ivlen := ivlen) (taglen := taglen) iv key (ciphering [] rl)
}.

(** The header of the next record has been read and accepted. *)
Definition in_body (rl : RL) : bool := (rstate rl =? SSL_ST_READ_BODY) && (SSL3_RT_HEADER_LENGTH <=? packet_length rl).

(** What has been received and not been dealt with. *)
Definition pending (rl : RL) : list Z := held (in_body rl) rl.

Record body_next (rl : RL) (t n : Z) : Prop := {
  bn_packet : packet_at rl;
  bn_length : packet_length rl = SSL3_RT_HEADER_LENGTH;
  bn_bytes : pkt_bytes rl = header t TLS1_2_VERSION n;
  bn_rec : rec_type (rr rl) = t /\ rec_version (rr rl) = TLS1_2_VERSION /\ rec_length (rr rl) = n;
  bn_type : t = SSL3_RT_APPLICATION_DATA \/ t = SSL3_RT_CHANGE_CIPHER_SPEC;
  bn_size : 0 <= n <= SSL3_RT_MAX_TLS13_ENCRYPTED_LENGTH
}.

(** The invariant between calls. *)
Definition tls_inv (rl : RL) : Prop := layer_ok rl /\ (in_body rl = true -> exists t n, body_next rl t n).

(** Reading does not change these. *)
Record stays (rl rl' : RL) : Prop := {
  st_hs : is_first_handshake rl' = is_first_handshake rl;
  st_frag : max_frag_len rl' = max_frag_len rl;
  st_level : level rl' = level rl;
  st_seq : sequence rl' = sequence rl;
  st_empty : empty_record_count rl' = empty_record_count rl;
  st_early : rl_max_early_data rl' = rl_max_early_data rl /\ early_data_count rl' = early_data_count rl;
  st_pipes : max_pipelines rl' = max_pipelines rl;
  st_recs : num_recs rl' = num_recs rl /\ curr_rec rl' = curr_rec rl /\ num_released rl' = num_released rl;
  st_env : same_env (env rl) (env rl')
}.
#[global] Instance stays_refl : Reflexive stays.
Proof. intros rl. by split. Qed.
#[global] Instance stays_trans : Transitive stays.
Proof. intros rl1 rl2 rl3 [] []. split; try (etransitivity; eassumption); destruct_and?; split_and?; congruence. Qed.

Lemma frame_stays (rl rl' : RL) : read_frame rl rl' -> stays rl rl'.
Proof. intros [-> _]. by split. Qed.

Lemma prepared_other (rl rl' : RL) mem mem' : sequence rl' = sequence rl -> e_ctx (env rl') = e_ctx (env rl) ->
  prepared (ivlen := ivlen) (taglen := taglen) iv key (ciphering mem rl) -> prepared (ivlen := ivlen) (taglen := taglen) iv key (ciphering mem' rl').
Proof. intros Es Ec [? ? ? ?]. split; try done; unfold ciphering in *; cbn [c_sequence c_ctx] in *; by rewrite ?Es, ?Ec. Qed.

Lemma same_env_fields (x x' : X) : same_env x x' ->
  e_plain_alerts x' = e_plain_alerts x /\ e_iv x' = e_iv x /\ e_taglen x' = e_taglen x /\ e_ctx x' = e_ctx x /\ e_pipeline x' = e_pipeline x.
Proof. by intros <-. Qed.

(** The layer stays as it is when the record, the sources, the packet, or the
    bytes in the buffer change. *)
Lemma layer_ok_fields (rl rl' : RL) : layer_ok rl ->
  max_frag_len rl' = max_frag_len rl /\ level rl' = level rl /\ max_pipelines rl' = max_pipelines rl
  /\ isdtls rl' = isdtls rl /\ rl_version rl' = rl_version rl /\ role rl' = role rl /\ sequence rl' = sequence rl ->
  0 <= empty_record_count rl' <= MAX_EMPTY_RECORDS -> same_env (env rl) (env rl') ->
  (is_first_record rl' = is_first_record rl \/ is_first_record rl' = false) -> rrec rl' <> [] ->
  default_len (rbuf rl') = default_len (rbuf rl) -> rb_wf (rbuf rl') ->
  (buf (rbuf rl') <> None -> max_frag_len rl + 328 <= len (rbuf rl')) -> layer_ok rl'.
Proof.
  intros [] (Hm & Hl & Hp & Hd & Hv & Hro & Hs) He Hx Hf Hr Hde Hwf Hroom. destruct (same_env_fields _ _ Hx) as (E1 & E2 & E3 & E4 & E5).
  split; rewrite ?Hd, ?Hv, ?Hde, ?Hm, ?Hl, ?Hp, ?E1, ?E2, ?E3; try done.
  - rewrite Hro. destruct Hf as [-> | ->]; [done|by rewrite andb_false_r].
  - by eapply prepared_other.
Qed.

Lemma layer_ok_change (rl rl' : RL) : layer_ok rl -> stays rl rl' ->
  isdtls rl' = isdtls rl -> rl_version rl' = rl_version rl -> role rl' = role rl ->
  (is_first_record rl' = is_first_record rl \/ is_first_record rl' = false) -> rrec rl' <> [] ->
  default_len (rbuf rl') = default_len (rbuf rl) -> rb_wf (rbuf rl') ->
  (buf (rbuf rl') <> None -> max_frag_len rl + 328 <= len (rbuf rl')) -> layer_ok rl'.
Proof.
  intros Hl Hs ? ? ? ? ? ? ? ?. pose proof (st_empty _ _ Hs) as He. destruct Hs. apply (layer_ok_fields rl); try done. rewrite He. apply Hl.
Qed.

Lemma frame_ok (rl rl' : RL) : layer_ok rl -> read_frame rl rl' -> rb_wf (rbuf rl') -> buf (rbuf rl) <> None -> layer_ok rl'.
Proof.
  intros Hl Hf Hwf Hb. pose proof (frame_stays _ _ Hf) as Hs. destruct Hf as (E & _ & Ed & El).
  apply (layer_ok_change rl); try done; try (by rewrite E); [rewrite E; by left|rewrite E; apply Hl|].
  intros _. rewrite El. by apply Hl.
Qed.
(** What is known about a call that asks for [n] bytes and does not get them, when
    the transport is a stream. *)
Definition waits (rl : RL) (n : Z) (rl' : RL) (code : Z) : Prop :=
  forall to_come cost b, Stream B to_come cost -> prev rl = None -> bio rl = Some b -> waiting (to_come := to_come) (cost := cost) b n rl' code.

Lemma header_step (rl : RL) : tls_inv rl -> buf (rbuf rl) <> None ->
  exists r rl' got s, read_header 0 rl = (r, rl') /\ reads (prev rl, bio rl) got s /\ (r <> Fail -> s = (prev rl', bio rl')) /\
    match r with
    | Ok (Some code) => tls_inv rl' /\ stays rl rl' /\ code <= OSSL_RECORD_RETURN_RETRY
        /\ pending rl ++ got = pending rl' /\ in_body rl' = false /\ waits rl SSL3_RT_HEADER_LENGTH rl' code
    | Ok None => tls_inv rl' /\ stays rl rl' /\ in_body rl' = true /\ pending rl ++ got = pending rl' /\ buf (rbuf rl') <> None
    | Fail => exists t v n rest, pending rl ++ got = header t v n ++ rest /\ 0 <= t < 256 /\ 0 <= v < 65536 /\ 0 <= n < 65536
        /\ accepts rl t v n = false
    | Fault => False
    end.
Proof.
  intros Hi Hb. pose proof Hi as [Hl _]. unfold read_header. destruct (in_body rl) eqn:Ei; unfold in_body in Ei; rewrite Ei.
  { exists (Ok None), rl, [], (prev rl, bio rl). split; [done|]. split; [constructor|]. split; [done|]. split; [done|].
    split; [done|]. split; [done|]. split; [by rewrite app_nil_r|done]. }
  destruct (read_n_spec 5 (len (rbuf rl)) false true rl ltac:(lia) (lo_wf _ Hl) Hb eq_refl) as (code & k & rl1 & E & R).
  cbn [Nat.eqb]. rewrite E. pose proof R as [Hf Hwf1 _ _ (got & Hr & Hg & Hc)]. pose proof (lo_dtls _ Hl) as Hd.
  assert (Hp : pending rl = avail (rbuf rl)) by (unfold pending, in_body; by rewrite Ei).
  pose proof (frame_ok _ _ Hl Hf Hwf1 Hb) as Hl1. pose proof (frame_stays _ _ Hf) as Hs1.
  destruct Hc as [(-> & _ & Hk & Hpa & Hpl & Hh)|(Hc & -> & Hpl & _ & Hh)].
  2: { rewrite (proj2 (Z.ltb_lt code 1)) by lia.
       assert (Ei1 : in_body rl1 = false) by (unfold in_body; rewrite Hpl; apply andb_false_r).
       exists (Ok (Some code)), rl1, got, (prev rl1, bio rl1). split; [done|]. split; [done|]. split; [done|].
       split; [split; [done|by rewrite Ei1]|]. split; [done|]. split; [done|]. split; [by rewrite Hp; unfold pending; rewrite Ei1|]. split; [done|].
       intros tc cost b Htc Hpr Hbio.
       pose proof (lo_room _ Hl Hb). pose proof (align_range (rbuf rl)). pose proof (lo_sizes _ Hl).
       destruct (steady_read_n (to_come := tc) (cost := cost) 5 (len (rbuf rl)) false true rl b code 0 rl1 Hpr Hbio Hd ltac:(lia) (lo_wf _ Hl) Hb eq_refl)
         as [-> | Hw]; (done || lia). }
  cbn [Z.ltb Z.compare Pos.compare Pos.compare_cont]. rewrite Hk in * by done. set (rl2 := set_rstate SSL_ST_READ_BODY rl1).
  assert (Hpa2 : packet_at rl2) by (destruct Hpa; by split).
  destruct (parsed_header rl2 Hpa2 Hwf1 Hpl (lo_rrec _ Hl1) (lo_v2 _ Hl1)) as (t & v & n & x & rl' & Eh & Ht & Hv & Hn & Ep & Hx & Ha).
  assert (Eacc : accepts rl2 t v n = accepts rl t v n).
  { unfold accepts. destruct Hf as (Ef & _ & _ & El). change (len (rbuf rl2)) with (len (rbuf rl1)). rewrite El. unfold rl2. by rewrite Ef. }
  assert (Hpend : pending rl ++ got = header t v n ++ avail (rbuf rl2)) by (rewrite Hp, <- Eh; exact Hh).
  destruct (accepts rl2 t v n) eqn:Eb.
  - specialize (Ha eq_refl). exists (Ok None), rl', got, (prev rl1, bio rl1).
    split; [by rewrite (st_bind_ok _ _ _ _ _ Ep)|]. subst rl'. split; [done|]. split; [done|].
    set (rl3 := set_env x (set_header 0 t v n rl2)).
    assert (Hs3 : stays rl1 rl3) by (by split).
    assert (Hr3 : rrec rl2 <> []) by apply (lo_rrec _ Hl1). destruct (rr_set_header t v n rl2 Hr3) as (R1 & R2 & R3).
    assert (Ei3 : in_body rl3 = true) by (unfold in_body; change (packet_length rl3) with (packet_length rl1); by rewrite Hpl).
    unfold accepts in Eb. change (env rl2) with (env rl1) in Eb. rewrite (lo_plain _ Hl1), andb_false_r, orb_false_r in Eb.
    rewrite !andb_true_iff, orb_true_iff, !Z.eqb_eq, !Z.leb_le in Eb. destruct Eb as [[[Et Ev] En] En2].
    split; [split|split; [by etransitivity|split; [done|split; [by rewrite Hpend; unfold pending; rewrite Ei3, <- Eh|]]]].
    + apply (layer_ok_change rl1); try done; [by left| |by intros ?; apply Hl1].
      unfold rl3, set_header, upd_rrec. cbn [rrec set_env set_rrec]. change (rrec rl2) with (rrec rl1).
      pose proof (lo_rrec _ Hl1). by destruct (rrec rl1).
    + intros _. exists t, n. split; try done; [by destruct Hpa; split|rewrite Ev in Eh; exact Eh|split; [exact R1|split; [by etransitivity; [exact R2|]|exact R3]]| |lia].
      destruct Et as [Et|Et]; [by left|right]. rewrite andb_true_iff, Z.eqb_eq in Et. tauto.
    + destruct (pa_buf _ Hpa) as [mem Em]. change (rbuf rl3) with (rbuf rl1). by rewrite Em.
  - exists Fail, rl', got, (prev rl1, bio rl1). unfold st_bind. rewrite Ep. split; [done|]. split; [done|]. split; [done|].
    exists t, v, n, (avail (rbuf rl2)). done.
Qed.
(** A record of type [t] is complete: its body is [body], in front of what is
    read ahead. *)
Record at_hand (t : Z) (body : list Z) (rl : RL) : Prop := {
  ah_rec : rec_type (rr rl) = t /\ rec_version (rr rl) = TLS1_2_VERSION /\ rec_length (rr rl) = Z.of_nat (length body);
  ah_mem : exists d mem, rec_data (rr rl) = RBuf d /\ rec_input (rr rl) = RBuf d /\ buf (rbuf rl) = Some mem
    /\ mem_read mem d (Z.of_nat (length body)) = Some body /\ 0 <= d /\ d + Z.of_nat (length body) <= offset (rbuf rl);
  ah_type : t = SSL3_RT_APPLICATION_DATA \/ t = SSL3_RT_CHANGE_CIPHER_SPEC;
  ah_size : Z.of_nat (length body) <= SSL3_RT_MAX_TLS13_ENCRYPTED_LENGTH;
  ah_state : packet_length rl = 0
}.

(** The end of [read_body]. *)
Definition completed (p : Z) (rl : RL) : RL :=
  set_is_first_record false (set_packet_length 0
    (upd_rrec 0 (fun r => mkTLS_RL_RECORD (rec_version r) (rec_type r) (rec_length r) (rec_length r) (rec_off r)
                            (RBuf (p + SSL3_RT_HEADER_LENGTH)) (RBuf (p + SSL3_RT_HEADER_LENGTH)) (rec_comp r) (rec_epoch r) (rec_seq_num r))
       (set_rstate SSL_ST_READ_HEADER rl))).

Lemma completed_ok (rl : RL) t n : layer_ok rl -> packet_at rl -> packet_length rl = 5 + n -> take 5 (pkt_bytes rl) = header t TLS1_2_VERSION n ->
  rec_type (rr rl) = t /\ rec_version (rr rl) = TLS1_2_VERSION /\ rec_length (rr rl) = n ->
  t = SSL3_RT_APPLICATION_DATA \/ t = SSL3_RT_CHANGE_CIPHER_SPEC -> 0 <= n <= SSL3_RT_MAX_TLS13_ENCRYPTED_LENGTH ->
  exists body, let rl' := completed (rbuf_align (rbuf rl)) rl in
    layer_ok rl' /\ stays rl rl' /\ at_hand t body rl' /\ n = Z.of_nat (length body) /\ pkt_bytes rl = header t TLS1_2_VERSION n ++ body.
Proof.
  intros Hl Hpa Hpl Hh (R1 & R2 & R3) Ht Hn. exists (drop 5 (pkt_bytes rl)). intros rl'.
  pose proof (pkt_length rl Hpa (lo_wf _ Hl)) as Hlen. pose proof Hpa as [[mem Em] Ep Ho _ Hle He]. pose proof (align_range (rbuf rl)) as Har.
  assert (Hb : n = Z.of_nat (length (drop 5 (pkt_bytes rl)))) by (rewrite length_drop; lia).
  assert (Hs : stays rl rl') by (by split).
  pose proof (lo_wf _ Hl) as Hwf. unfold rb_wf in Hwf. rewrite Em in Hwf. destruct Hwf as (Hm & _).
  split; [|split; [done|split; [|split; [done|by rewrite <- Hh, take_drop]]]].
  - apply (layer_ok_change rl); try done; [by right| |by apply Hl|by intros _; apply Hl; rewrite Em].
    unfold rl', completed, upd_rrec. cbn [rrec set_is_first_record set_packet_length set_rrec set_rstate].
    pose proof (lo_rrec _ Hl). by destruct (rrec rl).
  - assert (Er : rr rl' = mkTLS_RL_RECORD (rec_version (rr rl)) (rec_type (rr rl)) (rec_length (rr rl)) (rec_length (rr rl)) (rec_off (rr rl))
                  (RBuf (rbuf_align (rbuf rl) + 5)) (RBuf (rbuf_align (rbuf rl) + 5)) (rec_comp (rr rl)) (rec_epoch (rr rl)) (rec_seq_num (rr rl))).
    { unfold rl', completed, rr, rrec_at, upd_rrec. cbn [rrec set_is_first_record set_packet_length set_rrec set_rstate].
      pose proof (lo_rrec _ Hl). by destruct (rrec rl). }
    split; rewrite ?Er; cbn [rec_type rec_version rec_length rec_data rec_input]; try done; [by rewrite <- Hb| |lia].
    exists (rbuf_align (rbuf rl) + 5), mem. split_and!; try done; [|lia|].
    + rewrite <- Hb. unfold mem_read. rewrite !(proj2 (Z.leb_le _ _)) by lia. cbn [andb]. f_equal.
      unfold pkt_bytes. rewrite Em, Hpl. change 5%nat with (Z.to_nat 5). rewrite skipn_firstn_comm, drop_drop. f_equal; [lia|f_equal; lia].
    + change (rbuf rl') with (rbuf rl). lia.
Qed.

Lemma body_step (rl : RL) : tls_inv rl -> in_body rl = true -> buf (rbuf rl) <> None ->
  exists r rl' got, read_body 0 rl = (r, rl') /\ reads (prev rl, bio rl) got (prev rl', bio rl') /\ stays rl rl' /\
    match r with
    | Ok (Some code) => tls_inv rl' /\ code <= OSSL_RECORD_RETURN_RETRY /\ pending rl ++ got = pending rl'
        /\ rr rl' = rr rl /\ in_body rl' = true /\ (rec_length (rr rl) <= max_frag_len rl + 316 -> waits rl (rec_length (rr rl)) rl' code)
    | Ok None => exists t body, layer_ok rl' /\ at_hand t body rl'
        /\ pending rl ++ got = header t TLS1_2_VERSION (Z.of_nat (length body)) ++ body ++ avail (rbuf rl')
    | _ => False
    end.
Proof.
  intros [Hl Hbody] Ei Hb. destruct (Hbody Ei) as (t & n & [Hpa Hpl Hbs (R1 & R2 & R3) Ht Hn]).
  unfold read_body. change (rrec_at 0 rl) with (rr rl). rewrite R2, R3. cbn [Z.eqb Pos.eqb].
  assert (Hp : pending rl = pkt_bytes rl ++ avail (rbuf rl)) by (unfold pending; by rewrite Ei).
  destruct (0 <? n) eqn:En; zbool.
  2: { assert (n = 0) as -> by lia. rewrite (pa_packet _ Hpa).
       destruct (completed_ok rl t 0) as (body & H1 & H2 & H3 & H4 & H5); try done; [|].
       { rewrite Hbs. by rewrite take_ge. }
       eexists (Ok None), _, []. split; [done|]. split; [constructor|]. split; [exact H2|].
       exists t, body. split; [exact H1|]. split; [exact H3|]. rewrite app_nil_r, Hp, H5, <- H4, <- (assoc_L (++)). done. }
  destruct (read_n_spec n n true false rl En (lo_wf _ Hl) Hb ltac:(split; [done|lia])) as (code & k & rl1 & E & R).
  rewrite E. pose proof R as [Hf Hwf1 _ _ (got & Hr & Hg & Hc)]. pose proof (lo_dtls _ Hl) as Hd.
  pose proof (frame_ok _ _ Hl Hf Hwf1 Hb) as Hl1. pose proof (frame_stays _ _ Hf) as Hs1.
  assert (Er : rr rl1 = rr rl) by (destruct Hf as [-> _]; done).
  assert (Est : rstate rl1 = rstate rl) by (destruct Hf as [-> _]; done).
  pose proof (pkt_length rl Hpa (lo_wf _ Hl)) as Hlen.
  destruct Hc as [(-> & _ & Hk & Hpa1 & Hpl1 & Hh)|(Hc & -> & Hpl1 & Hpa1 & Hh)].
  - cbn [Z.ltb Z.compare Pos.compare Pos.compare_cont]. rewrite (pa_packet _ Hpa1). rewrite Hk in * by done.
    pose proof (pkt_length rl1 Hpa1 Hwf1) as Hlen1.
    destruct (completed_ok rl1 t n) as (body & H1 & H2 & H3 & H4 & H5); try done; [lia| |by rewrite Er|].
    { apply (f_equal (take 5)) in Hh. unfold held in Hh. rewrite <- (assoc_L (++)), !take_app_le in Hh by lia.
      rewrite <- Hh, Hbs. by rewrite take_ge. }
    eexists (Ok None), _, got. split; [done|]. split; [done|]. split; [by etransitivity; [|exact H2]|].
    exists t, body. split; [exact H1|]. split; [exact H3|]. rewrite Hp. unfold held in Hh. rewrite Hh, H5, <- H4, <- (assoc_L (++)). done.
  - rewrite (proj2 (Z.ltb_lt code 1)) by lia. specialize (Hpa1 eq_refl).
    assert (Ei1 : in_body rl1 = true) by (unfold in_body in *; by rewrite Est, Hpl1).
    pose proof (pkt_length rl1 Hpa1 Hwf1) as Hlen1. unfold held in Hh. rewrite <- (assoc_L (++)) in Hh.
    pose proof Hh as Hh'. apply app_inj_1 in Hh' as [Hbs1 _]; [|lia].
    exists (Ok (Some code)), rl1, got. split; [done|]. split; [done|]. split; [done|]. split; [|split; [done|split; [|split; [done|split; [done|]]]]].
    + split; [done|]. intros _. exists t, n. split; rewrite ?Er; try done; [lia|by rewrite <- Hbs1].
    + rewrite Hp. unfold pending. rewrite Ei1. unfold held. by rewrite <- (assoc_L (++)).
    + intros Hfit tc cost b Htc Hpr Hbio. pose proof (lo_room _ Hl Hb). pose proof (align_range (rbuf rl)).
      destruct (steady_read_n (to_come := tc) (cost := cost) n n true false rl b code 0 rl1 Hpr Hbio Hd En (lo_wf _ Hl) Hb Hpa) as [-> | Hw]; (done || lia).
Qed.
(** ** The contents *)

(** The contents that are handed out. *)
Definition deliverable (rl : RL) (t : Z) (data : list Z) : bool :=
  ((t =? SSL3_RT_APPLICATION_DATA) || (t =? SSL3_RT_ALERT) || (t =? SSL3_RT_HANDSHAKE))
  && (Z.of_nat (length data) <=? max_frag_len rl)
  && ((0 <? Z.of_nat (length data))
      || ((t =? SSL3_RT_APPLICATION_DATA) && (wrap64 (empty_record_count rl + 1) <=? MAX_EMPTY_RECORDS))).

Definition stripped (t n : Z) (r : TLS_RL_RECORD) : TLS_RL_RECORD := set_rec_off 0 (set_rec_type t (set_rec_length n r)).

Lemma rr_changed f (rl : RL) : rrec rl <> [] -> rr (upd_rrec 0 f rl) = f (rr rl).
Proof. unfold rr, rrec_at, upd_rrec. cbn [rrec set_rrec]. by destruct (rrec rl). Qed.

Lemma post13_other (rl : RL) : rec_type (rr rl) = SSL3_RT_CHANGE_CIPHER_SPEC -> fst (post_process_records 1 0 rl) = Fail.
Proof.
  intros Ht. cbn [post_process_records]. unfold st_bind at 1, post_process_record. cbn [funcs tls13_fields].
  unfold tls13_post_process_record, st_bind at 1, tls13_strip. change (rrec_at 0 rl) with (rr rl). rewrite Ht. by rewrite orb_true_r.
Qed.

Lemma post13 (rl : RL) p d mem : rrec rl <> [] -> rec_type (rr rl) = SSL3_RT_APPLICATION_DATA ->
  rec_length (rr rl) = Z.of_nat (length p) -> (1 <= length p)%nat -> rec_data (rr rl) = RBuf d -> buf (rbuf rl) = Some mem ->
  mem_read mem d (Z.of_nat (length p)) = Some p -> 0 <= max_frag_len rl <= SSL3_RT_MAX_PLAIN_LENGTH ->
  let e := strip_padding p (length p - 1) in let t := get p e in let data := take e p in
  exists x c rl', post_process_records 1 0 rl = (if deliverable rl t data then Ok tt else Fail, rl')
    /\ (deliverable rl t data = true -> same_env (env rl) x /\ 0 <= c <= MAX_EMPTY_RECORDS
        /\ rl' = set_empty_record_count c (set_env x (upd_rrec 0 (stripped t (Z.of_nat (length data))) rl))).
Proof.
  intros Hr Ht Hl Hp Hd Em Hm Hmf e t data. pose proof (strip_le p (length p - 1)) as He. fold e in He.
  assert (Hlen : Z.of_nat (length data) = Z.of_nat e) by (unfold data; rewrite length_take; lia).
  set (rl1 := upd_rrec 0 (fun r => set_rec_type t (set_rec_length (Z.of_nat e) r)) rl).
  assert (E1 : tls13_strip 0 rl = (Ok tt, rl1)).
  { unfold tls13_strip. change (rrec_at 0 rl) with (rr rl). rewrite Ht, Hl, Hd. cbn [Z.eqb Pos.eqb].
    rewrite (proj2 (Z.eqb_neq (Z.of_nat (length p)) 0)) by lia. cbn [orb negb]. unfold ptr_bytes. rewrite Em, Z.add_0_r, Hm. done. }
  assert (Hrr1 : rr rl1 = set_rec_type t (set_rec_length (Z.of_nat e) (rr rl))) by (by apply rr_changed).
  set (x := env (callback (rl_version rl1) SSL3_RT_INNER_CONTENT_TYPE [t] rl1)).
  assert (Hx : same_env (env rl) x) by (apply (same_env_upd (fun m => (tt, su_msg_callback _ _ _ m)))).
  exists x. cbn [post_process_records]. unfold deliverable. rewrite Hlen.
  match goal with |- context [if ?b then Ok tt else Fail] => set (D := b) end.
  assert (Hno : forall rl0 : RL, D = false -> exists c rl', (Fail, rl0) = (if D then Ok tt else Fail, rl')
    /\ (D = true -> same_env (env rl) x /\ 0 <= c <= MAX_EMPTY_RECORDS /\ rl' = set_empty_record_count c (set_env x (upd_rrec 0 (stripped t (Z.of_nat e)) rl))))
    by (intros rl0 ->; by exists 0, rl0).
  unfold post_process_record. cbn [funcs tls13_fields]. unfold tls13_post_process_record, st_bind. rewrite E1. cbv beta iota.
  unfold tls13_common_post_process_record. change (rrec_at 0 rl1) with (rr rl1). rewrite Hrr1. cbn [rec_length rec_type set_rec_length set_rec_type].
  destruct (16384 <? Z.of_nat e) eqn:C1; [apply Hno; unfold D; lia|]. cbv beta iota.
  change (rrec_at 0 rl1) with (rr rl1). rewrite Hrr1. cbn [rec_length rec_type set_rec_length set_rec_type].
  destruct (negb (t =? 23) && _ && _) eqn:C2; [apply Hno; unfold D; lia|].
  destruct (((t =? 22) || _) && _) eqn:C3; [apply Hno; unfold D; lia|]. cbv beta iota.
  set (rl2 := callback _ _ _ rl1). change (rrec_at 0 rl2) with (rr rl1). rewrite Hrr1. cbn [rec_length rec_type set_rec_length set_rec_type].
  change (max_frag_len rl2) with (max_frag_len rl).
  destruct (negb (max_frag_len rl =? 16384) && _) eqn:C4; [apply Hno; unfold D; lia|]. cbv beta iota.
  set (rl3 := upd_rrec 0 (set_rec_off 0) rl2). change (empty_record_count rl3) with (empty_record_count rl).
  assert (Hrr3 : rrec_at 0 rl3 = set_rec_off 0 (set_rec_type t (set_rec_length (Z.of_nat e) (rr rl)))).
  { change (rrec_at 0 rl3) with (rr rl3). unfold rl3. rewrite rr_changed; [by change (rr rl2) with (rr rl1); rewrite Hrr1|].
    change (rrec rl2) with (rrec rl1). unfold rl1, upd_rrec. cbn [rrec set_rrec]. by destruct (rrec rl). }
  assert (E3 : rl3 = set_env x (upd_rrec 0 (stripped t (Z.of_nat e)) rl)).
  { unfold rl3, rl2, x, rl1, upd_rrec, callback. cbn. f_equal. by destruct (rrec rl). }
  rewrite Hrr3. cbn [rec_length set_rec_off set_rec_length set_rec_type].
  destruct (Z.of_nat e =? 0) eqn:C5; cbn [empty_record_count set_empty_record_count];
    [destruct (32 <? wrap64 (empty_record_count rl + 1)) eqn:C6; [apply Hno; unfold D; lia|]|]; cbv beta iota; unfold st_ret; rewrite E3.
  - exists (wrap64 (empty_record_count rl + 1)). eexists. assert (D = true) as -> by (unfold D; lia). split; [done|]. intros _.
    split; [done|]. split; [|done]. unfold wrap64 in *. pose proof (Z.mod_pos_bound (empty_record_count rl + 1) 18446744073709551616 ltac:(lia)). lia.
  - exists 0. eexists. assert (D = true) as -> by (unfold D; lia). done.
Qed.
(** ** Deciphering *)

(** What comes after the cipher. *)
Definition process_rest : ST RL Z :=
  post_process_records 1 0 ;;;
  (fun rl => if (level rl =? OSSL_RECORD_PROTECTION_LEVEL_EARLY) && (rec_type (rrec_at 0 rl) =? SSL3_RT_APPLICATION_DATA)
             then rlayer_early_data_count_ok (rec_length (rrec_at 0 rl)) 0 false rl else (Ok tt, rl)) ;;;
  st_put (fun rl => set_num_released 0 (set_curr_rec 0 (set_num_recs 1 rl))) ;;;
  st_ret OSSL_RECORD_RETURN_SUCCESS.

Lemma process_eq (rl : RL) : process_records 1 rl =
  match tls13_decipher 1 rl with
  | (Ok (enc_err, _), rl) =>
      if enc_err =? 0 then decryption_failed 1 rl
      else process_rest rl
  | (Fail, rl) => (Fail, rl)
  | (Fault, rl) => (Fault, rl)
  end.
Proof.
  unfold process_records. rewrite (st_bind_ok _ _ _ 0 rl) by done.
  rewrite (st_bind_ok _ _ _ 0 rl) by (by cbn [md_ctx tls13_functions]; rewrite bool_decide_eq_false_2, andb_false_r by (intros H; by apply H)).
  rewrite (st_bind_ok _ _ _ tt rl) by done. unfold st_bind at 1. cbn [rl_cipher tls13_functions]. change (Z.of_nat 1) with 1.
  destruct (tls13_decipher 1 rl) as [[[e macs]| |] rl1]; try done. destruct (e =? 0); [done|].
  rewrite (st_bind_ok _ _ _ true rl1) by (by cbn [md_ctx has_enc_ctx tls13_functions]; rewrite bool_decide_eq_false_2, andb_false_r by (intros H; by apply H)).
  done.
Qed.

(** The layer after the cipher, with its memory [c]. *)
Definition deciphered (c : CIPHERING K) (rl : RL) : RL :=
  let x := env rl in
  set_env (mkTLS13 (e_plain_alerts x) (e_iv x) (e_taglen x) (c_ctx c) (e_pipeline x) (e_su x))
    (set_alert (c_alert c) (set_sequence (c_sequence c)
       (upd_rr (set_rec_length (c_length c)) (set_rbuf (with_mem (c_mem c) (rbuf rl)) rl)))).

Lemma deciphered_ok (rl : RL) mem c : layer_ok rl -> buf (rbuf rl) = Some mem -> prepared (ivlen := ivlen) (taglen := taglen) iv key c ->
  length (c_mem c) = length mem -> Forall is_byte (c_mem c) -> layer_ok (deciphered c rl).
Proof.
  intros [] Em [P1 P2 P3 P4] Hlen Hby. split; try done.
  - unfold deciphered, upd_rr, upd_rrec. cbn [rrec set_env set_alert set_sequence set_rrec set_rbuf]. by destruct (rrec rl).
  - unfold rb_wf in *. cbn [rbuf deciphered set_env set_alert set_sequence upd_rr upd_rrec set_rrec set_rbuf with_mem buf len left offset].
    rewrite Em in lo_wf0. rewrite Hlen. tauto.
  - intros _. apply lo_room0. by rewrite Em.
Qed.

Lemma decipher_eq (rl : RL) t body d mem : layer_ok rl -> at_hand t body rl -> rec_data (rr rl) = RBuf d -> rec_input (rr rl) = RBuf d ->
  buf (rbuf rl) = Some mem ->
  tls13_decipher 1 rl =
    let '(r, c) := tls13_cipher iv taglen t TLS1_2_VERSION d d 1 false (ciphering mem rl) in
    (match r with Ok _ => Ok (1, []) | Fail => Ok (0, []) | Fault => Fault end, deciphered c rl).
Proof.
  intros Hl [(R1 & R2 & _) _ _ _ _] Ed Ei Em. unfold tls13_decipher, deciphered. rewrite Em, Ed, Ei, R1, R2.
  destruct (lo_iv _ Hl) as [-> ->]. done.
Qed.
(** A record with the contents [data] is there to be handed out. *)
Record record_out (rl : RL) (t : Z) (data : list Z) : Prop := {
  ro_recs : num_recs rl = 1 /\ curr_rec rl = 0 /\ num_released rl = 0;
  ro_rec : rec_type (rr rl) = t /\ rec_off (rr rl) = 0 /\ rec_length (rr rl) = Z.of_nat (length data);
  ro_data : exists d mem, rec_data (rr rl) = RBuf d /\ buf (rbuf rl) = Some mem /\ mem_read mem d (Z.of_nat (length data)) = Some data
    /\ 0 <= d /\ d + Z.of_nat (length data) <= offset (rbuf rl);
  ro_state : packet_length rl = 0;
  ro_version : rec_version (rr rl) = TLS1_2_VERSION
}.

(** What changes when one is received. *)
Record received (rl rl' : RL) (t : Z) (data : list Z) : Prop := {
  rc_out : record_out rl' t data;
  rc_seq : be_val (sequence rl') = be_val (sequence rl) + 1;
  rc_kept : is_first_handshake rl' = is_first_handshake rl /\ max_frag_len rl' = max_frag_len rl /\ prev rl' = prev rl /\ bio rl' = bio rl;
  rc_avail : avail (rbuf rl') = avail (rbuf rl);
  rc_state : packet_length rl' = 0
}.

Lemma drop_write (mem p mem' : list Z) d o : mem_write mem d p = Some mem' -> d + Z.of_nat (length p) <= o ->
  drop (Z.to_nat o) mem' = drop (Z.to_nat o) mem.
Proof.
  unfold mem_write. destruct (_ && _) eqn:E; [|done]. intros [= <-] Ho. zbool.
  rewrite drop_app_ge by (rewrite length_take; lia). rewrite drop_app_ge by (rewrite length_take; lia).
  rewrite drop_drop. f_equal. rewrite length_take. lia.
Qed.

Lemma mem_read_take (m : list Z) d n k bs : mem_read m d n = Some bs -> 0 <= k <= n -> mem_read m d k = Some (take (Z.to_nat k) bs).
Proof.
  unfold mem_read. destruct (_ && _) eqn:E; [|done]. intros [= <-] Hk. zbool.
  rewrite !(proj2 (Z.leb_le _ _)) by lia. cbn [andb]. rewrite take_take. do 2 f_equal. lia.
Qed.

Lemma write_read_back (mem p mem' : list Z) d : mem_write mem d p = Some mem' -> mem_read mem' d (Z.of_nat (length p)) = Some p.
Proof.
  intros Hw. pose proof (write_read _ _ _ _ Hw) as Hr. pose proof (length_mem_write _ _ _ _ Hw) as Hl.
  unfold mem_write in Hw. destruct (_ && _) eqn:E; [|done]. zbool. unfold mem_read.
  rewrite !(proj2 (Z.leb_le _ _)) by lia. cbn [andb]. by rewrite Nat2Z.id, Hr.
Qed.

Definition handed (cnt : Z) (x : X) (f : TLS_RL_RECORD -> TLS_RL_RECORD) (rl : RL) : RL :=
  set_num_released 0 (set_curr_rec 0 (set_num_recs 1 (set_empty_record_count cnt (set_env x (upd_rrec 0 f rl))))).

Lemma handed_ok cnt x f (rl : RL) : layer_ok rl -> same_env (env rl) x -> 0 <= cnt <= MAX_EMPTY_RECORDS -> layer_ok (handed cnt x f rl).
Proof.
  intros Hl Hx Hc. apply (layer_ok_fields rl); [exact Hl|split_and!; reflexivity|exact Hc|exact Hx|left; reflexivity| |reflexivity|exact (lo_wf _ Hl)|exact (lo_room _ Hl)].
  unfold handed, upd_rrec. cbn [rrec set_num_released set_curr_rec set_num_recs set_empty_record_count set_env set_rrec].
  pose proof (lo_rrec _ Hl). by destruct (rrec rl).
Qed.

Lemma process_rest_spec (rl : RL) p d mem : layer_ok rl -> rec_type (rr rl) = SSL3_RT_APPLICATION_DATA ->
  rec_length (rr rl) = Z.of_nat (length p) -> (1 <= length p)%nat -> rec_data (rr rl) = RBuf d -> buf (rbuf rl) = Some mem ->
  mem_read mem d (Z.of_nat (length p)) = Some p ->
  let e := strip_padding p (length p - 1) in let t := get p e in let data := take e p in
  exists cnt x rl', process_rest rl = (if deliverable rl t data then Ok OSSL_RECORD_RETURN_SUCCESS else Fail, rl')
    /\ (deliverable rl t data = true -> same_env (env rl) x /\ 0 <= cnt <= MAX_EMPTY_RECORDS /\ rl' = handed cnt x (stripped t (Z.of_nat (length data))) rl).
Proof.
  intros Hl Ht Hlen Hp Hd Em Hm e t data.
  destruct (post13 rl p d mem (lo_rrec _ Hl) Ht Hlen Hp Hd Em Hm ltac:(apply Hl)) as (x & cnt & rl2 & Ep & Hok). fold e t data in Ep, Hok.
  exists cnt, x. unfold process_rest. unfold st_bind at 1. rewrite Ep. destruct (deliverable rl t data); [|by exists rl2].
  destruct (Hok eq_refl) as (Hx & Hc & ->). rewrite (st_bind_ok _ _ _ tt (set_empty_record_count cnt (set_env x (upd_rrec 0 (stripped t (Z.of_nat (length data))) rl)))).
  2: { pose proof (lo_level _ Hl) as Hlv. cbn [level set_empty_record_count set_env upd_rrec set_rrec]. by rewrite (proj2 (Z.eqb_neq _ _) Hlv). }
  by eexists.
Qed.

Lemma handed_received cnt x (rl : RL) p d mem : rrec rl <> [] -> rec_data (rr rl) = RBuf d -> buf (rbuf rl) = Some mem ->
  mem_read mem d (Z.of_nat (length p)) = Some p -> (1 <= length p)%nat -> 0 <= d -> d + Z.of_nat (length p) <= offset (rbuf rl) -> packet_length rl = 0 ->
  rec_version (rr rl) = TLS1_2_VERSION ->
  let e := strip_padding p (length p - 1) in let t := get p e in let data := take e p in
  let rl' := handed cnt x (stripped t (Z.of_nat (length data))) rl in
  record_out rl' t data
  /\ sequence rl' = sequence rl /\ is_first_handshake rl' = is_first_handshake rl /\ max_frag_len rl' = max_frag_len rl
  /\ prev rl' = prev rl /\ bio rl' = bio rl /\ rbuf rl' = rbuf rl /\ packet_length rl' = packet_length rl.
Proof.
  intros Hr Hd Em Hm Hp Hd0 Hdo Hpl Hv e t data rl'. pose proof (strip_le p (length p - 1)) as He. fold e in He.
  assert (Err : rr rl' = stripped t (Z.of_nat (length data)) (rr rl)) by exact (rr_changed (stripped t (Z.of_nat (length data))) rl Hr).
  assert (Hdl : Z.of_nat (length data) = Z.of_nat e) by (unfold data; rewrite length_take; lia).
  split; [|do 6 (split; [reflexivity|]); reflexivity].
  split; rewrite ?Err; [done|done| |exact Hpl|exact Hv]. exists d, mem. split; [exact Hd|]. split; [exact Em|]. rewrite Hdl.
  split; [|split; [done|change (rbuf rl') with (rbuf rl); lia]].
  rewrite (mem_read_take _ _ _ (Z.of_nat e) _ Hm) by lia. by rewrite Nat2Z.id.
Qed.

Lemma deciphered_fields c (rl : RL) : rrec rl <> [] -> let rl' := deciphered c rl in
  rbuf rl' = with_mem (c_mem c) (rbuf rl) /\ packet_length rl' = packet_length rl /\ is_first_handshake rl' = is_first_handshake rl
  /\ max_frag_len rl' = max_frag_len rl /\ prev rl' = prev rl /\ bio rl' = bio rl /\ sequence rl' = c_sequence c
  /\ empty_record_count rl' = empty_record_count rl /\ rr rl' = set_rec_length (c_length c) (rr rl) /\ alert rl' = c_alert c.
Proof.
  intros Hr rl'. do 8 (split; [reflexivity|]). split; [|reflexivity].
  exact (rr_changed (set_rec_length (c_length c)) (set_rbuf (with_mem (c_mem c) (rbuf rl)) rl) Hr).
Qed.

(** What is left to do once the cipher has given [p]. *)
Lemma process_done (rl : RL) body d mem p c : layer_ok rl -> at_hand SSL3_RT_APPLICATION_DATA body rl ->
  rec_data (rr rl) = RBuf d -> buf (rbuf rl) = Some mem -> 0 <= d -> d + Z.of_nat (length body) <= offset (rbuf rl) ->
  (1 <= length p <= length body)%nat -> mem_write mem d p = Some (c_mem c) -> c_length c = Z.of_nat (length p) ->
  prepared (ivlen := ivlen) (taglen := taglen) iv key c -> Forall is_byte (c_mem c) -> be_val (c_sequence c) = be_val (sequence rl) + 1 ->
  tls13_decipher 1 rl = (Ok (1, []), deciphered c rl) ->
  let e := strip_padding p (length p - 1) in let t := get p e in let data := take e p in
  exists rl', process_records 1 rl = (if deliverable rl t data then Ok OSSL_RECORD_RETURN_SUCCESS else Fail, rl')
    /\ (deliverable rl t data = true -> layer_ok rl' /\ received rl rl' t data).
Proof.
  intros Hl Ha Ed Em Hd0 Hdo Hp Hw Hcl Hpr Hby Hseq E e t data. rewrite process_eq, E. change (1 =? 0) with false. cbv iota.
  pose proof (deciphered_ok rl mem c Hl Em Hpr (length_mem_write _ _ _ _ Hw) Hby) as Hl1.
  destruct (deciphered_fields c rl (lo_rrec _ Hl)) as (F1 & F2 & F3 & F4 & F5 & F6 & F7 & F8 & F9 & _).
  destruct (ah_rec _ _ _ Ha) as (R1 & R2 & _). pose proof (write_read_back _ _ _ _ Hw) as Hrd.
  assert (Edl : deliverable (deciphered c rl) t data = deliverable rl t data) by (unfold deliverable; by rewrite F4, F8).
  destruct (process_rest_spec (deciphered c rl) p d (c_mem c)) as (cnt & x & rl' & Ep & Hok);
    [done|by rewrite F9|by rewrite F9|lia|by rewrite F9|by rewrite F1|done|].
  fold e t data in Ep, Hok. rewrite Edl in Ep, Hok. exists rl'. split; [done|]. intros Hd. destruct (Hok Hd) as (Hx & Hc & ->).
  split; [by apply handed_ok|].
  destruct (handed_received cnt x (deciphered c rl) p d (c_mem c)) as (H1 & H8 & H9 & H10 & H11 & H12 & H13 & H14);
    [by apply lo_rrec|by rewrite F9|by rewrite F1|done|lia|done|by rewrite F1; cbn [with_mem offset]; lia|by rewrite F2; exact (ah_state _ _ _ Ha)|by rewrite F9; exact R2|].
  fold e t data in H1, H8, H9, H10, H11, H12, H13, H14.
  split; [done|by rewrite H8, F7|by rewrite H9, H10, H11, H12| |by rewrite H14, F2; exact (ah_state _ _ _ Ha)].
  rewrite H13, F1. unfold avail. cbn [buf with_mem left offset]. rewrite Em. by rewrite (drop_write mem p (c_mem c) d _ Hw) by lia.
Qed.

(** No early data has been rejected that would have to be skipped. *)
Hypothesis no_skip : forall m : M, fst (su_skip_early_data m) = false.

Lemma decryption_fails (rl : RL) : fst (decryption_failed 1 rl) = Fail.
Proof.
  unfold decryption_failed. destruct (negb _); [done|]. cbn [Nat.eqb skip_early_data tls13_fields].
  unfold upd_su. pose proof (no_skip (e_su (env rl))) as Hn. destruct (su_skip_early_data (e_su (env rl))) as [b m]. simpl in Hn. by rewrite Hn.
Qed.

Local Abbreviation wire_body := (protected (ivlen := ivlen) (taglen := taglen) key iv).

(** A record that is handed out was protected with the key and this sequence
    number. *)
Lemma process_sound (rl : RL) t body : layer_ok rl -> at_hand t body rl ->
  exists r rl', process_records 1 rl = (r, rl') /\
    match r with
    | Ok code => code = OSSL_RECORD_RETURN_SUCCESS /\ t = SSL3_RT_APPLICATION_DATA /\ exists type data k,
        body = wire_body (sequence rl) t TLS1_2_VERSION (data ++ type :: replicate k 0)
        /\ deliverable rl type data = true /\ layer_ok rl' /\ received rl rl' type data
    | Fail => True
    | Fault => False
    end.
Proof.
  intros Hl Ha. pose proof Ha as [(R1 & R2 & R3) (d & mem & Ed & Ei & Em & Hm & Hd & Hdo) Ht Hs Hpl].
  pose proof (lo_wf _ Hl) as Hwf. unfold rb_wf in Hwf. rewrite Em in Hwf. destruct Hwf as (Hlen & _ & Hby & _).
  pose proof (decipher_eq rl t body d mem Hl Ha Ed Ei Em) as E.
  assert (Hpr : prepared (ivlen := ivlen) (taglen := taglen) iv key (ciphering mem rl)) by (eapply prepared_other; [..|exact (lo_key _ Hl)]; done).
  assert (Hfit : d + Z.of_nat (length body) <= Z.of_nat (length mem)).
  { unfold mem_read in Hm. destruct (_ && _) eqn:Eb in Hm; [|done]. zbool. lia. }
  destruct (tls13_receive_safe iv key t TLS1_2_VERSION d (ciphering mem rl) Hpr Hd) as (r & c & Ec & Hf & Hpc & Hlc & Hbc & Hcl);
    [cbn [c_length ciphering]; lia|cbn [c_length c_mem ciphering]; lia|done|].
  rewrite Ec in E. rewrite process_eq, E. destruct r as [[]| |]; [|exists Fail|done].
  2: { change (0 =? 0) with true. cbv iota. pose proof (decryption_fails (deciphered c rl)) as Hdf.
       destruct (decryption_failed 1 (deciphered c rl)) as [r rl']. simpl in Hdf. subst r. by exists rl'. }
  destruct Ht as [-> | ->].
  - destruct (tls13_authentic iv key 23 TLS1_2_VERSION d (ciphering mem rl) c Hpr) as (p & Hr & Hpl' & Hp1 & Hw & _ & Hsq & _ & _);
      [done|done|done|done|cbn [c_length ciphering]; lia|done|].
    cbn [c_mem c_length c_sequence ciphering] in Hr, Hw, Hsq. rewrite R3, Hm in Hr. injection Hr as Hbody.
    pose proof (length_protected key iv (sequence rl) 23 TLS1_2_VERSION p) as Hlp. rewrite <- Hbody in Hlp. pose proof (pr_tag _ _ _ Hpr) as Htg.
    destruct (process_done rl body d mem p c Hl Ha Ed Em Hd Hdo ltac:(lia) Hw Hpl' Hpc Hbc Hsq E) as (rl' & Ep & Hok).
    rewrite process_eq, E in Ep. rewrite Ep. destruct (strip_split p ltac:(lia)) as [_ Hsplit].
    destruct (deliverable rl _ _) eqn:Edl; [|by exists Fail, rl'].
    exists (Ok 1), rl'. split; [done|]. split; [done|]. split; [done|]. eexists _, _, _. rewrite <- Hsplit. split; [exact Hbody|].
    split; [exact Edl|]. by apply Hok.
  - change (1 =? 0) with false. cbv iota. unfold process_rest, st_bind at 1.
    destruct (deciphered_fields c rl (lo_rrec _ Hl)) as (_ & _ & _ & _ & _ & _ & _ & _ & F9 & _).
    pose proof (post13_other (deciphered c rl)) as Hpo. rewrite F9 in Hpo. specialize (Hpo R1).
    destruct (post_process_records 1 0 (deciphered c rl)) as [r rl']. simpl in Hpo. subst r. by exists Fail, rl'.
Qed.

(** A record that was protected with the key and this sequence number is handed
    out. *)
Lemma process_complete (rl : RL) type data k : is_Some (CRYPTO_zalloc 40) -> layer_ok rl -> be_val (sequence rl) < 2 ^ 64 - 1 ->
  at_hand SSL3_RT_APPLICATION_DATA (wire_body (sequence rl) SSL3_RT_APPLICATION_DATA TLS1_2_VERSION (data ++ type :: replicate k 0)) rl ->
  Forall is_byte (data ++ type :: replicate k 0) -> deliverable rl type data = true ->
  exists rl', process_records 1 rl = (Ok OSSL_RECORD_RETURN_SUCCESS, rl') /\ layer_ok rl' /\ received rl rl' type data.
Proof.
  intros Hz Hl Hsq Ha Hpb Hdel. set (p := data ++ type :: replicate k 0) in *. set (body := wire_body _ _ _ p) in *.
  pose proof Ha as [(R1 & R2 & R3) (d & mem & Ed & Ei & Em & Hm & Hd & Hdo) _ Hs Hpl].
  pose proof (lo_wf _ Hl) as Hwf. unfold rb_wf in Hwf. rewrite Em in Hwf. destruct Hwf as (Hlen & _ & Hby & _).
  pose proof (decipher_eq rl 23 body d mem Hl Ha Ed Ei Em) as E.
  assert (Hpr : prepared (ivlen := ivlen) (taglen := taglen) iv key (ciphering mem rl)) by (eapply prepared_other; [..|exact (lo_key _ Hl)]; done).
  pose proof (length_protected key iv (sequence rl) 23 TLS1_2_VERSION p) as Hlp. fold body in Hlp. pose proof (pr_tag _ _ _ Hpr) as Htg.
  assert (Hp1 : (1 <= length p)%nat) by (unfold p; rewrite length_app; simpl; lia).
  assert (Hfit : d + Z.of_nat (length body) <= Z.of_nat (length mem)).
  { unfold mem_read in Hm. destruct (_ && _) eqn:Eb in Hm; [|done]. zbool. lia. }
  destruct (mem_write mem d p) as [m'|] eqn:Hw; [|rewrite mem_write_Some in Hw by lia; done].
  destruct (tls13_opens iv key 23 TLS1_2_VERSION d p m' (ciphering mem rl) Hz Hpr Hsq) as (seq' & k' & Ec & Hs' & Hok' & Hk');
    [done|done|done|done|lia|lia|by cbn [c_length ciphering]; rewrite R3|by cbn [c_length c_mem ciphering]; rewrite R3|done|].
  rewrite Ec in E. set (c := mkCIPHERING _ _ _ _ _) in *.
  assert (Hpc : prepared (ivlen := ivlen) (taglen := taglen) iv key c) by (destruct Hpr; split; try done; by exists k').
  destruct (process_done rl body d mem p c Hl Ha Ed Em Hd Hdo ltac:(lia) Hw eq_refl Hpc) as (rl' & Ep & Hok);
    [by eapply write_bytes|done|done|].
  assert (Ht0 : type <> 0) by (intros ->; done).
  unfold p in Ep, Hok. rewrite strip_padded in Ep, Hok by done.
  rewrite take_app_length in Ep, Hok. unfold get in Ep, Hok. rewrite lookup_app_r, Nat.sub_diag in Ep, Hok by done. cbn in Ep, Hok.
  rewrite Hdel in Ep, Hok. exists rl'. split; [done|by apply Hok].
Qed.
(** ** A call *)

Lemma setup_step (rl : RL) : tls_inv rl -> buf (rbuf rl) = None ->
  exists r rl', tls_setup_read_buffer rl = (r, rl') /\
    match r with
    | Ok _ => tls_inv rl' /\ stays rl rl' /\ buf (rbuf rl') <> None /\ pending rl' = pending rl /\ prev rl' = prev rl /\ bio rl' = bio rl
    | Fail => exists m n, fst (su_malloc m n) = None
    | Fault => False
    end.
Proof.
  intros [Hl Hbody] Eb. assert (Ei : in_body rl = false).
  { destruct (in_body rl) eqn:Ei; [|done]. destruct (Hbody eq_refl) as (t & n & Hn). destruct (pa_buf _ (bn_packet _ _ _ Hn)). congruence. }
  pose proof (lo_wf _ Hl) as Hwf. unfold rb_wf in Hwf. rewrite Eb in Hwf. pose proof (lo_sizes _ Hl) as (Hmf & Hmp & Hdl).
  unfold tls_setup_read_buffer. rewrite Eb, (lo_dtls _ Hl). cbn [allow_compression rl_malloc tls13_functions].
  change (Z.land (- (5)) (8 - 1)) with 3.
  match goal with |- context [upd_su (fun m => su_malloc m ?n) (env rl)] => set (size := n) end.
  assert (Hsize : max_frag_len rl + 328 <= size <= SIZE_MAX).
  { assert (Hp : forall a, max_frag_len rl + 328 <= a <= 20000 ->
      max_frag_len rl + 328 <= (if 1 <? max_pipelines rl then a * max_pipelines rl else a) <= 640000)
      by (intros a Ha; destruct (1 <? max_pipelines rl) eqn:E1; zbool; nia).
    unfold size, SIZE_MAX. match goal with |- context [if 1 <? _ then ?a * _ else _] => specialize (Hp a); set (base := a) in * end.
    assert (Hbase : max_frag_len rl + 328 <= base <= 20000) by (unfold base; destruct (su_allow_compression _); lia).
    specialize (Hp Hbase). destruct (_ <? default_len _) eqn:E2; zbool; lia. }
  clearbody size. pose proof (same_env_upd (fun m => su_malloc m size) (env rl)) as Hx.
  unfold upd_su in *. destruct (su_malloc (e_su (env rl)) size) as [[[d a]|] m'] eqn:Em; cbn [snd] in Hx.
  2: { exists Fail. eexists. split; [done|]. exists (e_su (env rl)), size. by rewrite Em. }
  destruct (su_malloc_ok _ size d a m' ltac:(lia) Em) as [Hd Hdb].
  exists (Ok tt). eexists. split; [done|]. set (x' := mkTLS13 _ _ _ _ _ m') in *.
  set (rl' := set_rbuf _ _). pose proof (align_range (rbuf rl')).
  assert (Hwf' : rb_wf (rbuf rl')) by (split; [done|]; split; [change (len (rbuf rl')) with size; lia|]; split; [done|by left]).
  assert (Hs : stays rl rl') by (by split). assert (Ei' : in_body rl' = false) by done.
  split; [split; [|by rewrite Ei']|].
  - apply (layer_ok_change rl); try done; [by left|by apply Hl|]. intros _. change (len (rbuf rl')) with size. lia.
  - split; [done|]. split; [done|]. split; [|done]. unfold pending. rewrite Ei, Ei'. unfold held, avail. rewrite Eb.
    cbn [buf left offset rbuf rl' set_rbuf]. by rewrite Hwf.
Qed.

Lemma stream_reads_all {tc cost} {St : Stream B tc cost} s got s' : reads_all s got s' -> forall b, s = (None, Some b) ->
  exists b', s' = (None, Some b') /\ tc b = got ++ tc b' /\ (cost b' <= cost b)%nat.
Proof.
  induction 1 as [s|s got s1 got' s2 H1 H2 IH]; intros b ->; [by exists b|].
  destruct (stream_reads (to_come := tc) (cost := cost) b got s1 H1) as (b1 & -> & E1 & C1). destruct (IH b1 eq_refl) as (b2 & -> & E2 & C2).
  exists b2. split; [done|]. split; [by rewrite E1, E2, (assoc_L (++))|lia].
Qed.

Lemma waits_later (rl rl1 rl' : RL) got n code : reads (prev rl, bio rl) got (prev rl1, bio rl1) -> waits rl1 n rl' code -> waits rl n rl' code.
Proof.
  intros Hr Hw tc cost b Htc Hp Hb. rewrite Hp, Hb in Hr.
  destruct (stream_reads (to_come := tc) (cost := cost) b got _ Hr) as (b1 & [= E1 E2] & _ & Hc).
  destruct (Hw tc cost b1 Htc E1 E2) as (? & ? & b' & ? & Hc'). split; [done|]. split; [done|]. exists b'. split; [done|].
  intros Hne. specialize (Hc' Hne). lia.
Qed.

(** Reading a record: the header, then the body. *)
Lemma read_step todo (rl : RL) : tls_inv rl -> buf (rbuf rl) <> None ->
  exists r rl' got s, read_records todo 0 rl = (r, rl') /\ reads_all (prev rl, bio rl) got s /\ (r <> Fail -> s = (prev rl', bio rl')) /\
    match r with
    | Ok (inl code) => tls_inv rl' /\ stays rl rl' /\ code <= OSSL_RECORD_RETURN_RETRY /\ pending rl ++ got = pending rl'
        /\ (if in_body rl' then rec_length (rr rl') <= max_frag_len rl + 316 -> waits rl (rec_length (rr rl')) rl' code
            else waits rl SSL3_RT_HEADER_LENGTH rl' code)
    | Ok (inr n) => n = 1%nat /\ stays rl rl' /\ exists t body, layer_ok rl' /\ at_hand t body rl'
        /\ pending rl ++ got = header t TLS1_2_VERSION (Z.of_nat (length body)) ++ body ++ avail (rbuf rl')
    | Fail => exists t v n rest, pending rl ++ got = header t v n ++ rest /\ 0 <= t < 256 /\ 0 <= v < 65536 /\ 0 <= n < 65536
        /\ accepts rl t v n = false
    | Fault => False
    end.
Proof.
  intros Hi Hb. pose proof Hi as [Hl _].
  assert (E0 : (fun rl : RL => if (0 <? length (rrec rl))%nat then (Ok tt, rl) else (Fault, rl)) rl = (Ok tt, rl)).
  { pose proof (lo_rrec _ Hl). by destruct (rrec rl). }
  destruct (header_step rl Hi Hb) as (r & rl1 & got & s & E1 & Hr1 & Hs1 & H1).
  assert (Hra : reads_all (prev rl, bio rl) got s) by (rewrite <- (app_nil_r got); econstructor; [exact Hr1|constructor]).
  destruct todo as [|todo]; cbn [read_records]; rewrite (st_bind_ok _ _ _ _ _ E0); unfold st_bind at 1; rewrite E1;
    (destruct r as [[code|]| |]; [| |by exists Fail, rl1, got, s|done]).
  1, 3: exists (Ok (inl code)), rl1, got, s; destruct H1 as (H1 & H2 & H3 & H4 & H5 & H6); split_and!; try done;
    [by intros _; apply Hs1|by rewrite H5].
  all: destruct H1 as (Hi1 & Hst1 & Hib & Hp1 & Hb1); specialize (Hs1 ltac:(done)); subst s;
    destruct (body_step rl1 Hi1 Hib Hb1) as (r & rl2 & got2 & E2 & Hr2 & Hst2 & H2);
    assert (Hra2 : reads_all (prev rl, bio rl) (got ++ got2) (prev rl2, bio rl2))
      by (econstructor; [exact Hr1|]; rewrite <- (app_nil_r got2); econstructor; [exact Hr2|constructor]);
    assert (Hst : stays rl rl2) by (by etransitivity); unfold st_bind at 1; rewrite E2;
    (destruct r as [[code|]| |]; [| |done|done]).
  1, 3: destruct H2 as (H2 & H3 & H4 & H5 & H6 & H7);
    exists (Ok (inl code)), rl2, (got ++ got2), (prev rl2, bio rl2);
    (split; [done|]); (split; [done|]); (split; [done|]); (split; [done|]); (split; [done|]); (split; [done|]);
    (split; [by rewrite (assoc_L (++)), Hp1|]); rewrite H6, H5, <- (st_frag _ _ Hst1);
    intros Hfit; eapply waits_later; [exact Hr1|by apply H7].
  all: destruct H2 as (t & body & Hl2 & Ha & Hp2);
    assert (Hp : pending rl ++ (got ++ got2) = header t TLS1_2_VERSION (Z.of_nat (length body)) ++ body ++ avail (rbuf rl2))
      by (by rewrite (assoc_L (++)), Hp1);
    assert (Hv : RLAYER_USE_EXPLICIT_IV rl2 = false) by (unfold RLAYER_USE_EXPLICIT_IV; by rewrite (lo_version _ Hl2));
    rewrite ?Hv, ?andb_false_r; cbn [andb]; cbv iota; exists (Ok (inr 1%nat)), rl2, (got ++ got2), (prev rl2, bio rl2);
    (split; [done|]); (split; [done|]); (split; [done|]); (split; [done|]); (split; [done|]); by exists t, body.
Qed.
(** A ChangeCipherSpec is dropped. *)
Lemma ccs_step (rl : RL) body : layer_ok rl -> at_hand SSL3_RT_CHANGE_CIPHER_SPEC body rl ->
  exists r rl', ignore_ccs 0 rl = (r, rl') /\
    match r with
    | Ok code => code = OSSL_RECORD_RETURN_SUCCESS /\ body = [1] /\ layer_ok rl' /\ num_recs rl' = 0 /\ curr_rec rl' = 0 /\ num_released rl' = 0
        /\ sequence rl' = sequence rl /\ is_first_handshake rl' = is_first_handshake rl /\ max_frag_len rl' = max_frag_len rl
        /\ prev rl' = prev rl /\ bio rl' = bio rl /\ rbuf rl' = rbuf rl /\ packet_length rl' = 0
        /\ empty_record_count rl' = empty_record_count rl + 1
    | Fail => True
    | Fault => False
    end.
Proof.
  intros Hl Ha. pose proof Ha as [(R1 & R2 & R3) (d & mem & Ed & Ei & Em & Hm & Hd & Hdo) _ _ Hpl].
  pose proof (lo_empty _ Hl) as He. unfold ignore_ccs. change (rrec_at 0 rl) with (rr rl). rewrite R3, Ed.
  assert (Hbs : (if Z.of_nat (length body) =? 1 then ptr_bytes rl (rr rl) (RBuf d) 0 1 else Some [])
                = Some (if Z.of_nat (length body) =? 1 then body else [])).
  { destruct (_ =? 1) eqn:E; [|done]. zbool. unfold ptr_bytes. by rewrite Em, Z.add_0_r, <- E, Hm. }
  rewrite Hbs. destruct (bool_decide_reflect ((if Z.of_nat (length body) =? 1 then body else []) = [1])) as [Hb|]; cbn [negb]; [|by exists Fail; eexists; split; [reflexivity|]].
  assert (body = [1]) as -> by (by destruct (_ =? 1)). cbn [empty_record_count set_empty_record_count upd_rrec set_rrec].
  rewrite wrap64_small by (unfold SIZE_MAX; lia). destruct (32 <? empty_record_count rl + 1) eqn:E; zbool; [by eexists Fail, _|].
  exists (Ok 1). eexists. split; [done|]. split; [done|]. split; [done|]. split.
  - apply (layer_ok_fields rl); [done|split_and!; reflexivity|cbn; lia|reflexivity|left; reflexivity| |reflexivity|exact (lo_wf _ Hl)|exact (lo_room _ Hl)].
    unfold no_records, upd_rrec. cbn [rrec set_num_released set_curr_rec set_num_recs set_empty_record_count set_rrec].
    pose proof (lo_rrec _ Hl). by destruct (rrec rl).
  - do 9 (split; [reflexivity|]). split; [exact Hpl|reflexivity].
Qed.

(** The record on the wire whose protected contents are [inner]. *)
Definition wire_record (seq inner : list Z) : list Z :=
  header SSL3_RT_APPLICATION_DATA TLS1_2_VERSION (Z.of_nat (length inner) + taglen)
  ++ wire_body seq SSL3_RT_APPLICATION_DATA TLS1_2_VERSION inner.
Definition ccs_record : list Z := [20; 3; 3; 0; 1; 1].

(** What a call does with the bytes [stream] there are, of which [rest] are left:
    nothing, hand out a record, or drop a ChangeCipherSpec. *)
Inductive call_result (rl rl' : RL) (stream rest : list Z) : Z -> Prop :=
| call_waits code : code <= OSSL_RECORD_RETURN_RETRY -> stream = rest -> stays rl rl' -> call_result rl rl' stream rest code
| call_record type data k : stream = wire_record (sequence rl) (data ++ type :: replicate k 0) ++ rest -> deliverable rl type data = true ->
    record_out rl' type data -> be_val (sequence rl') = be_val (sequence rl) + 1 -> call_result rl rl' stream rest OSSL_RECORD_RETURN_SUCCESS
| call_ccs : stream = ccs_record ++ rest -> is_first_handshake rl = true -> num_recs rl' = 0 -> curr_rec rl' = 0 -> num_released rl' = 0 ->
    sequence rl' = sequence rl -> empty_record_count rl' = empty_record_count rl + 1 ->
    call_result rl rl' stream rest OSSL_RECORD_RETURN_SUCCESS.

Lemma settled (rl : RL) : layer_ok rl -> packet_length rl = 0 -> tls_inv rl /\ pending rl = avail (rbuf rl).
Proof.
  intros Hl Hp. assert (Ei : in_body rl = false) by (unfold in_body; rewrite Hp; apply andb_false_r).
  split; [split; [done|by rewrite Ei]|]. unfold pending. by rewrite Ei.
Qed.

(** The part of a call that comes after reading. *)
Definition finish_call (rl : RL) : ret Z * RL :=
  if (rec_type (rrec_at 0 rl) =? SSL3_RT_CHANGE_CIPHER_SPEC) && (rl_version rl =? TLS1_3_VERSION) && is_first_handshake rl
  then ignore_ccs 0 rl else process_records 1 rl.

Lemma finish_sound (rl : RL) t body : layer_ok rl -> at_hand t body rl ->
  exists r rl', finish_call rl = (r, rl') /\
    match r with
    | Ok code => tls_inv rl' /\ prev rl' = prev rl /\ bio rl' = bio rl /\ is_first_handshake rl' = is_first_handshake rl /\ max_frag_len rl' = max_frag_len rl
        /\ call_result rl rl' (header t TLS1_2_VERSION (Z.of_nat (length body)) ++ body ++ avail (rbuf rl)) (pending rl') code
        /\ code = OSSL_RECORD_RETURN_SUCCESS
    | Fail => True
    | Fault => False
    end.
Proof.
  intros Hl Ha. unfold finish_call. change (rrec_at 0 rl) with (rr rl). pose proof (ah_rec _ _ _ Ha) as (-> & _). rewrite (lo_version _ Hl).
  change (TLS1_3_VERSION =? TLS1_3_VERSION) with true. rewrite andb_true_r.
  destruct ((t =? 20) && is_first_handshake rl) eqn:E.
  - apply andb_true_iff in E as [->%Z.eqb_eq Hf]. destruct (ccs_step rl body Hl Ha) as (r & rl' & -> & H). exists r, rl'. split; [done|]. destruct r as [code| |]; try done.
    destruct H as (-> & -> & Hl' & H1 & H2 & H3 & H4 & H5 & H6 & H7 & H8 & H9 & H10 & H11).
    destruct (settled rl' Hl' H10) as [Hi' Hp']. do 5 (split; [done|]). split; [|done]. rewrite Hp', H9. by apply call_ccs.
  - destruct (process_sound rl t body Hl Ha) as (r & rl' & -> & H). exists r, rl'. split; [done|]. destruct r as [code| |]; try done.
    destruct H as (-> & -> & type & data & k & Hb & Hd & Hl' & [Hout Hsq (K1 & K2 & K3 & K4) Hav Hpl]).
    destruct (settled rl' Hl' Hpl) as [Hi' Hp']. do 5 (split; [done|]). split; [|done]. rewrite Hp', Hav.
    eapply call_record; try done. rewrite Hb at 2. unfold wire_record. rewrite <- (assoc_L (++)). do 2 f_equal.
    rewrite Hb. by rewrite length_protected.
Qed.

Lemma call_result_from (rl rl1 rl' : RL) stream rest code : stays rl rl1 -> call_result rl1 rl' stream rest code -> call_result rl rl' stream rest code.
Proof.
  intros Hs H. pose proof Hs as [E1 E2 _ E4 E5 _ _ _ _]. destruct H as [code Hc Hst|type data k Hst Hd Ho Hq|Hst Hf H1 H2 H3 H4 H5].
  - apply call_waits; try done. by etransitivity.
  - rewrite E4 in Hst, Hq. eapply call_record; try done. revert Hd. unfold deliverable. by rewrite E2, E5.
  - apply call_ccs; congruence.
Qed.

(** The steps of a call. *)
Lemma get_more_eq (rl : RL) : exists todo : RL -> nat, get_more_records rl =
  match (if bool_decide (buf (rbuf rl) = None) then tls_setup_read_buffer rl else (Ok tt, rl)) with
  | (Ok _, rl) =>
      match read_records (todo rl) 0 rl with
      | (Ok (inl code), rl) => (Ok code, rl)
      | (Ok (inr n), rl) =>
          if Nat.eqb n 1 then finish_call rl
          else process_records n rl
      | (Fail, rl) => (Fail, rl)
      | (Fault, rl) => (Fault, rl)
      end
  | (Fail, rl) => (Fail, rl)
  | (Fault, rl) => (Fault, rl)
  end.
Proof.
  exists (fun rl => (Z.to_nat (if (max_pipelines rl =? 0)%Z then 1%Z else max_pipelines rl) - 1)%nat).
  unfold get_more_records, st_bind. destruct (if bool_decide _ then _ else _) as [[[]| |] rl1]; try done.
  destruct (read_records _ 0 rl1) as [[[code|n]| |] rl2]; try done. destruct (Nat.eqb_spec n 1) as [->|]; done.
Qed.

Lemma start_step (rl : RL) : tls_inv rl ->
  exists r rl', (if bool_decide (buf (rbuf rl) = None) then tls_setup_read_buffer rl else (Ok tt, rl)) = (r, rl') /\
    match r with
    | Ok _ => tls_inv rl' /\ stays rl rl' /\ buf (rbuf rl') <> None /\ pending rl' = pending rl /\ prev rl' = prev rl /\ bio rl' = bio rl
    | Fail => exists m n, fst (su_malloc m n) = None
    | Fault => False
    end.
Proof.
  intros Hi. destruct (bool_decide_reflect (buf (rbuf rl) = None)) as [Eb|Eb]; [by apply setup_step|].
  exists (Ok tt), rl. split; [done|]. split; [done|]. split; [reflexivity|done].
Qed.

(** Whatever is received: a call is safe, and what it hands out was protected. *)
Lemma call_sound (rl : RL) : tls_inv rl ->
  exists code rl', tls_get_more_records rl = (Ok (Some code), rl') /\
    (code = OSSL_RECORD_RETURN_FATAL
     \/ (tls_inv rl' /\ is_first_handshake rl' = is_first_handshake rl /\ max_frag_len rl' = max_frag_len rl
         /\ exists got, reads_all (prev rl, bio rl) got (prev rl', bio rl') /\ call_result rl rl' (pending rl ++ got) (pending rl') code)).
Proof.
  intros Hi. unfold tls_get_more_records. destruct (get_more_eq rl) as [todo ->].
  destruct (start_step rl Hi) as (r & rl1 & -> & H1). destruct r as [[]| |]; [|eexists _, _; split; [reflexivity|by left]|done].
  destruct H1 as (Hi1 & Hs1 & Hb1 & Hp1 & Hpr1 & Hbi1).
  destruct (read_step (todo rl1) rl1 Hi1 Hb1) as (r & rl2 & got & s & -> & Hr & Hs & H2). rewrite Hpr1, Hbi1 in Hr. rewrite Hp1 in H2.
  destruct r as [[code|n]| |]; [| |eexists _, _; split; [reflexivity|by left]|done].
  - exists code, rl2. split; [done|]. right. destruct H2 as (Hi2 & Hs2 & Hc & Hp2 & _). assert (Hst : stays rl rl2) by (by etransitivity).
    split; [done|]. split; [apply Hst|]. split; [apply Hst|]. exists got. rewrite (Hs ltac:(done)) in Hr. split; [done|]. by apply call_waits.
  - destruct H2 as (-> & Hs2 & t & body & Hl2 & Ha & Hp2). assert (Hst : stays rl rl2) by (by etransitivity). cbn [Nat.eqb].
    destruct (finish_sound rl2 t body Hl2 Ha) as (r & rl3 & -> & H3).
    destruct r as [code| |]; [|eexists _, _; split; [reflexivity|by left]|done].
    destruct H3 as (Hi3 & K1 & K2 & K3 & K4 & Hres & _). exists code, rl3. split; [done|]. right. split; [done|].
    split; [rewrite K3; apply Hst|]. split; [rewrite K4; apply Hst|]. exists got. rewrite (Hs ltac:(done)) in Hr. rewrite K1, K2. split; [done|].
    eapply call_result_from; [exact Hst|]. by rewrite Hp2.
Qed.
(** ** A call when a record is on its way *)

Section Complete.
Context {tc : B -> list Z} {cost : B -> nat} {St : Stream B tc cost}.
Hypothesis zalloc : is_Some (CRYPTO_zalloc 40).
Hypothesis plenty : forall (m : M) n, fst (su_malloc m n) <> None.

(** The next record that arrives. *)
Record arriving (rl : RL) (b : B) (type : Z) (data : list Z) (k : nat) (rest : list Z) : Prop := {
  ar_prev : prev rl = None;
  ar_bio : bio rl = Some b;
  ar_stream : pending rl ++ tc b = wire_record (sequence rl) (data ++ type :: replicate k 0) ++ rest;
  ar_bytes : Forall is_byte (data ++ type :: replicate k 0);
  ar_content : deliverable rl type data = true;
  ar_size : Z.of_nat (length (data ++ type :: replicate k 0)) + taglen <= max_frag_len rl + 316
    /\ Z.of_nat (length (data ++ type :: replicate k 0)) + taglen <= SSL3_RT_MAX_TLS13_ENCRYPTED_LENGTH;
  ar_seq : be_val (sequence rl) < 2 ^ 64 - 1
}.

(** It is read, or it has not arrived completely. *)
Lemma read_complete todo (rl : RL) b type data k rest : tls_inv rl -> buf (rbuf rl) <> None -> arriving rl b type data k rest ->
  exists r rl' b', read_records todo 0 rl = (Ok r, rl') /\ prev rl' = None /\ bio rl' = Some b' /\ stays rl rl' /\ (cost b' <= cost b)%nat /\
    match r with
    | inl code => code = OSSL_RECORD_RETURN_RETRY /\ tls_inv rl' /\ pending rl' ++ tc b' = pending rl ++ tc b /\ (cost b' < cost b)%nat
    | inr n => n = 1%nat /\ layer_ok rl'
        /\ at_hand SSL3_RT_APPLICATION_DATA
             (wire_body (sequence rl) SSL3_RT_APPLICATION_DATA TLS1_2_VERSION (data ++ type :: replicate k 0)) rl'
        /\ avail (rbuf rl') ++ tc b' = rest
    end.
Proof.
  intros Hi Hb [Hpr Hbio Hst Hby Hdel [Hsz1 Hsz2] Hsq]. set (inner := data ++ type :: replicate k 0) in *.
  pose proof Hi as [Hl _]. pose proof (pr_tag _ _ _ (lo_key _ Hl)) as Htg. pose proof (lo_room _ Hl Hb) as Hroom.
  set (N := Z.of_nat (length inner) + taglen) in *. unfold wire_record in Hst. fold N in Hst. set (body := wire_body _ _ _ inner) in *.
  assert (Hlb : Z.of_nat (length body) = N) by (apply length_protected). rewrite <- (assoc_L (++)) in Hst.
  destruct (read_step todo rl Hi Hb) as (r & rl' & got & s & -> & Hr & Hs & H). rewrite Hpr, Hbio in Hr.
  destruct (stream_reads_all (St := St) _ _ _ Hr b eq_refl) as (b' & -> & Etc & Hc).
  assert (Hpend : (pending rl ++ got) ++ tc b' = header 23 TLS1_2_VERSION N ++ body ++ rest) by (by rewrite <- Hst, Etc, (assoc_L (++))).
  assert (Hhead : forall t v n more, pending rl ++ got = header t v n ++ more -> 0 <= t < 256 -> 0 <= v < 65536 -> 0 <= n < 65536 ->
    t = 23 /\ v = TLS1_2_VERSION /\ n = N /\ more ++ tc b' = body ++ rest).
  { intros t v n more E Ht Hv Hn. rewrite E, <- (assoc_L (++)) in Hpend. apply app_inj_1 in Hpend as [E1 E2]; [|by rewrite !length_header].
    apply header_inj in E1; try done; try lia. tauto. }
  destruct r as [[code|n]| |]; [| |exfalso|done].
  - injection (Hs ltac:(done)) as Ep Eb'. destruct H as (Hi' & Hst' & Hcode & Hp' & Hw). pose proof Hi' as [Hl' Hbody'].
    pose proof (length_avail _ (lo_wf _ Hl')) as Hla.
    assert (Hwait : exists n, left (rbuf rl') < n /\ (length (avail (rbuf rl') ++ tc b') >= Z.to_nat n)%nat /\ waits rl n rl' code).
    { destruct (in_body rl') eqn:Ei.
      - destruct (Hbody' eq_refl) as (t & n & Hn). assert (Et : 0 <= t < 256) by (destruct (bn_type _ _ _ Hn) as [-> | ->]; lia).
        pose proof (bn_size _ _ _ Hn) as Hns. assert (Ep' : pending rl' = header t TLS1_2_VERSION n ++ avail (rbuf rl'))
          by (unfold pending; rewrite Ei; unfold held; by rewrite (bn_bytes _ _ _ Hn)).
        rewrite Ep' in Hp'. destruct (Hhead _ _ _ _ Hp') as (-> & _ & -> & E); try lia. destruct (bn_rec _ _ _ Hn) as (_ & _ & Erl).
        rewrite Erl in Hw. specialize (Hw ltac:(lia)). exists N. split; [by apply (Hw tc cost b)|]. split; [|done].
        rewrite E, length_app. lia.
      - exists 5. split; [by apply (Hw tc cost b)|]. split; [|done]. assert (Ep' : pending rl' = avail (rbuf rl')) by (unfold pending; by rewrite Ei).
        rewrite Ep' in Hp'. rewrite <- Hp', Hpend, length_app, length_header. lia. }
    destruct Hwait as (n & Hlt & Hge & Hwt). destruct (Hwt tc cost b St Hpr Hbio) as (-> & _ & b1 & Eb1 & Hcost).
    assert (b1 = b') as -> by congruence. exists (inl 0), rl', b'. split; [done|]. split; [done|]. split; [done|]. split; [done|]. split; [done|].
    split; [done|]. split; [done|]. split; [by rewrite <- Hp', Etc, (assoc_L (++))|]. apply Hcost. intros E0. rewrite E0, app_nil_r in Hge. lia.
  - injection (Hs ltac:(done)) as Ep Eb'. destruct H as (-> & Hst' & t & bd & Hl' & Ha & Hp'). exists (inr 1%nat), rl', b'.
    do 5 (split; [done|]). split; [done|]. split; [done|]. assert (Et : 0 <= t < 256) by (destruct (ah_type _ _ _ Ha) as [-> | ->]; lia).
    pose proof (ah_size _ _ _ Ha). destruct (Hhead _ _ _ _ Hp') as (-> & _ & En & E); try lia. rewrite <- (assoc_L (++)) in E.
    apply app_inj_1 in E as [-> E]; [done|lia].
  - destruct H as (t & v & n & more & E & Ht & Hv & Hn & Hacc). destruct (Hhead _ _ _ _ E Ht Hv Hn) as (-> & -> & -> & _).
    unfold accepts in Hacc. rewrite (lo_plain _ Hl) in Hacc. cbn [Z.eqb Pos.eqb orb andb] in Hacc. lia.
Qed.

(** Nothing is on its way: the call has to wait. *)
Lemma call_waiting (rl : RL) b : tls_inv rl -> prev rl = None -> bio rl = Some b -> pending rl ++ tc b = [] ->
  exists rl' b', tls_get_more_records rl = (Ok (Some OSSL_RECORD_RETURN_RETRY), rl') /\ tls_inv rl' /\ prev rl' = None /\ bio rl' = Some b'
    /\ stays rl rl' /\ pending rl' ++ tc b' = [] /\ (cost b' <= cost b)%nat.
Proof.
  intros Hi Hpr Hbio Hst. unfold tls_get_more_records. destruct (get_more_eq rl) as [todo ->].
  destruct (start_step rl Hi) as (r & rl1 & -> & H1). destruct r as [[]| |]; [|exfalso; destruct H1 as (m & n & H1); by apply (plenty m n)|done].
  destruct H1 as (Hi1 & Hs1 & Hb1 & Hp1 & Hpr1 & Hbi1). rewrite <- Hp1 in Hst. rewrite <- Hpr1 in Hpr. rewrite <- Hbi1 in Hbio.
  destruct (read_step (todo rl1) rl1 Hi1 Hb1) as (r & rl2 & got & s & -> & Hr & Hs & H2). rewrite Hpr, Hbio in Hr.
  destruct (stream_reads_all (St := St) _ _ _ Hr b eq_refl) as (b' & -> & Etc & Hc). rewrite Etc, (assoc_L (++)) in Hst.
  apply app_nil in Hst as [Hst Htc].
  destruct r as [[code|n]| |]; [|destruct H2 as (_ & _ & t & bd & _ & _ & E); by rewrite Hst in E
    |destruct H2 as (t & v & n & more & E & _); by rewrite Hst in E|done].
  injection (Hs ltac:(done)) as Ep Eb'. destruct H2 as (Hi2 & Hst2 & _ & Hp2 & Hw). rewrite Hst in Hp2.
  assert (Ei : in_body rl2 = false).
  { destruct (in_body rl2) eqn:Ei; [|done]. destruct (proj2 Hi2 Ei) as (t & n & Hn). unfold pending in Hp2. rewrite Ei in Hp2. unfold held in Hp2.
    by rewrite (bn_bytes _ _ _ Hn) in Hp2. }
  rewrite Ei in Hw. destruct (Hw tc cost b St Hpr Hbio) as (-> & _). exists rl2, b'. split; [done|]. split; [done|]. split; [done|]. split; [done|].
  split; [by etransitivity|]. by rewrite <- Hp2, Htc.
Qed.

Lemma call_complete (rl : RL) b type data k rest : tls_inv rl -> arriving rl b type data k rest ->
  exists code rl' b', tls_get_more_records rl = (Ok (Some code), rl') /\ tls_inv rl' /\ prev rl' = None /\ bio rl' = Some b'
    /\ is_first_handshake rl' = is_first_handshake rl /\ max_frag_len rl' = max_frag_len rl
    /\ ((code = OSSL_RECORD_RETURN_RETRY /\ stays rl rl' /\ pending rl' ++ tc b' = pending rl ++ tc b /\ (cost b' < cost b)%nat)
        \/ (code = OSSL_RECORD_RETURN_SUCCESS /\ record_out rl' type data /\ pending rl' ++ tc b' = rest
            /\ be_val (sequence rl') = be_val (sequence rl) + 1 /\ (cost b' <= cost b)%nat)).
Proof.
  intros Hi Har. unfold tls_get_more_records. destruct (get_more_eq rl) as [todo ->].
  destruct (start_step rl Hi) as (r & rl1 & -> & H1). destruct r as [[]| |]; [|exfalso; destruct H1 as (m & n & H1); by apply (plenty m n)|done].
  destruct H1 as (Hi1 & Hs1 & Hb1 & Hp1 & Hpr1 & Hbi1).
  assert (Har1 : arriving rl1 b type data k rest).
  { destruct Har as [A1 A2 A3 A4 A5 A6 A7]. pose proof Hs1 as [E1 E2 _ E4 E5 _ _ _ _].
    split; rewrite ?Hpr1, ?Hbi1, ?Hp1, ?E4, ?E2; try done. revert A5. unfold deliverable. by rewrite E2, E5. }
  destruct (read_complete (todo rl1) rl1 b type data k rest Hi1 Hb1 Har1) as (r & rl2 & b' & -> & Hpr2 & Hbi2 & Hs2 & Hc & H2).
  assert (Hst : stays rl rl2) by (by etransitivity). destruct r as [code|n].
  - destruct H2 as (-> & Hi2 & Hp2 & Hcost). exists 0, rl2, b'. do 4 (split; [done|]). split; [apply Hst|]. split; [apply Hst|].
    left. split; [done|]. split; [done|]. by rewrite Hp2, Hp1.
  - destruct H2 as (-> & Hl2 & Ha & Hrest). cbn [Nat.eqb]. unfold finish_call. change (rrec_at 0 rl2) with (rr rl2).
    pose proof (ah_rec _ _ _ Ha) as (-> & _). cbn [Z.eqb Pos.eqb andb]. destruct Har1 as [_ _ _ A4 A5 _ A7].
    pose proof Hs2 as [E1 E2 _ E4 E5 _ _ _ _]. rewrite <- E4 in Ha.
    destruct (process_complete rl2 type data k zalloc Hl2) as (rl3 & -> & Hl3 & [Hout Hsq (K1 & K2 & K3 & K4) Hav Hpl]);
      [by rewrite E4|done|done|revert A5; unfold deliverable; by rewrite E2, E5|].
    destruct (settled rl3 Hl3 Hpl) as [Hi3 Hp3]. exists 1, rl3, b'. split; [done|]. split; [done|]. split; [by rewrite K3|]. split; [by rewrite K4|].
    split; [rewrite K1; apply Hst|]. split; [rewrite K2; apply Hst|]. right. split; [done|]. split; [done|]. split; [by rewrite Hp3, Hav|].
    split; [by rewrite Hsq, (st_seq _ _ Hst)|done].
Qed.
End Complete.
End Layer.
End TlsReader.
