(* ===== verification/TlsSeries.v ===== *)
(** * The TLS 1.3 record layer: a series of records

    Records are read with [tls_read_record] and released with
    [tls_release_record], one after the other.  Over any transport, what is read
    was protected with the keys, record by record in order; over a stream,
    everything that was protected is read. *)

From stdpp Require Import prelude list.
From Stdlib Require Import ZArith Lia ZifyBool.
From S2P Require Import Prelude Packet Buffer WPacket PQueue RecordTypes RecordRead DtlsRecord DtlsReplay TlsCrypt TlsRecord TlsReader.

Local Open Scope Z_scope.
Local Open Scope st_scope.

Module TlsSeries.
Import TlsCrypt TlsRecord TlsReader.

Section Series.
Context {B K M : Type} `{!BIO B} `{!BIOOk B} `{L : Libc} {LO : LibcOk L} `{!EVP K} `{!Surroundings M} `{!SurroundingsOk M}.
Context {KEY : Type} {ivlen taglen : Z} `{A : !AEAD K KEY ivlen taglen} (iv : list Z) (key : KEY).
Local Abbreviation X := (TLS13_ENV K M).
Local Abbreviation RL := (OSSL_RECORD_LAYER B X).
Local Abbreviation wire := (wire_record (ivlen := ivlen) (taglen := taglen) iv key).
Local Abbreviation inv := (tls_inv (ivlen := ivlen) (taglen := taglen) iv key).

(** ** Reading and releasing *)

(** As many calls of [get_more_records] as can be needed: each but the last drops
    a ChangeCipherSpec, and there are limits on these. *)
Definition read_fuel : nat := 34.

(** The next record is read, its contents are taken, and it is released.  The
    result is the return code, and the type and the contents. *)
Definition read_next : ST RL (Z * option (Z * list Z)) := fun rl =>
  match tls_read_record tls_get_more_records read_fuel rl with
  | (Ok (Some (_, Some r)), rl) =>
      match ptr_bytes rl r (rec_data r) (rec_off r) (rec_length r) with
      | None => (Fault, rl)
      | Some data => (code <~ tls_release_record 0 (rec_length r) ;; st_ret (code, Some (rec_type r, data))) rl
      end
  | (Ok (Some (code, None)), rl) => (Ok (code, None), rl)
  | (Ok None, rl) | (Fault, rl) => (Fault, rl)
  | (Fail, rl) => (Fail, rl)
  end.

(** Reading goes on until there are [count] records or an error, for at most
    [fuel] calls. *)
Fixpoint read_many (fuel count : nat) : ST RL (list (Z * list Z)) :=
  match count, fuel with
  | O, _ | _, O => st_ret []
  | S c, S fuel =>
      r <~ read_next ;;
      match r with
      | (_, Some rec) => recs <~ read_many fuel c ;; st_ret (rec :: recs)
      | (code, None) => if code =? OSSL_RECORD_RETURN_RETRY then read_many fuel count else st_ret []
      end
  end.

(** ** What the stream carries *)

(** The bytes [stream] are the records [out], protected with the sequence
    numbers from [s] on, and perhaps ChangeCipherSpecs, followed by [rest]. *)
Inductive carries : Z -> list Z -> list (Z * list Z) -> Z -> list Z -> Prop :=
| carries_none s stream : carries s stream [] s stream
| carries_record s type data k stream out s' rest : carries (s + 1) stream out s' rest ->
    carries s (wire (be_bytes 8 s) (data ++ type :: replicate k 0) ++ stream) ((type, data) :: out) s' rest
| carries_ccs s stream out s' rest : carries s stream out s' rest -> carries s (ccs_record ++ stream) out s' rest.

Lemma carries_more s stream out s1 rest got out' s2 rest' : carries s stream out s1 rest -> carries s1 (rest ++ got) out' s2 rest' ->
  carries s (stream ++ got) (out ++ out') s2 rest'.
Proof.
  intros H. induction H; intros H'; [done|..]; rewrite <- (assoc_L (++)); constructor; by apply IHcarries.
Qed.

(** Between records. *)
Definition idle (rl : RL) : Prop := inv rl /\ curr_rec rl = num_recs rl /\ num_released rl = num_recs rl.

Lemma seq_bytes (rl : RL) : inv rl -> be_bytes 8 (be_val (sequence rl)) = sequence rl.
Proof.
  intros [Hl _]. destruct (pr_seq _ _ _ (lo_key _ _ _ Hl)) as [Hn Hb]. cbn [c_sequence ciphering] in Hn, Hb. rewrite <- Hn. by apply be_bytes_val.
Qed.

(** The layer after a release, with the buffer [rb]. *)
Definition released (f : TLS_RL_RECORD -> TLS_RL_RECORD) (rb : TLS_BUFFER) (rl : RL) : RL :=
  set_rbuf rb (set_num_released 1 (upd_rrec 0 f (set_curr_rec 1 rl))).

Lemma released_ok f rb (rl : RL) : layer_ok (ivlen := ivlen) (taglen := taglen) iv key rl -> packet_length rl = 0 -> num_recs rl = 1 ->
  rb_wf rb -> avail rb = avail (rbuf rl) -> default_len rb = default_len (rbuf rl) ->
  (buf rb <> None -> buf (rbuf rl) <> None /\ len rb = len (rbuf rl)) ->
  let rl' := released f rb rl in idle rl' /\ pending rl' = pending rl /\ prev rl' = prev rl /\ bio rl' = bio rl /\ sequence rl' = sequence rl
    /\ is_first_handshake rl' = is_first_handshake rl /\ max_frag_len rl' = max_frag_len rl.
Proof.
  intros Hl Hpl Hn Hwf Hav Hdl Hb rl'.
  assert (Hl' : layer_ok (ivlen := ivlen) (taglen := taglen) iv key rl').
  { apply (layer_ok_fields iv key rl); [exact Hl|split_and!; reflexivity|exact (lo_empty _ _ _ Hl)|reflexivity|left; reflexivity| |exact Hdl|exact Hwf|].
    - unfold rl', released, upd_rrec. cbn [rrec set_rbuf set_num_released set_rrec set_curr_rec]. pose proof (lo_rrec _ _ _ Hl). by destruct (rrec rl).
    - intros Hne. destruct (Hb Hne) as [Hb' E]. change (rbuf rl') with rb. rewrite E. by apply (lo_room _ _ _ Hl). }
  destruct (settled iv key rl Hl Hpl) as [_ Hp]. destruct (settled iv key rl' Hl' Hpl) as [Hi' Hp'].
  split; [split; [done|]; change (num_recs rl') with (num_recs rl); rewrite Hn; split; reflexivity|].
  split; [rewrite Hp, Hp'; exact Hav|]. do 4 (split; [reflexivity|]). reflexivity.
Qed.

(** A record that has been handed out is released as a whole. *)
Lemma release_ok (rl : RL) t data : inv rl -> record_out (K := K) rl t data ->
  exists rl', tls_release_record 0 (Z.of_nat (length data)) (set_curr_rec 1 rl) = (Ok OSSL_RECORD_RETURN_SUCCESS, rl') /\ idle rl'
    /\ pending rl' = pending rl /\ prev rl' = prev rl /\ bio rl' = bio rl /\ sequence rl' = sequence rl
    /\ is_first_handshake rl' = is_first_handshake rl /\ max_frag_len rl' = max_frag_len rl.
Proof.
  intros [Hl _] [(N1 & N2 & N3) (R1 & R2 & R3) (d & mem & Ed & Em & Hm & Hd & Hdo) Hpl _].
  destruct (settled iv key rl Hl Hpl) as [_ Hp]. pose proof (lo_rrec _ _ _ Hl) as Hr.
  unfold tls_release_record. cbn [num_released curr_rec set_curr_rec]. rewrite N3. change (Z.to_nat 0) with 0%nat. cbn [Z.ltb Z.compare Z.eqb negb orb].
  change (rrec_at 0 (set_curr_rec 1 rl)) with (rr rl). rewrite R2, R3, Z.ltb_irrefl.
  assert (Hcl : exists mem', (if has (rl_options (set_curr_rec 1 rl)) SSL_OP_CLEANSE_PLAINTEXT
      then rec_cleanse 0 0 (Z.of_nat (length data)) (set_curr_rec 1 rl) else Some (set_curr_rec 1 rl))
    = Some (set_rbuf (with_mem mem' (rbuf rl)) (set_curr_rec 1 rl))
    /\ length mem' = length mem /\ Forall is_byte mem' /\ drop (Z.to_nat (offset (rbuf rl))) mem' = drop (Z.to_nat (offset (rbuf rl))) mem).
  { pose proof (lo_wf _ _ _ Hl) as Hwf. unfold rb_wf in Hwf. rewrite Em in Hwf. destruct Hwf as (Hlen & _ & Hby & _).
    destruct (has _ _); [|exists mem; rewrite (with_mem_same mem (rbuf rl) Em); split; [by destruct rl|done]].
    unfold rec_cleanse. change (rrec_at 0 (set_curr_rec 1 rl)) with (rr rl). rewrite Ed. cbn [rbuf set_curr_rec]. rewrite Em, Z.add_0_r, Nat2Z.id.
    pose proof (mem_read_length _ _ _ _ Hm) as Hln. unfold mem_read in Hm. destruct (_ && _) eqn:E in Hm; [|done]. zbool.
    destruct (mem_write mem d (replicate (length data) 0)) as [mem'|] eqn:Ew.
    2: { rewrite mem_write_Some in Ew by (rewrite ?length_replicate; lia). done. }
    exists mem'. split; [done|]. split; [by eapply length_mem_write|]. split; [eapply write_bytes; [done..|by apply Forall_replicate]|].
    eapply drop_write; [done|]. rewrite length_replicate. lia. }
  destruct Hcl as (mem' & -> & Hlm & Hbm & Hdm). set (rl1 := set_rbuf _ _).
  assert (Hr1 : rr (upd_rrec 0 (fun r => set_rec_length (rec_length r - Z.of_nat (length data)) (set_rec_off (rec_off r + Z.of_nat (length data)) r)) rl1)
     = set_rec_length (rec_length (rr rl) - Z.of_nat (length data)) (set_rec_off (rec_off (rr rl) + Z.of_nat (length data)) (rr rl)))
    by exact (rr_changed (fun r => set_rec_length (rec_length r - Z.of_nat (length data)) (set_rec_off (rec_off r + Z.of_nat (length data)) r)) rl1 Hr).
  unfold rr at 1 in Hr1. rewrite Hr1. cbn [rec_length set_rec_length]. rewrite R3, Z.sub_diag. cbn [Z.ltb Z.compare].
  set (f := fun r => set_rec_length (rec_length r - Z.of_nat (length data)) (set_rec_off (rec_off r + Z.of_nat (length data)) r)).
  assert (E2 : set_num_released (num_released (upd_rrec 0 f rl1) + 1) (upd_rrec 0 f rl1) = released f (with_mem mem' (rbuf rl)) rl)
    by (change (num_released (upd_rrec 0 f rl1)) with (num_released rl); by rewrite N3).
  fold f. rewrite E2. set (rb := with_mem mem' (rbuf rl)) in *.
  pose proof (lo_wf _ _ _ Hl) as Hwf. unfold rb_wf in Hwf. rewrite Em in Hwf. rewrite <- Hlm in Hwf.
  assert (Hwf' : rb_wf rb) by (unfold rb_wf; cbn [rb with_mem buf len offset left]; tauto).
  assert (Hav : avail rb = avail (rbuf rl)) by (unfold avail; cbn [rb with_mem buf len offset left]; by rewrite Em, Hdm).
  destruct (_ && _ && _) eqn:Erel; eexists; (split; [reflexivity|]).
  - apply andb_true_iff in Erel as [_ Hleft%Z.eqb_eq]. change (left (rbuf rl) = 0) in Hleft.
    change (tls_release_read_buffer (released f rb rl)) with
      (released f (mkTLS_BUFFER None (buf_addr rb) (default_len rb) (len rb) (offset rb) (left rb)) rl).
    apply released_ok; try done. unfold avail at 1. cbn [buf]. by rewrite <- Hav; unfold avail; cbn [rb with_mem buf left]; rewrite Hleft.
  - apply released_ok; try done. intros _. by rewrite Em.
Qed.
(** ** Over any transport *)

Hypothesis no_skip : forall m : M, fst (su_skip_early_data m) = false.

Lemma record_handed (get : ST RL (option Z)) fuel (rl : RL) t data : rrec rl <> [] -> record_out (K := K) rl t data ->
  tls_read_record get fuel rl = (Ok (Some (OSSL_RECORD_RETURN_SUCCESS, Some (rr rl))), set_curr_rec 1 rl).
Proof.
  intros Hr [(N1 & N2 & N3) _ _ _ _]. destruct fuel; cbn [tls_read_record]; rewrite N1, N2; change (1 <=? 0) with false; cbv iota;
    change (Z.to_nat 0) with 0%nat; unfold rr, rrec_at; by destruct (rrec rl).
Qed.

(** What [tls_read_record] gives. *)
Definition read_result (rl rl' : RL) (stream : list Z) (code : Z) (o : option TLS_RL_RECORD) : Prop :=
  match o with
  | None => code <= OSSL_RECORD_RETURN_RETRY /\ idle rl' /\ carries (be_val (sequence rl)) stream [] (be_val (sequence rl')) (pending rl')
  | Some r => exists t data rl1, rl' = set_curr_rec 1 rl1 /\ r = rr rl1 /\ inv rl1 /\ record_out rl1 t data
      /\ carries (be_val (sequence rl)) stream [(t, data)] (be_val (sequence rl1)) (pending rl1)
  end.

Lemma read_result_after (rl rl1 rl' : RL) stream got code o : read_result rl1 rl' (pending rl1 ++ got) code o ->
  carries (be_val (sequence rl)) stream [] (be_val (sequence rl1)) (pending rl1) -> read_result rl rl' (stream ++ got) code o.
Proof.
  intros H Hc. destruct o as [r|]; cbn [read_result] in *.
  - destruct H as (t & data & rl2 & -> & -> & Hi & Ho & Hc'). exists t, data, rl2. do 4 (split; [done|]). exact (carries_more _ _ [] _ _ _ _ _ _ Hc Hc').
  - destruct H as (Hcode & Hi & Hc'). split; [done|]. split; [done|]. exact (carries_more _ _ [] _ _ _ _ _ _ Hc Hc').
Qed.

Lemma reads_all_app (s : option B * option B) got s1 got' s2 : reads_all s got s1 -> reads_all s1 got' s2 -> reads_all s (got ++ got') s2.
Proof. intros Ha. induction Ha as [|? ? ? ? ? H1 H2 IH]; intros Hb; [done|]. rewrite <- (assoc_L (++)). econstructor; [exact H1|]. by apply IH. Qed.

Lemma read_sound fuel : forall rl : RL, idle rl -> 33 - empty_record_count rl < Z.of_nat fuel ->
  exists code o rl', tls_read_record tls_get_more_records fuel rl = (Ok (Some (code, o)), rl')
    /\ ((code = OSSL_RECORD_RETURN_FATAL /\ o = None)
        \/ exists got, reads_all (prev rl, bio rl) got (prev rl', bio rl') /\ read_result rl rl' (pending rl ++ got) code o).
Proof.
  induction fuel as [|fuel IH]; intros rl (Hi & N1 & N2) Hf; pose proof Hi as [Hl _]; pose proof (lo_empty _ _ _ Hl) as He; [lia|].
  cbn [tls_read_record]. rewrite N1, N2, Z.leb_refl, Z.eqb_refl. cbn [negb].
  destruct (call_sound iv key no_skip rl Hi) as (code & rl1 & -> & [->|(Hi1 & _ & _ & got & Hr & Hc)]).
  { change (negb (-2 =? 1)) with true. cbv iota. eexists _, _, _. split; [reflexivity|by left]. }
  destruct Hc as [code Hcode Hst Hs|t data k Hst Hd Ho Hq|Hst Hh M1 M2 M3 M4 M5].
  - rewrite (proj2 (Z.eqb_neq code 1)) by lia. cbn [negb]. eexists _, _, _. split; [reflexivity|]. right. exists got. split; [done|].
    pose proof Hs as [_ _ _ S1 _ _ _ (S2 & S3 & S4) _]. split; [done|]. split; [split; [done|split; congruence]|]. rewrite S1, Hst. constructor.
  - change (negb (1 =? 1)) with false. cbv iota. destruct Hi1 as [Hl1 Hib]. rewrite (record_handed _ _ _ t data (lo_rrec _ _ _ Hl1) Ho).
    eexists _, _, _. split; [reflexivity|]. right. exists got. split; [done|]. exists t, data, rl1. do 4 (split; [done|]).
    rewrite Hst, Hq. rewrite <- (seq_bytes rl Hi) at 2. apply carries_record. constructor.
  - change (negb (1 =? 1)) with false. cbv iota.
    destruct (IH rl1) as (code & o & rl2 & -> & H); [split; [done|lia]|lia|]. eexists _, _, _. split; [reflexivity|].
    destruct H as [H|(got2 & Hr2 & H)]; [by left|right]. exists (got ++ got2). split; [by eapply reads_all_app|].
    rewrite (assoc_L (++)). eapply read_result_after; [exact H|]. rewrite Hst, M4. apply carries_ccs. constructor.
Qed.

Lemma next_sound (rl : RL) : idle rl ->
  exists code o rl', read_next rl = (Ok (code, o), rl')
    /\ ((code = OSSL_RECORD_RETURN_FATAL /\ o = None)
        \/ exists got, reads_all (prev rl, bio rl) got (prev rl', bio rl') /\ idle rl'
            /\ carries (be_val (sequence rl)) (pending rl ++ got) (match o with Some rec => [rec] | None => [] end) (be_val (sequence rl')) (pending rl')
            /\ (o = None -> code <= OSSL_RECORD_RETURN_RETRY)).
Proof.
  intros Hi. pose proof Hi as ([Hl _] & _). pose proof (lo_empty _ _ _ Hl) as He. unfold read_next.
  destruct (read_sound read_fuel rl Hi) as (code & o & rl1 & -> & H); [unfold read_fuel; lia|].
  destruct H as [[-> ->]|(got & Hr & H)]; [eexists _, _, _; split; [reflexivity|by left]|].
  destruct o as [r|]; cbn [read_result] in H.
  - destruct H as (t & data & rl2 & -> & -> & Hi2 & Ho & Hc). pose proof Ho as [_ (R1 & R2 & R3) (d & mem & Ed & Em & Hm & _) _ _].
    assert (Ep : ptr_bytes (set_curr_rec 1 rl2) (rr rl2) (rec_data (rr rl2)) (rec_off (rr rl2)) (rec_length (rr rl2)) = Some data).
    { unfold ptr_bytes. rewrite Ed, R2, R3. cbn [rbuf set_curr_rec]. by rewrite Em, Z.add_0_r. }
    rewrite Ep. destruct (release_ok rl2 t data Hi2 Ho) as (rl3 & E & Hi3 & P1 & P2 & P3 & P4 & _).
    rewrite R3, (st_bind_ok _ _ _ _ _ E), R1. eexists _, _, _. split; [reflexivity|]. right. exists got.
    rewrite P2, P3. split; [exact Hr|]. split; [done|]. split; [by rewrite P4, P1|done].
  - eexists _, _, _. split; [reflexivity|]. right. exists got. tauto.
Qed.

(** ** Over a stream *)

Section Complete.
Context {tc : B -> list Z} {cost : B -> nat} {St : Stream B tc cost}.
Hypothesis zalloc : is_Some (CRYPTO_zalloc 40).
Hypothesis plenty : forall (m : M) n, fst (su_malloc m n) <> None.

(** A type, contents, and the length of the padding. *)
Definition item : Type := Z * list Z * nat.
Definition inner (r : item) : list Z := let '(t, data, k) := r in data ++ t :: replicate k 0.
Definition content (r : item) : Z * list Z := let '(t, data, _) := r in (t, data).

Fixpoint wire_stream (s : Z) (recs : list item) : list Z :=
  match recs with
  | [] => []
  | r :: recs => wire (be_bytes 8 s) (inner r) ++ wire_stream (s + 1) recs
  end.

(** The records a layer takes whose fragments are at most [mfl] bytes long. *)
Record acceptable (mfl : Z) (r : item) : Prop := {
  ac_type : fst (content r) = SSL3_RT_APPLICATION_DATA \/ fst (content r) = SSL3_RT_ALERT \/ fst (content r) = SSL3_RT_HANDSHAKE;
  ac_bytes : Forall is_byte (snd (content r));
  ac_data : 0 < Z.of_nat (length (snd (content r))) <= mfl;
  ac_size : Z.of_nat (length (inner r)) + taglen <= mfl + 316
    /\ Z.of_nat (length (inner r)) + taglen <= SSL3_RT_MAX_TLS13_ENCRYPTED_LENGTH
}.

Lemma acceptable_arrives (rl : RL) b t data k rest : acceptable (max_frag_len rl) (t, data, k) -> prev rl = None -> bio rl = Some b ->
  pending rl ++ tc b = wire (sequence rl) (inner (t, data, k)) ++ rest -> be_val (sequence rl) < 2 ^ 64 - 1 ->
  arriving (tc := tc) (ivlen := ivlen) (taglen := taglen) iv key rl b t data k rest.
Proof.
  intros [Ht Hb Hd Hs] Hp Hbio Hst Hq. cbn [content fst snd inner] in *. split; try done.
  - apply Forall_app. split; [done|]. constructor; [unfold is_byte; destruct Ht as [->|[-> | ->]]; lia|by apply Forall_replicate].
  - unfold deliverable. rewrite (proj2 (Z.leb_le _ _)), (proj2 (Z.ltb_lt _ _)) by lia.
    by destruct Ht as [->|[-> | ->]].
Qed.

Lemma next_complete (rl : RL) b t data k rest : idle rl -> arriving (tc := tc) (ivlen := ivlen) (taglen := taglen) iv key rl b t data k rest ->
  exists code o rl' b', read_next rl = (Ok (code, o), rl') /\ idle rl' /\ prev rl' = None /\ bio rl' = Some b' /\ max_frag_len rl' = max_frag_len rl
    /\ ((o = None /\ code = OSSL_RECORD_RETURN_RETRY /\ pending rl' ++ tc b' = pending rl ++ tc b /\ sequence rl' = sequence rl
         /\ (cost b' < cost b)%nat)
        \/ (o = Some (t, data) /\ pending rl' ++ tc b' = rest /\ be_val (sequence rl') = be_val (sequence rl) + 1 /\ (cost b' <= cost b)%nat)).
Proof.
  intros (Hi & N1 & N2) Har. destruct (call_complete iv key zalloc plenty rl b t data k rest Hi Har)
    as (code & rl1 & b' & E & Hi1 & Hp1 & Hb1 & _ & Hm1 & H).
  unfold read_next, read_fuel. cbn [tls_read_record]. rewrite N1, N2, Z.leb_refl, Z.eqb_refl. cbn [negb]. rewrite E.
  destruct H as [(-> & Hs & Hst & Hc)|(-> & Ho & Hst & Hq & Hc)].
  - change (negb (0 =? 1)) with true. cbv iota. pose proof Hs as [_ _ _ S1 _ _ _ (S2 & S3 & S4) _].
    exists 0, None, rl1, b'. split; [reflexivity|]. split; [split; [done|split; congruence]|]. do 3 (split; [done|]). by left.
  - change (negb (1 =? 1)) with false. cbv iota. pose proof Hi1 as [Hl1 _].
    pose proof (record_handed tls_get_more_records 33 rl1 t data (lo_rrec _ _ _ Hl1) Ho) as Eh. cbn [tls_read_record] in Eh. rewrite Eh.
    pose proof Ho as [_ (R1 & R2 & R3) (d & mem & Ed & Em & Hm & _) _ _].
    assert (Ep : ptr_bytes (set_curr_rec 1 rl1) (rr rl1) (rec_data (rr rl1)) (rec_off (rr rl1)) (rec_length (rr rl1)) = Some data).
    { unfold ptr_bytes. rewrite Ed, R2, R3. cbn [rbuf set_curr_rec]. by rewrite Em, Z.add_0_r. }
    rewrite Ep. destruct (release_ok rl1 t data Hi1 Ho) as (rl3 & E3 & Hi3 & P1 & P2 & P3 & P4 & _ & P6).
    rewrite R3, (st_bind_ok _ _ _ _ _ E3), R1. exists 1, (Some (t, data)), rl3, b'. split; [reflexivity|]. split; [done|].
    split; [congruence|]. split; [congruence|]. split; [congruence|]. right. split; [done|]. by rewrite P1, P4.
Qed.

(** Reading once the records are on their way. *)
Lemma read_all recs : forall fuel (rl : RL) b rest, idle rl -> prev rl = None -> bio rl = Some b ->
  pending rl ++ tc b = wire_stream (be_val (sequence rl)) recs ++ rest -> Forall (acceptable (max_frag_len rl)) recs ->
  be_val (sequence rl) + Z.of_nat (length recs) < 2 ^ 64 -> (length recs + cost b <= fuel)%nat ->
  exists rl' b', read_many fuel (length recs) rl = (Ok (map content recs), rl') /\ idle rl' /\ prev rl' = None /\ bio rl' = Some b'
    /\ max_frag_len rl' = max_frag_len rl /\ pending rl' ++ tc b' = rest /\ be_val (sequence rl') = be_val (sequence rl) + Z.of_nat (length recs)
    /\ (cost b' <= cost b)%nat.
Proof.
  induction recs as [|[[t data] k] recs IHr].
  { intros fuel rl b rest Hi Hp Hb Hst _ _ _. exists rl, b. destruct fuel; (split; [reflexivity|]); split_and!; try done; simpl; lia. }
  induction fuel as [|fuel IH]; intros rl b rest Hi Hp Hb Hst Ha Hq Hf; [simpl in Hf; lia|]. pose proof Ha as [Ha1 Har]%Forall_cons.
  cbn [wire_stream] in Hst. rewrite <- (assoc_L (++)), seq_bytes in Hst by apply Hi. cbn [length] in Hq, Hf.
  destruct (next_complete rl b t data k (wire_stream (be_val (sequence rl) + 1) recs ++ rest)) as (code & o & rl1 & b1 & E & Hi1 & Hp1 & Hb1 & Hm1 & H);
    [done|apply acceptable_arrives; try done; lia|].
  cbn [length read_many]. rewrite (st_bind_ok _ _ _ _ _ E). destruct H as [(-> & -> & Hst1 & Hs1 & Hc)|(-> & Hst1 & Hs1 & Hc)].
  - change (0 =? 0) with true. cbv iota. destruct (IH rl1 b1 rest Hi1 Hp1 Hb1) as (rl2 & b2 & E2 & H2).
    + rewrite Hst1, Hs1, Hst. cbn [wire_stream]. rewrite seq_bytes by apply Hi. by rewrite <- (assoc_L (++)).
    + by rewrite Hm1.
    + rewrite Hs1. cbn [length]. lia.
    + cbn [length]. lia.
    + exists rl2, b2. cbn [length] in E2. split; [exact E2|]. rewrite <- Hm1, <- Hs1. destruct H2 as (? & ? & ? & ? & ? & ? & ?). split_and!; (done || lia).
  - destruct (IHr fuel rl1 b1 rest Hi1 Hp1 Hb1) as (rl2 & b2 & E2 & H2); [by rewrite Hst1, Hs1|by rewrite Hm1|lia|lia|].
    rewrite (st_bind_ok _ _ _ _ _ E2). exists rl2, b2. split; [reflexivity|]. destruct H2 as (? & ? & ? & H3 & ? & H4 & ?).
    split_and!; try done; [congruence|rewrite H4, Hs1; cbn [length]; lia|lia].
Qed.
End Complete.
End Series.
End TlsSeries.
