(* ===== verification/TlsWriter.v ===== *)
(** * The TLS record layer: writing

    [tls_write_records] and [tls_retry_write_records] of
    ssl/record/methods/tls_common.c with the functions of the protocol versions
    they call in tls_common.c, tls1_meth.c, tls13_meth.c and tlsany_meth.c: write
    buffers, headers, compression, padding, room for the cipher, and handing the
    bytes to the transport.  Several blocks at once (tls_multib.c) are left out. *)

From stdpp Require Import prelude list.
From Stdlib Require Import ZArith Lia ZifyBool.
From S2P Require Import Prelude Buffer WPacket PQueue RecordTypes RecordRead DtlsRecord RecLayer TlsCrypt TlsRecord.

Local Open Scope Z_scope.
Local Open Scope st_scope.

Module TlsWriter.
Import TlsCrypt TlsRecord.

Abbreviation OSSL_RECORD_TEMPLATE := RecLayer.OSSL_RECORD_TEMPLATE.
Abbreviation t_type := RecLayer.t_type.
Abbreviation t_version := RecLayer.t_version.
Abbreviation t_buf := RecLayer.t_buf.
Abbreviation SSL3_RT_SEND_MAX_ENCRYPTED_OVERHEAD := (16 + 64)%Z.
Abbreviation SSL_OP_DONT_INSERT_EMPTY_FRAGMENTS := (0x800)%Z.
Abbreviation MAX_PREFIX_LEN := (SSL3_ALIGN_PAYLOAD - 1 + SSL3_RT_SEND_MAX_ENCRYPTED_OVERHEAD + SSL3_RT_HEADER_LENGTH
                                + SSL3_RT_MAX_COMPRESSED_OVERHEAD)%Z.

(** [struct ossl_record_layer_st], the writing side.  [w_env] is the rest: the
    contexts, the callbacks and the allocator. *)
Record WRITE_LAYER (B X : Type) : Type := mkWL {
  w_isdtls : bool;
  w_version : Z;
  w_bio : option B;
  w_options : Z;
  w_mode : Z;
  w_bufs : list TLS_BUFFER;
  nextwbuf : Z;
  numwpipes : Z;
  w_sequence : list Z;
  w_alert : Z;
  need_empty_fragments : bool;
  eivlen : Z;
  w_max_frag_len : Z;
  block_padding : Z;
  w_use_etm : bool;
  w_max_pipelines : Z;
  w_env : X
}.
Arguments mkWL {B X}.
Arguments w_isdtls {B X} _.
Arguments w_version {B X} _.
Arguments w_bio {B X} _.
Arguments w_options {B X} _.
Arguments w_mode {B X} _.
Arguments w_bufs {B X} _.
Arguments nextwbuf {B X} _.
Arguments numwpipes {B X} _.
Arguments w_sequence {B X} _.
Arguments w_alert {B X} _.
Arguments need_empty_fragments {B X} _.
Arguments eivlen {B X} _.
Arguments w_max_frag_len {B X} _.
Arguments block_padding {B X} _.
Arguments w_use_etm {B X} _.
Arguments w_max_pipelines {B X} _.
Arguments w_env {B X} _.

Section Setters.
Context {B X : Type}.
Local Abbreviation WL := (WRITE_LAYER B X).
Definition set_w_bio (v : option B) (l : WL) : WL :=
  mkWL (w_isdtls l) (w_version l) v (w_options l) (w_mode l) (w_bufs l) (nextwbuf l) (numwpipes l) (w_sequence l) (w_alert l)
    (need_empty_fragments l) (eivlen l) (w_max_frag_len l) (block_padding l) (w_use_etm l) (w_max_pipelines l) (w_env l).
Definition set_w_bufs (v : list TLS_BUFFER) (l : WL) : WL :=
  mkWL (w_isdtls l) (w_version l) (w_bio l) (w_options l) (w_mode l) v (nextwbuf l) (numwpipes l) (w_sequence l) (w_alert l)
    (need_empty_fragments l) (eivlen l) (w_max_frag_len l) (block_padding l) (w_use_etm l) (w_max_pipelines l) (w_env l).
Definition set_nextwbuf (v : Z) (l : WL) : WL :=
  mkWL (w_isdtls l) (w_version l) (w_bio l) (w_options l) (w_mode l) (w_bufs l) v (numwpipes l) (w_sequence l) (w_alert l)
    (need_empty_fragments l) (eivlen l) (w_max_frag_len l) (block_padding l) (w_use_etm l) (w_max_pipelines l) (w_env l).
Definition set_numwpipes (v : Z) (l : WL) : WL :=
  mkWL (w_isdtls l) (w_version l) (w_bio l) (w_options l) (w_mode l) (w_bufs l) (nextwbuf l) v (w_sequence l) (w_alert l)
    (need_empty_fragments l) (eivlen l) (w_max_frag_len l) (block_padding l) (w_use_etm l) (w_max_pipelines l) (w_env l).
Definition set_w_sequence (v : list Z) (l : WL) : WL :=
  mkWL (w_isdtls l) (w_version l) (w_bio l) (w_options l) (w_mode l) (w_bufs l) (nextwbuf l) (numwpipes l) v (w_alert l)
    (need_empty_fragments l) (eivlen l) (w_max_frag_len l) (block_padding l) (w_use_etm l) (w_max_pipelines l) (w_env l).
Definition set_w_alert (v : Z) (l : WL) : WL :=
  mkWL (w_isdtls l) (w_version l) (w_bio l) (w_options l) (w_mode l) (w_bufs l) (nextwbuf l) (numwpipes l) (w_sequence l) v
    (need_empty_fragments l) (eivlen l) (w_max_frag_len l) (block_padding l) (w_use_etm l) (w_max_pipelines l) (w_env l).
Definition set_w_env (v : X) (l : WL) : WL :=
  mkWL (w_isdtls l) (w_version l) (w_bio l) (w_options l) (w_mode l) (w_bufs l) (nextwbuf l) (numwpipes l) (w_sequence l) (w_alert l)
    (need_empty_fragments l) (eivlen l) (w_max_frag_len l) (block_padding l) (w_use_etm l) (w_max_pipelines l) v.

(** [RLAYERfatal], and [0] is returned. *)
Definition wfatal {A} (al : Z) : ST WL A := fun l => (Fail, set_w_alert al l).

Definition buf_at (i : nat) (l : WL) : TLS_BUFFER := default no_buffer (w_bufs l !! i).
Definition upd_buf (i : nat) (f : TLS_BUFFER -> TLS_BUFFER) (l : WL) : WL := set_w_bufs (alter f i (w_bufs l)) l.
End Setters.

(** [TLS_RL_RECORD] of a record to be written.  [wr_data] is an offset in the
    write buffer; [wr_input] is one too, or [None] while it is the buffer of the
    template. *)
Record WREC : Type := mkWREC {
  wr_type : Z;
  wr_version : Z;
  wr_length : Z;
  wr_data : option Z;
  wr_input : option Z
}.

(** A record, its writer, which has the write buffer, and its template. *)
Record PKT : Type := mkPKT { wpkt : WPACKET; wrec : WREC; templ : OSSL_RECORD_TEMPLATE }.

(** The transport: what [BIO_write] returns, and [BIO_should_retry]. *)
Class WBIO (B : Type) : Type := { BIO_write : B -> list Z -> Z * bool * B }.

(** The functions and contexts of the layer. *)
Class write_functions (B X : Type) : Type := {
  w_funcs : X -> FUNCS;
  w_plain_alerts : X -> bool;
  w_malloc : X -> Z -> option (list Z * Z) * X;
  w_allow_compression : X -> bool;
  w_md_ctx : X -> option (option Z);
  w_has_compctx : X -> bool;
  w_has_enc_ctx : X -> bool;
  (* the cipher is there and can pipeline *)
  w_pipeline : X -> bool;
  compress_block : X -> list Z -> option (list Z) * X;
  (* [mac(rl, wr, md, 1)] on the bytes of the record: [md], unless it fails *)
  w_mac : list Z -> WRITE_LAYER B X -> ret (list Z) * WRITE_LAYER B X;
  (* [cipher(rl, wr, n, 1, NULL, mac_size) >= 1] *)
  w_cipher : Z -> list PKT -> WRITE_LAYER B X -> ret (list PKT) * WRITE_LAYER B X;
  (* [NULL], or the padding wanted for a type and a length *)
  w_padding : X -> option (Z -> Z -> Z * X);
  w_msg_callback : Z -> Z -> list Z -> X -> X
}.

Section Ops.
Context {B X : Type} `{L : Libc} `{!WBIO B} `{!write_functions B X}.
Local Abbreviation WL := (WRITE_LAYER B X).

(** ** Write buffers *)

(** [while (pipes > start)] from [numwpipes] downwards. *)
Fixpoint release_loop (pipes start : nat) (l : WL) : WL :=
  match pipes with
  | O => l
  | S p => if (start <? pipes)%nat
           then release_loop p start
                  (upd_buf p (fun b => mkTLS_BUFFER None (buf_addr b) (default_len b) (len b) (offset b) (left b)) l)
           else l
  end.
Definition tls_release_write_buffer_int (start : Z) (l : WL) : WL :=
  release_loop (Z.to_nat (numwpipes l)) (Z.to_nat start) l.

Definition tls_release_write_buffer (l : WL) : WL := set_numwpipes 0 (tls_release_write_buffer_int 0 l).

Definition default_write_len (l : WL) : Z :=
  let headerlen := if w_isdtls l then DTLS1_RT_HEADER_LENGTH + 1 else SSL3_RT_HEADER_LENGTH in
  let contenttypelen := if w_version l =? TLS1_3_VERSION then 1 else 0 in
  let align := SSL3_ALIGN_PAYLOAD - 1 in
  align + headerlen + eivlen l + w_max_frag_len l + contenttypelen + SSL3_RT_SEND_MAX_ENCRYPTED_OVERHEAD
  + (if w_allow_compression (w_env l) then SSL3_RT_MAX_COMPRESSED_OVERHEAD else 0)
  + (if negb (has (w_options l) SSL_OP_DONT_INSERT_EMPTY_FRAGMENTS)
     then headerlen + align + SSL3_RT_SEND_MAX_ENCRYPTED_OVERHEAD else 0).

(** Buffer [i] with [n] bytes. *)
Definition setup_one (i : nat) (n : Z) : ST WL unit := fun l =>
  match w_bufs l !! i with
  | None => (Fault, l)
  | Some b =>
      let old := if negb (len b =? n) then None else match buf b with Some m => Some (m, buf_addr b) | None => None end in
      let '(p, x) := match old with Some p => (Some p, w_env l) | None => w_malloc (w_env l) n end in
      let l := set_w_env x l in
      match p with
      | None =>
          let l := upd_buf i (fun b => mkTLS_BUFFER None (buf_addr b) (default_len b) (len b) (offset b) (left b)) l in
          wfatal SSL_AD_NO_ALERT (if numwpipes l <? Z.of_nat i then set_numwpipes (Z.of_nat i) l else l)
      | Some (m, a) => (Ok tt, upd_buf i (fun _ => mkTLS_BUFFER (Some m) a 0 n 0 0) l)
      end
  end.

Fixpoint setup_loop (todo i : nat) (firstlen nextlen defltlen : Z) : ST WL unit :=
  match todo with
  | O => st_ret tt
  | S todo =>
      let n := if Nat.eqb i 0 then firstlen else nextlen in
      setup_one i (if n =? 0 then defltlen else n) ;;; setup_loop todo (S i) firstlen nextlen defltlen
  end.

Definition tls_setup_write_buffer (n firstlen nextlen : Z) : ST WL unit := fun l =>
  let defltlen := if (firstlen =? 0) || ((1 <? n) && (nextlen =? 0)) then default_write_len l else 0 in
  (setup_loop (Z.to_nat n) 0 firstlen nextlen defltlen ;;;
   st_put (fun l => set_numwpipes n (tls_release_write_buffer_int n l))) l.

(** The functions of SSL 3.0 to TLS 1.2 put an empty record in front of
    application data if need be; the result is the number of such records. *)
Definition prefix_of (ts : list OSSL_RECORD_TEMPLATE) (l : WL) : bool :=
  match w_funcs (w_env l) with
  | ssl_3_0_funcs | tls_1_funcs =>
      need_empty_fragments l
      && match ts with t :: _ => t_type t =? SSL3_RT_APPLICATION_DATA | [] => false end
  | _ => false
  end.

Definition allocate_write_buffers (ts : list OSSL_RECORD_TEMPLATE) : ST WL unit := fun l =>
  if prefix_of ts l then tls_setup_write_buffer (Z.of_nat (length ts) + 1) MAX_PREFIX_LEN 0 l
  else tls_setup_write_buffer (Z.of_nat (length ts)) 0 0 l.

(** ** Starting the packets *)

Definition blank : WPACKET := mkWPACKET None None 0 0 0 [] false.
Definition no_wrec : WREC := mkWREC 0 0 0 None None.

(** The gap that aligns the payload. *)
Definition write_align (b : TLS_BUFFER) (l : WL) : Z :=
  let headerlen := if w_isdtls l then DTLS1_RT_HEADER_LENGTH else SSL3_RT_HEADER_LENGTH in
  SSL3_ALIGN_PAYLOAD - 1 - (buf_addr b + headerlen - 1) `mod` SSL3_ALIGN_PAYLOAD.

(** Running the writer of a packet; a failure is fatal. *)
Definition on_wpkt {A} (m : ST WPACKET A) (p : PKT) (l : WL) : ret (A * PKT) * WL :=
  match m (wpkt p) with
  | (Ok a, w) => (Ok (a, mkPKT w (wrec p) (templ p)), l)
  | (Fail, _) => wfatal SSL_AD_INTERNAL_ERROR l
  | (Fault, _) => (Fault, l)
  end.

Definition init_packet (i : nat) (t : OSSL_RECORD_TEMPLATE) : ST WL PKT := fun l =>
  match w_bufs l !! i with
  | None => (Fault, l)
  | Some b =>
      let align := write_align b l in
      let l := upd_buf i (set_offset align) l in
      match buf b with
      | None => wfatal SSL_AD_INTERNAL_ERROR l
      | Some mem =>
          match on_wpkt (WPACKET_init_static_len mem 0 ;;; WPACKET_allocate_bytes align) (mkPKT blank no_wrec t) l with
          | (Ok (_, p), l) => (Ok p, l)
          | (Fail, l) => (Fail, l)
          | (Fault, l) => (Fault, l)
          end
      end
  end.

Fixpoint initialise_write_packets (i : nat) (ts : list OSSL_RECORD_TEMPLATE) : ST WL (list PKT) :=
  match ts with
  | [] => st_ret []
  | t :: ts => p <~ init_packet i t ;; ps <~ initialise_write_packets (S i) ts ;; st_ret (p :: ps)
  end.

(** ** Preparing a record *)

Definition get_record_type (t : OSSL_RECORD_TEMPLATE) (l : WL) : Z :=
  match w_funcs (w_env l) with
  | tls_1_3_funcs =>
      if w_plain_alerts (w_env l) && (t_type t =? SSL3_RT_ALERT) then SSL3_RT_ALERT else SSL3_RT_APPLICATION_DATA
  | _ => t_type t
  end.

Definition buflen (t : OSSL_RECORD_TEMPLATE) : Z := Z.of_nat (length (t_buf t)).

(** [tls_prepare_record_header_default]: where the data is to go, if there is any. *)
Definition prepare_record_header (rectype : Z) (t : OSSL_RECORD_TEMPLATE) (l : WL) : ST WPACKET (option Z) :=
  let maxcomplen := buflen t + if w_has_compctx (w_env l) then SSL3_RT_MAX_COMPRESSED_OVERHEAD else 0 in
  WPACKET_put_bytes__ rectype 1 ;;;
  WPACKET_put_bytes__ (t_version t) 2 ;;;
  WPACKET_start_sub_packet_len__ 2 ;;;
  (if 0 <? eivlen l then WPACKET_allocate_bytes (eivlen l) ;;; st_ret tt else st_ret tt) ;;;
  if 0 <? maxcomplen then WPACKET_reserve_bytes maxcomplen else st_ret None.

Definition set_wrec (r : WREC) (p : PKT) : PKT := mkPKT (wpkt p) r (templ p).

(** Compressing, or copying, the data. *)
Definition copy_data (recdata : option Z) (p : PKT) : ST WL PKT := fun l =>
  let src := t_buf (templ p) in
  let r := wrec p in
  if w_has_compctx (w_env l) then
    let '(out, x) := compress_block (w_env l) src in
    let l := set_w_env x l in
    match out with
    | None => wfatal SSL_AD_INTERNAL_ERROR l
    | Some out =>
        match recdata with
        | None => (Fault, l)
        | Some d =>
            match on_wpkt (store d out ;;; WPACKET_allocate_bytes (Z.of_nat (length out))) p l with
            | (Ok (_, p), l) =>
                (Ok (set_wrec (mkWREC (wr_type r) (wr_version r) (Z.of_nat (length out)) (wr_data r) (wr_data r)) p), l)
            | (Fail, l) => (Fail, l)
            | (Fault, l) => (Fault, l)
            end
        end
    end
  else match recdata with
  | None => (Ok p, l)
  | Some _ =>
      match on_wpkt (WPACKET_memcpy src) p l with
      | (Ok (_, p), l) => (Ok (set_wrec (mkWREC (wr_type r) (wr_version r) (wr_length r) (wr_data r) (wr_data r)) p), l)
      | (Fail, l) => (Fail, l)
      | (Fault, l) => (Fault, l)
      end
  end.

Definition add_length (n : Z) (r : WREC) : WREC :=
  mkWREC (wr_type r) (wr_version r) (wr_length r + n) (wr_data r) (wr_input r).

(** How much padding a record of TLS 1.3 gets. *)
Definition padding_of (type rlen : Z) : ST WL Z := fun l =>
  if rlen <? w_max_frag_len l then
    let max_padding := w_max_frag_len l - rlen in
    let '(padding, x) :=
      match w_padding (w_env l) with
      | Some f => f type rlen
      | None =>
          (if 0 <? block_padding l then
             let mask := block_padding l - 1 in
             let remainder := if Z.land (block_padding l) mask =? 0 then Z.land rlen mask else rlen `mod` block_padding l in
             if remainder =? 0 then 0 else block_padding l - remainder
           else 0, w_env l)
      end in
    (Ok (if max_padding <? padding then max_padding else padding), set_w_env x l)
  else (Ok 0, l).

Definition tls13_add_record_padding (p : PKT) : ST WL PKT := fun l =>
  let t := t_type (templ p) in
  if w_plain_alerts (w_env l) && negb (t =? SSL3_RT_ALERT) then (Ok p, l)
  else match on_wpkt (WPACKET_put_bytes__ t 1) p l with
  | (Ok (_, p), l) =>
      let p := set_wrec (add_length 1 (wrec p)) p in
      (padding <~ padding_of t (wr_length (wrec p)) ;;
       if 0 <? padding then fun l =>
         match on_wpkt (WPACKET_memset 0 padding) p l with
         | (Ok (_, p), l) => (Ok (set_wrec (add_length padding (wrec p)) p), l)
         | (Fail, l) => (Fail, l)
         | (Fault, l) => (Fault, l)
         end
       else st_ret p) l
  | (Fail, l) => (Fail, l)
  | (Fault, l) => (Fault, l)
  end.

Definition add_record_padding (p : PKT) : ST WL PKT := fun l =>
  match w_funcs (w_env l) with tls_1_3_funcs => tls13_add_record_padding p l | _ => (Ok p, l) end.

(** The bytes from [o] on of a packet. *)
Definition pkt_read (o n : Z) (p : PKT) : option (list Z) :=
  match staticbuf (wpkt p) with Some mem => mem_read mem o n | None => None end.

(** [mac(rl, thiswr, mac, 1)] into bytes that are allocated for it. *)
Definition add_mac (mac_size : Z) (p : PKT) : ST WL PKT := fun l =>
  match on_wpkt (WPACKET_allocate_bytes mac_size) p l with
  | (Ok (Some d, p), l) =>
      match (match wr_input (wrec p) with Some i => pkt_read i (wr_length (wrec p)) p | None => Some (t_buf (templ p)) end) with
      | None => (Fault, l)
      | Some bs =>
          match w_mac bs l with
          | (Ok md, l) =>
              match on_wpkt (store d (take (Z.to_nat mac_size) md)) p l with
              | (Ok (_, p), l) => (Ok p, l)
              | (Fail, l) => (Fail, l)
              | (Fault, l) => (Fault, l)
              end
          | (Fail, l) => wfatal SSL_AD_INTERNAL_ERROR l
          | (Fault, l) => (Fault, l)
          end
      end
  | (Ok (None, _), l) => (Fault, l)
  | (Fail, l) => (Fail, l)
  | (Fault, l) => (Fault, l)
  end.

Definition tls_prepare_for_encryption_default (mac_size : Z) (p : PKT) : ST WL PKT :=
  p <~ (fun l => if negb (w_use_etm l) && negb (mac_size =? 0) then add_mac mac_size p l else (Ok p, l)) ;;
  fun l =>
    match on_wpkt (WPACKET_reserve_bytes (wrap64 (SSL3_RT_SEND_MAX_ENCRYPTED_OVERHEAD - mac_size)) ;;; WPACKET_get_length) p l with
    | (Ok (n, p), l) =>
        match WPACKET_get_curr (wpkt p) with
        | None => (Fault, l)
        | Some c =>
            let recordstart := Some (c - n) in
            (Ok (set_wrec (mkWREC (wr_type (wrec p)) (wr_version (wrec p)) n recordstart recordstart) p), l)
        end
    | (Fail, l) => (Fail, l)
    | (Fault, l) => (Fault, l)
    end.

Definition prepare_for_encryption (mac_size : Z) (p : PKT) : ST WL PKT := fun l =>
  match w_funcs (w_env l) with
  | tls_any_funcs => (Ok p, l)
  | _ => tls_prepare_for_encryption_default mac_size p l
  end.

(** The body of the first loop of [tls_write_records_default]. *)
Definition prepare_record (mac_size : Z) (p : PKT) : ST WL PKT := fun l =>
  let t := templ p in
  let rectype := get_record_type t l in
  match on_wpkt (prepare_record_header rectype t l) p l with
  | (Ok (recdata, p), l) =>
      let p := set_wrec (mkWREC rectype (t_version t) (buflen t) recdata None) p in
      (p <~ copy_data recdata p ;; p <~ add_record_padding p ;; prepare_for_encryption mac_size p) l
  | (Fail, l) => (Fail, l)
  | (Fault, l) => (Fault, l)
  end.

Fixpoint map_st (f : PKT -> ST WL PKT) (ps : list PKT) : ST WL (list PKT) :=
  match ps with
  | [] => st_ret []
  | p :: ps => p <~ f p ;; ps <~ map_st f ps ;; st_ret (p :: ps)
  end.

(** ** After the cipher *)

(** [msg_callback] for the header of the record that ends at the current
    position, and for its real type in TLS 1.3. *)
Definition written_callback (headerlen len : Z) (p : PKT) (l : WL) : WL :=
  match WPACKET_get_curr (wpkt p) with
  | None => l
  | Some c =>
      let h := default [] (pkt_read (c - len - headerlen) headerlen p) in
      let x := w_msg_callback (wr_version (wrec p)) SSL3_RT_HEADER h (w_env l) in
      set_w_env (if (w_version l =? TLS1_3_VERSION) && w_has_enc_ctx x
                 then w_msg_callback (wr_version (wrec p)) SSL3_RT_INNER_CONTENT_TYPE [t_type (templ p)] x else x) l
  end.

Definition post_encryption_processing (mac_size : Z) (p : PKT) : ST WL PKT := fun l =>
  let headerlen := if w_isdtls l then DTLS1_RT_HEADER_LENGTH else SSL3_RT_HEADER_LENGTH in
  let length := wr_length (wrec p) in
  match on_wpkt (origlen <~ WPACKET_get_length ;;
                 st_guard (fun _ => (length <=? origlen + SSL3_RT_SEND_MAX_ENCRYPTED_OVERHEAD - mac_size)
                                    && (origlen <=? length)) ;;;
                 if origlen <? length then WPACKET_allocate_bytes (length - origlen) ;;; st_ret tt else st_ret tt) p l with
  | (Ok (_, p), l) =>
      (p <~ (fun l => if w_use_etm l && negb (mac_size =? 0)
                      then (p <~ add_mac mac_size p ;; st_ret (set_wrec (add_length mac_size (wrec p)) p)) l
                      else (Ok p, l)) ;;
       fun l =>
         match on_wpkt (n <~ WPACKET_get_length ;; WPACKET_close ;;; st_ret n) p l with
         | (Ok (n, p), l) =>
             let l := written_callback headerlen n p l in
             match on_wpkt WPACKET_finish p l with
             | (Ok (_, p), l) => (Ok (set_wrec (add_length headerlen (wrec p)) p), l)
             | (Fail, l) => (Fail, l)
             | (Fault, l) => (Fault, l)
             end
         | (Fail, l) => (Fail, l)
         | (Fault, l) => (Fault, l)
         end) l
  | (Fail, l) => (Fail, l)
  | (Fault, l) => (Fault, l)
  end.

(** The write buffers hold what the packets have written. *)
Fixpoint store_packets (i : nat) (ps : list PKT) (l : WL) : WL :=
  match ps with
  | [] => l
  | p :: ps =>
      store_packets (S i) ps
        (upd_buf i (fun b => mkTLS_BUFFER (staticbuf (wpkt p)) (buf_addr b) (default_len b) (len b) (offset b)
                               (wr_length (wrec p))) l)
  end.

Definition w_mac_size : ST WL Z := fun l =>
  match w_md_ctx (w_env l) with
  | Some (Some n) => if n <? 0 then wfatal SSL_AD_INTERNAL_ERROR l else (Ok n, l)
  | _ => (Ok 0, l)
  end.

(** [cipher(...) < 1] is fatal; an alert it has raised is kept. *)
Definition encrypt (mac_size : Z) (ps : list PKT) : ST WL (list PKT) := fun l =>
  match w_cipher mac_size ps l with
  | (Fail, l) => if w_alert l =? SSL_AD_NO_ALERT then wfatal SSL_AD_INTERNAL_ERROR l else (Fail, l)
  | other => other
  end.

(** What has been written into the buffers when the function fails is lost with
    the connection. *)
Definition tls_write_records_default (ts : list OSSL_RECORD_TEMPLATE) : ST WL unit := fun l =>
  let prefix := prefix_of ts l in
  let ts' := match prefix, ts with
             | true, t :: _ => RecLayer.mkTMPL SSL3_RT_APPLICATION_DATA (t_version t) [] :: ts
             | _, _ => ts
             end in
  (mac_size <~ w_mac_size ;;
   allocate_write_buffers ts ;;;
   ps <~ initialise_write_packets 0 ts' ;;
   ps <~ map_st (prepare_record mac_size) ps ;;
   ps <~ (if prefix then
            first <~ encrypt mac_size (take 1 ps) ;; others <~ encrypt mac_size (drop 1 ps) ;; st_ret (first ++ others)
          else encrypt mac_size ps) ;;
   ps <~ map_st (post_encryption_processing mac_size) ps ;;
   st_put (store_packets 0 ps)) l.

(** ** Handing the bytes over *)

Definition release_if_asked (l : WL) : WL :=
  if (nextwbuf l =? numwpipes l) && has (w_mode l) SSL_MODE_RELEASE_BUFFERS then tls_release_write_buffer l else l.

(** One call of [BIO_write]: its result [i], and the code that stands for it. *)
Definition write_once (b : TLS_BUFFER) : ST WL (Z * Z) := fun l =>
  match w_bio l with
  | None => (Ok (-1, OSSL_RECORD_RETURN_FATAL), set_w_alert SSL_AD_INTERNAL_ERROR l)
  | Some bio =>
      match buf b with
      | None => (Fault, l)
      | Some mem =>
          match mem_read mem (offset b) (left b) with
          | None => (Fault, l)
          | Some bs =>
              let '(i, retry, bio) := BIO_write bio bs in
              let ret := if 0 <=? i then (if (i =? 0) && retry then OSSL_RECORD_RETURN_RETRY else OSSL_RECORD_RETURN_SUCCESS)
                         else if retry then OSSL_RECORD_RETURN_RETRY else OSSL_RECORD_RETURN_FATAL in
              (Ok (i, ret), set_w_bio (Some bio) l)
          end
      end
  end.

(** [None] when the fuel is used up. *)
Fixpoint retry_loop (fuel : nat) : ST WL (option Z) :=
  match fuel with
  | O => st_ret None
  | S fuel => fun l =>
      let n := Z.to_nat (nextwbuf l) in
      match w_bufs l !! n with
      | None => (Fault, l)
      | Some b =>
          match write_once b l with
          | (Ok (i, ret), l) =>
              if (0 <=? i) && (i =? left b) then
                let l := set_nextwbuf (nextwbuf l + 1) (upd_buf n (fun b => set_offset (offset b + i) (set_left 0 b)) l) in
                if nextwbuf l <? numwpipes l then retry_loop fuel l
                else (Ok (Some OSSL_RECORD_RETURN_SUCCESS), release_if_asked l)
              else if i <=? 0 then
                if w_isdtls l then
                  (Ok (Some ret), release_if_asked (set_nextwbuf (nextwbuf l + 1) (upd_buf n (set_left 0) l)))
                else (Ok (Some ret), l)
              else retry_loop fuel (upd_buf n (fun b => set_offset (offset b + i) (set_left (wrap64 (left b - i)) b)) l)
          | (Fail, l) => (Fail, l)
          | (Fault, l) => (Fault, l)
          end
      end
  end.

Definition tls_retry_write_records (fuel : nat) : ST WL (option Z) := fun l =>
  if numwpipes l <=? nextwbuf l then (Ok (Some OSSL_RECORD_RETURN_SUCCESS), l) else retry_loop fuel l.

Definition tls_write_records (fuel : nat) (ts : list OSSL_RECORD_TEMPLATE) : ST WL (option Z) := fun l =>
  if (nextwbuf l <? numwpipes l) && negb (left (buf_at (Z.to_nat (nextwbuf l)) l) =? 0)
  then (Ok (Some OSSL_RECORD_RETURN_FATAL), set_w_alert SSL_AD_INTERNAL_ERROR l)
  else match tls_write_records_default ts l with
  | (Ok _, l) => tls_retry_write_records fuel (set_nextwbuf 0 l)
  | (Fail, l) => (Ok (Some OSSL_RECORD_RETURN_FATAL), l)
  | (Fault, l) => (Fault, l)
  end.

(** ** Queries and buffers *)

(** The number of records, and their size. *)
Definition tls_get_max_records_default (n preffrag : Z) (l : WL) : Z * Z :=
  (if (0 <? w_max_pipelines l) && w_pipeline (w_env l)
      && ((w_version l =? TLS1_1_VERSION) || (w_version l =? TLS1_2_VERSION) || (w_version l =? 0x0100)
          || (w_version l =? 0xFEFF) || (w_version l =? 0xFEFD))
   then if n =? 0 then 1
        else let pipes := (n - 1) / preffrag + 1 in
             if pipes <? w_max_pipelines l then pipes else w_max_pipelines l
   else 1, preffrag).

(** [tls_alloc_buffers] and [tls_free_buffers] of a layer for writing. *)
Definition tls_alloc_buffers : ST WL unit := fun l =>
  if nextwbuf l <? numwpipes l then (Ok tt, l)
  else (tls_setup_write_buffer 1 0 0 ;;; st_put (upd_buf 0 (set_left 0))) l.

Definition tls_free_buffers : ST WL unit := fun l =>
  if (nextwbuf l <? numwpipes l)
     && (negb (nextwbuf l =? 0) || negb (numwpipes l =? 1) || negb (left (buf_at 0 l) =? 0))
  then (Fail, l)
  else (Ok tt, tls_release_write_buffer l).
End Ops.

(** ** The layer of TLS 1.3, and the layer without protection *)

(** The allocator, and callbacks only writing uses. *)
Class WSurroundings (M : Type) `{!Surroundings M} : Type := {
  (* [NULL], or the padding wanted for a type and a length *)
  su_padding : M -> option (Z -> Z -> Z * M)
}.

Section Tls13.
Context {B K M : Type} `{L : Libc} `{!EVP K} `{!Surroundings M} `{!WSurroundings M}.
Local Abbreviation X := (TLS13_ENV K M).
Local Abbreviation WL := (WRITE_LAYER B X).

Definition set_e_su (m : M) (x : X) : X := mkTLS13 (e_plain_alerts x) (e_iv x) (e_taglen x) (e_ctx x) (e_pipeline x) m.

(** [tls13_cipher(rl, wr, n, 1, ...)] *)
Definition tls13_encipher (ps : list PKT) (l : WL) : ret (list PKT) * WL :=
  let x := w_env l in
  match ps with
  | [] => (Fail, set_w_alert SSL_AD_INTERNAL_ERROR l)
  | p :: ps' =>
      let r := wrec p in
      match staticbuf (wpkt p), wr_data r, wr_input r with
      | Some mem, Some d, Some i =>
          let '(res, c) := tls13_cipher (e_iv x) (e_taglen x) (wr_type r) (wr_version r) d i (Z.of_nat (length ps)) true
                             (mkCIPHERING (w_sequence l) (w_alert l) (e_ctx x) mem (wr_length r)) in
          let p := mkPKT (set_staticbuf (Some (c_mem c)) (wpkt p))
                     (mkWREC (wr_type r) (wr_version r) (c_length c) (wr_data r) (wr_input r)) (templ p) in
          (match res with Ok _ => Ok (p :: ps') | Fail => Fail | Fault => Fault end,
           set_w_env (mkTLS13 (e_plain_alerts x) (e_iv x) (e_taglen x) (c_ctx c) (e_pipeline x) (e_su x))
             (set_w_alert (c_alert c) (set_w_sequence (c_sequence c) l)))
      | _, _, _ => (Fault, l)
      end
  end.

#[export] Instance tls13_write_functions : write_functions B X := {
  w_funcs _ := tls_1_3_funcs;
  w_plain_alerts := e_plain_alerts;
  w_malloc x n := upd_su (fun m => su_malloc m n) x;
  w_allow_compression x := su_allow_compression (e_su x);
  w_md_ctx _ := None;
  w_has_compctx _ := false;
  w_has_enc_ctx x := match e_ctx x with Some _ => true | None => false end;
  w_pipeline := e_pipeline;
  compress_block x _ := (None, x);
  w_mac _ l := (Fault, l);
  w_cipher _ ps l := tls13_encipher ps l;
  w_padding x := match su_padding (e_su x) with
                 | None => None
                 | Some f => Some (fun t n => let '(k, m) := f t n in (k, set_e_su m x))
                 end;
  w_msg_callback v t bs x := set_e_su (su_msg_callback v t bs (e_su x)) x
}.
End Tls13.

Section Any.
Context {B M : Type} `{!Surroundings M}.
Local Abbreviation WL := (WRITE_LAYER B M).

#[export] Instance tls_any_write_functions : write_functions B M := {
  w_funcs _ := tls_any_funcs;
  w_plain_alerts _ := false;
  w_malloc := su_malloc;
  w_allow_compression := su_allow_compression;
  w_md_ctx _ := None;
  w_has_compctx _ := false;
  w_has_enc_ctx _ := false;
  w_pipeline _ := false;
  compress_block x _ := (None, x);
  w_mac _ l := (Fault, l);
  w_cipher _ ps l := (Ok ps, l);
  w_padding _ := None;
  w_msg_callback := su_msg_callback
}.
End Any.
End TlsWriter.
