(* ===== verification/TlsSender.v ===== *)
(** * The TLS 1.3 record layer: what writing does

    [tls_write_records] and [tls_retry_write_records] with the functions of TLS
    1.3 put a record into the write buffer - header, contents, type, padding,
    protection - and hand exactly its bytes to the transport. *)

From stdpp Require Import prelude list.
From Stdlib Require Import ZArith Lia ZifyBool.
From S2P Require Import Prelude Buffer WPacket WPacketSpec WPacketRun PQueue RecordTypes RecordRead DtlsRecord DtlsReplay RecLayer TlsCrypt TlsRecord TlsReader TlsWriter.

Local Open Scope Z_scope.
Local Open Scope st_scope.

Module TlsSender.
Import TlsCrypt TlsRecord TlsReader TlsWriter.

(** ** A writer over a block of memory *)

(** [w] bytes have been written into [mem]; [l] are the open sub-packets. *)
Definition wp (mem : list Z) (w : Z) (l : list WPACKET_SUB) : WPACKET := mkWPACKET None (Some mem) w w (Z.of_nat (length mem)) l false.

Section Writer.
Context `{L : Libc} {LO : LibcOk L}.

Definition fits (mem : list Z) (w : Z) : Prop := 0 <= w <= Z.of_nat (length mem) /\ Z.of_nat (length mem) <= SIZE_MAX.

Lemma wp_inv mem w l : fits mem w -> inv (wp mem w l).
Proof. intros [Hw Hm]. split; cbn [wp staticbuf wbuf]; (done || lia). Qed.

Lemma wp_appended mem w l bs l' p : fits mem w -> appended (wp mem w l) bs l' p ->
  exists mem', p = wp mem' (w + Z.of_nat (length bs)) l' /\ length mem' = length mem /\ fits mem' (w + Z.of_nat (length bs))
    /\ take (Z.to_nat (w + Z.of_nat (length bs))) mem' = take (Z.to_nat w) mem ++ bs.
Proof.
  intros [Hw Hm] [[I1 I2 I3 I4 I5] Hk Hwr Hs Ho]. pose proof (wbuf_same _ _ Hk eq_refl) as Hb. destruct Hk as [K1 K2 K3 K4].
  destruct p as [pb ps pc pw pm pl pe]. cbn [wbuf staticbuf wcurr written maxsize subs endfirst wp] in *. subst pb pc pm pe pl pw.
  destruct ps as [mem'|]; [|done]. injection K3 as K3. exists mem'. unfold wp. rewrite K3. split; [done|]. split; [done|].
  split; [by split; rewrite K3|]. exact (Ho eq_refl).
Qed.

Lemma wp_completes m bs mem w l : completes m (Some bs) -> fits mem w -> l <> [] -> w + Z.of_nat (length bs) <= Z.of_nat (length mem) ->
  exists mem', m (wp mem w l) = (Ok tt, wp mem' (w + Z.of_nat (length bs)) l) /\ length mem' = length mem
    /\ fits mem' (w + Z.of_nat (length bs)) /\ take (Z.to_nat (w + Z.of_nat (length bs))) mem' = take (Z.to_nat w) mem ++ bs.
Proof.
  intros Hc Hf Hl Hr. destruct (Hc (wp mem w l) bs (wp_inv mem w l Hf) Hl eq_refl eq_refl Hr) as (p' & E & A).
  destruct (wp_appended mem w l bs l p' Hf A) as (mem' & -> & H). exists mem'. by rewrite E.
Qed.

Lemma wp_reserve n mem w l : fits mem w -> l <> [] -> 0 < n -> w + n <= Z.of_nat (length mem) ->
  WPACKET_reserve_bytes n (wp mem w l) = (Ok (Some w), wp mem w l).
Proof.
  intros Hf Hl Hn Hr. rewrite reserve_eq by (by apply wp_inv || done). cbn [wp maxsize written]. by rewrite (proj2 (Z.ltb_ge _ n)) by lia.
Qed.

Lemma wp_alloc n mem w l : fits mem w -> l <> [] -> 0 < n -> w + n <= Z.of_nat (length mem) ->
  WPACKET_allocate_bytes n (wp mem w l) = (Ok (Some w), wp mem (w + n) l).
Proof.
  intros Hf Hl Hn Hr. unfold WPACKET_allocate_bytes. rewrite (st_bind_ok _ _ _ _ _ (wp_reserve n mem w l Hf Hl Hn Hr)).
  destruct Hf. unfold st_bind, st_put, st_ret, set_pos, wp. cbn [wcurr written wbuf staticbuf maxsize subs endfirst]. by rewrite !wrap64_small by lia.
Qed.

Lemma wp_put v n mem w l : 1 <= n <= 8 -> 0 <= v < 256 ^ n -> fits mem w -> l <> [] -> w + n <= Z.of_nat (length mem) ->
  exists mem', WPACKET_put_bytes__ v n (wp mem w l) = (Ok tt, wp mem' (w + n) l) /\ length mem' = length mem
    /\ fits mem' (w + n) /\ take (Z.to_nat (w + n)) mem' = take (Z.to_nat w) mem ++ be_bytes (Z.to_nat n) v.
Proof.
  intros Hn Hv Hf Hl Hr. pose proof (put_bytes_completes v n) as Hc. rewrite put_ser in Hc by done.
  destruct (wp_completes _ _ mem w l Hc Hf Hl) as (mem' & H); rewrite length_be_bytes, Z2Nat.id in * by lia; [lia|]. by exists mem'.
Qed.

Lemma wp_start mem w l : is_Some (CRYPTO_zalloc 40) -> fits mem w -> l <> [] -> w + 2 <= Z.of_nat (length mem) ->
  exists mem' x, WPACKET_start_sub_packet_len__ 2 (wp mem w l) = (Ok tt, wp mem' (w + 2) (mkSUB w 2 (w + 2) 0 :: l)) /\ length mem' = length mem
    /\ fits mem' (w + 2) /\ take (Z.to_nat (w + 2)) mem' = take (Z.to_nat w) mem ++ x /\ length x = 2%nat.
Proof.
  intros Hz Hf Hl Hr. destruct (start_ok 2 (wp mem w l) Hz (wp_inv _ _ _ Hf) Hl eq_refl) as (x & p' & E & Hx & Ap); [lia|done|].
  destruct (wp_appended _ _ _ _ _ _ Hf Ap) as (mem' & -> & H). rewrite Hx in *. exists mem', x. rewrite E. split; [done|]. 
  destruct H as (? & ? & ?). split_and!; (done || lia).
Qed.

Lemma wp_close mem w w' l : fits mem w' -> 0 <= w -> w + 2 <= w' -> w' - (w + 2) < 65536 -> l <> [] ->
  exists mem', WPACKET_close (wp mem w' (mkSUB w 2 (w + 2) 0 :: l)) = (Ok tt, wp mem' w' l) /\ length mem' = length mem
    /\ fits mem' w' /\ take (Z.to_nat w') mem' = ow (Z.to_nat w) (be_bytes 2 (w' - (w + 2))) (take (Z.to_nat w') mem).
Proof.
  intros Hf Hw Hw' Hs Hl. assert (Hfw : fits mem w) by (destruct Hf; split; lia).
  destruct (close_spec (wp mem w l) 2 (wp mem w' (mkSUB w 2 (w + 2) 0 :: l)) l) as (q & E & H); try done; [by apply wp_inv..|].
  cbn [wp written] in E, H. rewrite (proj2 (Z.ltb_lt _ (256 ^ 2))) in E by lia. cbn [orb] in E.
  destruct H as (r & -> & [I Hk Hwr Hsu Ho]); [right; lia|].
  pose proof (wbuf_same _ _ Hk eq_refl) as Hb. destruct Hk as [K1 K2 K3 K4], I as [I1 I2 I3 I4 I5].
  destruct r as [pb ps pc pw pm pl pe]. cbn [wbuf staticbuf wcurr written maxsize subs endfirst wp set_subs] in *. subst pb pc pm pe pl pw.
  destruct ps as [mem'|]; [|done]. injection K3 as K3. exists mem'. rewrite E. unfold wp. rewrite K3. split; [done|]. split; [done|].
  split; [by unfold fits; rewrite K3|]. exact Ho.
Qed.

Lemma wp_finish mem w : WPACKET_finish (wp mem w [mkSUB 0 0 0 0]) = (Ok tt, wp mem w []).
Proof.
  unfold WPACKET_finish. cbn [wp subs]. unfold wpacket_intern_close. cbn [flags lenbytes packet_len pwritten].
  change (has 0 WPACKET_FLAGS_NON_ZERO_LENGTH) with false. change (has 0 WPACKET_FLAGS_ABANDON_ON_ZERO_LENGTH) with false.
  rewrite !andb_false_r. done.
Qed.

Lemma wp_init mem : is_Some (CRYPTO_zalloc 40) -> 0 < Z.of_nat (length mem) <= SIZE_MAX ->
  WPACKET_init_static_len mem 0 blank = (Ok tt, wp mem 0 [mkSUB 0 0 0 0]).
Proof.
  intros [z Hz] Hm. unfold WPACKET_init_static_len. rewrite (proj2 (Z.ltb_lt 0 _)) by lia. cbn [negb].
  change (maxmaxsize 0) with SIZE_MAX. rewrite (proj2 (Z.ltb_ge SIZE_MAX _)) by lia.
  unfold wpacket_intern_init_len, st_bind, st_put. by rewrite Hz.
Qed.

Lemma memset_completes n : 0 < n -> completes (WPACKET_memset 0 n) (Some (replicate (Z.to_nat n) 0)).
Proof.
  intros Hn. unfold WPACKET_memset. rewrite (proj2 (Z.eqb_neq n 0)) by lia.
  apply completes_alloc; [rewrite length_replicate; lia|done|done|].
  intros d p Hinv Hb Hd Hr. apply store_spec; first [done|by apply Forall_replicate|rewrite length_replicate; lia].
Qed.
End Writer.

(** ** A transport that takes bytes *)

(** [sent] are the bytes that have been taken, in order.  Writing may have to be
    tried again, but not more than [patience] times in a row. *)
Class Sink (B : Type) `{!WBIO B} (sent : B -> list Z) (waits : B -> nat) (patience : nat) : Prop := {
  sink_write b bs i retry b' : bs <> [] -> BIO_write b bs = (i, retry, b') ->
    (0 < i <= Z.of_nat (length bs) /\ sent b' = sent b ++ take (Z.to_nat i) bs /\ (waits b' <= patience)%nat)
    \/ (i <= 0 /\ retry = true /\ sent b' = sent b /\ (waits b' < waits b)%nat)
}.

(** ** A record in the write buffer *)

Section Layer.
Context {B K M : Type} `{!WBIO B} `{L : Libc} {LO : LibcOk L} `{!EVP K} `{!Surroundings M} `{!SurroundingsOk M} `{!WSurroundings M}.
Context {KEY : Type} {ivlen taglen : Z} `{A : !AEAD K KEY ivlen taglen} (iv : list Z) (key : KEY).
Local Abbreviation X := (TLS13_ENV K M).
Local Abbreviation WL := (WRITE_LAYER B X).
Local Abbreviation wire := (wire_record (ivlen := ivlen) (taglen := taglen) iv key).
Hypothesis zalloc : is_Some (CRYPTO_zalloc 40).

(** The records that are written. *)
Record template_ok (mfl : Z) (t : OSSL_RECORD_TEMPLATE) : Prop := {
  to_type : 0 < t_type t < 256;
  to_version : t_version t = TLS1_2_VERSION;
  to_data : Forall is_byte (t_buf t);
  to_length : 0 < buflen t <= mfl
}.

(** The protected contents of a record with [k] bytes of padding. *)
Definition inner_of (t : OSSL_RECORD_TEMPLATE) (k : nat) : list Z := t_buf t ++ t_type t :: replicate k 0.

Definition top : WPACKET_SUB := mkSUB 0 0 0 0.
Definition sub_at (w : Z) : WPACKET_SUB := mkSUB w 2 (w + 2) 0.

(** The header, up to its length. *)
Lemma header_written t (l : WL) mem w : template_ok (w_max_frag_len l) t -> eivlen l = 0 -> fits mem w -> w + 5 + buflen t <= Z.of_nat (length mem) ->
  exists mem' x, prepare_record_header SSL3_RT_APPLICATION_DATA t l (wp mem w [top]) = (Ok (Some (w + 5)), wp mem' (w + 5) [sub_at (w + 3); top])
    /\ length mem' = length mem /\ fits mem' (w + 5) /\ length x = 2%nat
    /\ take (Z.to_nat (w + 5)) mem' = take (Z.to_nat w) mem ++ be_bytes 1 SSL3_RT_APPLICATION_DATA ++ be_bytes 2 TLS1_2_VERSION ++ x.
Proof.
  intros [Ht Hv Hd Hl] He Hf Hr. unfold prepare_record_header. rewrite Hv, He. cbn [w_has_compctx tls13_write_functions]. rewrite Z.add_0_r.
  destruct (wp_put SSL3_RT_APPLICATION_DATA 1 mem w [top]) as (m1 & E1 & L1 & F1 & T1); [lia|lia|done|done|lia|].
  rewrite (st_bind_ok _ _ _ _ _ E1).
  destruct (wp_put TLS1_2_VERSION 2 m1 (w + 1) [top]) as (m2 & E2 & L2 & F2 & T2); [lia|lia|done|done|lia|].
  rewrite (st_bind_ok _ _ _ _ _ E2).
  destruct (wp_start m2 (w + 1 + 2) [top] zalloc F2) as (m3 & x & E3 & L3 & F3 & T3 & Hx); [done|lia|].
  rewrite (st_bind_ok _ _ _ _ _ E3). replace (w + 1 + 2) with (w + 3) in * by lia. replace (w + 3 + 2) with (w + 5) in * by lia.
  rewrite (st_bind_ok _ _ _ tt (wp m3 (w + 5) [sub_at (w + 3); top])) by (unfold sub_at; by replace (w + 3 + 2) with (w + 5) by lia).
  rewrite (proj2 (Z.ltb_lt 0 _)) by lia. rewrite wp_reserve by (done || lia).
  exists m3, x. split; [done|]. split; [congruence|]. split; [done|]. split; [done|]. by rewrite T3, T2, T1, <- !(assoc_L (++)).
Qed.

(** The padding that is chosen. *)
Lemma padding_chosen t rlen (l : WL) : 0 <= w_max_frag_len l ->
  exists k x, padding_of t rlen l = (Ok k, set_w_env x l) /\ same_env (w_env l) x /\ (0 < k -> rlen + k <= w_max_frag_len l).
Proof.
  intros Hm. unfold padding_of. destruct (rlen <? w_max_frag_len l) eqn:E; zbool.
  2: { exists 0, (w_env l). split; [by destruct l|]. split; [reflexivity|lia]. }
  cbn [w_padding tls13_write_functions]. destruct (su_padding (e_su (w_env l))) as [f|].
  - destruct (f t rlen) as [k m]. eexists _, _. split; [reflexivity|]. split; [done|]. destruct (w_max_frag_len l - rlen <? k) eqn:E2; zbool; lia.
  - eexists _, _. split; [reflexivity|]. split; [reflexivity|]. match goal with |- context [_ <? ?k] => destruct (w_max_frag_len l - rlen <? k) eqn:E2 end; zbool; lia.
Qed.
(** The contents, the type and the padding. *)
Lemma contents_written t (l : WL) mem w : template_ok (w_max_frag_len l) t -> fits mem w ->
  e_plain_alerts (w_env l) = false -> w + w_max_frag_len l + 1 <= Z.of_nat (length mem) ->
  let r := mkWREC SSL3_RT_APPLICATION_DATA TLS1_2_VERSION (buflen t) (Some w) None in
  exists k mem' x, (p <~ copy_data (Some w) (mkPKT (wp mem w [sub_at (w - 2); top]) r t) ;; add_record_padding p) l
      = (Ok (mkPKT (wp mem' (w + Z.of_nat (length (inner_of t k))) [sub_at (w - 2); top])
               (mkWREC SSL3_RT_APPLICATION_DATA TLS1_2_VERSION (Z.of_nat (length (inner_of t k))) (Some w) (Some w)) t), set_w_env x l)
    /\ same_env (w_env l) x /\ length mem' = length mem /\ fits mem' (w + Z.of_nat (length (inner_of t k)))
    /\ take (Z.to_nat (w + Z.of_nat (length (inner_of t k)))) mem' = take (Z.to_nat w) mem ++ inner_of t k
    /\ Z.of_nat (length (inner_of t k)) <= w_max_frag_len l + 1.
Proof.
  intros [Ht Hv Hd Hl] Hf Hp Hr r. set (subs := [sub_at (w - 2); top]).
  destruct (wp_completes _ _ mem w subs (memcpy_completes _ Hd) Hf) as (m1 & E1 & L1 & F1 & T1); [done|unfold buflen in Hl; lia|].
  assert (Ec : copy_data (Some w) (mkPKT (wp mem w subs) r t) l
    = (Ok (mkPKT (wp m1 (w + buflen t) subs) (mkWREC SSL3_RT_APPLICATION_DATA TLS1_2_VERSION (buflen t) (Some w) (Some w)) t), l)).
  { unfold copy_data. cbn [w_has_compctx tls13_write_functions]. unfold on_wpkt. cbn [wpkt templ]. by rewrite E1. }
  fold subs. rewrite (st_bind_ok _ _ _ _ _ Ec). unfold add_record_padding. cbn [w_funcs tls13_write_functions].
  unfold tls13_add_record_padding. cbn [w_plain_alerts tls13_write_functions templ]. rewrite Hp. cbn [andb].
  destruct (wp_put (t_type t) 1 m1 (w + buflen t) subs) as (m2 & E2 & L2 & F2 & T2); [lia|lia|exact F1|done|lia|].
  unfold on_wpkt at 1. cbn [wpkt]. rewrite E2. cbn [set_wrec wrec wpkt templ add_length wr_type wr_version wr_length wr_data wr_input].
  destruct (padding_chosen (t_type t) (buflen t + 1) l ltac:(lia)) as (k & x & Ek & Hx & Hk). rewrite (st_bind_ok _ _ _ _ _ Ek).
  assert (Hi : forall n, Z.of_nat (length (inner_of t n)) = buflen t + 1 + Z.of_nat n).
  { intros n. unfold inner_of, buflen. rewrite length_app. cbn [length]. rewrite length_replicate. lia. }
  fold (buflen t) in T1. assert (T12 : take (Z.to_nat (w + buflen t + 1)) m2 = take (Z.to_nat w) mem ++ inner_of t 0).
  { assert (E : be_bytes (Z.to_nat 1) (t_type t) = [t_type t])
      by (change (be_bytes (Z.to_nat 1) (t_type t)) with [t_type t `mod` 256]; by rewrite Z.mod_small by lia).
    by rewrite T2, T1, E, <- (assoc_L (++)). }
  destruct (0 <? k) eqn:E0; zbool.
  - destruct (wp_completes _ _ m2 (w + buflen t + 1) subs (memset_completes k E0) F2) as (m3 & E3 & L3 & F3 & T3);
      [done|rewrite length_replicate; lia|]. rewrite length_replicate, Z2Nat.id in * by lia.
    exists (Z.to_nat k), m3, x. rewrite Hi. rewrite Z2Nat.id by lia. replace (w + (buflen t + 1 + k)) with (w + buflen t + 1 + k) by lia.
    unfold on_wpkt. cbn [set_wrec wpkt wrec templ]. rewrite E3. split; [done|]. split; [done|]. split; [congruence|]. split; [done|]. split; [|lia].
    rewrite T3, T12, <- (assoc_L (++)). f_equal. unfold inner_of. cbn [replicate]. by rewrite <- (assoc_L (++)).
  - exists 0%nat, m2, x. rewrite Hi. change (Z.of_nat 0) with 0. rewrite Z.add_0_r. replace (w + (buflen t + 1)) with (w + buflen t + 1) by lia.
    split; [reflexivity|]. split; [done|]. split; [congruence|]. split; [done|]. split; [done|lia].
Qed.
(** The packet of a record with [n] bytes of contents, from [w] on. *)
Definition packet_of (mem : list Z) (w n : Z) (t : OSSL_RECORD_TEMPLATE) : PKT :=
  mkPKT (wp mem (w + n) [sub_at (w - 2); top]) (mkWREC SSL3_RT_APPLICATION_DATA TLS1_2_VERSION n (Some w) (Some w)) t.

Lemma wp_length mem w n : 0 <= w -> 0 <= n -> w + n <= SIZE_MAX ->
  WPACKET_get_length (wp mem (w + n) [sub_at (w - 2); top]) = (Ok n, wp mem (w + n) [sub_at (w - 2); top]).
Proof.
  intros Hw Hn Hs. unfold WPACKET_get_length. cbn [wp subs written sub_at pwritten]. do 2 f_equal. rewrite wrap64_small by lia. lia.
Qed.

(** There is room for what the cipher adds. *)
Lemma prepared_for_cipher mem w n t (l : WL) : fits mem (w + n) -> 0 <= w -> 0 <= n -> w + n + 80 <= Z.of_nat (length mem) ->
  prepare_for_encryption 0 (packet_of mem w n t) l = (Ok (packet_of mem w n t), l).
Proof.
  intros Hf Hw Hn Hr. unfold prepare_for_encryption. cbn [w_funcs tls13_write_functions]. unfold tls_prepare_for_encryption_default.
  rewrite (st_bind_ok _ _ _ (packet_of mem w n t) l) by (cbv beta; change (negb (0 =? 0)) with false; by rewrite andb_false_r).
  change (wrap64 (16 + 64 - 0)) with 80. unfold on_wpkt. cbn [packet_of wpkt wrec templ].
  rewrite (st_bind_ok _ _ _ _ _ (wp_reserve 80 mem (w + n) [sub_at (w - 2); top] Hf ltac:(done) ltac:(lia) Hr)).
  destruct Hf. rewrite wp_length by lia. unfold WPACKET_get_curr, GETBUF. cbn [wp staticbuf endfirst wcurr wpkt].
  replace (w + n - n) with w by lia. done.
Qed.

(** What the cipher needs. *)
Definition sealing (l : WL) : CIPHERING K := mkCIPHERING (w_sequence l) (w_alert l) (e_ctx (w_env l)) [] 0.

Record keys_ok (l : WL) : Prop := {
  ko_iv : e_iv (w_env l) = iv /\ e_taglen (w_env l) = taglen;
  ko_tag : taglen <= 80;
  ko_key : prepared (ivlen := ivlen) (taglen := taglen) iv key (sealing l);
  ko_seq : be_val (w_sequence l) < 2 ^ 64 - 1
}.

(** The layer after the cipher. *)
Definition ciphered (seq : list Z) (k : K) (l : WL) : WL :=
  let x := w_env l in
  set_w_env (mkTLS13 (e_plain_alerts x) (e_iv x) (e_taglen x) (Some k) (e_pipeline x) (e_su x)) (set_w_alert (w_alert l) (set_w_sequence seq l)).

Lemma enciphered mem w p t (l : WL) : keys_ok l -> 0 <= w -> Z.of_nat (length p) + taglen < 65536 ->
  mem_read mem w (Z.of_nat (length p)) = Some p -> w + Z.of_nat (length p) + taglen <= Z.of_nat (length mem) ->
  exists mem' seq' k', encrypt 0 [packet_of mem w (Z.of_nat (length p)) t] l
      = (Ok [mkPKT (wp mem' (w + Z.of_nat (length p)) [sub_at (w - 2); top])
               (mkWREC SSL3_RT_APPLICATION_DATA TLS1_2_VERSION (Z.of_nat (length p) + taglen) (Some w) (Some w)) t], ciphered seq' k' l)
    /\ mem_write mem w (protected (ivlen := ivlen) (taglen := taglen) key iv (w_sequence l) SSL3_RT_APPLICATION_DATA TLS1_2_VERSION p) = Some mem'
    /\ be_val seq' = be_val (w_sequence l) + 1 /\ seq_ok seq' /\ keyed k' key.
Proof.
  intros [[Ei Et] Htg Hp Hq] Hw Hl Hm Hr.
  set (c := protected (ivlen := ivlen) (taglen := taglen) key iv (w_sequence l) SSL3_RT_APPLICATION_DATA TLS1_2_VERSION p).
  assert (Hlc : Z.of_nat (length c) = Z.of_nat (length p) + taglen) by apply length_protected.
  destruct (mem_write mem w c) as [m'|] eqn:Ew; [|rewrite mem_write_Some in Ew by lia; done].
  set (c0 := mkCIPHERING (w_sequence l) (w_alert l) (e_ctx (w_env l)) mem (Z.of_nat (length p))).
  assert (Hp0 : prepared (ivlen := ivlen) (taglen := taglen) iv key c0) by (destruct Hp; by split).
  destruct (tls13_seals iv key SSL3_RT_APPLICATION_DATA TLS1_2_VERSION w p m' c0 zalloc Hp0 Hq) as (seq' & k' & E & Hs' & Ho & Hk); try done.
  exists m', seq', k'. split; [|done]. pose proof (length_mem_write _ _ _ _ Ew) as Hlm.
  unfold encrypt. cbn [w_cipher tls13_write_functions]. unfold tls13_encipher. cbn [packet_of wpkt wrec templ wp staticbuf wr_data wr_input wr_type wr_version wr_length].
  rewrite Ei, Et. cbn [length]. change (Z.of_nat 1) with 1. fold c0. rewrite E. cbn [c_mem c_length c_ctx c_sequence c_alert].
  unfold ciphered, set_staticbuf, wp. cbn [wbuf staticbuf wcurr written maxsize subs endfirst]. rewrite Hlm, Ei, Et. done.
Qed.
(** The record is closed: its length is filled in. *)
Lemma closed mem w n t (l : WL) : w_isdtls l = false -> fits mem (w + n) -> 2 <= w -> 0 <= n -> 0 <= taglen <= 80 -> n + taglen < 65536 ->
  w + n + taglen <= Z.of_nat (length mem) ->
  exists mem' x, post_encryption_processing 0
      (mkPKT (wp mem (w + n) [sub_at (w - 2); top]) (mkWREC SSL3_RT_APPLICATION_DATA TLS1_2_VERSION (n + taglen) (Some w) (Some w)) t) l
      = (Ok (mkPKT (wp mem' (w + n + taglen) [])
               (mkWREC SSL3_RT_APPLICATION_DATA TLS1_2_VERSION (n + taglen + SSL3_RT_HEADER_LENGTH) (Some w) (Some w)) t), set_w_env x l)
    /\ same_env (w_env l) x /\ length mem' = length mem
    /\ take (Z.to_nat (w + n + taglen)) mem' = ow (Z.to_nat (w - 2)) (be_bytes 2 (n + taglen)) (take (Z.to_nat (w + n + taglen)) mem).
Proof.
  intros Hd Hf Hw Hn Htg Hs Hr. pose proof Hf as [Hf1 Hf2]. unfold post_encryption_processing. rewrite Hd. cbn [wrec wr_length].
  set (r := mkWREC _ _ (n + taglen) _ _).
  assert (E1 : (origlen <~ WPACKET_get_length ;;
                st_guard (fun _ => (n + taglen <=? origlen + (16 + 64) - 0) && (origlen <=? n + taglen)) ;;;
                if origlen <? n + taglen then WPACKET_allocate_bytes (n + taglen - origlen) ;;; st_ret tt else st_ret tt)
               (wp mem (w + n) [sub_at (w - 2); top]) = (Ok tt, wp mem (w + (n + taglen)) [sub_at (w - 2); top])).
  { rewrite (st_bind_ok _ _ _ _ _ (wp_length mem w n ltac:(lia) Hn ltac:(lia))).
    rewrite (st_bind_ok _ _ _ tt (wp mem (w + n) [sub_at (w - 2); top])) by (unfold st_guard; rewrite !(proj2 (Z.leb_le _ _)) by lia; done).
    rewrite Z.add_assoc. destruct (n <? n + taglen) eqn:E; zbool.
    - replace (n + taglen - n) with taglen by lia. unfold st_bind. rewrite wp_alloc; [done|done|done|lia|lia].
    - by replace taglen with 0 by lia; rewrite Z.add_0_r. }
  unfold on_wpkt at 1. cbn [wpkt wrec templ]. rewrite E1.
  rewrite (st_bind_ok _ _ _ (mkPKT (wp mem (w + (n + taglen)) [sub_at (w - 2); top]) r t) l)
    by (cbv beta; change (negb (0 =? 0)) with false; by rewrite andb_false_r).
  destruct (wp_close mem (w - 2) (w + (n + taglen)) [top]) as (m' & E2 & L2 & F2 & T2); [split; lia|lia|lia|lia|done|].
  unfold on_wpkt at 1. cbn [wpkt wrec templ]. rewrite (st_bind_ok _ _ _ _ _ (wp_length mem w (n + taglen) ltac:(lia) ltac:(lia) ltac:(lia))).
  unfold sub_at. rewrite (st_bind_ok _ _ _ _ _ E2). cbn [st_ret].
  set (x := match WPACKET_get_curr (wp m' (w + (n + taglen)) [top]) with
            | Some _ => w_env (written_callback 5 (n + taglen) (mkPKT (wp m' (w + (n + taglen)) [top]) r t) l) | None => w_env l end).
  assert (Hcb : written_callback 5 (n + taglen) (mkPKT (wp m' (w + (n + taglen)) [top]) r t) l = set_w_env x l) by done.
  assert (Hx : same_env (w_env l) x).
  { unfold x, written_callback. cbn [wpkt WPACKET_get_curr GETBUF wp staticbuf endfirst wcurr wrec wr_version templ w_env set_w_env].
    destruct (_ && _); reflexivity. }
  rewrite Hcb. unfold on_wpkt. cbn [wpkt wrec templ]. rewrite wp_finish.
  exists m', x. rewrite <- Z.add_assoc. split; [done|]. split; [done|]. split; [done|]. rewrite T2. do 2 f_equal. lia.
Qed.
(** ** The write buffer *)

Hypothesis plenty : forall (m : M) n, fst (su_malloc m n) <> None.
Hypothesis aligned : forall (m : M) n d a m', su_malloc m n = (Some (d, a), m') -> a `mod` 8 = 0.

(** A layer of TLS 1.3 that writes with this IV and this key, and protects alerts. *)
Record writer_ok (l : WL) : Prop := {
  wo_dtls : w_isdtls l = false;
  wo_version : w_version l = TLS1_3_VERSION;
  wo_eiv : eivlen l = 0;
  wo_sizes : 0 <= w_max_frag_len l <= SSL3_RT_MAX_PLAIN_LENGTH;
  wo_plain : e_plain_alerts (w_env l) = false;
  wo_iv : e_iv (w_env l) = iv /\ e_taglen (w_env l) = taglen;
  wo_tag : taglen <= 80;
  wo_key : prepared (ivlen := ivlen) (taglen := taglen) iv key (sealing l);
  wo_buf : exists b, w_bufs l !! 0%nat = Some b /\ forall m, buf b = Some m -> Z.of_nat (length m) = len b /\ buf_addr b `mod` 8 = 0
}.

(** The fields that do not change when buffers are set up. *)
Definition with_buffers (bufs : list TLS_BUFFER) (n : Z) (x : X) (l : WL) : WL := set_numwpipes n (set_w_bufs bufs (set_w_env x l)).

Lemma released_others pipes (l : WL) : exists bufs, release_loop pipes 1 l = set_w_bufs bufs l /\ bufs !! 0%nat = w_bufs l !! 0%nat.
Proof.
  revert l. induction pipes as [|p IH]; intros l; cbn [release_loop]; [exists (w_bufs l); by destruct l|].
  destruct (1 <? S p)%nat eqn:E; [|exists (w_bufs l); by destruct l]. apply Nat.ltb_lt in E.
  destruct (IH (upd_buf p (fun b => mkTLS_BUFFER None (buf_addr b) (default_len b) (len b) (offset b) (left b)) l)) as (bufs & -> & Eb).
  exists bufs. split; [done|]. rewrite Eb. unfold upd_buf. cbn [w_bufs set_w_bufs]. rewrite list_lookup_alter_ne; [done|lia].
Qed.

Lemma buffer_set_up (l : WL) : writer_ok l ->
  exists bufs mem a x, tls_setup_write_buffer 1 0 0 l = (Ok tt, with_buffers bufs 1 x l) /\ same_env (w_env l) x
    /\ bufs !! 0%nat = Some (mkTLS_BUFFER (Some mem) a 0 (Z.of_nat (length mem)) 0 0)
    /\ w_max_frag_len l + 93 <= Z.of_nat (length mem) <= SIZE_MAX /\ a `mod` 8 = 0.
Proof.
  intros Hl. unfold tls_setup_write_buffer. change (0 =? 0) with true. cbn [orb]. change (Z.to_nat 1) with 1%nat. cbn [setup_loop Nat.eqb].
  change (0 =? 0) with true. cbv iota. set (n := default_write_len l). pose proof (wo_sizes _ Hl) as Hsz.
  assert (Hn : w_max_frag_len l + 93 <= n <= SIZE_MAX).
  { unfold n, default_write_len. rewrite (wo_dtls _ Hl), (wo_version _ Hl), (wo_eiv _ Hl). change (TLS1_3_VERSION =? TLS1_3_VERSION) with true.
    unfold SIZE_MAX. destruct (w_allow_compression (w_env l)), (has (w_options l) 2048); cbn [negb]; lia. }
  clearbody n. destruct (wo_buf _ Hl) as (b & Eb & Hb).
  assert (E1 : exists mem a x, setup_one 0 n l = (Ok tt, upd_buf 0 (fun _ => mkTLS_BUFFER (Some mem) a 0 n 0 0) (set_w_env x l))
    /\ same_env (w_env l) x /\ Z.of_nat (length mem) = n /\ a `mod` 8 = 0).
  { unfold setup_one. rewrite Eb. destruct (negb (len b =? n)) eqn:En; [|destruct (buf b) as [m|]].
    2: { destruct (Hb m eq_refl) as [Hm Ha]. exists m, (buf_addr b), (w_env l). split; [by destruct l|]. split; [reflexivity|].
         apply negb_false_iff, Z.eqb_eq in En. by rewrite <- En. }
    all: pose proof (same_env_upd (fun m => su_malloc m n) (w_env l)) as Hx; cbn [w_malloc tls13_write_functions]; unfold upd_su in *;
      pose proof (plenty (e_su (w_env l)) n) as Hp; destruct (su_malloc (e_su (w_env l)) n) as [[[d a]|] m'] eqn:Em; [|done];
      cbn [snd] in Hx; exists d, a; eexists; (split; [reflexivity|]); (split; [exact Hx|]);
      (split; [by apply (su_malloc_ok _ n d a m' ltac:(lia) Em)|by apply (aligned _ _ _ _ _ Em)]). }
  destruct E1 as (mem & a & x & E1 & Hx & Hm & Ha).
  assert (E2 : (setup_one 0 n ;;; st_ret tt) l = (Ok tt, upd_buf 0 (fun _ => mkTLS_BUFFER (Some mem) a 0 n 0 0) (set_w_env x l)))
    by (by rewrite (st_bind_ok _ _ _ _ _ E1)).
  rewrite (st_bind_ok _ _ _ _ _ E2). unfold st_put, tls_release_write_buffer_int. change (Z.to_nat 1) with 1%nat.
  match goal with |- context [release_loop ?p 1 ?l1] => destruct (released_others p l1) as (bufs & -> & Ebufs) end.
  exists bufs, mem, a, x. split; [done|]. split; [done|]. rewrite Ebufs, Hm. split; [|lia].
  unfold upd_buf. cbn [w_bufs set_w_bufs set_w_env]. by rewrite list_lookup_alter, Eb.
Qed.
(** ** A record *)

Lemma record_prepared t (l : WL) mem w : template_ok (w_max_frag_len l) t -> eivlen l = 0 -> e_plain_alerts (w_env l) = false ->
  0 <= w_max_frag_len l -> fits mem w -> w + w_max_frag_len l + 86 <= Z.of_nat (length mem) ->
  exists k mem' x y, let n := Z.of_nat (length (inner_of t k)) in
    prepare_record 0 (mkPKT (wp mem w [top]) no_wrec t) l = (Ok (packet_of mem' (w + 5) n t), set_w_env x l)
    /\ same_env (w_env l) x /\ length mem' = length mem /\ n <= w_max_frag_len l + 1 /\ length y = 2%nat
    /\ take (Z.to_nat (w + 5 + n)) mem'
       = take (Z.to_nat w) mem ++ be_bytes 1 SSL3_RT_APPLICATION_DATA ++ be_bytes 2 TLS1_2_VERSION ++ y ++ inner_of t k.
Proof.
  intros Ht He Hp Hm Hf Hr. pose proof (to_length _ _ Ht) as Hlen. pose proof Hf as [Hf1 Hf2].
  destruct (header_written t l mem w Ht He Hf) as (m1 & y & E1 & L1 & F1 & Hy & T1); [lia|].
  destruct (contents_written t l m1 (w + 5) Ht F1 Hp) as (k & m2 & x & E2 & Hx & L2 & F2 & T2 & Hn); [rewrite L1; lia|].
  exists k, m2, x, y. unfold prepare_record, get_record_type. cbn [templ w_funcs w_plain_alerts tls13_write_functions]. rewrite Hp. cbn [andb].
  unfold on_wpkt. cbn [wpkt wrec]. rewrite E1, (to_version _ _ Ht). unfold set_wrec. cbn [wpkt templ].
  replace (sub_at (w + 3)) with (sub_at (w + 5 - 2)) in * by (f_equal; lia).
  set (p1 := mkPKT _ _ t) in *. set (p2 := mkPKT _ _ t) in E2.
  assert (E3 : (p <~ copy_data (Some (w + 5)) p1 ;; p <~ add_record_padding p ;; prepare_for_encryption 0 p) l
    = prepare_for_encryption 0 p2 (set_w_env x l)).
  { revert E2. unfold st_bind. destruct (copy_data (Some (w + 5)) p1 l) as [[p| |] l1]; try done. by intros ->. }
  rewrite E3. unfold p2. fold (packet_of m2 (w + 5) (Z.of_nat (length (inner_of t k))) t).
  rewrite prepared_for_cipher; [|done|lia|lia|lia]. split; [done|]. split; [done|]. split; [congruence|]. split; [done|]. split; [done|].
  rewrite T2, T1, <- !(assoc_L (++)). done.
Qed.

Lemma packet_started t bufs mem a x (l : WL) : w_isdtls l = false -> bufs !! 0%nat = Some (mkTLS_BUFFER (Some mem) a 0 (Z.of_nat (length mem)) 0 0) ->
  a `mod` 8 = 0 -> 93 <= Z.of_nat (length mem) <= SIZE_MAX ->
  initialise_write_packets 0 [t] (with_buffers bufs 1 x l)
  = (Ok [mkPKT (wp mem 3 [top]) no_wrec t], with_buffers (<[0%nat := mkTLS_BUFFER (Some mem) a 0 (Z.of_nat (length mem)) 3 0]> bufs) 1 x l).
Proof.
  intros Hd Hb Ha Hm. cbn [initialise_write_packets]. unfold st_bind at 1, init_packet.
  change (w_bufs (with_buffers bufs 1 x l)) with bufs. rewrite Hb.
  assert (Eal : write_align (mkTLS_BUFFER (Some mem) a 0 (Z.of_nat (length mem)) 0 0) (with_buffers bufs 1 x l) = 3).
  { unfold write_align. change (w_isdtls (with_buffers bufs 1 x l)) with (w_isdtls l). rewrite Hd. cbn [buf_addr].
    replace (a + 5 - 1) with (4 + a) by lia. rewrite <- Z.add_mod_idemp_r, Ha by lia. done. }
  rewrite Eal. cbn [buf].
  unfold on_wpkt. cbn [wpkt]. rewrite (st_bind_ok _ _ _ _ _ (wp_init mem zalloc ltac:(lia))).
  rewrite wp_alloc; [|split; lia|done|lia|lia]. cbn [wrec templ]. unfold st_bind, st_ret. do 2 f_equal.
  unfold upd_buf, with_buffers. cbn [w_bufs set_numwpipes set_w_bufs set_w_env]. f_equal.
  assert (E : alter (set_offset 3) 0%nat bufs = <[0%nat := mkTLS_BUFFER (Some mem) a 0 (Z.of_nat (length mem)) 3 0]> bufs) by (by destruct bufs; simplify_eq/=).
  by rewrite E.
Qed.
Lemma read_of_take (m pre bs : list Z) d : Z.of_nat (length pre) = d -> take (length (pre ++ bs)) m = pre ++ bs ->
  mem_read m d (Z.of_nat (length bs)) = Some bs.
Proof.
  intros Hd Ht. assert (Hl : (length (pre ++ bs) <= length m)%nat) by (apply (f_equal length) in Ht; rewrite length_take in Ht; lia).
  rewrite length_app in Hl, Ht. unfold mem_read. rewrite !(proj2 (Z.leb_le _ _)) by lia. cbn [andb]. f_equal.
  apply (f_equal (drop (length pre))) in Ht. rewrite drop_app_length, skipn_firstn_comm in Ht.
  by replace (length pre + length bs - length pre)%nat with (length bs) in Ht by lia; rewrite Nat2Z.id, <- Hd, Nat2Z.id.
Qed.

(** The bytes to be handed over are in the first buffer. *)
Definition loaded (l : WL) (bs : list Z) : Prop :=
  exists b mem, w_bufs l !! 0%nat = Some b /\ buf b = Some mem /\ mem_read mem (offset b) (left b) = Some bs.

(** What writing has done to a layer. *)
Record wrote (l l' : WL) : Prop := {
  wt_ok : writer_ok l';
  wt_seq : be_val (w_sequence l') = be_val (w_sequence l) + 1;
  wt_bio : w_bio l' = w_bio l;
  wt_mfl : w_max_frag_len l' = w_max_frag_len l;
  wt_pipes : numwpipes l' = 1
}.

(** The record in memory: the contents, and after the cipher all of it. *)
Lemma contents_in_place mem mem2 h y p n : length y = 2%nat -> length h = 3%nat -> Z.of_nat (length p) = n -> (3 <= length mem)%nat ->
  take (Z.to_nat (8 + n)) mem2 = take 3 mem ++ h ++ y ++ p ->
  mem_read mem2 8 n = Some p /\ take 8 mem2 = (take 3 mem ++ h) ++ y.
Proof.
  intros Hy Hh Hp Hm T2.
  assert (Hhy : length ((take 3 mem ++ h) ++ y) = 8%nat) by (rewrite !length_app, length_take; lia).
  assert (T2' : take (Z.to_nat (8 + n)) mem2 = ((take 3 mem ++ h) ++ y) ++ p) by (rewrite T2; by rewrite <- !(assoc_L (++))).
  split.
  - rewrite <- Hp. apply (read_of_take mem2 ((take 3 mem ++ h) ++ y)); [lia|]. rewrite length_app. replace (_ + _)%nat with (Z.to_nat (8 + n)) by lia. done.
  - apply (f_equal (take 8)) in T2'. rewrite take_take, Nat.min_l in T2' by lia. rewrite T2'. rewrite <- Hhy at 1. apply take_app_length.
Qed.

Lemma record_bytes mem mem2 mem3 mem4 y c n : length y = 2%nat -> (3 <= length mem)%nat -> 0 <= n ->
  take 8 mem2 = (take 3 mem ++ be_bytes 1 SSL3_RT_APPLICATION_DATA ++ be_bytes 2 TLS1_2_VERSION) ++ y ->
  mem_write mem2 8 c = Some mem3 -> Z.of_nat (length c) = n + taglen -> 0 <= taglen ->
  take (Z.to_nat (8 + n + taglen)) mem4 = ow 6 (be_bytes 2 (n + taglen)) (take (Z.to_nat (8 + n + taglen)) mem3) ->
  mem_read mem4 3 (n + taglen + 5) = Some (header SSL3_RT_APPLICATION_DATA TLS1_2_VERSION (n + taglen) ++ c).
Proof.
  intros Hy Hm Hn T8 Hw Hc Htg T4. set (h := be_bytes 1 23 ++ be_bytes 2 TLS1_2_VERSION) in *.
  assert (Hh : length (take 3 mem ++ h) = 6%nat) by (rewrite length_app, length_take; unfold h; rewrite length_app, !length_be_bytes; lia).
  pose proof (write_end mem2 c mem3 8 ltac:(lia) Hw) as T3. rewrite Hc in T3. change (Z.to_nat 8) with 8%nat in T3.
  rewrite T8 in T3. replace (8 + (n + taglen)) with (8 + n + taglen) in T3 by lia. rewrite T3 in T4.
  rewrite <- (assoc_L (++)), ow_app_r, ow_0_exact in T4 by (rewrite ?length_be_bytes; done).
  assert (Hlh : length (header 23 TLS1_2_VERSION (n + taglen)) = 5%nat) by apply length_header.
  replace (n + taglen + 5) with (Z.of_nat (length (header 23 TLS1_2_VERSION (n + taglen) ++ c))) by (rewrite length_app; lia).
  assert (T5 : take (Z.to_nat (8 + n + taglen)) mem4 = take 3 mem ++ header 23 TLS1_2_VERSION (n + taglen) ++ c)
    by (rewrite T4; unfold header, h; by rewrite <- !(assoc_L (++))).
  apply (read_of_take mem4 (take 3 mem)); [rewrite length_take; lia|]. rewrite !length_app, length_take.
  replace (_ + _)%nat with (Z.to_nat (8 + n + taglen)) by lia. done.
Qed.

Lemma writer_ok_fields (l l' : WL) : writer_ok l -> w_isdtls l' = w_isdtls l -> w_version l' = w_version l -> eivlen l' = eivlen l ->
  w_max_frag_len l' = w_max_frag_len l -> e_plain_alerts (w_env l') = e_plain_alerts (w_env l) -> e_iv (w_env l') = e_iv (w_env l) ->
  e_taglen (w_env l') = e_taglen (w_env l) -> prepared (ivlen := ivlen) (taglen := taglen) iv key (sealing l') ->
  (exists b, w_bufs l' !! 0%nat = Some b /\ forall m, buf b = Some m -> Z.of_nat (length m) = len b /\ buf_addr b `mod` 8 = 0) -> writer_ok l'.
Proof. intros [] E1 E2 E3 E4 E5 E6 E7 Hp Hb. split; try done; rewrite ?E1, ?E2, ?E3, ?E4, ?E5, ?E6, ?E7; done. Qed.

Lemma record_written t (l : WL) : writer_ok l -> template_ok (w_max_frag_len l) t -> be_val (w_sequence l) < 2 ^ 64 - 1 ->
  exists k l', tls_write_records_default [t] l = (Ok tt, l') /\ wrote l l' /\ loaded l' (wire (w_sequence l) (inner_of t k))
    /\ Z.of_nat (length (inner_of t k)) <= w_max_frag_len l + 1.
Proof.
  intros Hl Ht Hq. pose proof (wo_sizes _ Hl) as Hsz. pose proof (pr_tag _ _ _ (wo_key _ Hl)) as Htg.
  unfold tls_write_records_default. change (prefix_of [t] l) with false. cbv iota.
  rewrite (st_bind_ok _ _ _ 0 l) by done.
  destruct (buffer_set_up l Hl) as (bufs & mem & a & x1 & E1 & Hx1 & Eb & Hm & Ha).
  rewrite (st_bind_ok _ _ _ tt (with_buffers bufs 1 x1 l)) by exact E1.
  rewrite (st_bind_ok _ _ _ _ _ (packet_started t bufs mem a x1 l (wo_dtls _ Hl) Eb Ha ltac:(lia))).
  set (b1 := mkTLS_BUFFER (Some mem) a 0 (Z.of_nat (length mem)) 3 0). set (l1 := with_buffers (<[0%nat := b1]> bufs) 1 x1 l).
  destruct (same_env_fields _ _ Hx1) as (P1 & P2 & P3 & P4 & P5).
  destruct (record_prepared t l1 mem 3) as (k & mem2 & x2 & y & E2 & Hx2 & L2 & Hn & Hy & T2);
    [exact Ht|exact (wo_eiv _ Hl)|etransitivity; [exact P1|apply Hl]|exact (proj1 Hsz)|split; lia|change (w_max_frag_len l1) with (w_max_frag_len l); lia|].
  change (3 + 5) with 8 in *. set (n := Z.of_nat (length (inner_of t k))) in *. change (w_max_frag_len l1) with (w_max_frag_len l) in Hn.
  destruct (same_env_fields _ _ Hx2) as (Q1 & Q2 & Q3 & Q4 & Q5). change (w_env l1) with x1 in Q1, Q2, Q3, Q4, Q5.
  rewrite (st_bind_ok _ _ _ [packet_of mem2 8 n t] (set_w_env x2 l1)) by (cbn [map_st]; by rewrite (st_bind_ok _ _ _ _ _ E2)).
  set (l2 := set_w_env x2 l1). change (Z.to_nat 3) with 3%nat in T2.
  destruct (contents_in_place mem mem2 (be_bytes 1 23 ++ be_bytes 2 TLS1_2_VERSION) y (inner_of t k) n Hy eq_refl eq_refl ltac:(lia)) as [Hrd T8];
    [by rewrite T2, <- !(assoc_L (++))|].
  assert (Hk2 : keys_ok l2).
  { split; [|apply (wo_tag _ Hl)| |exact Hq].
    - destruct (wo_iv _ Hl) as [I1 I2]. change (w_env l2) with x2. rewrite Q2, Q3, P2, P3. done.
    - destruct (wo_key _ Hl) as [K1 K2 K3 K4]. split; try done. cbn [sealing c_ctx] in *. change (w_env l2) with x2. by rewrite Q4, P4. }
  destruct (enciphered mem2 8 (inner_of t k) t l2 Hk2) as (mem3 & seq' & k' & E3 & Hw & Hs' & Hso & Hkk);
    [lia|fold n; pose proof (wo_tag _ Hl); lia|exact Hrd|fold n; rewrite L2; pose proof (wo_tag _ Hl); lia|].
  fold n in E3. rewrite (st_bind_ok _ _ _ _ _ E3). set (l3 := ciphered seq' k' l2). pose proof (length_mem_write _ _ _ _ Hw) as L3.
  destruct (closed mem3 8 n t l3) as (mem4 & x4 & E4 & Hx4 & L4 & T4);
    [exact (wo_dtls _ Hl)|split; rewrite ?L3, ?L2; lia|lia|lia|pose proof (wo_tag _ Hl); lia|pose proof (wo_tag _ Hl); lia|rewrite L3, L2; pose proof (wo_tag _ Hl); lia|].
  rewrite (st_bind_ok _ _ _ [mkPKT (wp mem4 (8 + n + taglen) []) (mkWREC 23 TLS1_2_VERSION (n + taglen + 5) (Some 8) (Some 8)) t] (set_w_env x4 l3))
    by (cbn [map_st]; by rewrite (st_bind_ok _ _ _ _ _ E4)).
  change (Z.to_nat (8 - 2)) with 6%nat in T4.
  pose proof (record_bytes mem mem2 mem3 mem4 y _ n Hy ltac:(lia) ltac:(lia) T8 Hw ltac:(apply length_protected) Htg T4) as Hrec.
  exists k. eexists. split; [reflexivity|]. set (l4 := store_packets 0 _ _).
  assert (Eb4 : w_bufs l4 !! 0%nat = Some (mkTLS_BUFFER (Some mem4) a 0 (Z.of_nat (length mem)) 3 (n + taglen + 5))).
  { change (w_bufs l4) with (alter (fun b => mkTLS_BUFFER (Some mem4) (buf_addr b) (default_len b) (len b) (offset b) (n + taglen + 5)) 0%nat
                               (<[0%nat := b1]> bufs)).
    destruct bufs as [|b0 bufs]; [done|]. done. }
  assert (Ex4 : w_env l4 = x4) by done. destruct (same_env_fields _ _ Hx4) as (R1 & R2 & R3 & R4 & R5).
  assert (Es4 : w_sequence l4 = seq') by done. assert (El3 : w_env l3 = mkTLS13 (e_plain_alerts x2) (e_iv x2) (e_taglen x2) (Some k') (e_pipeline x2) (e_su x2)) by done.
  rewrite El3 in R1, R2, R3, R4. cbn [e_plain_alerts e_iv e_taglen e_ctx] in R1, R2, R3, R4.
  split; [split; try done|split; [|done]].
  - apply (writer_ok_fields l); try done; rewrite ?Ex4, ?R1, ?R2, ?R3, ?Q1, ?Q2, ?Q3; try done.
    + destruct (wo_key _ Hl) as [K1 K2 K3 K4]. split; try done; cbn [sealing c_sequence c_ctx]. rewrite Ex4, R4. by exists k'.
    + eexists. split; [exact Eb4|]. cbn [buf len buf_addr]. intros m [= <-]. split; [congruence|done].
  - exists (mkTLS_BUFFER (Some mem4) a 0 (Z.of_nat (length mem)) 3 (n + taglen + 5)), mem4. split; [exact Eb4|]. split; [done|]. cbn [offset left].
    rewrite Hrec. done.
Qed.
(** ** Handing the bytes over *)

Context {sent : B -> list Z} {waits : B -> nat} {patience : nat} {Sk : Sink B sent waits patience}.

(** The bytes [bs] are still to be handed over. *)
Record sending (l : WL) (bs : list Z) (b : B) : Prop := {
  se_ok : writer_ok l;
  se_next : nextwbuf l = 0;
  se_pipes : numwpipes l = 1;
  se_loaded : loaded l bs;
  se_bio : w_bio l = Some b;
  se_some : bs <> [] /\ Z.of_nat (length bs) <= SIZE_MAX
}.

(** A buffer with [i] bytes less. *)
Definition advanced (i : Z) (b : TLS_BUFFER) : TLS_BUFFER := set_offset (offset b + i) (set_left (left b - i) b).

Lemma read_rest mem o n i bs : mem_read mem o n = Some bs -> 0 <= i <= n -> mem_read mem (o + i) (n - i) = Some (drop (Z.to_nat i) bs).
Proof.
  unfold mem_read. destruct (_ && _) eqn:E; [|done]. intros [= <-] Hi. zbool. rewrite !(proj2 (Z.leb_le _ _)) by lia. cbn [andb].
  rewrite skipn_firstn_comm, drop_drop. f_equal. f_equal; [lia|f_equal; lia].
Qed.

(** The layer with another first buffer that is as good. *)
Lemma writer_ok_buf (l l' : WL) f b0 : writer_ok l -> w_bufs l !! 0%nat = Some b0 -> w_bufs l' !! 0%nat = Some (f b0) ->
  (buf (f b0) = buf b0 /\ len (f b0) = len b0 /\ buf_addr (f b0) = buf_addr b0) \/ buf (f b0) = None ->
  w_isdtls l' = w_isdtls l -> w_version l' = w_version l -> eivlen l' = eivlen l -> w_max_frag_len l' = w_max_frag_len l ->
  w_env l' = w_env l -> w_sequence l' = w_sequence l -> writer_ok l'.
Proof.
  intros Hl Eb Eb' Hf E1 E2 E3 E4 E5 E6. apply (writer_ok_fields l); try done; rewrite ?E5; try done.
  - destruct (wo_key _ Hl) as [K1 K2 K3 K4]. split; try done; cbn [sealing c_sequence c_ctx] in *; rewrite ?E5, ?E6; done.
  - exists (f b0). split; [done|]. destruct (wo_buf _ Hl) as (b1 & Eb1 & Hb1). rewrite Eb in Eb1. injection Eb1 as <-.
    destruct Hf as [(-> & -> & ->)|Hf]; [done|]. intros m. by rewrite Hf.
Qed.

Lemma buf_upd f (l : WL) b0 : w_bufs l !! 0%nat = Some b0 -> w_bufs (upd_buf 0 f l) !! 0%nat = Some (f b0).
Proof. unfold upd_buf. cbn [w_bufs set_w_bufs]. destruct (w_bufs l); [done|]. by intros [= ->]. Qed.

(** When all is handed over. *)
Lemma all_handed (l : WL) b0 : writer_ok l -> w_bufs l !! 0%nat = Some b0 -> nextwbuf l = 1 -> numwpipes l = 1 ->
  let l' := release_if_asked l in writer_ok l' /\ numwpipes l' <= nextwbuf l' /\ w_bio l' = w_bio l /\ w_sequence l' = w_sequence l
    /\ w_max_frag_len l' = w_max_frag_len l.
Proof.
  intros Hl Eb Hn Hp. unfold release_if_asked. destruct (_ && _); [|rewrite Hn, Hp; done].
  unfold tls_release_write_buffer, tls_release_write_buffer_int. rewrite Hp. change (Z.to_nat 1) with 1%nat. change (Z.to_nat 0) with 0%nat.
  cbn [release_loop Nat.ltb Nat.leb]. set (f := fun b => mkTLS_BUFFER None _ _ _ _ _).
  split; [|cbn [numwpipes nextwbuf set_numwpipes upd_buf set_w_bufs]; rewrite Hn; done].
  apply (writer_ok_buf l _ f b0); try done; [|by right]. exact (buf_upd f l b0 Eb).
Qed.
(** What a call that hands bytes over does. *)
Definition handed_over (l : WL) (bs : list Z) (b : B) (code : Z) (l' : WL) : Prop :=
  w_sequence l' = w_sequence l /\ w_max_frag_len l' = w_max_frag_len l /\ exists b', w_bio l' = Some b' /\
  ((code = OSSL_RECORD_RETURN_SUCCESS /\ writer_ok l' /\ numwpipes l' <= nextwbuf l' /\ sent b' = sent b ++ bs /\ (waits b' <= patience)%nat)
   \/ (code = OSSL_RECORD_RETURN_RETRY /\ exists gone rest, bs = gone ++ rest /\ sent b' = sent b ++ gone /\ sending l' rest b'
       /\ (gone = [] /\ (waits b' < waits b)%nat \/ gone <> [] /\ (waits b' <= patience)%nat))).

(** Some bytes are taken, and the call goes on. *)
Lemma handed_later (l l1 l' : WL) bs b b1 i code : 0 < i < Z.of_nat (length bs) -> sent b1 = sent b ++ take (Z.to_nat i) bs -> (waits b1 <= patience)%nat ->
  w_sequence l1 = w_sequence l -> w_max_frag_len l1 = w_max_frag_len l ->
  handed_over l1 (drop (Z.to_nat i) bs) b1 code l' -> handed_over l bs b code l'.
Proof.
  intros Hi Hs Hw E1 E2 (F1 & F2 & b' & Hb & H). split; [congruence|]. split; [congruence|]. exists b'. split; [done|].
  destruct H as [(-> & H1 & H2 & H3 & H4)|(-> & gone & rest & H1 & H2 & H3 & H4)]; [left|right].
  - split; [done|]. split; [done|]. split; [done|]. split; [by rewrite H3, Hs, <- (assoc_L (++)), take_drop|done].
  - split; [done|]. exists (take (Z.to_nat i) bs ++ gone), rest. split; [by rewrite <- (assoc_L (++)), <- H1, take_drop|].
    split; [by rewrite H2, Hs, (assoc_L (++))|]. split; [done|]. right. split; [|destruct H4 as [[_ H4]|[_ H4]]; lia].
    destruct bs; [simpl in Hi; lia|]. by replace (Z.to_nat i) with (S (Z.to_nat i - 1)) by lia.
Qed.

Lemma retry_spec fuel : forall (l : WL) bs b, sending l bs b -> (length bs <= fuel)%nat ->
  exists code l', retry_loop fuel l = (Ok (Some code), l') /\ handed_over l bs b code l'.
Proof.
  induction fuel as [|fuel IH]; intros l bs b [Hl Hn Hp (b0 & mem & Eb & Em & Hr) Hbio [Hne Hsz]] Hf; [destruct bs; [done|simpl in Hf; lia]|].
  pose proof (mem_read_length _ _ _ _ Hr) as Hlen. assert (0 < length bs)%nat by (destruct bs; [done|simpl; lia]).
  cbn [retry_loop]. rewrite Hn. change (Z.to_nat 0) with 0%nat. rewrite Eb. unfold write_once. rewrite Hbio, Em, Hr.
  destruct (BIO_write b bs) as [[i retry] b'] eqn:Ew. set (l1 := set_w_bio (Some b') l).
  assert (Eb1 : w_bufs l1 !! 0%nat = Some b0) by exact Eb.
  destruct (sink_write b bs i retry b' Hne Ew) as [(Hi & Hs & Hw)|(Hi & -> & Hs & Hw)].
  - rewrite (proj2 (Z.leb_le 0 i)) by lia. rewrite (proj2 (Z.eqb_neq i 0)) by lia. cbn [andb].
    destruct (i =? left b0) eqn:E; zbool.
    + set (f := fun b => set_offset (offset b + i) (set_left 0 b)). change (nextwbuf l1) with (nextwbuf l). rewrite Hn.
      set (l2 := set_nextwbuf (0 + 1) (upd_buf 0 f l1)). change (nextwbuf l2) with 1. change (numwpipes l2) with (numwpipes l). rewrite Hp.
      cbn [Z.ltb Z.compare Pos.compare Pos.compare_cont]. eexists _, _. split; [reflexivity|].
      assert (Eb2 : w_bufs l2 !! 0%nat = Some (f b0)) by exact (buf_upd f l1 b0 Eb1).
      assert (Hl2 : writer_ok l2) by (apply (writer_ok_buf l l2 f b0); try done; by left).
      destruct (all_handed l2 (f b0) Hl2 Eb2 eq_refl Hp) as (A1 & A2 & A3 & A4 & A5).
      split; [by rewrite A4|]. split; [by rewrite A5|]. exists b'. split; [by rewrite A3|]. left. split; [done|]. split; [done|]. split; [done|].
      by rewrite Hs, take_ge by lia.
    + rewrite (proj2 (Z.leb_gt i 0)) by lia.
      set (f := fun b => set_offset (offset b + i) (set_left (wrap64 (left b - i)) b)). set (l2 := upd_buf 0 f l1).
      assert (Eb2 : w_bufs l2 !! 0%nat = Some (f b0)) by exact (buf_upd f l1 b0 Eb1).
      assert (Hl2 : writer_ok l2) by (apply (writer_ok_buf l l2 f b0); try done; by left).
      destruct (IH l2 (drop (Z.to_nat i) bs) b') as (code & l' & E2 & H2).
      * split; try done; [|split].
        -- exists (f b0), mem. split; [exact Eb2|]. split; [exact Em|]. unfold f. cbn [offset left set_offset set_left]. rewrite wrap64_small by lia.
           apply read_rest; [done|lia].
        -- intros Ed. apply (f_equal length) in Ed. rewrite length_drop in Ed. simpl in Ed. lia.
        -- rewrite length_drop. lia.
      * rewrite length_drop. lia.
      * exists code, l'. split; [exact E2|]. apply (handed_later l l2 l' bs b b' i); try done. lia.
  - assert (Ecode : (if 0 <=? i then (if (i =? 0) && true then 0 else 1) else 0) = 0) by (destruct (0 <=? i) eqn:E; zbool; [|done]; by replace i with 0 by lia).
    rewrite Ecode. rewrite (proj2 (Z.eqb_neq i (left b0))), andb_false_r, (proj2 (Z.leb_le i 0)) by lia.
    change (w_isdtls l1) with (w_isdtls l). rewrite (wo_dtls _ Hl). eexists _, _. split; [reflexivity|].
    split; [done|]. split; [done|]. exists b'. split; [done|]. right. split; [done|]. exists [], bs. split; [done|]. split; [by rewrite app_nil_r|].
    split; [|by left]. split; try done; [|by exists b0, mem]. apply (writer_ok_buf l l1 id b0); try done. by left.
Qed.
End Layer.
End TlsSender.
