(* ===== verification/TlsRoundTrip.v ===== *)
(** * TLS 1.3 records from one end to the other

    Records are written with [tls_write_records] and [tls_retry_write_records],
    travel as bytes, and are read with [tls_read_record]: what is read is what was
    written.  The two halves meet in the bytes of the records on the wire. *)

From stdpp Require Import prelude list.
From Stdlib Require Import ZArith Lia ZifyBool.
From S2P Require Import Prelude Buffer WPacket WPacketSpec WPacketRun PQueue RecordTypes RecordRead DtlsRecord DtlsReplay RecLayer TlsCrypt TlsRecord.
From S2P Require Import TlsReader TlsSeries TlsWriter TlsSender.

Local Open Scope Z_scope.
Local Open Scope st_scope.

Module TlsRoundTrip.
Import TlsCrypt TlsRecord TlsReader TlsSeries TlsWriter TlsSender.

(** ** Sending *)

Section Send.
Context {B K M : Type} `{!WBIO B} `{L : Libc} {LO : LibcOk L} `{!EVP K} `{!Surroundings M} `{!SurroundingsOk M} `{!WSurroundings M}.
Context {KEY : Type} {ivlen taglen : Z} `{A : !AEAD K KEY ivlen taglen} (iv : list Z) (key : KEY).
Local Abbreviation X := (TLS13_ENV K M).
Local Abbreviation WL := (WRITE_LAYER B X).
Local Abbreviation writer_ok := (writer_ok (B := B) (M := M) (ivlen := ivlen) (taglen := taglen) iv key).
Local Abbreviation wire := (wire_record (ivlen := ivlen) (taglen := taglen) iv key).

(** What is left of a record is handed over, in at most [calls] calls. *)
Fixpoint flush (calls fuel : nat) : ST WL Z :=
  match calls with
  | O => st_ret OSSL_RECORD_RETURN_RETRY
  | S calls =>
      r <~ tls_retry_write_records fuel ;;
      match r with
      | Some code => if code =? OSSL_RECORD_RETURN_RETRY then flush calls fuel else st_ret code
      | None => fun l => (Fault, l)
      end
  end.

Definition send (calls fuel : nat) (t : OSSL_RECORD_TEMPLATE) : ST WL Z :=
  r <~ tls_write_records fuel [t] ;;
  match r with
  | Some code => if code =? OSSL_RECORD_RETURN_RETRY then flush calls fuel else st_ret code
  | None => fun l => (Fault, l)
  end.

(** One record after the other, up to the first that cannot be sent. *)
Fixpoint send_all (calls fuel : nat) (ts : list OSSL_RECORD_TEMPLATE) : ST WL Z :=
  match ts with
  | [] => st_ret OSSL_RECORD_RETURN_SUCCESS
  | t :: ts => code <~ send calls fuel t ;; if code =? OSSL_RECORD_RETURN_SUCCESS then send_all calls fuel ts else st_ret code
  end.

Hypothesis zalloc : is_Some (CRYPTO_zalloc 40).
Hypothesis plenty : forall (m : M) n, fst (su_malloc m n) <> None.
Hypothesis aligned : forall (m : M) n d a m', su_malloc m n = (Some (d, a), m') -> a `mod` 8 = 0.
Context {sent : B -> list Z} {waits : B -> nat} {patience : nat} {Sk : Sink B sent waits patience}.

(** The number of calls that are needed for the bytes [bs]. *)
Definition calls_for (bs : list Z) (b : B) : nat := length bs * S patience + waits b.

(** A layer between records. *)
Record resting (l : WL) (b : B) : Prop := {
  re_ok : writer_ok l;
  re_idle : numwpipes l <= nextwbuf l;
  re_bio : w_bio l = Some b;
  re_waits : (waits b <= patience)%nat
}.

Lemma flush_ok fuel calls : forall (l : WL) bs b, sending (ivlen := ivlen) (taglen := taglen) iv key l bs b -> (length bs <= fuel)%nat ->
  (calls_for bs b <= calls)%nat -> (waits b <= patience)%nat ->
  exists l' b', flush calls fuel l = (Ok OSSL_RECORD_RETURN_SUCCESS, l') /\ resting l' b' /\ sent b' = sent b ++ bs
    /\ w_sequence l' = w_sequence l /\ w_max_frag_len l' = w_max_frag_len l.
Proof.
  induction calls as [|calls IH]; intros l bs b Hs Hf Hc Hw; pose proof (se_some _ _ _ _ _ Hs) as [Hne _].
  { unfold calls_for in Hc. destruct bs; [done|simpl in Hc; lia]. }
  cbn [flush]. destruct (retry_spec iv key fuel l bs b Hs Hf) as (code & l1 & E & E1 & E2 & b1 & Hb1 & H).
  rewrite (st_bind_ok _ _ _ (Some code) l1).
  2: { unfold tls_retry_write_records. rewrite (se_next _ _ _ _ _ Hs), (se_pipes _ _ _ _ _ Hs). exact E. }
  destruct H as [(-> & Ho & Hi & Hsent & Hwb)|(-> & gone & rest & -> & Hsent & Hs1 & Hm)].
  - change (1 =? 0) with false. cbv iota. exists l1, b1. split; [reflexivity|]. split; [by split|done].
  - change (0 =? 0) with true. cbv iota. rewrite length_app in Hf. destruct (IH l1 rest b1 Hs1) as (l2 & b2 & E3 & Hr & Hs2 & E4 & E5); [lia| | |].
    + unfold calls_for in *. rewrite length_app in Hc. destruct Hm as [[-> Hm]|[Hm Hm']]; [simpl in Hc; lia|].
      assert (0 < length gone)%nat by (destruct gone; [done|simpl; lia]). nia.
    + destruct Hm as [[-> Hm]|[Hm Hm']]; lia.
    + exists l2, b2. split; [exact E3|]. split; [done|]. split; [by rewrite Hs2, Hsent, (assoc_L (++))|]. split; congruence.
Qed.

(** ** A record *)

Lemma length_wire seq p : Z.of_nat (length (wire seq p)) = Z.of_nat (length p) + taglen + 5.
Proof. unfold wire_record. rewrite length_app, length_header, Nat2Z.inj_add, length_protected. lia. Qed.

(** As many calls, and as many rounds, as a record can need. *)
Definition enough (l : WL) (calls fuel : nat) : Prop :=
  (Z.to_nat (w_max_frag_len l + 86) <= fuel)%nat /\ (Z.to_nat (w_max_frag_len l + 86) * S patience + patience <= calls)%nat.

Lemma send_ok calls fuel t (l : WL) b : resting l b -> template_ok (w_max_frag_len l) t -> be_val (w_sequence l) < 2 ^ 64 - 1 -> enough l calls fuel ->
  exists k l' b', send calls fuel t l = (Ok OSSL_RECORD_RETURN_SUCCESS, l') /\ resting l' b'
    /\ sent b' = sent b ++ wire (w_sequence l) (inner_of t k) /\ be_val (w_sequence l') = be_val (w_sequence l) + 1
    /\ w_max_frag_len l' = w_max_frag_len l /\ Z.of_nat (length (inner_of t k)) <= w_max_frag_len l + 1.
Proof.
  intros [Hl Hi Hb Hw] Ht Hq [Hf Hc].
  destruct (record_written iv key zalloc plenty aligned t l Hl Ht Hq) as (k & l1 & E1 & [Hok Hsq Hbio Hmf Hp] & Hld & Hn).
  set (bs := wire (w_sequence l) (inner_of t k)) in *. pose proof (length_wire (w_sequence l) (inner_of t k)) as Hlen. fold bs in Hlen.
  pose proof (wo_sizes _ _ _ Hl) as Hsz. pose proof (wo_tag _ _ _ Hl) as Htg. pose proof (pr_tag _ _ _ (wo_key _ _ _ Hl)) as Htg0.
  assert (Hs : sending (ivlen := ivlen) (taglen := taglen) iv key (set_nextwbuf 0 l1) bs b).
  { split; [by destruct Hok; split|done|done|done|by rewrite <- Hb|].
    split; [intros E; rewrite E in Hlen; simpl in Hlen; lia|unfold SIZE_MAX; lia]. }
  destruct (retry_spec iv key fuel _ bs b Hs ltac:(lia)) as (code & l2 & E2 & F1 & F2 & b2 & Hb2 & H).
  assert (E3 : tls_write_records fuel [t] l = (Ok (Some code), l2)).
  { unfold tls_write_records. rewrite (proj2 (Z.ltb_ge (nextwbuf l) (numwpipes l))) by lia. cbn [andb]. rewrite E1.
    unfold tls_retry_write_records. cbn [nextwbuf numwpipes set_nextwbuf]. rewrite Hp. exact E2. }
  unfold send. rewrite (st_bind_ok _ _ _ _ _ E3). change (w_sequence (set_nextwbuf 0 l1)) with (w_sequence l1) in F1.
  change (w_max_frag_len (set_nextwbuf 0 l1)) with (w_max_frag_len l1) in F2.
  destruct H as [(-> & Ho & Hid & Hsent & Hwb)|(-> & gone & rest & Hbs & Hsent & Hs1 & Hm)].
  - change (1 =? 0) with false. cbv iota. exists k, l2, b2. split; [reflexivity|]. split; [by split|]. split; [done|].
    split; [congruence|]. split; [congruence|done].
  - change (0 =? 0) with true. cbv iota. assert (Hlr : (length rest <= length bs)%nat) by (rewrite Hbs, length_app; lia).
    destruct (flush_ok fuel calls l2 rest b2 Hs1) as (l3 & b3 & E4 & Hr & Hs3 & G1 & G2); [lia| |destruct Hm as [[_ Hm]|[_ Hm]]; lia|].
    { unfold calls_for. assert (waits b2 <= patience)%nat by (destruct Hm as [[_ Hm]|[_ Hm]]; lia). nia. }
    exists k, l3, b3. split; [exact E4|]. split; [done|]. split; [by rewrite Hs3, Hsent, <- (assoc_L (++)), <- Hbs|].
    split; [congruence|]. split; [congruence|done].
Qed.

(** All of them. *)
Definition item_of (t : OSSL_RECORD_TEMPLATE) (k : nat) : item := (t_type t, t_buf t, k).

Lemma send_all_ok calls fuel ts : forall (l : WL) b, resting l b -> Forall (template_ok (w_max_frag_len l)) ts ->
  be_val (w_sequence l) + Z.of_nat (length ts) < 2 ^ 64 -> enough l calls fuel ->
  exists ks l' b', send_all calls fuel ts l = (Ok OSSL_RECORD_RETURN_SUCCESS, l') /\ resting l' b' /\ length ks = length ts
    /\ sent b' = sent b ++ wire_stream (ivlen := ivlen) (taglen := taglen) iv key (be_val (w_sequence l)) (zip_with item_of ts ks)
    /\ be_val (w_sequence l') = be_val (w_sequence l) + Z.of_nat (length ts)
    /\ w_max_frag_len l' = w_max_frag_len l
    /\ Forall (fun r => Z.of_nat (length (inner r)) <= w_max_frag_len l + 1) (zip_with item_of ts ks).
Proof.
  induction ts as [|t ts IH]; intros l b Hr Ht Hq He; cbn [send_all].
  { exists [], l, b. split; [reflexivity|]. split; [done|]. split; [done|]. split; [by rewrite app_nil_r|]. split; [simpl; lia|done]. }
  apply Forall_cons in Ht as [Ht Hts]. cbn [length] in Hq.
  destruct (send_ok calls fuel t l b Hr Ht ltac:(lia) He) as (k & l1 & b1 & E1 & Hr1 & Hs1 & Hq1 & Hm1 & Hn).
  rewrite (st_bind_ok _ _ _ _ _ E1). change (1 =? 1) with true. cbv iota.
  destruct (IH l1 b1 Hr1) as (ks & l2 & b2 & E2 & Hr2 & Hl2 & Hs2 & Hq2 & Hm2 & Hf2);
    [by rewrite Hm1|lia|unfold enough in *; by rewrite Hm1|].
  exists (k :: ks), l2, b2. split; [exact E2|]. split; [done|]. split; [by simpl; rewrite Hl2|]. split.
  - cbn [zip_with wire_stream]. rewrite Hs2, Hs1, <- (assoc_L (++)), Hq1. do 2 f_equal.
    destruct (pr_seq _ _ _ (wo_key _ _ _ (re_ok _ _ Hr))) as [Hsl Hsb]. cbn [sealing c_sequence] in Hsl, Hsb.
    rewrite <- Hsl, be_bytes_val by done. done.
  - split; [cbn [length]; lia|]. split; [congruence|]. cbn [zip_with]. constructor; [done|]. by rewrite <- Hm1.
Qed.
End Send.

(** ** From end to end *)

Section Exchange.
Context {B B' K M M' : Type} `{!WBIO B} `{!BIO B'} `{!BIOOk B'} `{L : Libc} {LO : LibcOk L} `{!EVP K}.
Context `{!Surroundings M} `{!SurroundingsOk M} `{!WSurroundings M} `{!Surroundings M'} `{!SurroundingsOk M'}.
Context {KEY : Type} {ivlen taglen : Z} `{A : !AEAD K KEY ivlen taglen} (iv : list Z) (key : KEY).
Hypothesis zalloc : is_Some (CRYPTO_zalloc 40).
Hypothesis plenty : forall (m : M) n, fst (su_malloc m n) <> None.
Hypothesis aligned : forall (m : M) n d a m', su_malloc m n = (Some (d, a), m') -> a `mod` 8 = 0.
Hypothesis plenty' : forall (m : M') n, fst (su_malloc m n) <> None.
Context {sent : B -> list Z} {waits : B -> nat} {patience : nat} {Sk : Sink B sent waits patience}.
Context {to_come : B' -> list Z} {cost : B' -> nat} {St : Stream B' to_come cost}.

(** A record the upper layers send. *)
Definition sendable (mfl : Z) (t : OSSL_RECORD_TEMPLATE) : Prop :=
  template_ok mfl t
  /\ (t_type t = SSL3_RT_APPLICATION_DATA \/ t_type t = SSL3_RT_ALERT \/ t_type t = SSL3_RT_HANDSHAKE).

Lemma sent_acceptable mfl ts : taglen <= 80 -> mfl <= SSL3_RT_MAX_PLAIN_LENGTH -> Forall (sendable mfl) ts -> forall ks, length ks = length ts ->
  Forall (fun r => Z.of_nat (length (inner r)) <= mfl + 1) (zip_with item_of ts ks) ->
  Forall (acceptable (taglen := taglen) mfl) (zip_with item_of ts ks)
  /\ map content (zip_with item_of ts ks) = map (fun t => (t_type t, t_buf t)) ts.
Proof.
  intros Htg Hm. induction 1 as [|t ts [[H1 H2 H3 H4] Hty] Hts IH]; intros [|k ks] Hl Hi; try done.
  cbn [zip_with map] in *. apply Forall_cons in Hi as [Hi1 Hi2]. destruct (IH ks ltac:(simpl in Hl; lia) Hi2) as [Ha He].
  split; [|by rewrite He]. constructor; [|done]. split; try done. split; lia.
Qed.

End Exchange.
End TlsRoundTrip.
