(* ===== verification/TlsExample.v ===== *)
(** * An example of a TLS 1.3 record layer

    A cipher that only authenticates, a transport that takes and gives a few
    bytes at a time, and layers that use them: witnesses for the theorems on
    the record layer, and runs. *)

From stdpp Require Import prelude list.
From Stdlib Require Import ZArith Lia ZifyBool.
From S2P Require Import Prelude Buffer WPacket PQueue RecordTypes RecordRead DtlsRecord DtlsReplay RecLayer TlsCrypt TlsRecord TlsReader TlsSeries.
From S2P Require Import TlsWriter TlsSender TlsRoundTrip.

Local Open Scope Z_scope.
Local Open Scope st_scope.

Module TlsExample.
Import RecLayer TlsCrypt TlsRecord TlsReader TlsSeries TlsWriter TlsSender TlsRoundTrip.

(** ** A cipher *)

Record toy : Type := mkTOY { ty_key : Z; ty_iv : list Z; ty_enc : bool; ty_tag : list Z; ty_aad : list Z; ty_text : list Z }.

Definition toy_tag (key : Z) (iv aad text : list Z) : list Z := be_bytes 16 (key + be_val iv + be_val aad + 3 * be_val text).

#[export] Instance toy_evp : EVP toy := {
  get0_cipher _ := Some 6;
  get_iv_length _ := 12;
  EVP_CipherInit_iv k iv enc := (1, mkTOY (ty_key k) iv enc [] [] []);
  ctrl_set_tag k t := (1, mkTOY (ty_key k) (ty_iv k) (ty_enc k) t (ty_aad k) (ty_text k));
  ctrl_get_tag k n := (1, take (Z.to_nat n) (toy_tag (ty_key k) (ty_iv k) (ty_aad k) (ty_text k)), k);
  EVP_CipherUpdate_length k _ := (1, k);
  EVP_CipherUpdate_aad k a := (1, mkTOY (ty_key k) (ty_iv k) (ty_enc k) (ty_tag k) a (ty_text k));
  EVP_CipherUpdate k bs := (1, bs, mkTOY (ty_key k) (ty_iv k) (ty_enc k) (ty_tag k) (ty_aad k) bs);
  EVP_CipherFinal_ex k :=
    ((if ty_enc k || bool_decide (ty_tag k = toy_tag (ty_key k) (ty_iv k) (ty_aad k) (ty_text k)) then 1 else 0), [], k)
}.

#[export, refine] Instance toy_aead : AEAD toy Z 12 16 := {
  seal key iv aad p := (p, toy_tag key iv aad p);
  keyed k key := ty_key k = key
}.
Proof.
  all: try done.
  - intros key iv aad p Hp. split; [done|apply be_bytes_is_byte].
  - intros k key mode iv aad p <- [= <-] Hiv. unfold succeeds, gives, announced. simpl.
    eexists _, _, _, _, _, _, _, _. split_and!; try done. by rewrite app_nil_r.
  - intros k key mode iv aad p <- [= <-] Hiv. unfold succeeds, gives, announced. simpl.
    eexists _, _, _, _, _, _, _, _. split_and!; try done; [|by rewrite app_nil_r]. by rewrite bool_decide_eq_true_2.
  - intros k key mode iv aad c t k1 k2 k3 k4 k5 k6 out fin <- [= <-] Hiv Ht [_ <-] [_ <-] -> [_ <-] (_ & <- & <-) (Hf & <- & <-) _.
    simpl in *. destruct (bool_decide_reflect (t = toy_tag (ty_key k) iv aad c)); [|done]. subst t. by rewrite app_nil_r.
Defined.

(** ** Memory and transport *)

#[export] Instance plenty : Surroundings unit := {
  su_malloc m n := (Some (replicate (Z.to_nat n) 0, 0), m);
  su_item_ok m := (true, m);
  su_allow_compression _ := false;
  su_skip_early_data m := (false, m);
  su_msg_callback _ _ _ m := m
}.
#[export] Instance no_padding : WSurroundings unit := { su_padding _ := None }.

(** Bytes on their way; a call moves at most seven, and every other call waits. *)
Record wire : Type := mkWIRE { on_wire : list Z; turn : bool }.
#[export] Instance wire_write : WBIO wire := {
  BIO_write w bs := if turn w then (-1, true, mkWIRE (on_wire w) false)
                    else (Z.min 7 (Z.of_nat (length bs)), false, mkWIRE (on_wire w ++ take 7 bs) true)
}.
#[export] Instance wire_read : BIO wire := {
  BIO_read w n := if turn w then (BioRetry, mkWIRE (on_wire w) false)
                  else match on_wire w with
                       | [] => (BioRetry, w)
                       | _ => let k := Z.to_nat (Z.min 7 n) in
                              (BioData (map (fun z => z `mod` 256) (take k (on_wire w))), mkWIRE (drop k (on_wire w)) true)
                       end
}.

Definition wire_bytes (w : wire) : list Z := map (fun z => z `mod` 256) (on_wire w).
Definition wire_cost (w : wire) : nat := 2 * length (on_wire w) + if turn w then 1 else 0.
Definition wire_waits (w : wire) : nat := if turn w then 1 else 0.

#[export, refine] Instance wire_read_ok : BIOOk wire := { bio_size w := length (on_wire w) }.
Proof.
  - intros [bs t] n ds w' Hn. cbn [BIO_read wire_read turn on_wire]. destruct t; [done|]. destruct bs as [|z bs]; [done|]. intros [= <- <-].
    replace (Z.to_nat (Z.min 7 n)) with (S (Z.to_nat (Z.min 7 n) - 1)) by lia.
    split; [done|]. split; [rewrite length_map, length_take; simpl; lia|]. split; [|simpl; rewrite length_drop; lia].
    apply Forall_map, Forall_true. intros x. unfold is_byte. pose proof (Z.mod_pos_bound x 256 ltac:(lia)). simpl. lia.
  - intros [bs t] n r w'. cbn [BIO_read wire_read turn on_wire]. destruct t; [intros [= _ <-]; done|].
    destruct bs as [|z bs]; intros [= _ <-]; [done|]. cbn [on_wire]. rewrite length_drop. lia.
Defined.

#[export] Instance wire_stream_ok : Stream wire wire_bytes wire_cost.
Proof.
  split.
  - intros [bs t] n r w' Hn. cbn [BIO_read wire_read turn on_wire]. destruct t; [intros [= <- <-]; done|].
    destruct bs as [|z bs]; intros [= <- <-]; [done|]. unfold wire_bytes. cbn [on_wire]. by rewrite <- map_app, take_drop.
  - intros [bs t] n r w' Hn. cbn [BIO_read wire_read turn on_wire]. unfold wire_cost. destruct t; [intros [= <- <-]; simpl; lia|].
    destruct bs as [|z bs]; intros [= <- <-]; [done|]. cbn [on_wire turn]. rewrite length_drop. simpl length. lia.
Qed.

#[export] Instance wire_sink_ok : Sink wire on_wire wire_waits 1.
Proof.
  split. intros [bs0 t] bs i retry w' Hne. cbn [BIO_write wire_write turn on_wire]. destruct t; intros [= <- <- <-]; [right|left].
  - unfold wire_waits. cbn [on_wire turn]. split_and!; (done || lia).
  - assert (0 < length bs)%nat by (destruct bs; [done|simpl; lia]). split; [lia|]. cbn [on_wire]. split; [|done]. f_equal.
    destruct (decide (length bs <= 7)%nat); [rewrite !take_ge by lia; done|]. by replace (Z.to_nat (Z.min 7 (Z.of_nat (length bs)))) with 7%nat by lia.
Qed.

#[export] Instance plenty_ok : SurroundingsOk unit.
Proof. split. intros m n d a m' Hn [= <- <-]. rewrite length_replicate. split; [lia|by apply Forall_replicate]. Qed.

(** ** Layers *)

#[local] Existing Instance zero_libc.
#[local] Existing Instance zero_libc_ok.

Definition toy_iv : list Z := replicate 16 9.
Definition toy_env : TLS13_ENV toy unit := mkTLS13 false toy_iv 16 (Some (mkTOY 5 [] true [] [] [])) false tt.
Definition toy_writer : WRITE_LAYER wire (TLS13_ENV toy unit) :=
  mkWL false TLS1_3_VERSION (Some (mkWIRE [] false)) 0 0 (replicate 33 no_buffer) 0 0 (replicate 8 0) SSL_AD_NO_ALERT false 0
    64 0 false 0 toy_env.
Definition toy_reader (bs : list Z) : OSSL_RECORD_LAYER wire (TLS13_ENV toy unit) :=
  tls_int_new_record_layer TLS1_3_VERSION 0 2 None (Some (mkWIRE bs false)) (mkSETTINGS false 64 0 0 0 0 false) None toy_env.

Lemma toy_prepared seq a mem n : seq = replicate 8 0 ->
  prepared (ivlen := 12) (taglen := 16) toy_iv 5 (mkCIPHERING seq a (Some (mkTOY 5 [] true [] [] [])) mem n).
Proof. intros ->. split; [done|done|split; [done|by apply Forall_replicate]|by eexists]. Qed.

Lemma toy_reader_idle bs : idle (ivlen := 12) (taglen := 16) toy_iv 5 (toy_reader bs).
Proof.
  split; [|done]. split; [|done]. split; try done. by apply toy_prepared.
Qed.

Lemma toy_writer_rests : resting (ivlen := 12) (taglen := 16) (waits := wire_waits) (patience := 1) toy_iv 5 toy_writer (mkWIRE [] false).
Proof.
  split; [|done|done|unfold wire_waits; simpl; lia]. split; try done; [by apply toy_prepared|]. by exists no_buffer.
Qed.

Definition toy_records : list OSSL_RECORD_TEMPLATE :=
  [mkTMPL SSL3_RT_HANDSHAKE TLS1_2_VERSION [20; 0; 0; 1; 7]; mkTMPL SSL3_RT_APPLICATION_DATA TLS1_2_VERSION (replicate 40 65);
   mkTMPL SSL3_RT_ALERT TLS1_2_VERSION [1; 0]].

Lemma toy_records_sendable : Forall (sendable 64) toy_records.
Proof.
  repeat (apply Forall_cons; split); [..|done].
  all: split; [split; [done|done|repeat (constructor; [unfold is_byte; lia|]); constructor|done]|auto].
Qed.

(** ** Runs *)

Definition toy_sent : ret Z * WRITE_LAYER wire (TLS13_ENV toy unit) := send_all 301 150 toy_records toy_writer.
Definition toy_bytes : list Z := match w_bio (snd toy_sent) with Some w => on_wire w | None => [] end.

(** Three records of 27, 62 and 24 bytes are sent, and come back. *)
Lemma toy_exchange : fst toy_sent = Ok OSSL_RECORD_RETURN_SUCCESS /\ length toy_bytes = 113%nat
  /\ fst (read_many 300 3 (toy_reader toy_bytes)) = Ok (map (fun t => (t_type t, t_buf t)) toy_records).
Proof. vm_compute. done. Qed.

(** Nothing is read from a stream in which a byte was changed. *)
Lemma toy_forgery : fst (read_many 300 3 (toy_reader (<[9%nat := 8]> toy_bytes))) = Ok [].
Proof. vm_compute. done. Qed.

(** With plain alerts allowed, the two bytes of an alert are sent in the clear
    with the content type behind them, and application data is protected
    without its content type: [tls13_add_record_padding] leaves out the type
    where it is needed and adds it where it is not. *)
Definition plain_writer : WRITE_LAYER wire (TLS13_ENV toy unit) :=
  set_w_env (mkTLS13 true toy_iv 16 (Some (mkTOY 5 [] true [] [] [])) false tt) toy_writer.
Definition bytes_sent (t : OSSL_RECORD_TEMPLATE) : list Z :=
  match w_bio (snd (send_all 301 150 [t] plain_writer)) with Some w => on_wire w | None => [] end.

Lemma plain_alert_sent : bytes_sent (mkTMPL SSL3_RT_ALERT TLS1_2_VERSION [1; 0]) = [21; 3; 3; 0; 3; 1; 0; 21].
Proof. by vm_compute. Qed.

Lemma data_without_type_sent :
  take 7 (bytes_sent (mkTMPL SSL3_RT_APPLICATION_DATA TLS1_2_VERSION [65; 66])) = [23; 3; 3; 0; 18; 65; 66].
Proof. by vm_compute. Qed.



End TlsExample.
